(* ===== verification/_CoqProject ===== *)
-Q . S2P
Prelude.v
Crc.v
Fifo.v
KFile.v
Escape.v
Formatwr.v
Libc.v
Timer.v
DList.v
TimerList.v
Kern.v
KFileBase.v
KBlock.v
KBlockRam.v
KBlockSure.v
KFileBlock.v
BattFs.v
BattFsPages.v
BattFsInv.v
BattFsFiles.v
BattFsWrite.v
BattFsRead.v
BattFsOpen.v
BattFsMount.v
BattFsCheck.v
BattFsSpec.v
BattFsRuns.v
Heap.v
HeapSpec.v
Rle.v
Tea.v
Hashtable.v
Afsk.v
HwAfsk.v
Ax25.v
Ax25Tx.v
Ax25Rx.v
Ax25Decode.v
Ax25Link.v
Ax25Print.v
ModemTx.v
Modem.v
ModemRx.v
HdlcCodec.v
Link.v
Utils.v
Ser.v
Settings.v
Reader.v
Kiss.v
KissProofs.v
KissCommands.v
KissAir.v
Digi.v
Beacon.v
Console.v
Float32.v
Gps.v
Tracker.v
Main.v
Monitor.v
TrackerMode.v
Typed.v
SoftSer.v
Radio.v
