(* ===== verification/Prelude.v ===== *)
(** * TinyAPRS: a verification of the firmware (root file)

    TinyAPRS is a terminal node controller for amateur packet radio on an
    ATmega328P.  It turns AX.25 frames into 1200 baud tones and back in software,
    speaks the KISS protocol and an AT command language with a host, repeats frames
    as a digipeater, sends beacons, and reports its position as a tracker.  The
    program is C, under [src/TinyAPRS]: the application in [TinyAPRS/], the parts of
    the BeRTOS library it is built on in [bertos/].  Paths below are relative to
    [src/TinyAPRS].

    ** The parts, from the antenna to the host

    - Afsk.v, ModemTx.v, Modem.v, ModemRx.v: the modem ([bertos/net/afsk.c]).  The
      two interrupt routines are functions on a [Modulator] and a [Demodulator];
      Modem.v adds the waiting writer, as the main loop sees it, HwAfsk.v the pins
      and registers ([TinyAPRS/hw/hw_afsk.c]).  HdlcCodec.v is the
      library's other HDLC implementation ([bertos/net/hdlc.c]), Escape.v the octets
      both layers treat specially, Fifo.v the ring buffer between interrupts and
      main loop ([bertos/struct/fifobuf.h]).
    - Ax25.v: the data link layer ([bertos/net/ax25.c]), sender and receiver in one
      context [AX25Ctx] as in the C; Crc.v its checksum ([bertos/algo/crc_ccitt.c]).
      Ax25Tx.v, Ax25Rx.v, Ax25Decode.v and Ax25Link.v are its theorems, Ax25Print.v
      its text form, Link.v the theorem that joins it to the modem.
    - KFile.v, KFileBase.v: the stream interface all of these meet at
      ([bertos/io/kfile.c], [bertos/struct/kfile_fifo.c], [kfile_mem.c]).
    - Ser.v: the serial port ([bertos/drv/ser.c], [bertos/cpu/avr/drv/ser_mega.c]);
      Reader.v: lines and buffers from it ([TinyAPRS/reader.c]); Formatwr.v: formatted
      output ([bertos/mware/formatwr.c]).
    - Kiss.v with KissProofs.v, KissCommands.v, KissAir.v: the host protocol
      ([TinyAPRS/net/kiss.c]).
    - Console.v: the command language ([TinyAPRS/console.c]); Settings.v: what it
      configures, in RAM and EEPROM ([TinyAPRS/settings.c]); Utils.v: callsigns and
      the settings' checksum ([TinyAPRS/utils.c]).
    - Timer.v: clock, delays, timer queues ([bertos/drv/timer.c]); TimerList.v the
      same queues on the linked lists of DList.v ([bertos/struct/list.h]), where
      pointers, aliasing and undefined accesses are in the model; Beacon.v, Digi.v:
      what the station sends by itself and what it repeats ([TinyAPRS/beacon.c],
      [digi.c]).
    - Gps.v, Tracker.v: sentences of the GPS receiver and position reports
      ([TinyAPRS/gps.c], [tracker.c]), on Float32.v.
    - Main.v: modes, message callback and main loop ([TinyAPRS/main.c]), with and
      without the tracker.  Monitor.v, TrackerMode.v and Typed.v are theorems about
      it: in configuration mode, in tracker mode, and in every mode.
    - SoftSer.v: the serial port made of two pins and counted delays
      ([TinyAPRS/hw/hw_softser.c]); Radio.v: the radio module set up over it
      ([TinyAPRS/radio.c]).
    - Heap.v, HeapSpec.v: the library's allocator ([bertos/struct/heap.c]), on bytes,
      and what it promises; Hashtable.v: the hash table ([bertos/struct/hashtable.c]);
      Rle.v, Tea.v: run-length encoding and the TEA cipher
      ([bertos/algo]), each with its inverse; KBlock.v: block devices
      ([bertos/io/kblock.c]), KBlockSure.v those that do not fail, KBlockRam.v one in
      memory, KFileBlock.v files on them; Kern.v: the multitasking kernel
      ([bertos/kern]).  The firmware links none of these, nor the next.
    - BattFs.v: the file system ([bertos/fs/battfs.c]), on any block device.
      BattFsPages.v has the pages and the page array, BattFsInv.v the invariant,
      BattFsFiles.v, BattFsWrite.v, BattFsRead.v, BattFsOpen.v, BattFsMount.v and
      BattFsCheck.v what each operation does to it, BattFsSpec.v the specification,
      BattFsRuns.v the theorems.
    - Libc.v: what the program uses of the C library; this file: machine integers,
      arrays, lists, tactics, hints.

    ** How the model reads

    A C function is a Rocq function of the same name, a struct a record with the
    fields of the same names (prefixed where two clash), a global variable a field
    of the state of the component that owns it.  Integers are [Z]; every conversion
    and every operation that can wrap is written out with [u8], [u16], [u32], [i8],
    [i16], [i32].  Strings and arrays are lists of integers; a pointer into a buffer
    that is edited in place, or that outlives the call, is an offset, so aliasing
    (the console's and the GPS's buffer, which is the reader's) is in the model.
    Logging, assertions and debugging output that the build leaves out are left out.

    Components meet at interfaces.  [KFile] is the function table of every stream,
    with [KSource] and [KSink] the laws a reader and a writer may rely on; [SerPort]
    and [SerLaws] the serial port's; [Carrier] what KISS and beacon ask of the modem
    besides; [KBlockDev] what a block device promises, failures included, and
    [KBlockSure] one that does not fail.  Clients are proved against the laws; the
    ring buffer, memory, modem and serial port are proved to obey them.  The hook of [ax25_poll] is a function
    on the context and on the rest of the program's state; Main.v instantiates it
    with the message callback, and a theorem proved for any hook becomes one about
    the program.

    Interrupts are steps the code lets happen where it waits ([cpu_relax]) and, in
    Main.v, between turns of the main loop.  Time is a parameter: successive
    readings of the clock.  What the hardware does (the line of the serial port, the
    carrier, the random numbers, uninitialised memory) is a parameter too, and the
    theorems hold for every value of it, or name what they need.

    ** What the theorems show

    - End to end: [Link.radio_link], a frame written at one station arrives at the
      other bit by bit; [Ax25Link.ax25_msg_link], messages arrive as they were meant;
      [KissAir.kiss_host_to_air] and [kiss_air_to_host], the TNC between host and
      air; [Monitor.main_monitors], the terminal shows what another station sent;
      [TrackerMode.main_tracks], a GPS sentence becomes a position report;
      [SoftSer.softser_text], text arrives over pins, at the rates and tolerances
      the delay table allows.
    - Refinement and equivalence: the receiver against an abstract one, senders
      against the wire format of the standard, the ring buffer against a bounded
      queue, linked lists against sequences and the timer queue in memory against
      the sequence of its timers, the allocator against a specification without a
      free list, the hash table against a bounded finite map, block devices with
      their write-back buffer, and files on them, against arrays of bytes, the file
      system against a finite map from numbers to contents
      ([BattFsRuns.battfs_refines]), the table-driven checksum against the
      bit-serial one.
    - Flash memory: [BattFsRuns.battfs_mount_newest], mounting finds the newest copy
      of every page; [BattFsRuns.battfs_durable], what was unmounted is found again;
      [BattFsCheck.battfs_fsck_ok], what the checker says of a good disk.
    - Invariants and safety: [Main.main_modes_safe], [Typed.program_typed] and
      [TrackerMode.tracker_mode_kept] over any sequence of turns and interrupts: no
      null message, no value outside its type, no way out of tracker mode; no filter
      of the demodulator overflows; damaged frames, corrupted settings and duplicates
      are dropped; serial output keeps its order.
    - Commands: what lines and KISS frames do to the settings, and that nothing else
      happens; errors are answered.
    - The kernel, a step relation whose rules include interrupts: [Kern.kernel_safe],
      no process and no wake-up is lost and no assertion fails; [Kern.sem_fair].
    - Termination: hops run out, delays end, the waiting loops of the modem end.
    - What the code gets wrong is proved as well, as it behaves: modes that are never
      left, silence after a clock wraps or after midnight, counters that are too
      narrow, a bit HDLC requires and the modem omits, a file that grows into the
      next one.

    ** Bounds and fuel

    Loops over arrays are structural.  A loop that waits for an interrupt takes fuel
    and gives [None] when it is not enough; the theorems about the modem, the serial
    port and channel access include that the given fuel suffices (for the modem:
    more than the samples left to send).  The polls take fuel for the bytes that
    wait, and theorems ask for one more than there are.  The loops of the
    file system that read and write take the number of bytes, of which every turn
    moves one at least; its search halves what is left of at most 32767 pages, for
    which 16 turns are enough.  Where the C loops for ever
    (a persistence of zero, a checksum over 256 bytes), every fuel gives [None].

    ** Not modelled

    Register set-up ([TinyAPRS/hw], except what is named above), the LCD, the heap
    and stack probes and the watchdog reset, which depend on linker and hardware; the
    FIR branch of the demodulator, which does not compile (see [afsk_filter] in Afsk.v);
    the parts of BeRTOS the firmware does not link, except those named above
    (FAT, networks, graphics, other processors; of the kernel priorities,
    stacks, timeouts of signals, message ports and the monitor), the boot loader and the
    configuration tool, which is a host program in another language. *)

From Stdlib Require Import ZArith Lia Bool List Btauto.
From stdpp Require Import prelude.

Open Scope Z_scope.

(** ** Machine integers

    Every machine integer is a [Z]; [u8], [u16], [u32] and [i8], [i16], [i32]
    are the conversions the C compiler inserts.  On the ATmega328P [int] and
    [size_t] have 16 bits and the firmware is compiled with [-fwrapv]. *)

Definition u8 (z : Z) : Z := z mod 256.
Definition u16 (z : Z) : Z := z mod 65536.
Definition u32 (z : Z) : Z := z mod 4294967296.
Definition i8 (z : Z) : Z := (z + 128) mod 256 - 128.
Definition i16 (z : Z) : Z := (z + 32768) mod 65536 - 32768.
Definition i32 (z : Z) : Z := (z + 2147483648) mod 4294967296 - 2147483648.

Definition EOF : Z := -1.

(** A truth value as the C [int] it is. *)
Definition b2z (b : bool) : Z := if b then 1 else 0.

(** [BV(x)] of cfg/macros.h. *)
Definition BV (x : Z) : Z := Z.shiftl 1 x.

(** [DIV_ROUND] of cfg/macros.h. *)
Definition DIV_ROUND (dividend divisor : Z) : Z := (dividend + divisor / 2) / divisor.

Definition is_byte (z : Z) : Prop := 0 <= z < 256.
Definition is_u16 (z : Z) : Prop := 0 <= z < 65536.
Definition is_u32 (z : Z) : Prop := 0 <= z < 4294967296.
Definition bytes (l : list Z) : Prop := Forall is_byte l.

Definition is_byteb (z : Z) : bool := (0 <=? z) && (z <? 256).

(** ** Arrays

    [get a i] reads [a[i]]; [upd a i v] is [a[i] = v].  Both are total; the
    components prove the index in range where the code relies on it. *)

Definition get (a : list Z) (i : Z) : Z := nth (Z.to_nat i) a 0.
Definition upd (a : list Z) (i v : Z) : list Z := <[Z.to_nat i := v]> a.

(** [memcpy] into an array, and out of it. *)
Definition copy_at (buf : list Z) (p : Z) (l : list Z) : list Z :=
  take (Z.to_nat p) buf ++ l ++ drop (Z.to_nat p + length l) buf.
Definition bytes_at (buf : list Z) (p n : Z) : list Z := take (Z.to_nat n) (drop (Z.to_nat p) buf).

(** [memset(p, 0, n)]. *)
Definition zeros (n : nat) : list Z := replicate n 0.

(** [n] iterations of [f]. *)
Fixpoint iter {A : Type} (n : nat) (f : A -> A) (a : A) : A :=
  match n with
  | O => a
  | S n' => iter n' f (f a)
  end.

(** The eight bits of a byte, least significant bit first: the order in which
    HDLC puts a byte on the air. *)
Definition bits_of_byte (b : Z) : list bool :=
  [Z.testbit b 0; Z.testbit b 1; Z.testbit b 2; Z.testbit b 3;
   Z.testbit b 4; Z.testbit b 5; Z.testbit b 6; Z.testbit b 7].

(** ** Tactics *)

(** Equality of integers bit by bit. *)
Ltac bitwise :=
  apply Z.bits_inj'; intros ?i ?Hi;
  repeat (rewrite ?Z.lxor_spec, ?Z.land_spec, ?Z.lor_spec, ?Z.bits_0);
  repeat (rewrite Z.shiftr_spec by lia).

(** [lia] with division and remainder by constants. *)
Ltac zlia := Z.div_mod_to_equations; lia.

(** Split the conditions of [if]s and comparisons on [Z]. *)
Ltac zcases :=
  repeat match goal with
  | |- context [if ?b then _ else _] =>
      lazymatch b with
      | context [if _ then _ else _] => fail
      | _ => let E := fresh "E" in destruct b eqn:E
      end
  end.

(** Turn boolean comparisons in the context into propositions. *)
Ltac zbool :=
  repeat match goal with
  | H : (_ && _) = true |- _ => apply andb_prop in H; destruct H
  | H : (_ || _) = false |- _ => apply orb_false_elim in H; destruct H
  | H : (_ =? _) = true |- _ => apply Z.eqb_eq in H
  | H : (_ =? _) = false |- _ => apply Z.eqb_neq in H
  | H : (_ <? _) = true |- _ => apply Z.ltb_lt in H
  | H : (_ <? _) = false |- _ => apply Z.ltb_ge in H
  | H : (_ <=? _) = true |- _ => apply Z.leb_le in H
  | H : (_ <=? _) = false |- _ => apply Z.leb_gt in H
  | H : negb _ = true |- _ => apply negb_true_iff in H
  | H : negb _ = false |- _ => apply negb_false_iff in H
  end.

(** ** Hint database of the development *)

Create HintDb aprs discriminated.
Create Rewrite HintDb aprs_rw.

(** ** Integer lemmas *)

Lemma u8_range z : 0 <= u8 z < 256.
Proof. unfold u8. apply Z.mod_pos_bound. lia. Qed.

Lemma u16_range z : 0 <= u16 z < 65536.
Proof. unfold u16. apply Z.mod_pos_bound. lia. Qed.

Lemma u32_range z : 0 <= u32 z < 4294967296.
Proof. unfold u32. apply Z.mod_pos_bound. lia. Qed.

Lemma u8_small z : 0 <= z < 256 -> u8 z = z.
Proof. apply Z.mod_small. Qed.

Lemma u16_small z : 0 <= z < 65536 -> u16 z = z.
Proof. apply Z.mod_small. Qed.

Lemma u32_small z : 0 <= z < 4294967296 -> u32 z = z.
Proof. apply Z.mod_small. Qed.

Lemma i8_small z : -128 <= z < 128 -> i8 z = z.
Proof. intros. unfold i8. rewrite Z.mod_small; lia. Qed.

Lemma i8_range z : -128 <= i8 z < 128.
Proof. unfold i8. pose proof (Z.mod_pos_bound (z + 128) 256). lia. Qed.

Lemma i16_small z : -32768 <= z < 32768 -> i16 z = z.
Proof. intros. unfold i16. rewrite Z.mod_small; lia. Qed.

Lemma i16_range z : -32768 <= i16 z < 32768.
Proof. unfold i16. pose proof (Z.mod_pos_bound (z + 32768) 65536). lia. Qed.

Lemma i32_small z : -2147483648 <= z < 2147483648 -> i32 z = z.
Proof. intros. unfold i32. rewrite Z.mod_small; lia. Qed.

Lemma is_byteb_spec z : is_byteb z = true <-> is_byte z.
Proof.
  unfold is_byteb, is_byte. rewrite andb_true_iff, Z.leb_le, Z.ltb_lt. lia.
Qed.

#[export] Instance is_byte_dec z : Decision (is_byte z).
Proof. unfold is_byte. apply _. Defined.

#[export] Instance is_u16_dec z : Decision (is_u16 z).
Proof. unfold is_u16. apply _. Defined.

#[export] Instance bytes_dec l : Decision (bytes l).
Proof. unfold bytes. apply _. Defined.

(** A closed decidable fact, by evaluation. *)
Ltac decide_closed := apply (bool_decide_unpack _); vm_compute; exact I.

Lemma u8_is_byte z : is_byte (u8 z).
Proof. apply u8_range. Qed.

#[export] Hint Resolve u8_is_byte u8_range u16_range i8_range i16_range : aprs.

(** A bound on a power of two is a bound on the bits. *)
Lemma testbit_high n p i :
  0 <= n < 2 ^ p -> 0 <= p <= i -> Z.testbit n i = false.
Proof.
  intros Hn Hp. rewrite <- (Z.mod_small n (2 ^ p)) by lia.
  apply Z.mod_pow2_bits_high. lia.
Qed.

Lemma bits_bound n p :
  0 <= p -> (forall i, p <= i -> Z.testbit n i = false) -> 0 <= n < 2 ^ p.
Proof.
  intros Hp Hb.
  assert (n = n mod 2 ^ p) as ->.
  { apply Z.bits_inj'. intros i Hi. destruct (Z.lt_ge_cases i p).
    - rewrite Z.mod_pow2_bits_low by lia. done.
    - rewrite Hb by lia. rewrite Z.mod_pow2_bits_high by lia. done. }
  apply Z.mod_pos_bound. apply Z.pow_pos_nonneg; lia.
Qed.

Lemma lxor_bound a b p :
  0 <= p -> 0 <= a < 2 ^ p -> 0 <= b < 2 ^ p -> 0 <= Z.lxor a b < 2 ^ p.
Proof.
  intros Hp Ha Hb. apply bits_bound; [done|]. intros i Hi.
  rewrite Z.lxor_spec, (testbit_high a p), (testbit_high b p) by lia. done.
Qed.

Lemma lor_bound a b p :
  0 <= p -> 0 <= a < 2 ^ p -> 0 <= b < 2 ^ p -> 0 <= Z.lor a b < 2 ^ p.
Proof.
  intros Hp Ha Hb. apply bits_bound; [done|]. intros i Hi.
  rewrite Z.lor_spec, (testbit_high a p), (testbit_high b p) by lia. done.
Qed.

Lemma land_bound a m p :
  0 <= p -> 0 <= m < 2 ^ p -> 0 <= Z.land a m < 2 ^ p.
Proof.
  intros Hp Hm. apply bits_bound; [done|]. intros i Hi.
  rewrite Z.land_spec, (testbit_high m p) by lia. apply andb_false_r.
Qed.

Lemma shiftr_bound a p q :
  0 <= q <= p -> 0 <= a < 2 ^ p -> 0 <= Z.shiftr a q < 2 ^ (p - q).
Proof.
  intros Hq Ha. apply bits_bound; [lia|]. intros i Hi.
  rewrite Z.shiftr_spec by lia. apply (testbit_high a p); lia.
Qed.

Lemma land_255 z : Z.land z 255 = u8 z.
Proof. change 255 with (Z.ones 8). rewrite Z.land_ones by lia. done. Qed.

(** A 16-bit number and its two bytes. *)
Lemma le16_join z : is_u16 z -> Z.lor (u8 z) (Z.shiftl (u8 (Z.shiftr z 8)) 8) = z.
Proof.
  intros Hz. unfold is_u16 in Hz. apply Z.bits_inj'. intros i Hi.
  rewrite Z.lor_spec. unfold u8. change 256 with (2 ^ 8).
  destruct (Z.lt_ge_cases i 8).
  - rewrite Z.mod_pow2_bits_low, Z.shiftl_spec_low by lia. by rewrite orb_false_r.
  - rewrite Z.mod_pow2_bits_high, Z.shiftl_spec by lia. cbn [orb].
    destruct (Z.lt_ge_cases i 16).
    + rewrite Z.mod_pow2_bits_low, Z.shiftr_spec by lia. f_equal. lia.
    + rewrite Z.mod_pow2_bits_high by lia. symmetry. apply (testbit_high z 16); lia.
Qed.

Lemma lxor_byte a b : is_byte a -> is_byte b -> is_byte (Z.lxor a b).
Proof. apply (lxor_bound a b 8). lia. Qed.

Lemma lxor_cancel_r a b : Z.lxor (Z.lxor a b) b = a.
Proof. by rewrite Z.lxor_assoc, Z.lxor_nilpotent, Z.lxor_0_r. Qed.

(** A decidable property of bytes is settled by running it on all 256. *)
Lemma forall_byte (P : Z -> bool) :
  forallb P (seqZ 0 256) = true -> forall b, is_byte b -> P b = true.
Proof.
  intros H b Hb. rewrite forallb_forall in H. apply H.
  apply list_elem_of_In, elem_of_seqZ. unfold is_byte in Hb. lia.
Qed.

(** [byte_check P Hb]: the goal is [P b] as an equation on [Z]. *)
Ltac byte_check P Hb :=
  apply Z.eqb_eq; apply (forall_byte P); [vm_compute; reflexivity | exact Hb].

(** The same for every list of [n] bits. *)
Fixpoint all_bits (n : nat) : list (list bool) :=
  match n with
  | O => [[]]
  | S n' => flat_map (fun l => [false :: l; true :: l]) (all_bits n')
  end.

(** ** Array lemmas *)

Lemma get_upd_eq a i v : 0 <= i < Z.of_nat (length a) -> get (upd a i v) i = v.
Proof.
  intros Hi. unfold get, upd. apply nth_lookup_Some.
  apply list_lookup_insert_eq. lia.
Qed.

Lemma get_upd_ne a i j v : 0 <= i -> 0 <= j -> i <> j -> get (upd a i v) j = get a j.
Proof.
  intros. unfold get, upd. rewrite !nth_lookup.
  rewrite list_lookup_insert_ne by lia. done.
Qed.

Lemma length_upd a i v : length (upd a i v) = length a.
Proof. apply length_insert. Qed.

Lemma get_bytes a i : bytes a -> is_byte (get a i).
Proof.
  intros Ha. unfold get. rewrite nth_lookup.
  destruct (a !! Z.to_nat i) as [x|] eqn:E; simpl.
  - by eapply Forall_lookup_1 in E.
  - unfold is_byte. lia.
Qed.

Lemma upd_bytes a i v : bytes a -> is_byte v -> bytes (upd a i v).
Proof. intros Ha Hv. unfold upd, bytes. by apply Forall_insert. Qed.

Lemma zeros_bytes n : bytes (zeros n).
Proof. apply Forall_replicate. unfold is_byte. lia. Qed.

(** Writing at index [length l1] replaces the head of the rest. *)
Lemma upd_app l1 x l2 v :
  upd (l1 ++ x :: l2) (Z.of_nat (length l1)) v = l1 ++ v :: l2.
Proof.
  unfold upd. rewrite Nat2Z.id. rewrite insert_app_r_alt by lia.
  by rewrite Nat.sub_diag.
Qed.

Lemma get_at l1 x l2 : get (l1 ++ x :: l2) (Z.of_nat (length l1)) = x.
Proof. unfold get. by rewrite Nat2Z.id, nth_middle. Qed.

Lemma drop_here {A} (pre : list A) x l : drop (S (length pre)) (pre ++ x :: l) = l.
Proof. by induction pre. Qed.

Lemma get_app_r l1 l2 i :
  0 <= i -> get (l1 ++ l2) (Z.of_nat (length l1) + i) = get l2 i.
Proof.
  intros Hi. unfold get. rewrite app_nth2 by lia. f_equal. lia.
Qed.

Lemma get_app_l l1 l2 i :
  0 <= i < Z.of_nat (length l1) -> get (l1 ++ l2) i = get l1 i.
Proof. intros Hi. unfold get. apply app_nth1. lia. Qed.

(** *** Copies *)

Lemma copy_at_lookup buf p l i :
  0 <= p -> p + Z.of_nat (length l) <= Z.of_nat (length buf) ->
  copy_at buf p l !! i
  = if decide (p <= Z.of_nat i < p + Z.of_nat (length l)) then l !! (i - Z.to_nat p)%nat else buf !! i.
Proof.
  intros Hp Hl. unfold copy_at.
  assert (Ht : length (take (Z.to_nat p) buf) = Z.to_nat p) by (rewrite length_take; lia).
  destruct (decide _) as [Hi|Hi].
  - rewrite lookup_app_r, Ht by lia. by rewrite lookup_app_l by lia.
  - destruct (decide (Z.of_nat i < p)).
    + rewrite lookup_app_l by lia. by rewrite lookup_take_lt by lia.
    + rewrite lookup_app_r, Ht, lookup_app_r by lia. rewrite lookup_drop. f_equal. lia.
Qed.

Lemma length_copy_at buf p l :
  0 <= p -> p + Z.of_nat (length l) <= Z.of_nat (length buf) -> length (copy_at buf p l) = length buf.
Proof. intros Hp Hl. unfold copy_at. rewrite !length_app, length_take, length_drop. lia. Qed.

Lemma get_lookup a i : get a i = default 0 (a !! Z.to_nat i).
Proof. unfold get. by rewrite nth_lookup. Qed.

Lemma bytes_at_lookup b p n i :
  0 <= p -> bytes_at b p n !! i = if decide (Z.of_nat i < n) then b !! (Z.to_nat p + i)%nat else None.
Proof.
  intros Hp. unfold bytes_at. destruct (decide _).
  - by rewrite lookup_take_lt, lookup_drop by lia.
  - by rewrite lookup_take_ge by lia.
Qed.

Lemma length_bytes_at b p n :
  0 <= p -> 0 <= n -> p + n <= Z.of_nat (length b) -> Z.of_nat (length (bytes_at b p n)) = n.
Proof. intros. unfold bytes_at. rewrite length_take, length_drop. lia. Qed.

(** Equations between pieces of arrays, position by position. *)
Ltac splice_side :=
  cbn [length]; rewrite ?length_copy_at by (rewrite ?length_bytes_at; lia);
  rewrite ?length_bytes_at by lia; lia.
Ltac splice :=
  apply list_eq; intros ?i;
  repeat first [rewrite copy_at_lookup by splice_side | rewrite bytes_at_lookup by splice_side];
  rewrite ?length_bytes_at by lia;
  repeat case_decide; try lia; try done; try (f_equal; lia).

Lemma bytes_at_bytes_at b p n q m :
  0 <= p -> 0 <= q -> q + m <= n -> bytes_at (bytes_at b p n) q m = bytes_at b (p + q) m.
Proof. intros. splice. Qed.

Lemma copy_at_nil b p : copy_at b p [] = b.
Proof. unfold copy_at. cbn [length]. rewrite Nat.add_0_r. apply take_drop. Qed.

(** A stretch that is copied onto itself. *)
Lemma copy_at_same b p n :
  0 <= p -> 0 <= n -> p + n <= Z.of_nat (length b) -> copy_at b p (bytes_at b p n) = b.
Proof. intros. splice. Qed.

Lemma bytes_at_copy_same b p l :
  0 <= p -> p + Z.of_nat (length l) <= Z.of_nat (length b) ->
  bytes_at (copy_at b p l) p (Z.of_nat (length l)) = l.
Proof. intros. splice. symmetry. apply lookup_ge_None. lia. Qed.

Lemma bytes_at_copy_out b p l q n :
  0 <= p -> p + Z.of_nat (length l) <= Z.of_nat (length b) -> 0 <= q ->
  q + n <= p \/ p + Z.of_nat (length l) <= q -> bytes_at (copy_at b p l) q n = bytes_at b q n.
Proof. intros. splice. Qed.

(** Copying inside a stretch, seen from the stretch. *)
Lemma bytes_at_copy_in b p l q n :
  0 <= q -> q <= p -> p + Z.of_nat (length l) <= q + n -> q + n <= Z.of_nat (length b) ->
  bytes_at (copy_at b p l) q n = copy_at (bytes_at b q n) (p - q) l.
Proof. intros. splice. Qed.

Lemma copy_at_inside b p l q l2 :
  0 <= p -> p + Z.of_nat (length l) <= Z.of_nat (length b) ->
  0 <= q -> q + Z.of_nat (length l2) <= Z.of_nat (length l) ->
  copy_at b p (copy_at l q l2) = copy_at (copy_at b p l) (p + q) l2.
Proof.
  intros. assert (length (copy_at l q l2) = length l) by (apply length_copy_at; lia).
  splice.
Qed.

Lemma copy_at_over b p l l2 :
  0 <= p -> p + Z.of_nat (length l) <= Z.of_nat (length b) -> length l2 = length l ->
  copy_at (copy_at b p l) p l2 = copy_at b p l2.
Proof. intros. splice. Qed.

Lemma copy_at_comm b p l q l2 :
  0 <= p -> 0 <= q -> p + Z.of_nat (length l) <= q ->
  q + Z.of_nat (length l2) <= Z.of_nat (length b) ->
  copy_at (copy_at b p l) q l2 = copy_at (copy_at b q l2) p l.
Proof. intros. splice. Qed.

(** Two pieces copied one after the other. *)
Lemma copy_at_app b p l l2 :
  0 <= p -> p + Z.of_nat (length l) + Z.of_nat (length l2) <= Z.of_nat (length b) ->
  copy_at b p (l ++ l2) = copy_at (copy_at b p l) (p + Z.of_nat (length l)) l2.
Proof.
  intros. apply list_eq. intros i. rewrite !copy_at_lookup; try (rewrite ?length_copy_at, ?length_app; lia).
  rewrite length_app. destruct (decide (p <= Z.of_nat i < p + Z.of_nat (length l)));
    repeat case_decide; try lia; try done.
  - by rewrite lookup_app_l by lia.
  - rewrite lookup_app_r by lia. f_equal. lia.
Qed.

Lemma bytes_at_app b p n m :
  0 <= p -> 0 <= n -> 0 <= m -> bytes_at b p (n + m) = bytes_at b p n ++ bytes_at b (p + n) m.
Proof.
  intros. unfold bytes_at. rewrite !Z2Nat.inj_add by lia.
  by rewrite <- take_take_drop, drop_drop.
Qed.

Lemma bytes_at_agree b1 b2 p n :
  (forall i, p <= Z.of_nat i < p + n -> b1 !! i = b2 !! i) -> 0 <= p ->
  bytes_at b1 p n = bytes_at b2 p n.
Proof.
  intros H Hp. apply list_eq. intros i. unfold bytes_at.
  destruct (decide (i < Z.to_nat n)%nat).
  - rewrite !lookup_take_lt, !lookup_drop by lia. apply H. lia.
  - rewrite !lookup_take_ge by lia. done.
Qed.

Lemma bytes_at_copy buf p c l :
  0 <= p -> p + 1 + Z.of_nat (length l) <= Z.of_nat (length buf) ->
  bytes_at (copy_at buf p (c :: l)) (p + 1) (Z.of_nat (length l)) = l /\
  get (copy_at buf p (c :: l)) p = c.
Proof.
  intros Hp Hl. split.
  - apply list_eq. intros i. unfold bytes_at.
    destruct (decide (i < length l)%nat).
    + rewrite lookup_take_lt, lookup_drop by lia. rewrite copy_at_lookup by (cbn; lia).
      rewrite decide_True by (cbn; lia).
      replace (Z.to_nat (p + 1) + i - Z.to_nat p)%nat with (S i) by lia. done.
    + rewrite lookup_take_ge by lia. symmetry. apply lookup_ge_None. lia.
  - rewrite get_lookup, copy_at_lookup by (cbn; lia). rewrite decide_True by (cbn; lia).
    by rewrite Nat.sub_diag.
Qed.

#[export] Hint Resolve get_bytes upd_bytes zeros_bytes lxor_byte : aprs.
#[export] Hint Rewrite length_upd : aprs_rw.

(** ** Iteration lemmas *)

Lemma iter_add {A} n m (f : A -> A) a : iter (n + m) f a = iter m f (iter n f a).
Proof. revert a; induction n as [|n IH]; intros a; simpl; [done|]. apply IH. Qed.

Lemma iter_invariant {A} (P : A -> Prop) (f : A -> A) :
  (forall a, P a -> P (f a)) -> forall n a, P a -> P (iter n f a).
Proof. intros Hf n. induction n as [|n IH]; intros a Ha; simpl; auto. Qed.

(** A byte is the sum of its bits. *)
Lemma bits_of_byte_inj a b :
  is_byte a -> is_byte b -> bits_of_byte a = bits_of_byte b -> a = b.
Proof.
  intros Ha Hb E. unfold bits_of_byte in E. injection E; intros.
  apply Z.bits_inj'. intros i Hi.
  destruct (Z.lt_ge_cases i 8).
  - assert (i = 0 \/ i = 1 \/ i = 2 \/ i = 3 \/ i = 4 \/ i = 5 \/ i = 6 \/ i = 7)
      as C by lia.
    by destruct_or! C; subst i.
  - rewrite (testbit_high a 8), (testbit_high b 8) by (unfold is_byte in *; lia).
    done.
Qed.
