(* ===== verification/Crc.v ===== *)
(** * CRC-CCITT: [bertos/algo/crc_ccitt.[ch]]

    The table driven checksum the AX.25 layer runs over every byte it sends and
    receives, a bit-serial reference ([crc_bit], the recurrence that
    [bertos/net/hdlc.c] computes one bit at a time) and the facts the AX.25
    layer relies on: the table is the reference, the residue of an intact frame
    is [0xF0B8], and a frame with one corrupted byte never has that residue. *)

From Stdlib Require Import ZArith Lia Bool List Btauto.
From stdpp Require Import prelude.
From S2P Require Import Prelude.

Open Scope Z_scope.

(** ** The code *)

Definition crc_ccitt_tab : list Z :=
  [
0x0000; 0x1189; 0x2312; 0x329b; 0x4624; 0x57ad; 0x6536; 0x74bf;
   0x8c48; 0x9dc1; 0xaf5a; 0xbed3; 0xca6c; 0xdbe5; 0xe97e; 0xf8f7;
   0x1081; 0x0108; 0x3393; 0x221a; 0x56a5; 0x472c; 0x75b7; 0x643e;
   0x9cc9; 0x8d40; 0xbfdb; 0xae52; 0xdaed; 0xcb64; 0xf9ff; 0xe876;
   0x2102; 0x308b; 0x0210; 0x1399; 0x6726; 0x76af; 0x4434; 0x55bd;
   0xad4a; 0xbcc3; 0x8e58; 0x9fd1; 0xeb6e; 0xfae7; 0xc87c; 0xd9f5;
   0x3183; 0x200a; 0x1291; 0x0318; 0x77a7; 0x662e; 0x54b5; 0x453c;
   0xbdcb; 0xac42; 0x9ed9; 0x8f50; 0xfbef; 0xea66; 0xd8fd; 0xc974;
   0x4204; 0x538d; 0x6116; 0x709f; 0x0420; 0x15a9; 0x2732; 0x36bb;
   0xce4c; 0xdfc5; 0xed5e; 0xfcd7; 0x8868; 0x99e1; 0xab7a; 0xbaf3;
   0x5285; 0x430c; 0x7197; 0x601e; 0x14a1; 0x0528; 0x37b3; 0x263a;
   0xdecd; 0xcf44; 0xfddf; 0xec56; 0x98e9; 0x8960; 0xbbfb; 0xaa72;
   0x6306; 0x728f; 0x4014; 0x519d; 0x2522; 0x34ab; 0x0630; 0x17b9;
   0xef4e; 0xfec7; 0xcc5c; 0xddd5; 0xa96a; 0xb8e3; 0x8a78; 0x9bf1;
   0x7387; 0x620e; 0x5095; 0x411c; 0x35a3; 0x242a; 0x16b1; 0x0738;
   0xffcf; 0xee46; 0xdcdd; 0xcd54; 0xb9eb; 0xa862; 0x9af9; 0x8b70;
   0x8408; 0x9581; 0xa71a; 0xb693; 0xc22c; 0xd3a5; 0xe13e; 0xf0b7;
   0x0840; 0x19c9; 0x2b52; 0x3adb; 0x4e64; 0x5fed; 0x6d76; 0x7cff;
   0x9489; 0x8500; 0xb79b; 0xa612; 0xd2ad; 0xc324; 0xf1bf; 0xe036;
   0x18c1; 0x0948; 0x3bd3; 0x2a5a; 0x5ee5; 0x4f6c; 0x7df7; 0x6c7e;
   0xa50a; 0xb483; 0x8618; 0x9791; 0xe32e; 0xf2a7; 0xc03c; 0xd1b5;
   0x2942; 0x38cb; 0x0a50; 0x1bd9; 0x6f66; 0x7eef; 0x4c74; 0x5dfd;
   0xb58b; 0xa402; 0x9699; 0x8710; 0xf3af; 0xe226; 0xd0bd; 0xc134;
   0x39c3; 0x284a; 0x1ad1; 0x0b58; 0x7fe7; 0x6e6e; 0x5cf5; 0x4d7c;
   0xc60c; 0xd785; 0xe51e; 0xf497; 0x8028; 0x91a1; 0xa33a; 0xb2b3;
   0x4a44; 0x5bcd; 0x6956; 0x78df; 0x0c60; 0x1de9; 0x2f72; 0x3efb;
   0xd68d; 0xc704; 0xf59f; 0xe416; 0x90a9; 0x8120; 0xb3bb; 0xa232;
   0x5ac5; 0x4b4c; 0x79d7; 0x685e; 0x1ce1; 0x0d68; 0x3ff3; 0x2e7a;
   0xe70e; 0xf687; 0xc41c; 0xd595; 0xa12a; 0xb0a3; 0x8238; 0x93b1;
   0x6b46; 0x7acf; 0x4854; 0x59dd; 0x2d62; 0x3ceb; 0x0e70; 0x1ff9;
   0xf78f; 0xe606; 0xd49d; 0xc514; 0xb1ab; 0xa022; 0x92b9; 0x8330;
   0x7bc7; 0x6a4e; 0x58d5; 0x495c; 0x3de3; 0x2c6a; 0x1ef1; 0x0f78].

(** [(oldcrc >> 8) ^ crc_ccitt_tab[(oldcrc ^ c) & 0xff]] *)
Definition updcrc_ccitt (c oldcrc : Z) : Z :=
  Z.lxor (Z.shiftr oldcrc 8) (get crc_ccitt_tab (Z.land (Z.lxor oldcrc c) 0xff)).

Definition CRC_CCITT_INIT_VAL : Z := 0xFFFF.

(** The [while (len--)] loop over the buffer. *)
Fixpoint crc_ccitt (crc : Z) (buf : list Z) : Z :=
  match buf with
  | [] => crc
  | b :: buf' => crc_ccitt (updcrc_ccitt b crc) buf'
  end.

(** ** The bit-serial reference *)

(** Feeding one bit: shift right, and mix in the reversed polynomial [0x8408]
    when the bit differs from the bit shifted out. *)
Definition crc_bit (crc : Z) (b : bool) : Z :=
  Z.lxor (Z.shiftr crc 1) (if xorb (Z.testbit crc 0) b then 0x8408 else 0).

Definition crc_bits (crc : Z) (bs : list bool) : Z := fold_left crc_bit bs crc.

(** The checksum as the sender appends it: complemented, low byte first. *)
Definition fcs (crc : Z) : list Z :=
  [Z.lxor (Z.land crc 0xff) 0xff; Z.lxor (Z.shiftr crc 8) 0xff].

(** ** The table is the reference *)

Lemma crc_bit_lxor a b x y :
  crc_bit (Z.lxor a b) (xorb x y) = Z.lxor (crc_bit a x) (crc_bit b y).
Proof.
  unfold crc_bit. rewrite Z.lxor_spec.
  rewrite (Z.shiftr_lxor a b 1).
  destruct (Z.testbit a 0), (Z.testbit b 0), x, y; simpl xorb; cbv iota;
    bitwise; rewrite ?xorb_false_r; btauto.
Qed.

Lemma crc_bits_app crc l1 l2 :
  crc_bits crc (l1 ++ l2) = crc_bits (crc_bits crc l1) l2.
Proof. apply fold_left_app. Qed.

(** Feeding a bit is xoring it into the register and shifting. *)
Lemma crc_bits_lxor bs cs a b :
  length bs = length cs ->
  crc_bits (Z.lxor a b) (zip_with xorb bs cs) = Z.lxor (crc_bits a bs) (crc_bits b cs).
Proof.
  revert cs a b. induction bs as [|x bs IH]; intros [|y cs] a b Hl; simpl in Hl;
    try done.
  simpl. rewrite crc_bit_lxor. apply IH. lia.
Qed.

Lemma crc_bits_self c : is_byte c -> crc_bits c (bits_of_byte c) = 0.
Proof.
  intros Hc.
  byte_check (fun c => crc_bits c (bits_of_byte c) =? 0) Hc.
Qed.

Lemma crc_bits_table d :
  is_byte d -> crc_bits d (replicate 8 false) = get crc_ccitt_tab d.
Proof.
  intros Hd.
  byte_check (fun d => crc_bits d (replicate 8 false) =? get crc_ccitt_tab d) Hd.
Qed.

Lemma crc_bits_shift h :
  is_byte h -> crc_bits (Z.shiftl h 8) (replicate 8 false) = h.
Proof.
  intros Hh.
  byte_check (fun h => crc_bits (Z.shiftl h 8) (replicate 8 false) =? h) Hh.
Qed.

Lemma u16_split crc :
  is_u16 crc -> crc = Z.lxor (Z.land crc 255) (Z.shiftl (Z.shiftr crc 8) 8).
Proof.
  intros Hc. change 255 with (Z.ones 8). bitwise.
  destruct (Z.lt_ge_cases i 8).
  - rewrite Z.ones_spec_low, Z.shiftl_spec_low by lia. btauto.
  - rewrite Z.ones_spec_high, Z.shiftl_spec_high, Z.shiftr_spec by lia.
    replace (i - 8 + 8) with i by lia. btauto.
Qed.

Lemma u16_high crc : is_u16 crc -> is_byte (Z.shiftr crc 8).
Proof. intros H. apply (shiftr_bound crc 16 8); unfold is_u16 in H; lia. Qed.

Lemma u16_low crc : is_byte (Z.land crc 255).
Proof. rewrite land_255. apply u8_is_byte. Qed.

Lemma crc_ccitt_tab_range d : is_u16 (get crc_ccitt_tab d).
Proof.
  destruct (decide (0 <= d < 256)) as [Hd|Hd].
  - pose proof (forall_byte (fun d => (0 <=? get crc_ccitt_tab d) &&
      (get crc_ccitt_tab d <? 65536)) ltac:(vm_compute; reflexivity) d Hd).
    simpl in H. zbool. unfold is_u16. lia.
  - unfold get. destruct (Z.lt_ge_cases d 0).
    + replace (Z.to_nat d) with 0%nat by lia. unfold is_u16; simpl; lia.
    + rewrite nth_overflow; [unfold is_u16; lia|]. simpl. lia.
Qed.

Lemma updcrc_u16 c crc : is_u16 crc -> is_u16 (updcrc_ccitt c crc).
Proof.
  intros H. unfold updcrc_ccitt. apply (lxor_bound _ _ 16); [lia| |].
  - pose proof (u16_high crc H). unfold is_byte in *. lia.
  - apply crc_ccitt_tab_range.
Qed.

Lemma crc_ccitt_u16 l crc : is_u16 crc -> is_u16 (crc_ccitt crc l).
Proof.
  revert crc. induction l as [|b l IH]; intros crc H; simpl; [done|].
  by apply IH, updcrc_u16.
Qed.

Lemma land_lxor_byte crc c :
  is_byte c -> Z.land (Z.lxor crc c) 255 = Z.lxor (Z.land crc 255) c.
Proof.
  intros Hc. bitwise. destruct (Z.lt_ge_cases i 8) as [Hlt|Hge].
  - change 255 with (Z.ones 8). rewrite Z.ones_spec_low by lia. btauto.
  - change 255 with (Z.ones 8). rewrite Z.ones_spec_high by lia.
    rewrite (testbit_high c 8) by (unfold is_byte in Hc; lia). btauto.
Qed.

(** The table step is eight bit-serial steps, least significant bit first. *)
Lemma updcrc_bits c crc :
  is_byte c -> is_u16 crc -> updcrc_ccitt c crc = crc_bits crc (bits_of_byte c).
Proof.
  intros Hc Hcrc. unfold updcrc_ccitt.
  rewrite land_lxor_byte by done.
  set (d := Z.lxor (Z.land crc 255) c).
  assert (Hd : is_byte d) by (apply lxor_byte; [apply u16_low|done]).
  assert (crc = Z.lxor (Z.lxor d c) (Z.shiftl (Z.shiftr crc 8) 8)) as E.
  { unfold d. rewrite lxor_cancel_r. by apply u16_split. }
  rewrite E at 2.
  assert (Hz : bits_of_byte c = zip_with xorb (zip_with xorb (replicate 8 false)
            (bits_of_byte c)) (replicate 8 false)).
  { unfold bits_of_byte. simpl. by rewrite !xorb_false_r. }
  rewrite Hz, !crc_bits_lxor by done.
  rewrite crc_bits_self, crc_bits_table, crc_bits_shift by (done || by apply u16_high).
  rewrite Z.lxor_0_r. apply Z.lxor_comm.
Qed.

Lemma crc_ccitt_app l1 l2 crc :
  crc_ccitt crc (l1 ++ l2) = crc_ccitt (crc_ccitt crc l1) l2.
Proof. revert crc. induction l1 as [|b l1 IH]; intros crc; simpl; [done|apply IH]. Qed.

(** C38: the table-driven checksum of a whole buffer is the bit-serial CRC over
    the bits of its bytes, least significant bit first. *)
Theorem crc_ccitt_bit_serial (l : list Z) (crc : Z) (Hl : bytes l) (Hc : is_u16 crc) :
  crc_ccitt crc l = crc_bits crc (flat_map bits_of_byte l).
Proof.
  revert crc Hc. induction Hl as [|b l Hb Hl IH]; intros crc Hc; [done|].
  cbn [flat_map crc_ccitt]. rewrite crc_bits_app, <- updcrc_bits by done.
  by apply IH, updcrc_u16.
Qed.

Lemma crc_ccitt_bit_serial_witness :
  crc_ccitt 0xFFFF [49; 50; 51] = crc_bits 0xFFFF (flat_map bits_of_byte [49; 50; 51]).
Proof.
  apply (crc_ccitt_bit_serial [49; 50; 51] 0xFFFF); decide_closed.
Defined.

(** ** The residue *)

Lemma fcs_bytes crc : is_u16 crc -> bytes (fcs crc).
Proof.
  intros H. unfold fcs, bytes. rewrite !Forall_cons.
  assert (is_byte 255) by (unfold is_byte; lia).
  split_and!; [| |done]; apply lxor_byte; auto using u16_low, u16_high.
Qed.

Lemma lxor_255_step h : is_byte h ->
  updcrc_ccitt (Z.lxor h 255) (Z.lxor h 0x0F78) = 0xF0B8.
Proof.
  intros Hh.
  byte_check (fun h => updcrc_ccitt (Z.lxor h 255) (Z.lxor h 0x0F78) =? 0xF0B8) Hh.
Qed.

(** Appending the complemented checksum always leaves [0xF0B8]. *)
Lemma crc_ccitt_fcs crc : is_u16 crc -> crc_ccitt crc (fcs crc) = 0xF0B8.
Proof.
  intros H. cbn [fcs crc_ccitt].
  assert (updcrc_ccitt (Z.lxor (Z.land crc 255) 255) crc
          = Z.lxor (Z.shiftr crc 8) 0x0F78) as ->.
  { unfold updcrc_ccitt. rewrite land_lxor_byte.
    - rewrite <- Z.lxor_assoc, Z.lxor_nilpotent, Z.lxor_0_l. done.
    - apply lxor_byte; [apply u16_low|unfold is_byte; lia]. }
  apply lxor_255_step. by apply u16_high.
Qed.

(** ** Error detection *)

(** One step is injective in the register and in the byte. *)
Lemma crc_bit_inj b x y :
  is_u16 x -> is_u16 y -> crc_bit x b = crc_bit y b -> x = y.
Proof.
  intros Hx Hy E. unfold is_u16 in *.
  assert (Hx15 : Z.testbit (Z.shiftr x 1) 15 = false)
    by (rewrite Z.shiftr_spec by lia; apply (testbit_high x 16); lia).
  assert (Hy15 : Z.testbit (Z.shiftr y 1) 15 = false)
    by (rewrite Z.shiftr_spec by lia; apply (testbit_high y 16); lia).
  assert (E0 : Z.testbit x 0 = Z.testbit y 0).
  { pose proof (f_equal (fun z => Z.testbit z 15) E) as E15. cbv beta in E15.
    unfold crc_bit in E15. rewrite !Z.lxor_spec, Hx15, Hy15 in E15.
    destruct (Z.testbit x 0), (Z.testbit y 0), b; done. }
  unfold crc_bit in E. rewrite E0 in E.
  apply (f_equal (fun z => Z.lxor z (if xorb (Z.testbit y 0) b then 0x8408 else 0))) in E.
  rewrite !lxor_cancel_r in E.
  apply Z.bits_inj'. intros i Hi. destruct (decide (i = 0)) as [->|Hne]; [done|].
  replace i with (i - 1 + 1) by lia.
  rewrite <- !Z.shiftr_spec by lia. by rewrite E.
Qed.

Lemma crc_bit_u16 x b : is_u16 x -> is_u16 (crc_bit x b).
Proof.
  intros Hx. unfold crc_bit. apply (lxor_bound _ _ 16); [lia| |].
  - pose proof (shiftr_bound x 16 1 ltac:(lia) Hx). lia.
  - destruct (xorb _ _); lia.
Qed.

Lemma crc_bits_inj bs x y :
  is_u16 x -> is_u16 y -> crc_bits x bs = crc_bits y bs -> x = y.
Proof.
  revert x y. induction bs as [|b bs IH]; intros x y Hx Hy E; [done|].
  apply (crc_bit_inj b); [done..|]. apply IH; [by apply crc_bit_u16..|]. done.
Qed.

Lemma updcrc_inj_reg c x y :
  is_byte c -> is_u16 x -> is_u16 y -> updcrc_ccitt c x = updcrc_ccitt c y -> x = y.
Proof.
  intros Hc Hx Hy. rewrite !updcrc_bits by done. by apply crc_bits_inj.
Qed.

Lemma crc_ccitt_inj_reg l x y :
  bytes l -> is_u16 x -> is_u16 y -> crc_ccitt x l = crc_ccitt y l -> x = y.
Proof.
  intros Hl. revert x y. induction Hl as [|b l Hb Hl IH]; intros x y Hx Hy E; [done|].
  apply (updcrc_inj_reg b); [done..|]. apply IH; [by apply updcrc_u16..|]. done.
Qed.

(** The table separates any two of its indices. *)
Lemma crc_ccitt_tab_inj a b :
  is_byte a -> is_byte b -> get crc_ccitt_tab a = get crc_ccitt_tab b -> a = b.
Proof.
  intros Ha Hb E. rewrite <- !crc_bits_table in E by done.
  apply crc_bits_inj in E; [done|..]; unfold is_u16, is_byte in *; lia.
Qed.

Lemma updcrc_inj_byte c d x :
  is_byte c -> is_byte d -> updcrc_ccitt c x = updcrc_ccitt d x -> c = d.
Proof.
  intros Hc Hd E. unfold updcrc_ccitt in E.
  apply (f_equal (Z.lxor (Z.shiftr x 8))) in E.
  rewrite <- !Z.lxor_assoc, !Z.lxor_nilpotent, !Z.lxor_0_l in E.
  rewrite !land_lxor_byte in E by done.
  assert (Hlow : is_byte (Z.land x 255)) by apply u16_low.
  apply crc_ccitt_tab_inj in E; [|by apply lxor_byte..].
  apply (f_equal (Z.lxor (Z.land x 255))) in E.
  by rewrite <- !Z.lxor_assoc, !Z.lxor_nilpotent, !Z.lxor_0_l in E.
Qed.

(** Corrupting one byte of a buffer always changes its checksum, whatever the
    register held before. *)
Lemma crc_ccitt_detects_byte_error (l1 l2 : list Z) (b b' crc : Z)
    (H1 : bytes l1) (H2 : bytes l2) (Hb : is_byte b) (Hb' : is_byte b')
    (Hc : is_u16 crc) (Hne : b <> b') :
  crc_ccitt crc (l1 ++ b :: l2) <> crc_ccitt crc (l1 ++ b' :: l2).
Proof.
  rewrite !crc_ccitt_app. simpl. intros E. apply Hne.
  assert (Hr : is_u16 (crc_ccitt crc l1)) by by apply crc_ccitt_u16.
  apply crc_ccitt_inj_reg in E; [|done|by apply updcrc_u16..].
  by apply updcrc_inj_byte in E.
Qed.
