(* ===== verification/Fifo.v ===== *)
(** * Ring buffers: [bertos/struct/fifobuf.h]

    The byte FIFO between interrupt handlers and the main loop: the modem's
    delay line, its receive and transmit queues and the serial port's two
    queues.  A pointer is an offset into the buffer [fb_mem].  [contents] is the
    queue a FIFO stands for; every operation is shown to act on it as the
    corresponding list operation. *)

From Stdlib Require Import ZArith Lia Bool List.
From stdpp Require Import prelude.
From S2P Require Import Prelude.

Open Scope Z_scope.

Record FIFOBuffer := mkFIFO {
  fb_mem : list Z;
  fb_head : Z;
  fb_tail : Z;
  fb_begin : Z;
  fb_end : Z
}.

(** ** The code *)

Definition fifo_isempty (fb : FIFOBuffer) : bool := fb_head fb =? fb_tail fb.

Definition fifo_isfull (fb : FIFOBuffer) : bool :=
  ((fb_head fb =? fb_begin fb) && (fb_tail fb =? fb_end fb))
  || (fb_tail fb =? fb_head fb - 1).

Definition fifo_push (fb : FIFOBuffer) (c : Z) : FIFOBuffer :=
  let mem := upd (fb_mem fb) (fb_tail fb) (u8 c) in
  if fb_tail fb =? fb_end fb
  then mkFIFO mem (fb_head fb) (fb_begin fb) (fb_begin fb) (fb_end fb)
  else mkFIFO mem (fb_head fb) (fb_tail fb + 1) (fb_begin fb) (fb_end fb).

Definition fifo_pop (fb : FIFOBuffer) : Z * FIFOBuffer :=
  if fb_head fb =? fb_end fb
  then (get (fb_mem fb) (fb_end fb),
        mkFIFO (fb_mem fb) (fb_begin fb) (fb_tail fb) (fb_begin fb) (fb_end fb))
  else (get (fb_mem fb) (fb_head fb),
        mkFIFO (fb_mem fb) (fb_head fb + 1) (fb_tail fb) (fb_begin fb) (fb_end fb)).

Definition fifo_flush (fb : FIFOBuffer) : FIFOBuffer :=
  mkFIFO (fb_mem fb) (fb_tail fb) (fb_tail fb) (fb_begin fb) (fb_end fb).

(** The [_locked] variants wrap the plain ones in [ATOMIC]: interrupts are off
    for the whole operation, so each is one step of the model. *)
Definition fifo_isempty_locked (fb : FIFOBuffer) : bool := fifo_isempty fb.
Definition fifo_isfull_locked (fb : FIFOBuffer) : bool := fifo_isfull fb.
Definition fifo_push_locked (fb : FIFOBuffer) (c : Z) : FIFOBuffer := fifo_push fb c.
Definition fifo_pop_locked (fb : FIFOBuffer) : Z * FIFOBuffer := fifo_pop fb.
Definition fifo_flush_locked (fb : FIFOBuffer) : FIFOBuffer := fifo_flush fb.

(** [fifo_init(fb, buf, size)] over the array [buf] of [size] bytes. *)
Definition fifo_init (buf : list Z) (size : Z) : FIFOBuffer :=
  mkFIFO buf 0 0 0 (0 + size - 1).

Definition fifo_len (fb : FIFOBuffer) : Z := fb_end fb - fb_begin fb.

(** ** The queue a FIFO stands for *)

(** Number of slots of the array. *)
Definition slots (fb : FIFOBuffer) : Z := fb_end fb + 1.

(** Number of bytes queued. *)
Definition fill (fb : FIFOBuffer) : Z := (fb_tail fb - fb_head fb) mod slots fb.

(** [len] bytes of a ring of [n] slots, from offset [h] on. *)
Fixpoint ring (mem : list Z) (n h : Z) (len : nat) : list Z :=
  match len with
  | O => []
  | S len' => get mem h :: ring mem n ((h + 1) mod n) len'
  end.

Definition contents (fb : FIFOBuffer) : list Z :=
  ring (fb_mem fb) (slots fb) (fb_head fb) (Z.to_nat (fill fb)).

(** [ASSERT_VALID_FIFO], with the array as long as the pointers say. *)
Definition fifo_wf (fb : FIFOBuffer) : Prop :=
  fb_begin fb = 0 /\ 1 <= fb_end fb /\
  Z.of_nat (length (fb_mem fb)) = slots fb /\
  0 <= fb_head fb <= fb_end fb /\ 0 <= fb_tail fb <= fb_end fb.

(** One slot always stays free. *)
Definition capacity (fb : FIFOBuffer) : Z := fb_end fb.

(** ** Arithmetic of the ring *)

Lemma ring_succ x n :
  0 <= x < n -> (x + 1) mod n = if x =? n - 1 then 0 else x + 1.
Proof.
  intros Hx. zcases; zbool.
  - subst x. replace (n - 1 + 1) with n by lia. apply Z_mod_same_full.
  - apply Z.mod_small. lia.
Qed.

Lemma fill_cases fb :
  fifo_wf fb ->
  fill fb = if fb_head fb <=? fb_tail fb then fb_tail fb - fb_head fb
            else fb_tail fb - fb_head fb + slots fb.
Proof.
  intros (Hb & He & Hm & Hh & Ht). unfold fill, slots in *. zcases; zbool.
  - apply Z.mod_small. lia.
  - symmetry. apply (Z.mod_unique_pos _ _ (-1)); lia.
Qed.

Lemma fill_range fb : fifo_wf fb -> 0 <= fill fb <= capacity fb.
Proof.
  intros Hw. pose proof Hw as (Hb & He & Hm & Hh & Ht).
  unfold fill, capacity, slots.
  pose proof (Z.mod_pos_bound (fb_tail fb - fb_head fb) (fb_end fb + 1)). lia.
Qed.

Lemma length_ring mem n h len : length (ring mem n h len) = len.
Proof. revert h. induction len as [|len IH]; intros h; simpl; auto. Qed.

Lemma length_contents fb : fifo_wf fb -> Z.of_nat (length (contents fb)) = fill fb.
Proof.
  intros Hw. pose proof (fill_range fb Hw). unfold contents.
  rewrite length_ring. lia.
Qed.

Lemma ring_snoc mem n h len :
  0 <= h < n ->
  ring mem n h (S len) = ring mem n h len ++ [get mem ((h + Z.of_nat len) mod n)].
Proof.
  intros Hh. revert h Hh. induction len as [|len IH]; intros h Hh.
  - simpl. rewrite Z.add_0_r, Z.mod_small by lia. done.
  - change (ring mem n h (S (S len)))
      with (get mem h :: ring mem n ((h + 1) mod n) (S len)).
    rewrite IH by (apply Z.mod_pos_bound; lia).
    rewrite Zplus_mod_idemp_l.
    replace (h + 1 + Z.of_nat len) with (h + Z.of_nat (S len)) by lia. done.
Qed.

(** Writing outside the window leaves the window alone. *)
Lemma ring_upd mem n h len t v :
  0 <= h < n -> 0 <= t < n -> (t - h) mod n >= Z.of_nat len ->
  ring (upd mem t v) n h len = ring mem n h len.
Proof.
  revert h. induction len as [|len IH]; intros h Hh Ht Hd; [done|]. simpl.
  assert (t <> h) as Hne by (intros ->; rewrite Z.sub_diag, Z.mod_0_l in Hd by lia; lia).
  rewrite get_upd_ne by lia. f_equal. apply IH; [apply Z.mod_pos_bound; lia|done|].
  rewrite Zminus_mod_idemp_r. replace (t - (h + 1)) with (t - h - 1) by lia.
  rewrite <- Zminus_mod_idemp_l. rewrite Z.mod_small; [lia|].
  pose proof (Z.mod_pos_bound (t - h) n). lia.
Qed.

(** ** Refinement of each operation *)

Lemma fifo_init_wf buf size :
  2 <= size -> Z.of_nat (length buf) = size -> fifo_wf (fifo_init buf size).
Proof. intros Hs Hl. unfold fifo_wf, fifo_init, slots; simpl. lia. Qed.

Lemma fifo_init_contents buf size : contents (fifo_init buf size) = [].
Proof. unfold contents, fill. done. Qed.

Lemma fifo_isempty_fill fb : fifo_wf fb -> fifo_isempty fb = (fill fb =? 0).
Proof.
  intros Hw. rewrite (fill_cases fb Hw). destruct Hw as (Hb & He & Hm & Hh & Ht).
  unfold fifo_isempty, slots in *.
  apply eq_true_iff_eq. rewrite !Z.eqb_eq. zcases; zbool; lia.
Qed.

Lemma fifo_isempty_spec fb :
  fifo_wf fb -> fifo_isempty fb = match contents fb with [] => true | _ => false end.
Proof.
  intros Hw. rewrite fifo_isempty_fill by done. pose proof (length_contents fb Hw).
  destruct (contents fb); simpl in *; [apply Z.eqb_eq|apply Z.eqb_neq]; lia.
Qed.

Lemma fifo_isfull_spec fb :
  fifo_wf fb -> fifo_isfull fb = (Z.of_nat (length (contents fb)) =? capacity fb).
Proof.
  intros Hw. rewrite length_contents, (fill_cases fb Hw) by done.
  destruct Hw as (Hb & He & Hm & Hh & Ht).
  unfold fifo_isfull, capacity, slots in *. apply eq_true_iff_eq.
  rewrite orb_true_iff, andb_true_iff, !Z.eqb_eq. zcases; zbool; lia.
Qed.

Lemma fifo_isfull_room fb :
  fifo_wf fb -> Z.of_nat (length (contents fb)) < capacity fb -> fifo_isfull fb = false.
Proof. intros Hw H. rewrite fifo_isfull_spec by done. apply Z.eqb_neq. lia. Qed.

Lemma fifo_push_wf fb c : fifo_wf fb -> fifo_wf (fifo_push fb c).
Proof.
  intros (Hb & He & Hm & Hh & Ht). unfold fifo_push, fifo_wf, slots in *.
  zcases; zbool; simpl; rewrite length_upd; lia.
Qed.

Lemma fifo_push_tail fb c :
  fifo_wf fb ->
  fb_tail (fifo_push fb c) = (fb_tail fb + 1) mod slots fb /\
  fb_head (fifo_push fb c) = fb_head fb /\
  fb_mem (fifo_push fb c) = upd (fb_mem fb) (fb_tail fb) (u8 c) /\
  slots (fifo_push fb c) = slots fb.
Proof.
  intros (Hb & He & Hm & Hh & Ht). rewrite ring_succ by (unfold slots; lia).
  unfold fifo_push, slots. replace (fb_end fb + 1 - 1) with (fb_end fb) by lia.
  zcases; zbool; simpl; split_and!; done || lia.
Qed.

Lemma fifo_push_fill fb c :
  fifo_wf fb -> fill fb < capacity fb -> fill (fifo_push fb c) = fill fb + 1.
Proof.
  intros Hw Hr. destruct (fifo_push_tail fb c Hw) as (Ht & Hh & _ & Hs).
  pose proof (fill_range fb Hw). unfold fill in *. rewrite Ht, Hh, Hs.
  rewrite Zminus_mod_idemp_l.
  replace (fb_tail fb + 1 - fb_head fb) with (fb_tail fb - fb_head fb + 1) by lia.
  rewrite <- Zplus_mod_idemp_l. apply Z.mod_small.
  unfold capacity, slots in *. lia.
Qed.

Lemma fifo_push_contents fb c :
  fifo_wf fb -> Z.of_nat (length (contents fb)) < capacity fb ->
  contents (fifo_push fb c) = contents fb ++ [u8 c].
Proof.
  intros Hw Hr. rewrite length_contents in Hr by done.
  pose proof (fill_range fb Hw) as Hf.
  unfold contents. rewrite fifo_push_fill by done.
  destruct (fifo_push_tail fb c Hw) as (Ht & Hh & Hm & Hs). rewrite Hh, Hm, Hs.
  destruct Hw as (Hb & He & Hlm & Hhr & Htr).
  replace (Z.to_nat (fill fb + 1)) with (S (Z.to_nat (fill fb))) by lia.
  unfold capacity, slots in *.
  rewrite ring_snoc, ring_upd by (lia || (unfold fill, slots in *; lia)).
  do 2 f_equal. rewrite Z2Nat.id by lia.
  assert ((fb_head fb + fill fb) mod (fb_end fb + 1) = fb_tail fb) as ->.
  { unfold fill, slots. rewrite Zplus_mod_idemp_r.
    replace (fb_head fb + (fb_tail fb - fb_head fb)) with (fb_tail fb) by lia.
    apply Z.mod_small. lia. }
  apply get_upd_eq. lia.
Qed.

Lemma fifo_pop_wf fb : fifo_wf fb -> fifo_wf (snd (fifo_pop fb)).
Proof.
  intros (Hb & He & Hm & Hh & Ht). unfold fifo_pop, fifo_wf, slots in *.
  zcases; zbool; simpl; lia.
Qed.

Lemma fifo_pop_eq fb :
  fifo_wf fb ->
  fifo_pop fb = (get (fb_mem fb) (fb_head fb),
    mkFIFO (fb_mem fb) ((fb_head fb + 1) mod slots fb) (fb_tail fb) (fb_begin fb) (fb_end fb)).
Proof.
  intros (Hb & He & Hm & Hh & Ht). rewrite ring_succ by (unfold slots; lia).
  unfold fifo_pop, slots. replace (fb_end fb + 1 - 1) with (fb_end fb) by lia.
  zcases; zbool; [|done]. by rewrite E, Hb.
Qed.

Lemma fifo_pop_contents fb x rest :
  fifo_wf fb -> contents fb = x :: rest ->
  fst (fifo_pop fb) = x /\ contents (snd (fifo_pop fb)) = rest.
Proof.
  intros Hw Hc. pose proof (length_contents fb Hw) as Hl. rewrite Hc in Hl. simpl in Hl.
  pose proof (fill_range fb Hw) as Hfr.
  rewrite fifo_pop_eq by done.
  assert (fill (snd (fifo_pop fb)) = fill fb - 1) as Hfill.
  { rewrite fifo_pop_eq by done. unfold fill, slots in *. simpl.
    rewrite Zminus_mod_idemp_r.
    replace (fb_tail fb - (fb_head fb + 1)) with (fb_tail fb - fb_head fb - 1) by lia.
    rewrite <- Zminus_mod_idemp_l. apply Z.mod_small. unfold capacity in *. lia. }
  rewrite fifo_pop_eq in Hfill by done. simpl in Hfill.
  unfold contents in *. simpl. rewrite Hfill.
  replace (Z.to_nat (fill fb)) with (S (Z.to_nat (fill fb - 1))) in Hc by lia.
  simpl in Hc. by injection Hc.
Qed.

Lemma fifo_flush_wf fb : fifo_wf fb -> fifo_wf (fifo_flush fb).
Proof. intros (Hb & He & Hm & Hh & Ht). unfold fifo_wf, fifo_flush, slots in *. simpl. lia. Qed.

Lemma fifo_flush_contents fb : contents (fifo_flush fb) = [].
Proof. unfold contents, fill. simpl. by rewrite Z.sub_diag, Zmod_0_l. Qed.

Lemma fifo_push_capacity fb c : capacity (fifo_push fb c) = capacity fb.
Proof. unfold fifo_push, capacity. by zcases. Qed.

Lemma fifo_pop_capacity fb : capacity (snd (fifo_pop fb)) = capacity fb.
Proof. unfold fifo_pop, capacity. by zcases. Qed.

#[export] Hint Resolve fifo_push_wf fifo_pop_wf fifo_flush_wf : aprs.

(** ** The refinement as one statement *)

(** The operations a FIFO offers, and the same on a bounded queue. *)
Inductive fifo_op := OpPush (c : Z) | OpPop | OpFlush.

(** The caller's obligation: push only when there is room, pop only when
    something is queued. *)
Definition op_ready (fb : FIFOBuffer) (op : fifo_op) : bool :=
  match op with
  | OpPush _ => negb (fifo_isfull fb)
  | OpPop => negb (fifo_isempty fb)
  | OpFlush => true
  end.

Definition op_run (fb : FIFOBuffer) (op : fifo_op) : FIFOBuffer * list Z :=
  match op with
  | OpPush c => (fifo_push fb c, [])
  | OpPop => let '(c, fb') := fifo_pop fb in (fb', [c])
  | OpFlush => (fifo_flush fb, [])
  end.

(** The bounded queue of [cap] bytes. *)
Definition queue_ready (cap : Z) (q : list Z) (op : fifo_op) : bool :=
  match op with
  | OpPush _ => Z.of_nat (length q) <? cap
  | OpPop => negb (bool_decide (q = []))
  | OpFlush => true
  end.

Definition queue_run (q : list Z) (op : fifo_op) : list Z * list Z :=
  match op with
  | OpPush c => (q ++ [u8 c], [])
  | OpPop => (tail q, take 1 q)
  | OpFlush => ([], [])
  end.

(** Programs: an operation that is not ready is skipped by its caller. *)
Fixpoint fifo_prog (fb : FIFOBuffer) (ops : list fifo_op) : FIFOBuffer * list Z :=
  match ops with
  | [] => (fb, [])
  | op :: ops' =>
      if op_ready fb op then
        let '(fb1, out1) := op_run fb op in
        let '(fb2, out2) := fifo_prog fb1 ops' in (fb2, out1 ++ out2)
      else fifo_prog fb ops'
  end.

Fixpoint queue_prog (cap : Z) (q : list Z) (ops : list fifo_op) : list Z * list Z :=
  match ops with
  | [] => (q, [])
  | op :: ops' =>
      if queue_ready cap q op then
        let '(q1, out1) := queue_run q op in
        let '(q2, out2) := queue_prog cap q1 ops' in (q2, out1 ++ out2)
      else queue_prog cap q ops'
  end.

Lemma op_ready_spec fb op :
  fifo_wf fb -> op_ready fb op = queue_ready (capacity fb) (contents fb) op.
Proof.
  intros Hw. destruct op; simpl; [| |done].
  - rewrite fifo_isfull_spec by done. rewrite length_contents by done.
    pose proof (fill_range fb Hw).
    apply eq_true_iff_eq. rewrite negb_true_iff, Z.eqb_neq, Z.ltb_lt. lia.
  - rewrite fifo_isempty_spec by done. by destruct (contents fb).
Qed.

Lemma op_run_spec fb op :
  fifo_wf fb -> op_ready fb op = true ->
  fifo_wf (fst (op_run fb op)) /\
  capacity (fst (op_run fb op)) = capacity fb /\
  queue_run (contents fb) op = (contents (fst (op_run fb op)), snd (op_run fb op)).
Proof.
  intros Hw Hr. rewrite op_ready_spec in Hr by done.
  destruct op as [c| |]; simpl in *.
  - split_and!; auto using fifo_push_wf, fifo_push_capacity.
    apply Z.ltb_lt in Hr. by rewrite fifo_push_contents.
  - destruct (contents fb) as [|x q] eqn:Hq; [done|].
    destruct (fifo_pop_contents fb x q Hw Hq) as [Hx Hrest].
    pose proof (fifo_pop_wf fb Hw) as Hw'. pose proof (fifo_pop_capacity fb) as Hc'.
    destruct (fifo_pop fb) as [y fb']. simpl in *. subst. done.
  - split_and!; auto using fifo_flush_wf. by rewrite fifo_flush_contents.
Qed.

(** C15: the ring buffer refines a bounded queue: every program of guarded
    pushes, pops and flushes over a freshly initialised buffer of [size] bytes
    outputs exactly what it outputs over a queue of capacity [size - 1], and
    leaves the same bytes queued, however often the pointers wrap around. *)
Theorem fifo_refines_queue (buf : list Z) (size : Z) (ops : list fifo_op)
    (Hsize : 2 <= size) (Hbuf : Z.of_nat (length buf) = size) :
  let fb := fifo_init buf size in
  let '(fb', out) := fifo_prog fb ops in
  queue_prog (size - 1) [] ops = (contents fb', out) /\ fifo_wf fb'.
Proof.
  cbv zeta. assert (Hgen : forall ops fb, fifo_wf fb ->
    let '(fb', out) := fifo_prog fb ops in
    queue_prog (capacity fb) (contents fb) ops = (contents fb', out) /\ fifo_wf fb').
  { clear. induction ops as [|op ops IH]; intros fb Hw; simpl; [done|].
    rewrite <- op_ready_spec by done. destruct (op_ready fb op) eqn:Hr; [|by apply IH].
    destruct (op_run_spec fb op Hw Hr) as (Hw' & Hc & ->).
    destruct (op_run fb op) as [fb1 out1]. simpl in *.
    specialize (IH fb1 Hw'). rewrite <- Hc.
    destruct (fifo_prog fb1 ops) as [fb2 out2]. destruct IH as [-> Hw2]. done. }
  specialize (Hgen ops (fifo_init buf size) (fifo_init_wf buf size Hsize Hbuf)).
  rewrite fifo_init_contents in Hgen.
  assert (capacity (fifo_init buf size) = size - 1) as Hc by (unfold capacity; simpl; lia).
  by rewrite Hc in Hgen.
Qed.

Lemma fifo_refines_queue_witness :
  let ops := [OpPush 7; OpPush 8; OpPop; OpPush 9; OpPush 10; OpPop; OpPop; OpPush 11] in
  let '(fb', out) := fifo_prog (fifo_init (zeros 3) 3) ops in
  queue_prog (3 - 1) [] ops = (contents fb', out) /\ fifo_wf fb'.
Proof.
  apply (fifo_refines_queue (zeros 3) 3
    [OpPush 7; OpPush 8; OpPop; OpPush 9; OpPush 10; OpPop; OpPop; OpPush 11]);
    [lia | reflexivity].
Defined.
