(* ===== verification/KFile.v ===== *)
(** * The byte-stream interface: [bertos/io/kfile.[ch]], [bertos/struct/kfile_fifo.c],
      [bertos/struct/kfile_mem.c]

    A [KFile] is a table of functions every device fills in; the AX.25 layer,
    the formatter and the console only see this table.  It is a type class
    here, [KFile], and what a client may rely on is stated by two more:
    [KSource] for reading and [KSink] for writing.  The generic helpers of
    kfile.c are proved against these laws; the in-memory devices of
    bertos/struct are two implementations (the modem is a third, in Modem.v). *)

From Stdlib Require Import ZArith Lia Bool List.
From stdpp Require Import prelude.
From S2P Require Import Prelude.
From S2P Require Import Fifo.

Open Scope Z_scope.

(** ** The table of operations *)

(** [read fd size] returns the bytes put in the buffer (their number is the C
    function's result); [write fd buf] returns how many bytes were taken. *)
Class KFile (F : Type) := {
  kfile_read : F -> Z -> list Z * F;
  kfile_write : F -> list Z -> Z * F;
  kfile_flush : F -> Z * F;
  kfile_error : F -> Z;
  kfile_clearerr : F -> F
}.

(** [KSeekMode] of kfile.h. *)
Inductive KSeekMode := KSM_SEEK_SET | KSM_SEEK_CUR | KSM_SEEK_END.

Section Generic.
Context {F : Type} `{KFile F}.

Definition kfile_putc (_c : Z) (fd : F) : Z * F :=
  let c := u8 _c in
  let '(n, fd') := kfile_write fd [c] in
  if n =? 1 then (u8 _c, fd') else (EOF, fd').

Definition kfile_getc (fd : F) : Z * F :=
  let '(buf, fd') := kfile_read fd 1 in
  match buf with
  | [c] => (u8 c, fd')
  | _ => (EOF, fd')
  end.

(** The string ends before its first NUL. *)
Fixpoint kfile_print (fd : F) (s : list Z) : Z * F :=
  match s with
  | [] => (0, fd)
  | c :: s' =>
      if c =? 0 then (0, fd)
      else let '(r, fd') := kfile_putc c fd in
           if r =? EOF then (EOF, fd') else kfile_print fd' s'
  end.

(** [kfile_gets_echo]; [i] counts the bytes stored in [acc]; each turn of
    the endless loop consumes one unit of [fuel] ([None]: still looping). *)
Fixpoint kfile_gets_echo (fuel : nat) (fd : F) (acc : list Z) (size : Z) (echo : bool)
  : option (Z * list Z * F) :=
  match fuel with
  | O => None
  | S fuel' =>
      let i := Z.of_nat (length acc) in
      let '(c, fd1) := kfile_getc fd in
      if c =? EOF then Some (-1, acc, fd1)
      else if (c =? 13) || (c =? 10) || (i >=? size - 1) then
        let fd2 := if echo then snd (kfile_print fd1 [13; 10]) else fd1 in
        Some (i, acc, fd2)
      else
        let fd2 := if echo then snd (kfile_putc c fd1) else fd1 in
        kfile_gets_echo fuel' fd2 (acc ++ [c]) size echo
  end.
End Generic.

Section Copy.
Context {F G : Type} `{KFile F} `{KFile G}.

(** [kfile_copy]: 32 bytes at a time through a stack buffer. *)
Fixpoint kfile_copy_loop (fuel : nat) (src : F) (dst : G) (size cp_len : Z)
  : Z * F * G :=
  match fuel with
  | O => (cp_len, src, dst)
  | S fuel' =>
      if size =? 0 then (cp_len, src, dst)
      else
        let len := Z.min 32 (u16 size) in
        let '(buf, src') := kfile_read src len in
        if negb (Z.of_nat (length buf) =? len) then (cp_len, src', dst)
        else
          let '(wr_len, dst') := kfile_write dst buf in
          let cp_len' := cp_len + wr_len in
          if negb (wr_len =? len) then (cp_len', src', dst')
          else kfile_copy_loop fuel' src' dst' (size - len) cp_len'
  end.

Definition kfile_copy (src : F) (dst : G) (size : Z) : Z * F * G :=
  kfile_copy_loop (S (Z.to_nat size)) src dst size 0.
End Copy.

(** The file position of the base class, and the generic seek over it: out of
    range positions are only logged, not refused. *)
Record KFilePos := mkPos { seek_pos : Z; file_size : Z }.

Definition kfile_genericSeek (fd : KFilePos) (offset : Z) (whence : KSeekMode)
  : Z * KFilePos :=
  let base := match whence with
              | KSM_SEEK_SET => 0
              | KSM_SEEK_END => file_size fd
              | KSM_SEEK_CUR => seek_pos fd
              end in
  let fd' := mkPos (i32 (base + offset)) (file_size fd) in
  (seek_pos fd', fd').

(** ** What clients rely on *)

Class KSource (F : Type) `{KFile F} := {
  ks_ok : F -> Prop;
  (** bytes waiting to be read *)
  ks_in : F -> list Z;
  ks_bytes : forall fd, ks_ok fd -> bytes (ks_in fd);
  ks_read : forall fd n, ks_ok fd -> 0 <= n < 32768 ->
    let '(buf, fd') := kfile_read fd n in
    buf = take (Z.to_nat n) (ks_in fd) /\ ks_in fd' = drop (Z.to_nat n) (ks_in fd) /\
    ks_ok fd';
  ks_clearerr : forall fd, ks_ok fd ->
    ks_ok (kfile_clearerr fd) /\ ks_in (kfile_clearerr fd) = ks_in fd
}.

Class KSink (F : Type) `{KFile F} := {
  kk_ok : F -> Prop;
  (** bytes accepted so far *)
  kk_out : F -> list Z;
  (** the device has room for these bytes, without waiting for anyone else *)
  kk_fits : F -> list Z -> Prop;
  kk_fits_app : forall fd l1 l2, kk_fits fd (l1 ++ l2) -> kk_fits fd l1;
  kk_write : forall fd buf, kk_ok fd -> bytes buf -> kk_fits fd buf ->
    Z.of_nat (length buf) < 32768 ->
    let '(n, fd') := kfile_write fd buf in
    n = Z.of_nat (length buf) /\ kk_out fd' = kk_out fd ++ buf /\ kk_ok fd' /\
    forall l2, kk_fits fd (buf ++ l2) -> kk_fits fd' l2
}.

(** Flushing a sink loses nothing and leaves it writable. *)
Class KFlush (F : Type) `{KSink F} := {
  kk_flush : forall fd, kk_ok fd ->
    kk_out (snd (kfile_flush fd)) = kk_out fd /\ kk_ok (snd (kfile_flush fd)) /\
    forall l, kk_fits fd l -> kk_fits (snd (kfile_flush fd)) l
}.

Section GenericLaws.
Context {F : Type} `{KSource F}.

Lemma kfile_getc_cons fd b rest :
  ks_ok fd -> ks_in fd = b :: rest ->
  fst (kfile_getc fd) = b /\ ks_in (snd (kfile_getc fd)) = rest /\
  ks_ok (snd (kfile_getc fd)).
Proof.
  intros Hok Hin. pose proof (ks_bytes fd Hok) as Hb. rewrite Hin in Hb.
  pose proof (ks_read fd 1 Hok ltac:(lia)) as Hr.
  unfold kfile_getc. destruct (kfile_read fd 1) as [buf fd'].
  destruct Hr as (-> & Hrest & Hok'). rewrite Hin in *. simpl in *.
  apply Forall_cons in Hb as [Hb _]. rewrite u8_small by done. rewrite drop_0 in Hrest.
  done.
Qed.

Lemma kfile_getc_nil fd :
  ks_ok fd -> ks_in fd = [] ->
  fst (kfile_getc fd) = EOF /\ ks_in (snd (kfile_getc fd)) = [] /\
  ks_ok (snd (kfile_getc fd)).
Proof.
  intros Hok Hin. pose proof (ks_read fd 1 Hok ltac:(lia)) as Hr.
  unfold kfile_getc. destruct (kfile_read fd 1) as [buf fd'].
  destruct Hr as (-> & Hrest & Hok'). rewrite Hin in *. done.
Qed.
End GenericLaws.

Section SinkLaws.
Context {F : Type} `{KSink F}.

Lemma kfile_putc_spec c fd :
  kk_ok fd -> kk_fits fd [u8 c] ->
  fst (kfile_putc c fd) = u8 c /\ kk_out (snd (kfile_putc c fd)) = kk_out fd ++ [u8 c] /\
  kk_ok (snd (kfile_putc c fd)) /\
  (forall l, kk_fits fd (u8 c :: l) -> kk_fits (snd (kfile_putc c fd)) l).
Proof.
  intros Hok Hf.
  pose proof (kk_write fd [u8 c] Hok ltac:(repeat constructor; apply u8_range) Hf
    ltac:(simpl; lia)) as Hw.
  unfold kfile_putc. destruct (kfile_write fd [u8 c]) as [n fd'].
  destruct Hw as (-> & Hout & Hok' & Hfit). simpl. done.
Qed.

Lemma kfile_print_spec s fd :
  kk_ok fd -> bytes s -> Forall (fun c => c <> 0) s -> kk_fits fd s ->
  fst (kfile_print fd s) = 0 /\ kk_out (snd (kfile_print fd s)) = kk_out fd ++ s /\
  kk_ok (snd (kfile_print fd s)).
Proof.
  intros Hok Hs. revert fd Hok. induction Hs as [|c s Hc Hs IH]; intros fd Hok Hnz Hf.
  - simpl. by rewrite app_nil_r.
  - apply Forall_cons in Hnz as [Hc0 Hnz]. simpl.
    apply Z.eqb_neq in Hc0. rewrite Hc0.
    rewrite <- (u8_small c) in Hf by done.
    destruct (kfile_putc_spec c fd Hok) as (Hr & Hout & Hok' & Hfit).
    { by apply (kk_fits_app fd [u8 c] s). }
    destruct (kfile_putc c fd) as [r fd']. simpl in *. subst r.
    pose proof (u8_range c). unfold EOF. destruct (u8 c =? -1) eqn:E; [zbool; lia|].
    destruct (IH fd' Hok' Hnz) as (Hp & Hpo & Hpk); [by apply Hfit|].
    split_and!; [done| |done]. rewrite Hpo, Hout, (u8_small c) by done.
    by rewrite <- app_assoc.
Qed.
End SinkLaws.

Section CopyLaws.
Context {F G : Type} `{KSource F} `{KSink G}.

Lemma kfile_copy_loop_spec n src dst size cp_len fuel :
  (Z.to_nat size < fuel)%nat -> Z.of_nat n = size -> 0 <= size < 32768 ->
  ks_ok src -> kk_ok dst ->
  size <= Z.of_nat (length (ks_in src)) -> kk_fits dst (take n (ks_in src)) ->
  let '(cp, src', dst') := kfile_copy_loop fuel src dst size cp_len in
  cp = cp_len + size /\ ks_in src' = drop n (ks_in src) /\
  kk_out dst' = kk_out dst ++ take n (ks_in src).
Proof.
  revert n src dst size cp_len. induction fuel as [|fuel IH];
    intros n src dst size cp_len Hfuel Hn Hsize Hs Hd Hlen Hfit; [lia|].
  cbn [kfile_copy_loop]. destruct (size =? 0) eqn:E0; zbool.
  { subst size. assert (n = 0%nat) as -> by lia. rewrite take_0, drop_0, app_nil_r.
    split_and!; [lia|done|done]. }
  rewrite u16_small by lia. set (len := Z.min 32 size).
  pose proof (ks_read src len Hs ltac:(lia)) as Hr.
  pose proof (ks_bytes src Hs) as Hby.
  destruct (kfile_read src len) as [buf src1]. destruct Hr as (Hbuf & Hin1 & Hs1).
  assert (Hl : Z.of_nat (length buf) = len) by (rewrite Hbuf, length_take; lia).
  rewrite Hl, Z.eqb_refl. simpl negb. cbv iota.
  assert (Hsplit : take n (ks_in src) = buf ++ take (n - Z.to_nat len) (ks_in src1)).
  { rewrite Hbuf, Hin1.
    replace n with (Z.to_nat len + (n - Z.to_nat len))%nat at 1 by lia.
    by rewrite <- take_take_drop. }
  rewrite Hsplit in Hfit.
  pose proof (kk_write dst buf Hd) as Hw. destruct (kfile_write dst buf) as [wr dst1].
  destruct Hw as (-> & Hout & Hd1 & Hfit1).
  { rewrite Hbuf. by apply Forall_take. }
  { by eapply kk_fits_app. }
  { lia. }
  rewrite Hl, Z.eqb_refl. simpl negb. cbv iota.
  specialize (IH (n - Z.to_nat len)%nat src1 dst1 (size - len) (cp_len + len)).
  destruct (kfile_copy_loop fuel src1 dst1 (size - len) (cp_len + len)) as [[cp s'] d'].
  destruct IH as (-> & Hin' & Hout'); [lia..|done|done| |by apply Hfit1|].
  { rewrite Hin1, length_drop. lia. }
  split_and!; [lia| |].
  - rewrite Hin', Hin1, drop_drop. f_equal. lia.
  - by rewrite Hout', Hout, Hsplit, <- app_assoc.
Qed.

(** [kfile_copy] moves exactly the first [size] waiting bytes of the source
    to the sink, in order, and reports [size], whenever the source has them
    and the sink has room: chunking through the 32-byte buffer loses nothing. *)
Theorem kfile_copy_correct (src : F) (dst : G) (size : Z)
    (Hsize : 0 <= size < 32768) (Hs : ks_ok src) (Hd : kk_ok dst)
    (Hlen : size <= Z.of_nat (length (ks_in src)))
    (Hfit : kk_fits dst (take (Z.to_nat size) (ks_in src))) :
  let '(cp, src', dst') := kfile_copy src dst size in
  cp = size /\ ks_in src' = drop (Z.to_nat size) (ks_in src) /\
  kk_out dst' = kk_out dst ++ take (Z.to_nat size) (ks_in src).
Proof.
  pose proof (kfile_copy_loop_spec (Z.to_nat size) src dst size 0 (S (Z.to_nat size))) as Hl.
  unfold kfile_copy. destruct (kfile_copy_loop _ _ _ _ _) as [[cp s'] d'].
  destruct Hl as (-> & ? & ?); [lia..|done|done|done|done|]. done.
Qed.
End CopyLaws.

(** ** A KFile over a ring buffer: kfile_fifo.c *)

Module KFileFifo.

Fixpoint kfilefifo_read (fifo : FIFOBuffer) (size : nat) : list Z * FIFOBuffer :=
  match size with
  | O => ([], fifo)
  | S size' =>
      if fifo_isempty_locked fifo then ([], fifo)
      else let '(c, fifo1) := fifo_pop_locked fifo in
           let '(buf, fifo2) := kfilefifo_read fifo1 size' in (c :: buf, fifo2)
  end.

Fixpoint kfilefifo_write (fifo : FIFOBuffer) (buf : list Z) : Z * FIFOBuffer :=
  match buf with
  | [] => (0, fifo)
  | c :: buf' =>
      if fifo_isfull_locked fifo then (0, fifo)
      else let '(n, fifo') := kfilefifo_write (fifo_push_locked fifo c) buf' in
           (n + 1, fifo')
  end.

(** [kfilefifo_init] leaves the other entries of the table unset. *)
#[export] Instance kfilefifo : KFile FIFOBuffer := {
  kfile_read fd n := kfilefifo_read fd (Z.to_nat n);
  kfile_write fd buf := kfilefifo_write fd buf;
  kfile_flush fd := (0, fd);
  kfile_error _ := 0;
  kfile_clearerr fd := fd
}.

Definition fifo_bytes_ok (fd : FIFOBuffer) : Prop := fifo_wf fd /\ bytes (contents fd).

Lemma kfilefifo_read_spec n fd :
  fifo_wf fd ->
  let '(buf, fd') := kfilefifo_read fd n in
  buf = take n (contents fd) /\ contents fd' = drop n (contents fd) /\ fifo_wf fd'.
Proof.
  revert fd. induction n as [|n IH]; intros fd Hw; simpl; [done|].
  unfold fifo_isempty_locked. rewrite fifo_isempty_spec by done.
  destruct (contents fd) as [|x q] eqn:Hq; [by rewrite Hq|].
  destruct (fifo_pop_contents fd x q Hw Hq) as [Hx Hrest].
  pose proof (fifo_pop_wf fd Hw) as Hw'. unfold fifo_pop_locked.
  destruct (fifo_pop fd) as [c fd1]. simpl in *. subst.
  specialize (IH fd1 Hw'). destruct (kfilefifo_read fd1 n) as [buf fd2].
  destruct IH as (-> & ? & ?). done.
Qed.

#[export] Program Instance kfilefifo_source : KSource FIFOBuffer := {
  ks_ok := fifo_bytes_ok;
  ks_in := contents
}.
Next Obligation. by intros fd [Hw Hb]. Qed.
Next Obligation.
  intros fd n [Hw Hb] Hn. cbn. pose proof (kfilefifo_read_spec (Z.to_nat n) fd Hw) as Hr.
  destruct (kfilefifo_read fd (Z.to_nat n)) as [buf fd']. destruct Hr as (-> & Hc & Hw').
  split_and!; [done..|]. split; [done|]. rewrite Hc. by apply Forall_drop.
Qed.
Next Obligation. done. Qed.

Lemma kfilefifo_write_spec buf fd :
  fifo_wf fd -> bytes buf ->
  Z.of_nat (length (contents fd)) + Z.of_nat (length buf) <= capacity fd ->
  let '(n, fd') := kfilefifo_write fd buf in
  n = Z.of_nat (length buf) /\ contents fd' = contents fd ++ buf /\ fifo_wf fd' /\
  capacity fd' = capacity fd.
Proof.
  intros Hw Hb. revert fd Hw. induction Hb as [|c buf Hc Hb IH]; intros fd Hw Hr; simpl.
  - by rewrite app_nil_r.
  - simpl in Hr. unfold fifo_isfull_locked, fifo_push_locked.
    rewrite fifo_isfull_room by (done || lia).
    pose proof (fifo_push_contents fd c Hw ltac:(lia)) as Hpush.
    specialize (IH (fifo_push fd c) (fifo_push_wf fd c Hw)).
    rewrite Hpush, fifo_push_capacity, u8_small, length_app in IH by done.
    destruct (kfilefifo_write (fifo_push fd c) buf) as [n fd'].
    destruct IH as (-> & -> & ? & ?); [simpl; lia|].
    split_and!; [lia| |done|done]. by rewrite <- app_assoc.
Qed.

#[export] Program Instance kfilefifo_sink : KSink FIFOBuffer := {
  kk_ok := fifo_wf;
  kk_out := contents;
  kk_fits fd l := Z.of_nat (length (contents fd)) + Z.of_nat (length l) <= capacity fd
}.
Next Obligation. intros fd l1 l2. cbn. rewrite length_app. lia. Qed.
Next Obligation.
  intros fd buf Hw Hb Hf _. cbn in *. pose proof (kfilefifo_write_spec buf fd Hw Hb Hf) as Hs.
  destruct (kfilefifo_write fd buf) as [n fd']. destruct Hs as (-> & Hc & Hw' & Hcap).
  split_and!; [done..|]. intros l2 Hl. rewrite Hc, Hcap. rewrite !length_app in *. lia.
Qed.

#[export] Program Instance kfilefifo_flush : KFlush FIFOBuffer.
Next Obligation. done. Qed.
End KFileFifo.

(** ** A KFile over a memory block: kfile_mem.c *)

Module KFileMem.

Record KFileMem := mkMem { mem : list Z; pos : KFilePos }.

Definition kfilemem_read (fd : KFileMem) (size : Z) : list Z * KFileMem :=
  let n := Z.min size (file_size (pos fd) - seek_pos (pos fd)) in
  (take (Z.to_nat n) (drop (Z.to_nat (seek_pos (pos fd))) (mem fd)),
   mkMem (mem fd) (mkPos (seek_pos (pos fd) + n) (file_size (pos fd)))).

Definition kfilemem_write (fd : KFileMem) (buf : list Z) : Z * KFileMem :=
  let n := Z.min (Z.of_nat (length buf)) (file_size (pos fd) - seek_pos (pos fd)) in
  let p := Z.to_nat (seek_pos (pos fd)) in
  (n, mkMem (take p (mem fd) ++ take (Z.to_nat n) buf ++ drop (p + Z.to_nat n) (mem fd))
            (mkPos (seek_pos (pos fd) + n) (file_size (pos fd)))).

Definition kfilemem_init (m : list Z) (len : Z) : KFileMem := mkMem m (mkPos 0 len).

#[export] Instance kfilemem : KFile KFileMem := {
  kfile_read := kfilemem_read;
  kfile_write := kfilemem_write;
  kfile_flush fd := (0, fd);
  kfile_error _ := 0;
  kfile_clearerr fd := fd
}.

Definition mem_ok (fd : KFileMem) : Prop :=
  bytes (mem fd) /\ Z.of_nat (length (mem fd)) = file_size (pos fd) /\
  0 <= seek_pos (pos fd) <= file_size (pos fd).

Definition mem_before (fd : KFileMem) : list Z := take (Z.to_nat (seek_pos (pos fd))) (mem fd).
Definition mem_after (fd : KFileMem) : list Z := drop (Z.to_nat (seek_pos (pos fd))) (mem fd).

#[export] Program Instance kfilemem_source : KSource KFileMem := {
  ks_ok := mem_ok;
  ks_in := mem_after
}.
Next Obligation. intros fd (Hb & _ & _). by apply Forall_drop. Qed.
Next Obligation.
  intros fd n (Hb & Hl & Hp) Hn. cbn. unfold mem_ok, mem_after; cbn.
  set (p := seek_pos (pos fd)) in *. set (m := Z.min n (file_size (pos fd) - p)).
  split_and!; try done; try lia.
  - destruct (Z.le_ge_cases n (file_size (pos fd) - p)).
    + replace m with n by lia. done.
    + rewrite !take_ge; [done|..]; rewrite length_drop; lia.
  - rewrite drop_drop. destruct (Z.le_ge_cases n (file_size (pos fd) - p)).
    + f_equal. lia.
    + rewrite !drop_ge by lia. done.
Qed.
Next Obligation. done. Qed.

#[export] Program Instance kfilemem_sink : KSink KFileMem := {
  kk_ok := mem_ok;
  kk_out := mem_before;
  kk_fits fd l := seek_pos (pos fd) + Z.of_nat (length l) <= file_size (pos fd)
}.
Next Obligation. intros fd l1 l2. cbn. rewrite length_app. lia. Qed.
Next Obligation.
  intros fd buf (Hb & Hl & Hp) Hbuf Hf _. cbn in *. unfold mem_ok, mem_before; cbn.
  set (p := seek_pos (pos fd)) in *.
  rewrite Z.min_l by lia. rewrite Nat2Z.id, (take_ge buf) by lia.
  split_and!; try done; try lia.
  - rewrite app_assoc, take_app_le by (rewrite length_app, length_take; lia).
    apply take_ge. rewrite length_app, length_take. lia.
  - unfold bytes. rewrite !Forall_app.
    split_and!; [by apply Forall_take|done|by apply Forall_drop].
  - rewrite !length_app, length_take, length_drop. lia.
  - intros l2. rewrite length_app. lia.
Qed.

#[export] Program Instance kfilemem_flush : KFlush KFileMem.
Next Obligation. done. Qed.
End KFileMem.

Import KFileFifo KFileMem.

Lemma kfile_copy_correct_witness :
  let src := KFileMem.kfilemem_init (seqZ 0 40) 40 in
  let dst := fifo_init (zeros 64) 64 in
  let '(cp, src', dst') := kfile_copy src dst 40 in
  cp = 40 /\ ks_in src' = drop (Z.to_nat 40) (ks_in src) /\
  kk_out dst' = kk_out dst ++ take (Z.to_nat 40) (ks_in src).
Proof.
  apply (kfile_copy_correct (KFileMem.kfilemem_init (seqZ 0 40) 40) (fifo_init (zeros 64) 64) 40).
  - lia.
  - split_and!; [decide_closed|reflexivity|vm_compute; congruence|vm_compute; congruence].
  - apply fifo_init_wf; [lia|reflexivity].
  - vm_compute. congruence.
  - vm_compute. congruence.
Defined.
