(* ===== verification/Escape.v ===== *)
(** * The escaped byte stream between [ax25.c] and [afsk.c]

    The modem and the AX.25 layer exchange bytes through a KFile.  Two byte
    values have a meaning of their own there, the HDLC flag and the HDLC reset,
    and a data byte that happens to have such a value (or that of the escape)
    is preceded by [AX25_ESC].  Both sides use the constants of ax25.h. *)

From Stdlib Require Import ZArith Lia Bool List.
From stdpp Require Import prelude.
From S2P Require Import Prelude.

Open Scope Z_scope.

Definition HDLC_FLAG : Z := 0x7E.
Definition HDLC_RESET : Z := 0x7F.
Definition AX25_ESC : Z := 0x1B.

(** The test of [hdlc_parse] and of [ax25_putchar]. *)
Definition hdlc_special (c : Z) : bool :=
  (c =? HDLC_FLAG) || (c =? HDLC_RESET) || (c =? AX25_ESC).

(** ** The stream that carries a list of data bytes *)

Definition escape_byte (c : Z) : list Z := if hdlc_special c then [AX25_ESC; c] else [c].

Definition escaped (l : list Z) : list Z := flat_map escape_byte l.

Lemma escaped_app l1 l2 : escaped (l1 ++ l2) = escaped l1 ++ escaped l2.
Proof. apply flat_map_app. Qed.

Lemma escape_byte_bytes c : is_byte c -> bytes (escape_byte c).
Proof.
  intros Hc. unfold escape_byte, bytes.
  destruct (hdlc_special c); repeat constructor; try apply Hc; decide_closed.
Qed.

Lemma escaped_bytes l : bytes l -> bytes (escaped l).
Proof.
  intros Hl. induction Hl as [|c l Hc Hl IH]; [by constructor|].
  apply Forall_app. split; [by apply escape_byte_bytes|done].
Qed.

Lemma length_escape_byte c : (1 <= length (escape_byte c) <= 2)%nat.
Proof. unfold escape_byte. destruct (hdlc_special c); simpl; lia. Qed.

Lemma length_escaped l : (length l <= length (escaped l) <= 2 * length l)%nat.
Proof.
  induction l as [|c l IH]; [simpl; lia|]. cbn [escaped flat_map].
  rewrite length_app. pose proof (length_escape_byte c). unfold escaped in IH. simpl. lia.
Qed.

(** No data byte can be taken for a flag: without its escape, a special byte
    never appears. *)
Lemma hdlc_special_false c :
  hdlc_special c = false -> c <> HDLC_FLAG /\ c <> HDLC_RESET /\ c <> AX25_ESC.
Proof. unfold hdlc_special. rewrite !orb_false_iff, !Z.eqb_neq. tauto. Qed.

#[export] Hint Resolve escaped_bytes escape_byte_bytes : aprs.
#[export] Hint Rewrite escaped_app : aprs_rw.
