(* ===== verification/Formatwr.v ===== *)
(** * The formatter: [bertos/mware/formatwr.c], [bertos/mware/hex.c]

    [_formatted_write] as the firmware configures it ([PRINTF_NOFLOAT], no [%n],
    no [%o], an [int] of 16 bits and a [long] of 32): from a format and its arguments to
    the characters handed to [put_one_char], in order. Strings are lists of
    characters without their terminator; an argument of another kind than the
    conversion asks for, undefined in C, reads as zero or as no characters. *)

From Stdlib Require Import ZArith Lia Bool List.
From Stdlib Require Import String Ascii.
From stdpp Require Import prelude.
From S2P Require Import Prelude.
From S2P Require Import KFile.

Open Scope Z_scope.

(** The characters of a literal. *)
Definition chars (s : string) : list Z :=
  map (fun c => Z.of_nat (nat_of_ascii c)) (list_ascii_of_string s).

(** The end of a line, [\r\n]. *)
Definition crlf : list Z := [13; 10].

(** ** Arguments *)

(** [AStr None] is a null pointer. *)
Inductive arg :=
  | AInt (v : Z)
  | ALong (v : Z)
  | AStr (s : option (list Z)).

Definition va_int (args : list arg) : Z * list arg :=
  match args with
  | AInt v :: rest => (v, rest)
  | _ :: rest => (0, rest)
  | [] => (0, [])
  end.

Definition va_long (args : list arg) : Z * list arg :=
  match args with
  | ALong v :: rest => (v, rest)
  | _ :: rest => (0, rest)
  | [] => (0, [])
  end.

Definition va_str (args : list arg) : option (list Z) * list arg :=
  match args with
  | AStr s :: rest => (s, rest)
  | _ :: rest => (Some [], rest)
  | [] => (Some [], [])
  end.

(** ** Conversion specifications *)

Inductive plus_space := PSF_NONE | PSF_PLUS | PSF_MINUS.

Definition psf_set (p : plus_space) : bool := match p with PSF_NONE => false | _ => true end.

Record fw_flags := mkFlags {
  left_adjust : bool;
  alternate_flag : bool;
  plus_space_flag : plus_space;
  zeropad : bool
}.

Definition hex_tab : list Z := chars "0123456789abcdef".
Definition HEX_tab : list Z := chars "0123456789ABCDEF".

Definition is_digit (c : Z) : bool := (48 <=? c) && (c <=? 57).

(** The loop over the leading flags; a second space stays what it was. *)
Fixpoint fw_read_flags (f : fw_flags) (fmt : list Z) : fw_flags * list Z :=
  match fmt with
  | c :: fmt' =>
      if c =? 32 then
        fw_read_flags (mkFlags (left_adjust f) (alternate_flag f)
          (if psf_set (plus_space_flag f) then plus_space_flag f else PSF_PLUS) (zeropad f)) fmt'
      else if c =? 43 then
        fw_read_flags (mkFlags (left_adjust f) (alternate_flag f) PSF_PLUS (zeropad f)) fmt'
      else if c =? 45 then
        fw_read_flags (mkFlags true (alternate_flag f) (plus_space_flag f) (zeropad f)) fmt'
      else if c =? 35 then
        fw_read_flags (mkFlags (left_adjust f) true (plus_space_flag f) (zeropad f)) fmt'
      else if c =? 48 then
        fw_read_flags (mkFlags (left_adjust f) (alternate_flag f) (plus_space_flag f) true) fmt'
      else (f, fmt)
  | [] => (f, [])
  end.

(** A decimal number in the format, accumulated in an [int]. *)
Fixpoint fw_number (acc : Z) (fmt : list Z) : Z * list Z :=
  match fmt with
  | c :: fmt' => if is_digit c then fw_number (i16 (acc * 10 + (c - 48))) fmt' else (acc, fmt)
  | [] => (acc, [])
  end.

(** Optional field width: the flags may change with a negative [*]. *)
Definition fw_width (f : fw_flags) (fmt : list Z) (args : list arg)
  : Z * fw_flags * list Z * list arg :=
  match fmt with
  | 42 :: fmt' =>
      let '(w, args) := va_int args in
      if w <? 0
      then (i16 (- w), mkFlags true (alternate_flag f) (plus_space_flag f) (zeropad f), fmt', args)
      else (w, f, fmt', args)
  | _ => let '(w, fmt) := fw_number 0 fmt in (w, f, fmt, args)
  end.

Definition fw_precision (fmt : list Z) (args : list arg) : Z * list Z * list arg :=
  match fmt with
  | 46 :: 42 :: fmt' => let '(p, args) := va_int args in (p, fmt', args)
  | 46 :: fmt' => let '(p, fmt) := fw_number 0 fmt' in (p, fmt, args)
  | _ => (-1, fmt, args)
  end.

(** Optional [l], [L], [z] or [h]: whether long, whether short ([size_t] is an
    [int] here). *)
Definition fw_modifier (fmt : list Z) : bool * bool * list Z :=
  match fmt with
  | 108 :: fmt' | 76 :: fmt' => (true, false, fmt')
  | 122 :: fmt' => (false, false, fmt')
  | 104 :: fmt' => (false, true, fmt')
  | _ => (false, false, fmt)
  end.

(** ** Conversions *)

(** The [do ... while] loop that writes digits from the right. An [unsigned
    long] has at most ten decimal and eight hexadecimal digits. *)
Fixpoint fw_digits (fuel : nat) (hex : list Z) (base ulong : Z) (acc : list Z) : list Z :=
  match fuel with
  | O => acc
  | S fuel' =>
      let acc := get hex (ulong mod base) :: acc in
      let ulong := ulong / base in
      if ulong =? 0 then acc else fw_digits fuel' hex base ulong acc
  end.

(** [INTEGRAL_CONVERSION]. *)
Definition fw_integral (f : fw_flags) (width precision : Z) (hex : list Z) (is_dec : bool)
    (format_flag ulong : Z) : list Z :=
  let nonzero := negb (ulong =? 0) in
  let body :=
    if negb (precision =? 0) || nonzero
    then fw_digits 32 hex (if is_dec then 10 else 16) ulong [] else [] in
  let precision :=
    if (precision <? 0) && zeropad f then width - b2z (psf_set (plus_space_flag f))
    else precision in
  let body := replicate (Z.to_nat precision - length body) 48 ++ body in
  if alternate_flag f && nonzero && ((format_flag =? 120) || (format_flag =? 88))
  then 48 :: format_flag :: body else body.

(** The characters of a string conversion. *)
Fixpoint fw_string (n : nat) (s : list Z) : list Z :=
  match n, s with
  | S n', c :: s' => if c =? 0 then [] else c :: fw_string n' s'
  | _, _ => []
  end.

(** The big switch: flags, text and remaining arguments and format. *)
Definition fw_convert (f : fw_flags) (width precision : Z) (l h : bool)
    (fmt : list Z) (args : list arg) : fw_flags * list Z * list arg * list Z :=
  match fmt with
  | [] => (f, chars "???", args, [])
  | c :: fmt =>
      if c =? 99 then                                        (* %c *)
        let '(v, args) := va_int args in (f, [u8 v], args, fmt)
      else if (c =? 83) || (c =? 115) then                   (* %S %s *)
        let '(s, args) := va_str args in
        let s := match s with Some s => s | None => chars "<NULL>" end in
        let precision := if precision <? 0 then 10000 else precision in
        (f, fw_string (Z.to_nat precision) s, args, fmt)
      else if (c =? 120) || (c =? 117) || (c =? 112) || (c =? 88) then  (* %x %u %p %X *)
        let hex := if c =? 120 then hex_tab else HEX_tab in
        let '(v, args) := if (negb (c =? 112)) && l then va_long args else va_int args in
        let ulong := if (negb (c =? 112)) && l then u32 v else u16 v in
        let f := mkFlags (left_adjust f) (alternate_flag f) PSF_NONE (zeropad f) in
        (f, fw_integral f width precision hex (c =? 117) c ulong, args, fmt)
      else if (c =? 100) || (c =? 105) then                  (* %d %i *)
        let '(v, args) := if l then va_long args else va_int args in
        let v := if l then i32 v else i16 v in
        let f := if v <? 0
                 then mkFlags (left_adjust f) (alternate_flag f) PSF_MINUS (zeropad f) else f in
        (f, fw_integral f width precision HEX_tab true c (u32 (Z.abs v)), args, fmt)
      else (f, chars "???", args, fmt)
  end.

Definition spaces (n : Z) : list Z := replicate (Z.to_nat n) 32.

(** Padding, sign and text. *)
Definition fw_emit (f : fw_flags) (width : Z) (body : list Z) : list Z :=
  let precision := Z.of_nat (length body) in
  let n := if precision >? width then 0
           else width - precision - b2z (psf_set (plus_space_flag f)) in
  (if left_adjust f then [] else spaces n) ++
  match plus_space_flag f with
  | PSF_NONE => []
  | PSF_PLUS => [43]
  | PSF_MINUS => [45]
  end ++ body ++ (if left_adjust f then spaces n else []).

(** One conversion, from behind its percent sign. *)
Definition fw_spec (fmt : list Z) (args : list arg) : list Z * list Z * list arg :=
  let '(f, fmt) := fw_read_flags (mkFlags false false PSF_NONE false) fmt in
  let '(width, f, fmt, args) := fw_width f fmt args in
  let f := if left_adjust f
           then mkFlags true (alternate_flag f) (plus_space_flag f) false else f in
  let '(precision, fmt, args) := fw_precision fmt args in
  let '(l, h, fmt) := fw_modifier fmt in
  let '(f, body, args, fmt) := fw_convert f width precision l h fmt args in
  (fw_emit f width body, fmt, args).

(** The loop over the format; every turn consumes at least one character. *)
Fixpoint fw_loop (fuel : nat) (fmt : list Z) (args : list arg) : list Z :=
  match fuel with
  | O => []
  | S fuel' =>
      match fmt with
      | [] => []
      | c :: fmt' =>
          if c =? 37 then
            match fmt' with
            | 37 :: fmt'' => 37 :: fw_loop fuel' fmt'' args
            | _ => let '(out, rest, args) := fw_spec fmt' args in out ++ fw_loop fuel' rest args
            end
          else c :: fw_loop fuel' fmt' args
      end
  end.

(** The characters put out. *)
Definition formatted (fmt : list Z) (args : list arg) : list Z :=
  fw_loop (S (length fmt)) fmt args.

(** [_formatted_write]: one [put_one_char] per character; the count returned is
    an [int]. *)
Definition formatted_write {A : Type} (put : Z -> A -> A) (fmt : list Z) (args : list arg)
    (a : A) : Z * A :=
  let out := formatted fmt args in
  (i16 (Z.of_nat (length out)), fold_left (fun a c => put c a) out a).

Section Printf.
Context {F : Type} `{KFile F}.

(** The result of each [kfile_putc] is ignored. *)
Definition kfile_printf (fd : F) (fmt : list Z) (args : list arg) : Z * F :=
  formatted_write (fun c fd => snd (kfile_putc c fd)) fmt args fd.

Definition kfile_printf_P (fd : F) (fmt : list Z) (args : list arg) : Z * F :=
  kfile_printf fd fmt args.
End Printf.

(** ** Plain text *)

Lemma fw_loop_plain fuel fmt args :
  (length fmt < fuel)%nat -> Forall (fun c => c <> 37) fmt -> fw_loop fuel fmt args = fmt.
Proof.
  revert fmt. induction fuel as [|fuel IH]; intros [|c fmt] Hl Hp; simpl in Hl; try lia; [done|].
  apply Forall_cons in Hp as [Hc Hp]. cbn [fw_loop]. apply Z.eqb_neq in Hc. rewrite Hc.
  f_equal. apply IH; [lia|done].
Qed.

(** A format without a percent sign is printed as it is. *)
Lemma formatted_plain fmt args : Forall (fun c => c <> 37) fmt -> formatted fmt args = fmt.
Proof. intros Hp. apply fw_loop_plain; [lia|done]. Qed.

(** Without a width nothing is padded. *)
Lemma fw_emit_bare f body : plus_space_flag f = PSF_NONE -> fw_emit f 0 body = body.
Proof.
  intros Hp. unfold fw_emit. rewrite Hp. cbn [psf_set b2z].
  assert (Hn : spaces (if Z.of_nat (length body) >? 0 then 0
    else 0 - Z.of_nat (length body) - 0) = []).
  { rewrite Z.gtb_ltb. destruct (0 <? Z.of_nat (length body)) eqn:E; [done|]. zbool.
    by replace (0 - Z.of_nat (length body) - 0) with 0 by lia. }
  rewrite Hn. destruct (left_adjust f); by rewrite app_nil_r.
Qed.

(** One turn of the loop. *)
Lemma fw_loop_percent n c fmt args :
  c <> 37 ->
  fw_loop (S n) (37 :: c :: fmt) args =
    let '(out, rest, args) := fw_spec (c :: fmt) args in out ++ fw_loop n rest args.
Proof.
  intros Hc. cbn [fw_loop]. rewrite Z.eqb_refl.
  destruct c as [|p|p]; [reflexivity| |reflexivity].
  do 6 (destruct p as [p|p|]; try reflexivity). done.
Qed.

Lemma fw_loop_char n c fmt args :
  c <> 37 -> fw_loop (S n) (c :: fmt) args = c :: fw_loop n fmt args.
Proof. intros Hc. cbn [fw_loop]. apply Z.eqb_neq in Hc. by rewrite Hc. Qed.

(** [%s] and [%.*s]. *)
Lemma fw_spec_s rest s args :
  fw_spec (115 :: rest) (AStr (Some s) :: args) = (fw_string (Z.to_nat 10000) s, rest, args).
Proof.
  transitivity (fw_emit (mkFlags false false PSF_NONE false) 0 (fw_string (Z.to_nat 10000) s),
    rest, args); [reflexivity|]. by rewrite fw_emit_bare.
Qed.

Lemma fw_spec_star_s rest n s args :
  fw_spec (46 :: 42 :: 115 :: rest) (AInt n :: AStr (Some s) :: args)
    = (fw_string (Z.to_nat (if n <? 0 then 10000 else n)) s, rest, args).
Proof.
  transitivity (fw_emit (mkFlags false false PSF_NONE false) 0
    (fw_string (Z.to_nat (if n <? 0 then 10000 else n)) s), rest, args); [reflexivity|].
  by rewrite fw_emit_bare.
Qed.

(** ** Numbers *)

(** The value of decimal digits. *)
Definition digits_value (l : list Z) : Z := fold_left (fun a c => a * 10 + (c - 48)) l 0.

(** The value of what [%d] prints. *)
Definition parse_int (l : list Z) : Z :=
  match l with
  | 45 :: l' => - digits_value l'
  | _ => digits_value l
  end.

Lemma digits_value_acc l a :
  fold_left (fun a c => a * 10 + (c - 48)) l a = a * 10 ^ Z.of_nat (length l) + digits_value l.
Proof.
  unfold digits_value. revert a. induction l as [|c l IH]; intros a.
  - cbn. lia.
  - cbn [fold_left]. rewrite IH, (IH (0 * 10 + (c - 48))). cbn [length].
    rewrite Nat2Z.inj_succ, Z.pow_succ_r by lia. lia.
Qed.

Lemma HEX_tab_dec d : 0 <= d < 10 -> get HEX_tab d = d + 48.
Proof.
  intros Hd.
  assert (C : d = 0 \/ d = 1 \/ d = 2 \/ d = 3 \/ d = 4 \/ d = 5 \/ d = 6 \/ d = 7 \/ d = 8 \/ d = 9)
    by lia.
  by destruct_or! C; subst d.
Qed.

Definition all_digits (l : list Z) : Prop := Forall (fun c => 48 <= c <= 57) l.

Lemma fw_digits_spec fuel : forall u acc,
  0 <= u < 10 ^ Z.of_nat fuel -> (0 < fuel)%nat ->
  exists ds, fw_digits fuel HEX_tab 10 u acc = ds ++ acc /\ digits_value ds = u /\
    all_digits ds /\ (1 <= length ds)%nat /\
    (forall k, (0 < k)%nat -> u < 10 ^ Z.of_nat k -> (length ds <= k)%nat).
Proof.
  induction fuel as [|fuel IH]; intros u acc Hu Hf; [lia|]. cbn [fw_digits].
  rewrite Nat2Z.inj_succ, Z.pow_succ_r in Hu by lia.
  assert (Hm : 0 <= u mod 10 < 10) by (apply Z.mod_pos_bound; lia).
  rewrite HEX_tab_dec by done. destruct (u / 10 =? 0) eqn:E; zbool.
  - exists [u mod 10 + 48]. split; [done|]. split; [|split_and!].
    + unfold digits_value. cbn. zlia.
    + constructor; [lia|constructor].
    + cbn. lia.
    + intros k Hk _. cbn. lia.
  - assert (Hq : 0 <= u / 10 < 10 ^ Z.of_nat fuel).
    { split; [apply Z.div_pos; lia|]. apply Z.div_lt_upper_bound; lia. }
    destruct fuel as [|fuel]; [change (10 ^ Z.of_nat 0) with 1 in *; lia|].
    destruct (IH (u / 10) (u mod 10 + 48 :: acc) Hq ltac:(lia)) as (ds & -> & Hv & Ha & Hl & Hk).
    exists (ds ++ [u mod 10 + 48]). rewrite <- app_assoc. split; [done|].
    split; [|split_and!].
    + unfold digits_value in *. rewrite fold_left_app, Hv. cbn. zlia.
    + apply Forall_app. split; [done|]. constructor; [lia|constructor].
    + rewrite length_app. cbn. lia.
    + intros k Hk0 Huk. rewrite length_app. cbn [length].
      destruct k as [|[|k]]; [lia| |].
      * change (10 ^ Z.of_nat 1) with 10 in Huk. rewrite Z.div_small in E by lia. lia.
      * specialize (Hk (S k) ltac:(lia)).
        rewrite (Nat2Z.inj_succ (S k)), Z.pow_succ_r in Huk by lia.
        assert (u / 10 < 10 ^ Z.of_nat (S k)) by (apply Z.div_lt_upper_bound; lia).
        specialize (Hk H). lia.
Qed.

Lemma digits_value_zeros n l : digits_value (replicate n 48 ++ l) = digits_value l.
Proof.
  unfold digits_value. rewrite fold_left_app. f_equal.
  induction n as [|n IH]; cbn; [done|]. exact IH.
Qed.

(** A decimal conversion with any width and zero padding. *)
Lemma fw_integral_dec f w p u :
  alternate_flag f = false -> 0 <= u < 4294967296 -> p < 0 ->
  exists body, fw_integral f w p HEX_tab true 100 u = body /\ digits_value body = u /\
    all_digits body /\ (1 <= length body)%nat /\
    (zeropad f = true -> plus_space_flag f = PSF_NONE -> w <= Z.of_nat (length body)) /\
    (forall k, (0 < k)%nat -> u < 10 ^ Z.of_nat k ->
      (length body <= Nat.max k (Z.to_nat (if zeropad f then w else 0)))%nat).
Proof.
  intros Hal Hu Hp. unfold fw_integral. rewrite Hal. cbn [andb].
  assert ((p =? 0) = false) as -> by (apply Z.eqb_neq; lia). cbn [negb orb].
  assert ((p <? 0) = true) as Hp0 by (by apply Z.ltb_lt). rewrite Hp0.
  destruct (fw_digits_spec 32 u []) as (ds & E & Hv & Ha & Hl & Hk); [|lia|].
  { split; [lia|]. change (10 ^ Z.of_nat 32) with 100000000000000000000000000000000. lia. }
  rewrite app_nil_r in E. rewrite E. cbn [andb].
  set (q := if zeropad f then _ else p).
  eexists. split; [reflexivity|]. rewrite digits_value_zeros, length_app, length_replicate.
  split_and!; try done.
  - apply Forall_app. split; [|done]. apply Forall_replicate. lia.
  - lia.
  - intros Hz Hps. unfold q. rewrite Hz, Hps. cbn. lia.
  - intros k Hk0 Huk. specialize (Hk k Hk0 Huk). unfold q.
    destruct (zeropad f); [|lia]. destruct (psf_set (plus_space_flag f)); cbn; lia.
Qed.

Lemma fw_emit_plain f body :
  plus_space_flag f = PSF_NONE -> (1 <= length body)%nat -> fw_emit f 0 body = body.
Proof.
  intros Hp Hl. unfold fw_emit. rewrite Hp.
  assert ((Z.of_nat (length body) >? 0) = true) as -> by (rewrite Z.gtb_ltb; apply Z.ltb_lt; lia).
  cbn. destruct (left_adjust f); cbn; by rewrite ?app_nil_r.
Qed.

Lemma parse_int_digits body : all_digits body -> parse_int body = digits_value body.
Proof.
  intros Ha. destruct body as [|c body]; [done|]. apply Forall_cons in Ha as [Hc _].
  unfold parse_int. destruct c as [|c|c]; try lia.
  do 6 (destruct c as [c|c|]; try done; try lia).
Qed.

(** What [%d] prints: a sign and the digits. *)
Lemma printf_d_spec v :
  let z := i16 v in
  exists body, formatted (chars "%d") [AInt v] = (if z <? 0 then [45] else []) ++ body /\
    digits_value body = Z.abs z /\ all_digits body /\ (1 <= length body)%nat.
Proof.
  intros z. assert (Hz : -32768 <= z < 32768) by apply i16_range.
  change (chars "%d") with [37; 100]. unfold formatted. cbn [length].
  rewrite fw_loop_percent by done.
  set (f0 := mkFlags false false PSF_NONE false).
  set (f := if z <? 0 then mkFlags false false PSF_MINUS false else f0).
  assert (E : fw_spec [100] [AInt v]
    = (fw_emit f 0 (fw_integral f 0 (-1) HEX_tab true 100 (u32 (Z.abs z))), [], [])).
  { unfold fw_spec. cbn -[i16 u32 fw_integral fw_emit]. fold z. unfold f. by destruct (z <? 0). }
  rewrite E. cbn [fw_loop]. rewrite app_nil_r.
  destruct (fw_integral_dec f 0 (-1) (u32 (Z.abs z))) as (body & -> & Hv & Ha & Hl & _);
    [unfold f; by destruct (z <? 0)|apply u32_range|lia|].
  rewrite u32_small in Hv by lia. exists body. split_and!; [|done..].
  unfold f. destruct (z <? 0).
  - unfold fw_emit. cbn [left_adjust plus_space_flag psf_set b2z].
    assert ((Z.of_nat (length body) >? 0) = true) as ->
      by (rewrite Z.gtb_ltb; apply Z.ltb_lt; lia).
    by rewrite app_nil_r.
  - by rewrite fw_emit_plain.
Qed.

Lemma printf_d_bytes v : bytes (formatted (chars "%d") [AInt v]).
Proof.
  destruct (printf_d_spec v) as (body & -> & _ & Ha & _). apply Forall_app. split.
  - destruct (i16 v <? 0); [decide_closed|constructor].
  - eapply Forall_impl; [exact Ha|]. intros c Hc. cbn in Hc. unfold is_byte. lia.
Qed.

(** What [%d] prints, read back as a decimal number, is the argument, for
    every 16-bit value, the most negative one included. *)
Theorem printf_d_roundtrip (z : Z) (Hz : -32768 <= z < 32768) :
  parse_int (formatted (chars "%d") [AInt z]) = z.
Proof.
  destruct (printf_d_spec z) as (body & -> & Hv & Ha & _). rewrite (i16_small z) in * by done.
  destruct (z <? 0) eqn:En; zbool; cbn [app].
  - change (- digits_value body = z). lia.
  - rewrite parse_int_digits by done. lia.
Qed.

Lemma printf_d_roundtrip_witness : parse_int (formatted (chars "%d") [AInt (-32768)]) = -32768.
Proof. apply (printf_d_roundtrip (-32768)). lia. Defined.

(** ** Strings *)

Lemma fw_string_spec n s :
  Forall (fun c => c <> 0) s -> fw_string n s = take n s.
Proof.
  revert s. induction n as [|n IH]; intros [|c s] Hs; try done.
  apply Forall_cons in Hs as [Hc Hs]. cbn. apply Z.eqb_neq in Hc. rewrite Hc.
  f_equal. by apply IH.
Qed.

(** Characters up to a terminator inside the first [n]. *)
Lemma fw_string_take n s : fw_string n s = take (length (fw_string n s)) s.
Proof.
  revert s. induction n as [|n IH]; intros [|c s]; try done. cbn.
  destruct (c =? 0); [done|]. cbn. f_equal. apply IH.
Qed.

(** ** The conversion buffer *)

Lemma fw_digits_length fuel hex base : forall u acc,
  2 <= base -> 0 <= u < base ^ Z.of_nat fuel ->
  (length (fw_digits fuel hex base u acc) <= fuel + length acc)%nat.
Proof.
  induction fuel as [|fuel IH]; intros u acc Hb Hu; cbn [fw_digits]; [lia|].
  destruct (u / base =? 0) eqn:E; zbool; [cbn; lia|].
  rewrite Nat2Z.inj_succ, Z.pow_succ_r in Hu by lia.
  pose proof (IH (u / base) (get hex (u mod base) :: acc) Hb) as H. cbn [length] in H.
  etransitivity; [apply H|lia]. split; [apply Z.div_pos; lia|].
  apply Z.div_lt_upper_bound; lia.
Qed.

(** An integer conversion stays inside the formatter's 134-byte buffer
    whenever width and precision are at most 131, whatever the number, base and
    flags: the assertion behind the digit loops holds. *)
Theorem fw_integral_fits (f : fw_flags) (w p : Z) (hex : list Z) (is_dec : bool) (c u : Z)
    (Hw : w <= 131) (Hp : p <= 131) (Hu : 0 <= u < 4294967296) :
  (length (fw_integral f w p hex is_dec c u) <= 133)%nat.
Proof.
  unfold fw_integral.
  set (body := if _ || _ then _ else _).
  assert (Hb : (length body <= 32)%nat).
  { unfold body. destruct (_ || _); [|cbn; lia].
    pose proof (fw_digits_length 32 hex (if is_dec then 10 else 16) u []) as H.
    cbn [length] in H. rewrite Nat.add_0_r in H. apply H; [destruct is_dec; lia|].
    split; [lia|]. etransitivity; [apply Hu|]. destruct is_dec; vm_compute; congruence. }
  set (q := if (p <? 0) && zeropad f then _ else p).
  assert (Hq : q <= 131).
  { unfold q. destruct (_ && _); [|lia]. destruct (psf_set _); cbn; lia. }
  assert (Hl : (length (replicate (Z.to_nat q - length body) 48%Z ++ body) <= 131)%nat).
  { rewrite length_app, length_replicate. lia. }
  match goal with |- context [if ?b then _ else _] => destruct b end; cbn [length]; lia.
Qed.

Lemma fw_integral_fits_witness :
  (length (fw_integral (mkFlags false true PSF_NONE true) 131 (-1) hex_tab false 120 0xFFFF)
    <= 133)%nat.
Proof.
  apply (fw_integral_fits (mkFlags false true PSF_NONE true) 131 (-1) hex_tab false 120 0xFFFF);
    lia.
Defined.
