(* ===== verification/Libc.v ===== *)
(** * The C library: what the firmware uses of it

    Strings are lists that start where the pointer points; a buffer that is edited
    in place is a list with an offset.  No string here has a character above 127
    where the case of letters matters.  [int] has 16 bits. *)

From Stdlib Require Import ZArith Lia Bool List.
From stdpp Require Import prelude.
From S2P Require Import Prelude.
From S2P Require Import Formatwr.

Open Scope Z_scope.

(** ** Characters *)

Definition isalnum (c : Z) : bool :=
  ((48 <=? c) && (c <=? 57)) || ((65 <=? c) && (c <=? 90)) || ((97 <=? c) && (c <=? 122)).

Definition toupper (c : Z) : Z := if (97 <=? c) && (c <=? 122) then c - 32 else c.

Definition tolower (c : Z) : Z := if (65 <=? c) && (c <=? 90) then c + 32 else c.

(** ** Strings *)

(** [strlen] of an array that may have no terminator: [MIN(sizeof, strlen)]. *)
Fixpoint strnlen (s : list Z) : nat :=
  match s with
  | [] => 0%nat
  | c :: s' => if c =? 0 then 0%nat else S (strnlen s')
  end.

(** The string that starts here. *)
Definition cstr (s : list Z) : list Z := take (strnlen s) s.

Fixpoint strncmp (a b : list Z) (n : nat) : Z :=
  match n with
  | O => 0
  | S n' =>
      let x := hd 0 a in
      let y := hd 0 b in
      if (x =? y) && negb (x =? 0) then strncmp (tl a) (tl b) n' else x - y
  end.

Fixpoint strncasecmp (a b : list Z) (n : nat) : Z :=
  match n with
  | O => 0
  | S n' =>
      let x := tolower (hd 0 a) in
      let y := tolower (hd 0 b) in
      if x =? y then if x =? 0 then 0 else strncasecmp (tl a) (tl b) n' else x - y
  end.

(** Past the end of a list there is its terminator. *)
Fixpoint strcasecmp (a b : list Z) : Z :=
  match a with
  | [] => - tolower (hd 0 b)
  | x :: a' =>
      if tolower x =? tolower (hd 0 b) then if x =? 0 then 0 else strcasecmp a' (tl b)
      else tolower x - tolower (hd 0 b)
  end.

(** [strupr] of the string at offset [p] of a buffer. *)
Definition strupr (p : Z) (buf : list Z) : list Z :=
  let s := cstr (drop (Z.to_nat p) buf) in
  take (Z.to_nat p) buf ++ map toupper s ++ drop (Z.to_nat p + length s) buf.

Definition isspace (c : Z) : bool := (c =? 32) || ((9 <=? c) && (c <=? 13)).

Fixpoint atoi_digits (s : list Z) (acc : Z) : Z :=
  match s with
  | [] => acc
  | c :: s' => if is_digit c then atoi_digits s' (i16 (acc * 10 + (c - 48))) else acc
  end.

(** [int] has 16 bits. *)
Fixpoint atoi (s : list Z) : Z :=
  match s with
  | [] => 0
  | c :: s' =>
      if isspace c then atoi s'
      else if c =? 45 then i16 (- atoi_digits s' 0)
      else if c =? 43 then atoi_digits s' 0
      else atoi_digits s 0
  end.

(** How many commas there are, and how many characters up to one. *)
Fixpoint comma_span (s : list Z) : Z :=
  match s with
  | c :: s' => if c =? 44 then 1 + comma_span s' else 0
  | [] => 0
  end.
Fixpoint token_span (s : list Z) : Z :=
  match s with
  | c :: s' => if (c =? 44) || (c =? 0) then 0 else 1 + token_span s'
  | [] => 0
  end.

(** [strtok (p, ",")]: the token, the buffer, and where the next call goes on. *)
Definition strtok (p : Z) (buf : list Z) : option Z * list Z * Z :=
  let p := p + comma_span (drop (Z.to_nat p) buf) in
  if get buf p =? 0 then (None, buf, p)
  else
    let q := p + token_span (drop (Z.to_nat p) buf) in
    if get buf q =? 0 then (Some p, buf, q) else (Some p, upd buf q 0, q + 1).

(** ** Formatted output

    [snprintf], for the conversions used here. *)

Fixpoint dec_digits (fuel : nat) (n : Z) : list Z :=
  match fuel with
  | O => []
  | S fuel => (if n <? 10 then [] else dec_digits fuel (n / 10)) ++ [48 + n mod 10]
  end.

(** [%0wd] of an [int]. *)
Definition fmt_0d (w n : Z) : list Z :=
  let n := i16 n in
  let s := dec_digits 5 (Z.abs n) in
  let sign := if n <? 0 then [45] else [] in
  sign ++ replicate (Z.to_nat (w - Z.of_nat (length sign + length s))) 48 ++ s.

(** [%.ns]. *)
Definition fmt_s (n : nat) (s : list Z) : list Z := take n (take (strnlen s) s).

(** [snprintf(buf + off, size, ...)] where the format gives [text]. *)
Definition snprintf (buf : list Z) (off size : Z) (text : list Z) : Z * list Z :=
  let out := if u16 size =? 0 then [] else take (Z.to_nat (u16 size - 1)) text ++ [0] in
  (Z.of_nat (length text),
   take (Z.to_nat off) buf ++ out ++ drop (Z.to_nat off + length out) buf).

(** ** Decimal numbers *)

Lemma length_dec_digits fuel : forall n, (length (dec_digits fuel n) <= fuel)%nat.
Proof.
  induction fuel as [|fuel IH]; intros n; [done|]. cbn [dec_digits]. rewrite length_app.
  specialize (IH (n / 10)). destruct (n <? 10); cbn; lia.
Qed.

Lemma dec_digits_bytes fuel : forall n, bytes (dec_digits fuel n).
Proof.
  induction fuel as [|fuel IH]; intros n; [constructor|]. cbn [dec_digits]. apply Forall_app. split.
  - destruct (n <? 10); [constructor|apply IH].
  - constructor; [|constructor]. unfold is_byte. pose proof (Z.mod_pos_bound n 10). lia.
Qed.

(** The number a text of digits stands for. *)
Definition value (l : list Z) : Z := fold_left (fun a c => 10 * a + (c - 48)) l 0.

Lemma value_snoc l c : value (l ++ [c]) = 10 * value l + (c - 48).
Proof. unfold value. by rewrite fold_left_app. Qed.

Lemma value_zeros n l : value (replicate n 48 ++ l) = value l.
Proof. induction n as [|n IH]; [done|]. exact IH. Qed.

Lemma value_app l m : value (l ++ m) = value l * 10 ^ Z.of_nat (length m) + value m.
Proof.
  induction m as [|c m IH] using rev_ind; [rewrite app_nil_r; cbn; lia|].
  rewrite app_assoc, !value_snoc, IH, length_app, Nat2Z.inj_add, Z.pow_add_r by lia. cbn [length]. lia.
Qed.

Definition is_digit (c : Z) : Prop := 48 <= c <= 57.

Lemma dec_digits_value fuel : forall n,
  0 <= n < 10 ^ Z.of_nat fuel -> value (dec_digits fuel n) = n.
Proof.
  induction fuel as [|fuel IH]; intros n Hn; [cbn in Hn; cbn; lia|]. cbn [dec_digits].
  rewrite value_snoc. rewrite Nat2Z.inj_succ, Z.pow_succ_r in Hn by lia.
  pose proof (Z.div_mod n 10 ltac:(lia)). zcases; zbool.
  - rewrite Z.mod_small by lia. cbn. lia.
  - rewrite IH; [lia|]. split; [apply Z.div_pos; lia|apply Z.div_lt_upper_bound; lia].
Qed.

Lemma dec_digits_digits fuel : forall n, Forall is_digit (dec_digits fuel n).
Proof.
  induction fuel as [|fuel IH]; intros n; [constructor|]. cbn [dec_digits]. apply Forall_app. split.
  - zcases; [constructor|apply IH].
  - constructor; [|constructor]. unfold is_digit. pose proof (Z.mod_pos_bound n 10). lia.
Qed.

Lemma fmt_0d_value w n : 0 <= n < 32768 -> value (fmt_0d w n) = n.
Proof.
  intros Hn. unfold fmt_0d. rewrite i16_small by lia. zcases; zbool; [lia|].
  cbn [app]. rewrite value_zeros, Z.abs_eq by lia. apply dec_digits_value. lia.
Qed.

Lemma fmt_0d_digits w n : 0 <= n < 32768 -> Forall is_digit (fmt_0d w n).
Proof.
  intros Hn. unfold fmt_0d. rewrite i16_small by lia. zcases; zbool; [lia|].
  cbn [app]. apply Forall_app. split; [|apply dec_digits_digits].
  apply Forall_replicate. unfold is_digit. lia.
Qed.

Lemma length_dec_digits_small k fuel : forall n,
  0 <= n < 10 ^ Z.of_nat (S k) -> (length (dec_digits fuel n) <= S k)%nat.
Proof.
  revert fuel. induction k as [|k IH]; intros fuel n Hn; (destruct fuel as [|fuel]; [cbn; lia|]);
    cbn [dec_digits]; rewrite length_app; zcases; zbool; cbn [length]; try lia.
  rewrite Nat2Z.inj_succ, Z.pow_succ_r in Hn by lia.
  assert (0 <= n / 10 < 10 ^ Z.of_nat (S k))
    by (split; [apply Z.div_pos; lia|apply Z.div_lt_upper_bound; lia]).
  specialize (IH fuel (n / 10) ltac:(done)). lia.
Qed.

(** A number that fits the width is as long as it. *)
Lemma length_fmt_0d_exact k n :
  0 <= n < 10 ^ Z.of_nat (S k) -> n < 32768 -> length (fmt_0d (Z.of_nat (S k)) n) = S k.
Proof.
  intros Hn Hn'. unfold fmt_0d. rewrite i16_small by lia. zcases; zbool; [lia|].
  pose proof (length_dec_digits_small k 5 (Z.abs n) ltac:(lia)).
  cbn [app length]. rewrite length_app, length_replicate. lia.
Qed.
