(* ===== verification/Timer.v ===== *)
(** * Time: [bertos/drv/timer.[ch]]

    The millisecond clock, its conversions, delays, and the queues of software
    timers.  A queue is the list of its [Timer]s from head to tail; [event_do],
    the action of an expired timer, is a parameter that may change the queue.
    Where the code reads the clock more than once, [clock] gives the successive
    readings.  [ticks_t] and [mtime_t] are 32-bit integers that wrap. *)

From Stdlib Require Import ZArith Lia Bool List Sorted.
From stdpp Require Import prelude.
From S2P Require Import Prelude.

Open Scope Z_scope.

(** ** Units *)

Definition TIMER_TICKS_PER_SEC : Z := 1000.
Definition TIMER_HW_HPTICKS_PER_SEC : Z := DIV_ROUND 16000000 64.
(** [TIMER_HW_CNT]: the compare value of the 8-bit hardware counter. *)
Definition OCR_DIVISOR : Z := DIV_ROUND TIMER_HW_HPTICKS_PER_SEC TIMER_TICKS_PER_SEC - 1.

Definition ms_to_ticks (ms : Z) : Z := i32 (ms * DIV_ROUND TIMER_TICKS_PER_SEC 1000).

Definition us_to_ticks (us : Z) : Z :=
  i32 (Z.quot (i32 (us * DIV_ROUND TIMER_TICKS_PER_SEC 1000)) 1000).

Definition ticks_to_ms (ticks : Z) : Z := Z.quot ticks (TIMER_TICKS_PER_SEC / 1000).

Definition ticks_to_us (ticks : Z) : Z :=
  i32 (Z.quot ticks (TIMER_TICKS_PER_SEC / 1000) * 1000).

(** [hptime_t] has eight bits. *)
Definition us_to_hptime (us : Z) : Z :=
  u8 (u32 (u32 us * ((TIMER_HW_HPTICKS_PER_SEC + 500) / 1000) + 500) / 1000).

Definition hptime_to_us (hpticks : Z) : Z :=
  i32 (u32 (hpticks * 1000) / DIV_ROUND TIMER_HW_HPTICKS_PER_SEC 1000).

(** [timer_clock_seconds()] of TinyAPRS/utils.h, from a reading of the clock. *)
Definition timer_clock_seconds (clock : Z) : Z := Z.quot (ticks_to_ms clock) 1000.

(** [TIMER_AFTER] and [TIMER_BEFORE]. *)
Definition TIMER_AFTER (x y : Z) : bool := i32 (i32 y - i32 x) <? 0.
Definition TIMER_BEFORE (x y : Z) : bool := TIMER_AFTER y x.

(** ** Software timers *)

(** [expire] stands for the event to execute. *)
Record Timer := mkTimer { _delay : Z; tick : Z; expire : nat }.

Definition timer_setDelay (delay : Z) (t : Timer) : Timer := mkTimer delay (tick t) (expire t).
Definition timer_setSoftint (event : nat) (t : Timer) : Timer := mkTimer (_delay t) (tick t) event.
Definition set_tick (v : Z) (t : Timer) : Timer := mkTimer (_delay t) v (expire t).

(** The search for the insertion point, and the insertion. *)
Fixpoint timer_addToList (timer : Timer) (queue : list Timer) : list Timer :=
  match queue with
  | [] => [timer]
  | node :: rest =>
      if i32 (tick node - tick timer) >? 0 then timer :: node :: rest
      else node :: timer_addToList timer rest
  end.

Definition timer_add (clock : Z) (timer : Timer) (timers_queue : list Timer) : list Timer :=
  timer_addToList (set_tick (i32 (clock + _delay timer)) timer) timers_queue.

(** [REMOVE] of the node at position [i] of its queue. *)
Definition timer_abort (i : nat) (queue : list Timer) : list Timer := take i queue ++ drop (S i) queue.

Definition synctimer_add (clock : Z) (timer : Timer) (queue : list Timer) : list Timer :=
  timer_addToList (set_tick (i32 (clock + _delay timer)) timer) queue.

Definition synctimer_readd (timer : Timer) (queue : list Timer) : list Timer :=
  timer_addToList (set_tick (i32 (tick timer + _delay timer)) timer) queue.

Definition synctimer_nextTimeout (clock : Z) (q : list Timer) : Z :=
  match q with
  | [] => -1
  | expiring_timer :: _ => Z.max (i32 (tick expiring_timer - clock)) 0
  end.

(** [synctimer_stop] of the timer at position [i], if it is in the queue;
    [synctimer_restart] sets its delay and adds it again. *)
Definition synctimer_stop (i : option nat) (queue : list Timer) : list Timer :=
  match i with
  | Some i => timer_abort i queue
  | None => queue
  end.

Definition synctimer_restart (clock : Z) (i : option nat) (timer : Timer) (timeout : Z)
    (queue : list Timer) : list Timer :=
  synctimer_add clock (timer_setDelay (ms_to_ticks timeout) timer) (synctimer_stop i queue).

Section Poll.
Context {W : Type}.
(** What an expired timer's event does to the queue and to the rest. *)
Variable event_do : Timer -> list Timer -> W -> list Timer * W.

(** [clock i]: the [i]-th reading; each turn consumes one unit of [fuel]
    ([None]: still running). *)
Fixpoint timer_poll (fuel : nat) (clock : nat -> Z) (i : nat) (queue : list Timer) (w : W)
  : option (list Timer * W) :=
  match queue with
  | [] => Some ([], w)
  | timer :: rest =>
      if i32 (clock i - tick timer) <? 0 then Some (queue, w)
      else
        match fuel with
        | O => None
        | S fuel' =>
            let '(queue, w) := event_do timer rest w in
            timer_poll fuel' clock (S i) queue w
        end
  end.

Definition synctimer_poll (fuel : nat) (clock : nat -> Z) (queue : list Timer) (w : W)
  : option (list Timer * W) := timer_poll fuel clock 0 queue w.

(** The timer interrupt: the clock does not move while it runs. *)
Definition TIMER0_COMPA_vect (fuel : nat) (clock : Z) (timers_queue : list Timer) (w : W)
  : option (Z * list Timer * W) :=
  let _clock := i32 (clock + 1) in
  match timer_poll fuel (fun _ => _clock) 0 timers_queue w with
  | Some (q, w) => Some (_clock, q, w)
  | None => None
  end.
End Poll.

(** ** Delays *)

(** The busy wait from its [i]-th reading of the clock on; the result is how
    often the processor relaxed. *)
Fixpoint delay_wait (fuel : nat) (clock : nat -> Z) (i : nat) (start delay : Z) : option nat :=
  match fuel with
  | O => None
  | S fuel' =>
      if i32 (clock i - start) <? delay
      then option_map S (delay_wait fuel' clock (S i) start delay)
      else Some O
  end.

Definition timer_delayTicks (fuel : nat) (clock : nat -> Z) (delay : Z) : option nat :=
  delay_wait fuel clock 1 (clock 0%nat) delay.

Definition timer_delay (fuel : nat) (clock : nat -> Z) (delay : Z) : option nat :=
  timer_delayTicks fuel clock (ms_to_ticks delay).

(** [timer_busyWait]: [hpread i] is the [i]-th reading of the hardware counter;
    the result is how many readings the loop made. *)
Fixpoint busy_loop (fuel : nat) (hpread : nat -> Z) (i : nat) (prev delay : Z) : option nat :=
  match fuel with
  | O => None
  | S fuel' =>
      let now := hpread i in
      let delta := if now <? prev then u8 (u8 OCR_DIVISOR - prev + now) else u8 (now - prev) in
      if delta >=? delay then Some 1%nat
      else option_map S (busy_loop fuel' hpread (S i) now (u8 (delay - delta)))
  end.

Definition timer_busyWait (fuel : nat) (hpread : nat -> Z) (delay : Z) : option nat :=
  busy_loop fuel hpread 1 (hpread 0%nat) delay.

(** ** Wrap-around *)

Lemma i32_shift z : exists k, i32 z = z + k * 4294967296.
Proof.
  exists (- ((z + 2147483648) / 4294967296)). unfold i32.
  pose proof (Z_div_mod_eq_full (z + 2147483648) 4294967296). lia.
Qed.

Lemma i32_period z k : i32 (z + k * 4294967296) = i32 z.
Proof.
  unfold i32. replace (z + k * 4294967296 + 2147483648) with (z + 2147483648 + k * 4294967296) by lia.
  by rewrite Z_mod_plus_full.
Qed.

Lemma i32_sub_l a b : i32 (i32 a - b) = i32 (a - b).
Proof.
  destruct (i32_shift a) as [k ->].
  replace (a + k * 4294967296 - b) with (a - b + k * 4294967296) by lia. apply i32_period.
Qed.

Lemma i32_sub_r a b : i32 (a - i32 b) = i32 (a - b).
Proof.
  destruct (i32_shift b) as [k ->].
  replace (a - (b + k * 4294967296)) with (a - b + (- k) * 4294967296) by lia. apply i32_period.
Qed.

(** ** Delays end, and not before their time *)

Section Delay.
(** The time that really passes, read through a 32-bit clock. *)
Variable T : nat -> Z.
Hypothesis T_mono : forall i, T i <= T (S i).

Lemma T_le i j : (i <= j)%nat -> T i <= T j.
Proof. induction 1; [lia|]. pose proof (T_mono m). lia. Qed.

Lemma delay_wait_spec delay m : forall i,
  T (i + m)%nat - T 0%nat < 2147483648 -> delay <= T (i + m)%nat - T 0%nat ->
  exists k, delay_wait (S m) (fun i => i32 (T i)) i (i32 (T 0%nat)) delay = Some k /\
    (k <= m)%nat /\ delay <= T (i + k)%nat - T 0%nat /\
    forall j, (j < k)%nat -> T (i + j)%nat - T 0%nat < delay.
Proof.
  induction m as [|m IH]; intros i Hw Hd; cbn [delay_wait]; rewrite i32_sub_l, i32_sub_r;
    pose proof (T_le 0 i ltac:(lia)).
  - rewrite Nat.add_0_r in *. rewrite i32_small by lia.
    assert ((T i - T 0%nat <? delay) = false) as -> by (apply Z.ltb_ge; lia).
    exists 0%nat. rewrite Nat.add_0_r. split_and!; [done|lia|lia|lia].
  - pose proof (T_le i (i + S m) ltac:(lia)). rewrite i32_small by lia.
    destruct (T i - T 0%nat <? delay) eqn:E; zbool.
    + destruct (IH (S i)) as (k & E1 & Hk & Hk1 & Hk2).
      { by rewrite Nat.add_succ_comm. } { by rewrite Nat.add_succ_comm. }
      cbn [delay_wait] in E1. rewrite E1. exists (S k). cbn [option_map].
      rewrite <- Nat.add_succ_comm. split_and!; [done|lia|lia|].
      intros [|j] Hj; [by rewrite Nat.add_0_r|].
      rewrite <- Nat.add_succ_comm. apply Hk2. lia.
    + exists 0%nat. rewrite Nat.add_0_r. split_and!; [done|lia|lia|lia].
Qed.

(** A delay ends and lasts as long as it should, wherever the 32-bit clock
    wraps: if the processor looks at the clock at least once between the
    end of the delay and 2^31 milliseconds after its start, [timer_delayTicks]
    returns at the first such look, and at every earlier one the delay was not
    over yet. *)
Theorem timer_delay_waits (delay : Z) (n : nat)
    (Hend : delay <= T (S n) - T 0%nat < 2147483648) :
  exists k, timer_delayTicks (S n) (fun i => i32 (T i)) delay = Some k /\
    delay <= T (S k) - T 0%nat /\
    forall j, (0 < j <= k)%nat -> T j - T 0%nat < delay.
Proof.
  destruct (delay_wait_spec delay n 1 ltac:(cbn; lia) ltac:(cbn; lia)) as (k & E & _ & H1 & H2).
  exists k. split_and!; [exact E|exact H1|].
  intros j Hj. replace j with (1 + (j - 1))%nat by lia. apply H2. lia.
Qed.
End Delay.

(** 150 ms from three ticks before the clock wraps. *)
Lemma timer_delay_waits_witness :
  exists k, timer_delayTicks 200 (fun i => i32 (2147483645 + Z.of_nat i)) 150 = Some k /\
    150 <= Z.of_nat (S k).
Proof.
  destruct (timer_delay_waits (fun i => 2147483645 + Z.of_nat i)
    ltac:(intros i; cbv beta; lia) 150 199 ltac:(cbv beta; lia))
    as (k & E & H1 & _).
  exists k. split; [exact E|lia].
Defined.

(** ** The queue is sorted by expiration *)

Section Queue.
Variable now : Z.

(** Time left, negative when overdue; no timer is more than 2^30 ticks away. *)
Definition left_ (t : Timer) : Z := i32 (tick t - now).
Definition near (t : Timer) : Prop := - 1073741824 <= left_ t < 1073741824.
Definition expired (t : Timer) : bool := left_ t <=? 0.
Definition timers_sorted (q : list Timer) : Prop :=
  Forall near q /\ StronglySorted (fun a b => left_ a <= left_ b) q.

Lemma tick_compare a b : near a -> near b -> i32 (tick a - tick b) = left_ a - left_ b.
Proof.
  unfold near, left_. intros Ha Hb.
  destruct (i32_shift (tick a - now)) as [ka Ea], (i32_shift (tick b - now)) as [kb Eb].
  replace (tick a - tick b)
    with ((i32 (tick a - now) - i32 (tick b - now)) + (kb - ka) * 4294967296) by lia.
  rewrite i32_period. apply i32_small. lia.
Qed.

Lemma overdue t : near t -> (i32 (now - tick t) <? 0) = negb (expired t).
Proof.
  unfold near, expired, left_. intros Ht.
  destruct (i32_shift (tick t - now)) as [k E]. set (r := i32 (tick t - now)) in *.
  replace (now - tick t) with (- r + k * 4294967296) by lia.
  rewrite i32_period, i32_small by lia.
  apply Bool.eq_iff_eq_true. rewrite negb_true_iff, Z.ltb_lt, Z.leb_gt. lia.
Qed.

(** Where a timer goes: behind all that expire no later, before all others. *)
Lemma addToList_spec t q :
  timers_sorted q -> near t ->
  exists q1 q2, q = q1 ++ q2 /\ timer_addToList t q = q1 ++ t :: q2 /\
    Forall (fun a => left_ a <= left_ t) q1 /\ Forall (fun a => left_ t < left_ a) q2.
Proof.
  intros [Hn Hs] Ht. induction q as [|a q IH]; cbn [timer_addToList].
  - by exists [], [].
  - apply Forall_cons in Hn as [Ha Hn]. apply StronglySorted_inv in Hs as [Hs Hl].
    rewrite tick_compare by done. destruct (left_ a - left_ t >? 0) eqn:E; zbool.
    + exists [], (a :: q). split_and!; [done|done|constructor|]. apply Forall_cons.
      split; [lia|]. eapply Forall_impl; [exact Hl|]. intros b Hb. cbn in Hb. lia.
    + destruct (IH Hn Hs) as (q1 & q2 & -> & -> & H1 & H2). exists (a :: q1), q2.
      split_and!; [done|done| |done]. apply Forall_cons. split; [lia|done].
Qed.

Lemma sorted_app_mid q1 t q2 :
  StronglySorted (fun a b => left_ a <= left_ b) (q1 ++ q2) ->
  Forall (fun a => left_ a <= left_ t) q1 -> Forall (fun a => left_ t < left_ a) q2 ->
  StronglySorted (fun a b => left_ a <= left_ b) (q1 ++ t :: q2).
Proof.
  intros Hs H1 H2. induction q1 as [|a q1 IH]; cbn in *.
  - constructor; [done|]. eapply Forall_impl; [exact H2|]. cbn. lia.
  - apply StronglySorted_inv in Hs as [Hs Hl]. apply Forall_cons in H1 as [Ha H1].
    constructor; [by apply IH|]. apply Forall_app in Hl as [Hl1 Hl2].
    apply Forall_app. split; [done|]. by apply Forall_cons.
Qed.

Lemma addToList_sorted t q : timers_sorted q -> near t -> timers_sorted (timer_addToList t q).
Proof.
  intros Hq Ht. destruct (addToList_spec t q Hq Ht) as (q1 & q2 & -> & -> & H1 & H2).
  destruct Hq as [Hn Hs]. split; [|by apply sorted_app_mid].
  apply Forall_app in Hn as [Hn1 Hn2]. apply Forall_app. split; [done|]. by apply Forall_cons.
Qed.
End Queue.

(** ** Expired timers run, in order *)

Section Run.
Context {W : Type}.
Variable event_do : Timer -> list Timer -> W -> list Timer * W.
(** What the events do, when they leave the queue alone. *)
Variable fire : Timer -> W -> W.
Hypothesis quiet : forall t q w, event_do t q w = (q, fire t w).
Variable now : Z.

Lemma none_expired q t :
  expired now t = false -> Forall (fun b => left_ now t <= left_ now b) q ->
  List.filter (expired now) q = [] /\ List.filter (fun t => negb (expired now t)) q = q.
Proof.
  unfold expired. intros Ht Hq. zbool. induction Hq as [|b q Hb Hq [IH1 IH2]]; [done|].
  cbn. assert ((left_ now b <=? 0) = false) as -> by (apply Z.leb_gt; lia). cbn.
  by rewrite IH1, IH2.
Qed.

Lemma poll_spec q : forall i w,
  timers_sorted now q ->
  timer_poll event_do (length q) (fun _ => now) i q w
  = Some (List.filter (fun t => negb (expired now t)) q,
          fold_left (fun w t => fire t w) (List.filter (expired now) q) w).
Proof.
  induction q as [|t q IH]; intros i w [Hn Hs]; [done|].
  apply Forall_cons in Hn as [Ht Hn]. apply StronglySorted_inv in Hs as [Hs Hl].
  cbn [timer_poll length List.filter]. rewrite overdue by done.
  destruct (expired now t) eqn:E; cbn [negb].
  - rewrite quiet. by apply IH.
  - destruct (none_expired q t E Hl) as [-> ->]. done.
Qed.

Lemma filter_all {A} (p : A -> bool) l : Forall (fun x => p x = true) l -> List.filter p l = l.
Proof. induction 1 as [|x l Hx _ IH]; [done|]. cbn. by rewrite Hx, IH. Qed.

Lemma filter_none {A} (p : A -> bool) l : Forall (fun x => p x = false) l -> List.filter p l = [].
Proof. induction 1 as [|x l Hx _ IH]; [done|]. cbn. by rewrite Hx. Qed.

(** The place of a timer in a sorted queue, by what the others have left. *)
Lemma addToList_place t q :
  timers_sorted now q -> near now t ->
  let before := List.filter (fun a => left_ now a <=? left_ now t) q in
  let after := List.filter (fun a => left_ now t <? left_ now a) q in
  q = before ++ after /\ timer_addToList t q = before ++ t :: after.
Proof.
  intros Hq Ht. destruct (addToList_spec now t q Hq Ht) as (q1 & q2 & -> & -> & H1 & H2).
  cbv zeta. rewrite !List.filter_app.
  rewrite (filter_all _ q1), (filter_none _ q2), (filter_none (fun a => left_ now t <? left_ now a) q1),
    (filter_all _ q2), app_nil_r; [done|..]; eapply Forall_impl; try eassumption; cbn; intros a Ha;
    (by apply Z.ltb_lt) || (by apply Z.leb_le) || (apply Z.ltb_ge; lia) || (apply Z.leb_gt; lia).
Qed.

(** C33: the timer queue keeps its promise: a timer added to a sorted queue goes
    right behind all those that expire no later and in front of all those that
    expire later, which it does not disturb; and a poll during which the clock
    stands still, as it does in the timer interrupt, with events that leave the
    queue alone, runs exactly the timers that are due, each once, in the order
    of expiration, and leaves the others queued; all of this while the 32-bit
    clock wraps, as long as no timer is more than 2^30 ticks away. *)
Theorem timer_poll_runs_due (t : Timer) (q : list Timer) (w : W)
    (Hq : timers_sorted now q) (Ht : near now t) :
  let before := List.filter (fun a => left_ now a <=? left_ now t) q in
  let after := List.filter (fun a => left_ now t <? left_ now a) q in
  let q' := timer_addToList t q in
  q = before ++ after /\ q' = before ++ t :: after /\ timers_sorted now q' /\
  timer_poll event_do (S (length q)) (fun _ => now) 0 q' w
  = Some (List.filter (fun t => negb (expired now t)) q',
          fold_left (fun w t => fire t w) (List.filter (expired now) q') w).
Proof.
  pose proof (addToList_sorted now t q Hq Ht) as Hs.
  destruct (addToList_place t q Hq Ht) as [E1 E2]. cbn zeta.
  split_and!; [exact E1|exact E2|done|].
  rewrite <- (poll_spec _ 0 w Hs). f_equal. rewrite E2. rewrite E1 at 1.
  rewrite !length_app. cbn. lia.
Qed.
End Run.

(** Four timers around the moment the clock wraps, two of which expire at the same
    time; the log of those that ran. *)
Lemma timer_poll_runs_due_witness :
  let run := fun (t : Timer) (q : list Timer) (w : list nat) => (q, w ++ [expire t]) in
  let q' := timer_addToList (mkTimer 0 2147483647 2)
    [mkTimer 0 2147483640 1; mkTimer 0 2147483647 4; mkTimer 0 (-2147483000) 3] in
  q' = [mkTimer 0 2147483640 1; mkTimer 0 2147483647 4; mkTimer 0 2147483647 2;
        mkTimer 0 (-2147483000) 3] /\
  timer_poll run 4 (fun _ => -2147483648) 0 q' []
  = Some ([mkTimer 0 (-2147483000) 3], [1%nat; 4%nat; 2%nat]).
Proof.
  intros run q'.
  destruct (timer_poll_runs_due run (fun t w => w ++ [expire t]) (fun t q w => eq_refl)
    (-2147483648) (mkTimer 0 2147483647 2)
    [mkTimer 0 2147483640 1; mkTimer 0 2147483647 4; mkTimer 0 (-2147483000) 3] [])
    as (_ & E1 & _ & E2).
  - split; [|repeat (constructor; [|repeat constructor; vm_compute; congruence]); constructor].
    repeat (apply Forall_cons; split); [..|constructor];
      unfold near, left_; rewrite <- Z.leb_le, <- Z.ltb_lt; vm_compute; done.
  - unfold near, left_. rewrite <- Z.leb_le, <- Z.ltb_lt. vm_compute. done.
  - split; [exact E1|exact E2].
Defined.

(** ** Periodic timers do not drift *)

(** The event that re-adds its own timer and counts. *)
Definition periodic (t : Timer) (q : list Timer) (n : nat) : list Timer * nat :=
  (synctimer_readd t q, S n).

Lemma readd_left (now : Z) (t : Timer) :
  0 < _delay t < 1073741824 -> 0 <= i32 (now - tick t) < 1073741824 ->
  i32 (now - i32 (tick t + _delay t)) = i32 (now - tick t) - _delay t.
Proof.
  intros Hd Hr. rewrite i32_sub_r. destruct (i32_shift (now - tick t)) as [k Ek].
  replace (now - (tick t + _delay t)) with (i32 (now - tick t) - _delay t + (- k) * 4294967296) by lia.
  rewrite i32_period. apply i32_small. lia.
Qed.

Lemma periodic_runs (now : Z) (r : nat) : forall (fuel : nat) (t : Timer) (i n : nat),
  (r < fuel)%nat -> 0 < _delay t < 1073741824 -> i32 (now - tick t) = Z.of_nat r ->
  Z.of_nat r < 1073741824 ->
  exists t', timer_poll periodic fuel (fun _ => now) i [t] n
      = Some ([t'], (n + S (Z.to_nat (Z.of_nat r / _delay t)))%nat) /\
    i32 (now - tick t') = Z.of_nat r mod _delay t - _delay t.
Proof.
  induction r as [r IH] using lt_wf_ind. intros [|fuel] t i n Hf Hd Hr Hb; [lia|].
  set (t1 := set_tick (i32 (tick t + _delay t)) t).
  assert (Hr1 : i32 (now - tick t1) = Z.of_nat r - _delay t).
  { cbn. rewrite readd_left; lia. }
  cbn [timer_poll]. rewrite Hr. assert ((Z.of_nat r <? 0) = false) as -> by (apply Z.ltb_ge; lia).
  change (periodic t [] n) with ([t1], S n). cbv iota beta.
  destruct (Z_lt_le_dec (Z.of_nat r) (_delay t)) as [Hlt|Hge].
  - exists t1. rewrite Hr1, Z.div_small, Z.mod_small, Nat.add_1_r by lia. split; [|done].
    destruct fuel; cbn [timer_poll]; rewrite Hr1;
      (assert ((Z.of_nat r - _delay t <? 0) = true) as -> by (apply Z.ltb_lt; lia)); done.
  - set (r' := Z.to_nat (Z.of_nat r - _delay t)).
    assert (Er : Z.of_nat r' = Z.of_nat r + (-1) * _delay t) by lia.
    destruct (IH r' ltac:(lia) fuel t1 (S i) (S n) ltac:(lia) Hd ltac:(rewrite Hr1; lia) ltac:(lia))
      as (t' & E & Ht).
    change (_delay t1) with (_delay t) in *. rewrite Er, Z.div_add in E by lia.
    rewrite Er, Z_mod_plus_full in Ht.
    pose proof (Z.div_le_lower_bound (Z.of_nat r) (_delay t) 1 ltac:(lia) ltac:(lia)).
    exists t'. split; [|exact Ht]. rewrite E. do 2 f_equal. lia.
Qed.

(** A periodic timer, one whose event re-adds it, catches up and does not
    drift: polled [late] ticks after it was due, it runs once for every period
    that has passed and is then due again at the next multiple of its delay
    after the original time, in the future; so re-adding never loops in the poll,
    whether or not the clock has wrapped in between. *)
Theorem timer_periodic_no_drift (now late : Z) (fuel : nat) (t : Timer) (n : nat)
    (Hd : 0 < _delay t < 1073741824) (Hlate : 0 <= late < 1073741824)
    (Hnow : i32 (now - tick t) = late) (Hfuel : late < Z.of_nat fuel) :
  exists t', timer_poll periodic fuel (fun _ => now) 0 [t] n
      = Some ([t'], (n + S (Z.to_nat (late / _delay t)))%nat) /\
    i32 (now - tick t') = late mod _delay t - _delay t /\ i32 (now - tick t') < 0.
Proof.
  destruct (periodic_runs now (Z.to_nat late) fuel t 0 n) as (t' & E & Ht); try lia.
  rewrite Z2Nat.id in E, Ht by lia. exists t'. split; [exact E|].
  pose proof (Z.mod_pos_bound late (_delay t)). lia.
Qed.

(** Due every 10 ticks, 25 late, across the wrap. *)
Lemma timer_periodic_no_drift_witness :
  exists t', timer_poll periodic 26 (fun _ => -2147483648 + 20) 0 [mkTimer 10 2147483643 0] 0%nat
    = Some ([t'], 3%nat) /\ i32 (-2147483648 + 20 - tick t') = -5.
Proof.
  destruct (timer_periodic_no_drift (-2147483648 + 20) 25 26 (mkTimer 10 2147483643 0) 0%nat)
    as (t' & E & H1 & _); [cbn; lia|lia|reflexivity|lia|].
  exists t'. split; [exact E|exact H1].
Defined.
