(* ===== verification/DList.v ===== *)
(** * Linked lists: [bertos/struct/list.h]

    The doubly linked lists behind the timer queues, with their aliasing: a
    [Store] maps the address of every [Node] to its two pointers, so the head
    and the tail of a list, its members and the nodes of other lists share one
    memory and each macro is the sequence of its reads and writes.  Reading or
    writing through an address that holds no node is undefined behaviour:
    [None].  [list_at] says which nodes a list holds; the theorems show that the
    macros refine the operations on that sequence. *)

From Stdlib Require Import ZArith Lia Bool List Sorted.
From stdpp Require Import prelude gmap.
From S2P Require Import Prelude.

Open Scope Z_scope.

(** ** Nodes and memory *)

Record Node := mkNode { succ : Z; pred : Z }.

Abbreviation Store := (gmap Z Node).

Definition NULL : Z := 0.

(** [&l->head] is the address of the list, [&l->tail] lies behind one [Node] of
    two 16-bit pointers. *)
Definition tail (l : Z) : Z := l + 4.

Definition get_succ (a : Z) (m : Store) : option Z := succ <$> m !! a.
Definition get_pred (a : Z) (m : Store) : option Z := pred <$> m !! a.

Definition set_succ (a v : Z) (m : Store) : option Store :=
  n ← m !! a; Some (<[a := mkNode v (pred n)]> m).
Definition set_pred (a v : Z) (m : Store) : option Store :=
  n ← m !! a; Some (<[a := mkNode (succ n) v]> m).

(** ** The macros *)

Definition LIST_HEAD (l : Z) (m : Store) : option Z := get_succ l m.
Definition LIST_TAIL (l : Z) (m : Store) : option Z := get_pred (tail l) m.

Definition LIST_INIT (l : Z) (m : Store) : option Store :=
  m ← set_succ l (tail l) m;
  m ← set_pred l NULL m;
  m ← set_succ (tail l) NULL m;
  set_pred (tail l) l m.

Definition LIST_EMPTY (l : Z) (m : Store) : option bool :=
  s ← get_succ l m; Some (s =? tail l).

Definition ADDHEAD (l n : Z) (m : Store) : option Store :=
  s ← get_succ l m; m ← set_succ n s m;
  s ← get_succ l m; p ← get_pred s m; m ← set_pred n p m;
  s ← get_succ n m; m ← set_pred s n m;
  p ← get_pred n m; set_succ p n m.

Definition ADDTAIL (l n : Z) (m : Store) : option Store :=
  m ← set_succ n (tail l) m;
  p ← get_pred (tail l) m; m ← set_pred n p m;
  p ← get_pred n m; m ← set_succ p n m;
  set_pred (tail l) n m.

Definition INSERT_BEFORE (n ln : Z) (m : Store) : option Store :=
  m ← set_succ n ln m;
  p ← get_pred ln m; m ← set_pred n p m;
  p ← get_pred ln m; m ← set_succ p n m;
  set_pred ln n m.

Definition REMOVE (n : Z) (m : Store) : option Store :=
  p ← get_pred n m; s ← get_succ n m; m ← set_succ p s m;
  s ← get_succ n m; p ← get_pred n m; set_pred s p m.

(** A null pointer is returned for an empty list. *)
Definition list_remHead (l : Z) (m : Store) : option (Z * Store) :=
  e ← LIST_EMPTY l m;
  if e : bool then Some (NULL, m)
  else
    n ← get_succ l m;
    s ← get_succ n m; m ← set_succ l s m;
    s ← get_succ n m; m ← set_pred s l m;
    Some (n, m).

Definition list_remTail (l : Z) (m : Store) : option (Z * Store) :=
  e ← LIST_EMPTY l m;
  if e : bool then Some (NULL, m)
  else
    n ← get_pred (tail l) m;
    p ← get_pred n m; m ← set_pred (tail l) p m;
    p ← get_pred n m; m ← set_succ p (tail l) m;
    Some (n, m).

(** *** Iteration

    [body n s] is one turn at node [n] on a state that contains the memory; it
    says whether the loop breaks.  The result is the value of the loop's
    variable behind the loop.  Each turn consumes one unit of [fuel]. *)
Section Foreach.
Context {S : Type}.
Variable mem : S -> Store.
Variable body : Z -> S -> option (S * bool).

Fixpoint foreach_from (next : Node -> Z) (fuel : nat) (n : Z) (s : S) : option (Z * S) :=
  nd ← mem s !! n;
  if next nd =? NULL then Some (n, s)
  else
    match fuel with
    | O => None
    | Datatypes.S fuel' =>
        '(s, break) ← body n s;
        if break : bool then Some (n, s)
        else nd ← mem s !! n; foreach_from next fuel' (next nd) s
    end.

Definition FOREACH_NODE (fuel : nat) (l : Z) (s : S) : option (Z * S) :=
  n ← LIST_HEAD l (mem s); foreach_from succ fuel n s.

Definition REVERSE_FOREACH_NODE (fuel : nat) (l : Z) (s : S) : option (Z * S) :=
  n ← LIST_TAIL l (mem s); foreach_from pred fuel n s.

(** The successor [p] is read before the body runs. *)
Fixpoint foreach_safe_from (fuel : nat) (n p : Z) (s : S) : option (Z * S) :=
  nd ← mem s !! n;
  if succ nd =? NULL then Some (n, s)
  else
    match fuel with
    | O => None
    | Datatypes.S fuel' =>
        '(s, break) ← body n s;
        if break : bool then Some (n, s)
        else let n := p in p ← get_succ n (mem s); foreach_safe_from fuel' n p s
    end.

Definition FOREACH_NODE_SAFE (fuel : nat) (l : Z) (s : S) : option (Z * S) :=
  n ← LIST_HEAD l (mem s); p ← get_succ n (mem s); foreach_safe_from fuel n p s.
End Foreach.

(** *** Priority queues

    [pri] gives the priorities, a field of the nodes that the macros only
    read. *)
Definition search (fuel : nat) (stop : Z -> bool) (l : Z) (m : Store) : option (Z * Store) :=
  FOREACH_NODE (fun m => m) (fun n m => Some (m, stop n)) fuel l m.

Definition LIST_ENQUEUE_HEAD (fuel : nat) (pri : Z -> Z) (l n : Z) (m : Store) : option Store :=
  '(ln, m) ← search fuel (fun ln => pri ln <=? pri n) l m;
  INSERT_BEFORE n ln m.

Definition LIST_ENQUEUE (fuel : nat) (pri : Z -> Z) (l n : Z) (m : Store) : option Store :=
  '(ln, m) ← search fuel (fun ln => pri ln <? pri n) l m;
  INSERT_BEFORE n ln m.

(** ** What a list holds *)

(** The nodes of a chain between [prv] and [nxt], as they lie in memory. *)
Fixpoint nodes (prv : Z) (xs : list Z) (nxt : Z) : list (Z * Node) :=
  match xs with
  | [] => []
  | x :: xs => (x, mkNode (List.hd nxt xs) prv) :: nodes x xs nxt
  end.

Definition holds (m : Store) (ns : list (Z * Node)) : Prop :=
  Forall (fun '(a, n) => m !! a = Some n) ns.

(** Head, members and tail. *)
Definition whole (l : Z) (xs : list Z) : list Z := l :: xs ++ [tail l].

Definition list_at (m : Store) (l : Z) (xs : list Z) : Prop :=
  NoDup (whole l xs) /\ (NULL ∉ whole l xs) /\ holds m (nodes NULL (whole l xs) NULL).

(** ** Chains *)

Lemma last_cons {A} (x : A) xs d : List.last (x :: xs) d = List.last xs x.
Proof.
  revert x d. induction xs as [|y xs IH]; intros x d; [done|]. 
  change (List.last (y :: xs) d = List.last (y :: xs) x). by rewrite !IH.
Qed.

Lemma nodes_app prv xs ys nxt :
  nodes prv (xs ++ ys) nxt = nodes prv xs (List.hd nxt ys) ++ nodes (List.last xs prv) ys nxt.
Proof.
  revert prv. induction xs as [|x xs IH]; intros prv; [done|].
  rewrite last_cons. cbn [app nodes]. rewrite IH. by destruct xs.
Qed.

Lemma nodes_fst prv xs nxt : (nodes prv xs nxt).*1 = xs.
Proof. revert prv. induction xs as [|x xs IH]; intros prv; [done|]. cbn. by f_equal. Qed.

Lemma holds_app m xs ys : holds m (xs ++ ys) <-> holds m xs /\ holds m ys.
Proof. apply Forall_app. Qed.

Lemma holds_cons m a n ns : holds m ((a, n) :: ns) <-> m !! a = Some n /\ holds m ns.
Proof. unfold holds. by rewrite Forall_cons. Qed.

(** A chain is untouched by what happens elsewhere. *)
Lemma holds_agree m m' prv xs nxt :
  (forall a, a ∈ xs -> m' !! a = m !! a) ->
  holds m (nodes prv xs nxt) -> holds m' (nodes prv xs nxt).
Proof.
  intros E H. apply Forall_forall. intros [a n] Ha. rewrite E.
  - unfold holds in H. rewrite Forall_forall in H. by apply (H (a, n)).
  - rewrite <- (nodes_fst prv xs nxt). apply list_elem_of_fmap. by exists (a, n).
Qed.

(** [n] has been linked between the neighbours [p] and [q]; nothing else
    changed. *)
Definition linked (m m' : Store) (p n q : Z) : Prop :=
  exists sq pp,
    m !! p = Some (mkNode q pp) /\ m !! q = Some (mkNode sq p) /\
    m' !! p = Some (mkNode n pp) /\ m' !! n = Some (mkNode q p) /\ m' !! q = Some (mkNode sq n) /\
    forall a, a <> p -> a <> n -> a <> q -> m' !! a = m !! a.

(** The neighbours [p] and [q] of [n] have been linked to each other. *)
Definition unlinked (m m' : Store) (p n q : Z) : Prop :=
  exists sq pp,
    m !! p = Some (mkNode n pp) /\ m !! q = Some (mkNode sq n) /\
    m' !! p = Some (mkNode q pp) /\ m' !! q = Some (mkNode sq p) /\
    forall a, a <> p -> a <> q -> m' !! a = m !! a.

(** Two neighbours in a chain, and what lies around them. *)
Lemma holds_at m prv A p q B nxt :
  holds m (nodes prv (A ++ p :: q :: B) nxt) <->
  holds m (nodes prv A p) /\ m !! p = Some (mkNode q (List.last A prv)) /\
  m !! q = Some (mkNode (List.hd nxt B) p) /\ holds m (nodes q B nxt).
Proof. rewrite nodes_app, holds_app. cbn [nodes List.hd]. by rewrite !holds_cons. Qed.

Lemma linked_holds m m' prv A p n q B nxt :
  NoDup (A ++ p :: n :: q :: B) ->
  holds m (nodes prv (A ++ p :: q :: B) nxt) -> linked m m' p n q ->
  holds m' (nodes prv (A ++ p :: n :: q :: B) nxt).
Proof.
  intros Hd (HA & Hp & Hq & HB)%holds_at (sq & pp & E1 & E2 & E3 & E4 & E5 & E).
  simplify_eq. apply NoDup_app in Hd as (_ & HdA & Hd).
  rewrite !NoDup_cons in Hd. destruct Hd as (Hp1 & Hn1 & Hq1 & _).
  apply holds_at. split_and!; [|done|done|].
  - eapply holds_agree; [|exact HA]. intros a Ha. specialize (HdA a Ha). set_solver.
  - cbn [nodes]. apply holds_cons. split; [done|]. eapply holds_agree; [|exact HB]. set_solver.
Qed.

Lemma unlinked_holds m m' prv A p n q B nxt :
  NoDup (A ++ p :: n :: q :: B) ->
  holds m (nodes prv (A ++ p :: n :: q :: B) nxt) -> unlinked m m' p n q ->
  holds m' (nodes prv (A ++ p :: q :: B) nxt).
Proof.
  intros Hd (HA & Hp & Hn & HB)%holds_at (sq & pp & E1 & E2 & E3 & E4 & E).
  cbn [nodes] in HB. apply holds_cons in HB as [Hq HB]. simplify_eq.
  apply NoDup_app in Hd as (_ & HdA & Hd).
  rewrite !NoDup_cons in Hd. destruct Hd as (Hp1 & Hn1 & Hq1 & _).
  apply holds_at. split_and!; [|done|done|].
  - eapply holds_agree; [|exact HA]. intros a Ha. specialize (HdA a Ha). set_solver.
  - eapply holds_agree; [|exact HB]. set_solver.
Qed.

(** ** What the macros do to the neighbours *)

(** [chained m p q]: [q] follows [p]. *)
Definition chained (m : Store) (p q : Z) : Prop :=
  exists sq pp, m !! p = Some (mkNode q pp) /\ m !! q = Some (mkNode sq p).

Lemma some_bind {A B} (x : A) (f : A -> option B) : (Some x ≫= f) = f x.
Proof. done. Qed.

Lemma some_fmap {A B} (x : A) (f : A -> B) : f <$> Some x = Some (f x).
Proof. done. Qed.

(** Runs a sequence of reads and writes. *)
Ltac run_store :=
  unfold get_succ, get_pred, set_succ, set_pred in *;
  repeat first
    [ rewrite lookup_insert_eq
    | rewrite lookup_insert_ne by congruence
    | match goal with E : ?m !! ?a = Some _ |- context [?m !! ?a] => rewrite E end
    | rewrite some_bind
    | rewrite some_fmap
    | progress cbn [succ pred] ].

Lemma INSERT_BEFORE_links m p n q :
  chained m p q -> is_Some (m !! n) -> p <> q -> n <> p -> n <> q ->
  exists m', INSERT_BEFORE n q m = Some m' /\ linked m m' p n q.
Proof.
  intros (sq & pp & Ep & Eq) [nd En] Hpq Hnp Hnq. unfold INSERT_BEFORE. run_store.
  eexists. split; [reflexivity|]. exists sq, pp. split_and!; intros; by simplify_map_eq.
Qed.

Lemma ADDTAIL_links m l p n :
  chained m p (tail l) -> is_Some (m !! n) -> p <> tail l -> n <> p -> n <> tail l ->
  exists m', ADDTAIL l n m = Some m' /\ linked m m' p n (tail l).
Proof.
  intros (sq & pp & Ep & Eq) [nd En] Hpq Hnp Hnq. unfold ADDTAIL. run_store.
  eexists. split; [reflexivity|]. exists sq, pp. split_and!; intros; by simplify_map_eq.
Qed.

Lemma ADDHEAD_links m l n q :
  chained m l q -> is_Some (m !! n) -> l <> q -> n <> l -> n <> q ->
  exists m', ADDHEAD l n m = Some m' /\ linked m m' l n q.
Proof.
  intros (sq & pp & Ep & Eq) [nd En] Hpq Hnp Hnq. unfold ADDHEAD. run_store.
  eexists. split; [reflexivity|]. exists sq, pp. split_and!; intros; by simplify_map_eq.
Qed.

Lemma REMOVE_unlinks m p n q :
  chained m p n -> chained m n q -> p <> q -> n <> p -> n <> q ->
  exists m', REMOVE n m = Some m' /\ unlinked m m' p n q.
Proof.
  intros (sn & pp & Ep & En) (sq & pn & En' & Eq) Hpq Hnp Hnq. simplify_eq.
  unfold REMOVE. run_store.
  eexists. split; [reflexivity|]. exists sq, pp. split_and!; intros; by simplify_map_eq.
Qed.

Lemma remHead_unlinks m l n q :
  chained m l n -> chained m n q -> n <> tail l -> l <> q -> n <> l -> n <> q ->
  exists m', list_remHead l m = Some (n, m') /\ unlinked m m' l n q.
Proof.
  intros (sn & pp & Ep & En) (sq & pn & En' & Eq) Ht Hpq Hnp Hnq. simplify_eq.
  unfold list_remHead, LIST_EMPTY. run_store.
  assert ((n =? tail l) = false) as -> by lia. run_store.
  eexists. split; [reflexivity|]. exists sq, pp. split_and!; intros; by simplify_map_eq.
Qed.

Lemma remTail_unlinks m l s p n :
  get_succ l m = Some s -> s <> tail l ->
  chained m p n -> chained m n (tail l) -> p <> tail l -> n <> p -> n <> tail l ->
  exists m', list_remTail l m = Some (n, m') /\ unlinked m m' p n (tail l).
Proof.
  intros Es Hs (sn & pp & Ep & En) (sq & pn & En' & Eq) Hpq Hnp Hnq. simplify_eq.
  unfold list_remTail, LIST_EMPTY. rewrite Es. cbn.
  assert ((s =? tail l) = false) as -> by lia. run_store.
  eexists. split; [reflexivity|]. exists sq, pp. split_and!; intros; by simplify_map_eq.
Qed.

Lemma linked_alloc m m' p n q a : linked m m' p n q -> is_Some (m !! a) -> is_Some (m' !! a).
Proof.
  intros (sq & pp & _ & _ & E1 & E2 & E3 & E) Ha.
  destruct (decide (a = p)) as [->|]; [by eexists|].
  destruct (decide (a = n)) as [->|]; [by eexists|].
  destruct (decide (a = q)) as [->|]; [by eexists|]. by rewrite E.
Qed.

Lemma unlinked_alloc m m' p n q a : unlinked m m' p n q -> is_Some (m !! a) -> is_Some (m' !! a).
Proof.
  intros (sq & pp & _ & _ & E1 & E2 & E) Ha.
  destruct (decide (a = p)) as [->|]; [by eexists|].
  destruct (decide (a = q)) as [->|]; [by eexists|]. by rewrite E.
Qed.

(** ** What the macros do to a list *)

(** A list around a place between [A] and [B]: the neighbours of the place are
    [List.last A l] and [List.hd (tail l) B]. *)
Lemma whole_split l A B :
  exists A' B', forall ns,
    whole l (A ++ ns ++ B) = A' ++ List.last A l :: ns ++ List.hd (tail l) B :: B'.
Proof.
  exists (removelast (l :: A)), (List.tl (B ++ [tail l])). intros ns. unfold whole.
  rewrite <- !(assoc app), !app_comm_cons.
  rewrite (app_removelast_last l (l := l :: A)) at 1 by done.
  rewrite last_cons, <- (assoc app). cbn. do 3 f_equal. by destruct B.
Qed.

Lemma chained_between m l A B :
  list_at m l (A ++ B) -> chained m (List.last A l) (List.hd (tail l) B).
Proof.
  intros (_ & _ & H). destruct (whole_split l A B) as (A' & B' & E). specialize (E []).
  cbn in E. rewrite E in H. apply holds_at in H as (_ & H1 & H2 & _). by do 2 eexists.
Qed.

Lemma chained_around m l A n B :
  list_at m l (A ++ n :: B) ->
  chained m (List.last A l) n /\ chained m n (List.hd (tail l) B).
Proof.
  intros H. split; [exact (chained_between m l A (n :: B) H)|].
  replace (A ++ n :: B) with ((A ++ [n]) ++ B) in H by by rewrite <- (assoc app).
  apply chained_between in H. by rewrite List.last_last in H.
Qed.

(** A node that is in a list, or the head, or the tail, is none of the others. *)
Lemma around_ne l A n B :
  NoDup (whole l (A ++ n :: B)) ->
  List.last A l <> n /\ n <> List.hd (tail l) B /\ List.last A l <> List.hd (tail l) B.
Proof.
  destruct (whole_split l A B) as (A' & B' & E). specialize (E [n]). cbn in E. rewrite E.
  intros (_ & _ & H)%NoDup_app. rewrite !NoDup_cons in H. set_solver.
Qed.

Lemma between_ne l A B :
  NoDup (whole l (A ++ B)) -> List.last A l <> List.hd (tail l) B.
Proof.
  destruct (whole_split l A B) as (A' & B' & E). specialize (E []). cbn in E. rewrite E.
  intros (_ & _ & H)%NoDup_app. rewrite !NoDup_cons in H. set_solver.
Qed.

Lemma whole_perm l A n B : Permutation (whole l (A ++ n :: B)) (n :: whole l (A ++ B)).
Proof. unfold whole. rewrite <- !(assoc app). cbn. solve_Permutation. Qed.

Lemma list_at_insert m m' l A n B :
  list_at m l (A ++ B) -> n ∉ whole l (A ++ B) -> n <> NULL ->
  linked m m' (List.last A l) n (List.hd (tail l) B) -> list_at m' l (A ++ n :: B).
Proof.
  intros (Hd & H0 & H) Hn Hnz HL. destruct (whole_split l A B) as (A' & B' & E).
  assert (Hd' : NoDup (whole l (A ++ n :: B))) by (rewrite whole_perm; by constructor).
  split_and!; [done|rewrite whole_perm; set_solver|].
  pose proof (E []) as E0. specialize (E [n]). cbn in E, E0. rewrite E in *. rewrite E0 in *.
  by eapply linked_holds.
Qed.

Lemma list_at_remove m m' l A n B :
  list_at m l (A ++ n :: B) ->
  unlinked m m' (List.last A l) n (List.hd (tail l) B) -> list_at m' l (A ++ B).
Proof.
  intros (Hd & H0 & H) HL. destruct (whole_split l A B) as (A' & B' & E).
  assert (Hd' : NoDup (whole l (A ++ B))).
  { rewrite whole_perm in Hd. by apply NoDup_cons in Hd as [_ Hd]. }
  split_and!; [done|rewrite whole_perm in H0; set_solver|].
  pose proof (E []) as E0. specialize (E [n]). cbn in E, E0. rewrite E in *. rewrite E0 in *.
  by eapply unlinked_holds.
Qed.

(** *** Reading the links of a list *)

Lemma link_of m l A n B :
  list_at m l (A ++ n :: B) -> m !! n = Some (mkNode (List.hd (tail l) B) (List.last A l)).
Proof.
  intros H. destruct (chained_around m l A n B H) as [(s & p & _ & En) (s' & p' & En' & _)].
  by simplify_eq.
Qed.

Lemma link_head m l xs : list_at m l xs -> m !! l = Some (mkNode (List.hd (tail l) xs) NULL).
Proof. intros (_ & _ & H). cbn in H. apply holds_cons in H as [-> _]. by destruct xs. Qed.

Lemma link_tail m l xs : list_at m l xs -> m !! tail l = Some (mkNode NULL (List.last xs l)).
Proof.
  intros (_ & _ & H). unfold whole in H. rewrite app_comm_cons, nodes_app, holds_app in H.
  destruct H as [_ H]. apply holds_cons in H as [-> _]. by rewrite last_cons.
Qed.

Lemma member_ne m l A n B : list_at m l (A ++ n :: B) -> n <> NULL /\ n <> l /\ n <> tail l.
Proof.
  intros (Hd & H0 & _). rewrite whole_perm in Hd, H0. apply NoDup_cons in Hd as [Hn _].
  unfold whole in *. set_solver.
Qed.

Lemma ends_ne m l xs : list_at m l xs -> l <> NULL /\ tail l <> NULL /\ l <> tail l.
Proof.
  intros (Hd & H0 & _). unfold whole in *. apply NoDup_cons in Hd as [Hl _]. set_solver.
Qed.

Lemma hd_ne_null m l A B : list_at m l (A ++ B) -> List.hd (tail l) B <> NULL.
Proof.
  intros H. destruct B as [|b B]; cbn.
  - by apply ends_ne in H as (_ & ? & _).
  - by apply member_ne in H as (? & _).
Qed.

Lemma last_ne_null m l A B : list_at m l (A ++ B) -> List.last A l <> NULL.
Proof.
  intros H. destruct A as [|a A _] using rev_ind; cbn.
  - by apply ends_ne in H as (? & _ & _).
  - rewrite List.last_last. rewrite <- (assoc app) in H. by apply member_ne in H as (? & _).
Qed.

(** ** Loops over a list

    The reference: a loop over the members, in the given order. *)
Section Visit.
Context {S : Type}.
Variable mem : S -> Store.
Variable body : Z -> S -> option (S * bool).

Fixpoint visit (xs : list Z) (stop : Z) (s : S) : option (Z * S) :=
  match xs with
  | [] => Some (stop, s)
  | x :: xs => '(s, break) ← body x s; if break : bool then Some (x, s) else visit xs stop s
  end.

Section Keeps.
Variable l : Z.
Variable xs : list Z.
Hypothesis keeps : forall n s s' b,
  n ∈ xs -> list_at (mem s) l xs -> body n s = Some (s', b) -> list_at (mem s') l xs.

Lemma foreach_from_visits B : forall A fuel s,
  xs = A ++ B -> list_at (mem s) l xs -> (length B <= fuel)%nat ->
  foreach_from mem body succ fuel (List.hd (tail l) B) s = visit B (tail l) s.
Proof.
  induction B as [|n B IH]; intros A fuel s E Hs Hf.
  - destruct fuel; cbn [foreach_from List.hd visit]; by rewrite (link_tail _ _ _ Hs).
  - destruct fuel as [|fuel]; [cbn in Hf; lia|]. rewrite E in Hs.
    assert (n ∈ xs) as Hn by (rewrite E; set_solver).
    pose proof (hd_ne_null (mem s) l (A ++ [n]) B ltac:(by rewrite <- (assoc app))) as Hz.
    cbn [foreach_from List.hd visit]. rewrite (link_of _ _ _ _ _ Hs), some_bind. cbn [succ].
    assert ((List.hd (tail l) B =? NULL) = false) as -> by lia.
    rewrite <- E in Hs. destruct (body n s) as [[s' [|]]|] eqn:Eb; cbn; try done.
    pose proof (keeps _ _ _ _ Hn Hs Eb) as Hs'. rewrite E in Hs'.
    rewrite (link_of _ _ _ _ _ Hs'), some_bind. cbn [succ].
    apply (IH (A ++ [n])); [by rewrite <- (assoc app)|by rewrite E|cbn in Hf; lia].
Qed.

Lemma FOREACH_NODE_visits fuel s :
  list_at (mem s) l xs -> (length xs <= fuel)%nat ->
  FOREACH_NODE mem body fuel l s = visit xs (tail l) s.
Proof.
  intros Hs Hf. unfold FOREACH_NODE, LIST_HEAD, get_succ.
  rewrite (link_head _ _ _ Hs), some_fmap, some_bind. by apply (foreach_from_visits xs []).
Qed.

Lemma foreach_back_visits A : forall B fuel s,
  xs = A ++ B -> list_at (mem s) l xs -> (length A <= fuel)%nat ->
  foreach_from mem body pred fuel (List.last A l) s = visit (List.rev A) l s.
Proof.
  induction A as [|n A IH] using rev_ind; intros B fuel s E Hs Hf.
  - destruct fuel; cbn [foreach_from List.last List.rev visit]; by rewrite (link_head _ _ _ Hs).
  - rewrite length_app in Hf. destruct fuel as [|fuel]; [cbn in Hf; lia|].
    rewrite <- (assoc app) in E. cbn in E. rewrite E in Hs.
    assert (n ∈ xs) as Hn by (rewrite E; set_solver).
    pose proof (last_ne_null (mem s) l A (n :: B) Hs) as Hz.
    rewrite List.last_last, rev_unit. cbn [foreach_from visit].
    rewrite (link_of _ _ _ _ _ Hs), some_bind. cbn [pred].
    assert ((List.last A l =? NULL) = false) as -> by lia.
    rewrite <- E in Hs. destruct (body n s) as [[s' [|]]|] eqn:Eb; cbn; try done.
    pose proof (keeps _ _ _ _ Hn Hs Eb) as Hs'. rewrite E in Hs'.
    rewrite (link_of _ _ _ _ _ Hs'), some_bind. cbn [pred].
    apply (IH (n :: B)); [done|by rewrite E|cbn in Hf; lia].
Qed.

Lemma REVERSE_FOREACH_NODE_visits fuel s :
  list_at (mem s) l xs -> (length xs <= fuel)%nat ->
  REVERSE_FOREACH_NODE mem body fuel l s = visit (List.rev xs) l s.
Proof.
  intros Hs Hf. unfold REVERSE_FOREACH_NODE, LIST_TAIL, get_pred.
  rewrite (link_tail _ _ _ Hs), some_fmap, some_bind.
  apply (foreach_back_visits xs []); [by rewrite app_nil_r|done|done].
Qed.
End Keeps.

(** The safe loop allows the body to remove the node it visits. *)
Section Removes.
Variable l : Z.
Hypothesis keeps_or_removes : forall A n B s s' b,
  list_at (mem s) l (A ++ n :: B) -> body n s = Some (s', b) ->
  list_at (mem s') l (A ++ n :: B) \/ list_at (mem s') l (A ++ B).

Lemma foreach_safe_visits B : forall A fuel s p,
  list_at (mem s) l (A ++ B) -> get_succ (List.hd (tail l) B) (mem s) = Some p ->
  (length B <= fuel)%nat ->
  foreach_safe_from mem body fuel (List.hd (tail l) B) p s = visit B (tail l) s.
Proof.
  induction B as [|n B IH]; intros A fuel s p Hs Hp Hf.
  - destruct fuel; cbn [foreach_safe_from List.hd visit]; by rewrite (link_tail _ _ _ Hs).
  - destruct fuel as [|fuel]; [cbn in Hf; lia|]. pose proof Hs as Hs0.
    replace (A ++ n :: B) with ((A ++ [n]) ++ B) in Hs0 by by rewrite <- (assoc app).
    pose proof (hd_ne_null _ _ _ _ Hs0) as Hz.
    unfold get_succ in Hp. cbn [List.hd] in Hp. rewrite (link_of _ _ _ _ _ Hs) in Hp.
    cbn in Hp. injection Hp as <-.
    cbn [foreach_safe_from List.hd visit]. rewrite (link_of _ _ _ _ _ Hs), some_bind. cbn [succ].
    assert ((List.hd (tail l) B =? NULL) = false) as -> by lia.
    destruct (body n s) as [[s' [|]]|] eqn:Eb; cbn [mbind option_bind]; try done.
    assert (exists A', list_at (mem s') l (A' ++ B)) as [A' Hs'].
    { destruct (keeps_or_removes _ _ _ _ _ _ Hs Eb) as [H|H]; [|by exists A].
      exists (A ++ [n]). by rewrite <- (assoc app). }
    assert (exists q, get_succ (List.hd (tail l) B) (mem s') = Some q) as [q Hq].
    { unfold get_succ. destruct B as [|b B]; cbn [List.hd].
      - rewrite (link_tail _ _ _ Hs'). by eexists.
      - rewrite (link_of _ _ _ _ _ Hs'). by eexists. }
    rewrite Hq, some_bind. apply (IH A'); [done|done|cbn in Hf; lia].
Qed.

Lemma FOREACH_NODE_SAFE_visits xs fuel s :
  list_at (mem s) l xs -> (length xs <= fuel)%nat ->
  FOREACH_NODE_SAFE mem body fuel l s = visit xs (tail l) s.
Proof.
  intros Hs Hf. unfold FOREACH_NODE_SAFE, LIST_HEAD.
  assert (exists q, get_succ (List.hd (tail l) xs) (mem s) = Some q) as [q Hq].
  { unfold get_succ. destruct xs as [|b B]; cbn [List.hd].
    - rewrite (link_tail _ _ _ Hs). by eexists.
    - rewrite (link_of _ _ [] _ _ Hs). by eexists. }
  unfold get_succ in *. rewrite (link_head _ _ _ Hs), some_fmap, some_bind. cbn [succ].
  rewrite Hq, some_bind. by apply (foreach_safe_visits xs []).
Qed.
End Removes.
End Visit.

(** ** What the macros do to a list *)

(** From the list [xs] at [l] to [xs']: every node stays allocated, and nothing
    but [n] and the nodes of the list was written. *)
Definition becomes (m m' : Store) (l n : Z) (xs xs' : list Z) : Prop :=
  list_at m' l xs' /\ (forall a, is_Some (m !! a) -> is_Some (m' !! a)) /\
  forall a, a <> n -> a ∉ whole l xs -> m' !! a = m !! a.

(** A node that can be added: it is allocated and not in the list. *)
Definition fresh (m : Store) (l n : Z) (xs : list Z) : Prop :=
  is_Some (m !! n) /\ (n ∉ whole l xs) /\ n <> NULL.

Lemma last_hd_whole l A B :
  (List.last A l ∈ whole l (A ++ B)) /\ (List.hd (tail l) B ∈ whole l (A ++ B)).
Proof.
  destruct (whole_split l A B) as (A' & B' & E). specialize (E []). cbn in E. rewrite E.
  set_solver.
Qed.

Lemma linked_becomes m m' l A n B :
  list_at m l (A ++ B) -> fresh m l n (A ++ B) ->
  linked m m' (List.last A l) n (List.hd (tail l) B) ->
  becomes m m' l n (A ++ B) (A ++ n :: B).
Proof.
  intros H (Ha & Hn & Hz) HL. split_and!.
  - by eapply list_at_insert.
  - intros a. by eapply linked_alloc.
  - destruct HL as (_ & _ & _ & _ & _ & _ & _ & E), (last_hd_whole l A B). set_solver.
Qed.

Lemma unlinked_becomes m m' l A n B :
  list_at m l (A ++ n :: B) ->
  unlinked m m' (List.last A l) n (List.hd (tail l) B) ->
  becomes m m' l n (A ++ n :: B) (A ++ B).
Proof.
  intros H HL. split_and!.
  - by eapply list_at_remove.
  - intros a. by eapply unlinked_alloc.
  - destruct HL as (_ & _ & _ & _ & _ & _ & E), (last_hd_whole l A B). intros a Ha Hw.
    rewrite whole_perm in Hw. set_solver.
Qed.

Lemma fresh_ne m l A n B :
  list_at m l (A ++ B) -> fresh m l n (A ++ B) ->
  is_Some (m !! n) /\ List.last A l <> List.hd (tail l) B /\
  n <> List.last A l /\ n <> List.hd (tail l) B.
Proof.
  intros (Hd & _ & _) (Ha & Hn & _). destruct (last_hd_whole l A B).
  split_and!; [done|by apply between_ne|set_solver|set_solver].
Qed.

Lemma LIST_EMPTY_at m l xs :
  list_at m l xs -> LIST_EMPTY l m = Some (match xs with [] => true | _ => false end).
Proof.
  intros H. unfold LIST_EMPTY, get_succ. rewrite (link_head _ _ _ H). cbn. f_equal.
  destruct xs as [|x xs]; cbn; [lia|]. apply (member_ne m l [] x xs) in H. lia.
Qed.

Lemma INSERT_BEFORE_at m l A n B :
  list_at m l (A ++ B) -> fresh m l n (A ++ B) ->
  exists m', INSERT_BEFORE n (List.hd (tail l) B) m = Some m' /\
    becomes m m' l n (A ++ B) (A ++ n :: B).
Proof.
  intros H Hf. destruct (fresh_ne _ _ _ _ _ H Hf) as (? & ? & ? & ?).
  destruct (INSERT_BEFORE_links m (List.last A l) n (List.hd (tail l) B)) as (m' & E & HL);
    try done; [by apply chained_between|]. exists m'. split; [done|]. by apply linked_becomes.
Qed.

Lemma ADDTAIL_at m l xs n :
  list_at m l xs -> fresh m l n xs ->
  exists m', ADDTAIL l n m = Some m' /\ becomes m m' l n xs (xs ++ [n]).
Proof.
  intros H Hf. rewrite <- (app_nil_r xs) in H, Hf.
  destruct (fresh_ne _ _ _ _ _ H Hf) as (? & ? & ? & ?).
  destruct (ADDTAIL_links m l (List.last xs l) n) as (m' & E & HL);
    try done; [by apply (chained_between m l xs [])|].
  exists m'. split; [done|]. pose proof (linked_becomes _ _ _ _ _ _ H Hf HL) as HB.
  by rewrite app_nil_r in HB.
Qed.

Lemma ADDHEAD_at m l xs n :
  list_at m l xs -> fresh m l n xs ->
  exists m', ADDHEAD l n m = Some m' /\ becomes m m' l n xs (n :: xs).
Proof.
  intros H Hf. destruct (fresh_ne m l [] n xs H Hf) as (? & ? & ? & ?).
  destruct (ADDHEAD_links m l n (List.hd (tail l) xs)) as (m' & E & HL);
    try done; [by apply (chained_between m l [] xs)|].
  exists m'. split; [done|]. by apply (linked_becomes m m' l []).
Qed.

Lemma REMOVE_at m l A n B :
  list_at m l (A ++ n :: B) ->
  exists m', REMOVE n m = Some m' /\ becomes m m' l n (A ++ n :: B) (A ++ B).
Proof.
  intros H. destruct (chained_around _ _ _ _ _ H), (around_ne l A n B (proj1 H)) as (? & ? & ?).
  destruct (REMOVE_unlinks m (List.last A l) n (List.hd (tail l) B)) as (m' & E & HL);
    try done. exists m'. split; [done|]. by apply unlinked_becomes.
Qed.

Lemma list_remHead_at m l n xs :
  list_at m l (n :: xs) ->
  exists m', list_remHead l m = Some (n, m') /\ becomes m m' l n (n :: xs) xs.
Proof.
  intros H. destruct (chained_around _ _ [] _ _ H), (around_ne l [] n xs (proj1 H)) as (? & ? & ?).
  destruct (member_ne _ _ [] _ _ H) as (_ & _ & ?).
  destruct (remHead_unlinks m l n (List.hd (tail l) xs)) as (m' & E & HL); try done.
  exists m'. split; [done|]. by apply (unlinked_becomes m m' l []).
Qed.

Lemma list_remTail_at m l n xs :
  list_at m l (xs ++ [n]) ->
  exists m', list_remTail l m = Some (n, m') /\ becomes m m' l n (xs ++ [n]) xs.
Proof.
  intros H. destruct (chained_around _ _ _ _ [] H), (around_ne l xs n [] (proj1 H)) as (? & ? & ?).
  assert (exists s, get_succ l m = Some s /\ s <> tail l) as (s & Es & Hs).
  { unfold get_succ. rewrite (link_head _ _ _ H). eexists. split; [done|]. cbn.
    destruct xs as [|x xs]; [by apply (member_ne m l [] n []) in H as (_ & _ & ?)|].
    by apply (member_ne m l [] x _) in H as (_ & _ & ?). }
  destruct (remTail_unlinks m l s (List.last xs l) n) as (m' & E & HL); try done.
  exists m'. split; [done|]. pose proof (unlinked_becomes m m' l xs n [] H HL) as HB.
  by rewrite app_nil_r in HB.
Qed.

Lemma LIST_INIT_at m l :
  is_Some (m !! l) -> is_Some (m !! tail l) -> l <> NULL -> tail l <> NULL ->
  exists m', LIST_INIT l m = Some m' /\ list_at m' l [] /\
    (forall a, is_Some (m !! a) -> is_Some (m' !! a)) /\
    forall a, a <> l -> a <> tail l -> m' !! a = m !! a.
Proof.
  intros [nl El] [nt Et] Hl Ht. assert (Hlt : l <> tail l) by (unfold tail; lia).
  unfold LIST_INIT. run_store. eexists. split; [reflexivity|].
  unfold list_at. split_and!.
  - unfold whole. cbn. apply NoDup_cons. split; [set_solver|apply NoDup_singleton].
  - unfold whole. set_solver.
  - cbn. rewrite !holds_cons. split_and!; [by simplify_map_eq|by simplify_map_eq|constructor].
  - intros a Ha. destruct (decide (a = tail l)) as [->|]; [by simplify_map_eq|].
    destruct (decide (a = l)) as [->|]; by simplify_map_eq.
  - intros a ? ?. by simplify_map_eq.
Qed.

(** ** Priority queues

    Where the search of [LIST_ENQUEUE] puts a node. *)
Fixpoint insert_where (stop : Z -> bool) (n : Z) (xs : list Z) : list Z :=
  match xs with
  | [] => [n]
  | x :: xs => if stop x then n :: x :: xs else x :: insert_where stop n xs
  end.

Lemma insert_where_split stop n xs : exists A B,
  xs = A ++ B /\ insert_where stop n xs = A ++ n :: B /\
  forall (m : Store) e,
    visit (fun x m => Some (m, stop x)) xs e m = Some (List.hd e B, m).
Proof.
  induction xs as [|x xs (A & B & -> & E & V)]; [by exists [], []|]. cbn.
  destruct (stop x); [by exists [], (x :: A ++ B)|].
  exists (x :: A), B. split_and!; [done|by rewrite E|]. intros m e. apply V.
Qed.

Lemma search_finds fuel stop m l n xs :
  list_at m l xs -> (length xs <= fuel)%nat ->
  exists A B, xs = A ++ B /\ insert_where stop n xs = A ++ n :: B /\
    search fuel stop l m = Some (List.hd (tail l) B, m).
Proof.
  intros H Hf. destruct (insert_where_split stop n xs) as (A & B & E & Ei & V).
  exists A, B. split_and!; [done|done|]. rewrite <- V. unfold search.
  apply (FOREACH_NODE_visits (fun m => m) (fun n m => Some (m, stop n)) l xs); [|done|done].
  intros ? ? ? ? _ ? [= <- _]. done.
Qed.

Lemma enqueue_where fuel stop m l n xs :
  list_at m l xs -> fresh m l n xs -> (length xs <= fuel)%nat ->
  exists m', ('(ln, m) ← search fuel stop l m; INSERT_BEFORE n ln m) = Some m' /\
    becomes m m' l n xs (insert_where stop n xs).
Proof.
  intros H Hn Hf. destruct (search_finds fuel stop m l n xs H Hf) as (A & B & -> & -> & ->).
  rewrite some_bind. by apply INSERT_BEFORE_at.
Qed.

(** Highest priority first. *)
Definition by_pri (pri : Z -> Z) : list Z -> Prop := StronglySorted (fun a b => pri b <= pri a).

(** [LIST_ENQUEUE] on the members. *)
Definition enqueue (pri : Z -> Z) (n : Z) : list Z -> list Z :=
  insert_where (fun x => pri x <? pri n) n.

Definition enqueue_head (pri : Z -> Z) (n : Z) : list Z -> list Z :=
  insert_where (fun x => pri x <=? pri n) n.

Lemma insert_where_perm stop n xs : Permutation (insert_where stop n xs) (n :: xs).
Proof.
  destruct (insert_where_split stop n xs) as (A & B & -> & -> & _).
  symmetry. apply Permutation_middle.
Qed.

Lemma enqueue_sorted pri n xs : by_pri pri xs -> by_pri pri (enqueue pri n xs).
Proof.
  unfold by_pri, enqueue. induction 1 as [|x xs Hs IH Hx]; cbn; [by repeat constructor|].
  destruct (pri x <? pri n) eqn:E; zbool.
  - constructor; [by constructor|]. apply Forall_cons. split; [lia|].
    eapply Forall_impl; [exact Hx|]. cbn. lia.
  - constructor; [done|]. rewrite insert_where_perm. by apply Forall_cons.
Qed.

(** Among equals the newcomer is last. *)
Lemma enqueue_fifo pri n xs p :
  by_pri pri xs ->
  List.filter (fun x => pri x =? p) (enqueue pri n xs)
  = List.filter (fun x => pri x =? p) (xs ++ [n]).
Proof.
  unfold by_pri, enqueue. induction 1 as [|x xs Hs IH Hx]; [done|]. cbn [insert_where].
  destruct (pri x <? pri n) eqn:E; zbool.
  - cbn [List.filter]. rewrite List.filter_app. cbn [List.filter app].
    destruct (pri n =? p) eqn:En; [|by rewrite app_nil_r]. zbool.
    assert (forall ys, Forall (fun b => pri b <= pri x) ys ->
      List.filter (fun x => pri x =? p) ys = []) as F.
    { induction 1 as [|y ys Hy _ IHy]; [done|]. cbn.
      assert ((pri y =? p) = false) as -> by lia. done. }
    rewrite (F xs Hx). assert ((pri x =? p) = false) as -> by lia. done.
  - cbn [List.filter app]. by rewrite IH.
Qed.

(** [LIST_ENQUEUE_HEAD] puts a node in front of the first that has no higher
    priority. *)
Lemma enqueue_head_sorted pri n xs : by_pri pri xs -> by_pri pri (enqueue_head pri n xs).
Proof.
  unfold by_pri, enqueue_head. induction 1 as [|x xs Hs IH Hx]; cbn; [by repeat constructor|].
  destruct (pri x <=? pri n) eqn:E; zbool.
  - constructor; [by constructor|]. apply Forall_cons. split; [lia|].
    eapply Forall_impl; [exact Hx|]. cbn. lia.
  - constructor; [done|]. rewrite insert_where_perm. apply Forall_cons. split; [lia|done].
Qed.

(** Its comment in list.h has it otherwise: in front of the first node of the
    same priority, or at the tail. *)
Definition enqueue_head_documented (pri : Z -> Z) (n : Z) : list Z -> list Z :=
  insert_where (fun x => pri x =? pri n) n.

(** The two disagree where there is no node of the same priority but one of a
    lower: what the comment says would not keep the queue in order. *)
Theorem enqueue_head_not_as_documented pri n xs
    (Hs : by_pri pri xs) (Hne : Forall (fun x => pri x <> pri n) xs)
    (Hlow : Exists (fun x => pri x < pri n) xs) :
  by_pri pri (enqueue_head pri n xs) /\ ~ by_pri pri (enqueue_head_documented pri n xs).
Proof.
  split; [by apply enqueue_head_sorted|]. unfold enqueue_head_documented.
  assert (insert_where (fun x => pri x =? pri n) n xs = xs ++ [n]) as ->.
  { clear Hs Hlow. induction Hne as [|x xs Hx _ IH]; [done|]. cbn [insert_where app].
    apply Z.eqb_neq in Hx. by rewrite Hx, IH. }
  unfold by_pri. intros Hw. induction Hlow as [x xs Hx|x xs _ IH]; cbn [app] in Hw;
    apply StronglySorted_inv in Hw as [Hw Hall].
  - apply Forall_app in Hall as [_ Hall]. apply Forall_cons in Hall as [Hn _]. lia.
  - apply StronglySorted_inv in Hs as [Hs _]. apply Forall_cons in Hne as [_ Hne]. by apply IH.
Qed.

(** A node of priority 2 into a queue with priorities 3 and 1. *)
Lemma enqueue_head_not_as_documented_witness :
  enqueue_head (fun x => x) 2 [3; 1] = [3; 2; 1] /\
  enqueue_head_documented (fun x => x) 2 [3; 1] = [3; 1; 2] /\
  ~ by_pri (fun x => x) [3; 1; 2].
Proof.
  split; [reflexivity|]. split; [reflexivity|].
  apply (enqueue_head_not_as_documented (fun x => x) 2 [3; 1]).
  - repeat constructor; lia.
  - repeat constructor; lia.
  - apply Exists_cons_tl, Exists_cons_hd. lia.
Defined.

(** ** A list and its owner *)

Section Owner.
Variable l : Z.
(** The nodes that the owner of the list may put in. *)
Variable N : list Z.

Definition can_add (n : Z) (xs : list Z) : bool := bool_decide (n ∈ N /\ n ∉ xs).

(** What the owner must see to: list and nodes are in memory, apart. *)
Definition owned (m : Store) : Prop :=
  Forall (fun a => is_Some (m !! a)) (l :: tail l :: N) /\
  (NULL ∉ l :: tail l :: N) /\ (l ∉ N) /\ (tail l ∉ N).

(** A list of owned nodes. *)
Definition list_of (m : Store) (xs : list Z) : Prop := owned m /\ list_at m l xs /\ xs ⊆ N.

Lemma list_of_fuel m xs : list_of m xs -> (length xs <= length N)%nat.
Proof.
  intros (_ & (Hd & _ & _) & Hs). apply submseteq_length, NoDup_submseteq; [|exact Hs].
  unfold whole in Hd. apply NoDup_cons in Hd as [_ Hd]. by apply NoDup_app in Hd as (? & _ & _).
Qed.

Lemma can_add_fresh m n xs : list_of m xs -> can_add n xs = true -> fresh m l n xs.
Proof.
  intros ((Ha & H0 & Hl & Ht) & _ & _) [Hn Hx]%bool_decide_eq_true. split_and!.
  - rewrite Forall_forall in Ha. apply Ha. set_solver.
  - unfold whole. set_solver.
  - set_solver.
Qed.

(** Outside the list and its owner's nodes nothing changes. *)
Definition only_owned (m m' : Store) : Prop := forall a, a ∉ l :: tail l :: N -> m' !! a = m !! a.

Lemma list_of_becomes m m' n xs xs' :
  list_of m xs -> n ∈ N -> xs' ⊆ n :: xs -> becomes m m' l n xs xs' ->
  list_of m' xs' /\ only_owned m m'.
Proof.
  intros ((Ha & H0 & Hl & Ht) & H & Hs) Hn Hx (HL & Hal & Hf). split.
  - split_and!; [|done|].
    + split_and!; [|done..]. eapply Forall_impl; [exact Ha|]. intros a. apply Hal.
    + set_solver.
  - intros a Hn'. apply Hf; [set_solver|]. unfold whole. set_solver.
Qed.

Lemma adds m n xs xs' (op : option Store) :
  list_of m xs -> can_add n xs = true -> Permutation xs' (n :: xs) ->
  (fresh m l n xs -> exists m', op = Some m' /\ becomes m m' l n xs xs') ->
  exists m', pair 0 <$> op = Some (0, m') /\ list_of m' xs' /\ only_owned m m'.
Proof.
  intros H Hc Hp Hop. destruct (Hop (can_add_fresh _ _ _ H Hc)) as (m' & -> & HB).
  exists m'. split; [done|]. eapply list_of_becomes; [done| |by rewrite Hp|done].
  by apply bool_decide_eq_true in Hc as [? _].
Qed.

Lemma removes m n A B r (op : option (Z * Store)) :
  list_of m (A ++ n :: B) ->
  (exists m', op = Some (r, m') /\ becomes m m' l n (A ++ n :: B) (A ++ B)) ->
  exists m', op = Some (r, m') /\ list_of m' (A ++ B) /\ only_owned m m'.
Proof.
  intros H (m' & -> & HB). exists m'. split; [done|].
  apply (list_of_becomes m m' n (A ++ n :: B)); [done| |set_solver|done].
  destruct H as (_ & _ & Hs). set_solver.
Qed.

Lemma stays m xs : list_of m xs -> list_of m xs /\ only_owned m m.
Proof. by intros H. Qed.

End Owner.

Lemma insert_before_split t ln n xs : ln ∈ xs ++ [t] -> exists A B,
  xs = A ++ B /\ insert_where (Z.eqb ln) n xs = A ++ n :: B /\ List.hd t B = ln.
Proof.
  induction xs as [|x xs IH]; cbn; intros Hl.
  - exists [], []. split_and!; [done|done|set_solver].
  - destruct (ln =? x) eqn:E; zbool; [by exists [], (x :: xs)|].
    destruct IH as (A & B & -> & -> & Eh); [set_solver|]. by exists (x :: A), B.
Qed.

Lemma filter_out A n B :
  NoDup (A ++ n :: B) -> List.filter (fun x => negb (x =? n)) (A ++ n :: B) = A ++ B.
Proof.
  assert (forall ys, n ∉ ys -> List.filter (fun x => negb (x =? n)) ys = ys) as F.
  { induction ys as [|y ys IH]; [done|]. rewrite not_elem_of_cons. intros [Hy Hn]. cbn.
    assert ((y =? n) = false) as -> by lia. cbn. by rewrite IH. }
  intros (_ & HA & [HB _]%NoDup_cons)%NoDup_app. rewrite List.filter_app. cbn.
  rewrite Z.eqb_refl. cbn. rewrite !F; [done|done|]. intros Hn. specialize (HA n Hn). set_solver.
Qed.

(** ** Programs *)

Inductive Cmd :=
  | AddHead (n : Z) | AddTail (n : Z) | InsertBefore (n ln : Z) | Remove (n : Z)
  | RemHead | RemTail | Enqueue (n : Z) | EnqueueHead (n : Z).

Section Programs.
Variable fuel : nat.
Variable pri : Z -> Z.
Variable l : Z.

(** A macro returns nothing: 0. *)
Definition run_cmd (c : Cmd) (m : Store) : option (Z * Store) :=
  match c with
  | AddHead n => pair 0 <$> ADDHEAD l n m
  | AddTail n => pair 0 <$> ADDTAIL l n m
  | InsertBefore n ln => pair 0 <$> INSERT_BEFORE n ln m
  | Remove n => pair 0 <$> REMOVE n m
  | RemHead => list_remHead l m
  | RemTail => list_remTail l m
  | Enqueue n => pair 0 <$> LIST_ENQUEUE fuel pri l n m
  | EnqueueHead n => pair 0 <$> LIST_ENQUEUE_HEAD fuel pri l n m
  end.

Fixpoint run_cmds (cs : list Cmd) (m : Store) : option (list Z * Store) :=
  match cs with
  | [] => Some ([], m)
  | c :: cs => '(r, m) ← run_cmd c m; '(rs, m) ← run_cmds cs m; Some (r :: rs, m)
  end.

(** The abstract list; [N] are the nodes that its owner may put in, each once.
    What no program may do is [None]: add a member, or something that is no
    node, remove what is not in the list, insert before what is neither a
    member nor the tail. *)
Variable N : list Z.

Definition list_cmd (c : Cmd) (xs : list Z) : option (Z * list Z) :=
  match c with
  | AddHead n => if can_add N n xs then Some (0, n :: xs) else None
  | AddTail n => if can_add N n xs then Some (0, xs ++ [n]) else None
  | InsertBefore n ln =>
      if can_add N n xs && bool_decide (ln ∈ xs ++ [tail l])
      then Some (0, insert_where (Z.eqb ln) n xs) else None
  | Remove n =>
      if bool_decide (n ∈ xs) then Some (0, List.filter (fun x => negb (x =? n)) xs) else None
  | RemHead => Some (List.hd NULL xs, List.tl xs)
  | RemTail => Some (List.last xs NULL, removelast xs)
  | Enqueue n => if can_add N n xs then Some (0, enqueue pri n xs) else None
  | EnqueueHead n => if can_add N n xs then Some (0, enqueue_head pri n xs) else None
  end.

Fixpoint list_cmds (cs : list Cmd) (xs : list Z) : option (list Z * list Z) :=
  match cs with
  | [] => Some ([], xs)
  | c :: cs => '(r, xs) ← list_cmd c xs; '(rs, xs) ← list_cmds cs xs; Some (r :: rs, xs)
  end.

Hypothesis enough : (length N <= fuel)%nat.

Lemma cmd_refines c m xs r xs' :
  list_of l N m xs -> list_cmd c xs = Some (r, xs') ->
  exists m', run_cmd c m = Some (r, m') /\ list_of l N m' xs' /\ only_owned l N m m'.
Proof.
  intros H E. pose proof (list_of_fuel _ _ _ _ H) as Hlen. destruct (proj2 H) as [HL _].
  destruct c as [n|n|n ln|n| | |n|n]; cbn [list_cmd run_cmd] in *;
    try (match type of E with (if ?b then _ else _) = _ => destruct b eqn:Hc end); simplify_eq.
  - apply (adds l N m n xs); [done..|]. by apply ADDHEAD_at.
  - apply (adds l N m n xs); [done|done| |by apply ADDTAIL_at]. by rewrite (comm app).
  - apply andb_true_iff in Hc as [Hc (A & B & -> & -> & <-)%bool_decide_eq_true%(insert_before_split _ _ n)].
    apply (adds l N m n (A ++ B)); [done|done| |by apply INSERT_BEFORE_at].
    symmetry. apply Permutation_middle.
  - apply bool_decide_eq_true, list_elem_of_split in Hc as (A & B & ->).
    rewrite filter_out.
    2:{ destruct HL as [Hd _]. unfold whole in Hd. apply NoDup_cons in Hd as [_ Hd].
        by apply NoDup_app in Hd as (? & _ & _). }
    apply (removes l N m n); [done|]. destruct (REMOVE_at m l A n B HL) as (m' & -> & HB). by exists m'.
  - destruct xs as [|n xs]; cbn.
    + unfold list_remHead. rewrite (LIST_EMPTY_at _ _ _ HL). exists m. split; [done|]. by apply stays.
    + apply (removes l N m n [] xs); [done|]. by apply list_remHead_at.
  - destruct xs as [|n xs _] using rev_ind.
    + unfold list_remTail. rewrite (LIST_EMPTY_at _ _ _ HL). exists m. split; [done|]. by apply stays.
    + rewrite List.last_last, removelast_last. rewrite <- (app_nil_r xs).
      apply (removes l N m n xs []); [done|]. rewrite app_nil_r. by apply list_remTail_at.
  - apply (adds l N m n xs); [done|done|apply insert_where_perm|]. intros Hf.
    apply enqueue_where; [done|done|lia].
  - apply (adds l N m n xs); [done|done|apply insert_where_perm|]. intros Hf.
    apply enqueue_where; [done|done|lia].
Qed.

Lemma cmds_refine cs : forall m xs rs xs',
  list_of l N m xs -> list_cmds cs xs = Some (rs, xs') ->
  exists m', run_cmds cs m = Some (rs, m') /\ list_of l N m' xs' /\ only_owned l N m m'.
Proof.
  induction cs as [|c cs IH]; cbn; intros m xs rs xs' H E; simplify_eq/=.
  - exists m. split; [done|]. by apply stays.
  - destruct (list_cmd c xs) as [[r xs1]|] eqn:E1; cbn in E; [|done].
    destruct (list_cmds cs xs1) as [[rs1 xs2]|] eqn:E2; cbn in E; [|done]. simplify_eq/=.
    destruct (cmd_refines _ _ _ _ _ H E1) as (m1 & -> & H1 & F1). cbn.
    destruct (IH _ _ _ _ H1 E2) as (m2 & -> & H2 & F2). cbn.
    exists m2. split_and!; [done|done|]. intros a Ha. by rewrite F2, F1.
Qed.
End Programs.

(** The members as the two loops find them. *)
Definition collect (n : Z) (s : Store * list Z) : option (Store * list Z * bool) :=
  Some (s.1, s.2 ++ [n], false).

Lemma collect_visits xs e m acc : visit collect xs e (m, acc) = Some (e, (m, acc ++ xs)).
Proof.
  revert acc. induction xs as [|x xs IH]; intros acc; cbn.
  - by rewrite app_nil_r.
  - rewrite IH. by rewrite <- (assoc app).
Qed.

(** C24: the linked lists refine sequences. Initialise a list and run any program
    of insertions at the head, at the tail, before a member, by priority, and of
    removals from anywhere, that never adds a node twice or removes one that is
    not there: with a turn of the search for each node, every macro finds its
    pointers and returns what the same operation on a sequence returns, the
    loop over the list visits the sequence and the backward loop its reverse,
    and no memory but the list and its owner's nodes is written.  By priority
    means before the first node of a lower one, and for [LIST_ENQUEUE_HEAD]
    before the first of a lower one or the same; its comment in list.h says
    something else, which would not keep the order
    ([enqueue_head_not_as_documented]). *)
Theorem dlist_refines (fuel : nat) (pri : Z -> Z) (l : Z) (N : list Z) (m : Store)
    (cs : list Cmd) (rs xs : list Z)
    (Ho : owned l N m) (Hf : (length N <= fuel)%nat)
    (Hs : list_cmds pri l N cs [] = Some (rs, xs)) :
  exists m0 m', LIST_INIT l m = Some m0 /\ run_cmds fuel pri l cs m0 = Some (rs, m') /\
    FOREACH_NODE fst collect fuel l (m', []) = Some (tail l, (m', xs)) /\
    REVERSE_FOREACH_NODE fst collect fuel l (m', []) = Some (l, (m', List.rev xs)) /\
    only_owned l N m m'.
Proof.
  destruct Ho as (Ha & H0 & Hl & Ht). rewrite !Forall_cons in Ha. destruct Ha as (Hal & Hat & Ha).
  destruct (LIST_INIT_at m l Hal Hat) as (m0 & E0 & HL & Hall & Hfr); [set_solver..|].
  assert (H1 : list_of l N m0 []).
  { split_and!; [|done|set_solver]. split_and!; [|done..]. rewrite !Forall_cons.
    split_and!; [auto..|]. by eapply Forall_impl. }
  destruct (cmds_refine fuel pri l N Hf cs m0 [] rs xs H1 Hs) as (m' & Er & H2 & Hfr2).
  pose proof (list_of_fuel _ _ _ _ H2). destruct H2 as (_ & H2 & _).
  exists m0, m'. split_and!; [done|done| | |].
  - rewrite (FOREACH_NODE_visits fst collect l xs); [apply collect_visits| |done|lia].
    intros n s s' b _ Hs' [= <- _]. done.
  - rewrite (REVERSE_FOREACH_NODE_visits fst collect l xs); [apply collect_visits| |done|lia].
    intros n s s' b _ Hs' [= <- _]. done.
  - intros a Hna. rewrite Hfr2 by done. apply Hfr; set_solver.
Qed.

(** Three nodes at 20, 24 and 28 by priorities 1, 2, 2 in the list at 8. *)
Lemma dlist_refines_witness :
  exists m0 m', LIST_INIT 8 (list_to_map (map (fun a => (a, mkNode 0 0)) [8; 12; 20; 24; 28])) = Some m0 /\
    run_cmds 3 (fun a => if a =? 20 then 1 else 2) 8
      [Enqueue 20; Enqueue 24; Enqueue 28; RemHead; Remove 20; AddHead 24; RemTail; RemHead; RemHead] m0
    = Some ([0; 0; 0; 24; 0; 0; 28; 24; 0], m').
Proof.
  destruct (dlist_refines 3 (fun a => if a =? 20 then 1 else 2) 8 [20; 24; 28]
    (list_to_map (map (fun a => (a, mkNode 0 0)) [8; 12; 20; 24; 28]))
    [Enqueue 20; Enqueue 24; Enqueue 28; RemHead; Remove 20; AddHead 24; RemTail; RemHead; RemHead]
    [0; 0; 0; 24; 0; 0; 28; 24; 0] []) as (m0 & m' & E0 & E & _).
  - split_and!; [by repeat constructor| |..]; apply (bool_decide_unpack _); vm_compute; done.
  - done.
  - vm_compute. done.
  - by exists m0, m'.
Defined.
