(* ===== verification/TimerList.v ===== *)
(** * The timer queues in memory: [bertos/drv/timer.c] over [struct/list.h]

    [Timer] models a queue as a sequence of timers.  Here the same functions run
    on the linked list they are written for: a timer is the address of its
    node, its tick and delay are fields that the functions read and write
    through that address, and the queue is a list at an address of its own.
    The refinement carries the theorems of [Timer] over to the pointers. *)

From Stdlib Require Import ZArith Lia Bool List.
From stdpp Require Import prelude gmap.
From S2P Require Import Prelude Timer DList.

Open Scope Z_scope.

(** The links of the nodes, and the other fields of the timers. *)
Record Memory := mkMemory { links : Store; timers : gmap Z Timer }.

Definition set_links (m : Store) (M : Memory) : Memory := mkMemory m (timers M).
Definition set_timer (a : Z) (t : Timer) (M : Memory) : Memory :=
  mkMemory (links M) (<[a := t]> (timers M)).

(** ** The functions *)

Definition timer_addToList (fuel : nat) (timer queue : Z) (M : Memory) : option Memory :=
  t ← timers M !! timer;
  node ← LIST_HEAD queue (links M);
  '(node, M) ← foreach_from links
     (fun node M => tn ← timers M !! node; Some (M, i32 (tick tn - tick t) >? 0))
     succ fuel node M;
  m ← INSERT_BEFORE timer node (links M);
  Some (set_links m M).

Definition timer_add (fuel : nat) (clock timer timers_queue : Z) (M : Memory) : option Memory :=
  t ← timers M !! timer;
  timer_addToList fuel timer timers_queue (set_timer timer (set_tick (i32 (clock + _delay t)) t) M).

Definition timer_abort (timer : Z) (M : Memory) : option Memory :=
  m ← REMOVE timer (links M); Some (set_links m M).

Definition synctimer_add (fuel : nat) (clock timer queue : Z) (M : Memory) : option Memory :=
  t ← timers M !! timer;
  timer_addToList fuel timer queue (set_timer timer (set_tick (i32 (clock + _delay t)) t) M).

Definition synctimer_readd (fuel : nat) (timer queue : Z) (M : Memory) : option Memory :=
  t ← timers M !! timer;
  timer_addToList fuel timer queue (set_timer timer (set_tick (i32 (tick t + _delay t)) t) M).

Section Poll.
Context {W : Type}.
(** What the event of the timer at an address does to the memory and the
    rest. *)
Variable event_do : Z -> Memory -> W -> option (Memory * W).

Fixpoint timer_poll (fuel : nat) (clock : nat -> Z) (i : nat) (queue : Z) (M : Memory) (w : W)
  : option (Memory * W) :=
  timer ← LIST_HEAD queue (links M);
  s ← get_succ timer (links M);
  if s =? NULL then Some (M, w)
  else
    t ← timers M !! timer;
    if i32 (clock i - tick t) <? 0 then Some (M, w)
    else
      match fuel with
      | O => None
      | S fuel' =>
          m ← REMOVE timer (links M);
          '(M, w) ← event_do timer (set_links m M) w;
          timer_poll fuel' clock (S i) queue M w
      end.
End Poll.

(** ** The queue in memory *)

Section Queue.
Variable queue : Z.
(** The addresses of the program's timers. *)
Variable N : list Z.

(** [xs]: the queued timers from head to tail; [ts]: what they are. *)
Record queued (M : Memory) (xs : list Z) (ts : list Timer) : Prop := {
  q_list : list_of queue N (links M) xs;
  q_timers : Forall2 (fun a t => timers M !! a = Some t) xs ts;
  q_all : Forall (fun a => is_Some (timers M !! a)) N
}.

Lemma timers_agree (T T' : gmap Z Timer) xs ts :
  (forall a, a ∈ xs -> T' !! a = T !! a) ->
  Forall2 (fun a t => T !! a = Some t) xs ts -> Forall2 (fun a t => T' !! a = Some t) xs ts.
Proof.
  intros E H. induction H as [|x t xs ts Hx H IH]; constructor.
  - rewrite E; [done|set_solver].
  - apply IH. intros a Ha. apply E. set_solver.
Qed.

(** A change of a timer that is not queued. *)
Lemma queued_set_timer M xs ts a t :
  queued M xs ts -> a ∉ xs -> queued (set_timer a t M) xs ts.
Proof.
  intros [H1 H2 H3] Ha. split; [done| |].
  - eapply timers_agree; [|exact H2]. intros b Hb. cbn. apply lookup_insert_ne. set_solver.
  - eapply Forall_impl; [exact H3|]. intros b Hb. cbn.
    destruct (decide (a = b)) as [->|]; [rewrite lookup_insert_eq; by eexists|].
    by rewrite lookup_insert_ne.
Qed.

(** The search and the insertion on the members. *)
Lemma add_visits M t a xs ts :
  Forall2 (fun a t => timers M !! a = Some t) xs ts -> exists A B,
    xs = A ++ B /\
    visit (fun node M => tn ← timers M !! node; Some (M, i32 (tick tn - tick t) >? 0)) xs (tail queue) M
      = Some (List.hd (tail queue) B, M) /\
    (timers M !! a = Some t ->
     Forall2 (fun a t => timers M !! a = Some t) (A ++ a :: B) (Timer.timer_addToList t ts)).
Proof.
  induction 1 as [|x tx xs ts Hx H (A & B & -> & E & HA)].
  - exists [], []. split_and!; [done|done|]. intros Ha. by repeat constructor.
  - cbn [visit Timer.timer_addToList]. rewrite Hx, !some_bind.
    destruct (i32 (tick tx - tick t) >? 0).
    + exists [], (x :: A ++ B). split_and!; [done|done|]. intros Ha. by repeat constructor.
    + exists (x :: A), B. split_and!; [done|exact E|]. intros Ha. constructor; [done|by apply HA].
Qed.

Section Add.
Variable fuel : nat.
Hypothesis enough : (length N <= fuel)%nat.

Lemma addToList_queued M xs ts a t :
  queued M xs ts -> a ∈ N -> a ∉ xs -> timers M !! a = Some t ->
  exists M' xs', timer_addToList fuel a queue M = Some M' /\ Permutation xs' (a :: xs) /\
    queued M' xs' (Timer.timer_addToList t ts) /\ timers M' = timers M.
Proof.
  intros [HL HT HN] Ha Hx Ht. pose proof (list_of_fuel _ _ _ _ HL) as Hlen.
  destruct (add_visits M t a xs ts HT) as (A & B & -> & E & HT').
  set (body := fun (node : Z) (M : Memory) =>
    tn ← timers M !! node; Some (M, i32 (tick tn - tick t) >? 0)) in *.
  assert (FOREACH_NODE links body fuel queue M = Some (List.hd (tail queue) B, M)) as Ef.
  { rewrite <- E. apply (FOREACH_NODE_visits links body queue (A ++ B)); [|by apply HL|lia].
    intros n s s' b _ Hs Eb. unfold body in Eb.
    destruct (timers s !! n) as [tn|]; [|done]. by injection Eb as <- _. }
  unfold FOREACH_NODE, LIST_HEAD, get_succ in Ef.
  rewrite (link_head _ _ _ (proj1 (proj2 HL))), some_fmap, some_bind in Ef.
  unfold timer_addToList, LIST_HEAD, get_succ. rewrite Ht, some_bind.
  rewrite (link_head _ _ _ (proj1 (proj2 HL))), some_fmap, some_bind. fold body.
  rewrite Ef, some_bind.
  assert (fresh (links M) queue a (A ++ B)) as Hf.
  { apply (can_add_fresh queue N); [done|]. by apply bool_decide_eq_true. }
  destruct (INSERT_BEFORE_at (links M) queue A a B (proj1 (proj2 HL)) Hf) as (m' & -> & HB).
  rewrite some_bind. exists (set_links m' M), (A ++ a :: B). split_and!; [done| | |done].
  - symmetry. apply Permutation_middle.
  - split; [|by apply HT'|done]. cbn.
    apply (list_of_becomes queue N (links M) m' a (A ++ B)); [done|done| |done].
    intros b. rewrite <- Permutation_middle. done.
Qed.

(** [timer_add]. *)
Lemma add_queued clock M xs ts a t :
  queued M xs ts -> a ∈ N -> a ∉ xs -> timers M !! a = Some t ->
  exists M' xs', timer_add fuel clock a queue M = Some M' /\ Permutation xs' (a :: xs) /\
    queued M' xs' (Timer.timer_add clock t ts).
Proof.
  intros H Ha Hx Ht. unfold timer_add. rewrite Ht, some_bind.
  destruct (addToList_queued (set_timer a (set_tick (i32 (clock + _delay t)) t) M) xs ts a
    (set_tick (i32 (clock + _delay t)) t)) as (M' & xs' & E & Hp & H' & _); [| | |cbn; apply lookup_insert_eq|].
  - by apply queued_set_timer.
  - done.
  - done.
  - by exists M', xs'.
Qed.

(** [synctimer_readd]. *)
Lemma readd_queued M xs ts a t :
  queued M xs ts -> a ∈ N -> a ∉ xs -> timers M !! a = Some t ->
  exists M' xs', synctimer_readd fuel a queue M = Some M' /\ Permutation xs' (a :: xs) /\
    queued M' xs' (Timer.synctimer_readd t ts).
Proof.
  intros H Ha Hx Ht. unfold synctimer_readd. rewrite Ht, some_bind.
  destruct (addToList_queued (set_timer a (set_tick (i32 (tick t + _delay t)) t) M) xs ts a
    (set_tick (i32 (tick t + _delay t)) t)) as (M' & xs' & E & Hp & H' & _); [| | |cbn; apply lookup_insert_eq|].
  - by apply queued_set_timer.
  - done.
  - done.
  - by exists M', xs'.
Qed.
End Add.

(** [REMOVE] of the [i]-th queued timer. *)
Lemma remove_queued M xs ts i a :
  queued M xs ts -> xs !! i = Some a ->
  exists m', REMOVE a (links M) = Some m' /\
    queued (set_links m' M) (take i xs ++ drop (S i) xs) (Timer.timer_abort i ts).
Proof.
  intros [HL HT HN] Hi. pose proof (take_drop_middle xs i a Hi) as E.
  set (A := take i xs) in *. set (B := drop (S i) xs) in *.
  rewrite <- E in HL. destruct (REMOVE_at (links M) queue A a B (proj1 (proj2 HL))) as (m' & Er & HB).
  exists m'. split; [done|].
  split; [|by apply Forall2_app; [apply Forall2_take|apply Forall2_drop]|done].
  apply (list_of_becomes queue N (links M) m' a (A ++ a :: B)); [done| |set_solver|done].
  destruct HL as (_ & _ & Hs). set_solver.
Qed.

(** ** Polling *)
Section Poll.
Context {W : Type}.
Variable event_mem : Z -> Memory -> W -> option (Memory * W).
Variable event_do : Timer -> list Timer -> W -> list Timer * W.

(** The events do to the memory what they do to the sequence. *)
Hypothesis events : forall M xs ts a t w ts' w',
  queued M xs ts -> a ∈ N -> a ∉ xs -> timers M !! a = Some t ->
  event_do t ts w = (ts', w') ->
  exists M' xs', event_mem a M w = Some (M', w') /\ queued M' xs' ts'.

Lemma poll_queued fuel : forall clock i M xs ts w ts' w',
  queued M xs ts -> Timer.timer_poll event_do fuel clock i ts w = Some (ts', w') ->
  exists M' xs', timer_poll event_mem fuel clock i queue M w = Some (M', w') /\ queued M' xs' ts'.
Proof.
  induction fuel as [|fuel IH]; intros clock i M xs ts w ts' w' H E; pose proof H as [HL HT HN];
    destruct HT as [|a t xs ts Ht HT]; cbn [timer_poll Timer.timer_poll] in *;
    unfold LIST_HEAD, get_succ; rewrite (link_head _ _ _ (proj1 (proj2 HL))), some_fmap, some_bind;
    cbn [succ List.hd].
  1, 3: rewrite (link_tail _ _ _ (proj1 (proj2 HL))), some_fmap, some_bind; cbn;
    injection E as <- <-; by exists M, [].
  all: rewrite (link_of _ _ [] _ _ (proj1 (proj2 HL))), some_fmap, some_bind; cbn [succ];
    pose proof (hd_ne_null _ _ [a] xs (proj1 (proj2 HL))) as Hz;
    assert ((List.hd (tail queue) xs =? NULL) = false) as -> by lia;
    rewrite Ht, some_bind; destruct (i32 (clock i - tick t) <? 0);
    [injection E as <- <-; by exists M, (a :: xs)|].
  - done.
  - destruct (remove_queued M (a :: xs) (t :: ts) 0 a H eq_refl) as (m & -> & H1).
    rewrite some_bind. cbn in H1.
    destruct (event_do t ts w) as [ts1 w1] eqn:Ee.
    destruct (events _ _ _ a t w ts1 w1 H1) as (M2 & xs2 & -> & H2); [| |done|done|].
    + destruct HL as (_ & _ & Hs). set_solver.
    + destruct HL as (_ & (Hd & _) & _). unfold whole in Hd. cbn in Hd.
      rewrite !NoDup_cons in Hd. set_solver.
    + rewrite some_bind. by apply (IH _ _ _ xs2 ts1).
Qed.
End Poll.
End Queue.

(** C32: the timer queue in memory refines the sequence of timers. When the list
    at [queue] holds the timers [xs], adding a timer of the program that is not
    queued, adding one again for its next period, and aborting a queued one find
    every pointer they need and lead to a list that holds what the same
    operation on the sequence gives; polling does to the memory what it does to
    the sequence, as soon as the events do, however many timers they add. *)
Theorem timer_queue_refines (fuel : nat) (queue : Z) (N : list Z) (M : Memory)
    (xs : list Z) (ts : list Timer)
    (H : queued queue N M xs ts) (Hf : (length N <= fuel)%nat) :
  (forall clock a t, a ∈ N -> a ∉ xs -> timers M !! a = Some t ->
    (exists M' xs', timer_add fuel clock a queue M = Some M' /\ Permutation xs' (a :: xs) /\
      queued queue N M' xs' (Timer.timer_add clock t ts)) /\
    (exists M' xs', synctimer_readd fuel a queue M = Some M' /\ Permutation xs' (a :: xs) /\
      queued queue N M' xs' (Timer.synctimer_readd t ts))) /\
  (forall i a, xs !! i = Some a ->
    exists M', timer_abort a M = Some M' /\
      queued queue N M' (take i xs ++ drop (S i) xs) (Timer.timer_abort i ts)) /\
  forall (W : Type) (event_mem : Z -> Memory -> W -> option (Memory * W))
      (event_do : Timer -> list Timer -> W -> list Timer * W),
    (forall M xs ts a t w ts' w',
      queued queue N M xs ts -> a ∈ N -> a ∉ xs -> timers M !! a = Some t ->
      event_do t ts w = (ts', w') ->
      exists M' xs', event_mem a M w = Some (M', w') /\ queued queue N M' xs' ts') ->
    forall turns clock i w ts' w',
      Timer.timer_poll event_do turns clock i ts w = Some (ts', w') ->
      exists M' xs', timer_poll event_mem turns clock i queue M w = Some (M', w') /\
        queued queue N M' xs' ts'.
Proof.
  split_and!.
  - intros clock a t Ha Hx Ht. split; [by apply add_queued|by apply readd_queued].
  - intros i a Hi. destruct (remove_queued queue N M xs ts i a H Hi) as (m' & E & H').
    exists (set_links m' M). unfold timer_abort. by rewrite E, some_bind.
  - intros W event_mem event_do He turns clock i w ts' w' E. by eapply poll_queued.
Qed.

(** A timer of period 10 that adds itself again runs three times between its
    tick 5 and the clock 30. *)
Lemma timer_queue_refines_witness :
  exists M' xs',
    timer_poll (fun a M n => M ← synctimer_readd 1 a 8 M; Some (M, S n)) 5 (fun _ => 30) 0 8
      (mkMemory (list_to_map [(8, mkNode 20 0); (12, mkNode 0 20); (20, mkNode 12 8)])
                {[ 20 := mkTimer 10 5 7 ]}) 0%nat
    = Some (M', 3%nat) /\ queued 8 [20] M' xs' [mkTimer 10 35 7].
Proof.
  destruct (timer_queue_refines 1 8 [20]
    (mkMemory (list_to_map [(8, mkNode 20 0); (12, mkNode 0 20); (20, mkNode 12 8)])
                {[ 20 := mkTimer 10 5 7 ]}) [20] [mkTimer 10 5 7]) as (_ & _ & Hpoll).
  - split.
    + split; [|split; [|set_solver]].
      * split; [by repeat constructor|]. split_and!; apply (bool_decide_unpack _); vm_compute; done.
      * split; [|split; [|by repeat constructor]]; apply (bool_decide_unpack _); vm_compute; done.
    + by repeat constructor.
    + by repeat constructor.
  - done.
  - apply (Hpoll nat _ periodic); [|vm_compute; done].
    intros M xs ts a t n ts' n' Hq Ha Hx Ht [= <- <-].
    destruct (readd_queued 8 [20] 1 ltac:(done) M xs ts a t Hq Ha Hx Ht) as (M' & xs' & -> & _ & H').
    exists M', xs'. by rewrite some_bind.
Defined.
