(* ===== verification/Kern.v ===== *)
(** * The kernel: [bertos/kern/proc.c], [signal.c], [sem.c]

    Processes, the signals they wait for and the semaphores they lock, built
    without priorities ([CONFIG_KERN_PRI] 0).  A process is its number; the
    lists of the code are sequences here (DList.v and the theorem
    [dlist_refines] are about the pointers).  The functions are those of the
    code up to the context switch; what a process does when it gets the
    processor back, which is to leave [sig_waitSignal], is [resume].  [None]
    means that an assertion of the code failed.

    Stacks, the heap of the processes and the monitor are left out: a new
    process is a number that is not in use. *)

From Stdlib Require Import ZArith Lia Bool List.
From stdpp Require Import prelude gmap.
From S2P Require Import Prelude.

Open Scope Z_scope.

Record Semaphore := mkSem { owner : option Z; wait_queue : list Z; nest_count : Z }.
Record Signal := mkSignal { recv : Z; wait : Z }.

Definition CONFIG_KERN_QUANTUM : Z := 11.

(** [in_wait]: the processes inside the loop of [sig_waitSignal], with what
    they wait for; [in_obtain]: the current process has queued at a semaphore
    and not called [proc_switch] yet; [results]: what the last wait returned. *)
Record Kernel := mkKernel {
  proc_ready_list : list Z;
  current_process : option Z;
  procs : list Z;
  sigs : gmap Z Signal;
  in_wait : gmap Z Z;
  results : gmap Z Z;
  sems : list Semaphore;
  in_obtain : bool;
  _proc_quantum : Z
}.

Section Setters.
Definition set_ready l K := mkKernel l (current_process K) (procs K) (sigs K) (in_wait K) (results K) (sems K) (in_obtain K) (_proc_quantum K).
Definition set_current c K := mkKernel (proc_ready_list K) c (procs K) (sigs K) (in_wait K) (results K) (sems K) (in_obtain K) (_proc_quantum K).
Definition set_procs l K := mkKernel (proc_ready_list K) (current_process K) l (sigs K) (in_wait K) (results K) (sems K) (in_obtain K) (_proc_quantum K).
Definition set_sig p s K := mkKernel (proc_ready_list K) (current_process K) (procs K) (<[p := s]> (sigs K)) (in_wait K) (results K) (sems K) (in_obtain K) (_proc_quantum K).
Definition set_in_wait m K := mkKernel (proc_ready_list K) (current_process K) (procs K) (sigs K) m (results K) (sems K) (in_obtain K) (_proc_quantum K).
Definition set_result p r K := mkKernel (proc_ready_list K) (current_process K) (procs K) (sigs K) (in_wait K) (<[p := r]> (results K)) (sems K) (in_obtain K) (_proc_quantum K).
Definition set_sems l K := mkKernel (proc_ready_list K) (current_process K) (procs K) (sigs K) (in_wait K) (results K) l (in_obtain K) (_proc_quantum K).
Definition set_in_obtain b K := mkKernel (proc_ready_list K) (current_process K) (procs K) (sigs K) (in_wait K) (results K) (sems K) b (_proc_quantum K).
Definition set_quantum q K := mkKernel (proc_ready_list K) (current_process K) (procs K) (sigs K) (in_wait K) (results K) (sems K) (in_obtain K) q.
End Setters.

Definition sig (K : Kernel) (p : Z) : Signal := default (mkSignal 0 0) (sigs K !! p).

Definition ASSERT (b : bool) (K : Kernel) : option Kernel := if b then Some K else None.

(** ** The scheduler *)

Definition SCHED_ENQUEUE (p : Z) (K : Kernel) : Kernel := set_ready (proc_ready_list K ++ [p]) K.
Definition SCHED_ENQUEUE_HEAD (p : Z) (K : Kernel) : Kernel := set_ready (p :: proc_ready_list K) K.
Definition preempt_reset_quantum (K : Kernel) : Kernel := set_quantum CONFIG_KERN_QUANTUM K.
Definition proc_decQuantum (K : Kernel) : Kernel :=
  if _proc_quantum K >? 0 then set_quantum (_proc_quantum K - 1) K else K.

(** The end of [sig_waitSignal]: the signals are cleared and returned. *)
Definition take_signals (p m : Z) (K : Kernel) : Kernel :=
  let s := sig K p in
  set_result p (Z.land (recv s) m) (set_sig p (mkSignal (Z.land (recv s) (Z.lnot m)) (wait s)) K).

Definition resume (p : Z) (K : Kernel) : option Kernel :=
  match in_wait K !! p with
  | None => Some K
  | Some m =>
      let s := sig K p in
      if (wait s =? 0) && negb (Z.land (recv s) m =? 0) then
        Some (take_signals p m (set_in_wait (delete p (in_wait K)) K))
      else None
  end.

(** With nothing ready it spins, with interrupts on: [current_process] is null
    until [EIdle]. *)
Definition proc_schedule (K : Kernel) : option Kernel :=
  match proc_ready_list K with
  | [] => Some (set_current None K)
  | p :: l => resume p (set_current (Some p) (set_ready l K))
  end.

Definition proc_switch (K : Kernel) : option Kernel :=
  proc_schedule (preempt_reset_quantum (set_in_obtain false K)).

Definition proc_switchTo (p : Z) (K : Kernel) : option Kernel :=
  match current_process K with
  | None => None
  | Some c => resume p (set_current (Some p) (preempt_reset_quantum (SCHED_ENQUEUE c K)))
  end.

(** Without priorities the process that is woken up always goes first. *)
Definition proc_wakeup (p : Z) (K : Kernel) : option Kernel := proc_switchTo p K.

Definition proc_yield (K : Kernel) : option Kernel :=
  match proc_ready_list K with
  | [] => Some K
  | p :: l => proc_switchTo p (set_ready l K)
  end.

Definition proc_init : Kernel := mkKernel [] (Some 0) [0] ∅ ∅ ∅ [] false CONFIG_KERN_QUANTUM.

Definition proc_initStruct (p : Z) (K : Kernel) : Kernel := set_sig p (mkSignal 0 0) K.

Definition proc_new (p : Z) (K : Kernel) : Kernel :=
  SCHED_ENQUEUE p (set_procs (procs K ++ [p]) (proc_initStruct p K)).

Definition proc_exit (K : Kernel) : option Kernel :=
  match current_process K with
  | None => None
  | Some c => proc_switch (set_current None (set_procs (filter (fun q => q <> c) (procs K)) K))
  end.

Definition proc_needPreempt (K : Kernel) : bool :=
  match current_process K with
  | None => false
  | Some _ =>
      match proc_ready_list K with [] => false | _ => if negb (_proc_quantum K =? 0) then false else true end
  end.

Definition proc_preempt (K : Kernel) : option Kernel :=
  match current_process K with
  | None => None
  | Some c => proc_schedule (preempt_reset_quantum (SCHED_ENQUEUE c K))
  end.

(** ** Signals *)

Definition sig_checkSignal (p m : Z) (K : Kernel) : Kernel := take_signals p m K.

Definition sig_waitSignal (m : Z) (K : Kernel) : option Kernel :=
  match current_process K with
  | None => None
  | Some c =>
      let s := sig K c in
      if negb (Z.land (recv s) m =? 0) then Some (take_signals c m K)
      else
        proc_switch (set_in_wait (<[c := m]> (in_wait K)) (set_sig c (mkSignal (recv s) m) K))
  end.

Definition __sig_signal (p m : Z) (wakeup : bool) (K : Kernel) : option Kernel :=
  let s := sig K p in
  let recv' := Z.lor (recv s) m in
  if negb (Z.land recv' (wait s) =? 0) then
    if bool_decide (current_process K = Some p) then None
    else
      let K := set_sig p (mkSignal recv' 0) K in
      if wakeup then proc_wakeup p K else Some (SCHED_ENQUEUE_HEAD p K)
  else Some (set_sig p (mkSignal recv' (wait s)) K).

Definition sig_sendSignal (p m : Z) (K : Kernel) : option Kernel := __sig_signal p m true K.
Definition sig_postSignal (p m : Z) (K : Kernel) : option Kernel := __sig_signal p m false K.

(** ** Semaphores *)

Definition no_sem : Semaphore := mkSem None [] 0.
Definition sem (K : Kernel) (i : nat) : Semaphore := nth i (sems K) no_sem.
Definition set_sem (i : nat) (s : Semaphore) (K : Kernel) : Kernel := set_sems (<[i := s]> (sems K)) K.

Definition sem_verify (s : Semaphore) : bool := (0 <=? nest_count s) && (nest_count s <? 128).

(** A new one, as [sem_init] makes it. *)
Definition sem_init (K : Kernel) : Kernel := set_sems (sems K ++ [mkSem None [] 0]) K.

(** Free, or ours. *)
Definition lockable (c : Z) (s : Semaphore) : bool :=
  match owner s with None => true | Some o => o =? c end.

Definition sem_attempt (i : nat) (K : Kernel) : option (bool * Kernel) :=
  match current_process K with
  | None => None
  | Some c =>
      let s := sem K i in
      if negb (sem_verify s) then None
      else if lockable c s then
        Some (true, set_sem i (mkSem (Some c) (wait_queue s) (i16 (nest_count s + 1))) K)
      else Some (false, K)
  end.

(** Up to [proc_switch], when it has to wait. *)
Definition sem_obtain (i : nat) (K : Kernel) : option Kernel :=
  match current_process K with
  | None => None
  | Some c =>
      let s := sem K i in
      if negb (sem_verify s) then None
      else if negb (lockable c s) then
        Some (set_in_obtain true (set_sem i (mkSem (owner s) (wait_queue s ++ [c]) (nest_count s)) K))
      else if bool_decide (wait_queue s = []) then
        Some (set_sem i (mkSem (Some c) (wait_queue s) (i16 (nest_count s + 1))) K)
      else None
  end.

Definition sem_release (i : nat) (K : Kernel) : option Kernel :=
  let s := sem K i in
  if negb (sem_verify s && bool_decide (owner s = current_process K)) then None
  else
    let n := i16 (nest_count s - 1) in
    if n =? 0 then
      match wait_queue s with
      | p :: l => proc_wakeup p (set_sem i (mkSem (Some p) l 1) K)
      | [] => Some (set_sem i (mkSem None [] n) K)
      end
    else Some (set_sem i (mkSem (owner s) (wait_queue s) n) K).

(** ** What can happen

    The current process calls the kernel; while it is in [sem_obtain] it calls
    [proc_switch] next; an interrupt posts a signal, at any time; an idle kernel
    finds something ready; the timer takes a tick off the quantum, and, if the
    kernel is preemptive, the interrupt switches. *)
Inductive event :=
  | EAttempt (i : nat) | EObtain (i : nat) | ERelease (i : nat) | ESemInit
  | ESend (p m : Z) | EWait (m : Z) | ECheck (m : Z)
  | EYield | EExit | ENew (p : Z)
  | ESwitch | EPost (p m : Z) | EIdle | ETick | EPreempt.

Definition exec (e : event) (K : Kernel) : option Kernel :=
  match e with
  | EAttempt i => option_map snd (sem_attempt i K)
  | EObtain i => sem_obtain i K
  | ERelease i => sem_release i K
  | ESemInit => Some (sem_init K)
  | ESend p m => sig_sendSignal p m K
  | EWait m => sig_waitSignal m K
  | ECheck m => match current_process K with None => None | Some c => Some (sig_checkSignal c m K) end
  | EYield => proc_yield K
  | EExit => proc_exit K
  | ENew p => Some (proc_new p K)
  | ESwitch => proc_switch K
  | EPost p m => sig_postSignal p m K
  | EIdle => proc_schedule K
  | ETick => Some (proc_decQuantum K)
  | EPreempt => proc_preempt K
  end.

Definition is_mask (m : Z) : bool := (0 <? m) && (m <? 256).

(** A call of the current process, with the rules for it: a semaphore is
    released by its owner; it is not locked once more by its owner while others
    wait ([nested_obtain_asserts]), nor 127 times; signals go to processes
    there are. *)
Definition call_ok (c : Z) (e : event) (K : Kernel) : bool :=
  match e with
  | EAttempt i => (Nat.ltb i (length (sems K))) && (nest_count (sem K i) <? 127)
  | EObtain i => (Nat.ltb i (length (sems K))) && (nest_count (sem K i) <? 127)
      && (negb (bool_decide (owner (sem K i) = Some c)) || bool_decide (wait_queue (sem K i) = []))
  | ERelease i => (Nat.ltb i (length (sems K))) && bool_decide (owner (sem K i) = Some c)
  | ESend p m => is_mask m && bool_decide (p ∈ procs K)
  | EWait m | ECheck m => is_mask m
  | ENew p => negb (bool_decide (p ∈ procs K))
  | ESemInit | EYield | EExit => true
  | _ => false
  end.

Definition possible (preemptive : bool) (e : event) (K : Kernel) : bool :=
  match e with
  | ESwitch => in_obtain K
  | EPost p m => is_mask m && bool_decide (p ∈ procs K)
  | EIdle => bool_decide (current_process K = None) && negb (bool_decide (proc_ready_list K = []))
  | ETick => preemptive
  | EPreempt => preemptive && proc_needPreempt K
  | _ => match current_process K with None => false | Some c => negb (in_obtain K) && call_ok c e K end
  end.

Inductive reachable (preemptive : bool) : Kernel -> Prop :=
  | reach_init : reachable preemptive proc_init
  | reach_step K e K' : reachable preemptive K -> possible preemptive e K = true -> exec e K = Some K' ->
      reachable preemptive K'.

(** ** The invariant *)

(** How often a process is in a list. *)
Definition cnt (p : Z) (l : list Z) : nat := count_occ Z.eq_dec l p.

Fixpoint queued (p : Z) (l : list Semaphore) : nat :=
  match l with
  | [] => 0
  | s :: l => cnt p (wait_queue s) + queued p l
  end.

Definition b2n (b : bool) : nat := if b then 1 else 0.
Definition is_it (h : option Z) (p : Z) : bool := match h with Some q => q =? p | None => false end.

(** The places a process can be in: the processor, the ready list, a queue, or
    asleep for a signal; in [sem_obtain] the current process is in a queue. *)
Definition seats (K : Kernel) (p : Z) : nat :=
  b2n (is_it (current_process K) p && negb (in_obtain K)) + cnt p (proc_ready_list K) +
  queued p (sems K) + b2n (negb (wait (sig K p) =? 0)).

Definition sem_ok (s : Semaphore) : Prop :=
  match owner s with
  | None => wait_queue s = [] /\ nest_count s = 0
  | Some o => 1 <= nest_count s <= 127 /\ o ∉ wait_queue s
  end.

(** [hand]: a process that is being moved from one place to another. *)
Record kern_inv (hand : option Z) (K : Kernel) : Prop := {
  k_seats p : (seats K p + b2n (is_it hand p) = b2n (bool_decide (p ∈ procs K)))%nat;
  k_obtain : in_obtain K = true -> current_process K <> None;
  k_cur p : current_process K = Some p -> in_wait K !! p = None;
  k_loop p m : in_wait K !! p = Some m -> 0 < m < 256 /\ p ∈ procs K /\
    ((wait (sig K p) = m /\ Z.land (recv (sig K p)) m = 0) \/
     (wait (sig K p) = 0 /\ Z.land (recv (sig K p)) m <> 0));
  k_awake p : in_wait K !! p = None -> wait (sig K p) = 0;
  k_sems : Forall sem_ok (sems K);
  k_live p : in_obtain K = true -> current_process K = Some p -> queued p (sems K) = 1%nat;
  k_queue p : queued p (sems K) <> 0%nat -> in_wait K !! p = None
}.

Definition kern_ok (K : Kernel) : Prop := kern_inv None K.

Lemma cnt_app p l1 l2 : cnt p (l1 ++ l2) = (cnt p l1 + cnt p l2)%nat.
Proof. apply count_occ_app. Qed.

Lemma cnt_cons p q l : cnt p (q :: l) = (b2n (q =? p)%Z + cnt p l)%nat.
Proof. unfold cnt. cbn. destruct (Z.eq_dec q p), (Z.eqb_spec q p); done. Qed.

Lemma cnt_nil p : cnt p [] = 0%nat.
Proof. done. Qed.

Lemma cnt_elem p l : p ∈ l -> (1 <= cnt p l)%nat.
Proof. intros Hp. apply list_elem_of_In, (count_occ_In Z.eq_dec) in Hp. unfold cnt. lia. Qed.

Lemma cnt_not p l : cnt p l = 0%nat -> p ∉ l.
Proof. intros E Hp%cnt_elem. lia. Qed.

Lemma queued_app p l1 l2 : queued p (l1 ++ l2) = (queued p l1 + queued p l2)%nat.
Proof. induction l1 as [|s l1 IH]; cbn; [done|]. lia. Qed.

(** A semaphore replaced. *)
Lemma queued_insert p l : forall i s, (i < length l)%nat ->
  (queued p (<[i := s]> l) + cnt p (wait_queue (nth i l no_sem)) = queued p l + cnt p (wait_queue s))%nat.
Proof.
  induction l as [|s0 l IH]; intros i s Hi; [cbn in Hi; lia|]. destruct i as [|i]; [cbn; lia|].
  change (<[S i := s]> (s0 :: l)) with (s0 :: <[i := s]> l). cbn [queued nth]. cbn in Hi. specialize (IH i s ltac:(lia)). lia.
Qed.

Lemma sig_set K p s q : sig (set_sig p s K) q = if decide (q = p) then s else sig K q.
Proof.
  unfold sig, set_sig. cbn. destruct (decide (q = p)) as [->|Hne];
    [by rewrite lookup_insert_eq|by rewrite lookup_insert_ne].
Qed.

Lemma Forall_nth_sem l i : Forall sem_ok l -> sem_ok (nth i l no_sem).
Proof.
  intros Hl. destruct (decide (i < length l)%nat) as [Hi|Hi].
  - apply (proj1 (Forall_nth sem_ok no_sem l) Hl). done.
  - by rewrite nth_overflow by lia.
Qed.

Ltac ksimpl :=
  cbn [is_it b2n andb negb recv wait proc_ready_list current_process procs sigs in_wait results sems in_obtain _proc_quantum
    set_ready set_current set_procs set_sig set_in_wait set_result set_sems set_in_obtain set_quantum
    SCHED_ENQUEUE SCHED_ENQUEUE_HEAD preempt_reset_quantum] in *;
  rewrite ?andb_true_r, ?andb_false_r in *; cbn [b2n] in *.

(** *** Moves *)

(** The head of the ready list is taken. *)
Lemma inv_take K p l : kern_inv None K -> proc_ready_list K = p :: l -> kern_inv (Some p) (set_ready l K).
Proof.
  intros [Hs Ho Hc Hl Ha Hm Hv Hqu] E. split; ksimpl; try done. intros q. specialize (Hs q).
  unfold seats in *. rewrite E, cnt_cons in Hs. ksimpl. change (sig (set_ready l K) q) with (sig K q). lia.
Qed.

Lemma inv_tail K p : kern_inv (Some p) K -> kern_inv None (SCHED_ENQUEUE p K).
Proof.
  intros [Hs Ho Hc Hl Ha Hm Hv Hqu]. split; ksimpl; try done. intros q. specialize (Hs q).
  unfold seats in *. ksimpl. rewrite cnt_app, cnt_cons, cnt_nil. change (sig (SCHED_ENQUEUE p K) q) with (sig K q). lia.
Qed.

Lemma inv_head K p : kern_inv (Some p) K -> kern_inv None (SCHED_ENQUEUE_HEAD p K).
Proof.
  intros [Hs Ho Hc Hl Ha Hm Hv Hqu]. split; ksimpl; try done. intros q. specialize (Hs q).
  unfold seats in *. ksimpl. rewrite cnt_cons. change (sig (SCHED_ENQUEUE_HEAD p K) q) with (sig K q). lia.
Qed.

(** The current process leaves the processor. *)
Lemma inv_leave K c : kern_inv None K -> current_process K = Some c -> in_obtain K = false ->
  kern_inv (Some c) (set_current None K).
Proof.
  intros [Hs Ho Hc Hl Ha Hm Hv Hqu] E Eo. split; ksimpl; try done; try congruence. intros q. specialize (Hs q).
  unfold seats in *. rewrite E, Eo in Hs. ksimpl. change (sig (set_current None K) q) with (sig K q). lia.
Qed.

(** After [sem_obtain] it has left already. *)
Lemma inv_left K : kern_inv None K -> in_obtain K = true -> kern_inv None (set_current None (set_in_obtain false K)).
Proof.
  intros [Hs Ho Hc Hl Ha Hm Hv Hqu] Eo. split; ksimpl; try done. intros q. specialize (Hs q).
  unfold seats in *. rewrite Eo in Hs. ksimpl.
  change (sig (set_current None (set_in_obtain false K)) q) with (sig K q). ksimpl. lia.
Qed.

Lemma inv_quantum h n K : kern_inv h K -> kern_inv h (set_quantum n K).
Proof. intros [Hs Ho Hc Hl Ha Hm Hv Hqu]. by split. Qed.

(** What is known of a process in hand. *)
Lemma hand_seats K p : kern_inv (Some p) K -> seats K p = 0%nat /\ p ∈ procs K.
Proof. intros H. pose proof (k_seats _ _ H p) as E. cbn [is_it] in E. rewrite Z.eqb_refl in E.
  destruct (decide (p ∈ procs K)) as [Hp|Hp]; [rewrite bool_decide_eq_true_2 in E by done|rewrite bool_decide_eq_false_2 in E by done];
    cbn in E; [split; [lia|done]|lia].
Qed.

Lemma hand_awake K p : kern_inv (Some p) K -> wait (sig K p) = 0.
Proof.
  intros H. destruct (hand_seats K p H) as [E _]. unfold seats in E.
  destruct (wait (sig K p) =? 0) eqn:Ew; zbool; [done|cbn in E; lia].
Qed.

Ltac sigsimpl := repeat (rewrite sig_set; destruct (decide _)); subst; cbn [recv wait] in *.

Lemma sig_sets l K p : sig (set_sems l K) p = sig K p.
Proof. done. Qed.

(** The signals of a process that is awake are its own affair. *)
Lemma inv_signals h K p r : kern_inv h K -> in_wait K !! p = None -> kern_inv h (set_sig p (mkSignal r 0) K).
Proof.
  intros [Hs Ho Hc Hl Ha Hm Hv Hqu] Ei. pose proof (Ha p Ei) as Ew. split; ksimpl; try done.
  - intros q. specialize (Hs q). unfold seats in *. ksimpl. rewrite sig_set. destruct (decide _) as [->|]; [|done].
    ksimpl. by rewrite Ew in Hs.
  - intros q m E. rewrite sig_set. destruct (decide _) as [->|]; [congruence|by apply Hl].
  - intros q E. rewrite sig_set. destruct (decide _); [done|by apply Ha].
Qed.

Lemma inv_result h K p r : kern_inv h K -> kern_inv h (set_result p r K).
Proof. intros [Hs Ho Hc Hl Ha Hm Hv Hqu]. by split. Qed.

Lemma inv_take_signals h K p m : kern_inv h K -> in_wait K !! p = None -> kern_inv h (take_signals p m K).
Proof.
  intros H Ei. unfold take_signals. rewrite (k_awake _ _ H p Ei). by apply inv_result, inv_signals.
Qed.

(** The processor is given to a process. *)
Lemma dispatch K p : kern_inv (Some p) K -> current_process K = None -> in_obtain K = false ->
  exists K', resume p (set_current (Some p) K) = Some K' /\ kern_ok K' /\ current_process K' = Some p /\ in_obtain K' = false.
Proof.
  intros H Ec Eo. destruct (hand_seats K p H) as [E0 Hp]. pose proof (hand_awake K p H) as Ew.
  assert (Hgive : forall K1, kern_inv (Some p) K1 -> current_process K1 = None -> in_obtain K1 = false ->
    in_wait K1 !! p = None -> kern_ok (set_current (Some p) K1)).
  { clear. intros K [Hs Ho Hc Hl Ha Hm Hv Hqu] Ec Eo Ei. split; ksimpl; try done; try congruence.
    intros q. specialize (Hs q). unfold seats in *. rewrite Ec in Hs. ksimpl. rewrite Eo. ksimpl.
    change (sig (set_current (Some p) K) q) with (sig K q). lia. }
  unfold resume. ksimpl. destruct (in_wait K !! p) as [m|] eqn:Ei.
  2:{ eexists. split_and!; [reflexivity|by apply Hgive|done|done]. }
  destruct (k_loop _ _ H p m Ei) as (Hm & _ & [[Hw _]|[_ Hr]]); [lia|].
  change (sig (set_current (Some p) K) p) with (sig K p). rewrite Ew, (proj2 (Z.eqb_neq _ _) Hr). ksimpl.
  eexists. split_and!; [reflexivity| |done|done].
  change (take_signals p m (set_in_wait (delete p (in_wait K)) (set_current (Some p) K)))
    with (set_current (Some p) (take_signals p m (set_in_wait (delete p (in_wait K)) K))).
  apply Hgive; [|done|done|cbn; apply lookup_delete_eq].
  apply inv_take_signals; [|cbn; apply lookup_delete_eq].
  destruct H as [Hs Ho Hc Hl Ha Hsem Hv Hqu]. split; ksimpl; try done; try congruence.
  - intros q n. rewrite lookup_delete_Some. intros [_ E]. by apply Hl.
  - intros q E. destruct (decide (q = p)) as [->|]; [done|]. rewrite lookup_delete_ne in E by done. by apply Ha.
  - intros q E. apply lookup_delete_None. right. by apply Hqu.
Qed.

(** The current process goes to sleep. *)
Lemma inv_sleep K c m : kern_inv (Some c) K -> in_wait K !! c = None -> current_process K = None ->
  0 < m < 256 -> Z.land (recv (sig K c)) m = 0 ->
  kern_inv None (set_in_wait (<[c := m]> (in_wait K)) (set_sig c (mkSignal (recv (sig K c)) m) K)).
Proof.
  intros H Ei Ec Hm Hr. pose proof (hand_awake K c H) as Ew. destruct (hand_seats K c H) as [E0 Hc'].
  destruct H as [Hs Ho Hc Hl Ha Hsem Hv Hqu]. split; ksimpl; try done; try congruence.
  - intros q. specialize (Hs q). unfold seats in *. ksimpl.
    change (sig (set_in_wait ?a ?b) q) with (sig b q). rewrite sig_set. destruct (decide _) as [->|Hne]; ksimpl.
    + rewrite Ew, Z.eqb_refl in Hs. rewrite (proj2 (Z.eqb_neq m 0)) by lia. rewrite Z.eqb_refl in Hs. ksimpl. lia.
    + rewrite (proj2 (Z.eqb_neq c q)) in Hs by done. ksimpl. lia.
  - intros q n. change (sig (set_in_wait ?a ?b) q) with (sig b q). rewrite sig_set.
    destruct (decide (q = c)) as [->|Hne]; [rewrite lookup_insert_eq|rewrite lookup_insert_ne by done].
    + intros [= <-]. split_and!; try lia; [done|by left].
    + apply Hl.
  - intros q. change (sig (set_in_wait ?a ?b) q) with (sig b q). rewrite sig_set.
    destruct (decide (q = c)) as [->|Hne]; [by rewrite lookup_insert_eq|rewrite lookup_insert_ne by done; apply Ha].
  - intros q E. destruct (decide (q = c)) as [->|]; [|rewrite lookup_insert_ne by done; by apply Hqu].
    unfold seats in E0. lia.
Qed.

(** A sleeping process is woken up. *)
Lemma inv_wake K p r : kern_inv None K -> wait (sig K p) <> 0 -> Z.land r (wait (sig K p)) <> 0 ->
  kern_inv (Some p) (set_sig p (mkSignal r 0) K).
Proof.
  intros [Hs Ho Hc Hl Ha Hsem Hv Hqu] Hw Hr.
  assert (Ei : in_wait K !! p = Some (wait (sig K p))).
  { destruct (in_wait K !! p) as [m|] eqn:E; [|by apply Ha in E]. destruct (Hl p m E) as (_ & _ & [[-> _]|[? _]]); done. }
  split; ksimpl; try done.
  - intros q. specialize (Hs q). unfold seats in *. ksimpl. rewrite sig_set. destruct (decide _) as [->|Hne]; ksimpl.
    + rewrite (proj2 (Z.eqb_neq _ _) Hw) in Hs. rewrite !Z.eqb_refl. ksimpl. lia.
    + rewrite (proj2 (Z.eqb_neq p q)) by done. ksimpl. lia.
  - intros q m E. rewrite sig_set. destruct (decide _) as [->|]; [|by apply Hl].
    rewrite Ei in E. injection E as <-. destruct (Hl p _ Ei) as (? & ? & _). split_and!; try done; try lia. by right.
  - intros q E. rewrite sig_set. destruct (decide _); [done|by apply Ha].
Qed.

(** Signals that nobody sleeps for. *)
Lemma inv_pend h K p m : kern_inv h K -> Z.land (Z.lor (recv (sig K p)) m) (wait (sig K p)) = 0 ->
  kern_inv h (set_sig p (mkSignal (Z.lor (recv (sig K p)) m) (wait (sig K p))) K).
Proof.
  intros [Hs Ho Hc Hl Ha Hsem Hv Hqu] Hr. split; ksimpl; try done.
  - intros q. specialize (Hs q). unfold seats in *. ksimpl. rewrite sig_set. by destruct (decide _) as [->|Hne].
  - intros q n E. rewrite sig_set. destruct (decide _) as [->|]; [|by apply Hl]. cbn [recv wait].
    destruct (Hl p n E) as (? & ? & [[Hw Hz]|[Hw Hz]]); split_and!; try done; try lia.
    + left. split; [done|]. by rewrite <- Hw.
    + right. split; [done|]. rewrite Z.land_lor_distr_l. intros Hz'. by apply Z.lor_eq_0_iff in Hz' as [? _].
  - intros q E. rewrite sig_set. destruct (decide _) as [->|]; [cbn; by apply Ha|by apply Ha].
Qed.

(** *** Semaphores *)

Lemma sem_at K i : Forall sem_ok (sems K) -> sem_ok (sem K i).
Proof. apply Forall_nth_sem. Qed.

(** A change that leaves the queue alone. *)
Lemma inv_sem h K i s : kern_inv h K -> (i < length (sems K))%nat -> sem_ok s ->
  wait_queue s = wait_queue (sem K i) -> kern_inv h (set_sem i s K).
Proof.
  intros [Hs Ho Hc Hl Ha Hsem Hv Hqu] Hi Hok Hq.
  assert (Eq : forall q, queued q (<[i := s]> (sems K)) = queued q (sems K)).
  { intros q. pose proof (queued_insert q (sems K) i s Hi) as E. rewrite Hq in E. unfold sem in E. lia. }
  unfold set_sem. split; ksimpl; try done.
  - intros q. specialize (Hs q). unfold seats in *. ksimpl. by rewrite Eq.
  - by apply Forall_insert.
  - intros q. rewrite Eq. apply Hv.
  - intros q. rewrite Eq. apply Hqu.
Qed.

(** The first of the queue is taken out and becomes the owner. *)
Lemma inv_handover K i p l : kern_inv None K -> in_obtain K = false -> (i < length (sems K))%nat ->
  wait_queue (sem K i) = p :: l -> kern_inv (Some p) (set_sem i (mkSem (Some p) l 1) K).
Proof.
  intros [Hs Ho Hc Hl Ha Hsem Hv Hqu] Eo Hi Hq.
  assert (Eq : forall q, (queued q (<[i := mkSem (Some p) l 1]> (sems K)) + b2n (p =? q)%Z)%nat = queued q (sems K)).
  { intros q. pose proof (queued_insert q (sems K) i (mkSem (Some p) l 1) Hi) as E.
    change (nth i (sems K) no_sem) with (sem K i) in E. rewrite Hq, cnt_cons in E. cbn [wait_queue] in E. lia. }
  assert (Hp : cnt p l = 0%nat).
  { pose proof (queued_insert p (sems K) i no_sem Hi) as E.
    change (nth i (sems K) no_sem) with (sem K i) in E. rewrite Hq, cnt_cons, Z.eqb_refl in E. cbn in E.
    specialize (Hs p). unfold seats in Hs. destruct (bool_decide (p ∈ procs K)); cbn [b2n] in Hs; lia. }
  unfold set_sem. split; ksimpl; try done.
  - intros q. specialize (Hs q). specialize (Eq q). unfold seats in *. ksimpl. rewrite Eo in *.
    change (sig (set_sems ?a ?b) q) with (sig b q). lia.
  - apply Forall_insert; [done|]. split; [cbn; lia|]. by apply cnt_not.
  - intros q E. congruence.
  - intros q E. apply Hqu. specialize (Eq q). lia.
Qed.

(** The current process joins a queue. *)
Lemma inv_join K i c : kern_inv None K -> current_process K = Some c -> in_obtain K = false ->
  (i < length (sems K))%nat -> lockable c (sem K i) = false ->
  kern_inv None (set_in_obtain true (set_sem i
    (mkSem (owner (sem K i)) (wait_queue (sem K i) ++ [c]) (nest_count (sem K i))) K)).
Proof.
  intros [Hs Ho Hc Hl Ha Hsem Hv Hqu] Ec Eo Hi Hlock. pose proof (sem_at K i Hsem) as Hsi.
  unfold lockable in Hlock. unfold sem_ok in Hsi. destruct (owner (sem K i)) as [o|] eqn:Eow; [|done].
  set (s := mkSem (Some o) (wait_queue (sem K i) ++ [c]) (nest_count (sem K i))).
  assert (Eq : forall q, queued q (<[i := s]> (sems K)) = (queued q (sems K) + b2n (c =? q)%Z)%nat).
  { intros q. pose proof (queued_insert q (sems K) i s Hi) as E.
    change (nth i (sems K) no_sem) with (sem K i) in E. cbn [s wait_queue] in E. rewrite cnt_app, cnt_cons, cnt_nil in E. lia. }
  unfold set_sem. split; ksimpl; try done; try congruence.
  - intros q. specialize (Hs q). specialize (Eq q). unfold seats in *. rewrite Ec, Eo in Hs. ksimpl.
    change (sig (set_in_obtain true (set_sems ?a ?b)) q) with (sig b q). lia.
  - apply Forall_insert; [done|]. destruct Hsi as [Hn Hno]. split; [exact Hn|]. cbn.
    rewrite elem_of_app, list_elem_of_singleton. zbool. naive_solver.
  - intros q _ E. rewrite Ec in E. injection E as <-. rewrite Eq, Z.eqb_refl.
    specialize (Hs c). unfold seats in Hs. rewrite Ec, Eo in Hs. ksimpl. rewrite Z.eqb_refl in Hs. ksimpl.
    destruct (bool_decide (c ∈ procs K)); ksimpl; lia.
  - intros q E. rewrite Eq in E. destruct (c =? q) eqn:Ecq; zbool; [subst q; by apply Hc|]. apply Hqu. cbn in E. lia.
Qed.

Lemma inv_sem_init h K : kern_inv h K -> kern_inv h (sem_init K).
Proof.
  intros [Hs Ho Hc Hl Ha Hsem Hv Hqu].
  assert (Eq : forall q, queued q (sems K ++ [mkSem None [] 0]) = queued q (sems K)).
  { intros q. rewrite queued_app. cbn. lia. }
  unfold sem_init. split; ksimpl; try done.
  - intros q. specialize (Hs q). unfold seats in *. ksimpl. by rewrite Eq.
  - apply Forall_app. split; [done|]. by repeat constructor.
  - intros q. rewrite Eq. apply Hv.
  - intros q. rewrite Eq. apply Hqu.
Qed.

(** *** Processes *)

Lemma inv_born K p : kern_inv None K -> p ∉ procs K ->
  kern_inv (Some p) (set_procs (procs K ++ [p]) (proc_initStruct p K)).
Proof.
  intros H Hp. assert (Ei : in_wait K !! p = None).
  { destruct (in_wait K !! p) as [m|] eqn:E; [|done]. destruct (k_loop _ _ H p m E) as (_ & ? & _). done. }
  pose proof (inv_signals None K p 0 H Ei) as [Hs Ho Hc Hl Ha Hsem Hv Hqu].
  unfold proc_initStruct. split; ksimpl; try done.
  - intros q. specialize (Hs q). unfold seats in *. ksimpl. change (sig (set_procs ?a ?b) q) with (sig b q).
    destruct (p =? q) eqn:E; zbool.
    + subst q. rewrite bool_decide_eq_false_2 in Hs by done.
      rewrite bool_decide_eq_true_2 by (rewrite elem_of_app, list_elem_of_singleton; by right). ksimpl. lia.
    + replace (bool_decide (q ∈ procs K ++ [p])) with (bool_decide (q ∈ procs K)); [ksimpl; lia|].
      apply bool_decide_ext. rewrite elem_of_app, list_elem_of_singleton. naive_solver.
  - intros q m E. destruct (Hl q m E) as (? & ? & ?). split_and!; try lia; [|done].
    rewrite elem_of_app. by left.
Qed.

Lemma inv_gone K c : kern_inv (Some c) K -> current_process K = None -> in_wait K !! c = None ->
  kern_inv None (set_procs (filter (fun q => q <> c) (procs K)) K).
Proof.
  intros H Ec Ei. destruct (hand_seats K c H) as [E0 _]. destruct H as [Hs Ho Hc Hl Ha Hsem Hv Hqu].
  split; ksimpl; try done; try congruence.
  - intros q. specialize (Hs q). change (seats (set_procs ?a ?b) q) with (seats b q).
    destruct (c =? q) eqn:E; zbool.
    + subst q. rewrite E0, bool_decide_eq_false_2; [done|]. rewrite list_elem_of_filter. naive_solver.
    + replace (bool_decide (q ∈ filter (fun q => q <> c) (procs K))) with (bool_decide (q ∈ procs K)); [ksimpl; lia|].
      apply bool_decide_ext. rewrite list_elem_of_filter. naive_solver.
  - intros q m E. destruct (Hl q m E) as (? & ? & ?). split_and!; try lia; [|done].
    rewrite list_elem_of_filter. split; [|done]. intros ->. congruence.
Qed.

(** *** Scheduling *)

Lemma schedule_ok K : kern_inv None K -> current_process K = None -> in_obtain K = false ->
  exists K', proc_schedule K = Some K' /\ kern_ok K'.
Proof.
  intros H Ec Eo. unfold proc_schedule. destruct (proc_ready_list K) as [|p l] eqn:E.
  - eexists. split; [reflexivity|]. destruct K. cbn in Ec. subst. exact H.
  - destruct (dispatch (set_ready l K) p) as (K' & E' & HK & _); [by apply inv_take|done|done|].
    exists K'. split; [exact E'|exact HK].
Qed.

(** [proc_switch] after the current process has found another place. *)
Lemma proc_switch_ok K : kern_inv None (set_current None (set_in_obtain false K)) ->
  exists K', proc_switch K = Some K' /\ kern_ok K'.
Proof.
  intros H. destruct (schedule_ok (preempt_reset_quantum (set_current None (set_in_obtain false K))))
    as (K' & E & HK); [by apply inv_quantum|done|done|]. exists K'. split; [|done].
  rewrite <- E. unfold proc_switch, proc_schedule. ksimpl. by destruct (proc_ready_list K).
Qed.

Lemma switchTo_ok K c p : current_process K = Some c -> in_obtain K = false ->
  kern_inv (Some p) (SCHED_ENQUEUE c (set_current None K)) ->
  exists K', proc_switchTo p K = Some K' /\ kern_ok K' /\ current_process K' = Some p.
Proof.
  intros Ec Eo H. destruct (dispatch (preempt_reset_quantum (SCHED_ENQUEUE c (set_current None K))) p)
    as (K' & E & HK & Hc & _); [by apply inv_quantum|done|done|].
  exists K'. split_and!; [|done|done]. unfold proc_switchTo. rewrite Ec. exact E.
Qed.

(** The current process back in the ready list. *)
Lemma inv_requeue K c : kern_inv None K -> current_process K = Some c -> in_obtain K = false ->
  kern_inv None (SCHED_ENQUEUE c (set_current None K)).
Proof. intros H Ec Eo. by apply inv_tail, inv_leave. Qed.

(** *** Every event *)

Lemma verify_ok s : sem_ok s -> sem_verify s = true.
Proof. unfold sem_ok, sem_verify. destruct (owner s); intros []; lia. Qed.

(** Locked once more by the current process. *)
Lemma locked_ok c s : sem_ok s -> lockable c s = true -> nest_count s < 127 ->
  sem_ok (mkSem (Some c) (wait_queue s) (i16 (nest_count s + 1))).
Proof.
  unfold sem_ok, lockable. intros Hs Hl Hn. cbn. destruct (owner s) as [o|].
  - zbool. subst o. destruct Hs. rewrite i16_small by lia. split; [lia|done].
  - destruct Hs as [-> ->]. rewrite i16_small by lia. split; [lia|]. apply not_elem_of_nil.
Qed.

Lemma attempt_ok K c i : kern_ok K -> current_process K = Some c -> (i < length (sems K))%nat ->
  nest_count (sem K i) < 127 -> exists r K', sem_attempt i K = Some (r, K') /\ kern_ok K'.
Proof.
  intros H Ec Hi Hn. unfold sem_attempt. rewrite Ec. pose proof (sem_at K i (k_sems _ _ H)) as Hs.
  rewrite verify_ok by done. cbn [negb]. destruct (lockable c (sem K i)) eqn:El; eexists _, _; (split; [reflexivity|]); [|done].
  apply inv_sem; [done|done|by apply locked_ok|done].
Qed.

Lemma obtain_ok K c i : kern_ok K -> current_process K = Some c -> in_obtain K = false -> (i < length (sems K))%nat ->
  nest_count (sem K i) < 127 -> owner (sem K i) <> Some c \/ wait_queue (sem K i) = [] ->
  exists K', sem_obtain i K = Some K' /\ kern_ok K'.
Proof.
  intros H Ec Eo Hi Hn Hq. unfold sem_obtain. rewrite Ec. pose proof (sem_at K i (k_sems _ _ H)) as Hs.
  rewrite verify_ok by done. cbn [negb]. destruct (lockable c (sem K i)) eqn:El; cbn [negb].
  - assert (wait_queue (sem K i) = []) as Eq.
    { destruct Hq as [Hq|]; [|done]. unfold lockable in El. unfold sem_ok in Hs.
      destruct (owner (sem K i)); [zbool; congruence|by destruct Hs]. }
    rewrite bool_decide_eq_true_2 by done. eexists. split; [reflexivity|].
    apply inv_sem; [done|done|by apply locked_ok|done].
  - eexists. split; [reflexivity|]. by apply inv_join.
Qed.

Lemma release_ok K c i : kern_ok K -> current_process K = Some c -> in_obtain K = false -> (i < length (sems K))%nat ->
  owner (sem K i) = Some c -> exists K', sem_release i K = Some K' /\ kern_ok K'.
Proof.
  intros H Ec Eo Hi Hown. unfold sem_release. pose proof (sem_at K i (k_sems _ _ H)) as Hs.
  rewrite verify_ok, Ec, Hown, bool_decide_eq_true_2 by done. cbn [andb negb].
  unfold sem_ok in Hs. rewrite Hown in Hs. destruct Hs as [Hn Hno]. rewrite i16_small by lia.
  destruct (nest_count (sem K i) - 1 =? 0) eqn:En; zbool.
  - destruct (wait_queue (sem K i)) as [|p l] eqn:Eq.
    + eexists. split; [reflexivity|]. apply inv_sem; [done|done| |by rewrite Eq]. by split; [|cbn; lia].
    + destruct (switchTo_ok (set_sem i (mkSem (Some p) l 1) K) c p Ec Eo) as (K' & E & HK & _); [|by exists K'].
      change (SCHED_ENQUEUE c (set_current None (set_sem i ?s K))) with (set_sem i s (SCHED_ENQUEUE c (set_current None K))).
      apply inv_handover; [by apply inv_requeue|done|done|exact Eq].
  - eexists. split; [reflexivity|]. apply inv_sem; [done|done| |done]. unfold sem_ok. cbn. split; [lia|done].
Qed.

Lemma signal_ok K p m w : kern_ok K ->
  (w = true -> exists c, current_process K = Some c /\ in_obtain K = false) ->
  exists K', __sig_signal p m w K = Some K' /\ kern_ok K'.
Proof.
  intros H Hw. unfold __sig_signal. destruct (_ =? 0) eqn:Er; zbool; cbn [negb].
  { eexists. split; [reflexivity|]. by apply inv_pend. }
  assert (Hwt : wait (sig K p) <> 0) by (intros E; by rewrite E, Z.land_0_r in Er).
  rewrite bool_decide_eq_false_2 by (intros E; apply Hwt, (k_awake _ _ H), (k_cur _ _ H p E)).
  destruct w.
  - destruct (Hw eq_refl) as (c & Ec & Eo).
    destruct (switchTo_ok (set_sig p (mkSignal (Z.lor (recv (sig K p)) m) 0) K) c p Ec Eo) as (K' & E & HK & _); [|by exists K'].
    change (SCHED_ENQUEUE c (set_current None (set_sig p ?s K))) with (set_sig p s (SCHED_ENQUEUE c (set_current None K))).
    apply inv_wake; [by apply inv_requeue|done|done].
  - eexists. split; [reflexivity|]. by apply inv_head, inv_wake.
Qed.

Lemma wait_ok K c m : kern_ok K -> current_process K = Some c -> in_obtain K = false -> is_mask m = true ->
  exists K', sig_waitSignal m K = Some K' /\ kern_ok K'.
Proof.
  intros H Ec Eo Hm. unfold is_mask in Hm. zbool. unfold sig_waitSignal. rewrite Ec. pose proof (k_cur _ _ H c Ec) as Ei.
  destruct (_ =? 0) eqn:Er; zbool; cbn [negb]; [|eexists; split; [reflexivity|by apply inv_take_signals]].
  apply proc_switch_ok.
  change (set_current None (set_in_obtain false (set_in_wait ?a (set_sig c ?s K))))
    with (set_in_wait a (set_sig c s (set_current None (set_in_obtain false K)))).
  assert (set_in_obtain false K = K) as -> by (rewrite <- Eo; by destruct K).
  apply (inv_sleep (set_current None K)); [by apply inv_leave|done|done|lia|done].
Qed.

Lemma yield_ok K c : kern_ok K -> current_process K = Some c -> in_obtain K = false ->
  exists K', proc_yield K = Some K' /\ kern_ok K'.
Proof.
  intros H Ec Eo. unfold proc_yield. destruct (proc_ready_list K) as [|p l] eqn:E; [by exists K|].
  destruct (switchTo_ok (set_ready l K) c p Ec Eo) as (K' & E' & HK & _); [|by exists K'].
  apply (inv_take (SCHED_ENQUEUE c (set_current None K)) p (l ++ [c])); [by apply inv_requeue|].
  cbn. by rewrite E.
Qed.

Lemma exit_ok K c : kern_ok K -> current_process K = Some c -> in_obtain K = false ->
  exists K', proc_exit K = Some K' /\ kern_ok K'.
Proof.
  intros H Ec Eo. unfold proc_exit. rewrite Ec. apply proc_switch_ok.
  change (set_current None (set_in_obtain false (set_current None (set_procs ?a K))))
    with (set_procs a (set_current None (set_in_obtain false K))).
  assert (set_in_obtain false K = K) as -> by (rewrite <- Eo; by destruct K).
  apply (inv_gone (set_current None K)); [by apply inv_leave|done|by apply (k_cur _ _ H)].
Qed.

Lemma kern_step pre e K : kern_ok K -> possible pre e K = true -> (e = EPreempt -> in_obtain K = false) ->
  exists K', exec e K = Some K' /\ kern_ok K'.
Proof.
  intros H Hp Hpre.
  assert (Hcall : forall c, current_process K = Some c -> in_obtain K = false -> call_ok c e K = true ->
    exists K', exec e K = Some K' /\ kern_ok K').
  { intros c Ec Eo Hc. destruct e; cbn [call_ok exec] in *; try done; zbool.
    - destruct (attempt_ok K c i H Ec) as (r & K' & -> & HK); [by apply Nat.ltb_lt|lia|]. by exists K'.
    - apply (obtain_ok K c); try done; [by apply Nat.ltb_lt|].
      apply orb_true_iff in H1 as [H1|H1]; [left; apply negb_true_iff in H1|right]; by apply bool_decide_eq_true in H1 || apply bool_decide_eq_false in H1.
    - apply (release_ok K c); try done; [by apply Nat.ltb_lt|]. by apply bool_decide_eq_true in H1.
    - eexists. split; [reflexivity|]. by apply inv_sem_init.
    - apply signal_ok; [done|]. intros _. by exists c.
    - by apply (wait_ok K c).
    - rewrite Ec. eexists. split; [reflexivity|]. apply inv_take_signals; [done|]. by apply (k_cur _ _ H).
    - by apply (yield_ok K c).
    - by apply (exit_ok K c).
    - apply bool_decide_eq_false in Hc. eexists. split; [reflexivity|]. by apply inv_tail, inv_born. }
  destruct e; cbn [possible] in Hp;
    try (destruct (current_process K) as [c|] eqn:Ec; [|done]; zbool; by apply (Hcall c)).
  - apply proc_switch_ok. by apply inv_left.
  - by apply signal_ok.
  - zbool. apply bool_decide_eq_true in H0. apply schedule_ok; [done|done|].
    destruct (in_obtain K) eqn:Eo; [|done]. by destruct (k_obtain _ _ H Eo).
  - eexists. split; [reflexivity|]. unfold proc_decQuantum. destruct (_ >? 0); [by apply inv_quantum|done].
  - zbool. cbn [exec]. unfold proc_preempt, proc_needPreempt in *. destruct (current_process K) as [c|] eqn:Ec; [|done].
    specialize (Hpre eq_refl).
    destruct (schedule_ok (preempt_reset_quantum (SCHED_ENQUEUE c (set_current None K)))) as (K' & E & HK);
      [by apply inv_quantum, inv_requeue|done|done|]. exists K'. split; [|done]. rewrite <- E.
    unfold proc_schedule. ksimpl. by destruct (proc_ready_list K ++ [c]).
Qed.

Lemma kern_init_ok : kern_ok proc_init.
Proof.
  split; cbn; try done.
  - intros p. unfold seats, sig, proc_init. ksimpl. rewrite lookup_empty, cnt_nil. cbn [default wait queued].
    destruct (0 =? p) eqn:E; zbool; cbn.
    + subst p. by rewrite bool_decide_eq_true_2 by (by apply list_elem_of_singleton).
    + rewrite bool_decide_eq_false_2; [done|]. rewrite list_elem_of_singleton. naive_solver.
Qed.

Lemma reachable_ok K : reachable false K -> kern_ok K.
Proof.
  induction 1 as [|K e K' _ IH Hp E]; [apply kern_init_ok|].
  destruct (kern_step false e K IH Hp) as (K1 & E1 & HK).
  { intros ->. cbn in Hp. done. }
  congruence.
Qed.

(** ** What the kernel promises *)

(** A process that waits for signals and has one is on its way. *)
Lemma signalled_ready K p m : kern_ok K -> in_wait K !! p = Some m -> Z.land (recv (sig K p)) m <> 0 ->
  p ∈ proc_ready_list K.
Proof.
  intros H Ei Hr. destruct (k_loop _ _ H p m Ei) as (_ & Hp & [[_ ?]|[Hw _]]); [done|].
  pose proof (k_seats _ _ H p) as E. unfold seats in E. rewrite Hw, bool_decide_eq_true_2 in E by done.
  assert (queued p (sems K) = 0%nat) as Eq.
  { destruct (decide (queued p (sems K) = 0%nat)) as [|Hq]; [done|]. pose proof (k_queue _ _ H p Hq). congruence. }
  assert (is_it (current_process K) p = false) as Ec.
  { destruct (current_process K) as [c|] eqn:Ecur; [|done]. cbn. apply Z.eqb_neq. intros ->.
    pose proof (k_cur _ _ H p Ecur). congruence. }
  rewrite Eq, Ec in E. cbn in E. unfold cnt in E. apply list_elem_of_In, (count_occ_In Z.eq_dec). lia.
Qed.

(** C30: The kernel is safe.  Start it without preemption and let processes call it
    as they like within its rules, interrupts post signals at any time, also
    while a process is on its way to sleep.  Then every process is always in
    exactly one place: on the processor, in the ready list, in the queue of one
    semaphore, or asleep; no wake-up is lost: a process that waits for signals
    has none of them, or is in the ready list; a semaphore that nobody holds is
    wanted by nobody, and its holder does not queue for it; and no call fails
    an assertion, those of [sig_waitSignal] about what it finds when it comes
    back among them. *)
Theorem kernel_safe (K : Kernel) : reachable false K ->
  (forall p, seats K p = if decide (p ∈ procs K) then 1%nat else 0%nat) /\
  (forall p m, in_wait K !! p = Some m -> Z.land (recv (sig K p)) m = 0 \/ p ∈ proc_ready_list K) /\
  Forall sem_ok (sems K) /\
  (forall e, possible false e K = true -> exists K', exec e K = Some K').
Proof.
  intros Hr. pose proof (reachable_ok K Hr) as H. split_and!.
  - intros p. pose proof (k_seats _ _ H p) as E. cbn [is_it b2n] in E. rewrite Nat.add_0_r in E. rewrite E.
    destruct (decide (p ∈ procs K)); [by rewrite bool_decide_eq_true_2|by rewrite bool_decide_eq_false_2].
  - intros p m Ei. destruct (decide (Z.land (recv (sig K p)) m = 0)); [by left|right]. by eapply signalled_ready.
  - by apply (k_sems _ _ H).
  - intros e Hp. destruct (kern_step false e K H Hp) as (K' & E & _); [by intros ->|by exists K'].
Qed.

(** *** Semaphores are fair *)

Lemma resume_sems p K K' : resume p K = Some K' -> sems K' = sems K.
Proof.
  unfold resume. destruct (in_wait K !! p) as [m|]; [|by intros [= <-]].
  destruct (_ && _); [|done]. by intros [= <-].
Qed.

Lemma resume_current p K K' : resume p K = Some K' -> current_process K' = current_process K.
Proof.
  unfold resume. destruct (in_wait K !! p) as [m|]; [|by intros [= <-]].
  destruct (_ && _); [|done]. by intros [= <-].
Qed.

Lemma schedule_sems K K' : proc_schedule K = Some K' -> sems K' = sems K.
Proof.
  unfold proc_schedule. destruct (proc_ready_list K); [by intros [= <-]|]. intros E. by apply resume_sems in E.
Qed.

Lemma switchTo_sems p K K' : proc_switchTo p K = Some K' -> sems K' = sems K /\ current_process K' = Some p.
Proof.
  unfold proc_switchTo. destruct (current_process K); [|done]. intros E.
  split; [by apply resume_sems in E|by apply resume_current in E].
Qed.

Definition sem_event (e : event) : bool :=
  match e with EAttempt _ | EObtain _ | ERelease _ | ESemInit => true | _ => false end.

Lemma other_sems e K K' : sem_event e = false -> exec e K = Some K' -> sems K' = sems K.
Proof.
  intros He. destruct e; try done; cbn [exec]; unfold sig_sendSignal, sig_postSignal, __sig_signal, sig_waitSignal,
    proc_yield, proc_exit, proc_switch, proc_preempt, proc_wakeup, proc_decQuantum.
  all: repeat case_match; try done; try (by intros [= <-]); try (by intros E%schedule_sems); by intros [E _]%switchTo_sems.
Qed.

Lemma sem_set K i s j : (i < length (sems K))%nat -> sem (set_sem i s K) j = if decide (i = j) then s else sem K j.
Proof.
  intros Hi. unfold sem, set_sem. cbn. rewrite !nth_lookup. destruct (decide (i = j)) as [->|Hne].
  - by rewrite list_lookup_insert_eq.
  - by rewrite list_lookup_insert_ne.
Qed.

Lemma sem_init_at K i : sem (sem_init K) i = sem K i.
Proof.
  unfold sem, sem_init. cbn. destruct (decide (i < length (sems K))%nat).
  - by rewrite app_nth1.
  - rewrite app_nth2, (nth_overflow (sems K)) by lia. destruct (i - length (sems K))%nat as [|[|]]; done.
Qed.

(** C31: Semaphores are fair, and exclude.  From any state the kernel comes to
    without preemption, whatever happens next: a holder keeps its semaphore
    until it releases it itself; and a process in the queue keeps its place, or
    the holder released and the queue has moved up by one, the first becoming
    the holder, on the processor at once.  So whoever waits is served after as
    many releases as there are processes before it, in order of arrival. *)
Theorem sem_fair (K : Kernel) (e : event) (K' : Kernel) (i : nat) :
  reachable false K -> possible false e K = true -> exec e K = Some K' ->
  (forall o, owner (sem K i) = Some o ->
    owner (sem K' i) = Some o \/ (e = ERelease i /\ current_process K = Some o)) /\
  (forall j p, wait_queue (sem K i) !! j = Some p ->
    wait_queue (sem K' i) !! j = Some p \/
    (e = ERelease i /\
      match j with
      | O => owner (sem K' i) = Some p /\ current_process K' = Some p
      | S j' => wait_queue (sem K' i) !! j' = Some p
      end)).
Proof.
  intros Hr Hp E. pose proof (reachable_ok K Hr) as H.
  assert (Hsame : sem K' i = sem K i -> (forall o, owner (sem K i) = Some o -> owner (sem K' i) = Some o \/
      (e = ERelease i /\ current_process K = Some o)) /\
    (forall j p, wait_queue (sem K i) !! j = Some p -> wait_queue (sem K' i) !! j = Some p \/ (e = ERelease i /\
      match j with O => owner (sem K' i) = Some p /\ current_process K' = Some p | S j' => wait_queue (sem K' i) !! j' = Some p end))).
  { intros ->. split; intros; by left. }
  destruct (sem_event e) eqn:He.
  2:{ apply Hsame. unfold sem. by rewrite (other_sems e K K' He E). }
  destruct e as [k|k|k| | | | | | | | | | | |]; try done; cbn [exec possible call_ok] in *.
  4:{ injection E as <-. apply Hsame, sem_init_at. }
  all: destruct (current_process K) as [c|] eqn:Ec; [|done]; zbool.
  all: match goal with H : (?a <? ?b)%nat = true |- _ => apply Nat.ltb_lt in H; rename H into Hk;
         destruct (decide (a = i)) as [->|Hne] end.
  - unfold sem_attempt in E. rewrite Ec in E. destruct (negb _); [done|].
    destruct (lockable c (sem K i)) eqn:El; injection E as <-; [|by apply Hsame].
    rewrite sem_set, decide_True by done. cbn. split; [|intros; by left].
    intros o Eo. unfold lockable in El. rewrite Eo in El. zbool. subst. by left.
  - apply Hsame. unfold sem_attempt in E. rewrite Ec in E. destruct (negb _); [done|].
    destruct (lockable c (sem K k)); injection E as <-; [|done]. by rewrite sem_set, decide_False.
  - unfold sem_obtain in E. rewrite Ec in E. destruct (negb (sem_verify _)); [done|].
    destruct (lockable c (sem K i)) eqn:El; cbn [negb] in E.
    + destruct (bool_decide _); [|done]. injection E as <-. rewrite sem_set, decide_True by done. cbn.
      split; [|intros; by left]. intros o Eo. unfold lockable in El. rewrite Eo in El. zbool. subst. by left.
    + injection E as <-. change (sem (set_in_obtain true ?a) i) with (sem a i). rewrite sem_set, decide_True by done. cbn.
      split; [by left|]. intros j p Ej. left. by apply lookup_app_l_Some.
  - apply Hsame. unfold sem_obtain in E. rewrite Ec in E. destruct (negb (sem_verify _)); [done|].
    destruct (negb (lockable c (sem K k))); [|destruct (bool_decide (wait_queue (sem K k) = [])); [|done]]; injection E as <-;
      [change (sem (set_in_obtain true ?a) i) with (sem a i)|]; by rewrite sem_set, decide_False.
  - unfold sem_release in E. destruct (negb _); [done|].
    match goal with H : bool_decide (owner (sem K i) = Some c) = true |- _ => apply bool_decide_eq_true in H; rename H into Hown end.
    split; [intros o Eo; right; split; [done|congruence]|]. intros j p Ej.
    destruct (_ =? 0); [|injection E as <-; rewrite sem_set, decide_True by done; by left].
    destruct (wait_queue (sem K i)) as [|q l] eqn:Eq; [by rewrite lookup_nil in Ej|].
    right. split; [done|]. apply switchTo_sems in E as [E1 E2].
    assert (sem K' i = mkSem (Some q) l 1) as -> by (unfold sem; rewrite E1; change (sem (set_sem i (mkSem (Some q) l 1) K) i = mkSem (Some q) l 1); by rewrite sem_set, decide_True).
    destruct j as [|j]; cbn in Ej |- *; [injection Ej as <-; by split|done].
  - apply Hsame. unfold sem_release in E. destruct (negb _); [done|].
    destruct (_ =? 0); [|injection E as <-; by rewrite sem_set, decide_False].
    destruct (wait_queue (sem K k)) as [|q l]; [injection E as <-; by rewrite sem_set, decide_False|].
    apply switchTo_sems in E as [E1 _]. unfold sem at 1. rewrite E1.
    change (sem (set_sem k (mkSem (Some q) l 1) K) i = sem K i). by rewrite sem_set, decide_False.
Qed.

(** ** Traces *)

Fixpoint trace (preemptive : bool) (es : list event) (K : Kernel) : option Kernel :=
  match es with
  | [] => Some K
  | e :: es => if possible preemptive e K then exec e K ≫= trace preemptive es else None
  end.

Lemma trace_reachable pre es : forall K K', reachable pre K -> trace pre es K = Some K' -> reachable pre K'.
Proof.
  induction es as [|e es IH]; intros K K' Hr E; cbn in E; [by injection E as <-|].
  destruct (possible pre e K) eqn:Hp; [|done]. apply bind_Some in E as (K1 & E1 & E).
  apply (IH K1); [by apply (reach_step pre K e)|done].
Qed.

(** Process 0 makes process 1 and a semaphore, locks it and gives way; process
    1 wants the semaphore. *)
Definition wanted : list event := [ENew 1; ESemInit; EObtain 0; EYield; EObtain 0].

Definition after (pre : bool) (es : list event) : Kernel := default proc_init (trace pre es proc_init).

Lemma after_reachable pre es : reachable pre (after pre es).
Proof.
  unfold after. destruct (trace pre es proc_init) as [K|] eqn:E; cbn; [|constructor].
  eapply trace_reachable; [constructor|done].
Qed.

Lemma kernel_safe_witness :
  let K := after false (wanted ++ [ESwitch; EPost 1 4]) in
  (seats K 1 = 1%nat /\ recv (sig K 1) = 4 /\ owner (sem K 0) = Some 0 /\ wait_queue (sem K 0) = [1]) /\
  Forall sem_ok (sems K) /\ (exists K', exec (EWait 4) K = Some K').
Proof.
  intros K. destruct (kernel_safe K (after_reachable _ _)) as (Hs & _ & Hf & He).
  split_and!; [rewrite Hs|..]; try by vm_compute. apply He. by vm_compute.
Defined.

Lemma sem_fair_witness :
  let K := after false (wanted ++ [ESwitch]) in
  exists K', exec (ERelease 0) K = Some K' /\ owner (sem K' 0) = Some 1 /\ current_process K' = Some 1.
Proof.
  intros K. destruct (exec (ERelease 0) K) as [K'|] eqn:E; [|by vm_compute in E].
  exists K'. split; [done|].
  assert (Hp : possible false (ERelease 0) K = true) by (by vm_compute).
  destruct (sem_fair K (ERelease 0) K' 0 (after_reachable _ _) Hp E) as [_ Hq].
  destruct (Hq O 1) as [Hw|[_ Hw]]; [by vm_compute| |done].
  exfalso. revert Hw E. generalize K'. intros K1 Hw [= <-]. by vm_compute in Hw.
Defined.

(** ** Where the rules come from *)

(** Locking is meant to nest, and does while nobody waits; once another process
    waits, the owner that locks its semaphore again fails the assertion of
    [sem_obtain] that nobody does. *)
Theorem nested_obtain_asserts :
  let K := after false (wanted ++ [ESwitch]) in
  reachable false K /\ current_process K = Some 0 /\ owner (sem K 0) = Some 0 /\ in_obtain K = false /\
  exec (EObtain 0) K = None /\ exists K', exec (EAttempt 0) K = Some K'.
Proof.
  intros K. split_and!; [apply after_reachable|..]; try by vm_compute. eexists. by vm_compute.
Qed.

(** With preemption, [sem_obtain] permits it again before it calls
    [proc_switch]: when the quantum ends there, [proc_preempt] puts the process,
    that is in the queue of the semaphore, in the ready list too. *)
Theorem obtain_preempted :
  let K := after true (wanted ++ repeat ETick 11 ++ [EPreempt]) in
  reachable true K /\ wait_queue (sem K 0) = [1] /\ 1 ∈ proc_ready_list K /\ seats K 1 = 2%nat.
Proof.
  intros K. split_and!; [apply after_reachable|by vm_compute| |by vm_compute].
  assert (proc_ready_list K = [1]) as -> by (by vm_compute). by apply list_elem_of_singleton.
Qed.
