(* ===== verification/KFileBase.v ===== *)
(** * The base class of the byte streams: the rest of [bertos/io/kfile.c]

    What a [KFile] does before a device fills in its functions, the generic
    reopen and close, the line reader without echo, and [kfile_resync], which
    throws input away until the line has been quiet for a while. *)

From Stdlib Require Import ZArith Lia Bool List.
From stdpp Require Import prelude.
From S2P Require Import Prelude Timer KFile.

Open Scope Z_scope.

(** ** The constructor *)

(** A file on which only [kfile_init] has run: size and position are 0, and
    [kfile_generic] stands for every function but seek, reopen and close. *)
Record KFileBare := mkBare { bare_pos : KFilePos }.

Definition kfile_generic (fd : KFileBare) : Z := 0.

#[export] Instance kfile_bare : KFile KFileBare := {
  kfile_read fd size := ([], fd);
  kfile_write fd buf := (kfile_generic fd, fd);
  kfile_flush fd := (kfile_generic fd, fd);
  kfile_error fd := kfile_generic fd;
  kfile_clearerr fd := fd
}.

Definition kfile_init : KFileBare := mkBare (mkPos 0 0).

(** ** The generic functions *)
Section Generic.
Context {F : Type} `{KFile F}.
(** The device's own. *)
Variable kfile_seek : F -> Z -> KSeekMode -> Z * F.

Definition kfile_genericReopen (fd : F) : F :=
  let '(_, fd) := kfile_flush fd in
  let '(_, fd) := kfile_seek fd 0 KSM_SEEK_SET in
  fd.

Definition kfile_genericClose (fd : F) : Z * F := kfile_flush fd.

Definition kfile_gets (fuel : nat) (fd : F) (size : Z) : option (Z * list Z * F) :=
  kfile_gets_echo fuel fd [] size false.
End Generic.

(** ** Resynchronisation *)
Section Resync.
Context {F : Type} `{KFile F}.
(** What the line brings before the [k]-th attempt to read. *)
Variable arrive : nat -> F -> F.

(** [clock i]: the [i]-th reading of the clock; each turn consumes one unit of
    [fuel] ([None]: still waiting). *)
Fixpoint resync_loop (fuel : nat) (clock : nat -> Z) (i k : nat) (start_time delay : Z) (fd : F)
  : option F :=
  match fuel with
  | O => None
  | S fuel' =>
      let '(c, fd) := kfile_getc (arrive k fd) in
      let '(start_time, i) := if negb (c =? EOF) then (clock i, S i) else (start_time, i) in
      if i32 (clock i - start_time) >? ms_to_ticks delay then Some (kfile_clearerr fd)
      else resync_loop fuel' clock (S i) (S k) start_time delay fd
  end.

Definition kfile_resync (fuel : nat) (clock : nat -> Z) (delay : Z) (fd : F) : option F :=
  resync_loop fuel clock 1 0 (clock 0%nat) delay fd.
End Resync.

(** ** What they do *)

(** Nothing can be read from or written to a bare file. *)
Lemma kfile_init_dead c s :
  fst (kfile_getc kfile_init) = EOF /\ fst (kfile_putc c kfile_init) = EOF /\
  (s <> 0 -> fst (kfile_print kfile_init [s]) = EOF).
Proof.
  split_and!; [done|done|]. intros Hs. cbn. by assert ((s =? 0) = false) as -> by lia.
Qed.

Section ResyncLaws.
Context {F : Type} `{KSource F}.
(** The time that really passes. *)
Variable T : nat -> Z.
Hypothesis T_mono : forall i, T i <= T (S i).
Variable delay : Z.
Hypothesis Hdelay : 0 <= ms_to_ticks delay.

Local Notation clock := (fun i => i32 (T i)).
Local Notation quiet := (fun (_ : nat) (fd : F) => fd).

Lemma getc_eof c : is_byte c -> negb (c =? EOF) = true.
Proof. unfold is_byte, EOF. lia. Qed.

(** On a quiet line with nothing left the loop ends at the first reading that
    finds the delay over. *)
Lemma resync_waits j : forall i k fd s,
  ks_ok fd -> ks_in fd = [] -> T s <= T i ->
  ms_to_ticks delay < T (i + j)%nat - T s < 2147483648 ->
  exists fd', resync_loop quiet (S j) clock i k (i32 (T s)) delay fd = Some fd' /\
    ks_ok fd' /\ ks_in fd' = [].
Proof.
  induction j as [|j IH]; intros i k fd s Hok Hin Hs Hj;
    destruct (kfile_getc_nil fd Hok Hin) as (Ec & Ein & Eok);
    cbn [resync_loop]; destruct (kfile_getc fd) as [c fd1]; cbn in Ec, Ein, Eok; subst c;
    cbn [negb]; rewrite Z.eqb_refl; cbn [negb]; rewrite i32_sub_l, i32_sub_r.
  all: pose proof (T_le T T_mono i (i + 0)%nat ltac:(lia));
    destruct (ks_clearerr fd1 Eok) as [Kok Kin].
  - rewrite Nat.add_0_r in *. rewrite i32_small by lia.
    assert ((T i - T s >? ms_to_ticks delay) = true) as -> by lia.
    exists (kfile_clearerr fd1). by rewrite Kin.
  - pose proof (T_le T T_mono i (i + S j)%nat ltac:(lia)). rewrite i32_small by lia.
    destruct (T i - T s >? ms_to_ticks delay) eqn:E.
    + exists (kfile_clearerr fd1). by rewrite Kin.
    + apply IH; [done|done| |by rewrite Nat.add_succ_comm].
      pose proof (T_mono i). lia.
Qed.

(** While input waits, each turn takes a character and starts the delay anew. *)
Lemma resync_reads l : forall i k fd s fuel,
  ks_ok fd -> ks_in fd = l ->
  (forall n, T (S n) - T n <= ms_to_ticks delay) -> ms_to_ticks delay < 2147483648 ->
  (fuel >= length l)%nat -> l <> [] ->
  exists fd', ks_ok fd' /\ ks_in fd' = [] /\
    resync_loop quiet fuel clock i k (i32 (T s)) delay fd
    = resync_loop quiet (fuel - length l) clock (i + 2 * length l) (k + length l)
        (i32 (T (i + 2 * length l - 2)%nat)) delay fd'.
Proof.
  induction l as [|c l IH]; intros i k fd s fuel Hok Hin Hstep Hd Hf Hne; [done|].
  destruct fuel as [|fuel]; [cbn in Hf; lia|].
  pose proof (ks_bytes fd Hok) as Hb. rewrite Hin in Hb. apply Forall_cons in Hb as [Hc _].
  destruct (kfile_getc_cons fd c l Hok Hin) as (Ec & Ein & Eok).
  cbn [resync_loop]. destruct (kfile_getc fd) as [c' fd1]; cbn in Ec, Ein, Eok; subst c'.
  rewrite getc_eof by done. rewrite i32_sub_l, i32_sub_r.
  pose proof (T_mono i). specialize (Hstep i) as Hi. rewrite i32_small by lia.
  assert ((T (S i) - T i >? ms_to_ticks delay) = false) as -> by lia.
  destruct l as [|c2 l].
  - exists fd1. split_and!; [done|done|]. cbn [length]. f_equal; try lia. do 2 f_equal. lia.
  - destruct (IH (S (S i)) (S k) fd1 i fuel Eok Ein Hstep Hd ltac:(cbn in *; lia) ltac:(done))
      as (fd' & Hok' & Hin' & E). exists fd'. split_and!; [done|done|]. rewrite E.
    cbn [length] in *. f_equal; try lia. do 2 f_equal. lia.
Qed.

(** [kfile_resync] does what it is for, wherever the 32-bit clock wraps: on a
    line that brings nothing more, with the processor never away for longer
    than the delay, it returns once the delay has passed since the last
    character, and what was waiting has been thrown away. *)
Theorem kfile_resync_drains (fd : F) (m : nat)
    (Hok : ks_ok fd) (Hstep : forall n, T (S n) - T n <= ms_to_ticks delay)
    (Hm : ms_to_ticks delay < T (S (2 * length (ks_in fd) + m)) - T (2 * length (ks_in fd) - 1)%nat
          < 2147483648) :
  exists fd', kfile_resync quiet (length (ks_in fd) + S m) clock delay fd = Some fd' /\
    ks_ok fd' /\ ks_in fd' = [].
Proof.
  unfold kfile_resync. remember (ks_in fd) as l eqn:El. destruct l as [|c l].
  - apply (resync_waits m 1 0 fd 0%nat); [done|done|apply T_mono|exact Hm].
  - destruct (resync_reads (c :: l) 1 0 fd 0%nat (length (c :: l) + S m) Hok ltac:(done) Hstep)
      as (fd' & Hok' & Hin' & E); [lia|lia|done|]. rewrite E.
    replace (length (c :: l) + S m - length (c :: l))%nat with (S m) by lia.
    replace (1 + 2 * length (c :: l) - 2)%nat with (2 * length (c :: l) - 1)%nat by (cbn; lia).
    apply (resync_waits m); [done|done| |exact Hm].
    apply (T_le T T_mono). cbn. lia.
Qed.
End ResyncLaws.
