(* ===== verification/KBlock.v ===== *)
(** * Block devices: [bertos/io/kblock.[ch]]

    A [KBlock] is a device of numbered blocks behind a table of functions, as a
    [KFile] is a stream.  It may keep one block in a buffer and write it back
    later.  [KBlockVTable] is the table, [KBlockDev] what the table promises,
    and the theorem says what the functions over it then do, when the device
    fails included.  KBlockRam.v is an implementation, KFileBlock.v a client. *)

From Stdlib Require Import ZArith Lia Bool List.
From stdpp Require Import prelude.
From S2P Require Import Prelude.

Open Scope Z_scope.

Definition KB_BUFFERED : Z := BV 0.
Definition KB_CACHE_DIRTY : Z := BV 1.
Definition KB_PARTIAL_WRITE : Z := BV 2.

(** [KBlock] with its private members; [dev] is what the driver adds. *)
Record KBlock (D : Type) := mkKBlock {
  flags : Z;
  buf : list Z;
  blk_start : Z;
  curr_blk : Z;
  blk_size : Z;
  blk_cnt : Z;
  dev : D
}.
Arguments mkKBlock {D}.
Arguments flags {D}.
Arguments buf {D}.
Arguments blk_start {D}.
Arguments curr_blk {D}.
Arguments blk_size {D}.
Arguments blk_cnt {D}.
Arguments dev {D}.

Section Setters.
Context {D : Type}.
Implicit Types b : KBlock D.
Definition set_flags f b := mkKBlock f (buf b) (blk_start b) (curr_blk b) (blk_size b) (blk_cnt b) (dev b).
Definition set_buf l b := mkKBlock (flags b) l (blk_start b) (curr_blk b) (blk_size b) (blk_cnt b) (dev b).
Definition set_curr i b := mkKBlock (flags b) (buf b) (blk_start b) i (blk_size b) (blk_cnt b) (dev b).
Definition set_dev (d : D) b := mkKBlock (flags b) (buf b) (blk_start b) (curr_blk b) (blk_size b) (blk_cnt b) d.
End Setters.

(** Functions that fill a buffer return the bytes they put there; the count
    the C function returns is their number. *)
Class KBlockVTable (D : Type) := {
  readDirect : KBlock D -> Z -> Z -> Z -> list Z * KBlock D;
  writeDirect : KBlock D -> Z -> list Z -> Z -> Z * KBlock D;
  readBuf : KBlock D -> Z -> Z -> list Z * KBlock D;
  writeBuf : KBlock D -> list Z -> Z -> Z * KBlock D;
  load : KBlock D -> Z -> Z * KBlock D;
  store : KBlock D -> Z -> Z * KBlock D;
  error : KBlock D -> Z;
  clearerr : KBlock D -> KBlock D;
  close : KBlock D -> Z * KBlock D
}.

Definition kblock_buffered {D} (b : KBlock D) : bool := negb (Z.land (flags b) KB_BUFFERED =? 0).
Definition kblock_cacheDirty {D} (b : KBlock D) : bool :=
  kblock_buffered b && negb (Z.land (flags b) KB_CACHE_DIRTY =? 0).
Definition kblock_partialWrite {D} (b : KBlock D) : bool :=
  negb (Z.land (flags b) KB_PARTIAL_WRITE =? 0).
Definition kblock_cachedBlock {D} (b : KBlock D) : Z := curr_blk b.
Definition kblock_setDirty {D} (dirty : bool) (b : KBlock D) : KBlock D :=
  set_flags (if dirty then Z.lor (flags b) KB_CACHE_DIRTY
             else Z.land (flags b) (Z.lnot KB_CACHE_DIRTY)) b.

Section Interface.
Context {D : Type} `{KBlockVTable D}.
Implicit Types b : KBlock D.

Definition kblock_readDirect b (index offset size : Z) : list Z * KBlock D :=
  readDirect b (u32 (blk_start b + index)) offset size.
Definition kblock_writeDirect b (index : Z) (l : list Z) (offset : Z) : Z * KBlock D :=
  writeDirect b (u32 (blk_start b + index)) l offset.
Definition kblock_readBuf b (offset size : Z) : list Z * KBlock D := readBuf b offset size.
Definition kblock_writeBuf b (l : list Z) (offset : Z) : Z * KBlock D := writeBuf b l offset.
Definition kblock_load b (index : Z) : Z * KBlock D := load b (u32 (blk_start b + index)).
Definition kblock_store b (index : Z) : Z * KBlock D := store b (u32 (blk_start b + index)).
Definition kblock_error b : Z := error b.
Definition kblock_clearerr b : KBlock D := clearerr b.

Definition kblock_read b (idx offset size : Z) : list Z * KBlock D :=
  if kblock_buffered b && (idx =? curr_blk b) then kblock_readBuf b offset size
  else kblock_readDirect b idx offset size.

Definition kblock_flush b : Z * KBlock D :=
  if negb (kblock_buffered b) then (0, b)
  else if kblock_cacheDirty b then
    let '(r, b) := kblock_store b (curr_blk b) in
    if r =? 0 then (0, kblock_setDirty false b) else (EOF, b)
  else (0, b).

Definition kblock_loadPage b (idx : Z) : bool * KBlock D :=
  if negb (idx =? curr_blk b) then
    let '(r, b) := kblock_flush b in
    if negb (r =? 0) then (false, b)
    else
      let '(r, b) := kblock_load b idx in
      if negb (r =? 0) then (false, b) else (true, set_curr idx b)
  else (true, b).

Definition kblock_trim b (start count : Z) : Z * KBlock D :=
  let '(ok, b) := if kblock_buffered b then kblock_loadPage b start else (true, b) in
  if negb ok then (EOF, b)
  else
    (0, mkKBlock (flags b) (buf b) (u32 (blk_start b + start)) 0 (blk_size b) count (dev b)).

Definition kblock_write b (idx : Z) (l : list Z) (offset : Z) : Z * KBlock D :=
  if kblock_buffered b then
    let '(ok, b) := kblock_loadPage b idx in
    if negb ok then (0, b) else kblock_writeBuf (kblock_setDirty true b) l offset
  else kblock_writeDirect b idx l offset.

(** The copy of a block through 16 bytes of stack; every turn copies at least
    a byte, so [fuel], the bytes of a block, is enough. *)
Fixpoint copy_loop (fuel : nat) b (src dest size_left offset : Z) : Z * KBlock D :=
  match fuel with
  | O => (0, b)
  | S fuel' =>
      if size_left =? 0 then (0, b)
      else
        let size := Z.min 16 size_left in
        let '(l, b) := kblock_readDirect b src offset size in
        if negb (Z.of_nat (length l) =? size) then (EOF, b)
        else
          let '(n, b) := kblock_writeDirect b dest l offset in
          if negb (n =? size) then (EOF, b)
          else copy_loop fuel' b src dest (size_left - size) (offset + size)
  end.

Definition kblock_copy b (src dest : Z) : Z * KBlock D :=
  if kblock_buffered b then
    let '(ok, b) := kblock_loadPage b src in
    if negb ok then (EOF, b) else (0, kblock_setDirty true (set_curr dest b))
  else if kblock_partialWrite b then
    copy_loop (Z.to_nat (blk_size b)) b src dest (blk_size b) 0
  else (EOF, b).

Definition kblock_close b : Z * KBlock D :=
  let '(r1, b) := kblock_flush b in
  let '(r2, b) := close b in (Z.lor r1 r2, b).
End Interface.

(** ** The buffer in software, for drivers that only read and write directly *)
Section Software.
Context {D : Type}.
Variable vt_readDirect : KBlock D -> Z -> Z -> Z -> list Z * KBlock D.
Variable vt_writeDirect : KBlock D -> Z -> list Z -> Z -> Z * KBlock D.
Implicit Types b : KBlock D.

(** The index is physical; the read adds the start block again. *)
Definition kblock_swLoad b (index : Z) : Z * KBlock D :=
  let '(l, b1) := vt_readDirect b (u32 (blk_start b + u32 (index - blk_start b))) 0 (blk_size b) in
  let b1 := set_buf (copy_at (buf b1) 0 l) b1 in
  (if Z.of_nat (length l) =? blk_size b then 0 else EOF, b1).

Definition kblock_swStore b (index : Z) : Z * KBlock D :=
  let '(n, b1) := vt_writeDirect b (u32 (blk_start b + u32 (index - blk_start b)))
    (bytes_at (buf b) 0 (blk_size b)) 0 in
  (if n =? blk_size b then 0 else EOF, b1).

Definition kblock_swReadBuf b (offset size : Z) : list Z * KBlock D :=
  (bytes_at (buf b) offset size, b).
Definition kblock_swWriteBuf b (l : list Z) (offset : Z) : Z * KBlock D :=
  (Z.of_nat (length l), set_buf (copy_at (buf b) offset l) b).
Definition kblock_swClose b : Z * KBlock D := (0, b).
End Software.

(** ** What a driver promises

    [disk]: the bytes of all blocks.  An access inside a block either does all
    it is asked for, or reports less; then a load or a write into the buffer
    leaves the buffer as it was, and a write may have spoilt its block. *)
Class KBlockDev (D : Type) `{KBlockVTable D} := {
  disk : D -> list Z;
  rd_law b i o n : 0 < blk_size b -> 0 <= i -> 0 <= o -> 0 <= n -> o + n <= blk_size b ->
    (i + 1) * blk_size b <= Z.of_nat (length (disk (dev b))) ->
    exists l d, readDirect b i o n = (l, set_dev d b) /\ disk d = disk (dev b) /\
      (l = bytes_at (disk (dev b)) (i * blk_size b + o) n \/ Z.of_nat (length l) < n);
  wr_law b i l o : 0 < blk_size b -> 0 <= i -> 0 <= o -> o + Z.of_nat (length l) <= blk_size b ->
    (i + 1) * blk_size b <= Z.of_nat (length (disk (dev b))) ->
    exists n d, writeDirect b i l o = (n, set_dev d b) /\
      ((n = Z.of_nat (length l) /\ disk d = copy_at (disk (dev b)) (i * blk_size b + o) l) \/
       (0 <= n < Z.of_nat (length l) /\ exists x, Z.of_nat (length x) = blk_size b /\
          disk d = copy_at (disk (dev b)) (i * blk_size b) x));
  rb_law b o n : 0 <= o -> 0 <= n -> o + n <= Z.of_nat (length (buf b)) ->
    exists l d, readBuf b o n = (l, set_dev d b) /\ disk d = disk (dev b) /\
      (l = bytes_at (buf b) o n \/ Z.of_nat (length l) < n);
  wb_law b l o : 0 <= o -> o + Z.of_nat (length l) <= Z.of_nat (length (buf b)) ->
    exists n d, disk d = disk (dev b) /\
      ((n = Z.of_nat (length l) /\ writeBuf b l o = (n, set_dev d (set_buf (copy_at (buf b) o l) b))) \/
       (0 <= n < Z.of_nat (length l) /\ writeBuf b l o = (n, set_dev d b)));
  ld_law b i : 0 < blk_size b -> 0 <= blk_start b <= i -> i < 4294967296 ->
    Z.of_nat (length (buf b)) = blk_size b ->
    (i + 1) * blk_size b <= Z.of_nat (length (disk (dev b))) ->
    exists r d, disk d = disk (dev b) /\
      ((r = 0 /\ load b i = (r, set_dev d (set_buf (bytes_at (disk (dev b)) (i * blk_size b) (blk_size b)) b))) \/
       (r <> 0 /\ load b i = (r, set_dev d b)));
  st_law b i : 0 < blk_size b -> 0 <= blk_start b <= i -> i < 4294967296 ->
    Z.of_nat (length (buf b)) = blk_size b ->
    (i + 1) * blk_size b <= Z.of_nat (length (disk (dev b))) ->
    exists r d x, store b i = (r, set_dev d b) /\ Z.of_nat (length x) = blk_size b /\
      disk d = copy_at (disk (dev b)) (i * blk_size b) x /\ (r = 0 -> x = buf b)
}.

(** ** What a client sees

    The blocks as one array [V] of bytes, whatever is in the buffer. *)

Inductive kb_op :=
  | KRead (idx offset size : Z)
  | KWrite (idx : Z) (l : list Z) (offset : Z)
  | KCopy (src dest : Z)
  | KFlush
  | KTrim (start count : Z).

Inductive kb_reply := Data (l : list Z) | Count (n : Z) | Code (z : Z).

(** The assertions on the arguments; and a block is not copied to another while
    what was written to it is still in the buffer only, since the code would
    then lose it ([copy_loses_write]). *)
Definition op_ok {D} (b : KBlock D) (op : kb_op) : bool :=
  match op with
  | KRead i o n => (0 <=? i) && (i <? blk_cnt b) && (0 <=? o) && (0 <=? n) && (o + n <=? blk_size b)
  | KWrite i l o => (0 <=? i) && (i <? blk_cnt b) && (0 <=? o) && (o + Z.of_nat (length l) <=? blk_size b)
  | KCopy s d => (0 <=? s) && (s <? blk_cnt b) && (0 <=? d) && (d <? blk_cnt b)
      && negb (kblock_cacheDirty b && (s =? curr_blk b) && negb (s =? d))
  | KFlush => true
  | KTrim s c => (0 <=? s) && (0 <? c) && (s + c <=? blk_cnt b)
  end.

Definition kb_exec {D} `{KBlockVTable D} (b : KBlock D) (op : kb_op) : kb_reply * KBlock D :=
  match op with
  | KRead i o n => let '(l, b) := kblock_read b i o n in (Data l, b)
  | KWrite i l o => let '(n, b) := kblock_write b i l o in (Count n, b)
  | KCopy s d => let '(r, b) := kblock_copy b s d in (Code r, b)
  | KFlush => let '(r, b) := kblock_flush b in (Code r, b)
  | KTrim s c => let '(r, b) := kblock_trim b s c in (Code r, b)
  end.

(** What an operation does to the array when it succeeds; [bs]: the block size. *)
Definition kb_effect (bs : Z) (V : list Z) (op : kb_op) : kb_reply * list Z :=
  match op with
  | KRead i o n => (Data (bytes_at V (i * bs + o) n), V)
  | KWrite i l o => (Count (Z.of_nat (length l)), copy_at V (i * bs + o) l)
  | KCopy s d => (Code 0, copy_at V (d * bs) (bytes_at V (s * bs) bs))
  | KFlush => (Code 0, V)
  | KTrim s c => (Code 0, bytes_at V (s * bs) (c * bs))
  end.

(** A reply that says it did not. *)
Definition failure (op : kb_op) (r : kb_reply) : Prop :=
  match op, r with
  | KRead _ _ n, Data l => Z.of_nat (length l) < n
  | KWrite _ l _, Count n => 0 <= n < Z.of_nat (length l)
  | KWrite _ _ _, _ | KRead _ _ _, _ => False
  | _, _ => r = Code EOF
  end.

(** The block an operation writes to. *)
Definition target (op : kb_op) : option Z :=
  match op with KWrite i _ _ => Some i | KCopy _ d => Some d | _ => None end.

(** The operation takes place; or it fails, and with a buffer nothing has
    happened, without one at most the target block is spoilt. *)
Inductive kb_spec (buffered : bool) (bs : Z) (V : list Z) (op : kb_op) : kb_reply -> list Z -> Prop :=
  | kb_done : kb_spec buffered bs V op (fst (kb_effect bs V op)) (snd (kb_effect bs V op))
  | kb_failed r : failure op r -> kb_spec buffered bs V op r V
  | kb_torn r i x : buffered = false -> target op = Some i -> failure op r ->
      Z.of_nat (length x) = bs -> kb_spec buffered bs V op r (copy_at V (i * bs) x).

(** ** The invariant *)
Section Refines.
Context {D : Type} `{KBlockDev D}.
Implicit Types b : KBlock D.

Definition slice b : list Z :=
  bytes_at (disk (dev b)) (blk_start b * blk_size b) (blk_cnt b * blk_size b).

Definition block b (i : Z) : list Z :=
  bytes_at (disk (dev b)) ((blk_start b + i) * blk_size b) (blk_size b).

Definition view b : list Z :=
  if kblock_buffered b then copy_at (slice b) (curr_blk b * blk_size b) (buf b) else slice b.

Record kb_ok b : Prop := {
  i_size : 0 < blk_size b;
  i_start : 0 <= blk_start b;
  i_cnt : 0 <= blk_cnt b;
  i_top : blk_start b + blk_cnt b <= 4294967296;
  i_room : (blk_start b + blk_cnt b) * blk_size b <= Z.of_nat (length (disk (dev b)));
  i_buf : kblock_buffered b = true ->
    Z.of_nat (length (buf b)) = blk_size b /\ 0 <= curr_blk b < blk_cnt b /\
    (kblock_cacheDirty b = false -> buf b = block b (curr_blk b))
}.

Lemma flag_test f k : 0 <= k -> negb (Z.land f (BV k) =? 0) = Z.testbit f k.
Proof.
  intros Hk. unfold BV. rewrite Z.shiftl_1_l. destruct (Z.testbit f k) eqn:E.
  - apply negb_true_iff, Z.eqb_neq. intros E0. apply (f_equal (fun z => Z.testbit z k)) in E0.
    by rewrite Z.land_spec, E, Z.pow2_bits_true, Z.bits_0 in E0.
  - apply negb_false_iff, Z.eqb_eq. apply Z.bits_inj'. intros i Hi. rewrite Z.land_spec, Z.bits_0.
    destruct (decide (i = k)) as [->|]; [by rewrite E|]. rewrite Z.pow2_bits_false by done. apply andb_false_r.
Qed.

Lemma buffered_setDirty d b : kblock_buffered (kblock_setDirty d b) = kblock_buffered b.
Proof.
  unfold kblock_buffered, kblock_setDirty, KB_BUFFERED, KB_CACHE_DIRTY. rewrite !flag_test by done. cbn [flags set_flags].
  destruct d; [rewrite Z.lor_spec|rewrite Z.land_spec]; [apply orb_false_r|apply andb_true_r].
Qed.

Lemma dirty_setDirty d b :
  kblock_cacheDirty (kblock_setDirty d b) = kblock_buffered b && d.
Proof.
  unfold kblock_cacheDirty. rewrite buffered_setDirty. f_equal.
  unfold kblock_setDirty, KB_CACHE_DIRTY. rewrite !flag_test by done. cbn [flags set_flags].
  destruct d; [rewrite Z.lor_spec|rewrite Z.land_spec]; [apply orb_true_r|apply andb_false_r].
Qed.

(** Distinct blocks lie apart. *)
Lemma block_apart i j bs : 0 < bs -> i <> j -> i * bs + bs <= j * bs \/ j * bs + bs <= i * bs.
Proof. intros. nia. Qed.

Lemma block_in i n bs : 0 < bs -> 0 <= i < n -> 0 <= i * bs /\ i * bs + bs <= n * bs.
Proof. intros. nia. Qed.

Record same b b' : Prop := {
  s_buffered : kblock_buffered b' = kblock_buffered b;
  s_partial : kblock_partialWrite b' = kblock_partialWrite b;
  s_start : blk_start b' = blk_start b;
  s_size : blk_size b' = blk_size b;
  s_cnt : blk_cnt b' = blk_cnt b
}.

Lemma same_refl b : same b b.
Proof. by split. Qed.

Lemma same_trans b1 b2 b3 : same b1 b2 -> same b2 b3 -> same b1 b3.
Proof. intros [] []. split; congruence. Qed.

(** Nothing a client can see has changed. *)
Definition unseen b b' : Prop := kb_ok b' /\ view b' = view b /\ same b b'.

Lemma kb_ok_same b b' : kb_ok b -> same b b' ->
  Z.of_nat (length (disk (dev b'))) = Z.of_nat (length (disk (dev b))) ->
  (kblock_buffered b' = true ->
    Z.of_nat (length (buf b')) = blk_size b' /\ 0 <= curr_blk b' < blk_cnt b' /\
    (kblock_cacheDirty b' = false -> buf b' = block b' (curr_blk b'))) -> kb_ok b'.
Proof. intros [] [? ? E1 E2 E3] El Hbuf. 
  split; [by rewrite E2|by rewrite E1|by rewrite E3|by rewrite E1, E3|by rewrite E1, E2, E3, El|exact Hbuf].
Qed.

Lemma same_dev b d : same b (set_dev d b).
Proof. by split. Qed.

Lemma same_setDirty d b : same b (kblock_setDirty d b).
Proof.
  split; try done; [apply buffered_setDirty|].
  unfold kblock_partialWrite, kblock_setDirty, KB_PARTIAL_WRITE, KB_CACHE_DIRTY. cbn [flags set_flags].
  rewrite !flag_test by done. destruct d; [rewrite Z.lor_spec; apply orb_false_r|rewrite Z.land_spec; apply andb_true_r].
Qed.

Lemma phys b i : kb_ok b -> 0 <= i < blk_cnt b -> u32 (blk_start b + i) = blk_start b + i.
Proof. intros Hb Hi. destruct Hb. apply u32_small. lia. Qed.

(** Where a block is in the device and in the slice. *)
Lemma block_bounds b i : kb_ok b -> 0 <= i < blk_cnt b ->
  0 <= blk_start b * blk_size b /\ 0 <= i * blk_size b /\
  i * blk_size b + blk_size b <= blk_cnt b * blk_size b /\
  (blk_start b + i) * blk_size b = blk_start b * blk_size b + i * blk_size b /\
  blk_start b * blk_size b + blk_cnt b * blk_size b <= Z.of_nat (length (disk (dev b))).
Proof. intros Hb Hi. destruct Hb. split_and!; nia. Qed.

Lemma length_kbslice b : kb_ok b -> Z.of_nat (length (slice b)) = blk_cnt b * blk_size b.
Proof. intros Hb. destruct Hb. apply length_bytes_at; nia. Qed.

Lemma length_view b : kb_ok b -> Z.of_nat (length (view b)) = blk_cnt b * blk_size b.
Proof.
  intros Hb. pose proof (length_kbslice b Hb) as Hl. unfold view.
  destruct (kblock_buffered b) eqn:E; [|done].
  destruct (i_buf b Hb E) as (Hlen & Hc & _). pose proof (block_bounds b _ Hb Hc).
  rewrite length_copy_at; lia.
Qed.

Lemma block_slice b i : kb_ok b -> 0 <= i < blk_cnt b ->
  block b i = bytes_at (slice b) (i * blk_size b) (blk_size b).
Proof.
  intros Hb Hi. pose proof (block_bounds b i Hb Hi). unfold block, slice.
  rewrite bytes_at_bytes_at by lia. f_equal. lia.
Qed.

(** The device after a write into block [i] of the slice. *)
Lemma slice_write b d i o x : kb_ok b -> 0 <= i < blk_cnt b -> 0 <= o ->
  o + Z.of_nat (length x) <= blk_size b ->
  disk d = copy_at (disk (dev b)) ((blk_start b + i) * blk_size b + o) x ->
  slice (set_dev d b) = copy_at (slice b) (i * blk_size b + o) x /\
  Z.of_nat (length (disk d)) = Z.of_nat (length (disk (dev b))).
Proof.
  intros Hb Hi Ho Hx E. pose proof (block_bounds b i Hb Hi). unfold slice, set_dev.
  cbn [dev blk_start blk_size blk_cnt]. rewrite E. split.
  - rewrite bytes_at_copy_in by lia. f_equal. lia.
  - rewrite length_copy_at by lia. done.
Qed.

Lemma kb_ok_dev b d : kb_ok b -> disk d = disk (dev b) ->
  kb_ok (set_dev d b) /\ view (set_dev d b) = view b /\ slice (set_dev d b) = slice b.
Proof.
  intros Hb E. assert (Es : slice (set_dev d b) = slice b) by (unfold slice; cbn; by rewrite E).
  split_and!; [|unfold view; by rewrite Es|done].
  destruct Hb as [? ? ? ? ? Hf]. split; cbn; try done; [by rewrite E|].
  intros Hbuf. destruct (Hf Hbuf) as (? & ? & Hc). split_and!; try lia; try done.
  intros Hd. rewrite Hc by done. unfold block. cbn. by rewrite E.
Qed.

Lemma unseen_refl b : kb_ok b -> unseen b b.
Proof. intros. unfold unseen. split_and!; [done|done|apply same_refl]. Qed.

Lemma unseen_trans b1 b2 b3 : unseen b1 b2 -> unseen b2 b3 -> unseen b1 b3.
Proof.
  intros (_ & E1 & S1) (Hb & E2 & S2). unfold unseen. split_and!; [done|congruence|by eapply same_trans].
Qed.

Lemma unseen_dev b d : kb_ok b -> disk d = disk (dev b) -> unseen b (set_dev d b).
Proof. intros Hb E. destruct (kb_ok_dev b d Hb E) as (? & ? & _). by split; [|split]. Qed.

(** The buffer covers what the device holds of its block. *)
Lemma view_torn b d x : kb_ok b -> kblock_buffered b = true -> Z.of_nat (length x) = blk_size b ->
  disk d = copy_at (disk (dev b)) ((blk_start b + curr_blk b) * blk_size b) x ->
  view (set_dev d b) = view b /\
  Z.of_nat (length (disk d)) = Z.of_nat (length (disk (dev b))) /\
  block (set_dev d b) (curr_blk b) = x.
Proof.
  intros Hb Hbuf Hx E. destruct (i_buf b Hb Hbuf) as (Hl & Hc & _).
  pose proof (block_bounds b _ Hb Hc).
  destruct (slice_write b d (curr_blk b) 0 x Hb Hc) as [Es El]; [lia|lia|by rewrite Z.add_0_r|].
  split_and!; [|done|].
  - unfold view. change (kblock_buffered (set_dev d b)) with (kblock_buffered b).
    rewrite Hbuf, Es. cbn. rewrite Z.add_0_r. apply copy_at_over; [lia| |lia].
    rewrite length_kbslice by done. lia.
  - unfold block. cbn. rewrite E, <- Hx. apply bytes_at_copy_same; [lia|]. rewrite Hx. lia.
Qed.

Lemma kb_flush_spec b : kb_ok b ->
  exists r b', kblock_flush b = (r, b') /\ unseen b b' /\ curr_blk b' = curr_blk b /\
    ((r = 0 /\ kblock_cacheDirty b' = false) \/ r = EOF).
Proof.
  intros Hb. unfold kblock_flush. destruct (kblock_buffered b) eqn:Hbuf; cbn [negb].
  2:{ exists 0, b. split_and!; [done|by apply unseen_refl|done|]. left. unfold kblock_cacheDirty. by rewrite Hbuf. }
  destruct (kblock_cacheDirty b) eqn:Hd; [|exists 0, b; split_and!; [done|by apply unseen_refl|done|by left]].
  destruct (i_buf b Hb Hbuf) as (Hl & Hc & _). pose proof (block_bounds b _ Hb Hc). pose proof Hb as [].
  unfold kblock_store. rewrite phys by done.
  destruct (st_law b (blk_start b + curr_blk b)) as (r & d & x & -> & Hx & E & Hr); [lia|lia|lia|lia|nia|].
  destruct (view_torn b d x Hb Hbuf Hx E) as (Ev & El & Ex).
  assert (Hok : (kblock_cacheDirty (set_dev d b) = false -> buf b = block (set_dev d b) (curr_blk b)) ->
    kb_ok (set_dev d b)).
  { intros Hclean. apply (kb_ok_same b); [done|apply same_dev|exact El|]. intros _.
    split_and!; [exact Hl|apply Hc|apply Hc|exact Hclean]. }
  destruct (r =? 0) eqn:Er; zbool.
  - exists 0, (kblock_setDirty false (set_dev d b)). split_and!; [done| |done|].
    + unfold unseen. split_and!.
      * assert (buf b = block (set_dev d b) (curr_blk b)) as Eb by (rewrite Ex; symmetry; by apply Hr).
        apply (kb_ok_same b); [done|eapply same_trans; [apply same_dev|apply same_setDirty]|exact El|].
        intros _. split_and!; [exact Hl|apply Hc|apply Hc|intros _; exact Eb].
      * unfold view. rewrite buffered_setDirty. exact Ev.
      * eapply same_trans; [apply same_dev|apply same_setDirty].
    + left. rewrite dirty_setDirty. split; [done|apply andb_false_r].
  - exists EOF, (set_dev d b). split_and!; [done| |done|by right]. unfold unseen. split_and!; [|done|by split].
    apply Hok. intros Hcl. change (kblock_cacheDirty (set_dev d b)) with (kblock_cacheDirty b) in Hcl. congruence.
Qed.

(** A clean buffer shows what the device holds. *)
Lemma view_clean b : kb_ok b -> kblock_cacheDirty b = false -> view b = slice b.
Proof.
  intros Hb Hd. unfold view. destruct (kblock_buffered b) eqn:Hbuf; [|done].
  destruct (i_buf b Hb Hbuf) as (Hl & Hc & Hcl). pose proof (block_bounds b _ Hb Hc).
  rewrite Hcl, block_slice by done. apply copy_at_same; [lia| |].
  - destruct Hb. lia.
  - rewrite length_kbslice by done. lia.
Qed.

Lemma loadPage_spec b idx : kb_ok b -> kblock_buffered b = true -> 0 <= idx < blk_cnt b ->
  exists ok b', kblock_loadPage b idx = (ok, b') /\ unseen b b' /\ (ok = true -> curr_blk b' = idx).
Proof.
  intros Hb Hbuf Hi. unfold kblock_loadPage. destruct (idx =? curr_blk b) eqn:E; zbool; cbn [negb].
  { exists true, b. split_and!; [done|by apply unseen_refl|done]. }
  destruct (kb_flush_spec b Hb) as (r & b1 & -> & Hu & Hc1 & [[-> Hd]| ->]); cbn [negb Z.eqb].
  2:{ exists false, b1. by split_and!. }
  pose proof Hu as (Hb1 & Ev1 & [Sb _ Ss Sz Sc]). pose proof Hb1 as [].
  assert (Hi1 : 0 <= idx < blk_cnt b1) by lia. pose proof (block_bounds b1 idx Hb1 Hi1).
  rewrite Hbuf in Sb. destruct (i_buf b1 Hb1 Sb) as (Hl & Hc & _).
  unfold kblock_load. rewrite phys by done.
  destruct (ld_law b1 (blk_start b1 + idx)) as (r & d & Ed & Hr); [lia|lia|lia|lia|nia|].
  destruct Hr as [[-> ->]|[Hr ->]]; cbn [Z.eqb negb].
  - eexists true, _. split_and!; [done| |done]. eapply unseen_trans; [exact Hu|].
    assert (Hv : slice b1 = view b1) by (symmetry; by apply view_clean).
    unfold unseen. split_and!; [|rewrite <- Hv|by split].
    + apply (kb_ok_same b1); [done|by split|cbn; by rewrite Ed|]. intros _. cbn.
      split_and!; [apply length_bytes_at; lia|lia|lia|]. intros _. unfold block. cbn. by rewrite Ed.
    + unfold view. change (kblock_buffered _) with (kblock_buffered b1). rewrite Sb.
      unfold slice at 1. cbn. rewrite Ed. fold (slice b1).
      change (copy_at (slice b1) (idx * blk_size b1) (block b1 idx) = slice b1).
      rewrite block_slice by done. apply copy_at_same; [lia|lia|]. rewrite length_kbslice by done. lia.
  - apply Z.eqb_neq in Hr. rewrite Hr. exists false, (set_dev d b1).
    split_and!; [done| |done]. eapply unseen_trans; [exact Hu|by apply unseen_dev].
Qed.

(** *** Reading *)

Lemma view_read b i o n : kb_ok b -> 0 <= i < blk_cnt b -> 0 <= o -> 0 <= n -> o + n <= blk_size b ->
  bytes_at (view b) (i * blk_size b + o) n
  = if kblock_buffered b && (i =? curr_blk b) then bytes_at (buf b) o n
    else bytes_at (disk (dev b)) ((blk_start b + i) * blk_size b + o) n.
Proof.
  intros Hb Hi Ho Hn Hon. pose proof (block_bounds b i Hb Hi) as Bi. pose proof (length_kbslice b Hb) as Ls.
  assert (Es : bytes_at (slice b) (i * blk_size b + o) n
    = bytes_at (disk (dev b)) ((blk_start b + i) * blk_size b + o) n).
  { unfold slice. rewrite bytes_at_bytes_at by lia. f_equal. lia. }
  unfold view. destruct (kblock_buffered b) eqn:Hbuf; cbn [andb]; [|exact Es].
  destruct (i_buf b Hb Hbuf) as (Hl & Hc & _). pose proof (block_bounds b _ Hb Hc).
  destruct (i =? curr_blk b) eqn:E; zbool.
  - subst i. rewrite <- (bytes_at_bytes_at _ _ (blk_size b)) by lia. f_equal.
    pose proof (bytes_at_copy_same (slice b) (curr_blk b * blk_size b) (buf b)) as Eb.
    rewrite Hl in Eb. apply Eb; lia.
  - rewrite bytes_at_copy_out; [exact Es|lia|lia|lia|].
    pose proof (block_apart i (curr_blk b) (blk_size b) (i_size b Hb) E). lia.
Qed.

Lemma read_spec b i o n : kb_ok b -> 0 <= i < blk_cnt b -> 0 <= o -> 0 <= n -> o + n <= blk_size b ->
  exists l b', kblock_read b i o n = (l, b') /\ unseen b b' /\
    (l = bytes_at (view b) (i * blk_size b + o) n \/ Z.of_nat (length l) < n).
Proof.
  intros Hb Hi Ho Hn Hon. rewrite view_read by done. unfold kblock_read.
  destruct (kblock_buffered b && (i =? curr_blk b)) eqn:E.
  - apply andb_prop in E as [Hbuf _]. destruct (i_buf b Hb Hbuf) as (Hl & _).
    destruct (rb_law b o n) as (l & d & Er & Ed & Hr); [lia|lia|lia|].
    exists l, (set_dev d b). split_and!; [exact Er|by apply unseen_dev|exact Hr].
  - unfold kblock_readDirect. rewrite phys by done. pose proof (block_bounds b i Hb Hi). pose proof Hb as [].
    destruct (rd_law b (blk_start b + i) o n) as (l & d & Er & Ed & Hr); [lia|lia|lia|lia|lia|lia|].
    exists l, (set_dev d b). split_and!; [exact Er|by apply unseen_dev|exact Hr].
Qed.

(** *** Writing *)

Lemma view_setDirty d b : view (kblock_setDirty d b) = view b.
Proof. unfold view. by rewrite buffered_setDirty. Qed.

(** The buffer replaced, and marked. *)
Lemma ok_dirty b l d i : kb_ok b -> kblock_buffered b = true -> Z.of_nat (length l) = blk_size b ->
  0 <= i < blk_cnt b -> disk d = disk (dev b) ->
  let b' := set_dev d (set_buf l (kblock_setDirty true (set_curr i b))) in
  kb_ok b' /\ same b b' /\ view b' = copy_at (slice b) (i * blk_size b) l.
Proof.
  intros Hb Hbuf Hl Hi Ed b'. assert (Hs : same b b').
  { destruct (same_setDirty true b) as [E1 E2 _ _ _]. split; [exact E1|exact E2|done|done|done]. }
  assert (Hbuf' : kblock_buffered b' = true) by (destruct Hs; congruence).
  split_and!; [|exact Hs|].
  - apply (kb_ok_same b); [done|exact Hs|cbn; by rewrite Ed|]. intros _.
    split_and!; [exact Hl|apply Hi|apply Hi|]. intros Hd.
    assert (kblock_cacheDirty (kblock_setDirty true (set_curr i b)) = false) as Hd' by exact Hd.
    rewrite dirty_setDirty in Hd'. change (kblock_buffered (set_curr i b)) with (kblock_buffered b) in Hd'.
    by rewrite Hbuf in Hd'.
  - unfold view. rewrite Hbuf'. unfold slice. cbn. by rewrite Ed.
Qed.

Definition torn bs i (V V' : list Z) : Prop :=
  exists x, Z.of_nat (length x) = bs /\ V' = copy_at V (i * bs) x.

(** A partial overwrite spoils at most the block. *)
Lemma torn_part bs i V o l : 0 < bs -> 0 <= i -> 0 <= o -> o + Z.of_nat (length l) <= bs ->
  (i + 1) * bs <= Z.of_nat (length V) -> torn bs i V (copy_at V (i * bs + o) l).
Proof.
  intros Hbs Hi Ho Hl HV. assert (0 <= i * bs) by nia.
  pose proof (length_bytes_at V (i * bs) bs ltac:(lia) ltac:(lia) ltac:(lia)) as Lx.
  exists (copy_at (bytes_at V (i * bs) bs) o l). rewrite length_copy_at by lia. split; [done|].
  rewrite copy_at_inside by lia. by rewrite copy_at_same by lia.
Qed.

Lemma torn_trans bs i V V' V'' : 0 < bs -> 0 <= i -> (i + 1) * bs <= Z.of_nat (length V) ->
  torn bs i V V' -> torn bs i V' V'' -> torn bs i V V''.
Proof.
  intros Hbs Hi HV (x & Hx & ->) (y & Hy & ->). exists y. split; [done|]. apply copy_at_over; nia.
Qed.

Lemma torn_refl bs i V : 0 < bs -> 0 <= i -> (i + 1) * bs <= Z.of_nat (length V) -> torn bs i V V.
Proof.
  intros Hbs Hi HV. rewrite <- (copy_at_nil V (i * bs + 0)) at 2. apply torn_part; cbn; lia.
Qed.

(** A direct write. *)
Lemma writeDirect_spec b i l o : kb_ok b -> kblock_buffered b = false -> 0 <= i < blk_cnt b -> 0 <= o ->
  o + Z.of_nat (length l) <= blk_size b ->
  exists n b', kblock_writeDirect b i l o = (n, b') /\ kb_ok b' /\ same b b' /\
    ((n = Z.of_nat (length l) /\ view b' = copy_at (view b) (i * blk_size b + o) l) \/
     (0 <= n < Z.of_nat (length l) /\ torn (blk_size b) i (view b) (view b'))).
Proof.
  intros Hb Hbuf Hi Ho Hl. unfold kblock_writeDirect. rewrite phys by done.
  pose proof (block_bounds b i Hb Hi). pose proof Hb as [].
  destruct (wr_law b (blk_start b + i) l o) as (n & d & -> & Hr); [lia|lia|lia|lia|lia|].
  exists n, (set_dev d b). unfold view. change (kblock_buffered (set_dev d b)) with (kblock_buffered b). rewrite Hbuf.
  assert (Hok : Z.of_nat (length (disk d)) = Z.of_nat (length (disk (dev b))) -> kb_ok (set_dev d b)).
  { intros El. apply (kb_ok_same b); [done|apply same_dev|exact El|].
    change (kblock_buffered (set_dev d b)) with (kblock_buffered b). by rewrite Hbuf. }
  destruct Hr as [[-> E]|(Hn & x & Hx & E)].
  - destruct (slice_write b d i o l Hb Hi Ho Hl E) as [Es El].
    split_and!; [done|by apply Hok|apply same_dev|]. left. by rewrite Es.
  - destruct (slice_write b d i 0 x Hb Hi) as [Es El]; [lia|lia|by rewrite Z.add_0_r|].
    split_and!; [done|by apply Hok|apply same_dev|]. right. split; [done|].
    exists x. split; [done|]. by rewrite Es, Z.add_0_r.
Qed.

Lemma write_buffered b i l o : kb_ok b -> kblock_buffered b = true -> 0 <= i < blk_cnt b -> 0 <= o ->
  o + Z.of_nat (length l) <= blk_size b ->
  exists n b', kblock_write b i l o = (n, b') /\ kb_ok b' /\ same b b' /\
    ((n = Z.of_nat (length l) /\ view b' = copy_at (view b) (i * blk_size b + o) l) \/
     (0 <= n < Z.of_nat (length l) /\ view b' = view b)).
Proof.
  intros Hb Hbuf Hi Ho Hl. unfold kblock_write. rewrite Hbuf.
  destruct (loadPage_spec b i Hb Hbuf Hi) as (ok & b1 & -> & (Hb1 & Ev & Hs) & Hc).
  destruct ok; cbn [negb].
  2:{ exists 0, b1. split_and!; [done|done|done|]. destruct l as [|x l].
      - left. split; [done|]. by rewrite copy_at_nil.
      - right. split; [cbn; lia|done]. }
  specialize (Hc eq_refl). pose proof Hs as [Sb _ _ Sz Sc]. rewrite Hbuf in Sb. rewrite <- Sz in Hl.
  destruct (i_buf b1 Hb1 Sb) as (Hlen & _). rewrite <- Sc in Hi. pose proof (block_bounds b1 i Hb1 Hi).
  assert (Hv1 : view b1 = copy_at (slice b1) (i * blk_size b1) (buf b1)) by (unfold view; by rewrite Sb, Hc).
  assert (Hcurr : kblock_setDirty true b1 = kblock_setDirty true (set_curr i b1)) by (rewrite <- Hc; by destruct b1).
  unfold kblock_writeBuf. destruct (wb_law (kblock_setDirty true b1) l o) as (n & d & Ed & Hw); [lia|cbn; lia|].
  rewrite Hcurr in Hw |- *.
  destruct Hw as [[-> ->]|[Hn ->]]; eexists _, _; (split; [reflexivity|]).
  - destruct (ok_dirty b1 (copy_at (buf b1) o l) d i Hb1 Sb) as (K1 & K2 & K3);
      [rewrite length_copy_at; lia|done|exact Ed|].
    split_and!; [exact K1|by eapply same_trans|]. left. split; [done|]. cbn in K3 |- *. rewrite K3, <- Ev, Hv1, <- Sz.
    rewrite copy_at_inside by (rewrite ?length_kbslice by done; lia). done.
  - destruct (ok_dirty b1 (buf b1) d i Hb1 Sb) as (K1 & K2 & K3); [lia|done|exact Ed|].
    split_and!; [exact K1|by eapply same_trans|]. right. split; [done|]. rewrite <- Ev, Hv1. exact K3.
Qed.

(** *** Copying *)

Lemma copy_buffered b s d : kb_ok b -> kblock_buffered b = true ->
  0 <= s < blk_cnt b -> 0 <= d < blk_cnt b ->
  kblock_cacheDirty b && (s =? curr_blk b) && negb (s =? d) = false ->
  exists r b', kblock_copy b s d = (r, b') /\ kb_ok b' /\ same b b' /\
    ((r = 0 /\ view b' = copy_at (view b) (d * blk_size b) (bytes_at (view b) (s * blk_size b) (blk_size b))) \/
     (r = EOF /\ view b' = view b)).
Proof.
  intros Hb Hbuf Hs Hd Hclean. unfold kblock_copy. rewrite Hbuf.
  (* the page is in the buffer; if it is dirty it is the destination *)
  assert (HL : exists ok b1, kblock_loadPage b s = (ok, b1) /\ unseen b b1 /\
    (ok = true -> curr_blk b1 = s /\ (s = d \/ slice b1 = view b1))).
  { destruct (loadPage_spec b s Hb Hbuf Hs) as (ok & b1 & E & Hu & Hc). exists ok, b1.
    split_and!; [done|done|]. intros ->. split; [by apply Hc|]. specialize (Hc eq_refl).
    destruct (decide (s = d)) as [|Hne]; [by left|right].
    pose proof Hu as (Hb1 & Ev & _). unfold kblock_loadPage in E.
    destruct (s =? curr_blk b) eqn:Es; cbn [negb] in E; zbool.
    - injection E as <-. symmetry. apply view_clean; [done|].
      destruct (kblock_cacheDirty b); [|done]. cbn in Hclean. lia.
    - destruct (kb_flush_spec b Hb) as (r & b2 & Ef & Hu2 & _ & Hr). rewrite Ef in E.
      destruct Hr as [[-> Hclean2]| ->]; [|done]. cbn [negb Z.eqb] in E.
      destruct Hu2 as (Hb2 & Ev2 & [_ _ Ss2 Sz2 Sc2]). rewrite <- Sc2 in Hs.
      pose proof (block_bounds b2 s Hb2 Hs). pose proof Hb2 as [].
      unfold kblock_load in E. rewrite phys in E by done.
      destruct (i_buf b2 Hb2) as (Hl2 & _); [by destruct (kb_flush_spec b Hb)
        as (r' & b' & Ef' & (_ & _ & [Sb' _ _ _ _]) & _); rewrite Ef in Ef'; injection Ef' as <- <-; congruence|].
      destruct (ld_law b2 (blk_start b2 + s)) as (r & dd & Ed & Hl); [lia|lia|lia|lia|nia|].
      destruct Hl as [[-> Hl]|[Hr Hl]]; rewrite Hl in E; cbn [negb Z.eqb] in E.
      + injection E as <-. rewrite Ev, <- Ev2, (view_clean b2 Hb2 Hclean2). unfold slice. cbn. by rewrite Ed.
      + apply Z.eqb_neq in Hr. by rewrite Hr in E. }
  destruct HL as (ok & b1 & -> & (Hb1 & Ev & Hsame) & Hc). destruct ok; cbn [negb].
  2:{ exists EOF, b1. split_and!; [done|done|done|by right]. }
  destruct (Hc eq_refl) as [Hcur Hsl]. pose proof Hsame as [Sb _ _ Sz Sc]. rewrite Hbuf in Sb.
  destruct (i_buf b1 Hb1 Sb) as (Hlen & Hcc & _). rewrite <- Sc in Hs, Hd.
  destruct (ok_dirty b1 (buf b1) (dev b1) d Hb1 Sb Hlen Hd eq_refl) as (K1 & K2 & K3).
  eexists 0, _. split; [reflexivity|]. split_and!; [exact K1|by eapply same_trans|]. left. split; [done|].
  rewrite <- Ev, <- Sz.
  assert (Hbufv : bytes_at (view b1) (s * blk_size b1) (blk_size b1) = buf b1).
  { pose proof (view_read b1 s 0 (blk_size b1) Hb1 Hs) as Er. rewrite Sb, Hcur, Z.eqb_refl, Z.add_0_r in Er.
    cbn [andb] in Er. rewrite Er by (destruct Hb1; lia). unfold bytes_at. cbn. apply take_ge. lia. }
  rewrite Hbufv. transitivity (copy_at (slice b1) (d * blk_size b1) (buf b1)); [exact K3|].
  destruct Hsl as [->| ->]; [|done]. unfold view. rewrite Sb, Hcur.
  pose proof (block_bounds b1 d Hb1 Hd). pose proof (length_kbslice b1 Hb1).
  symmetry. apply copy_at_over; lia.
Qed.

Lemma copy_loop_spec s d V0 : forall fuel b left o, kb_ok b -> kblock_buffered b = false ->
  0 <= s < blk_cnt b -> 0 <= d < blk_cnt b ->
  0 <= left -> o = blk_size b - left -> 0 <= o -> (Z.to_nat left <= fuel)%nat ->
  Z.of_nat (length V0) = blk_cnt b * blk_size b ->
  view b = copy_at V0 (d * blk_size b) (bytes_at V0 (s * blk_size b) o) ->
  exists r b', copy_loop fuel b s d left o = (r, b') /\ kb_ok b' /\ same b b' /\
    ((r = 0 /\ view b' = copy_at V0 (d * blk_size b) (bytes_at V0 (s * blk_size b) (blk_size b))) \/
     (r = EOF /\ torn (blk_size b) d V0 (view b'))).
Proof.
  induction fuel as [|fuel IH]; intros b left o Hb Hbuf Hs Hd Hl Ho Ho0 Hf HV0 HV.
  { assert (left = 0) as -> by lia. cbn. exists 0, b. split_and!; [done|done|apply same_refl|].
    left. split; [done|]. rewrite HV. do 2 f_equal. lia. }
  cbn [copy_loop]. destruct (left =? 0) eqn:E0; zbool.
  { exists 0, b. split_and!; [done|done|apply same_refl|]. left. split; [done|]. rewrite HV. do 2 f_equal. lia. }
  set (n := Z.min 16 left).
  pose proof (block_bounds b s Hb Hs) as Bs. pose proof (block_bounds b d Hb Hd) as Bd.
  pose proof (length_bytes_at V0 (s * blk_size b) o ltac:(lia) ltac:(lia) ltac:(lia)) as Lo.
  assert (Hroom : (d + 1) * blk_size b <= Z.of_nat (length V0)) by (destruct Hb; lia).
  assert (HT : torn (blk_size b) d V0 (view b)).
  { rewrite HV, <- (Z.add_0_r (d * blk_size b)). destruct Hb. apply torn_part; lia. }
  pose proof (read_spec b s o n Hb Hs) as Hr. unfold kblock_read in Hr. rewrite Hbuf in Hr. cbn [andb] in Hr.
  destruct Hr as (l & b1 & -> & (Hb1 & Ev1 & S1) & Hlr); [lia|lia|lia|].
  destruct (Z.of_nat (length l) =? n) eqn:El; zbool; cbn [negb].
  2:{ exists EOF, b1. split_and!; [done|done|done|]. right. by rewrite Ev1. }
  destruct Hlr as [Hlr|Hlr]; [|lia].
  pose proof S1 as [Sb1 _ Ss1 Sz1 Sc1]. rewrite Hbuf in Sb1.
  destruct (writeDirect_spec b1 d l o Hb1 Sb1) as (m & b2 & -> & Hb2 & S2 & Hm); [lia|lia|lia|].
  rewrite Sz1, Ev1 in Hm. destruct Hm as [[-> Hv2]|[Hm HT2]].
  2:{ assert ((m =? n) = false) as -> by lia. cbn [negb]. exists EOF, b2.
      split_and!; [done|done|by eapply same_trans|]. right. split; [done|].
      destruct Hb. eapply torn_trans; [lia|lia|lia|exact HT|exact HT2]. }
  rewrite El, Z.eqb_refl. cbn [negb].
  pose proof S2 as [Sb2 _ Ss2 Sz2 Sc2].
  destruct (IH b2 (left - n) (o + n)) as (r & b' & E & Hb' & S' & Hr); try lia; try done; [congruence| |].
  - rewrite Hv2, Hlr, HV, Sz2, Sz1.
    assert (bytes_at (copy_at V0 (d * blk_size b) (bytes_at V0 (s * blk_size b) o)) (s * blk_size b + o) n
      = bytes_at V0 (s * blk_size b + o) n) as ->.
    { destruct (decide (s = d)) as [->|Hne]; [by rewrite copy_at_same by lia|].
      pose proof (block_apart s d (blk_size b) (i_size b Hb) Hne). apply bytes_at_copy_out; lia. }
    rewrite (bytes_at_app V0 _ o n) by lia. rewrite copy_at_app, Lo; [done|lia|].
    rewrite !length_bytes_at by lia. lia.
  - rewrite E. exists r, b'. rewrite Sz2, Sz1 in Hr.
    split_and!; [done|done|eapply same_trans; [exact S1|by eapply same_trans]|exact Hr].
Qed.

Lemma copy_unbuffered b s d : kb_ok b -> kblock_buffered b = false -> 0 <= s < blk_cnt b -> 0 <= d < blk_cnt b ->
  exists r b', kblock_copy b s d = (r, b') /\ kb_ok b' /\ same b b' /\
    ((r = 0 /\ view b' = copy_at (view b) (d * blk_size b) (bytes_at (view b) (s * blk_size b) (blk_size b))) \/
     (r = EOF /\ torn (blk_size b) d (view b) (view b'))).
Proof.
  intros Hb Hbuf Hs Hd. unfold kblock_copy. rewrite Hbuf. pose proof (length_view b Hb).
  pose proof (block_bounds b d Hb Hd). pose proof Hb as [].
  destruct (kblock_partialWrite b).
  - apply copy_loop_spec; try done; try lia. unfold bytes_at. cbn. by rewrite copy_at_nil.
  - exists EOF, b. split_and!; [done|done|apply same_refl|]. right. split; [done|]. apply torn_refl; lia.
Qed.

(** *** Trimming *)

Lemma trim_spec b s c : kb_ok b -> 0 <= s -> 0 < c -> s + c <= blk_cnt b ->
  exists r b', kblock_trim b s c = (r, b') /\ kb_ok b' /\ kblock_buffered b' = kblock_buffered b /\
    blk_size b' = blk_size b /\
    ((r = 0 /\ view b' = bytes_at (view b) (s * blk_size b) (c * blk_size b)) \/
     (r = EOF /\ view b' = view b /\ same b b')).
Proof.
  intros Hb Hs Hc Hsc. unfold kblock_trim. assert (Hi : 0 <= s < blk_cnt b) by lia.
  assert (HL : exists ok b1, (if kblock_buffered b then kblock_loadPage b s else (true, b)) = (ok, b1) /\
    unseen b b1 /\ (ok = true -> kblock_buffered b = true -> curr_blk b1 = s)).
  { destruct (kblock_buffered b) eqn:Hbuf; [|exists true, b; split_and!; [done|by apply unseen_refl|done]].
    destruct (loadPage_spec b s Hb Hbuf Hi) as (ok & b1 & -> & Hu & Hcur). exists ok, b1.
    split_and!; [done|done|]. intros Hok _. by apply Hcur. }
  destruct HL as (ok & b1 & -> & (Hb1 & Ev & Hsame) & Hcur). pose proof Hsame as [Sb _ Ss Sz Sc].
  destruct ok; cbn [negb].
  2:{ exists EOF, b1. split_and!; [done|done|done|done|by right]. }
  specialize (Hcur eq_refl). rewrite <- Sc in Hsc, Hi. pose proof (block_bounds b1 s Hb1 Hi). pose proof Hb1 as [].
  rewrite u32_small by lia. eexists 0, _. split; [reflexivity|].
  assert (Hc2 : c * blk_size b1 + s * blk_size b1 <= blk_cnt b1 * blk_size b1) by nia.
  assert (0 <= c * blk_size b1) by nia.
  split_and!; [|exact Sb|exact Sz|].
  - split; cbn; try lia. intros Hbuf. destruct (i_buf0 Hbuf) as (Hl & Hcc & Hcl).
    split_and!; [done|lia|lia|]. intros Hd. rewrite Hcl by exact Hd. unfold block. cbn.
    f_equal. rewrite Hcur by (rewrite <- Sb; exact Hbuf). lia.
  - left. split; [done|]. rewrite <- Ev, <- Sz. unfold view.
    change (kblock_buffered (mkKBlock _ _ _ _ _ _ _)) with (kblock_buffered b1). unfold slice at 1 2. cbn.
    replace ((blk_start b1 + s) * blk_size b1) with (blk_start b1 * blk_size b1 + s * blk_size b1) by lia.
    rewrite <- (bytes_at_bytes_at (disk (dev b1)) _ (blk_cnt b1 * blk_size b1)) by lia. fold (slice b1).
    pose proof (length_kbslice b1 Hb1) as Ls.
    destruct (kblock_buffered b1) eqn:Hbuf; [|done].
    destruct (i_buf0 eq_refl) as (Hl & _). rewrite Hcur by congruence.
    rewrite bytes_at_copy_in by (rewrite ?Hl; nia). f_equal. lia.
Qed.

(** *** Every operation *)

Lemma done_spec bs V op r V' : r = fst (kb_effect bs V op) -> V' = snd (kb_effect bs V op) ->
  forall bf, kb_spec bf bs V op r V'.
Proof. intros -> -> bf. apply kb_done. Qed.

Lemma kb_step b op : kb_ok b -> op_ok b op = true ->
  let '(r, b') := kb_exec b op in
  kb_ok b' /\ kblock_buffered b' = kblock_buffered b /\ blk_size b' = blk_size b /\
  kb_spec (kblock_buffered b) (blk_size b) (view b) op r (view b').
Proof.
  intros Hb Hop. destruct op as [i o n|i l o|s d| |s c]; cbn [op_ok] in Hop; zbool; cbn [kb_exec].
  - destruct (read_spec b i o n Hb) as (l & b' & -> & (Hb' & Ev & [Sb _ _ Sz _]) & Hl); [lia..|].
    split_and!; try done. rewrite Ev. destruct Hl as [->|Hl]; [by apply done_spec|by apply kb_failed].
  - assert (HW : exists n b', kblock_write b i l o = (n, b') /\ kb_ok b' /\ same b b' /\
      kb_spec (kblock_buffered b) (blk_size b) (view b) (KWrite i l o) (Count n) (view b')).
    { destruct (kblock_buffered b) eqn:Hbuf.
      - destruct (write_buffered b i l o Hb Hbuf) as (n & b' & -> & Hb' & Hs & Hr); [lia..|].
        exists n, b'. split_and!; try done. destruct Hr as [[-> Ev]|[Hn ->]]; [by apply done_spec|by apply kb_failed].
      - unfold kblock_write. rewrite Hbuf.
        destruct (writeDirect_spec b i l o Hb Hbuf) as (n & b' & -> & Hb' & Hs & Hr); [lia..|].
        exists n, b'. split_and!; try done.
        destruct Hr as [[-> Ev]|(Hn & x & Hx & ->)]; [by apply done_spec|by apply kb_torn]. }
    destruct HW as (n & b' & -> & Hb' & [Sb _ _ Sz _] & Hr). done.
  - assert (HC : exists r b', kblock_copy b s d = (r, b') /\ kb_ok b' /\ same b b' /\
      kb_spec (kblock_buffered b) (blk_size b) (view b) (KCopy s d) (Code r) (view b')).
    { destruct (kblock_buffered b) eqn:Hbuf.
      - destruct (copy_buffered b s d Hb Hbuf) as (r & b' & -> & Hb' & Hs & Hr); [lia|lia|done|].
        exists r, b'. split_and!; try done. destruct Hr as [[-> Ev]|[-> ->]]; [by apply done_spec|by apply kb_failed].
      - destruct (copy_unbuffered b s d Hb Hbuf) as (r & b' & -> & Hb' & Hs & Hr); [lia|lia|].
        exists r, b'. split_and!; try done.
        destruct Hr as [[-> Ev]|(-> & x & Hx & ->)]; [by apply done_spec|by apply kb_torn]. }
    destruct HC as (r & b' & -> & Hb' & [Sb _ _ Sz _] & Hr). done.
  - destruct (kb_flush_spec b Hb) as (r & b' & -> & (Hb' & Ev & [Sb _ _ Sz _]) & _ & Hr).
    split_and!; try done. rewrite Ev. destruct Hr as [[-> _]| ->]; [by apply done_spec|by apply kb_failed].
  - destruct (trim_spec b s c Hb) as (r & b' & -> & Hb' & Sb & Sz & Hr); [lia..|].
    split_and!; try done. destruct Hr as [[-> Ev]|(-> & -> & _)]; [by apply done_spec|by apply kb_failed].
Qed.

(** *** Programs *)

Fixpoint kb_run b (ops : list kb_op) : list kb_reply * KBlock D :=
  match ops with
  | [] => ([], b)
  | op :: ops' =>
      let '(r, b) := kb_exec b op in
      let '(rs, b) := kb_run b ops' in (r :: rs, b)
  end.

(** No assertion fails on the way. *)
Fixpoint kept b (ops : list kb_op) : bool :=
  match ops with
  | [] => true
  | op :: ops' => op_ok b op && kept (snd (kb_exec b op)) ops'
  end.
End Refines.

Inductive kb_specs (buffered : bool) (bs : Z) : list Z -> list kb_op -> list kb_reply -> list Z -> Prop :=
  | specs_nil V : kb_specs buffered bs V [] [] V
  | specs_cons V V1 V2 op ops r rs :
      kb_spec buffered bs V op r V1 -> kb_specs buffered bs V1 ops rs V2 ->
      kb_specs buffered bs V (op :: ops) (r :: rs) V2.

Lemma kb_runs {D} `{KBlockDev D} (ops : list kb_op) : forall b : KBlock D, kb_ok b -> kept b ops = true ->
  let '(rs, b') := kb_run b ops in
  kb_ok b' /\ kb_specs (kblock_buffered b) (blk_size b) (view b) ops rs (view b').
Proof.
  induction ops as [|op ops IH]; intros b Hb Hk; cbn [kb_run kept] in *; [split; [done|constructor]|].
  apply andb_prop in Hk as [Hop Hk]. pose proof (kb_step b op Hb Hop) as Hst.
  destruct (kb_exec b op) as [r b1]. destruct Hst as (Hb1 & E1 & E2 & Hst).
  specialize (IH b1 Hb1 Hk). destruct (kb_run b1 ops) as [rs b2]. destruct IH as [Hb2 IH].
  split; [done|]. rewrite E1, E2 in IH. by econstructor.
Qed.

(** C25: A block device behaves as an array of blocks, whether it buffers a block
    or not.  Let the driver keep its promises, failures of any access at any
    time included, and let a client keep the interface's assertions and not
    copy a block whose changes are only in the buffer.  Then every operation is
    as specified: reads give the bytes last written, writes, copies and trims
    change the array as they should, or report an error; and after an error a
    buffered device is as it was before, an unbuffered one has at most the
    block written to spoilt.  The buffer is never seen, and when a flush
    reports success the device itself holds the whole array. *)
Theorem kblock_refines {D} `{KBlockDev D} (b : KBlock D) (ops : list kb_op) :
  kb_ok b -> kept b ops = true ->
  let '(rs, b') := kb_run b ops in
  kb_specs (kblock_buffered b) (blk_size b) (view b) ops rs (view b') /\
  forall b'', kblock_flush b' = (0, b'') -> slice b'' = view b'.
Proof.
  intros Hb Hk. pose proof (kb_runs ops b Hb Hk) as Hr. destruct (kb_run b ops) as [rs b'].
  destruct Hr as [Hb' Hr]. split; [done|]. intros b'' Ef.
  destruct (kb_flush_spec b' Hb') as (r & b1 & E & (Hb1 & Ev & _) & _ & Hd).
  rewrite Ef in E. injection E as <- <-. destruct Hd as [[_ Hd]|Hd]; [|done].
  rewrite <- Ev. symmetry. by apply view_clean.
Qed.

(** ** What the code gets wrong *)

(** Copying a block that is in the buffer gives the buffer to the destination
    without writing it back first: the source then shows what the device still
    held, and what had been written to it is lost. *)
Theorem copy_loses_write {D} `{KBlockDev D} (b : KBlock D) (d : Z) :
  kb_ok b -> kblock_buffered b = true -> 0 <= d < blk_cnt b -> d <> curr_blk b ->
  let '(r, b') := kblock_copy b (curr_blk b) d in
  r = 0 /\ bytes_at (view b') (d * blk_size b) (blk_size b) = buf b /\
  bytes_at (view b') (curr_blk b * blk_size b) (blk_size b) = block b (curr_blk b).
Proof.
  intros Hb Hbuf Hd Hne. unfold kblock_copy, kblock_loadPage. rewrite Hbuf, Z.eqb_refl. cbn [negb].
  destruct (i_buf b Hb Hbuf) as (Hl & Hc & _). split; [done|].
  destruct (ok_dirty b (buf b) (dev b) d Hb Hbuf Hl Hd eq_refl) as (_ & _ & Ev).
  change (view _) with (view (kblock_setDirty true (set_curr d b))) in Ev. rewrite Ev.
  pose proof (block_bounds b d Hb Hd). pose proof (block_bounds b _ Hb Hc). pose proof (length_kbslice b Hb).
  rewrite block_slice by done. split.
  - pose proof (bytes_at_copy_same (slice b) (d * blk_size b) (buf b)) as E. rewrite Hl in E. apply E; lia.
  - pose proof (block_apart d (curr_blk b) (blk_size b) (i_size b Hb) Hne). apply bytes_at_copy_out; lia.
Qed.

(** A software load that is cut short leaves its bytes in the buffer, although
    the buffer still passes for the old block. *)
Theorem swLoad_short {D} (rd : KBlock D -> Z -> Z -> Z -> list Z * KBlock D) (b : KBlock D) (i : Z) (l : list Z) :
  (forall i o n, rd b i o n = (l, b)) -> Z.of_nat (length l) < blk_size b ->
  let '(r, b') := kblock_swLoad rd b i in
  r = EOF /\ buf b' = copy_at (buf b) 0 l /\ curr_blk b' = curr_blk b.
Proof.
  intros Hrd Hl. unfold kblock_swLoad. rewrite Hrd.
  by assert ((Z.of_nat (length l) =? blk_size b) = false) as -> by lia.
Qed.
