(* ===== verification/KBlockRam.v ===== *)
(** * A block device in memory: [bertos/io/kblock_ram.c]

    The table of functions depends on how the device was made: with a buffer
    that the driver loads and stores, with the software buffer of kblock.c over
    direct accesses, or without.  An entry that is missing from a table is
    modelled as a call that does nothing and fails. *)

From Stdlib Require Import ZArith Lia Bool List.
From stdpp Require Import prelude.
From S2P Require Import Prelude KBlock.

Open Scope Z_scope.

Inductive ramvt := kblockram_hwbuffered_vt | kblockram_swbuffered_vt | kblockram_unbuffered_vt.

Record KBlockRam := mkRam { vt : ramvt; membuf : list Z }.

Definition set_membuf (m : list Z) (r : KBlockRam) : KBlockRam := mkRam (vt r) m.

Implicit Types b : KBlock KBlockRam.

Definition kblockram_load b (index : Z) : Z * KBlock KBlockRam :=
  (0, set_buf (copy_at (buf b) 0 (bytes_at (membuf (dev b)) (index * blk_size b) (blk_size b))) b).

Definition kblockram_store b (index : Z) : Z * KBlock KBlockRam :=
  (0, set_dev (set_membuf (copy_at (membuf (dev b)) (index * blk_size b) (bytes_at (buf b) 0 (blk_size b))) (dev b)) b).

Definition kblockram_readBuf b (offset size : Z) : list Z * KBlock KBlockRam :=
  (bytes_at (buf b) offset size, b).

Definition kblockram_readDirect b (index offset size : Z) : list Z * KBlock KBlockRam :=
  (bytes_at (membuf (dev b)) (index * blk_size b + offset) size, b).

Definition kblockram_writeBuf b (l : list Z) (offset : Z) : Z * KBlock KBlockRam :=
  (Z.of_nat (length l), set_buf (copy_at (buf b) offset l) b).

Definition kblockram_writeDirect b (index : Z) (l : list Z) (offset : Z) : Z * KBlock KBlockRam :=
  (Z.of_nat (length l), set_dev (set_membuf (copy_at (membuf (dev b)) (index * blk_size b + offset) l) (dev b)) b).

Definition kblockram_dummy b : Z := 0.

#[export] Instance kblockram : KBlockVTable KBlockRam := {
  readDirect b i o n := kblockram_readDirect b i o n;
  writeDirect b i l o :=
    match vt (dev b) with kblockram_hwbuffered_vt => (0, b) | _ => kblockram_writeDirect b i l o end;
  readBuf b o n :=
    match vt (dev b) with
    | kblockram_hwbuffered_vt => kblockram_readBuf b o n
    | kblockram_swbuffered_vt => kblock_swReadBuf b o n
    | kblockram_unbuffered_vt => ([], b)
    end;
  writeBuf b l o :=
    match vt (dev b) with
    | kblockram_hwbuffered_vt => kblockram_writeBuf b l o
    | kblockram_swbuffered_vt => kblock_swWriteBuf b l o
    | kblockram_unbuffered_vt => (0, b)
    end;
  load b i :=
    match vt (dev b) with
    | kblockram_hwbuffered_vt => kblockram_load b i
    | kblockram_swbuffered_vt => kblock_swLoad kblockram_readDirect b i
    | kblockram_unbuffered_vt => (EOF, b)
    end;
  store b i :=
    match vt (dev b) with
    | kblockram_hwbuffered_vt => kblockram_store b i
    | kblockram_swbuffered_vt => kblock_swStore kblockram_writeDirect b i
    | kblockram_unbuffered_vt => (EOF, b)
    end;
  error b := kblockram_dummy b;
  clearerr b := b;
  close b := (kblockram_dummy b, b)
}.

(** The memory that is handed over; with a buffer its first block is the buffer. *)
Definition kblockram_init (mem : list Z) (size block_size : Z) (buffered hwbuffered : bool) : KBlock KBlockRam :=
  if buffered then
    let b := mkKBlock (Z.lor KB_PARTIAL_WRITE KB_BUFFERED) (bytes_at mem 0 block_size) 0 0 block_size
      (u16 (size / block_size - 1))
      (mkRam (if hwbuffered then kblockram_hwbuffered_vt else kblockram_swbuffered_vt)
        (drop (Z.to_nat block_size) mem)) in
    snd (kblockram_load b 0)
  else
    mkKBlock KB_PARTIAL_WRITE [] 0 0 block_size (size / block_size) (mkRam kblockram_unbuffered_vt mem).

(** ** It keeps the promises *)

Lemma set_dev_id b : set_dev (dev b) b = b.
Proof. by destruct b. Qed.

Lemma u32_back s i : 0 <= s <= i -> i < 4294967296 -> u32 (s + u32 (i - s)) = i.
Proof. intros. rewrite (u32_small (i - s)) by lia. rewrite u32_small by lia. lia. Qed.

Lemma copy_at_all l x : length x = length l -> copy_at l 0 x = x.
Proof. intros E. unfold copy_at. rewrite drop_ge by lia. by rewrite app_nil_r. Qed.

Lemma bytes_at_all l n : Z.of_nat (length l) = n -> bytes_at l 0 n = l.
Proof. intros E. unfold bytes_at. cbn. apply take_ge. lia. Qed.

Lemma block_inside i bs (l : list Z) :
  0 < bs -> 0 <= i -> (i + 1) * bs <= Z.of_nat (length l) ->
  0 <= i * bs /\ i * bs + bs <= Z.of_nat (length l).
Proof. intros. nia. Qed.

(** A failing access that leaves the device alone. *)
Lemma spoilt_not i bs l :
  0 < bs -> 0 <= i -> (i + 1) * bs <= Z.of_nat (length l) ->
  Z.of_nat (length (bytes_at l (i * bs) bs)) = bs /\ l = copy_at l (i * bs) (bytes_at l (i * bs) bs).
Proof.
  intros H1 H2 H3. destruct (block_inside i bs l H1 H2 H3).
  split; [apply length_bytes_at; lia|symmetry; apply copy_at_same; lia].
Qed.

#[export] Program Instance kblockram_dev : KBlockDev KBlockRam := { disk r := membuf r }.
Next Obligation.
  intros b i o n Hbs Hi Ho Hn Hon Hr. eexists _, (dev b). rewrite set_dev_id. split_and!; [reflexivity|done|by left].
Qed.
Next Obligation.
  intros b i l o Hbs Hi Ho Hl Hr. cbn. unfold kblockram_writeDirect.
  destruct (vt (dev b)) eqn:E; [|eexists _, _; split_and!; [reflexivity|by left]..].
  exists 0, (dev b). rewrite set_dev_id. split; [done|].
  destruct (spoilt_not i (blk_size b) (membuf (dev b)) Hbs Hi Hr).
  destruct l as [|x l]; [left; split; [done|by rewrite copy_at_nil]|right].
  split; [cbn; lia|by eexists].
Qed.
Next Obligation.
  intros b o n Ho Hn Hl. cbn. unfold kblockram_readBuf, kblock_swReadBuf.
  destruct (vt (dev b)); eexists _, (dev b); rewrite set_dev_id; split_and!; try reflexivity; try by left.
  destruct (decide (n = 0)) as [->|]; [left; unfold bytes_at; by rewrite take_0|right; cbn; lia].
Qed.
Next Obligation.
  intros b l o Ho Hl. cbn. unfold kblockram_writeBuf, kblock_swWriteBuf.
  destruct (vt (dev b)); [exists (Z.of_nat (length l)), (dev b)..|exists 0, (dev b)]; (split; [reflexivity|]).
  1,2: left; split; [reflexivity|]; by destruct b.
  rewrite set_dev_id. destruct l as [|x l]; [left|right].
  - split; [done|]. rewrite copy_at_nil. by destruct b.
  - split; [cbn; lia|done].
Qed.
Next Obligation.
  intros b i Hbs Hi Htop Hl Hr. cbn. destruct (block_inside i _ _ Hbs ltac:(lia) Hr) as [H1 H2].
  pose proof (length_bytes_at (membuf (dev b)) (i * blk_size b) (blk_size b) H1 ltac:(lia) H2) as Hlb.
  destruct (vt (dev b)).
  - exists 0, (dev b). split; [done|]. left. split; [done|]. unfold kblockram_load.
    rewrite copy_at_all by lia. by destruct b.
  - exists 0, (dev b). split; [done|]. left. split; [done|]. unfold kblock_swLoad, kblockram_readDirect.
    rewrite u32_back, Z.add_0_r, Hlb, Z.eqb_refl, copy_at_all by lia. by destruct b.
  - exists EOF, (dev b). split; [done|]. right. split; [done|]. by rewrite set_dev_id.
Qed.
Next Obligation.
  intros b i Hbs Hi Htop Hl Hr. cbn.
  destruct (vt (dev b)).
  - exists 0, (set_membuf (copy_at (membuf (dev b)) (i * blk_size b) (buf b)) (dev b)), (buf b).
    unfold kblockram_store. rewrite bytes_at_all by done. done.
  - exists 0, (set_membuf (copy_at (membuf (dev b)) (i * blk_size b) (buf b)) (dev b)), (buf b).
    unfold kblock_swStore, kblockram_writeDirect. rewrite u32_back, Z.add_0_r, bytes_at_all, Hl, Z.eqb_refl by lia.
    done.
  - destruct (spoilt_not i (blk_size b) (membuf (dev b)) Hbs ltac:(lia) Hr) as [H1 H2].
    exists EOF, (dev b), (bytes_at (membuf (dev b)) (i * blk_size b) (blk_size b)).
    rewrite set_dev_id. by split_and!.
Qed.

(** ** The device it makes *)

Lemma kblockram_init_ok (mem : list Z) (bs : Z) (buffered hwbuffered : bool) :
  0 < bs -> Z.of_nat (length mem) < 65536 ->
  (if buffered then 2 else 0) * bs <= Z.of_nat (length mem) ->
  let b : KBlock KBlockRam := kblockram_init mem (Z.of_nat (length mem)) bs buffered hwbuffered in
  kb_ok b /\ kblock_buffered b = buffered /\ blk_size b = bs /\
  blk_cnt b = Z.of_nat (length mem) / bs - (if buffered then 1 else 0) /\
  view b = bytes_at mem (if buffered then bs else 0) (blk_cnt b * bs).
Proof.
  intros Hbs Hm Hroom b. pose proof (Z.mul_div_le (Z.of_nat (length mem)) bs Hbs) as Hd.
  assert (Hq : 0 <= Z.of_nat (length mem) / bs) by (apply Z.div_pos; lia).
  assert (Hq2 : Z.of_nat (length mem) / bs < 65536) by nia.
  destruct buffered.
  - assert (Hc : 2 <= Z.of_nat (length mem) / bs) by (apply Z.div_le_lower_bound; lia).
    set (q := Z.of_nat (length mem) / bs) in *. unfold b, kblockram_init. fold q.
    rewrite u16_small by lia. unfold kblockram_load. cbn [snd set_buf buf dev membuf blk_size].
    pose proof (length_bytes_at mem 0 bs ltac:(lia) ltac:(lia) ltac:(lia)) as L0.
    assert (Ld : Z.of_nat (length (drop (Z.to_nat bs) mem)) = Z.of_nat (length mem) - bs)
      by (rewrite length_drop; lia).
    pose proof (length_bytes_at (drop (Z.to_nat bs) mem) (0 * bs) bs ltac:(lia) ltac:(lia) ltac:(lia)) as L1.
    rewrite copy_at_all by lia.
    assert (Hok : kb_ok (mkKBlock (Z.lor KB_PARTIAL_WRITE KB_BUFFERED) (bytes_at (drop (Z.to_nat bs) mem) (0 * bs) bs)
      0 0 bs (q - 1) (mkRam (if hwbuffered then kblockram_hwbuffered_vt else kblockram_swbuffered_vt) (drop (Z.to_nat bs) mem)))).
    { split; cbn; try lia. intros _. split_and!; [lia|lia|lia|done]. }
    split_and!; [exact Hok|done|done|done|].
    rewrite view_clean by done. unfold slice. cbn [disk kblockram_dev dev membuf blk_start blk_size blk_cnt].
    unfold bytes_at. by rewrite drop_drop, Z.mul_0_l, Nat.add_0_r.
  - unfold b, kblockram_init. split_and!; try done; [|cbn [blk_cnt]; lia].
    split; cbn; try done; lia.
Qed.

(** Two blocks behind a buffer: what is written is read back, also after the
    buffer has gone to another block, and a copy of a flushed block. *)
Lemma kblock_refines_witness :
  let ops := [KWrite 0 [5; 6] 1; KWrite 1 [7] 0; KRead 0 0 3; KFlush; KCopy 1 0; KRead 0 0 3] in
  let b := kblockram_init [0; 0; 0; 1; 1; 1; 2; 2; 2] 9 3 true false in
  kb_specs true 3 [1; 1; 1; 2; 2; 2] ops
    [Count 2; Count 1; Data [1; 5; 6]; Code 0; Code 0; Data [7; 2; 2]] (view (snd (kb_run b ops))) /\
  slice (snd (kblock_flush (snd (kb_run b ops)))) = [7; 2; 2; 7; 2; 2].
Proof.
  intros ops b. destruct (kblockram_init_ok [0; 0; 0; 1; 1; 1; 2; 2; 2] 3 true false
    ltac:(lia) ltac:(cbn; lia) ltac:(cbn; lia)) as (Hb & _ & _ & _ & Hv).
  pose proof (kblock_refines b ops Hb ltac:(vm_compute; reflexivity)) as W. subst ops b.
  destruct (kb_run _ _) as [rs b'] eqn:E.
  vm_compute in E. injection E as <- <-. destruct W as [W1 W2]. split; [exact W1|].
  cbn [snd]. rewrite (W2 _ (surjective_pairing _)). reflexivity.
Defined.

(** A write, a copy of the block, and the write is gone. *)
Example copy_loses_write_here :
  let b := kblockram_init [0; 0; 1; 1; 2; 2] 6 2 true true in
  fst (kb_run b [KWrite 0 [9] 0; KCopy 0 1; KFlush; KRead 0 0 2; KRead 1 0 2])
  = [Count 1; Code 0; Code 0; Data [1; 1]; Data [9; 1]].
Proof. reflexivity. Qed.
