(* ===== verification/KBlockSure.v ===== *)
(** * Block devices that do not fail

    What a client may count on when every access succeeds: its blocks and the
    buffer as functions of the operations.  The device in memory is one. *)

From Stdlib Require Import ZArith Lia Bool List.
From stdpp Require Import prelude.
From S2P Require Import Prelude KBlock KBlockRam.

Open Scope Z_scope.

Class KBlockSure (D : Type) `{KBlockDev D} := {
  sure : KBlock D -> Prop;
  sure_ok b : sure b -> kb_ok b;
  sure_read b i o n : sure b -> 0 <= i < blk_cnt b -> 0 <= o -> 0 <= n -> o + n <= blk_size b ->
    Z.of_nat (length (fst (kblock_read b i o n))) = n /\ sure (snd (kblock_read b i o n));
  sure_write b i l o : sure b -> 0 <= i < blk_cnt b -> 0 <= o -> o + Z.of_nat (length l) <= blk_size b ->
    fst (kblock_write b i l o) = Z.of_nat (length l) /\ sure (snd (kblock_write b i l o));
  sure_copy b s d : sure b -> kblock_buffered b = true -> 0 <= s < blk_cnt b -> 0 <= d < blk_cnt b ->
    fst (kblock_copy b s d) = 0 /\ sure (snd (kblock_copy b s d));
  sure_flush b : sure b -> fst (kblock_flush b) = 0 /\ sure (snd (kblock_flush b));
  sure_close b : sure b -> exists d, close b = (0, set_dev d b) /\ disk d = disk (dev b) /\ sure (set_dev d b);
  sure_clearerr b : sure b -> sure (kblock_clearerr b) /\ view (kblock_clearerr b) = view b /\
    same b (kblock_clearerr b)
}.

Section Sure.
Context {D : Type} `{KBlockSure D}.
Implicit Types b : KBlock D.

Lemma read_sure b i o n : sure b -> 0 <= i < blk_cnt b -> 0 <= o -> 0 <= n -> o + n <= blk_size b ->
  exists b', kblock_read b i o n = (bytes_at (view b) (i * blk_size b + o) n, b') /\
    sure b' /\ view b' = view b /\ same b b'.
Proof.
  intros Hs Hi Ho Hn Hon. destruct (sure_read b i o n Hs Hi Ho Hn Hon) as [Hl Hs'].
  destruct (read_spec b i o n (sure_ok b Hs) Hi Ho Hn Hon) as (l & b' & E & (_ & Ev & S) & Hr).
  rewrite E in *. cbn [fst snd] in *. exists b'. destruct Hr as [->|Hr]; [done|lia].
Qed.

Lemma write_sure b i l o : sure b -> 0 <= i < blk_cnt b -> 0 <= o -> o + Z.of_nat (length l) <= blk_size b ->
  exists b', kblock_write b i l o = (Z.of_nat (length l), b') /\
    sure b' /\ view b' = copy_at (view b) (i * blk_size b + o) l /\ same b b'.
Proof.
  intros Hs Hi Ho Hl. pose proof (sure_ok b Hs) as Hb. destruct (sure_write b i l o Hs Hi Ho Hl) as [Hn Hs'].
  destruct (kblock_buffered b) eqn:Hbuf.
  - destruct (write_buffered b i l o Hb Hbuf Hi Ho Hl) as (n & b' & E & _ & S & Hr).
    rewrite E in *. cbn [fst snd] in *. exists b'. destruct Hr as [[-> Hv]|[Hr _]]; [done|lia].
  - destruct (writeDirect_spec b i l o Hb Hbuf Hi Ho Hl) as (n & b' & E & _ & S & Hr).
    unfold kblock_write in *. rewrite Hbuf in *. rewrite E in *. cbn [fst snd] in *.
    exists b'. destruct Hr as [[-> Hv]|[Hr _]]; [done|lia].
Qed.

(** *** Block by block

    [pg]: the block a client sees; [block] is what the device holds. *)
Definition pg b (i : Z) : list Z := bytes_at (view b) (i * blk_size b) (blk_size b).

(** An access that changes nothing, the buffer and what it stands for included. *)
Record quiet b b' : Prop := {
  q_sure : sure b';
  q_same : same b b';
  q_view : view b' = view b;
  q_slice : slice b' = slice b;
  q_curr : curr_blk b' = curr_blk b;
  q_dirty : kblock_cacheDirty b' = kblock_cacheDirty b
}.

Lemma pg_eq b b' i : same b b' -> view b' = view b -> pg b' i = pg b i.
Proof. intros [_ _ _ Sz _] Ev. unfold pg. by rewrite Ev, Sz. Qed.

Lemma block_eq b b' i : kb_ok b -> kb_ok b' -> same b b' -> slice b' = slice b -> 0 <= i < blk_cnt b ->
  block b' i = block b i.
Proof.
  intros Hb Hb' [_ _ _ Sz Sc] Es Hi. rewrite !block_slice by (done || lia). by rewrite Es, Sz.
Qed.

Lemma quiet_dev b d : sure b -> sure (set_dev d b) -> disk d = disk (dev b) -> quiet b (set_dev d b).
Proof.
  intros Hs Hs' E. destruct (kb_ok_dev b d (sure_ok b Hs) E) as (_ & Ev & Es). by split.
Qed.

Lemma quiet_trans b1 b2 b3 : quiet b1 b2 -> quiet b2 b3 -> quiet b1 b3.
Proof. intros [] []. split; try congruence; by eapply same_trans. Qed.

Lemma quiet_refl b : sure b -> quiet b b.
Proof. intros. split; done || apply same_refl. Qed.

Lemma read_quiet b i o n : sure b -> 0 <= i < blk_cnt b -> 0 <= o -> 0 <= n -> o + n <= blk_size b ->
  exists b', kblock_read b i o n = (bytes_at (pg b i) o n, b') /\ quiet b b'.
Proof.
  intros Hs Hi Ho Hn Hon. pose proof (sure_ok b Hs) as Hb. pose proof (block_bounds b i Hb Hi).
  destruct (read_sure b i o n Hs Hi Ho Hn Hon) as (b' & E & Hs' & _). exists b'.
  unfold pg. rewrite bytes_at_bytes_at by lia. split; [exact E|].
  unfold kblock_read in E. destruct (kblock_buffered b && (i =? curr_blk b)) eqn:Ec.
  - apply andb_prop in Ec as [Hbuf _]. destruct (i_buf b Hb Hbuf) as (Hl & _). unfold kblock_readBuf in E.
    destruct (rb_law b o n) as (l & d & Er & Ed & _); [lia|lia|lia|].
    rewrite Er in E. injection E as _ <-. by apply quiet_dev.
  - unfold kblock_readDirect in E. rewrite phys in E by done. pose proof Hb as [].
    destruct (rd_law b (blk_start b + i) o n) as (l & d & Er & Ed & _); [lia..|].
    rewrite Er in E. injection E as _ <-. by apply quiet_dev.
Qed.

(** Where the two differ. *)
Lemma pg_block b i : kb_ok b -> 0 <= i < blk_cnt b ->
  kblock_buffered b = false \/ i <> curr_blk b \/ kblock_cacheDirty b = false -> pg b i = block b i.
Proof.
  intros Hb Hi Hd. pose proof (view_read b i 0 (blk_size b) Hb Hi) as E.
  rewrite !Z.add_0_r in E. unfold pg, block. rewrite E by (destruct Hb; lia).
  destruct (kblock_buffered b) eqn:Hbuf; [|done]. cbn [andb]. destruct (i =? curr_blk b) eqn:Ei; [|done]. zbool.
  destruct (i_buf b Hb Hbuf) as (Hl & _ & Hc). rewrite bytes_at_all by done. subst i.
  destruct Hd as [|[|Hd]]; [done|done|]. by apply Hc.
Qed.

Lemma flush_sure b : sure b ->
  exists b', kblock_flush b = (0, b') /\ sure b' /\ same b b' /\ view b' = view b /\ slice b' = view b /\
    curr_blk b' = curr_blk b /\ kblock_cacheDirty b' = false.
Proof.
  intros Hs. destruct (sure_flush b Hs) as [E Hs'].
  destruct (kb_flush_spec b (sure_ok b Hs)) as (r & b' & Ef & (Hb' & Ev & HS) & Hc & Hr). rewrite Ef in *. cbn in E, Hs'.
  subst r. exists b'. destruct Hr as [[_ Hd]|]; [|done]. split_and!; try done. rewrite <- Ev. symmetry. by apply view_clean.
Qed.

(** A page that was loaded. *)
Lemma loadPage_true b i b' : kb_ok b -> kblock_buffered b = true -> 0 <= i < blk_cnt b ->
  kblock_loadPage b i = (true, b') ->
  unseen b b' /\ curr_blk b' = i /\ slice b' = (if i =? curr_blk b then slice b else view b).
Proof.
  intros Hb Hbuf Hi E. destruct (loadPage_spec b i Hb Hbuf Hi) as (ok & b1 & E' & Hu & Hc).
  rewrite E in E'. injection E' as <- <-. split_and!; [done|by apply Hc|]. unfold kblock_loadPage in E.
  destruct (i =? curr_blk b) eqn:Ei; cbn [negb] in E; zbool; [by injection E as <-|].
  destruct (kb_flush_spec b Hb) as (r & b2 & Ef & (Hb2 & Ev & [Sb _ Ss Sz Sc]) & _ & Hr). rewrite Ef in E.
  destruct Hr as [[-> Hd]| ->]; [|done]. cbn [negb Z.eqb] in E. rewrite <- Sc in Hi.
  pose proof (block_bounds b2 i Hb2 Hi). rewrite Hbuf in Sb. destruct (i_buf b2 Hb2 Sb) as (Hl & _). pose proof Hb2 as [].
  unfold kblock_load in E. rewrite phys in E by done.
  destruct (ld_law b2 (blk_start b2 + i)) as (r & d & Ed & Hr); [lia|lia|lia|lia|nia|].
  destruct Hr as [[-> Hr]|[Hr Hr']]; [|rewrite Hr' in E; apply Z.eqb_neq in Hr; by rewrite Hr in E].
  rewrite Hr in E. cbn [negb Z.eqb] in E. injection E as <-. rewrite <- Ev, (view_clean b2 Hb2 Hd).
  unfold slice. cbn. by rewrite Ed.
Qed.

Lemma load_block b i b' : kb_ok b -> kblock_buffered b = true -> 0 <= i < blk_cnt b ->
  kblock_loadPage b i = (true, b') -> forall j, 0 <= j < blk_cnt b ->
  block b' j = if i =? curr_blk b then block b j else pg b j.
Proof.
  intros Hb Hbuf Hi E j Hj. destruct (loadPage_true b i b' Hb Hbuf Hi E) as ((Hb' & _ & [_ _ _ Sz Sc]) & _ & Es).
  rewrite block_slice, Es, Sz by (done || lia). destruct (i =? curr_blk b); [by rewrite block_slice|done].
Qed.

(** What is in the buffer covers the device. *)
Lemma pg_buffer b j : kb_ok b -> kblock_buffered b = true -> 0 <= j < blk_cnt b ->
  pg b j = if j =? curr_blk b then buf b else block b j.
Proof.
  intros Hb Hbuf Hj. pose proof (view_read b j 0 (blk_size b) Hb Hj) as E. rewrite !Z.add_0_r in E.
  unfold pg. rewrite E by (destruct Hb; lia). rewrite Hbuf. cbn [andb].
  destruct (j =? curr_blk b); [|done]. apply bytes_at_all. by destruct (i_buf b Hb Hbuf).
Qed.

(** *** Writes

    The block written to, and the others; with a buffer it is the one in it. *)
Record wrote (i : Z) (P : list Z) b b' : Prop := {
  w_sure : sure b';
  w_same : same b b';
  w_here : pg b' i = P;
  w_else j : 0 <= j < blk_cnt b -> j <> i -> pg b' j = pg b j;
  w_buffer : kblock_buffered b = true -> curr_blk b' = i /\ kblock_cacheDirty b' = true;
  w_block j : kblock_buffered b = true -> 0 <= j < blk_cnt b ->
    block b' j = if i =? curr_blk b then block b j else pg b j
}.

Lemma wrote_trans i P Q b1 b2 b3 : wrote i P b1 b2 -> wrote i Q b2 b3 -> wrote i Q b1 b3.
Proof.
  intros [? S1 ? E1 B1 R1] [? S2 ? E2 B2 R2]. pose proof S1 as [Sb _ _ _ Sc]. split; try done.
  - by eapply same_trans.
  - intros j Hj Hne. rewrite E2, E1 by (done || lia). done.
  - intros Hb. apply B2. congruence.
  - intros j Hb Hj. destruct (B1 Hb) as [Ec _]. rewrite R2 by (congruence || lia). rewrite Ec, Z.eqb_refl. by apply R1.
Qed.

Lemma kblock_write_wrote b i l o : sure b -> 0 <= i < blk_cnt b -> 0 <= o -> l <> [] ->
  o + Z.of_nat (length l) <= blk_size b ->
  exists b', kblock_write b i l o = (Z.of_nat (length l), b') /\ wrote i (copy_at (pg b i) o l) b b'.
Proof.
  intros Hs Hi Ho Hne Hl. pose proof (sure_ok b Hs) as Hb. pose proof (block_bounds b i Hb Hi).
  pose proof (length_view b Hb) as Lv.
  destruct (write_sure b i l o Hs Hi Ho Hl) as (b' & E & Hs' & Ev & HS). exists b'. split; [exact E|].
  pose proof HS as [Sb _ _ Sz Sc]. split; try done.
  - unfold pg. rewrite Ev, Sz. rewrite bytes_at_copy_in by lia. f_equal. lia.
  - intros j Hj Hji. unfold pg. rewrite Ev, Sz. pose proof (block_bounds b j Hb Hj).
    pose proof (block_apart i j (blk_size b) (i_size b Hb) ltac:(lia)). apply bytes_at_copy_out; lia.
  - intros Hbuf. unfold kblock_write in E. rewrite Hbuf in E.
    destruct (loadPage_spec b i Hb Hbuf Hi) as (ok & b1 & El & (Hb1 & _ & [Sb1 _ _ Sz1 _]) & Hc). rewrite El in E.
    destruct ok; cbn [negb] in E; [|injection E as E _; destruct l; [done|cbn in E; lia]].
    rewrite Hbuf in Sb1. destruct (i_buf b1 Hb1 Sb1) as (Hlen & _). unfold kblock_writeBuf in E.
    destruct (wb_law (kblock_setDirty true b1) l o) as (n & d & Ed & Hw); [lia|cbn; lia|].
    assert (Hd : kblock_cacheDirty (kblock_setDirty true b1) = true) by (rewrite dirty_setDirty, Sb1; done).
    destruct Hw as [[-> Hw]|[Hn Hw]]; rewrite Hw in E; [injection E as <-|injection E as E _; lia].
    split; [by apply Hc|exact Hd].
  - intros j Hbuf Hj. unfold kblock_write in E. rewrite Hbuf in E.
    destruct (loadPage_spec b i Hb Hbuf Hi) as (ok & b1 & El & (Hb1 & _ & [Sb1 _ Ss1 Sz1 Sc1]) & Hc). rewrite El in E.
    destruct ok; cbn [negb] in E; [|injection E as E _; destruct l; [done|cbn in E; lia]].
    rewrite <- (load_block b i b1 Hb Hbuf Hi El j Hj). rewrite Hbuf in Sb1. destruct (i_buf b1 Hb1 Sb1) as (Hlen & _).
    unfold kblock_writeBuf in E. destruct (wb_law (kblock_setDirty true b1) l o) as (n & d & Ed & Hw); [lia|cbn; lia|].
    assert (Hcol : forall l', block (set_dev d (set_buf l' (kblock_setDirty true b1))) j = block b1 j).
    { intros l'. unfold block. cbn. by rewrite Ed. }
    destruct Hw as [[-> Hw]|[Hn Hw]]; rewrite Hw in E; [injection E as <-; by rewrite Hcol|injection E as E _; lia].
Qed.

(** A copy, with a buffer: the source shows what the device holds. *)
Lemma kblock_copy_sure b s d : sure b -> kblock_buffered b = true -> 0 <= s < blk_cnt b -> 0 <= d < blk_cnt b ->
  exists b', kblock_copy b s d = (0, b') /\ sure b' /\ same b b' /\
    curr_blk b' = d /\ kblock_cacheDirty b' = true /\ pg b' d = pg b s /\
    (forall j, 0 <= j < blk_cnt b -> block b' j = if s =? curr_blk b then block b j else pg b j) /\
    (forall j, 0 <= j < blk_cnt b -> j <> d -> pg b' j = if s =? curr_blk b then block b j else pg b j).
Proof.
  intros Hs Hbuf Hsr Hd. pose proof (sure_ok b Hs) as Hb. destruct (sure_copy b s d Hs Hbuf Hsr Hd) as [E Hs'].
  unfold kblock_copy in *. rewrite Hbuf in *.
  destruct (loadPage_spec b s Hb Hbuf Hsr) as (ok & b1 & El & (Hb1 & Ev & HS) & _). rewrite El in *.
  destruct ok; cbn [negb fst snd] in *; [|done]. eexists. split; [reflexivity|].
  destruct (loadPage_true b s b1 Hb Hbuf Hsr El) as (_ & Hcur & _).
  pose proof HS as [Sb _ _ Sz Sc]. rewrite Hbuf in Sb. destruct (i_buf b1 Hb1 Sb) as (Hlen & _).
  rewrite <- Sc in Hd. destruct (ok_dirty b1 (buf b1) (dev b1) d Hb1 Sb Hlen Hd eq_refl) as (K1 & K2 & K3).
  set (b2 := kblock_setDirty true (set_curr d b1)) in *.
  assert (E2 : set_dev (dev b1) (set_buf (buf b1) b2) = b2) by reflexivity. rewrite E2 in K1, K2.
  assert (Sb2 : kblock_buffered b2 = true) by (destruct K2; congruence).
  assert (HB : forall j, 0 <= j < blk_cnt b -> block b2 j = if s =? curr_blk b then block b j else pg b j).
  { intros j Hj. rewrite <- (load_block b s b1 Hb Hbuf Hsr El j Hj). done. }
  split_and!; [done|by eapply same_trans|done| | |exact HB|].
  - unfold b2. rewrite dirty_setDirty. change (kblock_buffered (set_curr d b1)) with (kblock_buffered b1). by rewrite Sb.
  - rewrite pg_buffer by done. change (curr_blk b2) with d. rewrite Z.eqb_refl.
    rewrite <- (pg_eq b b1 s HS Ev), pg_buffer by (done || lia). by rewrite Hcur, Z.eqb_refl.
  - intros j Hj Hne. rewrite <- HB, pg_buffer by (done || (change (blk_cnt b2) with (blk_cnt b1); lia)).
    change (curr_blk b2) with d. by rewrite (proj2 (Z.eqb_neq j d)).
Qed.
End Sure.

(** ** The device in memory does not fail *)
Section Ram.
Implicit Types b : KBlock KBlockRam.

(** Its table is the one for its flags. *)
Definition matched b : bool :=
  match vt (dev b) with kblockram_unbuffered_vt => negb (kblock_buffered b) | _ => kblock_buffered b end.

Definition ram_sure b : Prop := kb_ok b /\ matched b = true.

Lemma ram_store b i : vt (dev b) <> kblockram_unbuffered_vt -> 0 < blk_size b ->
  Z.of_nat (length (buf b)) = blk_size b ->
  exists m, store b i = (0, set_dev (mkRam (vt (dev b)) m) b).
Proof.
  intros Hv Hbs Hl. cbn. destruct (vt (dev b)) eqn:E; [| |done].
  - unfold kblockram_store, set_membuf. rewrite E. by eexists.
  - unfold kblock_swStore, kblockram_writeDirect, set_membuf. rewrite E.
    rewrite bytes_at_all, Hl, Z.eqb_refl by done. by eexists.
Qed.

Lemma ram_load b i : vt (dev b) <> kblockram_unbuffered_vt -> kb_ok b -> 0 <= i < blk_cnt b ->
  exists l, load b (blk_start b + i) = (0, set_buf l b).
Proof.
  intros Hv Hb Hi. cbn. pose proof (block_bounds b i Hb Hi). cbn [disk kblockram_dev] in *. pose proof Hb as [].
  destruct (vt (dev b)) eqn:E; [| |done].
  - by eexists.
  - unfold kblock_swLoad, kblockram_readDirect. rewrite u32_back, Z.add_0_r by lia.
    rewrite length_bytes_at, Z.eqb_refl by lia. by eexists.
Qed.

Lemma matched_buffered b : matched b = true -> kblock_buffered b = true -> vt (dev b) <> kblockram_unbuffered_vt.
Proof. unfold matched. intros Hm Hb E. by rewrite E, Hb in Hm. Qed.

Lemma ram_flush b : ram_sure b -> fst (kblock_flush b) = 0 /\ vt (dev (snd (kblock_flush b))) = vt (dev b).
Proof.
  intros [Hb Hm]. unfold kblock_flush. destruct (kblock_buffered b) eqn:Hbuf; [|done].
  destruct (kblock_cacheDirty b); [|done]. destruct (i_buf b Hb Hbuf) as (Hl & _).
  unfold kblock_store. destruct (ram_store b (u32 (blk_start b + curr_blk b))) as [m ->];
    [by apply matched_buffered|apply Hb|done|]. done.
Qed.

Lemma sure_same b b' : ram_sure b -> kb_ok b' -> same b b' -> vt (dev b') = vt (dev b) -> ram_sure b'.
Proof. intros [_ Hm] Hb' [Sb _ _ _ _] Ev. split; [done|]. unfold matched. by rewrite Ev, Sb. Qed.

Lemma ram_loadPage b i : ram_sure b -> kblock_buffered b = true -> 0 <= i < blk_cnt b ->
  fst (kblock_loadPage b i) = true /\ vt (dev (snd (kblock_loadPage b i))) = vt (dev b).
Proof.
  intros Hs Hbuf Hi. pose proof Hs as [Hb Hm]. unfold kblock_loadPage.
  destruct (i =? curr_blk b); [done|]. cbn [negb].
  destruct (ram_flush b Hs) as [Hr Hv]. destruct (kb_flush_spec b Hb) as (r & b1 & E & (Hb1 & _ & [_ _ Ss _ Sc]) & _).
  rewrite E in *. cbn [fst snd] in *. subst r. cbn [Z.eqb negb].
  unfold kblock_load. rewrite phys by (done || lia).
  destruct (ram_load b1 i) as [l ->]; [rewrite Hv; by apply matched_buffered|done|lia|]. done.
Qed.

Lemma ram_writeBuf b l o : vt (dev b) <> kblockram_unbuffered_vt ->
  fst (writeBuf b l o) = Z.of_nat (length l) /\ vt (dev (snd (writeBuf b l o))) = vt (dev b).
Proof. intros Hv. cbn. by destruct (vt (dev b)) eqn:E. Qed.

#[export] Program Instance kblockram_sure : KBlockSure KBlockRam := { sure := ram_sure }.
Next Obligation. by intros b [Hb _]. Qed.
Next Obligation.
  intros b i o n Hs Hi Ho Hn Hon. pose proof Hs as [Hb Hm].
  pose proof (block_bounds b i Hb Hi). cbn [disk kblockram_dev] in *.
  destruct (read_spec b i o n Hb Hi Ho Hn Hon) as (l & b' & E & (Hb' & _ & HS) & _).
  enough (Z.of_nat (length (fst (kblock_read b i o n))) = n /\ vt (dev (snd (kblock_read b i o n))) = vt (dev b)) as [E1 E2].
  { split; [done|]. rewrite E in *. by eapply sure_same. }
  clear l b' E Hb' HS. unfold kblock_read. destruct (kblock_buffered b && (i =? curr_blk b)) eqn:Ec.
  - apply andb_prop in Ec as [Hbuf _]. destruct (i_buf b Hb Hbuf) as (Hl & _). pose proof (matched_buffered b Hm Hbuf).
    unfold kblock_readBuf. cbn. destruct (vt (dev b)) eqn:Ev; [| |done]; cbn; rewrite length_bytes_at by lia; done.
  - unfold kblock_readDirect. rewrite phys by done. cbn. rewrite length_bytes_at by lia. done.
Qed.
Next Obligation.
  intros b i l o Hs Hi Ho Hl. pose proof Hs as [Hb Hm].
  destruct (kblock_buffered b) eqn:Hbuf.
  - destruct (write_buffered b i l o Hb Hbuf Hi Ho Hl) as (n & b' & E & Hb' & HS & _).
    enough (fst (kblock_write b i l o) = Z.of_nat (length l) /\ vt (dev (snd (kblock_write b i l o))) = vt (dev b)) as [E1 E2].
    { split; [done|]. rewrite E in *. by eapply sure_same. }
    clear n b' E Hb' HS. unfold kblock_write. rewrite Hbuf. destruct (ram_loadPage b i Hs Hbuf Hi) as [E1 E2].
    destruct (kblock_loadPage b i) as [ok b1]. cbn [fst snd] in *. subst ok. cbn [negb].
    destruct (ram_writeBuf (kblock_setDirty true b1) l o) as [F1 F2].
    { change (vt (dev b1) <> kblockram_unbuffered_vt). rewrite E2. by apply matched_buffered. }
    split; [exact F1|]. rewrite <- E2. exact F2.
  - destruct (writeDirect_spec b i l o Hb Hbuf Hi Ho Hl) as (n & b' & E & Hb' & HS & _).
    unfold kblock_write. rewrite Hbuf.
    enough (fst (kblock_writeDirect b i l o) = Z.of_nat (length l) /\ vt (dev (snd (kblock_writeDirect b i l o))) = vt (dev b)) as [E1 E2].
    { split; [done|]. rewrite E in *. by eapply sure_same. }
    unfold matched in Hm. unfold kblock_writeDirect. cbn. destruct (vt (dev b)) eqn:Ev; cbn; try done. by rewrite Hbuf in Hm.
Qed.
Next Obligation.
  intros b s d Hs Hbuf Hsr Hd. pose proof Hs as [Hb _]. unfold kblock_copy. rewrite Hbuf.
  destruct (ram_loadPage b s Hs Hbuf Hsr) as [E1 E2].
  destruct (loadPage_spec b s Hb Hbuf Hsr) as (ok & b1 & El & (Hb1 & _ & HS) & _). rewrite El in *.
  cbn [fst snd] in *. subst ok. cbn [negb fst snd]. split; [done|].
  pose proof HS as [Sb _ _ Sz Sc]. rewrite Hbuf in Sb. destruct (i_buf b1 Hb1 Sb) as (Hlen & _).
  rewrite <- Sc in Hd. destruct (ok_dirty b1 (buf b1) (dev b1) d Hb1 Sb Hlen Hd eq_refl) as (K1 & K2 & _).
  apply (sure_same b); [done|exact K1|eapply same_trans; [exact HS|exact K2]|exact E2].
Qed.
Next Obligation.
  intros b Hs. pose proof Hs as [Hb _]. destruct (ram_flush b Hs) as [E1 E2].
  destruct (kb_flush_spec b Hb) as (r & b' & E & (Hb' & _ & HS) & _). rewrite E in *. split; [done|by eapply sure_same].
Qed.
Next Obligation. intros b Hs. exists (dev b). by destruct b. Qed.
Next Obligation. intros b Hs. cbn. split_and!; [done|done|apply same_refl]. Qed.
End Ram.
