(* ===== verification/KFileBlock.v ===== *)
(** * Files on block devices: [bertos/io/kfile_block.c]

    A [KFile] whose bytes are those of a block device.  The interface of
    KBlock.v below, the interface of KFile.v above: the theorem is about every
    device that does not fail, and what KFile.v proves of its sources and sinks
    ([kfile_copy], [kfile_print], …) holds of these files. *)

From Stdlib Require Import ZArith Lia Bool List.
From stdpp Require Import prelude.
From S2P Require Import Prelude KFile KBlock KBlockRam KBlockSure.

Open Scope Z_scope.

Record KFileBlock (D : Type) := mkFileBlock { fd : KFilePos; blk : KBlock D }.
Arguments mkFileBlock {D}.
Arguments fd {D}.
Arguments blk {D}.

Section Code.
Context {D : Type} `{KBlockVTable D}.
Implicit Types fb : KFileBlock D.

(** [KFILEBLOCK(dir, ...)]: the part of the block at the current position, then
    the next; every turn but the last moves at least a byte, so that [fuel],
    the bytes asked for, is enough. *)
Definition block_id fb : Z := u32 (Z.quot (seek_pos (fd fb)) (blk_size (blk fb))).
Definition block_offset fb : Z := u16 (Z.rem (seek_pos (fd fb)) (blk_size (blk fb))).
Definition advance fb (b : KBlock D) (n : Z) : KFileBlock D :=
  mkFileBlock (mkPos (i32 (seek_pos (fd fb) + n)) (file_size (fd fb))) b.

Fixpoint read_loop (fuel : nat) fb (size : Z) : list Z * KFileBlock D :=
  match fuel with
  | O => ([], fb)
  | S fuel' =>
      if (size =? 0) || (block_id fb >=? blk_cnt (blk fb)) then ([], fb)
      else
        let count := Z.min size (u16 (blk_size (blk fb) - block_offset fb)) in
        let '(l, b) := kblock_read (blk fb) (block_id fb) (block_offset fb) count in
        let ret_len := Z.of_nat (length l) in
        let fb := advance fb b ret_len in
        if negb (ret_len =? count) then (l, fb)
        else let '(l2, fb) := read_loop fuel' fb (size - ret_len) in (l ++ l2, fb)
  end.

Fixpoint write_loop (fuel : nat) fb (l : list Z) : Z * KFileBlock D :=
  match fuel with
  | O => (0, fb)
  | S fuel' =>
      let size := Z.of_nat (length l) in
      if (size =? 0) || (block_id fb >=? blk_cnt (blk fb)) then (0, fb)
      else
        let count := Z.min size (u16 (blk_size (blk fb) - block_offset fb)) in
        let '(ret_len, b) := kblock_write (blk fb) (block_id fb) (take (Z.to_nat count) l) (block_offset fb) in
        let fb := advance fb b ret_len in
        if negb (ret_len =? count) then (ret_len, fb)
        else let '(n, fb) := write_loop fuel' fb (drop (Z.to_nat ret_len) l) in (ret_len + n, fb)
  end.

Definition kfileblock_read fb (size : Z) : list Z * KFileBlock D := read_loop (Z.to_nat size) fb size.
Definition kfileblock_write fb (l : list Z) : Z * KFileBlock D := write_loop (length l) fb l.
Definition kfileblock_flush fb : Z * KFileBlock D :=
  let '(r, b) := kblock_flush (blk fb) in (r, mkFileBlock (fd fb) b).
Definition kfileblock_error fb : Z := kblock_error (blk fb).
Definition kfileblock_clearerr fb : KFileBlock D := mkFileBlock (fd fb) (kblock_clearerr (blk fb)).
Definition kfileblock_close fb : Z * KFileBlock D :=
  let '(r, b) := kblock_close (blk fb) in (r, mkFileBlock (fd fb) b).

#[export] Instance kfileblock : KFile (KFileBlock D) := {
  kfile_read fb n := kfileblock_read fb n;
  kfile_write fb l := kfileblock_write fb l;
  kfile_flush fb := kfileblock_flush fb;
  kfile_error fb := kfileblock_error fb;
  kfile_clearerr fb := kfileblock_clearerr fb
}.

Definition kfileblock_init (b : KBlock D) : KFileBlock D :=
  mkFileBlock (mkPos 0 (i32 (u32 (blk_cnt b * blk_size b)))) b.

(** The seek of the base class. *)
Definition kfileblock_seek fb (offset : Z) (whence : KSeekMode) : Z * KFileBlock D :=
  let '(r, p) := kfile_genericSeek (fd fb) offset whence in (r, mkFileBlock p (blk fb)).
End Code.

(** ** The file as an array of bytes *)
Section Files.
Context {D : Type} `{KBlockSure D}.
Implicit Types fb : KFileBlock D.

(** The bytes, and the position. *)
Definition content fb : list Z := view (blk fb).
Definition at_pos fb : Z := seek_pos (fd fb).

Record fb_ok fb : Prop := {
  f_sure : sure (blk fb);
  f_pos : 0 <= at_pos fb < 2147483648;
  f_bs : blk_size (blk fb) < 65536;
  f_total : Z.of_nat (length (content fb)) < 2147483648
}.

(** What stays. *)
Definition kept_file fb fb' : Prop :=
  fb_ok fb' /\ file_size (fd fb') = file_size (fd fb) /\
  blk_size (blk fb') = blk_size (blk fb) /\ blk_cnt (blk fb') = blk_cnt (blk fb).

(** The block and offset of the position. *)
Lemma position fb : fb_ok fb ->
  let bs := blk_size (blk fb) in
  block_id fb = at_pos fb / bs /\ block_offset fb = at_pos fb mod bs /\
  at_pos fb = at_pos fb / bs * bs + at_pos fb mod bs /\ 0 <= at_pos fb mod bs < bs /\ 0 <= at_pos fb / bs /\
  u16 (bs - at_pos fb mod bs) = bs - at_pos fb mod bs /\
  Z.of_nat (length (content fb)) = blk_cnt (blk fb) * bs.
Proof.
  intros [Hs Hp Hbs Ht] bs. destruct (sure_ok _ Hs) as [Hb0 _ _ _ _ _]. fold bs in Hb0, Hbs.
  pose proof (Z.mod_pos_bound (at_pos fb) bs Hb0). pose proof (Z.div_mod (at_pos fb) bs ltac:(lia)).
  pose proof (Z.div_pos (at_pos fb) bs ltac:(lia) Hb0).
  pose proof (Z.div_le_upper_bound (at_pos fb) bs (at_pos fb) Hb0 ltac:(nia)).
  unfold block_id, block_offset. fold bs. fold (at_pos fb).
  rewrite Z.quot_div_nonneg, Z.rem_mod_nonneg by lia. rewrite u32_small, u16_small by lia.
  split_and!; try lia; [apply u16_small; lia|]. unfold content. by rewrite length_view by (by apply sure_ok).
Qed.

(** Whether the position is in the file is whether its block is. *)
Lemma in_file fb : fb_ok fb ->
  (block_id fb >=? blk_cnt (blk fb)) = (at_pos fb >=? Z.of_nat (length (content fb))).
Proof.
  intros Hf. destruct (position fb Hf) as (-> & _ & Hp & Hm & Hd & _ & ->).
  destruct (Z.geb_spec (at_pos fb / blk_size (blk fb)) (blk_cnt (blk fb)));
    destruct (Z.geb_spec (at_pos fb) (blk_cnt (blk fb) * blk_size (blk fb))); try done; nia.
Qed.

Lemma kept_advance fb b n : fb_ok fb -> sure b -> same (blk fb) b ->
  length (view b) = length (content fb) -> 0 <= n -> at_pos fb + n <= Z.of_nat (length (content fb)) ->
  kept_file fb (advance fb b n) /\ at_pos (advance fb b n) = at_pos fb + n /\ content (advance fb b n) = view b.
Proof.
  intros [Hs Hp Hbs Ht] Hb [_ _ _ Sz Sc] Hl Hn Hr.
  assert (Ep : at_pos (advance fb b n) = at_pos fb + n) by (apply i32_small; unfold at_pos in *; lia).
  split_and!; [|exact Ep|done]. unfold kept_file. split_and!; [|done|exact Sz|exact Sc].
  split; [exact Hb|lia|cbn; lia|change (content (advance fb b n)) with (view b); lia].
Qed.

Lemma bytes_at_past l p n : Z.of_nat (length l) <= p -> bytes_at l p n = [].
Proof. intros Hp. unfold bytes_at. rewrite drop_ge by lia. apply take_nil. Qed.

Lemma kept_trans fb1 fb2 fb3 : kept_file fb1 fb2 -> kept_file fb2 fb3 -> kept_file fb1 fb3.
Proof. intros (_ & ? & ? & ?) (? & ? & ? & ?). unfold kept_file. split_and!; congruence || done. Qed.

Lemma kept_refl fb : fb_ok fb -> kept_file fb fb.
Proof. by unfold kept_file. Qed.

Lemma read_loop_spec fuel : forall fb size, fb_ok fb -> 0 <= size -> (Z.to_nat size <= fuel)%nat ->
  exists fb', read_loop fuel fb size = (bytes_at (content fb) (at_pos fb) size, fb') /\ kept_file fb fb' /\
    content fb' = content fb /\
    at_pos fb' = at_pos fb + Z.of_nat (length (bytes_at (content fb) (at_pos fb) size)).
Proof.
  induction fuel as [|fuel IH]; intros fb size Hf Hsz Hfu; pose proof (f_pos fb Hf); cbn [read_loop].
  { assert (size = 0) as -> by lia. exists fb. rewrite Z.add_0_r. split_and!; [done|by apply kept_refl|done|done]. }
  rewrite in_file by done.
  destruct ((size =? 0) || (at_pos fb >=? Z.of_nat (length (content fb)))) eqn:E.
  { exists fb. assert (bytes_at (content fb) (at_pos fb) size = []) as ->.
    { apply orb_true_iff in E as [E|E]; zbool; [by subst size|]. apply bytes_at_past. lia. }
    rewrite Z.add_0_r. split_and!; [done|by apply kept_refl|done|done]. }
  zbool. destruct (position fb Hf) as (Eid & Eoff & Hp & Hm & Hd & Eu & Ht). rewrite Eid, Eoff, Eu.
  set (bs := blk_size (blk fb)) in *. set (p := at_pos fb) in *.
  assert (Hi : 0 <= p / bs < blk_cnt (blk fb)) by nia.
  set (count := Z.min size (bs - p mod bs)).
  destruct (read_sure (blk fb) (p / bs) (p mod bs) count (f_sure fb Hf) Hi) as (b' & -> & Hs' & Ev & HS); [lia..|].
  fold (content fb) in Ev |- *. fold bs in Ev |- *. rewrite <- Hp.
  assert (Hpc : p + count <= Z.of_nat (length (content fb))) by (rewrite Ht; nia).
  rewrite length_bytes_at, Z.eqb_refl by lia. cbn [negb].
  destruct (kept_advance fb b' count Hf Hs' HS) as (HK & Ep & Ec); [by rewrite Ev|lia|exact Hpc|].
  pose proof HK as (Hf1 & _). fold p in Ep.
  destruct (IH (advance fb b' count) (size - count) Hf1) as (fb' & -> & HK' & Ec' & Ep'); [lia|lia|].
  rewrite Ec, Ev in Ec'. rewrite Ec, Ep, Ev in Ep'. rewrite Ec, Ep, Ev.
  exists fb'. assert (Eb : bytes_at (content fb) p count ++ bytes_at (content fb) (p + count) (size - count)
    = bytes_at (content fb) p size).
  { rewrite <- bytes_at_app by lia. f_equal. lia. }
  rewrite Eb. split_and!; [done|by eapply kept_trans|done|].
  rewrite Ep', <- Eb, length_app.
  pose proof (length_bytes_at (content fb) p count ltac:(lia) ltac:(lia) Hpc). lia.
Qed.

(** How much of a write the file takes. *)
Definition room fb (n : Z) : Z := Z.min n (Z.max 0 (Z.of_nat (length (content fb)) - at_pos fb)).

Lemma write_loop_spec fuel : forall fb l, fb_ok fb -> (length l <= fuel)%nat ->
  let n := room fb (Z.of_nat (length l)) in
  exists fb', write_loop fuel fb l = (n, fb') /\ kept_file fb fb' /\
    content fb' = copy_at (content fb) (at_pos fb) (take (Z.to_nat n) l) /\ at_pos fb' = at_pos fb + n.
Proof.
  unfold room. induction fuel as [|fuel IH]; intros fb l Hf Hfu; pose proof (f_pos fb Hf); cbn [write_loop].
  { destruct l; [|cbn in Hfu; lia]. exists fb. cbn [length]. rewrite Z.min_l by lia. cbn.
    rewrite copy_at_nil, Z.add_0_r. split_and!; [done|by apply kept_refl|done|done]. }
  rewrite in_file by done.
  destruct ((Z.of_nat (length l) =? 0) || (at_pos fb >=? Z.of_nat (length (content fb)))) eqn:E.
  { exists fb. assert (Z.min (Z.of_nat (length l)) (Z.max 0 (Z.of_nat (length (content fb)) - at_pos fb)) = 0) as ->.
    { apply orb_true_iff in E as [E|E]; zbool; lia. }
    cbn. rewrite take_0, copy_at_nil, Z.add_0_r. split_and!; [done|by apply kept_refl|done|done]. }
  zbool. destruct (position fb Hf) as (Eid & Eoff & Hp & Hm & Hd & Eu & Ht). rewrite Eid, Eoff, Eu.
  set (bs := blk_size (blk fb)) in *. set (p := at_pos fb) in *.
  assert (Hi : 0 <= p / bs < blk_cnt (blk fb)) by nia.
  set (count := Z.min (Z.of_nat (length l)) (bs - p mod bs)).
  assert (Hlt : Z.of_nat (length (take (Z.to_nat count) l)) = count) by (rewrite length_take; lia).
  destruct (write_sure (blk fb) (p / bs) (take (Z.to_nat count) l) (p mod bs) (f_sure fb Hf) Hi)
    as (b' & -> & Hs' & Ev & HS); [lia|lia|].
  fold (content fb) in Ev |- *. fold bs in Ev |- *. rewrite <- Hp in Ev. rewrite Hlt, Z.eqb_refl. cbn [negb].
  assert (Hpc : p + count <= Z.of_nat (length (content fb))) by (rewrite Ht; nia).
  assert (Hle : length (view b') = length (content fb)) by (rewrite Ev; apply length_copy_at; lia).
  destruct (kept_advance fb b' count Hf Hs' HS Hle) as (HK & Ep & Ec); [lia|exact Hpc|].
  pose proof HK as (Hf1 & _). fold p in Ep.
  destruct (IH (advance fb b' count) (drop (Z.to_nat count) l) Hf1) as (fb' & -> & HK' & Ec' & Ep');
    [rewrite length_drop; lia|].
  rewrite Ec, Ep, Hle, length_drop in Ec'. rewrite Ec, Ep, Hle, length_drop in Ep'.
  rewrite Ec, Ep, Hle, length_drop.
  set (m := Z.min (Z.of_nat (length l - Z.to_nat count)) (Z.max 0 (Z.of_nat (length (content fb)) - (p + count)))) in *.
  assert (Em : Z.min (Z.of_nat (length l)) (Z.max 0 (Z.of_nat (length (content fb)) - p)) = count + m) by lia.
  rewrite Em. exists fb'. split_and!; [done|by eapply kept_trans| |lia].
  rewrite Ec', Ev, Z2Nat.inj_add, <- take_take_drop by lia. rewrite copy_at_app, Hlt; [done|lia|].
  rewrite Hlt, length_take, length_drop. lia.
Qed.
End Files.

(** ** Programs over a file *)

Inductive f_op := FRead (n : Z) | FWrite (l : list Z) | FSeek (offset : Z) (whence : KSeekMode).

Definition f_exec {D} `{KBlockVTable D} (fb : KFileBlock D) (op : f_op) : kb_reply * KFileBlock D :=
  match op with
  | FRead n => let '(l, fb) := kfile_read fb n in (Data l, fb)
  | FWrite l => let '(n, fb) := kfile_write fb l in (Count n, fb)
  | FSeek o w => let '(r, fb) := kfileblock_seek fb o w in (Code r, fb)
  end.

Fixpoint f_run {D} `{KBlockVTable D} (fb : KFileBlock D) (ops : list f_op) : list kb_reply * KFileBlock D :=
  match ops with
  | [] => ([], fb)
  | op :: ops' =>
      let '(r, fb) := f_exec fb op in
      let '(rs, fb) := f_run fb ops' in (r :: rs, fb)
  end.

(** An array [V] of fixed length with a position [p]. *)
Definition target_pos (size p offset : Z) (whence : KSeekMode) : Z :=
  match whence with KSM_SEEK_SET => 0 | KSM_SEEK_CUR => p | KSM_SEEK_END => size end + offset.

Definition array_exec (size : Z) (V : list Z) (p : Z) (op : f_op) : kb_reply * list Z * Z :=
  match op with
  | FRead n => let l := bytes_at V p n in (Data l, V, p + Z.of_nat (length l))
  | FWrite l =>
      let n := Z.min (Z.of_nat (length l)) (Z.max 0 (Z.of_nat (length V) - p)) in
      (Count n, copy_at V p (take (Z.to_nat n) l), p + n)
  | FSeek o w => let q := target_pos size p o w in (Code q, V, q)
  end.

Fixpoint array_run (size : Z) (V : list Z) (p : Z) (ops : list f_op) : list kb_reply * list Z * Z :=
  match ops with
  | [] => ([], V, p)
  | op :: ops' =>
      let '(r, V, p) := array_exec size V p op in
      let '(rs, V, p) := array_run size V p ops' in (r :: rs, V, p)
  end.

(** No seek before the start or past what the position can hold. *)
Fixpoint seeks_ok (size : Z) (V : list Z) (p : Z) (ops : list f_op) : bool :=
  match ops with
  | [] => true
  | op :: ops' =>
      let '(_, V, p) := array_exec size V p op in
      match op with FRead n => 0 <=? n | FWrite _ => true | FSeek _ _ => (0 <=? p) && (p <? 2147483648) end
      && seeks_ok size V p ops'
  end.

Section Programs.
Context {D : Type} `{KBlockSure D}.
Implicit Types fb : KFileBlock D.

Lemma f_step fb op : fb_ok fb -> seeks_ok (file_size (fd fb)) (content fb) (at_pos fb) [op] = true ->
  let '(r, fb') := f_exec fb op in
  kept_file fb fb' /\ array_exec (file_size (fd fb)) (content fb) (at_pos fb) op = (r, content fb', at_pos fb').
Proof.
  intros Hf Hop. pose proof (f_pos fb Hf). destruct op as [n|l|o w]; cbn [seeks_ok array_exec] in Hop; rewrite ?andb_true_r in Hop; cbn [f_exec array_exec].
  - destruct (read_loop_spec (Z.to_nat n) fb n Hf ltac:(lia) ltac:(lia)) as (fb' & E & HK & Ec & Ep).
    change (kfile_read fb n) with (read_loop (Z.to_nat n) fb n). rewrite E. split; [done|]. by rewrite Ec, Ep.
  - destruct (write_loop_spec (length l) fb l Hf ltac:(lia)) as (fb' & E & HK & Ec & Ep).
    change (kfile_write fb l) with (write_loop (length l) fb l). rewrite E. split; [done|].
    unfold room in *. by rewrite Ec, Ep.
  - zbool. unfold kfileblock_seek, kfile_genericSeek. cbn.
    change ((match w with KSM_SEEK_SET => 0 | KSM_SEEK_CUR => seek_pos (fd fb) | KSM_SEEK_END => file_size (fd fb) end) + o)
      with (target_pos (file_size (fd fb)) (at_pos fb) o w).
    rewrite i32_small by lia. split; [|done]. unfold kept_file. split_and!; try done.
    by destruct Hf.
Qed.

(** C26: A file on a block device is an array of bytes.  On a device that does not
    fail, of any block size and whether it buffers or not, run any program of
    reads, writes and seeks that do not leave the range of positions: every
    answer, the bytes and the final position are those of one array with a
    position.  Reads and writes across block boundaries are whole, what
    reaches past the end is cut there and counted so, and the blocks that are
    only partly written keep the rest. *)
Theorem kfileblock_refines fb (ops : list f_op) :
  fb_ok fb -> seeks_ok (file_size (fd fb)) (content fb) (at_pos fb) ops = true ->
  let '(rs, fb') := f_run fb ops in
  array_run (file_size (fd fb)) (content fb) (at_pos fb) ops = (rs, content fb', at_pos fb').
Proof.
  revert fb. induction ops as [|op ops IH]; intros fb Hf Hk; cbn [f_run array_run]; [done|].
  cbn [seeks_ok] in Hk. pose proof (f_step fb op Hf) as Hs. cbn [seeks_ok] in Hs.
  destruct (array_exec _ _ _ op) as [[r V] p] eqn:E. apply andb_prop in Hk as [Hop Hk].
  rewrite andb_true_r in Hs. specialize (Hs Hop). destruct (f_exec fb op) as [r' fb1].
  destruct Hs as [(Hf1 & Es & _) [= -> -> ->]].
  specialize (IH fb1 Hf1). rewrite Es in IH. specialize (IH Hk).
  destruct (f_run fb1 ops) as [rs fb2]. by rewrite IH.
Qed.

(** *** Files are sources and sinks *)
Lemma kfileblock_clearerr_ok fb : fb_ok fb ->
  fb_ok (kfileblock_clearerr fb) /\ content (kfileblock_clearerr fb) = content fb.
Proof.
  intros [Hs Hp Hbs Ht]. destruct (sure_clearerr (blk fb) Hs) as (Hs' & Ev & [_ _ _ Sz _]).
  split; [|exact Ev]. split; [exact Hs'|exact Hp|cbn; lia|]. unfold content. cbn. by rewrite Ev.
Qed.

#[export] Program Instance kfileblock_source : KSource (KFileBlock D) := {
  ks_ok fb := fb_ok fb /\ bytes (content fb);
  ks_in fb := drop (Z.to_nat (at_pos fb)) (content fb)
}.
Next Obligation. intros fb [_ Hb]. by apply Forall_drop. Qed.
Next Obligation.
  intros fb n [Hf Hb] Hn. pose proof (f_pos fb Hf).
  destruct (read_loop_spec (Z.to_nat n) fb n Hf ltac:(lia) ltac:(lia)) as (fb' & E & (Hf' & _) & Ec & Ep).
  change (kfile_read fb n) with (read_loop (Z.to_nat n) fb n). rewrite E, Ec. split_and!; [done| |done|done].
  rewrite Ep, drop_drop. unfold bytes_at. rewrite length_take, length_drop.
  destruct (decide (at_pos fb + n <= Z.of_nat (length (content fb)))); [f_equal; lia|].
  rewrite !drop_ge by lia. done.
Qed.
Next Obligation.
  intros fb [Hf Hb]. destruct (kfileblock_clearerr_ok fb Hf) as [Hf' Ec]. cbn. by rewrite Ec.
Qed.

#[export] Program Instance kfileblock_sink : KSink (KFileBlock D) := {
  kk_ok := fb_ok;
  kk_out fb := take (Z.to_nat (at_pos fb)) (content fb);
  kk_fits fb l := at_pos fb + Z.of_nat (length l) <= Z.of_nat (length (content fb))
}.
Next Obligation. intros fb l1 l2. cbv beta. rewrite length_app. lia. Qed.
Next Obligation.
  intros fb l Hf _ Hl _. pose proof (f_pos fb Hf).
  destruct (write_loop_spec (length l) fb l Hf ltac:(lia)) as (fb' & E & (Hf' & _) & Ec & Ep).
  change (kfile_write fb l) with (write_loop (length l) fb l). unfold room in *.
  rewrite Z.min_l, Nat2Z.id, take_ge in * by lia. rewrite E, Ec, Ep. split_and!; [done| |done|].
  - unfold copy_at. rewrite app_assoc, take_app_le by (rewrite length_app, length_take; lia).
    apply take_ge. rewrite length_app, length_take. lia.
  - intros l2. cbv beta. rewrite length_app, ?length_copy_at by lia. lia.
Qed.
End Programs.

(** A file of two blocks of three bytes: reads and writes across them. *)
Lemma kfileblock_refines_witness :
  let fb := kfileblock_init (kblockram_init [9; 9; 9; 1; 2; 3; 4; 5; 6] 9 3 true false) in
  let ops := [FSeek 2 KSM_SEEK_SET; FWrite [30; 40]; FRead 9; FSeek (-2) KSM_SEEK_END; FWrite [50; 60; 70]; FSeek 0 KSM_SEEK_SET; FRead 6] in
  fst (f_run fb ops) = [Code 2; Count 2; Data [5; 6]; Code 4; Count 2; Code 0; Data [1; 2; 30; 40; 50; 60]] /\
  content (snd (f_run fb ops)) = [1; 2; 30; 40; 50; 60].
Proof.
  intros fb ops. destruct (kblockram_init_ok [9; 9; 9; 1; 2; 3; 4; 5; 6] 3 true false
    ltac:(lia) ltac:(cbn; lia) ltac:(cbn; lia)) as (Hb & _).
  assert (Hf : fb_ok fb) by (split; [split; [exact Hb|reflexivity]|split; vm_compute; congruence|reflexivity|reflexivity]).
  pose proof (kfileblock_refines fb ops Hf ltac:(vm_compute; reflexivity)) as W. subst fb ops.
  destruct (f_run _ _) as [rs fb']. vm_compute in W. injection W as E1 E2 _. cbn [fst snd]. by split.
Defined.
