(* ===== verification/BattFs.v ===== *)
(** * BattFS: [bertos/fs/battfs.[ch]]

    A file system for flash memories, on a block device (KBlock.v).  Every page
    ends with a header that says whose it is; a page that is written again goes
    to another block, with a higher sequence number.  In memory there is the
    page array: the pages of all files in order, then the free ones.

    The C pointer [start] into the page array is an index here; [fcs] of a header
    that is only written is left out, as [writeHdr] sets it.  The functions on an
    open file take it out of the list of the disk and put it back
    ([on_file]); the list is in the order of the code. *)

From Stdlib Require Import ZArith Lia Bool List.
From stdpp Require Import prelude.
From S2P Require Import Prelude KFile KBlock.

Open Scope Z_scope.

Definition BATTFS_HEADER_LEN : Z := 12.
Definition BATTFS_MAX_FILES : Z := 256.
Definition PAGE_UNSET_SENTINEL : Z := 65535.
Definition NO_SPACE : Z := PAGE_UNSET_SENTINEL.

Definition BATTFS_CREATE : Z := BV 0.
Definition BATTFS_NEGATIVE_SEEK_ERR : Z := BV 0.
Definition BATTFS_DISK_READ_ERR : Z := BV 1.
Definition BATTFS_DISK_WRITE_ERR : Z := BV 2.
Definition BATTFS_DISK_SPACEOVER_ERR : Z := BV 3.
Definition BATTFS_DISK_FLUSHBUF_ERR : Z := BV 4.
Definition BATTFS_FILE_NOT_FOUND_ERR : Z := BV 5.

(** ** Headers *)

Record BattFsPageHeader := mkHdr { inode : Z; fill : Z; pgoff : Z; seq : Z; fcs : Z }.

Definition u64 (z : Z) : Z := z mod 18446744073709551616.

Definition rotating_init : Z := 0.
Definition rotating_update1 (c rot : Z) : Z :=
  u16 (Z.lxor (Z.lxor (u16 (Z.shiftl rot 4)) (Z.shiftr rot 12)) c).
Definition rotating_update (buf : list Z) (rot : Z) : Z := fold_left (fun rot c => rotating_update1 c rot) buf rot.

(** All but the last two bytes, which are the checksum. *)
Definition hdr_bytes (hdr : BattFsPageHeader) : list Z :=
  [u8 (inode hdr); u8 (fill hdr); u8 (Z.shiftr (fill hdr) 8); u8 (pgoff hdr); u8 (Z.shiftr (pgoff hdr) 8);
   u8 (seq hdr); u8 (Z.shiftr (seq hdr) 8); u8 (Z.shiftr (seq hdr) 16); u8 (Z.shiftr (seq hdr) 24);
   u8 (Z.shiftr (seq hdr) 32)].

Definition battfs_to_disk (hdr : BattFsPageHeader) : list Z :=
  hdr_bytes hdr ++ [u8 (fcs hdr); u8 (Z.shiftr (fcs hdr) 8)].

(** The bytes are promoted to [int] before they are shifted; of the sequence
    number all are cast to 64 bits first, but one. *)
Definition disk_to_battfs (buf : list Z) : BattFsPageHeader :=
  mkHdr (u8 (get buf 0))
    (u16 (Z.lor (i16 (Z.shiftl (get buf 2) 8)) (get buf 1)))
    (u16 (Z.lor (i16 (Z.shiftl (get buf 4) 8)) (get buf 3)))
    (u64 (Z.lor (Z.lor (Z.lor (Z.lor (Z.shiftl (get buf 9) 32) (Z.shiftl (get buf 8) 24))
      (Z.shiftl (get buf 7) 16)) (i16 (Z.shiftl (get buf 6) 8))) (get buf 5)))
    (u16 (Z.lor (i16 (Z.shiftl (get buf 11) 8)) (get buf 10))).

Definition computeFcs (hdr : BattFsPageHeader) : Z := rotating_update (hdr_bytes hdr) rotating_init.

(** ** The disk and its files *)

Record BattFs := mkFile {
  self : Z;
  fd : KFilePos;
  f_inode : Z;
  f_mode : Z;
  start : Z;
  max_off : Z;
  errors : Z
}.

Record BattFsSuper (D : Type) := mkDisk {
  bdev : KBlock D;
  data_size : Z;
  page_array : list Z;
  free_page_start : Z;
  disk_size : Z;
  free_bytes : Z;
  file_opened_list : list BattFs
}.
Arguments mkDisk {D}.
Arguments bdev {D}.
Arguments data_size {D}.
Arguments page_array {D}.
Arguments free_page_start {D}.
Arguments disk_size {D}.
Arguments free_bytes {D}.
Arguments file_opened_list {D}.

Section Setters.
Context {D : Type}.
Implicit Types K : BattFsSuper D.
Definition set_bdev (b : KBlock D) K := mkDisk b (data_size K) (page_array K) (free_page_start K) (disk_size K) (free_bytes K) (file_opened_list K).
Definition set_pages p K := mkDisk (bdev K) (data_size K) p (free_page_start K) (disk_size K) (free_bytes K) (file_opened_list K).
Definition set_free_start n K := mkDisk (bdev K) (data_size K) (page_array K) n (disk_size K) (free_bytes K) (file_opened_list K).
Definition set_free_bytes n K := mkDisk (bdev K) (data_size K) (page_array K) (free_page_start K) (disk_size K) n (file_opened_list K).
Definition set_files l K := mkDisk (bdev K) (data_size K) (page_array K) (free_page_start K) (disk_size K) (free_bytes K) l.
Definition set_fd p f := mkFile (self f) p (f_inode f) (f_mode f) (start f) (max_off f) (errors f).
Definition set_start n f := mkFile (self f) (fd f) (f_inode f) (f_mode f) n (max_off f) (errors f).
Definition set_max_off n f := mkFile (self f) (fd f) (f_inode f) (f_mode f) (start f) n (errors f).
Definition set_errors e f := mkFile (self f) (fd f) (f_inode f) (f_mode f) (start f) (max_off f) e.
End Setters.

Definition add_error (e : Z) (f : BattFs) : BattFs := set_errors (Z.lor (errors f) e) f.
Definition set_size (n : Z) (f : BattFs) : BattFs := set_fd (mkPos (seek_pos (fd f)) n) f.
Definition set_seek (n : Z) (f : BattFs) : BattFs := set_fd (mkPos n (file_size (fd f))) f.

Section Code.
Context {D : Type} `{KBlockVTable D}.
Implicit Types K : BattFsSuper D.

Definition SPACE_OVER K : bool := free_page_start K >=? blk_cnt (bdev K).

Definition readHdr K (page : Z) : option BattFsPageHeader * BattFsSuper D :=
  let '(buf, b) := kblock_read (bdev K) page (data_size K) BATTFS_HEADER_LEN in
  let K := set_bdev b K in
  if Z.of_nat (length buf) =? BATTFS_HEADER_LEN then (Some (disk_to_battfs buf), K) else (None, K).

Definition writeHdr K (page : Z) (hdr : BattFsPageHeader) : bool * BattFsSuper D :=
  let hdr := mkHdr (inode hdr) (fill hdr) (pgoff hdr) (seq hdr) (computeFcs hdr) in
  let '(n, b) := kblock_write (bdev K) page (battfs_to_disk hdr) (data_size K) in
  (n =? BATTFS_HEADER_LEN, set_bdev b K).

Definition valid (hdr : BattFsPageHeader) : bool := fcs hdr =? computeFcs hdr.

(** *** Mounting *)

Definition countPages (filelen_table : list Z) (inode : Z) : Z :=
  fold_left (fun cnt i => u16 (cnt + get filelen_table i)) (seqZ 0 inode) 0.

(** The byte counts are of 16 bits. *)
Definition memmove (a : list Z) (dst src n : Z) : list Z :=
  copy_at a dst (bytes_at a src (u16 (n * 2) / 2)).

Definition movePages K (src offset : Z) : BattFsSuper D :=
  let dst := u16 (src + offset) in
  let cnt := blk_cnt (bdev K) in
  let pages := memmove (page_array K) dst src (cnt - Z.max dst src) in
  let from := u16 (cnt + offset) in
  set_pages (if offset <? 0
    then fold_left (fun a page => upd a page PAGE_UNSET_SENTINEL) (seqZ from (cnt - from)) pages
    else pages) K.

Fixpoint countDiskFilePages_loop (pages : list Z) K (filelen_table : list Z) : bool * BattFsSuper D * list Z :=
  match pages with
  | [] => (true, K, filelen_table)
  | page :: pages =>
      match readHdr K page with
      | (None, K) => (false, K, filelen_table)
      | (Some hdr, K) =>
          let K := set_free_bytes (u32 (free_bytes K + data_size K)) K in
          if valid hdr then
            let K := set_free_bytes (u32 (free_bytes K - fill hdr)) K in
            let K := set_free_start (u16 (free_page_start K + 1)) K in
            countDiskFilePages_loop pages K
              (upd filelen_table (inode hdr) (u16 (get filelen_table (inode hdr) + 1)))
          else countDiskFilePages_loop pages K filelen_table
      end
  end.

Definition countDiskFilePages K (filelen_table : list Z) : bool * BattFsSuper D * list Z :=
  countDiskFilePages_loop (seqZ 0 (blk_cnt (bdev K))) (set_free_start 0 K) filelen_table.

(** A page in the place where another of the same offset already is: the newer
    one stays, the file is one shorter. *)
Definition duplicate K (filelen_table : list Z) (curr_free_page array_pos page : Z) (hdr hdr_prv : BattFsPageHeader)
  : BattFsSuper D * list Z * Z :=
  let '(old_page, new_page, old_fill) :=
    if seq hdr >? seq hdr_prv then (get (page_array K) array_pos, page, fill hdr_prv)
    else (page, get (page_array K) array_pos, fill hdr) in
  let K := set_pages (upd (page_array K) array_pos new_page) K in
  let K := set_free_bytes (u32 (free_bytes K + old_fill)) K in
  let array_pos := u16 (array_pos - pgoff hdr + get filelen_table (inode hdr)) in
  let K := movePages K array_pos (-1) in
  let filelen_table := upd filelen_table (inode hdr) (u16 (get filelen_table (inode hdr) - 1)) in
  let K := set_free_start (u16 (free_page_start K - 1)) K in
  let curr_free_page := u16 (curr_free_page - 1) in
  (set_pages (upd (page_array K) curr_free_page old_page) K, filelen_table, u16 (curr_free_page + 1)).

Fixpoint fillPageArray_loop (pages : list Z) K (filelen_table : list Z) (curr_free_page : Z) : bool * BattFsSuper D :=
  match pages with
  | [] => (true, K)
  | page :: pages =>
      match readHdr K page with
      | (None, K) => (false, K)
      | (Some hdr, K) =>
          if valid hdr then
            let array_pos := u16 (countPages filelen_table (inode hdr) + pgoff hdr) in
            if get (page_array K) array_pos =? PAGE_UNSET_SENTINEL then
              fillPageArray_loop pages (set_pages (upd (page_array K) array_pos page) K) filelen_table curr_free_page
            else
              match readHdr K (get (page_array K) array_pos) with
              | (None, K) => (false, K)
              | (Some hdr_prv, K) =>
                  let '(K, filelen_table, curr_free_page) :=
                    duplicate K filelen_table curr_free_page array_pos page hdr hdr_prv in
                  fillPageArray_loop pages K filelen_table curr_free_page
              end
          else
            fillPageArray_loop pages (set_pages (upd (page_array K) curr_free_page page) K) filelen_table
              (u16 (curr_free_page + 1))
      end
  end.

Definition fillPageArray K (filelen_table : list Z) : bool * BattFsSuper D :=
  fillPageArray_loop (seqZ 0 (blk_cnt (bdev K))) K filelen_table (free_page_start K).

(** [K]: what the structure held before. *)
Definition battfs_mount K (dev : KBlock D) (page_array : list Z) : bool * BattFsSuper D :=
  let data_size := u16 (blk_size dev - BATTFS_HEADER_LEN) in
  let K := mkDisk dev data_size page_array (free_page_start K) (u32 (data_size * blk_cnt dev)) 0 (file_opened_list K) in
  let '(ok, K, filelen_table) := countDiskFilePages K (zeros (Z.to_nat BATTFS_MAX_FILES)) in
  if negb ok then (false, K)
  else
    let K := set_pages (fold_left (fun a page => upd a page PAGE_UNSET_SENTINEL)
      (seqZ 0 (blk_cnt (bdev K))) (BattFs.page_array K)) K in
    let '(ok, K) := fillPageArray K filelen_table in
    if negb ok then (false, K) else (true, set_files [] K).

(** *** Checking *)

(** [prev]: the header before, with [None] at the start. *)
Fixpoint fsck_loop (pages : list Z) K (page : Z) (prev : option BattFsPageHeader) (page_used bytes : Z)
  : bool * BattFsSuper D :=
  match pages with
  | [] => ((page_used =? free_page_start K) && (bytes =? free_bytes K), K)
  | p :: pages =>
      match readHdr K p with
      | (None, K) => (false, K)
      | (Some hdr, K) =>
          let bytes := u32 (bytes + data_size K) in
          if page <? free_page_start K then
            let ok := match prev with
              | Some prev_hdr =>
                  if negb (inode hdr =? inode prev_hdr) then (inode hdr >? inode prev_hdr) && (pgoff hdr =? 0)
                  else negb (fill hdr =? 0) && (fill prev_hdr =? data_size K) && (pgoff hdr =? u16 (pgoff prev_hdr + 1))
              | None => pgoff hdr =? 0
              end in
            if valid hdr && ok
            then fsck_loop pages K (page + 1) (Some hdr) (page_used + 1) (u32 (bytes - fill hdr))
            else (false, K)
          else fsck_loop pages K (page + 1) prev page_used bytes
      end
  end.

Definition battfs_fsck K : bool * BattFsSuper D :=
  if (free_page_start K <=? blk_cnt (bdev K)) && (data_size K <? blk_size (bdev K)) && (free_bytes K <=? disk_size K) then
    match readHdr K 0 with
    | (None, K) => (false, K)
    | (Some _, K) => fsck_loop (bytes_at (page_array K) 0 (blk_cnt (bdev K))) K 0 None 0 0
    end
  else (false, K).

(** *** Pages *)

(** The page taken, at its place; the files behind it move on. *)
Definition allocateNewPage K (new_pos inode : Z) : Z * BattFsSuper D :=
  if SPACE_OVER K then (NO_SPACE, K)
  else
    let new_page := get (page_array K) (free_page_start K) in
    let K := set_free_start (u16 (free_page_start K + 1)) K in
    let pages := memmove (page_array K) (new_pos + 1) new_pos (free_page_start K - new_pos - 1) in
    let files := map (fun f => if f_inode f >? inode then set_start (start f + 1) f else f) (file_opened_list K) in
    (new_page, set_files files (set_pages (upd pages new_pos new_page) K)).

(** Another page for the content of [old_pos], which becomes the last free one. *)
Definition renewPage K (old_pos : Z) : Z * BattFsSuper D :=
  if SPACE_OVER K then (NO_SPACE, K)
  else
    let new_page := get (page_array K) (free_page_start K) in
    let K := movePages K (free_page_start K + 1) (-1) in
    (new_page, set_pages (upd (page_array K) (blk_cnt (bdev K) - 1) old_pos) K).

(** *** Writing *)

Definition buffered_elsewhere K (page : Z) : bool :=
  kblock_buffered (bdev K) &&
  (negb (page =? kblock_cachedBlock (bdev K)) || negb (kblock_cacheDirty (bdev K))).

Definition page_of K (f : BattFs) (off : Z) : Z := get (page_array K) (start f + off).

Definition set_page K (f : BattFs) (off page : Z) : BattFsSuper D :=
  set_pages (upd (page_array K) (start f + off) page) K.

(** One zero after the other at the end of a page that is not full. *)
Fixpoint zero_fill (zero_bytes : nat) K (f : BattFs) (curr_hdr : BattFsPageHeader) (new_page : Z)
  : bool * BattFsSuper D * BattFs * BattFsPageHeader :=
  match zero_bytes with
  | O => (true, K, f, curr_hdr)
  | S zero_bytes =>
      let '(n, b) := kblock_write (bdev K) new_page [0] (fill curr_hdr) in
      let K := set_bdev b K in
      if negb (n =? 1) then (false, K, add_error BATTFS_DISK_WRITE_ERR f, curr_hdr)
      else
        zero_fill zero_bytes (set_free_bytes (u32 (free_bytes K - 1)) K) (set_size (i32 (file_size (fd f) + 1)) f)
          (mkHdr (inode curr_hdr) (u16 (fill curr_hdr + 1)) (pgoff curr_hdr) (seq curr_hdr) (fcs curr_hdr)) new_page
  end.

(** A page of zeros. *)
Fixpoint zero_page (count : nat) K (new_page off : Z) : bool * BattFsSuper D :=
  match count with
  | O => (true, K)
  | S count =>
      let '(n, b) := kblock_write (bdev K) new_page [0] off in
      let K := set_bdev b K in
      if negb (n =? 1) then (false, K) else zero_page count K new_page (off + 1)
  end.

Fixpoint missing_pages (n : nat) K (f : BattFs) : bool * BattFsSuper D * BattFs :=
  match n with
  | O => (true, K, f)
  | S n =>
      let zero_bytes := u16 (Z.min (data_size K) (seek_pos (fd f) - file_size (fd f))) in
      let '(new_page, K) := allocateNewPage K (u16 (start f + max_off f + 1)) (f_inode f) in
      if new_page =? NO_SPACE then (false, K, add_error BATTFS_DISK_SPACEOVER_ERR f)
      else
        let '(ok, K) := zero_page (Z.to_nat (data_size K)) K new_page 0 in
        if negb ok then (false, K, add_error BATTFS_DISK_WRITE_ERR f)
        else
          let f := set_max_off (u16 (max_off f + 1)) f in
          let '(ok, K) := writeHdr K new_page (mkHdr (f_inode f) zero_bytes (max_off f) 0 0) in
          if negb ok then (false, K, add_error BATTFS_DISK_WRITE_ERR f)
          else
            missing_pages n (set_free_bytes (u32 (free_bytes K - zero_bytes)) K)
              (set_size (i32 (file_size (fd f) + zero_bytes)) f)
  end.

Definition next_seq (hdr : BattFsPageHeader) : BattFsPageHeader :=
  mkHdr (inode hdr) (fill hdr) (pgoff hdr) (u64 (seq hdr + 1)) (fcs hdr).

(** The position is behind the end of the file: the gap is filled with zeros.
    The result of [kblock_copy] is not looked at. *)
Definition fill_gap K (f : BattFs) : bool * BattFsSuper D * BattFs :=
  match readHdr K (page_of K f (max_off f)) with
  | (None, K) => (false, K, add_error BATTFS_DISK_READ_ERR f)
  | (Some curr_hdr, K) =>
      let old_page := page_of K f (max_off f) in
      let '(new_page, K) :=
        if buffered_elsewhere K old_page then
          let '(new_page, K) := renewPage K old_page in
          if new_page =? NO_SPACE then (NO_SPACE, K)
          else
            let '(_, b) := kblock_copy (bdev K) (page_of K f (max_off f)) new_page in
            (new_page, set_page (set_bdev b K) f (max_off f) new_page)
        else (old_page, K) in
      if new_page =? NO_SPACE then (false, K, add_error BATTFS_DISK_SPACEOVER_ERR f)
      else
        let zero_bytes := u16 (Z.min (seek_pos (fd f) - file_size (fd f)) (u16 (data_size K - fill curr_hdr))) in
        let '(ok, K, f, curr_hdr) := zero_fill (Z.to_nat zero_bytes) K f curr_hdr new_page in
        if negb ok then (false, K, f)
        else
          let '(ok, K) := writeHdr K new_page (next_seq curr_hdr) in
          if negb ok then (false, K, add_error BATTFS_DISK_WRITE_ERR f)
          else missing_pages (Z.to_nat (u16 (Z.quot (seek_pos (fd f)) (data_size K) - max_off f))) K f
  end.

(** The page to write to, and its header: a new one, or another for the one
    there is.  The test whether it is in the buffer is about the last page of
    the file. *)
Definition write_target K (f : BattFs) (pg_offset : Z)
  : option (Z * BattFsPageHeader) * BattFsSuper D * BattFs :=
  if pg_offset >? max_off f then
    let '(new_page, K) := allocateNewPage K (u16 (start f + pg_offset)) (f_inode f) in
    if new_page =? NO_SPACE then (None, K, add_error BATTFS_DISK_SPACEOVER_ERR f)
    else (Some (new_page, mkHdr (f_inode f) 0 pg_offset 0 0), K, set_max_off pg_offset f)
  else
    match readHdr K (page_of K f pg_offset) with
    | (None, K) => (None, K, add_error BATTFS_DISK_READ_ERR f)
    | (Some curr_hdr, K) =>
        if buffered_elsewhere K (page_of K f (max_off f)) then
          let '(new_page, K) := renewPage K (page_of K f pg_offset) in
          if new_page =? NO_SPACE then (None, K, add_error BATTFS_DISK_SPACEOVER_ERR f)
          else
            let '(r, b) := kblock_copy (bdev K) (page_of K f pg_offset) new_page in
            let K := set_bdev b K in
            if negb (r =? 0) then (None, K, add_error BATTFS_DISK_WRITE_ERR f)
            else (Some (new_page, next_seq curr_hdr), set_page K f pg_offset new_page, f)
        else (Some (page_of K f pg_offset, next_seq curr_hdr), K, f)
    end.

(** A turn writes to one page, at least a byte: [fuel] is the length of the text. *)
Fixpoint write_loop (fuel : nat) K (f : BattFs) (buf : list Z) : Z * BattFsSuper D * BattFs :=
  match fuel with
  | O => (0, K, f)
  | S fuel =>
      let size := Z.of_nat (length buf) in
      if size =? 0 then (0, K, f)
      else
        let pg_offset := u16 (Z.quot (seek_pos (fd f)) (data_size K)) in
        let addr_offset := u16 (Z.rem (seek_pos (fd f)) (data_size K)) in
        let wr_len := Z.min size (u16 (data_size K - addr_offset)) in
        match write_target K f pg_offset with
        | (None, K, f) => (0, K, f)
        | (Some (new_page, curr_hdr), K, f) =>
            let '(n, b) := kblock_write (bdev K) new_page (take (Z.to_nat wr_len) buf) addr_offset in
            let K := set_bdev b K in
            if negb (n =? wr_len) then (0, K, add_error BATTFS_DISK_WRITE_ERR f)
            else
              let f := set_seek (i32 (seek_pos (fd f) + wr_len)) f in
              let fill_delta := u16 (Z.max (addr_offset + wr_len - fill curr_hdr) 0) in
              let K := set_free_bytes (u32 (free_bytes K - fill_delta)) K in
              let f := set_size (i32 (file_size (fd f) + fill_delta)) f in
              let '(ok, K) := writeHdr K new_page
                (mkHdr (inode curr_hdr) (u16 (fill curr_hdr + fill_delta)) (pgoff curr_hdr) (seq curr_hdr) (fcs curr_hdr)) in
              if negb ok then (wr_len, K, add_error BATTFS_DISK_WRITE_ERR f)
              else
                let '(n, K, f) := write_loop fuel K f (drop (Z.to_nat wr_len) buf) in (wr_len + n, K, f)
        end
  end.

Definition battfs_write K (f : BattFs) (buf : list Z) : Z * BattFsSuper D * BattFs :=
  if seek_pos (fd f) <? 0 then (0, K, add_error BATTFS_NEGATIVE_SEEK_ERR f)
  else
    let '(ok, K, f) := if seek_pos (fd f) >? file_size (fd f) then fill_gap K f else (true, K, f) in
    if negb ok then (0, K, f) else write_loop (length buf) K f buf.

(** *** Reading *)

Fixpoint read_loop (fuel : nat) K (f : BattFs) (size : Z) : list Z * BattFsSuper D * BattFs :=
  match fuel with
  | O => ([], K, f)
  | S fuel =>
      if size =? 0 then ([], K, f)
      else
        let pg_offset := u16 (Z.quot (seek_pos (fd f)) (data_size K)) in
        let addr_offset := u16 (Z.rem (seek_pos (fd f)) (data_size K)) in
        let read_len := Z.min size (u16 (data_size K - addr_offset)) in
        let '(buf, b) := kblock_read (bdev K) (page_of K f pg_offset) addr_offset read_len in
        let K := set_bdev b K in
        if negb (Z.of_nat (length buf) =? read_len) then ([], K, add_error BATTFS_DISK_READ_ERR f)
        else
          let f := set_seek (i32 (seek_pos (fd f) + read_len)) f in
          let '(l, K, f) := read_loop fuel K f (size - read_len) in (buf ++ l, K, f)
  end.

Definition battfs_read K (f : BattFs) (size : Z) : list Z * BattFsSuper D * BattFs :=
  if seek_pos (fd f) <? 0 then ([], K, add_error BATTFS_NEGATIVE_SEEK_ERR f)
  else
    let size := u16 (Z.min size (Z.max (file_size (fd f) - seek_pos (fd f)) 0)) in
    read_loop (Z.to_nat size) K f size.

Definition battfs_error (f : BattFs) : Z := errors f.
Definition battfs_clearerr (f : BattFs) : BattFs := set_errors 0 f.

Definition battfs_flush K (f : BattFs) : Z * BattFsSuper D * BattFs :=
  let '(r, b) := kblock_flush (bdev K) in
  let K := set_bdev b K in
  if r =? 0 then (0, K, f) else (EOF, K, add_error BATTFS_DISK_FLUSHBUF_ERR f).

(** The seek of the base class. *)
Definition battfs_seek (f : BattFs) (offset : Z) (whence : KSeekMode) : Z * BattFs :=
  let '(r, p) := kfile_genericSeek (fd f) offset whence in (r, set_fd p f).

(** *** Opening and closing *)

(** A binary search over the pages in use: half of what is left, so that 16
    turns are enough as long as there are less than 32768 pages.  With more the
    sum of the bounds wraps around, and the loop of the code may not end. *)
Fixpoint findFile_loop (fuel : nat) K (inode' first last : Z) : bool * Z * BattFsSuper D :=
  match fuel with
  | O => (false, last, K)
  | S fuel =>
      if first <? last then
        let page := u16 (first + last) / 2 in
        match readHdr K (get (page_array K) page) with
        | (None, K) => (false, last, K)
        | (Some hdr, K) =>
            if valid hdr && (inode hdr =? inode') then (true, u16 (page - pgoff hdr), K)
            else if valid hdr && (inode hdr <? inode') then findFile_loop fuel K inode' (page + 1) last
            else findFile_loop fuel K inode' first page
        end
      else (false, last, K)
  end.

Definition findFile K (inode : Z) : bool * Z * BattFsSuper D := findFile_loop 17 K inode 0 (free_page_start K).

Definition battfs_fileExists K (inode : Z) : bool * BattFsSuper D :=
  let '(found, _, K) := findFile K inode in (found, K).

Fixpoint countFileSize_loop (pages : list Z) K (inode' size : Z) : Z * BattFsSuper D :=
  match pages with
  | [] => (size, K)
  | page :: pages =>
      match readHdr K page with
      | (None, K) => (EOF, K)
      | (Some hdr, K) =>
          if valid hdr && (inode hdr =? inode') then countFileSize_loop pages K inode' (i32 (size + fill hdr))
          else (size, K)
      end
  end.

Definition countFileSize K (start inode : Z) : Z * BattFsSuper D :=
  countFileSize_loop (bytes_at (page_array K) start (free_page_start K - start)) K inode 0.

(** In the list of open files, which is in the order of the inodes. *)
Fixpoint insert_file (f : BattFs) (l : list BattFs) : list BattFs :=
  match l with
  | [] => [f]
  | g :: l' => if f_inode g >=? f_inode f then f :: l else g :: insert_file f l'
  end.

Definition battfs_fileopen K (fd : Z) (inode mode : Z) : bool * BattFsSuper D * BattFs :=
  let f := mkFile fd (mkPos 0 0) 0 0 0 0 0 in
  let '(found, start_pos, K) := findFile K inode in
  let '(ok, K, f) :=
    if found then (true, K, f)
    else if Z.land mode BATTFS_CREATE =? 0 then (false, K, add_error BATTFS_FILE_NOT_FOUND_ERR f)
    else
      let '(new_page, K) := allocateNewPage K start_pos inode in
      if new_page =? NO_SPACE then (false, K, add_error BATTFS_DISK_SPACEOVER_ERR f)
      else
        let '(ok, K) := writeHdr K (get (page_array K) start_pos) (mkHdr inode 0 0 0 0) in
        if negb ok then (false, K, add_error BATTFS_DISK_WRITE_ERR f) else (true, K, f) in
  if negb ok then (false, K, f)
  else
    let '(size, K) := countFileSize K start_pos inode in
    let f := set_start start_pos (set_size size f) in
    if size =? EOF then (false, K, add_error BATTFS_DISK_READ_ERR f)
    else
      let f := mkFile fd (mkPos 0 size) inode mode start_pos (u16 (Z.quot size (data_size K))) (errors f) in
      (true, set_files (insert_file f (file_opened_list K)) K, f).

(** An open file of the list, and the list with it replaced. *)
Definition get_file (fd : Z) K : option BattFs := List.find (fun f => self f =? fd) (file_opened_list K).
Definition put_file (f : BattFs) K : BattFsSuper D :=
  set_files (map (fun g => if self g =? self f then f else g) (file_opened_list K)) K.

Definition battfs_fileclose K (f : BattFs) : Z * BattFsSuper D * BattFs :=
  let '(r, K, f) := battfs_flush K f in
  if r =? 0 then (0, set_files (List.filter (fun g => negb (self g =? self f)) (file_opened_list K)) K, f)
  else (EOF, put_file f K, f).

Fixpoint close_all (files : list BattFs) K (res : Z) : Z * BattFsSuper D :=
  match files with
  | [] => (res, K)
  | f :: files => let '(r, K, _) := battfs_fileclose K f in close_all files K (res + r)
  end.

Definition battfs_umount K : bool * BattFsSuper D :=
  let '(res, K) := close_all (file_opened_list K) K 0 in
  let '(r, b) := kblock_flush (bdev K) in
  let K := set_bdev b K in
  if negb (r =? 0) then (false, K)
  else
    let '(r, b) := kblock_close (bdev K) in
    ((r =? 0) && (res =? 0), set_bdev b K).

(** A call on an open file, by its address. *)
Definition on_file {R} (op : BattFsSuper D -> BattFs -> R * BattFsSuper D * BattFs) (fail : R) (fd : Z) K
  : R * BattFsSuper D :=
  match get_file fd K with
  | None => (fail, K)
  | Some f => let '(r, K, f) := op K f in (r, put_file f K)
  end.
End Code.
