(* ===== verification/BattFsPages.v ===== *)
(** * BattFS, the pages on the disk

    What the headers say, whose the pages are, and that the newest page of
    every place of every file is the one in use. *)

From Stdlib Require Import ZArith Lia Bool List Permutation.
From stdpp Require Import prelude.
From S2P Require Import Prelude KFile KBlock KBlockSure BattFs.

Open Scope Z_scope.

(** ** Headers on the disk *)

Lemma u16_lor a b : u16 (Z.lor a b) = Z.lor (u16 a) (u16 b).
Proof.
  unfold u16. change 65536 with (2 ^ 16). rewrite <- !Z.land_ones by lia. apply Z.land_lor_distr_l.
Qed.

Lemma u16_i16 a : u16 (i16 a) = u16 a.
Proof. unfold u16, i16. zlia. Qed.

(** Two bytes through [int]. *)
Lemma int_join z : is_u16 z -> u16 (Z.lor (i16 (Z.shiftl (u8 (Z.shiftr z 8)) 8)) (u8 z)) = z.
Proof.
  intros Hz. rewrite u16_lor, u16_i16, <- u16_lor, Z.lor_comm, le16_join by done. by apply u16_small.
Qed.

(** Headers with a sequence number that an [int] can hold. *)
Record hdr_ok (h : BattFsPageHeader) : Prop := {
  h_inode : is_byte (inode h);
  h_fill : is_u16 (fill h);
  h_pgoff : is_u16 (pgoff h);
  h_seq : 0 <= seq h < 32768;
  h_fcs : is_u16 (fcs h)
}.

Lemma shiftr_0 z n : 15 <= n -> 0 <= z < 32768 -> Z.shiftr z n = 0.
Proof.
  intros Hn Hz. rewrite Z.shiftr_div_pow2 by lia. apply Z.div_small.
  pose proof (Z.pow_le_mono_r 2 15 n ltac:(lia) ltac:(lia)). change (2 ^ 15) with 32768 in *. lia.
Qed.

Lemma disk_roundtrip h : hdr_ok h -> disk_to_battfs (battfs_to_disk h) = h.
Proof.
  intros [Hi Hf Hp Hs Hc]. destruct h as [i f p s c]. unfold battfs_to_disk, hdr_bytes, disk_to_battfs.
  cbn [inode fill pgoff seq fcs app] in *.
  repeat match goal with |- context [get (?x :: ?l) ?n] =>
    let v := eval cbv [get Z.to_nat nth Pos.to_nat Pos.iter_op Nat.add] in (get (x :: l) n) in
    change (get (x :: l) n) with v
  end.
  rewrite !int_join by done. f_equal; [by rewrite !u8_small by (by rewrite ?u8_small)|].
  rewrite (shiftr_0 s 32), (shiftr_0 s 24), (shiftr_0 s 16) by lia. change (u8 0) with 0. rewrite !Z.shiftl_0_l, !Z.lor_0_l.
  assert (Hb : 0 <= Z.shiftr s 8 < 128) by (rewrite Z.shiftr_div_pow2 by lia; change (2 ^ 8) with 256; zlia).
  rewrite i16_small by (rewrite u8_small by lia; rewrite Z.shiftl_mul_pow2 by lia; change (2 ^ 8) with 256; lia).
  rewrite Z.lor_comm, le16_join by (unfold is_u16; lia). apply Z.mod_small. lia.
Qed.

Lemma rotating_u16 l r : is_u16 r -> is_u16 (rotating_update l r).
Proof.
  revert r. induction l as [|c l IH]; intros r Hr; [done|]. cbn. apply IH. apply u16_range.
Qed.

Lemma computeFcs_u16 h : is_u16 (computeFcs h).
Proof. unfold computeFcs. apply rotating_u16. unfold is_u16, rotating_init. lia. Qed.

Definition sealed (h : BattFsPageHeader) : BattFsPageHeader :=
  mkHdr (inode h) (fill h) (pgoff h) (seq h) (computeFcs h).

Lemma valid_sealed h : valid (sealed h) = true.
Proof.
  unfold valid, computeFcs. change (hdr_bytes (sealed h)) with (hdr_bytes h). apply Z.eqb_eq. done.
Qed.

Lemma length_disk h : length (battfs_to_disk h) = 12%nat.
Proof. done. Qed.

(** The header of a page, when it is a good one. *)
Definition hdr_at (ds : Z) (P : list Z) : option BattFsPageHeader :=
  let h := disk_to_battfs (bytes_at P ds BATTFS_HEADER_LEN) in if valid h then Some h else None.

Lemma hdr_at_written ds P h : 0 <= ds -> Z.of_nat (length P) = ds + BATTFS_HEADER_LEN ->
  hdr_ok (sealed h) -> hdr_at ds (copy_at P ds (battfs_to_disk (sealed h))) = Some (sealed h).
Proof.
  intros Hd HP Hh. unfold hdr_at.
  pose proof (bytes_at_copy_same P ds (battfs_to_disk (sealed h))) as E. rewrite length_disk in E.
  change (Z.of_nat 12) with BATTFS_HEADER_LEN in E. unfold BATTFS_HEADER_LEN in *. rewrite E by (rewrite ?length_disk; lia).
  rewrite disk_roundtrip by done. by rewrite valid_sealed.
Qed.

(** Data do not touch it. *)
Lemma hdr_at_data ds P o l : 0 <= o -> o + Z.of_nat (length l) <= ds -> Z.of_nat (length P) = ds + BATTFS_HEADER_LEN ->
  hdr_at ds (copy_at P o l) = hdr_at ds P.
Proof.
  intros Ho Hl HP. unfold hdr_at, BATTFS_HEADER_LEN in *. rewrite bytes_at_copy_out by lia. done.
Qed.

Lemma hdr_at_inode ds P h : hdr_at ds P = Some h -> is_byte (inode h) /\ 0 <= pgoff h < 65536.
Proof.
  unfold hdr_at. destruct (valid _); [|done]. intros [= <-]. split; [apply u8_range|apply u16_range].
Qed.

Definition seq_at (ds : Z) (P : list Z) : Z := match hdr_at ds P with Some h => seq h | None => 0 end.
Definition fill_at (ds : Z) (P : list Z) : Z := match hdr_at ds P with Some h => fill h | None => 0 end.

(** ** Whose the pages are

    [F]: the pages of each file, in order; the page array holds those of file 0,
    then those of file 1, and so on. *)

Definition part (F : Z -> list Z) (from n : Z) : list Z := concat (map F (seqZ from n)).
Definition live (F : Z -> list Z) : list Z := part F 0 256.
Definition start_of (F : Z -> list Z) (i : Z) : Z := Z.of_nat (length (part F 0 i)).

Definition upd_file (F : Z -> list Z) (i : Z) (l : list Z) : Z -> list Z :=
  fun j => if decide (j = i) then l else F j.

Lemma part_ext F F' from n : (forall j, from <= j < from + n -> F' j = F j) -> part F' from n = part F from n.
Proof.
  intros HF. unfold part. f_equal. apply map_ext_in. intros j Hj. apply list_elem_of_In, elem_of_seqZ in Hj. by apply HF.
Qed.

Lemma part_app F from n m : 0 <= n -> 0 <= m -> part F from (n + m) = part F from n ++ part F (from + n) m.
Proof. intros Hn Hm. unfold part. rewrite seqZ_app by done. by rewrite map_app, concat_app. Qed.

Lemma part_one F i : part F i 1 = F i.
Proof. unfold part. cbn. apply app_nil_r. Qed.

Lemma live_at F i : is_byte i -> live F = part F 0 i ++ F i ++ part F (i + 1) (255 - i).
Proof.
  unfold is_byte. intros Hi. unfold live. replace 256 with (i + (1 + (255 - i))) by lia.
  rewrite part_app, part_app, part_one by lia. done.
Qed.

Lemma live_upd F i l : is_byte i -> live (upd_file F i l) = part F 0 i ++ l ++ part F (i + 1) (255 - i).
Proof.
  unfold is_byte. intros Hi. rewrite (live_at _ i) by done. unfold upd_file at 2. rewrite decide_True by done.
  f_equal; [|f_equal]; apply part_ext; intros j Hj; unfold upd_file; rewrite decide_False by lia; done.
Qed.

Lemma upd_file_same F i l : upd_file F i l i = l.
Proof. unfold upd_file. by rewrite decide_True. Qed.

Lemma upd_file_other F i l j : j <> i -> upd_file F i l j = F j.
Proof. intros. unfold upd_file. by rewrite decide_False. Qed.

Lemma start_of_upd F i l j : 0 <= i -> 0 <= j ->
  start_of (upd_file F i l) j
  = start_of F j + (if i <? j then Z.of_nat (length l) - Z.of_nat (length (F i)) else 0).
Proof.
  intros Hi Hj. unfold start_of. destruct (i <? j) eqn:E; zbool.
  - assert (E1 : forall from m, 0 <= m -> from + m <= i \/ i < from -> part (upd_file F i l) from m = part F from m).
    { intros from m Hm Hd. apply part_ext. intros k Hk. apply upd_file_other. lia. }
    replace j with (i + (1 + (j - i - 1))) by lia. rewrite !part_app, !part_one by lia.
    rewrite Z.add_0_l, upd_file_same, !E1, !length_app by lia. lia.
  - rewrite (part_ext F (upd_file F i l)); [lia|]. intros k Hk. apply upd_file_other. lia.
Qed.

Lemma start_of_le F i : is_byte i -> 0 <= start_of F i /\
  start_of F i + Z.of_nat (length (F i)) <= Z.of_nat (length (live F)).
Proof. intros Hi. unfold start_of. rewrite (live_at F i Hi), !length_app. lia. Qed.

Lemma live_lookup F i o b : is_byte i -> F i !! o = Some b -> live F !! (Z.to_nat (start_of F i) + o)%nat = Some b.
Proof.
  intros Hi E. rewrite (live_at F i Hi). unfold start_of. rewrite Nat2Z.id.
  rewrite lookup_app_r by lia. replace (_ + o - _)%nat with o by lia.
  rewrite lookup_app_l; [done|]. by eapply lookup_lt_Some.
Qed.

Lemma live_elem F b : b ∈ live F <-> exists i o, is_byte i /\ F i !! o = Some b.
Proof.
  split.
  - intros Hb. unfold live, part in Hb. apply list_elem_of_In, in_concat in Hb as (l & Hl & Hb).
    apply in_map_iff in Hl as (i & <- & Hi). apply list_elem_of_In, elem_of_seqZ in Hi.
    apply list_elem_of_In, list_elem_of_lookup in Hb as [o Ho]. exists i, o. split; [|done]. unfold is_byte. lia.
  - intros (i & o & Hi & E). eapply list_elem_of_lookup_2, live_lookup; [exact Hi|exact E].
Qed.

(** A block is in one place only. *)
Lemma start_of_next F i j : 0 <= i -> i < j -> start_of F i + Z.of_nat (length (F i)) <= start_of F j.
Proof.
  intros Hi Hj. unfold start_of. replace j with (i + (1 + (j - i - 1))) by lia.
  rewrite !part_app, part_one, Z.add_0_l, !length_app by lia. lia.
Qed.

Lemma live_inj F i o i' o' b : NoDup (live F) -> is_byte i -> is_byte i' ->
  F i !! o = Some b -> F i' !! o' = Some b -> i = i' /\ o = o'.
Proof.
  intros Hnd Hi Hi' E E'. pose proof (live_lookup _ _ _ _ Hi E) as L. pose proof (live_lookup _ _ _ _ Hi' E') as L'.
  pose proof (NoDup_lookup _ _ _ _ Hnd L L') as En. apply lookup_lt_Some in E, E'.
  pose proof (start_of_le F i Hi). pose proof (start_of_le F i' Hi'). unfold is_byte in *.
  destruct (Z.lt_trichotomy i i') as [Hl|[->|Hl]].
  - pose proof (start_of_next F i i'). lia.
  - split; [done|lia].
  - pose proof (start_of_next F i' i). lia.
Qed.

(** ** The newest pages are the ones in use *)

Definition place (F : Z -> list Z) (h : BattFsPageHeader) : option Z := F (inode h) !! Z.to_nat (pgoff h).

(** A header that is on the disk, in block [b]: its place is taken, by this
    block, or by a newer page. *)
Definition known (ds : Z) (F : Z -> list Z) (P : Z -> list Z) (b : Z) (Q : list Z) : Prop :=
  forall h, hdr_at ds Q = Some h ->
    exists b', place F h = Some b' /\ seq h <= seq_at ds (P b') /\ (b' <> b -> seq h < seq_at ds (P b')).

(** [P]: the blocks as a client sees them; [R]: as the device holds them. *)
Record pages_ok (ds n age : Z) (F : Z -> list Z) (free : list Z) (P R : Z -> list Z) : Prop := {
  p_all : live F ++ free ≡ₚ seqZ 0 n;
  p_owns i o b : is_byte i -> F i !! o = Some b ->
    exists h, hdr_at ds (P b) = Some h /\ inode h = i /\ pgoff h = Z.of_nat o /\ 0 <= seq h <= age /\
      0 <= fill h <= ds /\ ((S o < length (F i))%nat -> fill h = ds);
  p_known b : 0 <= b < n -> known ds F P b (P b) /\ known ds F P b (R b)
}.

Section Pages.
Variables ds n : Z.

Lemma p_range age F free P R b : pages_ok ds n age F free P R -> b ∈ live F \/ b ∈ free -> 0 <= b < n.
Proof.
  intros HP Hb. apply elem_of_app in Hb. rewrite (p_all _ _ _ _ _ _ _ HP) in Hb. apply elem_of_seqZ in Hb. lia.
Qed.

Lemma p_inj age F free P R i o i' o' b : pages_ok ds n age F free P R -> is_byte i -> is_byte i' ->
  F i !! o = Some b -> F i' !! o' = Some b -> i = i' /\ o = o'.
Proof.
  intros HP. apply live_inj. pose proof (NoDup_seqZ 0 n) as Hnd. rewrite <- (p_all _ _ _ _ _ _ _ HP) in Hnd.
  by apply NoDup_app in Hnd as (? & _).
Qed.

(** One page of one file is replaced by a newer one, [np], in the same block or
    another; what other blocks hold was there before. *)
Lemma pages_step age age' F free P R F' free' P' R' i o np h :
  pages_ok ds n age F free P R -> is_byte i -> F' i !! o = Some np ->
  (forall i1 o1, is_byte i1 -> i1 <> i \/ o1 <> o -> F' i1 !! o1 = F i1 !! o1) ->
  (forall o1 b, F i !! o1 = Some b -> o1 <> o -> (S o1 < length (F' i))%nat ->
    (S o1 < length (F i))%nat \/ fill_at ds (P b) = ds) ->
  hdr_at ds (P' np) = Some h -> inode h = i -> pgoff h = Z.of_nat o -> 0 <= seq h <= age' -> 0 <= fill h <= ds ->
  ((S o < length (F' i))%nat -> fill h = ds) -> age <= age' ->
  (forall b, F i !! o = Some b -> seq_at ds (P b) < seq h) ->
  (forall b, b ∈ live F -> F i !! o <> Some b -> P' b = P b) ->
  live F' ++ free' ≡ₚ seqZ 0 n ->
  (forall b, 0 <= b < n -> b <> np -> P' b = P b \/ P' b = R b) ->
  (forall b, 0 <= b < n -> R' b = R b \/ R' b = P b \/ R' b = P' b) ->
  pages_ok ds n age' F' free' P' R'.
Proof.
  intros HP Hi Hnp HF Hfull Hh Ehi Ehp Hseq Hfill Hlast Hage Hnew Hlive Hall HP' HR'.
  assert (Hothers : forall i1 o1 b, is_byte i1 -> F i1 !! o1 = Some b -> i1 <> i \/ o1 <> o -> P' b = P b).
  { intros i1 o1 b Hi1 E Hne. apply Hlive; [apply live_elem; by exists i1, o1|]. intros E'.
    destruct (p_inj _ _ _ _ _ i1 o1 i o b HP Hi1 Hi E E'). naive_solver. }
  assert (Hk : forall b Q, known ds F P b Q -> known ds F' P' b Q).
  { intros b Q HQ h1 E. destruct (HQ h1 E) as (b' & Ep & Hle & Hlt). destruct (hdr_at_inode _ _ _ E) as [Hb1 _].
    unfold place in *. destruct (decide (inode h1 = i /\ Z.to_nat (pgoff h1) = o)) as [[E1 E2]|Hne].
    - rewrite E1, E2 in *. exists np. specialize (Hnew b' Ep). assert (seq_at ds (P' np) = seq h) as -> by (unfold seq_at; by rewrite Hh).
      split_and!; [done|lia|intros; lia].
    - exists b'. rewrite HF, (Hothers (inode h1) (Z.to_nat (pgoff h1))) by (done || (apply Decidable.not_and in Hne;
        [naive_solver|unfold Decidable.decidable; destruct (decide (inode h1 = i)); tauto])). done. }
  assert (Hself : known ds F' P' np (P' np)).
  { intros h1 E. rewrite Hh in E. injection E as <-. exists np. unfold place, seq_at. rewrite Ehi, Ehp, Nat2Z.id, Hh.
    split_and!; [done|lia|done]. }
  split; [done| |].
  - intros i1 o1 b Hi1 E. destruct (decide (i1 = i /\ o1 = o)) as [[-> ->]|Hne].
    + rewrite Hnp in E. injection E as <-. exists h. split_and!; try done; lia.
    + assert (Hne' : i1 <> i \/ o1 <> o) by (destruct (decide (i1 = i)); [right; naive_solver|by left]).
      rewrite HF in E by done. destruct (p_owns _ _ _ _ _ _ _ HP i1 o1 b Hi1 E) as (h1 & E1 & Ei & Eo & Hs & Hf & Hd).
      exists h1. rewrite (Hothers i1 o1 b Hi1 E Hne'). split_and!; try done; try lia. intros Hlen.
      destruct (decide (i1 = i)) as [->|Hi1ne].
      * destruct (Hfull o1 b E) as [?|Hd']; [naive_solver|done|by apply Hd|]. unfold fill_at in Hd'. by rewrite E1 in Hd'.
      * apply Hd. assert (F' i1 = F i1) as <-; [|done]. apply list_eq. intros k. apply HF; [done|by left].
  - intros b Hb. destruct (p_known _ _ _ _ _ _ _ HP b Hb) as [K1 K2]. split.
    + destruct (decide (b = np)) as [->|Hne]; [done|]. destruct (HP' b Hb Hne) as [-> | ->]; by apply Hk.
    + destruct (HR' b Hb) as [-> | [-> | ->]]; [by apply Hk|by apply Hk|].
      destruct (decide (b = np)) as [->|Hne]; [done|]. destruct (HP' b Hb Hne) as [-> | ->]; by apply Hk.
Qed.
End Pages.
