(* ===== verification/BattFsInv.v ===== *)
(** * BattFS, the state of a mounted disk

    The invariant of the disk in memory, and how one page of a file is
    written: a block is made ready for it ([ready]), in place, as a copy, or new;
    whatever is then written to the block, once its header is there the
    invariant holds again ([finish]). *)

From Stdlib Require Import ZArith Lia Bool List Permutation.
From stdpp Require Import prelude.
From S2P Require Import Prelude KFile KBlock KBlockRam KBlockSure BattFs BattFsPages.

Open Scope Z_scope.

Definition used (ds : Z) (P : Z -> list Z) (l : list Z) : Z := foldr (fun b z => fill_at ds (P b) + z) 0 l.

(** What a page holds, and what a file does. *)
Definition piece (ds : Z) (Q : list Z) : list Z := bytes_at Q 0 (fill_at ds Q).
Definition data_of (ds : Z) (P : Z -> list Z) (l : list Z) : list Z := concat (map (fun b => piece ds (P b)) l).

(** Page [o] of file [i] is [np] now; it may be one more page. *)
Definition newF (F : Z -> list Z) (i : Z) (o : nat) (np : Z) : Z -> list Z :=
  upd_file F i (take o (F i) ++ np :: drop (S o) (F i)).

Lemma used_app ds P l1 l2 : used ds P (l1 ++ l2) = used ds P l1 + used ds P l2.
Proof. induction l1 as [|b l1 IH]; cbn [used foldr app]; [done|]. unfold used in *. lia. Qed.

Lemma used_cons ds P b l : used ds P (b :: l) = fill_at ds (P b) + used ds P l.
Proof. done. Qed.

Lemma used_option ds P m : used ds P (option_list m) = match m with Some b => fill_at ds (P b) | None => 0 end.
Proof. destruct m; cbn; lia. Qed.

Lemma used_ext ds P P' l : (forall b, b ∈ l -> P' b = P b) -> used ds P' l = used ds P l.
Proof.
  induction l as [|b l IH]; intros HE; [done|]. rewrite !used_cons, IH, HE by set_solver. done.
Qed.

Lemma used_bound ds P l : (forall b, b ∈ l -> 0 <= fill_at ds (P b) <= ds) ->
  0 <= used ds P l <= Z.of_nat (length l) * ds.
Proof.
  induction l as [|b l IH]; intros HE; [done|]. rewrite used_cons. specialize (IH ltac:(set_solver)).
  specialize (HE b ltac:(set_solver)). cbn [length]. lia.
Qed.

Lemma data_app ds P l1 l2 : data_of ds P (l1 ++ l2) = data_of ds P l1 ++ data_of ds P l2.
Proof. unfold data_of. by rewrite map_app, concat_app. Qed.

Lemma data_ext ds P P' l : (forall b, b ∈ l -> P' b = P b) -> data_of ds P' l = data_of ds P l.
Proof.
  intros HE. unfold data_of. f_equal. apply map_ext_in. intros b Hb%list_elem_of_In. by rewrite HE.
Qed.

Lemma newF_here F i o np : (o <= length (F i))%nat -> newF F i o np i !! o = Some np.
Proof.
  intros Ho. unfold newF. rewrite upd_file_same, lookup_app_r by (rewrite length_take; lia).
  rewrite length_take. by replace (o - o `min` length (F i))%nat with O by lia.
Qed.

Lemma newF_else F i o np i1 o1 : (o <= length (F i))%nat -> i1 <> i \/ o1 <> o ->
  newF F i o np i1 !! o1 = F i1 !! o1.
Proof.
  intros Ho Hne. unfold newF. destruct (decide (i1 = i)) as [->|Hi]; [|by rewrite upd_file_other].
  rewrite upd_file_same. assert (o1 <> o) by naive_solver. destruct (decide (o1 < o)%nat).
  - rewrite lookup_app_l by (rewrite length_take; lia). by rewrite lookup_take_lt.
  - rewrite lookup_app_r by (rewrite length_take; lia). rewrite length_take.
    replace (o1 - o `min` length (F i))%nat with (S (o1 - o - 1)) by lia.
    rewrite lookup_cons, lookup_drop. f_equal. lia.
Qed.

Lemma newF_length F i o np : (o <= length (F i))%nat ->
  length (newF F i o np i) = Nat.max (S o) (length (F i)).
Proof.
  intros Ho. unfold newF. rewrite upd_file_same, length_app, length_take. cbn [length]. rewrite length_drop. lia.
Qed.

(** The other pages of the file, and the pages of the others, are not [F i !! o]. *)
Lemma rest_other F i o b : NoDup (live F) -> is_byte i ->
  b ∈ part F 0 i \/ b ∈ take o (F i) \/ b ∈ drop (S o) (F i) \/ b ∈ part F (i + 1) (255 - i) ->
  b ∈ live F /\ F i !! o <> Some b.
Proof.
  intros Hnd Hi Hb. rewrite (live_at F i Hi) in *. rewrite !elem_of_app.
  apply NoDup_app in Hnd as (_ & H1 & Hnd). apply NoDup_app in Hnd as (Hnd & H2 & _).
  assert (Hel : forall c, F i !! o = Some c -> c ∈ F i) by (intros c; apply list_elem_of_lookup_2).
  destruct Hb as [Hb|[Hb|[Hb|Hb]]]; split.
  - by left.
  - intros E%Hel. apply (H1 b Hb), elem_of_app. by left.
  - right. left. apply elem_of_take in Hb as (k & E & _). by eapply list_elem_of_lookup_2.
  - intros E. apply elem_of_take in Hb as (k & E' & Hk). pose proof (NoDup_lookup _ _ _ _ Hnd E E'). lia.
  - right. left. apply list_elem_of_lookup in Hb as [k E]. rewrite lookup_drop in E. by eapply list_elem_of_lookup_2.
  - intros E. apply list_elem_of_lookup in Hb as [k E']. rewrite lookup_drop in E'. pose proof (NoDup_lookup _ _ _ _ Hnd E E'). lia.
  - right. by right.
  - intros E%Hel. by apply (H2 b E).
Qed.

Lemma file_split (F : Z -> list Z) i o : (o <= length (F i))%nat ->
  F i = take o (F i) ++ option_list (F i !! o) ++ drop (S o) (F i).
Proof.
  intros Ho. destruct (F i !! o) as [b|] eqn:E; cbn.
  - by rewrite take_drop_middle.
  - apply lookup_ge_None in E. rewrite take_ge, drop_ge, app_nil_r by lia. done.
Qed.

Lemma used_newF ds P P' F i o np : NoDup (live F) -> is_byte i -> (o <= length (F i))%nat ->
  (forall b, b ∈ live F -> F i !! o <> Some b -> P' b = P b) ->
  used ds P' (live (newF F i o np))
  = used ds P (live F) - used ds P (option_list (F i !! o)) + fill_at ds (P' np).
Proof.
  intros Hnd Hi Ho HP. unfold newF. rewrite live_upd, (live_at F i) by done.
  rewrite (file_split F i o Ho) at 3. rewrite !used_app, used_cons, !(used_ext ds P P'); [lia|..];
    intros b Hb; apply HP; apply (rest_other F i o b Hnd Hi); tauto.
Qed.

Lemma data_newF ds P P' F i o np : NoDup (live F) -> is_byte i -> (o <= length (F i))%nat ->
  (forall b, b ∈ live F -> F i !! o <> Some b -> P' b = P b) ->
  data_of ds P' (newF F i o np i) = data_of ds P (take o (F i)) ++ piece ds (P' np) ++ data_of ds P (drop (S o) (F i)).
Proof.
  intros Hnd Hi Ho HP. unfold newF. rewrite upd_file_same. rewrite data_app.
  change (np :: drop (S o) (F i)) with ([np] ++ drop (S o) (F i)). rewrite data_app.
  rewrite (data_ext ds P P' (take o (F i))), (data_ext ds P P' (drop (S o) (F i)));
    [|intros b Hb; apply HP; apply (rest_other F i o b Hnd Hi); tauto..].
  unfold data_of at 2. cbn. by rewrite app_nil_r.
Qed.

Section Inv.
Context {D : Type} `{KBlockSure D}.
Implicit Types K : BattFsSuper D.

Definition cnt K : Z := blk_cnt (bdev K).
Definition pgs K : Z -> list Z := pg (bdev K).
Definition held K : Z -> list Z := block (bdev K).

Record fs_ok (age : Z) (F : Z -> list Z) (free : list Z) K : Prop := {
  fs_sure : sure (bdev K);
  fs_size : blk_size (bdev K) = data_size K + BATTFS_HEADER_LEN;
  fs_ds : 0 < data_size K < 65000;
  fs_cnt : 0 < cnt K < 32768;
  fs_age : 0 <= age < 32768;
  fs_array : page_array K = live F ++ free;
  fs_start : free_page_start K = Z.of_nat (length (live F));
  fs_pages : pages_ok (data_size K) (cnt K) age F free (pgs K) (held K);
  fs_free : free_bytes K = cnt K * data_size K - used (data_size K) (pgs K) (live F);
  fs_disk : disk_size K = cnt K * data_size K;
  fs_total : cnt K * data_size K < 2147483648
}.

Lemma length_pg (b : KBlock D) i : sure b -> 0 <= i < blk_cnt b -> Z.of_nat (length (pg b i)) = blk_size b.
Proof.
  intros Hs Hi. pose proof (sure_ok b Hs) as Hb. pose proof (block_bounds b i Hb Hi). pose proof (length_view b Hb).
  pose proof (i_size b Hb). apply length_bytes_at; lia.
Qed.

Lemma pages_len age F free K : fs_ok age F free K ->
  Z.of_nat (length (live F)) + Z.of_nat (length free) = cnt K.
Proof.
  intros Hk. pose proof (Permutation_length (p_all _ _ _ _ _ _ _ (fs_pages _ _ _ _ Hk))) as E.
  rewrite length_app, length_seqZ in E. destruct (fs_cnt _ _ _ _ Hk). lia.
Qed.

Lemma fills age F free K i b : fs_ok age F free K -> is_byte i -> b ∈ F i ->
  0 <= fill_at (data_size K) (pgs K b) <= data_size K.
Proof.
  intros Hk Hi [o E]%list_elem_of_lookup. unfold fill_at.
  destruct (p_owns _ _ _ _ _ _ _ (fs_pages _ _ _ _ Hk) i o b Hi E) as (h & -> & _ & _ & _ & Hf & _). done.
Qed.

Lemma used_live age F free K l : fs_ok age F free K -> (forall b, b ∈ l -> b ∈ live F) ->
  0 <= used (data_size K) (pgs K) l <= Z.of_nat (length l) * data_size K.
Proof.
  intros Hk Hl. apply used_bound. intros b (i & o & Hi & E)%Hl%live_elem.
  eapply fills; [exact Hk|exact Hi|]. by eapply list_elem_of_lookup_2.
Qed.

(** A block ready for page [o] of file [i] of the disk [K0]. *)
Record ready (age : Z) (F : Z -> list Z) (free : list Z) K0 (free' : list Z) K (i : Z) (o : nat) (np : Z) : Prop := {
  r_ok : fs_ok age F free K0;
  r_byte : is_byte i;
  r_off : (o <= length (F i))%nat;
  r_all : live (newF F i o np) ++ free' ≡ₚ seqZ 0 (cnt K0);
  r_array : page_array K = live (newF F i o np) ++ free';
  r_start : free_page_start K = Z.of_nat (length (live (newF F i o np)));
  r_ds : data_size K = data_size K0;
  r_disk : disk_size K = disk_size K0;
  r_bytes : free_bytes K = free_bytes K0;
  r_sure : sure (bdev K);
  r_same : same (bdev K0) (bdev K);
  r_pages b : 0 <= b < cnt K0 -> b <> np -> pgs K b = pgs K0 b \/ pgs K b = held K0 b;
  r_live b : b ∈ live F -> F i !! o <> Some b -> pgs K b = pgs K0 b;
  r_held b : 0 <= b < cnt K0 -> held K b = held K0 b \/ held K b = pgs K0 b;
  r_curr : kblock_buffered (bdev K) = true -> curr_blk (bdev K) = np \/ pgs K np = pgs K0 np
}.

Definition old_fill K0 (F : Z -> list Z) (i : Z) (o : nat) : Z :=
  match F i !! o with Some b => fill_at (data_size K0) (pgs K0 b) | None => 0 end.
Definition old_seq K0 (F : Z -> list Z) (i : Z) (o : nat) : Z :=
  match F i !! o with Some b => seq_at (data_size K0) (pgs K0 b) | None => -1 end.

Lemma ready_np age F free K0 free' K i o np : ready age F free K0 free' K i o np -> 0 <= np < cnt K0.
Proof.
  intros Hr. assert (Hin : np ∈ live (newF F i o np) ++ free').
  { apply elem_of_app. left. apply live_elem. exists i, o.
    split; [by apply (r_byte _ _ _ _ _ _ _ _ _ Hr)|]. apply newF_here, (r_off _ _ _ _ _ _ _ _ _ Hr). }
  rewrite (r_all _ _ _ _ _ _ _ _ _ Hr) in Hin. apply elem_of_seqZ in Hin. lia.
Qed.

(** The page is written, its header too: the other pages are as they were. *)
Lemma finish_live age F free K0 free' K i o np Q K' b : ready age F free K0 free' K i o np -> wrote np Q (bdev K) (bdev K') ->
  b ∈ live F -> F i !! o <> Some b -> pgs K' b = pgs K0 b.
Proof.
  intros [Hk Hi Ho Hall _ _ _ _ _ _ [_ _ _ _ Sc] _ Hlv _ _] Hw Hb Hne.
  pose proof (p_range _ _ _ _ _ _ _ b (fs_pages _ _ _ _ Hk) (or_introl Hb)) as Hr. unfold cnt in *. unfold pgs.
  rewrite (w_else _ _ _ _ Hw); [by apply Hlv|lia|]. intros ->. apply live_elem in Hb as (i1 & o1 & Hi1 & E1).
  assert (Hne1 : i1 <> i \/ o1 <> o) by (destruct (decide (i1 = i)); [right; naive_solver|by left]).
  pose proof (NoDup_seqZ 0 (blk_cnt (bdev K0))) as Hnd. rewrite <- Hall in Hnd. apply NoDup_app in Hnd as (Hnd & _).
  destruct (live_inj _ i1 o1 i o np Hnd Hi1 Hi); [by rewrite newF_else|by apply newF_here|naive_solver].
Qed.

Lemma finish_pages age age' F free K0 free' K i o np Q K' h :
  ready age F free K0 free' K i o np -> wrote np Q (bdev K) (bdev K') ->
  hdr_at (data_size K0) Q = Some h -> inode h = i -> pgoff h = Z.of_nat o ->
  old_seq K0 F i o < seq h -> 0 <= seq h <= age' -> age <= age' < 32768 -> 0 <= fill h <= data_size K0 ->
  ((S o < length (F i))%nat -> fill h = data_size K0) ->
  (o = length (F i) -> forall b, last (F i) = Some b -> fill_at (data_size K0) (pgs K0 b) = data_size K0) ->
  pages_ok (data_size K0) (cnt K0) age' (newF F i o np) free' (pgs K') (held K').
Proof.
  intros Hr Hw Hh Ehi Eho Hseq Hsr Hage Hfill Hlast Hnew. pose proof (ready_np _ _ _ _ _ _ _ _ _ Hr) as Hnp.
  pose proof (fun b => finish_live _ _ _ _ _ _ _ _ _ _ K' b Hr Hw) as Hlive.
  destruct Hr as [Hk Hi Ho Hall Hpa Hst Hds Hdk Hby Hsu Hsm Hpg Hlv Hhe Hcu]. destruct Hw as [W1 W2 W3 W4 W5 W6].
  pose proof Hsm as [Sb _ _ Sz Sc]. pose proof W2 as [Tb _ _ Tz Tc].
  apply (pages_step _ _ age age' F free (pgs K0) (held K0) _ _ _ _ i o np h); try done; try lia.
  - by apply fs_pages.
  - by apply newF_here.
  - intros i1 o1 _ Hne. by apply newF_else.
  - intros o1 b E Hne Hl. rewrite newF_length in Hl by done. pose proof (lookup_lt_Some _ _ _ E).
    destruct (decide (S o1 < length (F i))%nat); [by left|right]. apply Hnew; [lia|].
    rewrite last_lookup. replace (Init.Nat.pred (length (F i))) with o1 by lia. done.
  - unfold pgs. by rewrite W3.
  - rewrite newF_length by done. intros Hl. apply Hlast. lia.
  - intros b E. unfold old_seq in Hseq. by rewrite E in Hseq.
  - intros b Hb Hne. assert (pgs K' b = pgs K b) as -> by (apply W4; [unfold cnt in *; lia|done]). by apply Hpg.
  - intros b Hb. destruct (kblock_buffered (bdev K)) eqn:Hbuf.
    + assert (E6 : held K' b = if np =? curr_blk (bdev K) then held K b else pgs K b)
        by (apply W6; [done|unfold cnt in *; lia]).
      rewrite E6. destruct (np =? curr_blk (bdev K)) eqn:Ec; zbool.
      * destruct (Hhe b Hb) as [E|E]; [by left|right; by left].
      * destruct (decide (b = np)) as [->|Hne].
        -- destruct (Hcu eq_refl) as [?|E]; [done|]. right. by left.
        -- destruct (Hpg b Hb Hne) as [E|E]; [right; by left|by left].
    + right. right. unfold pgs. symmetry. apply pg_block; [by apply sure_ok|unfold cnt in *; congruence || lia|].
      left. congruence.
Qed.

Lemma finish age age' F free K0 free' K i o np Q K' h :
  ready age F free K0 free' K i o np -> wrote np Q (bdev K) (bdev K') ->
  hdr_at (data_size K0) Q = Some h -> inode h = i -> pgoff h = Z.of_nat o ->
  old_seq K0 F i o < seq h -> 0 <= seq h <= age' -> age <= age' < 32768 -> 0 <= fill h <= data_size K0 ->
  ((S o < length (F i))%nat -> fill h = data_size K0) ->
  (o = length (F i) -> forall b, last (F i) = Some b -> fill_at (data_size K0) (pgs K0 b) = data_size K0) ->
  data_size K' = data_size K -> page_array K' = page_array K -> free_page_start K' = free_page_start K ->
  disk_size K' = disk_size K -> free_bytes K' = free_bytes K + old_fill K0 F i o - fill h ->
  fs_ok age' (newF F i o np) free' K' /\ pgs K' np = Q /\
  (forall b, b ∈ live F -> F i !! o <> Some b -> pgs K' b = pgs K0 b).
Proof.
  intros Hr Hw Hh Ehi Eho Hseq Hsr Hage Hfill Hlast Hnew Eds Epa Eps Edk Efb.
  pose proof (finish_pages _ age' _ _ _ _ _ _ _ _ _ _ h Hr Hw Hh Ehi Eho Hseq Hsr Hage Hfill Hlast Hnew) as HPS.
  pose proof (fun b => finish_live _ _ _ _ _ _ _ _ _ _ K' b Hr Hw) as Hlive.
  destruct Hr as [Hk Hi Ho Hall Hpa Hst Hds Hdk Hby Hsu [_ _ _ Sz Sc] _ _ _ _]. destruct Hw as [W1 [_ _ _ Tz Tc] W3 _ _ _].
  assert (Hc' : cnt K' = cnt K0) by (unfold cnt; congruence). assert (Hd' : data_size K' = data_size K0) by congruence.
  assert (Hnd : NoDup (live F)).
  { pose proof (NoDup_seqZ 0 (cnt K0)) as Hnd. rewrite <- (p_all _ _ _ _ _ _ _ (fs_pages _ _ _ _ Hk)) in Hnd.
    by apply NoDup_app in Hnd as (? & _). }
  split_and!; [|unfold pgs; by rewrite W3|done].
  pose proof Hk as [? K2 K3 K4 ? ? ? ? K9 K10 K11]. split; rewrite ?Hc', ?Hd'; try done; try lia; try congruence.
  rewrite (used_newF _ (pgs K0)) by done.
  assert (fill_at (data_size K0) (pgs K' np) = fill h) as -> by (unfold pgs, fill_at; by rewrite W3, Hh).
  unfold old_fill in Efb. rewrite Efb, Hby, K9, used_option. lia.
Qed.

(** Accesses that change nothing. *)
Lemma pages_ext ds n age F free P R P' R' : pages_ok ds n age F free P R ->
  (forall b, 0 <= b < n -> P' b = P b /\ R' b = R b) -> pages_ok ds n age F free P' R'.
Proof.
  intros HP HE. pose proof HP as [Ha Ho Hk].
  assert (HL : forall b, b ∈ live F -> P' b = P b).
  { intros b Hb. apply HE, (p_range _ _ _ _ _ _ _ b HP). by left. }
  split; [done| |].
  - intros i o b Hi E. rewrite HL by (apply live_elem; by exists i, o). by apply Ho.
  - intros b Hb. destruct (HE b Hb) as [-> ->].
    assert (HK : forall Q, known ds F P b Q -> known ds F P' b Q); [|by destruct (Hk b Hb); split; apply HK].
    intros Q HQ h E. destruct (HQ h E) as (b' & Ep & Hs). exists b'. split; [done|].
    rewrite HL; [done|]. apply live_elem. exists (inode h), (Z.to_nat (pgoff h)).
    split; [by apply (hdr_at_inode _ _ _ E)|done].
Qed.

Lemma quiet_pgs K b' : quiet (bdev K) b' -> forall b, pgs (set_bdev b' K) b = pgs K b.
Proof. intros [_ Hsm Hv _ _ _] b. by apply pg_eq. Qed.

Lemma quiet_held K b' : sure (bdev K) -> quiet (bdev K) b' -> forall b, 0 <= b < cnt K -> held (set_bdev b' K) b = held K b.
Proof. intros Hs [Hs' Hsm _ He _ _] b Hb. apply block_eq; try done; by apply sure_ok. Qed.

Lemma quiet_ok age F free K b' : fs_ok age F free K -> quiet (bdev K) b' -> fs_ok age F free (set_bdev b' K).
Proof.
  intros Hk Hq. pose proof Hk as [K1 K2 K3 K4 K5 K6 K7 K8 K9 K10 K11]. pose proof Hq as [Q1 [_ _ _ Sz Sc] _ _ _ _].
  assert (Ec : cnt (set_bdev b' K) = cnt K) by exact Sc.
  split; rewrite ?Ec; cbn [bdev set_bdev data_size page_array free_page_start free_bytes disk_size]; try done.
  - by rewrite Sz.
  - apply (pages_ext _ _ _ _ _ (pgs K) (held K)); [done|]. intros b Hb.
    split; [by apply quiet_pgs|by apply quiet_held].
  - rewrite K9. f_equal. symmetry. apply used_ext. intros b _. by apply quiet_pgs.
Qed.

(** ** Reading a header *)

Lemma readHdr_quiet K b : sure (bdev K) -> blk_size (bdev K) = data_size K + BATTFS_HEADER_LEN -> 0 < data_size K ->
  0 <= b < cnt K -> exists b', quiet (bdev K) b' /\
    readHdr K b = (Some (disk_to_battfs (bytes_at (pgs K b) (data_size K) BATTFS_HEADER_LEN)), set_bdev b' K).
Proof.
  intros Hs Hsz Hds Hb. pose proof (length_pg (bdev K) b Hs Hb) as Hl. unfold readHdr, BATTFS_HEADER_LEN in *.
  destruct (read_quiet (bdev K) b (data_size K) 12 Hs Hb) as (b' & -> & Hq); [lia|lia|lia|].
  exists b'. split; [done|]. fold (pgs K b) in *. rewrite length_bytes_at by lia. by rewrite Z.eqb_refl.
Qed.

Lemma readHdr_ok age F free K b : fs_ok age F free K -> 0 <= b < cnt K ->
  exists b', quiet (bdev K) b' /\
    readHdr K b = (Some (disk_to_battfs (bytes_at (pgs K b) (data_size K) BATTFS_HEADER_LEN)), set_bdev b' K).
Proof. intros [? ? [? _] _ _ _ _ _ _ _ _] Hb. by apply readHdr_quiet. Qed.

Lemma hdr_at_valid ds Q h : hdr_at ds Q = Some h ->
  disk_to_battfs (bytes_at Q ds BATTFS_HEADER_LEN) = h /\ valid h = true.
Proof. unfold hdr_at. destruct (valid _) eqn:E; [|done]. by intros [= <-]. Qed.

Lemma hdr_at_invalid ds Q : hdr_at ds Q = None -> valid (disk_to_battfs (bytes_at Q ds BATTFS_HEADER_LEN)) = false.
Proof. unfold hdr_at. by destruct (valid _). Qed.

(** The header of a page of a file. *)
Lemma readHdr_page age F free K i o b : fs_ok age F free K -> is_byte i -> F i !! o = Some b ->
  exists b' h, quiet (bdev K) b' /\ readHdr K b = (Some h, set_bdev b' K) /\
    hdr_at (data_size K) (pgs K b) = Some h /\ inode h = i /\ pgoff h = Z.of_nat o /\ 0 <= seq h <= age /\
    0 <= fill h <= data_size K /\ ((S o < length (F i))%nat -> fill h = data_size K).
Proof.
  intros Hk Hi E. destruct (p_owns _ _ _ _ _ _ _ (fs_pages _ _ _ _ Hk) i o b Hi E) as (h & Eh & Hh).
  destruct (readHdr_ok age F free K b Hk) as (b' & Hq & Er).
  { apply (p_range _ _ _ _ _ _ _ b (fs_pages _ _ _ _ Hk)). left. apply live_elem. by exists i, o. }
  exists b', h. destruct (hdr_at_valid _ _ _ Eh) as [E1 _]. rewrite Er, E1. done.
Qed.

Lemma fs_nodup age F free K : fs_ok age F free K -> NoDup (live F) /\ NoDup (live F ++ free).
Proof.
  intros Hk. pose proof (NoDup_seqZ 0 (cnt K)) as Hnd. rewrite <- (p_all _ _ _ _ _ _ _ (fs_pages _ _ _ _ Hk)) in Hnd.
  split; [by apply NoDup_app in Hnd as (? & _)|done].
Qed.

Lemma fs_page age F free K i o b : fs_ok age F free K -> is_byte i -> F i !! o = Some b ->
  get (page_array K) (start_of F i + Z.of_nat o) = b /\ 0 <= b < cnt K.
Proof.
  intros Hk Hi E. split.
  - rewrite (fs_array _ _ _ _ Hk), get_lookup. pose proof (live_lookup F i o b Hi E) as L.
    pose proof (start_of_le F i Hi). replace (Z.to_nat (start_of F i + Z.of_nat o)) with (Z.to_nat (start_of F i) + o)%nat by lia.
    rewrite lookup_app_l by (by eapply lookup_lt_Some). by rewrite L.
  - apply (p_range _ _ _ _ _ _ _ b (fs_pages _ _ _ _ Hk)). left. apply live_elem. by exists i, o.
Qed.

(** ** Making a page ready *)

Lemma newF_same F i o np : is_byte i -> F i !! o = Some np -> live (newF F i o np) = live F.
Proof. intros Hi E. unfold newF. by rewrite live_upd, take_drop_middle, <- live_at. Qed.

Lemma ready_here age F free K i o np b' : fs_ok age F free K -> is_byte i -> F i !! o = Some np ->
  quiet (bdev K) b' -> ready age F free K free (set_bdev b' K) i o np.
Proof.
  intros Hk Hi E Hq. pose proof Hk as [K1 K2 K3 K4 K5 K6 K7 K8 K9 K10 K11]. pose proof (lookup_lt_Some _ _ _ E).
  split; rewrite ?newF_same by done; cbn [bdev set_bdev data_size page_array free_page_start free_bytes disk_size];
    try done; try lia.
  - by apply K8.
  - by destruct Hq.
  - by destruct Hq.
  - intros b _ _. left. by apply quiet_pgs.
  - intros b _ _. by apply quiet_pgs.
  - intros b Hb. left. by apply quiet_held.
  - intros _. right. by apply quiet_pgs.
Qed.

Lemma memmove_eq a dst src n : 0 <= n < 32768 -> memmove a dst src n = copy_at a dst (bytes_at a src n).
Proof. intros Hn. unfold memmove. rewrite u16_small by lia. by rewrite Z.div_mul. Qed.

Lemma memmove_up (A B C : list Z) (x : Z) : Z.of_nat (length B) < 32768 ->
  upd (memmove (A ++ B ++ x :: C) (Z.of_nat (length A) + 1) (Z.of_nat (length A)) (Z.of_nat (length B)))
    (Z.of_nat (length A)) x = A ++ x :: B ++ C.
Proof.
  intros HB. rewrite memmove_eq by lia. unfold bytes_at, copy_at, upd.
  rewrite !Nat2Z.id, drop_app_length, take_app_length.
  replace (Z.to_nat (Z.of_nat (length A) + 1)) with (length A + 1)%nat by lia.
  assert (E1 : exists y, take (length A + 1) (A ++ B ++ x :: C) = A ++ [y]).
  { destruct B as [|y B]; [exists x|exists y]; rewrite take_app_add; done. }
  destruct E1 as [y ->]. replace (length A + 1 + length B)%nat with (length A + (length B + 1))%nat by lia.
  rewrite drop_app_add, drop_app_add. cbn [drop]. rewrite <- !app_assoc. rewrite insert_app_r_alt by lia.
  by rewrite Nat.sub_diag.
Qed.

Lemma allocate_full K pos i : free_page_start K = cnt K -> allocateNewPage K pos i = (NO_SPACE, K).
Proof. intros E. unfold allocateNewPage, SPACE_OVER. fold (cnt K). rewrite E. by destruct (Z.geb_spec (cnt K) (cnt K)); [|lia]. Qed.

Definition moved (i : Z) (l : list BattFs) : list BattFs :=
  map (fun f => if f_inode f >? i then set_start (start f + 1) f else f) l.

Lemma ready_new age F np fr K i : fs_ok age F (np :: fr) K -> is_byte i ->
  let o := length (F i) in
  exists K', allocateNewPage K (start_of F i + Z.of_nat o) i = (np, K') /\
    ready age F (np :: fr) K fr K' i o np /\ file_opened_list K' = moved i (file_opened_list K) /\ bdev K' = bdev K.
Proof.
  intros Hk Hi o. pose proof Hk as [K1 K2 K3 K4 K5 K6 K7 K8 K9 K10 K11].
  pose proof (pages_len _ _ _ _ Hk) as Hlen. cbn [length] in Hlen.
  unfold allocateNewPage, SPACE_OVER. fold (cnt K). destruct (Z.geb_spec (free_page_start K) (cnt K)) as [|Hlt]; [lia|].
  assert (Enew : get (page_array K) (free_page_start K) = np).
  { rewrite K6, K7, get_lookup, Nat2Z.id, lookup_app_r, Nat.sub_diag by lia. done. }
  rewrite Enew. eexists. split; [reflexivity|]. split; [|done].
  pose proof (start_of_le F i Hi) as [Hs1 Hs2]. fold o in Hs2. rewrite K7 in *.
  rewrite u16_small by lia. cbn [set_free_start free_page_start].
  set (A := part F 0 i ++ F i). set (B := part F (i + 1) (255 - i)).
  assert (EL : live F = A ++ B) by (unfold A, B; by rewrite <- app_assoc, <- live_at).
  assert (EA : Z.of_nat (length A) = start_of F i + Z.of_nat o) by (unfold A, start_of; rewrite length_app; lia).
  assert (EN : live (newF F i o np) = A ++ np :: B).
  { unfold newF. rewrite live_upd, take_ge, drop_ge by (done || lia). unfold A, B. by rewrite <- !app_assoc. }
  pose proof Hlen as Hlen2. rewrite EL, length_app in Hlen2. split; cbn [bdev set_bdev data_size page_array free_page_start free_bytes disk_size
    set_files set_pages set_free_start]; try done; try lia.
  - rewrite EN, <- (p_all _ _ _ _ _ _ _ K8), EL. rewrite <- !app_assoc. apply Permutation_app_head. cbn.
    apply Permutation_middle.
  - rewrite EN, K6, EL, <- EA, length_app. replace (_ + 1 - Z.of_nat (length A) - 1) with (Z.of_nat (length B)) by lia.
    rewrite <- app_assoc, memmove_up by lia. by rewrite <- app_assoc.
  - rewrite EN, EL, !length_app. cbn [length]. lia.
  - intros b _ _. by left.
  - intros b _. by left.
  - intros _. by right.
Qed.

(** An entry of the page array is dropped. *)
Lemma movePages_down K X y Y : page_array K = X ++ y :: Y -> cnt K = Z.of_nat (length (X ++ y :: Y)) -> cnt K < 32768 ->
  movePages K (Z.of_nat (length X) + 1) (-1) = set_pages (X ++ Y ++ [PAGE_UNSET_SENTINEL]) K.
Proof.
  intros Ea Ec Hc. rewrite length_app in Ec. cbn [length] in Ec. unfold movePages. fold (cnt K). rewrite Ea.
  change (-1 <? 0) with true. cbv iota.
  rewrite !u16_small by lia. replace (cnt K - (cnt K + -1)) with 1 by lia. change (seqZ (cnt K + -1) 1) with [Z.of_nat 0 + (cnt K + -1)]. cbn [fold_left].
  replace (Z.of_nat (length X) + 1 + -1) with (Z.of_nat (length X)) by lia.
  replace (cnt K - Z.max (Z.of_nat (length X)) (Z.of_nat (length X) + 1)) with (Z.of_nat (length Y)) by lia.
  rewrite memmove_eq by lia.
  assert (bytes_at (X ++ y :: Y) (Z.of_nat (length X) + 1) (Z.of_nat (length Y)) = Y) as ->.
  { unfold bytes_at. replace (Z.to_nat (Z.of_nat (length X) + 1)) with (length X + 1)%nat by lia.
    rewrite drop_app_add. cbn [drop]. apply take_ge. lia. }
  unfold copy_at, upd. rewrite Nat2Z.id, take_app_length.
  assert (E1 : exists z, drop (length X + length Y) (X ++ y :: Y) = [z]).
  { rewrite drop_app_add. pose proof (length_drop (y :: Y) (length Y)) as El. cbn [length] in El.
    destruct (drop (length Y) (y :: Y)) as [|z [|w l]]; cbn in El; try lia. by exists z. }
  destruct E1 as [z ->]. f_equal. rewrite app_assoc, insert_app_r_alt, length_app by (rewrite length_app; lia).
  replace (Z.to_nat (Z.of_nat 0 + (cnt K + -1)) - (length X + length Y))%nat with O by lia. by rewrite <- app_assoc.
Qed.

Lemma renew_full K old : free_page_start K = cnt K -> renewPage K old = (NO_SPACE, K).
Proof. intros E. unfold renewPage, SPACE_OVER. fold (cnt K). rewrite E. by destruct (Z.geb_spec (cnt K) (cnt K)); [|lia]. Qed.

Lemma upd_last l x y : upd (l ++ [x]) (Z.of_nat (length (l ++ [x])) - 1) y = l ++ [y].
Proof. unfold upd. rewrite length_app. cbn [length]. replace (Z.to_nat _) with (length l + 0)%nat by lia. by rewrite insert_app_r. Qed.

Lemma newF_upd F i o np : is_byte i -> (o < length (F i))%nat ->
  live (newF F i o np) = upd (live F) (start_of F i + Z.of_nat o) np.
Proof.
  intros Hi Ho. unfold newF. rewrite live_upd, (live_at F i) by done. unfold upd.
  replace (Z.to_nat (start_of F i + Z.of_nat o)) with (length (part F 0 i) + o)%nat by (unfold start_of; lia).
  rewrite insert_app_r, insert_app_l by done. by rewrite insert_take_drop.
Qed.

Lemma newF_perm F i o np old fr : is_byte i -> F i !! o = Some old ->
  live (newF F i o np) ++ fr ++ [old] ≡ₚ live F ++ np :: fr.
Proof.
  intros Hi Eo. pose proof (lookup_lt_Some _ _ _ Eo) as Ho. pose proof (start_of_le F i Hi). rewrite newF_upd by done.
  set (p := Z.to_nat (start_of F i + Z.of_nat o)). assert (Hp : (p < length (live F))%nat) by lia.
  assert (Ep : live F ≡ₚ old :: delete p (live F)).
  { apply delete_Permutation. pose proof (live_lookup F i o old Hi Eo) as L. by replace p with (Z.to_nat (start_of F i) + o)%nat by lia. }
  assert (Ep2 : upd (live F) (start_of F i + Z.of_nat o) np ≡ₚ np :: delete p (live F)).
  { unfold upd. fold p. rewrite insert_take_drop, delete_take_drop by done. symmetry. apply Permutation_middle. }
  set (d := delete _ (live F)) in *. transitivity ((np :: d) ++ fr ++ [old]); [by apply Permutation_app_tail|].
  transitivity ((old :: d) ++ np :: fr); [|by apply Permutation_app_tail].
  rewrite (Permutation_app_comm fr [old]). cbn. rewrite <- !Permutation_middle. apply Permutation_swap.
Qed.

Lemma ready_again age F np fr K i o old f : fs_ok age F (np :: fr) K -> is_byte i -> F i !! o = Some old ->
  kblock_buffered (bdev K) = true -> start f = start_of F i ->
  exists K1 b, renewPage K old = (np, K1) /\ bdev K1 = bdev K /\ page_of K1 f (Z.of_nat o) = old /\
    kblock_copy (bdev K) old np = (0, b) /\
    let K2 := set_page (set_bdev b K1) f (Z.of_nat o) np in
    ready age F (np :: fr) K (fr ++ [old]) K2 i o np /\ pgs K2 np = pgs K old /\
    file_opened_list K2 = file_opened_list K.
Proof.
  intros Hk Hi Eo Hbuf Hst. pose proof Hk as [K1 K2 K3 K4 K5 K6 K7 K8 K9 K10 K11].
  pose proof (pages_len _ _ _ _ Hk) as Hlen. cbn [length] in Hlen. pose proof (lookup_lt_Some _ _ _ Eo) as Ho.
  destruct (fs_page _ _ _ _ _ _ _ Hk Hi Eo) as [Eg Hold]. pose proof (start_of_le F i Hi) as [Hs1 Hs2].
  destruct (fs_nodup _ _ _ _ Hk) as [Hnd Hnd2].
  assert (Hnp : 0 <= np < cnt K) by (apply (p_range _ _ _ _ _ _ _ np K8); right; left).
  assert (Hne : old <> np).
  { intros ->. apply NoDup_app in Hnd2 as (_ & Hd & _). apply (Hd np); [apply live_elem; by exists i, o|left]. }
  unfold renewPage, SPACE_OVER. fold (cnt K). destruct (Z.geb_spec (free_page_start K) (cnt K)) as [|Hlt]; [lia|].
  assert (Enew : get (page_array K) (free_page_start K) = np).
  { rewrite K6, K7, get_lookup, Nat2Z.id, lookup_app_r, Nat.sub_diag by lia. done. }
  rewrite Enew, K7, (movePages_down K (live F) np fr) by (rewrite ?length_app; cbn [length]; done || lia).
  cbn [set_pages page_array]. change (blk_cnt (bdev (set_pages _ K))) with (cnt K).
  rewrite app_assoc. assert (Ecnt : cnt K = Z.of_nat (length ((live F ++ fr) ++ [PAGE_UNSET_SENTINEL])))
    by (rewrite !length_app; cbn [length]; lia).
  rewrite Ecnt, upd_last.
  destruct (kblock_copy_sure (bdev K) old np K1 Hbuf Hold Hnp) as (b & Ec & Hsb & Hsm & Hcur & _ & Hpn & Hhe & Hpo).
  eexists _, b. split; [reflexivity|]. split; [done|]. split; [|split; [exact Ec|]].
  { unfold page_of. cbn [set_pages page_array]. rewrite Hst, <- app_assoc, get_lookup.
    rewrite K6, get_lookup in Eg. rewrite lookup_app_l in Eg |- * by lia. done. }
  cbv zeta. split_and!; [|exact Hpn|done]. pose proof Hsm as [Sb _ _ Sz Sc].
  pose proof (newF_upd F i o np Hi Ho) as EN. rewrite <- Hst in EN.
  assert (Hpos : (Z.to_nat (start f + Z.of_nat o) < length (live F))%nat) by lia.
  split; cbn [bdev set_bdev data_size page_array free_page_start free_bytes disk_size set_page set_pages]; try done.
  - lia.
  - rewrite newF_perm by done. apply K8.
  - rewrite EN. unfold upd. by rewrite <- !app_assoc, insert_app_l by done.
  - rewrite EN, length_upd. done.
  - intros b1 Hb1 Hne1. change (pg b b1 = pgs K b1 \/ pg b b1 = held K b1).
    rewrite Hpo by done. destruct (old =? curr_blk (bdev K)); [by right|by left].
  - intros b1 Hb1 Hneo. pose proof (p_range _ _ _ _ _ _ _ b1 K8 (or_introl Hb1)) as Hr1.
    assert (b1 <> np) as Hn1.
    { intros ->. apply NoDup_app in Hnd2 as (_ & Hd & _). apply (Hd np Hb1). left. }
    change (pg b b1 = pg (bdev K) b1). rewrite Hpo by done. destruct (old =? curr_blk (bdev K)) eqn:E; [|done]. zbool.
    symmetry. apply pg_block; [by apply sure_ok|done|]. right. left. intros ->. congruence.
  - intros b1 Hb1. change (block b b1 = block (bdev K) b1 \/ block b b1 = pg (bdev K) b1). rewrite Hhe by done.
    destruct (old =? curr_blk (bdev K)); [by left|by right].
  - intros _. by left.
Qed.
End Inv.
