(* ===== verification/BattFsFiles.v ===== *)
(** * BattFS, reading and writing files

    The content of a file is the filled parts of its pages one after the other;
    writing changes it as it would an array of bytes. *)

From Stdlib Require Import ZArith Lia Bool List Permutation.
From stdpp Require Import prelude.
From S2P Require Import Prelude KFile KBlock KBlockRam KBlockSure BattFs BattFsPages BattFsInv.

Open Scope Z_scope.

(** A copy into the middle of three parts. *)
Lemma copy_at_mid A M C p a l : Z.of_nat (length A) = p -> 0 <= a <= Z.of_nat (length M) ->
  a + Z.of_nat (length l) <= Z.of_nat (length M) \/ C = [] ->
  copy_at (A ++ M ++ C) (p + a) l = A ++ copy_at M a l ++ C.
Proof.
  intros HA Ha HC. unfold copy_at. replace (Z.to_nat (p + a)) with (length A + Z.to_nat a)%nat by lia.
  rewrite take_app_add, <- Nat.add_assoc, drop_app_add, <- !app_assoc. f_equal.
  rewrite take_app_le by lia. f_equal. f_equal. destruct HC as [HC| ->].
  - by rewrite drop_app_le by lia.
  - by rewrite !app_nil_r.
Qed.

(** *** Contents *)
Section Data.
Variables (ds : Z) (P : Z -> list Z) (l : list Z).
Hypothesis Hfill : forall b, b ∈ l -> 0 <= fill_at ds (P b) <= ds.
Hypothesis Hlen : forall b, b ∈ l -> ds <= Z.of_nat (length (P b)).

Lemma length_piece b : b ∈ l -> Z.of_nat (length (piece ds (P b))) = fill_at ds (P b).
Proof. intros Hb. specialize (Hfill b Hb). specialize (Hlen b Hb). apply length_bytes_at; lia. Qed.
End Data.

Lemma length_data ds P l : (forall b, b ∈ l -> 0 <= fill_at ds (P b) <= ds) ->
  (forall b, b ∈ l -> ds <= Z.of_nat (length (P b))) -> Z.of_nat (length (data_of ds P l)) = used ds P l.
Proof.
  induction l as [|b l IH]; intros Hf Hl; [done|]. unfold data_of in *. cbn [map concat]. rewrite length_app, used_cons.
  rewrite Nat2Z.inj_add, IH by set_solver. rewrite (length_piece ds P (b :: l)); [done|done|done|left].
Qed.

Lemma used_full ds P l : (forall b, b ∈ l -> fill_at ds (P b) = ds) -> used ds P l = Z.of_nat (length l) * ds.
Proof.
  induction l as [|b l IH]; intros Hf; [done|]. rewrite used_cons, IH by set_solver. rewrite (Hf b) by left. cbn [length]. lia.
Qed.

Section Files.
Context {D : Type} `{KBlockSure D}.
Implicit Types K : BattFsSuper D.

(** The content of a file, and the files of the disk. *)
Definition content (F : Z -> list Z) K (i : Z) : list Z := data_of (data_size K) (pgs K) (F i).

Lemma page_len age F free K b : fs_ok age F free K -> 0 <= b < cnt K ->
  Z.of_nat (length (pgs K b)) = data_size K + BATTFS_HEADER_LEN.
Proof. intros [K1 K2 _ _ _ _ _ _ _ _ _] Hb. rewrite <- K2. by apply length_pg. Qed.

Lemma page_in age F free K i b : fs_ok age F free K -> is_byte i -> b ∈ F i -> 0 <= b < cnt K.
Proof.
  intros Hk Hi [o E]%list_elem_of_lookup. by destruct (fs_page _ _ _ _ _ _ _ Hk Hi E).
Qed.

Lemma length_content age F free K i : fs_ok age F free K -> is_byte i ->
  Z.of_nat (length (content F K i)) = used (data_size K) (pgs K) (F i).
Proof.
  intros Hk Hi. apply length_data.
  - intros b Hb. by eapply fills.
  - intros b Hb. rewrite (page_len _ _ _ _ b Hk); [unfold BATTFS_HEADER_LEN; lia|]. by eapply page_in.
Qed.

(** All pages before a page are full. *)
Lemma used_before age F free K i o : fs_ok age F free K -> is_byte i -> (o < length (F i))%nat ->
  used (data_size K) (pgs K) (take o (F i)) = Z.of_nat o * data_size K.
Proof.
  intros Hk Hi Ho. rewrite used_full.
  - rewrite length_take. f_equal. lia.
  - intros b (k & E & Hl)%elem_of_take.
    destruct (p_owns _ _ _ _ _ _ _ (fs_pages _ _ _ _ Hk) i k b Hi E) as (h & Eh & _ & _ & _ & _ & Hf).
    unfold fill_at. rewrite Eh. apply Hf. lia.
Qed.

(** The size of a file and its last page. *)
Lemma used_last age F free K i b : fs_ok age F free K -> is_byte i -> last (F i) = Some b ->
  used (data_size K) (pgs K) (F i)
  = (Z.of_nat (length (F i)) - 1) * data_size K + fill_at (data_size K) (pgs K b).
Proof.
  intros Hk Hi Hl. pose proof Hl as Hl2. rewrite last_lookup in Hl2. pose proof (lookup_lt_Some _ _ _ Hl2).
  rewrite (file_split F i (Init.Nat.pred (length (F i)))) at 1 by lia.
  rewrite Hl2, drop_ge by lia. rewrite !used_app, used_option, (used_before _ _ _ _ i _ Hk) by (done || lia).
  replace (Z.of_nat (Init.Nat.pred (length (F i)))) with (Z.of_nat (length (F i)) - 1) by lia.
  change (used _ _ []) with 0. lia.
Qed.

Lemma writeHdr_wrote K np hdr : sure (bdev K) -> blk_size (bdev K) = data_size K + BATTFS_HEADER_LEN ->
  0 < data_size K -> 0 <= np < cnt K -> exists b',
    writeHdr K np hdr = (true, set_bdev b' K) /\
    wrote np (copy_at (pgs K np) (data_size K) (battfs_to_disk (sealed hdr))) (bdev K) b'.
Proof.
  intros Hs Hsz Hds Hnp. unfold writeHdr. change (mkHdr _ _ _ _ _) with (sealed hdr).
  destruct (kblock_write_wrote (bdev K) np (battfs_to_disk (sealed hdr)) (data_size K) Hs Hnp) as (b' & -> & Hw);
    [lia|done|rewrite length_disk, Hsz; unfold BATTFS_HEADER_LEN; lia|].
  rewrite length_disk. by exists b'.
Qed.

(** What a written page means for the files: everything but its own is as it was. *)
Record effect (age : Z) (F : Z -> list Z) K0 (age' : Z) (i : Z) (o : nat) (np : Z) (free' : list Z) (Q : list Z) K' : Prop := {
  e_ok : fs_ok age' (newF F i o np) free' K';
  e_data : content (newF F i o np) K' i
    = data_of (data_size K0) (pgs K0) (take o (F i)) ++ piece (data_size K0) Q ++
      data_of (data_size K0) (pgs K0) (drop (S o) (F i));
  e_used : used (data_size K') (pgs K') (newF F i o np i)
    = used (data_size K0) (pgs K0) (F i) - old_fill K0 F i o + fill_at (data_size K0) Q;
  e_others j : is_byte j -> j <> i -> newF F i o np j = F j /\ content (newF F i o np) K' j = content F K0 j /\
    used (data_size K') (pgs K') (F j) = used (data_size K0) (pgs K0) (F j);
  e_live b : b ∈ live F -> F i !! o <> Some b -> pgs K' b = pgs K0 b;
  e_same : data_size K' = data_size K0 /\ cnt K' = cnt K0
}.

Lemma finish_file age age' F free K0 free' K i o np Q K' h :
  ready age F free K0 free' K i o np -> wrote np Q (bdev K) (bdev K') ->
  hdr_at (data_size K0) Q = Some h -> inode h = i -> pgoff h = Z.of_nat o ->
  old_seq K0 F i o < seq h -> 0 <= seq h <= age' -> age <= age' < 32768 -> 0 <= fill h <= data_size K0 ->
  ((S o < length (F i))%nat -> fill h = data_size K0) ->
  (o = length (F i) -> forall b, last (F i) = Some b -> fill_at (data_size K0) (pgs K0 b) = data_size K0) ->
  data_size K' = data_size K -> page_array K' = page_array K -> free_page_start K' = free_page_start K ->
  disk_size K' = disk_size K -> free_bytes K' = free_bytes K + old_fill K0 F i o - fill h ->
  effect age F K0 age' i o np free' Q K'.
Proof.
  intros Hr Hw Hh H1' H2' H3' H4' H5' H6' H7' H8' Eds Epa Eps Edk Efb.
  destruct (finish _ age' _ _ _ _ _ _ _ _ _ _ h Hr Hw) as (Hok & Hq & Hlv2); try done.
  pose proof Hr as [Hk Hi Ho Hall _ _ Hds _ _ _ _ _ _ _ _]. destruct (fs_nodup _ _ _ _ Hk) as [Hnd _].
  assert (Hd' : data_size K' = data_size K0) by congruence.
  split; [done| | | |exact Hlv2|].
  - unfold content. rewrite Hd', (data_newF _ (pgs K0)) by done. by rewrite Hq.
  - rewrite Hd'. unfold newF. rewrite upd_file_same. rewrite (file_split F i o Ho) at 3.
    rewrite !used_app, used_cons, used_option, Hq. unfold old_fill.
    rewrite (used_ext _ (pgs K0) (pgs K') (take o (F i))), (used_ext _ (pgs K0) (pgs K') (drop (S o) (F i)));
      [lia|intros b Hb; apply Hlv2; apply (rest_other F i o b Hnd Hi); tauto..].
  - intros j Hj Hne. assert (newF F i o np j = F j) as E by (by apply upd_file_other).
    assert (HE : forall b, b ∈ F j -> pgs K' b = pgs K0 b).
    { intros b [k Ek]%list_elem_of_lookup. apply Hlv2; [apply live_elem; by exists j, k|].
      intros E'. by destruct (live_inj F j k i o b Hnd Hj Hi Ek E'). }
    split_and!; [done|unfold content; rewrite Hd', E; by apply data_ext|rewrite Hd'; by apply used_ext].
  - split; [done|]. pose proof (r_same _ _ _ _ _ _ _ _ _ Hr) as [_ _ _ _ Sc]. pose proof (w_same _ _ _ _ Hw) as [_ _ _ _ Sc2].
    unfold cnt. congruence.
Qed.

(** ** An open file *)
Record file_at (F : Z -> list Z) K (f : BattFs) : Prop := {
  a_byte : is_byte (f_inode f);
  a_some : F (f_inode f) <> [];
  a_start : start f = start_of F (f_inode f);
  a_max : max_off f = Z.of_nat (length (F (f_inode f))) - 1;
  a_size : file_size (fd f) = used (data_size K) (pgs K) (F (f_inode f));
  a_seek : -2147483648 <= seek_pos (fd f) < 2147483648
}.

Lemma last_full age F free K f : fs_ok age F free K -> file_at F K f ->
  exists b, F (f_inode f) !! Z.to_nat (max_off f) = Some b /\ last (F (f_inode f)) = Some b /\
    Z.of_nat (length (F (f_inode f))) = max_off f + 1 /\ 0 <= max_off f < 32768 /\
    0 <= fill_at (data_size K) (pgs K b) <= data_size K /\
    file_size (fd f) = max_off f * data_size K + fill_at (data_size K) (pgs K b).
Proof.
  intros Hk [A1 A2 A3 A4 A5 A6]. set (i := f_inode f) in *. destruct (last (F i)) as [b|] eqn:El; [|by apply last_None in El].
  exists b. pose proof (used_last _ _ _ _ _ _ Hk A1 El) as Hu. rewrite last_lookup in El. pose proof (lookup_lt_Some _ _ _ El).
  replace (Z.to_nat (max_off f)) with (Init.Nat.pred (length (F i))) by lia.
  pose proof (fills _ _ _ _ i b Hk A1 (list_elem_of_lookup_2 _ _ _ El)).
  pose proof (start_of_le F i A1). pose proof (pages_len _ _ _ _ Hk). pose proof (fs_cnt _ _ _ _ Hk).
  rewrite A4, A5, Hu. split_and!; try done; lia.
Qed.

Lemma set_seek_same f n : seek_pos (fd f) = n -> set_seek n f = f.
Proof. intros <-. by destruct f as [? [] ? ? ? ? ?]. Qed.

Lemma file_seek F K f n : file_at F K f -> -2147483648 <= n < 2147483648 -> file_at F K (set_seek n f).
Proof. intros [A1 A2 A3 A4 A5 A6] Hn. by split. Qed.

Lemma no_space np age F free K : fs_ok age F free K -> 0 <= np < cnt K -> (np =? NO_SPACE) = false.
Proof.
  intros [_ _ _ K4 _ _ _ _ _ _ _] Hnp. apply Z.eqb_neq. unfold NO_SPACE, PAGE_UNSET_SENTINEL. lia.
Qed.

Lemma no_room age F K : fs_ok age F [] K -> free_page_start K = cnt K.
Proof.
  intros Hk. pose proof (pages_len _ _ _ _ Hk) as Hl. rewrite (fs_start _ _ _ _ Hk). cbn in Hl. lia.
Qed.

Lemma buffered_somewhere K page : buffered_elsewhere K page = true -> kblock_buffered (bdev K) = true.
Proof. unfold buffered_elsewhere. by intros [? _]%andb_prop. Qed.

(** The page of a file that [page_of] finds. *)
Lemma page_of_file age F free K f o b : fs_ok age F free K -> is_byte (f_inode f) -> start f = start_of F (f_inode f) ->
  F (f_inode f) !! o = Some b -> page_of K f (Z.of_nat o) = b.
Proof. intros Hk Hi Hs E. unfold page_of. rewrite Hs. by destruct (fs_page _ _ _ _ _ _ _ Hk Hi E). Qed.

(** A page of a file: in place, or as a copy in another block. *)
Inductive again (age : Z) (F : Z -> list Z) (free : list Z) K (f : BattFs) (o : nat) (old : Z) : bool -> Prop :=
| again_here : ready age F free K free K (f_inode f) o old -> again age F free K f o old false
| again_full : free = [] -> renewPage K old = (NO_SPACE, K) -> again age F free K f o old true
| again_copy np fr Kr b : free = np :: fr -> renewPage K old = (np, Kr) -> (np =? NO_SPACE) = false ->
    page_of Kr f (Z.of_nat o) = old -> kblock_copy (bdev Kr) old np = (0, b) ->
    ready age F free K (fr ++ [old]) (set_page (set_bdev b Kr) f (Z.of_nat o) np) (f_inode f) o np ->
    pgs (set_page (set_bdev b Kr) f (Z.of_nat o) np) np = pgs K old ->
    file_opened_list (set_page (set_bdev b Kr) f (Z.of_nat o) np) = file_opened_list K ->
    again age F free K f o old true.

Lemma page_again age F free K f o old : fs_ok age F free K -> is_byte (f_inode f) -> start f = start_of F (f_inode f) ->
  F (f_inode f) !! o = Some old ->
  page_of K f (Z.of_nat o) = old /\ exists b' h, quiet (bdev K) b' /\
    let K' := set_bdev b' K in
    readHdr K old = (Some h, K') /\ page_of K' f (Z.of_nat o) = old /\ inode h = f_inode f /\ pgoff h = Z.of_nat o /\
    fill h = old_fill K' F (f_inode f) o /\ next_seq h = mkHdr (inode h) (fill h) (pgoff h) (old_seq K' F (f_inode f) o + 1) (fcs h) /\
    fs_ok age F free K' /\ forall page, again age F free K' f o old (buffered_elsewhere K' page).
Proof.
  intros Hk Hi Hst Eold. set (i := f_inode f) in *. split; [by apply (page_of_file _ _ _ _ _ _ _ Hk Hi Hst Eold)|].
  destruct (readHdr_page _ _ _ _ _ _ _ Hk Hi Eold) as (b' & h & Hq & Er & Eh & Ehi & Eho & Hs & Hfl & _).
  pose proof (quiet_ok _ _ _ _ _ Hk Hq) as Hk'. pose proof (fs_age _ _ _ _ Hk). exists b', h. split; [done|]. intros K'.
  split_and!; try done.
  - by apply (page_of_file _ _ _ _ _ _ _ Hk' Hi Hst Eold).
  - unfold old_fill. rewrite Eold. unfold K' at 2. rewrite quiet_pgs by done. unfold fill_at. cbn. by rewrite Eh.
  - unfold next_seq, old_seq. rewrite Eold. unfold K' at 2. rewrite quiet_pgs by done. unfold seq_at.
    cbn [data_size set_bdev K']. rewrite Eh. f_equal. apply Z.mod_small. lia.
  - intros page. destruct (buffered_elsewhere K' page) eqn:Ebuf.
    + apply buffered_somewhere in Ebuf. destruct free as [|np fr].
      * apply again_full; [done|]. by apply renew_full; eapply no_room.
      * destruct (ready_again age F np fr K' i o old f Hk' Hi Eold Ebuf Hst) as (Kr & b & E & Eb & Epo & Ec & Hr & Hp & Hfi).
        pose proof (ready_np _ _ _ _ _ _ _ _ _ Hr) as Hnp.
        eapply (again_copy _ _ _ _ _ _ _ np fr Kr b); try done; [by eapply no_space|by rewrite Eb].
    + apply again_here. apply (ready_here age F free K' i o old b'); [done|done|done|]. apply quiet_refl. by destruct Hq.
Qed.

(** What [write_target] finds. *)
Record target_ok (age : Z) (F : Z -> list Z) (free : list Z) K (f : BattFs) (o : nat) (np : Z) (hdr : BattFsPageHeader)
    K1 (f1 : BattFs) (free' : list Z) K0 : Prop := {
  t_quiet : exists b', quiet (bdev K) b' /\ K0 = set_bdev b' K;
  t_ready : ready age F free K0 free' K1 (f_inode f) o np;
  t_inode : inode hdr = f_inode f;
  t_pgoff : pgoff hdr = Z.of_nat o;
  t_fill : fill hdr = old_fill K0 F (f_inode f) o;
  t_seq : seq hdr = old_seq K0 F (f_inode f) o + 1;
  t_copy old : F (f_inode f) !! o = Some old -> pgs K1 np = pgs K0 old;
  t_file : if decide (o = length (F (f_inode f)))
    then f1 = set_max_off (Z.of_nat o) f /\ file_opened_list K1 = moved (f_inode f) (file_opened_list K)
    else f1 = f /\ file_opened_list K1 = file_opened_list K
}.

Lemma write_target_ok age F free K f o : fs_ok age F free K -> file_at F K f -> (o <= length (F (f_inode f)))%nat ->
  exists r K1 f1, write_target K f (Z.of_nat o) = (r, K1, f1) /\
    match r with
    | None => free = [] /\ f1 = add_error BATTFS_DISK_SPACEOVER_ERR f /\
        exists b', quiet (bdev K) b' /\ K1 = set_bdev b' K
    | Some (np, hdr) => exists K0 free', target_ok age F free K f o np hdr K1 f1 free' K0
    end.
Proof.
  intros Hk [Hi Hsome Hst Hmax Hsize Hseek] Ho. set (i := f_inode f) in *.
  assert (Hlen : (0 < length (F i))%nat) by (destruct (F i); [done|cbn; lia]).
  pose proof Hk as [K1 K2 K3 K4 K5 K6 K7 K8 K9 K10 K11]. pose proof (start_of_le F i Hi).
  pose proof (pages_len _ _ _ _ Hk) as Hpl. unfold write_target. rewrite Hmax.
  assert (Hself : bdev K = bdev (set_bdev (bdev K) K)) by done.
  destruct (Z.of_nat o >? Z.of_nat (length (F i)) - 1) eqn:Eo.
  - assert (Eo' : o = length (F i)) by lia. rewrite Hst, u16_small by lia.
    destruct free as [|np fr].
    + rewrite allocate_full by (by eapply no_room). change (NO_SPACE =? NO_SPACE) with true. cbv iota.
      eexists None, _, _. split; [done|]. split_and!; [done|done|]. exists (bdev K). split; [by apply quiet_refl|by destruct K].
    + destruct (ready_new age F np fr K i Hk Hi) as (K' & E & Hr & Hf & Hb). rewrite <- Eo' in E, Hr. fold i. rewrite E.
      pose proof (ready_np _ _ _ _ _ _ _ _ _ Hr) as Hnp. rewrite (no_space _ _ _ _ _ Hk Hnp).
      eexists (Some _), _, _. split; [done|]. exists K, fr.
      assert (EN : F i !! o = None) by (apply lookup_ge_None; lia).
      split; try done.
      * exists (bdev K). split; [by apply quiet_refl|by destruct K].
      * unfold old_fill. fold i. by rewrite EN.
      * unfold old_seq. fold i. by rewrite EN.
      * fold i. intros old. by rewrite EN.
      * fold i. by rewrite decide_True.
  - destruct (lookup_lt_is_Some_2 (F i) o ltac:(lia)) as [old Eold].
    destruct (page_again _ _ _ _ _ _ _ Hk Hi Hst Eold) as (-> & b' & h & Hq & HK'). fold i in HK'. set (K' := set_bdev b' K) in *.
    destruct HK' as (-> & Epo & Ehi & Eho & Ef & -> & Hk' & Hag).
    specialize (Hag (page_of K' f (Z.of_nat (length (F i)) - 1))). rewrite Epo.
    destruct Hag as [Hr|Hfr Er|np fr Kr b Hfr Er Hnp Epo' Ec Hr Hp Hfi].
    + eexists (Some _), _, _. split; [done|]. exists K', free. split; try done.
      * by exists b'.
      * fold i. intros old' E. rewrite Eold in E. by injection E as <-.
      * fold i. rewrite decide_False by lia. done.
    + rewrite Er. change (NO_SPACE =? NO_SPACE) with true. cbv iota.
      eexists None, _, _. split; [done|]. split_and!; [done|done|]. by exists b'.
    + rewrite Er, Hnp, Epo', Ec. cbn [negb Z.eqb].
      eexists (Some _), _, _. split; [done|]. exists K', (fr ++ [old]). split; try done.
      * by exists b'.
      * fold i. intros old' E. rewrite Eold in E. injection E as <-. exact Hp.
      * fold i. rewrite decide_False by lia. done.
Qed.

Lemma quiet_content F K b' i : quiet (bdev K) b' -> content F (set_bdev b' K) i = content F K i.
Proof. intros Hq. unfold content. apply data_ext. intros b _. by apply quiet_pgs. Qed.

Lemma quiet_used (F : Z -> list Z) K b' i : quiet (bdev K) b' ->
  used (data_size K) (pgs (set_bdev b' K)) (F i) = used (data_size K) (pgs K) (F i).
Proof. intros Hq. apply used_ext. intros b _. by apply quiet_pgs. Qed.

Lemma quiet_file F K b' f : quiet (bdev K) b' -> file_at F K f -> file_at F (set_bdev b' K) f.
Proof.
  intros Hq [A1 A2 A3 A4 A5 A6]. split; try done. rewrite A5. symmetry. exact (quiet_used F K b' (f_inode f) Hq).
Qed.

(** The open files of the others. *)
Definition others_at (F : Z -> list Z) K (i : Z) : Prop :=
  Forall (fun g => f_inode g <> i -> file_at F K g) (file_opened_list K).

Lemma quiet_others F K b' i : quiet (bdev K) b' -> others_at F K i -> others_at F (set_bdev b' K) i.
Proof.
  unfold others_at. intros Hq Ho. eapply Forall_impl; [exact Ho|]. intros g Hg Hne. by apply quiet_file, Hg.
Qed.

Lemma start_newF F i o np j : 0 <= i -> 0 <= j -> (o <= length (F i))%nat ->
  start_of (newF F i o np) j
  = start_of F j + (if (i <? j) && bool_decide (o = length (F i)) then 1 else 0).
Proof.
  intros Hi Hj Ho. unfold newF. rewrite start_of_upd by done. rewrite length_app, length_take. cbn [length].
  rewrite length_drop. destruct (i <? j); cbn [andb]; [|done].
  destruct (bool_decide _) eqn:E; [apply bool_decide_eq_true in E|apply bool_decide_eq_false in E]; lia.
Qed.

Lemma others_kept age F K0 age' i o np free' Q K' l : is_byte i -> (o <= length (F i))%nat ->
  effect age F K0 age' i o np free' Q K' ->
  Forall (fun g => f_inode g <> i -> file_at F K0 g) l ->
  Forall (fun g => f_inode g <> i -> file_at (newF F i o np) K' g)
    (if decide (o = length (F i)) then moved i l else l).
Proof.
  intros Hi Ho He Hl. unfold is_byte in Hi.
  assert (HG : forall g n, f_inode g <> i -> file_at F K0 g ->
    n = start g + (if (i <? f_inode g) && bool_decide (o = length (F i)) then 1 else 0) ->
    file_at (newF F i o np) K' (set_start n g)).
  { intros g n Hne [A1 A2 A3 A4 A5 A6] Hn. destruct (e_others _ _ _ _ _ _ _ _ _ _ He _ A1 Hne) as (E1 & _ & E3).
    split; cbn [set_start f_inode start max_off fd]; rewrite ?E1; try done; [|congruence].
    rewrite start_newF, <- A3 by (unfold is_byte in A1; done || lia). done. }
  assert (Hid : forall g, set_start (start g) g = g) by (by intros []).
  destruct (decide (o = length (F i))) as [Eo|Eo].
  - unfold moved. apply Forall_fmap. eapply Forall_impl; [exact Hl|]. intros g Hg. unfold compose. cbn beta in *.
    destruct (f_inode g >? i) eqn:E; intros Hne; cbn [set_start f_inode] in Hne.
    + apply HG; [done|by apply Hg|]. rewrite bool_decide_eq_true_2 by done. destruct (Z.ltb_spec i (f_inode g)); [done|lia].
    + rewrite <- (Hid g). apply HG; [done|by apply Hg|]. destruct (Z.ltb_spec i (f_inode g)); [lia|cbn; lia].
  - eapply Forall_impl; [exact Hl|]. intros g Hg Hne. rewrite <- (Hid g). apply HG; [done|by apply Hg|].
    rewrite bool_decide_eq_false_2 by done. rewrite andb_false_r. lia.
Qed.

(** There is room for a full page in the place of the one that is written. *)
Lemma room_bytes age F free K0 free' K i o np : ready age F free K0 free' K i o np ->
  data_size K0 <= free_bytes K0 + old_fill K0 F i o <= cnt K0 * data_size K0 + data_size K0 /\
  0 <= old_fill K0 F i o <= data_size K0.
Proof.
  intros [Hk Hi Ho Hall _ _ _ _ _ _ _ _ _ _ _]. pose proof Hk as [_ _ K3 K4 _ _ _ _ K9 _ _].
  pose proof (fun l => used_live _ _ _ _ l Hk) as HB.
  destruct (fs_nodup _ _ _ _ Hk) as [Hnd _].
  assert (HE : forall b, b ∈ part F 0 i \/ b ∈ take o (F i) \/ b ∈ drop (S o) (F i) \/ b ∈ part F (i + 1) (255 - i) -> b ∈ live F)
    by (intros b Hb; by apply (rest_other F i o b Hnd Hi)).
  pose proof (HB (part F 0 i) ltac:(intros; apply HE; tauto)) as B1.
  pose proof (HB (take o (F i)) ltac:(intros; apply HE; tauto)) as B2.
  pose proof (HB (drop (S o) (F i)) ltac:(intros; apply HE; tauto)) as B3.
  pose proof (HB (part F (i + 1) (255 - i)) ltac:(intros; apply HE; tauto)) as B4.
  pose proof (HB (live F) ltac:(done)) as B5.
  assert (Hof : 0 <= old_fill K0 F i o <= data_size K0).
  { unfold old_fill. destruct (F i !! o) eqn:E; [|lia]. eapply fills; [exact Hk|exact Hi|]. by eapply list_elem_of_lookup_2. }
  split; [|done]. pose proof (Permutation_length Hall) as HL. rewrite length_app, length_seqZ in HL.
  unfold newF in HL. rewrite live_upd, !length_app in HL by done. cbn [length] in HL.
  assert (Eu : used (data_size K0) (pgs K0) (live F)
    = used (data_size K0) (pgs K0) (part F 0 i) + (used (data_size K0) (pgs K0) (take o (F i)) + (old_fill K0 F i o +
      used (data_size K0) (pgs K0) (drop (S o) (F i)))) + used (data_size K0) (pgs K0) (part F (i + 1) (255 - i))).
  { rewrite (live_at F i Hi). rewrite (file_split F i o Ho) at 1. rewrite !used_app, used_option. unfold old_fill. lia. }
  rewrite K9, Eu. nia.
Qed.

(** Bytes written into the filled part of a page, or right behind it. *)
Lemma piece_written ds Q0 a f0 l hd : Z.of_nat (length Q0) = ds + 12 -> 0 <= a <= f0 -> f0 <= ds ->
  a + Z.of_nat (length l) <= ds -> length hd = 12%nat ->
  bytes_at (copy_at (copy_at Q0 a l) ds hd) 0 (Z.max f0 (a + Z.of_nat (length l))) = copy_at (bytes_at Q0 0 f0) a l.
Proof.
  intros HQ Ha Hf Hl Hhd. rewrite bytes_at_copy_out by (rewrite ?length_copy_at; lia).
  unfold bytes_at, copy_at. cbn [drop Z.to_nat].
  rewrite take_take, Nat.min_l by lia. rewrite skipn_firstn_comm.
  replace (Z.to_nat (Z.max f0 (a + Z.of_nat (length l))))
    with (length (take (Z.to_nat a) Q0) + (length l + (Z.to_nat f0 - (Z.to_nat a + length l))))%nat
    by (rewrite length_take; lia).
  rewrite drop_0, take_app_add, take_app_add. done.
Qed.

(** Nothing, or something, was written to the block. *)
Definition wrote_some (np : Z) (Q : list Z) (b b' : KBlock D) : Prop :=
  (b' = b /\ Q = pg b np) \/ wrote np Q b b'.

Lemma wrote_some_trans np Q Q' b1 b2 b3 : wrote_some np Q b1 b2 -> wrote np Q' b2 b3 -> wrote np Q' b1 b3.
Proof. intros [[-> _]|Hw] Hw'; [done|]. by eapply wrote_trans. Qed.

(** The header goes to the block that is ready, behind the data. *)
Lemma page_effect age F free K0 free' K1 i o np Q1 K2 hdr :
  ready age F free K0 free' K1 i o np -> wrote_some np Q1 (bdev K1) (bdev K2) -> data_size K2 = data_size K0 ->
  inode hdr = i -> pgoff hdr = Z.of_nat o -> old_seq K0 F i o < seq hdr -> 0 <= seq hdr <= age ->
  0 <= fill hdr <= data_size K0 -> ((S o < length (F i))%nat -> fill hdr = data_size K0) ->
  (o = length (F i) -> forall b, last (F i) = Some b -> fill_at (data_size K0) (pgs K0 b) = data_size K0) ->
  let Q := copy_at Q1 (data_size K0) (battfs_to_disk (sealed hdr)) in
  exists b, writeHdr K2 np hdr = (true, set_bdev b K2) /\ fill_at (data_size K0) Q = fill hdr /\
    Z.of_nat (length Q1) = data_size K0 + 12 /\
    forall K', bdev K' = b -> data_size K' = data_size K1 -> page_array K' = page_array K1 ->
      free_page_start K' = free_page_start K1 -> disk_size K' = disk_size K1 ->
      free_bytes K' = free_bytes K1 + old_fill K0 F i o - fill hdr ->
      effect age F K0 age i o np free' Q K'.
Proof.
  intros Hr Hw Eds Ehi Eho Hold Hseq Hfill Hfull Hlast Q. pose proof (ready_np _ _ _ _ _ _ _ _ _ Hr) as Hnp.
  pose proof Hr as [Hk Hi Ho Hall Hpa Hst Hds _ _ Hsu Hsm _ _ _ _]. pose proof Hk as [K1' K2' K3' K4' K5' _ _ _ _ _ _].
  pose proof Hsm as [_ _ _ Sz Sc]. unfold cnt in *.
  assert (HQ : sure (bdev K2) /\ same (bdev K1) (bdev K2) /\ pg (bdev K2) np = Q1).
  { destruct Hw as [[-> ->]|[W1 W2 W3 _ _ _]]; [|done]. split_and!; [done|apply same_refl|done]. }
  destruct HQ as (Hsu2 & [_ _ _ Sz2 Sc2] & HQ).
  assert (Hlen : Z.of_nat (length Q1) = data_size K0 + 12).
  { rewrite <- HQ, length_pg by (done || lia). rewrite Sz2, Sz, K2'. done. }
  destruct (writeHdr_wrote K2 np hdr Hsu2) as (b & E & Hwh); [rewrite Sz2, Sz; congruence|lia|unfold cnt; lia|].
  assert (Hoff : Z.of_nat o < 32768).
  { pose proof (Permutation_length Hall) as HL. rewrite length_app, length_seqZ in HL.
    unfold newF in HL. rewrite live_upd, !length_app, length_take in HL by done. cbn [length] in HL. lia. }
  assert (Hh : hdr_at (data_size K0) Q = Some (sealed hdr)).
  { apply hdr_at_written; [lia|exact Hlen|]. split; cbn [sealed inode fill pgoff seq fcs]; unfold is_byte, is_u16 in *; try lia.
    apply computeFcs_u16. }
  exists b. split; [exact E|]. split; [unfold fill_at; by rewrite Hh|]. split; [exact Hlen|].
  intros K' Eb E1 E2 E3 E4 E5.
  apply (finish_file age age F free K0 free' K1 i o np Q K' (sealed hdr)); try done; try lia.
  rewrite Eb. eapply wrote_some_trans; [exact Hw|]. unfold pgs in Hwh. rewrite HQ, Eds in Hwh. exact Hwh.
Qed.

(** The pages from [q] on have not been written in this call. *)
Definition young (F : Z -> list Z) K (i : Z) (q : nat) (age : Z) : Prop :=
  forall o b, F i !! o = Some b -> (q <= o)%nat -> seq_at (data_size K) (pgs K b) < age.

Lemma young_quiet F K b' i q age : quiet (bdev K) b' -> young F K i q age -> young F (set_bdev b' K) i q age.
Proof. intros Hq Hy o b E Ho. rewrite quiet_pgs by done. by apply (Hy o b). Qed.

Lemma young_next age F K0 age' i o np free' Q K' : is_byte i -> (o <= length (F i))%nat ->
  effect age F K0 age' i o np free' Q K' -> data_size K' = data_size K0 ->
  NoDup (live F) -> young F K0 i o age' -> young (newF F i o np) K' i (S o) age'.
Proof.
  intros Hi Ho He Ed Hnd' Hy o1 b E Hle.
  rewrite newF_else in E by (done || (right; lia)).
  assert (pgs K' b = pgs K0 b) as ->.
  { apply (e_live _ _ _ _ _ _ _ _ _ _ He); [apply live_elem; by exists i, o1|].
    intros E'. destruct (live_inj F i o1 i o b Hnd' Hi Hi E E'). lia. }
  rewrite Ed. apply (Hy o1 b E). lia.
Qed.

(** What the others see of an open file. *)
Definition handle (f : BattFs) : Z * Z * KFilePos := (self f, f_inode f, fd f).

(** What a call has done, after [n] bytes. *)
Record written (age : Z) (F : Z -> list Z) K (f : BattFs) (l : list Z) (n : Z) (F' : Z -> list Z) (free' : list Z) K' (f' : BattFs) : Prop := {
  x_ok : fs_ok age F' free' K';
  x_file : file_at F' K' f';
  x_same : self f' = self f /\ f_inode f' = f_inode f /\ f_mode f' = f_mode f;
  x_seek : seek_pos (fd f') = seek_pos (fd f) + n;
  x_len : 0 <= n <= Z.of_nat (length l);
  x_data : content F' K' (f_inode f) = copy_at (content F K (f_inode f)) (seek_pos (fd f)) (take (Z.to_nat n) l);
  x_else j : is_byte j -> j <> f_inode f -> F' j <> [] <-> F j <> [];
  x_content j : is_byte j -> j <> f_inode f -> content F' K' j = content F K j;
  x_others : others_at F' K' (f_inode f);
  x_list : map handle (file_opened_list K') = map handle (file_opened_list K);
  x_size : data_size K' = data_size K /\ cnt K' = cnt K;
  x_all : n = Z.of_nat (length l) /\ errors f' = errors f \/
    n < Z.of_nat (length l) /\ free' = [] /\ errors f' = Z.lor (errors f) BATTFS_DISK_SPACEOVER_ERR
}.

Lemma moved_self i l : map handle (moved i l) = map handle l.
Proof. unfold moved. rewrite map_map. apply map_ext. intros g. by destruct (f_inode g >? i). Qed.

(** No file is larger than the disk. *)
Lemma file_cap age F free K i : fs_ok age F free K -> is_byte i ->
  0 <= used (data_size K) (pgs K) (F i) <= cnt K * data_size K.
Proof.
  intros Hk Hi. pose proof (start_of_le F i Hi). pose proof (pages_len _ _ _ _ Hk).
  pose proof (fs_ds _ _ _ _ Hk). assert (HB : 0 <= used (data_size K) (pgs K) (F i) <= Z.of_nat (length (F i)) * data_size K).
  { apply used_bound. intros b Hb. by eapply fills. }
  split; [lia|]. transitivity (Z.of_nat (length (F i)) * data_size K); [lia|]. apply Z.mul_le_mono_nonneg_r; lia.
Qed.

(** The page of a position in the file, or at its end. *)
Lemma position_in age F free K f : fs_ok age F free K -> file_at F K f ->
  0 <= seek_pos (fd f) <= file_size (fd f) ->
  let ds := data_size K in let pos := seek_pos (fd f) in let o := Z.to_nat (pos / ds) in let i := f_inode f in
  Z.of_nat o = pos / ds /\ u16 (Z.quot pos ds) = Z.of_nat o /\ u16 (Z.rem pos ds) = pos mod ds /\
  pos = Z.of_nat o * ds + pos mod ds /\ 0 <= pos mod ds < ds /\ (o <= length (F i))%nat /\
  pos mod ds <= old_fill K F i o /\ ((S o < length (F i))%nat -> old_fill K F i o = ds) /\
  (o = length (F i) -> pos = file_size (fd f) /\ forall b, last (F i) = Some b -> fill_at ds (pgs K b) = ds).
Proof.
  intros Hk [A1 A2 A3 A4 A5 A6] Hpos ds pos o i. pose proof Hk as [_ _ K3 K4 _ _ _ _ _ _ K11].
  fold i in A1, A2, A5. fold ds in K3, A5, K11. fold pos in Hpos, A6.
  pose proof (Z.mod_pos_bound pos ds ltac:(lia)) as Hm. pose proof (Z.div_mod pos ds ltac:(lia)) as Hdm.
  pose proof (Z.div_pos pos ds ltac:(lia) ltac:(lia)).
  destruct (last (F i)) as [b|] eqn:El; [|by apply last_None in El].
  pose proof (used_last _ _ _ _ _ _ Hk A1 El) as Hu. fold ds in Hu.
  pose proof El as El2. rewrite last_lookup in El2. pose proof (lookup_lt_Some _ _ _ El2) as Hlen.
  pose proof (fills _ _ _ _ i b Hk A1 (list_elem_of_lookup_2 _ _ _ El2)) as Hfb. fold ds in Hfb.
  assert (Hcap : Z.of_nat (length (F i)) <= cnt K).
  { pose proof (start_of_le F i A1). pose proof (pages_len _ _ _ _ Hk). lia. }
  assert (Ho : Z.of_nat o = pos / ds) by lia.
  assert (Hol : (o <= length (F i))%nat).
  { apply Nat2Z.inj_le. rewrite Ho. apply Z.div_le_upper_bound; lia. }
  rewrite <- Ho in Hdm |- *.
  split_and!; try done; try lia.
  - rewrite Z.quot_div_nonneg, u16_small by lia. lia.
  - rewrite Z.rem_mod_nonneg, u16_small by lia. done.
  - unfold old_fill. destruct (F i !! o) as [b1|] eqn:E1.
    + destruct (p_owns _ _ _ _ _ _ _ (fs_pages _ _ _ _ Hk) i o b1 A1 E1) as (h & Eh & _ & _ & _ & Hf & Hfull).
      fold ds in Eh, Hf, Hfull |- *. unfold fill_at. rewrite Eh. pose proof (lookup_lt_Some _ _ _ E1).
      destruct (decide (S o < length (F i))%nat) as [Hl|Hl]; [rewrite Hfull by done; lia|].
      assert (Init.Nat.pred (length (F i)) = o) as Ep by lia. rewrite Ep, E1 in El2. injection El2 as <-.
      unfold fill_at in Hu. rewrite Eh in Hu. replace (Z.of_nat (length (F i)) - 1) with (Z.of_nat o) in Hu by lia. lia.
    + apply lookup_ge_None in E1. assert (Z.of_nat o = Z.of_nat (length (F i))) as Eo by lia. rewrite Eo in Hdm. lia.
  - intros Hl. unfold old_fill. destruct (F i !! o) as [b1|] eqn:E1; [|apply lookup_ge_None in E1; lia].
    destruct (p_owns _ _ _ _ _ _ _ (fs_pages _ _ _ _ Hk) i o b1 A1 E1) as (h & Eh & _ & _ & _ & _ & Hfull).
    unfold fill_at. fold ds in Eh, Hfull |- *. rewrite Eh. by apply Hfull.
  - intros Eo. rewrite Eo in Hdm. split; [lia|]. intros b' Eb'. assert (b' = b) as -> by congruence. lia.
Qed.

(** *** One turn of the writing loop *)

(** The content after a page was written, and the file. *)
Lemma content_written age F free K0 free' K1 i o np Q1 K' a l hdr base :
  effect age F K0 age i o np free' (copy_at Q1 (data_size K0) (battfs_to_disk (sealed hdr))) K' ->
  fs_ok age F free K0 -> is_byte i -> (o <= length (F i))%nat -> ready age F free K0 free' K1 i o np ->
  (forall old, F i !! o = Some old -> base = pgs K0 old) ->
  Q1 = copy_at base a l -> Z.of_nat (length base) = data_size K0 + 12 -> 0 <= a <= old_fill K0 F i o ->
  a + Z.of_nat (length l) <= data_size K0 -> ((S o < length (F i))%nat -> old_fill K0 F i o = data_size K0) ->
  (o = length (F i) -> forall b, last (F i) = Some b -> fill_at (data_size K0) (pgs K0 b) = data_size K0) ->
  fill_at (data_size K0) (copy_at Q1 (data_size K0) (battfs_to_disk (sealed hdr)))
    = Z.max (old_fill K0 F i o) (a + Z.of_nat (length l)) ->
  content (newF F i o np) K' i = copy_at (content F K0 i) (Z.of_nat o * data_size K0 + a) l.
Proof.
  intros He Hk Hi Ho Hr Hbase HQ1 Hlb Ha Hl Hfull Hlast Hfill. pose proof (room_bytes _ _ _ _ _ _ _ _ _ Hr) as [_ Hof].
  rewrite (e_data _ _ _ _ _ _ _ _ _ _ He). unfold piece at 1. rewrite Hfill, HQ1.
  rewrite (piece_written (data_size K0) base a (old_fill K0 F i o) l) by (done || lia).
  assert (EC : content F K0 i = data_of (data_size K0) (pgs K0) (take o (F i)) ++
    bytes_at base 0 (old_fill K0 F i o) ++ data_of (data_size K0) (pgs K0) (drop (S o) (F i))).
  { unfold content. rewrite (file_split F i o Ho) at 1. rewrite !data_app. f_equal. f_equal. unfold old_fill.
    destruct (F i !! o) as [old|] eqn:E; [|done]. rewrite (Hbase old eq_refl). unfold data_of. cbn. apply app_nil_r. }
  rewrite EC. symmetry. apply copy_at_mid.
  - rewrite length_data.
    + destruct (decide (o < length (F i))%nat); [by apply (used_before _ _ _ _ i o Hk)|].
      assert (Eo : o = length (F i)) by lia. rewrite take_ge by lia. destruct (last (F i)) as [b|] eqn:El.
      * rewrite (used_last _ _ _ _ _ _ Hk Hi El), (Hlast Eo b eq_refl). rewrite Eo. lia.
      * apply last_None in El. rewrite Eo, El. done.
    + intros b (k & E & _)%elem_of_take. eapply fills; [exact Hk|exact Hi|]. by eapply list_elem_of_lookup_2.
    + intros b (k & E & _)%elem_of_take. rewrite (page_len _ _ _ _ b Hk); [unfold BATTFS_HEADER_LEN; lia|].
      eapply page_in; [exact Hk|exact Hi|]. by eapply list_elem_of_lookup_2.
  - rewrite length_bytes_at by lia. lia.
  - rewrite length_bytes_at by lia. destruct (decide (S o < length (F i))%nat) as [Hs|Hs]; [left; rewrite Hfull by done; lia|].
    right. by rewrite drop_ge by lia.
Qed.

(** The file after it. *)
Lemma file_written age F K0 age' i o np free' Q K' f f' : effect age F K0 age' i o np free' Q K' ->
  file_at F K0 f -> i = f_inode f -> (o <= length (F i))%nat -> f_inode f' = i -> start f' = start f ->
  max_off f' = (if decide (o = length (F i)) then Z.of_nat o else max_off f) ->
  file_size (fd f') = file_size (fd f) - old_fill K0 F i o + fill_at (data_size K0) Q ->
  -2147483648 <= seek_pos (fd f') < 2147483648 -> file_at (newF F i o np) K' f'.
Proof.
  intros He [A1 A2 A3 A4 A5 A6] -> Ho Ei Est Emax Esz Hsk. pose proof (newF_length F (f_inode f) o np Ho) as Hl.
  split; rewrite ?Ei; try done.
  - intros E. rewrite E in Hl. cbn in Hl. lia.
  - rewrite Est, A3, start_newF by (unfold is_byte in A1; done || lia). by rewrite Z.ltb_irrefl, Z.add_0_r.
  - rewrite Emax, Hl. destruct (decide _); [lia|]. rewrite A4. destruct (F (f_inode f)); [done|]. cbn [length] in *. lia.
  - rewrite Esz, A5. symmetry. apply (e_used _ _ _ _ _ _ _ _ _ _ He).
Qed.

Lemma copy_at_app_end b p l1 l2 : 0 <= p <= Z.of_nat (length b) ->
  copy_at (copy_at b p l1) (p + Z.of_nat (length l1)) l2 = copy_at b p (l1 ++ l2).
Proof.
  intros Hp. unfold copy_at. assert (El : length (take (Z.to_nat p) b ++ l1) = Z.to_nat (p + Z.of_nat (length l1)))
    by (rewrite length_app, length_take; lia).
  rewrite (app_assoc (take _ b) l1), <- El, take_app_length, drop_app_add, drop_drop, length_app, <- !app_assoc.
  do 3 f_equal. f_equal. lia.
Qed.

Lemma quiet_cnt K b' : quiet (bdev K) b' -> cnt (set_bdev b' K) = cnt K.
Proof. intros [_ [_ _ _ _ Sc] _ _ _ _]. exact Sc. Qed.

Lemma written_nothing age F free K b' f : fs_ok age F free K -> file_at F K f -> others_at F K (f_inode f) ->
  quiet (bdev K) b' -> written age F K f [] 0 F free (set_bdev b' K) f.
Proof.
  intros Hk Hf Ho Hq. split; try done; try (cbn; lia).
  - by apply quiet_ok.
  - by apply quiet_file.
  - rewrite quiet_content, copy_at_nil by done. done.
  - intros. by apply quiet_content.
  - by apply quiet_others.
  - split; [done|by apply quiet_cnt].
Qed.

Lemma written_no_room age F K b' f l : fs_ok age F [] K -> file_at F K f -> others_at F K (f_inode f) ->
  quiet (bdev K) b' -> l <> [] -> written age F K f l 0 F [] (set_bdev b' K) (add_error BATTFS_DISK_SPACEOVER_ERR f).
Proof.
  intros Hk Hf Ho Hq Hne. split; try done; try (cbn; lia).
  - by apply quiet_ok.
  - destruct (quiet_file _ _ _ _ Hq Hf). by split.
  - rewrite quiet_content, copy_at_nil by done. done.
  - intros. by apply quiet_content.
  - by apply quiet_others.
  - split; [done|by apply quiet_cnt].
  - right. split_and!; [|done|done]. destruct l; [done|cbn; lia].
Qed.

Lemma written_app age F K f l1 l2 n F1 free1 K1 f1 F2 free2 K2 f2 :
  0 <= seek_pos (fd f) <= Z.of_nat (length (content F K (f_inode f))) ->
  written age F K f l1 (Z.of_nat (length l1)) F1 free1 K1 f1 -> written age F1 K1 f1 l2 n F2 free2 K2 f2 ->
  written age F K f (l1 ++ l2) (Z.of_nat (length l1) + n) F2 free2 K2 f2.
Proof.
  intros Hp [A1 A2 (S1 & S2 & S3) A4 A5 A6 A7 A8 A9 A10 [G1 G2] A12] [B1 B2 (T1 & T2 & T3) B4 B5 B6 B7 B8 B9 B10 [G3 G4] B12].
  rewrite S2 in *. split; rewrite ?length_app; try done; try lia.
  - rewrite B6, A4, A6, take_ge, copy_at_app_end by (done || lia). f_equal.
    replace (Z.to_nat (Z.of_nat (length l1) + n)) with (length l1 + Z.to_nat n)%nat by lia. by rewrite take_app_add.
  - intros j Hj Hne. rewrite B7, A7 by done. done.
  - intros j Hj Hne. rewrite B8, A8 by done. done.
  - congruence.
  - destruct A12 as [[_ E]|[? _]]; [|lia]. destruct B12 as [[-> E2]|(? & ? & E2)]; [left|right]; split_and!; try lia; try congruence.
Qed.

(** A page was written, for a piece [l] of the text that goes to it at [a]. *)
Lemma page_written age F free K b' free' K1 f o np Q1 K' f' a l hdr base :
  let i := f_inode f in let K0 := set_bdev b' K in let ds := data_size K in
  let Q := copy_at Q1 ds (battfs_to_disk (sealed hdr)) in
  fs_ok age F free K -> file_at F K f -> others_at F K i -> quiet (bdev K) b' ->
  ready age F free K0 free' K1 i o np -> effect age F K0 age i o np free' Q K' ->
  seek_pos (fd f) = Z.of_nat o * ds + a -> seek_pos (fd f) + Z.of_nat (length l) < 2147483648 ->
  (forall old, F i !! o = Some old -> base = pgs K old) -> Q1 = copy_at base a l ->
  Z.of_nat (length base) = ds + 12 -> 0 <= a <= old_fill K F i o -> a + Z.of_nat (length l) <= ds ->
  ((S o < length (F i))%nat -> old_fill K F i o = ds) ->
  (o = length (F i) -> forall b, last (F i) = Some b -> fill_at ds (pgs K b) = ds) ->
  fill_at ds Q = Z.max (old_fill K F i o) (a + Z.of_nat (length l)) ->
  self f' = self f /\ f_inode f' = i /\ f_mode f' = f_mode f /\ start f' = start f /\ errors f' = errors f ->
  max_off f' = (if decide (o = length (F i)) then Z.of_nat o else max_off f) ->
  fd f' = mkPos (seek_pos (fd f) + Z.of_nat (length l)) (file_size (fd f) + (fill_at ds Q - old_fill K F i o)) ->
  file_opened_list K' = (if decide (o = length (F i)) then moved i (file_opened_list K) else file_opened_list K) ->
  written age F K f l (Z.of_nat (length l)) (newF F i o np) free' K' f'.
Proof.
  intros i K0 ds Q Hk Hf Hoth Hq Hr He Hp Hmax Hbase HQ1 Hlb Ha Hl Hfull Hlast Hfill (M1 & M2 & M3 & M4 & M5) Mo Mf Ml.
  pose proof Hf as [A1 _ _ _ _ A6]. pose proof Hr as [Hk0 _ Hol _ _ _ _ _ _ _ _ _ _ _ _]. fold i in A1.
  assert (EP : forall b, pgs K0 b = pgs K b) by (by apply quiet_pgs).
  assert (Hof : old_fill K0 F i o = old_fill K F i o) by (unfold old_fill; destruct (F i !! o); [by rewrite EP|done]).
  split.
  - exact (e_ok _ _ _ _ _ _ _ _ _ _ He).
  - apply (file_written age F K0 age i o np free' Q _ f f' He); try done.
    + by apply quiet_file.
    + rewrite Mf, Hof. cbn [file_size K0 set_bdev data_size]. fold ds. lia.
    + rewrite Mf. cbn [seek_pos]. pose proof (a_seek _ _ _ Hf). lia.
  - done.
  - by rewrite Mf.
  - lia.
  - rewrite take_ge by lia. transitivity (copy_at (content F K0 i) (Z.of_nat o * data_size K0 + a) l).
    2:{ unfold K0. rewrite (quiet_content F K b' i Hq). by rewrite Hp. }
    apply (content_written age F free K0 free' K1 i o np Q1 _ a l hdr base He Hk0 A1 Hol Hr); try done.
    + intros old E. rewrite EP. by apply Hbase.
    + by rewrite Hof.
    + by rewrite Hof.
    + intros Eo b El. rewrite EP. by apply Hlast.
    + rewrite Hof. exact Hfill.
  - intros j Hj Hne'. destruct (e_others _ _ _ _ _ _ _ _ _ _ He j Hj Hne') as (-> & _). done.
  - intros j Hj Hne'. destruct (e_others _ _ _ _ _ _ _ _ _ _ He j Hj Hne') as (_ & -> & _). by apply quiet_content.
  - unfold others_at. rewrite Ml. fold i.
    apply (others_kept age F K0 age i o np free' Q _ _ A1 Hol He). by apply (quiet_others F K b' i).
  - rewrite Ml. destruct (decide (o = length (F i))); [apply moved_self|done].
  - destruct (e_same _ _ _ _ _ _ _ _ _ _ He) as [G1 G2]. split; [exact G1|]. rewrite G2. by apply quiet_cnt.
  - left. split; [done|exact M5].
Qed.

(** What a turn does with the page it got, without the failures. *)
Definition put_piece K f (np : Z) (hdr : BattFsPageHeader) (l : list Z) (a : Z) : option (BattFsSuper D * BattFs) :=
  let w := Z.of_nat (length l) in
  let '(n, b) := kblock_write (bdev K) np l a in
  if negb (n =? w) then None
  else
    let f := set_seek (i32 (seek_pos (fd f) + w)) f in
    let delta := u16 (Z.max (a + w - fill hdr) 0) in
    let K := set_bdev b K in
    let K := set_free_bytes (u32 (free_bytes K - delta)) K in
    let f := set_size (i32 (file_size (fd f) + delta)) f in
    let '(ok, K) := writeHdr K np (mkHdr (inode hdr) (u16 (fill hdr + delta)) (pgoff hdr) (seq hdr) (fcs hdr)) in
    if ok then Some (K, f) else None.

Section Turn.
Variables (K : BattFsSuper D) (f : BattFs) (l : list Z) (o : nat) (a : Z).
Let w := Z.min (Z.of_nat (length l)) (data_size K - a).
Hypothesis Hl : l <> [].
Hypothesis Ho : u16 (Z.quot (seek_pos (fd f)) (data_size K)) = Z.of_nat o.
Hypothesis Ha : u16 (Z.rem (seek_pos (fd f)) (data_size K)) = a.
Hypothesis Hds : 0 < data_size K < 65000.
Hypothesis Hin : 0 <= a < data_size K.

Lemma turn_none fuel K1 f1 : write_target K f (Z.of_nat o) = (None, K1, f1) -> write_loop (S fuel) K f l = (0, K1, f1).
Proof. intros Et. destruct l; [done|]. cbn [write_loop length]. by rewrite Ho, Et. Qed.

Lemma turn_some fuel np hdr K1 f1 K2 f2 : write_target K f (Z.of_nat o) = (Some (np, hdr), K1, f1) ->
  put_piece K1 f1 np hdr (take (Z.to_nat w) l) a = Some (K2, f2) ->
  write_loop (S fuel) K f l = let '(n, K', f') := write_loop fuel K2 f2 (drop (Z.to_nat w) l) in (w + n, K', f').
Proof.
  intros Et. assert (Hw : Z.of_nat (length (take (Z.to_nat w) l)) = w) by (rewrite length_take; lia).
  unfold put_piece. rewrite Hw. cbn [write_loop]. rewrite (proj2 (Z.eqb_neq (Z.of_nat (length l)) 0)) by (destruct l; done).
  rewrite Ho, Ha, (u16_small (data_size K - a)) by lia. fold w. rewrite Et.
  destruct (kblock_write _ _ _ _) as [n b]. destruct (n =? w); [cbn [negb]|done].
  destruct (writeHdr _ _ _) as [[] K4]; [|done]. by intros [= <- <-].
Qed.
End Turn.

Lemma quiet_old F K b' i o : quiet (bdev K) b' ->
  old_fill (set_bdev b' K) F i o = old_fill K F i o /\ old_seq (set_bdev b' K) F i o = old_seq K F i o.
Proof. intros Hq. unfold old_fill, old_seq. destruct (F i !! o); [by rewrite !quiet_pgs|done]. Qed.

(** The sequence number a page gets. *)
Lemma target_seq age F free K b' f o np hdr K1 f1 free' : fs_ok age F free K -> file_at F K f -> quiet (bdev K) b' ->
  target_ok age F free K f o np hdr K1 f1 free' (set_bdev b' K) -> young F K (f_inode f) o age ->
  old_seq (set_bdev b' K) F (f_inode f) o < seq hdr /\ 0 <= seq hdr <= age.
Proof.
  intros Hk Hf Hq Ht Hy. rewrite (t_seq _ _ _ _ _ _ _ _ _ _ _ _ Ht). split; [lia|].
  destruct (quiet_old F K b' (f_inode f) o Hq) as [_ ->]. unfold old_seq. pose proof (fs_age _ _ _ _ Hk).
  destruct (F (f_inode f) !! o) as [old|] eqn:E; [|lia]. pose proof (Hy o old E ltac:(lia)).
  destruct (p_owns _ _ _ _ _ _ _ (fs_pages _ _ _ _ Hk) _ o old (a_byte _ _ _ Hf) E) as (h & Eh & _ & _ & Hs & _).
  unfold seq_at in *. rewrite Eh in *. lia.
Qed.

Lemma target_same age F free K f o np hdr K1 f1 free' K0 : target_ok age F free K f o np hdr K1 f1 free' K0 ->
  self f1 = self f /\ f_inode f1 = f_inode f /\ f_mode f1 = f_mode f /\ start f1 = start f /\ errors f1 = errors f /\
  fd f1 = fd f /\ max_off f1 = (if decide (o = length (F (f_inode f))) then Z.of_nat o else max_off f) /\
  file_opened_list K1 = (if decide (o = length (F (f_inode f))) then moved (f_inode f) (file_opened_list K) else file_opened_list K).
Proof. intros Ht. pose proof (t_file _ _ _ _ _ _ _ _ _ _ _ _ Ht) as T. destruct (decide _); by destruct T as [-> ->]. Qed.

(** A piece of the text for page [o], where the page has its bytes or ends. *)
Record fits (F : Z -> list Z) K (f : BattFs) (o : nat) (a : Z) (l : list Z) : Prop := {
  s_pos : seek_pos (fd f) = Z.of_nat o * data_size K + a;
  s_off : (o <= length (F (f_inode f)))%nat;
  s_in : 0 <= a <= old_fill K F (f_inode f) o;
  s_len : 0 < Z.of_nat (length l) /\ a + Z.of_nat (length l) <= data_size K;
  s_full : (S o < length (F (f_inode f)))%nat -> old_fill K F (f_inode f) o = data_size K;
  s_last : o = length (F (f_inode f)) -> forall b, last (F (f_inode f)) = Some b -> fill_at (data_size K) (pgs K b) = data_size K;
  s_max : seek_pos (fd f) + Z.of_nat (length l) < 2147483648
}.

Lemma put_ok age F free K b' f o np hdr K1 f1 free' a l : let i := f_inode f in let K0 := set_bdev b' K in let ds := data_size K in
  fs_ok age F free K -> file_at F K f -> quiet (bdev K) b' -> target_ok age F free K f o np hdr K1 f1 free' K0 ->
  young F K i o age -> fits F K f o a l ->
  exists K2 hdr2, let Q := copy_at (copy_at (pg (bdev K1) np) a l) ds (battfs_to_disk (sealed hdr2)) in
    put_piece K1 f1 np hdr l a
      = Some (K2, set_fd (mkPos (seek_pos (fd f) + Z.of_nat (length l)) (file_size (fd f) + (fill_at ds Q - old_fill K F i o))) f1) /\
    effect age F K0 age i o np free' Q K2 /\ fill_at ds Q = Z.max (old_fill K F i o) (a + Z.of_nat (length l)) /\
    file_opened_list K2 = file_opened_list K1.
Proof.
  intros i K0 ds Hk Hf Hq Ht Hy [S1 S2 S3 [S4 S5] S6 S7 S8]. destruct (target_seq _ _ _ _ _ _ _ _ _ _ _ _ Hk Hf Hq Ht Hy) as [Q1 Q2].
  destruct (target_same _ _ _ _ _ _ _ _ _ _ _ _ Ht) as (_ & _ & _ & _ & _ & M5 & _).
  pose proof Ht as [_ Hr T3 T4 T5 T6 _ _]. fold i K0 in Hr, T3, T5, T6, Q1, S2, S3, S6, S7. fold ds in S5, S6, S7.
  destruct (quiet_old F K b' i o Hq) as [Hof _]. fold K0 in Hof. pose proof (ready_np _ _ _ _ _ _ _ _ _ Hr) as Hnp.
  pose proof (room_bytes _ _ _ _ _ _ _ _ _ Hr) as [Hroom Hofr]. rewrite Hof in *. change (data_size K0) with ds in *.
  pose proof Hr as [Hk0 _ _ _ _ _ Hds Hdk Hfb Hsu Hsm _ _ _ _]. pose proof Hsm as [_ _ _ Sz Sc].
  pose proof Hk0 as [_ Z2 Z3 Z4 _ _ _ _ _ _ Z11]. unfold cnt in Hnp. change (data_size K0) with ds in Z2, Z3, Z11, Hds.
  pose proof (a_seek _ _ _ Hf). set (w := Z.of_nat (length l)) in *.
  destruct (kblock_write_wrote (bdev K1) np l a Hsu) as (b1 & Ew & Hw1);
    [lia|lia|intros ->; unfold w in S4; cbn in S4; lia|rewrite Sz, Z2; unfold BATTFS_HEADER_LEN; lia|].
  unfold put_piece. rewrite Ew, M5. fold w. rewrite Z.eqb_refl. cbn [negb]. cbv zeta. rewrite T5.
  set (delta := Z.max _ 0). assert (Hfill : old_fill K F i o + delta = Z.max (old_fill K F i o) (a + w)) by lia.
  rewrite (u16_small delta), (u16_small (_ + delta)) by lia.
  set (hdr2 := mkHdr (inode hdr) (old_fill K F i o + delta) (pgoff hdr) (seq hdr) (fcs hdr)).
  set (K2 := set_free_bytes _ (set_bdev b1 K1)).
  destruct (page_effect age F free K0 free' K1 i o np _ K2 hdr2 Hr (or_intror Hw1)) as (b2 & Ewh & HfQ & _ & Heff);
    try done; try (cbn [hdr2 fill seq]; change (data_size K0) with ds; lia).
  { intros Eo b El. unfold K0. rewrite quiet_pgs by done. by apply S7. }
  rewrite Ewh. change (data_size K0) with ds in HfQ, Heff. cbn [hdr2 fill] in HfQ.
  assert (He : effect age F K0 age i o np free' (copy_at (copy_at (pg (bdev K1) np) a l) ds (battfs_to_disk (sealed hdr2))) (set_bdev b2 K2)).
  { apply Heff; try done. cbn [hdr2 fill K2 set_bdev set_free_bytes free_bytes]. rewrite Hof, Hfb, u32_small by lia. lia. }
  exists (set_bdev b2 K2), hdr2. split; [|split; [exact He|split; [by rewrite HfQ|done]]].
  pose proof (e_used _ _ _ _ _ _ _ _ _ _ He) as Hu. rewrite Hof in Hu. change (data_size K0) with ds in Hu. rewrite HfQ in *.
  change (used ds (pgs K0) (F i)) with (used (data_size K) (pgs (set_bdev b' K)) (F i)) in Hu.
  pose proof (a_size _ _ _ Hf) as Hz. rewrite (quiet_used F K b' i Hq) in Hu. fold i ds in Hz, Hu. rewrite <- Hz in Hu.
  pose proof (e_ok _ _ _ _ _ _ _ _ _ _ He) as Hk'. pose proof (file_cap _ _ _ _ i Hk' (a_byte _ _ _ Hf)). pose proof (fs_total _ _ _ _ Hk').
  unfold set_size, set_seek, set_fd. cbn [fd file_size seek_pos self f_inode f_mode start max_off errors]. rewrite M5, !i32_small by nia.
  do 4 f_equal. lia.
Qed.

Lemma write_turn age F free K f l : fs_ok age F free K -> file_at F K f -> others_at F K (f_inode f) ->
  0 <= seek_pos (fd f) <= file_size (fd f) -> l <> [] -> Z.of_nat (length l) < 65536 ->
  seek_pos (fd f) + Z.of_nat (length l) < 2147483648 ->
  young F K (f_inode f) (Z.to_nat (seek_pos (fd f) / data_size K)) age ->
  (exists K1 f1, (forall fuel, write_loop (S fuel) K f l = (0, K1, f1)) /\ free = [] /\ written age F K f l 0 F [] K1 f1) \/
  (exists w K1 f1 F1 free1, 0 < w <= Z.of_nat (length l) /\
    (forall fuel, write_loop (S fuel) K f l
      = let '(n, K', f') := write_loop fuel K1 f1 (drop (Z.to_nat w) l) in (w + n, K', f')) /\
    written age F K f (take (Z.to_nat w) l) w F1 free1 K1 f1 /\
    (w = Z.of_nat (length l) \/
      young F1 K1 (f_inode f) (Z.to_nat (seek_pos (fd f1) / data_size K1)) age)).
Proof.
  intros Hk Hf Hoth Hpos Hne Hlen Hmax Hy.
  destruct (position_in _ _ _ _ _ Hk Hf Hpos) as (Ho & E1 & E2 & Ep & Ha & Hol & Haf & Hfull & Hlast).
  set (o := Z.to_nat (seek_pos (fd f) / data_size K)) in *. set (a := seek_pos (fd f) mod data_size K) in *.
  pose proof (fs_ds _ _ _ _ Hk) as Kds. assert (Hl0 : (0 < length l)%nat) by (destruct l; [done|cbn; lia]).
  set (w := Z.min (Z.of_nat (length l)) (data_size K - a)). set (ch := take (Z.to_nat w) l).
  assert (Hch : Z.of_nat (length ch) = w) by (unfold ch; rewrite length_take; lia).
  assert (Hs : fits F K f o a ch) by (split; rewrite ?Hch; try done; try lia; intros Eo; by apply Hlast).
  destruct (write_target_ok _ _ _ _ _ o Hk Hf Hol) as ([[np hdr]|] & K1 & f1 & Et & Hr).
  2:{ left. destruct Hr as (-> & -> & b' & Hq & ->). eexists _, _. split; [intros fuel; by apply (turn_none K f l o a)|].
      split; [done|]. by apply written_no_room. }
  right. destruct Hr as (K0 & free' & Ht). destruct (t_quiet _ _ _ _ _ _ _ _ _ _ _ _ Ht) as (b' & Hq & ->).
  destruct (put_ok _ _ _ _ _ _ _ _ _ _ _ _ a ch Hk Hf Hq Ht Hy Hs) as (K2 & hdr2 & Eput & He & HfQ & Hls).
  destruct (target_same _ _ _ _ _ _ _ _ _ _ _ _ Ht) as (M1 & M2 & M3 & M4 & M5 & M6 & M7 & M8).
  pose proof (t_ready _ _ _ _ _ _ _ _ _ _ _ _ Ht) as Hready. destruct Hs as [_ _ S3 S4 S5 S6 S7].
  eexists w, K2, _, _, free'. split; [lia|]. split; [intros fuel; by apply (turn_some K f l o a Hne E1 E2 Kds Ha fuel np hdr K1 f1 K2)|].
  split.
  - fold ch. rewrite <- Hch at 1. apply (page_written age F free K b' free' K1 f o np _ K2 _ a ch hdr2 (pg (bdev K1) np) Hk Hf Hoth Hq Hready He); try done.
    + intros old E. rewrite <- (quiet_pgs K b' Hq old). exact (t_copy _ _ _ _ _ _ _ _ _ _ _ _ Ht old E).
    + pose proof (r_same _ _ _ _ _ _ _ _ _ Hready) as [_ _ _ Sz Sc]. pose proof (ready_np _ _ _ _ _ _ _ _ _ Hready) as Hnp.
      rewrite (length_pg (bdev K1) np (r_sure _ _ _ _ _ _ _ _ _ Hready)) by (unfold cnt in Hnp; lia).
      pose proof (fs_size _ _ _ _ (r_ok _ _ _ _ _ _ _ _ _ Hready)) as Z2. rewrite Sz, Z2. done.
    + lia.
    + by rewrite Hls, M8.
  - destruct (decide (w = Z.of_nat (length l))) as [|Hne']; [by left|right].
    destruct (e_same _ _ _ _ _ _ _ _ _ _ He) as [Ed _]. cbn [data_size set_bdev] in Ed. cbn [fd set_fd seek_pos].
    rewrite Ed, Hch. replace (seek_pos (fd f) + w) with ((Z.of_nat o + 1) * data_size K) by lia. rewrite Z.div_mul by lia.
    replace (Z.to_nat (Z.of_nat o + 1)) with (S o) by lia. destruct (fs_nodup _ _ _ _ Hk) as [Hnd _].
    apply (young_next age F (set_bdev b' K) age (f_inode f) o np free' _ _ (a_byte _ _ _ Hf) Hol He); [done|done|]. by apply young_quiet.
Qed.

Lemma set_bdev_id K : set_bdev (bdev K) K = K.
Proof. by destruct K. Qed.

Lemma write_loop_ok fuel age F free K f l : fs_ok age F free K -> file_at F K f -> others_at F K (f_inode f) ->
  0 <= seek_pos (fd f) <= file_size (fd f) -> (length l <= fuel)%nat -> Z.of_nat (length l) < 65536 ->
  seek_pos (fd f) + Z.of_nat (length l) < 2147483648 ->
  young F K (f_inode f) (Z.to_nat (seek_pos (fd f) / data_size K)) age ->
  exists n F' free' K' f', write_loop fuel K f l = (n, K', f') /\ written age F K f l n F' free' K' f'.
Proof.
  revert F free K f l. induction fuel as [|fuel IH]; intros F free K f l Hk Hf Ho Hpos Hfu Hlen Hmax Hy.
  { destruct l; [|cbn in Hfu; lia]. exists 0, F, free, K, f. split; [done|]. rewrite <- (set_bdev_id K) at 2.
    apply written_nothing; [done|done|done|]. apply quiet_refl, (fs_sure _ _ _ _ Hk). }
  destruct (decide (l = [])) as [->|Hne].
  { exists 0, F, free, K, f. split; [done|]. rewrite <- (set_bdev_id K) at 2.
    apply written_nothing; [done|done|done|]. apply quiet_refl, (fs_sure _ _ _ _ Hk). }
  destruct (write_turn age F free K f l Hk Hf Ho Hpos Hne Hlen Hmax Hy)
    as [(K1 & f1 & E & -> & Hw)|(w & K1 & f1 & F1 & free1 & Hw1 & E & Hw & Hy1)].
  { exists 0, F, [], K1, f1. by rewrite E. }
  pose proof Hw as [W1 W2 (_ & W3 & _) W4 _ W6 _ _ W9 _ _ _].
  assert (Hl1 : Z.of_nat (length (take (Z.to_nat w) l)) = w) by (rewrite length_take; lia).
  assert (Hcap : 0 <= seek_pos (fd f) <= Z.of_nat (length (content F K (f_inode f)))).
  { rewrite (length_content _ _ _ _ _ Hk) by apply Hf. by rewrite <- (a_size _ _ _ Hf). }
  assert (Hsz : seek_pos (fd f1) <= file_size (fd f1)).
  { pose proof (a_byte _ _ _ Hf) as Hb.
    rewrite (a_size _ _ _ W2), W3, <- (length_content _ _ _ _ _ W1 Hb), W6, W4. unfold copy_at.
    rewrite !length_app, !length_take, length_drop. lia. }
  assert (Hd : Z.of_nat (length (drop (Z.to_nat w) l)) = Z.of_nat (length l) - w) by (rewrite length_drop; lia).
  destruct (decide (w = Z.of_nat (length l))) as [Ew|Ew].
  - exists w, F1, free1, K1, f1. assert (drop (Z.to_nat w) l = []) as Ed by (apply drop_ge; lia).
    assert (E2 : write_loop fuel K1 f1 [] = (0, K1, f1)) by (by destruct fuel).
    split; [rewrite E, Ed, E2; f_equal; [f_equal; lia]|]. by rewrite take_ge in Hw by lia.
  - destruct (IH F1 free1 K1 f1 (drop (Z.to_nat w) l)) as (n & F2 & free2 & K2 & f2 & E2 & Hw2);
      rewrite ?W3; try done; try lia.
    { destruct Hy1 as [?|Hy1]; [done|exact Hy1]. }
    exists (w + n), F2, free2, K2, f2. split; [by rewrite E, E2|].
    rewrite <- (take_drop (Z.to_nat w) l). rewrite <- Hl1 at 3.
    eapply written_app; [done|rewrite Hl1; exact Hw|exact Hw2].
Qed.
End Files.
