(* ===== verification/BattFsWrite.v ===== *)
(** * BattFS, writing at any position

    A position behind the end of the file: the gap is filled with zeros, first
    in the last page, then in new ones.  A write there is a write at the end,
    with the zeros in front ([battfs_write_ok]). *)

From Stdlib Require Import ZArith Lia Bool List Permutation.
From stdpp Require Import prelude.
From S2P Require Import Prelude KFile KBlock KBlockSure BattFs BattFsPages BattFsInv BattFsFiles.

Open Scope Z_scope.

Section Write.
Context {D : Type} `{KBlockSure D}.
Implicit Types K : BattFsSuper D.

(** ** Zeros in a page *)

Lemma wrote_some_next np Q Q' b1 b2 b3 : wrote np Q b1 b2 -> wrote_some np Q' b2 b3 -> wrote np Q' b1 b3.
Proof. intros Hw [[-> ->]|Hw2]; [|by eapply wrote_trans]. by rewrite (w_here _ _ _ _ Hw). Qed.

Lemma zero_byte K np off : sure (bdev K) -> blk_size (bdev K) = data_size K + BATTFS_HEADER_LEN ->
  0 <= np < cnt K -> 0 <= off < data_size K ->
  exists b, kblock_write (bdev K) np [0] off = (1, b) /\ wrote np (copy_at (pgs K np) off [0]) (bdev K) b.
Proof.
  intros Hs Hsz Hnp Hoff. apply (kblock_write_wrote (bdev K) np [0] off Hs Hnp); [lia|done|].
  cbn [length]. unfold BATTFS_HEADER_LEN in Hsz. lia.
Qed.

Lemma zeros_step base off n : 0 <= off -> off + Z.of_nat (S n) <= Z.of_nat (length base) ->
  copy_at (copy_at base off [0]) (off + 1) (zeros n) = copy_at base off (zeros (S n)).
Proof.
  intros Ho Hl. change (zeros (S n)) with ([0] ++ zeros n). rewrite copy_at_app; [done|lia|].
  unfold zeros. rewrite length_replicate. cbn [length]. lia.
Qed.

Lemma zero_fill_ok n K f hdr np : sure (bdev K) -> blk_size (bdev K) = data_size K + BATTFS_HEADER_LEN ->
  0 <= np < cnt K -> 0 <= fill hdr -> fill hdr + Z.of_nat n <= data_size K < 65000 ->
  Z.of_nat n <= free_bytes K < 4294967296 -> 0 <= file_size (fd f) -> file_size (fd f) + Z.of_nat n < 2147483648 ->
  exists b, zero_fill n K f hdr np
    = (true, set_free_bytes (free_bytes K - Z.of_nat n) (set_bdev b K), set_size (file_size (fd f) + Z.of_nat n) f,
       mkHdr (inode hdr) (fill hdr + Z.of_nat n) (pgoff hdr) (seq hdr) (fcs hdr)) /\
    wrote_some np (copy_at (pgs K np) (fill hdr) (zeros n)) (bdev K) b.
Proof.
  revert K f hdr. induction n as [|n IH]; intros K f hdr Hs Hsz Hnp Hf0 Hf1 Hfb Hz0 Hz1.
  - exists (bdev K). split; [|left; split; [done|by apply copy_at_nil]]. cbn [zero_fill].
    rewrite !Z.add_0_r, Z.sub_0_r. destruct K, f as [? [] ? ? ? ? ?], hdr; done.
  - destruct (zero_byte K np (fill hdr) Hs Hsz Hnp ltac:(lia)) as (b & E & Hw). cbn [zero_fill]. rewrite E.
    cbn [negb Z.eqb Pos.eqb set_bdev free_bytes]. rewrite u32_small, i32_small, u16_small by lia.
    destruct Hw as [W1 W2 W3 W4 W5 W6] eqn:EW. clear EW. pose proof W2 as [_ _ _ Sz Sc].
    set (K1 := set_free_bytes _ _). set (f1 := set_size _ f). set (h1 := mkHdr _ _ _ _ _).
    assert (cnt K1 = cnt K) as Ec by exact Sc. assert (blk_size (bdev K1) = blk_size (bdev K)) as Ez by exact Sz.
    destruct (IH K1 f1 h1) as (b2 & E2 & Hw2); rewrite ?Ec, ?Ez; try done;
      [unfold h1; cbn [fill]; lia|unfold h1; cbn [fill data_size K1 set_free_bytes set_bdev]; lia|
       cbn [free_bytes K1 set_free_bytes]; lia|unfold f1; cbn; lia|unfold f1; cbn; lia|].
    exists b2. rewrite E2. split.
    * unfold K1, f1, h1, set_size, set_fd, set_free_bytes, set_bdev. cbn.
      repeat match goal with |- (_, _) = (_, _) => f_equal end; try f_equal; try (f_equal; lia); lia.
    * right. eapply wrote_some_next; [by split|]. change (pgs K1 np) with (pg b np) in Hw2. unfold h1 in Hw2. cbn [fill] in Hw2.
      rewrite W3, zeros_step in Hw2; [done|lia|]. unfold pgs. rewrite length_pg, Hsz by done. unfold BATTFS_HEADER_LEN. lia.
Qed.

Lemma zero_page_ok n K np off : sure (bdev K) -> blk_size (bdev K) = data_size K + BATTFS_HEADER_LEN ->
  0 <= np < cnt K -> 0 <= off -> off + Z.of_nat n <= data_size K ->
  exists b, zero_page n K np off = (true, set_bdev b K) /\
    wrote_some np (copy_at (pgs K np) off (zeros n)) (bdev K) b.
Proof.
  revert K off. induction n as [|n IH]; intros K off Hs Hsz Hnp Ho Hn.
  - exists (bdev K). split; [cbn; by rewrite set_bdev_id|left; split; [done|by apply copy_at_nil]].
  - destruct (zero_byte K np off Hs Hsz Hnp ltac:(lia)) as (b & E & Hw). cbn [zero_page]. rewrite E.
    cbn [negb Z.eqb Pos.eqb]. destruct Hw as [W1 W2 W3 W4 W5 W6] eqn:EW. clear EW. pose proof W2 as [_ _ _ Sz Sc].
    destruct (IH (set_bdev b K) (off + 1)) as (b2 & E2 & Hw2); [done|by cbn; rewrite Sz|by unfold cnt; cbn; rewrite Sc|lia|cbn [set_bdev data_size]; lia|].
    exists b2. rewrite E2. split; [done|]. right. eapply wrote_some_next; [by split|].
    change (pgs (set_bdev b K) np) with (pg b np) in Hw2.
    rewrite W3, zeros_step in Hw2; [done|lia|]. unfold pgs. rewrite length_pg, Hsz by done. unfold BATTFS_HEADER_LEN. lia.
Qed.

(** ** Later *)

Lemma fs_later age age' F free K : fs_ok age F free K -> age <= age' < 32768 -> fs_ok age' F free K.
Proof.
  intros [K1 K2 K3 K4 K5 K6 K7 K8 K9 K10 K11] Ha. split; try done; [lia|]. destruct K8 as [P1 P2 P3]. split; try done.
  intros i o b Hi E. destruct (P2 i o b Hi E) as (h & ? & ? & ? & ? & ?). exists h. split_and!; try done; lia.
Qed.

Lemma fs_young age F free K i q : fs_ok age F free K -> is_byte i -> young F K i q (age + 1).
Proof.
  intros Hk Hi o b E _. destruct (p_owns _ _ _ _ _ _ _ (fs_pages _ _ _ _ Hk) i o b Hi E) as (h & Eh & _ & _ & Hs & _).
  unfold seq_at. rewrite Eh. lia.
Qed.

Lemma written_later age age' F K f l n F' free' K' f' : written age F K f l n F' free' K' f' -> age <= age' < 32768 ->
  written age' F K f l n F' free' K' f'.
Proof. intros [W1 ? ? ? ? ? ? ? ? ? ? ?] Ha. split; try done. by eapply fs_later. Qed.

(** ** Zeros behind the end *)

(** The file at its end. *)
Definition at_end (f : BattFs) : BattFs := set_seek (file_size (fd f)) f.

Lemma zeros_app n m : zeros (n + m) = zeros n ++ zeros m.
Proof. apply replicate_add. Qed.

Lemma zeros_over P n m : (m <= n)%nat -> Z.of_nat n <= Z.of_nat (length P) ->
  copy_at (copy_at P 0 (zeros n)) 0 (zeros m) = copy_at P 0 (zeros n).
Proof.
  intros Hm Hn. unfold copy_at, zeros. rewrite !length_replicate. cbn [Z.to_nat]. rewrite !take_0, !Nat.add_0_l. cbn [app].
  rewrite drop_app_le by (rewrite length_replicate; lia). rewrite drop_replicate, app_assoc, <- replicate_add.
  do 2 f_equal. lia.
Qed.

Lemma length_zeros n : length (zeros n) = n.
Proof. apply length_replicate. Qed.

(** The gap is filled, or the disk is full. *)
Definition gap_filled (age : Z) (F : Z -> list Z) K (f : BattFs) (r : bool * BattFsSuper D * BattFs) : Prop :=
  let gap := Z.to_nat (seek_pos (fd f) - file_size (fd f)) in
  exists F' free' K' f', seek_pos (fd f') = seek_pos (fd f) /\
    (r = (true, K', f') /\ written age F K (at_end f) (zeros gap) (Z.of_nat gap) F' free' K' (at_end f') \/
     exists m, m <= Z.of_nat gap /\ r = (false, K', f') /\
       forall l, l <> [] -> written age F K (at_end f) (zeros gap ++ l) m F' free' K' (at_end f')).

Lemma gap_filled_app age F K f zb F1 free1 K1 f1 r : 0 <= zb -> zb <= seek_pos (fd f) - file_size (fd f) ->
  0 <= file_size (fd f) <= Z.of_nat (length (content F K (f_inode f))) ->
  written age F K (at_end f) (zeros (Z.to_nat zb)) (Z.of_nat (length (zeros (Z.to_nat zb)))) F1 free1 K1 (at_end f1) ->
  seek_pos (fd f1) = seek_pos (fd f) -> file_size (fd f1) = file_size (fd f) + zb ->
  gap_filled age F1 K1 f1 r -> gap_filled age F K f r.
Proof.
  intros H1' H2' Hc HW Esk Esz (F' & free' & K' & f' & Es & HR). exists F', free', K', f'. split; [congruence|].
  assert (Egap : Z.to_nat (seek_pos (fd f) - file_size (fd f))
    = (Z.to_nat zb + Z.to_nat (seek_pos (fd f1) - file_size (fd f1)))%nat) by lia.
  rewrite Egap, zeros_app. set (g1 := Z.to_nat (seek_pos (fd f1) - file_size (fd f1))) in *.
  assert (Lzb : Z.of_nat (length (zeros (Z.to_nat zb))) = zb) by (rewrite length_zeros; lia).
  destruct HR as [[Er Hw]|(m & Hm & Er & Hw)].
  - left. split; [exact Er|]. replace (Z.of_nat (Z.to_nat zb + g1)) with (Z.of_nat (length (zeros (Z.to_nat zb))) + Z.of_nat g1) by lia.
    eapply written_app; [exact Hc|exact HW|exact Hw].
  - right. exists (zb + m). split; [lia|]. split; [exact Er|]. intros l Hne. rewrite <- app_assoc. rewrite <- Lzb at 2.
    eapply written_app; [exact Hc|exact HW|by apply Hw].
Qed.

(** One more page of zeros; the page before it is full. *)
Lemma blank_page age F np fr K i zb : fs_ok age F (np :: fr) K -> is_byte i -> 0 <= zb <= data_size K ->
  (forall b, last (F i) = Some b -> fill_at (data_size K) (pgs K b) = data_size K) ->
  let o := length (F i) in let hdr := mkHdr i zb (Z.of_nat o) 0 0 in
  exists Ka b1 b2 Q1, let K4 := set_free_bytes (u32 (free_bytes Ka - zb)) (set_bdev b2 Ka) in
    let Q := copy_at Q1 (data_size K) (battfs_to_disk (sealed hdr)) in
    allocateNewPage K (start_of F i + Z.of_nat o) i = (np, Ka) /\ data_size Ka = data_size K /\
    zero_page (Z.to_nat (data_size K)) Ka np 0 = (true, set_bdev b1 Ka) /\
    writeHdr (set_bdev b1 Ka) np hdr = (true, set_bdev b2 Ka) /\ file_opened_list K4 = moved i (file_opened_list K) /\
    ready age F (np :: fr) K fr Ka i o np /\ fill_at (data_size K) Q = zb /\ Z.of_nat (length Q1) = data_size K + 12 /\
    Q1 = copy_at Q1 0 (zeros (Z.to_nat zb)) /\ effect age F K age i o np fr Q K4.
Proof.
  intros Hk Hi Hzb Hlast o hdr. destruct (ready_new age F np fr K i Hk Hi) as (Ka & Ea & Hr & Hfo & Hbd). fold o in Ea, Hr.
  pose proof (ready_np _ _ _ _ _ _ _ _ _ Hr) as Hnp. pose proof Hr as [_ _ _ _ _ _ Hds Hdk Hby Hsu _ _ _ _ _].
  pose proof Hk as [_ Ksz Kds Kcnt Kage _ _ _ _ _ Ktot]. set (ds := data_size K) in *.
  assert (Hza : blk_size (bdev Ka) = data_size Ka + BATTFS_HEADER_LEN) by (rewrite Hbd, Hds; exact Ksz).
  assert (Hnpa : 0 <= np < blk_cnt (bdev Ka)) by (rewrite Hbd; exact Hnp).
  destruct (zero_page_ok (Z.to_nat ds) Ka np 0 Hsu Hza) as (b1 & Ez & Hw1); [exact Hnpa|lia|lia|].
  set (Q1 := copy_at (pgs Ka np) 0 (zeros (Z.to_nat ds))) in *.
  assert (Lp : Z.of_nat (length (pgs Ka np)) = ds + 12).
  { unfold pgs. rewrite length_pg, Hza by done. unfold BATTFS_HEADER_LEN. lia. }
  pose proof (room_bytes _ _ _ _ _ _ _ _ _ Hr) as [Hroom _]. assert (Hno : F i !! o = None) by (by apply lookup_ge_None).
  assert (Hof : old_fill K F i o = 0) by (unfold old_fill; by rewrite Hno). rewrite Hof in Hroom. fold ds in Hroom.
  destruct (page_effect age F (np :: fr) K fr Ka i o np Q1 (set_bdev b1 Ka) hdr Hr Hw1 Hds eq_refl eq_refl)
    as (b2 & Ew & HfQ & HlQ & Heff); try done.
  { unfold old_seq. rewrite Hno. cbn. lia. }
  { cbn. lia. }
  { intros Hs. fold o in Hs. lia. }
  exists Ka, b1, b2, Q1. cbv zeta. split_and!; try done.
  - symmetry. apply zeros_over; lia.
  - apply Heff; try done. cbn. rewrite Hof, Hby, u32_small by lia. lia.
Qed.

Lemma missing_page age F np fr K f zb : fs_ok age F (np :: fr) K -> file_at F K (at_end f) -> others_at F K (f_inode f) ->
  file_size (fd f) = (max_off f + 1) * data_size K -> 0 <= zb <= data_size K -> file_size (fd f) + zb < 2147483648 ->
  exists K4 f4,
    (forall n, zb = Z.min (data_size K) (seek_pos (fd f) - file_size (fd f)) -> missing_pages (S n) K f = missing_pages n K4 f4) /\
    written age F K (at_end f) (zeros (Z.to_nat zb)) (Z.of_nat (length (zeros (Z.to_nat zb))))
      (newF F (f_inode f) (length (F (f_inode f))) np) fr K4 (at_end f4) /\
    seek_pos (fd f4) = seek_pos (fd f) /\ file_size (fd f4) = file_size (fd f) + zb /\ max_off f4 = max_off f + 1 /\
    f_inode f4 = f_inode f /\ data_size K4 = data_size K.
Proof.
  intros Hk Hf Ho Hsz Hzb Hmax. destruct (last_full _ _ _ _ _ Hk Hf) as (bl & _ & El & Elen & Hmo & Hfl & Hszl).
  pose proof Hf as [A1 A2 A3 A4 A5 A6]. pose proof (fs_ds _ _ _ _ Hk) as Kds.
  change (f_inode (at_end f)) with (f_inode f) in *. change (start (at_end f)) with (start f) in *.
  change (max_off (at_end f)) with (max_off f) in *. change (file_size (fd (at_end f))) with (file_size (fd f)) in *.
  set (i := f_inode f) in *. set (ds := data_size K) in *. set (o := length (F i)) in *.
  pose proof (start_of_le F i A1). pose proof (pages_len _ _ _ _ Hk) as Hpl. pose proof (fs_cnt _ _ _ _ Hk).
  assert (Hlast : forall b, last (F i) = Some b -> fill_at ds (pgs K b) = ds) by (intros b Eb; rewrite El in Eb; injection Eb as <-; lia).
  destruct (blank_page age F np fr K i zb Hk A1 Hzb Hlast) as (Ka & b1 & b2 & Q1 & Ea & Hds & Ez & Ew & Hfo & Hr & HfQ & LQ & EQ & He).
  fold o ds in Ea, Ez, Ew, Hr, HfQ, LQ, He, Hds. pose proof (ready_np _ _ _ _ _ _ _ _ _ Hr) as Hnp.
  set (K4 := set_free_bytes _ _) in *. set (f1 := set_max_off (u16 (max_off f + 1)) f). set (f4 := set_size (i32 (file_size (fd f1) + zb)) f1).
  assert (Emo : max_off f1 = Z.of_nat o) by (cbn; rewrite u16_small; lia).
  assert (Hof : old_fill K F i o = 0) by (unfold old_fill; rewrite (proj2 (lookup_ge_None _ _)); done).
  assert (Ef4 : file_size (fd f4) = file_size (fd f) + zb) by (cbn; rewrite i32_small by lia; done).
  assert (Lzb : Z.of_nat (length (zeros (Z.to_nat zb))) = zb) by (rewrite length_zeros; lia).
  exists K4, f4. split; [|split].
  { intros n Hn. cbn [missing_pages]. fold ds. rewrite <- Hn, (u16_small zb), A3, u16_small by lia. fold i.
    replace (start_of F i + max_off f + 1) with (start_of F i + Z.of_nat o) by lia.
    rewrite Ea, (no_space _ _ _ _ _ Hk Hnp), Hds, Ez. cbn [negb].
    fold f1. change (f_inode f1) with i. by rewrite Emo, Ew. }
  { pose proof (page_written age F (np :: fr) K (bdev K) fr Ka (at_end f) o np Q1 K4 (at_end f4) 0 (zeros (Z.to_nat zb))
      (mkHdr i zb (Z.of_nat o) 0 0) Q1) as HP.
    cbv zeta in HP. rewrite set_bdev_id in HP. change (f_inode (at_end f)) with i in HP. fold ds in HP. fold o in HP.
    apply HP; try done; try lia; clear HP.
    - apply quiet_refl, (fs_sure _ _ _ _ Hk).
    - cbn. lia.
    - cbn [seek_pos fd at_end set_seek set_fd]. lia.
    - intros old E. apply lookup_lt_Some in E. fold o in E. lia.
    - by rewrite decide_True.
    - rewrite HfQ, Hof, Lzb. unfold at_end, set_seek, set_fd. cbn [fd seek_pos file_size]. rewrite Ef4. f_equal. lia.
    - rewrite decide_True by done. exact Hfo. }
  split_and!; try done. change (max_off f1 = max_off f + 1). lia.
Qed.

Lemma missing_pages_ok n age F free K f : fs_ok age F free K -> file_at F K (at_end f) -> others_at F K (f_inode f) ->
  0 <= seek_pos (fd f) - file_size (fd f) -> seek_pos (fd f) < 2147483648 ->
  (n = O -> seek_pos (fd f) = file_size (fd f)) ->
  (n <> O -> seek_pos (fd f) / data_size K = max_off f + Z.of_nat n /\ file_size (fd f) = (max_off f + 1) * data_size K) ->
  gap_filled age F K f (missing_pages n K f).
Proof.
  revert F free K f. induction n as [|n IH]; intros F free K f Hk Hf Ho Hgap Hmax H0n HSn.
  { specialize (H0n eq_refl). unfold gap_filled. rewrite H0n, Z.sub_diag. change (Z.to_nat 0) with O. exists F, free, K, f. split; [done|]. left. split; [done|].
    rewrite <- (set_bdev_id K) at 2. apply written_nothing; [done|done|done|]. apply quiet_refl, (fs_sure _ _ _ _ Hk). }
  clear H0n. destruct (HSn ltac:(done)) as [Hq Hsz]. clear HSn.
  destruct (last_full _ _ _ _ _ Hk Hf) as (bl & El1 & El & Elen & Hmo & Hfl & Hszl).
  change (file_size (fd (at_end f))) with (file_size (fd f)) in Hszl. change (f_inode (at_end f)) with (f_inode f) in *.
  change (max_off (at_end f)) with (max_off f) in *.
  set (i := f_inode f) in *. set (ds := data_size K) in *. pose proof Hf as [A1 A2 A3 A4 A5 A6]. fold i in A1, A2, A3, A4, A5.
  change (f_inode (at_end f)) with i in *. change (start (at_end f)) with (start f) in *.
  change (max_off (at_end f)) with (max_off f) in *. change (file_size (fd (at_end f))) with (file_size (fd f)) in *.
  pose proof Hk as [_ Ksz Kds Kcnt Kage _ _ _ _ _ Ktot]. fold ds in Ksz, Kds, Ktot.
  set (o := length (F i)) in *. pose proof (start_of_le F i A1). pose proof (pages_len _ _ _ _ Hk) as Hpl.
  set (zb := Z.min ds (seek_pos (fd f) - file_size (fd f))).
  destruct free as [|np fr].
  { cbn [missing_pages]. rewrite allocate_full by (by eapply no_room). change (NO_SPACE =? NO_SPACE) with true. cbv iota.
    exists F, [], K, (add_error BATTFS_DISK_SPACEOVER_ERR f). split; [done|]. right. exists 0. split; [lia|]. split; [done|].
    intros l Hne. rewrite <- (set_bdev_id K) at 2.
    apply (written_no_room age F K (bdev K) (at_end f)); [done|done|done|apply quiet_refl, (fs_sure _ _ _ _ Hk)|].
    destruct l; [done|]. by intros [_ E]%app_eq_nil. }
  destruct (missing_page age F np fr K f zb Hk Hf Ho Hsz) as (K4 & f4 & Em & HW & Esk & Ef4 & Emo & Ein & Eds); [lia|lia|].
  rewrite Em by done. fold i in HW. fold o in HW. fold ds in Eds.
  pose proof HW as [W1 W2 _ _ _ W6 _ _ W9 _ _ _].
  pose proof (Z.div_mod (seek_pos (fd f)) ds ltac:(lia)) as Hdm. pose proof (Z.mod_pos_bound (seek_pos (fd f)) ds ltac:(lia)).
  apply (gap_filled_app age F K f zb (newF F i o np) fr K4 f4); try done; try lia.
  { fold i. rewrite (length_content _ _ _ _ _ Hk A1), <- A5. lia. }
  apply (IH (newF F i o np) fr K4 f4); try done.
  - by rewrite Ein.
  - rewrite Ef4, Esk. lia.
  - rewrite Esk. lia.
  - intros ->. rewrite Ef4, Esk. rewrite Hq in Hdm. nia.
  - intros Hn. rewrite Eds, Ef4, Esk, Hq, Emo. rewrite Hq in Hdm. split; nia.
Qed.

(** The rest of the last page is filled, and its header written. *)
Lemma zeros_in_page age F free K b' free' K1 f o np old h zb :
  let i := f_inode f in let K0 := set_bdev b' K in let ds := data_size K in
  fs_ok (age + 1) F free K -> (forall b o, F i !! o = Some b -> seq_at ds (pgs K b) <= age) ->
  0 <= age -> file_at F K (at_end f) -> others_at F K i ->
  quiet (bdev K) b' -> ready (age + 1) F free K0 free' K1 i o np -> F i !! o = Some old -> Z.of_nat o = max_off f ->
  pgs K1 np = pgs K0 old -> file_opened_list K1 = file_opened_list K ->
  inode h = i -> pgoff h = Z.of_nat o -> fill h = old_fill K0 F i o ->
  next_seq h = mkHdr (inode h) (fill h) (pgoff h) (old_seq K0 F i o + 1) (fcs h) ->
  0 <= zb <= ds - fill h -> file_size (fd f) + zb < 2147483648 ->
  exists K2 h' K3, let f1 := set_size (file_size (fd f) + zb) f in
    zero_fill (Z.to_nat zb) K1 f h np = (true, K2, f1, h') /\ writeHdr K2 np (next_seq h') = (true, K3) /\
    data_size K3 = ds /\
    written (age + 1) F K (at_end f) (zeros (Z.to_nat zb)) (Z.of_nat (length (zeros (Z.to_nat zb))))
      (newF F i o np) free' K3 (at_end f1).
Proof.
  intros i K0 ds Hk Hy Hage Hf Hoth Hq Hr Eold Eo Hp Hl Ehi Eho Hfl Hsq Hzb Hmax.
  destruct (last_full _ _ _ _ _ Hk Hf) as (bl & El1 & El & Elen & Hmo & Hflb & Hszl). fold ds in Hflb, Hszl.
  change (f_inode (at_end f)) with i in *. change (max_off (at_end f)) with (max_off f) in *.
  change (file_size (fd (at_end f))) with (file_size (fd f)) in *. rewrite <- Eo, Nat2Z.id, Eold in El1. injection El1 as <-.
  pose proof Hf as [A1 _ _ A4 A5 _]. pose proof Hr as [Hk0 _ Hol _ _ _ Hds Hdk Hby Hsu Hsm _ _ _ _].
  pose proof (ready_np _ _ _ _ _ _ _ _ _ Hr) as Hnp. pose proof (room_bytes _ _ _ _ _ _ _ _ _ Hr) as [Hroom _].
  change (data_size K0) with ds in *. change (cnt K0) with (blk_cnt b') in *. pose proof Hq as [_ [_ _ _ Qz Qc] _ _ _ _].
  pose proof Hk as [_ Ksz Kds Kcnt Kage _ _ _ _ _ Ktot]. fold ds in Ksz, Kds, Ktot. pose proof Hsm as [_ _ _ Sz Sc].
  cbn [K0 set_bdev bdev] in Sz, Sc.
  assert (EP : forall b, pgs K0 b = pgs K b) by (by apply quiet_pgs).
  assert (Hof : old_fill K0 F i o = fill_at ds (pgs K old)) by (unfold old_fill; by rewrite Eold, EP).
  assert (Hof' : old_fill K F i o = fill_at ds (pgs K old)) by (unfold old_fill; by rewrite Eold).
  assert (Hos : old_seq K0 F i o = seq_at ds (pgs K old)) by (unfold old_seq; by rewrite Eold, EP).
  pose proof (Hy old o Eold) as Hy1.
  assert (Hsn : 0 <= old_seq K0 F i o).
  { rewrite Hos. destruct (p_owns _ _ _ _ _ _ _ (fs_pages _ _ _ _ Hk) i o old A1 Eold) as (h0 & Eh & _ & _ & Hs & _).
    fold ds in Eh. unfold seq_at. rewrite Eh. lia. }
  rewrite Hof in *. unfold cnt in Kcnt, Ktot, Hroom. assert (Eblk : blk_cnt (bdev K0) = blk_cnt (bdev K)) by exact Qc.
  destruct (zero_fill_ok (Z.to_nat zb) K1 f h np) as (b1 & Ez & Hw1); rewrite ?Hds; try done; try lia.
  { unfold cnt. rewrite Sc. lia. }
  set (h' := mkHdr _ _ _ _ _) in Ez. set (K2 := set_free_bytes _ _) in Ez. rewrite Z2Nat.id in Ez by lia.
  exists K2, h'. set (hdr := next_seq h').
  assert (Eh : hdr = mkHdr i (fill h + zb) (Z.of_nat o) (old_seq K0 F i o + 1) (fcs h)).
  { unfold hdr, next_seq in *. cbn [h' inode fill pgoff seq fcs]. injection Hsq as ->. by rewrite Ehi, Eho, Z2Nat.id by lia. }
  set (Q1 := copy_at (pgs K1 np) (fill h) (zeros (Z.to_nat zb))) in *.
  destruct (page_effect (age + 1) F free K0 free' K1 i o np Q1 K2 hdr Hr Hw1 Hds) as (b2 & Ew & HfQ & _ & Heff);
    rewrite ?Eh; cbn [inode fill pgoff seq]; try done; try lia.
  { change (data_size K0) with ds. lia. }
  rewrite <- Eh in *. change (data_size K0) with ds in *. rewrite Eh in HfQ at 2. cbn [fill] in HfQ.
  set (K3 := set_bdev b2 K2) in *. set (f1 := set_size _ f) in *. exists K3. split_and!; [done|exact Ew|exact Hds|].
  assert (He : effect (age + 1) F K0 (age + 1) i o np free' (copy_at Q1 ds (battfs_to_disk (sealed hdr))) K3).
  { apply Heff; try done. rewrite Hof, Eh. cbn. lia. }
  assert (Lz : Z.of_nat (length (zeros (Z.to_nat zb))) = zb) by (rewrite length_zeros; lia).
  assert (Hne : o <> length (F i)) by (apply lookup_lt_Some in Eold; lia).
  apply (page_written (age + 1) F free K b' free' K1 (at_end f) o np Q1 K3 (at_end f1) (fill h) (zeros (Z.to_nat zb)) hdr (pgs K1 np));
    try done; change (f_inode (at_end f)) with i; fold ds; rewrite ?Lz, ?Hof'; try done; try lia.
  - cbn. lia.
  - intros old' E. rewrite Eold in E. injection E as <-. by rewrite Hp, EP.
  - unfold pgs. rewrite length_pg by (done || lia). rewrite Sz, Qz, Ksz. done.
  - by rewrite decide_False.
  - unfold f1, at_end, set_size, set_seek, set_fd. cbn [fd seek_pos file_size]. rewrite HfQ. f_equal. lia.
  - by rewrite decide_False.
Qed.

(** What [fill_gap] does once the last page is ready. *)
Definition gap_rest K (f : BattFs) (h : BattFsPageHeader) (np : Z) : bool * BattFsSuper D * BattFs :=
  let zero_bytes := u16 (Z.min (seek_pos (fd f) - file_size (fd f)) (u16 (data_size K - fill h))) in
  let '(ok, K, f, h) := zero_fill (Z.to_nat zero_bytes) K f h np in
  if negb ok then (false, K, f)
  else
    let '(ok, K) := writeHdr K np (next_seq h) in
    if negb ok then (false, K, add_error BATTFS_DISK_WRITE_ERR f)
    else missing_pages (Z.to_nat (u16 (Z.quot (seek_pos (fd f)) (data_size K) - max_off f))) K f.

Lemma gap_rest_ok age F free K b' free' K1 f o np old h :
  let i := f_inode f in let K0 := set_bdev b' K in let ds := data_size K in
  fs_ok (age + 1) F free K -> (forall b o, F i !! o = Some b -> seq_at ds (pgs K b) <= age) ->
  0 <= age -> file_at F K (at_end f) -> others_at F K i ->
  quiet (bdev K) b' -> ready (age + 1) F free K0 free' K1 i o np -> F i !! o = Some old -> Z.of_nat o = max_off f ->
  pgs K1 np = pgs K0 old -> file_opened_list K1 = file_opened_list K ->
  inode h = i -> pgoff h = Z.of_nat o -> fill h = old_fill K0 F i o ->
  next_seq h = mkHdr (inode h) (fill h) (pgoff h) (old_seq K0 F i o + 1) (fcs h) ->
  file_size (fd f) < seek_pos (fd f) < 2147483648 -> seek_pos (fd f) / ds < 65536 ->
  gap_filled (age + 1) F K f (gap_rest K1 f h np).
Proof.
  intros i K0 ds Hk Hy Hage Hf Hoth Hq Hr Eold Eo Hp Hl Ehi Eho Hfl Hsq Hgap Hdiv.
  destruct (last_full _ _ _ _ _ Hk Hf) as (bl & El1 & El & Elen & Hmo & Hflb & Hszl). fold ds in Hflb, Hszl.
  change (f_inode (at_end f)) with i in *. change (max_off (at_end f)) with (max_off f) in *.
  change (file_size (fd (at_end f))) with (file_size (fd f)) in *. rewrite <- Eo, Nat2Z.id, Eold in El1. injection El1 as <-.
  pose proof Hf as [A1 _ _ A4 A5 _]. change (f_inode (at_end f)) with i in *.
  change (file_size (fd (at_end f))) with (file_size (fd f)) in *.
  assert (Hof : fill h = fill_at ds (pgs K old)).
  { rewrite Hfl. unfold old_fill. rewrite Eold. unfold K0. by rewrite quiet_pgs. }
  pose proof (fs_ds _ _ _ _ Hk) as Kds. fold ds in Kds. pose proof (r_ds _ _ _ _ _ _ _ _ _ Hr) as Hds. change (data_size K0) with ds in Hds.
  set (zb := Z.min (seek_pos (fd f) - file_size (fd f)) (ds - fill h)).
  destruct (zeros_in_page age F free K b' free' K1 f o np old h zb) as (K2 & h' & K3 & Ez & Ew & Ed3 & HW); try done; try lia.
  unfold gap_rest. rewrite Hds, (u16_small (ds - fill h)) by lia. fold zb. rewrite (u16_small zb), Ez by lia. cbn [negb]. rewrite Ew. cbn [negb].
  set (f1 := set_size _ f) in *. pose proof HW as [W1 W2 _ _ _ _ _ _ W9 _ _ _].
  pose proof (Z.div_mod (seek_pos (fd f)) ds ltac:(lia)) as Hdm. pose proof (Z.mod_pos_bound (seek_pos (fd f)) ds ltac:(lia)).
  change (seek_pos (fd f1)) with (seek_pos (fd f)). change (max_off f1) with (max_off f). rewrite Ed3. fold ds.
  rewrite Z.quot_div_nonneg by lia. assert (Hq0 : max_off f <= seek_pos (fd f) / ds) by (apply Z.div_le_lower_bound; nia).
  rewrite u16_small by lia.
  apply (gap_filled_app (age + 1) F K f zb (newF F i o np) free' K3 f1); try done; try lia.
  { fold i. rewrite (length_content _ _ _ _ _ Hk A1), <- A5. pose proof (file_cap _ _ _ _ _ Hk A1). lia. }
  apply (missing_pages_ok _ (age + 1) _ free' K3 f1); try done; change (seek_pos (fd f1)) with (seek_pos (fd f));
    change (file_size (fd f1)) with (file_size (fd f) + zb); change (max_off f1) with (max_off f); rewrite ?Ed3; fold ds; try lia.
  - intros En. assert (Eq : seek_pos (fd f) / ds = max_off f) by lia. rewrite Eq in Hdm. nia.
  - intros Hn. assert (Hq1 : max_off f + 1 <= seek_pos (fd f) / ds) by lia. split; [lia|]. nia.
Qed.

Lemma fill_gap_ok age F free K f : fs_ok age F free K -> age + 1 < 32768 -> file_at F K f -> others_at F K (f_inode f) ->
  file_size (fd f) < seek_pos (fd f) -> seek_pos (fd f) / data_size K < 65536 ->
  gap_filled (age + 1) F K f (fill_gap K f).
Proof.
  intros Hk Hage Hf Hoth Hgap Hdiv.
  assert (Hfe : file_at F K (at_end f)).
  { destruct Hf as [A1 A2 A3 A4 A5 A6]. split; try done. cbn. pose proof (file_cap _ _ _ _ _ Hk A1). lia. }
  destruct (last_full _ _ _ _ _ Hk Hfe) as (old & Eold & El & Elen & Hmo & Hfl & Hszl).
  change (f_inode (at_end f)) with (f_inode f) in *. change (max_off (at_end f)) with (max_off f) in *.
  change (file_size (fd (at_end f))) with (file_size (fd f)) in *. set (i := f_inode f) in *.
  pose proof Hf as [A1 _ A3 _ A5 A6]. fold i in A1, A3, A5.
  assert (Hk1 : fs_ok (age + 1) F free K) by (eapply fs_later; [exact Hk|destruct (fs_age _ _ _ _ Hk); lia]).
  assert (Hmid : max_off f = Z.of_nat (Z.to_nat (max_off f))) by lia. set (o := Z.to_nat (max_off f)) in *.
  unfold fill_gap. rewrite Hmid. destruct (page_again _ _ _ _ _ _ _ Hk1 A1 A3 Eold) as (-> & b' & h & Hq & HK'). fold i in HK'.
  set (K0 := set_bdev b' K) in *. destruct HK' as (-> & -> & Ehi & Eho & Ef & Esq & Hk' & Hag). specialize (Hag old).
  assert (Hy : forall b o, F i !! o = Some b -> seq_at (data_size K) (pgs K b) <= age).
  { intros b o1 E. pose proof (fs_young _ _ _ _ i 0%nat Hk A1 o1 b E ltac:(lia)). lia. }
  assert (Hrest : forall free' K1 np, ready (age + 1) F free K0 free' K1 i o np -> pgs K1 np = pgs K0 old ->
    file_opened_list K1 = file_opened_list K -> gap_filled (age + 1) F K f (gap_rest K1 f h np)).
  { intros free' K1 np Hr Hp Hl. destruct (fs_age _ _ _ _ Hk).
    apply (gap_rest_ok age F free K b' free' K1 f o np old h); try done. lia. }
  destruct Hag as [Hr|Hfr Er|np fr Kr b Hfr Er Hnp Epo Ec Hr Hp Hfi].
  - pose proof (ready_np _ _ _ _ _ _ _ _ _ Hr) as Hn. rewrite (no_space _ _ _ _ _ Hk' Hn).
    exact (Hrest free K0 old Hr eq_refl eq_refl).
  - rewrite Er. change (NO_SPACE =? NO_SPACE) with true. cbv iota.
    exists F, [], K0, (add_error BATTFS_DISK_SPACEOVER_ERR f). split; [done|]. right. exists 0. split; [lia|]. split; [done|].
    intros l Hne. subst free. apply (written_no_room (age + 1) F K b' (at_end f)); [done|done|done|done|].
    destruct l; [done|]. by intros [_ E]%app_eq_nil.
  - rewrite Er, Hnp, Epo, Ec, Hnp. exact (Hrest _ _ _ Hr Hp Hfi).
Qed.

(** ** A write

    It begins at the position, or at the end of the file when that is before it. *)
Definition write_from (f : BattFs) : BattFs := set_seek (Z.min (seek_pos (fd f)) (file_size (fd f))) f.
Definition write_gap (f : BattFs) : nat := Z.to_nat (seek_pos (fd f) - file_size (fd f)).

Lemma battfs_write_ok age F free K f l : fs_ok age F free K -> age + 2 < 32768 -> file_at F K f -> others_at F K (f_inode f) ->
  0 <= seek_pos (fd f) -> l <> [] -> Z.of_nat (length l) < 65536 -> seek_pos (fd f) + Z.of_nat (length l) < 2147483648 ->
  seek_pos (fd f) / data_size K < 65536 ->
  exists n F' free' K' f',
    battfs_write K f l = (Z.max 0 (n - Z.of_nat (write_gap f)), K', f') /\
    seek_pos (fd f') = seek_pos (fd f) + Z.max 0 (n - Z.of_nat (write_gap f)) /\
    written (age + 2) F K (write_from f) (zeros (write_gap f) ++ l) n F' free' K' (set_seek (seek_pos (fd (write_from f)) + n) f').
Proof.
  intros Hk Hage Hf Hoth H0' Hne Hlen Hmax Hdiv. destruct (fs_age _ _ _ _ Hk) as [Ha _].
  pose proof (a_byte _ _ _ Hf) as Hb. pose proof (file_cap _ _ _ _ _ Hk Hb) as Hcap. pose proof (fs_total _ _ _ _ Hk).
  rewrite <- (a_size _ _ _ Hf) in Hcap.
  assert (Hkl : fs_ok (age + 2) F free K) by (eapply fs_later; [exact Hk|lia]).
  unfold battfs_write. destruct (Z.ltb_spec (seek_pos (fd f)) 0) as [|_]; [lia|]. cbv iota.
  destruct (Z.gtb_spec (seek_pos (fd f)) (file_size (fd f))) as [Hgt|Hle].
  - assert (Efrom : write_from f = at_end f) by (unfold write_from, at_end; f_equal; lia).
    rewrite Efrom. set (gap := write_gap f). assert (Hgap : Z.of_nat gap = seek_pos (fd f) - file_size (fd f)) by (unfold gap, write_gap; lia).
    destruct (fill_gap_ok age F free K f Hk ltac:(lia) Hf Hoth Hgt Hdiv) as (F1 & free1 & K1 & f1 & Esk & HR).
    change (Z.to_nat (seek_pos (fd f) - file_size (fd f))) with gap in HR.
    destruct HR as [[Er Hw]|(m & Hm & Er & Hw)]; rewrite Er; cbn [negb].
    + pose proof (x_ok _ _ _ _ _ _ _ _ _ _ Hw) as Hy. apply (written_later (age + 1) (age + 2)) in Hw; [|lia]. pose proof Hw as [W1 W2 (_ & W3 & _) W4 _ W6 _ _ W9 _ _ _].
      pose proof W4 as Esz. change (seek_pos (fd (at_end f1))) with (file_size (fd f1)) in Esz.
      change (seek_pos (fd (at_end f))) with (file_size (fd f)) in Esz.
      assert (Ef1 : at_end f1 = f1) by (apply set_seek_same; lia). rewrite Ef1 in *.
      change (f_inode (at_end f)) with (f_inode f) in *.
      destruct (write_loop_ok (length l) (age + 2) F1 free1 K1 f1 l) as (n & F2 & free2 & K2 & f2 & E2 & Hw2); rewrite ?W3; try done; try lia.
      { replace (age + 2) with (age + 1 + 1) by lia. by eapply fs_young. }
      exists (Z.of_nat gap + n), F2, free2, K2, f2. pose proof Hw2 as [_ _ _ X4 X5 _ _ _ _ _ _ _].
      rewrite E2. replace (Z.max 0 (Z.of_nat gap + n - Z.of_nat gap)) with n by lia. split_and!; [done|lia|].
      rewrite set_seek_same by (cbn; lia). rewrite <- (length_zeros gap) at 2.
      eapply written_app; [|rewrite length_zeros; exact Hw|exact Hw2].
      change (f_inode (at_end f)) with (f_inode f). rewrite (length_content _ _ _ _ _ Hk Hb), <- (a_size _ _ _ Hf). cbn. lia.
    + exists m, F1, free1, K1, f1. replace (Z.max 0 (m - Z.of_nat gap)) with 0 by lia. split_and!; [done|lia|].
      specialize (Hw l Hne). apply (written_later (age + 1) (age + 2)) in Hw; [|lia].
      pose proof (x_seek _ _ _ _ _ _ _ _ _ _ Hw) as X. change (seek_pos (fd (at_end f1))) with (file_size (fd f1)) in X.
      rewrite <- X. exact Hw.
  - assert (Efrom : write_from f = f) by (unfold write_from; apply set_seek_same; lia).
    assert (write_gap f = O) as -> by (unfold write_gap; lia). rewrite Efrom. cbn [negb zeros replicate app].
    destruct (write_loop_ok (length l) (age + 2) F free K f l) as (n & F2 & free2 & K2 & f2 & E2 & Hw2); try done; try lia.
    { replace (age + 2) with (age + 1 + 1) by lia. apply (fs_young _ F free); [|done]. eapply fs_later; [exact Hk|lia]. }
    exists n, F2, free2, K2, f2. pose proof Hw2 as [_ _ _ X4 X5 _ _ _ _ _ _ _]. rewrite E2.
    replace (Z.max 0 (n - Z.of_nat 0)) with n by lia. split_and!; [done|done|]. by rewrite set_seek_same.
Qed.
End Write.
