(* ===== verification/BattFsRead.v ===== *)
(** * BattFS, reading

    Reading returns the bytes of the content from the position on, and changes
    nothing but the position. *)

From Stdlib Require Import ZArith Lia Bool List Permutation.
From stdpp Require Import prelude.
From S2P Require Import Prelude KFile KBlock KBlockSure BattFs BattFsPages BattFsInv BattFsFiles.

Open Scope Z_scope.

(** A piece of the middle one of three parts. *)
Lemma bytes_at_mid A M C p a n : Z.of_nat (length A) = p -> 0 <= a -> 0 <= n -> a + n <= Z.of_nat (length M) ->
  bytes_at (A ++ M ++ C) (p + a) n = bytes_at M a n.
Proof.
  intros HA Ha Hn HM. unfold bytes_at. replace (Z.to_nat (p + a)) with (length A + Z.to_nat a)%nat by lia.
  rewrite drop_app_add, drop_app_le by lia. rewrite take_app_le by (rewrite length_drop; lia). done.
Qed.

Section Read.
Context {D : Type} `{KBlockSure D}.
Implicit Types K : BattFsSuper D.

(** The bytes of one page. *)
Lemma content_page age F free K i o b a n : fs_ok age F free K -> is_byte i -> F i !! o = Some b ->
  0 <= a -> 0 <= n -> a + n <= fill_at (data_size K) (pgs K b) ->
  bytes_at (content F K i) (Z.of_nat o * data_size K + a) n = bytes_at (pgs K b) a n.
Proof.
  intros Hk Hi E Ha Hn Hf. pose proof (lookup_lt_Some _ _ _ E) as Ho.
  pose proof (fills _ _ _ _ i b Hk Hi (list_elem_of_lookup_2 _ _ _ E)) as Hfl.
  destruct (fs_page _ _ _ _ _ _ _ Hk Hi E) as [_ Hb].
  pose proof (page_len _ _ _ _ b Hk Hb) as Hl. unfold BATTFS_HEADER_LEN in Hl.
  unfold content. rewrite (file_split F i o) by lia. rewrite E, !data_app.
  assert (data_of (data_size K) (pgs K) (option_list (Some b)) = piece (data_size K) (pgs K b)) as ->
    by (unfold data_of; cbn; apply app_nil_r).
  rewrite (bytes_at_mid _ (piece (data_size K) (pgs K b))); try done.
  - unfold piece. by rewrite bytes_at_bytes_at by lia.
  - rewrite length_data; [by apply (used_before _ _ _ _ i o Hk)| |].
    + intros b' (k & E' & _)%elem_of_take. eapply fills; [exact Hk|exact Hi|]. by eapply list_elem_of_lookup_2.
    + intros b' (k & E' & _)%elem_of_take. destruct (fs_page _ _ _ _ _ _ _ Hk Hi E') as [_ Hb'].
      rewrite (page_len _ _ _ _ b' Hk Hb'). unfold BATTFS_HEADER_LEN. lia.
  - unfold piece. rewrite length_bytes_at by lia. lia.
Qed.

Lemma read_loop_ok fuel age F free K f n : fs_ok age F free K -> file_at F K f -> 0 <= seek_pos (fd f) -> 0 <= n < 65536 ->
  seek_pos (fd f) + n <= file_size (fd f) -> (Z.to_nat n <= fuel)%nat ->
  exists b', quiet (bdev K) b' /\
    read_loop fuel K f n = (bytes_at (content F K (f_inode f)) (seek_pos (fd f)) n, set_bdev b' K, set_seek (seek_pos (fd f) + n) f).
Proof.
  revert K f n. induction fuel as [|fuel IH]; intros K f n Hk Hf Hp Hn Hs Hfu.
  all: assert (E0 : n = 0 -> (@nil Z, K, f) = (bytes_at (content F K (f_inode f)) (seek_pos (fd f)) n, set_bdev (bdev K) K, set_seek (seek_pos (fd f) + n) f))
    by (intros ->; rewrite set_bdev_id, Z.add_0_r; by destruct f as [? [] ? ? ? ? ?]).
  { exists (bdev K). split; [apply quiet_refl, (fs_sure _ _ _ _ Hk)|]. cbn. apply E0. lia. }
  cbn [read_loop]. destruct (Z.eqb_spec n 0) as [En|Hne].
  { exists (bdev K). split; [apply quiet_refl, (fs_sure _ _ _ _ Hk)|]. by apply E0. }
  clear E0. destruct (position_in _ _ _ _ _ Hk Hf ltac:(lia)) as (Ho & E1 & E2 & Ep & Ha & Hol & Haf & Hfull & Hlast).
  set (o := Z.to_nat (seek_pos (fd f) / data_size K)) in *. set (a := seek_pos (fd f) mod data_size K) in *.
  pose proof Hf as [A1 _ A3 A4 A5 A6]. set (i := f_inode f) in *. pose proof (fs_ds _ _ _ _ Hk) as Kds.
  rewrite E1, E2, (u16_small (data_size K - a)) by lia. set (r := Z.min n (data_size K - a)).
  assert (Hlt : (o < length (F i))%nat).
  { destruct (decide (o = length (F i))) as [Eo|]; [|lia]. destruct (Hlast Eo) as [Es _]. lia. }
  destruct (lookup_lt_is_Some_2 (F i) o Hlt) as [b Eb].
  rewrite (page_of_file _ _ _ _ _ _ _ Hk A1 A3 Eb). destruct (fs_page _ _ _ _ _ _ _ Hk A1 Eb) as [_ Hb].
  destruct (read_quiet (bdev K) b a r (fs_sure _ _ _ _ Hk) Hb) as (b' & Er & Hq); [lia|lia| |].
  { rewrite (fs_size _ _ _ _ Hk). unfold BATTFS_HEADER_LEN. lia. }
  pose proof (page_len _ _ _ _ b Hk Hb) as Hl. unfold BATTFS_HEADER_LEN, pgs in Hl.
  rewrite Er, length_bytes_at, Z.eqb_refl by lia. cbn [negb].
  pose proof (file_cap _ _ _ _ _ Hk A1). pose proof (fs_total _ _ _ _ Hk). rewrite i32_small by lia.
  set (K1 := set_bdev b' K). set (f1 := set_seek (seek_pos (fd f) + r) f).
  assert (Hf1 : file_at F K1 f1) by (apply quiet_file, file_seek; done || lia).
  destruct (IH K1 f1 (n - r)) as (b2 & Hq2 & ->); try done; try (cbn; lia).
  { by apply quiet_ok. }
  exists b2. split; [by eapply quiet_trans|]. unfold K1 at 1. rewrite (quiet_content F K b' _ Hq). change (f_inode f1) with i.
  change (seek_pos (fd f1)) with (seek_pos (fd f) + r).
  assert (Hfill : a + r <= fill_at (data_size K) (pgs K b)).
  { unfold old_fill in *. rewrite Eb in *. destruct (decide (S o < length (F i))%nat) as [Hs1|Hs1]; [rewrite Hfull by done; lia|].
    assert (El : last (F i) = Some b) by (rewrite last_lookup; by replace (Init.Nat.pred (length (F i))) with o by lia).
    pose proof (used_last _ _ _ _ _ _ Hk A1 El). rewrite A5 in Hs.
    replace (Z.of_nat (length (F i)) - 1) with (Z.of_nat o) in * by lia. lia. }
  repeat match goal with |- (_, _) = (_, _) => f_equal end.
  - change (pg (bdev K) b) with (pgs K b). rewrite <- (content_page _ _ _ _ i o b a r Hk A1 Eb) by lia. rewrite <- Ep.
    rewrite <- bytes_at_app by lia. f_equal. lia.
  - unfold f1, set_seek, set_fd. cbn. do 2 f_equal. lia.
Qed.

Lemma battfs_read_ok age F free K f n : fs_ok age F free K -> file_at F K f -> 0 <= seek_pos (fd f) -> 0 <= n < 65536 ->
  let m := Z.min n (Z.max (file_size (fd f) - seek_pos (fd f)) 0) in
  exists b', quiet (bdev K) b' /\
    battfs_read K f n = (bytes_at (content F K (f_inode f)) (seek_pos (fd f)) m, set_bdev b' K, set_seek (seek_pos (fd f) + m) f).
Proof.
  intros Hk Hf Hp Hn m. unfold battfs_read. destruct (Z.ltb_spec (seek_pos (fd f)) 0); [lia|]. fold m. rewrite u16_small by lia.
  destruct (Z.leb_spec (seek_pos (fd f)) (file_size (fd f))).
  - apply (read_loop_ok _ age F free); done || lia.
  - assert (m = 0) as -> by lia. exists (bdev K). split; [apply quiet_refl, (fs_sure _ _ _ _ Hk)|].
    cbn. rewrite set_bdev_id, Z.add_0_r. by destruct f as [? [] ? ? ? ? ?].
Qed.
End Read.
