(* ===== verification/BattFsOpen.v ===== *)
(** * BattFS, opening files

    The pages in use are in the order of their files, so that a file is found by
    halving; its pages are counted, or a first one is made. *)

From Stdlib Require Import ZArith Lia Bool List Permutation.
From stdpp Require Import prelude.
From S2P Require Import Prelude KFile KBlock KBlockSure BattFs BattFsPages BattFsInv BattFsFiles.

Open Scope Z_scope.

Section Open.
Context {D : Type} `{KBlockSure D}.
Implicit Types K : BattFsSuper D.

(** Whose the page at a place of the page array is. *)
Lemma page_at age F free K p : fs_ok age F free K -> 0 <= p < free_page_start K ->
  exists j o b, is_byte j /\ F j !! o = Some b /\ get (page_array K) p = b /\ p = start_of F j + Z.of_nat o.
Proof.
  intros Hk Hp. destruct (fs_nodup _ _ _ _ Hk) as [Hnd _]. rewrite (fs_start _ _ _ _ Hk) in Hp.
  destruct (lookup_lt_is_Some_2 (live F) (Z.to_nat p) ltac:(lia)) as [b Eb].
  destruct (proj1 (live_elem F b) (list_elem_of_lookup_2 _ _ _ Eb)) as (j & o & Hj & Eo). exists j, o, b.
  pose proof (NoDup_lookup _ _ _ _ Hnd Eb (live_lookup F j o b Hj Eo)). pose proof (start_of_le F j Hj).
  assert (Epos : p = start_of F j + Z.of_nat o) by lia.
  split_and!; try done. rewrite Epos. by destruct (fs_page _ _ _ _ _ _ _ Hk Hj Eo).
Qed.

Lemma readHdr_valid age F free K i o b : fs_ok age F free K -> is_byte i -> F i !! o = Some b ->
  exists b' h, quiet (bdev K) b' /\ readHdr K b = (Some h, set_bdev b' K) /\ valid h = true /\ inode h = i /\
    pgoff h = Z.of_nat o /\ fill h = fill_at (data_size K) (pgs K b).
Proof.
  intros Hk Hi E. destruct (readHdr_page _ _ _ _ _ _ _ Hk Hi E) as (b' & h & Hq & Er & Eh & Ei & Eo & _).
  exists b', h. split_and!; try done; [by destruct (hdr_at_valid _ _ _ Eh)|]. unfold fill_at. by rewrite Eh.
Qed.

Lemma findFile_loop_ok fuel age F free K i first last : fs_ok age F free K -> is_byte i ->
  0 <= first -> first <= start_of F i -> start_of F i + Z.of_nat (length (F i)) <= last -> last <= free_page_start K ->
  last - first < 2 ^ Z.of_nat fuel ->
  exists b', quiet (bdev K) b' /\
    findFile_loop fuel K i first last = (bool_decide (F i <> []), start_of F i, set_bdev b' K).
Proof.
  revert K first last. induction fuel as [|fuel IH]; intros K first last Hk Hi H0' H1' H2' H3' Hfu.
  all: assert (Edone : last <= first -> (false, last, K) = (bool_decide (F i <> []), start_of F i, set_bdev (bdev K) K))
    by (intros; destruct (F i) as [|? ?] eqn:E; cbn [length] in *; [|lia];
        rewrite bool_decide_eq_false_2 by (by intros []); rewrite set_bdev_id; f_equal; f_equal; lia).
  { exists (bdev K). split; [apply quiet_refl, (fs_sure _ _ _ _ Hk)|]. apply Edone. cbn in Hfu. lia. }
  cbn [findFile_loop]. destruct (Z.ltb_spec first last) as [Hlt|Hge].
  2:{ exists (bdev K). split; [apply quiet_refl, (fs_sure _ _ _ _ Hk)|]. by apply Edone. }
  clear Edone. pose proof (fs_cnt _ _ _ _ Hk) as Hc. pose proof (pages_len _ _ _ _ Hk) as Hpl. pose proof (fs_start _ _ _ _ Hk) as Hst.
  rewrite u16_small by lia. set (page := (first + last) / 2).
  assert (Hpage : first <= page < last) by (unfold page; zlia).
  assert (Hhalf : 2 * page <= first + last < 2 * page + 2) by (unfold page; zlia).
  rewrite Nat2Z.inj_succ, Z.pow_succ_r in Hfu by lia.
  destruct (page_at _ _ _ _ page Hk ltac:(lia)) as (j & o & b & Hj & Ej & -> & Epos).
  destruct (readHdr_valid _ _ _ _ _ _ _ Hk Hj Ej) as (b' & h & Hq & -> & Hv & Ehi & Eho & _).
  rewrite Hv, Ehi, Eho. cbn [andb]. pose proof (quiet_ok _ _ _ _ _ Hk Hq) as Hk'.
  pose proof (lookup_lt_Some _ _ _ Ej) as Hol.
  destruct (Z.eqb_spec j i) as [->|Hne].
  { exists b'. split; [done|]. rewrite bool_decide_eq_true_2 by (intros E; by rewrite E in Ej).
    pose proof (start_of_le F i Hi). f_equal. f_equal. rewrite u16_small by lia. lia. }
  assert (Hnext : exists first' last', (if j <? i then findFile_loop fuel (set_bdev b' K) i (page + 1) last
      else findFile_loop fuel (set_bdev b' K) i first page) = findFile_loop fuel (set_bdev b' K) i first' last' /\
      0 <= first' /\ first' <= start_of F i /\ start_of F i + Z.of_nat (length (F i)) <= last' /\ last' <= free_page_start K /\
      last' - first' < 2 ^ Z.of_nat fuel).
  { unfold is_byte in *. destruct (Z.ltb_spec j i).
    - exists (page + 1), last. pose proof (start_of_next F j i). split_and!; done || lia.
    - exists first, page. pose proof (start_of_next F i j). split_and!; done || lia. }
  destruct Hnext as (first' & last' & -> & G1 & G2 & G3 & G4 & G5).
  destruct (IH (set_bdev b' K) first' last') as (b2 & Hq2 & ->); try done. exists b2. split; [by eapply quiet_trans|done].
Qed.

Lemma findFile_ok age F free K i : fs_ok age F free K -> is_byte i ->
  exists b', quiet (bdev K) b' /\ findFile K i = (bool_decide (F i <> []), start_of F i, set_bdev b' K).
Proof.
  intros Hk Hi. pose proof (fs_start _ _ _ _ Hk). pose proof (start_of_le F i Hi). pose proof (pages_len _ _ _ _ Hk).
  pose proof (fs_cnt _ _ _ _ Hk). apply (findFile_loop_ok 17 age F free); try done; try lia.
Qed.

(** ** The size *)

Lemma count_loop_ok l pages age F free K i o sz : fs_ok age F free K -> is_byte i ->
  (forall k b, l !! k = Some b -> F i !! (o + k)%nat = Some b) ->
  match pages with [] => True | b :: _ => exists j o', is_byte j /\ j <> i /\ F j !! o' = Some b end ->
  0 <= sz -> sz + used (data_size K) (pgs K) l < 2147483648 ->
  exists b', quiet (bdev K) b' /\
    countFileSize_loop (l ++ pages) K i sz = (sz + used (data_size K) (pgs K) l, set_bdev b' K).
Proof.
  revert K o sz. induction l as [|b l IH]; intros K o sz Hk Hi Hl Hp Hsz Hmax.
  - change (used _ _ []) with 0. rewrite Z.add_0_r. cbn [app]. destruct pages as [|b pages].
    + exists (bdev K). split; [apply quiet_refl, (fs_sure _ _ _ _ Hk)|]. cbn. by rewrite set_bdev_id.
    + destruct Hp as (j & o' & Hj & Hne & E). cbn [countFileSize_loop].
      destruct (readHdr_valid _ _ _ _ _ _ _ Hk Hj E) as (b' & h & Hq & -> & Hv & Ehi & _). exists b'. split; [done|].
      rewrite Hv, Ehi. by rewrite (proj2 (Z.eqb_neq j i)).
  - cbn [app countFileSize_loop]. pose proof (Hl 0%nat b eq_refl) as E. rewrite Nat.add_0_r in E.
    destruct (readHdr_valid _ _ _ _ _ _ _ Hk Hi E) as (b' & h & Hq & -> & Hv & Ehi & _ & Ehf).
    rewrite Hv, Ehi, Z.eqb_refl, Ehf. cbn [andb]. rewrite used_cons in *.
    pose proof (fills _ _ _ _ i b Hk Hi (list_elem_of_lookup_2 _ _ _ E)).
    assert (0 <= used (data_size K) (pgs K) l).
    { apply (used_bound (data_size K) (pgs K) l). intros b1 [k Ek]%list_elem_of_lookup.
      eapply fills; [exact Hk|exact Hi|]. eapply list_elem_of_lookup_2. by apply (Hl (S k) b1). }
    rewrite i32_small by lia.
    assert (Hu : used (data_size (set_bdev b' K)) (pgs (set_bdev b' K)) l = used (data_size K) (pgs K) l)
      by (apply used_ext; intros; by apply quiet_pgs).
    destruct (IH (set_bdev b' K) (S o) (sz + fill_at (data_size K) (pgs K b))) as (b2 & Hq2 & ->); try done; try lia.
    + by apply quiet_ok.
    + intros k b1 Ek. replace (S o + k)%nat with (o + S k)%nat by lia. by apply Hl.
    + exists b2. split; [by eapply quiet_trans|]. rewrite Hu. f_equal. lia.
Qed.

Lemma countFileSize_ok age F free K i : fs_ok age F free K -> is_byte i ->
  exists b', quiet (bdev K) b' /\
    countFileSize K (start_of F i) i = (used (data_size K) (pgs K) (F i), set_bdev b' K).
Proof.
  intros Hk Hi. unfold countFileSize. rewrite (fs_start _ _ _ _ Hk), (fs_array _ _ _ _ Hk).
  pose proof (start_of_le F i Hi) as [Hs Hl].
  assert (bytes_at (live F ++ free) (start_of F i) (Z.of_nat (length (live F)) - start_of F i)
    = F i ++ part F (i + 1) (255 - i)) as ->.
  { unfold bytes_at. rewrite (live_at F i Hi) in *. unfold start_of in *. rewrite Nat2Z.id in *.
    rewrite <- !app_assoc, drop_app_length, (app_assoc (F i)), take_app_le by (rewrite !length_app in *; lia).
    apply take_ge. rewrite !length_app in *. lia. }
  pose proof (file_cap _ _ _ _ _ Hk Hi). pose proof (fs_total _ _ _ _ Hk).
  apply (count_loop_ok (F i) _ age F free K i 0 0 Hk Hi); try lia.
  - done.
  - destruct (part F (i + 1) (255 - i)) as [|b l] eqn:E; [done|].
    assert (Hb : b ∈ part F (i + 1) (255 - i)) by (rewrite E; left).
    unfold part in Hb. apply list_elem_of_In, in_concat in Hb as (l' & Hl' & Hb).
    apply in_map_iff in Hl' as (j & <- & Hj). apply list_elem_of_In, elem_of_seqZ in Hj.
    apply list_elem_of_In, list_elem_of_lookup in Hb as [o Ho]. unfold is_byte in *. exists j, o. split_and!; done || lia.
Qed.

(** ** Opening *)

Definition all_at (F : Z -> list Z) K : Prop := Forall (file_at F K) (file_opened_list K).

Lemma insert_perm f l : insert_file f l ≡ₚ f :: l.
Proof.
  induction l as [|g l IH]; [done|]. cbn. destruct (f_inode g >=? f_inode f); [done|]. rewrite IH. apply Permutation_swap.
Qed.

Lemma quiet_all F K b' : quiet (bdev K) b' -> all_at F K -> all_at F (set_bdev b' K).
Proof. unfold all_at. intros Hq Ha. eapply Forall_impl; [exact Ha|]. intros g. by apply quiet_file. Qed.

(** The last page has room: the offset of the last page is computed as the size
    divided by that of a page. *)
Definition last_has_room (F : Z -> list Z) K (i : Z) : Prop :=
  forall b, last (F i) = Some b -> fill_at (data_size K) (pgs K b) < data_size K.

Definition new_handle (s i mode : Z) (F : Z -> list Z) K : BattFs :=
  mkFile s (mkPos 0 (used (data_size K) (pgs K) (F i))) i mode (start_of F i) (Z.of_nat (length (F i)) - 1) 0.

Lemma new_handle_at s i mode age F free K : fs_ok age F free K -> is_byte i -> F i <> [] -> file_at F K (new_handle s i mode F K).
Proof. intros Hk Hi Hne. split; done. Qed.

Lemma handle_max_off age F free K i : fs_ok age F free K -> is_byte i -> F i <> [] -> last_has_room F K i ->
  u16 (Z.quot (used (data_size K) (pgs K) (F i)) (data_size K)) = Z.of_nat (length (F i)) - 1.
Proof.
  intros Hk Hi Hne Hroom. destruct (last_full age F free K (new_handle 0 i 0 F K) Hk) as (b & _ & El & Elen & Hmo & Hfl & Hsz);
    [by eapply new_handle_at|]. cbn [new_handle f_inode max_off fd file_size] in *. specialize (Hroom b El).
  pose proof (fs_ds _ _ _ _ Hk). pose proof (file_cap _ _ _ _ _ Hk Hi).
  rewrite Z.quot_div_nonneg by lia.
  assert (used (data_size K) (pgs K) (F i) / data_size K = Z.of_nat (length (F i)) - 1) as -> by
    (symmetry; apply (Z.div_unique _ _ _ (fill_at (data_size K) (pgs K b))); lia).
  rewrite u16_small by lia. done.
Qed.

(** The part that is common: the size is counted. *)
Lemma open_rest s i mode age F free K : fs_ok age F free K -> is_byte i -> F i <> [] -> last_has_room F K i ->
  exists b', quiet (bdev K) b' /\ countFileSize K (start_of F i) i = (used (data_size K) (pgs K) (F i), set_bdev b' K) /\
    (used (data_size K) (pgs K) (F i) =? EOF) = false /\
    mkFile s (mkPos 0 (used (data_size K) (pgs K) (F i))) i mode (start_of F i)
      (u16 (Z.quot (used (data_size K) (pgs K) (F i)) (data_size K))) 0 = new_handle s i mode F K.
Proof.
  intros Hk Hi Hne Hroom. destruct (countFileSize_ok _ _ _ _ i Hk Hi) as (b' & Hq & Ec). exists b'.
  split_and!; try done.
  - pose proof (file_cap _ _ _ _ _ Hk Hi). apply Z.eqb_neq. unfold EOF. lia.
  - unfold new_handle. by rewrite (handle_max_off _ _ _ _ _ Hk Hi Hne Hroom).
Qed.

Lemma open_old s i mode age F free K : fs_ok age F free K -> is_byte i -> F i <> [] -> last_has_room F K i ->
  exists b', quiet (bdev K) b' /\ let K' := set_bdev b' K in let f := new_handle s i mode F K in
    battfs_fileopen K s i mode = (true, set_files (insert_file f (file_opened_list K)) K', f) /\ file_at F K' f.
Proof.
  intros Hk Hi Hne Hroom. destruct (findFile_ok _ _ _ _ i Hk Hi) as (b1 & Hq1 & Ef).
  pose proof (quiet_ok _ _ _ _ _ Hk Hq1) as Hk1.
  assert (Eu : used (data_size K) (pgs (set_bdev b1 K)) (F i) = used (data_size K) (pgs K) (F i)) by (apply used_ext; intros; by apply quiet_pgs).
  destruct (open_rest s i mode age F free (set_bdev b1 K) Hk1 Hi Hne) as (b2 & Hq2 & Ec & Ee & Eh).
  { intros b El. rewrite quiet_pgs by done. by apply Hroom. }
  cbn [set_bdev data_size] in Ec, Ee, Eh. rewrite Eu in Ec, Ee, Eh. exists b2. split; [by eapply quiet_trans|]. cbv zeta.
  assert (Hn : new_handle s i mode F (set_bdev b1 K) = new_handle s i mode F K) by (unfold new_handle; cbn; by rewrite Eu).
  rewrite Hn in Eh. unfold battfs_fileopen. rewrite Ef, bool_decide_eq_true_2 by done. cbn [negb].
  change (set_bdev b1 K) with (set_bdev b1 K) in Ec. rewrite Ec, Ee. cbn [set_start set_size set_fd errors self].
  cbn [set_bdev data_size errors set_start set_size set_fd fd seek_pos]. rewrite Eh. split; [done|].
  apply quiet_file; [by eapply quiet_trans|]. by eapply new_handle_at.
Qed.

Lemma open_missing s i mode age F free K : fs_ok age F free K -> is_byte i -> F i = [] -> Z.land mode BATTFS_CREATE = 0 ->
  exists b', quiet (bdev K) b' /\
    battfs_fileopen K s i mode = (false, set_bdev b' K, add_error BATTFS_FILE_NOT_FOUND_ERR (mkFile s (mkPos 0 0) 0 0 0 0 0)).
Proof.
  intros Hk Hi He Hm. destruct (findFile_ok _ _ _ _ i Hk Hi) as (b1 & Hq1 & Ef). exists b1. split; [done|].
  unfold battfs_fileopen. rewrite Ef, bool_decide_eq_false_2 by tauto. by rewrite Hm.
Qed.

Lemma open_full s i mode age F K : fs_ok age F [] K -> is_byte i -> F i = [] -> Z.land mode BATTFS_CREATE <> 0 ->
  exists b', quiet (bdev K) b' /\
    battfs_fileopen K s i mode = (false, set_bdev b' K, add_error BATTFS_DISK_SPACEOVER_ERR (mkFile s (mkPos 0 0) 0 0 0 0 0)).
Proof.
  intros Hk Hi He Hm. destruct (findFile_ok _ _ _ _ i Hk Hi) as (b1 & Hq1 & Ef). exists b1. split; [done|].
  unfold battfs_fileopen. rewrite Ef, bool_decide_eq_false_2 by tauto. rewrite (proj2 (Z.eqb_neq _ 0) Hm).
  rewrite allocate_full by (eapply no_room, quiet_ok; [exact Hk|done]). done.
Qed.

(** The first page of a new file. *)
Lemma first_page age F np fr K i : fs_ok age F (np :: fr) K -> is_byte i -> F i = [] ->
  let F' := newF F i 0 np in
  exists K2 K3 Q, allocateNewPage K (start_of F i) i = (np, K2) /\ (np =? NO_SPACE) = false /\
    get (page_array K2) (start_of F i) = np /\ writeHdr K2 np (mkHdr i 0 0 0 0) = (true, K3) /\
    effect age F K age i 0 np fr Q K3 /\ file_opened_list K3 = moved i (file_opened_list K) /\
    F' i = [np] /\ start_of F i = start_of F' i /\ used (data_size K3) (pgs K3) (F' i) = 0.
Proof.
  intros Hk Hi He F'. destruct (ready_new age F np fr K i Hk Hi) as (K2 & Ea & Hr & Hfo & Hbd). rewrite He in Ea, Hr. cbn [length] in Ea, Hr.
  rewrite Z.add_0_r in Ea. pose proof (ready_np _ _ _ _ _ _ _ _ _ Hr) as Hnp. pose proof (fs_age _ _ _ _ Hk).
  set (hdr := mkHdr i 0 0 0 0). assert (Hno : F i !! O = None) by (by rewrite He).
  destruct (page_effect age F (np :: fr) K fr K2 i O np (pg (bdev K2) np) K2 hdr Hr (or_introl (conj eq_refl eq_refl))
    (r_ds _ _ _ _ _ _ _ _ _ Hr) eq_refl eq_refl) as (b2 & Ew & HfQ & _ & Heff); try (cbn; lia).
  { unfold old_seq. rewrite Hno. cbn. lia. }
  { cbn [hdr fill]. pose proof (fs_ds _ _ _ _ Hk). lia. }
  { rewrite He. cbn. lia. }
  { rewrite He. done. }
  assert (Hfb : old_fill K F i 0 = 0) by (unfold old_fill; by rewrite Hno).
  specialize (Heff (set_bdev b2 K2) eq_refl eq_refl eq_refl eq_refl eq_refl ltac:(rewrite Hfb; cbn; lia)).
  assert (HF : F' i = [np]) by (unfold F', newF; rewrite upd_file_same, He; done).
  assert (Hst : start_of F i = start_of F' i).
  { unfold F'. unfold is_byte in Hi. rewrite start_newF by (done || lia). rewrite Z.ltb_irrefl. cbn. lia. }
  eexists K2, _, _. split_and!; try done.
  - by eapply no_space.
  - rewrite (r_array _ _ _ _ _ _ _ _ _ Hr), Hst, get_lookup. fold F'. pose proof (live_lookup F' i 0 np Hi ltac:(by rewrite HF)) as L.
    rewrite Nat.add_0_r in L. rewrite lookup_app_l by (by eapply lookup_lt_Some). by rewrite L.
  - unfold F'. rewrite (e_used _ _ _ _ _ _ _ _ _ _ Heff), Hfb, HfQ, He. done.
Qed.

Lemma open_new s i mode age F np fr K : fs_ok age F (np :: fr) K -> all_at F K -> is_byte i -> F i = [] ->
  Z.land mode BATTFS_CREATE <> 0 ->
  exists K', let F' := newF F i 0 np in let f := new_handle s i mode F' K' in
    battfs_fileopen K s i mode = (true, set_files (insert_file f (moved i (file_opened_list K))) K', f) /\
    fs_ok age F' fr K' /\ file_at F' K' f /\ Forall (file_at F' K') (moved i (file_opened_list K)) /\
    content F' K' i = [] /\ (data_size K' = data_size K /\ cnt K' = cnt K) /\ (forall j, is_byte j -> j <> i -> F' j = F j /\ content F' K' j = content F K j).
Proof.
  intros Hk Ha Hi He Hm. destruct (findFile_ok _ _ _ _ i Hk Hi) as (b1 & Hq1 & Ef).
  pose proof (quiet_ok _ _ _ _ _ Hk Hq1) as Hk1. set (K1 := set_bdev b1 K) in *.
  destruct (first_page age F np fr K1 i Hk1 Hi He) as (K2 & K3 & Q & Ea & Hnp & Eg & Ew & Heff & Hfo & HF & Hst & Hu).
  set (F' := newF F i 0 np) in *. pose proof (e_ok _ _ _ _ _ _ _ _ _ _ Heff) as Hk3. fold F' in Hk3.
  destruct (open_rest s i mode age F' fr K3 Hk3 Hi) as (b3 & Hq3 & Ec & Ee & Eh).
  { by rewrite HF. }
  { intros b. rewrite HF. cbn [last]. intros [= <-]. rewrite HF, used_cons in Hu. change (used _ _ []) with 0 in Hu.
    pose proof (fs_ds _ _ _ _ Hk3). lia. }
  exists (set_bdev b3 K3). cbv zeta. pose proof (quiet_ok _ _ _ _ _ Hk3 Hq3) as Hk4.
  assert (Hn : new_handle s i mode F' (set_bdev b3 K3) = new_handle s i mode F' K3).
  { unfold new_handle. cbn [data_size set_bdev]. do 2 f_equal. exact (quiet_used F' K3 b3 i Hq3). }
  assert (Hne : F' i <> []) by (by rewrite HF). destruct (e_same _ _ _ _ _ _ _ _ _ _ Heff) as [Eds Ec'].
  rewrite Hn. split_and!.
  - unfold battfs_fileopen. rewrite Ef, bool_decide_eq_false_2 by tauto. rewrite (proj2 (Z.eqb_neq _ 0) Hm).
    cbn [negb]. fold K1. rewrite Ea, Hnp, Eg, Ew. cbn [negb].
    rewrite Hst, Ec, Ee. cbn [set_start set_size set_fd errors self fd seek_pos]. cbn [set_bdev data_size]. rewrite Eh.
    change (file_opened_list (set_bdev b3 K3)) with (file_opened_list K3). by rewrite Hfo.
  - done.
  - rewrite <- Hn. by eapply new_handle_at.
  - assert (HO : Forall (fun g => f_inode g <> i -> file_at F' K3 g) (moved i (file_opened_list K))).
    { pose proof (others_kept age F K1 age i 0 np fr _ K3 (file_opened_list K) Hi ltac:(lia) Heff) as Hx.
      rewrite decide_True in Hx by (by rewrite He). apply Hx. apply (Forall_impl _ _ _ (quiet_all F K b1 Hq1 Ha)). done. }
    rewrite Forall_forall in HO |- *. intros g Hg. apply quiet_file; [done|]. apply HO; [done|]. intros Eg'.
    unfold moved in Hg. apply list_elem_of_fmap in Hg as (g0 & -> & Hg0).
    pose proof (proj1 (Forall_forall _ _) Ha g0 Hg0) as Hf0. apply (a_some _ _ _ Hf0).
    assert (f_inode g0 = i) as -> by (by destruct (f_inode g0 >? i)). done.
  - rewrite (quiet_content F' K3 b3 _ Hq3). apply nil_length_inv.
    pose proof (length_content _ _ _ _ i Hk3 Hi) as Hl. rewrite Hu in Hl. lia.
  - exact Eds.
  - rewrite quiet_cnt, Ec' by done. by apply quiet_cnt.
  - intros j Hj Hne'. destruct (e_others _ _ _ _ _ _ _ _ _ _ Heff j Hj Hne') as (E1 & E2 & _). split; [done|].
    rewrite (quiet_content F' K3 b3 _ Hq3). transitivity (content F K1 j); [exact E2|exact (quiet_content F K b1 j Hq1)].
Qed.
End Open.
