(* ===== verification/BattFsMount.v ===== *)
(** * BattFS, mounting

    Two passes over the headers: the pages of each file are counted, then every
    page gets its place.  Of two pages for one place the newer one stays, the
    older one is free, and the file shrinks by a page that was counted twice.

    [G]: the rows of the page array while it is filled, one for each file.  In
    a row as many places are unset as there are pages of the file still to come
    ([filling]); so there is room for every page, and at the end the rows are
    the files. *)

From Stdlib Require Import ZArith Lia Bool List Permutation.
From stdpp Require Import prelude.
From S2P Require Import Prelude KFile KBlock KBlockSure BattFs BattFsPages BattFsInv BattFsFiles.

Open Scope Z_scope.

Definition count (p : Z -> bool) (l : list Z) : Z := Z.of_nat (length (List.filter p l)).

Lemma count_cons p b l : count p (b :: l) = (if p b then 1 else 0) + count p l.
Proof. unfold count. cbn. destruct (p b); cbn [length]; lia. Qed.

Lemma count_app p l1 l2 : count p (l1 ++ l2) = count p l1 + count p l2.
Proof. unfold count. rewrite List.filter_app, length_app. lia. Qed.

Lemma count_le p l : 0 <= count p l <= Z.of_nat (length l).
Proof. induction l as [|b l IH]; [done|]. rewrite count_cons. cbn [length]. destruct (p b); lia. Qed.

Lemma u32_plus a b : u32 (u32 a + b) = u32 (a + b).
Proof. unfold u32. by rewrite Zplus_mod_idemp_l. Qed.

Lemma u32_minus a b : u32 (u32 a - b) = u32 (a - b).
Proof. unfold u32. by rewrite Zminus_mod_idemp_l. Qed.

Lemma get_zeros m i : get (zeros m) i = 0.
Proof.
  rewrite get_lookup. destruct (zeros m !! Z.to_nat i) eqn:E; [|done]. by apply lookup_replicate_1 in E as [-> _].
Qed.

Section Mount.
Context {D : Type} `{KBlockSure D}.
Implicit Types K : BattFsSuper D.

(** The device: [n] blocks, with the contents [P]. *)
Variables (ds n : Z) (P : Z -> list Z).
Hypotheses (Hds : 0 < ds < 65000) (Hn : 0 < n < 32768).

Definition raw (b : Z) : BattFsPageHeader := disk_to_battfs (bytes_at (P b) ds BATTFS_HEADER_LEN).
Definition has_header (b : Z) : bool := valid (raw b).
Definition of_file (i b : Z) : bool := valid (raw b) && (inode (raw b) =? i).

Lemma hdr_raw b : hdr_at ds (P b) = if has_header b then Some (raw b) else None.
Proof. done. Qed.

Record on_dev K : Prop := {
  d_sure : sure (bdev K);
  d_size : blk_size (bdev K) = ds + BATTFS_HEADER_LEN;
  d_cnt : blk_cnt (bdev K) = n;
  d_ds : data_size K = ds;
  d_pages b : pg (bdev K) b = P b
}.

Lemma on_dev_read K b : on_dev K -> 0 <= b < n ->
  exists b', quiet (bdev K) b' /\ readHdr K b = (Some (raw b), set_bdev b' K) /\
    forall K', bdev K' = b' -> data_size K' = ds -> on_dev K'.
Proof.
  intros [D1 D2 D3 D4 D5] Hb. destruct (readHdr_quiet K b) as (b' & Hq & ->); unfold cnt; rewrite ?D4, ?D3; try done; try lia.
  exists b'. pose proof Hq as [Q1 [_ _ _ Qz Qc] Qv _ _ _]. split; [done|]. split; [unfold raw, pgs; by rewrite D5|].
  intros K' E1 E2. split; rewrite ?E1; try done; try congruence. intros c. rewrite <- D5. apply pg_eq; by destruct Hq.
Qed.

(** ** The first pass *)

Lemma count_pages_ok l K tbl : on_dev K -> (forall b, b ∈ l -> 0 <= b < n) -> length tbl = 256%nat ->
  0 <= free_bytes K < 4294967296 -> 0 <= free_page_start K -> free_page_start K + Z.of_nat (length l) < 65536 ->
  (forall i, is_byte i -> 0 <= get tbl i /\ get tbl i + Z.of_nat (length l) < 65536) ->
  exists b' tbl', quiet (bdev K) b' /\
    countDiskFilePages_loop l K tbl
    = (true, set_free_bytes (u32 (free_bytes K + Z.of_nat (length l) * ds - used ds P l))
        (set_free_start (free_page_start K + count has_header l) (set_bdev b' K)), tbl') /\
    length tbl' = 256%nat /\ forall i, is_byte i -> get tbl' i = get tbl i + count (of_file i) l.
Proof.
  revert K tbl. induction l as [|b l IH]; intros K tbl Hd Hl Ht Hfb Hfs0 Hfs Htb.
  - exists (bdev K), tbl. split; [apply quiet_refl, Hd|]. split_and!; [|done|].
    + cbn. unfold count. cbn. rewrite !Z.add_0_r, Z.sub_0_r, u32_small by lia. by destruct K.
    + intros i _. unfold count. cbn. lia.
  - cbn [countDiskFilePages_loop length] in *. destruct (on_dev_read K b Hd (Hl b ltac:(left))) as (b1 & Hq & -> & Hd1).
    set (h := raw b). change (valid h) with (has_header b). set (K1 := set_free_bytes _ (set_bdev b1 K)).
    assert (E1 : free_bytes K1 = u32 (free_bytes K + ds)) by (cbn; by rewrite (d_ds _ Hd)).
    rewrite used_cons, count_cons. unfold fill_at. rewrite hdr_raw. fold h.
    destruct (has_header b) eqn:Ev.
    + assert (Hhb : is_byte (inode h)) by apply u8_range. destruct (Htb _ Hhb) as [T1 T2].
      set (tbl1 := upd tbl (inode h) _).
      assert (Etb : forall i, is_byte i -> get tbl1 i = get tbl i + (if inode h =? i then 1 else 0)).
      { intros i Hi. unfold tbl1, is_byte in *. destruct (Z.eqb_spec (inode h) i) as [<-|Hne].
        - rewrite get_upd_eq by lia. rewrite u16_small by lia. done.
        - rewrite get_upd_ne by lia. lia. }
      set (K2 := set_free_start _ _).
      assert (E2 : free_page_start K2 = free_page_start K + 1) by (cbn; rewrite u16_small; lia).
      assert (E3 : free_bytes K2 = u32 (free_bytes K + ds - fill h))
        by (unfold K2; cbn [free_bytes set_free_start set_free_bytes]; rewrite E1; apply u32_minus).
      destruct (IH K2 tbl1) as (b2 & tbl2 & Hq2 & -> & Hl2 & Hg2).
      * apply Hd1; [done|apply Hd].
      * intros c Hc. apply Hl. by right.
      * unfold tbl1. by rewrite length_upd.
      * rewrite E3. apply u32_range.
      * lia.
      * lia.
      * intros i Hi. rewrite Etb by done. specialize (Htb i Hi). destruct (inode h =? i); lia.
      * exists b2, tbl2. split; [by eapply quiet_trans|]. split_and!; [|done|].
        -- rewrite E2, E3. unfold K2, K1. cbn [set_free_start set_free_bytes set_bdev bdev data_size page_array disk_size file_opened_list].
           unfold set_free_start, set_free_bytes, set_bdev. cbn. do 3 f_equal; [lia|].
           rewrite <- Z.add_sub_assoc, u32_plus. f_equal. lia.
        -- intros i Hi. rewrite Hg2, Etb, count_cons by done. unfold of_file at 2. fold h. change (valid h) with (has_header b). rewrite Ev. cbn [andb]. lia.
    + destruct (IH K1 tbl) as (b2 & tbl2 & Hq2 & -> & Hl2 & Hg2).
      * apply Hd1; [done|apply Hd].
      * intros c Hc. apply Hl. by right.
      * done.
      * rewrite E1. apply u32_range.
      * cbn. lia.
      * cbn. lia.
      * intros i Hi. specialize (Htb i Hi). lia.
      * exists b2, tbl2. split; [by eapply quiet_trans|]. split_and!; [|done|].
        -- rewrite E1. unfold K1, set_free_start, set_free_bytes, set_bdev. cbn. do 3 f_equal.
           rewrite <- Z.add_sub_assoc, u32_plus. f_equal. lia.
        -- intros i Hi. rewrite Hg2, count_cons by done. unfold of_file at 2. fold h. change (valid h) with (has_header b). rewrite Ev. cbn [andb]. lia.
Qed.

(** ** The rows *)

#[local] Notation "'U'" := PAGE_UNSET_SENTINEL.

Definition is_set (b : Z) : bool := negb (b =? U).

Lemma count_ext p q l : (forall b, b ∈ l -> p b = q b) -> count p l = count q l.
Proof.
  induction l as [|b l IH]; intros HE; [done|]. rewrite !count_cons, (HE b), IH by set_solver. done.
Qed.

Lemma count_split l : count is_set l + count (fun b => b =? U) l = Z.of_nat (length l).
Proof. induction l as [|b l IH]; [done|]. rewrite !count_cons. unfold is_set in *. cbn [length]. destruct (b =? U); cbn [negb]; lia. Qed.

Lemma count_insert p l o x y : l !! o = Some x ->
  count p (<[o:=y]> l) = count p l - (if p x then 1 else 0) + (if p y then 1 else 0).
Proof.
  intros E. pose proof (lookup_lt_Some _ _ _ E). rewrite insert_take_drop by done.
  rewrite <- (take_drop_middle l o x E) at 3. rewrite !count_app, !count_cons. lia.
Qed.

(** The bytes the set places hold. *)
Definition worth (l : list Z) : Z := used ds P (List.filter is_set l).

Lemma worth_app l1 l2 : worth (l1 ++ l2) = worth l1 + worth l2.
Proof. unfold worth. by rewrite List.filter_app, used_app. Qed.

Lemma worth_one b : worth [b] = if is_set b then fill_at ds (P b) else 0.
Proof. unfold worth. cbn. destruct (is_set b); cbn; lia. Qed.

Lemma live_insert G i o x (tl : list Z) : is_byte i -> (o < length (G i))%nat ->
  upd (live G ++ tl) (start_of G i + Z.of_nat o) x = live (upd_file G i (<[o:=x]> (G i))) ++ tl.
Proof.
  intros Hi Ho. rewrite live_upd, (live_at G i) by done. unfold upd.
  replace (Z.to_nat (start_of G i + Z.of_nat o)) with (length (part G 0 i) + o)%nat by (unfold start_of; lia).
  by rewrite <- !app_assoc, insert_app_r, insert_app_l.
Qed.

Lemma live_get G i o x (tl : list Z) : is_byte i -> G i !! o = Some x -> get (live G ++ tl) (start_of G i + Z.of_nat o) = x.
Proof.
  intros Hi E. pose proof (live_lookup G i o x Hi E) as L. pose proof (start_of_le G i Hi).
  rewrite get_lookup. replace (Z.to_nat (start_of G i + Z.of_nat o)) with (Z.to_nat (start_of G i) + o)%nat by lia.
  rewrite lookup_app_l by (by eapply lookup_lt_Some). by rewrite L.
Qed.

Lemma insert_Permutation (l : list Z) o x y : l !! o = Some x -> x :: <[o:=y]> l ≡ₚ y :: l.
Proof.
  intros E. pose proof (lookup_lt_Some _ _ _ E). rewrite insert_take_drop by done.
  rewrite <- (take_drop_middle l o x E) at 3. rewrite <- !Permutation_middle. apply Permutation_swap.
Qed.

(** ** The second pass *)

Context (age : Z) (F : Z -> list Z) (free : list Z) (R : Z -> list Z).
Hypothesis HP : pages_ok ds n age F free P R.

(** The blocks still to come. *)
Definition rest (k : Z) : list Z := seqZ k (n - k).

Lemma still_step k : 0 <= k < n -> rest k = k :: rest (k + 1).
Proof. intros Hk. unfold rest. rewrite seqZ_cons by lia. do 2 f_equal; lia. Qed.

Lemma rest_end : rest n = [].
Proof. unfold rest. by rewrite Z.sub_diag. Qed.

Record filling (k : Z) (tbl : list Z) (G : Z -> list Z) (fr : list Z) K : Prop := {
  g_dev : on_dev K;
  g_array : page_array K = live G ++ fr ++ replicate (Z.to_nat (count (fun b => negb (has_header b)) (rest k))) U;
  g_start : free_page_start K = Z.of_nat (length (live G));
  g_table : length tbl = 256%nat;
  g_len i : is_byte i -> get tbl i = Z.of_nat (length (G i));
  g_set i o b : is_byte i -> G i !! o = Some b -> b <> U ->
    0 <= b < k /\ has_header b = true /\ inode (raw b) = i /\ pgoff (raw b) = Z.of_nat o;
  g_own i o b : is_byte i -> F i !! o = Some b -> b < k -> G i !! o = Some b;
  g_unset i : is_byte i -> count (fun b => b =? U) (G i) = count (of_file i) (rest k);
  g_perm : page_array K ≡ₚ seqZ 0 k ++ replicate (Z.to_nat (n - k)) U;
  g_free : free_bytes K = u32 (n * ds - used ds P (rest k) - worth (live G))
}.

(** The place of a page is one of its file, which has an owner. *)
Lemma owner b : 0 <= b < n -> has_header b = true ->
  is_byte (inode (raw b)) /\ exists c, F (inode (raw b)) !! Z.to_nat (pgoff (raw b)) = Some c /\ 0 <= c < n /\
    has_header c = true /\ inode (raw c) = inode (raw b) /\ pgoff (raw c) = pgoff (raw b) /\ 0 <= pgoff (raw b) < 65536 /\
    (c <> b -> seq (raw b) < seq (raw c)).
Proof.
  intros Hb Hv. assert (Hi : is_byte (inode (raw b))) by apply u8_range. split; [done|].
  destruct (p_known _ _ _ _ _ _ _ HP b Hb) as [Hk _]. destruct (Hk (raw b)) as (c & Ec & _ & Hs); [by rewrite hdr_raw, Hv|].
  unfold place in Ec. exists c. destruct (p_owns _ _ _ _ _ _ _ HP _ _ _ Hi Ec) as (h & Eh & Ei & Eo & _).
  assert (Ho : 0 <= pgoff (raw b) < 65536) by apply u16_range. unfold seq_at in Hs. rewrite hdr_raw in *.
  destruct (has_header c) eqn:Ev; [|done]. injection Eh as <-. split_and!; try done; try lia.
  - eapply (p_range _ _ _ _ _ _ _ c HP). left. apply live_elem. eauto.
  - eapply (p_range _ _ _ _ _ _ _ c HP). left. apply live_elem. eauto.
Qed.

Lemma owned i o b : is_byte i -> F i !! o = Some b -> 0 <= b < n /\ of_file i b = true.
Proof.
  intros Hi E. destruct (p_owns _ _ _ _ _ _ _ HP i o b Hi E) as (h & Eh & Ei & _).
  split; [apply (p_range _ _ _ _ _ _ _ b HP); left; apply live_elem; eauto|].
  rewrite hdr_raw in Eh. unfold of_file. change (valid (raw b)) with (has_header b). destruct (has_header b); [|done].
  injection Eh as <-. by apply Z.eqb_eq.
Qed.

Lemma cover k i g : is_byte i -> (forall o b, F i !! o = Some b -> b < k -> b ∈ g) -> 0 <= k <= n ->
  Z.of_nat (length (F i)) <= count is_set g + count (of_file i) (rest k).
Proof.
  intros Hi Hg Hk. unfold count. rewrite <- Nat2Z.inj_add, <- length_app. apply Nat2Z.inj_le.
  apply submseteq_length, NoDup_submseteq.
  - pose proof (NoDup_seqZ 0 n) as Hnd. rewrite <- (p_all _ _ _ _ _ _ _ HP) in Hnd. apply NoDup_app in Hnd as (Hnd & _).
    rewrite (live_at F i Hi) in Hnd. apply NoDup_app in Hnd as (_ & _ & Hnd). by apply NoDup_app in Hnd as (Hnd & _).
  - intros b [o E]%list_elem_of_lookup. destruct (owned i o b Hi E) as [Hb Ho]. apply elem_of_app.
    destruct (decide (b < k)) as [Hlt|Hge]; [left|right]; apply list_elem_of_In, List.filter_In; split.
    + apply list_elem_of_In. by apply (Hg o b).
    + unfold is_set, PAGE_UNSET_SENTINEL. apply negb_true_iff, Z.eqb_neq. lia.
    + apply list_elem_of_In, elem_of_seqZ. lia.
    + done.
Qed.

(** There is a slot for every page of a file. *)
Lemma slots k tbl G fr K i : filling k tbl G fr K -> is_byte i -> 0 <= k <= n -> (length (F i) <= length (G i))%nat.
Proof.
  intros Hf Hi Hk. pose proof (cover k i (G i) Hi) as Hc. rewrite <- (g_unset _ _ _ _ _ Hf i Hi), count_split in Hc.
  apply Nat2Z.inj_le, Hc; [|done]. intros o b E Hb. eapply list_elem_of_lookup_2. by apply (g_own _ _ _ _ _ Hf).
Qed.

(** Behind them the slots are unset. *)
Lemma behind k tbl G fr K i o b : filling k tbl G fr K -> is_byte i -> G i !! o = Some b -> (length (F i) <= o)%nat -> k <= n -> b = U.
Proof.
  intros Hf Hi E Ho Hk. destruct (decide (b = U)) as [|Hne]; [done|]. exfalso.
  destruct (g_set _ _ _ _ _ Hf i o b Hi E Hne) as (Hb & Hv & Ei & Eo).
  destruct (owner b ltac:(lia) Hv) as (_ & c & Ec & _). rewrite Ei, Eo, Nat2Z.id in Ec. apply lookup_lt_Some in Ec. lia.
Qed.

(** A turn: block [k] is read. *)

Lemma perm_step (a a' : list Z) k : 0 <= k < n -> U :: a ≡ₚ k :: a' ->
  a' ≡ₚ seqZ 0 k ++ replicate (Z.to_nat (n - k)) U -> a ≡ₚ seqZ 0 (k + 1) ++ replicate (Z.to_nat (n - (k + 1))) U.
Proof.
  intros Hk E Ha. replace (Z.to_nat (n - k)) with (S (Z.to_nat (n - (k + 1)))) in Ha by lia. cbn [replicate] in Ha.
  rewrite <- Permutation_middle in Ha. rewrite seqZ_app, <- app_assoc by lia. change (seqZ (0 + k) 1) with [Z.of_nat 0 + (0 + k)].
  replace (Z.of_nat 0 + (0 + k)) with k by lia. cbn [app]. rewrite <- Permutation_middle.
  apply (Permutation_cons_inv (a := U)). rewrite E, Ha. apply Permutation_swap.
Qed.

Lemma pages_length k tbl G fr K : filling k tbl G fr K -> 0 <= k <= n -> Z.of_nat (length (page_array K)) = n.
Proof.
  intros Hf Hk. rewrite (Permutation_length (g_perm _ _ _ _ _ Hf)), length_app, length_seqZ, length_replicate. lia.
Qed.

Lemma fill_invalid k tbl G fr K K1 : filling k tbl G fr K -> 0 <= k < n -> has_header k = false ->
  on_dev K1 -> K1 = set_bdev (bdev K1) K ->
  filling (k + 1) tbl G (fr ++ [k]) (set_pages (upd (page_array K1) (Z.of_nat (length (live G)) + Z.of_nat (length fr)) k) K1).
Proof.
  intros Hf Hk Hv Hd EK. pose proof Hf as [G1 G2 G3 G4 G5 G6 G7 G8 G9 G10].
  rewrite (still_step k Hk), count_cons, Hv in G2. cbn [negb] in G2.
  set (m := count _ (rest (k + 1))) in *. assert (Hm : 0 <= m) by (pose proof (count_le (fun b => negb (has_header b)) (rest (k + 1))); lia).
  replace (Z.to_nat (1 + m)) with (S (Z.to_nat m)) in G2 by lia. cbn [replicate] in G2.
  assert (EA : page_array K1 = page_array K) by (by rewrite EK).
  assert (Eu : upd (page_array K) (Z.of_nat (length (live G)) + Z.of_nat (length fr)) k
    = live G ++ (fr ++ [k]) ++ replicate (Z.to_nat m) U).
  { rewrite G2. unfold upd. replace (Z.to_nat _) with (length (live G) + (length fr + 0))%nat by lia.
    rewrite insert_app_r, insert_app_r. cbn. by rewrite <- app_assoc. }
  assert (El : page_array K !! (length (live G) + (length fr + 0))%nat = Some U).
  { rewrite G2, lookup_app_r by lia. rewrite lookup_app_r by lia. replace (_ - _ - _)%nat with O by lia. done. }
  assert (Hno : forall i, of_file i k = false) by (intros i; unfold of_file; change (valid (raw k)) with (has_header k); by rewrite Hv).
  split; cbn [set_pages bdev data_size page_array free_page_start free_bytes]; rewrite ?EA.
  - destruct Hd as [D1 D2 D3 D4 D5]. by split.
  - rewrite Eu. by rewrite <- !app_assoc.
  - by rewrite EK.
  - done.
  - done.
  - intros i o b Hi E Hne. destruct (G6 i o b Hi E Hne) as (? & ?). split; [lia|done].
  - intros i o b Hi E Hb. apply G7; [done|done|]. destruct (decide (b = k)) as [->|]; [|lia].
    destruct (owned i o k Hi E) as [_ Ho]. by rewrite Hno in Ho.
  - intros i Hi. rewrite (G8 i Hi), (still_step k Hk), count_cons, Hno. done.
  - apply (perm_step _ (page_array K) k Hk); [|done]. unfold upd. apply insert_Permutation.
    replace (Z.to_nat _) with (length (live G) + (length fr + 0))%nat by lia. exact El.
  - rewrite EK. cbn [set_bdev free_bytes]. rewrite G10, (still_step k Hk), used_cons. unfold fill_at. rewrite hdr_raw, Hv. done.
Qed.

(** Where a good page goes. *)
Lemma slot_of k tbl G fr K : filling k tbl G fr K -> 0 <= k < n -> has_header k = true ->
  let i := inode (raw k) in let o := Z.to_nat (pgoff (raw k)) in
  is_byte i /\ pgoff (raw k) = Z.of_nat o /\ (o < length (F i))%nat /\ (o < length (G i))%nat /\
  start_of G i + Z.of_nat (length (G i)) <= n.
Proof.
  intros Hf Hk Hv i o. destruct (owner k Hk Hv) as (Hi & c & Ec & _ & _ & _ & _ & Ho & _). fold i o in Hi, Ec.
  pose proof (slots _ _ _ _ _ i Hf Hi ltac:(lia)) as Hs. pose proof (lookup_lt_Some _ _ _ Ec).
  pose proof (start_of_le G i Hi). pose proof (pages_length _ _ _ _ _ Hf ltac:(lia)) as Hl.
  rewrite (g_array _ _ _ _ _ Hf), length_app in Hl. split_and!; try done; lia.
Qed.

Lemma countPages_ok k tbl G fr K i : filling k tbl G fr K -> 0 <= k <= n -> is_byte i -> countPages tbl i = start_of G i.
Proof.
  intros Hf Hk Hi. unfold countPages. pose proof (pages_length _ _ _ _ _ Hf Hk) as Hl.
  rewrite (g_array _ _ _ _ _ Hf), length_app in Hl.
  assert (HG : forall m, (Z.of_nat m <= 255) -> fold_left (fun cnt j => u16 (cnt + get tbl j)) (seqZ 0 (Z.of_nat m)) 0 = start_of G (Z.of_nat m)).
  { induction m as [|m IH]; intros Hm; [done|]. replace (Z.of_nat (S m)) with (Z.of_nat m + 1) by lia.
    rewrite seqZ_app, fold_left_app, IH by lia. change (seqZ (0 + Z.of_nat m) 1) with [Z.of_nat 0 + (0 + Z.of_nat m)].
    replace (Z.of_nat 0 + (0 + Z.of_nat m)) with (Z.of_nat m) by lia. cbn [fold_left].
    assert (Hb : is_byte (Z.of_nat m)) by (unfold is_byte; lia). rewrite (g_len _ _ _ _ _ Hf _ Hb).
    pose proof (start_of_le G _ Hb). unfold start_of at 2. rewrite part_app, part_one, length_app, Z.add_0_l by lia.
    unfold start_of in *. rewrite u16_small by lia. lia. }
  unfold is_byte in Hi. specialize (HG (Z.to_nat i)). rewrite Z2Nat.id in HG by lia. apply HG. lia.
Qed.

Lemma of_file_raw j k : has_header k = true -> of_file j k = (inode (raw k) =? j).
Proof. intros Hv. unfold of_file. change (valid (raw k)) with (has_header k). by rewrite Hv. Qed.

Lemma fill_new k tbl G fr K K1 : filling k tbl G fr K -> 0 <= k < n -> has_header k = true ->
  on_dev K1 -> K1 = set_bdev (bdev K1) K ->
  let i := inode (raw k) in let o := Z.to_nat (pgoff (raw k)) in
  G i !! o = Some U ->
  filling (k + 1) tbl (upd_file G i (<[o := k]> (G i))) fr
    (set_pages (upd (page_array K1) (start_of G i + Z.of_nat o) k) K1).
Proof.
  intros Hf Hk Hv Hd EK i o Eo. destruct (slot_of _ _ _ _ _ Hf Hk Hv) as (Hi & Epo & HoF & HoG & Hle). fold i o in Hi, Epo, HoF, HoG, Hle.
  pose proof Hf as [G1 G2 G3 G4 G5 G6 G7 G8 G9 G10].
  assert (EA : page_array K1 = page_array K) by (by rewrite EK).
  assert (Hown : forall j, of_file j k = (i =? j)) by (intros; by apply of_file_raw).
  assert (Hkn : k <> U) by (unfold PAGE_UNSET_SENTINEL; lia). set (G' := upd_file G i _).
  assert (EG : G' i = <[o:=k]> (G i)) by apply upd_file_same.
  assert (EG2 : forall j, j <> i -> G' j = G j) by (intros; by apply upd_file_other).
  assert (EL : length (live G') = length (live G)).
  { unfold G'. rewrite live_upd, (live_at G i), !length_app, length_insert by done. done. }
  split; cbn [set_pages bdev data_size page_array free_page_start free_bytes]; rewrite ?EA.
  - destruct Hd as [D1 D2 D3 D4 D5]. by split.
  - rewrite G2, live_insert by done. rewrite (still_step k Hk), count_cons, Hv. done.
  - rewrite EL. by rewrite EK.
  - done.
  - intros j Hj. rewrite (G5 j Hj). destruct (decide (j = i)) as [->|]; [by rewrite EG, length_insert|by rewrite EG2].
  - intros j o1 b Hj E Hne. destruct (decide (j = i)) as [->|Hji].
    + rewrite EG in E. destruct (decide (o1 = o)) as [->|Ho1].
      * rewrite list_lookup_insert_eq in E by done. injection E as <-. split_and!; done || lia.
      * rewrite list_lookup_insert_ne in E by done. destruct (G6 i o1 b Hj E Hne) as (? & ?). split; [lia|done].
    + rewrite EG2 in E by done. destruct (G6 j o1 b Hj E Hne) as (? & ?). split; [lia|done].
  - intros j o1 b Hj E Hb. destruct (owned j o1 b Hj E) as [Hb0 Hob].
    destruct (decide (b = k)) as [->|Hbk].
    + rewrite Hown in Hob. apply Z.eqb_eq in Hob. subst j. rewrite EG.
      destruct (p_owns _ _ _ _ _ _ _ HP i o1 k Hi E) as (h & Eh & _ & Eo1 & _). rewrite hdr_raw, Hv in Eh. injection Eh as <-.
      assert (o1 = o) as -> by lia. by apply list_lookup_insert_eq.
    + specialize (G7 j o1 b Hj E ltac:(lia)). destruct (decide (j = i)) as [->|]; [|by rewrite EG2].
      rewrite EG. rewrite list_lookup_insert_ne; [done|]. intros <-. rewrite Eo in G7. injection G7 as <-.
      unfold PAGE_UNSET_SENTINEL in *. lia.
  - intros j Hj. pose proof (G8 j Hj) as E8. rewrite (still_step k Hk), count_cons, Hown in E8.
    destruct (decide (j = i)) as [->|Hji].
    + rewrite EG, (count_insert _ _ _ _ _ Eo). rewrite Z.eqb_refl in *. rewrite (proj2 (Z.eqb_neq k U) Hkn). lia.
    + rewrite EG2 by done. rewrite (proj2 (Z.eqb_neq i j)) in E8 by done. lia.
  - apply (perm_step _ (page_array K) k Hk); [|done]. rewrite G2. pose proof (start_of_le G i Hi).
    unfold upd. apply insert_Permutation. pose proof (live_lookup G i o U Hi Eo) as L.
    replace (Z.to_nat (start_of G i + Z.of_nat o)) with (Z.to_nat (start_of G i) + o)%nat by lia.
    rewrite lookup_app_l by (by eapply lookup_lt_Some). exact L.
  - rewrite EK. cbn [set_bdev free_bytes]. rewrite G10, (still_step k Hk), used_cons. f_equal.
    assert (EW : worth (live G') = worth (live G) + fill_at ds (P k)); [|lia].
    unfold G'. rewrite live_upd, (live_at G i) by done. rewrite insert_take_drop by done.
    rewrite <- (take_drop_middle (G i) o U Eo) at 3.
    change (k :: drop (S o) (G i)) with ([k] ++ drop (S o) (G i)). change (U :: drop (S o) (G i)) with ([U] ++ drop (S o) (G i)).
    rewrite !worth_app, !worth_one. unfold is_set. rewrite (proj2 (Z.eqb_neq k U) Hkn). cbn. lia.
Qed.

(** Two pages for one place: which one stays. *)
Definition newer (k p : Z) : Z * Z := if seq (raw k) >? seq (raw p) then (p, k) else (k, p).

Lemma newer_owner k tbl G fr K i o p : filling k tbl G fr K -> 0 <= k < n -> has_header k = true ->
  inode (raw k) = i -> pgoff (raw k) = Z.of_nat o -> is_byte i -> G i !! o = Some p -> p <> U ->
  forall b, F i !! o = Some b -> b < k + 1 -> b = snd (newer k p).
Proof.
  intros Hf Hk Hv Ei Eo Hi Ep Hp b Eb Hb. destruct (g_set _ _ _ _ _ Hf i o p Hi Ep Hp) as (Hpr & Hpv & Epi & Epo).
  destruct (owner k Hk Hv) as (_ & c & Ec & _ & _ & _ & _ & _ & Hs). rewrite Ei, Eo, Nat2Z.id, Eb in Ec. injection Ec as <-.
  destruct (owner p ltac:(lia) Hpv) as (_ & c & Ec & _ & _ & _ & _ & _ & Hs2). rewrite Epi, Epo, Nat2Z.id, Eb in Ec. injection Ec as <-.
  unfold newer. destruct (decide (b = k)) as [->|Hne].
  - specialize (Hs2 ltac:(lia)). destruct (Z.gtb_spec (seq (raw k)) (seq (raw p))); [done|lia].
  - pose proof (g_own _ _ _ _ _ Hf i o b Hi Eb ltac:(lia)) as E. rewrite Ep in E. injection E as <-.
    specialize (Hs Hne). destruct (Z.gtb_spec (seq (raw k)) (seq (raw p))); [lia|done].
Qed.

(** The row after that: one place fewer, which was unset. *)
Record shorter (k : Z) (G : Z -> list Z) (i : Z) (o : nat) (p : Z) (g : list Z) : Prop := {
  sh_row : <[o := snd (newer k p)]> (G i) = g ++ [U];
  sh_off : (o < length g)%nat;
  sh_file : (length (F i) <= length g)%nat;
  sh_own o1 b : F i !! o1 = Some b -> b < k + 1 -> g !! o1 = Some b;
  sh_set o1 b : g !! o1 = Some b -> b <> U ->
    0 <= b < k + 1 /\ has_header b = true /\ inode (raw b) = i /\ pgoff (raw b) = Z.of_nat o1
}.

Lemma shorter_row k tbl G fr K i o p : filling k tbl G fr K -> 0 <= k < n -> has_header k = true ->
  inode (raw k) = i -> pgoff (raw k) = Z.of_nat o -> is_byte i -> (o < length (F i))%nat -> G i !! o = Some p -> p <> U ->
  exists g, shorter k G i o p g.
Proof.
  intros Hf Hk Hv Ei Eo Hi HoF Ep Hp. set (b := snd (newer k p)). set (g1 := <[o := b]> (G i)).
  pose proof (lookup_lt_Some _ _ _ Ep) as HoG. destruct (g_set _ _ _ _ _ Hf i o p Hi Ep Hp) as (Hpr & Hpv & Epi & Epo).
  assert (Hb : b <> U /\ 0 <= b < k + 1 /\ has_header b = true /\ inode (raw b) = i /\ pgoff (raw b) = Z.of_nat o).
  { unfold b, newer. destruct (_ >? _); cbn [snd]; split_and!; try done; unfold PAGE_UNSET_SENTINEL; lia. }
  destruct Hb as (Hbu & Hb).
  assert (Hown : forall o1 c, F i !! o1 = Some c -> c < k + 1 -> g1 !! o1 = Some c).
  { intros o1 c Ec Hc. unfold g1. destruct (decide (o1 = o)) as [->|Hne].
    - rewrite list_lookup_insert_eq by done. f_equal. symmetry. by apply (newer_owner k tbl G fr K i o p).
    - rewrite list_lookup_insert_ne by done. apply (g_own _ _ _ _ _ Hf i o1 c Hi Ec).
      destruct (decide (c = k)) as [->|]; [|lia]. exfalso. apply Hne.
      destruct (p_owns _ _ _ _ _ _ _ HP i o1 k Hi Ec) as (h & Eh & _ & Eo1 & _). rewrite hdr_raw, Hv in Eh. injection Eh as <-. lia. }
  assert (Hlen : (length (F i) < length (G i))%nat).
  { apply Nat2Z.inj_lt. pose proof (cover (k + 1) i g1 Hi) as Hc. pose proof (g_unset _ _ _ _ _ Hf i Hi) as Hu.
    rewrite (still_step k Hk), count_cons, of_file_raw, Ei, Z.eqb_refl in Hu by done.
    pose proof (count_split (G i)) as Hsp. unfold g1 in Hc at 2. rewrite (count_insert _ _ _ _ _ Ep) in Hc.
    assert (is_set p = true /\ is_set b = true) as [E1 E2] by (unfold is_set; split; by apply negb_true_iff, Z.eqb_neq).
    rewrite E1, E2 in Hc. enough (Z.of_nat (length (F i)) <= count is_set (G i) - 1 + 1 + count (of_file i) (rest (k + 1))) by lia.
    apply Hc; [|lia]. intros o1 c Ec Hlt. eapply list_elem_of_lookup_2. by apply (Hown o1 c). }
  set (m := Init.Nat.pred (length (G i))). destruct (lookup_lt_is_Some_2 (G i) m ltac:(lia)) as [z Ez].
  assert (z = U) as -> by (eapply (behind k); [exact Hf|exact Hi|exact Ez|lia|lia]).
  assert (Ez1 : g1 !! m = Some U) by (unfold g1; rewrite list_lookup_insert_ne by lia; done).
  assert (Lg : length g1 = length (G i)) by apply length_insert.
  assert (Eg : g1 = take m g1 ++ [U]).
  { rewrite <- (take_drop_middle g1 m U Ez1) at 1. do 2 f_equal. apply drop_ge. lia. }
  assert (Lt : length (take m g1) = m) by (rewrite length_take; lia).
  exists (take m g1). split; rewrite ?Lt; try done; try lia.
  - intros o1 c Ec Hc. pose proof (lookup_lt_Some _ _ _ Ec). rewrite lookup_take_lt by lia. by apply Hown.
  - intros o1 c Ec Hne. pose proof (lookup_lt_Some _ _ _ Ec). rewrite lookup_take_lt in Ec by lia. unfold g1 in Ec.
    destruct (decide (o1 = o)) as [->|Ho1].
    + rewrite list_lookup_insert_eq in Ec by done. by injection Ec as <-.
    + rewrite list_lookup_insert_ne in Ec by done. destruct (g_set _ _ _ _ _ Hf i o1 c Hi Ec Hne) as (? & ?). split; [lia|done].
Qed.

Lemma newer_two k p : forall l l' : list Z, p :: l ≡ₚ snd (newer k p) :: l' -> fst (newer k p) :: l ≡ₚ k :: l'.
Proof.
  intros l l' E. unfold newer in *. destruct (_ >? _); cbn [fst snd] in *; [done|].
  apply Permutation_cons_inv in E. by rewrite E.
Qed.

Lemma newer_fill k p : fill (raw k) + fill (raw p) = fill (raw (fst (newer k p))) + fill (raw (snd (newer k p))).
Proof. unfold newer. destruct (_ >? _); cbn [fst snd]; lia. Qed.

(** What [duplicate] does to the page array. *)
Lemma dup_pages k tbl G fr K i o p g : filling k tbl G fr K -> 0 <= k < n -> has_header k = true -> is_byte i ->
  G i !! o = Some p -> shorter k G i o p g ->
  let G' := upd_file G i g in let cfp := Z.of_nat (length (live G)) + Z.of_nat (length fr) in
  let pages1 := upd (page_array K) (start_of G i + Z.of_nat o) (snd (newer k p)) in
  exists X Y, pages1 = X ++ U :: Y /\ Z.of_nat (length X) + 1 = start_of G i + Z.of_nat (length (G i)) /\
    upd (X ++ Y ++ [U]) (cfp - 1) (fst (newer k p))
    = live G' ++ (fr ++ [fst (newer k p)]) ++ replicate (Z.to_nat (count (fun b => negb (has_header b)) (rest (k + 1)))) U /\
    Z.of_nat (length (live G')) = Z.of_nat (length (live G)) - 1 /\
    U :: upd (X ++ Y ++ [U]) (cfp - 1) (fst (newer k p)) ≡ₚ k :: page_array K.
Proof.
  intros Hf Hk Hv Hi Ep [S1 S2 S3 S4 S5] G' cfp pages1. pose proof Hf as [_ G2 _ _ _ _ _ _ G9 _].
  rewrite (still_step k Hk), count_cons, Hv in G2. cbn [negb] in G2.
  set (m := Z.to_nat (count _ (rest (k + 1)))). change (Z.to_nat (0 + _)) with m in G2.
  pose proof (lookup_lt_Some _ _ _ Ep) as HoG. pose proof (start_of_le G i Hi).
  assert (Lg : length (G i) = S (length g)).
  { pose proof (f_equal length S1) as El. rewrite length_insert, length_app in El. cbn [length] in El. lia. }
  assert (E1 : pages1 = part G 0 i ++ (g ++ [U]) ++ part G (i + 1) (255 - i) ++ fr ++ replicate m U).
  { unfold pages1. rewrite G2, live_insert, S1, live_upd by done. by rewrite <- !app_assoc. }
  assert (EL : live G' = part G 0 i ++ g ++ part G (i + 1) (255 - i)) by (unfold G'; by rewrite live_upd).
  assert (LL : length (live G) = S (length (live G'))).
  { rewrite EL, (live_at G i Hi), !length_app, Lg. lia. }
  exists (part G 0 i ++ g), (part G (i + 1) (255 - i) ++ fr ++ replicate m U).
  assert (Epages : (part G 0 i ++ g) ++ (part G (i + 1) (255 - i) ++ fr ++ replicate m U) ++ [U] = live G' ++ fr ++ U :: replicate m U).
  { rewrite EL, <- !app_assoc. do 4 f_equal. change (U :: replicate m U) with (replicate (S m) U).
    change [U] with (replicate 1 U). rewrite <- replicate_add. f_equal. lia. }
  assert (Eupd : forall x, upd (live G' ++ fr ++ U :: replicate m U) (cfp - 1) x = live G' ++ (fr ++ [x]) ++ replicate m U).
  { intros x. unfold upd. replace (Z.to_nat (cfp - 1)) with (length (live G') + (length fr + 0))%nat by (unfold cfp; lia).
    rewrite insert_app_r, insert_app_r. cbn. by rewrite <- app_assoc. }
  split_and!.
  - rewrite E1. by rewrite <- !app_assoc.
  - rewrite length_app, Lg. unfold start_of. lia.
  - rewrite Epages. apply Eupd.
  - lia.
  - rewrite Epages, Eupd.
    transitivity (fst (newer k p) :: pages1).
    + rewrite E1, EL. rewrite <- !app_assoc. cbn [app]. rewrite <- !Permutation_middle.
      apply Permutation_swap.
    + apply newer_two. unfold pages1, upd. apply insert_Permutation. rewrite G2.
      replace (Z.to_nat (start_of G i + Z.of_nat o)) with (Z.to_nat (start_of G i) + o)%nat by lia.
      pose proof (live_lookup G i o p Hi Ep) as L. rewrite lookup_app_l by (by eapply lookup_lt_Some). exact L.
Qed.

Lemma shorter_len k G i o p g : shorter k G i o p g -> length (G i) = S (length g).
Proof.
  intros Hg. pose proof (f_equal length (sh_row _ _ _ _ _ _ Hg)) as El. rewrite length_insert, length_app in El.
  cbn [length] in El. lia.
Qed.

Lemma dup_ok k tbl G fr K K1 i o p g : filling k tbl G fr K -> 0 <= k < n -> has_header k = true ->
  on_dev K1 -> K1 = set_bdev (bdev K1) K -> inode (raw k) = i -> pgoff (raw k) = Z.of_nat o -> is_byte i ->
  start_of G i + Z.of_nat (length (G i)) <= n -> G i !! o = Some p -> shorter k G i o p g ->
  let cfp := Z.of_nat (length (live G)) + Z.of_nat (length fr) in
  exists K', duplicate K1 tbl cfp (start_of G i + Z.of_nat o) k (raw k) (raw p)
      = (K', upd tbl i (Z.of_nat (length (G i)) - 1), cfp) /\
    bdev K' = bdev K1 /\ data_size K' = data_size K1 /\ file_opened_list K' = file_opened_list K1 /\ disk_size K' = disk_size K1 /\
    page_array K' = live (upd_file G i g) ++ (fr ++ [fst (newer k p)]) ++
      replicate (Z.to_nat (count (fun b => negb (has_header b)) (rest (k + 1)))) U /\
    U :: page_array K' ≡ₚ k :: page_array K /\
    free_page_start K' = Z.of_nat (length (live (upd_file G i g))) /\
    Z.of_nat (length (live (upd_file G i g))) = Z.of_nat (length (live G)) - 1 /\
    free_bytes K' = u32 (free_bytes K + fill (raw (fst (newer k p)))).
Proof.
  intros Hf Hk Hv Hd EK Ei Epo Hi Hle Ep Hg cfp.
  destruct (dup_pages k tbl G fr K i o p g Hf Hk Hv Hi Ep Hg) as (X & Y & EX & LX & EU & LG & Hperm). fold cfp in EU, Hperm.
  pose proof (shorter_len _ _ _ _ _ _ Hg) as Lg. pose proof (pages_length _ _ _ _ _ Hf ltac:(lia)) as Hlen.
  pose proof Hlen as Hlen2. rewrite (g_array _ _ _ _ _ Hf), !length_app in Hlen2. pose proof (start_of_le G i Hi).
  unfold duplicate. rewrite Ei, Epo, (g_len _ _ _ _ _ Hf i Hi).
  assert (Eg : get (page_array K1) (start_of G i + Z.of_nat o) = p) by (rewrite EK; cbn; rewrite (g_array _ _ _ _ _ Hf); by apply live_get).
  rewrite Eg. change (if _ >? _ then _ else _) with (if seq (raw k) >? seq (raw p) then (p, k, fill (raw p)) else (k, p, fill (raw k))).
  assert (Enew : (if seq (raw k) >? seq (raw p) then (p, k, fill (raw p)) else (k, p, fill (raw k)))
    = (fst (newer k p), snd (newer k p), fill (raw (fst (newer k p))))) by (unfold newer; by destruct (_ >? _)).
  rewrite Enew, (u16_small (start_of G i + Z.of_nat o - Z.of_nat o + Z.of_nat (length (G i)))) by lia.
  replace (start_of G i + Z.of_nat o - Z.of_nat o + Z.of_nat (length (G i))) with (Z.of_nat (length X) + 1) by lia.
  set (K2 := set_free_bytes _ _).
  assert (Ec : cnt K2 = n) by (unfold cnt; cbn [bdev K2 set_free_bytes set_pages]; apply (d_cnt _ Hd)).
  rewrite (movePages_down K2 X U Y); [|cbn [K2 set_free_bytes set_pages page_array]; rewrite EK; exact EX| |].
  2:{ rewrite <- EX, length_upd, Ec. lia. }
  2:{ rewrite Ec. lia. }
  rewrite (u16_small (Z.of_nat (length (G i)) - 1)), (u16_small (cfp - 1)) by (unfold cfp; lia).
  rewrite (u16_small (cfp - 1 + 1)) by (unfold cfp; lia). replace (cfp - 1 + 1) with cfp by lia.
  eexists. split; [reflexivity|]. cbn [set_pages set_free_start set_free_bytes K2 bdev data_size page_array free_page_start free_bytes file_opened_list disk_size].
  rewrite EK. cbn [set_bdev free_bytes free_page_start]. rewrite (g_start _ _ _ _ _ Hf), u16_small by lia.
  rewrite <- EU. split_and!; done || lia.
Qed.

Lemma dup_worth k tbl G fr K i o p g : filling k tbl G fr K -> 0 <= k < n -> has_header k = true -> is_byte i ->
  G i !! o = Some p -> p <> U -> shorter k G i o p g ->
  worth (live (upd_file G i g)) = worth (live G) - fill (raw p) + fill (raw (snd (newer k p))).
Proof.
  intros Hf Hk Hv Hi Ep Hp Hg. destruct (g_set _ _ _ _ _ Hf i o p Hi Ep Hp) as (Hpr & Hpv & _).
  assert (EF : forall b, has_header b = true -> fill_at ds (P b) = fill (raw b)) by (intros b Hb; unfold fill_at; by rewrite hdr_raw, Hb).
  assert (Hb : (snd (newer k p) =? U) = false /\ (p =? U) = false /\ has_header (snd (newer k p)) = true).
  { split_and!; [apply Z.eqb_neq|by apply Z.eqb_neq|]; unfold newer; destruct (_ >? _); cbn [snd]; try done.
    unfold PAGE_UNSET_SENTINEL. lia. }
  destruct Hb as (E1 & E2 & E3). rewrite live_upd, (live_at G i) by done. rewrite !worth_app.
  enough (worth g = worth (G i) - fill (raw p) + fill (raw (snd (newer k p)))) by lia.
  assert (Eg : worth (g ++ [U]) = worth g) by (rewrite worth_app, worth_one; cbn; lia).
  pose proof (lookup_lt_Some _ _ _ Ep). rewrite <- Eg, <- (sh_row _ _ _ _ _ _ Hg), insert_take_drop by done.
  rewrite <- (take_drop_middle (G i) o p Ep) at 3.
  change (snd (newer k p) :: drop (S o) (G i)) with ([snd (newer k p)] ++ drop (S o) (G i)).
  change (p :: drop (S o) (G i)) with ([p] ++ drop (S o) (G i)).
  rewrite !worth_app, !worth_one. unfold is_set. rewrite E1, E2. cbn [negb]. rewrite !EF by done. lia.
Qed.

Lemma fill_dup k tbl G fr K K1 p : filling k tbl G fr K -> 0 <= k < n -> has_header k = true ->
  on_dev K1 -> K1 = set_bdev (bdev K1) K ->
  let i := inode (raw k) in let o := Z.to_nat (pgoff (raw k)) in
  let cfp := Z.of_nat (length (live G)) + Z.of_nat (length fr) in
  G i !! o = Some p -> p <> U ->
  exists K' tbl' G' fr', duplicate K1 tbl cfp (start_of G i + Z.of_nat o) k (raw k) (raw p) = (K', tbl', cfp) /\
    filling (k + 1) tbl' G' fr' K' /\ cfp = Z.of_nat (length (live G')) + Z.of_nat (length fr') /\
    bdev K' = bdev K1 /\ file_opened_list K' = file_opened_list K1 /\ disk_size K' = disk_size K1.
Proof.
  intros Hf Hk Hv Hd EK i o cfp Ep Hp. destruct (slot_of _ _ _ _ _ Hf Hk Hv) as (Hi & Epo & HoF & HoG & Hle). fold i o in Hi, Epo, HoF, HoG, Hle.
  destruct (shorter_row k tbl G fr K i o p Hf Hk Hv eq_refl Epo Hi HoF Ep Hp) as (g & Hg).
  destruct (dup_ok k tbl G fr K K1 i o p g Hf Hk Hv Hd EK eq_refl Epo Hi Hle Ep Hg) as (K' & Edup & B1 & B2 & B3 & B4 & B5 & B6 & B7 & B8 & B9).
  pose proof (dup_worth k tbl G fr K i o p g Hf Hk Hv Hi Ep Hp Hg) as EW. pose proof (shorter_len _ _ _ _ _ _ Hg) as Lg.
  pose proof Hg as [S1 S2 S3 S4 S5]. set (G' := upd_file G i g) in *.
  pose proof Hf as [G1 G2 G3 G4 G5 G6 G7 G8 G9 G10]. destruct (g_set _ _ _ _ _ Hf i o p Hi Ep Hp) as (Hpr & _).
  eexists K', _, G', (fr ++ [fst (newer k p)]). split; [exact Edup|]. split; [|split_and!; try done; rewrite B8, length_app; unfold cfp; cbn [length]; lia].
  assert (EG : G' i = g) by apply upd_file_same.
  assert (EG2 : forall j, j <> i -> G' j = G j) by (intros; by apply upd_file_other).
  split; try done.
  - destruct Hd as [D1 D2 D3 D4 D5]. split; by rewrite ?B1, ?B2.
  - by rewrite length_upd.
  - intros j Hj. unfold is_byte in Hi, Hj. destruct (decide (j = i)) as [->|Hji].
    + rewrite EG, get_upd_eq by lia. lia.
    + rewrite EG2, get_upd_ne by (done || lia). by apply G5.
  - intros j o1 b Hj E Hne. destruct (decide (j = i)) as [->|Hji].
    + rewrite EG in E. by apply S5.
    + rewrite EG2 in E by done. destruct (G6 j o1 b Hj E Hne) as (? & ?). split; [lia|done].
  - intros j o1 b Hj E Hb. destruct (decide (j = i)) as [->|Hji]; [rewrite EG; by apply S4|]. rewrite EG2 by done.
    apply G7; [done|done|]. destruct (decide (b = k)) as [->|]; [|lia]. destruct (owned j o1 k Hj E) as [_ Ho].
    rewrite of_file_raw in Ho by done. apply Z.eqb_eq in Ho. by subst j.
  - intros j Hj. pose proof (G8 j Hj) as E8. rewrite (still_step k Hk), count_cons, of_file_raw in E8 by done. fold i in E8.
    destruct (decide (j = i)) as [->|Hji].
    + rewrite EG. pose proof (count_insert (fun b => b =? U) (G i) o p (snd (newer k p)) Ep) as Ec.
      rewrite S1, count_app in Ec. change (count (fun b => b =? U) [U]) with 1 in Ec. rewrite Z.eqb_refl in E8.
      assert ((p =? U) = false /\ (snd (newer k p) =? U) = false) as [E1 E2]; [|rewrite E1, E2 in Ec; lia].
      split; apply Z.eqb_neq; [done|]. unfold newer. destruct (_ >? _); [unfold PAGE_UNSET_SENTINEL; cbn; lia|done].
    + rewrite EG2 by done. rewrite (proj2 (Z.eqb_neq i j)) in E8 by done. lia.
  - by apply (perm_step _ (page_array K) k Hk).
  - rewrite B9, G10, u32_plus, (still_step k Hk), used_cons, EW. f_equal.
    pose proof (newer_fill k p). unfold fill_at. rewrite hdr_raw, Hv. lia.
Qed.

Lemma set_bdev_back K b : set_bdev b K = set_bdev (bdev (set_bdev b K)) K.
Proof. done. Qed.

Lemma fill_loop j k tbl G fr K : Z.to_nat (n - k) = j -> filling k tbl G fr K -> 0 <= k <= n ->
  exists K' tbl' G' fr',
    fillPageArray_loop (rest k) K tbl (Z.of_nat (length (live G)) + Z.of_nat (length fr)) = (true, K') /\
    filling n tbl' G' fr' K' /\ quiet (bdev K) (bdev K') /\ file_opened_list K' = file_opened_list K /\ disk_size K' = disk_size K.
Proof.
  revert k tbl G fr K. induction j as [|j IH]; intros k tbl G fr K Ej Hf Hk.
  { assert (k = n) as -> by lia. exists K, tbl, G, fr. rewrite rest_end. split_and!; try done.
    apply quiet_refl, (d_sure _ (g_dev _ _ _ _ _ Hf)). }
  assert (Hk1 : 0 <= k < n) by lia. rewrite (still_step k Hk1). cbn [fillPageArray_loop].
  destruct (on_dev_read K k (g_dev _ _ _ _ _ Hf) Hk1) as (b1 & Hq & -> & Hd1).
  specialize (Hd1 (set_bdev b1 K) eq_refl (d_ds _ (g_dev _ _ _ _ _ Hf))). set (K1 := set_bdev b1 K) in *.
  change (valid (raw k)) with (has_header k). destruct (has_header k) eqn:Hv.
  - destruct (slot_of _ _ _ _ _ Hf Hk1 Hv) as (Hi & Epo & HoF & HoG & Hle).
    set (i := inode (raw k)) in *. set (o := Z.to_nat (pgoff (raw k))) in *.
    rewrite (countPages_ok k tbl G fr K i Hf Hk Hi), Epo. pose proof (start_of_le G i Hi).
    rewrite u16_small by lia. destruct (lookup_lt_is_Some_2 (G i) o HoG) as [p Ep].
    assert (Eg : get (page_array K1) (start_of G i + Z.of_nat o) = p)
      by (cbn; rewrite (g_array _ _ _ _ _ Hf); by apply live_get).
    rewrite Eg. destruct (Z.eqb_spec p U) as [->|Hp].
    + pose proof (fill_new k tbl G fr K K1 Hf Hk1 Hv Hd1 eq_refl Ep) as Hf1. fold i o in Hf1.
      destruct (IH (k + 1) _ _ _ _ ltac:(lia) Hf1 ltac:(lia)) as (K' & tbl' & G' & fr' & E & Hf' & Hq' & Hfl & Hdk).
      exists K', tbl', G', fr'. split.
      * rewrite live_upd, !length_app, length_insert in E by done. rewrite (live_at G i Hi), !length_app. exact E.
      * split_and!; try done. by eapply quiet_trans.
    + destruct (g_set _ _ _ _ _ Hf i o p Hi Ep Hp) as (Hpr & _).
      destruct (on_dev_read K1 p Hd1 ltac:(lia)) as (b2 & Hq2 & -> & Hd2).
      specialize (Hd2 (set_bdev b2 K1) eq_refl (d_ds _ Hd1)).
      destruct (fill_dup k tbl G fr K (set_bdev b2 K1) p Hf Hk1 Hv Hd2 eq_refl Ep Hp) as (K2 & tbl2 & G2 & fr2 & E & Hf2 & Hc & Hb2 & Hl2 & Hk2).
      fold i o in E. rewrite E, Hc.
      destruct (IH (k + 1) _ _ _ _ ltac:(lia) Hf2 ltac:(lia)) as (K' & tbl' & G' & fr' & E' & Hf' & Hq' & Hfl & Hdk).
      exists K', tbl', G', fr'. split_and!; try done; [|by rewrite Hfl, Hl2|by rewrite Hdk, Hk2]. rewrite Hb2 in Hq'.
      eapply quiet_trans; [exact Hq|]. by eapply quiet_trans.
  - pose proof (fill_invalid k tbl G fr K K1 Hf Hk1 Hv Hd1 eq_refl) as Hf1.
    pose proof (pages_length _ _ _ _ _ Hf Hk) as Hlen.
    rewrite (g_array _ _ _ _ _ Hf), (still_step k Hk1), !length_app, length_replicate, count_cons, Hv in Hlen. cbn [negb] in Hlen.
    pose proof (count_le (fun b => negb (has_header b)) (rest (k + 1))).
    destruct (IH (k + 1) _ _ _ _ ltac:(lia) Hf1 ltac:(lia)) as (K' & tbl' & G' & fr' & E & Hf' & Hq' & Hfl & Hdk).
    exists K', tbl', G', fr'. rewrite u16_small by lia. rewrite length_app in E. cbn [length] in E.
    replace (Z.of_nat (length (live G)) + Z.of_nat (length fr) + 1)
      with (Z.of_nat (length (live G)) + Z.of_nat (length fr + 1)) by lia.
    split_and!; try done. by eapply quiet_trans.
Qed.

(** At the end the rows are the files. *)
Lemma filled_rows tbl G fr K i : filling n tbl G fr K -> is_byte i -> G i = F i.
Proof.
  intros Hf Hi. pose proof (g_unset _ _ _ _ _ Hf i Hi) as Hu. rewrite rest_end in Hu. change (count _ []) with 0 in Hu.
  pose proof (slots _ _ _ _ _ i Hf Hi ltac:(lia)) as Hs. apply list_eq. intros o.
  destruct (F i !! o) as [b|] eqn:Eb.
  - apply (g_own _ _ _ _ _ Hf i o b Hi Eb). destruct (owned i o b Hi Eb); lia.
  - destruct (G i !! o) as [c|] eqn:Ec; [|done]. exfalso. apply lookup_ge_None in Eb.
    assert (c = U) as -> by (eapply behind; [exact Hf|exact Hi|exact Ec|done|lia]).
    pose proof (count_insert (fun b => b =? U) (G i) o U 0 Ec) as E. rewrite Hu, Z.eqb_refl in E.
    pose proof (count_le (fun b => b =? U) (<[o:=0]> (G i))). change (0 =? U) with false in E. lia.
Qed.

(** ** The beginning *)

Definition blank_rows (l : list Z) (i : Z) : list Z := replicate (Z.to_nat (count (of_file i) l)) U.

Lemma live_blank l : live (blank_rows l) = replicate (Z.to_nat (count has_header l)) U.
Proof.
  induction l as [|b l IH].
  - assert (HE : live (blank_rows []) = live (fun _ => [])) by (by apply part_ext). rewrite HE. done.
  - rewrite count_cons. pose proof (count_le has_header l) as Hc. destruct (has_header b) eqn:Hv.
    + assert (Hi : is_byte (inode (raw b))) by apply u8_range. set (i := inode (raw b)) in *.
      assert (HE : live (blank_rows (b :: l)) = live (upd_file (blank_rows l) i (U :: blank_rows l i))).
      { apply part_ext. intros j Hj. unfold blank_rows at 1. rewrite count_cons, of_file_raw by done. fold i.
        pose proof (count_le (of_file j) l). destruct (decide (j = i)) as [->|Hne].
        - rewrite upd_file_same, Z.eqb_refl. unfold blank_rows. by replace (Z.to_nat (1 + _)) with (S (Z.to_nat (count (of_file i) l))) by lia.
        - rewrite upd_file_other, (proj2 (Z.eqb_neq i j)) by done. done. }
      rewrite HE, live_upd by done. replace (Z.to_nat (1 + _)) with (S (Z.to_nat (count has_header l))) by lia.
      symmetry. apply replicate_Permutation. cbn [replicate app]. rewrite <- Permutation_middle. constructor.
      by rewrite <- IH, <- live_at.
    + assert (HE : live (blank_rows (b :: l)) = live (blank_rows l)); [|by rewrite HE, IH].
      apply part_ext. intros j Hj. unfold blank_rows. rewrite count_cons. unfold of_file at 1.
      change (valid (raw b)) with (has_header b). by rewrite Hv.
Qed.

Lemma unset_all (arr : list Z) m : Z.of_nat m <= Z.of_nat (length arr) ->
  fold_left (fun a page => upd a page U) (seqZ 0 (Z.of_nat m)) arr = replicate m U ++ drop m arr.
Proof.
  induction m as [|m IH]; intros Hm; [by rewrite drop_0|]. replace (Z.of_nat (S m)) with (Z.of_nat m + 1) by lia.
  rewrite seqZ_app, fold_left_app, IH by lia. change (seqZ (0 + Z.of_nat m) 1) with [Z.of_nat 0 + (0 + Z.of_nat m)].
  replace (Z.of_nat 0 + (0 + Z.of_nat m)) with (Z.of_nat m) by lia. cbn [fold_left].
  destruct (lookup_lt_is_Some_2 arr m ltac:(lia)) as [x Ex]. rewrite (drop_S arr x m Ex).
  unfold upd. rewrite Nat2Z.id, insert_app_r_alt, length_replicate, Nat.sub_diag by (rewrite length_replicate; lia).
  change (<[0%nat:=U]> (x :: drop (S m) arr)) with (U :: drop (S m) arr).
  change (U :: drop (S m) arr) with ([U] ++ drop (S m) arr). rewrite app_assoc. f_equal.
  change [U] with (replicate 1 U). rewrite <- replicate_add. f_equal. lia.
Qed.

Lemma count_not p l : count p l + count (fun b => negb (p b)) l = Z.of_nat (length l).
Proof. induction l as [|b l IH]; [done|]. rewrite !count_cons. cbn [length]. destruct (p b); cbn [negb]; lia. Qed.

Lemma filling_begin tbl K : on_dev K -> page_array K = replicate (Z.to_nat n) U -> length tbl = 256%nat ->
  free_page_start K = count has_header (rest 0) -> (forall i, is_byte i -> get tbl i = count (of_file i) (rest 0)) ->
  free_bytes K = u32 (n * ds - used ds P (rest 0)) -> filling 0 tbl (blank_rows (rest 0)) [] K.
Proof.
  intros Hd Ha Ht Hs Hg Hb. pose proof (count_le has_header (rest 0)). pose proof (count_not has_header (rest 0)) as Hc.
  pose proof (count_le (fun b => negb (has_header b)) (rest 0)). unfold rest in Hc at 3. rewrite length_seqZ in Hc.
  assert (Hset : forall i b o, blank_rows (rest 0) i !! o = Some b -> b = U) by (intros i b o E; by apply lookup_replicate_1 in E as [-> _]).
  split; try done.
  - rewrite live_blank, Ha. cbn [app]. rewrite <- replicate_add. f_equal. lia.
  - rewrite live_blank, length_replicate, Hs. lia.
  - intros i Hi. rewrite (Hg i Hi). unfold blank_rows. rewrite length_replicate. pose proof (count_le (of_file i) (rest 0)). lia.
  - intros i o b Hi E Hne. by apply Hset in E.
  - intros i o b Hi E Hb0. destruct (owned i o b Hi E). lia.
  - intros i Hi. unfold blank_rows. pose proof (count_le (of_file i) (rest 0)).
    set (m := count (of_file i) (rest 0)) in *. transitivity (Z.of_nat (Z.to_nat m)); [|lia].
    generalize (Z.to_nat m) as q. induction q as [|q IH]; [done|]. cbn [replicate]. rewrite count_cons, IH, Z.eqb_refl. lia.
  - rewrite Ha. by rewrite Z.sub_0_r.
  - rewrite Hb, live_blank. f_equal. assert (HW : forall q, worth (replicate q U) = 0); [|rewrite HW; lia].
    induction q as [|q IH]; [done|]. cbn [replicate]. change (U :: replicate q U) with ([U] ++ replicate q U).
    rewrite worth_app, worth_one, IH. done.
Qed.
(** ** The end *)

Lemma filled_ok tbl G fr K : filling n tbl G fr K -> 0 <= age < 32768 -> n * ds < 2147483648 -> disk_size K = n * ds ->
  (forall b, 0 <= b < n -> block (bdev K) b = R b) -> fs_ok age F fr (set_files [] K) /\ fr ≡ₚ free.
Proof.
  intros Hf Hage Htot Hdk Hheld. pose proof Hf as [[Q1 Q2 Q3 Q4 Q5] A2 S2 _ _ _ _ _ P2 F2].
  rewrite rest_end in A2, F2. cbn [count List.filter length Z.of_nat Z.to_nat replicate] in A2.
  rewrite app_nil_r in A2. rewrite Z.sub_diag in P2. cbn [Z.to_nat replicate] in P2. rewrite app_nil_r in P2.
  assert (EL : live G = live F) by (apply part_ext; intros j Hj; eapply filled_rows; [exact Hf|unfold is_byte; lia]).
  rewrite EL in *. assert (Hall : live F ++ fr ≡ₚ seqZ 0 n) by (by rewrite <- A2).
  assert (Hperm : fr ≡ₚ free) by (apply (Permutation_app_inv_l (live F)); rewrite Hall; symmetry; apply HP). split; [|done].
  assert (Hused : 0 <= used ds P (live F) <= n * ds).
  { pose proof (Permutation_length Hall) as Ln. rewrite length_app, length_seqZ in Ln.
    assert (HB : 0 <= used ds P (live F) <= Z.of_nat (length (live F)) * ds); [|nia].
    apply used_bound. intros b (i & o & Hi & E)%live_elem.
    destruct (p_owns _ _ _ _ _ _ _ HP i o b Hi E) as (h & Eh & _ & _ & _ & Hfl & _). unfold fill_at. by rewrite Eh. }
  assert (Ew : worth (live F) = used ds P (live F)).
  { unfold worth. f_equal. apply forallb_filter_id, forallb_forall. intros b Hb%list_elem_of_In. unfold is_set.
    pose proof (p_range _ _ _ _ _ _ _ b HP (or_introl Hb)). apply negb_true_iff, Z.eqb_neq. unfold PAGE_UNSET_SENTINEL. lia. }
  assert (Ecn : cnt (set_files [] K) = n) by exact Q3. assert (EP2 : forall b, pgs (set_files [] K) b = P b) by exact Q5.
  split; rewrite ?Ecn; cbn [set_files bdev data_size page_array free_page_start free_bytes disk_size]; rewrite ?Q4; try done.
  - apply (pages_ext _ _ _ _ _ P R); [destruct HP as [X1 X2 X3]; by split|]. intros b Hb. split; [apply EP2|by apply Hheld].
  - rewrite F2, Ew. change (used ds P []) with 0. rewrite u32_small by lia.
    rewrite (used_ext ds P (pgs (set_files [] K))) by (intros; apply EP2). lia.
Qed.
End Mount.

Section Whole.
Context {D : Type} `{KBlockSure D}.

(** Mounting finds the files of the device, and changes nothing on it. *)
Lemma battfs_mount_ok (dev : KBlock D) ds age F free arr K :
  sure dev -> blk_size dev = ds + BATTFS_HEADER_LEN -> 0 < ds < 65000 -> 0 < blk_cnt dev < 32768 -> 0 <= age < 32768 ->
  blk_cnt dev * ds < 2147483648 -> pages_ok ds (blk_cnt dev) age F free (pg dev) (block dev) ->
  Z.of_nat (length arr) = blk_cnt dev ->
  exists K' free', battfs_mount K dev arr = (true, K') /\ fs_ok age F free' K' /\ free' ≡ₚ free /\
    file_opened_list K' = [] /\ quiet dev (bdev K') /\ data_size K' = ds.
Proof.
  intros Hs Hsz Hds Hn Hage Htot HP Harr. set (n := blk_cnt dev) in *. set (P := pg dev) in *.
  unfold battfs_mount. rewrite Hsz. replace (ds + BATTFS_HEADER_LEN - BATTFS_HEADER_LEN) with ds by lia. rewrite (u16_small ds) by lia.
  fold n. rewrite (u32_small (ds * n)) by lia.
  set (K0 := mkDisk dev ds arr (free_page_start K) (ds * n) 0 (file_opened_list K)).
  assert (Hd0 : on_dev ds n P (set_free_start 0 K0)) by (by split).
  unfold countDiskFilePages. change (blk_cnt (bdev K0)) with n.
  destruct (count_pages_ok ds n P Hds (seqZ 0 n) (set_free_start 0 K0) (zeros (Z.to_nat BATTFS_MAX_FILES))) as (b1 & tbl & Hq1 & E1 & Hl1 & Hg1);
    try done.
  { intros b Hb%elem_of_seqZ. lia. }
  { rewrite length_seqZ. cbn. lia. }
  { intros i Hi. rewrite get_zeros, length_seqZ. lia. }
  rewrite E1. cbn [negb]. rewrite length_seqZ, Z2Nat.id by lia.
  set (K1 := set_pages _ _).
  assert (EP : page_array K1 = replicate (Z.to_nat n) PAGE_UNSET_SENTINEL).
  { cbn [K1 set_pages page_array set_free_bytes set_free_start set_bdev K0 bdev]. pose proof Hq1 as [_ [_ _ _ _ Qc] _ _ _ _].
    cbn [set_free_start bdev K0] in Qc. rewrite Qc. fold n. rewrite <- (Z2Nat.id n) at 1 by lia. rewrite unset_all by lia.
    rewrite drop_ge by lia. apply app_nil_r. }
  assert (Erest : rest n 0 = seqZ 0 n) by (unfold rest; by rewrite Z.sub_0_r).
  assert (Hd1 : on_dev ds n P K1).
  { destruct Hd0 as [D1 D2 D3 D4 D5]. destruct Hq1 as [Q1 Qs Qv _ _ _]. pose proof Qs as [_ _ _ Qz Qc]. split; cbn; try done; try congruence.
    intros c. rewrite <- (D5 c). apply pg_eq; done. }
  assert (Hf0 : filling ds n P F 0 tbl (blank_rows ds P (rest n 0)) [] K1).
  { apply (filling_begin ds n P Hn age F free (block dev) HP); rewrite ?Erest; try done.
    intros i Hi. by rewrite Hg1, get_zeros. }
  unfold fillPageArray. change (blk_cnt (bdev K1)) with (blk_cnt b1).
  assert (Ecnt : blk_cnt b1 = n) by (by destruct Hd1).
  rewrite Ecnt, <- Erest.
  destruct (fill_loop ds n P Hds Hn age F free (block dev) HP (Z.to_nat n) 0 tbl _ [] K1 ltac:(lia) Hf0 ltac:(lia))
    as (K2 & tbl2 & G2 & fr & E2 & Hf2 & Hq2 & Hfl2 & Hdk2).
  rewrite (g_start _ _ _ _ _ _ _ _ _ Hf0). cbn [length] in E2. rewrite Z.add_0_r in E2. rewrite E2. cbn [negb].
  assert (Hq : quiet dev (bdev K2)) by (eapply quiet_trans; [exact Hq1|exact Hq2]). pose proof Hq as [Q1 Qsm Qv Qs _ _].
  destruct (filled_ok ds n P Hds Hn age F free (block dev) HP tbl2 G2 fr K2 Hf2 Hage Htot) as [Hk Hp].
  { rewrite Hdk2. cbn. lia. }
  { intros b Hb. apply block_eq; try done; by apply sure_ok. }
  exists (set_files [] K2), fr. split_and!; try done. by destruct Hf2 as [[] _ _ _ _ _ _ _ _ _].
Qed.
End Whole.
