(* ===== verification/BattFsCheck.v ===== *)
(** * BattFS, checking

    [battfs_fsck] on a disk that is as it should be: it reads all headers,
    changes nothing, and says yes unless a file ends in a page without a byte,
    which a write of nothing behind the end leaves, or one that finds the disk
    full. *)

From Stdlib Require Import ZArith Lia Bool List Permutation.
From stdpp Require Import prelude.
From S2P Require Import Prelude KFile KBlock KBlockRam KBlockSure BattFs BattFsPages BattFsInv BattFsFiles BattFsOpen.

Open Scope Z_scope.

Section Check.
Context {D : Type} `{KBlockSure D}.
Implicit Types K : BattFsSuper D.

(** From place [p] on, no page but the first of a file is without a byte. *)
Definition no_blank (F : Z -> list Z) K (p : Z) : Prop :=
  forall j o b, is_byte j -> F j !! S o = Some b -> p <= start_of F j + Z.of_nat (S o) -> fill_at (data_size K) (pgs K b) <> 0.

Lemma no_blank_quiet F K b' p : quiet (bdev K) b' -> no_blank F (set_bdev b' K) p <-> no_blank F K p.
Proof. intros Hq. unfold no_blank. cbn [data_size set_bdev]. by setoid_rewrite (quiet_pgs K b' Hq). Qed.

Lemma used_quiet ds K b' l : quiet (bdev K) b' -> used ds (pgs (set_bdev b' K)) l = used ds (pgs K) l.
Proof. intros Hq. apply used_ext. intros b _. by apply quiet_pgs. Qed.

(** The free pages count with all their bytes. *)
Lemma fsck_free l age F free K p prev pu bytes : fs_ok age F free K -> (forall b, b ∈ l -> 0 <= b < cnt K) ->
  free_page_start K <= p -> 0 <= bytes -> bytes + Z.of_nat (length l) * data_size K < 4294967296 ->
  exists b', quiet (bdev K) b' /\ fsck_loop l K p prev pu bytes
    = ((pu =? free_page_start K) && (bytes + Z.of_nat (length l) * data_size K =? free_bytes K), set_bdev b' K).
Proof.
  revert K p bytes. induction l as [|b l IH]; intros K p bytes Hk Hl Hp Hb0 Hb.
  - exists (bdev K). split; [apply quiet_refl, (fs_sure _ _ _ _ Hk)|]. cbn [fsck_loop length]. rewrite Z.mul_0_l, Z.add_0_r. by rewrite set_bdev_id.
  - cbn [fsck_loop length] in *. destruct (readHdr_ok _ _ _ _ b Hk (Hl b ltac:(left))) as (b1 & Hq & ->).
    pose proof (fs_ds _ _ _ _ Hk). cbn [set_bdev free_page_start data_size]. destruct (Z.ltb_spec p (free_page_start K)) as [|_]; [lia|].
    rewrite u32_small by lia.
    destruct (IH (set_bdev b1 K) (p + 1) (bytes + data_size K)) as (b2 & Hq2 & ->); cbn [set_bdev free_page_start data_size]; try lia.
    + by apply quiet_ok.
    + intros c Hc. rewrite (quiet_cnt K b1 Hq). apply Hl. by right.
    + exists b2. split; [by eapply quiet_trans|]. cbn [free_bytes set_bdev free_page_start]. do 3 f_equal. lia.
Qed.

(** The header before place [p]. *)
Definition before (F : Z -> list Z) K (p : Z) (prev : option BattFsPageHeader) : Prop :=
  match prev with
  | None => p = 0
  | Some h => exists j o b, is_byte j /\ F j !! o = Some b /\ p - 1 = start_of F j + Z.of_nat o /\
      inode h = j /\ pgoff h = Z.of_nat o /\ fill h = fill_at (data_size K) (pgs K b)
  end.

(** The place of a page says whether it is the first of its file. *)
Lemma fsck_page age F free K p prev j o b h : fs_ok age F free K -> before F K p prev -> is_byte j -> F j !! o = Some b ->
  p = start_of F j + Z.of_nat o -> inode h = j -> pgoff h = Z.of_nat o -> fill h = fill_at (data_size K) (pgs K b) ->
  match prev with
  | Some prev_hdr =>
      if negb (inode h =? inode prev_hdr) then (inode h >? inode prev_hdr) && (pgoff h =? 0)
      else negb (fill h =? 0) && (fill prev_hdr =? data_size K) && (pgoff h =? u16 (pgoff prev_hdr + 1))
  | None => pgoff h =? 0
  end = (Nat.eqb o 0 || negb (fill_at (data_size K) (pgs K b) =? 0)).
Proof.
  intros Hk Hprev Hj Ej Ep Ei Eo Ef. rewrite Ei, Eo, Ef. pose proof (start_of_le F j Hj) as [Hs Hse].
  pose proof (lookup_lt_Some _ _ _ Ej) as Ho. pose proof (pages_len _ _ _ _ Hk). pose proof (fs_cnt _ _ _ _ Hk).
  destruct prev as [h'|]; cbn [before] in Hprev.
  2:{ assert (o = O) as -> by lia. done. }
  destruct Hprev as (j' & o' & b' & Hj' & Ej' & Ep' & -> & -> & ->). pose proof (lookup_lt_Some _ _ _ Ej') as Ho'.
  unfold is_byte in *. destruct (Z.eqb_spec j j') as [->|Hne]; cbn [negb].
  - assert (o = S o') as -> by lia. cbn [Nat.eqb orb]. rewrite u16_small by lia.
    destruct (p_owns _ _ _ _ _ _ _ (fs_pages _ _ _ _ Hk) j' o' b' Hj' Ej') as (h0 & Eh & _ & _ & _ & _ & Hfull).
    unfold fill_at at 2. rewrite Eh, Hfull, Z.eqb_refl by lia. rewrite (proj2 (Z.eqb_eq _ (Z.of_nat o' + 1))) by lia.
    by rewrite !andb_true_r.
  - destruct (Z.gtb_spec j j') as [Hgt|Hle].
    + pose proof (start_of_next F j' j ltac:(lia) ltac:(lia)). assert (o = O) as -> by lia. done.
    + pose proof (start_of_next F j j' ltac:(lia) ltac:(lia)). lia.
Qed.

Lemma no_blank_step F K j o b : NoDup (live F) -> is_byte j -> F j !! o = Some b ->
  no_blank F K (start_of F j + Z.of_nat o) <->
  Nat.eqb o 0 || negb (fill_at (data_size K) (pgs K b) =? 0) = true /\ no_blank F K (start_of F j + Z.of_nat o + 1).
Proof.
  intros Hnd Hj Ej. split.
  - intros HN. split; [|intros j' o' b' ? ? ?; apply (HN j' o' b'); done || lia].
    destruct o as [|o]; [done|]. cbn [Nat.eqb orb]. apply negb_true_iff, Z.eqb_neq. apply (HN j o b); done || lia.
  - intros [Hb HN] j' o' b' Hj' Ej' Hle. destruct (decide (start_of F j' + Z.of_nat (S o') = start_of F j + Z.of_nat o)) as [E|].
    2:{ apply (HN j' o' b'); done || lia. }
    pose proof (live_lookup F j' _ b' Hj' Ej') as L'. pose proof (live_lookup F j o b Hj Ej) as L.
    pose proof (start_of_le F j Hj). pose proof (start_of_le F j' Hj').
    replace (Z.to_nat (start_of F j') + S o')%nat with (Z.to_nat (start_of F j) + o)%nat in L' by lia. rewrite L in L'. injection L' as <-.
    destruct (live_inj F j o j' (S o') b Hnd Hj Hj' Ej Ej') as [_ ->]. cbn [Nat.eqb orb] in Hb. by apply negb_true_iff, Z.eqb_neq in Hb.
Qed.

(** The pages in use, then the free ones. *)
Lemma fsck_live l p age F free K prev : fs_ok age F free K -> drop p (live F) = l -> (p + length l = length (live F))%nat ->
  before F K (Z.of_nat p) prev ->
  exists b' r, quiet (bdev K) b' /\ (r = true <-> no_blank F K (Z.of_nat p)) /\
    fsck_loop (l ++ free) K (Z.of_nat p) prev (Z.of_nat p)
      (Z.of_nat p * data_size K - used (data_size K) (pgs K) (take p (live F))) = (r, set_bdev b' K).
Proof.
  revert p K prev. induction l as [|b l IH]; intros p K prev Hk Ed El Hprev; pose proof Hk as [_ _ Kds Kcnt _ _ Kst _ Kfr _ Ktot];
    pose proof (pages_len _ _ _ _ Hk) as Hpl; destruct (fs_nodup _ _ _ _ Hk) as [Hnd _].
  - cbn [app length] in *. rewrite take_ge by lia.
    pose proof (used_live _ _ _ _ (live F) Hk ltac:(done)) as Hu. destruct (fsck_free free age F free K (Z.of_nat p) prev (Z.of_nat p)
      (Z.of_nat p * data_size K - used (data_size K) (pgs K) (live F)) Hk) as (b' & Hq & ->); try nia.
    { intros c Hc. apply (p_range _ _ _ _ _ _ _ c (fs_pages _ _ _ _ Hk)). by right. }
    exists b', true. split; [done|]. split; [|rewrite (proj2 (Z.eqb_eq _ (free_page_start K))), (proj2 (Z.eqb_eq _ (free_bytes K))) by nia; done].
    split; [|done]. intros _ j o c Hj Ec Hle. pose proof (lookup_lt_Some _ _ _ Ec). pose proof (start_of_le F j Hj). lia.
  - cbn [length] in El. assert (Eb : live F !! p = Some b) by (rewrite <- (Nat.add_0_r p), <- lookup_drop, Ed; done).
    destruct (page_at _ _ _ _ (Z.of_nat p) Hk ltac:(lia)) as (j & o & c & Hj & Ej & Eg & Epos).
    rewrite (fs_array _ _ _ _ Hk), get_lookup, Nat2Z.id, lookup_app_l, Eb in Eg by lia. cbn in Eg. subst c.
    destruct (readHdr_valid _ _ _ _ _ _ _ Hk Hj Ej) as (b1 & h & Hq & Er & Hv & Ei & Eo & Ef).
    cbn [app fsck_loop]. rewrite Er, Hv. cbn [set_bdev free_page_start data_size].
    destruct (Z.ltb_spec (Z.of_nat p) (free_page_start K)) as [_|]; [|lia].
    rewrite (fsck_page _ _ _ _ _ _ _ _ _ _ Hk Hprev Hj Ej Epos Ei Eo Ef). cbn [andb].
    pose proof (no_blank_step F K j o b Hnd Hj Ej) as HN. rewrite <- Epos in HN.
    destruct (Nat.eqb o 0 || _) eqn:Eok.
    2:{ exists b1, false. split; [done|]. split; [|done]. rewrite HN. split; [done|]. by intros [? _]. }
    pose proof (fills _ _ _ _ j b Hk Hj (list_elem_of_lookup_2 _ _ _ Ej)) as Hfl.
    pose proof (used_live _ _ _ _ (take p (live F)) Hk ltac:(intros c (k & Ec & _)%elem_of_take; by eapply list_elem_of_lookup_2)) as HU.
    rewrite length_take in HU.
    destruct (IH (S p) (set_bdev b1 K) (Some h)) as (b2 & r & Hq2 & Hr & E2).
    + by apply quiet_ok.
    + by rewrite (drop_S _ _ _ Eb) in Ed; injection Ed.
    + lia.
    + exists j, o, b. split_and!; try done; [lia|]. cbn [data_size set_bdev]. by rewrite quiet_pgs.
    + exists b2, r. split; [by eapply quiet_trans|]. split.
      * rewrite Hr, (no_blank_quiet F K b1 _ Hq), HN. replace (Z.of_nat (S p)) with (Z.of_nat p + 1) by lia. tauto.
      * rewrite (take_S_r _ _ _ Eb), (used_quiet _ K b1 _ Hq), used_app, used_cons in E2. change (used _ _ []) with 0 in E2.
        cbn [data_size set_bdev] in E2. assert ((Z.of_nat p + 1) * data_size K <= cnt K * data_size K) by (apply Z.mul_le_mono_nonneg_r; lia).
        rewrite (u32_small (_ + data_size K)), Ef, u32_small by lia.
        replace (Z.of_nat p + 1) with (Z.of_nat (S p)) by lia. etransitivity; [|exact E2]. f_equal. lia.
Qed.

(** What [battfs_fsck] says of a disk that is as it should be. *)
Theorem battfs_fsck_ok age F free K : fs_ok age F free K ->
  exists b' r, quiet (bdev K) b' /\ battfs_fsck K = (r, set_bdev b' K) /\
    (r = true <-> forall j o b, is_byte j -> F j !! S o = Some b -> fill_at (data_size K) (pgs K b) <> 0).
Proof.
  intros Hk. pose proof Hk as [Ks Ksz Kds Kcnt _ Ka Kst _ Kfr Kdk Ktot]. pose proof (pages_len _ _ _ _ Hk) as Hpl.
  destruct (readHdr_ok _ _ _ _ 0 Hk ltac:(lia)) as (b1 & Hq & Er). pose proof (quiet_ok _ _ _ _ _ Hk Hq) as Hk1.
  destruct (fsck_live (live F) 0 age F free (set_bdev b1 K) None Hk1) as (b2 & r & Hq2 & Hr & E2); try done.
  pose proof (used_live _ _ _ _ (live F) Hk ltac:(done)) as HU.
  exists b2, r. split; [by eapply quiet_trans|]. split.
  - unfold battfs_fsck. fold (cnt K). unfold BATTFS_HEADER_LEN in Ksz.
    rewrite (proj2 (Z.leb_le _ _)), (proj2 (Z.ltb_lt _ _)), (proj2 (Z.leb_le _ _)), Er by lia. cbn [andb].
    change (blk_cnt (bdev (set_bdev b1 K))) with (blk_cnt b1). pose proof Hq as [_ [_ _ _ _ Qc] _ _ _ _].
    cbn [set_bdev page_array bdev]. rewrite Qc. rewrite (bytes_at_all (page_array K) (blk_cnt (bdev K))).
    2:{ rewrite Ka, length_app. fold (cnt K). lia. }
    rewrite Ka. exact E2.
  - rewrite Hr, (no_blank_quiet F K b1 _ Hq). unfold no_blank. split; intros HN j o b Hj E; [|intros _; by apply (HN j o b)].
    apply (HN j o b Hj E). pose proof (start_of_le F j Hj). lia.
Qed.

Lemma battfs_fileExists_ok age F free K i : fs_ok age F free K -> is_byte i ->
  exists b', quiet (bdev K) b' /\ battfs_fileExists K i = (bool_decide (F i <> []), set_bdev b' K).
Proof.
  intros Hk Hi. destruct (findFile_ok _ _ _ _ i Hk Hi) as (b' & Hq & E). exists b'. split; [done|].
  unfold battfs_fileExists. by rewrite E.
Qed.
End Check.
