(* ===== verification/BattFsSpec.v ===== *)
(** * BattFS as a store of files

    The specification: a map from the numbers of the files to their contents, and
    the open files with their positions; and that each call does what it says
    ([simulated]). *)

From Stdlib Require Import ZArith Lia Bool List Permutation.
From stdpp Require Import prelude gmap.
From S2P Require Import Prelude KFile KBlock KBlockRam KBlockSure BattFs BattFsPages BattFsInv BattFsFiles BattFsWrite BattFsRead BattFsOpen BattFsMount.

Open Scope Z_scope.

(** ** The specification *)

Record astate := mkA {
  store : gmap Z (list Z);
  handles : gmap Z (Z * Z)
}.

Inductive call :=
| Open (s i mode : Z)
| Write (s : Z) (l : list Z)
| Read (s n : Z)
| Seek (s offset : Z) (whence : KSeekMode)
| Flush (s : Z)
| Close (s : Z).

Inductive reply :=
| Opened (ok : bool)
| Number (n : Z)
| Bytes (l : list Z).

(** The files can take up all [cnt] pages of [ds] bytes. *)
Definition pages_of (ds : Z) (c : option (list Z)) : Z :=
  match c with Some c => Z.of_nat (length c) / ds + 1 | None => 0 end.
Definition full (ds cnt : Z) (A : astate) : Prop :=
  cnt <= foldr (fun i z => pages_of ds (store A !! i) + z) 0 (seqZ 0 256).

Definition amove (s i p : Z) (A : astate) : astate := mkA (store A) (<[s := (i, p)]> (handles A)).

(** A write behind the end writes zeros first; it stops when the disk is full. *)
Definition awrite (c : list Z) (p : Z) (l : list Z) (n : Z) : list Z :=
  let gap := Z.to_nat (p - Z.of_nat (length c)) in
  copy_at c (Z.min p (Z.of_nat (length c))) (take (Z.to_nat n) (zeros gap ++ l)).

Inductive aspec (ds cnt : Z) : call -> astate -> reply -> astate -> Prop :=
| s_open s i mode A c : store A !! i = Some c -> aspec ds cnt (Open s i mode) A (Opened true) (amove s i 0 A)
| s_create s i mode A : store A !! i = None -> Z.land mode BATTFS_CREATE <> 0 ->
    aspec ds cnt (Open s i mode) A (Opened true) (mkA (<[i := []]> (store A)) (<[s := (i, 0)]> (handles A)))
| s_missing s i mode A : store A !! i = None -> Z.land mode BATTFS_CREATE = 0 ->
    aspec ds cnt (Open s i mode) A (Opened false) A
| s_full s i mode A : store A !! i = None -> full ds cnt A -> aspec ds cnt (Open s i mode) A (Opened false) A
| s_write s l A i p c n : handles A !! s = Some (i, p) -> store A !! i = Some c ->
    let gap := Z.max 0 (p - Z.of_nat (length c)) in
    let r := Z.max 0 (n - gap) in
    let A' := mkA (<[i := awrite c p l n]> (store A)) (<[s := (i, p + r)]> (handles A)) in
    0 <= n <= gap + Z.of_nat (length l) -> n = gap + Z.of_nat (length l) \/ full ds cnt A' ->
    aspec ds cnt (Write s l) A (Number r) A'
| s_read s n A i p c : handles A !! s = Some (i, p) -> store A !! i = Some c ->
    let m := Z.min n (Z.max (Z.of_nat (length c) - p) 0) in
    aspec ds cnt (Read s n) A (Bytes (bytes_at c p m)) (amove s i (p + m) A)
| s_seek s offset whence A i p c r q : handles A !! s = Some (i, p) -> store A !! i = Some c ->
    kfile_genericSeek (mkPos p (Z.of_nat (length c))) offset whence = (r, q) ->
    aspec ds cnt (Seek s offset whence) A (Number r) (amove s i (seek_pos q) A)
| s_flush s A i p : handles A !! s = Some (i, p) -> aspec ds cnt (Flush s) A (Number 0) A
| s_close s A i p : handles A !! s = Some (i, p) ->
    aspec ds cnt (Close s) A (Number 0) (mkA (store A) (delete s (handles A))).

(** The calls that are meant.  A file is open once; the size of one that is opened
    is no multiple of that of a page ([reopen_overwrites]); the page numbers fit in
    16 bits. *)
Definition fair (ds : Z) (A : astate) (c : call) : Prop :=
  match c with
  | Open s i _ => is_byte i /\ handles A !! s = None /\ (forall t q, handles A !! t <> Some (i, q)) /\
      (forall c, store A !! i = Some c -> c = [] \/ Z.of_nat (length c) mod ds <> 0)
  | Write s l => exists i p, handles A !! s = Some (i, p) /\ 0 <= p /\ p / ds < 65536 /\ l <> [] /\
      Z.of_nat (length l) < 65536 /\ p + Z.of_nat (length l) < 2147483648
  | Read s n => exists i p, handles A !! s = Some (i, p) /\ 0 <= p /\ 0 <= n < 65536
  | Seek s _ _ | Flush s | Close s => is_Some (handles A !! s)
  end.

Section Spec.
Context {D : Type} `{KBlockSure D}.
Implicit Types K : BattFsSuper D.

(** ** The calls *)

Definition exec (c : call) K : reply * BattFsSuper D :=
  match c with
  | Open s i mode => let '(ok, K, _) := battfs_fileopen K s i mode in (Opened ok, K)
  | Write s l => let '(n, K) := on_file (fun K f => battfs_write K f l) 0 s K in (Number n, K)
  | Read s n => let '(l, K) := on_file (fun K f => battfs_read K f n) [] s K in (Bytes l, K)
  | Seek s offset whence =>
      let '(r, K) := on_file (fun K f => let '(r, f) := battfs_seek f offset whence in (r, K, f)) EOF s K in (Number r, K)
  | Flush s => let '(r, K) := on_file battfs_flush EOF s K in (Number r, K)
  | Close s =>
      match get_file s K with
      | Some f => let '(r, K, _) := battfs_fileclose K f in (Number r, K)
      | None => (Number EOF, K)
      end
  end.

(** ** The relation *)

Record rel (age : Z) (F : Z -> list Z) (free : list Z) K (A : astate) : Prop := {
  l_ok : fs_ok age F free K;
  l_at : all_at F K;
  l_self : NoDup (map self (file_opened_list K));
  l_inode : NoDup (map f_inode (file_opened_list K));
  l_store i : is_byte i -> store A !! i = if decide (F i = []) then None else Some (content F K i);
  l_none i : ~ is_byte i -> store A !! i = None;
  l_handles s : handles A !! s = (fun f => (f_inode f, seek_pos (fd f))) <$> get_file s K
}.

Lemma get_file_in s K f : get_file s K = Some f -> f ∈ file_opened_list K /\ self f = s.
Proof. unfold get_file. intros [Hin E]%List.find_some. apply list_elem_of_In in Hin. by apply Z.eqb_eq in E. Qed.

Lemma find_self (l : list BattFs) f : NoDup (map self l) -> f ∈ l -> List.find (fun g => self g =? self f) l = Some f.
Proof.
  induction l as [|g l IH]; intros Hnd Hin; [by apply elem_of_nil in Hin|]. cbn in *. apply NoDup_cons in Hnd as [Hni Hnd].
  apply elem_of_cons in Hin as [->|Hin]; [by rewrite Z.eqb_refl|]. destruct (Z.eqb_spec (self g) (self f)) as [E|]; [|by apply IH].
  exfalso. apply Hni. rewrite E. apply list_elem_of_In, in_map, list_elem_of_In, Hin.
Qed.

Lemma inode_once K f g : NoDup (map f_inode (file_opened_list K)) -> f ∈ file_opened_list K -> g ∈ file_opened_list K ->
  f_inode g = f_inode f -> g = f.
Proof.
  intros Hnd [n En]%list_elem_of_lookup [m Em]%list_elem_of_lookup E.
  assert (n = m) as ->; [|congruence].
  eapply (NoDup_lookup (map f_inode (file_opened_list K))); [exact Hnd| |]; change (map f_inode) with (fmap (M := list) f_inode);
    rewrite list_lookup_fmap; [rewrite En|rewrite Em]; cbn; [reflexivity|by rewrite E].
Qed.

Lemma find_put (l : list BattFs) f t : List.find (fun g => self g =? t) (map (fun g => if self g =? self f then f else g) l)
  = (if t =? self f then (fun _ => f) <$> List.find (fun g => self g =? t) l else List.find (fun g => self g =? t) l).
Proof.
  induction l as [|g l IH]; cbn; [by destruct (t =? self f)|]. rewrite IH.
  destruct (Z.eqb_spec (self g) (self f)) as [E|E], (Z.eqb_spec t (self f)) as [Et|Et].
  - subst t. by rewrite Z.eqb_refl, E, Z.eqb_refl.
  - rewrite (proj2 (Z.eqb_neq (self f) t)), (proj2 (Z.eqb_neq (self g) t)) by congruence. done.
  - rewrite (proj2 (Z.eqb_neq (self g) t)) by congruence. done.
  - done.
Qed.

Lemma find_handle (l l' : list BattFs) t : map handle l = map handle l' ->
  handle <$> List.find (fun g => self g =? t) l = handle <$> List.find (fun g => self g =? t) l'.
Proof.
  revert l'. induction l as [|g l IH]; intros [|g' l'] E; try done. cbn in E. injection E as E1 E2 E3 E4. cbn.
  rewrite E1. destruct (self g' =? t); [|by apply IH]. cbn. unfold handle. by rewrite E1, E2, E3.
Qed.

Lemma map_handle (l l' : list BattFs) : map handle l = map handle l' -> map self l = map self l' /\ map f_inode l = map f_inode l'.
Proof.
  intros E. split; [apply (f_equal (map (fun h => fst (fst h)))) in E|apply (f_equal (map (fun h => snd (fst h)))) in E];
    by rewrite !map_map in E.
Qed.

(** A call on an open file has returned. *)
Lemma rel_after age F free K A s f age' F' free' K1 f1 : rel age F free K A -> get_file s K = Some f ->
  fs_ok age' F' free' K1 -> file_at F' K1 f1 -> others_at F' K1 (f_inode f) -> self f1 = self f -> f_inode f1 = f_inode f ->
  map handle (file_opened_list K1) = map handle (file_opened_list K) ->
  (forall j, is_byte j -> j <> f_inode f -> (F' j <> [] <-> F j <> []) /\ content F' K1 j = content F K j) ->
  rel age' F' free' (put_file f1 K1)
    (mkA (<[f_inode f := content F' K1 (f_inode f)]> (store A)) (<[s := (f_inode f, seek_pos (fd f1))]> (handles A))).
Proof.
  intros [L1 L2 L3 L4 L5 L6 L7] Hg Hk Hf1 Hoth Es Ei Hl Hj. destruct (get_file_in _ _ _ Hg) as [Hin Hself].
  destruct (map_handle _ _ Hl) as [Hls Hli]. set (i := f_inode f) in *.
  assert (Hi : is_byte i) by (rewrite <- Ei; apply Hf1).
  assert (Hin1 : forall g, g ∈ file_opened_list K1 -> self g = self f1 <-> f_inode g = i).
  { intros g [n En]%list_elem_of_lookup.
    assert (Hx : exists g0, file_opened_list K !! n = Some g0 /\ self g0 = self g /\ f_inode g0 = f_inode g).
    { pose proof (f_equal (fun l => l !! n) Hl) as E. change (map handle) with (fmap (M := list) handle) in E.
      rewrite !list_lookup_fmap, En in E. destruct (file_opened_list K !! n) as [g0|]; [|done]. cbn in E. injection E as E1 E2 _. by exists g0. }
    destruct Hx as (g0 & E0 & <- & <-). pose proof (list_elem_of_lookup_2 _ _ _ E0) as Hin0. rewrite Es. split; intros E.
    - pose proof (find_self _ g0 L3 Hin0) as Ef. rewrite E in Ef. pose proof (find_self _ f L3 Hin) as Ef2. rewrite Ef in Ef2. by injection Ef2 as ->.
    - by rewrite (inode_once K f g0 L4 Hin Hin0 E). }
  split; cbn [put_file set_files file_opened_list store handles].
  - destruct Hk as [? ? ? ? ? ? ? ? ? ? ?]. by split.
  - unfold all_at. cbn [put_file set_files file_opened_list]. apply Forall_fmap, Forall_forall. intros g Hg1.
    unfold compose. cbn beta. destruct (Z.eqb_spec (self g) (self f1)) as [E|E].
    + destruct Hf1. by split.
    + pose proof (proj1 (Forall_forall _ _) Hoth g Hg1) as Hg2. destruct Hg2; [|by split].
      intros E2. apply E. by apply Hin1.
  - rewrite map_map. rewrite <- Hls in L3. erewrite map_ext; [exact L3|]. intros g. cbn beta. destruct (Z.eqb_spec (self g) (self f1)) as [->|]; done.
  - rewrite map_map. rewrite <- Hli in L4. erewrite map_ext_in; [exact L4|]. intros g Hg1%list_elem_of_In. cbn beta.
    destruct (Z.eqb_spec (self g) (self f1)) as [E|]; [|done]. rewrite Ei. symmetry. by apply Hin1.
  - intros j Hjb. destruct (decide (j = i)) as [->|Hne].
    + rewrite lookup_insert_eq. rewrite decide_False; [done|]. rewrite <- Ei. apply Hf1.
    + rewrite lookup_insert_ne, L5 by done. destruct (Hj j Hjb Hne) as [E1 E2].
      destruct (decide (F j = [])), (decide (F' j = [])); try tauto. f_equal. symmetry. exact E2.
  - intros j Hjb. rewrite lookup_insert_ne by (intros <-; done). by apply L6.
  - intros t. unfold get_file. cbn [put_file set_files file_opened_list]. rewrite find_put, Es, Hself.
    pose proof (find_handle _ _ t Hl) as Hh. fold (get_file t K) in Hh. destruct (Z.eqb_spec t s) as [->|Hne].
    + rewrite lookup_insert_eq. rewrite Hg in Hh. destruct (List.find _ _); [|done]. cbn. by rewrite Ei.
    + rewrite lookup_insert_ne, L7 by done. destruct (List.find _ _), (get_file t K); try done.
      cbn in *. injection Hh as _ -> ->. done.
Qed.

Lemma rel_later age age' F free K A : rel age F free K A -> age <= age' < 32768 -> rel age' F free K A.
Proof. intros [L1 ? ? ? ? ? ?] Ha. split; try done. by eapply fs_later. Qed.

(** The open file a call is about. *)
Lemma rel_handle age F free K A s i p : rel age F free K A -> handles A !! s = Some (i, p) ->
  exists f, get_file s K = Some f /\ f_inode f = i /\ seek_pos (fd f) = p /\ file_at F K f /\ others_at F K i /\ is_byte i /\
    store A !! i = Some (content F K i) /\ file_size (fd f) = Z.of_nat (length (content F K i)).
Proof.
  intros [L1 L2 L3 L4 L5 L6 L7] Eh. rewrite L7 in Eh. destruct (get_file s K) as [f|] eqn:Eg; [|done].
  cbn in Eh. injection Eh as <- <-. exists f. destruct (get_file_in _ _ _ Eg) as [Hin _].
  pose proof (proj1 (Forall_forall _ _) L2 f Hin) as Hf. pose proof (a_byte _ _ _ Hf) as Hb. split_and!; try done.
  - eapply Forall_impl; [exact L2|]. intros g Hg _. exact Hg.
  - rewrite L5 by done. rewrite decide_False; [done|apply Hf].
  - rewrite (length_content _ _ _ _ _ L1 Hb). apply Hf.
Qed.

(** *** A full disk *)

Lemma length_part (F : Z -> list Z) l : Z.of_nat (length (concat (map F l))) = foldr (fun i z => Z.of_nat (length (F i)) + z) 0 l.
Proof. induction l as [|i l IH]; [done|]. cbn [map concat foldr]. rewrite length_app. lia. Qed.

Lemma rel_full age F K A : rel age F [] K A -> full (data_size K) (cnt K) A.
Proof.
  intros Hr. pose proof (l_ok _ _ _ _ _ Hr) as Hk. pose proof (pages_len _ _ _ _ Hk) as Hl. cbn [length] in Hl.
  unfold full. rewrite <- Hl. unfold live, part. rewrite length_part.
  assert (HL : forall l, (forall i, i ∈ l -> is_byte i) ->
    foldr (fun i z => Z.of_nat (length (F i)) + z) 0 l <= foldr (fun i z => pages_of (data_size K) (store A !! i) + z) 0 l).
  { induction l as [|i l IH]; intros Hb; [done|]. cbn [foldr]. specialize (IH ltac:(set_solver)).
    assert (Hi : is_byte i) by (apply Hb; left). rewrite (l_store _ _ _ _ _ Hr i Hi).
    destruct (decide (F i = [])) as [->|Hne]; cbn [pages_of length]; [lia|].
    destruct (last (F i)) as [b|] eqn:El; [|by apply last_None in El].
    pose proof (used_last _ _ _ _ _ _ Hk Hi El) as Hu. rewrite <- (length_content _ _ _ _ _ Hk Hi) in Hu.
    pose proof El as El2. rewrite last_lookup in El2. pose proof (fills _ _ _ _ i b Hk Hi (list_elem_of_lookup_2 _ _ _ El2)).
    pose proof (fs_ds _ _ _ _ Hk). assert (Z.of_nat (length (F i)) - 1 <= Z.of_nat (length (content F K i)) / data_size K)
      by (apply Z.div_le_lower_bound; lia). lia. }
  assert (Eb : forall i, i ∈ seqZ 0 256 -> is_byte i) by (intros i Hi%elem_of_seqZ; unfold is_byte; lia).
  specialize (HL _ Eb). lia.
Qed.

(** *** Writing *)

Lemma exec_write age F free K A s l : rel age F free K A -> age + 2 < 32768 -> fair (data_size K) A (Write s l) ->
  let '(r, K') := exec (Write s l) K in
  exists F' free' A', aspec (data_size K) (cnt K) (Write s l) A r A' /\ rel (age + 2) F' free' K' A' /\
    data_size K' = data_size K /\ cnt K' = cnt K.
Proof.
  intros Hr Hage (i & p & Eh & Hp & Hdiv & Hne & Hlen & Hmax).
  destruct (rel_handle _ _ _ _ _ _ _ _ Hr Eh) as (f & Eg & Ei & Ep & Hf & Hoth & Hi & Es & Esz).
  pose proof Hr as [L1 _ _ _ _ _ _].
  destruct (battfs_write_ok age F free K f l L1 Hage Hf) as (n & F' & free' & K' & f' & Ew & Esk & Hw); rewrite ?Ei, ?Ep; try done.
  rewrite Ep in Esk. cbn [exec]. unfold on_file. rewrite Eg, Ew.
  assert (Egap : Z.of_nat (write_gap f) = Z.max 0 (p - Z.of_nat (length (content F K i)))) by (unfold write_gap; rewrite Ep, Esz; lia).
  pose proof Hw as [W1 W2 (W3a & W3b & _) W4 W5 W6 W7 W8 W9 W10 [G1 G2] W11].
  change (f_inode (write_from f)) with (f_inode f) in *. change (self (write_from f)) with (self f) in *. rewrite Ei in *.
  change (f_inode (set_seek _ f')) with (f_inode f') in W3b. change (self (set_seek _ f')) with (self f') in W3a.
  rewrite length_app, length_zeros, Nat2Z.inj_add in W5.
  assert (Hf' : file_at F' K' f').
  { destruct W2 as [B1 B2 B3 B4 B5 _]. split; try done. rewrite Esk. lia. }
  pose proof (rel_after age F free K A s f (age + 2) F' free' K' f' Hr Eg W1 Hf') as Hr'. rewrite Ei, Esk in Hr'.
  specialize (Hr' W9 W3a W3b W10 ltac:(intros j Hj Hjn; split; [by apply W7|by apply W8])).
  assert (Ec : content F' K' i = awrite (content F K i) p l n).
  { rewrite W6. unfold awrite. cbn [write_from set_seek set_fd fd seek_pos]. rewrite Ep, Esz. do 3 f_equal.
    unfold write_gap. by rewrite Ep, Esz. }
  rewrite Ec, Egap in Hr'. rewrite Egap in W5 |- *. eexists F', free', _. split; [|split; [exact Hr'|split]].
  - apply (s_write _ _ s l A i p (content F K i) n Eh Es); [lia|].
    destruct W11 as [[E _]|(_ & E & _)]; [left|right].
    + rewrite E, length_app, length_zeros. lia.
    + rewrite E in Hr'. apply rel_full in Hr'. cbn [put_file set_files data_size] in Hr'. rewrite G1 in Hr'.
      change (cnt (put_file f' K')) with (cnt K') in Hr'. rewrite G2 in Hr'. exact Hr'.
  - exact G1.
  - exact G2.
Qed.

(** *** What a call has to do *)
Definition simulated (age : Z) K (c : call) (A : astate) : Prop :=
  exists F' free' A', aspec (data_size K) (cnt K) c A (fst (exec c K)) A' /\ rel age F' free' (snd (exec c K)) A' /\
    data_size (snd (exec c K)) = data_size K /\ cnt (snd (exec c K)) = cnt K.

Lemma quiet_others_of F K b' i : quiet (bdev K) b' -> others_at F K i -> others_at F (set_bdev b' K) i.
Proof. intros Hq Ho. by apply quiet_others. Qed.

Lemma exec_read age F free K A s n : rel age F free K A -> fair (data_size K) A (Read s n) -> simulated age K (Read s n) A.
Proof.
  intros Hr (i & p & Eh & Hp & Hn).
  destruct (rel_handle _ _ _ _ _ _ _ _ Hr Eh) as (f & Eg & Ei & Ep & Hf & Hoth & Hi & Es & Esz). pose proof (l_ok _ _ _ _ _ Hr) as L1.
  destruct (battfs_read_ok age F free K f n L1 Hf) as (b' & Hq & E); rewrite ?Ep; try done.
  rewrite Ei, Ep, Esz in E. set (m := Z.min n _) in *. unfold simulated. cbn [exec]. unfold on_file. rewrite Eg, E. cbn [fst snd].
  pose proof (file_cap _ _ _ _ _ L1 Hi). pose proof (fs_total _ _ _ _ L1). pose proof (length_content _ _ _ _ _ L1 Hi).
  pose proof (a_seek _ _ _ Hf) as Hsk. rewrite Ep in Hsk.
  pose proof (rel_after age F free K A s f age F free (set_bdev b' K) (set_seek (p + m) f) Hr Eg) as Hr'.
  rewrite Ei, (quiet_content F K b' _ Hq) in Hr'. cbn [set_seek set_fd fd seek_pos] in Hr'.
  rewrite (insert_id (store A)) in Hr' by done. exists F, free, (amove s i (p + m) A). split_and!; try done.
  - exact (s_read _ _ s n A i p (content F K i) Eh Es).
  - apply Hr'; try done.
    + by apply quiet_ok.
    + apply file_seek; [by apply quiet_file|]. lia.
    + by apply quiet_others.
    + intros j Hj Hne. split; [done|]. by apply quiet_content.
  - by apply quiet_cnt.
Qed.

Lemma exec_seek age F free K A s offset whence : rel age F free K A -> fair (data_size K) A (Seek s offset whence) ->
  simulated age K (Seek s offset whence) A.
Proof.
  intros Hr [[i p] Eh].
  destruct (rel_handle _ _ _ _ _ _ _ _ Hr Eh) as (f & Eg & Ei & Ep & Hf & Hoth & Hi & Es & Esz). pose proof (l_ok _ _ _ _ _ Hr) as L1.
  unfold simulated. cbn [exec]. unfold on_file. rewrite Eg. unfold battfs_seek.
  assert (Efd : fd f = mkPos p (Z.of_nat (length (content F K i)))) by (rewrite <- Ep, <- Esz; by destruct (fd f)).
  pose proof (s_seek (data_size K) (cnt K) s offset whence A i p (content F K i) _ _ Eh Es eq_refl) as Ha. rewrite <- Efd in Ha.
  unfold kfile_genericSeek in *. set (q := i32 _) in *. cbn [seek_pos fst snd] in *.
  pose proof (rel_after age F free K A s f age F free K (set_fd (mkPos q (file_size (fd f))) f) Hr Eg L1) as Hr'.
  rewrite Ei in Hr'. cbn [set_fd fd seek_pos] in Hr'. rewrite (insert_id (store A)) in Hr' by done.
  exists F, free, (amove s i q A). split_and!; try done. apply Hr'; try done. apply (file_seek F K f q Hf). unfold q, i32. zlia.
Qed.

(** *** Flushing: the device holds what a client sees *)
Lemma flush_ok age F free K : fs_ok age F free K -> exists b', kblock_flush (bdev K) = (0, b') /\
  fs_ok age F free (set_bdev b' K) /\ (forall b, pgs (set_bdev b' K) b = pgs K b) /\ cnt (set_bdev b' K) = cnt K /\
  view b' = view (bdev K) /\ slice b' = view (bdev K).
Proof.
  intros Hk. pose proof Hk as [K1 K2 K3 K4 K5 K6 K7 K8 K9 K10 K11].
  destruct (flush_sure (bdev K) K1) as (b' & E & Hs & Hsm & Ev & Esl & _). pose proof Hsm as [_ _ _ Sz Sc]. exists b'.
  assert (EP : forall b, pgs (set_bdev b' K) b = pgs K b) by (intros b; by apply pg_eq).
  assert (Ec : cnt (set_bdev b' K) = cnt K) by exact Sc.
  split_and!; try done. split; rewrite ?Ec; cbn [set_bdev bdev data_size page_array free_page_start free_bytes disk_size]; try done.
  - by rewrite Sz.
  - apply (pages_ext _ _ _ _ _ (pgs K) (pgs K)).
    + destruct K8 as [P1 P2 P3]. split; try done. intros b Hb. by destruct (P3 b Hb).
    + intros b Hb. split; [apply EP|]. unfold held. cbn [set_bdev bdev].
      rewrite block_slice by (try apply sure_ok; unfold cnt in *; done || lia). rewrite Esl, Sz. done.
  - rewrite K9. f_equal. symmetry. apply used_ext. intros b _. apply EP.
Qed.

Lemma file_pgs F K K' f : (forall b, pgs K' b = pgs K b) -> data_size K' = data_size K -> file_at F K f -> file_at F K' f.
Proof. intros EP Ed [A1 A2 A3 A4 A5 A6]. split; try done. rewrite A5, Ed. symmetry. apply used_ext. intros. apply EP. Qed.

Lemma content_pgs F K K' i : (forall b, pgs K' b = pgs K b) -> data_size K' = data_size K -> content F K' i = content F K i.
Proof. intros EP Ed. unfold content. rewrite Ed. apply data_ext. intros. apply EP. Qed.

Lemma others_pgs F K K' i : (forall b, pgs K' b = pgs K b) -> data_size K' = data_size K -> file_opened_list K' = file_opened_list K ->
  others_at F K i -> others_at F K' i.
Proof. intros EP Ed El Ho. unfold others_at. rewrite El. eapply Forall_impl; [exact Ho|]. intros g Hg Hne. eapply file_pgs; eauto. Qed.

Lemma exec_flush age F free K A s : rel age F free K A -> fair (data_size K) A (Flush s) -> simulated age K (Flush s) A.
Proof.
  intros Hr [[i p] Eh].
  destruct (rel_handle _ _ _ _ _ _ _ _ Hr Eh) as (f & Eg & Ei & Ep & Hf & Hoth & Hi & Es & Esz). pose proof (l_ok _ _ _ _ _ Hr) as L1.
  destruct (flush_ok _ _ _ _ L1) as (b' & E & Hk & EP & Ec & _). unfold simulated. cbn [exec]. unfold on_file, battfs_flush.
  rewrite Eg, E, Z.eqb_refl. cbn [fst snd]. pose proof (rel_after age F free K A s f age F free (set_bdev b' K) f Hr Eg Hk) as Hr'.
  rewrite Ei, Ep, (content_pgs F K (set_bdev b' K) i EP eq_refl), (insert_id (store A)), (insert_id (handles A)) in Hr' by done.
  exists F, free, A. split_and!; try done; [by eapply s_flush|].
  assert (mkA (store A) (handles A) = A) as EA by (by destruct A). rewrite EA in Hr'. apply Hr'; try done.
  - by eapply file_pgs.
  - by eapply others_pgs.
  - intros j Hj Hne. split; [done|]. by apply content_pgs.
Qed.

Lemma find_filter (l : list BattFs) s t :
  List.find (fun g => self g =? t) (List.filter (fun g => negb (self g =? s)) l)
  = if t =? s then None else List.find (fun g => self g =? t) l.
Proof.
  induction l as [|g l IH]; cbn; [by destruct (t =? s)|].
  destruct (Z.eqb_spec (self g) s) as [Eg|Eg]; cbn [negb List.find]; rewrite IH; destruct (Z.eqb_spec t s) as [Et|Et]; try done.
  - by rewrite (proj2 (Z.eqb_neq (self g) t)) by congruence.
  - by rewrite (proj2 (Z.eqb_neq (self g) t)) by congruence.
Qed.

Lemma NoDup_map_filter {X} (h : X -> Z) (p : X -> bool) (l : list X) : NoDup (map h l) -> NoDup (map h (List.filter p l)).
Proof.
  induction l as [|x l IH]; [done|]. cbn. intros [Hni Hnd]%NoDup_cons. destruct (p x); [|by apply IH]. cbn.
  apply NoDup_cons. split; [|by apply IH]. intros Hin. apply Hni. apply list_elem_of_In, in_map_iff in Hin as (y & Ey & Hy).
  apply list_elem_of_In, in_map_iff. exists y. split; [done|]. by apply List.filter_In in Hy as [? _].
Qed.

Lemma exec_close age F free K A s : rel age F free K A -> fair (data_size K) A (Close s) -> simulated age K (Close s) A.
Proof.
  intros Hr [[i p] Eh].
  destruct (rel_handle _ _ _ _ _ _ _ _ Hr Eh) as (f & Eg & Ei & Ep & Hf & Hoth & Hi & Es & Esz). pose proof Hr as [L1 L2 L3 L4 L5 L6 L7].
  destruct (flush_ok _ _ _ _ L1) as (b' & E & Hk & EP & Ec & _). unfold simulated. cbn [exec]. rewrite Eg. unfold battfs_fileclose, battfs_flush.
  rewrite E. cbn [Z.eqb]. destruct (get_file_in _ _ _ Eg) as [_ Hs]. rewrite Hs. cbn [fst snd].
  eexists F, free, _. split_and!; [by eapply s_close| |done|done].
  split; cbn [set_files set_bdev file_opened_list store handles].
  - destruct Hk. by split.
  - unfold all_at. cbn [set_files file_opened_list]. apply Forall_forall. intros g Hg%list_elem_of_In.
    apply List.filter_In in Hg as [Hg%list_elem_of_In _]. pose proof (proj1 (Forall_forall _ _) L2 g Hg) as Hfg.
    by apply (file_pgs F K).
  - by apply NoDup_map_filter.
  - by apply NoDup_map_filter.
  - intros j Hj. rewrite L5 by done. destruct (decide _); [done|]. f_equal. symmetry. by apply (content_pgs F K).
  - done.
  - intros t. unfold get_file. cbn [set_files file_opened_list]. rewrite find_filter. destruct (Z.eqb_spec t s) as [->|Hne].
    + by rewrite lookup_delete_eq.
    + rewrite lookup_delete_ne by done. apply L7.
Qed.

(** *** Opening *)
Lemma rel_quiet age F free K A b' : rel age F free K A -> quiet (bdev K) b' -> rel age F free (set_bdev b' K) A.
Proof.
  intros [L1 L2 L3 L4 L5 L6 L7] Hq. split; try done.
  - by apply quiet_ok.
  - by apply quiet_all.
  - intros j Hj. rewrite L5 by done. destruct (decide _); [done|]. f_equal. symmetry. by apply quiet_content.
Qed.

Lemma find_insert f (l : list BattFs) t : List.find (fun g => self g =? self f) l = None ->
  List.find (fun g => self g =? t) (insert_file f l) = if t =? self f then Some f else List.find (fun g => self g =? t) l.
Proof.
  induction l as [|g l IH]; intros Hn; cbn in *.
  - rewrite Z.eqb_sym. by destruct (t =? self f).
  - destruct (Z.eqb_spec (self g) (self f)) as [|Hne]; [done|]. destruct (f_inode g >=? f_inode f); cbn.
    + rewrite (Z.eqb_sym (self f)). by destruct (t =? self f).
    + rewrite (IH Hn). destruct (Z.eqb_spec (self g) t) as [Et|Et]; [|done]. by rewrite (proj2 (Z.eqb_neq t (self f))) by congruence.
Qed.

Lemma rel_insert age F free K A f : rel age F free K A -> file_at F K f -> handles A !! self f = None ->
  (forall t q, handles A !! t <> Some (f_inode f, q)) ->
  rel age F free (set_files (insert_file f (file_opened_list K)) K)
    (mkA (store A) (<[self f := (f_inode f, seek_pos (fd f))]> (handles A))).
Proof.
  intros [L1 L2 L3 L4 L5 L6 L7] Hf Hs Hi. pose proof (insert_perm f (file_opened_list K)) as Hp.
  rewrite L7 in Hs. destruct (get_file (self f) K) eqn:Eg; [done|].
  assert (Hno : forall g, g ∈ file_opened_list K -> self g <> self f /\ f_inode g <> f_inode f).
  { intros g Hg. pose proof (find_self _ g L3 Hg) as Ef. change (get_file (self g) K = Some g) in Ef. split; intros E.
    - rewrite E in Ef. congruence.
    - apply (Hi (self g) (seek_pos (fd g))). by rewrite L7, Ef, <- E. }
  assert (HND : forall h : BattFs -> Z, NoDup (map h (file_opened_list K)) -> (forall g, g ∈ file_opened_list K -> h g <> h f) ->
    NoDup (map h (insert_file f (file_opened_list K)))).
  { intros h Hnd Hne. rewrite (Permutation_map h Hp). cbn. apply NoDup_cons. split; [|done].
    intros (g & Eg' & Hg)%list_elem_of_In%in_map_iff. by apply (Hne g); [apply list_elem_of_In|]. }
  split; cbn [set_files file_opened_list store handles]; try done.
  - by destruct L1.
  - unfold all_at. cbn [set_files file_opened_list]. apply Forall_forall. intros g Hg. rewrite Hp in Hg.
    apply elem_of_cons in Hg as [->|Hg]; [by destruct Hf|]. by destruct (proj1 (Forall_forall _ _) L2 g Hg).
  - apply HND; [done|]. intros g Hg. by apply Hno.
  - apply HND; [done|]. intros g Hg. by apply Hno.
  - intros t. unfold get_file. cbn [set_files file_opened_list]. rewrite find_insert by done.
    destruct (Z.eqb_spec t (self f)) as [->|Hne]; [by rewrite lookup_insert_eq|]. rewrite lookup_insert_ne by done. apply L7.
Qed.

Lemma room_of_size age F free K i : fs_ok age F free K -> is_byte i -> F i <> [] ->
  content F K i = [] \/ Z.of_nat (length (content F K i)) mod data_size K <> 0 -> last_has_room F K i.
Proof.
  intros Hk Hi Hne Hc b El. pose proof (used_last _ _ _ _ _ _ Hk Hi El) as Hu. rewrite <- (length_content _ _ _ _ _ Hk Hi) in Hu.
  rewrite last_lookup in El. pose proof (lookup_lt_Some _ _ _ El). pose proof (fs_ds _ _ _ _ Hk).
  pose proof (fills _ _ _ _ i b Hk Hi (list_elem_of_lookup_2 _ _ _ El)).
  destruct (decide (fill_at (data_size K) (pgs K b) = data_size K)) as [Ef|]; [|lia]. exfalso.
  replace ((Z.of_nat (length (F i)) - 1) * data_size K + fill_at (data_size K) (pgs K b))
    with (Z.of_nat (length (F i)) * data_size K) in Hu by lia.
  destruct Hc as [Hc|Hc]; [rewrite Hc in Hu; cbn [length] in Hu; nia|]. apply Hc. rewrite Hu. apply Z.mod_mul. lia.
Qed.

Lemma exec_open age F free K A s i mode : rel age F free K A -> fair (data_size K) A (Open s i mode) ->
  simulated age K (Open s i mode) A.
Proof.
  intros Hr (Hi & Hs & Hh & Hsz). pose proof Hr as [L1 L2 L3 L4 L5 L6 L7]. unfold simulated. cbn [exec].
  pose proof (L5 i Hi) as Est. destruct (decide (F i = [])) as [He|Hne].
  - destruct (decide (Z.land mode BATTFS_CREATE = 0)) as [Hm|Hm].
    + destruct (open_missing s i mode _ _ _ _ L1 Hi He Hm) as (b' & Hq & ->). cbn [fst snd].
      exists F, free, A. split_and!; try done; [by apply s_missing|by apply rel_quiet|by apply quiet_cnt].
    + destruct free as [|np fr].
      * destruct (open_full s i mode _ _ _ L1 Hi He Hm) as (b' & Hq & ->). cbn [fst snd].
        exists F, [], A. split_and!; try done; [apply s_full; [done|by eapply rel_full]|by apply rel_quiet|by apply quiet_cnt].
      * destruct (open_new s i mode _ _ _ _ _ L1 L2 Hi He Hm) as (K' & E & Hk' & Hf' & Hm' & Hc' & (Ed & Ecn) & Hj). rewrite E. cbn [fst snd].
        set (F' := newF F i 0 np) in *. set (f := new_handle s i mode F' K') in *.
        assert (HF' : F' i <> []) by apply (a_some _ _ _ Hf').
        assert (Hr1 : rel age F' fr (set_files (moved i (file_opened_list K)) K') (mkA (<[i := []]> (store A)) (handles A))).
        { destruct (map_handle _ _ (moved_self i (file_opened_list K))) as [Hls Hli].
          split; cbn [set_files file_opened_list store handles].
          - destruct Hk'. by split.
          - eapply Forall_impl; [exact Hm'|]. by intros g [].
          - by rewrite Hls.
          - by rewrite Hli.
          - intros j Hjb. destruct (decide (j = i)) as [->|Hne'].
            + rewrite lookup_insert_eq, decide_False by done. by rewrite <- Hc'.
            + destruct (Hj j Hjb Hne') as [-> Ec]. rewrite lookup_insert_ne, L5 by done. destruct (decide _); [done|]. f_equal. by rewrite <- Ec.
          - intros j Hjb. rewrite lookup_insert_ne by (by intros <-). by apply L6.
          - intros t. rewrite L7. unfold get_file. cbn [set_files file_opened_list].
            pose proof (find_handle _ _ t (moved_self i (file_opened_list K))) as Hfh.
            destruct (List.find _ (moved _ _)), (List.find _ (file_opened_list K)); try done. cbn in *. by injection Hfh as _ -> ->. }
        pose proof (rel_insert _ _ _ _ _ f Hr1) as Hr2. cbn [set_files file_opened_list handles store] in Hr2.
        eexists F', fr, _. split_and!; [by apply s_create|apply Hr2; try done; by destruct Hf'|exact Ed|exact Ecn].
  - destruct (open_old s i mode _ _ _ _ L1 Hi Hne) as (b' & Hq & E & Hf).
    { eapply room_of_size; [exact L1|done|done|]. by apply Hsz. }
    rewrite E. cbn [fst snd]. exists F, free, (amove s i 0 A). split_and!; try done.
    + by eapply s_open.
    + apply (rel_insert age F free (set_bdev b' K) A (new_handle s i mode F K)); try done. by apply rel_quiet.
    + by apply quiet_cnt.
Qed.
End Spec.
