(* ===== verification/BattFsRuns.v ===== *)
(** * BattFS: what it promises

    Any run of calls on a mounted disk refines the store of files
    ([battfs_refines]); mounting finds the newest pages ([battfs_mount_newest]);
    what was unmounted is found again ([battfs_durable]).  Then where it
    breaks. *)

From Stdlib Require Import ZArith Lia Bool List Permutation.
From stdpp Require Import prelude gmap.
From S2P Require Import Prelude KFile KBlock KBlockRam KBlockSure BattFs BattFsPages BattFsInv BattFsFiles BattFsOpen BattFsMount BattFsSpec.

Open Scope Z_scope.

(** ** Runs *)

Inductive aruns (ds cnt : Z) : list call -> astate -> list reply -> astate -> Prop :=
| runs_end A : aruns ds cnt [] A [] A
| runs_call c cs A r A1 rs A2 : aspec ds cnt c A r A1 -> aruns ds cnt cs A1 rs A2 -> aruns ds cnt (c :: cs) A (r :: rs) A2.

Fixpoint run_fair (ds cnt : Z) (cs : list call) (A : astate) : Prop :=
  match cs with
  | [] => True
  | c :: cs => fair ds A c /\ forall r A', aspec ds cnt c A r A' -> run_fair ds cnt cs A'
  end.

Section Runs.
Context {D : Type} `{KBlockSure D}.
Implicit Types K : BattFsSuper D.

Fixpoint exec_all (cs : list call) K : list reply * BattFsSuper D :=
  match cs with
  | [] => ([], K)
  | c :: cs => let '(r, K) := exec c K in let '(rs, K) := exec_all cs K in (r :: rs, K)
  end.

(** The disk shows the store; no sequence number is above [age]. *)
Definition shows (age : Z) K (A : astate) : Prop := exists F free, rel age F free K A.

Lemma exec_simulates c age F free K A : rel age F free K A -> age + 2 < 32768 -> fair (data_size K) A c ->
  simulated (age + 2) K c A.
Proof.
  intros Hr Hage Hf. assert (HL : simulated age K c A -> simulated (age + 2) K c A).
  { intros (F' & free' & A' & ? & Hr' & ?). exists F', free', A'. split_and!; try tauto. eapply rel_later; [exact Hr'|].
    pose proof (fs_age _ _ _ _ (l_ok _ _ _ _ _ Hr)). lia. }
  destruct c.
  - apply HL. by eapply exec_open.
  - pose proof (exec_write age F free K A s l Hr Hage Hf) as Hw. unfold simulated.
    destruct (exec (Write s l) K) as [r K'] eqn:E. exact Hw.
  - apply HL. by eapply exec_read.
  - apply HL. by eapply exec_seek.
  - apply HL. by eapply exec_flush.
  - apply HL. by eapply exec_close.
Qed.

(** Any run, call by call. *)
Lemma runs_simulated cs age K A : shows age K A -> age + 2 * Z.of_nat (length cs) < 32768 ->
  run_fair (data_size K) (cnt K) cs A ->
  let '(rs, K') := exec_all cs K in
  exists A', aruns (data_size K) (cnt K) cs A rs A' /\ shows (age + 2 * Z.of_nat (length cs)) K' A' /\
    data_size K' = data_size K /\ cnt K' = cnt K.
Proof.
  revert age K A. induction cs as [|c cs IH]; intros age K A (F & free & Hr) Hage Hf.
  - cbn. exists A. split; [constructor|]. split; [|done]. exists F, free. by rewrite Z.add_0_r.
  - cbn [exec_all length] in *. destruct Hf as [Hf1 Hf2].
    destruct (exec_simulates c age F free K A Hr ltac:(lia) Hf1) as (F1 & free1 & A1 & Ha & Hr1 & Ed & Ec).
    destruct (exec c K) as [r K1]. cbn [fst snd] in *.
    specialize (IH (age + 2) K1 A1 (ex_intro _ F1 (ex_intro _ free1 Hr1)) ltac:(lia)). rewrite Ed, Ec in IH.
    specialize (IH (Hf2 _ _ Ha)). destruct (exec_all cs K1) as [rs K2]. destruct IH as (A2 & Hrs & Hs2 & Hd2).
    exists A2. split; [by econstructor|]. split; [|exact Hd2].
    replace (age + 2 * Z.of_nat (S (length cs))) with (age + 2 + 2 * Z.of_nat (length cs)) by lia. exact Hs2.
Qed.

(** C27: BattFS refines a store of files.  On a mounted disk over any device that
    does not fail, buffered or not, run any calls that are meant: open or create
    files, write at any position, behind the end too, read, seek, flush, close,
    with several files open at once.  Every reply is the one of the specification,
    where a file is an array of bytes: a read returns its bytes, a write changes
    exactly its bytes, with zeros in a gap, and no other file; a write is only short,
    and a file only refused, when the files can fill all pages of the disk.  Two
    calls make sequence numbers grow by four at most, which is why their number is
    bounded. *)
Theorem battfs_refines cs age K A : shows age K A -> age + 2 * Z.of_nat (length cs) < 32768 ->
  run_fair (data_size K) (cnt K) cs A ->
  let '(rs, K') := exec_all cs K in
  exists A', aruns (data_size K) (cnt K) cs A rs A' /\ shows (age + 2 * Z.of_nat (length cs)) K' A'.
Proof.
  intros Hs Hage Hf. pose proof (runs_simulated cs age K A Hs Hage Hf) as Hr.
  destruct (exec_all cs K) as [rs K']. destruct Hr as (A' & Ha & Hs' & _). by exists A'.
Qed.
End Runs.

(** ** Mounting *)

(** The files whose pages are [F]. *)
Definition store_of (ds : Z) (P F : Z -> list Z) : gmap Z (list Z) :=
  foldr (fun i m => if decide (F i = []) then m else <[i := data_of ds P (F i)]> m) ∅ (seqZ 0 256).

Lemma lookup_store_of ds P F i :
  store_of ds P F !! i = if decide (is_byte i /\ F i <> []) then Some (data_of ds P (F i)) else None.
Proof.
  assert (HL : forall l, foldr (fun i m => if decide (F i = []) then m else <[i := data_of ds P (F i)]> m) (∅ : gmap Z (list Z)) l !! i
    = if decide (i ∈ l /\ F i <> []) then Some (data_of ds P (F i)) else None).
  { induction l as [|j l IH]; cbn [foldr].
    - rewrite decide_False; [apply lookup_empty|]. by intros [?%elem_of_nil _].
    - destruct (decide (F j = [])) as [Ej|Ej].
      + rewrite IH. apply decide_ext. rewrite elem_of_cons. naive_solver.
      + destruct (decide (i = j)) as [->|Hne].
        * rewrite lookup_insert_eq, decide_True; [done|]. split; [left|done].
        * rewrite lookup_insert_ne, IH by done. apply decide_ext. rewrite elem_of_cons. naive_solver. }
  unfold store_of. rewrite HL. apply decide_ext. rewrite elem_of_seqZ. unfold is_byte. split; intros [? ?]; split; done || lia.
Qed.

Section Whole.
Context {D : Type} `{KBlockSure D}.
Implicit Types K : BattFsSuper D.

(** A device of [n] blocks with [ds] bytes for data in each, as [battfs_mount] can take it. *)
Record mountable (dev : KBlock D) (ds n age : Z) : Prop := {
  mo_sure : sure dev;
  mo_size : blk_size dev = ds + BATTFS_HEADER_LEN;
  mo_cnt : blk_cnt dev = n;
  mo_ds : 0 < ds < 65000;
  mo_n : 0 < n < 32768;
  mo_age : 0 <= age < 32768;
  mo_total : n * ds < 2147483648
}.

Lemma mount_shows dev ds n age F free arr K : mountable dev ds n age -> pages_ok ds n age F free (pg dev) (block dev) ->
  Z.of_nat (length arr) = n ->
  exists K' free', battfs_mount K dev arr = (true, K') /\ free' ≡ₚ free /\ quiet dev (bdev K') /\
    rel age F free' K' (mkA (store_of ds (pg dev) F) ∅) /\ data_size K' = ds /\ cnt K' = n.
Proof.
  intros [M1 M2 <- M4 M5 M6 M7] HP Harr.
  destruct (battfs_mount_ok dev ds age F free arr K M1 M2 M4 M5 M6 M7 HP Harr) as (K' & free' & E & Hk & Hp & Hl & Hq & Ed).
  exists K', free'. pose proof Hq as [_ Hsm Hv _ _ _].
  assert (EP : forall b, pgs K' b = pg dev b) by (intros b; by apply pg_eq).
  split_and!; try done; [|by destruct Hsm]. split; cbn [store handles]; rewrite ?Hl; try done; try constructor.
  - unfold all_at. rewrite Hl. constructor.
  - intros i Hi. rewrite lookup_store_of. unfold content. rewrite Ed, (data_ext ds (pg dev) (pgs K') (F i)) by (intros; apply EP).
    destruct (decide (F i = [])); [rewrite decide_False by tauto|rewrite decide_True by tauto]; done.
  - intros i Hi. rewrite lookup_store_of. by rewrite decide_False by tauto.
  - intros s. unfold get_file. rewrite Hl. apply lookup_empty.
Qed.

(** C28: Mounting finds the newest pages.  Take any device that does not fail, on
    which every page with a good header is known: its place in its file belongs to
    that page, or to one with a higher sequence number ([pages_ok]; [F] are the
    newest pages, as many copies as there may be of them).  Then [battfs_mount]
    succeeds without a change to the device, whatever the structure and the page
    array held before; every file is there, with the bytes of its newest pages, and
    all other blocks, older copies among them, are free; nothing is open. *)
Theorem battfs_mount_newest dev ds n age F free arr K : mountable dev ds n age ->
  pages_ok ds n age F free (pg dev) (block dev) -> Z.of_nat (length arr) = n ->
  exists K' free', battfs_mount K dev arr = (true, K') /\ quiet dev (bdev K') /\
    page_array K' = live F ++ free' /\ free_page_start K' = Z.of_nat (length (live F)) /\ free' ≡ₚ free /\
    shows age K' (mkA (store_of ds (pg dev) F) ∅).
Proof.
  intros Hm HP Harr. destruct (mount_shows dev ds n age F free arr K Hm HP Harr) as (K' & free' & E & Hp & Hq & Hr & _).
  pose proof (l_ok _ _ _ _ _ Hr) as Hk. exists K', free'. split_and!; try done; [apply Hk|apply Hk|]. by exists F, free'.
Qed.

(** ** Unmounting *)

Lemma close_all_ok files age F free K res : fs_ok age F free K -> exists K', close_all files K res = (res, K') /\
  fs_ok age F free K' /\ (forall b, pgs K' b = pgs K b) /\ data_size K' = data_size K /\ same (bdev K) (bdev K').
Proof.
  revert K. induction files as [|f files IH]; intros K Hk.
  - exists K. by split_and!.
  - cbn [close_all]. unfold battfs_fileclose, battfs_flush. destruct (flush_ok _ _ _ _ Hk) as (b' & E & Hk1 & EP & _).
    destruct (flush_sure (bdev K) (fs_sure _ _ _ _ Hk)) as (b2 & E2 & _ & Hsm & _). rewrite E in E2. injection E2 as <-.
    rewrite E. cbn [Z.eqb]. set (K1 := set_files _ (set_bdev b' K)).
    assert (Hk1' : fs_ok age F free K1) by (destruct Hk1; by split).
    destruct (IH K1 Hk1') as (K' & E' & Hk' & EP' & Ed' & Hsm'). exists K'. rewrite Z.add_0_r. split_and!; try done.
    + intros b. rewrite EP'. apply EP.
    + eapply same_trans; [exact Hsm|exact Hsm'].
Qed.

(** Unmounted: the device holds what was seen. *)
Lemma umount_ok age F free K : fs_ok age F free K -> exists K', battfs_umount K = (true, K') /\ sure (bdev K') /\
  same (bdev K) (bdev K') /\ forall i, 0 <= i < cnt K -> block (bdev K') i = pgs K i.
Proof.
  intros Hk. unfold battfs_umount. destruct (close_all_ok (file_opened_list K) age F free K 0 Hk) as (K1 & -> & Hk1 & EP & Ed & Hsm).
  destruct (flush_ok _ _ _ _ Hk1) as (b1 & E1 & Hk2 & EP2 & _ & Ev1 & Es1). rewrite E1. cbn [Z.eqb negb set_bdev bdev].
  destruct (flush_sure (bdev K1) (fs_sure _ _ _ _ Hk1)) as (b2 & E2 & Hs2 & Hsm2 & _). rewrite E1 in E2. injection E2 as <-.
  unfold kblock_close. destruct (flush_sure b1 Hs2) as (b3 & E3 & Hs3 & Hsm3 & Ev3 & Es3 & _). rewrite E3.
  destruct (sure_close b3 Hs3) as (d & Ec & Edk & Hs4). rewrite Ec. eexists. split; [reflexivity|]. cbn [set_bdev bdev].
  assert (HS : same (bdev K) (set_dev d b3)) by (eapply same_trans; [exact Hsm|]; eapply same_trans; [exact Hsm2|destruct Hsm3; by split]).
  split_and!; [exact Hs4|exact HS|]. intros i Hi. pose proof HS as [_ _ _ Sz Sc].
  rewrite block_slice by (try apply sure_ok; unfold cnt in Hi; done || lia).
  assert (Esl : slice (set_dev d b3) = view (bdev K1)) by (unfold slice in *; cbn; rewrite Edk; congruence).
  rewrite Esl, Sz, <- EP. unfold pgs, pg. by destruct Hsm as [_ _ _ -> _].
Qed.

(** What is unmounted is found when it is mounted. *)
Lemma umounted_found age K A : shows age K A ->
  exists K1, battfs_umount K = (true, K1) /\
    forall dev arr K2, mountable dev (data_size K) (cnt K) age ->
      (forall i, 0 <= i < cnt K -> pg dev i = block (bdev K1) i /\ block dev i = block (bdev K1) i) ->
      Z.of_nat (length arr) = cnt K ->
      exists K3, battfs_mount K2 dev arr = (true, K3) /\ shows age K3 (mkA (store A) ∅).
Proof.
  intros (F & free & Hr). pose proof (l_ok _ _ _ _ _ Hr) as Hk. destruct (umount_ok _ _ _ _ Hk) as (K1 & E & _ & _ & EB).
  exists K1. split; [exact E|]. intros dev arr K2 Hm Hdev Harr.
  assert (HP : pages_ok (data_size K) (cnt K) age F free (pg dev) (block dev)).
  { apply (pages_ext _ _ _ _ _ (pgs K) (pgs K)).
    - destruct (fs_pages _ _ _ _ Hk) as [P1 P2 P3]. split; try done. intros b Hb. by destruct (P3 b Hb).
    - intros b Hb. destruct (Hdev b Hb) as [-> ->]. by rewrite EB. }
  destruct (mount_shows dev _ _ age F free arr K2 Hm HP Harr) as (K3 & free' & E3 & _ & _ & Hr3 & _).
  exists K3. split; [exact E3|]. exists F, free'.
  assert (Est : store A = store_of (data_size K) (pg dev) F); [|by rewrite Est].
  apply map_eq. intros i. rewrite lookup_store_of. destruct (decide (is_byte i)) as [Hi|Hi].
  - rewrite (l_store _ _ _ _ _ Hr i Hi). destruct (decide (F i = [])); [by rewrite decide_False by tauto|].
    rewrite decide_True by done. f_equal. symmetry. unfold content. apply data_ext. intros b Hb.
    pose proof (page_in _ _ _ _ i b Hk Hi Hb) as Hbr. destruct (Hdev b Hbr) as [-> _]. by rewrite EB.
  - rewrite (l_none _ _ _ _ _ Hr i Hi). by rewrite decide_False by tauto.
Qed.
(** C29: What was unmounted is found again.  After any run of calls that are meant
    ([fair], as in [battfs_refines]), as long as the sequence numbers stay below
    32768, where they would be read back wrong ([seq_lost]): [battfs_umount]
    succeeds, whatever files are open, and from then on the files are on the
    device itself.  Power it off, and mount any device with the same blocks,
    buffered or not: all files are there, with the contents that the
    specification of the run gives them, and no other. *)
Theorem battfs_durable cs age K A : shows age K A -> age + 2 * Z.of_nat (length cs) < 32768 ->
  run_fair (data_size K) (cnt K) cs A ->
  let '(rs, K') := exec_all cs K in
  exists A' K1, aruns (data_size K) (cnt K) cs A rs A' /\ battfs_umount K' = (true, K1) /\
    forall dev arr K2, mountable dev (data_size K) (cnt K) (age + 2 * Z.of_nat (length cs)) ->
      (forall i, 0 <= i < cnt K -> pg dev i = block (bdev K1) i /\ block dev i = block (bdev K1) i) ->
      Z.of_nat (length arr) = cnt K ->
      exists K3, battfs_mount K2 dev arr = (true, K3) /\
        shows (age + 2 * Z.of_nat (length cs)) K3 (mkA (store A') ∅).
Proof.
  intros Hs Hage Hf. pose proof (runs_simulated cs age K A Hs Hage Hf) as Hr.
  destruct (exec_all cs K) as [rs K']. destruct Hr as (A' & Ha & Hs' & Ed & Ec).
  destruct (umounted_found _ _ _ Hs') as (K1 & E & W). rewrite Ed, Ec in W. by exists A', K1.
Qed.
End Whole.

(** ** When a run is fair *)
Section Fair.
Variables ds cnt : Z.

Lemma fair_create s i mode cs A : fair ds A (Open s i mode) -> store A !! i = None -> Z.land mode BATTFS_CREATE <> 0 ->
  ~ full ds cnt A -> run_fair ds cnt cs (mkA (<[i := []]> (store A)) (<[s := (i, 0)]> (handles A))) ->
  run_fair ds cnt (Open s i mode :: cs) A.
Proof.
  intros Hf Hs Hm Hn Hr. split; [done|]. intros r A' Ha. inversion Ha; subst; try done. congruence.
Qed.

Lemma fair_write s l cs A i p c : fair ds A (Write s l) -> handles A !! s = Some (i, p) -> store A !! i = Some c ->
  (forall c' p', 0 <= p' - p <= Z.of_nat (length l) -> run_fair ds cnt cs (mkA (<[i := c']> (store A)) (<[s := (i, p')]> (handles A)))) ->
  run_fair ds cnt (Write s l :: cs) A.
Proof.
  intros Hf Hh Hs Hr. split; [done|]. intros r A' Ha. inversion Ha; subst. simplify_eq. apply Hr. lia.
Qed.

Lemma fair_read s n cs A i p c : fair ds A (Read s n) -> handles A !! s = Some (i, p) -> store A !! i = Some c ->
  run_fair ds cnt cs (amove s i (p + Z.min n (Z.max (Z.of_nat (length c) - p) 0)) A) -> run_fair ds cnt (Read s n :: cs) A.
Proof. intros Hf Hh Hs Hr. split; [done|]. intros r A' Ha. inversion Ha; subst. by simplify_eq. Qed.

Lemma fair_seek s offset whence cs A i p c : fair ds A (Seek s offset whence) -> handles A !! s = Some (i, p) -> store A !! i = Some c ->
  run_fair ds cnt cs (amove s i (seek_pos (snd (kfile_genericSeek (mkPos p (Z.of_nat (length c))) offset whence))) A) ->
  run_fair ds cnt (Seek s offset whence :: cs) A.
Proof.
  intros Hf Hh Hs Hr. split; [done|]. intros r A' Ha. inversion Ha as [| | | | | |? ? ? ? ? ? ? ? ? E1 E2 E3| |]; subst. simplify_eq. by rewrite E3 in Hr.
Qed.

Lemma fair_close s cs A : fair ds A (Close s) -> run_fair ds cnt cs (mkA (store A) (delete s (handles A))) ->
  run_fair ds cnt (Close s :: cs) A.
Proof. intros Hf Hr. split; [done|]. intros r A' Ha. by inversion Ha; subst. Qed.
End Fair.

(** ** On a blank device

    Six blocks of twenty bytes in memory, all erased. *)

Definition blank_ram : KBlock KBlockRam := kblockram_init (replicate 140 255) 140 20 true false.
Definition no_disk : BattFsSuper KBlockRam := mkDisk blank_ram 0 [] 0 0 0 [].
Definition blank_disk : BattFsSuper KBlockRam := snd (battfs_mount no_disk blank_ram (zeros 6)).
Definition no_files : astate := mkA ∅ ∅.

Lemma blank_mountable : mountable blank_ram 8 6 0.
Proof.
  destruct (kblockram_init_ok (replicate 140 255) 20 true false ltac:(lia) ltac:(cbn; lia) ltac:(cbn; lia)) as (Hb & _).
  split; try done; try lia.
Qed.

Lemma blank_pages : pages_ok 8 6 0 (fun _ => []) (seqZ 0 6) (pg blank_ram) (block blank_ram).
Proof.
  assert (HN : forall b, 0 <= b < 6 -> hdr_at 8 (pg blank_ram b) = None /\ hdr_at 8 (block blank_ram b) = None).
  { intros b Hb. assert (b = 0 \/ b = 1 \/ b = 2 \/ b = 3 \/ b = 4 \/ b = 5) as Hc by lia.
    repeat destruct Hc as [->|Hc]; subst; by vm_compute. }
  split.
  - assert (live (fun _ : Z => @nil Z) = []) as -> by (vm_compute; reflexivity). done.
  - intros i o b _ E. done.
  - intros b Hb. destruct (HN b Hb) as [E1 E2]. split; intros h E; congruence.
Qed.

Lemma blank_shows : shows 0 blank_disk no_files /\ data_size blank_disk = 8 /\ cnt blank_disk = 6.
Proof.
  destruct (mount_shows blank_ram 8 6 0 (fun _ => []) (seqZ 0 6) (zeros 6) no_disk blank_mountable blank_pages eq_refl)
    as (K' & free' & E & _ & _ & Hr & Ed & Ec).
  unfold blank_disk. rewrite E. cbn [snd]. split; [|split; [exact Ed|exact Ec]].
  assert (store_of 8 (pg blank_ram) (fun _ => []) = ∅) as Est by (vm_compute; reflexivity). rewrite Est in Hr.
  exists (fun _ => []), free'. exact Hr.
Qed.

Definition some_calls : list call :=
  [Open 7 5 BATTFS_CREATE; Open 8 3 BATTFS_CREATE; Write 7 [1; 2; 3; 4; 5; 6; 7; 8; 9; 10]; Write 8 [11; 12];
   Seek 7 6 KSM_SEEK_SET; Write 7 [77; 78; 79]; Seek 7 4 KSM_SEEK_SET; Read 7 100; Close 7].

Lemma some_calls_fair : run_fair 8 6 some_calls no_files.
Proof.
  unfold some_calls, no_files.
  apply fair_create; [|reflexivity|done|apply Z.lt_nge; vm_compute; reflexivity|].
  { cbn [store handles fair]. split_and!; [done|reflexivity|intros t q E; by rewrite lookup_empty in E|intros c E; by rewrite lookup_empty in E]. }
  apply fair_create; [|reflexivity|done|apply Z.lt_nge; vm_compute; reflexivity|]; cbn [store handles].
  { cbn [store handles fair]. split_and!; [done|reflexivity| |].
    - intros t q [[_ E]|[_ E]]%lookup_insert_Some; [done|]. by rewrite lookup_empty in E.
    - intros c E. by vm_compute in E. }
  apply (fair_write _ _ 7 _ _ _ 5 0 []); [exists 5, 0; by split_and!|reflexivity|reflexivity|]. intros c1 p1 _. cbn [store handles].
  apply (fair_write _ _ 8 _ _ _ 3 0 []); [exists 3, 0; by split_and!|reflexivity|reflexivity|]. intros c2 p2 _. cbn [store handles].
  apply (fair_seek _ _ 7 _ _ _ _ 5 p1 c1); [by eexists|reflexivity|reflexivity|]. unfold amove. cbn [store handles kfile_genericSeek snd seek_pos].
  apply (fair_write _ _ 7 _ _ _ 5 6 c1); [exists 5, 6; by split_and!|reflexivity|reflexivity|]. intros c3 p3 _. cbn [store handles].
  apply (fair_seek _ _ 7 _ _ _ _ 5 p3 c3); [by eexists|reflexivity|reflexivity|]. unfold amove. cbn [store handles kfile_genericSeek snd seek_pos].
  apply (fair_read _ _ 7 _ _ _ 5 4 c3); [exists 5, 4; by split_and!|reflexivity|reflexivity|]. unfold amove. cbn [store handles].
  apply fair_close; [by eexists|]. done.
Qed.

(** Two files, open at once; one is written again in the middle and read from
    there. *)
Lemma battfs_refines_witness :
  fst (exec_all some_calls blank_disk)
  = [Opened true; Opened true; Number 10; Number 2; Number 6; Number 3; Number 4; Bytes [5; 6; 77; 78; 79; 10]; Number 0] /\
  exists A', aruns 8 6 some_calls no_files (fst (exec_all some_calls blank_disk)) A' /\ shows 18 (snd (exec_all some_calls blank_disk)) A'.
Proof.
  split; [vm_compute; reflexivity|]. destruct blank_shows as (Hs & Ed & Ec).
  pose proof (battfs_refines some_calls 0 blank_disk no_files Hs) as W. rewrite Ed, Ec in W.
  destruct (exec_all some_calls blank_disk) as [rs K']. cbn [fst snd]. apply W; [cbn; lia|exact some_calls_fair].
Defined.

(** The disk after these calls, unmounted, and its memory in a device without a
    buffer: each of the three pages is there twice, the newer copy of one in
    front of the older and the newer copies of the others behind. *)
Definition used_disk : BattFsSuper KBlockRam := snd (exec_all some_calls blank_disk).
Definition used_mem : list Z := Eval vm_compute in membuf (dev (bdev (snd (battfs_umount used_disk)))).
Definition moved_ram : KBlock KBlockRam := kblockram_init used_mem 120 20 false false.
Definition moved_disk : BattFsSuper KBlockRam := snd (battfs_mount no_disk moved_ram (zeros 6)).

Lemma moved_mountable age : 0 <= age < 32768 -> mountable moved_ram 8 6 age.
Proof.
  intros Hage.
  destruct (kblockram_init_ok used_mem 20 false false ltac:(lia) ltac:(cbn; lia) ltac:(cbn; lia)) as (Hb & _).
  split; try done; try lia.
Qed.

(** The newest copies: file 3 is in block 4, file 5 in blocks 5 and 0. *)
Definition newest (i : Z) : list Z := if i =? 3 then [4] else if i =? 5 then [5; 0] else [].

Lemma newest_cases i o b : newest i !! o = Some b ->
  (i, o, b) = (3, 0%nat, 4) \/ (i, o, b) = (5, 0%nat, 5) \/ (i, o, b) = (5, 1%nat, 0).
Proof.
  unfold newest. destruct (i =? 3) eqn:E3; [|destruct (i =? 5) eqn:E5]; zbool; subst;
    destruct o as [|[|o]]; cbn; intros E; simplify_eq; auto.
Qed.

Lemma moved_pages : pages_ok 8 6 2 newest [1; 2; 3] (pg moved_ram) (block moved_ram).
Proof.
  split.
  - assert (live newest = [4; 5; 0]) as -> by (vm_compute; reflexivity). change (seqZ 0 6) with [0; 1; 2; 3; 4; 5].
    apply NoDup_Permutation; [by apply (bool_decide_unpack _)..|]. intros x. cbn. rewrite !elem_of_cons. tauto.
  - intros i o b _ [E|[E|E]]%newest_cases; injection E as -> -> ->;
      (eexists; split; [vm_compute; reflexivity|]; cbn; split_and!; lia).
  - intros b Hb. assert (b = 0 \/ b = 1 \/ b = 2 \/ b = 3 \/ b = 4 \/ b = 5) as Hc by lia.
    assert (Hsame : forall b, 0 <= b < 6 -> block moved_ram b = pg moved_ram b).
    { intros c Hc'. assert (c = 0 \/ c = 1 \/ c = 2 \/ c = 3 \/ c = 4 \/ c = 5) as Hc'' by lia.
      by repeat destruct Hc'' as [->|Hc'']; subst; vm_compute. }
    rewrite (Hsame b Hb). enough (known 8 newest (pg moved_ram) b (pg moved_ram b)) by done.
    repeat destruct Hc as [->|Hc]; subst; intros h E; vm_compute in E; injection E as <-;
      (eexists; split; [vm_compute; reflexivity|]); vm_compute; split; intuition congruence.
Qed.

(** Mounted: the newer copies make up the files. *)
Lemma battfs_mount_newest_witness :
  exists K' free', battfs_mount no_disk moved_ram (zeros 6) = (true, K') /\ quiet moved_ram (bdev K') /\
    page_array K' = [4; 5; 0] ++ free' /\ free_page_start K' = 3 /\ free' ≡ₚ [1; 2; 3] /\
    shows 2 K' (mkA {[ 3 := [11; 12]; 5 := [1; 2; 3; 4; 5; 6; 77; 78; 79; 10] ]} ∅).
Proof.
  assert (Hst : store_of 8 (pg moved_ram) newest = {[ 3 := [11; 12]; 5 := [1; 2; 3; 4; 5; 6; 77; 78; 79; 10] ]})
    by (vm_compute; reflexivity).
  assert (Hl : live newest = [4; 5; 0]) by (vm_compute; reflexivity).
  destruct (battfs_mount_newest moved_ram 8 6 2 newest [1; 2; 3] (zeros 6) no_disk
    (moved_mountable 2 ltac:(lia)) moved_pages eq_refl) as (K' & free' & E1 & E2 & E3 & E4 & E5 & E6).
  exists K', free'. rewrite Hl in E3, E4. rewrite Hst in E6.
  exact (conj E1 (conj E2 (conj E3 (conj E4 (conj E5 E6))))).
Defined.

(** The calls, unmounting, mounting again, and the two files read. *)
Lemma battfs_durable_witness :
  fst (exec_all [Open 1 5 0; Read 1 20; Open 2 3 0; Read 2 20; Open 3 4 0] moved_disk)
  = [Opened true; Bytes [1; 2; 3; 4; 5; 6; 77; 78; 79; 10]; Opened true; Bytes [11; 12]; Opened false] /\
  exists A' K3, aruns 8 6 some_calls no_files (fst (exec_all some_calls blank_disk)) A' /\
    battfs_mount no_disk moved_ram (zeros 6) = (true, K3) /\ shows 18 K3 (mkA (store A') ∅).
Proof.
  split; [vm_compute; reflexivity|]. destruct blank_shows as (Hs & Ed & Ec).
  pose proof (battfs_durable some_calls 0 blank_disk no_files Hs) as W. rewrite Ed, Ec in W.
  assert (Hblocks : forall i, 0 <= i < 6 ->
    pg moved_ram i = block (bdev (snd (battfs_umount (snd (exec_all some_calls blank_disk))))) i /\
    block moved_ram i = block (bdev (snd (battfs_umount (snd (exec_all some_calls blank_disk))))) i).
  { intros i Hi. assert (i = 0 \/ i = 1 \/ i = 2 \/ i = 3 \/ i = 4 \/ i = 5) as Hc by lia.
    repeat destruct Hc as [->|Hc]; subst; split; vm_compute; reflexivity. }
  destruct (exec_all some_calls blank_disk) as [rs K']. cbn [fst snd] in *.
  destruct (W ltac:(cbn; lia) some_calls_fair) as (A' & K1 & Ha & E & Hm). rewrite E in Hblocks.
  destruct (Hm moved_ram (zeros 6) no_disk (moved_mountable 18 ltac:(lia)) Hblocks eq_refl) as (K3 & E3 & Hs3).
  exists A', K3. exact (conj Ha (conj E3 Hs3)).
Defined.

(** ** Where it breaks *)

(** A sequence number of 32768 is read back with its upper bits set, because the
    second byte is shifted in an [int] of 16 bits: the header that was just written
    is no longer a good one, and the page is lost with the next mount. *)
Lemma seq_lost : let h := disk_to_battfs (battfs_to_disk (sealed (mkHdr 5 8 0 32768 0))) in
  seq h = 18446744073709518848 /\ valid h = false.
Proof. by vm_compute. Qed.

(** A file that fills its last page is opened with one page too many: what is
    appended goes over the first bytes of the next file. *)
Lemma reopen_overwrites :
  let '(_, K) := exec_all [Open 7 5 BATTFS_CREATE; Write 7 [1; 2; 3; 4; 5; 6; 7; 8]; Close 7;
    Open 8 6 BATTFS_CREATE; Write 8 [21; 22; 23; 24]; Close 8] blank_disk in
  fst (exec_all [Open 8 6 0; Read 8 9; Close 8; Open 7 5 0; Seek 7 0 KSM_SEEK_END; Write 7 [9]; Close 7;
    Open 8 6 0; Read 8 9; Open 7 5 0; Read 7 9] K)
  = [Opened true; Bytes [21; 22; 23; 24]; Number 0; Opened true; Number 8; Number 1; Number 0;
     Opened true; Bytes [9; 22; 23; 24]; Opened true; Bytes [1; 2; 3; 4; 5; 6; 7; 8]].
Proof. vm_compute. reflexivity. Qed.

(** A write of nothing behind the end leaves a page without a byte, which the
    checker takes for damage. *)
Lemma fsck_refuses :
  let calls := [Open 7 5 BATTFS_CREATE; Write 7 [1; 2; 3]; Seek 7 8 KSM_SEEK_SET] in
  fst (battfs_fsck (snd (exec_all calls blank_disk))) = true /\
  fst (battfs_fsck (snd (exec_all (calls ++ [Write 7 []]) blank_disk))) = false.
Proof. split; vm_compute; reflexivity. Qed.
