(* ===== verification/Heap.v ===== *)
(** * The memory allocator: [bertos/struct/heap.[ch]]

    A first-fit allocator whose free list lies in the free memory itself.
    Memory is its bytes; pointers and [size_t] have 16 bits, and a [MemChunk] is
    four bytes, [next] before [size].  [h], the address of the [Heap], is the
    address of [FreeList] as well, so that the walk can start with it for a chunk
    whose [next] is the head of the list, as in the code.  The loops over the free list
    take [fuel]; [None]: still running.

    The allocator is proved against the list of its free chunks, and that
    against the bytes: every byte of the heap is in exactly one free chunk or
    one live block. *)

From Stdlib Require Import ZArith Lia Bool List.
From stdpp Require Import prelude.
From S2P Require Import Prelude.

Open Scope Z_scope.

(** ** Memory *)

Definition Bytes : Type := Z -> Z.

(** A 16-bit word, least significant byte first. *)
Definition rd (m : Bytes) (a : Z) : Z := m a + 256 * m (a + 1).
Definition wr (m : Bytes) (a v : Z) : Bytes :=
  fun x => if x =? a then u8 v else if x =? a + 1 then u8 (v / 256) else m x.

Definition NULL : Z := 0.

(** [MemChunk] *)
Definition next (m : Bytes) (chunk : Z) : Z := rd m chunk.
Definition size (m : Bytes) (chunk : Z) : Z := rd m (chunk + 2).
Definition set_next (m : Bytes) (chunk v : Z) : Bytes := wr m chunk v.
Definition set_size (m : Bytes) (chunk v : Z) : Bytes := wr m (chunk + 2) v.

Definition sizeof_MemChunk : Z := 4.
Definition sizeof_size_t : Z := 2.

(** [FreeList] *)
Definition FreeList (m : Bytes) (h : Z) : Z := rd m h.

Definition ROUND_UP2 (x : Z) : Z := Z.land (u16 (x + (sizeof_MemChunk - 1))) (Z.lnot (sizeof_MemChunk - 1)).

(** The allocation granularity, and allocations of 0 bytes. *)
Definition granularity (size : Z) : Z :=
  let size := ROUND_UP2 size in if size =? 0 then sizeof_MemChunk else size.

(** ** The functions *)

Definition heap_init (h memory sz : Z) (m : Bytes) : Bytes :=
  let m := wr m h memory in
  let m := set_next m (FreeList m h) NULL in
  set_size m (FreeList m h) sz.

Fixpoint alloc_walk (fuel : nat) (prev chunk sz : Z) (m : Bytes) : option (Z * Bytes) :=
  if chunk =? NULL then Some (NULL, m)
  else
    match fuel with
    | O => None
    | S fuel' =>
        if size m chunk >=? sz then
          if size m chunk =? sz then Some (chunk, set_next m prev (next m chunk))
          else
            let m := set_size m chunk (u16 (size m chunk - sz)) in
            Some (u16 (chunk + size m chunk), m)
        else alloc_walk fuel' chunk (next m chunk) sz m
    end.

Definition heap_allocmem (fuel : nat) (h sz : Z) (m : Bytes) : option (Z * Bytes) :=
  let sz := granularity sz in
  alloc_walk fuel h (FreeList m h) sz m.

(** Up to the insertion point: [mem] is between the result and its [next]. *)
Fixpoint free_walk (fuel : nat) (prev mem : Z) (m : Bytes) : option Z :=
  if (next m prev <? mem) && negb (next m prev =? NULL) then
    match fuel with
    | O => None
    | S fuel' => free_walk fuel' (next m prev) mem m
    end
  else Some prev.

Definition merge_next (prev : Z) (m : Bytes) : Bytes :=
  if u16 (prev + size m prev) =? next m prev then
    let m := set_size m prev (u16 (size m prev + size m (next m prev))) in
    set_next m prev (next m (next m prev))
  else m.

(** Behind the chunk [prev], which may end where the block begins. *)
Definition free_after (prev mem sz : Z) (m : Bytes) : Bytes :=
  if u16 (prev + size m prev) =? mem then
    merge_next prev (set_size m prev (u16 (size m prev + sz)))
  else
    let curr := mem in
    let m := set_next m curr (next m prev) in
    let m := set_size m curr sz in
    let m := set_next m prev curr in
    merge_next curr m.

Definition heap_freemem (fuel : nat) (h mem sz : Z) (m : Bytes) : option Bytes :=
  let sz := granularity sz in
  if (mem <? FreeList m h) || (FreeList m h =? NULL) then
    let prev := mem in
    let m := set_next m prev (FreeList m h) in
    let m := set_size m prev sz in
    let m := wr m h prev in
    Some (merge_next prev m)
  else
    match free_walk fuel (FreeList m h) mem m with
    | None => None
    | Some prev => Some (free_after prev mem sz m)
    end.

Fixpoint freeSpace_from (fuel : nat) (chunk free_mem : Z) (m : Bytes) : option Z :=
  if chunk =? NULL then Some free_mem
  else
    match fuel with
    | O => None
    | S fuel' => freeSpace_from fuel' (next m chunk) (u16 (free_mem + size m chunk)) m
    end.

Definition heap_freeSpace (fuel : nat) (h : Z) (m : Bytes) : option Z :=
  freeSpace_from fuel (FreeList m h) 0 m.

Definition heap_malloc (fuel : nat) (h sz : Z) (m : Bytes) : option (Z * Bytes) :=
  let sz := u16 (sz + sizeof_size_t) in
  match heap_allocmem fuel h sz m with
  | None => None
  | Some (mem, m) =>
      if mem =? NULL then Some (NULL, m) else Some (u16 (mem + sizeof_size_t), wr m mem sz)
  end.

(** [memset(mem, 0, size)] *)
Definition clear (m : Bytes) (mem sz : Z) : Bytes :=
  fun x => if (mem <=? x) && (x <? mem + sz) then 0 else m x.

Definition heap_calloc (fuel : nat) (h sz : Z) (m : Bytes) : option (Z * Bytes) :=
  match heap_malloc fuel h sz m with
  | None => None
  | Some (mem, m) => if mem =? NULL then Some (NULL, m) else Some (mem, clear m mem sz)
  end.

Definition heap_free (fuel : nat) (h mem : Z) (m : Bytes) : option Bytes :=
  if mem =? NULL then Some m
  else let mem := u16 (mem - sizeof_size_t) in heap_freemem fuel h mem (rd m mem) m.

(** ** Words *)

Lemma rd_wr m a v : 0 <= v < 65536 -> rd (wr m a v) a = v.
Proof.
  intros Hv. unfold rd, wr. rewrite Z.eqb_refl.
  assert ((a + 1 =? a) = false) as -> by lia. rewrite Z.eqb_refl. unfold u8.
  rewrite (Z.mod_small (v / 256)) by (split; [apply Z.div_pos; lia|apply Z.div_lt_upper_bound; lia]).
  pose proof (Z_div_mod_eq_full v 256). lia.
Qed.

Lemma rd_agree m m' a : m' a = m a -> m' (a + 1) = m (a + 1) -> rd m' a = rd m a.
Proof. unfold rd. by intros -> ->. Qed.

Lemma wr_other m a v x : x <> a -> x <> a + 1 -> wr m a v x = m x.
Proof. intros. unfold wr. assert ((x =? a) = false /\ (x =? a + 1) = false) as [-> ->] by lia. done. Qed.

Lemma rd_wr_other m a v b : b + 2 <= a \/ a + 2 <= b -> rd (wr m a v) b = rd m b.
Proof. intros H. apply rd_agree; apply wr_other; lia. Qed.

Lemma ROUND_UP2_small x : 0 <= x <= 65532 -> ROUND_UP2 x = 4 * ((x + 3) / 4).
Proof.
  intros Hx. unfold ROUND_UP2, sizeof_MemChunk. rewrite u16_small by lia.
  change (4 - 1) with (Z.ones 2). rewrite <- Z.ldiff_land, Z.ldiff_ones_r by lia.
  rewrite Z.shiftl_mul_pow2, Z.shiftr_div_pow2 by lia. change (Z.ones 2) with 3. change (2 ^ 2) with 4. lia.
Qed.

Lemma granularity_small x : 0 <= x <= 65532 ->
  4 <= granularity x <= 65532 /\ x <= granularity x /\ granularity x mod 4 = 0.
Proof.
  intros Hx. unfold granularity. rewrite ROUND_UP2_small by done.
  pose proof (Z_div_mod_eq_full (x + 3) 4). pose proof (Z.mod_pos_bound (x + 3) 4 ltac:(lia)).
  unfold sizeof_MemChunk. destruct (4 * ((x + 3) / 4) =? 0) eqn:E; zbool.
  - assert ((x + 3) / 4 = 0) as Ez by lia. split_and!; try lia. done.
  - assert ((x + 3) / 4 <= 16383) by lia. rewrite (Z.mul_comm 4), Z_mod_mult. split_and!; lia.
Qed.

(** ** The free list *)

(** The chunks from pointer [p] on: their addresses and sizes. *)
Fixpoint chunks (m : Bytes) (p : Z) (cs : list (Z * Z)) : Prop :=
  match cs with
  | [] => p = NULL
  | (a, s) :: cs => p = a /\ size m a = s /\ chunks m (next m a) cs
  end.

(** Between [lo] and [hi], in the order of their addresses, none touching the
    next, and each large enough for its header. *)
Fixpoint apart (lo hi : Z) (cs : list (Z * Z)) : Prop :=
  match cs with
  | [] => True
  | (a, s) :: cs => lo <= a /\ 4 <= s /\ s mod 4 = 0 /\ a + s <= hi /\ apart (a + s + 1) hi cs
  end.

(** First fit, from the end of the chunk. *)
Fixpoint fit (n : Z) (cs : list (Z * Z)) : option (Z * list (Z * Z)) :=
  match cs with
  | [] => None
  | (a, s) :: cs =>
      if s >=? n then
        if s =? n then Some (a, cs) else Some (a + (s - n), (a, s - n) :: cs)
      else
        match fit n cs with
        | None => None
        | Some (x, cs) => Some (x, (a, s) :: cs)
        end
  end.

(** Giving back a block, which may join the chunks on both sides. *)
Definition join (a s : Z) (cs : list (Z * Z)) : list (Z * Z) :=
  match cs with
  | [] => [(a, s)]
  | (b, t) :: cs' => if a + s =? b then (a, s + t) :: cs' else (a, s) :: cs
  end.

Fixpoint give (mem n : Z) (cs : list (Z * Z)) : list (Z * Z) :=
  match cs with
  | [] => [(mem, n)]
  | (a, s) :: cs' =>
      if mem <? a then join mem n cs
      else if a + s =? mem then join a (s + n) cs'
      else (a, s) :: give mem n cs'
  end.

(** A byte in the header of a free chunk. *)
Definition header (cs : list (Z * Z)) (y : Z) : Prop :=
  Exists (fun c => c.1 <= y < c.1 + 4) cs.

Lemma apart_weaken lo lo' hi cs : lo' <= lo -> apart lo hi cs -> apart lo' hi cs.
Proof.
  destruct cs as [|[a s] cs]; [done|]. cbn. intros Hl (H1 & H2 & H3 & H4 & H5).
  split_and!; [lia|done..].
Qed.

Lemma apart_header lo hi cs y : apart lo hi cs -> header cs y -> lo <= y < hi.
Proof.
  revert lo. induction cs as [|[a s] cs IH]; intros lo; cbn.
  - by intros _ ?%Exists_nil.
  - intros (H1 & H2 & H3 & H4 & H5) [H|H]%Exists_cons; [cbn in H; lia|]. specialize (IH _ H5 H). lia.
Qed.

(** The list only depends on the headers of its chunks. *)
Lemma chunks_agree m m' p cs :
  (forall y, header cs y -> m' y = m y) -> chunks m p cs -> chunks m' p cs.
Proof.
  revert p. induction cs as [|[a s] cs IH]; intros p E; [done|]. cbn. intros (-> & <- & H).
  assert (forall y, a <= y < a + 4 -> m' y = m y) as Ea.
  { intros y Hy. apply E. apply Exists_cons. by left. }
  split_and!; [done|apply rd_agree; apply Ea; lia|].
  assert (next m' a = next m a) as -> by (apply rd_agree; apply Ea; lia).
  apply IH; [|done]. intros y Hy. apply E. apply Exists_cons. by right.
Qed.

Lemma chunks_apart_agree m m' p lo hi cs :
  apart lo hi cs -> (forall y, lo <= y < hi -> m' y = m y) -> chunks m p cs -> chunks m' p cs.
Proof. intros Ha E. apply chunks_agree. intros y Hy. apply E. by eapply apart_header. Qed.

(** Reads behind writes. *)
Ltac words :=
  unfold size, next, set_size, set_next in *;
  repeat first [rewrite rd_wr by lia | rewrite rd_wr_other by lia].

Section Heap.
(** The place of the heap, and its end. *)
Variable hi : Z.
Hypothesis Hhi : hi <= 65535.

Lemma chunks_head m p lo cs :
  0 < lo -> apart lo hi cs -> chunks m p cs ->
  0 <= p < 65536 /\ (p =? NULL) = match cs with [] => true | _ => false end.
Proof.
  intros Hlo. destruct cs as [|[a s] cs]; cbn.
  - by intros _ ->.
  - intros (H1 & H2 & H3 & H4 & _) (-> & _). unfold NULL. lia.
Qed.

Lemma alloc_walk_spec n cs : forall fuel prev p lo m,
  0 < lo -> 4 <= n -> n mod 4 = 0 -> (length cs <= fuel)%nat ->
  apart lo hi cs -> chunks m p cs -> rd m prev = p -> prev + 2 <= lo \/ hi <= prev ->
  exists m', alloc_walk fuel prev p n m
      = Some (match fit n cs with Some (x, _) => x | None => NULL end, m') /\
    chunks m' (rd m' prev) (match fit n cs with Some (_, cs') => cs' | None => cs end) /\
    forall y, ~ header cs y -> ~ prev <= y < prev + 2 -> m' y = m y.
Proof.
  induction cs as [|[a s] cs IH]; intros fuel prev p lo m Hlo Hn Hn4 Hf Ha Hc Hp Hprev;
    destruct (chunks_head _ _ _ _ Hlo Ha Hc) as [Hp16 Hnull].
  - exists m. cbn in Hc. destruct fuel; cbn [alloc_walk]; rewrite Hnull; (split_and!; [done|by rewrite Hp, Hc|done]).
  - destruct fuel as [|fuel]; [cbn in Hf; lia|]. cbn [alloc_walk]. rewrite Hnull.
    cbn in Ha, Hc. destruct Ha as (H1 & H2 & H3 & H4 & Ha), Hc as (-> & Hs & Hc).
    rewrite Hs. cbn [fit].
    assert (Hlo' : 0 < a + s + 1) by lia.
    destruct (chunks_head _ _ _ _ Hlo' Ha Hc) as [Hnx _].
    destruct (s >=? n) eqn:E1; zbool; [destruct (s =? n) eqn:E2; zbool|].
    + exists (set_next m prev (next m a)). split_and!; [done| |].
      * unfold set_next. rewrite rd_wr by done.
        apply (chunks_apart_agree m _ _ _ hi _ Ha); [|done].
        intros y Hy. apply wr_other; lia.
      * intros y _ Hy. apply wr_other; lia.
    + rewrite !(u16_small (s - n)) by lia.
      assert (Hsz : size (set_size m a (s - n)) a = s - n) by (apply rd_wr; lia).
      exists (set_size m a (s - n)). rewrite Hsz, u16_small by lia. split_and!; [done| |].
      * assert (rd (set_size m a (s - n)) prev = a) as -> by (unfold set_size; rewrite rd_wr_other; lia).
        cbn [chunks]. split_and!; [done|done|].
        unfold next, set_size. rewrite rd_wr_other by lia.
        apply (chunks_apart_agree m _ _ _ hi _ Ha); [|done].
        intros y Hy. apply wr_other; lia.
      * intros y Hy _. unfold set_size.
        apply wr_other; intros ->; apply Hy; apply Exists_cons; left; cbn; lia.
    + destruct (IH fuel a (next m a) (a + s + 1) m Hlo' Hn Hn4 ltac:(cbn in Hf; lia) Ha Hc eq_refl ltac:(lia))
        as (m' & E & Hc' & Hfr). exists m'. rewrite E.
      assert (Hkeep : forall y, y < a + s -> ~ a <= y < a + 2 -> m' y = m y).
      { intros y Hy Hya. apply Hfr; [|done]. intros Hh. pose proof (apart_header _ _ _ _ Ha Hh). lia. }
      assert (Hprev' : rd m' prev = a).
      { rewrite <- Hp. apply rd_agree; apply Hfr; try lia; intros Hh;
          pose proof (apart_header _ _ _ _ Ha Hh); lia. }
      assert (Hs' : size m' a = s).
      { rewrite <- Hs. apply rd_agree; apply Hkeep; lia. }
      split_and!.
      * by destruct (fit n cs) as [[x cs']|].
      * rewrite Hprev'. by destruct (fit n cs) as [[x cs']|].
      * intros y Hy Hyp. apply Hfr.
        -- intros Hh. apply Hy. apply Exists_cons. by right.
        -- intros Hya. apply Hy. apply Exists_cons. left. cbn. lia.
Qed.

(** *** Giving memory back *)

Lemma apart_from lo lo' cs :
  apart lo hi cs -> match cs with [] => True | (a, _) :: _ => lo' <= a end -> apart lo' hi cs.
Proof. destruct cs as [|[a s] cs]; [done|]. cbn. intros (H1 & H2 & H3 & H4 & H5) H. split_and!; done. Qed.

Lemma merge_next_spec m mem n cs :
  0 < mem -> 4 <= n -> mem + n <= hi -> size m mem = n ->
  chunks m (next m mem) cs -> apart (mem + n) hi cs ->
  chunks (merge_next mem m) mem (join mem n cs) /\
  forall y, ~ mem <= y < mem + 4 -> merge_next mem m y = m y.
Proof.
  intros Hm Hn Hhi' Hs Hc Ha. unfold merge_next. rewrite Hs, u16_small by lia.
  destruct cs as [|[b t] cs]; cbn in Hc, Ha; cbn [join].
  - rewrite Hc. unfold NULL. assert ((mem + n =? 0) = false) as -> by lia. done.
  - destruct Hc as (Hb & Ht & Hc), Ha as (H1 & H2 & H3 & H4 & Ha). rewrite Hb.
    destruct (mem + n =? b) eqn:E; zbool.
    + rewrite Ht, u16_small by lia.
      assert (Hnn : next (set_size m mem (n + t)) (next (set_size m mem (n + t)) mem) = next m b).
      { assert (next (set_size m mem (n + t)) mem = b) as -> by (words; done). words. done. }
      rewrite Hnn. destruct (chunks_head m (next m b) (b + t + 1) cs ltac:(lia) Ha Hc) as [Hnb _].
      split.
      * cbn [chunks]. split_and!; [done|by words|].
        assert (next (set_next (set_size m mem (n + t)) mem (next m b)) mem = next m b) as -> by by words.
        apply (chunks_apart_agree m _ _ _ hi _ Ha); [|done].
        intros y Hy. unfold set_next, set_size. rewrite !wr_other by lia. done.
      * intros y Hy. unfold set_next, set_size. by rewrite !wr_other by lia.
    + split; [|done]. cbn [chunks]. rewrite Hb. split_and!; done.
Qed.

Definition clear_of (mem n : Z) (cs : list (Z * Z)) : Prop :=
  Forall (fun c => mem + n <= c.1 \/ c.1 + c.2 <= mem) cs.

(** Behind a chunk [(a, s)] that is the last below the block. *)
Lemma free_after_spec m a s mem n lo cs :
  0 < lo -> 4 <= n -> a + s <= mem -> mem + n <= hi ->
  apart lo hi ((a, s) :: cs) -> chunks m a ((a, s) :: cs) -> apart (mem + n) hi cs ->
  chunks (free_after a mem n m) a (give mem n ((a, s) :: cs)) /\
  forall y, ~ a <= y < a + 4 -> ~ mem <= y < mem + 4 -> free_after a mem n m y = m y.
Proof.
  intros Hlo Hn Has Hmn Ha Hc Hcs. cbn in Ha, Hc.
  destruct Ha as (H1 & H2 & H3 & H4 & Ha), Hc as (_ & Hs & Hc).
  destruct (chunks_head m (next m a) (a + s + 1) cs ltac:(lia) Ha Hc) as [Hna _].
  unfold free_after. rewrite Hs, u16_small by lia. cbn [give].
  assert ((mem <? a) = false) as -> by lia.
  destruct (a + s =? mem) eqn:E; zbool.
  - rewrite u16_small by lia.
    destruct (merge_next_spec (set_size m a (s + n)) a (s + n) cs) as [Hch Hfr]; [lia|lia|lia|by words| | |].
    + assert (next (set_size m a (s + n)) a = next m a) as -> by by words.
      apply (chunks_apart_agree m _ _ _ hi _ Hcs); [|done].
      intros y Hy. apply wr_other; lia.
    + by replace (a + (s + n)) with (mem + n) by lia.
    + split; [done|]. intros y Hy _. rewrite Hfr by lia. apply wr_other; lia.
  - set (m1 := set_next (set_size (set_next m mem (next m a)) mem n) a mem).
    assert (Hfr1 : forall y, ~ a <= y < a + 4 -> ~ mem <= y < mem + 4 -> m1 y = m y).
    { intros y Hya Hym. unfold m1, set_next, set_size. by rewrite !wr_other by lia. }
    destruct (merge_next_spec m1 mem n cs) as [Hch Hfr]; [lia|lia|lia|unfold m1; by words| |done|].
    { assert (next m1 mem = next m a) as -> by (unfold m1; by words).
      apply (chunks_apart_agree m _ _ _ hi _ Hcs); [|done]. intros y Hy. apply Hfr1; lia. }
    assert (give mem n cs = join mem n cs) as ->.
    { destruct cs as [|[b t] cs]; [done|]. cbn in Hcs. cbn [give].
      assert ((mem <? b) = true) as -> by lia. done. }
    split; [|intros y Hya Hym; by rewrite Hfr, Hfr1].
    cbn [chunks].
    assert (size (merge_next mem m1) a = s) as ->.
    { rewrite <- Hs. unfold size. rewrite (rd_agree m1) by (apply Hfr; lia).
      unfold m1. by words. }
    assert (next (merge_next mem m1) a = mem) as ->.
    { unfold next. rewrite (rd_agree m1) by (apply Hfr; lia). unfold m1. by words. }
    split_and!; done.
Qed.

Lemma free_walk_spec mem n cs : forall fuel a s lo m,
  (length cs <= fuel)%nat -> 0 < lo -> 4 <= n -> mem + n <= hi ->
  apart lo hi ((a, s) :: cs) -> chunks m a ((a, s) :: cs) ->
  clear_of mem n ((a, s) :: cs) -> a < mem ->
  exists prev, free_walk fuel a mem m = Some prev /\
    chunks (free_after prev mem n m) a (give mem n ((a, s) :: cs)) /\
    forall y, ~ header ((a, s) :: cs) y -> ~ mem <= y < mem + 4 -> free_after prev mem n m y = m y.
Proof.
  induction cs as [|[b t] cs IH]; intros fuel a s lo m Hf Hlo Hn Hmn Ha Hc Hcl Ham;
    pose proof Ha as (H1 & H2 & H3 & H4 & Ha'); pose proof Hc as (_ & Hs & Hc');
    apply Forall_cons in Hcl as [Hcl Hcls]; cbn in Hcl.
  - exists a. cbn in Hc'. split.
    + destruct fuel; cbn [free_walk]; rewrite Hc', Z.eqb_refl, andb_false_r; done.
    + destruct (free_after_spec m a s mem n lo []) as [Hch Hfr]; try done; [lia|].
      split; [done|]. intros y Hy Hym. apply Hfr; [|done]. intros Hya. apply Hy.
      apply Exists_cons. by left.
  - pose proof Hc' as (Hb & Ht & Hc''). pose proof Ha' as (G1 & G2 & G3 & G4 & Ha'').
    pose proof (Forall_inv Hcls) as Hclb. cbn in Hclb.
    destruct (decide (b < mem)) as [Hbm|Hbm].
    + destruct fuel as [|fuel]; [cbn in Hf; lia|]. cbn [free_walk]. rewrite Hb. unfold NULL.
      assert ((b <? mem) && negb (b =? 0) = true) as -> by lia.
      rewrite Hb in Hc'.
      destruct (IH fuel b t (a + s + 1) m ltac:(cbn in Hf; lia) ltac:(lia) Hn Hmn Ha' Hc' Hcls Hbm)
        as (prev & E & Hch & Hfr). exists prev. split; [done|].
      assert (Hkeep : forall y, a <= y < a + 4 -> free_after prev mem n m y = m y).
      { intros y Hy. apply Hfr; [|lia]. intros Hh. pose proof (apart_header _ _ _ _ Ha' Hh). lia. }
      split.
      * change (give mem n ((a, s) :: (b, t) :: cs)) with
          (if mem <? a then join mem n ((a, s) :: (b, t) :: cs)
           else if a + s =? mem then join a (s + n) ((b, t) :: cs)
           else (a, s) :: give mem n ((b, t) :: cs)).
        assert ((mem <? a) = false) as -> by lia. assert ((a + s =? mem) = false) as -> by lia.
        cbn [chunks].
        assert (size (free_after prev mem n m) a = s) as ->.
        { rewrite <- Hs. apply rd_agree; apply Hkeep; lia. }
        assert (next (free_after prev mem n m) a = b) as ->.
        { rewrite <- Hb. apply rd_agree; apply Hkeep; lia. }
        split_and!; done.
      * intros y Hy Hym. apply Hfr; [|done]. intros Hh. apply Hy. apply Exists_cons. by right.
    + exists a. split.
      * destruct fuel; cbn [free_walk]; rewrite Hb;
          assert ((b <? mem) = false) as -> by lia; done.
      * destruct (free_after_spec m a s mem n lo ((b, t) :: cs)) as [Hch Hfr]; try done; [lia| |].
        { apply (apart_from (a + s + 1)); [done|]. cbn. lia. }
        split; [done|]. intros y Hy Hym. apply Hfr; [|done]. intros Hya. apply Hy.
        apply Exists_cons. by left.
Qed.

Lemma heap_freemem_spec fuel h mem sz lo cs m :
  0 < lo -> h + 2 <= lo \/ hi <= h -> (length cs <= fuel)%nat ->
  4 <= granularity sz -> lo <= mem -> mem + granularity sz <= hi ->
  apart lo hi cs -> chunks m (FreeList m h) cs -> clear_of mem (granularity sz) cs ->
  exists m', heap_freemem fuel h mem sz m = Some m' /\
    chunks m' (FreeList m' h) (give mem (granularity sz) cs) /\
    forall y, ~ header cs y -> ~ mem <= y < mem + 4 -> ~ h <= y < h + 2 -> m' y = m y.
Proof.
  intros Hlo Hh Hf Hn Hmem Hmn Ha Hc Hcl. set (n := granularity sz) in *.
  unfold heap_freemem. fold n.
  destruct (chunks_head _ _ _ _ Hlo Ha Hc) as [Hfl Hnull].
  destruct ((mem <? FreeList m h) || (FreeList m h =? NULL)) eqn:E.
  - set (m1 := wr (set_size (set_next m mem (FreeList m h)) mem n) h mem).
    assert (Hfr1 : forall y, ~ mem <= y < mem + 4 -> ~ h <= y < h + 2 -> m1 y = m y).
    { intros y Hy Hyh. unfold m1, set_size, set_next. by rewrite !wr_other by lia. }
    assert (Hcs : match cs with [] => True | (a, _) :: _ => mem < a end).
    { destruct cs as [|[a s] cs]; [done|]. destruct Hc as (Hc & _). rewrite Hnull, orb_false_r in E.
      zbool. lia. }
    assert (Ha' : apart (mem + n) hi cs).
    { apply (apart_from lo); [done|]. destruct cs as [|[a s] cs]; [done|].
      apply Forall_inv in Hcl. cbn in Hcl, Ha. lia. }
    destruct (merge_next_spec m1 mem n cs) as [Hch Hfr]; [lia|done|done|unfold m1; by words| |done|].
    { assert (next m1 mem = FreeList m h) as -> by (unfold m1; by words).
      apply (chunks_apart_agree m _ _ _ hi _ Ha'); [|done]. intros y Hy. apply Hfr1; lia. }
    eexists. split; [done|]. split.
    + assert (FreeList (merge_next mem m1) h = mem) as ->.
      { unfold FreeList. rewrite (rd_agree m1) by (apply Hfr; lia). unfold m1. by words. }
      replace (give mem n cs) with (join mem n cs); [done|].
      destruct cs as [|[a s] cs]; [done|]. cbn [give]. by assert ((mem <? a) = true) as -> by lia.
    + intros y _ Hy Hyh. by rewrite Hfr, Hfr1.
  - rewrite orb_false_iff in E. destruct E as [E1 E2].
    destruct cs as [|[a s] cs]; [by rewrite Hnull in E2|]. zbool.
    pose proof Hc as (Hfa & _). rewrite Hfa in *.
    assert (Ham : a < mem) by (apply Forall_inv in Hcl; cbn in Hcl, Ha; lia).
    destruct (free_walk_spec mem n cs fuel a s lo m ltac:(cbn in Hf; lia) Hlo Hn Hmn Ha Hc Hcl Ham)
      as (prev & -> & Hch & Hfr). eexists. split; [done|]. split.
    + assert (FreeList (free_after prev mem n m) h = a) as ->; [|done].
      rewrite <- Hfa. apply rd_agree; apply Hfr; try lia; intros Hy;
        pose proof (apart_header _ _ _ _ Ha Hy); lia.
    + intros y Hy Hym _. by apply Hfr.
Qed.

(** *** The space left *)

Definition total (cs : list (Z * Z)) : Z := foldr (fun c t => c.2 + t) 0 cs.

Lemma total_cons a s cs : total ((a, s) :: cs) = s + total cs.
Proof. done. Qed.

Lemma total_app cs ds : total (cs ++ ds) = total cs + total ds.
Proof. induction cs as [|[a s] cs IH]; [done|]. cbn [app]. rewrite !total_cons, IH. lia. Qed.

Lemma apart_total lo cs : apart lo hi cs -> lo <= hi -> 0 <= total cs <= hi - lo.
Proof.
  revert lo. induction cs as [|[a s] cs IH]; intros lo; cbn; [lia|].
  intros (H1 & H2 & H3 & H4 & H5) Hl. destruct cs as [|[b t] cs]; [cbn; lia|].
  pose proof H5 as (G & Gt & _ & G' & _). specialize (IH (a + s + 1) H5 ltac:(lia)). cbn in *. lia.
Qed.

Lemma apart_length lo cs : apart lo hi cs -> lo <= hi -> 4 * Z.of_nat (length cs) <= hi - lo.
Proof.
  revert lo. induction cs as [|[a s] cs IH]; intros lo; cbn [length]; [lia|].
  intros (H1 & H2 & H3 & H4 & H5) Hl. destruct cs as [|[b t] cs]; [cbn; lia|].
  pose proof H5 as (G & Gt & _ & G' & _).
  specialize (IH (a + s + 1) H5 ltac:(lia)). cbn [length] in *. lia.
Qed.

Lemma freeSpace_spec cs : forall fuel p free lo m,
  0 < lo -> (length cs <= fuel)%nat -> apart lo hi cs -> chunks m p cs ->
  0 <= free -> free + total cs < 65536 ->
  freeSpace_from fuel p free m = Some (free + total cs).
Proof.
  induction cs as [|[a s] cs IH]; intros fuel p free lo m Hlo Hf Ha Hc H0 Ht;
    destruct (chunks_head _ _ _ _ Hlo Ha Hc) as [_ Hnull].
  - destruct fuel; cbn [freeSpace_from]; rewrite Hnull; cbn; f_equal; lia.
  - destruct fuel as [|fuel]; [cbn in Hf; lia|]. cbn [freeSpace_from]. rewrite Hnull.
    destruct Hc as (-> & -> & Hc), Ha as (H1 & H2 & H3 & H4 & Ha).
    change (total ((a, s) :: cs)) with (s + total cs) in Ht |- *.
    assert (0 <= total cs).
    { destruct cs as [|[b t] cs]; [done|]. pose proof Ha as (? & ? & _ & ? & _).
      pose proof (apart_total (a + s + 1) _ Ha ltac:(lia)). lia. }
    rewrite u16_small by lia.
    rewrite (IH fuel (next m a) (free + s) (a + s + 1) m) by (try done; cbn in Hf; lia).
    f_equal. lia.
Qed.
End Heap.

(** ** Which bytes are free *)

(** [x] is a byte of the block. *)
Definition inb (x : Z) (c : Z * Z) : bool := (c.1 <=? x) && (x <? c.1 + c.2).

(** In how many of the blocks [x] is. *)
Definition cover (x : Z) (cs : list (Z * Z)) : Z := foldr (fun c t => Z.b2z (inb x c) + t) 0 cs.

Lemma cover_cons x c cs : cover x (c :: cs) = Z.b2z (inb x c) + cover x cs.
Proof. done. Qed.

Lemma cover_app x cs ds : cover x (cs ++ ds) = cover x cs + cover x ds.
Proof. induction cs as [|c cs IH]; [done|]. cbn [app]. rewrite !cover_cons, IH. lia. Qed.

Lemma cover_nonneg x cs : 0 <= cover x cs.
Proof. induction cs as [|c cs IH]; [done|]. rewrite cover_cons. destruct (inb x c); cbn; lia. Qed.

Lemma cover_elem x c cs : c ∈ cs -> inb x c = true -> 1 <= cover x cs.
Proof.
  intros (A & B & ->)%list_elem_of_split Hx. rewrite cover_app, cover_cons, Hx.
  pose proof (cover_nonneg x A). pose proof (cover_nonneg x B). cbn. lia.
Qed.

Lemma cover_in x cs : 1 <= cover x cs -> exists c, c ∈ cs /\ inb x c = true.
Proof.
  induction cs as [|c cs IH]; [cbn; lia|]. rewrite cover_cons. intros H.
  destruct (inb x c) eqn:E; [exists c; set_solver|].
  destruct IH as (d & Hd & Ed); [cbn in H; lia|]. exists d. set_solver.
Qed.

(** Splits the memberships of a byte. *)
Ltac inbs := unfold inb in *; cbn [fst snd] in *; lia.

Lemma apart_elem lo hi cs a s : apart lo hi cs -> (a, s) ∈ cs -> lo <= a /\ 4 <= s /\ a + s <= hi.
Proof.
  revert lo. induction cs as [|[b t] cs IH]; intros lo; [by intros _ ?%not_elem_of_nil|].
  intros (H1 & H2 & H3 & H4 & Ha) [[= -> ->]|Hin]%elem_of_cons; [lia|].
  specialize (IH _ Ha Hin). lia.
Qed.

Lemma fit_spec n hi cs : forall lo,
  0 < lo -> 4 <= n -> n mod 4 = 0 -> apart lo hi cs ->
  match fit n cs with
  | Some (x, cs') => lo <= x /\ x + n <= hi /\ apart lo hi cs' /\ total cs = total cs' + n /\
      forall y, cover y cs = cover y cs' + Z.b2z (inb y (x, n))
  | None => Forall (fun c => c.2 < n) cs
  end.
Proof.
  induction cs as [|[a s] cs IH]; intros lo Hlo Hn Hn4; [by cbn|].
  intros (H1 & H2 & H3 & H4 & Ha). cbn [fit].
  destruct (s >=? n) eqn:E1; zbool; [destruct (s =? n) eqn:E2; zbool|].
  - subst s. split_and!; [lia|lia|by apply (apart_weaken (a + n + 1)); [lia|]|rewrite total_cons; lia|].
    intros y. rewrite cover_cons. lia.
  - assert (4 <= s - n).
    { pose proof (Z_div_mod_eq_full s 4). pose proof (Z_div_mod_eq_full n 4). lia. }
    split_and!; [lia|lia| |rewrite !total_cons; lia|].
    + cbn [apart]. split_and!; [lia|lia| |lia|by apply (apart_weaken (a + s + 1)); [lia|]].
      rewrite Zminus_mod, H3, Hn4. done.
    + intros y. rewrite !cover_cons. destruct (inb y (a, s)) eqn:F1, (inb y (a, s - n)) eqn:F2,
        (inb y (a + (s - n), n)) eqn:F3; cbn [Z.b2z]; inbs.
  - specialize (IH (a + s + 1) ltac:(lia) Hn Hn4 Ha). destruct (fit n cs) as [[x cs']|].
    + destruct IH as (G1 & G2 & G3 & G5 & G4). split_and!; [lia|lia|by split_and!|rewrite !total_cons; lia|].
      intros y. rewrite !cover_cons, G4. lia.
    + constructor; [cbn; lia|exact IH].
Qed.

Lemma join_spec a s hi cs lo :
  lo <= a -> 4 <= s -> s mod 4 = 0 -> a + s <= hi -> apart (a + s) hi cs ->
  apart lo hi (join a s cs) /\ total (join a s cs) = total cs + s /\
  forall y, cover y (join a s cs) = cover y cs + Z.b2z (inb y (a, s)).
Proof.
  intros H1 H2 H3 H4 Ha. destruct cs as [|[b t] cs]; [split_and!; cbn; [split_and!; done|lia|lia]|].
  destruct Ha as (G1 & G2 & G3 & G4 & Ha). cbn [join]. destruct (a + s =? b) eqn:E; zbool.
  - subst b. split_and!; [|rewrite !total_cons; lia|].
    + cbn [apart]. rewrite Z.add_assoc. split_and!; [lia|lia| |lia|done].
      by rewrite Zplus_mod, H3, G3.
    + intros y. rewrite !cover_cons. destruct (inb y (a, s + t)) eqn:F1, (inb y (a + s, t)) eqn:F2,
        (inb y (a, s)) eqn:F3; cbn [Z.b2z]; inbs.
  - split_and!; [cbn [apart]; split_and!; try done; lia|cbn; lia|]. intros y. rewrite (cover_cons y (a, s)). lia.
Qed.

Lemma give_spec mem n hi cs : forall lo,
  lo <= mem -> 4 <= n -> n mod 4 = 0 -> mem + n <= hi -> apart lo hi cs -> clear_of mem n cs ->
  apart lo hi (give mem n cs) /\ total (give mem n cs) = total cs + n /\
  forall y, cover y (give mem n cs) = cover y cs + Z.b2z (inb y (mem, n)).
Proof.
  induction cs as [|[a s] cs IH]; intros lo Hmem Hn Hn4 Hmn Ha Hcl; cbn [give].
  - apply (join_spec mem n hi []); done.
  - pose proof Ha as (H1 & H2 & H3 & H4 & Ha'). apply Forall_cons in Hcl as [Hc Hcl]. cbn in Hc.
    destruct (mem <? a) eqn:E1; zbool; [|destruct (a + s =? mem) eqn:E2; zbool].
    + apply join_spec; try done. apply (apart_from _ lo); [done|lia].
    + assert (Hs : (s + n) mod 4 = 0) by by rewrite Zplus_mod, H3, Hn4.
      destruct (join_spec a (s + n) hi cs lo) as (G1 & Gt & G2); [lia|lia|done|lia| |].
      { apply (apart_from _ (a + s + 1)); [done|]. destruct cs as [|[b t] cs]; [done|].
        apply Forall_inv in Hcl. cbn in Hcl, Ha'. lia. }
      split_and!; [done|rewrite !total_cons in *; lia|]. intros y. rewrite G2, cover_cons.
      destruct (inb y (a, s + n)) eqn:F1, (inb y (a, s)) eqn:F2, (inb y (mem, n)) eqn:F3;
        cbn [Z.b2z]; inbs.
    + destruct (IH (a + s + 1)) as (G1 & Gt & G2); [lia|done|done|done|done|done|].
      split_and!; [by split_and!|rewrite !total_cons; lia|]. intros y. rewrite !cover_cons, G2. lia.
Qed.

(** ** The heap and its clients *)

(** A live block: its address and the size that was asked for. *)
Definition blocks (live : list (Z * Z)) : list (Z * Z) :=
  map (fun c => (c.1, granularity c.2)) live.

Section Client.
Variables h lo hi : Z.
Variable fuel : nat.

(** What [heap_init] needs: memory of a multiple of four bytes below the end of
    the address space, apart from the [Heap]. *)
Record config : Prop := {
  c_lo : 0 < lo;
  c_size : lo + 4 <= hi;
  c_hi : hi <= 65535;
  c_mod : (hi - lo) mod 4 = 0;
  c_h : h + 2 <= lo \/ hi <= h;
  c_fuel : hi - lo <= 4 * Z.of_nat fuel
}.

(** Every byte of the heap is in one free chunk or one live block. *)
Definition heap_ok (m : Bytes) (live : list (Z * Z)) : Prop :=
  Forall (fun c => 0 <= c.2 <= 65532) live /\
  exists cs, chunks m (FreeList m h) cs /\ apart lo hi cs /\
    total cs + total (blocks live) = hi - lo /\
    forall y, cover y cs + cover y (blocks live) = Z.b2z ((lo <=? y) && (y <? hi)).

Hypothesis C : config.

Lemma header_cover cs y : apart lo hi cs -> header cs y -> 1 <= cover y cs.
Proof.
  generalize lo. induction cs as [|[a s] cs IH]; intros l; [by intros _ ?%Exists_nil|].
  intros (H1 & H2 & H3 & H4 & Ha) [Hy|Hy]%Exists_cons; rewrite cover_cons; pose proof (cover_nonneg y cs).
  - cbn in Hy. assert (inb y (a, s) = true) as -> by inbs. cbn. lia.
  - specialize (IH _ Ha Hy). destruct (inb y (a, s)); cbn; lia.
Qed.

(** The allocator writes no byte of a live block. *)
Lemma live_elsewhere live cs y :
  apart lo hi cs ->
  (forall y, cover y cs + cover y (blocks live) = Z.b2z ((lo <=? y) && (y <? hi))) ->
  1 <= cover y (blocks live) -> ~ header cs y /\ ~ h <= y < h + 2 /\ lo <= y < hi.
Proof.
  intros Ha Hcov Hy. destruct C as [? ? ? ? ? ?]. specialize (Hcov y).
  pose proof (cover_nonneg y cs).
  assert (lo <= y < hi) by (destruct ((lo <=? y) && (y <? hi)) eqn:E; cbn in Hcov; lia).
  split_and!; try lia.
  - intros Hh. pose proof (header_cover cs y Ha Hh).
    destruct ((lo <=? y) && (y <? hi)); cbn in Hcov; lia.
Qed.

Lemma cs_fuel cs : apart lo hi cs -> (length cs <= fuel)%nat.
Proof.
  intros Ha. destruct C. pose proof (apart_length hi lo cs Ha ltac:(lia)). lia.
Qed.

Lemma init_ok m : heap_ok (heap_init h lo (hi - lo) m) [].
Proof.
  destruct C as [? ? ? ? ? ?]. split; [constructor|]. exists [(lo, hi - lo)].
  unfold heap_init.
  assert (E : FreeList (wr m h lo) h = lo) by (unfold FreeList; words; done). rewrite E.
  assert (E2 : FreeList (set_next (wr m h lo) lo NULL) h = lo).
  { unfold FreeList, set_next. by rewrite rd_wr_other by lia. }
  rewrite E2. set (m2 := set_size _ _ _).
  assert (E3 : FreeList m2 h = lo).
  { unfold m2, FreeList, set_size. by rewrite rd_wr_other by lia. }
  rewrite E3. split_and!.
  - cbn. split_and!; [done|unfold m2; by words|unfold m2; unfold NULL; by words].
  - cbn. split_and!; [lia|lia|done|lia|done].
  - cbn. lia.
  - intros y. rewrite cover_cons. cbn [cover blocks map foldr].
    assert (inb y (lo, hi - lo) = (lo <=? y) && (y <? hi)) as ->; [|lia].
    unfold inb. cbn. f_equal. f_equal. lia.
Qed.

(** There is room for [n] bytes where no live block is. *)
Definition room (live : list (Z * Z)) (n : Z) : Prop :=
  exists w, lo <= w /\ w + n <= hi /\ forall y, w <= y < w + n -> cover y (blocks live) = 0.

Lemma chunk_end l cs a s : apart l hi cs -> (a, s) ∈ cs -> cover (a + s) cs = 0.
Proof.
  revert l. induction cs as [|[b t] cs IH]; intros l; [by intros _ ?%not_elem_of_nil|].
  intros (H1 & H2 & H3 & H4 & Ha) [[= -> ->]|Hin]%elem_of_cons; rewrite cover_cons.
  - assert (inb (b + t) (b, t) = false) as -> by inbs.
    destruct (decide (1 <= cover (b + t) cs)) as [Hc|]; [|pose proof (cover_nonneg (b + t) cs); cbn; lia].
    exfalso. apply cover_in in Hc as ([c u] & Hc & Hu). clear IH.
    pose proof (apart_elem _ _ _ _ _ Ha Hc). inbs.
  - rewrite (IH _ Ha Hin). pose proof (apart_elem _ _ _ _ _ Ha Hin).
    assert (inb (a + s) (b, t) = false) as ->; [|done]. inbs.
Qed.

Lemma no_fit_no_room cs live n :
  apart lo hi cs -> Forall (fun c => c.2 < n) cs -> 4 <= n ->
  (forall y, cover y cs + cover y (blocks live) = Z.b2z ((lo <=? y) && (y <? hi))) ->
  ~ room live n.
Proof.
  intros Ha Hs Hn Hcov (w & Hw1 & Hw2 & Hfree).
  assert (Hone : forall y, w <= y < w + n -> cover y cs = 1).
  { intros y Hy. specialize (Hcov y). rewrite (Hfree y Hy) in Hcov.
    assert ((lo <=? y) && (y <? hi) = true) as Et by lia. rewrite Et in Hcov. cbn in Hcov. lia. }
  destruct (cover_in w cs) as ([a s] & Hin & Hb); [rewrite Hone by lia; lia|].
  pose proof (proj1 (Forall_forall _ _) Hs _ Hin) as Hlt. cbn in Hlt.
  pose proof (chunk_end _ _ _ _ Ha Hin) as He. rewrite Hone in He by inbs. lia.
Qed.

Lemma alloc_step m live sz :
  heap_ok m live -> 0 <= sz <= 65532 ->
  exists p m', heap_allocmem fuel h sz m = Some (p, m') /\
    (p = NULL /\ ~ room live (granularity sz) /\ heap_ok m' live \/
     p <> NULL /\ heap_ok m' ((p, sz) :: live)) /\
    forall y, 1 <= cover y (blocks live) -> m' y = m y.
Proof.
  intros (Hl & cs & Hc & Ha & Ht & Hcov) Hsz. destruct C as [? ? ? ? ? ?] eqn:EC.
  destruct (granularity_small sz Hsz) as (Hg & Hge & Hg4). set (n := granularity sz) in *.
  destruct (alloc_walk_spec hi c_hi0 n cs fuel h (FreeList m h) lo m) as (m' & E & Hc' & Hfr);
    try done; [lia|by apply cs_fuel|].
  pose proof (fit_spec n hi cs lo c_lo0 ltac:(lia) Hg4 Ha) as Hfit.
  assert (Hkeep : forall y, 1 <= cover y (blocks live) -> m' y = m y).
  { intros y Hy. destruct (live_elsewhere live cs y Ha Hcov Hy) as (? & ? & _). by apply Hfr. }
  destruct (fit n cs) as [[x cs']|]; (eexists _, m'; split; [exact E|]; split; [|done]).
  - destruct Hfit as (Hx1 & Hx2 & Ha' & Ht' & Hcov'). right. split; [unfold NULL; lia|].
    split; [by constructor|]. exists cs'. split_and!; [done|done|cbn [blocks map fst snd]; fold (blocks live); fold n; rewrite total_cons; lia|]. intros y.
    cbn [blocks map fst snd]. fold (blocks live). fold n. rewrite cover_cons, <- Hcov, Hcov'. lia.
  - left. split_and!; [done|by apply (no_fit_no_room cs); [| |lia|]|]. split; [done|].
    exists cs. split_and!; done.
Qed.

Lemma cover_middle y A c B : cover y (blocks (A ++ c :: B))
  = cover y (blocks (A ++ B)) + Z.b2z (inb y (c.1, granularity c.2)).
Proof. unfold blocks. rewrite !map_app, !cover_app. cbn [map]. rewrite cover_cons. lia. Qed.

Lemma total_middle A c B :
  total (blocks (A ++ c :: B)) = total (blocks (A ++ B)) + granularity c.2.
Proof.
  unfold blocks. rewrite !map_app, !total_app. cbn [map]. rewrite total_cons. lia.
Qed.

(** A live block lies in the heap, clear of the free chunks. *)
Lemma block_place cs A p sz B :
  apart lo hi cs -> 4 <= granularity sz ->
  (forall y, cover y cs + cover y (blocks (A ++ (p, sz) :: B)) = Z.b2z ((lo <=? y) && (y <? hi))) ->
  lo <= p /\ p + granularity sz <= hi /\ clear_of p (granularity sz) cs.
Proof.
  intros Ha Hg Hcov. set (n := granularity sz) in *.
  assert (Hin : forall y, p <= y < p + n -> cover y cs = 0 /\ lo <= y < hi).
  { intros y Hy. specialize (Hcov y). rewrite cover_middle in Hcov. cbn [fst snd] in Hcov. fold n in Hcov.
    assert (inb y (p, n) = true) as Et by inbs. rewrite Et in Hcov.
    pose proof (cover_nonneg y cs). pose proof (cover_nonneg y (blocks (A ++ B))).
    destruct ((lo <=? y) && (y <? hi)) eqn:Er; cbn in Hcov; lia. }
  split_and!.
  - destruct (Hin p); lia.
  - destruct (Hin (p + n - 1)); lia.
  - apply Forall_forall. intros [a s] Hc. cbn. pose proof (apart_elem _ _ _ _ _ Ha Hc) as (? & ? & ?).
    destruct (decide (p + n <= a \/ a + s <= p)) as [|Hno]; [done|exfalso].
    destruct (Hin (Z.max p a)) as [Hz _]; [lia|].
    pose proof (cover_elem (Z.max p a) (a, s) cs Hc ltac:(inbs)). lia.
Qed.

Lemma free_step m A p sz B :
  heap_ok m (A ++ (p, sz) :: B) ->
  exists m', heap_freemem fuel h p sz m = Some m' /\ heap_ok m' (A ++ B) /\
    forall y, 1 <= cover y (blocks (A ++ B)) -> m' y = m y.
Proof.
  intros (Hl & cs & Hc & Ha & Ht & Hcov). destruct C as [? ? ? ? ? ?] eqn:EC.
  pose proof Hl as [Hl1 [Hsz Hl2]%Forall_cons]%Forall_app. cbn in Hsz.
  destruct (granularity_small sz Hsz) as (Hg & Hge & Hg4).
  destruct (block_place cs A p sz B Ha ltac:(lia) Hcov) as (Hp1 & Hp2 & Hcl).
  destruct (heap_freemem_spec hi c_hi0 fuel h p sz lo cs m) as (m' & E & Hc' & Hfr);
    try done; [by apply cs_fuel|lia|].
  destruct (give_spec p (granularity sz) hi cs lo) as (Ha' & Ht' & Hcov'); try done; [lia|].
  exists m'. split_and!; [done| |].
  - split; [by apply Forall_app|]. eexists. split_and!; [done|done|rewrite total_middle in Ht; cbn in Ht; lia|]. intros y.
    rewrite Hcov', <- Hcov, cover_middle. cbn [fst snd]. lia.
  - intros y Hy. pose proof Hcov as Hcov2. specialize (Hcov2 y).
    assert (Hy2 : 1 <= cover y (blocks (A ++ (p, sz) :: B))).
    { rewrite cover_middle. destruct (inb y _); cbn; lia. }
    destruct (live_elsewhere _ cs y Ha Hcov Hy2) as (Hh & Hyh & _).
    apply Hfr; [done| |done]. intros Hyp. rewrite cover_middle in Hcov2.
    assert (inb y ((p, sz).1, granularity (p, sz).2) = true) as Et by inbs. rewrite Et in Hcov2.
    pose proof (cover_nonneg y cs). destruct ((lo <=? y) && (y <? hi)); cbn in Hcov2; lia.
Qed.

(** Clients may write what they like into their blocks. *)
Lemma writes_step m m' live :
  heap_ok m live -> (forall y, cover y (blocks live) = 0 -> m' y = m y) -> heap_ok m' live.
Proof.
  intros (Hl & cs & Hc & Ha & Ht & Hcov) E. split; [done|]. exists cs.
  destruct C as [? ? ? ? ? ?].
  assert (Hout : forall y, h <= y < h + 2 -> m' y = m y).
  { intros y Hy. apply E. specialize (Hcov y). pose proof (cover_nonneg y cs).
    pose proof (cover_nonneg y (blocks live)).
    assert ((lo <=? y) && (y <? hi) = false) as Et by lia. rewrite Et in Hcov. cbn in Hcov. lia. }
  assert (FreeList m' h = FreeList m h) as -> by (apply rd_agree; apply Hout; lia).
  split_and!; [|done|done|done]. apply (chunks_agree m); [|done]. intros y Hy. apply E.
  pose proof (header_cover cs y Ha Hy). specialize (Hcov y). pose proof (cover_nonneg y (blocks live)).
  destruct ((lo <=? y) && (y <? hi)); cbn in Hcov; lia.
Qed.

(** Without live blocks the heap is one chunk again. *)
Lemma all_free m : heap_ok m [] -> chunks m (FreeList m h) [(lo, hi - lo)].
Proof.
  intros (_ & cs & Hc & Ha & _ & Hcov). destruct C as [? ? ? ? ? ?].
  assert (Hcov1 : forall y, lo <= y < hi -> cover y cs = 1).
  { intros y Hy. specialize (Hcov y). cbn [blocks map cover foldr] in Hcov.
    assert ((lo <=? y) && (y <? hi) = true) as Et by lia. rewrite Et in Hcov. cbn in Hcov. lia. }
  destruct cs as [|[a s] cs]; [specialize (Hcov1 lo ltac:(lia)); cbn in Hcov1; lia|].
  pose proof Ha as (H1 & H2 & H3 & H4 & Ha').
  assert (Ea : a = lo).
  { destruct (cover_in lo ((a, s) :: cs)) as ([b t] & [[= -> ->]|Hin]%elem_of_cons & Hb);
      [rewrite Hcov1; lia|inbs|]. pose proof (apart_elem _ _ _ _ _ Ha' Hin). inbs. }
  assert (Es : lo + s = hi).
  { destruct (decide (a + s < hi)) as [Hlt|]; [|lia].
    pose proof (chunk_end _ _ a s Ha ltac:(set_solver)) as He. rewrite Hcov1 in He; lia. }
  replace [(lo, hi - lo)] with [(a, s)] by (do 2 f_equal; lia).
  destruct cs as [|[b t] cs]; [done|]. destruct Ha' as (? & ? & _ & ? & _). lia.
Qed.
End Client.
