(* ===== verification/HeapSpec.v ===== *)
(** * What the allocator promises: the specification of [bertos/struct/heap.c]

    The specification knows no free list: a state is the live blocks and the
    memory, and its steps say what a client may rely on.  [heap_refines] shows
    that every run of the code is a run of the specification; the second half
    is the [malloc] interface, which keeps the size in front of the block. *)

From Stdlib Require Import ZArith Lia Bool List.
From stdpp Require Import prelude.
From S2P Require Import Prelude Heap.

Open Scope Z_scope.

(** ** The specification *)

(** Clients allocate, free the [i]-th live block with the size they asked for,
    and write byte [k] of one; what is not there is left alone. *)
Inductive Op := Alloc (sz : Z) | Free (i : nat) | Write (i : nat) (k v : Z).

Definition State : Type := list (Z * Z) * Bytes.

(** The live blocks have kept their bytes. *)
Definition keeps (live : list (Z * Z)) (m m' : Bytes) : Prop :=
  forall y, 1 <= cover y (blocks live) -> m' y = m y.

Definition poke (m : Bytes) (x v : Z) : Bytes := fun y => if y =? x then v else m y.

Definition within (k : Z) (c : Z * Z) : bool := (0 <=? k) && (k <? c.2).

Section Spec.
Variables lo hi : Z.

Inductive spec_step : Op -> State -> State -> Prop :=
  | spec_alloc sz p live m m' :
      sz <= granularity sz ->
      (forall y, p <= y < p + granularity sz -> lo <= y < hi /\ cover y (blocks live) = 0) ->
      keeps live m m' -> spec_step (Alloc sz) (live, m) ((p, sz) :: live, m')
  | spec_full sz live m m' :
      ~ room lo hi live (granularity sz) -> keeps live m m' ->
      spec_step (Alloc sz) (live, m) (live, m')
  | spec_free A p sz B m m' :
      keeps (A ++ B) m m' ->
      spec_step (Free (length A)) (A ++ (p, sz) :: B, m) (A ++ B, m')
  | spec_free_none i live m :
      (length live <= i)%nat -> spec_step (Free i) (live, m) (live, m)
  | spec_write i k v live p sz m :
      live !! i = Some (p, sz) -> 0 <= k < sz ->
      spec_step (Write i k v) (live, m) (live, poke m (p + k) v)
  | spec_write_none i k v live m :
      (forall p sz, live !! i = Some (p, sz) -> ~ 0 <= k < sz) ->
      spec_step (Write i k v) (live, m) (live, m).

Inductive spec_steps : list Op -> State -> State -> Prop :=
  | spec_nil st : spec_steps [] st st
  | spec_cons op ops st1 st2 st3 :
      spec_step op st1 st2 -> spec_steps ops st2 st3 -> spec_steps (op :: ops) st1 st3.
End Spec.

(** ** Clients of the code *)

Section Run.
Variable fuel : nat.
Variable h : Z.

Definition heap_op (op : Op) (st : State) : option State :=
  let '(live, m) := st in
  match op with
  | Alloc sz =>
      match heap_allocmem fuel h sz m with
      | None => None
      | Some (p, m) => if p =? NULL then Some (live, m) else Some ((p, sz) :: live, m)
      end
  | Free i =>
      match live !! i with
      | None => Some st
      | Some (p, sz) =>
          match heap_freemem fuel h p sz m with
          | None => None
          | Some m => Some (take i live ++ drop (S i) live, m)
          end
      end
  | Write i k v =>
      match live !! i with
      | Some (p, sz) => if within k (p, sz) then Some (live, poke m (p + k) v) else Some st
      | None => Some st
      end
  end.

Fixpoint heap_ops (ops : list Op) (st : State) : option State :=
  match ops with
  | [] => Some st
  | op :: ops => match heap_op op st with None => None | Some st => heap_ops ops st end
  end.
End Run.

(** Sizes that fit into 16 bits after rounding. *)
Definition size_ok (op : Op) : Prop :=
  match op with Alloc sz => 0 <= sz <= 65532 | _ => True end.

(** ** The refinement *)

Section Refine.
Variables h lo hi : Z.
Variable fuel : nat.
Hypothesis C : config h lo hi fuel.

Lemma live_place m A p sz B :
  heap_ok h lo hi m (A ++ (p, sz) :: B) ->
  0 <= sz <= 65532 /\ lo <= p /\ p + granularity sz <= hi /\
  forall y, p <= y < p + granularity sz ->
    cover y (blocks (A ++ B)) = 0 /\ 1 <= cover y (blocks (A ++ (p, sz) :: B)).
Proof.
  intros (Hl & cs & Hc & Ha & Ht & Hcov). pose proof Hl as [_ [Hsz _]%Forall_cons]%Forall_app.
  cbn in Hsz. destruct (granularity_small sz Hsz) as (Hg & _).
  destruct (block_place lo hi cs A p sz B Ha ltac:(lia) Hcov) as (Hp1 & Hp2 & _).
  split_and!; try lia. intros y Hy. specialize (Hcov y). rewrite !cover_middle in *. cbn [fst snd] in *.
  assert (inb y (p, granularity sz) = true) as Et by inbs. rewrite Et in *.
  pose proof (cover_nonneg y cs). pose proof (cover_nonneg y (blocks (A ++ B))).
  destruct ((lo <=? y) && (y <? hi)); cbn in *; lia.
Qed.

Lemma op_refines op live m :
  size_ok op -> heap_ok h lo hi m live ->
  exists live' m', heap_op fuel h op (live, m) = Some (live', m') /\
    heap_ok h lo hi m' live' /\ spec_step lo hi op (live, m) (live', m').
Proof.
  intros Hs H. destruct op as [sz|i|i k v]; cbn [heap_op].
  - destruct (alloc_step h lo hi fuel C m live sz H Hs) as (p & m' & -> & [(-> & Hno & H')|[Hp H']] & Hk).
    + exists live, m'. by split_and!; [| |apply spec_full].
    + destruct (live_place m' [] p sz live H') as (Hsz & Hlo & Hhi & Hy).
      assert ((p =? NULL) = false) as -> by lia.
      exists ((p, sz) :: live), m'. split_and!; [done|done|]. apply spec_alloc; [|..|done].
      * by apply granularity_small.
      * intros y Hyp. destruct (Hy y Hyp) as [Hz _]. cbn [app] in Hz. lia.
  - destruct (live !! i) as [[p sz]|] eqn:Ei.
    + pose proof (take_drop_middle live i _ Ei) as E.
      assert (Hlen : length (take i live) = i) by (apply length_take_le, Nat.lt_le_incl; by eapply lookup_lt_Some).
      set (A := take i live) in *. set (B := drop (S i) live) in *. rewrite <- E in H |- *.
      destruct (free_step h lo hi fuel C m A p sz B H) as (m' & -> & H' & Hk).
      exists (A ++ B), m'. split_and!; [done|done|]. rewrite <- Hlen. by apply spec_free.
    + exists live, m. split_and!; [done|done|]. apply spec_free_none. by apply lookup_ge_None.
  - destruct (live !! i) as [[p sz]|] eqn:Ei; [destruct (within k (p, sz)) eqn:Ek|].
    + unfold within in Ek. cbn in Ek.
      exists live, (poke m (p + k) v). split_and!; [done| |by apply spec_write with sz; [|lia]].
      apply (writes_step h lo hi fuel C m); [done|]. intros y Hy. unfold poke.
      destruct (y =? p + k) eqn:E; [|done]. zbool. subst y. exfalso.
      rewrite <- (take_drop_middle live i _ Ei) in H, Hy.
      destruct (live_place m _ p sz _ H) as (Hsz & _ & _ & Hyy).
      destruct (granularity_small sz Hsz) as (_ & ? & _).
      destruct (Hyy (p + k)) as [_ ?]; lia.
    + exists live, m. split_and!; [done|done|]. apply spec_write_none.
      intros p' sz' E'. rewrite Ei in E'. injection E' as <- <-. unfold within in Ek. cbn in Ek. lia.
    + exists live, m. split_and!; [done|done|]. apply spec_write_none. intros p sz E'. congruence.
Qed.

Lemma ops_refine ops : forall live m,
  Forall size_ok ops -> heap_ok h lo hi m live ->
  exists live' m', heap_ops fuel h ops (live, m) = Some (live', m') /\
    heap_ok h lo hi m' live' /\ spec_steps lo hi ops (live, m) (live', m').
Proof.
  induction ops as [|op ops IH]; intros live m Hs H; cbn [heap_ops].
  - exists live, m. by split_and!; [| |constructor].
  - apply Forall_cons in Hs as [Hop Hs].
    destruct (op_refines op live m Hop H) as (live1 & m1 & -> & H1 & S1).
    destruct (IH live1 m1 Hs H1) as (live2 & m2 & E & H2 & S2).
    exists live2, m2. split_and!; [done|done|]. by apply spec_cons with (live1, m1).
Qed.

Lemma space_left m live :
  heap_ok h lo hi m live -> heap_freeSpace fuel h m = Some (hi - lo - total (blocks live)).
Proof.
  intros (Hl & cs & Hc & Ha & Ht & _). destruct C as [? ? ? ? ? ?] eqn:EC.
  assert (0 <= total (blocks live)).
  { clear Ht. induction live as [|[p sz] live IH]; [done|]. apply Forall_cons in Hl as [Hsz Hl].
    cbn [blocks map fst snd]. rewrite total_cons. fold (blocks live).
    destruct (granularity_small sz Hsz) as (? & _). specialize (IH Hl). lia. }
  pose proof (apart_total hi lo cs Ha ltac:(lia)).
  unfold heap_freeSpace. rewrite (freeSpace_spec hi c_hi cs fuel _ 0 lo m); try done; try lia.
  - f_equal. lia.
  - by apply (cs_fuel h lo hi fuel C).
Qed.

Lemma granularity_multiple n : 4 <= n <= 65532 -> n mod 4 = 0 -> granularity n = n.
Proof.
  intros Hn H4. unfold granularity. rewrite ROUND_UP2_small by lia.
  assert ((n + 3) / 4 = n / 4) as ->.
  { rewrite (Z_div_exact_full_2 n 4) at 1 by lia.
    replace (4 * (n / 4) + 3) with (3 + n / 4 * 4) by lia. rewrite Z_div_plus by lia. done. }
  rewrite <- (Z_div_exact_full_2 n 4) by lia. by assert ((n =? 0) = false) as -> by lia.
Qed.

Lemma whole_again m :
  heap_ok h lo hi m [] -> exists m', heap_allocmem fuel h (hi - lo) m = Some (lo, m').
Proof.
  intros H. pose proof (all_free h lo hi fuel C m H) as Hc. destruct C as [? ? ? ? ? ?] eqn:EC.
  assert (Hg : granularity (hi - lo) = hi - lo).
  { apply granularity_multiple; [|done]. pose proof (Z_div_mod_eq_full (hi - lo) 4). lia. }
  assert (Ha : apart lo hi [(lo, hi - lo)]) by (cbn; split_and!; try done; lia).
  destruct (alloc_walk_spec hi c_hi (hi - lo) [(lo, hi - lo)] fuel h (FreeList m h) lo m)
    as (m' & E & _); try done; [lia|by apply (cs_fuel h lo hi fuel C)|].
  exists m'. unfold heap_allocmem. rewrite Hg, E. cbn.
  assert ((hi - lo >=? hi - lo) = true) as -> by lia. by rewrite Z.eqb_refl.
Qed.
End Refine.

(** C40: the allocator refines its specification. On memory of a multiple of
    four bytes, whatever blocks a client asks for, up to 65532 bytes, frees and
    writes, every call returns, with a turn of the loops for each four bytes of
    the heap, and every step is one the specification allows: an allocated block
    lies in the heap, is as large as was asked for and overlaps no live block;
    null is returned only when no stretch of that size, rounded up to four, is
    clear of the live blocks; and the bytes of the live blocks only change when
    their client writes them. What is left is what the blocks leave, and when all
    of them have been freed, in any order, the heap can be allocated as a
    whole. *)
Theorem heap_refines (h lo hi : Z) (fuel : nat) (m0 : Bytes) (ops : list Op)
    (C : config h lo hi fuel) (Hs : Forall size_ok ops) :
  exists live m,
    heap_ops fuel h ops ([], heap_init h lo (hi - lo) m0) = Some (live, m) /\
    spec_steps lo hi ops ([], heap_init h lo (hi - lo) m0) (live, m) /\
    heap_freeSpace fuel h m = Some (hi - lo - total (blocks live)) /\
    (live = [] -> exists m', heap_allocmem fuel h (hi - lo) m = Some (lo, m')).
Proof.
  destruct (ops_refine h lo hi fuel C ops [] _ Hs (init_ok h lo hi fuel C m0))
    as (live & m & E & H & S).
  exists live, m. split_and!; [done|done| |].
  - by apply (space_left h lo hi).
  - intros ->. by apply (whole_again h lo hi fuel C).
Qed.

(** 16 bytes at 8: three blocks of 5, 4 and 3 bytes fit, a fourth of 9 does not;
    freeing the middle one, then the others, joins them. *)
Lemma heap_refines_witness :
  exists live m m',
    heap_ops 4 2 [Alloc 5; Alloc 4; Alloc 3; Alloc 9; Write 0 2 170; Free 1; Free 0; Free 0]
      ([], heap_init 2 8 16 (fun _ => 255)) = Some (live, m) /\
    live = [] /\ heap_allocmem 4 2 16 m = Some (8, m').
Proof.
  destruct (heap_refines 2 8 24 4 (fun _ => 255)
    [Alloc 5; Alloc 4; Alloc 3; Alloc 9; Write 0 2 170; Free 1; Free 0; Free 0])
    as (live & m & E & _ & _ & Hw).
  - split; [lia|lia|lia|reflexivity|left; lia|cbn; lia].
  - repeat (apply Forall_cons; split; [try done; cbn; lia|]). constructor.
  - assert (live = []) as El.
    { apply (f_equal (option_map fst)) in E. vm_compute in E. by injection E. }
    destruct (Hw El) as [m' Ew]. exists live, m, m'. split_and!; [exact E|exact El|exact Ew].
Defined.

(** ** The [malloc] interface *)

Section Malloc.
Variables h lo hi : Z.
Variable fuel : nat.
Hypothesis C : config h lo hi fuel.

Lemma covered_head p n live y : p <= y < p + n -> 1 <= cover y ((p, n) :: live).
Proof.
  intros Hy. rewrite cover_cons. pose proof (cover_nonneg y live).
  assert (inb y (p, n) = true) as -> by inbs. cbn. lia.
Qed.

(** A block from [heap_malloc]: its size lies in front of it. *)
Definition malloced (m : Bytes) (live : list (Z * Z)) (p sz : Z) : Prop :=
  heap_ok h lo hi m ((p - 2, sz + 2) :: live) /\ rd m (p - 2) = sz + 2 /\ 0 <= sz /\
  lo + 2 <= p /\ p + sz <= hi /\ forall y, p - 2 <= y < p + sz -> cover y (blocks live) = 0.

Lemma malloc_step m live sz :
  heap_ok h lo hi m live -> 0 <= sz <= 65530 ->
  exists p m', heap_malloc fuel h sz m = Some (p, m') /\ keeps live m m' /\
    (p = NULL /\ ~ room lo hi live (granularity (sz + 2)) /\ heap_ok h lo hi m' live \/
     p <> NULL /\ malloced m' live p sz).
Proof.
  intros H Hsz. destruct C as [? ? Hhi ? ? ?] eqn:EC.
  unfold heap_malloc, sizeof_size_t. rewrite (u16_small (sz + 2)) by lia.
  destruct (alloc_step h lo hi fuel C m live (sz + 2) H ltac:(lia))
    as (q & m1 & -> & [(-> & Hno & H1)|[Hq H1]] & Hk).
  - exists NULL, m1. split_and!; [done|done|]. by left.
  - destruct (live_place h lo hi m1 [] q (sz + 2) live H1) as (_ & Hlo & Hq2 & Hy).
    destruct (granularity_small (sz + 2) ltac:(lia)) as (_ & Hg & _). cbn [app] in Hy.
    assert ((q =? NULL) = false) as -> by lia. rewrite u16_small by lia.
    exists (q + 2), (wr m1 q (sz + 2)). split_and!; [done| |].
    + intros y Hyl. destruct (decide (q <= y < q + granularity (sz + 2))) as [Hin|Hout].
      * destruct (Hy y Hin) as [Hz _]. lia.
      * rewrite wr_other by lia. by apply Hk.
    + right. split; [unfold NULL; lia|]. unfold malloced.
      replace (q + 2 - 2) with q by lia. split_and!; [|by apply rd_wr; lia|lia|lia|lia|].
      * apply (writes_step h lo hi fuel C m1); [done|]. intros y Hy0.
        apply wr_other; intros ->; destruct (Hy q) as [_ ?]; try lia;
          destruct (Hy (q + 1)) as [_ ?]; lia.
      * intros y Hyy. apply (Hy y). lia.
Qed.

Lemma free_malloced m live p sz :
  malloced m live p sz -> exists m', heap_free fuel h p m = Some m' /\ heap_ok h lo hi m' live /\ keeps live m m'.
Proof.
  intros (H & Hrd & Hsz & Hlo & Hhi & _). destruct C as [? ? Hhi' ? ? ?] eqn:EC.
  unfold heap_free, NULL, sizeof_size_t. assert ((p =? 0) = false) as -> by lia.
  rewrite u16_small, Hrd by lia.
  by apply (free_step h lo hi fuel C m [] (p - 2) (sz + 2) live).
Qed.

(** What the client does to its bytes does not touch the size. *)
Lemma malloced_write m m' live p sz :
  malloced m live p sz -> (forall y, ~ p <= y < p + sz -> m' y = m y) -> malloced m' live p sz.
Proof.
  intros (H & Hrd & Hsz & Hlo & Hhi & Hy) E. unfold malloced. split_and!; try done.
  - apply (writes_step h lo hi fuel C m); [done|]. intros y Hy0. apply E. intros Hin.
    destruct (live_place h lo hi m [] (p - 2) (sz + 2) live H) as (Hs2 & _ & _ & Hyy).
    destruct (granularity_small (sz + 2) ltac:(lia)) as (_ & Hg & _).
    destruct (Hyy y) as [_ ?]; [lia|]. cbn [app] in *. lia.
  - rewrite <- Hrd. apply rd_agree; apply E; lia.
Qed.
End Malloc.

(** [heap_malloc] and [heap_free] undo each other: asked for up to 65530 bytes,
    [heap_malloc] returns null, when there is no room for them and two more, or
    bytes of the heap that no live block has; whatever the client writes there,
    [heap_free] finds the size and leaves the heap with the blocks it had, their
    bytes untouched. *)
Theorem heap_malloc_free (h lo hi : Z) (fuel : nat) (m : Bytes) (live : list (Z * Z)) (sz : Z)
    (C : config h lo hi fuel) (H : heap_ok h lo hi m live) (Hsz : 0 <= sz <= 65530) :
  exists p m1, heap_malloc fuel h sz m = Some (p, m1) /\ keeps live m m1 /\
    (p = NULL /\ ~ room lo hi live (granularity (sz + 2)) /\ heap_ok h lo hi m1 live \/
     p <> NULL /\
     (forall y, p <= y < p + sz -> lo <= y < hi /\ cover y (blocks live) = 0) /\
     forall m2, (forall y, ~ p <= y < p + sz -> m2 y = m1 y) ->
       exists m3, heap_free fuel h p m2 = Some m3 /\ heap_ok h lo hi m3 live /\ keeps live m2 m3).
Proof.
  destruct (malloc_step h lo hi fuel C m live sz H Hsz) as (p & m1 & E & Hk & [Hn|[Hp Hm]]);
    exists p, m1; split_and!; try done; [by left|right].
  split_and!; [done| |].
  - destruct Hm as (_ & _ & _ & Hlo & Hhi & Hy). intros y Hyp. split; [lia|]. apply Hy. lia.
  - intros m2 E2. apply (free_malloced h lo hi fuel C m2 live p sz).
    by apply (malloced_write h lo hi fuel C m1).
Qed.

(** [heap_calloc] is [heap_malloc] with the bytes cleared. *)
Theorem heap_calloc_clears (h lo hi : Z) (fuel : nat) (m : Bytes) (live : list (Z * Z)) (sz : Z)
    (C : config h lo hi fuel) (H : heap_ok h lo hi m live) (Hsz : 0 <= sz <= 65530) :
  exists p m1, heap_calloc fuel h sz m = Some (p, m1) /\ keeps live m m1 /\
    (p = NULL \/ (forall y, p <= y < p + sz -> m1 y = 0) /\ malloced h lo hi m1 live p sz).
Proof.
  unfold heap_calloc.
  destruct (malloc_step h lo hi fuel C m live sz H Hsz) as (p & m1 & -> & Hk & [(-> & _ & _)|[Hp Hm]]).
  - exists NULL, m1. split_and!; [done|done|by left].
  - assert ((p =? NULL) = false) as -> by lia. exists p, (clear m1 p sz).
    assert (E : forall y, ~ p <= y < p + sz -> clear m1 p sz y = m1 y).
    { intros y Hy. unfold clear. by assert ((p <=? y) && (y <? p + sz) = false) as -> by lia. }
    split_and!; [done| |right; split].
    + intros y Hy. rewrite E; [by apply Hk|]. intros Hin.
      destruct Hm as (_ & _ & _ & _ & _ & Hc). rewrite (Hc y) in Hy; lia.
    + intros y Hy. unfold clear. by assert ((p <=? y) && (y <? p + sz) = true) as -> by lia.
    + by apply (malloced_write h lo hi fuel C m1).
Qed.

(** Sizes whose rounding wraps around get a block of four bytes: the largest
    request of all succeeds on the smallest heap. *)
Lemma allocmem_size_wraps :
  option_map fst (heap_allocmem 1 2 65535 (heap_init 2 8 4 (fun _ => 0))) = Some 8 /\
  option_map fst (heap_malloc 1 2 65534 (heap_init 2 8 4 (fun _ => 0))) = Some 10.
Proof. vm_compute. done. Qed.

(** A heap of ten bytes: an allocation of eight leaves a chunk of two, and the
    first two bytes of the block are the size of that chunk. *)
Lemma init_size_unrounded :
  match heap_allocmem 1 2 8 (heap_init 2 8 10 (fun _ => 0)) with
  | Some (p, m) => p = 10 /\ size m 8 = 2 /\ size (poke m p 77) 8 = 77
  | None => False
  end.
Proof. vm_compute. done. Qed.
