(* ===== verification/Rle.v ===== *)
(** * Run-length encoding: [bertos/algo/rle.c]

    The encoder works on indices into its input, as in the code; the output is
    the list of bytes written.  A loop that ends after 127 turns at most takes
    them as its fuel, the outer loops take [fuel] and give [None] when it is not
    enough; so does a decoder that reads behind its input.  Indices are [int]s
    in the code: buffers are within their range. *)

From Stdlib Require Import ZArith Lia Bool List.
From stdpp Require Import prelude.
From S2P Require Import Prelude.

Open Scope Z_scope.

(** ** The functions *)

(** Bytes identical to the first one. *)
Fixpoint scan_run (fuel : nat) (input : list Z) (len count first index : Z) : Z :=
  match fuel with
  | O => index
  | S fuel' =>
      if (index <? len) && (index - count <? 127) && (get input index =? first)
      then scan_run fuel' input len count first (index + 1)
      else index
  end.

(** How many to copy: up to three identical bytes. *)
Fixpoint scan_copy (fuel : nat) (input : list Z) (len count index : Z) : Z :=
  match fuel with
  | O => index
  | S fuel' =>
      if (index <? len) && (index - count <? 127) then
        if (get input index =? get input (index - 1)) &&
           ((index >? 1) && (get input index =? get input (index - 2)))
        then index - 2
        else scan_copy fuel' input len count (index + 1)
      else index
  end.

(** One turn from [count]: the next [count] and the bytes written. *)
Definition rle_turn (input : list Z) (len count : Z) : Z * list Z :=
  let index := count in
  let first := get input index in
  let index := scan_run 127 input len count first (index + 1) in
  if index - count =? 1 then
    let index := scan_copy 127 input len count index in
    (index, u8 (count - index) :: map (get input) (seqZ count (index - count)))
  else (index, [u8 (index - count); first]).

Fixpoint rle_loop (fuel : nat) (input : list Z) (len count : Z) (out : list Z) : option (list Z) :=
  if count <? len then
    match fuel with
    | O => None
    | S fuel' =>
        let '(index, written) := rle_turn input len count in
        rle_loop fuel' input len index (out ++ written)
    end
  else Some (out ++ [0]).

(** The output and its length. *)
Definition rle (fuel : nat) (input : list Z) (len : Z) : option (list Z * Z) :=
  match rle_loop fuel input len 0 [] with
  | Some out => Some (out, Z.of_nat (length out))
  | None => None
  end.

Fixpoint unrle_loop (fuel : nat) (input out : list Z) : option (list Z) :=
  match fuel, input with
  | S fuel', c :: input =>
      let count := i8 c in
      if count >? 0 then
        match input with
        | value :: input => unrle_loop fuel' input (out ++ replicate (Z.to_nat count) value)
        | [] => None
        end
      else if count <? 0 then
        let n := Z.to_nat (- count) in
        if (n <=? length input)%nat then unrle_loop fuel' (drop n input) (out ++ take n input)
        else None
      else Some out
  | _, _ => None
  end.

Definition unrle (fuel : nat) (input : list Z) : option (list Z * Z) :=
  match unrle_loop fuel input [] with
  | Some out => Some (out, Z.of_nat (length out))
  | None => None
  end.

(** ** What the scans find *)

Section Scan.
Variable input : list Z.
Variable len : Z.

Lemma scan_run_spec count fuel : forall index,
  count < index <= len -> index - count <= 127 -> 127 - (index - count) <= Z.of_nat fuel ->
  (forall i, count <= i < index -> get input i = get input count) ->
  let r := scan_run fuel input len count (get input count) index in
  index <= r <= len /\ r - count <= 127 /\
  (forall i, count <= i < r -> get input i = get input count) /\
  (r < len -> r - count < 127 -> get input r <> get input count).
Proof.
  induction fuel as [|fuel IH]; intros index Hi H127 Hf Heq; cbn [scan_run].
  - cbn zeta. split_and!; try lia. done.
  - destruct (_ && _ && _) eqn:E; cbn zeta.
    + zbool. destruct (IH (index + 1)) as (G1 & G2 & G3 & G4); try lia.
      { intros i Hi'. destruct (decide (i = index)) as [->|]; [done|]. apply Heq. lia. }
      cbn zeta in G1. split_and!; try lia; done.
    + split_and!; try lia. done.
Qed.

Lemma scan_copy_spec count fuel : forall index,
  count < index <= len -> index - count <= 127 -> 127 - (index - count) <= Z.of_nat fuel ->
  0 <= count -> (count + 1 < len -> get input (count + 1) <> get input count) ->
  let r := scan_copy fuel input len count index in
  count < r <= len /\ r - count <= 127 /\
  (r = len \/ r - count = 127 \/
   r + 2 < len /\ get input (r + 1) = get input r /\ get input (r + 2) = get input r).
Proof.
  induction fuel as [|fuel IH]; intros index Hi H127 Hf Hc Hne; cbn [scan_copy].
  - cbn zeta. split_and!; try lia.
  - destruct ((index <? len) && (index - count <? 127)) eqn:E.
    + destruct (_ && (_ && _)) eqn:E3; [|apply IH; try lia; done].
      rewrite !andb_true_iff in E3. destruct E3 as (E3 & E4 & E5). zbool. cbn zeta.
      assert (count + 3 <= index) as Hge.
      { destruct (decide (index = count + 1)) as [->|].
        { rewrite Z.add_simpl_r in E3. destruct (Hne ltac:(lia) E3). }
        destruct (decide (index = count + 2)) as [->|]; [|lia]. destruct Hne; [lia|].
        replace (count + 2 - 1) with (count + 1) in E3 by lia. rewrite Z.add_simpl_r in E5. congruence. }
      split_and!; try lia. right. right. replace (index - 2 + 1) with (index - 1) by lia.
      replace (index - 2 + 2) with index by lia. split_and!; [lia|congruence|congruence].
    + cbn zeta. split_and!; try lia.
Qed.

Definition slice (a k : Z) : list Z := map (get input) (seqZ a k).

(** Three identical bytes. *)
Definition three (c : Z) : Prop :=
  c + 2 < len /\ get input (c + 1) = get input c /\ get input (c + 2) = get input c.

Lemma length_slice a k : 0 <= k -> Z.of_nat (length (slice a k)) = k.
Proof. intros Hk. unfold slice. rewrite length_map, length_seqZ. lia. Qed.

Lemma slice_app a k1 k2 : 0 <= k1 -> 0 <= k2 -> slice a (k1 + k2) = slice a k1 ++ slice (a + k1) k2.
Proof. intros H1 H2. unfold slice. rewrite <- map_app. f_equal. rewrite seqZ_app by lia. done. Qed.

Lemma slice_same a k :
  0 <= k -> (forall i, a <= i < a + k -> get input i = get input a) ->
  slice a k = replicate (Z.to_nat k) (get input a).
Proof.
  intros Hk H. symmetry. apply replicate_as_elem_of. split.
  - pose proof (length_slice a k Hk). lia.
  - unfold slice. intros x (i & -> & Hi%elem_of_seqZ)%list_elem_of_fmap. by apply H.
Qed.

Lemma rle_turn_spec count :
  0 <= count < len ->
  let '(index, w) := rle_turn input len count in
  let k := index - count in
  index <= len /\ 1 <= k <= 127 /\
  (2 <= k /\ w = [k; get input count] /\
   slice count k = replicate (Z.to_nat k) (get input count) /\ (three count -> 3 <= k) \/
   w = u8 (- k) :: slice count k /\ ~ three count /\ (k = 127 \/ index = len \/ three index)).
Proof.
  intros Hc. unfold rle_turn.
  destruct (scan_run_spec count 127 (count + 1)) as (H1 & H2 & H3 & H4); try lia.
  { intros i Hi. by replace i with count by lia. }
  set (r := scan_run _ _ _ _ _ _) in *. destruct (r - count =? 1) eqn:E; zbool.
  - assert (Hne : count + 1 < len -> get input (count + 1) <> get input count).
    { intros Hl. replace (count + 1) with r by lia. apply H4; lia. }
    destruct (scan_copy_spec count 127 r) as (G1 & G2 & G3); try lia; try exact Hne.
    cbn zeta in G1. set (x := scan_copy _ _ _ _ _) in *.
    cbn zeta. split; [lia|]. split; [lia|]. right.
    split_and!; [f_equal; f_equal; lia| |destruct G3 as [?|[?|?]]; auto with lia].
    intros (T1 & T2 & _). apply Hne; [lia|done].
  - cbn zeta. split; [lia|]. split; [lia|]. left. split_and!; [lia|by rewrite u8_small by lia| |].
    + apply slice_same; [lia|]. intros i Hi. apply H3. lia.
    + intros (T1 & T2 & T3). destruct (decide (r - count = 2)) as [E2|]; [|lia].
      destruct H4; [lia|lia|]. by replace r with (count + 2) by lia.
Qed.

(** The decoder on what one turn wrote. *)
Lemma unrle_turn count fuel rest out :
  0 <= count < len ->
  let '(index, w) := rle_turn input len count in
  unrle_loop (S fuel) (w ++ rest) out = unrle_loop fuel rest (out ++ slice count (index - count)).
Proof.
  intros Hc. pose proof (rle_turn_spec count Hc) as H. destruct (rle_turn input len count) as [index w].
  cbn zeta in H. set (k := index - count) in *.
  destruct H as (H1 & H2 & [(H3 & -> & -> & _)|(-> & _)]).
  - cbn [app unrle_loop]. rewrite i8_small by lia. by assert ((k >? 0) = true) as -> by lia.
  - cbn [app unrle_loop].
    assert (i8 (u8 (- k)) = - k) as ->.
    { unfold u8. replace (- k) with (256 - k + -1 * 256) at 1 by lia.
      rewrite Z_mod_plus_full, Z.mod_small by lia. unfold i8.
      replace (256 - k + 128) with (128 - k + 1 * 256) by lia.
      rewrite Z_mod_plus_full, Z.mod_small by lia. lia. }
    assert ((- k >? 0) = false) as -> by lia. assert ((- k <? 0) = true) as -> by lia.
    pose proof (length_slice count k ltac:(lia)). rewrite Z.opp_involutive.
    assert ((Z.to_nat k <=? length (slice count k ++ rest))%nat = true) as ->.
    { apply Nat.leb_le. rewrite length_app. lia. }
    rewrite drop_app_length', take_app_length' by lia. done.
Qed.

(** The most that [n] bytes grow. *)
Definition grown (n : Z) : Z := n + (n + 126) / 127.

Lemma grown_mono a b : 0 <= b <= a -> b + (a - b) + grown 0 <= grown a /\ a - b + grown b <= grown a.
Proof.
  intros H. unfold grown. change ((0 + 126) / 127) with 0.
  assert ((b + 126) / 127 <= (a + 126) / 127) by (apply Z.div_le_mono; lia).
  assert (0 <= (a + 126) / 127) by (apply Z.div_pos; lia). lia.
Qed.

Lemma grown_127 n : 127 <= n -> grown n = 128 + grown (n - 127).
Proof.
  intros H. unfold grown. replace (n + 126) with (n - 127 + 126 + 1 * 127) by lia.
  rewrite Z_div_plus by lia. lia.
Qed.

Lemma grown_pos n : 1 <= n -> n + 1 <= grown n.
Proof. intros H. unfold grown. assert (1 <= (n + 126) / 127) by (apply Z.div_le_lower_bound; lia). lia. Qed.

Lemma rle_loop_spec n : forall fuel count out,
  Z.of_nat n = len - count -> 0 <= count -> (n <= fuel)%nat ->
  exists e, rle_loop fuel input len count out = Some (out ++ e) /\
    Z.of_nat (length e) <= grown (len - count) + 1 /\
    (three count -> Z.of_nat (length e) <= grown (len - count)) /\
    forall f rest o, (length e <= f)%nat -> unrle_loop f (e ++ rest) o = Some (o ++ slice count (len - count)).
Proof.
  induction n as [n IH] using lt_wf_ind. intros fuel count out Hn Hc Hf.
  destruct (decide (count = len)) as [->|Hne].
  - exists [0]. assert (rle_loop fuel input len len out = Some (out ++ [0])) as ->.
    { destruct fuel; cbn [rle_loop]; by rewrite Z.ltb_irrefl. }
    rewrite Z.sub_diag. split_and!; [done|done| |].
    + intros (? & _). lia.
    + intros [|f] rest o Hl; [cbn in Hl; lia|].
      change (slice len 0) with (@nil Z). by rewrite app_nil_r.
  - destruct fuel as [|fuel]; [lia|]. cbn [rle_loop].
    assert ((count <? len) = true) as -> by lia.
    pose proof (rle_turn_spec count ltac:(lia)) as Ht.
    pose proof (fun f rest o => unrle_turn count f rest o ltac:(lia)) as Hu.
    destruct (rle_turn input len count) as [index w]. cbn zeta in Ht.
    destruct Ht as (Hi & Hk & Hw). set (k := index - count) in *.
    destruct (IH (n - Z.to_nat k)%nat ltac:(lia) fuel index (out ++ w) ltac:(lia) ltac:(lia) ltac:(lia))
      as (e & E & Hlen & Hlen3 & Hdec).
    exists (w ++ e). rewrite E, <- (assoc app). rewrite length_app, Nat2Z.inj_add.
    pose proof (grown_mono (len - count) (len - index) ltac:(lia)).
    split_and!; [done| | |].
    + destruct Hw as [(H2 & -> & _)|(-> & _ & Hend)]; cbn [length]; [lia|].
      pose proof (length_slice count k ltac:(lia)).
      destruct Hend as [H127|[Hl|H3]].
      * rewrite (grown_127 (len - count)) by lia. replace (len - count - 127) with (len - index) by lia. lia.
      * pose proof (grown_pos (len - count) ltac:(lia)). subst index. rewrite Z.sub_diag in Hlen.
        change (grown 0 + 1) with 1 in Hlen. lia.
      * specialize (Hlen3 H3). lia.
    + intros H3. destruct Hw as [(H2 & -> & _ & Hk3)|(_ & Hno & _)]; [|done].
      specialize (Hk3 H3). cbn [length]. lia.
    + intros [|f] rest o Hf'.
      { destruct Hw as [(_ & -> & _)|(-> & _)]; cbn in Hf'; lia. }
      rewrite <- (assoc app), Hu. rewrite Hdec.
      * rewrite <- (assoc app). do 2 f_equal.
        replace (len - count) with (k + (len - index)) by lia.
        rewrite slice_app by lia. do 2 f_equal. lia.
      * destruct Hw as [(_ & -> & _)|(-> & _)]; cbn [length] in Hf'; lia.
Qed.
End Scan.

Lemma slice_all l : slice l 0 (Z.of_nat (length l)) = l.
Proof.
  apply list_eq. intros i. unfold slice. rewrite list_lookup_fmap.
  destruct (decide (i < length l)%nat) as [Hi|Hi].
  - rewrite lookup_seqZ_lt by lia. cbn. unfold get. rewrite nth_lookup, Z.add_0_l, Nat2Z.id.
    destruct (l !! i) eqn:E; [done|]. apply lookup_ge_None in E. lia.
  - rewrite lookup_seqZ_ge by lia. symmetry. apply lookup_ge_None. lia.
Qed.

(** Decoding inverts encoding, whatever follows the encoded bytes, and the
    encoded form is longer than its input by one byte for every 127 bytes begun
    and the end mark at most: both loops end. *)
Theorem unrle_rle (input rest : list Z) :
  exists out,
    rle (length input) input (Z.of_nat (length input)) = Some (out, Z.of_nat (length out)) /\
    Z.of_nat (length out) <= grown (Z.of_nat (length input)) + 1 /\
    unrle (length out) (out ++ rest) = Some (input, Z.of_nat (length input)).
Proof.
  destruct (rle_loop_spec input (Z.of_nat (length input)) (length input) (length input) 0 [])
    as (e & E & Hl & _ & Hd); [lia|lia|lia|].
  exists e. unfold rle, unrle. rewrite E. rewrite Z.sub_0_r in *. split_and!; [done|exact Hl|].
  rewrite Hd by lia. cbn [app]. by rewrite slice_all.
Qed.
