(* ===== verification/Tea.v ===== *)
(** * The TEA cipher: [bertos/algo/tea.c]

    A block of eight bytes is enciphered in place under a key of sixteen.  The
    processor stores words least significant byte first, so that the
    conversions of byteorder.h do nothing; words are read from the bytes and
    written back here.  Arithmetic wraps at 32 bits. *)

From Stdlib Require Import ZArith Lia Bool List.
From stdpp Require Import prelude.
From S2P Require Import Prelude.

Open Scope Z_scope.

Definition DELTA : Z := 0x9E3779B9.
Definition ROUNDS : nat := 32.
Definition TEA_KEY_LEN : Z := 16.
Definition TEA_BLOCK_LEN : Z := 8.

(** A [uint32_t] in memory. *)
Definition word (b : list Z) (i : Z) : Z :=
  get b (4 * i) + 256 * (get b (4 * i + 1) + 256 * (get b (4 * i + 2) + 256 * get b (4 * i + 3))).
Definition word_bytes (w : Z) : list Z :=
  [u8 w; u8 (w / 256); u8 (w / 65536); u8 (w / 16777216)].

Definition tea_func (in_ sum k0 k1 : Z) : Z :=
  Z.lxor (Z.lxor (u32 (u32 (Z.shiftl in_ 4) + k0)) (u32 (in_ + sum)))
         (u32 (Z.shiftr in_ 5 + k1)).

Fixpoint enc_loop (n : nat) (k : list Z) (sum y z : Z) : Z * Z :=
  match n with
  | O => (y, z)
  | S n' =>
      let sum := u32 (sum + DELTA) in
      let y := u32 (y + tea_func z sum (word k 0) (word k 1)) in
      let z := u32 (z + tea_func y sum (word k 2) (word k 3)) in
      enc_loop n' k sum y z
  end.

Definition tea_enc (v k : list Z) : list Z :=
  let '(y, z) := enc_loop ROUNDS k 0 (word v 0) (word v 1) in
  word_bytes y ++ word_bytes z.

Fixpoint dec_loop (n : nat) (k : list Z) (sum y z : Z) : Z * Z :=
  match n with
  | O => (y, z)
  | S n' =>
      let z := u32 (z - tea_func y sum (word k 2) (word k 3)) in
      let y := u32 (y - tea_func z sum (word k 0) (word k 1)) in
      let sum := u32 (sum - DELTA) in
      dec_loop n' k sum y z
  end.

Definition tea_dec (v k : list Z) : list Z :=
  let sum := u32 (DELTA * Z.of_nat ROUNDS) in
  let '(y, z) := dec_loop ROUNDS k sum (word v 0) (word v 1) in
  word_bytes y ++ word_bytes z.

(** ** Words and bytes *)

Lemma word_app w1 w2 : is_u32 w1 -> is_u32 w2 ->
  word (word_bytes w1 ++ word_bytes w2) 0 = w1 /\ word (word_bytes w1 ++ word_bytes w2) 1 = w2.
Proof.
  assert (D : forall w, is_u32 w ->
    u8 w + 256 * (u8 (w / 256) + 256 * (u8 (w / 65536) + 256 * u8 (w / 16777216))) = w).
  { intros w Hw. unfold is_u32, u8 in *.
    replace 65536 with (256 * 256) by lia. replace 16777216 with (256 * 256 * 256) by lia.
    rewrite <- !Z.div_div by lia.
    pose proof (Z_div_mod_eq_full w 256). pose proof (Z_div_mod_eq_full (w / 256) 256).
    pose proof (Z_div_mod_eq_full (w / 256 / 256) 256).
    rewrite (Z.mod_small (w / 256 / 256 / 256)); [lia|].
    split; [repeat apply Z.div_pos; lia|]. repeat apply Z.div_lt_upper_bound; lia. }
  intros H1 H2. split; [exact (D w1 H1)|exact (D w2 H2)].
Qed.

Lemma word_bytes_inv b : bytes b -> length b = 8%nat -> word_bytes (word b 0) ++ word_bytes (word b 1) = b.
Proof.
  intros Hb Hl. do 8 (destruct b as [|? b]; [done|]). destruct b; [|done].
  unfold bytes in Hb. rewrite !Forall_cons in Hb.
  destruct Hb as (H0 & H1 & H2 & H3 & H4 & H5 & H6 & H7 & _).
  assert (W : forall a b c d, is_byte a -> is_byte b -> is_byte c -> is_byte d ->
    word_bytes (a + 256 * (b + 256 * (c + 256 * d))) = [a; b; c; d]).
  { clear. intros a b c d Ha Hb Hc Hd. unfold word_bytes, u8, is_byte in *.
    set (w := a + 256 * (b + 256 * (c + 256 * d))).
    assert (w / 256 = b + 256 * (c + 256 * d)) as E1.
    { unfold w. rewrite Z.add_comm, Z.mul_comm, Z_div_plus_full_l by lia. rewrite (Z.div_small a); lia. }
    assert (w / 65536 = c + 256 * d) as E2.
    { replace 65536 with (256 * 256) by lia. rewrite <- Z.div_div, E1 by lia.
      rewrite Z.add_comm, Z.mul_comm, Z_div_plus_full_l by lia. rewrite (Z.div_small b); lia. }
    assert (w / 16777216 = d) as E3.
    { replace 16777216 with (65536 * 256) by lia. rewrite <- Z.div_div, E2 by lia.
      rewrite Z.add_comm, Z.mul_comm, Z_div_plus_full_l by lia. rewrite (Z.div_small c); lia. }
    rewrite E1, E2, E3. unfold w. rewrite !(Z.mul_comm 256), !Z_mod_plus_full, !Z.mod_small by lia. done. }
  unfold word. cbn [get]. change (word_bytes _ ++ word_bytes _) with
    (word_bytes (z + 256 * (z0 + 256 * (z1 + 256 * z2))) ++ word_bytes (z3 + 256 * (z4 + 256 * (z5 + 256 * z6)))).
  by rewrite !W.
Qed.

Lemma word_is_u32 b i : bytes b -> is_u32 (word b i).
Proof.
  intros Hb. unfold is_u32, word.
  pose proof (get_bytes b (4 * i) Hb). pose proof (get_bytes b (4 * i + 1) Hb).
  pose proof (get_bytes b (4 * i + 2) Hb). pose proof (get_bytes b (4 * i + 3) Hb).
  unfold is_byte in *. lia.
Qed.

(** ** The cipher is a bijection *)

Lemma u32_undo a f : is_u32 a -> u32 (u32 (a + f) - f) = a.
Proof.
  intros Ha. unfold u32. rewrite Zminus_mod_idemp_l. replace (a + f - f) with a by lia.
  by apply Z.mod_small.
Qed.

Lemma u32_redo a f : is_u32 a -> u32 (u32 (a - f) + f) = a.
Proof.
  intros Ha. unfold u32. rewrite Zplus_mod_idemp_l. replace (a - f + f) with a by lia.
  by apply Z.mod_small.
Qed.

(** The last round of deciphering first: both loops from the other end. *)
Lemma dec_loop_snoc n k : forall sum y z,
  dec_loop (S n) k sum y z
  = (let '(y, z) := dec_loop n k sum y z in
     let sum := Nat.iter n (fun s => u32 (s - DELTA)) sum in
     let z := u32 (z - tea_func y sum (word k 2) (word k 3)) in
     let y := u32 (y - tea_func z sum (word k 0) (word k 1)) in (y, z)).
Proof.
  induction n as [|n IH]; intros sum y z; [done|].
  change (dec_loop (S (S n)) k sum y z) with
    (dec_loop (S n) k (u32 (sum - DELTA))
      (u32 (y - tea_func (u32 (z - tea_func y sum (word k 2) (word k 3))) sum (word k 0) (word k 1)))
      (u32 (z - tea_func y sum (word k 2) (word k 3)))).
  rewrite IH. cbn [dec_loop]. destruct (dec_loop n k _ _ _) as [y' z'].
  by rewrite Nat.iter_succ_r.
Qed.

Lemma sum_back n s : is_u32 s ->
  Nat.iter n (fun s => u32 (s - DELTA)) (Nat.iter n (fun s => u32 (s + DELTA)) s) = s.
Proof.
  intros Hs. assert (R : forall n, is_u32 (Nat.iter n (fun s => u32 (s + DELTA)) s)).
  { intros [|m]; [done|]. apply u32_range. }
  induction n as [|n IH]; [done|]. rewrite Nat.iter_succ_r. cbn [Nat.iter nat_rect].
  rewrite u32_undo by apply R. done.
Qed.

(** Deciphering [n] rounds behind enciphering them. *)
Lemma dec_enc n k : forall sum y z, is_u32 sum -> is_u32 y -> is_u32 z ->
  let '(y', z') := enc_loop n k sum y z in
  dec_loop n k (Nat.iter n (fun s => u32 (s + DELTA)) sum) y' z' = (y, z) /\ is_u32 y' /\ is_u32 z'.
Proof.
  induction n as [|n IH]; intros sum y z Hs Hy Hz; [done|].
  cbn [enc_loop]. set (sum1 := u32 (sum + DELTA)).
  set (y1 := u32 (y + tea_func z sum1 (word k 0) (word k 1))).
  set (z1 := u32 (z + tea_func y1 sum1 (word k 2) (word k 3))).
  specialize (IH sum1 y1 z1 (u32_range _) (u32_range _) (u32_range _)).
  destruct (enc_loop n k sum1 y1 z1) as [y' z']. destruct IH as (E & Hy' & Hz').
  split_and!; [|done|done]. rewrite dec_loop_snoc, Nat.iter_succ_r. fold sum1. rewrite E.
  rewrite sum_back by apply u32_range. cbn zeta.
  unfold z1. rewrite u32_undo by done. unfold y1. by rewrite u32_undo by done.
Qed.

(** Enciphering behind deciphering. *)
Lemma enc_loop_snoc n k : forall sum y z,
  enc_loop (S n) k sum y z
  = (let '(y, z) := enc_loop n k sum y z in
     let sum := Nat.iter (S n) (fun s => u32 (s + DELTA)) sum in
     let y := u32 (y + tea_func z sum (word k 0) (word k 1)) in
     let z := u32 (z + tea_func y sum (word k 2) (word k 3)) in (y, z)).
Proof.
  induction n as [|n IH]; intros sum y z; [done|].
  change (enc_loop (S (S n)) k sum y z) with
    (let sum := u32 (sum + DELTA) in
     let y := u32 (y + tea_func z sum (word k 0) (word k 1)) in
     let z := u32 (z + tea_func y sum (word k 2) (word k 3)) in enc_loop (S n) k sum y z).
  cbn zeta. rewrite IH. cbn [enc_loop]. destruct (enc_loop n k _ _ _) as [y' z'].
  by rewrite (Nat.iter_succ_r (S n)).
Qed.

Lemma enc_dec n k : forall sum y z, is_u32 sum -> is_u32 y -> is_u32 z ->
  let '(y', z') := dec_loop n k (Nat.iter n (fun s => u32 (s + DELTA)) sum) y z in
  enc_loop n k sum y' z' = (y, z) /\ is_u32 y' /\ is_u32 z'.
Proof.
  induction n as [|n IH]; intros sum y z Hs Hy Hz; [done|].
  cbn [dec_loop]. set (s := Nat.iter (S n) _ sum).
  set (z1 := u32 (z - tea_func y s (word k 2) (word k 3))).
  set (y1 := u32 (y - tea_func z1 s (word k 0) (word k 1))).
  assert (E : u32 (s - DELTA) = Nat.iter n (fun s => u32 (s + DELTA)) sum).
  { unfold s. cbn [Nat.iter nat_rect]. apply u32_undo. destruct n; [done|apply u32_range]. }
  rewrite E. specialize (IH sum y1 z1 Hs (u32_range _) (u32_range _)).
  destruct (dec_loop n k _ y1 z1) as [y' z']. destruct IH as (E' & Hy' & Hz').
  split_and!; [|done|done]. rewrite enc_loop_snoc, E'. fold s. cbn zeta.
  unfold y1. rewrite u32_redo by done. unfold z1. by rewrite u32_redo by done.
Qed.

Lemma sum_up n : Nat.iter n (fun s => u32 (s + DELTA)) 0 = u32 (DELTA * Z.of_nat n).
Proof.
  induction n as [|n IH]; [done|]. cbn [Nat.iter nat_rect]. unfold Nat.iter in IH. rewrite IH.
  unfold u32. rewrite Zplus_mod_idemp_l. f_equal. lia.
Qed.

(** Enciphering and deciphering undo each other, on every block and under every
    key. *)
Theorem tea_inverse (v k : list Z) (Hv : bytes v) (Hl : length v = 8%nat) :
  tea_dec (tea_enc v k) k = v /\ tea_enc (tea_dec v k) k = v.
Proof.
  pose proof (word_is_u32 v 0 Hv) as H0. pose proof (word_is_u32 v 1 Hv) as H1.
  assert (Z0 : is_u32 0) by done. unfold tea_enc, tea_dec. split.
  - pose proof (dec_enc ROUNDS k 0 (word v 0) (word v 1) Z0 H0 H1) as H.
    destruct (enc_loop ROUNDS k 0 (word v 0) (word v 1)) as [y z].
    rewrite sum_up in H. destruct H as (E & Hy & Hz). cbn zeta.
    destruct (word_app y z Hy Hz) as [-> ->]. rewrite E. by apply word_bytes_inv.
  - pose proof (enc_dec ROUNDS k 0 (word v 0) (word v 1) Z0 H0 H1) as H. rewrite sum_up in H. cbn zeta.
    destruct (dec_loop ROUNDS k (u32 (DELTA * Z.of_nat ROUNDS)) (word v 0) (word v 1)) as [y z].
    destruct H as (E & Hy & Hz). destruct (word_app y z Hy Hz) as [-> ->]. rewrite E. by apply word_bytes_inv.
Qed.

(** The published vector: the block and the key of zeros. *)
Example tea_vector :
  tea_enc (zeros 8) (zeros 16) = word_bytes 0x41EA3A0A ++ word_bytes 0x94BAA940.
Proof. vm_compute. done. Qed.
