(* ===== verification/Hashtable.v ===== *)
(** * The hash table: [bertos/struct/hashtable.[ch]]

    Open addressing with double hashing, for keys of at most 255 bytes that are
    either found in the data by a hook or, cut to 15 bytes, copied into the
    table.  A bucket is a pointer, 0 when it is empty.  The tables are powers
    of two, and the step of the search is odd, so that a search visits every
    bucket; its [fuel] counts the steps ([None]: still searching).  The checks
    of a [_DEBUG] build are what [allowed] asks of a client. *)

From Stdlib Require Import ZArith Znumtheory Zpow_facts Lia Bool List.
From stdpp Require Import prelude gmap.
From S2P Require Import Prelude.

Open Scope Z_scope.

Definition INTERNAL_KEY_MAX_LENGTH : Z := 15.

(** [key_mem]: the bytes of the key copies, used when [key_internal]. *)
Record HashTable := mkHT {
  mem : list Z;
  max_elts_log2 : Z;
  key_internal : bool;
  key_mem : list Z
}.

Definition ROTL (v rot : Z) : Z := Z.lor (u16 (Z.shiftl v rot)) (Z.shiftr v (16 - rot)).
Definition ROTR (v rot : Z) : Z := Z.lor (Z.shiftr v rot) (u16 (Z.shiftl v (16 - rot))).

Section Table.
(** The key of an element. *)
Variable hook : Z -> list Z.

Definition NODE_EMPTY (ht : HashTable) (index : Z) : bool := get (mem ht) index =? 0.

Definition key_internal_get_ptr (ht : HashTable) (index : Z) : Z :=
  index * (INTERNAL_KEY_MAX_LENGTH + 1).

Definition node_get_key (ht : HashTable) (index : Z) : list Z :=
  if key_internal ht then
    let k := key_internal_get_ptr ht index in
    bytes_at (key_mem ht) (k + 1) (get (key_mem ht) k)
  else hook (get (mem ht) index).

(** Lengths and bytes agree. *)
Definition node_key_match (ht : HashTable) (index : Z) (key : list Z) : bool :=
  bool_decide (key = node_get_key ht index).

(** The bytes of the key are [char]s, which have a sign. *)
Definition calc_hash (key : list Z) : Z :=
  let hash := fold_left (fun hash c => Z.lxor (ROTL hash 4) (u16 (i8 c))) key (Z.of_nat (length key)) in
  Z.lxor (Z.lxor hash (Z.shiftr hash 6)) (Z.shiftr hash 13).

Definition stops (ht : HashTable) (key : list Z) (index : Z) : bool :=
  NODE_EMPTY ht index || node_key_match ht index key.

Definition mask (ht : HashTable) : Z := u16 (Z.shiftl 1 (max_elts_log2 ht) - 1).

Fixpoint search (fuel : nat) (ht : HashTable) (key : list Z) (step first_index index : Z)
  : option (option Z) :=
  match fuel with
  | O => None
  | S fuel' =>
      let index := Z.land (u16 (index + step)) (mask ht) in
      if stops ht key index then Some (Some index)
      else if negb (index =? first_index) then search fuel' ht key step first_index index
      else Some None
  end.

Definition step_of (ht : HashTable) (hash : Z) : Z :=
  Z.lor (Z.land (ROTR hash (max_elts_log2 ht)) (mask ht)) 1.

(** The node, or null when the table is full. *)
Definition perform_lookup (fuel : nat) (ht : HashTable) (key : list Z) : option (option Z) :=
  let hash := calc_hash key in
  let index := Z.land hash (mask ht) in
  if stops ht key index then Some (Some index)
  else search fuel ht key (step_of ht hash) index index.

Definition ht_init (ht : HashTable) : HashTable :=
  mkHT (replicate (Z.to_nat (Z.shiftl 1 (max_elts_log2 ht))) 0) (max_elts_log2 ht)
    (key_internal ht) (key_mem ht).

Definition cut (ht : HashTable) (key : list Z) : list Z :=
  if key_internal ht then take (Z.to_nat INTERNAL_KEY_MAX_LENGTH) key else key.

(** The node's key, when it is internal, and its data. *)
Definition set_node (ht : HashTable) (node : Z) (key : list Z) (data : Z) : HashTable :=
  let keys :=
    if key_internal ht then
      copy_at (key_mem ht) (key_internal_get_ptr ht node) (Z.of_nat (length key) :: key)
    else key_mem ht in
  mkHT (upd (mem ht) node data) (max_elts_log2 ht) (key_internal ht) keys.

Definition insert (fuel : nat) (ht : HashTable) (key : list Z) (data : Z)
  : option (bool * HashTable) :=
  if data =? 0 then Some (false, ht)
  else
    let key := cut ht key in
    match perform_lookup fuel ht key with
    | None => None
    | Some None => Some (false, ht)
    | Some (Some node) =>
        Some (true, set_node ht node key data)
    end.

Definition ht_insert_with_key (fuel : nat) (ht : HashTable) (key : list Z) (data : Z)
  : option (bool * HashTable) := insert fuel ht key data.

Definition ht_insert (fuel : nat) (ht : HashTable) (data : Z) : option (bool * HashTable) :=
  insert fuel ht (hook data) data.

Definition ht_find (fuel : nat) (ht : HashTable) (key : list Z) : option Z :=
  let key := cut ht key in
  match perform_lookup fuel ht key with
  | None => None
  | Some None => Some 0
  | Some (Some node) => if NODE_EMPTY ht node then Some 0 else Some (get (mem ht) node)
  end.

(** *** Iterators: positions in the table, from [pos] to its end *)
Record HashIterator := mkIter { pos : Z; end_ : Z }.

Fixpoint skip_empty (fuel : nat) (ht : HashTable) (h : HashIterator) : option HashIterator :=
  if negb (pos h =? end_ h) && NODE_EMPTY ht (pos h) then
    match fuel with
    | O => None
    | S fuel' => skip_empty fuel' ht (mkIter (pos h + 1) (end_ h))
    end
  else Some h.

Definition ht_iter_begin (fuel : nat) (ht : HashTable) : option HashIterator :=
  skip_empty fuel ht (mkIter 0 (Z.shiftl 1 (max_elts_log2 ht))).

Definition ht_iter_end (ht : HashTable) : HashIterator :=
  mkIter (Z.shiftl 1 (max_elts_log2 ht)) (Z.shiftl 1 (max_elts_log2 ht)).

Definition ht_iter_cmp (it1 it2 : HashIterator) : bool := pos it1 =? pos it2.

Definition ht_iter_get (ht : HashTable) (iter : HashIterator) : Z := get (mem ht) (pos iter).

Definition ht_iter_next (fuel : nat) (ht : HashTable) (h : HashIterator) : option HashIterator :=
  skip_empty fuel ht (mkIter (pos h + 1) (end_ h)).

(** A client that walks the table: the elements it gets. *)
Fixpoint walk (fuel : nat) (ht : HashTable) (it : option HashIterator) : option (list Z) :=
  match fuel, it with
  | S fuel', Some h =>
      if ht_iter_cmp h (ht_iter_end ht) then Some []
      else option_map (cons (ht_iter_get ht h)) (walk fuel' ht (ht_iter_next fuel' ht h))
  | _, _ => None
  end.

(** ** The search visits every bucket *)

Section Probe.
Variable ht : HashTable.
Hypothesis Hn : 0 <= max_elts_log2 ht <= 14.
Local Abbreviation N := (2 ^ max_elts_log2 ht).

Lemma N_range : 1 <= N <= 16384.
Proof.
  split; [apply (Z.pow_le_mono_r 2 0); lia|apply (Z.pow_le_mono_r 2 _ 14); lia].
Qed.

Lemma mask_mod x : Z.land x (mask ht) = x mod N.
Proof.
  pose proof N_range. unfold mask. rewrite Z.shiftl_1_l, u16_small by lia.
  rewrite Z.sub_1_r, <- Z.ones_equiv. apply Z.land_ones. lia.
Qed.

Variables start step : Z.
Hypothesis Hstart : 0 <= start < N.
Hypothesis Hodd : Z.odd step = true.

(** The [j]-th bucket that is looked at. *)
Definition probe (j : Z) : Z := (start + j * step) mod N.

Lemma probe_range j : 0 <= probe j < N.
Proof. apply Z.mod_pos_bound. pose proof N_range. lia. Qed.

Lemma probe_0 : probe 0 = start.
Proof. unfold probe. rewrite Z.mul_0_l, Z.add_0_r. by apply Z.mod_small. Qed.

Lemma odd_rel_prime : rel_prime step N.
Proof.
  apply rel_prime_Zpower_r; [lia|]. apply bezout_rel_prime.
  apply Z.odd_spec in Hodd as [q Hq]. exists 1 (- q). lia.
Qed.

Lemma probe_onto t : 0 <= t < N -> exists j, 0 <= j < N /\ probe j = t.
Proof.
  intros Ht. destruct (rel_prime_bezout _ _ odd_rel_prime) as [u v E].
  pose proof N_range. exists (((t - start) * u) mod N). split; [apply Z.mod_pos_bound; lia|].
  unfold probe. rewrite <- (Z.add_mod_idemp_r start), <- Z.mul_mod_idemp_l, Z.mod_mod by lia.
  rewrite Z.mul_mod_idemp_l, Z.add_mod_idemp_r by lia.
  replace (start + (t - start) * u * step) with (t + (- (t - start) * v) * N).
  - rewrite Z_mod_plus_full. by apply Z.mod_small.
  - assert (u * step = 1 - v * N) as E2 by lia.
    replace (start + (t - start) * u * step) with (start + (t - start) * (u * step)) by ring.
    rewrite E2. ring.
Qed.

Lemma probe_back j : 0 < j <= N -> probe j = start -> j = N.
Proof.
  intros Hj E. pose proof N_range. destruct (decide (j = N)); [done|exfalso].
  assert (N | step * j) as D.
  { unfold probe in E. rewrite <- (Z.mod_small start N) in E at 2 by lia.
    apply Z.mod_divide; [lia|]. replace (step * j) with (start + j * step - start) by lia.
    rewrite Zminus_mod, E, Z.sub_diag. done. }
  apply Gauss in D; [|apply rel_prime_sym, odd_rel_prime].
  apply Z.divide_pos_le in D; lia.
Qed.

Lemma probe_next j : Z.land (u16 (probe j + step)) (mask ht) = probe (j + 1).
Proof.
  rewrite mask_mod. unfold u16, probe. pose proof N_range.
  assert (exists c, 65536 = c * N) as [c Ec].
  { exists (2 ^ (16 - max_elts_log2 ht)). rewrite <- Z.pow_add_r by lia.
    by replace (16 - max_elts_log2 ht + max_elts_log2 ht) with 16 by lia. }
  rewrite Ec, (Z.mul_comm c). rewrite Z.rem_mul_r by lia.
  rewrite (Z.mul_comm N), Z_mod_plus_full, Z.mod_mod, Z.add_mod_idemp_l by lia.
  f_equal. lia.
Qed.

Lemma search_spec key fuel : forall j,
  0 <= j < N -> N - j <= Z.of_nat fuel ->
  (forall i, 0 <= i <= j -> stops ht key (probe i) = false) ->
  (exists k, j < k < N /\ stops ht key (probe k) = true /\
     (forall i, 0 <= i < k -> stops ht key (probe i) = false) /\
     search fuel ht key step start (probe j) = Some (Some (probe k))) \/
  ((forall i, 0 <= i < N -> stops ht key (probe i) = false) /\
   search fuel ht key step start (probe j) = Some None).
Proof.
  induction fuel as [|fuel IH]; intros j Hj Hf Hno; [lia|]. cbn [search]. rewrite probe_next.
  destruct (decide (j + 1 = N)) as [Hend|Hend].
  - right. assert (E : probe (j + 1) = start).
    { unfold probe. rewrite Hend, (Z.mul_comm N), Z_mod_plus_full. by apply Z.mod_small. }
    rewrite E, <- probe_0, Hno, probe_0, Z.eqb_refl by lia. cbn. split; [|done].
    intros i Hi. apply Hno. lia.
  - destruct (stops ht key (probe (j + 1))) eqn:Es.
    + left. exists (j + 1). split_and!; try lia; [done| |done]. intros i Hi. apply Hno. lia.
    + assert (negb (probe (j + 1) =? start) = true) as ->.
      { apply negb_true_iff, Z.eqb_neq. intros E. apply Hend, probe_back; [lia|done]. }
      destruct (IH (j + 1)) as [(k & Hk & H)|H]; [lia|lia| | |].
      * intros i Hi. destruct (decide (i = j + 1)) as [->|]; [done|]. apply Hno. lia.
      * left. exists k. split; [lia|done].
      * by right.
Qed.
End Probe.

(** ** What a lookup finds *)

Definition size_ok (ht : HashTable) : Prop :=
  0 <= max_elts_log2 ht <= 14 /\ Z.of_nat (length (mem ht)) = 2 ^ max_elts_log2 ht /\
  Z.of_nat (length (key_mem ht)) = if key_internal ht then 16 * 2 ^ max_elts_log2 ht else 0.

(** The [j]-th bucket for a key. *)
Definition path (ht : HashTable) (key : list Z) : Z -> Z :=
  probe ht (Z.land (calc_hash key) (mask ht)) (step_of ht (calc_hash key)).

Lemma step_odd ht h : Z.odd (step_of ht h) = true.
Proof. unfold step_of. by rewrite <- Z.bit0_odd, Z.lor_spec, orb_true_r. Qed.

Lemma start_range ht h : 0 <= max_elts_log2 ht <= 14 -> 0 <= Z.land h (mask ht) < 2 ^ max_elts_log2 ht.
Proof. intros Hn. rewrite mask_mod by done. apply Z.mod_pos_bound. pose proof (N_range ht Hn). lia. Qed.

Lemma perform_lookup_spec ht key fuel :
  0 <= max_elts_log2 ht <= 14 -> 2 ^ max_elts_log2 ht <= Z.of_nat fuel ->
  (exists k, 0 <= k < 2 ^ max_elts_log2 ht /\ stops ht key (path ht key k) = true /\
     (forall i, 0 <= i < k -> stops ht key (path ht key i) = false) /\
     perform_lookup fuel ht key = Some (Some (path ht key k))) \/
  ((forall i, 0 <= i < 2 ^ max_elts_log2 ht -> stops ht key (path ht key i) = false) /\
   perform_lookup fuel ht key = Some None).
Proof.
  intros Hn Hf. pose proof (N_range ht Hn). pose proof (start_range ht (calc_hash key) Hn) as Hs.
  assert (E0 : path ht key 0 = Z.land (calc_hash key) (mask ht)) by by apply probe_0.
  unfold perform_lookup. rewrite <- E0. destruct (stops ht key (path ht key 0)) eqn:Es.
  - left. exists 0. split_and!; try lia; done.
  - rewrite E0. destruct (search_spec ht Hn _ _ Hs (step_odd ht (calc_hash key)) key fuel 0)
      as [(k & Hk & H1 & H2 & H3)|[H1 H2]]; [lia|lia| | |].
    + intros i Hi. by replace i with 0 by lia.
    + left. exists k. rewrite probe_0 in H3 by done. split_and!; try lia; done.
    + right. rewrite probe_0 in H2 by done. done.
Qed.

(** ** The table as a map *)

Definition occupied (ht : HashTable) (i : Z) : Prop := get (mem ht) i <> 0.

(** [M]: what has been inserted under which key. *)
Record holds (ht : HashTable) (M : gmap (list Z) Z) : Prop := {
  h_size : size_ok ht;
  h_keys : key_internal ht = true -> forall i, 0 <= i < 2 ^ max_elts_log2 ht -> occupied ht i ->
    0 <= get (key_mem ht) (16 * i) <= 15;
  h_found : forall i, 0 <= i < 2 ^ max_elts_log2 ht -> occupied ht i ->
    exists k, 0 <= k < 2 ^ max_elts_log2 ht /\ path ht (node_get_key ht i) k = i /\
      forall j, 0 <= j < k -> stops ht (node_get_key ht i) (path ht (node_get_key ht i) j) = false;
  h_map : forall key d, M !! key = Some d <->
    exists i, 0 <= i < 2 ^ max_elts_log2 ht /\ occupied ht i /\ node_get_key ht i = key /\ get (mem ht) i = d
}.

Lemma stops_match ht i : stops ht (node_get_key ht i) i = true.
Proof. unfold stops, node_key_match. rewrite bool_decide_eq_true_2 by done. apply orb_true_r. Qed.

Lemma stops_false ht key i :
  stops ht key i = false <-> occupied ht i /\ key <> node_get_key ht i.
Proof.
  unfold stops, NODE_EMPTY, node_key_match, occupied. rewrite orb_false_iff, Z.eqb_neq.
  by rewrite bool_decide_eq_false.
Qed.

(** The only bucket that can hold a key is the one its search stops at. *)
Lemma found_there ht M i k :
  holds ht M -> 0 <= i < 2 ^ max_elts_log2 ht -> occupied ht i ->
  let key := node_get_key ht i in
  0 <= k -> stops ht key (path ht key k) = true ->
  (forall j, 0 <= j < k -> stops ht key (path ht key j) = false) -> path ht key k = i.
Proof.
  intros H Hi Ho key Hk Hs Hb. destruct (h_found _ _ H i Hi Ho) as (k' & Hk' & E & Hb').
  fold key in E, Hb'.
  destruct (Z.lt_trichotomy k k') as [Hlt|[->|Hgt]]; [|done|].
  - rewrite Hb' in Hs; [done|lia].
  - specialize (Hb k' ltac:(lia)). rewrite E in Hb. unfold key in Hb. rewrite stops_match in Hb. done.
Qed.

Section Insert.
Variables (ht : HashTable) (M : gmap (list Z) Z) (fuel : nat).
Hypothesis H : holds ht M.
Hypothesis Hf : 2 ^ max_elts_log2 ht <= Z.of_nat fuel.
Local Abbreviation N := (2 ^ max_elts_log2 ht).

(** A key that is in the table is found. *)
Lemma lookup_found key d :
  M !! key = Some d ->
  exists i, 0 <= i < N /\ perform_lookup fuel ht key = Some (Some i) /\ get (mem ht) i = d /\ d <> 0.
Proof.
  intros (i & Hi & Ho & <- & <-)%(h_map _ _ H).
  destruct (h_size _ _ H) as (Hn & _).
  destruct (perform_lookup_spec ht (node_get_key ht i) fuel Hn Hf) as [(k & Hk & Hs & Hb & E)|[Hno _]].
  - rewrite (found_there ht M i k H Hi Ho) in E; [by exists i|lia|done|done].
  - destruct (h_found _ _ H i Hi Ho) as (k & Hk & E & _). specialize (Hno k Hk).
    rewrite E, stops_match in Hno. done.
Qed.

(** One that is not leads to an empty bucket, or the table is full. *)
Lemma lookup_new key :
  M !! key = None ->
  (exists i, 0 <= i < N /\ perform_lookup fuel ht key = Some (Some i) /\ get (mem ht) i = 0) \/
  (perform_lookup fuel ht key = Some None /\ forall i, 0 <= i < N -> occupied ht i).
Proof.
  intros Hnew. destruct (h_size _ _ H) as (Hn & _).
  destruct (perform_lookup_spec ht key fuel Hn Hf) as [(k & Hk & Hs & Hb & E)|[Hno E]].
  - left. exists (path ht key k). split_and!; [apply probe_range; exact Hn|apply probe_range; exact Hn|done|].
    destruct (decide (get (mem ht) (path ht key k) = 0)) as [|Ho]; [done|exfalso].
    assert (key = node_get_key ht (path ht key k)) as Ek.
    { unfold stops, NODE_EMPTY, node_key_match in Hs. apply orb_true_iff in Hs as [Hs|Hs]; zbool; [done|].
      by apply bool_decide_eq_true in Hs. }
    assert (M !! key = Some (get (mem ht) (path ht key k))) as E2; [|congruence].
    apply (h_map _ _ H). exists (path ht key k). split_and!; try done; apply probe_range; exact Hn.
  - right. split; [done|]. intros i Hi.
    destruct (probe_onto ht Hn (Z.land (calc_hash key) (mask ht)) (step_of ht (calc_hash key))
      (step_odd ht _) i Hi) as (j & Hj & <-).
    specialize (Hno j Hj). by apply stops_false in Hno as [? _].
Qed.

(** *** Writing a node *)
Variables (p : Z) (key : list Z) (d : Z).
Hypothesis Hp : 0 <= p < N.
Hypothesis Hlook : perform_lookup fuel ht key = Some (Some p).
Hypothesis Hd : d <> 0.
Hypothesis Hlen : key_internal ht = true -> (length key <= 15)%nat.
Hypothesis Hhook : key_internal ht = false -> hook d = key.
Local Abbreviation ht' := (set_node ht p key d).

Lemma set_node_mem i : 0 <= i -> get (mem ht') i = if i =? p then d else get (mem ht) i.
Proof.
  intros Hi. destruct (h_size _ _ H) as (_ & Hl & _). cbn [set_node mem].
  destruct (i =? p) eqn:E; zbool; [subst; apply get_upd_eq; lia|apply get_upd_ne; lia].
Qed.

Lemma key_room : key_internal ht = true ->
  0 <= 16 * p /\ 16 * p + 1 + Z.of_nat (length key) <= Z.of_nat (length (key_mem ht)).
Proof.
  intros Ei. destruct (h_size _ _ H) as (_ & _ & Hl). rewrite Ei in Hl. pose proof (Hlen Ei). lia.
Qed.

Lemma set_node_key : node_get_key ht' p = key.
Proof.
  unfold node_get_key, set_node, key_internal_get_ptr, INTERNAL_KEY_MAX_LENGTH. cbn [key_internal key_mem mem].
  destruct (Bool.bool_dec (key_internal ht) true) as [Ei|Ei%Bool.not_true_is_false]; rewrite Ei.
  - destruct (key_room Ei). replace (p * (15 + 1)) with (16 * p) by lia.
    destruct (bytes_at_copy (key_mem ht) (16 * p) (Z.of_nat (length key)) key) as [E1 E2]; [lia|lia|].
    by rewrite E2, E1.
  - destruct (h_size _ _ H) as (_ & Hl & _). rewrite get_upd_eq by lia. by apply Hhook.
Qed.

Lemma set_node_len i : key_internal ht = true -> 0 <= i < N ->
  get (key_mem ht') (16 * i) = if i =? p then Z.of_nat (length key) else get (key_mem ht) (16 * i).
Proof.
  intros Ei Hi. destruct (key_room Ei) as [R1 R2]. unfold set_node, key_internal_get_ptr, INTERNAL_KEY_MAX_LENGTH.
  cbn [key_mem]. rewrite Ei. replace (p * (15 + 1)) with (16 * p) by lia.
  pose proof (Hlen Ei). destruct (i =? p) eqn:E; zbool.
  - subst i. by apply bytes_at_copy.
  - rewrite !get_lookup, copy_at_lookup by (cbn [length]; lia).
    rewrite decide_False by (cbn [length]; lia). done.
Qed.

Lemma set_node_other i : 0 <= i < N -> i <> p -> occupied ht i -> node_get_key ht' i = node_get_key ht i.
Proof.
  intros Hi Hne Ho. pose proof (set_node_mem i ltac:(lia)) as Em. rewrite (proj2 (Z.eqb_neq _ _) Hne) in Em.
  unfold node_get_key. change (key_internal ht') with (key_internal ht).
  destruct (Bool.bool_dec (key_internal ht) true) as [Ei|Ei%Bool.not_true_is_false]; rewrite Ei; [|by rewrite Em].
  destruct (key_room Ei) as [R1 R2]. pose proof (h_keys _ _ H Ei i Hi Ho) as Hkl.
  unfold key_internal_get_ptr, INTERNAL_KEY_MAX_LENGTH. replace (i * (15 + 1)) with (16 * i) by lia.
  rewrite (set_node_len i Ei Hi), (proj2 (Z.eqb_neq _ _) Hne).
  apply bytes_at_agree; [|lia]. intros x Hx.
  unfold set_node, key_internal_get_ptr, INTERNAL_KEY_MAX_LENGTH. cbn [key_mem]. rewrite Ei.
  replace (p * (15 + 1)) with (16 * p) by lia. pose proof (Hlen Ei).
  rewrite copy_at_lookup by (cbn [length]; lia). by rewrite decide_False by (cbn [length]; lia).
Qed.

Lemma set_node_occupied i : 0 <= i -> occupied ht' i <-> i = p \/ occupied ht i.
Proof.
  intros Hi. unfold occupied. rewrite set_node_mem by done. destruct (i =? p) eqn:E; zbool; naive_solver.
Qed.

(** No other bucket holds the key. *)
Lemma others_differ i : 0 <= i < N -> occupied ht i -> i <> p -> node_get_key ht i <> key.
Proof.
  intros Hi Ho Hne Ek. destruct (lookup_found key (get (mem ht) i)) as (i' & _ & E & _).
  { apply (h_map _ _ H). by exists i. }
  destruct (h_size _ _ H) as (Hn & _).
  destruct (perform_lookup_spec ht key fuel Hn Hf) as [(k & Hk & Hs & Hb & E2)|[_ E2]]; [|congruence].
  subst key. rewrite (found_there ht M i k H Hi Ho) in E2 by (done || lia). congruence.
Qed.

Lemma set_node_stops key' i : 0 <= i < N ->
  stops ht' key' i = if i =? p then bool_decide (key' = key) else stops ht key' i.
Proof.
  intros Hi. unfold stops, NODE_EMPTY, node_key_match. rewrite set_node_mem by lia.
  destruct (i =? p) eqn:E; zbool.
  - subst i. rewrite set_node_key. by rewrite (proj2 (Z.eqb_neq _ _) Hd).
  - destruct (get (mem ht) i =? 0) eqn:Eo; zbool; [done|]. by rewrite set_node_other.
Qed.

Lemma path_range key' k : 0 <= path ht key' k < N.
Proof. destruct (h_size _ _ H) as (Hn & _). by apply probe_range. Qed.

Lemma set_node_size : size_ok ht'.
Proof.
  destruct (h_size _ _ H) as (Hn & Hl & Hk). unfold size_ok, set_node. cbn [max_elts_log2 mem key_mem key_internal].
  rewrite length_upd. split_and!; try lia. destruct (Bool.bool_dec (key_internal ht) true) as [Ei|Ei%Bool.not_true_is_false]; rewrite Ei in Hk |- *; [|done].
  destruct (key_room Ei). unfold key_internal_get_ptr, INTERNAL_KEY_MAX_LENGTH.
  rewrite length_copy_at; cbn [length]; lia.
Qed.

(** The search for the new key stops at its node. *)
Lemma looked_up : exists k, 0 <= k < N /\ path ht key k = p /\ stops ht key p = true /\
  forall j, 0 <= j < k -> stops ht key (path ht key j) = false.
Proof.
  destruct (h_size _ _ H) as (Hn & _).
  destruct (perform_lookup_spec ht key fuel Hn Hf) as [(k & Hk & Hs & Hb & E)|[_ E]]; [|congruence].
  rewrite Hlook in E. injection E as E. exists k. rewrite E. split_and!; try done; lia.
Qed.

Lemma set_node_path : exists k, 0 <= k < N /\ path ht' key k = p /\
  forall j, 0 <= j < k -> stops ht' key (path ht' key j) = false.
Proof.
  destruct looked_up as (k & Hk & E & Hs & Hb). exists k. split_and!; [lia|lia|done|].
  intros j Hj. change (path ht' key j) with (path ht key j).
  rewrite set_node_stops by apply path_range. specialize (Hb j Hj).
  destruct (path ht key j =? p) eqn:Ej; zbool; [congruence|done].
Qed.

(** What the node held before was under the same key. *)
Lemma replaced_key : occupied ht p -> node_get_key ht p = key.
Proof.
  intros Ho. destruct looked_up as (k & _ & _ & Hs & _). unfold stops, NODE_EMPTY, node_key_match in Hs.
  apply orb_true_iff in Hs as [Hs|Hs]; zbool; [done|]. by apply bool_decide_eq_true in Hs.
Qed.

Lemma set_node_holds : holds ht' (<[key := d]> M).
Proof.
  split; try change (max_elts_log2 ht') with (max_elts_log2 ht).
  - apply set_node_size.
  - intros Ei i Hi Ho. rewrite (set_node_len i Ei Hi). destruct (i =? p) eqn:E; zbool.
    + pose proof (Hlen Ei). lia.
    + apply set_node_occupied in Ho as [|Ho]; [done|by apply (h_keys _ _ H)|lia].
  - intros i Hi Ho. destruct (decide (i = p)) as [->|Hne]; [rewrite set_node_key; apply set_node_path|].
    apply set_node_occupied in Ho as [|Ho]; [done| |lia].
    rewrite set_node_other by done. pose proof (others_differ i Hi Ho Hne) as Hdiff.
    destruct (h_found _ _ H i Hi Ho) as (k & Hk & E & Hb). exists k. split_and!; [lia|lia|done|].
    intros j Hj. change (path ht' (node_get_key ht i) j) with (path ht (node_get_key ht i) j).
    rewrite set_node_stops by apply path_range. rewrite (Hb j Hj).
    destruct (_ =? p); [by apply bool_decide_eq_false|done].
  - intros key' d'. destruct (decide (key' = key)) as [->|Hne].
    + rewrite lookup_insert_eq. split.
      * intros [= <-]. exists p. split_and!; try lia; [by apply set_node_occupied; [lia|left]|apply set_node_key|].
        rewrite set_node_mem by lia. by rewrite Z.eqb_refl.
      * intros (i & Hi & Ho & Ek & <-). f_equal. rewrite set_node_mem by lia.
        destruct (i =? p) eqn:E; zbool; [done|]. apply set_node_occupied in Ho as [|Ho]; [done| |lia].
        rewrite set_node_other in Ek by done. by destruct (others_differ i Hi Ho E).
    + rewrite lookup_insert_ne by done. rewrite (h_map _ _ H). split.
      * intros (i & Hi & Ho & Ek & Em). exists i. assert (i <> p) as Hip.
        { intros ->. rewrite replaced_key in Ek by done. congruence. }
        split_and!; try lia; [apply set_node_occupied; [lia|by right]|by rewrite set_node_other|].
        rewrite set_node_mem by lia. by rewrite (proj2 (Z.eqb_neq _ _) Hip).
      * intros (i & Hi & Ho & Ek & Em). rewrite set_node_mem in Em by lia.
        destruct (i =? p) eqn:E; zbool; [subst i; rewrite set_node_key in Ek; congruence|].
        apply set_node_occupied in Ho as [|Ho]; [done| |lia]. rewrite set_node_other in Ek by done.
        by exists i.
Qed.
End Insert.

(** ** The empty table *)

Lemma ht_init_holds ht : size_ok ht -> holds (ht_init ht) ∅.
Proof.
  intros (Hn & Hl & Hk).
  assert (forall i, ~ occupied (ht_init ht) i) as Hno.
  { intros i Ho. apply Ho. unfold ht_init. cbn [mem]. rewrite get_lookup.
    destruct (_ !! _) as [x|] eqn:E; [|done]. by apply lookup_replicate in E as [-> _]. }
  split.
  - split; [exact Hn|]. split; [|exact Hk]. unfold ht_init. cbn [mem max_elts_log2].
    rewrite length_replicate, Z.shiftl_1_l. apply Z2Nat.id. apply Z.pow_nonneg. lia.
  - intros _ i _ Ho. by destruct (Hno i).
  - intros i _ Ho. by destruct (Hno i).
  - intros key d. rewrite lookup_empty. split; [done|]. intros (i & _ & Ho & _). by destruct (Hno i).
Qed.

Lemma filter_id {A} (P : A -> Prop) `{forall x, Decision (P x)} (l : list A) :
  (forall x, x ∈ l -> P x) -> filter P l = l.
Proof.
  intros HP. induction l as [|x l IH]; [done|]. rewrite filter_cons_True by (apply HP; left).
  f_equal. apply IH. intros y Hy. apply HP. by right.
Qed.

(** ** How full the table is *)

Section Size.
Variables (ht : HashTable) (M : gmap (list Z) Z).
Hypothesis H : holds ht M.
Local Abbreviation N := (2 ^ max_elts_log2 ht).

(** The buckets in use, in order. *)
Definition used : list Z := filter (fun i => get (mem ht) i <> 0) (seqZ 0 N).

Lemma elem_used i : i ∈ used <-> 0 <= i < N /\ occupied ht i.
Proof. unfold used. rewrite list_elem_of_filter, elem_of_seqZ. unfold occupied. rewrite Z.add_0_l. tauto. Qed.

Lemma keys_inj i j :
  0 <= i < N -> occupied ht i -> 0 <= j < N -> occupied ht j -> node_get_key ht i = node_get_key ht j -> i = j.
Proof.
  intros Hi Hoi Hj Hoj E. destruct (h_size _ _ H) as (Hn & _).
  destruct (h_found _ _ H j Hj Hoj) as (k & Hk & Ek & Hb).
  rewrite <- E in Ek, Hb. rewrite <- Ek. symmetry.
  apply (found_there ht M i k H Hi Hoi); [lia| |done]. rewrite Ek, E. apply stops_match.
Qed.

Lemma used_keys_NoDup : NoDup (map (node_get_key ht) used).
Proof.
  apply NoDup_fmap_2_strong; [|apply NoDup_filter, NoDup_seqZ].
  intros i j [Hi Hoi]%elem_used [Hj Hoj]%elem_used. by apply keys_inj.
Qed.

Lemma dom_used : dom M = list_to_set (C := gset (list Z)) (map (node_get_key ht) used).
Proof.
  apply set_eq. intros key. rewrite elem_of_dom, elem_of_list_to_set, list_elem_of_fmap. split.
  - intros [d (i & Hi & Ho & Ek & _)%(h_map _ _ H)]. exists i. by rewrite elem_used.
  - intros (i & -> & [Hi Ho]%elem_used). exists (get (mem ht) i). apply (h_map _ _ H). by exists i.
Qed.

Lemma size_used : size M = length used.
Proof.
  rewrite <- size_dom, dom_used, size_list_to_set by apply used_keys_NoDup. apply length_map.
Qed.

Lemma full_iff : (forall i, 0 <= i < N -> occupied ht i) <-> Z.of_nat (size M) = N.
Proof.
  pose proof (h_size _ _ H) as (Hn & _). pose proof (N_range ht Hn).
  assert (Hlen : length (seqZ 0 N) = Z.to_nat N) by apply length_seqZ.
  rewrite size_used. split.
  - intros Hall. unfold used. rewrite filter_id; [lia|].
    intros i Hi%elem_of_seqZ. apply Hall. lia.
  - intros E i Hi. destruct (decide (get (mem ht) i <> 0)) as [Ho|Ho]; [done|exfalso].
    pose proof (length_filter_lt (fun i => get (mem ht) i <> 0) (seqZ 0 N) i) as Hlt.
    unfold used in E. rewrite elem_of_seqZ in Hlt. specialize (Hlt ltac:(lia) Ho). lia.
Qed.

(** The elements of the table, in the order of an iterator. *)
Definition elements : list Z := map (get (mem ht)) used.

Lemma elements_values : elements ≡ₚ (map_to_list M).*2.
Proof.
  assert (map_to_list M ≡ₚ map (fun i => (node_get_key ht i, get (mem ht) i)) used) as ->.
  - apply NoDup_Permutation; [apply NoDup_map_to_list| |].
    + apply NoDup_fmap_2_strong; [|apply NoDup_filter, NoDup_seqZ].
      intros i j [Hi Hoi]%elem_used [Hj Hoj]%elem_used [= E _]. by apply keys_inj.
    + intros [key d]. rewrite elem_of_map_to_list, (h_map _ _ H), list_elem_of_fmap. split.
      * intros (i & Hi & Ho & <- & <-). exists i. by rewrite elem_used.
      * intros (i & [= -> ->] & [Hi Ho]%elem_used). by exists i.
  - unfold elements. by rewrite (map_map _ snd).
Qed.

(** What is left from a position. *)
Definition rest (p : Z) : list Z :=
  map (get (mem ht)) (filter (fun i => get (mem ht) i <> 0) (seqZ p (N - p))).

Lemma rest_step p : 0 <= p < N ->
  rest p = if NODE_EMPTY ht p then rest (p + 1) else get (mem ht) p :: rest (p + 1).
Proof.
  intros Hp. unfold rest, NODE_EMPTY. rewrite seqZ_cons by lia.
  replace (Z.pred (N - p)) with (N - (p + 1)) by lia. rewrite <- Z.add_1_r.
  destruct (_ =? 0) eqn:E; zbool; [by rewrite filter_cons_False by tauto|by rewrite filter_cons_True].
Qed.

Lemma skip_empty_spec fuel : forall p, 0 <= p <= N -> N - p <= Z.of_nat fuel ->
  exists q, p <= q <= N /\ skip_empty fuel ht (mkIter p N) = Some (mkIter q N) /\ rest p = rest q /\
    (q < N -> NODE_EMPTY ht q = false).
Proof.
  induction fuel as [|fuel IH]; intros p Hp Hf; cbn [skip_empty pos end_].
  - assert (p = N) as -> by lia. rewrite Z.eqb_refl. exists N. split_and!; [lia|lia|done|done|lia].
  - destruct (p =? N) eqn:E; zbool; cbn [negb andb]; [exists p; split_and!; [lia|lia|done|done|lia]|].
    destruct (NODE_EMPTY ht p) eqn:Ee.
    + destruct (IH (p + 1)) as (q & Hq & E1 & E2 & E3); [lia|lia|].
      exists q. split_and!; [lia|lia|done| |done]. by rewrite rest_step, Ee by lia.
    + exists p. split_and!; [lia|lia|done|done|done].
Qed.

Lemma walk_from fuel : forall q, 0 <= q <= N -> N - q < Z.of_nat fuel -> (q < N -> NODE_EMPTY ht q = false) ->
  walk fuel ht (Some (mkIter q N)) = Some (rest q).
Proof.
  induction fuel as [|fuel IH]; intros q Hq Hf Hne; [lia|]. cbn [walk].
  unfold ht_iter_cmp, ht_iter_end, ht_iter_next, ht_iter_get. cbn [pos end_]. rewrite Z.shiftl_1_l.
  destruct (q =? N) eqn:E; zbool.
  - subst q. unfold rest. by rewrite Z.sub_diag.
  - destruct (skip_empty_spec fuel (q + 1)) as (q' & Hq' & -> & Er & Hne'); [lia|lia|].
    rewrite IH; [|lia|lia|done]. cbn [option_map]. by rewrite <- Er, (rest_step q), Hne by lia.
Qed.

Lemma walk_elements fuel : N < Z.of_nat fuel ->
  walk fuel ht (ht_iter_begin fuel ht) = Some elements.
Proof.
  intros Hf. pose proof (h_size _ _ H) as (Hn & _). pose proof (N_range ht Hn).
  unfold ht_iter_begin. rewrite Z.shiftl_1_l.
  destruct (skip_empty_spec fuel 0) as (q & Hq & -> & Er & Hne); [lia|lia|].
  rewrite walk_from by (assumption || lia). rewrite <- Er. unfold elements, used, rest. by rewrite Z.sub_0_r.
Qed.
End Size.

(** ** Programs *)

Inductive ht_op := OpInsert (data : Z) | OpInsertKey (key : list Z) (data : Z) | OpFind (key : list Z).

(** An operation and what it returns. *)
Definition exec (fuel : nat) (ht : HashTable) (op : ht_op) : option (Z * HashTable) :=
  match op with
  | OpInsert data => option_map (fun r => (Z.b2z r.1, r.2)) (ht_insert fuel ht data)
  | OpInsertKey key data => option_map (fun r => (Z.b2z r.1, r.2)) (ht_insert_with_key fuel ht key data)
  | OpFind key => option_map (fun d => (d, ht)) (ht_find fuel ht key)
  end.

Fixpoint run (fuel : nat) (ht : HashTable) (ops : list ht_op) : option (list Z * HashTable) :=
  match ops with
  | [] => Some ([], ht)
  | op :: ops' =>
      match exec fuel ht op with
      | None => None
      | Some (r, ht') => option_map (fun q => (r :: q.1, q.2)) (run fuel ht' ops')
      end
  end.

(** A bounded finite map; [keyof] is what the table makes of a key. *)
Definition map_insert (cap : Z) (M : gmap (list Z) Z) (key : list Z) (data : Z) : Z * gmap (list Z) Z :=
  if bool_decide (data <> 0 /\ (is_Some (M !! key) \/ Z.of_nat (size M) < cap))
  then (1, <[key := data]> M) else (0, M).

Definition map_exec (cap : Z) (keyof : list Z -> list Z) (M : gmap (list Z) Z) (op : ht_op)
  : Z * gmap (list Z) Z :=
  match op with
  | OpInsert data => map_insert cap M (keyof (hook data)) data
  | OpInsertKey key data => map_insert cap M (keyof key) data
  | OpFind key => (default 0 (M !! keyof key), M)
  end.

Fixpoint map_run (cap : Z) (keyof : list Z -> list Z) (M : gmap (list Z) Z) (ops : list ht_op)
  : list Z * gmap (list Z) Z :=
  match ops with
  | [] => ([], M)
  | op :: ops' =>
      let '(r, M') := map_exec cap keyof M op in
      let '(rs, M'') := map_run cap keyof M' ops' in (r :: rs, M'')
  end.

(** What the header asks of a client: the key of an element in a table without
    internal keys is its own, and [ht_insert] is for those tables. *)
Definition allowed (ht : HashTable) (op : ht_op) : Prop :=
  match op with
  | OpInsert _ => key_internal ht = false
  | OpInsertKey key data => key_internal ht = false -> hook data = key
  | OpFind _ => True
  end.

Lemma length_cut ht key : key_internal ht = true -> (length (cut ht key) <= 15)%nat.
Proof. intros E. unfold cut. rewrite E, length_take. unfold INTERNAL_KEY_MAX_LENGTH. lia. Qed.

Lemma cut_external ht key : key_internal ht = false -> cut ht key = key.
Proof. intros E. unfold cut. by rewrite E. Qed.

Section Refine.
Variables (ht : HashTable) (M : gmap (list Z) Z) (fuel : nat).
Hypothesis H : holds ht M.
Hypothesis Hf : 2 ^ max_elts_log2 ht <= Z.of_nat fuel.

Lemma size_le_cap : Z.of_nat (size M) <= 2 ^ max_elts_log2 ht.
Proof.
  pose proof (h_size _ _ H) as (Hn & _). pose proof (N_range ht Hn).
  rewrite (size_used ht M H). unfold used.
  pose proof (length_filter (fun i => get (mem ht) i <> 0) (seqZ 0 (2 ^ max_elts_log2 ht))) as Hl.
  rewrite length_seqZ in Hl. lia.
Qed.

Lemma insert_spec key data :
  (key_internal ht = false -> data <> 0 -> hook data = key) ->
  let '(r, M') := map_insert (2 ^ max_elts_log2 ht) M (cut ht key) data in
  exists ht', insert fuel ht key data = Some (bool_decide (r = 1), ht') /\ holds ht' M' /\
    max_elts_log2 ht' = max_elts_log2 ht /\ key_internal ht' = key_internal ht.
Proof.
  intros Hhk. unfold map_insert, insert.
  destruct (data =? 0) eqn:Ed; zbool.
  { rewrite bool_decide_eq_false_2 by naive_solver. by exists ht. }
  assert (Hset : forall p, 0 <= p < 2 ^ max_elts_log2 ht -> perform_lookup fuel ht (cut ht key) = Some (Some p) ->
    holds (set_node ht p (cut ht key) data) (<[cut ht key := data]> M)).
  { intros p Hp E. apply (set_node_holds ht M fuel H Hf p); [done|done|done| |].
    - apply length_cut.
    - intros Ei. rewrite cut_external by done. by apply Hhk. }
  destruct (M !! cut ht key) as [d0|] eqn:Em.
  - rewrite bool_decide_eq_true_2 by (split; [done|left; by eexists]).
    destruct (lookup_found ht M fuel H Hf _ _ Em) as (p & Hp & E & _). rewrite E.
    exists (set_node ht p (cut ht key) data). split_and!; try done. by apply Hset.
  - destruct (lookup_new ht M fuel H Hf _ Em) as [(p & Hp & E & E0)|[E Hfull]]; rewrite E.
    + rewrite bool_decide_eq_true_2.
      * exists (set_node ht p (cut ht key) data). split_and!; try done. by apply Hset.
      * split; [done|right]. pose proof size_le_cap.
        destruct (decide (Z.of_nat (size M) = 2 ^ max_elts_log2 ht)) as [Es|]; [exfalso|lia].
        by apply (proj2 (full_iff ht M H) Es p Hp).
    + apply (full_iff ht M H) in Hfull. rewrite bool_decide_eq_false_2; [by exists ht|].
      intros [_ [[? ?]|?]]; [done|lia].
Qed.

Lemma find_spec key : ht_find fuel ht key = Some (default 0 (M !! cut ht key)).
Proof.
  unfold ht_find, NODE_EMPTY. destruct (M !! cut ht key) as [d|] eqn:Em; cbn [default].
  - destruct (lookup_found ht M fuel H Hf _ _ Em) as (p & _ & -> & -> & Hd).
    by rewrite (proj2 (Z.eqb_neq _ _) Hd).
  - by destruct (lookup_new ht M fuel H Hf _ Em) as [(p & Hp & -> & ->)|[-> _]].
Qed.

Lemma exec_spec op : allowed ht op ->
  let '(r, M') := map_exec (2 ^ max_elts_log2 ht) (cut ht) M op in
  exists ht', exec fuel ht op = Some (r, ht') /\ holds ht' M' /\
    max_elts_log2 ht' = max_elts_log2 ht /\ key_internal ht' = key_internal ht.
Proof.
  intros Ha.
  assert (Hi : forall key data, (key_internal ht = false -> data <> 0 -> hook data = key) ->
    let '(r, M') := map_insert (2 ^ max_elts_log2 ht) M (cut ht key) data in
    exists ht', option_map (fun r => (Z.b2z r.1, r.2)) (insert fuel ht key data) = Some (r, ht') /\
      holds ht' M' /\ max_elts_log2 ht' = max_elts_log2 ht /\ key_internal ht' = key_internal ht).
  { intros key data Hh. pose proof (insert_spec key data Hh) as Hs. unfold map_insert in *.
    destruct (bool_decide _); destruct Hs as (ht' & -> & ?); by exists ht'. }
  destruct op as [data|key data|key]; cbn [map_exec exec allowed] in *.
  - by apply Hi.
  - apply Hi. intros E _. by apply Ha.
  - rewrite find_spec. by exists ht.
Qed.
End Refine.

Lemma cut_ext ht ht' : key_internal ht' = key_internal ht -> cut ht' = cut ht.
Proof. intros E. unfold cut. by rewrite E. Qed.

Lemma run_spec fuel ops : forall ht M, holds ht M -> 2 ^ max_elts_log2 ht <= Z.of_nat fuel ->
  Forall (allowed ht) ops ->
  let '(rs, M') := map_run (2 ^ max_elts_log2 ht) (cut ht) M ops in
  exists ht', run fuel ht ops = Some (rs, ht') /\ holds ht' M' /\ max_elts_log2 ht' = max_elts_log2 ht.
Proof.
  induction ops as [|op ops IH]; intros ht M H Hf Ha; cbn [run map_run]; [by exists ht|].
  apply Forall_cons in Ha as [Ho Ha]. pose proof (exec_spec ht M fuel H Hf op Ho) as He.
  destruct (map_exec _ _ M op) as [r M1]. destruct He as (ht1 & -> & H1 & E1 & E2).
  specialize (IH ht1 M1 H1). rewrite E1, (cut_ext _ _ E2) in IH. specialize (IH Hf).
  destruct (map_run _ _ M1 ops) as [rs M2].
  destruct IH as (ht2 & -> & H2 & E3).
  - eapply Forall_impl; [exact Ha|]. intros [] Hx; cbn [allowed] in *; rewrite ?E2; done.
  - by exists ht2.
Qed.

(** C39: The hash table refines a bounded finite map.  Over the memory of a
    table of [2 ^ n] buckets, with keys kept in the table or found in the data,
    initialise it and run any program of insertions and searches that keeps to
    the header: every call returns, within [2 ^ n] steps of its search, and
    answers as a finite map does.  A search finds what was last inserted under
    the key, and null when nothing was; an insertion replaces what the key had,
    takes room for a new key, and is refused only when the data is null or the
    key is new and all [2 ^ n] buckets are taken: the odd step brings a search
    to every bucket, whatever the hashes are.  Keys in the table are cut to 15
    bytes.  Walking with an iterator then gets every element of the map once. *)
Theorem hashtable_refines (ht : HashTable) (ops : list ht_op) (fuel : nat) :
  size_ok ht -> 2 ^ max_elts_log2 ht < Z.of_nat fuel -> Forall (allowed ht) ops ->
  let '(rs, M) := map_run (2 ^ max_elts_log2 ht) (cut ht) ∅ ops in
  exists ht' elts, run fuel (ht_init ht) ops = Some (rs, ht') /\
    walk fuel ht' (ht_iter_begin fuel ht') = Some elts /\ elts ≡ₚ (map_to_list M).*2.
Proof.
  intros Hs Hf Ha. pose proof (run_spec fuel ops (ht_init ht) ∅ (ht_init_holds ht Hs)) as Hr.
  change (max_elts_log2 (ht_init ht)) with (max_elts_log2 ht) in Hr.
  change (cut (ht_init ht)) with (cut ht) in Hr. specialize (Hr ltac:(lia) Ha).
  destruct (map_run _ _ ∅ ops) as [rs M]. destruct Hr as (ht' & E & H & En).
  exists ht', (elements ht'). split_and!; [done| |by apply elements_values].
  apply (walk_elements ht' M H). by rewrite En.
Qed.
End Table.

(** Four buckets, keys [1 2], [2 1], …; the fifth key finds no room. *)
Lemma hashtable_refines_witness :
  exists ht' elts,
    run (fun _ => []) 5 (ht_init (mkHT [7; 7; 7; 7] 2 true (replicate 64 9)))
      [OpInsertKey [1; 2] 101; OpInsertKey [2; 1] 102; OpInsertKey [] 103; OpInsertKey [1; 2] 104;
       OpInsertKey [3] 105; OpInsertKey [4] 106; OpFind [1; 2]; OpFind [4]]
      = Some ([1; 1; 1; 1; 1; 0; 104; 0], ht') /\
    walk 5 ht' (ht_iter_begin 5 ht') = Some elts.
Proof.
  pose proof (hashtable_refines (fun _ => []) (mkHT [7; 7; 7; 7] 2 true (replicate 64 9))
    [OpInsertKey [1; 2] 101; OpInsertKey [2; 1] 102; OpInsertKey [] 103; OpInsertKey [1; 2] 104;
     OpInsertKey [3] 105; OpInsertKey [4] 106; OpFind [1; 2]; OpFind [4]] 5) as W.
  specialize (W ltac:(vm_compute; split; [split; discriminate|split; reflexivity]) ltac:(reflexivity)
    ltac:(repeat (apply Forall_cons; split); [..|apply Forall_nil]; cbn; try exact I; discriminate)).
  destruct (map_run _ _ _ _ _) as [rs M] eqn:E.
  assert (rs = [1; 1; 1; 1; 1; 0; 104; 0]) as ->.
  { apply (f_equal fst) in E. vm_compute in E. symmetry. exact E. }
  destruct W as (ht' & elts & W1 & W2 & _). exists ht', elts. split; [exact W1|exact W2].
Defined.
