(* ===== verification/Afsk.v ===== *)
(** * The AFSK1200 modem: [bertos/net/afsk.[ch]], [TinyAPRS/hw/hw_afsk.[ch]]

    The C structure [Afsk] is split into the part the DAC interrupt works on
    ([Modulator]) and the part the ADC interrupt works on ([Demodulator]);
    each carries the output pins it drives.  [hdlc_parse] turns demodulated
    bits into escaped bytes on the receive queue, [afsk_dac_isr] turns the
    transmit queue into tones.  The theorems here are about the samples: the
    filters never overflow, the phase-locked loop stays in range, the
    oscillator stays in its table.  ModemTx.v, Modem.v and ModemRx.v are about the
    bits. *)

From Stdlib Require Import ZArith Lia Bool List.
From stdpp Require Import prelude.
From S2P Require Import Prelude.
From S2P Require Import Fifo.
From S2P Require Import Escape.

Open Scope Z_scope.

(** ** Constants of afsk.[ch] and cfg_afsk.h *)

Definition SAMPLERATE : Z := 9600.
Definition BITRATE : Z := 1200.
Definition SAMPLEPERBIT : Z := SAMPLERATE / BITRATE.
Definition PHASE_BIT : Z := 8.
Definition PHASE_INC : Z := 1.
Definition PHASE_MAX : Z := SAMPLEPERBIT * PHASE_BIT.
Definition PHASE_THRES : Z := PHASE_MAX / 2.
Definition SIN_LEN : Z := 512.
Definition CONFIG_AFSK_DAC_SAMPLERATE : Z := 9600.
Definition DAC_SAMPLEPERBIT : Z := CONFIG_AFSK_DAC_SAMPLERATE / BITRATE.
Definition MARK_INC : Z := u16 (DIV_ROUND (SIN_LEN * 1200) CONFIG_AFSK_DAC_SAMPLERATE).
Definition SPACE_INC : Z := u16 (DIV_ROUND (SIN_LEN * 2200) CONFIG_AFSK_DAC_SAMPLERATE).
Definition CONFIG_AFSK_PREAMBLE_LEN : Z := 350.
Definition CONFIG_AFSK_TRAILER_LEN : Z := 75.
Definition CONFIG_AFSK_RX_BUFLEN : Z := 64.
Definition CONFIG_AFSK_TX_BUFLEN : Z := 64.
Definition BIT_STUFF_LEN : Z := 5.
Definition AFSK_RXFIFO_OVERRUN : Z := BV 0.

(** The filters [CONFIG_AFSK_FILTER] and the [CUTOFF_*] macros select from, as
    far as they compile: the Butterworth filter and the Chebyshev filter with
    each of its four cutoffs, the one of 800 Hz being what the firmware is
    built with.  The third name of cfg_afsk.h, AFSK_FIR, is not a filter one
    can build with: its branch (afsk.c 97-174 and 389-397) uses the type FIR,
    whose definition in afsk.h (85-91) is commented out and stands nowhere
    else, so the size of the table's memory, which fir_filter writes past the
    taps of, is not known.  That branch is not modelled. *)
Inductive afsk_filter :=
  | AFSK_BUTTERWORTH
  | AFSK_CHEBYSHEV_600
  | AFSK_CHEBYSHEV_800
  | AFSK_CHEBYSHEV_1200
  | AFSK_CHEBYSHEV_1600.

Definition CONFIG_AFSK_FILTER : afsk_filter := AFSK_CHEBYSHEV_800.

(** ** State *)

Record Hdlc := mkHdlc {
  demod_bits : Z;
  bit_idx : Z;
  currchar : Z;
  rxstart : bool
}.

(** The transmit half of [Afsk], with the DAC interrupt enable
    ([hw_afsk_dac_isr]), the push-to-talk pin and the transmit LED. *)
Record Modulator := mkMod {
  sample_count : Z;
  curr_out : Z;
  tx_bit : Z;
  bit_stuff : bool;
  stuff_cnt : Z;
  phase_acc : Z;
  phase_inc : Z;
  tx_fifo : FIFOBuffer;
  sending : bool;
  preamble_len : Z;
  trailer_len : Z;
  dac_irq : bool;
  ptt : bool;
  led_tx : bool
}.


(** The receive half, with the receive LED. *)
Record Demodulator := mkDemod {
  delay_fifo : FIFOBuffer;
  rx_fifo : FIFOBuffer;
  iir_x0 : Z; iir_x1 : Z;
  iir_y0 : Z; iir_y1 : Z;
  sampled_bits : Z;
  curr_phase : Z;
  found_bits : Z;
  status : Z;
  hdlc : Hdlc;
  led_rx : bool
}.

Record Afsk := mkAfsk { modulator : Modulator; demodulator : Demodulator }.

(** Field assignments. *)
Definition set_sample_count (v : Z) (m : Modulator) : Modulator :=
  mkMod v (curr_out m) (tx_bit m) (bit_stuff m) (stuff_cnt m) (phase_acc m) (phase_inc m) (tx_fifo m) (sending m) (preamble_len m) (trailer_len m) (dac_irq m) (ptt m) (led_tx m).
Definition set_curr_out (v : Z) (m : Modulator) : Modulator :=
  mkMod (sample_count m) v (tx_bit m) (bit_stuff m) (stuff_cnt m) (phase_acc m) (phase_inc m) (tx_fifo m) (sending m) (preamble_len m) (trailer_len m) (dac_irq m) (ptt m) (led_tx m).
Definition set_tx_bit (v : Z) (m : Modulator) : Modulator :=
  mkMod (sample_count m) (curr_out m) v (bit_stuff m) (stuff_cnt m) (phase_acc m) (phase_inc m) (tx_fifo m) (sending m) (preamble_len m) (trailer_len m) (dac_irq m) (ptt m) (led_tx m).
Definition set_bit_stuff (v : bool) (m : Modulator) : Modulator :=
  mkMod (sample_count m) (curr_out m) (tx_bit m) v (stuff_cnt m) (phase_acc m) (phase_inc m) (tx_fifo m) (sending m) (preamble_len m) (trailer_len m) (dac_irq m) (ptt m) (led_tx m).
Definition set_stuff_cnt (v : Z) (m : Modulator) : Modulator :=
  mkMod (sample_count m) (curr_out m) (tx_bit m) (bit_stuff m) v (phase_acc m) (phase_inc m) (tx_fifo m) (sending m) (preamble_len m) (trailer_len m) (dac_irq m) (ptt m) (led_tx m).
Definition set_phase_acc (v : Z) (m : Modulator) : Modulator :=
  mkMod (sample_count m) (curr_out m) (tx_bit m) (bit_stuff m) (stuff_cnt m) v (phase_inc m) (tx_fifo m) (sending m) (preamble_len m) (trailer_len m) (dac_irq m) (ptt m) (led_tx m).
Definition set_phase_inc (v : Z) (m : Modulator) : Modulator :=
  mkMod (sample_count m) (curr_out m) (tx_bit m) (bit_stuff m) (stuff_cnt m) (phase_acc m) v (tx_fifo m) (sending m) (preamble_len m) (trailer_len m) (dac_irq m) (ptt m) (led_tx m).
Definition set_tx_fifo (v : FIFOBuffer) (m : Modulator) : Modulator :=
  mkMod (sample_count m) (curr_out m) (tx_bit m) (bit_stuff m) (stuff_cnt m) (phase_acc m) (phase_inc m) v (sending m) (preamble_len m) (trailer_len m) (dac_irq m) (ptt m) (led_tx m).
Definition set_sending (v : bool) (m : Modulator) : Modulator :=
  mkMod (sample_count m) (curr_out m) (tx_bit m) (bit_stuff m) (stuff_cnt m) (phase_acc m) (phase_inc m) (tx_fifo m) v (preamble_len m) (trailer_len m) (dac_irq m) (ptt m) (led_tx m).
Definition set_preamble_len (v : Z) (m : Modulator) : Modulator :=
  mkMod (sample_count m) (curr_out m) (tx_bit m) (bit_stuff m) (stuff_cnt m) (phase_acc m) (phase_inc m) (tx_fifo m) (sending m) v (trailer_len m) (dac_irq m) (ptt m) (led_tx m).
Definition set_trailer_len (v : Z) (m : Modulator) : Modulator :=
  mkMod (sample_count m) (curr_out m) (tx_bit m) (bit_stuff m) (stuff_cnt m) (phase_acc m) (phase_inc m) (tx_fifo m) (sending m) (preamble_len m) v (dac_irq m) (ptt m) (led_tx m).
Definition set_dac_irq (v : bool) (m : Modulator) : Modulator :=
  mkMod (sample_count m) (curr_out m) (tx_bit m) (bit_stuff m) (stuff_cnt m) (phase_acc m) (phase_inc m) (tx_fifo m) (sending m) (preamble_len m) (trailer_len m) v (ptt m) (led_tx m).
Definition set_ptt (v : bool) (m : Modulator) : Modulator :=
  mkMod (sample_count m) (curr_out m) (tx_bit m) (bit_stuff m) (stuff_cnt m) (phase_acc m) (phase_inc m) (tx_fifo m) (sending m) (preamble_len m) (trailer_len m) (dac_irq m) v (led_tx m).
Definition set_led_tx (v : bool) (m : Modulator) : Modulator :=
  mkMod (sample_count m) (curr_out m) (tx_bit m) (bit_stuff m) (stuff_cnt m) (phase_acc m) (phase_inc m) (tx_fifo m) (sending m) (preamble_len m) (trailer_len m) (dac_irq m) (ptt m) v.

(** ** The oscillator *)

Definition sin_table : list Z :=
  [128; 129; 131; 132; 134; 135; 137; 138; 140; 142; 143; 145; 146; 148; 149; 151;
   152; 154; 155; 157; 158; 160; 162; 163; 165; 166; 167; 169; 170; 172; 173; 175;
   176; 178; 179; 181; 182; 183; 185; 186; 188; 189; 190; 192; 193; 194; 196; 197;
   198; 200; 201; 202; 203; 205; 206; 207; 208; 210; 211; 212; 213; 214; 215; 217;
   218; 219; 220; 221; 222; 223; 224; 225; 226; 227; 228; 229; 230; 231; 232; 233;
   234; 234; 235; 236; 237; 238; 238; 239; 240; 241; 241; 242; 243; 243; 244; 245;
   245; 246; 246; 247; 248; 248; 249; 249; 250; 250; 250; 251; 251; 252; 252; 252;
   253; 253; 253; 253; 254; 254; 254; 254; 254; 255; 255; 255; 255; 255; 255; 255].

Definition sin_sample (idx : Z) : Z :=
  let new_idx := idx mod (SIN_LEN / 2) in
  let new_idx := if new_idx >=? SIN_LEN / 4 then SIN_LEN / 2 - new_idx - 1 else new_idx in
  let data := get sin_table new_idx in
  if idx >=? SIN_LEN / 2 then u8 (255 - data) else data.

(** ** Receiving *)

(** [EDGE_FOUND(bitline)]: the last two bits differ. *)
Definition EDGE_FOUND (bitline : Z) : bool :=
  Z.testbit (Z.lxor bitline (Z.shiftr bitline 1)) 0.

(** Push a byte if there is room; otherwise give the frame up. *)
Definition hdlc_put (c : Z) (st : bool * bool * FIFOBuffer * bool)
  : bool * bool * FIFOBuffer * bool :=
  let '(ret, rx, fifo, led) := st in
  if negb (fifo_isfull fifo) then (ret, rx, fifo_push fifo c, led)
  else (false, false, fifo, false).

(** Returns the C result, the context, the queue and the receive LED. *)
Definition hdlc_parse (h : Hdlc) (bit : bool) (fifo : FIFOBuffer) (led : bool)
  : bool * Hdlc * FIFOBuffer * bool :=
  let db := Z.lor (u8 (Z.shiftl (demod_bits h) 1)) (b2z bit) in
  if db =? HDLC_FLAG then
    let '(ret, rx, fifo', led') :=
      if negb (fifo_isfull fifo) then (true, true, fifo_push fifo HDLC_FLAG, true)
      else (false, false, fifo, false) in
    (ret, mkHdlc db 0 0 rx, fifo', led')
  else if Z.land db HDLC_RESET =? HDLC_RESET then
    (true, mkHdlc db (bit_idx h) (currchar h) false, fifo, false)
  else if negb (rxstart h) then
    (true, mkHdlc db (bit_idx h) (currchar h) (rxstart h), fifo, led)
  else if Z.land db 0x3f =? 0x3e then
    (true, mkHdlc db (bit_idx h) (currchar h) (rxstart h), fifo, led)
  else
    let cc := if Z.testbit db 0 then Z.lor (currchar h) 0x80 else currchar h in
    let idx := u8 (bit_idx h + 1) in
    if idx >=? 8 then
      let st := (true, rxstart h, fifo, led) in
      let st := if hdlc_special cc then hdlc_put AX25_ESC st else st in
      let '(ret, rx, fifo', led') := hdlc_put cc st in
      (ret, mkHdlc db 0 0 rx, fifo', led')
    else (true, mkHdlc db idx (Z.shiftr cc 1) (rxstart h), fifo, led).

(** The discriminator: [x] is the sample times the sample four earlier. *)
Definition iir_input (flt : afsk_filter) (delayed curr_sample : Z) : Z :=
  match flt with
  | AFSK_BUTTERWORTH | AFSK_CHEBYSHEV_600 | AFSK_CHEBYSHEV_800 =>
      Z.shiftr (delayed * curr_sample) 2
  | AFSK_CHEBYSHEV_1200 | AFSK_CHEBYSHEV_1600 => Z.shiftr (delayed * curr_sample) 1
  end.

Definition iir_output (flt : afsk_filter) (x0 x1 y0 : Z) : Z :=
  match flt with
  | AFSK_BUTTERWORTH => x0 + x1 + Z.shiftr y0 1 + Z.shiftr y0 3 + Z.shiftr y0 5
  | AFSK_CHEBYSHEV_600 => x0 + x1 + Z.shiftr y0 1
  | AFSK_CHEBYSHEV_800 => x0 + x1 + Z.shiftr y0 2
  | AFSK_CHEBYSHEV_1200 => x0 + x1 + Z.shiftr y0 3
  | AFSK_CHEBYSHEV_1600 => x0 + x1 + -1 * Z.shiftr y0 4
  end.

(** Two or more ones among the last three samples. *)
Definition majority (sampled : Z) : bool :=
  let bits := Z.land sampled 0x07 in
  (bits =? 0x07) || (bits =? 0x06) || (bits =? 0x05) || (bits =? 0x03).

(** The phase-locked loop: nudge the sampling phase towards the edges, then
    advance it by one sample. *)
Definition adc_phase (sampled phase : Z) : Z :=
  let phase :=
    if EDGE_FOUND sampled then
      if phase <? PHASE_THRES then i8 (phase + PHASE_INC) else i8 (phase - PHASE_INC)
    else phase in
  i8 (phase + PHASE_BIT).

(** One interrupt of the converter, with a filter that compiles (see
    [afsk_filter]) and without the optional carrier detection, which is
    configured off. *)
Definition afsk_adc_isr (flt : afsk_filter) (d : Demodulator) (curr_sample : Z)
  : Demodulator :=
  let x0 := iir_x1 d in
  let '(delayed, delay1) := fifo_pop (delay_fifo d) in
  let x1 := i16 (iir_input flt (i8 delayed) curr_sample) in
  let y0 := iir_y1 d in
  let y1 := i16 (iir_output flt x0 x1 y0) in
  let sampled := Z.lor (u8 (Z.shiftl (sampled_bits d) 1)) (if y1 >? 0 then 0 else 1) in
  let delay2 := fifo_push delay1 curr_sample in
  let phase := adc_phase sampled (curr_phase d) in
  if phase >=? PHASE_MAX then
    let found := Z.lor (u8 (Z.shiftl (found_bits d) 1)) (b2z (majority sampled)) in
    let '(ok, h, rx, led) :=
      hdlc_parse (hdlc d) (negb (EDGE_FOUND found)) (rx_fifo d) (led_rx d) in
    mkDemod delay2 rx x0 x1 y0 y1 sampled (Z.rem phase PHASE_MAX) found
      (if ok then status d else Z.lor (status d) AFSK_RXFIFO_OVERRUN) h led
  else
    mkDemod delay2 (rx_fifo d) x0 x1 y0 y1 sampled phase (found_bits d) (status d)
      (hdlc d) (led_rx d).

(** ** Transmitting *)

Definition AFSK_DAC_IRQ_START (m : Modulator) : Modulator := set_dac_irq true (set_ptt true m).
Definition AFSK_DAC_IRQ_STOP (m : Modulator) : Modulator := set_dac_irq false (set_ptt false m).

Definition preamble_flags : Z := DIV_ROUND (CONFIG_AFSK_PREAMBLE_LEN * BITRATE) 8000.
Definition trailer_flags : Z := DIV_ROUND (CONFIG_AFSK_TRAILER_LEN * BITRATE) 8000.

Definition afsk_txStart (m : Modulator) : Modulator :=
  let m :=
    if negb (sending m) then
      AFSK_DAC_IRQ_START
        (set_preamble_len preamble_flags
          (set_sending true
            (set_stuff_cnt 0 (set_phase_acc 0 (set_phase_inc MARK_INC m)))))
    else m in
  set_trailer_len trailer_flags m.

Definition SWITCH_TONE (inc : Z) : Z := if inc =? MARK_INC then SPACE_INC else MARK_INC.

(** The modem has nothing more to send. *)
Definition dac_stop (m : Modulator) : Modulator := set_sending false (AFSK_DAC_IRQ_STOP m).

(** The next character of preamble, queue or trailer. *)
Definition dac_next_char (m : Modulator) : Modulator :=
  if preamble_len m =? 0 then
    if fifo_isempty (tx_fifo m) then
      set_curr_out HDLC_FLAG (set_trailer_len (u16 (trailer_len m - 1)) m)
    else let '(c, q) := fifo_pop (tx_fifo m) in set_curr_out c (set_tx_fifo q m)
  else set_curr_out HDLC_FLAG (set_preamble_len (u16 (preamble_len m - 1)) m).

(** Fetching a character when the last one is out; the boolean tells whether
    there is one to modulate. *)
Definition dac_fetch (m : Modulator) : bool * Modulator :=
  if fifo_isempty (tx_fifo m) && (trailer_len m =? 0) then (false, dac_stop m)
  else
    let m := if negb (bit_stuff m) then set_stuff_cnt 0 m else m in
    let m := set_bit_stuff true m in
    let m := dac_next_char m in
    if curr_out m =? AX25_ESC then
      if fifo_isempty (tx_fifo m) then (false, dac_stop m)
      else let '(c, q) := fifo_pop (tx_fifo m) in
           (true, set_tx_bit 0x01 (set_curr_out c (set_tx_fifo q m)))
    else if (curr_out m =? HDLC_FLAG) || (curr_out m =? HDLC_RESET) then
      (true, set_tx_bit 0x01 (set_bit_stuff false m))
    else (true, set_tx_bit 0x01 m).

(** Choosing the tone of the next bit period. *)
Definition dac_bit (m : Modulator) : Modulator :=
  let m :=
    if bit_stuff m && (stuff_cnt m >=? BIT_STUFF_LEN) then
      set_phase_inc (SWITCH_TONE (phase_inc m)) (set_stuff_cnt 0 m)
    else
      let m :=
        if negb (Z.land (curr_out m) (tx_bit m) =? 0) then
          set_stuff_cnt (u8 (stuff_cnt m + 1)) m
        else set_phase_inc (SWITCH_TONE (phase_inc m)) (set_stuff_cnt 0 m) in
      set_tx_bit (u8 (Z.shiftl (tx_bit m) 1)) m in
  set_sample_count DAC_SAMPLEPERBIT m.

(** One sample of the current tone. *)
Definition dac_sample (m : Modulator) : Z * Modulator :=
  let acc := Z.modulo (u16 (phase_acc m + phase_inc m)) SIN_LEN in
  let m := set_sample_count (u8 (sample_count m - 1)) (set_phase_acc acc m) in
  (sin_sample (phase_acc m), m).

Definition afsk_dac_isr (m : Modulator) : Z * Modulator :=
  let m := set_led_tx true m in
  let '(value, m) :=
    if sample_count m =? 0 then
      let '(more, m) := if tx_bit m =? 0 then dac_fetch m else (true, m) in
      if more then dac_sample (dac_bit m) else (0, m)
    else dac_sample m in
  (value, set_led_tx false m).

(** ** The interrupt of hw_afsk.c: one ADC conversion and one DAC sample *)

Definition ADC_vect (flt : afsk_filter) (adc : Z) (af : Afsk) : Z * Afsk :=
  let d := afsk_adc_isr flt (demodulator af) (i8 (Z.shiftr adc 2 - 128)) in
  if dac_irq (modulator af) then
    let '(v, m) := afsk_dac_isr (modulator af) in (Z.land v 0xF0, mkAfsk m d)
  else (128, mkAfsk (modulator af) d).

(** ** The KFile operations that do not wait *)

Fixpoint afsk_read (fifo : FIFOBuffer) (size : nat) : list Z * FIFOBuffer :=
  match size with
  | O => ([], fifo)
  | S size' =>
      if fifo_isempty_locked fifo then ([], fifo)
      else let '(c, fifo1) := fifo_pop_locked fifo in
           let '(buf, fifo2) := afsk_read fifo1 size' in (c :: buf, fifo2)
  end.

Definition afsk_error (af : Afsk) : Z := status (demodulator af).

Definition set_status (v : Z) (d : Demodulator) : Demodulator :=
  mkDemod (delay_fifo d) (rx_fifo d) (iir_x0 d) (iir_x1 d) (iir_y0 d) (iir_y1 d)
    (sampled_bits d) (curr_phase d) (found_bits d) v (hdlc d) (led_rx d).

Definition set_rx_fifo (v : FIFOBuffer) (d : Demodulator) : Demodulator :=
  mkDemod (delay_fifo d) v (iir_x0 d) (iir_x1 d) (iir_y0 d) (iir_y1 d)
    (sampled_bits d) (curr_phase d) (found_bits d) (status d) (hdlc d) (led_rx d).

Definition afsk_clearerr (af : Afsk) : Afsk :=
  mkAfsk (modulator af) (set_status 0 (demodulator af)).

(** [afsk_init]: the delay line starts with [SAMPLEPERBIT / 2] silent samples. *)
Definition afsk_init : Afsk :=
  let delay := fifo_init (zeros (Z.to_nat (SAMPLEPERBIT / 2 + 1))) (SAMPLEPERBIT / 2 + 1) in
  let delay := iter (Z.to_nat (SAMPLEPERBIT / 2)) (fun q => fifo_push q 0) delay in
  mkAfsk
    (mkMod 0 0 0 false 0 0 MARK_INC
      (fifo_init (zeros (Z.to_nat CONFIG_AFSK_TX_BUFLEN)) CONFIG_AFSK_TX_BUFLEN)
      false 0 0 false false false)
    (mkDemod delay
      (fifo_init (zeros (Z.to_nat CONFIG_AFSK_RX_BUFLEN)) CONFIG_AFSK_RX_BUFLEN)
      0 0 0 0 0 0 0 0 (mkHdlc 0 0 0 false) false).

(** ** The oscillator: theorems *)

Lemma sin_sample_range idx : 0 <= idx < SIN_LEN -> is_byte (sin_sample idx).
Proof.
  intros H. unfold SIN_LEN in H.
  assert (forallb (fun i => is_byteb (sin_sample i)) (seqZ 0 512) = true) as Hc
    by (vm_compute; reflexivity).
  rewrite forallb_forall in Hc. apply is_byteb_spec, Hc.
  apply list_elem_of_In, elem_of_seqZ. lia.
Qed.

(** From the quarter-wave table sin_sample synthesises a full wave: it is
    mirrored about the quarter period, and the second half period is the
    complement of the first, so the tone has no DC offset. *)
Theorem sin_sample_wave (idx : Z) (H : 0 <= idx < SIN_LEN / 2) :
  sin_sample (SIN_LEN / 2 - 1 - idx) = sin_sample idx /\
  sin_sample (idx + SIN_LEN / 2) = 255 - sin_sample idx.
Proof.
  change (SIN_LEN / 2) with 256 in *.
  split.
  - byte_check (fun i => sin_sample (256 - 1 - i) =? sin_sample i) H.
  - byte_check (fun i => sin_sample (i + 256) =? 255 - sin_sample i) H.
Qed.

Lemma sin_sample_wave_witness :
  sin_sample (SIN_LEN / 2 - 1 - 30) = sin_sample 30 /\
  sin_sample (30 + SIN_LEN / 2) = 255 - sin_sample 30.
Proof. apply (sin_sample_wave 30). vm_compute. split; congruence. Defined.

(** ** The demodulator: its invariant *)

(** Bounds of the discriminator's output, per filter. *)
Definition x_max (flt : afsk_filter) : Z :=
  match flt with
  | AFSK_CHEBYSHEV_1200 | AFSK_CHEBYSHEV_1600 => 8192
  | _ => 4096
  end.

Definition y_max : Z := 24000.

Definition hdlc_wf (h : Hdlc) : Prop :=
  is_byte (demod_bits h) /\ 0 <= bit_idx h < 8 /\ is_byte (currchar h).

Definition delay_wf (q : FIFOBuffer) : Prop :=
  fifo_wf q /\ capacity q = 4 /\ length (contents q) = 4%nat.

Definition rx_wf (q : FIFOBuffer) : Prop :=
  fifo_wf q /\ capacity q = CONFIG_AFSK_RX_BUFLEN - 1 /\ bytes (contents q).

Definition demod_inv (flt : afsk_filter) (d : Demodulator) : Prop :=
  delay_wf (delay_fifo d) /\ rx_wf (rx_fifo d) /\
  - x_max flt <= iir_x1 d <= x_max flt /\
  - y_max <= iir_y1 d <= y_max /\
  0 <= curr_phase d < PHASE_MAX /\ hdlc_wf (hdlc d).

Lemma x_max_bound flt : x_max flt <= 8192.
Proof. by destruct flt. Qed.

Lemma iir_input_range flt a b :
  -128 <= a < 128 -> -128 <= b < 128 -> - x_max flt <= iir_input flt a b <= x_max flt.
Proof.
  intros Ha Hb. assert (-16256 <= a * b <= 16384) by nia.
  destruct flt; simpl; rewrite Z.shiftr_div_pow2 by lia;
    change (2 ^ 2) with 4; change (2 ^ 1) with 2; zlia.
Qed.

Lemma iir_output_range flt x0 x1 y0 :
  - x_max flt <= x0 <= x_max flt -> - x_max flt <= x1 <= x_max flt ->
  - y_max <= y0 <= y_max -> - y_max <= iir_output flt x0 x1 y0 <= y_max.
Proof.
  intros. unfold y_max in *. destruct flt; simpl in *;
    rewrite !Z.shiftr_div_pow2 by lia;
    change (2 ^ 1) with 2; change (2 ^ 2) with 4; change (2 ^ 3) with 8;
    change (2 ^ 4) with 16; change (2 ^ 5) with 32; zlia.
Qed.

Lemma adc_phase_range sampled phase :
  0 <= phase < PHASE_MAX ->
  adc_phase sampled phase = (if EDGE_FOUND sampled then
      if phase <? PHASE_THRES then phase + 9 else phase + 7 else phase + 8) /\
  7 <= adc_phase sampled phase < PHASE_MAX + 8.
Proof.
  intros H. change PHASE_MAX with 64 in *. unfold adc_phase.
  change PHASE_THRES with 32. change PHASE_INC with 1. change PHASE_BIT with 8.
  zcases; zbool; rewrite ?(i8_small (phase + 1)), ?(i8_small (phase - 1)) by lia;
    rewrite i8_small by lia; lia.
Qed.

Lemma hdlc_put_wf c ret rx q led :
  rx_wf q -> is_byte c ->
  let '(_, _, q', _) := hdlc_put c (ret, rx, q, led) in rx_wf q'.
Proof.
  intros (Hw & Hcap & Hb) Hc. unfold hdlc_put.
  destruct (fifo_isfull q) eqn:Hf; simpl; [done|].
  rewrite fifo_isfull_spec in Hf by done. apply Z.eqb_neq in Hf.
  pose proof (fill_range q Hw). rewrite <- length_contents in * by done.
  split_and!; [by apply fifo_push_wf|by rewrite fifo_push_capacity|].
  rewrite fifo_push_contents by (done || lia).
  apply Forall_app. split; [done|]. constructor; [apply u8_is_byte|done].
Qed.

Lemma hdlc_special_byte h c : hdlc_special c = true -> hdlc_wf h -> is_byte c.
Proof.
  unfold hdlc_special, is_byte, HDLC_FLAG, HDLC_RESET, AX25_ESC.
  rewrite !orb_true_iff, !Z.eqb_eq. lia.
Qed.

Lemma hdlc_shift_in_byte d bit : is_byte (Z.lor (u8 (Z.shiftl d 1)) (b2z bit)).
Proof.
  apply (lor_bound _ _ 8); [lia|apply u8_range|destruct bit; simpl; lia].
Qed.

Lemma hdlc_parse_wf h bit q led :
  hdlc_wf h -> rx_wf q ->
  let '(_, h', q', _) := hdlc_parse h bit q led in hdlc_wf h' /\ rx_wf q'.
Proof.
  intros (Hd & Hi & Hc) Hq. unfold hdlc_parse.
  pose proof (hdlc_shift_in_byte (demod_bits h) bit) as Hdb.
  set (db := Z.lor (u8 (Z.shiftl (demod_bits h) 1)) (b2z bit)) in *.
  destruct (db =? HDLC_FLAG) eqn:E1.
  { pose proof (hdlc_put_wf HDLC_FLAG true true q true Hq ltac:(decide_closed)) as Hp.
    unfold hdlc_put in Hp. destruct (negb (fifo_isfull q)); simpl in *;
      (split; [split_and!; simpl; (done || lia || decide_closed)|done]). }
  destruct (Z.land db HDLC_RESET =? HDLC_RESET); [by split|].
  destruct (negb (rxstart h)); [by split|].
  destruct (Z.land db 0x3f =? 0x3e); [by split|].
  rewrite (u8_small (bit_idx h + 1)) by lia.
  set (cc := if Z.testbit db 0 then Z.lor (currchar h) 128 else currchar h).
  assert (Hcc : is_byte cc).
  { unfold cc. destruct (Z.testbit db 0); [|done].
    apply (lor_bound _ _ 8); [lia|done|lia]. }
  destruct (bit_idx h + 1 >=? 8) eqn:E8.
  - assert (Hst : let '(_, _, q1, _) := (if hdlc_special cc
        then hdlc_put AX25_ESC (true, rxstart h, q, led) else (true, rxstart h, q, led))
        in rx_wf q1).
    { destruct (hdlc_special cc); [|done]. apply hdlc_put_wf; [done|decide_closed]. }
    destruct (if hdlc_special cc then _ else _) as [[[r1 rx1] q1] l1].
    pose proof (hdlc_put_wf cc r1 rx1 q1 l1 Hst Hcc) as Hp.
    destruct (hdlc_put cc (r1, rx1, q1, l1)) as [[[r2 rx2] q2] l2].
    split; [split_and!; simpl; (done || lia || decide_closed)|done].
  - rewrite Z.geb_leb in E8; zbool. split; [|done]. split_and!; simpl; try done; try lia.
    pose proof (shiftr_bound cc 8 1 ltac:(lia) Hcc). unfold is_byte.
    change (2 ^ (8 - 1)) with 128 in *. lia.
Qed.

(** The delay line after one interrupt, and the sample that left it. *)
Lemma delay_step q s :
  delay_wf q ->
  let '(c, q1) := fifo_pop q in
  contents q = c :: tail (contents q) /\ delay_wf (fifo_push q1 s) /\
  contents (fifo_push q1 s) = tail (contents q) ++ [u8 s].
Proof.
  intros (Hw & Hcap & Hl). destruct (contents q) as [|x rest] eqn:Hq; [done|].
  destruct (fifo_pop_contents q x rest Hw Hq) as [Hx Hrest].
  pose proof (fifo_pop_wf q Hw) as Hw1. pose proof (fifo_pop_capacity q) as Hc1.
  destruct (fifo_pop q) as [c q1]. simpl in *. subst x.
  rewrite <- Hrest in Hl.
  pose proof (fifo_push_contents q1 s Hw1 ltac:(lia)) as Hpush.
  rewrite Hrest in Hpush. unfold delay_wf. rewrite fifo_push_capacity, Hpush, length_app.
  rewrite Hrest in Hl. simpl. split_and!; try done; try lia. by apply fifo_push_wf.
Qed.

Lemma afsk_adc_isr_inv flt d s :
  demod_inv flt d -> -128 <= s < 128 -> demod_inv flt (afsk_adc_isr flt d s).
Proof.
  intros (Hdel & Hrx & Hx & Hy & Hph & Hh) Hs. unfold afsk_adc_isr.
  pose proof (delay_step (delay_fifo d) s Hdel) as Hds.
  destruct (fifo_pop (delay_fifo d)) as [c q1]. destruct Hds as (_ & Hdel' & _).
  pose proof (iir_input_range flt (i8 c) s (i8_range c) Hs) as Hx1.
  rewrite (i16_small (iir_input _ _ _)) by (pose proof (x_max_bound flt); lia).
  pose proof (iir_output_range flt _ _ _ Hx Hx1 Hy) as Hy1. unfold y_max in Hy1.
  rewrite i16_small by lia.
  set (y1 := iir_output flt _ _ _) in *.
  set (sampled := Z.lor _ (if y1 >? 0 then 0 else 1)).
  destruct (adc_phase_range sampled (curr_phase d) Hph) as [_ Hp].
  destruct (adc_phase sampled (curr_phase d) >=? PHASE_MAX) eqn:E;
    rewrite Z.geb_leb in E; zbool.
  - set (found := Z.lor _ (b2z (majority sampled))).
    pose proof (hdlc_parse_wf (hdlc d) (negb (EDGE_FOUND found)) (rx_fifo d) (led_rx d)
      Hh Hrx) as Hhp.
    destruct (hdlc_parse _ _ _ _) as [[[ok h] rx] led]. destruct Hhp.
    split_and!; simpl; try done; try (unfold y_max; lia);
      change PHASE_MAX with 64 in *; rewrite Z.rem_mod_nonneg by lia;
      pose proof (Z.mod_pos_bound (adc_phase sampled (curr_phase d)) 64); lia.
  - split_and!; simpl; try done; try (unfold y_max; lia); lia.
Qed.

(** What can happen to the receive half: an interrupt with any sample, the main
    loop reading the queue, the main loop clearing the error. *)
Inductive demod_step (flt : afsk_filter) : Demodulator -> Demodulator -> Prop :=
  | demod_sample d s :
      -128 <= s < 128 -> demod_step flt d (afsk_adc_isr flt d s)
  | demod_read d n :
      demod_step flt d (set_rx_fifo (snd (afsk_read (rx_fifo d) n)) d)
  | demod_clearerr d : demod_step flt d (set_status 0 d).

Lemma afsk_read_spec n q :
  fifo_wf q ->
  let '(buf, q') := afsk_read q n in
  buf = take n (contents q) /\ contents q' = drop n (contents q) /\ fifo_wf q' /\
  capacity q' = capacity q.
Proof.
  revert q. induction n as [|n IH]; intros q Hw; simpl; [done|].
  unfold fifo_isempty_locked. rewrite fifo_isempty_spec by done.
  destruct (contents q) as [|x rest] eqn:Hq; [by rewrite Hq|].
  destruct (fifo_pop_contents q x rest Hw Hq) as [Hx Hrest].
  pose proof (fifo_pop_wf q Hw) as Hw'. pose proof (fifo_pop_capacity q) as Hc.
  unfold fifo_pop_locked. destruct (fifo_pop q) as [c q1]. simpl in *. subst.
  specialize (IH q1 Hw'). destruct (afsk_read q1 n) as [buf q2].
  destruct IH as (-> & ? & ? & ?). split_and!; [done..|congruence].
Qed.

Lemma demod_step_inv flt d d' : demod_step flt d d' -> demod_inv flt d -> demod_inv flt d'.
Proof.
  intros Hstep Hinv. destruct Hstep as [d s Hs|d n|d].
  - by apply afsk_adc_isr_inv.
  - destruct Hinv as (Hdel & (Hw & Hcap & Hb) & Hrest).
    pose proof (afsk_read_spec n (rx_fifo d) Hw) as Hr.
    destruct (afsk_read (rx_fifo d) n) as [buf q']. destruct Hr as (_ & Hc & Hw' & Hcap').
    split; [done|]. split; [|done].
    split_and!; simpl; [done|congruence|]. rewrite Hc. by apply Forall_drop.
  - exact Hinv.
Qed.

Lemma afsk_init_demod_inv flt : demod_inv flt (demodulator afsk_init).
Proof.
  destruct flt; split_and!; try decide_closed; vm_compute; done.
Qed.

(** C16: whatever the receiver hears and however the main loop interleaves, no
    interrupt ever overflows: the filter is computed exactly in 16-bit signed
    arithmetic, with the Butterworth filter and with the Chebyshev filter at
    each of its four cutoffs (the FIR filter that cfg_afsk.h also names does
    not compile, see [afsk_filter]), and the sampling phase of the
    phase-locked loop stays inside one bit period, moving by seven to nine
    units per sample. *)
Theorem afsk_adc_isr_no_overflow (flt : afsk_filter) (d : Demodulator) (s : Z)
    (Hreach : rtc (demod_step flt) (demodulator afsk_init) d) (Hs : -128 <= s < 128) :
  let d' := afsk_adc_isr flt d s in
  iir_x1 d' = iir_input flt (i8 (fst (fifo_pop (delay_fifo d)))) s /\
  iir_y1 d' = iir_output flt (iir_x1 d) (iir_x1 d') (iir_y1 d) /\
  0 <= curr_phase d' < PHASE_MAX /\
  (curr_phase d' - curr_phase d) mod PHASE_MAX ∈ [7; 8; 9].
Proof.
  assert (Hinv : demod_inv flt d).
  { pose proof (afsk_init_demod_inv flt) as H0. induction Hreach; [done|].
    eauto using demod_step_inv. }
  pose proof (afsk_adc_isr_inv flt d s Hinv Hs) as (_ & _ & _ & _ & Hph' & _).
  destruct Hinv as (Hdel & Hrx & Hx & Hy & Hph & Hh). cbv zeta.
  split_and!; [| |apply Hph'|apply Hph'|]; clear Hph'; unfold afsk_adc_isr;
    destruct (fifo_pop (delay_fifo d)) as [c q1];
    pose proof (iir_input_range flt (i8 c) s (i8_range c) Hs) as Hx1;
    pose proof (iir_output_range flt _ _ _ Hx Hx1 Hy) as Hy1; unfold y_max in Hy1;
    rewrite (i16_small (iir_input _ _ _)) by (pose proof (x_max_bound flt); lia);
    rewrite i16_small by lia;
    match goal with |- context [adc_phase ?b ?p] =>
      destruct (adc_phase_range b p Hph) as [Hpe Hpr]; set (ph := adc_phase b p) in * end.
  - destruct (ph >=? PHASE_MAX); [|done]. by destruct (hdlc_parse _ _ _ _) as [[[? ?] ?] ?].
  - destruct (ph >=? PHASE_MAX); [|done]. by destruct (hdlc_parse _ _ _ _) as [[[? ?] ?] ?].
  - assert (Hd : ph - curr_phase d = 7 \/ ph - curr_phase d = 8 \/ ph - curr_phase d = 9).
    { rewrite Hpe. zcases; lia. }
    change PHASE_MAX with 64 in *.
    rewrite !list_elem_of_In. simpl.
    destruct (ph >=? 64) eqn:E; rewrite Z.geb_leb in E; zbool.
    + destruct (hdlc_parse _ _ _ _) as [[[? ?] ?] ?]. simpl.
      rewrite Z.rem_mod_nonneg by lia. rewrite Zminus_mod_idemp_l.
      rewrite Z.mod_small by lia. lia.
    + simpl. rewrite Z.mod_small by lia. lia.
Qed.

Lemma afsk_adc_isr_no_overflow_witness :
  let d := afsk_adc_isr AFSK_CHEBYSHEV_800 (demodulator afsk_init) (-128) in
  let d' := afsk_adc_isr AFSK_CHEBYSHEV_800 d 127 in
  iir_x1 d' = iir_input AFSK_CHEBYSHEV_800 (i8 (fst (fifo_pop (delay_fifo d)))) 127 /\
  iir_y1 d' = iir_output AFSK_CHEBYSHEV_800 (iir_x1 d) (iir_x1 d') (iir_y1 d) /\
  0 <= curr_phase d' < PHASE_MAX /\
  (curr_phase d' - curr_phase d) mod PHASE_MAX ∈ [7; 8; 9].
Proof.
  apply (afsk_adc_isr_no_overflow AFSK_CHEBYSHEV_800
    (afsk_adc_isr AFSK_CHEBYSHEV_800 (demodulator afsk_init) (-128)) 127); [|lia].
  apply rtc_once, demod_sample. lia.
Defined.
