(* ===== verification/HwAfsk.v ===== *)
(** * The modem's pins and registers: [TinyAPRS/hw/hw_afsk.[ch]]

    The registers of the ATmega328P that the modem writes, the macros on the
    push-to-talk pin and the two LEDs, and the set-up of the converter and its
    timer. [PORTB] is shared: its bits 0 to 2 are the modem's, bit 3 is the
    transmit pin of the radio's serial port.  The body of the interrupt is
    [ADC_vect] of [Afsk]; here is what it does to the ports. *)

From Stdlib Require Import ZArith Lia Bool List.
From stdpp Require Import prelude.
From S2P Require Import Prelude Afsk.

Open Scope Z_scope.

Record Regs := mkRegs {
  DDRB : Z; PORTB : Z; DDRC : Z; PORTC : Z; DDRD : Z; PORTD : Z;
  DIDR0 : Z; TCCR1A : Z; TCCR1B : Z; ICR1 : Z; ADMUX : Z; ADCSRA : Z; ADCSRB : Z;
  hw_afsk_dac_isr : bool
}.

Definition set_DDRB (v : Z) (r : Regs) : Regs :=
  mkRegs v (PORTB r) (DDRC r) (PORTC r) (DDRD r) (PORTD r) (DIDR0 r) (TCCR1A r) (TCCR1B r) (ICR1 r) (ADMUX r) (ADCSRA r) (ADCSRB r) (hw_afsk_dac_isr r).
Definition set_PORTB (v : Z) (r : Regs) : Regs :=
  mkRegs (DDRB r) v (DDRC r) (PORTC r) (DDRD r) (PORTD r) (DIDR0 r) (TCCR1A r) (TCCR1B r) (ICR1 r) (ADMUX r) (ADCSRA r) (ADCSRB r) (hw_afsk_dac_isr r).
Definition set_DDRD (v : Z) (r : Regs) : Regs :=
  mkRegs (DDRB r) (PORTB r) (DDRC r) (PORTC r) v (PORTD r) (DIDR0 r) (TCCR1A r) (TCCR1B r) (ICR1 r) (ADMUX r) (ADCSRA r) (ADCSRB r) (hw_afsk_dac_isr r).
Definition set_PORTD (v : Z) (r : Regs) : Regs :=
  mkRegs (DDRB r) (PORTB r) (DDRC r) (PORTC r) (DDRD r) v (DIDR0 r) (TCCR1A r) (TCCR1B r) (ICR1 r) (ADMUX r) (ADCSRA r) (ADCSRB r) (hw_afsk_dac_isr r).
Definition set_dac_isr (v : bool) (r : Regs) : Regs :=
  mkRegs (DDRB r) (PORTB r) (DDRC r) (PORTC r) (DDRD r) (PORTD r) (DIDR0 r) (TCCR1A r) (TCCR1B r) (ICR1 r) (ADMUX r) (ADCSRA r) (ADCSRB r) v.

(** [|= BV(n)] and [&= ~BV(n)] on an eight-bit register. *)
Definition BV (n : Z) : Z := Z.shiftl 1 n.
Definition bit_on (n v : Z) : Z := Z.lor v (BV n).
Definition bit_off (n v : Z) : Z := Z.land v (255 - BV n).

(** ** The macros of hw_afsk.h *)

Definition AFSK_LED_INIT (r : Regs) : Regs := set_DDRB (Z.lor (DDRB r) (Z.lor (BV 1) (BV 2))) r.
Definition AFSK_LED_TX_ON (r : Regs) : Regs := set_PORTB (bit_on 1 (PORTB r)) r.
Definition AFSK_LED_TX_OFF (r : Regs) : Regs := set_PORTB (bit_off 1 (PORTB r)) r.
Definition AFSK_LED_RX_ON (r : Regs) : Regs := set_PORTB (bit_on 2 (PORTB r)) r.
Definition AFSK_LED_RX_OFF (r : Regs) : Regs := set_PORTB (bit_off 2 (PORTB r)) r.

Definition AFSK_DAC_INIT (r : Regs) : Regs :=
  let r := set_DDRD (Z.lor (DDRD r) 0xF0) r in
  set_DDRB (bit_on 0 (DDRB r)) r.

Definition AFSK_DAC_IRQ_START (r : Regs) : Regs :=
  set_dac_isr true (set_PORTB (bit_on 0 (PORTB r)) r).
Definition AFSK_DAC_IRQ_STOP (r : Regs) : Regs :=
  set_dac_isr false (set_PORTB (bit_off 0 (PORTB r)) r).

(** ** hw_afsk.c *)

Definition CPU_FREQ : Z := 16000000.

(** Timer 1 in CTC mode at an eighth of the clock, up to [ICR1]; the converter
    on channel [ch] against AVCC, started by the timer, with its interrupt. *)
Definition hw_afsk_adcInit (ch : Z) (r : Regs) : Regs :=
  mkRegs (DDRB r) (PORTB r)
    (bit_off ch (DDRC r)) (bit_off ch (PORTC r)) (DDRD r) (PORTD r)
    (bit_on ch (DIDR0 r))
    0 (Z.lor (BV 1) (Z.lor (BV 4) (BV 3)))
    (CPU_FREQ / 8 / 9600 - 1)
    (Z.lor (BV 6) ch)
    (Z.lor (Z.lor (Z.lor (Z.lor (BV 7) (BV 6)) (BV 5)) (BV 3)) (BV 2))
    (Z.lor (Z.lor (BV 2) (BV 1)) (BV 0))
    (hw_afsk_dac_isr r).

(** The interrupt's output: the sample's upper four bits or half scale. *)
Definition dac_port (sample : Z) (r : Regs) : Regs :=
  if hw_afsk_dac_isr r then set_PORTD (Z.land sample 0xF0) r else set_PORTD 128 r.

(** ** What the modem does to the pins *)

Inductive HwOp :=
  | LedTx (on : bool) | LedRx (on : bool) | DacIrq (on : bool) | Sample (v : Z).

Definition hw_op (o : HwOp) (r : Regs) : Regs :=
  match o with
  | LedTx on => if on then AFSK_LED_TX_ON r else AFSK_LED_TX_OFF r
  | LedRx on => if on then AFSK_LED_RX_ON r else AFSK_LED_RX_OFF r
  | DacIrq on => if on then AFSK_DAC_IRQ_START r else AFSK_DAC_IRQ_STOP r
  | Sample v => dac_port v r
  end.

(** Set-up as in [afsk_init]. *)
Definition hw_init (ch : Z) (r : Regs) : Regs :=
  AFSK_LED_TX_OFF (AFSK_LED_RX_OFF (AFSK_LED_INIT (AFSK_DAC_INIT (hw_afsk_adcInit ch r)))).

(** The state of a pin after a list of switches of it and others. *)
Fixpoint led_state (sel : HwOp -> option bool) (init : bool) (os : list HwOp) : bool :=
  match os with
  | [] => init
  | o :: os => led_state sel (default init (sel o)) os
  end.

Definition is_tx (o : HwOp) := match o with LedTx on => Some on | _ => None end.
Definition is_rx (o : HwOp) := match o with LedRx on => Some on | _ => None end.
Definition is_ptt (o : HwOp) := match o with DacIrq on => Some on | _ => None end.

Lemma bit_on_spec n v i : 0 <= n < 8 -> 0 <= i < 8 ->
  Z.testbit (bit_on n v) i = if i =? n then true else Z.testbit v i.
Proof.
  intros Hn Hi. unfold bit_on, BV. rewrite Z.lor_spec, Z.shiftl_1_l.
  rewrite Z.pow2_bits_eqb, (Z.eqb_sym n) by lia. destruct (i =? n); [apply orb_true_r|apply orb_false_r].
Qed.

Lemma bit_off_spec n v i : 0 <= n < 8 -> 0 <= i < 8 ->
  Z.testbit (bit_off n v) i = if i =? n then false else Z.testbit v i.
Proof.
  intros Hn Hi. unfold bit_off. rewrite Z.land_spec.
  assert (Z.testbit (255 - BV n) i = negb (i =? n)) as ->.
  { assert (n = 0 \/ n = 1 \/ n = 2 \/ n = 3 \/ n = 4 \/ n = 5 \/ n = 6 \/ n = 7) as Cn by lia.
    assert (i = 0 \/ i = 1 \/ i = 2 \/ i = 3 \/ i = 4 \/ i = 5 \/ i = 6 \/ i = 7) as Ci by lia.
    destruct_or! Cn; destruct_or! Ci; by subst. }
  destruct (i =? n); [apply andb_false_r|apply andb_true_r].
Qed.

Create Rewrite HintDb pins.
#[local] Hint Rewrite bit_on_spec bit_off_spec using lia : pins.

Lemma portb_step o r i : 0 <= i < 8 ->
  Z.testbit (PORTB (hw_op o r)) i
  = if i =? 0 then default (Z.testbit (PORTB r) 0) (is_ptt o)
    else if i =? 1 then default (Z.testbit (PORTB r) 1) (is_tx o)
    else if i =? 2 then default (Z.testbit (PORTB r) 2) (is_rx o)
    else Z.testbit (PORTB r) i.
Proof.
  intros Hi.
  assert (i = 0 \/ i = 1 \/ i = 2 \/ i = 3 \/ i = 4 \/ i = 5 \/ i = 6 \/ i = 7) as Ci by lia.
  destruct o as [[|]|[|]|[|]|v];
    cbn [hw_op AFSK_LED_TX_ON AFSK_LED_TX_OFF AFSK_LED_RX_ON AFSK_LED_RX_OFF
         AFSK_DAC_IRQ_START AFSK_DAC_IRQ_STOP set_dac_isr set_PORTB PORTB is_ptt is_tx is_rx default];
    try (unfold dac_port; destruct (hw_afsk_dac_isr r); cbn [set_PORTD PORTB]);
    autorewrite with pins; destruct_or! Ci; by subst.
Qed.

(** The pins are what they were last switched to, whatever happens in between:
    after any sequence of switches and samples the push-to-talk pin and the
    two LEDs have the state of their own last switch, the push-to-talk pin and
    the flow of samples are switched together, and the upper five bits of the
    port, among them the radio's serial line, are untouched. *)
Theorem hw_pins (ch : Z) (r0 : Regs) (os : list HwOp) :
  let r := fold_left (fun r o => hw_op o r) os (hw_init ch r0) in
  Z.testbit (PORTB r) 0 = led_state is_ptt (Z.testbit (PORTB r0) 0) os /\
  Z.testbit (PORTB r) 1 = led_state is_tx false os /\
  Z.testbit (PORTB r) 2 = led_state is_rx false os /\
  hw_afsk_dac_isr r = led_state is_ptt (hw_afsk_dac_isr r0) os /\
  forall i, 3 <= i < 8 -> Z.testbit (PORTB r) i = Z.testbit (PORTB r0) i.
Proof.
  intros r. subst r.
  assert (G : forall r, let r' := fold_left (fun r o => hw_op o r) os r in
    Z.testbit (PORTB r') 0 = led_state is_ptt (Z.testbit (PORTB r) 0) os /\
    Z.testbit (PORTB r') 1 = led_state is_tx (Z.testbit (PORTB r) 1) os /\
    Z.testbit (PORTB r') 2 = led_state is_rx (Z.testbit (PORTB r) 2) os /\
    hw_afsk_dac_isr r' = led_state is_ptt (hw_afsk_dac_isr r) os /\
    forall i, 3 <= i < 8 -> Z.testbit (PORTB r') i = Z.testbit (PORTB r) i).
  { induction os as [|o os IH]; intros r; [done|]. cbn [fold_left led_state].
    destruct (IH (hw_op o r)) as (E0 & E1 & E2 & Ei & Er).
    rewrite portb_step in E0, E1, E2 by lia. cbn in E0, E1, E2. split_and!; [done..| |].
    - cbn zeta in Ei. rewrite Ei. f_equal. destruct o as [[|]|[|]|[|]|v]; try done.
      cbn. unfold dac_port. by destruct (hw_afsk_dac_isr r) eqn:E.
    - intros i Hi. rewrite Er, portb_step by lia.
      by assert ((i =? 0) = false /\ (i =? 1) = false /\ (i =? 2) = false) as (-> & -> & ->) by lia. }
  specialize (G (hw_init ch r0)). cbn zeta in G |- *.
  assert (I : forall i, 0 <= i < 8 -> Z.testbit (PORTB (hw_init ch r0)) i
    = if (i =? 1) || (i =? 2) then false else Z.testbit (PORTB r0) i).
  { intros i Hi. unfold hw_init, AFSK_LED_TX_OFF, AFSK_LED_RX_OFF. cbn [set_PORTB PORTB].
    rewrite !bit_off_spec by lia. by destruct (i =? 1), (i =? 2). }
  destruct G as (E0 & E1 & E2 & Ei & Er). rewrite I in E0, E1, E2 by lia. cbn in E0, E1, E2.
  split_and!; [done..|]. intros i Hi. rewrite Er, I by lia.
  by assert ((i =? 1) || (i =? 2) = false) as -> by lia.
Qed.

(** The samples come at 16 MHz / 8 / 208, a sixth of a percent more often than
    the 9600 a second that the modem counts with. *)
Lemma sample_rate ch r :
  ICR1 (hw_afsk_adcInit ch r) = 207 /\
  let n := CPU_FREQ / 8 in let d := ICR1 (hw_afsk_adcInit ch r) + 1 in
  9600 * d <= n /\ 1000 * n < 1002 * (9600 * d).
Proof. split; [reflexivity|]. vm_compute. split; congruence. Qed.
