(* ===== verification/Ax25.v ===== *)
(** * The AX.25 data link layer: [bertos/net/ax25.[ch]]

    [ax25_sendRaw], [ax25_sendVia] and [ax25_sendMsg] write escaped frames with
    their checksum to any KFile; [ax25_poll] reads escaped bytes from any KFile,
    cuts them into frames, checks them and calls the hook.  The layer is
    generic in the channel: it is proved against the interfaces [KSink] and
    [KSource] of KFile.v.  The hook is a function on the context and on the
    rest [W] of the program's state. *)

From Stdlib Require Import ZArith Lia Bool List.
From stdpp Require Import prelude.
From S2P Require Import Prelude.
From S2P Require Import Libc.
From S2P Require Import Crc.
From S2P Require Import Fifo.
From S2P Require Import KFile.
From S2P Require Import Escape.

Open Scope Z_scope.

(** ** Constants of ax25.h and cfg_ax25.h *)

Definition AX25_CTRL_UI : Z := 0x03.
Definition AX25_PID_NOLAYER3 : Z := 0xF0.
Definition AX25_MIN_FRAME_LEN : Z := 18.
Definition AX25_CRC_CORRECT : Z := 0xF0B8.
Definition AX25_MAX_RPT : nat := 8.
Definition CONFIG_AX25_FRAME_BUF_LEN : Z := 330.

(** ** Data *)

(** [char call[6]] and the secondary station id. *)
Record AX25Call := mkCall { call : list Z; ssid : Z }.

(** [m_info] is what the pointer [info] points at, up to the end of the
    buffer it points into; the payload is its first [m_len] bytes. *)
Record AX25Msg := mkMsg {
  m_src : AX25Call;
  m_dst : AX25Call;
  m_rpt_lst : list AX25Call;
  m_rpt_cnt : Z;
  m_rpt_flags : Z;
  m_ctrl : Z;
  m_pid : Z;
  m_info : list Z;
  m_len : Z
}.

(** [ax_hook]: a hook is installed. *)
Record AX25Ctx (F : Type) := mkCtx {
  ax_buf : list Z;
  ax_ch : F;
  frm_len : Z;
  crc_in : Z;
  crc_out : Z;
  ax_hook : bool;
  pass_through : bool;
  sync : bool;
  escape : bool;
  dcd_state : Z;
  dcd : bool;
  rx_ok : Z;
  tx_ok : Z;
  rx_err : Z
}.

Arguments mkCtx {F}.
Arguments ax_buf {F}. Arguments ax_ch {F}. Arguments frm_len {F}.
Arguments crc_in {F}. Arguments crc_out {F}. Arguments ax_hook {F}.
Arguments pass_through {F}. Arguments sync {F}. Arguments escape {F}.
Arguments dcd_state {F}. Arguments dcd {F}. Arguments rx_ok {F}.
Arguments tx_ok {F}. Arguments rx_err {F}.

(** Field assignments. *)
Definition set_ax_buf {F} (v : list Z) (ctx : AX25Ctx F) : AX25Ctx F :=
  mkCtx v (ax_ch ctx) (frm_len ctx) (crc_in ctx) (crc_out ctx) (ax_hook ctx) (pass_through ctx) (sync ctx) (escape ctx) (dcd_state ctx) (dcd ctx) (rx_ok ctx) (tx_ok ctx) (rx_err ctx).
Definition set_ax_ch {F} (v : F) (ctx : AX25Ctx F) : AX25Ctx F :=
  mkCtx (ax_buf ctx) v (frm_len ctx) (crc_in ctx) (crc_out ctx) (ax_hook ctx) (pass_through ctx) (sync ctx) (escape ctx) (dcd_state ctx) (dcd ctx) (rx_ok ctx) (tx_ok ctx) (rx_err ctx).
Definition set_frm_len {F} (v : Z) (ctx : AX25Ctx F) : AX25Ctx F :=
  mkCtx (ax_buf ctx) (ax_ch ctx) v (crc_in ctx) (crc_out ctx) (ax_hook ctx) (pass_through ctx) (sync ctx) (escape ctx) (dcd_state ctx) (dcd ctx) (rx_ok ctx) (tx_ok ctx) (rx_err ctx).
Definition set_crc_in {F} (v : Z) (ctx : AX25Ctx F) : AX25Ctx F :=
  mkCtx (ax_buf ctx) (ax_ch ctx) (frm_len ctx) v (crc_out ctx) (ax_hook ctx) (pass_through ctx) (sync ctx) (escape ctx) (dcd_state ctx) (dcd ctx) (rx_ok ctx) (tx_ok ctx) (rx_err ctx).
Definition set_crc_out {F} (v : Z) (ctx : AX25Ctx F) : AX25Ctx F :=
  mkCtx (ax_buf ctx) (ax_ch ctx) (frm_len ctx) (crc_in ctx) v (ax_hook ctx) (pass_through ctx) (sync ctx) (escape ctx) (dcd_state ctx) (dcd ctx) (rx_ok ctx) (tx_ok ctx) (rx_err ctx).
Definition set_ax_hook {F} (v : bool) (ctx : AX25Ctx F) : AX25Ctx F :=
  mkCtx (ax_buf ctx) (ax_ch ctx) (frm_len ctx) (crc_in ctx) (crc_out ctx) v (pass_through ctx) (sync ctx) (escape ctx) (dcd_state ctx) (dcd ctx) (rx_ok ctx) (tx_ok ctx) (rx_err ctx).
Definition set_pass_through {F} (v : bool) (ctx : AX25Ctx F) : AX25Ctx F :=
  mkCtx (ax_buf ctx) (ax_ch ctx) (frm_len ctx) (crc_in ctx) (crc_out ctx) (ax_hook ctx) v (sync ctx) (escape ctx) (dcd_state ctx) (dcd ctx) (rx_ok ctx) (tx_ok ctx) (rx_err ctx).
Definition set_sync {F} (v : bool) (ctx : AX25Ctx F) : AX25Ctx F :=
  mkCtx (ax_buf ctx) (ax_ch ctx) (frm_len ctx) (crc_in ctx) (crc_out ctx) (ax_hook ctx) (pass_through ctx) v (escape ctx) (dcd_state ctx) (dcd ctx) (rx_ok ctx) (tx_ok ctx) (rx_err ctx).
Definition set_escape {F} (v : bool) (ctx : AX25Ctx F) : AX25Ctx F :=
  mkCtx (ax_buf ctx) (ax_ch ctx) (frm_len ctx) (crc_in ctx) (crc_out ctx) (ax_hook ctx) (pass_through ctx) (sync ctx) v (dcd_state ctx) (dcd ctx) (rx_ok ctx) (tx_ok ctx) (rx_err ctx).
Definition set_dcd_state {F} (v : Z) (ctx : AX25Ctx F) : AX25Ctx F :=
  mkCtx (ax_buf ctx) (ax_ch ctx) (frm_len ctx) (crc_in ctx) (crc_out ctx) (ax_hook ctx) (pass_through ctx) (sync ctx) (escape ctx) v (dcd ctx) (rx_ok ctx) (tx_ok ctx) (rx_err ctx).
Definition set_dcd {F} (v : bool) (ctx : AX25Ctx F) : AX25Ctx F :=
  mkCtx (ax_buf ctx) (ax_ch ctx) (frm_len ctx) (crc_in ctx) (crc_out ctx) (ax_hook ctx) (pass_through ctx) (sync ctx) (escape ctx) (dcd_state ctx) v (rx_ok ctx) (tx_ok ctx) (rx_err ctx).
Definition set_rx_ok {F} (v : Z) (ctx : AX25Ctx F) : AX25Ctx F :=
  mkCtx (ax_buf ctx) (ax_ch ctx) (frm_len ctx) (crc_in ctx) (crc_out ctx) (ax_hook ctx) (pass_through ctx) (sync ctx) (escape ctx) (dcd_state ctx) (dcd ctx) v (tx_ok ctx) (rx_err ctx).
Definition set_tx_ok {F} (v : Z) (ctx : AX25Ctx F) : AX25Ctx F :=
  mkCtx (ax_buf ctx) (ax_ch ctx) (frm_len ctx) (crc_in ctx) (crc_out ctx) (ax_hook ctx) (pass_through ctx) (sync ctx) (escape ctx) (dcd_state ctx) (dcd ctx) (rx_ok ctx) v (rx_err ctx).
Definition set_rx_err {F} (v : Z) (ctx : AX25Ctx F) : AX25Ctx F :=
  mkCtx (ax_buf ctx) (ax_ch ctx) (frm_len ctx) (crc_in ctx) (crc_out ctx) (ax_hook ctx) (pass_through ctx) (sync ctx) (escape ctx) (dcd_state ctx) (dcd ctx) (rx_ok ctx) (tx_ok ctx) v.

(** [AX25_REPEATED] and [AX25_SET_REPEATED] on the byte of flags. *)
Definition AX25_REPEATED (rpt_flags idx : Z) : bool :=
  negb (Z.land rpt_flags (BV idx) =? 0).

Definition AX25_SET_REPEATED (rpt_flags idx : Z) (val : bool) : Z :=
  if val then u8 (Z.lor rpt_flags (BV idx))
  else u8 (Z.land rpt_flags (Z.lnot (BV idx))).

(** ** The C library's character classes (C locale) *)

(** ** Receiving *)

Section Receive.
Context {F : Type} `{KFile F} {W : Type}.
(** The callback; what is on the stack where [ax25_decode] puts its
    uninitialised message. *)
Variable hook : option AX25Msg -> AX25Ctx F -> W -> AX25Ctx F * W.
Variable stack_msg : AX25Ctx F -> W -> AX25Msg.

(** [DECODE_CALL] at offset [p]: shifted characters, spaces to NULs. *)
Definition DECODE_CALL (buf : list Z) (p : Z) : list Z :=
  map (fun i => let c := Z.shiftr (get buf (p + i)) 1 in if c =? 32 then 0 else c)
    (seqZ 0 6).

Definition decode_ssid (b : Z) : Z := Z.land (Z.shiftr b 1) 0x0F.

(** The repeater loop; [p] is [buf - ctx->buf], [room] the free entries. *)
Fixpoint decode_rpts (room : nat) (buf : list Z) (p : Z) (m : AX25Msg) : Z * AX25Msg :=
  let more := negb (Z.testbit (get buf p) 0) in
  let p := p + 1 in
  if more then
    match room with
    | O => (p, m)
    | S room' =>
        let b := get buf (p + 6) in
        let c := mkCall (DECODE_CALL buf p) (decode_ssid b) in
        let i := m_rpt_cnt m in
        let flags := AX25_SET_REPEATED (m_rpt_flags m) i (negb (Z.land b 0x80 =? 0)) in
        decode_rpts room' buf (p + 6)
          (mkMsg (m_src m) (m_dst m) (<[Z.to_nat i := c]> (m_rpt_lst m)) (i + 1) flags
            (m_ctrl m) (m_pid m) (m_info m) (m_len m))
    end
  else (p, m).

(** [ax25_decode] up to the call of the hook. *)
Definition ax25_decode_msg (msg : AX25Msg) (ctx : AX25Ctx F) : option AX25Msg :=
  let buf := ax_buf ctx in
  let dst := mkCall (DECODE_CALL buf 0) (decode_ssid (get buf 6)) in
  let src := mkCall (DECODE_CALL buf 7) (decode_ssid (get buf 13)) in
  let '(p, m) := decode_rpts AX25_MAX_RPT buf 13
    (mkMsg src dst (m_rpt_lst msg) 0 (m_rpt_flags msg) (m_ctrl msg) (m_pid msg)
      (m_info msg) (m_len msg)) in
  let c := get buf p in
  if negb (c =? AX25_CTRL_UI) then None
  else
    let pd := get buf (p + 1) in
    if negb (pd =? AX25_PID_NOLAYER3) then None
    else
      Some (mkMsg src dst (m_rpt_lst m) (m_rpt_cnt m) (m_rpt_flags m) c pd
        (drop (Z.to_nat (p + 2)) buf) (u16 (frm_len ctx - 2 - (p + 2)))).

Definition ax25_decode (ctx : AX25Ctx F) (w : W) : AX25Ctx F * W :=
  match ax25_decode_msg (stack_msg ctx w) ctx with
  | Some m => if ax_hook ctx then hook (Some m) ctx w else (ctx, w)
  | None => (ctx, w)
  end.

(** A flag that closes a frame long enough to have a checksum. *)
Definition ax25_frame_end (ctx : AX25Ctx F) (w : W) : AX25Ctx F * W :=
  if frm_len ctx >=? AX25_MIN_FRAME_LEN then
    if crc_in ctx =? AX25_CRC_CORRECT then
      let ctx := set_rx_ok (u32 (rx_ok ctx + 1)) ctx in
      if pass_through ctx then
        if ax_hook ctx then hook None ctx w else (ctx, w)
      else ax25_decode ctx w
    else (set_rx_err (u32 (rx_err ctx + 1)) ctx, w)
  else (ctx, w).

(** A byte inside a frame. *)
Definition ax25_frame_byte (c : Z) (ctx : AX25Ctx F) : AX25Ctx F :=
  if frm_len ctx <? CONFIG_AX25_FRAME_BUF_LEN then
    let ctx := set_ax_buf (upd (ax_buf ctx) (frm_len ctx) (u8 c)) ctx in
    let ctx := set_frm_len (u16 (frm_len ctx + 1)) ctx in
    let ctx := set_crc_in (updcrc_ccitt (u8 c) (crc_in ctx)) ctx in
    let ctx :=
      if (dcd_state ctx =? 1) && (c =? AX25_PID_NOLAYER3) then
        set_dcd true (set_dcd_state (u8 (dcd_state ctx + 1)) ctx)
      else ctx in
    if (dcd_state ctx =? 0) && (c =? AX25_CTRL_UI) then
      set_dcd_state (u8 (dcd_state ctx + 1)) ctx
    else ctx
  else
    set_rx_err (u32 (rx_err ctx + 1)) (set_dcd false (set_sync false ctx)).

(** One turn of the loop of [ax25_poll]. *)
Definition ax25_poll_char (c : Z) (ctx : AX25Ctx F) (w : W) : AX25Ctx F * W :=
  if negb (escape ctx) && (c =? HDLC_FLAG) then
    let '(ctx, w) := ax25_frame_end ctx w in
    (set_dcd false (set_dcd_state 0 (set_frm_len 0
      (set_crc_in CRC_CCITT_INIT_VAL (set_sync true ctx)))), w)
  else if negb (escape ctx) && (c =? HDLC_RESET) then
    (set_dcd false (set_sync false ctx), w)
  else if negb (escape ctx) && (c =? AX25_ESC) then
    (set_escape true ctx, w)
  else
    let ctx := if sync ctx then ax25_frame_byte c ctx else ctx in
    (set_escape false ctx, w).

(** The loop runs until the channel has nothing to give; each turn consumes
    one unit of [fuel] ([None]: still running). *)
Fixpoint ax25_poll_loop (fuel : nat) (ctx : AX25Ctx F) (w : W) : option (AX25Ctx F * W) :=
  match fuel with
  | O => None
  | S fuel' =>
      let '(c, ch) := kfile_getc (ax_ch ctx) in
      let ctx := set_ax_ch ch ctx in
      if c =? EOF then Some (ctx, w)
      else let '(ctx, w) := ax25_poll_char c ctx w in ax25_poll_loop fuel' ctx w
  end.

(** After the loop: errors of the channel. *)
Definition ax25_channel_error (ctx : AX25Ctx F) : AX25Ctx F :=
  if negb (kfile_error (ax_ch ctx) =? 0) then
    let ctx := set_ax_ch (kfile_clearerr (ax_ch ctx)) ctx in
    let ctx := if dcd ctx then set_rx_err (u32 (rx_err ctx + 1)) ctx else ctx in
    set_dcd false ctx
  else ctx.

Definition ax25_poll (fuel : nat) (ctx : AX25Ctx F) (w : W) : option (AX25Ctx F * W) :=
  match ax25_poll_loop fuel ctx w with
  | Some (ctx, w) => Some (ax25_channel_error ctx, w)
  | None => None
  end.
End Receive.

(** ** Sending *)

Section Send.
Context {F : Type} `{KFile F}.

Definition ctx_putc (c : Z) (ctx : AX25Ctx F) : AX25Ctx F :=
  set_ax_ch (snd (kfile_putc c (ax_ch ctx))) ctx.

Definition ax25_putchar (ctx : AX25Ctx F) (c : Z) : AX25Ctx F :=
  let ctx :=
    if hdlc_special c
    then ctx_putc AX25_ESC ctx else ctx in
  let ctx := set_crc_out (updcrc_ccitt c (crc_out ctx)) ctx in
  ctx_putc c ctx.

(** [while (len--) ax25_putchar(ctx, *buf++)]. *)
Definition ax25_putchars (ctx : AX25Ctx F) (l : list Z) : AX25Ctx F :=
  fold_left ax25_putchar l ctx.

Definition ssid_octet (ssid : Z) (last repeated : bool) : Z :=
  let b := u8 (Z.lor (Z.lor 0x60 (Z.shiftl ssid 1)) (if last then 0x01 else 0)) in
  if repeated then Z.lor b 0x80 else b.

Definition ax25_sendCall (ctx : AX25Ctx F) (addr : AX25Call) (last repeated : bool)
  : AX25Ctx F :=
  let len := strnlen (call addr) in
  let ctx :=
    fold_left (fun ctx c => ax25_putchar ctx (u8 (Z.shiftl (u8 (toupper c)) 1)))
      (take len (call addr)) ctx in
  let ctx := iter (6 - len) (fun ctx => ax25_putchar ctx (u8 (Z.shiftl 32 1))) ctx in
  ax25_putchar ctx (ssid_octet (ssid addr) last repeated).

(** The checksum, low byte first, and the closing flag. *)
Definition ax25_send_tail (ctx : AX25Ctx F) : AX25Ctx F :=
  let crcl := Z.lxor (Z.land (crc_out ctx) 0xff) 0xff in
  let crch := Z.lxor (u8 (Z.shiftr (crc_out ctx) 8)) 0xff in
  let ctx := ax25_putchar ctx crcl in
  let ctx := ax25_putchar ctx crch in
  ctx_putc HDLC_FLAG ctx.

Definition ax25_send_head (ctx : AX25Ctx F) : AX25Ctx F :=
  ctx_putc HDLC_FLAG (set_crc_out CRC_CCITT_INIT_VAL ctx).

Definition ax25_tx_done (ctx : AX25Ctx F) : AX25Ctx F :=
  set_tx_ok (u32 (tx_ok ctx + 1)) ctx.

Definition ctx_flush (ctx : AX25Ctx F) : AX25Ctx F :=
  set_ax_ch (snd (kfile_flush (ax_ch ctx))) ctx.

(** The path's calls, the last one marked. *)
Fixpoint ax25_sendPath (ctx : AX25Ctx F) (path : list AX25Call) : AX25Ctx F :=
  match path with
  | [] => ctx
  | a :: rest =>
      ax25_sendPath (ax25_sendCall ctx a (bool_decide (rest = [])) false) rest
  end.

Definition ax25_sendVia (ctx : AX25Ctx F) (path : list AX25Call) (buf : list Z)
  : AX25Ctx F :=
  let ctx := ax25_send_head ctx in
  let ctx := ax25_sendPath ctx path in
  let ctx := ax25_putchar ctx AX25_CTRL_UI in
  let ctx := ax25_putchar ctx AX25_PID_NOLAYER3 in
  let ctx := ax25_putchars ctx buf in
  ax25_tx_done (ax25_send_tail ctx).

(** [for (uint8_t i = 0; i < msg->rpt_cnt; i++)] from entry [i] on. *)
Fixpoint ax25_sendRpts (n : nat) (i : Z) (ctx : AX25Ctx F) (msg : AX25Msg) : AX25Ctx F :=
  match n with
  | O => ctx
  | S n' =>
      if i <? m_rpt_cnt msg then
        let a := nth (Z.to_nat i) (m_rpt_lst msg) (mkCall [] 0) in
        let ctx := ax25_sendCall ctx a (i =? m_rpt_cnt msg - 1)
          (AX25_REPEATED (m_rpt_flags msg) i) in
        ax25_sendRpts n' (i + 1) ctx msg
      else ctx
  end.

Definition ax25_sendMsg (ctx : AX25Ctx F) (msg : AX25Msg) : AX25Ctx F :=
  if (m_rpt_cnt msg =? 0) || (m_len msg =? 0) then ctx
  else
    let ctx := ax25_send_head ctx in
    let ctx := ax25_sendCall ctx (m_dst msg) false false in
    let ctx := ax25_sendCall ctx (m_src msg) false false in
    let ctx := ax25_sendRpts (Z.to_nat (m_rpt_cnt msg)) 0 ctx msg in
    let ctx := ax25_putchar ctx AX25_CTRL_UI in
    let ctx := ax25_putchar ctx AX25_PID_NOLAYER3 in
    let ctx := ax25_putchars ctx (take (Z.to_nat (m_len msg)) (m_info msg)) in
    ax25_tx_done (ctx_flush (ax25_send_tail ctx)).

Definition ax25_sendRaw (ctx : AX25Ctx F) (buf : list Z) : AX25Ctx F :=
  let ctx := ax25_send_head ctx in
  let ctx := ax25_putchars ctx buf in
  ax25_tx_done (ctx_flush (ax25_send_tail ctx)).

Definition ax25_init (channel : F) (hook : bool) : AX25Ctx F :=
  mkCtx (zeros (Z.to_nat CONFIG_AX25_FRAME_BUF_LEN)) channel 0 CRC_CCITT_INIT_VAL
    CRC_CCITT_INIT_VAL hook false false false 0 false 0 0 0.
End Send.
