(* ===== verification/Ax25Tx.v ===== *)
(** * Sending AX.25 frames: what [Ax25.v]'s senders put on the channel

    The abstract view of a message is a [Frame]; [frame_octets] is its wire
    format as the AX.25 standard has it and [frame_stream] the escaped stream
    with checksum and flags.  Every sender is proved to append exactly one
    [frame_stream] to any channel that obeys [KSink], and to end with the
    residue [AX25_CRC_CORRECT] its own assertion asks for. *)

From Stdlib Require Import ZArith Lia Bool List.
From stdpp Require Import prelude.
From S2P Require Import Prelude.
From S2P Require Import Libc.
From S2P Require Import Crc.
From S2P Require Import Fifo.
From S2P Require Import KFile.
From S2P Require Import Escape.
From S2P Require Import Ax25.

Open Scope Z_scope.

(** ** Abstract frames *)

(** A path entry is a call and its has-been-repeated flag. *)
Record Frame := mkFrame {
  f_dst : AX25Call;
  f_src : AX25Call;
  f_path : list (AX25Call * bool);
  f_info : list Z
}.

(** The last octet of an address, as the standard lays it out: bit 0 ends the
    address field, bits 1 to 4 hold the SSID, bits 5 and 6 are reserved and
    set, bit 7 says that the repeater has passed the frame on.  It does not
    use the code's [ssid_octet]; that both agree is [wire_ssid_eq].  (A call
    with an SSID of 64 or more, which neither a decoded frame nor a legal call
    has, spills its bit 6 into bit 7; the octet is stated for it as well.) *)
Definition wire_ssid (ssid : Z) (last repeated : bool) : Z :=
  Z.b2z last + 2 * (ssid mod 16) + 32 + 64
  + 128 * Z.b2z (repeated || Z.testbit ssid 6).

Definition addr_octets (a : AX25Call) (last repeated : bool) : list Z :=
  let name := map toupper (take (strnlen (call a)) (call a)) in
  map (fun c => u8 (Z.shiftl (u8 c) 1)) (name ++ replicate (6 - length name) 32)
  ++ [wire_ssid (ssid a) last repeated].

Fixpoint path_octets (path : list (AX25Call * bool)) : list Z :=
  match path with
  | [] => []
  | [(a, r)] => addr_octets a true r
  | (a, r) :: rest => addr_octets a false r ++ path_octets rest
  end.

(** The octets of a frame between its flags, checksum excluded. *)
Definition frame_octets (f : Frame) : list Z :=
  path_octets ((f_dst f, false) :: (f_src f, false) :: f_path f)
  ++ [AX25_CTRL_UI; AX25_PID_NOLAYER3] ++ f_info f.

(** Octets with their frame check sequence. *)
Definition with_fcs (l : list Z) : list Z := l ++ fcs (crc_ccitt CRC_CCITT_INIT_VAL l).

Definition frame_stream (l : list Z) : list Z :=
  HDLC_FLAG :: escaped (with_fcs l) ++ [HDLC_FLAG].

(** The path entries [i], [i + 1], ... [i + n - 1] of a message. *)
Fixpoint rpt_entries (n : nat) (i : Z) (m : AX25Msg) : list (AX25Call * bool) :=
  match n with
  | O => []
  | S n' =>
      (nth (Z.to_nat i) (m_rpt_lst m) (mkCall [] 0), AX25_REPEATED (m_rpt_flags m) i)
        :: rpt_entries n' (i + 1) m
  end.

(** What a message stands for. *)
Definition msg_frame (m : AX25Msg) : Frame :=
  mkFrame (m_dst m) (m_src m) (rpt_entries (Z.to_nat (m_rpt_cnt m)) 0 m)
    (take (Z.to_nat (m_len m)) (m_info m)).

(** ** The octets are bytes *)

Lemma ssid_octet_byte s last r : is_byte (ssid_octet s last r).
Proof.
  unfold ssid_octet. pose proof (u8_range (Z.lor (Z.lor 96 (Z.shiftl s 1)) (if last then 1 else 0))).
  destruct r; [|done]. apply (lor_bound _ _ 8); lia.
Qed.

(** Only the low seven bits of an SSID reach the wire. *)
Lemma ssid_octet_mod s last r : ssid_octet (s mod 128) last r = ssid_octet s last r.
Proof.
  assert (H : forall b, u8 (Z.lor (Z.lor 96 (Z.shiftl (s mod 128) 1)) b)
    = u8 (Z.lor (Z.lor 96 (Z.shiftl s 1)) b)).
  { intros b. rewrite <- !land_255, !Z.land_lor_distr_l. do 2 f_equal.
    rewrite !land_255, !Z.shiftl_mul_pow2 by lia. unfold u8.
    rewrite <- Zmult_mod_distr_r. by rewrite Z.mod_mod. }
  unfold ssid_octet. by rewrite H.
Qed.

Lemma wire_ssid_mod s last r : wire_ssid (s mod 128) last r = wire_ssid s last r.
Proof.
  unfold wire_ssid.
  replace (Z.testbit (s mod 128) 6) with (Z.testbit s 6)
    by (change 128 with (2 ^ 7); by rewrite Z.mod_pow2_bits_low).
  by rewrite <- (Znumtheory.Zmod_div_mod 16 128 s) by (lia || by exists 8).
Qed.

Lemma wire_ssid_eq s last r : wire_ssid s last r = ssid_octet s last r.
Proof.
  rewrite <- wire_ssid_mod, <- ssid_octet_mod.
  assert (Hb : is_byte (s mod 128)).
  { pose proof (Z.mod_pos_bound s 128). unfold is_byte. lia. }
  assert (Hall : forall b, is_byte b ->
    implb (b <? 128) (wire_ssid b last r =? ssid_octet b last r) = true).
  { apply forall_byte. destruct last, r; vm_compute; reflexivity. }
  specialize (Hall _ Hb).
  assert ((s mod 128 <? 128) = true) as Hlt
    by (apply Z.ltb_lt; pose proof (Z.mod_pos_bound s 128); lia).
  rewrite Hlt in Hall. by apply Z.eqb_eq.
Qed.

Lemma wire_ssid_byte s last r : is_byte (wire_ssid s last r).
Proof. rewrite wire_ssid_eq. apply ssid_octet_byte. Qed.

Lemma addr_octets_bytes a last r : bytes (addr_octets a last r).
Proof.
  unfold addr_octets. apply Forall_app. split.
  - apply Forall_map, Forall_true. intros. apply u8_is_byte.
  - constructor; [apply wire_ssid_byte|done].
Qed.

Lemma path_octets_cons a r p rest :
  path_octets ((a, r) :: p :: rest) = addr_octets a false r ++ path_octets (p :: rest).
Proof. done. Qed.

Lemma path_octets_bytes p : bytes (path_octets p).
Proof.
  induction p as [|[a r] [|p rest] IH]; [by constructor|apply addr_octets_bytes|].
  rewrite path_octets_cons. apply Forall_app. split; [apply addr_octets_bytes|done].
Qed.

Lemma frame_octets_bytes f : bytes (f_info f) -> bytes (frame_octets f).
Proof.
  intros Hi. unfold frame_octets, bytes.
  rewrite !Forall_app. split_and!; [apply path_octets_bytes|decide_closed|done].
Qed.

Lemma init_u16 : is_u16 CRC_CCITT_INIT_VAL.
Proof. decide_closed. Qed.

Lemma with_fcs_bytes l : bytes l -> bytes (with_fcs l).
Proof.
  intros Hl. apply Forall_app. split; [done|].
  apply fcs_bytes, crc_ccitt_u16, init_u16.
Qed.

Lemma frame_stream_bytes l : bytes l -> bytes (frame_stream l).
Proof.
  intros Hl. constructor; [decide_closed|]. apply Forall_app.
  split; [by apply escaped_bytes, with_fcs_bytes|decide_closed].
Qed.

#[export] Hint Resolve addr_octets_bytes ssid_octet_byte wire_ssid_byte path_octets_bytes
  frame_octets_bytes with_fcs_bytes frame_stream_bytes init_u16 : aprs.

(** ** The senders against a sink *)

Section Sink.
Context {F : Type} `{KSink F}.
Implicit Types ctx : AX25Ctx F.

(** [ctx'] is [ctx] after the channel took exactly the bytes [out] and the
    checksum of sent data took [data]. *)
Definition sent ctx (out data : list Z) ctx' : Prop :=
  exists ch,
    ctx' = set_crc_out (crc_ccitt (crc_out ctx) data) (set_ax_ch ch ctx) /\
    kk_ok ch /\ kk_out ch = kk_out (ax_ch ctx) ++ out /\
    forall l, kk_fits (ax_ch ctx) (out ++ l) -> kk_fits ch l.

Lemma sent_trans ctx o1 d1 ctx1 o2 d2 ctx2 :
  sent ctx o1 d1 ctx1 -> sent ctx1 o2 d2 ctx2 -> sent ctx (o1 ++ o2) (d1 ++ d2) ctx2.
Proof.
  intros (c1 & -> & Ok1 & O1 & F1) (c2 & -> & Ok2 & O2 & F2). exists c2.
  cbn in *. rewrite crc_ccitt_app. split_and!; [done|done| |].
  - by rewrite O2, O1, app_assoc.
  - intros l Hl. apply F2, F1. by rewrite app_assoc.
Qed.

Lemma sent_ok ctx out data ctx' : sent ctx out data ctx' -> kk_ok (ax_ch ctx').
Proof. by intros (c & -> & ? & _). Qed.

Lemma sent_fits ctx out data ctx' l :
  sent ctx out data ctx' -> kk_fits (ax_ch ctx) (out ++ l) -> kk_fits (ax_ch ctx') l.
Proof. intros (c & -> & _ & _ & Hf) Hl. by apply Hf. Qed.

Lemma sent_refl ctx : kk_ok (ax_ch ctx) -> sent ctx [] [] ctx.
Proof.
  intros Hok. exists (ax_ch ctx). rewrite app_nil_r. split_and!; try done.
  by destruct ctx.
Qed.

(** A sender of [data], escaped, that runs wherever the stream fits. *)
Definition sender (f : AX25Ctx F -> AX25Ctx F) (data : list Z) : Prop :=
  forall ctx, kk_ok (ax_ch ctx) -> kk_fits (ax_ch ctx) (escaped data) ->
    sent ctx (escaped data) data (f ctx).

Lemma sender_id : sender (fun ctx => ctx) [].
Proof. intros ctx Hok _. by apply sent_refl. Qed.

Lemma sender_comp f g d1 d2 :
  sender f d1 -> sender g d2 -> sender (fun ctx => g (f ctx)) (d1 ++ d2).
Proof.
  intros Hf Hg ctx Hok Hfit. rewrite escaped_app in *.
  assert (Hs : sent ctx (escaped d1) d1 (f ctx)) by (apply Hf; [done|by eapply kk_fits_app]).
  eapply sent_trans; [exact Hs|]. apply Hg; [by eapply sent_ok|by eapply sent_fits].
Qed.

Lemma sender_comp' f g h d1 d2 :
  sender f d1 -> sender g d2 -> (forall ctx, h ctx = g (f ctx)) -> sender h (d1 ++ d2).
Proof. intros Hf Hg Hh ctx. rewrite Hh. by apply sender_comp. Qed.

Lemma ctx_putc_sent ctx c :
  is_byte c -> kk_ok (ax_ch ctx) -> kk_fits (ax_ch ctx) [c] ->
  sent ctx [c] [] (ctx_putc c ctx).
Proof.
  intros Hc Hok Hf. rewrite <- (u8_small c) in Hf by done.
  destruct (kfile_putc_spec c (ax_ch ctx) Hok Hf) as (_ & Ho & Hok' & Hf').
  rewrite u8_small in * by done. eexists. by split_and!.
Qed.

Lemma ax25_putchar_sender c : is_byte c -> sender (fun ctx => ax25_putchar ctx c) [c].
Proof.
  intros Hc ctx Hok Hfit. cbn [escaped flat_map] in *. rewrite app_nil_r in *.
  unfold ax25_putchar, escape_byte in *. destruct (hdlc_special c).
  - assert (H1 : sent ctx [AX25_ESC] [] (ctx_putc AX25_ESC ctx)).
    { apply ctx_putc_sent; [decide_closed|done|].
      by apply (kk_fits_app _ [AX25_ESC] [c]). }
    pose proof (sent_ok _ _ _ _ H1) as Hok1.
    pose proof (sent_fits _ _ _ _ [c] H1 Hfit) as Hfit1.
    change [AX25_ESC; c] with ([AX25_ESC] ++ [c]). change [c] with ([] ++ [c]) at 2.
    eapply sent_trans; [exact H1|].
    destruct (ctx_putc_sent (set_crc_out (updcrc_ccitt c (crc_out (ctx_putc AX25_ESC ctx)))
      (ctx_putc AX25_ESC ctx)) c Hc Hok1 Hfit1) as (ch & -> & ? & ? & ?).
    by exists ch.
  - destruct (ctx_putc_sent (set_crc_out (updcrc_ccitt c (crc_out ctx)) ctx) c Hc Hok Hfit)
      as (ch & -> & ? & ? & ?). by exists ch.
Qed.

Lemma ax25_putchars_sender l : bytes l -> sender (fun ctx => ax25_putchars ctx l) l.
Proof.
  intros Hl. induction Hl as [|c l Hc Hl IH]; [apply sender_id|].
  eapply (sender_comp' _ _ _ [c] l (ax25_putchar_sender c Hc) IH). done.
Qed.

Lemma sendCall_name_sender l :
  sender (fun ctx => fold_left
      (fun ctx c => ax25_putchar ctx (u8 (Z.shiftl (u8 (toupper c)) 1))) l ctx)
    (map (fun c => u8 (Z.shiftl (u8 (toupper c)) 1)) l).
Proof.
  induction l as [|c l IH]; [apply sender_id|].
  eapply (sender_comp' _ _ _ [_] _ (ax25_putchar_sender _ (u8_is_byte _)) IH). done.
Qed.

Lemma iter_sender n c :
  is_byte c -> sender (iter n (fun ctx => ax25_putchar ctx c)) (replicate n c).
Proof.
  intros Hc. induction n as [|n IH]; [apply sender_id|].
  eapply (sender_comp' _ _ _ [c] _ (ax25_putchar_sender c Hc) IH). done.
Qed.

Lemma strnlen_le s : (strnlen s <= length s)%nat.
Proof. induction s as [|c s IH]; simpl; [lia|]. destruct (c =? 0); lia. Qed.

Lemma ax25_sendCall_sender a last r :
  sender (fun ctx => ax25_sendCall ctx a last r) (addr_octets a last r).
Proof.
  unfold ax25_sendCall, addr_octets. rewrite wire_ssid_eq.
  set (name := take (strnlen (call a)) (call a)).
  assert (Hlen : length (map toupper name) = strnlen (call a)).
  { unfold name. rewrite length_map, length_take. pose proof (strnlen_le (call a)). lia. }
  rewrite Hlen, map_app, map_map, <- app_assoc.
  change (map (fun c => u8 (Z.shiftl (u8 c) 1)) (replicate (6 - strnlen (call a)) 32))
    with ((fun c => u8 (Z.shiftl (u8 c) 1)) <$> replicate (6 - strnlen (call a)) 32).
  rewrite fmap_replicate.
  apply (sender_comp (fun ctx => fold_left (fun ctx c =>
      ax25_putchar ctx (u8 (Z.shiftl (u8 (toupper c)) 1))) name ctx)
    (fun ctx => ax25_putchar (iter (6 - strnlen (call a))
      (fun ctx => ax25_putchar ctx (u8 (Z.shiftl 32 1))) ctx)
      (ssid_octet (ssid a) last r))); [apply sendCall_name_sender|].
  apply (sender_comp (iter _ _) (fun ctx => ax25_putchar ctx (ssid_octet (ssid a) last r)));
    [apply iter_sender; decide_closed|apply ax25_putchar_sender, ssid_octet_byte].
Qed.

Lemma ax25_sendRpts_sender n m i :
  i + Z.of_nat n = m_rpt_cnt m -> 
  sender (fun ctx => ax25_sendRpts n i ctx m) (path_octets (rpt_entries n i m)).
Proof.
  revert i. induction n as [|n IH]; intros i Hi; [apply sender_id|].
  cbn [ax25_sendRpts]. assert ((i <? m_rpt_cnt m) = true) as -> by (apply Z.ltb_lt; lia).
  destruct n as [|n].
  - cbn [rpt_entries path_octets ax25_sendRpts].
    assert ((i =? m_rpt_cnt m - 1) = true) as -> by (apply Z.eqb_eq; lia).
    apply ax25_sendCall_sender.
  - change (path_octets (rpt_entries (S (S n)) i m)) with
      (addr_octets (nth (Z.to_nat i) (m_rpt_lst m) (mkCall [] 0)) false
         (AX25_REPEATED (m_rpt_flags m) i)
       ++ path_octets (rpt_entries (S n) (i + 1) m)).
    assert ((i =? m_rpt_cnt m - 1) = false) as -> by (apply Z.eqb_neq; lia).
    eapply sender_comp'; [apply ax25_sendCall_sender|apply (IH (i + 1)); lia|done].
Qed.

Lemma ax25_sendPath_sender path :
  sender (fun ctx => ax25_sendPath ctx path) (path_octets (map (fun a => (a, false)) path)).
Proof.
  induction path as [|a path IH]; [apply sender_id|].
  cbn [ax25_sendPath map]. destruct path as [|b path].
  - apply ax25_sendCall_sender.
  - eapply sender_comp'; [apply ax25_sendCall_sender|apply IH|done].
Qed.

(** What follows the addresses. *)
Lemma payload_sender f d l :
  sender f d -> bytes l ->
  sender (fun ctx => ax25_putchars (ax25_putchar (ax25_putchar (f ctx) AX25_CTRL_UI)
    AX25_PID_NOLAYER3) l) (d ++ [AX25_CTRL_UI; AX25_PID_NOLAYER3] ++ l).
Proof.
  intros Hf Hl. rewrite app_assoc.
  apply (sender_comp _ (fun ctx => ax25_putchars ctx l)); [|by apply ax25_putchars_sender].
  change [AX25_CTRL_UI; AX25_PID_NOLAYER3] with ([AX25_CTRL_UI] ++ [AX25_PID_NOLAYER3]).
  rewrite app_assoc.
  apply (sender_comp _ (fun ctx => ax25_putchar ctx AX25_PID_NOLAYER3));
    [|apply ax25_putchar_sender; decide_closed].
  apply (sender_comp f (fun ctx => ax25_putchar ctx AX25_CTRL_UI)); [done|].
  apply ax25_putchar_sender. decide_closed.
Qed.

(** Head, body and tail make one frame. *)
Definition finished ctx (l : list Z) ctx' : Prop :=
  exists ch,
    ctx' = set_crc_out AX25_CRC_CORRECT (set_ax_ch ch ctx) /\
    kk_ok ch /\ kk_out ch = kk_out (ax_ch ctx) ++ frame_stream l /\
    forall more, kk_fits (ax_ch ctx) (frame_stream l ++ more) -> kk_fits ch more.

Lemma send_frame body l ctx :
  sender body l -> bytes l -> kk_ok (ax_ch ctx) -> kk_fits (ax_ch ctx) (frame_stream l) ->
  finished ctx l (ax25_send_tail (body (ax25_send_head ctx))).
Proof.
  intros Hbody Hl Hok Hfit.
  set (ctx0 := set_crc_out CRC_CCITT_INIT_VAL ctx).
  assert (Hh : sent ctx0 [HDLC_FLAG] [] (ax25_send_head ctx)).
  { apply ctx_putc_sent; [decide_closed|done|].
    by apply (kk_fits_app _ [HDLC_FLAG] (escaped (with_fcs l) ++ [HDLC_FLAG])). }
  assert (Hw : escaped (with_fcs l)
    = escaped l ++ escaped (fcs (crc_ccitt CRC_CCITT_INIT_VAL l))) by apply escaped_app.
  unfold frame_stream in *. rewrite Hw in *.
  assert (Hb : sent (ax25_send_head ctx) (escaped l) l (body (ax25_send_head ctx))).
  { apply Hbody; [by eapply sent_ok|].
    apply (kk_fits_app _ _ (escaped (fcs (crc_ccitt CRC_CCITT_INIT_VAL l)) ++ [HDLC_FLAG])).
    eapply sent_fits; [exact Hh|]. simpl. by rewrite app_assoc. }
  pose proof (sent_trans _ _ _ _ _ _ _ Hh Hb) as H1. simpl in H1.
  set (ctx1 := body (ax25_send_head ctx)) in *.
  assert (Hcrc : crc_out ctx1 = crc_ccitt CRC_CCITT_INIT_VAL l).
  { by destruct H1 as (? & -> & _). }
  pose proof (crc_ccitt_u16 l _ init_u16) as Hu. pose proof (fcs_bytes _ Hu) as Hfb.
  assert (Hf : sent ctx1 (escaped (fcs (crc_out ctx1))) (fcs (crc_out ctx1))
    (ax25_putchars ctx1 (fcs (crc_out ctx1)))).
  { apply ax25_putchars_sender; [by rewrite Hcrc|by eapply sent_ok|].
    apply (kk_fits_app _ _ [HDLC_FLAG]). eapply sent_fits; [exact H1|].
    rewrite Hcrc. simpl. by rewrite <- app_assoc in Hfit. }
  pose proof (sent_trans _ _ _ _ _ _ _ H1 Hf) as H2.
  assert (Hl2 : sent (ax25_putchars ctx1 (fcs (crc_out ctx1))) [HDLC_FLAG] []
    (ctx_putc HDLC_FLAG (ax25_putchars ctx1 (fcs (crc_out ctx1))))).
  { apply ctx_putc_sent; [decide_closed|by eapply sent_ok|].
    eapply sent_fits; [exact H2|]. by rewrite Hcrc. }
  pose proof (sent_trans _ _ _ _ _ _ _ H2 Hl2) as H3.
  assert (ax25_send_tail ctx1 = ctx_putc HDLC_FLAG (ax25_putchars ctx1 (fcs (crc_out ctx1))))
    as ->.
  { unfold ax25_send_tail, fcs. cbn [ax25_putchars fold_left].
    rewrite u8_small; [done|]. rewrite Hcrc. by apply u16_high. }
  destruct H3 as (ch & -> & Hok' & Ho & Hf'). exists ch.
  split_and!; [|done| |].
  - subst ctx0. cbn [crc_out set_crc_out]. rewrite Hcrc.
    rewrite app_nil_r, crc_ccitt_app, crc_ccitt_fcs by done. by destruct ctx.
  - rewrite Ho, Hcrc. unfold frame_stream. by rewrite Hw.
  - intros more Hm. apply Hf'. rewrite Hcrc. unfold frame_stream in Hm.
    by rewrite Hw in Hm.
Qed.

(** The state every sender ends in. *)
Definition sent_frame ctx (l : list Z) ctx' : Prop :=
  exists ch,
    ctx' = set_tx_ok (u32 (tx_ok ctx + 1))
             (set_crc_out AX25_CRC_CORRECT (set_ax_ch ch ctx)) /\
    kk_ok ch /\ kk_out ch = kk_out (ax_ch ctx) ++ frame_stream l /\
    forall more, kk_fits (ax_ch ctx) (frame_stream l ++ more) -> kk_fits ch more.

Lemma finished_done ctx l ctx' : finished ctx l ctx' -> sent_frame ctx l (ax25_tx_done ctx').
Proof. intros (ch & -> & Hok & Ho & Hf). by exists ch. Qed.

(** [ax25_sendRaw] up to its flush. *)
Lemma sendRaw_unflushed ctx l :
  bytes l -> kk_ok (ax_ch ctx) -> kk_fits (ax_ch ctx) (frame_stream l) ->
  finished ctx l (ax25_send_tail (ax25_putchars (ax25_send_head ctx) l)).
Proof.
  intros Hl Hok Hfit.
  by apply (send_frame (fun ctx => ax25_putchars ctx l)); [apply ax25_putchars_sender|..].
Qed.

(** [ax25_sendVia] sends the frame addressed by the whole path: its first
    call is the destination, its second the source, the others repeaters with
    no has-been-repeated flag. *)
Theorem ax25_sendVia_refines ctx dst src path (l : list Z)
    (Hl : bytes l) (Hok : kk_ok (ax_ch ctx))
    (Hfit : kk_fits (ax_ch ctx) (frame_stream (frame_octets
      (mkFrame dst src (map (fun a => (a, false)) path) l)))) :
  sent_frame ctx (frame_octets (mkFrame dst src (map (fun a => (a, false)) path) l))
    (ax25_sendVia ctx (dst :: src :: path) l).
Proof.
  apply finished_done.
  apply (send_frame (fun ctx =>
    ax25_putchars (ax25_putchar (ax25_putchar (ax25_sendPath ctx (dst :: src :: path))
      AX25_CTRL_UI) AX25_PID_NOLAYER3) l)); [|by apply frame_octets_bytes|done|done].
  unfold frame_octets. cbn [f_dst f_src f_path f_info].
  apply payload_sender; [|done]. apply (ax25_sendPath_sender (dst :: src :: path)).
Qed.
End Sink.

(** Senders that flush. *)
Section Flush.
Context {F : Type} `{KFlush F}.
Implicit Types ctx : AX25Ctx F.

(** A frame followed by a flush of the channel. *)
Lemma finished_flush ctx l ctx' :
  finished ctx l ctx' ->
  finished ctx l (ctx_flush ctx').
Proof.
  intros (ch & -> & Hok & Ho & Hf). destruct (kk_flush ch Hok) as (Ho' & Hok' & Hf').
  exists (snd (kfile_flush ch)). split_and!; [done|done|by rewrite Ho'|]. intros more Hm. by apply Hf', Hf.
Qed.

Lemma ax25_sendRaw_sent ctx l :
  bytes l -> kk_ok (ax_ch ctx) -> kk_fits (ax_ch ctx) (frame_stream l) ->
  sent_frame ctx l (ax25_sendRaw ctx l).
Proof.
  intros Hl Hok Hfit. apply finished_done, finished_flush.
  by apply sendRaw_unflushed.
Qed.

(** [ax25_sendRaw] puts exactly one frame on the channel: a flag, the
    escaped data with its checksum, a flag; the checksum it keeps ends at the
    value its assertion demands, and nothing else of the context changes but
    the counter of sent frames. *)
Theorem ax25_sendRaw_stream ctx (l : list Z)
    (Hl : bytes l) (Hok : kk_ok (ax_ch ctx)) (Hfit : kk_fits (ax_ch ctx) (frame_stream l)) :
  exists ch,
    ax25_sendRaw ctx l =
      set_tx_ok (u32 (tx_ok ctx + 1))
        (set_crc_out AX25_CRC_CORRECT (set_ax_ch ch ctx)) /\
    kk_ok ch /\ kk_out ch = kk_out (ax_ch ctx) ++ frame_stream l.
Proof.
  destruct (ax25_sendRaw_sent ctx l Hl Hok Hfit) as (ch & E & Hok1 & Ho1 & _). by exists ch.
Qed.

Lemma ax25_sendMsg_sent ctx m :
  0 < m_rpt_cnt m -> m_len m <> 0 -> bytes (m_info m) -> kk_ok (ax_ch ctx) ->
  kk_fits (ax_ch ctx) (frame_stream (frame_octets (msg_frame m))) ->
  sent_frame ctx (frame_octets (msg_frame m)) (ax25_sendMsg ctx m).
Proof.
  intros Hc Hlen Hi Hok Hfit. unfold ax25_sendMsg.
  apply Z.eqb_neq in Hlen. rewrite Hlen.
  assert ((m_rpt_cnt m =? 0) = false) as -> by (apply Z.eqb_neq; lia). cbn [orb].
  apply finished_done, finished_flush.
  apply (send_frame (fun ctx =>
    ax25_putchars (ax25_putchar (ax25_putchar
      (ax25_sendRpts (Z.to_nat (m_rpt_cnt m)) 0
        (ax25_sendCall (ax25_sendCall ctx (m_dst m) false false) (m_src m) false false) m)
      AX25_CTRL_UI) AX25_PID_NOLAYER3) (take (Z.to_nat (m_len m)) (m_info m))));
    [|by apply frame_octets_bytes, Forall_take|done|done].
  unfold frame_octets, msg_frame. cbn [f_dst f_src f_path f_info].
  destruct (Z.to_nat (m_rpt_cnt m)) as [|n] eqn:En; [lia|].
  rewrite path_octets_cons.
  change (path_octets ((m_src m, false) :: rpt_entries (S n) 0 m)) with
    (addr_octets (m_src m) false false ++ path_octets (rpt_entries (S n) 0 m)).
  rewrite (app_assoc (addr_octets (m_dst m) false false)).
  apply payload_sender; [|by apply Forall_take].
  apply (sender_comp _ (fun ctx => ax25_sendRpts (S n) 0 ctx m));
    [|apply (ax25_sendRpts_sender (S n) m 0); lia].
  apply (sender_comp _ (fun ctx => ax25_sendCall ctx (m_src m) false false));
    apply ax25_sendCall_sender.
Qed.

(** C11: [ax25_sendMsg] refines the wire format: unless the message has no
    repeaters or no payload, when nothing at all happens, the channel gets
    exactly the standard octets of the message's abstract frame (addresses
    upper-cased and padded, the octet with the SSID, the repeated flag and the
    end-of-address bit, which the last address only carries, control, PID,
    payload), escaped, with checksum and flags. *)
Theorem ax25_sendMsg_refines ctx m
    (Hcnt : 0 <= m_rpt_cnt m) (Hi : bytes (m_info m)) (Hok : kk_ok (ax_ch ctx))
    (Hfit : kk_fits (ax_ch ctx) (frame_stream (frame_octets (msg_frame m)))) :
  if (m_rpt_cnt m =? 0) || (m_len m =? 0) then ax25_sendMsg ctx m = ctx
  else sent_frame ctx (frame_octets (msg_frame m)) (ax25_sendMsg ctx m).
Proof.
  destruct ((m_rpt_cnt m =? 0) || (m_len m =? 0)) eqn:E.
  - unfold ax25_sendMsg. by rewrite E.
  - zbool. apply ax25_sendMsg_sent; (done || lia).
Qed.

End Flush.

(** ** The senders on a ring buffer *)

Import KFileFifo.

(** A station whose channel is a ring of [n] slots. *)
Definition ring_station (n : Z) : AX25Ctx FIFOBuffer :=
  ax25_init (fifo_init (zeros (Z.to_nat n)) n) true.

(** Capitals, padding and an end-of-address bit; a payload with a byte that
    must be escaped. *)
Definition ring_msg : AX25Msg :=
  mkMsg (mkCall [110; 48; 67; 65; 76; 76] 7) (mkCall [65; 80; 82; 83; 0; 0] 0)
    [mkCall [87; 73; 68; 69; 49; 0] 1] 1 1 3 0xF0 [62; 104; 105; 0x7E; 99] 4.

Lemma ax25_sendVia_refines_witness :
  let dst := mkCall [65; 80; 82; 83; 0; 0] 0 in
  let src := mkCall [110; 48; 67; 65; 76; 76] 7 in
  let path := [mkCall [87; 73; 68; 69; 49; 0] 1; mkCall [87; 73; 68; 69; 50; 0] 2] in
  sent_frame (ring_station 256)
    (frame_octets (mkFrame dst src (map (fun a => (a, false)) path) [33; 0x7E; 0x1B]))
    (ax25_sendVia (ring_station 256) (dst :: src :: path) [33; 0x7E; 0x1B]).
Proof.
  apply (ax25_sendVia_refines (ring_station 256) (mkCall [65; 80; 82; 83; 0; 0] 0)
    (mkCall [110; 48; 67; 65; 76; 76] 7)
    [mkCall [87; 73; 68; 69; 49; 0] 1; mkCall [87; 73; 68; 69; 50; 0] 2] [33; 0x7E; 0x1B]).
  - decide_closed.
  - apply (fifo_init_wf (zeros 256) 256); [lia|reflexivity].
  - vm_compute. congruence.
Defined.

Lemma ax25_sendRaw_stream_witness :
  exists ch,
    ax25_sendRaw (ring_station 64) [0x7E; 1; 0x7F; 2; 0x1B] =
      set_tx_ok (u32 (tx_ok (ring_station 64) + 1))
        (set_crc_out AX25_CRC_CORRECT (set_ax_ch ch (ring_station 64))) /\
    kk_ok ch /\
    kk_out ch = kk_out (ax_ch (ring_station 64)) ++ frame_stream [0x7E; 1; 0x7F; 2; 0x1B].
Proof.
  apply (ax25_sendRaw_stream (ring_station 64) [0x7E; 1; 0x7F; 2; 0x1B]).
  - decide_closed.
  - apply (fifo_init_wf (zeros 64) 64); [lia|reflexivity].
  - vm_compute. congruence.
Defined.

Lemma ax25_sendMsg_refines_witness :
  sent_frame (ring_station 256) (frame_octets (msg_frame ring_msg))
    (ax25_sendMsg (ring_station 256) ring_msg).
Proof.
  apply (ax25_sendMsg_refines (ring_station 256) ring_msg).
  - vm_compute. congruence.
  - decide_closed.
  - apply (fifo_init_wf (zeros 256) 256); [lia|reflexivity].
  - vm_compute. congruence.
Defined.
