(* ===== verification/Ax25Rx.v ===== *)
(** * Receiving AX.25 frames: [ax25_poll] against an abstract receiver

    The abstract receiver [rx_char] cuts the escaped stream into frames with a
    list instead of a buffer and a checksum of the list instead of a running
    one.  [ax25_poll] refines it: it always ends, it never writes outside its
    buffer, it counts what the abstract receiver counts, and it hands to the
    hook what the abstract receiver delivers. *)

From Stdlib Require Import ZArith Lia Bool List.
From stdpp Require Import prelude.
From S2P Require Import Prelude.
From S2P Require Import Libc.
From S2P Require Import Crc.
From S2P Require Import Fifo.
From S2P Require Import KFile.
From S2P Require Import Escape.
From S2P Require Import Ax25.
From S2P Require Import Ax25Tx.

Open Scope Z_scope.

(** ** The abstract receiver *)

Record rxs := mkRx { r_sync : bool; r_esc : bool; r_frame : list Z }.

Inductive rx_event :=
  | Delivered (frame : list Z)
  | BadCrc (frame : list Z)
  | Overrun.

Definition fcs_ok (l : list Z) : bool :=
  crc_ccitt CRC_CCITT_INIT_VAL l =? AX25_CRC_CORRECT.

Definition frame_size : Z := CONFIG_AX25_FRAME_BUF_LEN.

Definition rx_char (s : rxs) (c : Z) : rxs * list rx_event :=
  if negb (r_esc s) && (c =? HDLC_FLAG) then
    (mkRx true false [],
     if Z.of_nat (length (r_frame s)) >=? AX25_MIN_FRAME_LEN
     then [if fcs_ok (r_frame s) then Delivered (r_frame s) else BadCrc (r_frame s)]
     else [])
  else if negb (r_esc s) && (c =? HDLC_RESET) then (mkRx false false (r_frame s), [])
  else if negb (r_esc s) && (c =? AX25_ESC) then (mkRx (r_sync s) true (r_frame s), [])
  else if r_sync s then
    if Z.of_nat (length (r_frame s)) <? frame_size
    then (mkRx true false (r_frame s ++ [c]), [])
    else (mkRx false false (r_frame s), [Overrun])
  else (mkRx false false (r_frame s), []).

Fixpoint rx_run (s : rxs) (l : list Z) : rxs * list rx_event :=
  match l with
  | [] => (s, [])
  | c :: l' =>
      let '(s1, e1) := rx_char s c in
      let '(s2, e2) := rx_run s1 l' in (s2, e1 ++ e2)
  end.

Definition rx_start : rxs := mkRx false false [].

Definition is_delivered (e : rx_event) : bool :=
  match e with Delivered _ => true | _ => false end.

Definition delivered (es : list rx_event) : list (list Z) :=
  omap (fun e => match e with Delivered f => Some f | _ => None end) es.

(** What the two counters count. *)
Definition n_ok (es : list rx_event) : Z := Z.of_nat (length (List.filter is_delivered es)).
Definition n_err (es : list rx_event) : Z :=
  Z.of_nat (length (List.filter (fun e => negb (is_delivered e)) es)).

Lemma rx_run_app s l1 l2 :
  rx_run s (l1 ++ l2) =
    let '(s1, e1) := rx_run s l1 in let '(s2, e2) := rx_run s1 l2 in (s2, e1 ++ e2).
Proof.
  revert s. induction l1 as [|c l1 IH]; intros s; simpl.
  - by destruct (rx_run s l2).
  - destruct (rx_char s c) as [s1 e1]. rewrite IH.
    destruct (rx_run s1 l1) as [s2 e2]. destruct (rx_run s2 l2) as [s3 e3].
    by rewrite app_assoc.
Qed.

(** ** The abstract receiver undoes the escaping *)

Lemma rx_escape_byte frame c :
  Z.of_nat (length frame) < frame_size ->
  rx_run (mkRx true false frame) (escape_byte c) = (mkRx true false (frame ++ [c]), []).
Proof.
  intros Hl. apply Z.ltb_lt in Hl. unfold escape_byte.
  destruct (hdlc_special c) eqn:E.
  - cbn. rewrite Hl. done.
  - apply hdlc_special_false in E as (E1 & E2 & E3).
    apply Z.eqb_neq in E1, E2, E3. cbn. unfold rx_char. cbn.
    rewrite E1, E2, E3. cbn. by rewrite Hl.
Qed.

Lemma rx_escaped l frame :
  Z.of_nat (length frame) + Z.of_nat (length l) <= frame_size ->
  rx_run (mkRx true false frame) (escaped l) = (mkRx true false (frame ++ l), []).
Proof.
  revert frame. induction l as [|c l IH]; intros frame Hl.
  - by rewrite app_nil_r.
  - cbn [escaped flat_map]. rewrite rx_run_app. simpl in Hl.
    rewrite rx_escape_byte by lia. cbn.
    change (flat_map escape_byte l) with (escaped l).
    rewrite IH by (rewrite length_app; simpl; lia). by rewrite <- app_assoc.
Qed.

Lemma fcs_ok_with_fcs l : fcs_ok (with_fcs l) = true.
Proof.
  unfold fcs_ok, with_fcs. rewrite crc_ccitt_app, crc_ccitt_fcs; [done|].
  apply crc_ccitt_u16, init_u16.
Qed.

Lemma length_with_fcs l : length (with_fcs l) = (length l + 2)%nat.
Proof. unfold with_fcs. by rewrite length_app. Qed.

(** A frame stream delivers its octets, from any state outside a frame. *)
Lemma rx_frame_stream s l :
  r_esc s = false -> r_frame s = [] ->
  16 <= Z.of_nat (length l) <= 328 ->
  rx_run s (frame_stream l) = (mkRx true false [], [Delivered (with_fcs l)]).
Proof.
  intros He Hf Hl. unfold frame_stream. cbn [rx_run].
  assert (rx_char s HDLC_FLAG = (mkRx true false [], [])) as ->.
  { unfold rx_char. by rewrite He, Hf. }
  rewrite rx_run_app, rx_escaped by (rewrite length_with_fcs; simpl; unfold frame_size,
    CONFIG_AX25_FRAME_BUF_LEN; lia).
  cbn [rx_run app]. unfold rx_char. cbn [r_esc r_frame r_sync negb andb].
  change (HDLC_FLAG =? HDLC_FLAG) with true. cbv iota.
  rewrite fcs_ok_with_fcs, length_with_fcs.
  assert ((Z.of_nat (length l + 2) >=? AX25_MIN_FRAME_LEN) = true) as ->; [|done].
  rewrite Z.geb_leb. apply Z.leb_le. unfold AX25_MIN_FRAME_LEN. lia.
Qed.

(** ** The simulation *)

Lemma u32_idemp a : u32 (u32 a) = u32 a.
Proof. unfold u32. by rewrite Z.mod_mod by lia. Qed.

Lemma u32_add a b : u32 (u32 a + b) = u32 (a + b).
Proof. unfold u32. by rewrite Zplus_mod_idemp_l. Qed.

Lemma n_ok_app a b : n_ok (a ++ b) = n_ok a + n_ok b.
Proof. unfold n_ok. rewrite List.filter_app, length_app. lia. Qed.

Lemma n_err_app a b : n_err (a ++ b) = n_err a + n_err b.
Proof. unfold n_err. rewrite List.filter_app, length_app. lia. Qed.

Lemma delivered_app a b : delivered (a ++ b) = delivered a ++ delivered b.
Proof. apply omap_app. Qed.

Section Refine.
Context {F : Type} `{KSource F} {W : Type}.
Implicit Types ctx : AX25Ctx F.

(** The context stands for an abstract receiver state. *)
Definition rx_rel ctx (s : rxs) : Prop :=
  sync ctx = r_sync s /\ escape ctx = r_esc s /\
  frm_len ctx = Z.of_nat (length (r_frame s)) /\ frm_len ctx <= frame_size /\
  length (ax_buf ctx) = Z.to_nat frame_size /\
  take (length (r_frame s)) (ax_buf ctx) = r_frame s /\
  crc_in ctx = crc_ccitt CRC_CCITT_INIT_VAL (r_frame s).

(** The counters moved by the events. *)
Definition counted ctx (es : list rx_event) ctx' : Prop :=
  u32 (rx_ok ctx') = u32 (rx_ok ctx + n_ok es) /\
  u32 (rx_err ctx') = u32 (rx_err ctx + n_err es).

Lemma counted_nil ctx ctx' :
  rx_ok ctx' = rx_ok ctx -> rx_err ctx' = rx_err ctx -> counted ctx [] ctx'.
Proof.
  intros E1 E2. unfold counted. change (n_ok []) with 0. change (n_err []) with 0.
  by rewrite !Z.add_0_r, E1, E2.
Qed.

Lemma counted_one ctx e ctx' :
  u32 (rx_ok ctx') = u32 (rx_ok ctx + b2z (is_delivered e)) ->
  u32 (rx_err ctx') = u32 (rx_err ctx + b2z (negb (is_delivered e))) ->
  counted ctx [e] ctx'.
Proof. intros E1 E2. unfold counted. rewrite E1, E2. by destruct e. Qed.

Lemma counted_trans c1 e1 c2 e2 c3 :
  counted c1 e1 c2 -> counted c2 e2 c3 -> counted c1 (e1 ++ e2) c3.
Proof.
  intros [A1 B1] [A2 B2]. split.
  - rewrite A2, <- u32_add, A1, u32_add, n_ok_app. f_equal. lia.
  - rewrite B2, <- u32_add, B1, u32_add, n_err_app. f_equal. lia.
Qed.

(** The channel is readable and has [l] waiting. *)
Definition waiting ctx (l : list Z) : Prop := ks_ok (ax_ch ctx) /\ ks_in (ax_ch ctx) = l.

(** What a hook may do while it runs inside [ax25_poll]: anything to the rest
    of the program, to the transmit side and to the channel's output, but it
    neither reads the channel nor touches the receiver. *)
Definition rx_same ctx ctx' : Prop :=
  ax_buf ctx' = ax_buf ctx /\ rx_ok ctx' = rx_ok ctx /\ rx_err ctx' = rx_err ctx /\
  escape ctx' = escape ctx /\ pass_through ctx' = pass_through ctx /\
  ax_hook ctx' = ax_hook ctx /\
  ks_ok (ax_ch ctx') /\ ks_in (ax_ch ctx') = ks_in (ax_ch ctx).

Variable hook : option AX25Msg -> AX25Ctx F -> W -> AX25Ctx F * W.
Variable stack_msg : AX25Ctx F -> W -> AX25Msg.
Hypothesis Hhook : forall m ctx w, ks_ok (ax_ch ctx) -> rx_same ctx (fst (hook m ctx w)).

(** What happens when a frame is delivered. *)
Definition on_frame ctx (w : W) : AX25Ctx F * W :=
  if pass_through ctx then if ax_hook ctx then hook None ctx w else (ctx, w)
  else ax25_decode hook stack_msg ctx w.

Lemma rx_same_refl ctx : ks_ok (ax_ch ctx) -> rx_same ctx ctx.
Proof. by intros. Qed.

Lemma on_frame_same ctx w : ks_ok (ax_ch ctx) -> rx_same ctx (fst (on_frame ctx w)).
Proof.
  intros Hok. unfold on_frame, ax25_decode.
  destruct (pass_through ctx), (ax25_decode_msg (stack_msg ctx w) ctx), (ax_hook ctx);
    auto using rx_same_refl.
Qed.

(** The frames the hook is to see, and its effect [obs] on the rest of the
    program as a function of the frame alone. *)
Variable pt : bool.
Variable good : list Z -> Prop.
Variable obs : list Z -> W -> W.
Hypothesis Hobs : forall ctx w f,
  good f -> pass_through ctx = pt -> ax_hook ctx = true ->
  length (ax_buf ctx) = Z.to_nat frame_size ->
  frm_len ctx = Z.of_nat (length f) -> take (length f) (ax_buf ctx) = f ->
  snd (on_frame ctx w) = obs f w.

(** Everything the loop maintains. *)
Definition rx_state ctx (s : rxs) (l : list Z) : Prop :=
  rx_rel ctx s /\ waiting ctx l /\ pass_through ctx = pt /\ ax_hook ctx = true.

Ltac rx_unfold :=
  unfold rx_state, rx_rel, waiting; cbn; split_and!; first [done | congruence].

Lemma frame_end_step ctx w s l :
  rx_state ctx s l -> r_esc s = false ->
  Forall good (delivered (snd (rx_char s HDLC_FLAG))) ->
  let '(ctx', w') := ax25_poll_char hook stack_msg HDLC_FLAG ctx w in
  rx_state ctx' (fst (rx_char s HDLC_FLAG)) l /\
  counted ctx (snd (rx_char s HDLC_FLAG)) ctx' /\
  w' = fold_left (fun w f => obs f w) (delivered (snd (rx_char s HDLC_FLAG))) w.
Proof.
  intros ((Hs & He & Hl & Hle & Hbl & Hb & Hc) & (Hw1 & Hw2) & Hp & Hh) Hesc.
  unfold rx_char, ax25_poll_char. rewrite He, Hesc. cbn [negb andb].
  change (HDLC_FLAG =? HDLC_FLAG) with true. cbv iota. cbn [fst snd].
  unfold ax25_frame_end. rewrite Hl.
  assert (Hrel : forall c, ks_ok (ax_ch c) -> ks_in (ax_ch c) = l ->
    length (ax_buf c) = Z.to_nat frame_size -> escape c = false ->
    pass_through c = pt -> ax_hook c = true ->
    rx_state (set_dcd false (set_dcd_state 0 (set_frm_len 0
      (set_crc_in CRC_CCITT_INIT_VAL (set_sync true c))))) (mkRx true false []) l).
  { intros c Hkc Hwc Hbc Hec Hpc Hhc. by split_and!. }
  destruct (Z.of_nat (length (r_frame s)) >=? AX25_MIN_FRAME_LEN);
    [|intros _; split_and!; [apply Hrel; congruence|by apply counted_nil|done]].
  rewrite Hc. fold (fcs_ok (r_frame s)). destruct (fcs_ok (r_frame s)); intros Hg.
  - cbn [delivered omap list_omap] in Hg. apply Forall_cons in Hg as [Hg _].
    set (ctx1 := set_rx_ok (u32 (rx_ok ctx + 1)) ctx).
    change (if pass_through ctx1 then if ax_hook ctx1 then hook None ctx1 w else (ctx1, w)
      else ax25_decode hook stack_msg ctx1 w) with (on_frame ctx1 w).
    destruct (on_frame_same ctx1 w Hw1) as (S1 & S2 & S3 & S4 & S5 & S6 & S7 & S8).
    pose proof (Hobs ctx1 w (r_frame s) Hg Hp Hh Hbl Hl Hb) as Hobs1.
    destruct (on_frame ctx1 w) as [ctx2 w2]. cbn in S1, S2, S3, S4, S5, S6, S7, S8, Hobs1.
    split_and!; [apply Hrel; congruence| |done].
    apply (counted_one ctx (Delivered (r_frame s))); cbn.
    + by rewrite S2, u32_idemp.
    + by rewrite S3, Z.add_0_r.
  - split_and!; [apply Hrel; cbn; congruence| |done].
    apply (counted_one ctx (BadCrc (r_frame s))); cbn.
    + by rewrite Z.add_0_r.
    + apply u32_idemp.
Qed.

Lemma frame_byte_step ctx s l c :
  rx_state ctx s l -> is_byte c -> r_sync s = true ->
  let ctx' := set_escape false (ax25_frame_byte c ctx) in
  let r := if Z.of_nat (length (r_frame s)) <? frame_size
           then (mkRx true false (r_frame s ++ [c]), [])
           else (mkRx false false (r_frame s), [Overrun]) in
  rx_state ctx' (fst r) l /\ counted ctx (snd r) ctx'.
Proof.
  intros ((Hs & He & Hl & Hle & Hbl & Hb & Hc) & (Hw1 & Hw2) & Hp & Hh) Hbyte Hsync.
  cbv zeta. unfold ax25_frame_byte. rewrite Hl. unfold frame_size in *.
  destruct (Z.of_nat (length (r_frame s)) <? CONFIG_AX25_FRAME_BUF_LEN) eqn:E; zbool.
  - unfold CONFIG_AX25_FRAME_BUF_LEN in *.
    set (n := length (r_frame s)) in *.
    assert (Hst : forall c1, ax_buf c1 = upd (ax_buf ctx) (Z.of_nat n) (u8 c) ->
      frm_len c1 = u16 (Z.of_nat n + 1) -> crc_in c1 = updcrc_ccitt (u8 c) (crc_in ctx) ->
      sync c1 = true -> escape c1 = false -> ax_ch c1 = ax_ch ctx ->
      pass_through c1 = pt -> ax_hook c1 = true ->
      rx_state c1 (mkRx true false (r_frame s ++ [c])) l).
    { intros c1 B1 L1 C1 S1 E1 Ch1 P1 H1.
      rewrite u8_small in * by done. rewrite u16_small in L1 by lia.
      unfold rx_state, rx_rel, waiting. rewrite Ch1.
      split_and!; cbn [r_sync r_esc r_frame]; rewrite ?length_app; cbn [length]; fold n; try done.
      - lia.
      - unfold frame_size, CONFIG_AX25_FRAME_BUF_LEN. lia.
      - rewrite B1, length_upd, Hbl. done.
      - rewrite B1. replace (n + 1)%nat with (S n) by lia.
        rewrite (take_S_r _ _ c).
        + unfold upd. rewrite Nat2Z.id, take_insert_ge by lia. by rewrite Hb.
        + unfold upd. rewrite Nat2Z.id. apply list_lookup_insert_eq. lia.
      - rewrite C1, Hc, crc_ccitt_app. done. }
    split; [|apply counted_nil; cbn; repeat case_match; done].
    apply Hst; cbn; repeat case_match; cbn; congruence.
  - split.
    + rx_unfold.
    + apply (counted_one ctx Overrun); cbn; [by rewrite Z.add_0_r|apply u32_idemp].
Qed.

Lemma poll_char_step ctx w s l c :
  rx_state ctx s l -> is_byte c -> Forall good (delivered (snd (rx_char s c))) ->
  let '(ctx', w') := ax25_poll_char hook stack_msg c ctx w in
  rx_state ctx' (fst (rx_char s c)) l /\ counted ctx (snd (rx_char s c)) ctx' /\
  w' = fold_left (fun w f => obs f w) (delivered (snd (rx_char s c))) w.
Proof.
  intros Hst Hbyte Hg.
  destruct (negb (r_esc s) && (c =? HDLC_FLAG)) eqn:Ef.
  { zbool. subst c. by apply frame_end_step. }
  pose proof Hst as ((Hs & He & Hl & Hle & Hbl & Hb & Hc) & (Hw1 & Hw2) & Hp & Hh).
  unfold ax25_poll_char, rx_char. rewrite He, Ef.
  destruct (negb (r_esc s) && (c =? HDLC_RESET)) eqn:Er.
  { zbool. split; [rx_unfold|]. split; [by apply counted_nil|done]. }
  destruct (negb (r_esc s) && (c =? AX25_ESC)) eqn:Ee.
  { split; [rx_unfold|]. split; [by apply counted_nil|done]. }
  rewrite Hs. destruct (r_sync s) eqn:Esync.
  - destruct (frame_byte_step ctx s l c Hst Hbyte Esync) as [A B].
    split_and!; [exact A|exact B|]. by destruct (_ <? frame_size).
  - split; [rx_unfold|]. split; [by apply counted_nil|done].
Qed.

Lemma poll_loop_spec l ctx w s fuel :
  (length l < fuel)%nat -> bytes l -> rx_state ctx s l ->
  Forall good (delivered (snd (rx_run s l))) ->
  exists ctx' w',
    ax25_poll_loop hook stack_msg fuel ctx w = Some (ctx', w') /\
    rx_state ctx' (fst (rx_run s l)) [] /\ counted ctx (snd (rx_run s l)) ctx' /\
    w' = fold_left (fun w f => obs f w) (delivered (snd (rx_run s l))) w.
Proof.
  revert ctx w s fuel. induction l as [|c l IH]; intros ctx w s fuel Hf Hb Hst Hg;
    (destruct fuel as [|fuel]; [simpl in Hf; lia|]); cbn [ax25_poll_loop];
    pose proof Hst as (Hrel & (Hw1 & Hw2) & Hp & Hh).
  - destruct (kfile_getc_nil (ax_ch ctx) Hw1 Hw2) as (H1 & H2 & H3).
    destruct (kfile_getc (ax_ch ctx)) as [b ch]. cbn in H1, H2, H3. subst b.
    rewrite Z.eqb_refl. exists (set_ax_ch ch ctx), w.
    split; [done|]. split; [by split_and!|]. split; [by apply counted_nil|done].
  - destruct (kfile_getc_cons (ax_ch ctx) c l Hw1 Hw2) as (H1 & H2 & H3).
    destruct (kfile_getc (ax_ch ctx)) as [b ch]. cbn in H1, H2, H3. subst b.
    apply Forall_cons in Hb as [Hc Hb].
    assert ((c =? EOF) = false) as -> by (apply Z.eqb_neq; unfold is_byte, EOF in *; lia).
    cbn [rx_run] in *.
    assert (Hst' : rx_state (set_ax_ch ch ctx) s l) by (split_and!; done || apply Hrel).
    pose proof (poll_char_step (set_ax_ch ch ctx) w s l c Hst' Hc) as Hstep.
    destruct (rx_char s c) as [s1 e1].
    destruct (rx_run s1 l) as [s2 e2] eqn:Er. cbn [fst snd] in *.
    rewrite delivered_app in Hg. apply Forall_app in Hg as [Hg1 Hg2].
    specialize (Hstep Hg1).
    destruct (ax25_poll_char hook stack_msg c (set_ax_ch ch ctx) w) as [ctx1 w1].
    destruct Hstep as (Hst1 & Hc1 & Hw').
    destruct (IH ctx1 w1 s1 fuel) as (ctx' & w' & E & A & B & C);
      [simpl in Hf; lia|done|done|by rewrite Er|].
    rewrite Er in A, B, C. cbn [fst snd] in *.
    exists ctx', w'. split_and!; [done|done| |].
    + eapply counted_trans; [exact Hc1|done].
    + by rewrite delivered_app, fold_left_app, <- Hw'.
Qed.

Lemma channel_error_state ctx s l :
  rx_state ctx s l -> rx_state (ax25_channel_error ctx) s l.
Proof.
  intros ((Hs & He & Hl & Hle & Hbl & Hb & Hc) & (Hw1 & Hw2) & Hp & Hh).
  unfold ax25_channel_error.
  destruct (ks_clearerr (ax_ch ctx) Hw1) as [H1 H2].
  destruct (kfile_error (ax_ch ctx) =? 0); [by split_and!|]. cbn.
  destruct (dcd ctx); rx_unfold.
Qed.

Lemma ax25_poll_frames ctx (w : W) (s : rxs) (l : list Z) (fuel : nat)
    (Hfuel : (length l < fuel)%nat) (Hst : rx_state ctx s l)
    (Hg : Forall good (delivered (snd (rx_run s l)))) :
  exists ctx' w',
    ax25_poll hook stack_msg fuel ctx w = Some (ctx', w') /\
    rx_state ctx' (fst (rx_run s l)) [] /\
    0 <= frm_len ctx' <= CONFIG_AX25_FRAME_BUF_LEN /\
    u32 (rx_ok ctx') = u32 (rx_ok ctx + n_ok (snd (rx_run s l))) /\
    (exists e, 0 <= e <= 1 /\
      u32 (rx_err ctx') = u32 (rx_err ctx + n_err (snd (rx_run s l)) + e)) /\
    w' = fold_left (fun w f => obs f w) (delivered (snd (rx_run s l))) w.
Proof.
  assert (Hb : bytes l).
  { destruct Hst as (_ & (Hw1 & Hw2) & _). rewrite <- Hw2. by apply ks_bytes. }
  destruct (poll_loop_spec l ctx w s fuel Hfuel Hb Hst Hg) as (c1 & w1 & E & A & [B B'] & C).
  exists (ax25_channel_error c1), w1. unfold ax25_poll. rewrite E.
  pose proof (channel_error_state _ _ _ A) as A'.
  split_and!; [done|done| | | | |done].
  - destruct A' as ((_ & _ & Hl & _) & _). rewrite Hl. lia.
  - apply A'.
  - rewrite <- B. unfold ax25_channel_error.
    destruct (negb _); [|done]. by destruct (dcd _).
  - unfold ax25_channel_error. destruct (negb _); cbn; [destruct (dcd c1); cbn|].
    + exists 1. split; [lia|]. by rewrite u32_idemp, <- u32_add, B', u32_add.
    + exists 0. split; [lia|]. by rewrite Z.add_0_r.
    + exists 0. split; [lia|]. by rewrite Z.add_0_r.
Qed.
(** C8: [ax25_poll] refines the abstract receiver. Whatever bytes wait on the
    channel, the loop ends once it has read them all, the buffer index stays
    inside the buffer, the context again stands for the abstract receiver's
    state, the statistics moved by what the abstract receiver counted (plus at
    most one for an error of the channel itself), and the hook took effect exactly on the frames it delivered, in order. *)
Theorem ax25_poll_refines ctx (w : W) (s : rxs) (l : list Z) (fuel : nat)
    (Hfuel : (length l < fuel)%nat) (Hst : rx_state ctx s l)
    (Hg : Forall good (delivered (snd (rx_run s l)))) :
  exists ctx' w',
    ax25_poll hook stack_msg fuel ctx w = Some (ctx', w') /\
    rx_state ctx' (fst (rx_run s l)) [] /\
    0 <= frm_len ctx' <= CONFIG_AX25_FRAME_BUF_LEN /\
    u32 (rx_ok ctx') = u32 (rx_ok ctx + n_ok (snd (rx_run s l))) /\
    (exists e, 0 <= e <= 1 /\
      u32 (rx_err ctx') = u32 (rx_err ctx + n_err (snd (rx_run s l)) + e)) /\
    w' = fold_left (fun w f => obs f w) (delivered (snd (rx_run s l))) w.
Proof. by apply ax25_poll_frames. Qed.
End Refine.

(** ** A receiver on a ring buffer *)

Import KFileFifo.

(** The hook that keeps the frames it is called for, checksum included. *)
Definition keep_hook (m : option AX25Msg) (ctx : AX25Ctx FIFOBuffer) (w : list (list Z))
  : AX25Ctx FIFOBuffer * list (list Z) :=
  (ctx, w ++ [take (Z.to_nat (frm_len ctx)) (ax_buf ctx)]).

Definition no_msg {W : Type} (ctx : AX25Ctx FIFOBuffer) (w : W) : AX25Msg :=
  mkMsg (mkCall [] 0) (mkCall [] 0) [] 0 0 0 0 [] 0.

(** Noise, a frame, its closing flag. *)
Definition ring_input : list Z := 0x55 :: frame_stream (replicate 17 0x7E) ++ [0x7F].

Definition ring_receiver : AX25Ctx FIFOBuffer :=
  set_pass_through true
    (ax25_init (snd (kfile_write (fifo_init (zeros 64) 64) ring_input)) true).

Lemma ax25_poll_refines_witness :
  exists ctx' w',
    ax25_poll keep_hook no_msg 60 ring_receiver [] = Some (ctx', w') /\
    rx_state true ctx' (fst (rx_run rx_start ring_input)) [] /\
    0 <= frm_len ctx' <= CONFIG_AX25_FRAME_BUF_LEN /\
    u32 (rx_ok ctx') = u32 (rx_ok ring_receiver + n_ok (snd (rx_run rx_start ring_input))) /\
    (exists e, 0 <= e <= 1 /\ u32 (rx_err ctx')
      = u32 (rx_err ring_receiver + n_err (snd (rx_run rx_start ring_input)) + e)) /\
    w' = fold_left (fun w f => w ++ [f]) (delivered (snd (rx_run rx_start ring_input))) [].
Proof.
  apply (ax25_poll_refines keep_hook no_msg (fun m ctx w Hk => rx_same_refl ctx Hk) true
    (fun f => True) (fun f w => w ++ [f])
    ltac:(intros ctx w f _ Hp Hh _ Hl Hb; unfold on_frame; rewrite Hp, Hh; cbn;
          by rewrite Hl, Nat2Z.id, Hb)
    ring_receiver [] rx_start ring_input 60).
  - apply Nat.ltb_lt. reflexivity.
  - split_and!; try reflexivity; vm_compute; (split || congruence); try congruence.
    all: repeat constructor; vm_compute; congruence.
  - vm_compute. repeat constructor.
Defined.
