(* ===== verification/Ax25Decode.v ===== *)
(** * Decoding AX.25 frames: [ax25_decode] inverts the encoders

    Theorems about the pure part of [ax25_decode]: what the message handed to
    the hook says about the frame in the buffer. *)

From Stdlib Require Import ZArith Lia Bool List.
From stdpp Require Import prelude.
From S2P Require Import Prelude.
From S2P Require Import Libc.
From S2P Require Import Crc.
From S2P Require Import Fifo.
From S2P Require Import KFile.
From S2P Require Import Escape.
From S2P Require Import Ax25.
From S2P Require Import Ax25Tx.

Open Scope Z_scope.

(** ** Well-formed addresses *)

(** Upper-case letters and digits, the alphabet of callsigns. *)
Definition call_char (c : Z) : bool :=
  ((48 <=? c) && (c <=? 57)) || ((65 <=? c) && (c <=? 90)).

(** Up to six such characters, padded with NULs to six; a 4-bit ssid. *)
Definition call_wf (a : AX25Call) : Prop :=
  exists name,
    call a = name ++ replicate (6 - length name) 0 /\ (length name <= 6)%nat /\
    Forall (fun c => call_char c = true) name /\ 0 <= ssid a < 16.

Definition frame_wf (f : Frame) : Prop :=
  call_wf (f_dst f) /\ call_wf (f_src f) /\ Forall (fun e => call_wf (fst e)) (f_path f) /\
  (length (f_path f) <= AX25_MAX_RPT)%nat.

Lemma call_char_props c :
  call_char c = true ->
  c <> 0 /\ toupper c = c /\ 0 <= c < 128 /\ c <> 32.
Proof.
  unfold call_char, toupper. rewrite orb_true_iff, !andb_true_iff, !Z.leb_le. intros Hc.
  assert ((97 <=? c) = false) as -> by (apply Z.leb_gt; lia). cbn. lia.
Qed.

Lemma strnlen_name name n :
  Forall (fun c => call_char c = true) name ->
  strnlen (name ++ replicate n 0) = length name.
Proof.
  intros Hn. induction Hn as [|c name Hc Hn IH]; simpl.
  - by destruct n.
  - apply call_char_props in Hc as (Hc & _). apply Z.eqb_neq in Hc. by rewrite Hc, IH.
Qed.

(** ** One address *)

(** A shifted octet back to a character of the array. *)
Definition decode_char (b : Z) : Z := let c := Z.shiftr b 1 in if c =? 32 then 0 else c.

Lemma decode_char_encode c :
  call_char c = true -> decode_char (u8 (Z.shiftl (u8 c) 1)) = c.
Proof.
  intros Hc. apply call_char_props in Hc as (H0 & _ & Hr & H32).
  unfold decode_char. rewrite (u8_small c) by lia. rewrite Z.shiftl_mul_pow2 by lia.
  change (2 ^ 1) with 2. rewrite u8_small by lia.
  rewrite Z.shiftr_div_pow2 by lia. change (2 ^ 1) with 2. rewrite Z.div_mul by lia.
  apply Z.eqb_neq in H32. by rewrite H32.
Qed.

(** [DECODE_CALL] looks at six octets. *)
Lemma DECODE_CALL_app pre mid :
  (6 <= length mid)%nat ->
  DECODE_CALL (pre ++ mid) (Z.of_nat (length pre)) = map decode_char (take 6 mid).
Proof.
  intros Hl. unfold DECODE_CALL.
  do 6 (destruct mid as [|? mid]; [simpl in Hl; lia|]).
  assert (Hg : forall i, 0 <= i -> get (pre ++ z :: z0 :: z1 :: z2 :: z3 :: z4 :: mid)
    (Z.of_nat (length pre) + i) = get (z :: z0 :: z1 :: z2 :: z3 :: z4 :: mid) i)
    by (intros; by apply get_app_r).
  change (seqZ 0 6) with [0; 1; 2; 3; 4; 5]. cbn [map].
  by rewrite !Hg by lia.
Qed.

Lemma wire_ssid_props s last r :
  0 <= s < 16 ->
  decode_ssid (wire_ssid s last r) = s /\ Z.testbit (wire_ssid s last r) 0 = last /\
  negb (Z.land (wire_ssid s last r) 0x80 =? 0) = r.
Proof.
  intros Hs.
  assert (Hb : is_byte s) by (unfold is_byte; lia).
  assert (Hall : forall b, is_byte b ->
    (implb (b <? 16) ((decode_ssid (wire_ssid b last r) =? b) &&
      Bool.eqb (Z.testbit (wire_ssid b last r) 0) last &&
      Bool.eqb (negb (Z.land (wire_ssid b last r) 0x80 =? 0)) r)) = true).
  { apply forall_byte. destruct last, r; vm_compute; reflexivity. }
  specialize (Hall s Hb).
  assert ((s <? 16) = true) as Hlt by (apply Z.ltb_lt; lia). rewrite Hlt in Hall.
  cbn [implb] in Hall. apply andb_prop in Hall as [Hall H3].
  apply andb_prop in Hall as [H1 H2].
  split_and!; [by apply Z.eqb_eq|by apply eqb_prop|by apply eqb_prop].
Qed.

Lemma length_addr_octets a last r :
  call_wf a -> length (addr_octets a last r) = 7%nat.
Proof.
  intros (name & E & Hl & Hn & _). unfold addr_octets. rewrite E.
  rewrite strnlen_name by done. rewrite length_app, length_map, length_app, length_map.
  rewrite length_replicate, take_app_length. simpl. lia.
Qed.

(** The six characters of an encoded address decode to the array. *)
Lemma addr_octets_decode a last r rest :
  call_wf a ->
  map decode_char (take 6 (addr_octets a last r ++ rest)) = call a.
Proof.
  intros (name & E & Hl & Hn & _). unfold addr_octets. rewrite E.
  rewrite strnlen_name by done. rewrite take_app_length.
  rewrite <- app_assoc, take_app_le by
    (rewrite length_map, length_app, length_map, length_replicate; lia).
  rewrite take_ge by (rewrite length_map, length_app, length_map, length_replicate; lia).
  rewrite length_map, !map_app. f_equal.
  - rewrite map_map, map_map. rewrite <- (map_id name) at 2.
    apply map_ext_in. intros c Hc. rewrite List.Forall_forall in Hn. specialize (Hn c Hc).
    pose proof (call_char_props c Hn) as (_ & -> & _). by apply decode_char_encode.
  - change (map decode_char ?x) with (decode_char <$> x).
    rewrite !fmap_replicate. done.
Qed.

(** ** The repeater list *)

Lemma AX25_REPEATED_set flags i j v :
  0 <= i < 8 -> 0 <= j < 8 ->
  AX25_REPEATED (AX25_SET_REPEATED flags i v) j =
    if i =? j then v else AX25_REPEATED flags j.
Proof.
  intros Hi Hj.
  assert (Hrep : forall x k, 0 <= k -> AX25_REPEATED x k = Z.testbit x k).
  { intros x k Hk. unfold AX25_REPEATED, BV. rewrite Z.shiftl_1_l.
    destruct (Z.testbit x k) eqn:E.
    - apply negb_true_iff, Z.eqb_neq. intros E0.
      assert (Z.testbit (Z.land x (2 ^ k)) k = false) as E1 by (rewrite E0; apply Z.bits_0).
      rewrite Z.land_spec, E, Z.pow2_bits_true in E1 by done. done.
    - apply negb_false_iff, Z.eqb_eq. apply Z.bits_inj'. intros n Hn.
      rewrite Z.land_spec, Z.bits_0. destruct (decide (n = k)) as [->|Hne].
      + by rewrite E.
      + rewrite Z.pow2_bits_false by lia. apply andb_false_r. }
  rewrite !Hrep by lia. unfold AX25_SET_REPEATED, BV. rewrite Z.shiftl_1_l.
  assert (Hu : forall x, Z.testbit (u8 x) j = Z.testbit x j).
  { intros x. unfold u8. change 256 with (2 ^ 8). rewrite Z.mod_pow2_bits_low by lia. done. }
  destruct (i =? j) eqn:E; zbool.
  - subst j. destruct v; rewrite Hu.
    + rewrite Z.lor_spec, Z.pow2_bits_true by lia. apply orb_true_r.
    + rewrite Z.land_spec, Z.lnot_spec, Z.pow2_bits_true by lia. apply andb_false_r.
  - destruct v; rewrite Hu.
    + rewrite Z.lor_spec, Z.pow2_bits_false by lia. apply orb_false_r.
    + rewrite Z.land_spec, Z.lnot_spec, Z.pow2_bits_false by lia. apply andb_true_r.
Qed.

Lemma rpt_entries_snoc n i m :
  rpt_entries (S n) i m = rpt_entries n i m ++
    [(nth (Z.to_nat (i + Z.of_nat n)) (m_rpt_lst m) (mkCall [] 0),
      AX25_REPEATED (m_rpt_flags m) (i + Z.of_nat n))].
Proof.
  revert i. induction n as [|n IH]; intros i.
  - cbn. by rewrite Z.add_0_r.
  - change (rpt_entries (S (S n)) i m) with
      ((nth (Z.to_nat i) (m_rpt_lst m) (mkCall [] 0), AX25_REPEATED (m_rpt_flags m) i)
       :: rpt_entries (S n) (i + 1) m).
    rewrite IH. replace (i + 1 + Z.of_nat n) with (i + Z.of_nat (S n)) by lia. done.
Qed.

Lemma rpt_entries_ext n i m m' :
  (forall j, i <= j < i + Z.of_nat n ->
    nth (Z.to_nat j) (m_rpt_lst m) (mkCall [] 0) = nth (Z.to_nat j) (m_rpt_lst m') (mkCall [] 0) /\
    AX25_REPEATED (m_rpt_flags m) j = AX25_REPEATED (m_rpt_flags m') j) ->
  rpt_entries n i m = rpt_entries n i m'.
Proof.
  revert i. induction n as [|n IH]; intros i Hj; [done|]. cbn [rpt_entries].
  destruct (Hj i) as [-> ->]; [lia|]. f_equal. apply IH. intros j Hr. apply Hj. lia.
Qed.

(** The messages [decode_rpts] builds: entries read so far. *)
Definition rpts_read (done : list (AX25Call * bool)) (m : AX25Msg) : Prop :=
  m_rpt_cnt m = Z.of_nat (length done) /\ length (m_rpt_lst m) = AX25_MAX_RPT /\
  rpt_entries (length done) 0 m = done.

Lemma rpts_read_snoc done m a v flags' lst' m' :
  (length done < AX25_MAX_RPT)%nat -> rpts_read done m ->
  flags' = AX25_SET_REPEATED (m_rpt_flags m) (m_rpt_cnt m) v ->
  lst' = <[Z.to_nat (m_rpt_cnt m) := a]> (m_rpt_lst m) ->
  m_rpt_lst m' = lst' -> m_rpt_flags m' = flags' -> m_rpt_cnt m' = m_rpt_cnt m + 1 ->
  rpts_read (done ++ [(a, v)]) m'.
Proof.
  intros Hl (Hc & Hlen & He) -> -> El Ef Ec. unfold AX25_MAX_RPT in *.
  assert (length (done ++ [(a, v)]) = S (length done)) as Hs by (rewrite length_app; simpl; lia).
  unfold rpts_read. rewrite Hs. split_and!; [lia|by rewrite El, length_insert|].
  rewrite rpt_entries_snoc. rewrite El, Ef. f_equal.
  - rewrite <- He at 2. apply rpt_entries_ext. intros j Hj. rewrite El, Ef. split.
    + rewrite !nth_lookup, list_lookup_insert_ne by lia. done.
    + rewrite AX25_REPEATED_set by lia.
      assert ((m_rpt_cnt m =? j) = false) as -> by (apply Z.eqb_neq; lia). done.
  - rewrite Hc. rewrite AX25_REPEATED_set by lia. rewrite Z.eqb_refl.
    rewrite nth_lookup. rewrite Nat2Z.id.
    rewrite Z.add_0_l, Nat2Z.id, list_lookup_insert_eq by lia. done.
Qed.

Lemma path_octets_last a r rest :
  path_octets ((a, r) :: rest) =
    addr_octets a (match rest with [] => true | _ => false end) r ++ path_octets rest.
Proof. destruct rest as [|[b q] rest]; [by rewrite app_nil_r|done]. Qed.

Lemma addr_octets_split a last r :
  call_wf a ->
  exists six, length six = 6%nat /\ addr_octets a last r = six ++ [wire_ssid (ssid a) last r].
Proof.
  intros Ha. pose proof (length_addr_octets a last r Ha) as Hl.
  unfold addr_octets in *. eexists. split; [|done].
  rewrite length_app in Hl. simpl in Hl. lia.
Qed.

Lemma decode_rpts_spec rest : forall pre o tail room done m,
  Forall (fun e => call_wf (fst e)) rest ->
  Z.testbit o 0 = match rest with [] => true | _ => false end ->
  (length done + room = AX25_MAX_RPT)%nat -> (length rest <= room)%nat -> rpts_read done m ->
  let '(p', m') := decode_rpts room (pre ++ o :: path_octets rest ++ tail)
                     (Z.of_nat (length pre)) m in
  p' = Z.of_nat (length pre) + 1 + 7 * Z.of_nat (length rest) /\ rpts_read (done ++ rest) m'.
Proof.
  induction rest as [|[a r] rest IH]; intros pre o tail room done m Hwf Ho Hroom Hrest Hm.
  - destruct room; cbn [decode_rpts]; rewrite get_at, Ho; cbn;
      (split; [lia|by rewrite app_nil_r]).
  - apply Forall_cons in Hwf as [Ha Hwf]. cbn [fst] in Ha.
    destruct room as [|room]; [simpl in Hrest; lia|]. cbn [decode_rpts].
    rewrite get_at, Ho. cbn [negb].
    rewrite path_octets_last. set (last := match rest with [] => true | _ => false end).
    destruct (addr_octets_split a last r Ha) as (six & H6 & Hsix).
    assert (HD : DECODE_CALL (pre ++ o :: (addr_octets a last r ++ path_octets rest) ++ tail)
      (Z.of_nat (length pre) + 1) = call a).
    { replace (pre ++ o :: (addr_octets a last r ++ path_octets rest) ++ tail)
        with ((pre ++ [o]) ++ addr_octets a last r ++ (path_octets rest ++ tail))
        by (rewrite <- !app_assoc; done).
      replace (Z.of_nat (length pre) + 1) with (Z.of_nat (length (pre ++ [o])))
        by (rewrite length_app; simpl; lia).
      rewrite DECODE_CALL_app by (rewrite length_app, length_addr_octets by done; lia).
      by apply addr_octets_decode. }
    rewrite HD.
    destruct (wire_ssid_props (ssid a) last r) as (Hs & Hb & Hr).
    { by destruct Ha as (? & _ & _ & _ & ?). }
    set (o' := wire_ssid (ssid a) last r) in *.
    assert (Hbuf : pre ++ o :: (addr_octets a last r ++ path_octets rest) ++ tail
      = (pre ++ o :: six) ++ o' :: path_octets rest ++ tail).
    { rewrite Hsix, <- !app_assoc. done. }
    rewrite Hbuf.
    assert (Hp : Z.of_nat (length pre) + 1 + 6 = Z.of_nat (length (pre ++ o :: six))).
    { rewrite length_app. simpl. lia. }
    rewrite Hp, get_at, Hs, Hr.
    assert (Ea : mkCall (call a) (ssid a) = a) by by destruct a. rewrite Ea.
    specialize (IH (pre ++ o :: six) o' tail room (done ++ [(a, r)])).
    destruct (decode_rpts _ _ _ _) as [p' m'] eqn:Ed.
    match type of Ed with decode_rpts _ _ _ ?m1 = _ => specialize (IH m1) end.
    rewrite Ed in IH. rewrite <- app_assoc in IH. cbn [app] in IH.
    destruct IH as [-> Hm']; [done|done|rewrite length_app; simpl; lia|simpl in Hrest; lia| |].
    { eapply (rpts_read_snoc done m a r); try done. lia. }
    split; [|done]. rewrite <- Hp. simpl. lia.
Qed.

(** The message [m] is a faithful decoding of [f]. *)
Definition decodes_to (m : AX25Msg) (f : Frame) : Prop :=
  msg_frame m = f /\ m_ctrl m = AX25_CTRL_UI /\ m_pid m = AX25_PID_NOLAYER3 /\
  m_rpt_cnt m = Z.of_nat (length (f_path f)) /\ m_len m = Z.of_nat (length (f_info f)).

Lemma length_path_octets p :
  Forall (fun e => call_wf (fst e)) p -> length (path_octets p) = (7 * length p)%nat.
Proof.
  intros Hp. induction Hp as [|[a r] p Ha Hp IH]; [done|].
  rewrite path_octets_last, length_app, length_addr_octets, IH by done. simpl. lia.
Qed.

Lemma length_frame_octets f :
  frame_wf f ->
  length (frame_octets f) = (16 + 7 * length (f_path f) + length (f_info f))%nat.
Proof.
  intros (Hd & Hs & Hp & _). unfold frame_octets. rewrite !length_app, length_path_octets.
  - simpl. lia.
  - by repeat constructor.
Qed.

(** The fixed part of a buffer that starts with a frame: the two first
    addresses decode, and the rest starts at the octet of the source's ssid. *)
Lemma frame_layout f tail :
  frame_wf f ->
  let buf := frame_octets f ++ tail in
  DECODE_CALL buf 0 = call (f_dst f) /\ decode_ssid (get buf 6) = ssid (f_dst f) /\
  DECODE_CALL buf 7 = call (f_src f) /\ decode_ssid (get buf 13) = ssid (f_src f) /\
  exists pre o, length pre = 13%nat /\
    Z.testbit o 0 = match f_path f with [] => true | _ => false end /\
    buf = pre ++ o :: path_octets (f_path f) ++
            [AX25_CTRL_UI; AX25_PID_NOLAYER3] ++ f_info f ++ tail.
Proof.
  intros (Hd & Hs & Hp & Hn). cbv zeta.
  set (rest := f_path f) in *.
  set (body := [AX25_CTRL_UI; AX25_PID_NOLAYER3] ++ f_info f ++ tail).
  set (last := match rest with [] => true | _ => false end).
  assert (Hoct : frame_octets f ++ tail = addr_octets (f_dst f) false false ++
    addr_octets (f_src f) last false ++ path_octets rest ++ body).
  { unfold frame_octets, body. rewrite !path_octets_last. fold rest. fold last.
    by rewrite <- !app_assoc. }
  rewrite Hoct.
  destruct (addr_octets_split (f_dst f) false false Hd) as (d6 & Hd6 & Ed).
  destruct (addr_octets_split (f_src f) last false Hs) as (s6 & Hs6 & Es).
  destruct (wire_ssid_props (ssid (f_dst f)) false false) as (Ds & _ & _).
  { by destruct Hd as (? & _ & _ & _ & ?). }
  destruct (wire_ssid_props (ssid (f_src f)) last false) as (Ss & Sb & _).
  { by destruct Hs as (? & _ & _ & _ & ?). }
  pose proof (length_addr_octets (f_dst f) false false Hd) as L1.
  pose proof (length_addr_octets (f_src f) last false Hs) as L2.
  set (pre := addr_octets (f_dst f) false false ++ s6).
  set (o := wire_ssid (ssid (f_src f)) last false) in *.
  assert (Eall : addr_octets (f_dst f) false false ++ addr_octets (f_src f) last false ++
    path_octets rest ++ body = pre ++ o :: path_octets rest ++ body).
  { unfold pre. rewrite Es, <- !app_assoc. done. }
  assert (Epre : length pre = 13%nat) by (unfold pre; rewrite length_app; lia).
  split_and!.
  - pose proof (DECODE_CALL_app [] (addr_octets (f_dst f) false false ++
      addr_octets (f_src f) last false ++ path_octets rest ++ body)) as E.
    cbn [app length] in E. change (Z.of_nat 0) with 0 in E.
    rewrite E by (rewrite length_app; lia). by apply addr_octets_decode.
  - rewrite Ed, <- app_assoc. change 6 with (Z.of_nat 6). rewrite <- Hd6. cbn [app]. by rewrite get_at.
  - change 7 with (Z.of_nat 7). rewrite <- L1.
    rewrite DECODE_CALL_app by (rewrite length_app; lia). by apply addr_octets_decode.
  - rewrite Eall. change 13 with (Z.of_nat 13). by rewrite <- Epre, get_at.
  - by exists pre, o.
Qed.

Lemma ax25_decode_encode_gen {F : Type} (f : Frame) (junk : AX25Msg) (ctx : AX25Ctx F)
    (tail : list Z)
    (Hwf : frame_wf f) (Hjunk : length (m_rpt_lst junk) = AX25_MAX_RPT)
    (Hbuf : ax_buf ctx = frame_octets f ++ tail)
    (Hlen : frm_len ctx = Z.of_nat (length (frame_octets f)) + 2)
    (Hmax : frm_len ctx <= CONFIG_AX25_FRAME_BUF_LEN) :
  exists m, ax25_decode_msg junk ctx = Some m /\ decodes_to m f.
Proof.
  pose proof (length_frame_octets f Hwf) as Hflen.
  destruct (frame_layout f tail Hwf) as (D1 & D2 & D3 & D4 & pre & o & Epre & Ho & Eall).
  destruct Hwf as (Hd & Hs & Hp & Hn). unfold ax25_decode_msg.
  rewrite Hbuf, D1, D2, D3, D4, Eall.
  change 13 with (Z.of_nat 13). rewrite <- Epre.
  set (body := [AX25_CTRL_UI; AX25_PID_NOLAYER3] ++ f_info f ++ tail).
  pose proof (decode_rpts_spec (f_path f) pre o body AX25_MAX_RPT []) as Hr.
  match goal with |- context [decode_rpts _ _ _ ?m0] => specialize (Hr m0) end.
  destruct (decode_rpts _ _ _ _) as [p' m'].
  destruct Hr as [Hp' (Hc & _ & He)]; [done|done|done|done|by split_and!|].
  set (full := pre ++ o :: path_octets (f_path f)).
  assert (Hfull : Z.of_nat (length full) = p').
  { unfold full. rewrite length_app. cbn [length].
    rewrite length_path_octets by done. lia. }
  assert (Eall2 : pre ++ o :: path_octets (f_path f) ++ body = full ++ body).
  { unfold full. by rewrite <- app_assoc. }
  assert (Ectrl : get (full ++ body) (Z.of_nat (length full)) = AX25_CTRL_UI) by apply get_at.
  assert (Epid : get (full ++ body) (Z.of_nat (length full) + 1) = AX25_PID_NOLAYER3)
    by (by rewrite get_app_r by lia).
  rewrite Eall2, <- Hfull, Ectrl, Epid, !Z.eqb_refl. cbn [negb].
  assert (Edrop : drop (Z.to_nat (Z.of_nat (length full) + 2)) (full ++ body) = f_info f ++ tail).
  { replace (Z.to_nat (Z.of_nat (length full) + 2)) with (length full + 2)%nat by lia.
    rewrite drop_app_add. done. }
  assert (Elen : u16 (frm_len ctx - 2 - (Z.of_nat (length full) + 2))
    = Z.of_nat (length (f_info f))).
  { unfold CONFIG_AX25_FRAME_BUF_LEN in Hmax. rewrite u16_small; lia. }
  rewrite Edrop, Elen. eexists. split; [done|].
  unfold decodes_to, msg_frame. cbn -[rpt_entries].
  assert (Ecall : forall a, mkCall (call a) (ssid a) = a) by by intros [].
  rewrite !Ecall, Nat2Z.id, take_app_length. rewrite Hc, Nat2Z.id. cbn [app] in He |- *.
  split; [|by split_and!].
  rewrite (rpt_entries_ext _ _ _ m') by done. rewrite He. by destruct f.
Qed.

(** C14: decoding inverts encoding: when the buffer holds the octets of a frame
    whose addresses are callsigns, with two checksum bytes behind and anything
    after them, [ax25_decode] hands on exactly that frame, up to eight repeaters
    with their has-been-repeated flags included, whatever its uninitialised
    message happened to contain. *)
Theorem ax25_decode_encode {F : Type} (f : Frame) (junk : AX25Msg) (ctx : AX25Ctx F)
    (tail : list Z)
    (Hwf : frame_wf f) (Hjunk : length (m_rpt_lst junk) = AX25_MAX_RPT)
    (Hbuf : ax_buf ctx = frame_octets f ++ tail)
    (Hlen : frm_len ctx = Z.of_nat (length (frame_octets f)) + 2)
    (Hmax : frm_len ctx <= CONFIG_AX25_FRAME_BUF_LEN) :
  exists m, ax25_decode_msg junk ctx = Some m /\ decodes_to m f.
Proof. by apply (ax25_decode_encode_gen f junk ctx tail). Qed.

(** A concrete frame: N0CALL-7 to APRS via WIDE1-1, already repeated. *)
Definition sample_frame : Frame :=
  mkFrame (mkCall [65; 80; 82; 83; 0; 0] 0) (mkCall [78; 48; 67; 65; 76; 76] 7)
    [(mkCall [87; 73; 68; 69; 49; 0] 1, true)] [62; 104; 105].

Lemma call_wf_name name k s :
  Forall (fun c => call_char c = true) name -> (length name + k = 6)%nat -> 0 <= s < 16 ->
  call_wf (mkCall (name ++ replicate k 0) s).
Proof.
  intros Hn Hk Hs. exists name. cbn.
  replace (6 - length name)%nat with k by lia. split_and!; (done || lia).
Qed.

Lemma sample_frame_wf : frame_wf sample_frame.
Proof.
  split_and!; cbn [sample_frame f_dst f_src f_path];
    [apply (call_wf_name [65; 80; 82; 83] 2)|apply (call_wf_name [78; 48; 67; 65; 76; 76] 0)| |];
    try (repeat constructor; lia).
  constructor; [|done]. apply (call_wf_name [87; 73; 68; 69; 49] 1); repeat constructor; lia.
Qed.

Definition blank_msg : AX25Msg :=
  mkMsg (mkCall [] 0) (mkCall [] 0) (replicate 8 (mkCall (zeros 6) 0)) 0 0xA5 0 0 [] 0.

Lemma ax25_decode_encode_witness :
  exists m, ax25_decode_msg blank_msg
      (mkCtx (frame_octets sample_frame ++ [0; 0; 9]) tt
        (Z.of_nat (length (frame_octets sample_frame)) + 2) 0 0 true false true false 0 false
        0 0 0) = Some m /\ decodes_to m sample_frame.
Proof.
  apply (ax25_decode_encode sample_frame blank_msg _ [0; 0; 9]);
    [exact sample_frame_wf|reflexivity|reflexivity|reflexivity|vm_compute; congruence].
Defined.
