(* ===== verification/Ax25Link.v ===== *)
(** * The AX.25 layer end to end

    Two stations whose channels are connected: what one sends, the other's
    hook gets, and nothing else. Corrupted, truncated and over-long frames. *)

From Stdlib Require Import ZArith Lia Bool List.
From stdpp Require Import prelude.
From S2P Require Import Prelude.
From S2P Require Import Libc.
From S2P Require Import Crc.
From S2P Require Import Fifo.
From S2P Require Import KFile.
From S2P Require Import Escape.
From S2P Require Import Ax25.
From S2P Require Import Ax25Tx.
From S2P Require Import Ax25Rx.
From S2P Require Import Ax25Decode.

Open Scope Z_scope.

(** ** Streams of several frames *)

Definition streams (ls : list (list Z)) : list Z := concat (map frame_stream ls).

Definition frame_sized (l : list Z) : Prop := 16 <= Z.of_nat (length l) <= 328.

Lemma rx_streams ls s :
  r_esc s = false -> r_frame s = [] -> Forall frame_sized ls ->
  exists b, rx_run s (streams ls)
    = (mkRx b false [], map (fun l => Delivered (with_fcs l)) ls).
Proof.
  intros He Hf Hls. revert s He Hf. induction Hls as [|l ls Hl Hls IH]; intros s He Hf.
  - exists (r_sync s). cbn. destruct s; cbn in *; congruence.
  - change (streams (l :: ls)) with (frame_stream l ++ streams ls).
    rewrite rx_run_app, rx_frame_stream by done.
    destruct (IH (mkRx true false [])) as [b ->]; [done..|]. by exists b.
Qed.

Lemma delivered_streams ls :
  delivered (map (fun l => Delivered (with_fcs l)) ls) = map with_fcs ls.
Proof. induction ls as [|l ls IH]; [done|]. cbn. by f_equal. Qed.

Lemma n_ok_streams ls :
  n_ok (map (fun l => Delivered (with_fcs l)) ls) = Z.of_nat (length ls).
Proof.
  unfold n_ok. f_equal. induction ls as [|l ls IH]; [done|]. cbn. by f_equal.
Qed.

(** Sending several raw frames. *)
Lemma sendRaw_many {F : Type} `{KFlush F} ls : forall (tx : AX25Ctx F),
  Forall (fun l => bytes l) ls -> kk_ok (ax_ch tx) -> kk_fits (ax_ch tx) (streams ls) ->
  kk_out (ax_ch (fold_left ax25_sendRaw ls tx)) = kk_out (ax_ch tx) ++ streams ls.
Proof.
  induction ls as [|l ls IH]; intros tx Hls Hok Hfit.
  - by rewrite app_nil_r.
  - apply Forall_cons in Hls as [Hl Hls].
    change (streams (l :: ls)) with (frame_stream l ++ streams ls) in *.
    destruct (ax25_sendRaw_sent tx l Hl Hok) as (ch & E & Hok' & Ho & Hf').
    { by eapply kk_fits_app. }
    cbn [fold_left]. rewrite IH; rewrite ?E; cbn; [|done|done|by apply Hf'].
    by rewrite Ho, <- app_assoc.
Qed.

Lemma sendMsg_many {F : Type} `{KFlush F} ms : forall (tx : AX25Ctx F),
  Forall (fun m => 0 < m_rpt_cnt m /\ m_len m <> 0 /\ bytes (m_info m)) ms ->
  kk_ok (ax_ch tx) ->
  kk_fits (ax_ch tx) (streams (map (fun m => frame_octets (msg_frame m)) ms)) ->
  kk_out (ax_ch (fold_left ax25_sendMsg ms tx)) =
    kk_out (ax_ch tx) ++ streams (map (fun m => frame_octets (msg_frame m)) ms).
Proof.
  induction ms as [|m ms IH]; intros tx Hms Hok Hfit.
  - by rewrite app_nil_r.
  - apply Forall_cons in Hms as [(Hc & Hn & Hi) Hms]. cbn [map] in *.
    change (streams (?x :: ?y)) with (frame_stream x ++ streams y) in *.
    destruct (ax25_sendMsg_sent tx m Hc Hn Hi Hok) as (ch & E & Hok' & Ho & Hf').
    { by eapply kk_fits_app. }
    cbn [fold_left]. rewrite IH; rewrite ?E; cbn; [|done|done|by apply Hf'].
    by rewrite Ho, <- app_assoc.
Qed.

(** ** The hooks that observe *)

Section Hooks.
Context {F : Type} `{KSource F}.

(** The raw observer keeps [g_ax25.buf] up to [frm_len - 2], what KISS mode
    passes to the host. *)
Definition raw_hook (m : option AX25Msg) (ctx : AX25Ctx F) (w : list (list Z))
  : AX25Ctx F * list (list Z) :=
  (ctx, w ++ [take (Z.to_nat (u16 (frm_len ctx - 2))) (ax_buf ctx)]).

(** The message observer keeps the frame of the decoded message. *)
Definition msg_hook (m : option AX25Msg) (ctx : AX25Ctx F) (w : list Frame)
  : AX25Ctx F * list Frame :=
  (ctx, match m with Some m => w ++ [msg_frame m] | None => w end).

Lemma fresh_state ch (pt : bool) l :
  ks_ok ch -> ks_in ch = l ->
  rx_state pt (set_pass_through pt (ax25_init ch true)) rx_start l.
Proof. by intros Hok Hin. Qed.

Lemma raw_hook_obs stack ctx w f :
  frame_sized (take (length f - 2) f) -> pass_through ctx = true -> ax_hook ctx = true ->
  frm_len ctx = Z.of_nat (length f) -> take (length f) (ax_buf ctx) = f ->
  snd (on_frame raw_hook stack ctx w) = w ++ [take (length f - 2) f].
Proof.
  unfold frame_sized. rewrite length_take. intros Hs Hp Hh Hl Hb. unfold on_frame.
  rewrite Hp, Hh. cbn. rewrite Hl. do 2 f_equal.
  rewrite u16_small by lia. rewrite <- Hb at 3. rewrite take_take. f_equal. lia.
Qed.
End Hooks.

(** Raw frames get through unchanged. Let one station send any list of
    frames with [ax25_sendRaw], each of 16 to 328 arbitrary bytes, flags, resets
    and escapes among them, over a channel that has room, and let another read
    that stream in pass-through mode: its [ax25_poll] ends, and its hook is called
    once per frame, in order, with exactly the bytes that were sent. *)
Theorem ax25_raw_link {F G : Type} `{KFlush F} `{KSource G}
    (ls : list (list Z)) (tx : AX25Ctx F) (ch : G)
    (stack : AX25Ctx G -> list (list Z) -> AX25Msg)
    (Hls : Forall (fun l => bytes l /\ frame_sized l) ls)
    (Hok : kk_ok (ax_ch tx)) (Hnew : kk_out (ax_ch tx) = [])
    (Hfit : kk_fits (ax_ch tx) (streams ls))
    (Hch : ks_ok ch) (Hlink : ks_in ch = kk_out (ax_ch (fold_left ax25_sendRaw ls tx))) :
  exists rx',
    ax25_poll raw_hook stack (S (length (ks_in ch)))
      (set_pass_through true (ax25_init ch true)) [] = Some (rx', ls) /\
    u32 (rx_ok rx') = u32 (Z.of_nat (length ls)).
Proof.
  assert (Hb : Forall (fun l => bytes l) ls) by (eapply Forall_impl; [exact Hls|by intros ? []]).
  assert (Hs : Forall frame_sized ls) by (eapply Forall_impl; [exact Hls|by intros ? []]).
  rewrite sendRaw_many, Hnew in Hlink by done. cbn [app] in Hlink.
  destruct (rx_streams ls rx_start eq_refl eq_refl Hs) as [b Hrun].
  destruct (ax25_poll_frames raw_hook stack (fun m ctx w Hk => rx_same_refl ctx Hk) true
    (fun f => frame_sized (take (length f - 2) f))
    (fun f w => w ++ [take (length f - 2) f]) ltac:(intros; by apply raw_hook_obs)
    (set_pass_through true (ax25_init ch true)) [] rx_start (streams ls)
    (S (length (ks_in ch)))) as (rx' & w' & E & _ & _ & Hcnt & _ & Hw).
  - rewrite Hlink. lia.
  - by apply fresh_state.
  - rewrite Hrun. cbn [snd]. rewrite delivered_streams. apply Forall_map.
    eapply Forall_impl; [exact Hs|]. intros l Hl. cbn.
    rewrite length_with_fcs. unfold with_fcs.
    by replace (length l + 2 - 2)%nat with (length l) by lia; rewrite take_app_length.
  - exists rx'. rewrite E, Hcnt, Hrun. cbn [snd]. rewrite n_ok_streams. split; [|done].
    do 2 f_equal. rewrite Hw, Hrun. cbn [snd]. rewrite delivered_streams.
    clear. assert (Hgen : forall w, fold_left (fun w f => w ++ [take (length f - 2) f])
      (map with_fcs ls) w = w ++ ls); [|by rewrite Hgen].
    induction ls as [|l ls IH]; intros w; cbn; [by rewrite app_nil_r|].
    rewrite IH, length_with_fcs, <- app_assoc. unfold with_fcs.
    by replace (length l + 2 - 2)%nat with (length l) by lia; rewrite take_app_length.
Qed.

Import KFileFifo KFileMem.

(** A KISS client's worst bytes, twice, between two FIFO stations. *)
Definition sample_raw : list (list Z) :=
  [replicate 16 0x7E; [0x1B; 0x7F; 0x7E; 4; 5; 6; 7; 8; 9; 10; 11; 12; 13; 14; 15; 0xC0]].

Definition blank_stack {F W : Type} (ctx : AX25Ctx F) (w : W) : AX25Msg := blank_msg.

(** A FIFO hands out what it took in. *)
Lemma fifo_link (fd : FIFOBuffer) : ks_in fd = kk_out fd.
Proof. reflexivity. Qed.

Definition fifo_station (n : Z) : AX25Ctx FIFOBuffer :=
  ax25_init (fifo_init (zeros (Z.to_nat n)) n) true.

Lemma ax25_raw_link_witness :
  let tx := fifo_station 256 in
  let ch := ax_ch (fold_left ax25_sendRaw sample_raw tx) in
  exists rx',
    ax25_poll raw_hook blank_stack (S (length (ks_in ch)))
      (set_pass_through true (ax25_init ch true)) [] = Some (rx', sample_raw) /\
    u32 (rx_ok rx') = u32 (Z.of_nat (length sample_raw)).
Proof.
  apply (ax25_raw_link sample_raw (fifo_station 256)
    (ax_ch (fold_left ax25_sendRaw sample_raw (fifo_station 256))) blank_stack).
  - repeat constructor; vm_compute; congruence.
  - apply (fifo_init_wf (zeros 256) 256); [lia|reflexivity].
  - reflexivity.
  - vm_compute. congruence.
  - split; [|decide_closed].
    split_and!; vm_compute; congruence.
  - apply fifo_link.
Defined.

(** ** Messages *)

(** Messages both encoders and decoders handle: callsign addresses, one to
    eight repeaters, a payload that fits. *)
Definition msg_ok (m : AX25Msg) : Prop :=
  frame_wf (msg_frame m) /\ 0 < m_rpt_cnt m /\ m_len m <> 0 /\ bytes (m_info m) /\
  Z.of_nat (length (frame_octets (msg_frame m))) <= 328.

(** The frame that an intact buffer content decodes to. *)
Definition frame_of (l : list Z) : list Frame :=
  match ax25_decode_msg blank_msg
    (mkCtx l tt (Z.of_nat (length l)) 0 0 true false true false 0 false 0 0 0) with
  | Some m => [msg_frame m]
  | None => []
  end.

Definition good_frame (l : list Z) : Prop :=
  exists f, frame_wf f /\ l = with_fcs (frame_octets f) /\ Z.of_nat (length l) <= 330.

Lemma frame_of_good f :
  frame_wf f -> Z.of_nat (length (with_fcs (frame_octets f))) <= 330 ->
  frame_of (with_fcs (frame_octets f)) = [f].
Proof.
  intros Hwf Hl. unfold frame_of.
  destruct (ax25_decode_encode_gen f blank_msg
    (mkCtx (with_fcs (frame_octets f)) tt (Z.of_nat (length (with_fcs (frame_octets f))))
      0 0 true false true false 0 false 0 0 0)
    (fcs (crc_ccitt CRC_CCITT_INIT_VAL (frame_octets f)))) as (m & -> & Hm); try done.
  - cbn [frm_len]. rewrite length_with_fcs. lia.
  - by destruct Hm as (-> & _).
Qed.

Section MsgHook.
Context {G : Type} `{KSource G}.
Variable stack : AX25Ctx G -> list Frame -> AX25Msg.
Hypothesis Hstack : forall ctx w, length (m_rpt_lst (stack ctx w)) = AX25_MAX_RPT.

Lemma msg_hook_obs ctx w l :
  good_frame l -> pass_through ctx = false -> ax_hook ctx = true ->
  frm_len ctx = Z.of_nat (length l) -> take (length l) (ax_buf ctx) = l ->
  snd (on_frame msg_hook stack ctx w) = w ++ frame_of l.
Proof.
  intros (f & Hwf & -> & Hmax) Hp Hh Hl Hb. rewrite frame_of_good by done.
  unfold on_frame, ax25_decode. rewrite Hp.
  destruct (ax25_decode_encode_gen f (stack ctx w) ctx
    (fcs (crc_ccitt CRC_CCITT_INIT_VAL (frame_octets f))
      ++ drop (length (with_fcs (frame_octets f))) (ax_buf ctx))) as (m & -> & Hm); try done.
  - rewrite app_assoc. fold (with_fcs (frame_octets f)). rewrite <- Hb at 1.
    by rewrite take_drop.
  - rewrite Hl, length_with_fcs. lia.
  - rewrite Hl. unfold CONFIG_AX25_FRAME_BUF_LEN. lia.
  - rewrite Hh. cbn. by destruct Hm as (-> & _).
Qed.
End MsgHook.

Lemma msg_ok_sized m : msg_ok m -> frame_sized (frame_octets (msg_frame m)).
Proof.
  intros (Hwf & _ & _ & _ & Hl). split; [|done].
  rewrite length_frame_octets by done. lia.
Qed.

(** C4: messages get through as they were meant. Let one station send any list
    of well-formed messages with [ax25_sendMsg] and another, decoding, read the
    stream: its hook is called once per message, in order, with a message that
    stands for the same frame: source, destination, every repeater with its
    has-been-repeated flag, and the payload. *)
Theorem ax25_msg_link {F G : Type} `{KFlush F} `{KSource G}
    (ms : list AX25Msg) (tx : AX25Ctx F) (ch : G)
    (stack : AX25Ctx G -> list Frame -> AX25Msg)
    (Hstack : forall ctx w, length (m_rpt_lst (stack ctx w)) = AX25_MAX_RPT)
    (Hms : Forall msg_ok ms)
    (Hok : kk_ok (ax_ch tx)) (Hnew : kk_out (ax_ch tx) = [])
    (Hfit : kk_fits (ax_ch tx) (streams (map (fun m => frame_octets (msg_frame m)) ms)))
    (Hch : ks_ok ch) (Hlink : ks_in ch = kk_out (ax_ch (fold_left ax25_sendMsg ms tx))) :
  exists rx',
    ax25_poll msg_hook stack (S (length (ks_in ch))) (ax25_init ch true) []
      = Some (rx', map msg_frame ms) /\
    u32 (rx_ok rx') = u32 (Z.of_nat (length ms)).
Proof.
  set (ls := map (fun m => frame_octets (msg_frame m)) ms) in *.
  assert (Hs : Forall frame_sized ls).
  { apply Forall_map. eapply Forall_impl; [exact Hms|]. apply msg_ok_sized. }
  rewrite sendMsg_many, Hnew in Hlink; [|eapply Forall_impl; [exact Hms|]|done|done].
  2: { by intros m (_ & ? & ? & ? & _). }
  cbn [app] in Hlink. fold ls in Hlink.
  destruct (rx_streams ls rx_start eq_refl eq_refl Hs) as [b Hrun].
  destruct (ax25_poll_frames msg_hook stack (fun m ctx w Hk => rx_same_refl ctx Hk) false
    good_frame (fun f w => w ++ frame_of f)
    ltac:(intros; by apply (msg_hook_obs stack Hstack))
    (ax25_init ch true) [] rx_start (streams ls)
    (S (length (ks_in ch)))) as (rx' & w' & E & _ & _ & Hcnt & _ & Hw).
  - rewrite Hlink. lia.
  - by apply (fresh_state ch false).
  - rewrite Hrun. cbn [snd]. rewrite delivered_streams. unfold ls. rewrite map_map.
    apply Forall_map. eapply Forall_impl; [exact Hms|]. intros m (Hwf & _ & _ & _ & Hl).
    exists (msg_frame m). split; [done|]. split; [done|]. rewrite length_with_fcs. lia.
  - exists rx'. rewrite E, Hcnt, Hrun. cbn [snd]. rewrite n_ok_streams.
    split; [|unfold ls; by rewrite length_map].
    do 2 f_equal. rewrite Hw, Hrun. cbn [snd]. rewrite delivered_streams. unfold ls.
    clear - Hms. assert (Hgen : forall w, fold_left (fun w f => w ++ frame_of f)
      (map with_fcs (map (fun m => frame_octets (msg_frame m)) ms)) w = w ++ map msg_frame ms);
      [|by rewrite Hgen].
    induction Hms as [|m ms (Hwf & _ & _ & _ & Hl) Hms IH]; intros w; cbn [map fold_left];
      [by rewrite app_nil_r|].
    rewrite IH, (frame_of_good (msg_frame m)); [|done|rewrite length_with_fcs; lia].
    by rewrite <- app_assoc.
Qed.

Definition sample_msg : AX25Msg :=
  mkMsg (mkCall [78; 48; 67; 65; 76; 76] 7) (mkCall [65; 80; 82; 83; 0; 0] 0)
    [mkCall [87; 73; 68; 69; 49; 0] 1] 1 1 3 0xF0 [62; 104; 105; 0x7E; 99] 4.

Lemma sample_msg_ok : msg_ok sample_msg.
Proof.
  assert (Hwf : frame_wf (msg_frame sample_msg)).
  { split_and!.
    - apply (call_wf_name [65; 80; 82; 83] 2); repeat constructor; lia.
    - apply (call_wf_name [78; 48; 67; 65; 76; 76] 0); repeat constructor; lia.
    - constructor; [|constructor].
      apply (call_wf_name [87; 73; 68; 69; 49] 1); repeat constructor; lia.
    - vm_compute. lia. }
  split; [exact Hwf|]. split_and!; [vm_compute; congruence..|decide_closed|].
  vm_compute. congruence.
Qed.

Lemma ax25_msg_link_witness :
  let tx := fifo_station 256 in
  let ch := ax_ch (fold_left ax25_sendMsg [sample_msg; sample_msg] tx) in
  exists rx',
    ax25_poll msg_hook blank_stack (S (length (ks_in ch))) (ax25_init ch true) []
      = Some (rx', map msg_frame [sample_msg; sample_msg]) /\
    u32 (rx_ok rx') = u32 (Z.of_nat (length [sample_msg; sample_msg])).
Proof.
  assert (Hm : msg_ok sample_msg) by exact sample_msg_ok.
  apply (ax25_msg_link [sample_msg; sample_msg] (fifo_station 256)
    (ax_ch (fold_left ax25_sendMsg [sample_msg; sample_msg] (fifo_station 256))) blank_stack).
  - reflexivity.
  - repeat (constructor; [exact Hm|]). constructor.
  - apply (fifo_init_wf (zeros 256) 256); [lia|reflexivity].
  - reflexivity.
  - vm_compute. congruence.
  - split; [|decide_closed]. split_and!; vm_compute; congruence.
  - apply fifo_link.
Defined.

(** ** Frames that must not get through *)

(** A stream of one frame with the given bytes, checksum included. *)
Definition raw_stream (l : list Z) : list Z := HDLC_FLAG :: escaped l ++ [HDLC_FLAG].

Lemma rx_raw_stream l :
  18 <= Z.of_nat (length l) <= 330 ->
  rx_run rx_start (raw_stream l) =
    (mkRx true false [], [if fcs_ok l then Delivered l else BadCrc l]).
Proof.
  intros Hl. unfold raw_stream. cbn [rx_run].
  assert (rx_char rx_start HDLC_FLAG = (mkRx true false [], [])) as -> by done.
  rewrite rx_run_app, rx_escaped by (simpl; unfold frame_size, CONFIG_AX25_FRAME_BUF_LEN; lia).
  cbn [rx_run app]. unfold rx_char. cbn [r_esc r_frame r_sync negb andb].
  change (HDLC_FLAG =? HDLC_FLAG) with true. cbv iota.
  assert ((Z.of_nat (length l) >=? AX25_MIN_FRAME_LEN) = true) as ->; [|done].
  rewrite Z.geb_leb. apply Z.leb_le. unfold AX25_MIN_FRAME_LEN. lia.
Qed.

Lemma corrupted_fcs l l1 b b' l2 :
  bytes l -> with_fcs l = l1 ++ b :: l2 -> is_byte b' -> b <> b' ->
  fcs_ok (l1 ++ b' :: l2) = false.
Proof.
  intros Hl E Hb' Hne. apply Z.eqb_neq. intros Ec.
  assert (Hw : bytes (l1 ++ b :: l2)) by (rewrite <- E; by apply with_fcs_bytes).
  apply Forall_app in Hw as [H1 H2]. apply Forall_cons in H2 as [Hb H2].
  apply (crc_ccitt_detects_byte_error l1 l2 b b' CRC_CCITT_INIT_VAL); try done.
  rewrite Ec, <- E. apply Z.eqb_eq, fcs_ok_with_fcs.
Qed.

(** C10: a damaged frame never reaches the hook. Take any frame of legal size
    and change any one of its bytes, checksum included, into any other: the
    receiver ends, calls no hook, counts no good frame and counts an error. *)
Theorem ax25_corrupted_frame_rejected {G : Type} `{KSource G} (ch : G) (pt : bool)
    (stack : AX25Ctx G -> list (list Z) -> AX25Msg) (l l1 l2 : list Z) (b b' : Z)
    (Hl : bytes l) (Hsize : frame_sized l) (Hw : with_fcs l = l1 ++ b :: l2)
    (Hb' : is_byte b') (Hne : b <> b')
    (Hch : ks_ok ch) (Hin : ks_in ch = raw_stream (l1 ++ b' :: l2)) :
  exists rx' e,
    ax25_poll raw_hook stack (S (length (ks_in ch)))
      (set_pass_through pt (ax25_init ch true)) [] = Some (rx', []) /\
    u32 (rx_ok rx') = 0 /\ u32 (rx_err rx') = 1 + e /\ 0 <= e <= 1.
Proof.
  assert (Hlen : length (l1 ++ b' :: l2) = (length l + 2)%nat).
  { rewrite <- length_with_fcs, Hw, !length_app. done. }
  unfold frame_sized in Hsize.
  assert (Hrun : rx_run rx_start (raw_stream (l1 ++ b' :: l2))
    = (mkRx true false [], [BadCrc (l1 ++ b' :: l2)])).
  { rewrite rx_raw_stream by lia. by rewrite (corrupted_fcs l l1 b b' l2). }
  destruct (ax25_poll_frames raw_hook stack (fun m ctx w Hk => rx_same_refl ctx Hk) pt
    (fun _ => False) (fun _ w => w) ltac:(intros; done)
    (set_pass_through pt (ax25_init ch true)) [] rx_start (raw_stream (l1 ++ b' :: l2))
    (S (length (ks_in ch)))) as (rx' & w' & E & _ & _ & Hok & (e & He & Herr) & Hw').
  - rewrite Hin. lia.
  - by apply fresh_state.
  - by rewrite Hrun.
  - exists rx', e. rewrite E, Hok, Herr, Hw', Hrun.
    split_and!; try done; try lia. change (u32 (1 + e) = 1 + e). apply u32_small. lia.
Qed.

Lemma ax25_corrupted_frame_rejected_witness :
  let l := replicate 17 0x1B in
  let ch := KFileFifo.kfilefifo_write (fifo_init (zeros 64) 64)
    (raw_stream (replicate 16 0x1B ++ 0x7E :: fcs (crc_ccitt CRC_CCITT_INIT_VAL l))) in
  exists rx' e,
    ax25_poll raw_hook blank_stack (S (length (ks_in (snd ch))))
      (set_pass_through false (ax25_init (snd ch) true)) [] = Some (rx', []) /\
    u32 (rx_ok rx') = 0 /\ u32 (rx_err rx') = 1 + e /\ 0 <= e <= 1.
Proof.
  apply (ax25_corrupted_frame_rejected (snd (KFileFifo.kfilefifo_write (fifo_init (zeros 64) 64)
    (raw_stream (replicate 16 0x1B ++ 0x7E ::
      fcs (crc_ccitt CRC_CCITT_INIT_VAL (replicate 17 0x1B)))))) false blank_stack
    (replicate 17 0x1B) (replicate 16 0x1B) (fcs (crc_ccitt CRC_CCITT_INIT_VAL (replicate 17 0x1B)))
    0x1B 0x7E).
  - decide_closed.
  - vm_compute. split; congruence.
  - vm_compute. reflexivity.
  - decide_closed.
  - lia.
  - split; [|decide_closed]. split_and!; vm_compute; congruence.
  - vm_compute. reflexivity.
Defined.

(** ** Over-long frames *)

Lemma rx_drop_byte frame c :
  rx_run (mkRx false false frame) (escape_byte c) = (mkRx false false frame, []).
Proof.
  unfold escape_byte. destruct (hdlc_special c) eqn:E; [done|].
  apply hdlc_special_false in E as (E1 & E2 & E3).
  apply Z.eqb_neq in E1, E2, E3. cbn. unfold rx_char. cbn. by rewrite E1, E2, E3.
Qed.

Lemma rx_drop l frame :
  rx_run (mkRx false false frame) (escaped l) = (mkRx false false frame, []).
Proof.
  induction l as [|c l IH]; [done|].
  cbn [escaped flat_map]. rewrite rx_run_app, rx_drop_byte.
  change (flat_map escape_byte l) with (escaped l). by rewrite IH.
Qed.

Lemma rx_overrun_byte frame c :
  Z.of_nat (length frame) = frame_size ->
  rx_run (mkRx true false frame) (escape_byte c) = (mkRx false false frame, [Overrun]).
Proof.
  intros Hl. unfold escape_byte. destruct (hdlc_special c) eqn:E.
  - cbn. by rewrite Hl.
  - apply hdlc_special_false in E as (E1 & E2 & E3).
    apply Z.eqb_neq in E1, E2, E3. cbn. unfold rx_char. cbn. rewrite E1, E2, E3. cbn.
    by rewrite Hl.
Qed.

Lemma rx_long_stream l :
  330 < Z.of_nat (length l) ->
  rx_run rx_start (raw_stream l) = (mkRx true false [],
    [Overrun; if fcs_ok (take 330 l) then Delivered (take 330 l) else BadCrc (take 330 l)]).
Proof.
  intros Hl. unfold raw_stream. cbn [rx_run].
  assert (rx_char rx_start HDLC_FLAG = (mkRx true false [], [])) as -> by done.
  rewrite <- (take_drop 330 l) at 1. rewrite escaped_app, <- app_assoc.
  assert (Ht : length (take 330 l) = 330%nat) by (rewrite length_take; lia).
  rewrite rx_run_app, rx_escaped by (cbn [length]; rewrite Ht; done).
  destruct (drop 330 l) as [|c rest] eqn:Ed.
  { apply (f_equal length) in Ed. rewrite length_drop in Ed. simpl in Ed. lia. }
  cbn [escaped flat_map]. rewrite <- app_assoc, rx_run_app.
  cbn [app]. rewrite rx_overrun_byte by (rewrite Ht; done).
  change (flat_map escape_byte rest) with (escaped rest).
  rewrite rx_run_app. rewrite rx_drop.
  cbn [rx_run app]. unfold rx_char. cbn [r_esc r_frame r_sync negb andb].
  change (HDLC_FLAG =? HDLC_FLAG) with true. cbv iota. rewrite Ht. done.
Qed.

(** A frame longer than the buffer is cut, not written past the buffer,
    and never reaches the hook (unless its first 330 bytes happen to check), and
    it is counted as two receive errors: one when the buffer is full, and one
    more at the closing flag, for the checksum of the cut frame. *)
Theorem ax25_overrun_counted_twice {G : Type} `{KSource G} (ch : G) (pt : bool)
    (stack : AX25Ctx G -> list (list Z) -> AX25Msg) (l : list Z)
    (Hlong : 330 < Z.of_nat (length l)) (Hbad : fcs_ok (take 330 l) = false)
    (Hch : ks_ok ch) (Hin : ks_in ch = raw_stream l) :
  exists rx' e,
    ax25_poll raw_hook stack (S (length (ks_in ch)))
      (set_pass_through pt (ax25_init ch true)) [] = Some (rx', []) /\
    length (ax_buf rx') = 330%nat /\
    u32 (rx_ok rx') = 0 /\ u32 (rx_err rx') = 2 + e /\ 0 <= e <= 1.
Proof.
  pose proof (rx_long_stream l Hlong) as Hrun. rewrite Hbad in Hrun.
  destruct (ax25_poll_frames raw_hook stack (fun m ctx w Hk => rx_same_refl ctx Hk) pt
    (fun _ => False) (fun _ w => w) ltac:(intros; done)
    (set_pass_through pt (ax25_init ch true)) [] rx_start (raw_stream l)
    (S (length (ks_in ch)))) as (rx' & w' & E & Hst & _ & Hok & (e & He & Herr) & Hw').
  - rewrite Hin. lia.
  - by apply fresh_state.
  - by rewrite Hrun.
  - exists rx', e. rewrite E, Hok, Herr, Hw', Hrun.
    destruct Hst as ((_ & _ & _ & _ & Hbl & _) & _).
    split_and!; try done; try lia. change (u32 (2 + e) = 2 + e). apply u32_small. lia.
Qed.

Lemma ax25_overrun_counted_twice_witness :
  let ch := KFileMem.kfilemem_init (raw_stream (replicate 340 65)) 342 in
  exists rx' e,
    ax25_poll raw_hook blank_stack (S (length (ks_in ch)))
      (set_pass_through true (ax25_init ch true)) [] = Some (rx', []) /\
    length (ax_buf rx') = 330%nat /\
    u32 (rx_ok rx') = 0 /\ u32 (rx_err rx') = 2 + e /\ 0 <= e <= 1.
Proof.
  apply (ax25_overrun_counted_twice
    (KFileMem.kfilemem_init (raw_stream (replicate 340 65)) 342) true blank_stack
    (replicate 340 65)).
  - vm_compute. congruence.
  - vm_compute. reflexivity.
  - split_and!; [decide_closed|vm_compute; reflexivity|vm_compute; congruence..].
  - vm_compute. reflexivity.
Defined.

(** ** A frame whose address field never ends *)

(** The observer of payload lengths. *)
Definition len_hook {F : Type} (m : option AX25Msg) (ctx : AX25Ctx F) (w : list Z)
  : AX25Ctx F * list Z :=
  (ctx, match m with Some m => w ++ [m_len m] | None => w end).

(** A message with eight repeaters, then sixteen bytes without an
    end-of-address bit. *)
Definition eight_repeaters : Frame :=
  mkFrame (mkCall [65; 80; 82; 83; 0; 0] 0) (mkCall [78; 48; 67; 65; 76; 76] 7)
    (replicate 8 (mkCall [87; 73; 68; 69; 49; 0] 1, true)) [62; 104; 105].

Definition runaway_stream : list Z :=
  frame_stream (frame_octets eight_repeaters) ++ frame_stream (replicate 16 0x40).

(** The address field is decoded without regard to the length of the frame.
    After a valid message with eight repeaters, a frame of only sixteen bytes with
    no end-of-address bit is decoded on into the remains of that message, and
    the hook is called with a payload length that has wrapped around: 65480
    bytes, of a buffer of 330. *)
Theorem ax25_decode_len_wraps :
  option_map snd (ax25_poll len_hook blank_stack 200
    (ax25_init (KFileMem.kfilemem_init runaway_stream (Z.of_nat (length runaway_stream))) true)
    []) = Some [3; 65480].
Proof. vm_compute. reflexivity. Qed.
