(* ===== verification/Ax25Print.v ===== *)
(** * Messages as text: [ax25_print] of [bertos/net/ax25.c]

    The TNC-2 monitor format, as printed on the serial port by the console and
    the digipeater, through the formatter of Formatwr.v. *)

From Stdlib Require Import ZArith Lia Bool List.
From Stdlib Require Import String.
From stdpp Require Import prelude.
From S2P Require Import Prelude.
From S2P Require Import Libc.
From S2P Require Import Fifo.
From S2P Require Import KFile.
From S2P Require Import Ax25.
From S2P Require Import Ax25Tx.
From S2P Require Import Formatwr.

Open Scope Z_scope.

Section Print.
Context {F : Type} `{KFile F}.

Definition print_call (ch : F) (c : AX25Call) : F :=
  let ch := snd (kfile_printf_P ch (chars "%.6s") [AStr (Some (call c))]) in
  if negb (ssid c =? 0) then snd (kfile_printf_P ch (chars "-%d") [AInt (ssid c)]) else ch.

(** The repeaters from entry [i] on. *)
Fixpoint print_rpts (n : nat) (i : Z) (ch : F) (msg : AX25Msg) : F :=
  match n with
  | O => ch
  | S n' =>
      if i <? m_rpt_cnt msg then
        let ch := snd (kfile_putc 44 ch) in
        let ch := print_call ch (nth (Z.to_nat i) (m_rpt_lst msg) (mkCall [] 0)) in
        let ch := if AX25_REPEATED (m_rpt_flags msg) i then snd (kfile_putc 42 ch) else ch in
        print_rpts n' (i + 1) ch msg
      else ch
  end.

Definition ax25_print (ch : F) (msg : AX25Msg) : F :=
  let ch := print_call ch (m_src msg) in
  let ch := snd (kfile_putc 62 ch) in
  let ch := print_call ch (m_dst msg) in
  let ch := print_rpts (Z.to_nat (m_rpt_cnt msg)) 0 ch msg in
  snd (kfile_printf_P ch (chars ":%.*s" ++ [10; 13])
    [AInt (i16 (m_len msg)); AStr (Some (m_info msg))]).
End Print.

(** ** The text *)

(** A callsign up to its padding, and its ssid in decimal if it has one. *)
Definition call_text (c : AX25Call) : list Z :=
  fw_string 6 (call c) ++
  (if ssid c =? 0 then [] else 45 :: formatted (chars "%d") [AInt (ssid c)]).

Definition rpt_text (e : AX25Call * bool) : list Z :=
  44 :: call_text (fst e) ++ (if snd e then [42] else []).

(** SOURCE>DESTINATION,REPEATER*,...:payload, and a line feed first. The payload
    ends at its first NUL. *)
Definition tnc2 (m : AX25Msg) : list Z :=
  call_text (m_src m) ++ 62 :: call_text (m_dst m) ++
  concat (map rpt_text (rpt_entries (Z.to_nat (m_rpt_cnt m)) 0 m)) ++
  58 :: fw_string (Z.to_nat (m_len m)) (m_info m) ++ [10; 13].

Lemma formatted_s6 s : formatted (chars "%.6s") [AStr (Some s)] = fw_string 6 s.
Proof.
  change (chars "%.6s") with [37; 46; 54; 115].
  assert (E : fw_spec [46; 54; 115] [AStr (Some s)]
    = (fw_emit (mkFlags false false PSF_NONE false) 0 (fw_string (Z.to_nat 6) s), [], []))
    by reflexivity.
  unfold formatted. cbn [length]. rewrite fw_loop_percent, E, fw_emit_bare by done.
  apply app_nil_r.
Qed.

Lemma formatted_dash s : formatted (chars "-%d") [AInt s] = 45 :: formatted (chars "%d") [AInt s].
Proof. reflexivity. Qed.

Lemma formatted_info n s :
  0 <= n < 32768 ->
  formatted (chars ":%.*s" ++ [10; 13]) [AInt n; AStr (Some s)]
    = 58 :: fw_string (Z.to_nat n) s ++ [10; 13].
Proof.
  intros Hn. change (chars ":%.*s" ++ [10; 13]) with [58; 37; 46; 42; 115; 10; 13].
  unfold formatted. cbn [length].
  rewrite fw_loop_char, fw_loop_percent, fw_spec_star_s by done.
  assert ((n <? 0) = false) as -> by (apply Z.ltb_ge; lia).
  rewrite !fw_loop_char by done. reflexivity.
Qed.

Lemma fw_string_bytes n s : bytes s -> bytes (fw_string n s).
Proof.
  intros Hs. revert n. induction Hs as [|c s Hc Hs IH]; intros [|n]; cbn; try constructor.
  destruct (c =? 0); [constructor|]. apply Forall_cons. split; [done|apply IH].
Qed.

Lemma decimal_bytes s : is_byte s -> bytes (formatted (chars "%d") [AInt s]).
Proof.
  intros Hs.
  pose proof (forall_byte (fun s => forallb is_byteb (formatted (chars "%d") [AInt s]))
    ltac:(vm_compute; reflexivity) s Hs) as E.
  rewrite forallb_forall in E. apply List.Forall_forall. intros c Hc.
  by apply is_byteb_spec, E.
Qed.

Section Sink.
Context {F : Type} `{KSink F}.

(** [f] puts out exactly [out]. *)
Definition prints (f : F -> F) (out : list Z) : Prop :=
  forall fd more, kk_ok fd -> kk_fits fd (out ++ more) ->
    kk_ok (f fd) /\ kk_out (f fd) = kk_out fd ++ out /\ kk_fits (f fd) more.

Lemma prints_id : prints (fun fd => fd) [].
Proof. intros fd more Hok Hf. by rewrite app_nil_r. Qed.

Lemma prints_comp f g o1 o2 : prints f o1 -> prints g o2 -> prints (fun fd => g (f fd)) (o1 ++ o2).
Proof.
  intros Hf Hg fd more Hok Hfit. rewrite <- app_assoc in Hfit.
  destruct (Hf fd (o2 ++ more) Hok Hfit) as (Hok1 & O1 & F1).
  destruct (Hg (f fd) more Hok1 F1) as (Hok2 & O2 & F2). by rewrite O2, O1, app_assoc.
Qed.

Lemma prints_putc c : is_byte c -> prints (fun fd => snd (kfile_putc c fd)) [c].
Proof.
  intros Hc fd more Hok Hfit.
  destruct (kfile_putc_spec c fd Hok) as (_ & O & Hok' & Hfit').
  { rewrite u8_small by done. by eapply kk_fits_app. }
  rewrite u8_small in * by done. split_and!; [done|done|by apply Hfit'].
Qed.

Lemma prints_chars l : bytes l -> prints (fun fd => fold_left (fun fd c => snd (kfile_putc c fd)) l fd) l.
Proof.
  intros Hl. induction Hl as [|c l Hc Hl IH]; [apply prints_id|].
  apply (prints_comp (fun fd => snd (kfile_putc c fd)) _ [c] l (prints_putc c Hc) IH).
Qed.

Lemma prints_printf fmt args :
  bytes (formatted fmt args) -> prints (fun fd => snd (kfile_printf_P fd fmt args)) (formatted fmt args).
Proof. apply prints_chars. Qed.

Definition call_ok (c : AX25Call) : Prop := bytes (call c) /\ is_byte (ssid c).

Lemma prints_call c : call_ok c -> prints (fun fd => print_call fd c) (call_text c).
Proof.
  intros [Hc Hs]. unfold print_call, call_text. rewrite <- formatted_s6.
  assert (Hb : bytes (formatted (chars "%.6s") [AStr (Some (call c))])).
  { rewrite formatted_s6. by apply fw_string_bytes. }
  destruct (ssid c =? 0); cbn [negb].
  - rewrite app_nil_r. by apply prints_printf.
  - rewrite <- formatted_dash.
    apply (prints_comp (fun fd => snd (kfile_printf_P fd (chars "%.6s") [AStr (Some (call c))]))
      (fun fd => snd (kfile_printf_P fd (chars "-%d") [AInt (ssid c)]))); apply prints_printf;
      [done|].
    rewrite formatted_dash. apply Forall_cons. split; [unfold is_byte; lia|by apply decimal_bytes].
Qed.

Lemma prints_rpts m n : forall i,
  0 <= i -> i + Z.of_nat n = m_rpt_cnt m -> Forall call_ok (m_rpt_lst m) ->
  prints (fun fd => print_rpts n i fd m) (concat (map rpt_text (rpt_entries n i m))).
Proof.
  induction n as [|n IH]; intros i Hi Hn Hok; [apply prints_id|].
  cbn [print_rpts rpt_entries map concat].
  assert ((i <? m_rpt_cnt m) = true) as -> by (apply Z.ltb_lt; lia).
  set (a := nth (Z.to_nat i) (m_rpt_lst m) (mkCall [] 0)).
  assert (Ha : call_ok a).
  { unfold a. rewrite nth_lookup. destruct (m_rpt_lst m !! Z.to_nat i) as [x|] eqn:E; cbn.
    - by eapply Forall_lookup_1 in E.
    - split; [constructor|unfold is_byte; cbn; lia]. }
  assert (Hr : prints (fun fd => if AX25_REPEATED (m_rpt_flags m) i
    then snd (kfile_putc 42 fd) else fd) (if AX25_REPEATED (m_rpt_flags m) i then [42] else [])).
  { destruct (AX25_REPEATED (m_rpt_flags m) i);
      [apply prints_putc; unfold is_byte; lia|apply prints_id]. }
  pose proof (prints_comp _ _ _ _ (prints_comp _ _ _ _ (prints_comp _ _ _ _
    (prints_putc 44 ltac:(unfold is_byte; lia)) (prints_call a Ha)) Hr)
    (IH (i + 1) ltac:(lia) ltac:(lia) Hok)) as Hall.
  unfold rpt_text. cbn [fst snd]. rewrite <- !app_assoc in Hall. cbn [app] in *.
  rewrite <- app_assoc. exact Hall.
Qed.

Lemma ax25_print_prints m :
  call_ok (m_src m) -> call_ok (m_dst m) -> Forall call_ok (m_rpt_lst m) ->
  0 <= m_rpt_cnt m -> 0 <= m_len m < 32768 -> bytes (m_info m) ->
  prints (fun fd => ax25_print fd m) (tnc2 m).
Proof.
  intros Hs Hd Hr Hc Hl Hi. unfold ax25_print, tnc2.
  assert (Hinfo : prints (fun fd => snd (kfile_printf_P fd (chars ":%.*s" ++ [10; 13])
    [AInt (i16 (m_len m)); AStr (Some (m_info m))])) (58 :: fw_string (Z.to_nat (m_len m)) (m_info m) ++ [10; 13])).
  { rewrite i16_small by lia. rewrite <- (formatted_info (m_len m) (m_info m) Hl). apply prints_printf.
    rewrite formatted_info by done. apply Forall_cons. split; [unfold is_byte; lia|].
    apply Forall_app. split; [by apply fw_string_bytes|decide_closed]. }
  pose proof (prints_comp _ _ _ _ (prints_comp _ _ _ _ (prints_comp _ _ _ _ (prints_comp _ _ _ _
    (prints_call (m_src m) Hs) (prints_putc 62 ltac:(unfold is_byte; lia)))
    (prints_call (m_dst m) Hd))
    (prints_rpts m (Z.to_nat (m_rpt_cnt m)) 0 ltac:(lia) ltac:(lia) Hr)) Hinfo) as Hall.
  rewrite <- !app_assoc in Hall. cbn [app] in *. exact Hall.
Qed.

(** [ax25_print] prints a message in the TNC-2 monitor format: source,
    destination, repeaters with a star on those already passed, ssids in
    decimal where there is one, payload, line end; the device gets exactly
    these characters. *)
Theorem ax25_print_tnc2 (m : AX25Msg) (fd : F)
    (Hs : call_ok (m_src m)) (Hd : call_ok (m_dst m)) (Hr : Forall call_ok (m_rpt_lst m))
    (Hc : 0 <= m_rpt_cnt m) (Hl : 0 <= m_len m < 32768) (Hi : bytes (m_info m))
    (Hok : kk_ok fd) (Hfit : kk_fits fd (tnc2 m)) :
  kk_ok (ax25_print fd m) /\ kk_out (ax25_print fd m) = kk_out fd ++ tnc2 m.
Proof.
  destruct (ax25_print_prints m Hs Hd Hr Hc Hl Hi fd [] Hok) as (A & B & _); [|done].
  by rewrite app_nil_r.
Qed.
End Sink.

Import KFileFifo.

(** N0CALL-7>APRS,WIDE1-1*:>hi~ *)
Lemma ax25_print_tnc2_witness :
  let fd := fifo_init (zeros 64) 64 in
  let m := ring_msg in
  kk_ok (ax25_print fd m) /\
  kk_out (ax25_print fd m) = kk_out fd ++ chars "n0CALL-7>APRS,WIDE1-1*:>hi~" ++ [10; 13].
Proof.
  apply (ax25_print_tnc2 ring_msg (fifo_init (zeros 64) 64)).
  - split; [decide_closed|unfold is_byte; cbn; lia].
  - split; [decide_closed|unfold is_byte; cbn; lia].
  - apply Forall_cons. split; [|constructor]. split; [decide_closed|unfold is_byte; cbn; lia].
  - vm_compute. congruence.
  - vm_compute. split; congruence.
  - decide_closed.
  - apply (fifo_init_wf (zeros 64) 64); [lia|reflexivity].
  - vm_compute. congruence.
Defined.
