(* ===== verification/ModemTx.v ===== *)
(** * The modulator: from the transmit queue to bits on the air

    What [afsk_dac_isr] (Afsk.v) modulates, bit by bit. A bit period starts
    when [sample_count] is zero; a one keeps the tone, a zero switches it. The
    bits of a burst are the encoding [enc] of its tokens: raw flags and resets,
    and data bytes with bit stuffing. *)

From Stdlib Require Import ZArith Lia Bool List.
From stdpp Require Import prelude.
From S2P Require Import Prelude.
From S2P Require Import Fifo.
From S2P Require Import Escape.
From S2P Require Import Afsk.

Open Scope Z_scope.

(** ** Tokens and their encoding *)

(** A flag or reset goes out as it is; a data byte is stuffed. *)
Inductive token := Raw (c : Z) | Data (c : Z).

Definition tk_char (t : token) : Z := match t with Raw c => c | Data c => c end.
Definition tk_on (t : token) : bool := match t with Raw _ => false | Data _ => true end.

(** The queue read as tokens; a trailing escape stands for nothing. *)
Fixpoint toks (l : list Z) : list token :=
  match l with
  | [] => []
  | c :: l' =>
      if c =? AX25_ESC then
        match l' with
        | [] => []
        | d :: l'' => Data d :: toks l''
        end
      else (if (c =? HDLC_FLAG) || (c =? HDLC_RESET) then Raw c else Data c) :: toks l'
  end.

(** Bits with a zero inserted before a bit that follows five ones. [s] counts
    the ones just sent. *)
Fixpoint stuff_bits (on : bool) (s : Z) (bs : list bool) : list bool :=
  match bs with
  | [] => []
  | b :: bs' =>
      if on && (s >=? BIT_STUFF_LEN)
      then false :: b :: stuff_bits on (if b then 1 else 0) bs'
      else b :: stuff_bits on (if b then s + 1 else 0) bs'
  end.

(** The count of ones afterwards. *)
Fixpoint stuff_end (on : bool) (s : Z) (bs : list bool) : Z :=
  match bs with
  | [] => s
  | b :: bs' =>
      if on && (s >=? BIT_STUFF_LEN)
      then stuff_end on (if b then 1 else 0) bs'
      else stuff_end on (if b then s + 1 else 0) bs'
  end.

(** Tokens after a token with stuffing [on] that left [s] ones. *)
Fixpoint enc (on : bool) (s : Z) (ts : list token) : list bool :=
  match ts with
  | [] => []
  | t :: ts' =>
      let s0 := if on then s else 0 in
      let bs := bits_of_byte (tk_char t) in
      stuff_bits (tk_on t) s0 bs ++ enc (tk_on t) (stuff_end (tk_on t) s0 bs) ts'
  end.

Definition flags (n : nat) : list token := replicate n (Raw HDLC_FLAG).

(** Everything one burst puts on the air for the bytes [ws] written. *)
Definition burst_bits (ws : list Z) : list bool :=
  enc false 0 (flags (Z.to_nat preamble_flags) ++ toks ws ++ flags (Z.to_nat trailer_flags)).

(** No escape is left without its byte. *)
Fixpoint esc_ok (l : list Z) : bool :=
  match l with
  | [] => true
  | c :: l' =>
      if c =? AX25_ESC then
        match l' with
        | [] => false
        | _ :: l'' => esc_ok l''
        end
      else esc_ok l'
  end.

(** ** The modulator's part of the encoding *)

(** Index of the bit [tx_bit] masks; eight when the character is out. *)
Definition tx_index (tx : Z) : nat := if tx =? 0 then 8%nat else Z.to_nat (Z.log2 tx).

Definition cur_bits (m : Modulator) : list bool :=
  drop (tx_index (tx_bit m)) (bits_of_byte (curr_out m)).

(** The tokens still to fetch, if [ext] is still going to be written. *)
Definition fut (m : Modulator) (ext : list Z) : list token :=
  flags (Z.to_nat (preamble_len m)) ++ toks (contents (tx_fifo m) ++ ext)
    ++ flags (Z.to_nat (trailer_len m)).

(** The bits still to come before the modulator stops. *)
Definition pending (m : Modulator) (ext : list Z) : list bool :=
  stuff_bits (bit_stuff m) (stuff_cnt m) (cur_bits m) ++
  enc (bit_stuff m) (stuff_end (bit_stuff m) (stuff_cnt m) (cur_bits m)) (fut m ext).

Definition tx_bit_ok (tx : Z) : bool :=
  (tx =? 0) || (tx =? 1) || (tx =? 2) || (tx =? 4) || (tx =? 8) || (tx =? 16) ||
  (tx =? 32) || (tx =? 64) || (tx =? 128).

(** The counter of ones never overflows its byte: at most five while stuffing,
    thirteen otherwise. *)
Definition stuff_ok (m : Modulator) : Prop :=
  0 <= stuff_cnt m /\
  if bit_stuff m then stuff_cnt m <= BIT_STUFF_LEN
  else stuff_cnt m + Z.of_nat (length (cur_bits m)) <= 13.

(** The parts of the well-formedness that fetching touches. *)
Definition fetch_wf (m : Modulator) : Prop :=
  fifo_wf (tx_fifo m) /\ capacity (tx_fifo m) = CONFIG_AFSK_TX_BUFLEN - 1 /\
  bytes (contents (tx_fifo m)) /\
  0 <= preamble_len m <= preamble_flags /\ 0 <= trailer_len m <= trailer_flags.

(** The trailer is armed while the preamble runs and while bytes are queued. *)
Definition armed (m : Modulator) : Prop :=
  (0 < preamble_len m -> 0 < trailer_len m) /\
  (contents (tx_fifo m) <> [] -> trailer_len m = trailer_flags).

Definition mod_wf (m : Modulator) : Prop :=
  fetch_wf m /\ armed m /\ 0 <= sample_count m <= DAC_SAMPLEPERBIT /\
  tx_bit_ok (tx_bit m) = true /\ is_byte (curr_out m) /\ stuff_ok m /\
  (phase_inc m = MARK_INC \/ phase_inc m = SPACE_INC) /\ 0 <= phase_acc m < SIN_LEN.

(** ** One bit *)

Lemma tx_bit_cases tx :
  tx_bit_ok tx = true -> tx = 0 \/ tx = 1 \/ tx = 2 \/ tx = 4 \/ tx = 8 \/ tx = 16 \/
    tx = 32 \/ tx = 64 \/ tx = 128.
Proof. unfold tx_bit_ok. rewrite !orb_true_iff, !Z.eqb_eq. lia. Qed.

(** The masked bit is the head of what is left of the character. *)
Lemma cur_bits_cons m :
  tx_bit_ok (tx_bit m) = true -> tx_bit m <> 0 ->
  exists b rest,
    cur_bits m = b :: rest /\ negb (Z.land (curr_out m) (tx_bit m) =? 0) = b /\
    tx_bit_ok (u8 (Z.shiftl (tx_bit m) 1)) = true /\
    drop (tx_index (u8 (Z.shiftl (tx_bit m) 1))) (bits_of_byte (curr_out m)) = rest.
Proof.
  intros Hok Hne. unfold cur_bits.
  assert (Hland : forall k, 0 <= k ->
    negb (Z.land (curr_out m) (2 ^ k) =? 0) = Z.testbit (curr_out m) k).
  { intros k Hk. destruct (Z.testbit (curr_out m) k) eqn:E.
    - apply negb_true_iff, Z.eqb_neq. intros E0.
      assert (Z.testbit (Z.land (curr_out m) (2 ^ k)) k = false) as E1
        by (rewrite E0; apply Z.bits_0).
      rewrite Z.land_spec, E, Z.pow2_bits_true in E1 by done. done.
    - apply negb_false_iff, Z.eqb_eq, Z.bits_inj'. intros n Hn.
      rewrite Z.land_spec, Z.bits_0. destruct (decide (n = k)) as [->|Hnk].
      + by rewrite E.
      + rewrite Z.pow2_bits_false by lia. apply andb_false_r. }
  apply tx_bit_cases in Hok. destruct_or! Hok; [done|..]; rewrite Hok;
    eexists _, _; (split; [reflexivity|]); (split; [|split; reflexivity]).
  - apply (Hland 0); lia.
  - apply (Hland 1); lia.
  - apply (Hland 2); lia.
  - apply (Hland 3); lia.
  - apply (Hland 4); lia.
  - apply (Hland 5); lia.
  - apply (Hland 6); lia.
  - apply (Hland 7); lia.
Qed.

Lemma switch_tone_ne inc :
  inc = MARK_INC \/ inc = SPACE_INC ->
  (SWITCH_TONE inc =? inc) = false /\
  (SWITCH_TONE inc = MARK_INC \/ SWITCH_TONE inc = SPACE_INC).
Proof. intros [->| ->]; vm_compute; auto. Qed.

Lemma stuff_ok_range m : stuff_ok m -> 0 <= stuff_cnt m <= 13.
Proof. unfold stuff_ok, BIT_STUFF_LEN. destruct (bit_stuff m); lia. Qed.

(** Modulating a bit outputs the head of the pending bits. *)
Lemma dac_bit_spec m :
  tx_bit_ok (tx_bit m) = true -> tx_bit m <> 0 -> stuff_ok m ->
  (phase_inc m = MARK_INC \/ phase_inc m = SPACE_INC) ->
  let m' := dac_bit m in
  let b := phase_inc m' =? phase_inc m in
  stuff_bits (bit_stuff m) (stuff_cnt m) (cur_bits m)
    = b :: stuff_bits (bit_stuff m) (stuff_cnt m') (cur_bits m') /\
  stuff_end (bit_stuff m) (stuff_cnt m) (cur_bits m)
    = stuff_end (bit_stuff m) (stuff_cnt m') (cur_bits m') /\
  stuff_ok m' /\ tx_bit_ok (tx_bit m') = true /\
  (phase_inc m' = MARK_INC \/ phase_inc m' = SPACE_INC) /\
  m' = set_sample_count DAC_SAMPLEPERBIT (set_tx_bit (tx_bit m')
         (set_stuff_cnt (stuff_cnt m') (set_phase_inc (phase_inc m') m))).
Proof.
  intros Hok Hne Hs Hph. cbv zeta. pose proof (stuff_ok_range m Hs) as Hrange.
  destruct (cur_bits_cons m Hok Hne) as (b & rest & Hcur & Hb & Hok' & Hrest).
  destruct (switch_tone_ne (phase_inc m) Hph) as [Hsw Hph'].
  unfold stuff_ok, BIT_STUFF_LEN in Hs. rewrite Hcur in Hs. cbn [length] in Hs.
  unfold dac_bit. rewrite Hcur, Hb. cbn [stuff_bits stuff_end].
  destruct (bit_stuff m && (stuff_cnt m >=? BIT_STUFF_LEN)) eqn:E; cbn.
  - rewrite Hsw. apply andb_prop in E as [E _]. rewrite E in *.
    change (cur_bits (set_sample_count DAC_SAMPLEPERBIT (set_phase_inc (SWITCH_TONE (phase_inc m))
      (set_stuff_cnt 0 m)))) with (cur_bits m). rewrite Hcur. cbn.
    split_and!; try done; try (destruct b; done).
    unfold stuff_ok. cbn. rewrite E. unfold BIT_STUFF_LEN. lia.
  - assert (Hlt : if bit_stuff m then stuff_cnt m < 5 else True).
    { destruct (bit_stuff m); [|done]. cbn in E. rewrite Z.geb_leb in E.
      apply Z.leb_gt in E. done. }
    unfold stuff_ok, cur_bits, BIT_STUFF_LEN. destruct b; cbn; rewrite Hrest.
    + rewrite Z.eqb_refl, u8_small by lia.
      split_and!; try done; try lia. destruct (bit_stuff m); lia.
    + rewrite Hsw. split_and!; try done; try lia. destruct (bit_stuff m); lia.
Qed.

(** ** Fetching *)

(** What the queue must hold when a character is fetched: an escape is followed
    by its byte, and an empty queue means that nothing more will come. *)
Definition ready (q ext : list Z) : Prop :=
  match q with
  | [] => ext = []
  | [c] => c <> AX25_ESC
  | _ => True
  end.

(** One token becomes the current character. *)
Definition loaded (m : Modulator) (t : token) (m' : Modulator) : Prop :=
  curr_out m' = tk_char t /\ bit_stuff m' = tk_on t /\ tx_bit m' = 1 /\
  stuff_cnt m' = (if bit_stuff m then stuff_cnt m else 0) /\
  phase_inc m' = phase_inc m /\ sample_count m' = sample_count m /\
  sending m' = sending m /\ dac_irq m' = dac_irq m /\ phase_acc m' = phase_acc m.

Lemma flags_succ p : 0 < p -> flags (Z.to_nat p) = Raw HDLC_FLAG :: flags (Z.to_nat (p - 1)).
Proof.
  intros Hp. replace (Z.to_nat p) with (S (Z.to_nat (p - 1))) by lia. done.
Qed.

Lemma toks_cons c l :
  c <> AX25_ESC ->
  toks (c :: l) = (if (c =? HDLC_FLAG) || (c =? HDLC_RESET) then Raw c else Data c) :: toks l.
Proof. intros Hc. apply Z.eqb_neq in Hc. cbn [toks]. by rewrite Hc. Qed.

Lemma fifo_pop_head fb x rest :
  fifo_wf fb -> contents fb = x :: rest ->
  exists fb', fifo_pop fb = (x, fb') /\ contents fb' = rest /\ fifo_wf fb' /\
    capacity fb' = capacity fb.
Proof.
  intros Hw Hq. destruct (fifo_pop_contents fb x rest Hw Hq) as [Hx Hr].
  pose proof (fifo_pop_wf fb Hw). pose proof (fifo_pop_capacity fb).
  destruct (fifo_pop fb) as [c fb']. cbn in *. subst c. eauto.
Qed.

Lemma dac_next_preamble m :
  fetch_wf m -> 0 < preamble_len m ->
  dac_next_char m = set_curr_out HDLC_FLAG (set_preamble_len (preamble_len m - 1) m).
Proof.
  intros (_ & _ & _ & Hp & _) Hpos. change preamble_flags with 53 in Hp.
  unfold dac_next_char. assert ((preamble_len m =? 0) = false) as -> by (apply Z.eqb_neq; lia).
  by rewrite u16_small by lia.
Qed.

Lemma dac_next_trailer m :
  fetch_wf m -> preamble_len m = 0 -> contents (tx_fifo m) = [] -> 0 < trailer_len m ->
  dac_next_char m = set_curr_out HDLC_FLAG (set_trailer_len (trailer_len m - 1) m).
Proof.
  intros (Hw & _ & _ & _ & Ht) Hp Hq Hpos. change trailer_flags with 11 in Ht.
  unfold dac_next_char. rewrite Hp, fifo_isempty_spec, Hq by done.
  by rewrite u16_small by lia.
Qed.

Lemma dac_next_queue m c q :
  fetch_wf m -> preamble_len m = 0 -> contents (tx_fifo m) = c :: q ->
  exists fb, dac_next_char m = set_curr_out c (set_tx_fifo fb m) /\ contents fb = q /\
    fifo_wf fb /\ capacity fb = capacity (tx_fifo m).
Proof.
  intros (Hw & _) Hp Hq. destruct (fifo_pop_head _ _ _ Hw Hq) as (fb & E & H1 & H2 & H3).
  exists fb. unfold dac_next_char. rewrite Hp, fifo_isempty_spec, Hq, E by done. done.
Qed.

(** The start of every fetch. *)
Definition dac_prep (m : Modulator) : Modulator :=
  set_bit_stuff true (if negb (bit_stuff m) then set_stuff_cnt 0 m else m).

Lemma dac_prep_same m :
  fetch_wf m -> fetch_wf (dac_prep m) /\ tx_fifo (dac_prep m) = tx_fifo m /\
  preamble_len (dac_prep m) = preamble_len m /\ trailer_len (dac_prep m) = trailer_len m.
Proof. unfold dac_prep, fetch_wf. by destruct (bit_stuff m). Qed.

Lemma dac_fetch_nonempty m :
  fifo_isempty (tx_fifo m) && (trailer_len m =? 0) = false ->
  dac_fetch m =
    let m := dac_next_char (dac_prep m) in
    if curr_out m =? AX25_ESC then
      if fifo_isempty (tx_fifo m) then (false, dac_stop m)
      else let '(c, q) := fifo_pop (tx_fifo m) in
           (true, set_tx_bit 0x01 (set_curr_out c (set_tx_fifo q m)))
    else if (curr_out m =? HDLC_FLAG) || (curr_out m =? HDLC_RESET) then
      (true, set_tx_bit 0x01 (set_bit_stuff false m))
    else (true, set_tx_bit 0x01 m).
Proof. intros E. unfold dac_fetch. by rewrite E. Qed.

(** The queue only loses its head, never half of an escaped pair. *)
Definition keeps (m m' : Modulator) : Prop :=
  (forall l, esc_ok (contents (tx_fifo m') ++ l) = esc_ok (contents (tx_fifo m) ++ l)) /\
  (length (contents (tx_fifo m)) <= length (contents (tx_fifo m')) + 2)%nat.

Lemma keeps_same m m' : tx_fifo m' = tx_fifo m -> keeps m m'.
Proof. intros E. unfold keeps. rewrite E. split; [done|lia]. Qed.

(** What fetching the token [t] leaves. *)
Definition fetched (m : Modulator) (ext : list Z) (t : token) (ts : list token) : Prop :=
  exists m', dac_fetch m = (true, m') /\ loaded m t m' /\ fut m' ext = ts /\
    fetch_wf m' /\ armed m' /\ is_byte (tk_char t) /\
    keeps m m'.

Lemma fetch_preamble m ext ts :
  fetch_wf m -> armed m -> 0 < preamble_len m ->
  fut m ext = Raw HDLC_FLAG :: ts -> fetched m ext (Raw HDLC_FLAG) ts.
Proof.
  intros Hwf Har Hp Hf. destruct (dac_prep_same m Hwf) as (Hwf1 & Hq1 & Hp1 & Ht1).
  pose proof Har as [Har1 _].
  unfold fetched. rewrite dac_fetch_nonempty.
  2: { assert ((trailer_len m =? 0) = false) as -> by (apply Z.eqb_neq; lia).
       apply andb_false_r. }
  rewrite dac_next_preamble by (done || lia). cbn. eexists. split; [reflexivity|].
  unfold fut in Hf. rewrite flags_succ in Hf by lia. injection Hf as Hf.
  destruct Hwf as (? & ? & ? & Hpr & ?). change preamble_flags with 53 in *.
  unfold loaded, fut, fetch_wf, armed, dac_prep in *.
  destruct (bit_stuff m); cbn in *; split_and!;
    first [done | lia | by apply keeps_same | by intros; apply Har | decide_closed].
Qed.

Lemma fetch_trailer m ts :
  fetch_wf m -> preamble_len m = 0 -> contents (tx_fifo m) = [] ->
  fut m [] = Raw HDLC_FLAG :: ts -> fetched m [] (Raw HDLC_FLAG) ts.
Proof.
  intros Hwf Hp Hq Hf. destruct (dac_prep_same m Hwf) as (Hwf1 & Hq1 & Hp1 & Ht1).
  assert (Ht : 0 < trailer_len m).
  { unfold fut in Hf. rewrite Hp, Hq in Hf. cbn in Hf.
    destruct (Z.to_nat (trailer_len m)) eqn:E; [done|]. lia. }
  unfold fetched. rewrite dac_fetch_nonempty.
  2: { assert ((trailer_len m =? 0) = false) as -> by (apply Z.eqb_neq; lia).
       apply andb_false_r. }
  rewrite dac_next_trailer by (try done; rewrite ?Hq1; done || lia).
  cbn. eexists. split; [reflexivity|].
  unfold fut in Hf. rewrite Hp, Hq, (flags_succ (trailer_len m)) in Hf by lia.
  cbn in Hf. injection Hf as Hf.
  destruct Hwf as (? & ? & ? & ? & Htr). change trailer_flags with 11 in *.
  unfold loaded, fut, fetch_wf, armed, dac_prep in *.
  destruct (bit_stuff m); cbn in *; rewrite ?Hq, ?Hp in *; split_and!;
    first [done | lia | by apply keeps_same | decide_closed].
Qed.

Lemma queue_nonempty m c q :
  fetch_wf m -> contents (tx_fifo m) = c :: q -> fifo_isempty (tx_fifo m) = false.
Proof. intros (Hw & _) Hq. by rewrite fifo_isempty_spec, Hq. Qed.

Lemma fetch_plain m ext c q ts :
  fetch_wf m -> armed m -> preamble_len m = 0 -> contents (tx_fifo m) = c :: q ->
  c <> AX25_ESC ->
  forall t, t = (if (c =? HDLC_FLAG) || (c =? HDLC_RESET) then Raw c else Data c) ->
  fut m ext = t :: ts -> fetched m ext t ts.
Proof.
  intros Hwf Har Hp Hq Hc t Ht Hf. destruct (dac_prep_same m Hwf) as (Hwf1 & Hq1 & Hp1 & Ht1).
  unfold fetched. rewrite dac_fetch_nonempty by (by rewrite (queue_nonempty m c q)).
  destruct (dac_next_queue (dac_prep m) c q) as (fb & E & Hfb & Hw & Hcap);
    [done|congruence|congruence|].
  rewrite E. cbn. pose proof Hc as Hc'. apply Z.eqb_neq in Hc'. rewrite Hc'.
  unfold fut in Hf. rewrite Hp, Hq in Hf. cbn [app] in Hf. rewrite toks_cons, <- Ht in Hf by done.
  cbn in Hf. injection Hf as Hf.
  destruct Hwf as (? & ? & Hb & ? & Htr). rewrite Hq in Hb. apply Forall_cons in Hb as [Hcb Hb].
  pose proof (proj2 Har ltac:(congruence)) as Har2.
  assert (Hx : exists m', (if (c =? HDLC_FLAG) || (c =? HDLC_RESET)
      then (true, set_tx_bit 1 (set_bit_stuff false (set_curr_out c (set_tx_fifo fb (dac_prep m)))))
      else (true, set_tx_bit 1 (set_curr_out c (set_tx_fifo fb (dac_prep m))))) = (true, m') /\
    m' = set_bit_stuff (tk_on t) (set_tx_bit 1 (set_curr_out c (set_tx_fifo fb (dac_prep m))))).
  { rewrite Ht. destruct ((c =? HDLC_FLAG) || (c =? HDLC_RESET)); eauto. }
  destruct Hx as (m' & -> & ->). eexists. split; [reflexivity|].
  assert (tk_char t = c) as Htc by (rewrite Ht; by destruct (_ || _)).
  unfold loaded, fut, fetch_wf, armed, dac_prep in *.
  destruct (bit_stuff m); cbn in *; rewrite ?Hfb, ?Hp, ?Htc in *; split_and!;
    first [done | lia | congruence | idtac];
    (split; [intros l|]; cbn; rewrite Hfb, Hq; cbn; rewrite ?Hc'; (done || lia)).
Qed.

Lemma fetch_escaped m ext c q ts :
  fetch_wf m -> armed m -> preamble_len m = 0 -> contents (tx_fifo m) = AX25_ESC :: c :: q ->
  fut m ext = Data c :: ts -> fetched m ext (Data c) ts.
Proof.
  intros Hwf Har Hp Hq Hf. destruct (dac_prep_same m Hwf) as (Hwf1 & Hq1 & Hp1 & Ht1).
  unfold fetched. rewrite dac_fetch_nonempty by (by rewrite (queue_nonempty m AX25_ESC (c :: q))).
  destruct (dac_next_queue (dac_prep m) AX25_ESC (c :: q)) as (fb & E & Hfb & Hw & Hcap);
    [done|congruence|congruence|].
  rewrite E. cbn. rewrite fifo_isempty_spec, Hfb by done.
  destruct (fifo_pop_head _ _ _ Hw Hfb) as (fb' & -> & Hfb' & Hw' & Hcap').
  eexists. split; [reflexivity|].
  unfold fut in Hf. rewrite Hp, Hq in Hf. cbn in Hf. injection Hf as Hf.
  destruct Hwf as (? & ? & Hb & ? & Htr). rewrite Hq in Hb.
  apply Forall_cons in Hb as [_ Hb]. apply Forall_cons in Hb as [Hcb Hb].
  pose proof (proj2 Har ltac:(congruence)) as Har2.
  unfold loaded, fut, fetch_wf, armed, dac_prep in *.
  destruct (bit_stuff m); cbn in *; rewrite ?Hfb', ?Hp in *; split_and!;
    first [done | lia | congruence | idtac];
    (split; [intros l|]; cbn; rewrite Hfb', Hq; cbn; (done || lia)).
Qed.

(** Fetching takes the next token, or stops when there is none. *)
Lemma dac_fetch_spec m ext :
  fetch_wf m -> armed m -> (preamble_len m = 0 -> ready (contents (tx_fifo m)) ext) ->
  match fut m ext with
  | [] => dac_fetch m = (false, dac_stop m)
  | t :: ts => fetched m ext t ts
  end.
Proof.
  intros Hwf Har Hr. pose proof Hwf as (Hw & _ & _ & Hp & Ht).
  destruct (Z.eq_dec (preamble_len m) 0) as [Hp0|Hp0].
  2: { unfold fut. rewrite flags_succ by lia. cbn [app].
       apply fetch_preamble; [done|done|lia|]. unfold fut. by rewrite (flags_succ (preamble_len m)) by lia. }
  specialize (Hr Hp0). destruct (contents (tx_fifo m)) as [|c q] eqn:Hq.
  - cbn in Hr. subst ext. destruct (Z.eq_dec (trailer_len m) 0) as [Ht0|Ht0].
    + unfold fut. rewrite Hp0, Hq, Ht0. cbn. unfold dac_fetch.
      by rewrite fifo_isempty_spec, Hq, Ht0 by done.
    + destruct (fut m []) as [|t ts] eqn:Hf.
      { unfold fut in Hf. rewrite Hp0, Hq, (flags_succ (trailer_len m)) in Hf by lia. done. }
      assert (t = Raw HDLC_FLAG) as ->.
      { unfold fut in Hf. rewrite Hp0, Hq, (flags_succ (trailer_len m)) in Hf by lia. by inversion Hf. }
      by apply fetch_trailer.
  - destruct (Z.eq_dec c AX25_ESC) as [->|Hc].
    + destruct q as [|d q]; [done|].
      assert (Hf : fut m ext = Data d :: toks (q ++ ext) ++ flags (Z.to_nat (trailer_len m))).
      { unfold fut. rewrite Hp0, Hq. done. }
      rewrite Hf. by apply (fetch_escaped m ext d q).
    + destruct (fut m ext) as [|t ts] eqn:Hf.
      { unfold fut in Hf. rewrite Hp0, Hq in Hf. cbn [app] in Hf.
        rewrite toks_cons in Hf by done. by destruct (_ || _). }
      apply (fetch_plain m ext c q); try done.
      unfold fut in Hf. rewrite Hp0, Hq in Hf. cbn [app] in Hf.
      rewrite toks_cons in Hf by done. by inversion Hf.
Qed.

(** ** One interrupt *)

(** The bit that starts with this interrupt, if one does. *)
Definition air_bit (m m' : Modulator) : list bool :=
  if (sample_count m =? 0) && sending m' then [phase_inc m' =? phase_inc m] else [].

Lemma dac_sample_spec m :
  0 < sample_count m <= DAC_SAMPLEPERBIT ->
  snd (dac_sample m) = set_sample_count (sample_count m - 1)
    (set_phase_acc ((u16 (phase_acc m + phase_inc m)) mod SIN_LEN) m).
Proof.
  intros Hs. change DAC_SAMPLEPERBIT with 8 in Hs. unfold dac_sample. cbn.
  by rewrite u8_small by lia.
Qed.

Lemma stuff_bits_nil on s bs : stuff_bits on s bs = [] -> bs = [].
Proof. destruct bs as [|b bs]; [done|]. cbn. by destruct (on && _). Qed.

Lemma enc_nil on s ts : enc on s ts = [] -> ts = [].
Proof.
  destruct ts as [|t ts]; [done|]. cbn [enc]. intros E. apply app_nil in E as [E _].
  by apply stuff_bits_nil in E.
Qed.

(** Where the modulator is after a sample; the tone's phase apart, only
    [sample_count] moved. *)
Lemma mid_sample m ext :
  mod_wf m -> 0 < sample_count m ->
  let m' := snd (afsk_dac_isr m) in
  mod_wf m' /\ air_bit m m' = [] /\ pending m' ext = pending m ext /\
  sample_count m' = sample_count m - 1 /\ sending m' = sending m /\ dac_irq m' = dac_irq m /\
  tx_fifo m' = tx_fifo m /\ preamble_len m' = preamble_len m /\ trailer_len m' = trailer_len m.
Proof.
  intros (Hf & Ha & Hs & Ht & Hc & Hst & Hph & Hac) Hpos. cbv zeta.
  unfold afsk_dac_isr, air_bit. cbn [sample_count set_led_tx].
  assert ((sample_count m =? 0) = false) as -> by (apply Z.eqb_neq; lia).
  pose proof (dac_sample_spec (set_led_tx true m)) as E. cbn [sample_count set_led_tx] in E.
  destruct (dac_sample (set_led_tx true m)) as [v m1]. cbn [snd] in *. rewrite E by lia.
  assert (0 <= (u16 (phase_acc m + phase_inc m)) mod SIN_LEN < SIN_LEN)
    by (apply Z.mod_pos_bound; done).
  split; [|done]. unfold mod_wf. cbn. split_and!; try done; try lia.
Qed.

Lemma stuff_ok_loaded m t m' :
  stuff_ok m -> loaded m t m' -> stuff_ok m' /\ cur_bits m' = bits_of_byte (tk_char t).
Proof.
  intros Hs (Hc & Hb & Ht & Hn & _).
  assert (Hcur : cur_bits m' = bits_of_byte (tk_char t)) by (unfold cur_bits; by rewrite Ht, Hc).
  split; [|done]. pose proof (stuff_ok_range m Hs). unfold stuff_ok in *.
  rewrite Hn, Hb, Hcur. cbn [length bits_of_byte]. unfold BIT_STUFF_LEN in *.
  destruct (bit_stuff m), (tk_on t); lia.
Qed.

(** The interrupt at the start of a bit period, character in hand. *)
Lemma start_bit m ext :
  mod_wf m -> sample_count m = 0 -> tx_bit m <> 0 -> sending m = true ->
  let m' := snd (dac_sample (dac_bit m)) in
  exists b, pending m ext = b :: pending m' ext /\ (phase_inc m' =? phase_inc m) = b /\
    mod_wf m' /\ sample_count m' = DAC_SAMPLEPERBIT - 1 /\ sending m' = true /\
    dac_irq m' = dac_irq m /\ tx_fifo m' = tx_fifo m /\
    preamble_len m' = preamble_len m /\ trailer_len m' = trailer_len m.
Proof.
  intros (Hf & Ha & Hs & Ht & Hc & Hst & Hph & Hac) H0 Htx Hsend. cbv zeta.
  destruct (dac_bit_spec m Ht Htx Hst Hph) as (E1 & E2 & Hst' & Ht' & Hph' & Em).
  set (m1 := dac_bit m) in *.
  assert (Hsc : sample_count m1 = DAC_SAMPLEPERBIT) by by rewrite Em.
  pose proof (dac_sample_spec m1) as Es. rewrite Hsc in Es.
  rewrite Es by (change DAC_SAMPLEPERBIT with 8; lia).
  assert (0 <= (u16 (phase_acc m1 + phase_inc m1)) mod SIN_LEN < SIN_LEN)
    by (apply Z.mod_pos_bound; done).
  assert (Hsame : fetch_wf m1 /\ armed m1 /\ is_byte (curr_out m1) /\
    phase_acc m1 = phase_acc m /\ bit_stuff m1 = bit_stuff m /\ sending m1 = sending m /\
    dac_irq m1 = dac_irq m /\ tx_fifo m1 = tx_fifo m /\ preamble_len m1 = preamble_len m /\
    trailer_len m1 = trailer_len m) by (rewrite Em; done).
  destruct Hsame as (Hf1 & Ha1 & Hc1 & Hac1 & Hbs & Hse & Hirq & Hq & Hp & Htr).
  clearbody m1. clear Em.
  exists (phase_inc m1 =? phase_inc m). split_and!; try done; cbn; try congruence.
  - unfold pending, fut. rewrite E1, E2. cbn.
    change (cur_bits (set_sample_count _ (set_phase_acc _ m1))) with (cur_bits m1).
    by rewrite Hbs, Hq, Hp, Htr.
Qed.

(** The modulator at rest. *)
Definition mod_idle (m : Modulator) : Prop :=
  mod_wf m /\ sample_count m = 0 /\ tx_bit m = 0 /\ sending m = false /\ dac_irq m = false /\
  contents (tx_fifo m) = [] /\ preamble_len m = 0 /\ ptt m = false.

(** What one interrupt does while a burst is on, [ext] being still unwritten. *)
Inductive ticked (m : Modulator) (ext : list Z) (m' : Modulator) : Prop :=
  | tick_sample :
      0 < sample_count m -> air_bit m m' = [] -> pending m' ext = pending m ext ->
      sample_count m' = sample_count m - 1 -> sending m' = true -> dac_irq m' = dac_irq m ->
      tx_fifo m' = tx_fifo m -> preamble_len m' = preamble_len m -> ticked m ext m'
  | tick_bit b :
      sample_count m = 0 -> air_bit m m' = [b] -> pending m ext = b :: pending m' ext ->
      sample_count m' = DAC_SAMPLEPERBIT - 1 -> sending m' = true -> dac_irq m' = dac_irq m ->
      ticked m ext m'
  | tick_stop :
      sample_count m = 0 -> pending m ext = [] -> air_bit m m' = [] -> mod_idle m' ->
      ticked m ext m'.

Lemma fut_nil m ext :
  armed m -> fetch_wf m -> fut m ext = [] -> (preamble_len m = 0 -> ready (contents (tx_fifo m)) ext) ->
  contents (tx_fifo m) = [] /\ preamble_len m = 0.
Proof.
  intros Ha (_ & _ & _ & Hp & Ht) E Hr. unfold fut in E. apply app_nil in E as [E1 E].
  apply app_nil in E as [E2 E3].
  assert (Hp0 : preamble_len m = 0).
  { destruct (Z.to_nat (preamble_len m)) eqn:En; [lia|done]. }
  split; [|done]. specialize (Hr Hp0). destruct (contents (tx_fifo m)) as [|c q] eqn:Hq; [done|].
  destruct Ha as [_ Ha2]. rewrite Ha2 in E3 by congruence. done.
Qed.

Lemma loaded_wf m t m1 :
  mod_wf m -> sample_count m = 0 -> loaded m t m1 -> fetch_wf m1 -> armed m1 ->
  is_byte (tk_char t) -> mod_wf m1.
Proof.
  intros (Hf & Ha & Hs & Ht & Hc & Hst & Hph & Hac) H0 Hl Hf1 Ha1 Hb.
  destruct (stuff_ok_loaded m t m1 Hst Hl) as [Hst1 _].
  destruct Hl as (L1 & L2 & L3 & L4 & L5 & L6 & L7 & L8 & L9).
  unfold mod_wf. rewrite L1, L3, L5, L6, L9. split_and!; done || lia.
Qed.

Lemma loaded_pending m t ts m1 ext :
  tx_bit m = 0 -> stuff_ok m -> loaded m t m1 -> fut m ext = t :: ts -> fut m1 ext = ts ->
  pending m1 ext = pending m ext.
Proof.
  intros Htx Hst Hl Hf Hf1. destruct (stuff_ok_loaded m t m1 Hst Hl) as [_ Hc1].
  destruct Hl as (L1 & L2 & L3 & L4 & _).
  assert (Hcur : cur_bits m = []) by (unfold cur_bits; by rewrite Htx).
  unfold pending. rewrite Hcur, Hc1, Hf, Hf1, L2, L4. done.
Qed.

Lemma dac_stop_idle m :
  mod_wf m -> sample_count m = 0 -> tx_bit m = 0 -> contents (tx_fifo m) = [] ->
  preamble_len m = 0 -> mod_idle (set_led_tx false (dac_stop m)).
Proof. intros Hwf H0 Ht Hq Hp. split; [exact Hwf|]. cbn. by split_and!. Qed.

Lemma tick_fetch m ext :
  mod_wf m -> sending m = true -> sample_count m = 0 -> tx_bit m = 0 ->
  (preamble_len m = 0 -> ready (contents (tx_fifo m)) ext) ->
  mod_wf (snd (afsk_dac_isr m)) /\ ticked m ext (snd (afsk_dac_isr m)) /\
  keeps m (snd (afsk_dac_isr m)).
Proof.
  intros Hwf Hsend H0 Htx Hr.
  set (m0 := set_led_tx true m).
  assert (Hwf0 : mod_wf m0) by done.
  pose proof Hwf0 as (Hf & Ha & Hs & Ht & Hc & Hst & Hph & Hac).
  pose proof (dac_fetch_spec m0 ext Hf Ha Hr) as Hfetch.
  change (fut m0 ext) with (fut m ext) in Hfetch.
  unfold afsk_dac_isr. fold m0. change (sample_count m0) with (sample_count m).
  change (tx_bit m0) with (tx_bit m). rewrite H0, Htx, !Z.eqb_refl.
  destruct (fut m ext) as [|t ts] eqn:Ef.
  - rewrite Hfetch. cbn [snd]. destruct (fut_nil m ext Ha Hf Ef Hr) as [Hq Hp].
    assert (Hidle : mod_idle (set_led_tx false (dac_stop m0))) by (by apply (dac_stop_idle m0)).
    split; [apply Hidle|]. split; [|by apply keeps_same]. apply tick_stop; try done.
    + unfold pending, cur_bits. by rewrite Htx, Ef.
    + unfold air_bit. by rewrite H0.
  - destruct Hfetch as (m1 & E & Hl & Hf1 & Hfw & Ha1 & Hb & Hkeep). rewrite E. cbn [fst snd].
    pose proof (loaded_wf m0 t m1 Hwf0 H0 Hl Hfw Ha1 Hb) as Hwf1.
    pose proof (loaded_pending m0 t ts m1 ext Htx Hst Hl Ef Hf1) as Hpend.
    destruct Hl as (L1 & L2 & L3 & L4 & L5 & L6 & L7 & L8 & L9).
    destruct (start_bit m1 ext Hwf1) as (b & P1 & P2 & P3 & P4 & P5 & P6 & P7 & P8 & P9);
      [by rewrite L6|rewrite L3; lia|by rewrite L7|].
    destruct (dac_sample (dac_bit m1)) as [v m2]. cbn [snd] in *.
    split; [done|].
    split; [|unfold keeps in *; cbn; rewrite P7; exact Hkeep].
    apply (tick_bit m ext _ b); try done; cbn.
    + unfold air_bit. cbn. rewrite H0, P5, <- P2, L5. done.
    + change (pending m ext) with (pending m0 ext). by rewrite <- Hpend, P1.
    + by rewrite P6, L8.
Qed.

(** One interrupt is one step of the encoder. *)
Lemma afsk_dac_isr_step (m : Modulator) (ext : list Z)
    (Hwf : mod_wf m) (Hsend : sending m = true)
    (Hr : preamble_len m = 0 -> ready (contents (tx_fifo m)) ext) :
  mod_wf (snd (afsk_dac_isr m)) /\ ticked m ext (snd (afsk_dac_isr m)) /\
  keeps m (snd (afsk_dac_isr m)).
Proof.
  destruct (Z.eq_dec (sample_count m) 0) as [H0|H0].
  - destruct (Z.eq_dec (tx_bit m) 0) as [Htx|Htx]; [by apply tick_fetch|].
    destruct (start_bit (set_led_tx true m) ext) as (b & P1 & P2 & P3 & P4 & P5 & P6 & P7 & P8 & P9);
      [done..|].
    unfold afsk_dac_isr. change (sample_count (set_led_tx true m)) with (sample_count m).
    change (tx_bit (set_led_tx true m)) with (tx_bit m).
    apply Z.eqb_neq in Htx. rewrite H0, Htx, Z.eqb_refl.
    destruct (dac_sample (dac_bit (set_led_tx true m))) as [v m2]. cbn [snd] in *.
    split; [done|]. split; [|by apply keeps_same]. apply (tick_bit m ext _ b); try done.
    unfold air_bit. cbn. by rewrite H0, P5, <- P2.
  - destruct (mid_sample m ext Hwf) as (M1 & M2 & M3 & M4 & M5 & M6 & M7 & M8 & M9).
    { destruct Hwf as (_ & _ & Hs & _). lia. }
    split; [done|]. split; [|by apply keeps_same]. apply tick_sample; try done; [|congruence].
    destruct Hwf as (_ & _ & Hs & _). lia.
Qed.
