(* ===== verification/Modem.v ===== *)
(** * The modem as a KFile: [afsk_write], [afsk_flush] and the interrupts

    While the main loop waits, [cpu_relax] lets interrupts run: each is one
    conversion of the ADC and, when the DAC is enabled, one output sample
    ([ADC_vect] of hw_afsk.c). [Modem] adds to the [Afsk] context the sample
    clock, and two logs kept for the theorems only: the bits that went on the
    air and the bytes written. Interrupts are taken at the points where the
    code waits; between two writes of one frame the main loop is taken to be
    faster than the queue, which is what keeps it from running dry. *)

From Stdlib Require Import ZArith Lia Bool List.
From stdpp Require Import prelude.
From S2P Require Import Prelude.
From S2P Require Import Fifo.
From S2P Require Import KFile.
From S2P Require Import Escape.
From S2P Require Import Afsk.
From S2P Require Import ModemTx.

Open Scope Z_scope.

Record Modem := mkModem {
  md_af : Afsk;
  md_time : nat;
  md_air : list bool;
  md_out : list Z
}.

Definition md_mod (md : Modem) : Modulator := modulator (md_af md).

Definition set_mod (m : Modulator) (md : Modem) : Modem :=
  mkModem (mkAfsk m (demodulator (md_af md))) (md_time md) (md_air md) (md_out md).

Section Device.
(** What the ADC converts at each sample time. *)
Variable antenna : nat -> Z.

(** One interrupt. *)
Definition cpu_relax (md : Modem) : Modem :=
  let m := md_mod md in
  let af := snd (ADC_vect CONFIG_AFSK_FILTER (antenna (md_time md)) (md_af md)) in
  mkModem af (S (md_time md))
    (md_air md ++ (if dac_irq m then air_bit m (modulator af) else [])) (md_out md).

(** A waiting loop; [None] when [fuel] interrupts were not enough. *)
Fixpoint wait_while (cond : Modem -> bool) (fuel : nat) (md : Modem) : option Modem :=
  if cond md then
    match fuel with
    | O => None
    | S fuel' => wait_while cond fuel' (cpu_relax md)
    end
  else Some md.

Definition WAIT_FUEL : nat := Z.to_nat 16500.

Definition tx_full (md : Modem) : bool := fifo_isfull_locked (tx_fifo (md_mod md)).

(** One turn of the loop of [afsk_write]. *)
Definition afsk_write_byte (c : Z) (md : Modem) : option Modem :=
  match wait_while tx_full WAIT_FUEL md with
  | None => None
  | Some md =>
      let m := set_tx_fifo (fifo_push_locked (tx_fifo (md_mod md)) c) (md_mod md) in
      let md := set_mod (afsk_txStart m) md in
      Some (mkModem (md_af md) (md_time md) (md_air md) (md_out md ++ [c]))
  end.

Fixpoint afsk_write (md : Modem) (buf : list Z) : option (Z * Modem) :=
  match buf with
  | [] => Some (0, md)
  | c :: buf' =>
      match afsk_write_byte c md with
      | None => None
      | Some md =>
          match afsk_write md buf' with
          | None => None
          | Some (n, md) => Some (n + 1, md)
          end
      end
  end.

Definition afsk_flush (md : Modem) : option (Z * Modem) :=
  match wait_while (fun md => sending (md_mod md)) WAIT_FUEL md with
  | None => None
  | Some md => Some (0, md)
  end.

(** The table of operations [afsk_init] fills in. A wait that does not end
    within the fuel leaves the modem as it was; the laws below show that
    none is. *)
#[export] Instance modem_kfile : KFile Modem := {
  kfile_read md n :=
    let '(buf, q) := afsk_read (rx_fifo (demodulator (md_af md))) (Z.to_nat n) in
    (buf, mkModem (mkAfsk (md_mod md) (set_rx_fifo q (demodulator (md_af md))))
            (md_time md) (md_air md) (md_out md));
  kfile_write md buf := default (0, md) (afsk_write md buf);
  kfile_flush md := default (0, md) (afsk_flush md);
  kfile_error md := afsk_error (md_af md);
  kfile_clearerr md :=
    mkModem (afsk_clearerr (md_af md)) (md_time md) (md_air md) (md_out md)
}.

(** ** Waiting *)

(** Everything the interrupt does to the transmit side. *)
Lemma cpu_relax_mod md :
  dac_irq (md_mod md) = true ->
  md_mod (cpu_relax md) = snd (afsk_dac_isr (md_mod md)) /\
  md_air (cpu_relax md) = md_air md ++ air_bit (md_mod md) (md_mod (cpu_relax md)) /\
  md_out (cpu_relax md) = md_out md.
Proof.
  intros Hirq. unfold cpu_relax, ADC_vect, md_mod in *. rewrite Hirq.
  by destruct (afsk_dac_isr (modulator (md_af md))).
Qed.

(** Samples to go before the modulator stops, if nothing more is written. *)
Definition samples_left (m : Modulator) : Z :=
  sample_count m + DAC_SAMPLEPERBIT * Z.of_nat (length (pending m [])).

Lemma length_stuff_bits on s bs : (length (stuff_bits on s bs) <= 2 * length bs)%nat.
Proof.
  revert s. induction bs as [|b bs IH]; intros s; cbn [stuff_bits]; [done|].
  destruct (on && _); cbn [length]; [pose proof (IH (if b then 1 else 0))|
    pose proof (IH (if b then s + 1 else 0))]; lia.
Qed.

Lemma length_enc on s ts : (length (enc on s ts) <= 16 * length ts)%nat.
Proof.
  revert on s. induction ts as [|t ts IH]; intros on s; cbn [enc]; [done|].
  rewrite length_app. pose proof (length_stuff_bits (tk_on t) (if on then s else 0)
    (bits_of_byte (tk_char t))) as H1.
  pose proof (IH (tk_on t) (stuff_end (tk_on t) (if on then s else 0)
    (bits_of_byte (tk_char t)))) as H2.
  change (length (bits_of_byte (tk_char t))) with 8%nat in H1.
  cbn [length] in *. lia.
Qed.

Lemma length_toks n : forall l, (length l <= n)%nat -> (length (toks l) <= length l)%nat.
Proof.
  induction n as [|n IH]; intros [|c l] Hl; cbn [toks length] in *; try lia.
  destruct (c =? AX25_ESC).
  - destruct l as [|d l]; cbn [length] in *; [lia|]. pose proof (IH l). lia.
  - pose proof (IH l). destruct (_ || _); cbn [length]; lia.
Qed.

Lemma samples_left_bound m :
  mod_wf m -> 0 <= samples_left m < Z.of_nat WAIT_FUEL.
Proof.
  intros ((Hw & Hcap & _ & Hp & Ht) & _ & Hs & _).
  unfold samples_left, pending, fut.
  change DAC_SAMPLEPERBIT with 8 in *. change preamble_flags with 53 in *.
  change trailer_flags with 11 in *. change (CONFIG_AFSK_TX_BUFLEN - 1) with 63 in *.
  change (Z.of_nat WAIT_FUEL) with 16500. rewrite app_nil_r, length_app.
  pose proof (fill_range _ Hw) as Hf. rewrite <- length_contents in Hf by done.
  pose proof (length_stuff_bits (bit_stuff m) (stuff_cnt m) (cur_bits m)) as H1.
  assert (H2 : (length (cur_bits m) <= 8)%nat).
  { unfold cur_bits. rewrite length_drop. cbn. lia. }
  match goal with |- context [enc ?a ?b ?c] =>
    pose proof (length_enc a b c) as H3; set (e := enc a b c) in * end.
  rewrite !length_app in H3. unfold flags in H3. rewrite !length_replicate in H3.
  pose proof (length_toks _ (contents (tx_fifo m)) (Nat.le_refl _)) as H4. lia.
Qed.

(** One interrupt brings the end one sample nearer, or is the end. *)
Lemma ticked_left m m' :
  mod_wf m -> ticked m [] m' ->
  (samples_left m' = samples_left m - 1 /\ sending m' = true /\ dac_irq m' = dac_irq m)
  \/ (mod_idle m' /\ pending m [] = []).
Proof.
  intros Hwf Ht. unfold samples_left. change DAC_SAMPLEPERBIT with 8.
  destruct Ht as [H1 H2 H3 H4 H5 H6 H7 H8|b H1 H2 H3 H4 H5 H6|H1 H2 H3 H4].
  - left. rewrite H3, H4. split_and!; try done. lia.
  - left. rewrite H3, H4, H1. change (DAC_SAMPLEPERBIT - 1) with 7.
    cbn [length]. split_and!; try done. lia.
  - by right.
Qed.

(** ** A burst *)

(** The transmitter is on, [a0] was on the air before, and whatever bytes
    [ext] still follow the [ws] written so far, what went on the air and what
    is pending make up the encoding of all of them. *)
Definition in_burst (a0 : list bool) (ws : list Z) (md : Modem) : Prop :=
  let m := md_mod md in
  mod_wf m /\ sending m = true /\ dac_irq m = true /\
  (forall ext, md_air md ++ pending m ext = a0 ++ burst_bits (ws ++ ext)) /\
  (forall ext, esc_ok (contents (tx_fifo m) ++ ext) = esc_ok (ws ++ ext)).

Lemma in_burst_tick a0 ws md :
  in_burst a0 ws md ->
  (forall ext, pending (md_mod md) ext <> []) ->
  (2 < length (contents (tx_fifo (md_mod md))))%nat ->
  in_burst a0 ws (cpu_relax md) /\
  samples_left (md_mod (cpu_relax md)) = samples_left (md_mod md) - 1 /\
  contents (tx_fifo (md_mod (cpu_relax md))) <> [].
Proof.
  intros (Hwf & Hs & Hi & Hair & Hesc) Hne Hlen.
  destruct (cpu_relax_mod md Hi) as (Hm & Ha & _).
  assert (Hready : forall ext, ready (contents (tx_fifo (md_mod md))) ext).
  { intros ext. destruct (contents (tx_fifo (md_mod md))) as [|x [|y q]];
      cbn in Hlen |- *; (lia || done). }
  destruct (afsk_dac_isr_step (md_mod md) [] Hwf Hs (fun _ => Hready [])) as (Hwf' & Ht & Hk1 & Hk2).
  rewrite <- Hm in *. destruct (ticked_left _ _ Hwf Ht) as [(HL & Hs' & Hi')|[_ H0]];
    [|by destruct (Hne [])].
  split; [|split; [done|]].
  - split_and!; [done|done|congruence| |].
    + intros ext.
      destruct (afsk_dac_isr_step (md_mod md) ext Hwf Hs (fun _ => Hready ext)) as (_ & Ht2 & _).
      rewrite <- Hm in Ht2. rewrite Ha.
      destruct Ht2 as [T1 T2 T3 T4 T5 T6 T7 T8|b T1 T2 T3 T4 T5 T6|T1 T2 T3 T4].
      * by rewrite T2, T3, app_nil_r.
      * rewrite T2, <- app_assoc. cbn [app]. rewrite <- T3. apply Hair.
      * by destruct (Hne ext).
    + intros ext. by rewrite Hk1.
  - intros E. rewrite E in Hk2. cbn in Hk2. lia.
Qed.

Lemma pending_queued m ext :
  (2 <= length (contents (tx_fifo m)))%nat -> pending m ext <> [].
Proof.
  intros Hl E. unfold pending in E. apply app_nil in E as [_ E]. apply enc_nil in E.
  unfold fut in E. apply app_nil in E as [_ E]. apply app_nil in E as [E _].
  destruct (contents (tx_fifo m)) as [|x [|y q]]; cbn [length app toks] in *; [lia|lia|].
  by destruct (x =? AX25_ESC).
Qed.

(** A writer waiting for room gets it. *)
Lemma wait_room a0 ws fuel : forall md,
  in_burst a0 ws md -> samples_left (md_mod md) < Z.of_nat fuel ->
  (contents (tx_fifo (md_mod md)) <> []) ->
  exists md', wait_while tx_full fuel md = Some md' /\ in_burst a0 ws md' /\
    tx_full md' = false /\ md_out md' = md_out md /\ contents (tx_fifo (md_mod md')) <> [].
Proof.
  induction fuel as [|fuel IH]; intros md Hb Hl Hq; pose proof Hb as (Hwf & _ & Hi & _).
  - pose proof (samples_left_bound _ Hwf). lia.
  - cbn [wait_while]. destruct (tx_full md) eqn:Hfull.
    + assert (Hlen : (2 < length (contents (tx_fifo (md_mod md))))%nat).
      { destruct Hwf as ((Hw & Hcap & _) & _). unfold tx_full, fifo_isfull_locked in Hfull.
        rewrite fifo_isfull_spec, Hcap in Hfull by done. apply Z.eqb_eq in Hfull.
        change (CONFIG_AFSK_TX_BUFLEN - 1) with 63 in Hfull. lia. }
      destruct (in_burst_tick a0 ws md Hb) as (Hb' & HL & Hq').
      { intros ext. apply pending_queued. lia. }
      { done. }
      destruct (IH (cpu_relax md) Hb') as (md' & E & H1 & H2 & H3 & H4); [lia|done|].
      exists md'. by split_and!.
    + by exists md.
Qed.

(** The modem at rest, with nothing queued. *)
Definition at_rest (md : Modem) : Prop := mod_idle (md_mod md).

Lemma wait_room_idle md : at_rest md -> wait_while tx_full WAIT_FUEL md = Some md.
Proof.
  intros (((Hw & Hcap & _) & _) & _ & _ & _ & _ & Hq & _).
  assert (Hf : tx_full md = false).
  { unfold tx_full, fifo_isfull_locked. rewrite fifo_isfull_spec, Hq, Hcap by done. done. }
  destruct WAIT_FUEL; cbn [wait_while]; by rewrite Hf.
Qed.

(** Queueing a byte moves it from what is to be written to what is pending. *)
Lemma txStart_push m c :
  mod_wf m -> fifo_isfull (tx_fifo m) = false -> is_byte c -> sending m = true ->
  contents (tx_fifo m) <> [] ->
  let m' := afsk_txStart (set_tx_fifo (fifo_push (tx_fifo m) c) m) in
  mod_wf m' /\ sending m' = true /\ dac_irq m' = dac_irq m /\
  contents (tx_fifo m') = contents (tx_fifo m) ++ [c] /\
  forall ext, pending m' ext = pending m (c :: ext).
Proof.
  intros Hwf Hfull Hc Hs Hq.
  pose proof Hwf as ((Hw & Hcap & Hb & Hp & Ht) & (Ha1 & Ha2) & Hsc & Htx & Hcur & Hst & Hph & Hac).
  assert (Hroom : Z.of_nat (length (contents (tx_fifo m))) < capacity (tx_fifo m)).
  { rewrite fifo_isfull_spec in Hfull by done. apply Z.eqb_neq in Hfull.
    pose proof (fill_range _ Hw) as Hf. rewrite <- length_contents in Hf by done. lia. }
  pose proof (fifo_push_contents _ c Hw Hroom) as Hpush. rewrite u8_small in Hpush by done.
  cbv zeta. unfold afsk_txStart. cbn [sending set_tx_fifo]. rewrite Hs. cbn [negb].
  split_and!.
  - unfold mod_wf, fetch_wf, armed. cbn. rewrite Hpush, fifo_push_capacity.
    change preamble_flags with 53 in *. change trailer_flags with 11 in *.
    split_and!; try done; try lia; [by apply fifo_push_wf|].
    apply Forall_app. split; [done|by constructor].
  - done.
  - done.
  - done.
  - intros ext. unfold pending, fut. cbn. rewrite Hpush, <- app_assoc. cbn [app].
    by rewrite <- Ha2.
Qed.

Lemma txStart_first m c :
  mod_idle m -> is_byte c ->
  let m' := afsk_txStart (set_tx_fifo (fifo_push (tx_fifo m) c) m) in
  mod_wf m' /\ sending m' = true /\ dac_irq m' = true /\
  contents (tx_fifo m') = [c] /\
  forall ext, pending m' ext = burst_bits (c :: ext).
Proof.
  intros (Hwf & H0 & Htx0 & Hs & Hi & Hq & Hp0 & _) Hc.
  pose proof Hwf as ((Hw & Hcap & Hb & Hp & Ht) & (Ha1 & Ha2) & Hsc & Htx & Hcur & Hst & Hph & Hac).
  pose proof (fifo_push_contents _ c Hw) as Hpush. rewrite Hq, u8_small in Hpush by done.
  cbn [length app] in Hpush. specialize (Hpush ltac:(by rewrite Hcap)).
  cbv zeta. unfold afsk_txStart. cbn [sending set_tx_fifo]. rewrite Hs. cbn [negb].
  split_and!.
  - unfold mod_wf, fetch_wf, armed, stuff_ok, cur_bits. cbn. rewrite Hpush, fifo_push_capacity.
    rewrite Htx0. cbn. change (preamble_flags) with 53. change trailer_flags with 11.
    change MARK_INC with 64. change SPACE_INC with 117.
    split_and!; first [done | lia | by apply fifo_push_wf | by constructor | by left
      | by destruct (bit_stuff m)].
  - done.
  - done.
  - done.
  - intros ext. unfold pending, fut, cur_bits. cbn [tx_bit set_trailer_len AFSK_DAC_IRQ_START
      set_dac_irq set_ptt set_preamble_len set_sending set_stuff_cnt set_phase_acc
      set_phase_inc set_tx_fifo stuff_cnt bit_stuff tx_fifo preamble_len trailer_len].
    rewrite Htx0, Hpush. cbn [tx_index drop].
    unfold burst_bits. cbn [app]. destruct (bit_stuff m); reflexivity.
Qed.

(** The transmit side after [ws] was written since the modem was at rest. *)
Definition written (a0 : list bool) (ws : list Z) (md : Modem) : Prop :=
  match ws with
  | [] => at_rest md /\ md_air md = a0
  | _ => in_burst a0 ws md /\ contents (tx_fifo (md_mod md)) <> []
  end.

Lemma written_intro a0 ws md m :
  md_mod md = m -> ws <> [] ->
  mod_wf m -> sending m = true -> dac_irq m = true -> contents (tx_fifo m) <> [] ->
  (forall ext, md_air md ++ pending m ext = a0 ++ burst_bits (ws ++ ext)) ->
  (forall ext, esc_ok (contents (tx_fifo m) ++ ext) = esc_ok (ws ++ ext)) ->
  written a0 ws md.
Proof. intros <- Hne. intros. destruct ws as [|w ws]; [done|]. by split. Qed.

Lemma write_byte_spec a0 ws c md :
  written a0 ws md -> is_byte c ->
  exists md', afsk_write_byte c md = Some md' /\ written a0 (ws ++ [c]) md' /\
    md_out md' = md_out md ++ [c].
Proof.
  intros Hwr Hc. unfold afsk_write_byte, fifo_push_locked. destruct ws as [|w ws].
  - destruct Hwr as [Hrest Hair]. rewrite wait_room_idle by done.
    eexists. split; [reflexivity|]. split; [|done].
    destruct (txStart_first (md_mod md) c Hrest Hc) as (H1 & H2 & H3 & H4 & H5).
    apply (written_intro _ _ _ (afsk_txStart (set_tx_fifo (fifo_push (tx_fifo (md_mod md)) c)
      (md_mod md)))); [reflexivity|done|exact H1|exact H2|exact H3|by rewrite H4| |].
    + intros ext. cbn [md_air set_mod]. rewrite Hair. f_equal. apply H5.
    + intros ext. by rewrite H4.
  - destruct Hwr as [Hb Hq].
    destruct (wait_room a0 (w :: ws) WAIT_FUEL md Hb) as (md1 & -> & Hb1 & Hfull & Hout & Hq1);
      [apply samples_left_bound, Hb|done|].
    destruct Hb1 as (Hwf & Hs & Hi & Hair & Hesc).
    destruct (txStart_push (md_mod md1) c Hwf Hfull Hc Hs Hq1) as (H1 & H2 & H3 & H4 & H5).
    eexists. split; [reflexivity|]. split; [|cbn; by rewrite Hout].
    apply (written_intro _ _ _ (afsk_txStart (set_tx_fifo (fifo_push (tx_fifo (md_mod md1)) c)
      (md_mod md1)))); [reflexivity|done|exact H1|exact H2|by rewrite H3| | |].
    + rewrite H4. by destruct (contents (tx_fifo (md_mod md1))).
    + intros ext. cbn [md_air set_mod].
      rewrite H5, <- (app_assoc (w :: ws) [c] ext). apply Hair.
    + intros ext. rewrite H4, <- (app_assoc (w :: ws) [c] ext), <- app_assoc. apply Hesc.
Qed.

Lemma write_spec a0 buf : forall ws md,
  written a0 ws md -> bytes buf ->
  exists md', afsk_write md buf = Some (Z.of_nat (length buf), md') /\
    written a0 (ws ++ buf) md' /\ md_out md' = md_out md ++ buf.
Proof.
  induction buf as [|c buf IH]; intros ws md Hwr Hb.
  - exists md. by rewrite !app_nil_r.
  - apply Forall_cons in Hb as [Hc Hb]. cbn [afsk_write].
    destruct (write_byte_spec a0 ws c md Hwr Hc) as (md1 & -> & H1 & H2).
    destruct (IH _ md1 H1 Hb) as (md2 & -> & H3 & H4).
    exists md2. rewrite <- app_assoc in H3. split_and!; [|done|].
    + do 2 f_equal. cbn [length]. lia.
    + by rewrite H4, H2, <- app_assoc.
Qed.

(** The modem is a sink for any number of bytes: a writer waits for room. *)
Program Definition modem_sink (a0 : list bool) (w0 : list Z) : KSink Modem := {|
  kk_ok md := exists ws, md_out md = w0 ++ ws /\ written a0 ws md;
  kk_out := md_out;
  kk_fits _ _ := True
|}.
Next Obligation. done. Qed.
Next Obligation.
  intros a0 w0 md buf (ws & Ho & Hwr) Hb _ _. cbn.
  destruct (write_spec a0 buf ws md Hwr Hb) as (md' & -> & H1 & H2). cbn.
  split_and!; try done. exists (ws ++ buf). by rewrite H2, Ho, app_assoc.
Qed.

(** ** Flushing *)

Lemma ready_esc_ok q : esc_ok q = true -> ready q [].
Proof.
  destruct q as [|c [|d q]]; [done| |done]. cbn [esc_ok ready].
  destruct (c =? AX25_ESC) eqn:E; [done|]. intros _. by apply Z.eqb_neq.
Qed.

Lemma pending_tick md m' ext :
  md_air m' = md_air md ++ air_bit (md_mod md) (md_mod m') ->
  ticked (md_mod md) ext (md_mod m') -> sending (md_mod m') = true ->
  md_air m' ++ pending (md_mod m') ext = md_air md ++ pending (md_mod md) ext.
Proof.
  intros Ha Ht Hs. rewrite Ha.
  destruct Ht as [T1 T2 T3 T4 T5 T6 T7 T8|b T1 T2 T3 T4 T5 T6|T1 T2 T3 T4].
  - by rewrite T2, T3, app_nil_r.
  - by rewrite T2, <- app_assoc, T3.
  - destruct T4 as (_ & _ & _ & T4 & _). congruence.
Qed.

(** What a flush relies on: the rest of a complete burst. *)
Definition finishing (a1 : list bool) (md : Modem) : Prop :=
  mod_wf (md_mod md) /\ sending (md_mod md) = true /\ dac_irq (md_mod md) = true /\
  md_air md ++ pending (md_mod md) [] = a1 /\
  esc_ok (contents (tx_fifo (md_mod md))) = true.

Lemma wait_idle a1 fuel : forall md,
  finishing a1 md -> samples_left (md_mod md) < Z.of_nat fuel ->
  exists md', wait_while (fun md => sending (md_mod md)) fuel md = Some md' /\
    at_rest md' /\ md_air md' = a1 /\ md_out md' = md_out md.
Proof.
  induction fuel as [|fuel IH]; intros md Hfin Hl;
    pose proof Hfin as (Hwf & Hs & Hi & Hair & Hesc).
  { pose proof (samples_left_bound _ Hwf). lia. }
  cbn [wait_while]. rewrite Hs.
  destruct (cpu_relax_mod md Hi) as (Hm & Ha & Ho).
  destruct (afsk_dac_isr_step (md_mod md) [] Hwf Hs (fun _ => ready_esc_ok _ Hesc))
    as (Hwf' & Ht & Hk & _).
  rewrite <- Hm in *. pose proof (Hk []) as Hk0. rewrite !app_nil_r, Hesc in Hk0.
  destruct (ticked_left _ _ Hwf Ht) as [(HL & Hs' & Hi')|[Hidle H0]].
  - destruct (IH (cpu_relax md)) as (md' & E & H1 & H2 & H3); [|lia|].
    + split_and!; try done; [congruence|]. rewrite <- Hair. by apply pending_tick.
    + exists md'. by split_and!.
  - assert (Hstop : sending (md_mod (cpu_relax md)) = false) by apply Hidle.
    exists (cpu_relax md). split_and!; try done.
    + destruct fuel; cbn [wait_while]; by rewrite Hstop.
    + rewrite Ha, <- Hair, H0. f_equal.
      destruct Ht as [T1 T2 T3 T4 T5 T6 T7 T8|b T1 T2 T3 T4 T5 T6|T1 T2 T3 T4];
        [done|by rewrite T5 in Hstop|done].
Qed.

Lemma written_finishing a0 ws md :
  written a0 ws md -> ws <> [] -> esc_ok ws = true ->
  finishing (a0 ++ burst_bits ws) md.
Proof.
  intros Hwr Hne Hok. destruct ws as [|w ws]; [done|].
  destruct Hwr as [(Hwf & Hs & Hi & Hair & Hesc) _].
  split_and!; [done..| |].
  - rewrite (Hair []). by rewrite app_nil_r.
  - rewrite <- (app_nil_r (contents _)), (Hesc []). by rewrite app_nil_r.
Qed.

(** Flushing after a complete stream puts the whole burst on the air. *)
Lemma flush_written a0 ws md :
  written a0 ws md -> ws <> [] -> esc_ok ws = true ->
  exists md', kfile_flush md = (0, md') /\ at_rest md' /\
    md_air md' = a0 ++ burst_bits ws /\ md_out md' = md_out md.
Proof.
  intros Hwr Hne Hok. pose proof (written_finishing a0 ws md Hwr Hne Hok) as Hfin.
  destruct (wait_idle _ WAIT_FUEL md Hfin) as (md' & E & H1 & H2 & H3).
  { apply samples_left_bound, Hfin. }
  exists md'. cbn. unfold afsk_flush. by rewrite E.
Qed.
End Device.

(** A modem as the firmware starts with it, hearing nothing. *)
Definition new_modem : Modem := mkModem afsk_init 0 [] [].

Lemma new_modem_at_rest : at_rest new_modem.
Proof.
  split; [|by split_and!]. split_and!; first [decide_closed | by left | vm_compute; congruence
    | by intros | idtac].
Qed.

Definition silence (t : nat) : Z := 512.

(** C9: the modem sends what it is given. From rest, writing any non-empty
    stream of bytes in which every escape has its byte, however much longer
    than the queue, and flushing it ends: the writer waits for room, the flush for
    the last sample, and the bits put on the air are exactly one burst: 53 flags,
    the bytes' encoding with stuffing, 11 flags, the transmitter released. *)
Theorem modem_burst (antenna : nat -> Z) (md : Modem) (ws : list Z)
    (Hrest : at_rest md) (Hws : bytes ws) (Hne : ws <> []) (Hesc : esc_ok ws = true) :
  exists md1 md',
    afsk_write antenna md ws = Some (Z.of_nat (length ws), md1) /\
    afsk_flush antenna md1 = Some (0, md') /\
    at_rest md' /\ ptt (md_mod md') = false /\
    md_air md' = md_air md ++ burst_bits ws.
Proof.
  destruct (write_spec antenna (md_air md) ws [] md) as (md1 & E1 & Hwr & _); [done..|].
  pose proof (written_finishing _ _ _ Hwr Hne Hesc) as Hfin.
  destruct (wait_idle antenna _ WAIT_FUEL md1 Hfin) as (md' & E & H1 & H2 & H3).
  { apply samples_left_bound, Hfin. }
  exists md1, md'. split_and!; try done; [|apply H1].
  unfold afsk_flush. by rewrite E.
Qed.

Lemma modem_burst_witness :
  let ws := replicate 80 0x41 ++ [0x1B; 0x7E; 0x7E] in
  exists md1 md',
    afsk_write silence new_modem ws = Some (Z.of_nat (length ws), md1) /\
    afsk_flush silence md1 = Some (0, md') /\
    at_rest md' /\ ptt (md_mod md') = false /\
    md_air md' = md_air new_modem ++ burst_bits ws.
Proof.
  apply (modem_burst silence new_modem (replicate 80 0x41 ++ [0x1B; 0x7E; 0x7E])).
  - exact new_modem_at_rest.
  - decide_closed.
  - discriminate.
  - reflexivity.
Defined.
