(* ===== verification/ModemRx.v ===== *)
(** * The HDLC receiver: from demodulated bits to escaped bytes

    [hdlc_parse] (Afsk.v) against the encoder [enc] of ModemTx.v. A receiver
    that hears the bits of a burst and whose queue is read before it fills
    recovers every flag and every data byte. *)

From Stdlib Require Import ZArith Lia Bool List.
From stdpp Require Import prelude.
From S2P Require Import Prelude.
From S2P Require Import Fifo.
From S2P Require Import Escape.
From S2P Require Import Afsk.
From S2P Require Import ModemTx.

Open Scope Z_scope.

(** ** [hdlc_parse] when there is room *)

(** The context afterwards and the bytes queued. *)
Definition hdlc_step (h : Hdlc) (bit : bool) : Hdlc * list Z :=
  let db := Z.lor (u8 (Z.shiftl (demod_bits h) 1)) (b2z bit) in
  if db =? HDLC_FLAG then (mkHdlc db 0 0 true, [HDLC_FLAG])
  else if Z.land db HDLC_RESET =? HDLC_RESET then
    (mkHdlc db (bit_idx h) (currchar h) false, [])
  else if negb (rxstart h) then (mkHdlc db (bit_idx h) (currchar h) (rxstart h), [])
  else if Z.land db 0x3f =? 0x3e then (mkHdlc db (bit_idx h) (currchar h) (rxstart h), [])
  else
    let cc := if Z.testbit db 0 then Z.lor (currchar h) 0x80 else currchar h in
    let idx := u8 (bit_idx h + 1) in
    if idx >=? 8 then (mkHdlc db 0 0 (rxstart h), escape_byte cc)
    else (mkHdlc db idx (Z.shiftr cc 1) (rxstart h), []).

Lemma hdlc_put_room c ret rx q led :
  fifo_wf q -> Z.of_nat (length (contents q)) < capacity q -> is_byte c ->
  exists q', hdlc_put c (ret, rx, q, led) = (ret, rx, q', led) /\
    contents q' = contents q ++ [c] /\ fifo_wf q' /\ capacity q' = capacity q.
Proof.
  intros Hw Hroom Hc. unfold hdlc_put. rewrite fifo_isfull_room by done. cbn.
  eexists. split; [reflexivity|].
  rewrite fifo_push_contents, fifo_push_capacity, u8_small by done.
  split_and!; [done|by apply fifo_push_wf|done].
Qed.

Lemma hdlc_parse_step h bit q led :
  hdlc_wf h -> fifo_wf q -> Z.of_nat (length (contents q)) + 2 <= capacity q ->
  exists q' led', hdlc_parse h bit q led = (true, fst (hdlc_step h bit), q', led') /\
    contents q' = contents q ++ snd (hdlc_step h bit) /\ fifo_wf q' /\
    capacity q' = capacity q.
Proof.
  intros (Hd & Hi & Hc) Hw Hroom. unfold hdlc_parse, hdlc_step.
  set (db := Z.lor (u8 (Z.shiftl (demod_bits h) 1)) (b2z bit)).
  destruct (db =? HDLC_FLAG).
  { destruct (hdlc_put_room HDLC_FLAG true true q true Hw ltac:(lia) ltac:(decide_closed))
      as (q' & E & H1 & H2 & H3).
    unfold hdlc_put in E. rewrite fifo_isfull_room in * by (done || lia). cbn in *.
    injection E as E. subst q'. eauto 10. }
  destruct (Z.land db HDLC_RESET =? HDLC_RESET); [rewrite app_nil_r; eauto 10|].
  destruct (negb (rxstart h)); [rewrite app_nil_r; eauto 10|].
  destruct (Z.land db 0x3f =? 0x3e); [rewrite app_nil_r; eauto 10|].
  set (cc := if Z.testbit db 0 then Z.lor (currchar h) 128 else currchar h).
  assert (Hcc : is_byte cc).
  { unfold cc. destruct (Z.testbit db 0); [|done]. apply (lor_bound _ _ 8); [lia|done|lia]. }
  destruct (u8 (bit_idx h + 1) >=? 8); [|rewrite app_nil_r; eauto 10].
  unfold escape_byte. destruct (hdlc_special cc).
  - destruct (hdlc_put_room AX25_ESC true (rxstart h) q led Hw ltac:(lia) ltac:(decide_closed))
      as (q1 & -> & H1 & H2 & H3).
    destruct (hdlc_put_room cc true (rxstart h) q1 led H2) as (q2 & -> & H4 & H5 & H6).
    { rewrite H1, length_app, H3. cbn. lia. }
    { done. }
    exists q2, led. cbn. rewrite H4, H1, H6, H3, <- app_assoc. done.
  - destruct (hdlc_put_room cc true (rxstart h) q led Hw ltac:(lia) Hcc) as (q1 & -> & H1 & H2 & H3).
    exists q1, led. done.
Qed.

Lemma hdlc_step_wf h bit : hdlc_wf h -> hdlc_wf (fst (hdlc_step h bit)).
Proof.
  intros Hh. pose proof (hdlc_parse_wf h bit (fifo_init (zeros 64) 64) false Hh) as Hp.
  assert (Hq : rx_wf (fifo_init (zeros 64) 64)).
  { split_and!; [by apply fifo_init_wf|done|constructor]. }
  specialize (Hp Hq).
  destruct (hdlc_parse_step h bit (fifo_init (zeros 64) 64) false Hh) as (q' & led' & E & _);
    [apply Hq|vm_compute; congruence|].
  rewrite E in Hp. apply Hp.
Qed.

Fixpoint hdlc_run (h : Hdlc) (bits : list bool) : Hdlc * list Z :=
  match bits with
  | [] => (h, [])
  | b :: bits' =>
      let '(h1, o1) := hdlc_step h b in
      let '(h2, o2) := hdlc_run h1 bits' in (h2, o1 ++ o2)
  end.

Lemma hdlc_run_app h l1 l2 :
  hdlc_run h (l1 ++ l2) =
    let '(h1, o1) := hdlc_run h l1 in let '(h2, o2) := hdlc_run h1 l2 in (h2, o1 ++ o2).
Proof.
  revert h. induction l1 as [|b l1 IH]; intros h; cbn.
  - by destruct (hdlc_run h l2).
  - destruct (hdlc_step h b) as [h1 o1]. rewrite IH.
    destruct (hdlc_run h1 l1) as [h2 o2]. destruct (hdlc_run h2 l2) as [h3 o3].
    by rewrite app_assoc.
Qed.

(** ** Histories *)

(** The last bits heard end with a zero and [s] ones. *)
Definition trail (d s : Z) : bool := Z.land d (Z.ones (s + 1)) =? Z.ones s.

Definition shift_in (d : Z) (b : bool) : Z := Z.lor (u8 (Z.shiftl d 1)) (b2z b).

(** What a bit means, from the last eight bits heard. *)
Inductive bit_class := Ordinary | Flag | Reset | Stuffed.

Definition classify (db : Z) : bit_class :=
  if db =? HDLC_FLAG then Flag
  else if Z.land db HDLC_RESET =? HDLC_RESET then Reset
  else if Z.land db 0x3f =? 0x3e then Stuffed
  else Ordinary.

#[export] Instance bit_class_eq_dec : EqDecision bit_class.
Proof. solve_decision. Defined.

Definition is_class (c : bit_class) (db : Z) : bool := bool_decide (classify db = c).

(** After a zero and [s] ones: a one is ordinary up to the sixth, a zero is
    ordinary up to the fifth and stuffed then. *)
Definition history_facts (d : Z) : bool :=
  forallb (fun s =>
    implb (trail d s)
      (is_class (if s =? 5 then Stuffed else Ordinary) (shift_in d false) &&
       is_class Ordinary (shift_in d true) && trail (shift_in d true) (s + 1) &&
       trail (shift_in d false) 0)) [0; 1; 2; 3; 4; 5].

Lemma history_checked d : is_byte d -> history_facts d = true.
Proof. apply forall_byte. vm_compute. reflexivity. Qed.

Lemma history d s :
  is_byte d -> 0 <= s <= 5 -> trail d s = true ->
  classify (shift_in d false) = (if s =? 5 then Stuffed else Ordinary) /\
  classify (shift_in d true) = Ordinary /\
  trail (shift_in d true) (s + 1) = true /\ trail (shift_in d false) 0 = true.
Proof.
  intros Hd Hs Ht. pose proof (history_checked d Hd) as Hf.
  unfold history_facts in Hf. rewrite forallb_forall in Hf.
  specialize (Hf s ltac:(cbn; lia)). rewrite Ht in Hf. cbn [implb] in Hf.
  unfold is_class in Hf. rewrite !andb_true_iff, !bool_decide_eq_true in Hf. tauto.
Qed.

Lemma shift_in_byte d b : is_byte (shift_in d b).
Proof. apply hdlc_shift_in_byte. Qed.

Lemma step_stuffed h b :
  rxstart h = true -> classify (shift_in (demod_bits h) b) = Stuffed ->
  hdlc_step h b =
    (mkHdlc (shift_in (demod_bits h) b) (bit_idx h) (currchar h) true, []).
Proof.
  intros Hr Hc. unfold hdlc_step. fold (shift_in (demod_bits h) b).
  unfold classify in Hc. destruct (_ =? HDLC_FLAG); [done|].
  destruct (_ =? HDLC_RESET); [done|]. rewrite Hr. cbn [negb].
  by destruct (_ =? 0x3e).
Qed.

Lemma shift_in_bit d b : Z.testbit (shift_in d b) 0 = b.
Proof.
  unfold shift_in. rewrite Z.lor_spec. unfold u8.
  change 256 with (2 ^ 8). rewrite Z.mod_pow2_bits_low by lia.
  rewrite Z.shiftl_spec_low by lia. by destruct b.
Qed.

Definition take_bit (cc : Z) (b : bool) : Z := if b then Z.lor cc 0x80 else cc.

Lemma step_ordinary h b :
  rxstart h = true -> classify (shift_in (demod_bits h) b) = Ordinary ->
  0 <= bit_idx h < 8 ->
  hdlc_step h b =
    if bit_idx h =? 7
    then (mkHdlc (shift_in (demod_bits h) b) 0 0 true, escape_byte (take_bit (currchar h) b))
    else (mkHdlc (shift_in (demod_bits h) b) (bit_idx h + 1)
            (Z.shiftr (take_bit (currchar h) b) 1) true, []).
Proof.
  intros Hr Hc Hi. unfold hdlc_step. fold (shift_in (demod_bits h) b).
  unfold classify in Hc. destruct (_ =? HDLC_FLAG); [done|].
  destruct (_ =? HDLC_RESET); [done|]. rewrite Hr. cbn [negb].
  destruct (_ =? 0x3e); [done|]. rewrite shift_in_bit. unfold take_bit.
  rewrite u8_small by lia. rewrite Z.geb_leb.
  destruct (bit_idx h =? 7) eqn:E; zbool.
  - assert ((8 <=? bit_idx h + 1) = true) as -> by (apply Z.leb_le; lia). done.
  - assert ((8 <=? bit_idx h + 1) = false) as -> by (apply Z.leb_gt; lia). done.
Qed.

(** ** A data byte *)

(** [currchar] after the first [k] bits of [c]. *)
Definition partial (c k : Z) : Z := (c mod 2 ^ k) * 2 ^ (7 - k).

Lemma partial_step c k :
  is_byte c -> 0 <= k < 8 ->
  (if k =? 7 then take_bit (partial c 7) (Z.testbit c 7) = c
   else Z.shiftr (take_bit (partial c k) (Z.testbit c k)) 1 = partial c (k + 1)).
Proof.
  intros Hc Hk.
  assert (Hall : forallb (fun k => if k =? 7 then take_bit (partial c 7) (Z.testbit c 7) =? c
    else Z.shiftr (take_bit (partial c k) (Z.testbit c k)) 1 =? partial c (k + 1))
    [0; 1; 2; 3; 4; 5; 6; 7] = true).
  { apply (forall_byte (fun c => forallb (fun k => if k =? 7
      then take_bit (partial c 7) (Z.testbit c 7) =? c
      else Z.shiftr (take_bit (partial c k) (Z.testbit c k)) 1 =? partial c (k + 1))
      [0; 1; 2; 3; 4; 5; 6; 7])); [vm_compute; reflexivity|done]. }
  rewrite forallb_forall in Hall. specialize (Hall k ltac:(cbn; lia)).
  destruct (k =? 7); by apply Z.eqb_eq.
Qed.

(** The receiver in a frame, [k] bits into the byte [c], after [s] ones. *)
Definition in_byte (c k s : Z) (h : Hdlc) : Prop :=
  rxstart h = true /\ bit_idx h = k /\ currchar h = partial c k /\
  is_byte (demod_bits h) /\ trail (demod_bits h) s = true.

(** Between bytes. *)
Definition between (s : Z) (h : Hdlc) : Prop :=
  rxstart h = true /\ bit_idx h = 0 /\ currchar h = 0 /\
  is_byte (demod_bits h) /\ trail (demod_bits h) s = true.

Lemma ordinary_bit c k s b h :
  is_byte c -> 0 <= k < 8 -> 0 <= s <= 5 -> in_byte c k s h -> b = Z.testbit c k ->
  (b = false -> s < 5) ->
  let '(h', out) := hdlc_step h b in
  if k =? 7 then out = escape_byte c /\ between (if b then s + 1 else 0) h'
  else out = [] /\ in_byte c (k + 1) (if b then s + 1 else 0) h'.
Proof.
  intros Hc Hk Hs (Hr & Hi & Hcc & Hd & Ht) Hb H5.
  destruct (history _ s Hd Hs Ht) as (F1 & F2 & F3 & F4).
  assert (Hcl : classify (shift_in (demod_bits h) b) = Ordinary).
  { destruct b; [done|]. rewrite F1. specialize (H5 eq_refl).
    by assert ((s =? 5) = false) as -> by (apply Z.eqb_neq; lia). }
  assert (Htr : trail (shift_in (demod_bits h) b) (if b then s + 1 else 0) = true)
    by by destruct b.
  rewrite step_ordinary by (done || lia). rewrite Hi, Hcc.
  pose proof (partial_step c k Hc Hk) as Hp. rewrite <- Hb in Hp.
  destruct (k =? 7) eqn:E; zbool.
  - rewrite E in *. rewrite <- Hb in Hp. split; [by rewrite Hp|].
    split_and!; cbn; auto using shift_in_byte.
  - split; [done|]. split_and!; cbn; auto using shift_in_byte.
Qed.

Lemma stuffed_bit c k h :
  in_byte c k 5 h ->
  let '(h', out) := hdlc_step h false in out = [] /\ in_byte c k 0 h'.
Proof.
  intros (Hr & Hi & Hcc & Hd & Ht).
  destruct (history _ 5 Hd ltac:(lia) Ht) as (F1 & F2 & F3 & F4).
  rewrite step_stuffed by done. split; [done|].
  split_and!; cbn; auto using shift_in_byte.
Qed.

Lemma bits_of_byte_drop c k :
  0 <= k < 8 ->
  drop (Z.to_nat k) (bits_of_byte c) = Z.testbit c k :: drop (Z.to_nat (k + 1)) (bits_of_byte c).
Proof.
  intros Hk.
  assert (C : k = 0 \/ k = 1 \/ k = 2 \/ k = 3 \/ k = 4 \/ k = 5 \/ k = 6 \/ k = 7) by lia.
  by destruct_or! C; subst k.
Qed.

Lemma stuff_end_range bs : forall s, 0 <= s <= 5 -> 0 <= stuff_end true s bs <= 5.
Proof.
  induction bs as [|b bs IH]; intros s Hs; cbn [stuff_end]; [done|].
  unfold BIT_STUFF_LEN. rewrite Z.geb_leb. cbn [andb]. destruct (5 <=? s) eqn:E; zbool;
    apply IH; destruct b; lia.
Qed.

(** The rest of a byte, stuffed, yields the byte. *)
Lemma run_rest c n : forall k s h,
  is_byte c -> 0 <= k < 8 -> (Z.to_nat (8 - k) = n)%nat -> 0 <= s <= 5 -> in_byte c k s h ->
  let bs := drop (Z.to_nat k) (bits_of_byte c) in
  let '(h', out) := hdlc_run h (stuff_bits true s bs) in
  out = escape_byte c /\ between (stuff_end true s bs) h'.
Proof.
  induction n as [|n IH]; intros k s h Hc Hk Hn Hs Hin; [lia|]. cbv zeta.
  rewrite bits_of_byte_drop by done. cbn [stuff_bits stuff_end]. unfold BIT_STUFF_LEN.
  (* after the bit [k], ordinary *)
  assert (Hgo : forall s h, 0 <= s <= 5 -> in_byte c k s h -> (s < 5 \/ Z.testbit c k = true) ->
    s < 5 -> let '(h', out) := hdlc_run h (Z.testbit c k :: stuff_bits true
      (if Z.testbit c k then s + 1 else 0) (drop (Z.to_nat (k + 1)) (bits_of_byte c))) in
    out = escape_byte c /\ between (stuff_end true (if Z.testbit c k then s + 1 else 0)
      (drop (Z.to_nat (k + 1)) (bits_of_byte c))) h').
  { clear s h Hs Hin. intros s h Hs Hin _ H5. cbn [hdlc_run].
    pose proof (ordinary_bit c k s (Z.testbit c k) h Hc Hk Hs Hin eq_refl ltac:(lia)) as Ho.
    destruct (hdlc_step h (Z.testbit c k)) as [h1 o1].
    destruct (k =? 7) eqn:E; zbool.
    - subst k. destruct Ho as [-> Ho]. change (drop (Z.to_nat (7 + 1)) (bits_of_byte c)) with (@nil bool).
      cbn. by rewrite app_nil_r.
    - destruct Ho as [-> Ho].
      assert (Hs' : 0 <= (if Z.testbit c k then s + 1 else 0) <= 5)
        by (destruct (Z.testbit c k); lia).
      pose proof (IH (k + 1) _ h1 Hc ltac:(lia) ltac:(lia) Hs' Ho) as Hih. cbv zeta in Hih.
      destruct (hdlc_run h1 _) as [h2 o2]. done. }
  rewrite Z.geb_leb. cbn [andb]. destruct (5 <=? s) eqn:E; zbool.
  - assert (s = 5) as -> by lia. cbn [hdlc_run].
    pose proof (stuffed_bit c k h Hin) as Hst.
    destruct (hdlc_step h false) as [h1 o1]. destruct Hst as [-> Hin1].
    specialize (Hgo 0 h1 ltac:(lia) Hin1 ltac:(by left; lia) ltac:(lia)).
    change (0 + 1) with 1 in Hgo. cbn [hdlc_run] in Hgo |- *.
    destruct (hdlc_step h1 (Z.testbit c k)) as [h2 o2].
    by destruct (hdlc_run h2 _) as [h3 o3].
  - by apply Hgo; [lia|done|left|].
Qed.

Lemma run_data c s h :
  is_byte c -> 0 <= s <= 5 -> between s h ->
  let '(h', out) := hdlc_run h (stuff_bits true s (bits_of_byte c)) in
  out = escape_byte c /\ between (stuff_end true s (bits_of_byte c)) h'.
Proof.
  intros Hc Hs (Hr & Hi & Hcc & Hd & Ht).
  apply (run_rest c 8 0 s h); try done; try lia. split_and!; try done.
  rewrite Hcc. unfold partial. cbn. by rewrite Z.mod_1_r.
Qed.

(** ** Flags *)

Definition flag_bits : list bool := bits_of_byte HDLC_FLAG.

Definition hdlc_eqb (a b : Hdlc) : bool :=
  (demod_bits a =? demod_bits b) && (bit_idx a =? bit_idx b) && (currchar a =? currchar b) &&
  Bool.eqb (rxstart a) (rxstart b).

Lemma hdlc_eqb_eq a b : hdlc_eqb a b = true -> a = b.
Proof.
  unfold hdlc_eqb. rewrite !andb_true_iff, !Z.eqb_eq, eqb_true_iff.
  destruct a, b; cbn. intros [[[-> ->] ->] ->]. done.
Qed.

Definition synced : Hdlc := mkHdlc HDLC_FLAG 0 0 true.

Lemma synced_between : between 0 synced.
Proof. by split_and!. Qed.

Definition flag_heard (d : Z) : bool :=
  let '(h', out) := hdlc_run (mkHdlc d 0 0 true) flag_bits in
  implb (existsb (trail d) [0; 1; 2; 3; 4; 5])
    (hdlc_eqb h' synced && bool_decide (out = [HDLC_FLAG])).

(** A flag between bytes, stuffing or not before it, is a flag. *)
Lemma run_flag s h :
  0 <= s <= 5 -> between s h -> hdlc_run h flag_bits = (synced, [HDLC_FLAG]).
Proof.
  intros Hs (Hr & Hi & Hcc & Hd & Ht). destruct h as [d i cc r].
  cbn in Hr, Hi, Hcc, Hd, Ht. subst.
  assert (Hall : flag_heard d = true).
  { apply (forall_byte flag_heard); [vm_compute; reflexivity|exact Hd]. }
  unfold flag_heard in Hall. destruct (hdlc_run _ _) as [h' out].
  assert (He : existsb (trail d) [0; 1; 2; 3; 4; 5] = true).
  { apply existsb_exists. exists s. split; [cbn; lia|done]. }
  rewrite He in Hall. cbn [implb] in Hall. apply andb_prop in Hall as [H1 H2].
  apply hdlc_eqb_eq in H1. apply bool_decide_eq_true in H2. by subst.
Qed.

(** ** Whole bursts *)

(** The bytes a receiver hands out for a token. *)
Definition token_bytes (t : token) : list Z :=
  match t with Raw c => [c] | Data c => escape_byte c end.

Definition token_ok (t : token) : Prop :=
  match t with Raw c => c = HDLC_FLAG | Data c => is_byte c end.

Lemma run_tokens ts : forall (on : bool) s s_h h,
  Forall token_ok ts -> 0 <= s_h <= 5 -> between s_h h -> (if on then s = s_h else s_h = 0) ->
  let '(h', out) := hdlc_run h (enc on s ts) in
  out = flat_map token_bytes ts /\ exists s', 0 <= s' <= 5 /\ between s' h'.
Proof.
  induction ts as [|t ts IH]; intros on s s_h h Hts Hs Hb Hon; [cbn; eauto|].
  apply Forall_cons in Hts as [Ht Hts]. cbn [enc flat_map]. rewrite hdlc_run_app.
  destruct t as [c|c]; cbn [tk_on tk_char token_ok] in *.
  - subst c. assert (Hraw : forall s1 bs, stuff_bits false s1 bs = bs).
    { intros s1 bs. revert s1. induction bs as [|b bs IHb]; intros s1; cbn; [done|].
      by rewrite IHb. }
    rewrite Hraw. change (bits_of_byte HDLC_FLAG) with flag_bits.
    rewrite (run_flag s_h h) by done.
    pose proof (IH false (stuff_end false (if on then s else 0) flag_bits) 0 synced Hts
      ltac:(lia) synced_between eq_refl) as Hih.
    destruct (hdlc_run synced _) as [h2 o2]. destruct Hih as [-> Hih]. done.
  - assert (Es : (if on then s else 0) = s_h) by (destruct on; congruence). rewrite Es.
    pose proof (run_data c s_h h Ht Hs Hb) as Hd.
    destruct (hdlc_run h _) as [h1 o1]. destruct Hd as [-> Hb1].
    pose proof (stuff_end_range (bits_of_byte c) s_h Hs) as Hs1.
    pose proof (IH true _ _ h1 Hts Hs1 Hb1 eq_refl) as Hih.
    destruct (hdlc_run h1 _) as [h2 o2]. destruct Hih as [-> Hih]. done.
Qed.

(** The receiver as [afsk_init] leaves it. *)
Definition hdlc_start : Hdlc := hdlc (demodulator afsk_init).

Lemma run_burst n m l :
  (0 < n)%nat -> bytes l ->
  let '(h', out) := hdlc_run hdlc_start (enc false 0 (flags n ++ map Data l ++ flags m)) in
  out = replicate n HDLC_FLAG ++ escaped l ++ replicate m HDLC_FLAG.
Proof.
  intros Hn Hl. destruct n as [|n]; [lia|].
  set (ts := flags n ++ map Data l ++ flags m).
  assert (Hts : Forall token_ok ts).
  { unfold ts, flags. rewrite !Forall_app. split_and!; [by apply Forall_replicate| |
      by apply Forall_replicate].
    apply Forall_map. eapply Forall_impl; [exact Hl|]. done. }
  change (flags (S n) ++ map Data l ++ flags m) with (Raw HDLC_FLAG :: ts).
  cbn [enc]. rewrite hdlc_run_app.
  change (hdlc_run hdlc_start (stuff_bits (tk_on (Raw HDLC_FLAG)) 0
    (bits_of_byte (tk_char (Raw HDLC_FLAG))))) with (synced, [HDLC_FLAG]).
  cbn [tk_on tk_char]. match goal with |- context [enc false ?s ts] =>
    pose proof (run_tokens ts false s 0 synced Hts ltac:(lia) synced_between eq_refl) as Hr;
    destruct (hdlc_run synced (enc false s ts)) as [h' out] end.
  destruct Hr as [-> _]. unfold ts, flags. rewrite !flat_map_app. cbn [app replicate].
  assert (Hf : forall k, flat_map token_bytes (replicate k (Raw HDLC_FLAG))
    = replicate k HDLC_FLAG) by (induction k as [|k IHk]; cbn; by f_equal).
  rewrite !Hf. do 3 f_equal.
  clear. induction l as [|c l IHl]; [done|]. cbn. by rewrite IHl.
Qed.
