(* ===== verification/HdlcCodec.v ===== *)
(** * The stand-alone HDLC codec: [bertos/net/hdlc.[ch]]

    A second HDLC implementation next to the one inside afsk.c: NRZI, stuffing,
    flags, checksum and framing in one state machine per direction. The firmware
    does not link it; it is the reference the modem's bits are held against. *)

From Stdlib Require Import ZArith Lia Bool List.
From stdpp Require Import prelude.
From S2P Require Import Prelude.
From S2P Require Import Crc.
From S2P Require Import Fifo.
From S2P Require Import Escape.
From S2P Require Import Afsk.
From S2P Require Import ModemTx.
From S2P Require Import Ax25Tx.

Open Scope Z_scope.

(** ** Constants and state of hdlc.h *)

Definition STATE_IDLE : Z := 1.
Definition RX_WAIT_FLAG : Z := STATE_IDLE.
Definition RX_WAIT_DATA : Z := 2.
Definition RX_IN_FRAME : Z := 3.
Definition TX_COMPLETE : Z := STATE_IDLE.
Definition TX_HEAD : Z := 2.
Definition TX_IN_FRAME : Z := 3.
Definition TX_CRC_LO : Z := 4.
Definition TX_CRC_HI : Z := 5.
Definition TX_TAIL : Z := 6.
Definition HDLC_ERROR_NONE : Z := 0.
Definition HDLC_ERROR_OVERRUN : Z := 1.
Definition HDLC_ERROR_CRC : Z := 2.
Definition HDLC_ERROR_ABORT : Z := 3.
Definition HDLC_PKT_AVAILABLE : Z := 4.
Definition HDLC_GOOD_CRC : Z := 0x4f85.

(** [struct Hdlc] of hdlc.h. *)
Record HdlcC := mkHdlcC {
  ones_count : Z;
  flag_count : Z;
  TXhead : Z;
  TXtail : Z;
  this_byte : Z;
  h_bit_idx : Z;
  last_bit : Z;
  h_crc : Z;
  saved_crc : Z;
  h_state : Z;
  h_error : Z
}.

(** Field assignments. *)
Definition set_ones_count (v : Z) (h : HdlcC) : HdlcC :=
  mkHdlcC v (flag_count h) (TXhead h) (TXtail h) (this_byte h) (h_bit_idx h) (last_bit h) (h_crc h) (saved_crc h) (h_state h) (h_error h).
Definition set_flag_count (v : Z) (h : HdlcC) : HdlcC :=
  mkHdlcC (ones_count h) v (TXhead h) (TXtail h) (this_byte h) (h_bit_idx h) (last_bit h) (h_crc h) (saved_crc h) (h_state h) (h_error h).
Definition set_TXhead (v : Z) (h : HdlcC) : HdlcC :=
  mkHdlcC (ones_count h) (flag_count h) v (TXtail h) (this_byte h) (h_bit_idx h) (last_bit h) (h_crc h) (saved_crc h) (h_state h) (h_error h).
Definition set_TXtail (v : Z) (h : HdlcC) : HdlcC :=
  mkHdlcC (ones_count h) (flag_count h) (TXhead h) v (this_byte h) (h_bit_idx h) (last_bit h) (h_crc h) (saved_crc h) (h_state h) (h_error h).
Definition set_this_byte (v : Z) (h : HdlcC) : HdlcC :=
  mkHdlcC (ones_count h) (flag_count h) (TXhead h) (TXtail h) v (h_bit_idx h) (last_bit h) (h_crc h) (saved_crc h) (h_state h) (h_error h).
Definition set_h_bit_idx (v : Z) (h : HdlcC) : HdlcC :=
  mkHdlcC (ones_count h) (flag_count h) (TXhead h) (TXtail h) (this_byte h) v (last_bit h) (h_crc h) (saved_crc h) (h_state h) (h_error h).
Definition set_last_bit (v : Z) (h : HdlcC) : HdlcC :=
  mkHdlcC (ones_count h) (flag_count h) (TXhead h) (TXtail h) (this_byte h) (h_bit_idx h) v (h_crc h) (saved_crc h) (h_state h) (h_error h).
Definition set_h_crc (v : Z) (h : HdlcC) : HdlcC :=
  mkHdlcC (ones_count h) (flag_count h) (TXhead h) (TXtail h) (this_byte h) (h_bit_idx h) (last_bit h) v (saved_crc h) (h_state h) (h_error h).
Definition set_saved_crc (v : Z) (h : HdlcC) : HdlcC :=
  mkHdlcC (ones_count h) (flag_count h) (TXhead h) (TXtail h) (this_byte h) (h_bit_idx h) (last_bit h) (h_crc h) v (h_state h) (h_error h).
Definition set_h_state (v : Z) (h : HdlcC) : HdlcC :=
  mkHdlcC (ones_count h) (flag_count h) (TXhead h) (TXtail h) (this_byte h) (h_bit_idx h) (last_bit h) (h_crc h) (saved_crc h) v (h_error h).
Definition set_h_error (v : Z) (h : HdlcC) : HdlcC :=
  mkHdlcC (ones_count h) (flag_count h) (TXhead h) (TXtail h) (this_byte h) (h_bit_idx h) (last_bit h) (h_crc h) (saved_crc h) (h_state h) v.

(** ** Operations *)

Definition hdlccrcBit (h : HdlcC) (lsb_int : bool) : HdlcC :=
  let last := Z.lxor (h_crc h) (b2z lsb_int) in
  let h := set_h_crc (Z.shiftr (h_crc h) 1) h in
  if negb (Z.land last 1 =? 0) then set_h_crc (Z.lxor (h_crc h) 0x8408) h else h.

Definition hdlc_store_bit (h : HdlcC) (bit : bool) (fifo : FIFOBuffer) : Z * HdlcC * FIFOBuffer :=
  let h := set_this_byte (Z.shiftr (this_byte h) 1) h in
  let h := set_this_byte (Z.lor (this_byte h) (if bit then 0x80 else 0)) h in
  let h := set_h_bit_idx (u8 (h_bit_idx h + 1)) h in
  let h := hdlccrcBit h bit in
  if h_bit_idx h >=? 8 then
    let h := set_h_bit_idx 0 h in
    let h := if h_state h =? RX_WAIT_DATA then set_h_state RX_IN_FRAME h else h in
    if h_state h =? RX_IN_FRAME then
      if fifo_isfull fifo then (HDLC_ERROR_OVERRUN, h, fifo)
      else (HDLC_ERROR_NONE, h, fifo_push fifo (this_byte h))
    else (HDLC_ERROR_NONE, h, fifo)
  else (HDLC_ERROR_NONE, h, fifo).

Definition hdlc_decode (h : HdlcC) (bit : bool) (fifo : FIFOBuffer) : Z * HdlcC * FIFOBuffer :=
  let this_bit := negb (Z.testbit (Z.lxor (b2z bit) (last_bit h)) 0) in
  let h := set_last_bit (b2z bit) h in
  if this_bit then
    let h := if ones_count h <? 8 then set_ones_count (u8 (ones_count h + 1)) h else h in
    hdlc_store_bit h true fifo
  else if ones_count h >? 6 then
    let h := set_h_bit_idx 0 (set_h_crc 0xffff (set_h_state RX_WAIT_FLAG h)) in
    (HDLC_ERROR_ABORT, set_ones_count 0 h, fifo_flush fifo)
  else if ones_count h =? 6 then
    let h := set_ones_count 0 h in
    let '(ret, fifo) :=
      if h_state h =? RX_IN_FRAME then
        if h_crc h =? HDLC_GOOD_CRC then (HDLC_PKT_AVAILABLE, fifo)
        else (HDLC_ERROR_CRC, fifo_flush fifo)
      else (HDLC_ERROR_NONE, fifo_flush fifo) in
    let h := set_h_state RX_WAIT_DATA h in
    (ret, set_ones_count 0 (set_h_bit_idx 0 (set_h_crc 0xffff h)), fifo)
  else if ones_count h =? 5 then (HDLC_ERROR_NONE, set_ones_count 0 h, fifo)
  else hdlc_store_bit (set_ones_count 0 h) false fifo.

(** The [switch] that tops the byte up; [false]: nothing left to send. *)
Definition hdlc_next_byte (h : HdlcC) (fifo : FIFOBuffer) : bool * HdlcC * FIFOBuffer :=
  let h := set_h_bit_idx 0 h in
  if h_state h =? TX_HEAD then
    let h := set_flag_count (u8 (flag_count h - 1)) h in
    if flag_count h =? 0 then
      let '(c, fifo) := fifo_pop fifo in
      let h := set_this_byte c h in
      (true, set_h_state TX_IN_FRAME (set_ones_count 0 (set_h_bit_idx 0 (set_h_crc 0xffff h))),
       fifo)
    else (true, set_this_byte 0x7e h, fifo)
  else if h_state h =? TX_IN_FRAME then
    if fifo_isempty fifo then
      let h := set_saved_crc (h_crc h) (set_h_state TX_CRC_LO h) in
      (true, set_this_byte (Z.lxor (Z.land (saved_crc h) 0xff) 0xff) h, fifo)
    else let '(c, fifo) := fifo_pop fifo in (true, set_this_byte c h, fifo)
  else if h_state h =? TX_CRC_LO then
    (true, set_this_byte (u8 (Z.lxor (Z.shiftr (saved_crc h) 8) 0xff)) (set_h_state TX_CRC_HI h),
     fifo)
  else if h_state h =? TX_CRC_HI then
    (true, set_flag_count (TXtail h) (set_this_byte 0x7e (set_h_state TX_TAIL h)), fifo)
  else if h_state h =? TX_TAIL then
    let h := set_flag_count (u8 (flag_count h - 1)) h in
    let h := if flag_count h =? 0 then set_h_state TX_COMPLETE h else h in
    (true, set_this_byte 0x7e h, fifo)
  else if h_state h =? TX_COMPLETE then
    if negb (fifo_isempty fifo) then
      (true, set_this_byte 0x7e (set_h_state TX_HEAD (set_flag_count (TXhead h) h)), fifo)
    else (false, h, fifo)
  else (true, h, fifo).

(** Returns the level to put out, or -1. *)
Definition hdlc_encode (h : HdlcC) (fifo : FIFOBuffer) : Z * HdlcC * FIFOBuffer :=
  let '(more, data, h, fifo) :=
    if (ones_count h =? 5) && (negb (h_state h =? TX_HEAD) && negb (h_state h =? TX_TAIL)) then
      (true, 0, set_ones_count 0 h, fifo)
    else
      let '(more, h, fifo) :=
        if h_bit_idx h >=? 8 then hdlc_next_byte h fifo else (true, h, fifo) in
      if more then
        let data := Z.land (this_byte h) 1 in
        let h := if negb (data =? 0) then set_ones_count (u8 (ones_count h + 1)) h else h in
        let h := set_this_byte (Z.shiftr (this_byte h) 1) h in
        let h := set_h_bit_idx (u8 (h_bit_idx h + 1)) h in
        (true, data, hdlccrcBit h (negb (data =? 0)), fifo)
      else (false, 0, h, fifo) in
  if more then
    let h := if data =? 0
             then set_ones_count 0 (set_last_bit (Z.lxor (last_bit h) 0x01) h) else h in
    (Z.land (last_bit h) 0x01, h, fifo)
  else (-1, h, fifo).

Definition hdlc_head (h : HdlcC) (head bitrate : Z) : HdlcC :=
  set_TXhead (u8 (DIV_ROUND (u16 (head * bitrate)) 8000)) h.

Definition hdlc_tail (h : HdlcC) (tail bitrate : Z) : HdlcC :=
  set_TXtail (u8 (DIV_ROUND (u16 (tail * bitrate)) 8000)) h.

Definition hdlc_init (h : HdlcC) : HdlcC :=
  set_h_error HDLC_ERROR_NONE (set_h_bit_idx 0 (set_ones_count 0 (set_h_state STATE_IDLE h))).

(** ** The codec's checksum is the table's *)

Lemma hdlccrcBit_crc h b : h_crc (hdlccrcBit h b) = crc_bit (h_crc h) b.
Proof.
  unfold hdlccrcBit, crc_bit. cbn.
  assert (E : negb (Z.land (Z.lxor (h_crc h) (b2z b)) 1 =? 0) = xorb (Z.testbit (h_crc h) 0) b).
  { change 1 with (Z.ones 1) at 1. rewrite Z.land_ones by lia. change (2 ^ 1) with 2.
    rewrite <- Z.bit0_mod, Z.lxor_spec.
    assert (Z.testbit (b2z b) 0 = b) as -> by by destruct b.
    by destruct (xorb _ b). }
  rewrite E. destruct (xorb _ b); cbn; [done|]. by rewrite Z.lxor_0_r.
Qed.

(** ** Listening to the modem *)

(** The levels of a sequence of NRZI bits: a zero changes the level. *)
Fixpoint nrzi (level : bool) (bits : list bool) : list bool :=
  match bits with
  | [] => []
  | b :: bits' => let level := if b then level else negb level in level :: nrzi level bits'
  end.

(** What [hdlc_decode] returns for each level, leaving out [HDLC_ERROR_NONE]; a
    packet is recorded with the bytes it left queued, which are then read. *)
Fixpoint hdlc_listen (h : HdlcC) (fifo : FIFOBuffer) (levels : list bool) : list (Z * list Z) :=
  match levels with
  | [] => []
  | b :: levels' =>
      let '(ret, h, fifo) := hdlc_decode h b fifo in
      if ret =? HDLC_ERROR_NONE then hdlc_listen h fifo levels'
      else (ret, contents fifo) :: hdlc_listen h (fifo_flush fifo) levels'
  end.

Definition hdlc_fresh : HdlcC := hdlc_init (mkHdlcC 0 0 0 0 0 0 0 0xffff 0 0 0).
