(* ===== verification/Link.v ===== *)
(** * From one station's AX.25 layer to another's, over the air

    The theorems of Ax25Tx.v, Modem.v, ModemRx.v and Ax25Rx.v composed: frames
    sent with [ax25_sendRaw] over the modem, every bit of the burst heard by
    the HDLC receiver of another station, its bytes read by [ax25_poll]. The
    analog path between the two is taken to deliver the bits. *)

From Stdlib Require Import ZArith Lia Bool List.
From stdpp Require Import prelude.
From S2P Require Import Prelude.
From S2P Require Import Crc.
From S2P Require Import Fifo.
From S2P Require Import KFile.
From S2P Require Import Escape.
From S2P Require Import Afsk.
From S2P Require Import Ax25.
From S2P Require Import Ax25Tx.
From S2P Require Import Ax25Rx.
From S2P Require Import Ax25Link.
From S2P Require Import ModemTx.
From S2P Require Import Modem.
From S2P Require Import ModemRx.
From S2P Require Import HdlcCodec.

Open Scope Z_scope.

(** ** The stream of a frame on the air *)

Lemma toks_special c l :
  c <> AX25_ESC -> hdlc_special c = false -> toks (c :: l) = Data c :: toks l.
Proof.
  intros Hc Hs. rewrite toks_cons by done. unfold hdlc_special in Hs.
  apply orb_false_elim in Hs as [Hs _]. by rewrite Hs.
Qed.

Lemma toks_escaped l rest : toks (escaped l ++ rest) = map Data l ++ toks rest.
Proof.
  induction l as [|c l IH]; [done|]. cbn [escaped flat_map map]. unfold escape_byte.
  rewrite <- app_assoc. destruct (hdlc_special c) eqn:E.
  - cbn [app toks]. rewrite Z.eqb_refl. cbn. by rewrite <- IH.
  - cbn [app]. rewrite toks_special; [by rewrite <- IH| |done].
    by apply hdlc_special_false in E as (_ & _ & ?).
Qed.

Lemma esc_ok_escaped l rest : esc_ok (escaped l ++ rest) = esc_ok rest.
Proof.
  induction l as [|c l IH]; [done|]. cbn [escaped flat_map]. unfold escape_byte.
  rewrite <- app_assoc. destruct (hdlc_special c) eqn:E.
  - cbn [app esc_ok]. rewrite Z.eqb_refl. exact IH.
  - cbn [app esc_ok]. apply hdlc_special_false in E as (_ & _ & E).
    apply Z.eqb_neq in E. rewrite E. exact IH.
Qed.

Lemma esc_ok_frame l : esc_ok (frame_stream l) = true.
Proof.
  unfold frame_stream. cbn [esc_ok]. change (HDLC_FLAG =? AX25_ESC) with false. cbv iota.
  by rewrite esc_ok_escaped.
Qed.

(** The burst of one frame: the stream's own flags join preamble and trailer. *)
Lemma burst_frame l :
  burst_bits (frame_stream l) =
    enc false 0 (flags 54 ++ map Data (with_fcs l) ++ flags 12).
Proof.
  unfold burst_bits. change (Z.to_nat preamble_flags) with 53%nat.
  change (Z.to_nat trailer_flags) with 11%nat.
  assert (Ht : toks (frame_stream l) = Raw HDLC_FLAG :: map Data (with_fcs l) ++ [Raw HDLC_FLAG]).
  { change (Raw HDLC_FLAG :: toks (escaped (with_fcs l) ++ [HDLC_FLAG])
      = Raw HDLC_FLAG :: map Data (with_fcs l) ++ [Raw HDLC_FLAG]).
    by rewrite toks_escaped. }
  rewrite Ht. cbn [app]. by rewrite <- app_assoc.
Qed.

(** ** A receiving station whose queue is read after every bit *)

Fixpoint hear (h : Hdlc) (q : FIFOBuffer) (led : bool) (bits : list bool) : list Z :=
  match bits with
  | [] => []
  | b :: bits' =>
      let '(_, h', q', led') := hdlc_parse h b q led in
      let '(buf, q'') := afsk_read q' 64 in
      buf ++ hear h' q'' led' bits'
  end.

Lemma hdlc_step_length h b : (length (snd (hdlc_step h b)) <= 2)%nat.
Proof.
  unfold hdlc_step. repeat case_match; cbn; try lia; apply length_escape_byte.
Qed.

Lemma hear_run bits : forall h q led,
  hdlc_wf h -> fifo_wf q -> capacity q = 63 -> contents q = [] ->
  hear h q led bits = snd (hdlc_run h bits).
Proof.
  induction bits as [|b bits IH]; intros h q led Hh Hq Hcap He; [done|]. cbn [hear hdlc_run].
  destruct (hdlc_parse_step h b q led Hh Hq) as (q' & led' & -> & Hc & Hw & Hcap').
  { rewrite He, Hcap. cbn. lia. }
  rewrite He in Hc. cbn [app] in Hc.
  pose proof (afsk_read_spec 64 q' Hw) as Hr. destruct (afsk_read q' 64) as [buf q''].
  destruct Hr as (-> & Hc'' & Hw'' & Hcap'').
  pose proof (hdlc_step_length h b). pose proof (hdlc_step_wf h b Hh) as Hh'.
  rewrite Hc, take_ge by lia. rewrite Hc, drop_ge in Hc'' by lia.
  destruct (hdlc_step h b) as [h1 o1]. cbn [fst snd] in *.
  rewrite IH by (done || congruence). by destruct (hdlc_run h1 bits).
Qed.

Definition rx_queue : FIFOBuffer := rx_fifo (demodulator afsk_init).

Lemma rx_flags n s :
  r_esc s = false -> r_frame s = [] ->
  exists b, rx_run s (replicate n HDLC_FLAG) = (mkRx b false [], []).
Proof.
  revert s. induction n as [|n IH]; intros s He Hf.
  - exists (r_sync s). destruct s; cbn in *; by subst.
  - cbn [replicate rx_run]. assert (rx_char s HDLC_FLAG = (mkRx true false [], [])) as ->.
    { unfold rx_char. by rewrite He, Hf. }
    destruct (IH (mkRx true false [])) as [b ->]; [done..|]. by exists b.
Qed.

(** More flags around a frame change nothing. *)
Lemma rx_flags_frame n m l :
  frame_sized l ->
  rx_run rx_start (replicate (S n) HDLC_FLAG ++ escaped (with_fcs l) ++
    replicate (S m) HDLC_FLAG) = (mkRx true false [], [Delivered (with_fcs l)]).
Proof.
  intros Hl.
  assert (E : replicate (S n) HDLC_FLAG ++ escaped (with_fcs l) ++ replicate (S m) HDLC_FLAG
    = replicate n HDLC_FLAG ++ frame_stream l ++ replicate m HDLC_FLAG).
  { unfold frame_stream. rewrite replicate_S_end, <- !app_assoc. cbn [app].
    by rewrite <- app_assoc. }
  rewrite E, rx_run_app. destruct (rx_flags n rx_start) as [b ->]; [done..|].
  rewrite rx_run_app, rx_frame_stream by done.
  assert (Hm : rx_run (mkRx true false []) (replicate m HDLC_FLAG) = (mkRx true false [], [])).
  { clear. induction m as [|m IH]; [done|]. cbn [replicate rx_run].
    assert (rx_char (mkRx true false []) HDLC_FLAG = (mkRx true false [], [])) as -> by done.
    by rewrite IH. }
  by rewrite Hm.
Qed.

Lemma payload_of_fcs l : take (length l + 2 - 2) (with_fcs l) = l.
Proof.
  unfold with_fcs. replace (length l + 2 - 2)%nat with (length l) by lia. apply take_app_length.
Qed.

(** ** Sending a frame over the modem *)

Section Send.
Variable antenna : nat -> Z.
#[local] Hint Extern 0 (KFile Modem) => exact (modem_kfile antenna) : typeclass_instances.

Lemma sendRaw_on_air (tx : AX25Ctx Modem) l :
  at_rest (ax_ch tx) -> bytes l ->
  at_rest (ax_ch (ax25_sendRaw tx l)) /\
  md_air (ax_ch (ax25_sendRaw tx l)) =
    md_air (ax_ch tx) ++ enc false 0 (flags 54 ++ map Data (with_fcs l) ++ flags 12) /\
  crc_out (ax25_sendRaw tx l) = AX25_CRC_CORRECT.
Proof.
  intros Hrest Hl.
  pose (sink := modem_sink antenna (md_air (ax_ch tx)) (md_out (ax_ch tx))).
  assert (Hok : kk_ok (KSink := sink) (ax_ch tx)).
  { exists []. by rewrite app_nil_r. }
  destruct (sendRaw_unflushed (H0 := sink) tx l Hl Hok I) as (ch & E & (ws & Hws & Hwr) & Ho & _).
  cbn in Ho. rewrite Ho in Hws. apply app_inv_head in Hws. subst ws.
  destruct (flush_written antenna _ _ _ Hwr) as (md' & Ef & H1 & H2 & _); [done|apply esc_ok_frame|].
  assert (Es : ax25_sendRaw tx l = ax25_tx_done (ctx_flush
    (ax25_send_tail (ax25_putchars (ax25_send_head tx) l)))) by done.
  rewrite Es, E. unfold ctx_flush, ax25_tx_done. cbn [ax_ch set_tx_ok set_ax_ch set_crc_out].
  rewrite Ef. cbn. by rewrite H2, burst_frame.
Qed.
End Send.

(** The bits a call of [ax25_sendRaw] puts on the air. *)
Definition bits_on_air (antenna : nat -> Z) (tx : AX25Ctx Modem) (l : list Z) : list bool :=
  drop (length (md_air (ax_ch tx)))
    (md_air (ax_ch (ax25_sendRaw (H := modem_kfile antenna) tx l))).

Lemma radio_heard antenna tx l :
  at_rest (ax_ch tx) -> bytes l ->
  hear hdlc_start rx_queue false (bits_on_air antenna tx l) =
    replicate 54 HDLC_FLAG ++ escaped (with_fcs l) ++ replicate 12 HDLC_FLAG.
Proof.
  intros Hrest Hl. unfold bits_on_air.
  destruct (sendRaw_on_air antenna tx l Hrest Hl) as (_ & -> & _).
  rewrite drop_app_length, hear_run; [|decide_closed|apply fifo_init_wf; done|done|done].
  pose proof (run_burst 54 12 (with_fcs l) ltac:(lia) (with_fcs_bytes l Hl)) as Hrun.
  by destruct (hdlc_run hdlc_start _).
Qed.

(** C1: a frame makes it across. A station at rest sends any 16 to 328 bytes
    with [ax25_sendRaw] over its modem: the call ends with the transmitter
    released, and if another station's receiver hears the bits that went on the
    air, its [ax25_poll] calls the hook once, with exactly these bytes. *)
Theorem radio_link {G : Type} `{KSource G} (antenna : nat -> Z)
    (tx : AX25Ctx Modem) (l : list Z) (ch : G)
    (stack : AX25Ctx G -> list (list Z) -> AX25Msg)
    (Hrest : at_rest (ax_ch tx)) (Hl : bytes l) (Hsize : frame_sized l)
    (Hch : ks_ok ch)
    (Hin : ks_in ch = hear hdlc_start rx_queue false (bits_on_air antenna tx l)) :
  at_rest (ax_ch (ax25_sendRaw (H := modem_kfile antenna) tx l)) /\
  exists rx',
    ax25_poll raw_hook stack (S (length (ks_in ch)))
      (set_pass_through true (ax25_init ch true)) [] = Some (rx', [l]) /\
    u32 (rx_ok rx') = 1.
Proof.
  split; [apply (sendRaw_on_air antenna tx l Hrest Hl)|].
  rewrite radio_heard in Hin by done.
  set (stream := replicate 54 HDLC_FLAG ++ escaped (with_fcs l) ++ replicate 12 HDLC_FLAG) in *.
  assert (Hrx : rx_run rx_start stream = (mkRx true false [], [Delivered (with_fcs l)]))
    by by apply rx_flags_frame.
  destruct (ax25_poll_frames raw_hook stack (fun m ctx w Hk => rx_same_refl ctx Hk) true
    (fun f => frame_sized (take (length f - 2) f))
    (fun f w => w ++ [take (length f - 2) f]) ltac:(intros; by apply raw_hook_obs)
    (set_pass_through true (ax25_init ch true)) [] rx_start stream
    (S (length (ks_in ch)))) as (rx' & w' & E & _ & _ & Hcnt & _ & Hw).
  - rewrite Hin. lia.
  - by apply fresh_state.
  - rewrite Hrx. constructor; [|constructor]. by rewrite length_with_fcs, payload_of_fcs.
  - exists rx'. rewrite E, Hcnt, Hrx, Hw, Hrx. split; [|done].
    do 2 f_equal. cbn [snd delivered omap list_omap fold_left app].
    by rewrite length_with_fcs, payload_of_fcs.
Qed.

(** A channel holding given bytes. *)
Definition mem_channel (l : list Z) : KFileMem.KFileMem :=
  KFileMem.kfilemem_init l (Z.of_nat (length l)).

Lemma mem_channel_ok l : bytes l -> ks_ok (KSource := KFileMem.kfilemem_source) (mem_channel l).
Proof. intros Hl. split_and!; cbn; (done || lia). Qed.

Lemma radio_link_witness :
  let l := replicate 20 0x7E in
  let tx := ax25_init new_modem true in
  let ch := mem_channel (hear hdlc_start rx_queue false (bits_on_air silence tx l)) in
  at_rest (ax_ch (ax25_sendRaw (H := modem_kfile silence) tx l)) /\
  exists rx',
    ax25_poll (H := KFileMem.kfilemem) raw_hook blank_stack
      (S (length (ks_in (KSource := KFileMem.kfilemem_source) ch)))
      (set_pass_through true (ax25_init ch true)) [] = Some (rx', [l]) /\
    u32 (rx_ok rx') = 1.
Proof.
  apply (radio_link (H0 := KFileMem.kfilemem_source) silence (ax25_init new_modem true)
    (replicate 20 0x7E)
    (mem_channel (hear hdlc_start rx_queue false
      (bits_on_air silence (ax25_init new_modem true) (replicate 20 0x7E)))) blank_stack).
  - exact new_modem_at_rest.
  - decide_closed.
  - vm_compute. split; congruence.
  - apply mem_channel_ok. rewrite radio_heard; [decide_closed|exact new_modem_at_rest|decide_closed].
  - reflexivity.
Defined.

(** ** The zero that is not stuffed *)

(** What the codec of hdlc.c makes of the bits [ax25_sendRaw] puts on the air. *)
Definition heard_by_codec (antenna : nat -> Z) (tx : AX25Ctx Modem) (l : list Z)
  : list (Z * list Z) :=
  hdlc_listen hdlc_fresh (fifo_init (zeros 400) 400) (nrzi false (bits_on_air antenna tx l)).

(** A frame whose checksum ends with five ones. *)
Definition ones_frame : list Z := replicate 15 65 ++ [2].

(** The modem does not stuff the zero that HDLC requires when five ones end
    a frame, because the closing flag's character switches stuffing off first.
    Its own receiver does not care, but a receiver that counts bits does: the
    codec of hdlc.c takes an ordinary frame of this modem for a packet, and
    rejects with a checksum error one whose checksum ends with five ones. *)
Theorem modem_omits_final_stuffing (antenna : nat -> Z) (tx : AX25Ctx Modem)
    (Hrest : at_rest (ax_ch tx)) :
  heard_by_codec antenna tx (replicate 16 65)
    = [(HDLC_PKT_AVAILABLE, with_fcs (replicate 16 65))] /\
  heard_by_codec antenna tx ones_frame = [(HDLC_ERROR_CRC, [])].
Proof.
  unfold heard_by_codec, bits_on_air.
  destruct (sendRaw_on_air antenna tx (replicate 16 65) Hrest ltac:(decide_closed)) as (_ & -> & _).
  destruct (sendRaw_on_air antenna tx ones_frame Hrest ltac:(decide_closed)) as (_ & -> & _).
  rewrite !drop_app_length. split; vm_compute; reflexivity.
Qed.

Lemma modem_omits_final_stuffing_witness :
  let tx := ax25_init new_modem true in
  heard_by_codec silence tx (replicate 16 65)
    = [(HDLC_PKT_AVAILABLE, with_fcs (replicate 16 65))] /\
  heard_by_codec silence tx ones_frame = [(HDLC_ERROR_CRC, [])].
Proof.
  apply (modem_omits_final_stuffing silence (ax25_init new_modem true)).
  exact new_modem_at_rest.
Defined.
