(* ===== verification/Utils.v ===== *)
(** * Small helpers: [TinyAPRS/utils.c]

    Callsigns to text and back, the checksum of the configuration protocol, and
    strings in program memory. [freeRam] and [soft_reset] are about the
    hardware only and are not here. *)

From Stdlib Require Import ZArith Lia Bool List.
From stdpp Require Import prelude.
From S2P Require Import Prelude.
From S2P Require Import Libc.
From S2P Require Import KFile.
From S2P Require Import Ax25.
From S2P Require Import Ax25Decode.

Open Scope Z_scope.

(** ** Operations *)

Section PrintP.
Context {F : Type} `{KFile F}.

(** The loop is that of [kfile_print]; program memory reads as memory. *)
Definition kfile_print_P (fd : F) (s : list Z) : Z * F := kfile_print fd s.
End PrintP.

(** What [ax25call_to_string] writes to its buffer, terminator included; the
    number of characters is its result. *)
Definition ax25call_to_string (c : AX25Call) : list Z :=
  let name := take (strnlen (take 6 (call c))) (call c) in
  let s := Z.land (ssid c) 0x7f in
  let suffix :=
    if s >? 0 then
      45 :: (if s <? 10 then [s + 48]
             else let t := s / 10 in [t + 48; (s - t * 10) + 48])
    else [] in
  name ++ suffix ++ (if negb (Z.land (ssid c) 0x80 =? 0) then [42] else []) ++ [0].

(** The loop over the characters; [state] is false while in the call. *)
Fixpoint call_scan (buf : list Z) (i : Z) (state : bool) (c : AX25Call) : AX25Call :=
  match buf with
  | [] => c
  | ch :: buf' =>
      if ch =? 0 then c
      else if negb state then
        if ch =? 45 then call_scan buf' (i + 1) true c
        else if i >=? 6 then call_scan buf' (i + 1) false c
        else call_scan buf' (i + 1) false (mkCall (upd (call c) i (toupper ch)) (ssid c))
      else if (48 <=? ch) && (ch <=? 57)
      then call_scan buf' (i + 1) true (mkCall (call c) (u8 (ssid c * 10 + (ch - 48))))
      else call_scan buf' (i + 1) true c
  end.

(** The length is kept in a byte. *)
Definition ax25call_from_string (buf : list Z) : AX25Call :=
  let len := u8 (Z.of_nat (strnlen buf)) in
  call_scan (take (Z.to_nat len) buf) 0 false (mkCall (zeros 6) 0).

(** [for(;i<size;i++)] with [i] an 8-bit integer; [None]: still running. *)
Fixpoint calc_crc_loop (fuel : nat) (data : list Z) (size i sum : Z) : option Z :=
  match fuel with
  | O => None
  | S fuel' =>
      if i <? size then calc_crc_loop fuel' data size (u8 (i + 1)) (u8 (sum + get data i))
      else Some (u8 (Z.lnot sum))
  end.

Definition calc_crc (fuel : nat) (data : list Z) (size : Z) : option Z :=
  calc_crc_loop fuel data size 0 0.

(** ** Callsigns *)

(** A well-formed call, written out. *)
Lemma to_string_wf name k s :
  Forall (fun c => call_char c = true) name -> (length name + k = 6)%nat -> 0 <= s < 100 ->
  ax25call_to_string (mkCall (name ++ replicate k 0) s) =
    name ++ (if s =? 0 then [] else if s <? 10 then [45; s + 48]
             else [45; s / 10 + 48; s mod 10 + 48]) ++ [0].
Proof.
  intros Hn Hk Hs. unfold ax25call_to_string. cbn [call ssid].
  rewrite (take_ge (name ++ replicate k 0) 6) by (rewrite length_app, length_replicate; lia).
  rewrite strnlen_name, take_app_length by done. f_equal.
  assert (Hbyte : is_byte s) by (unfold is_byte; lia).
  assert (Hland : forall b, is_byte b -> implb (b <? 128)
    ((Z.land b 0x7f =? b) && (Z.land b 0x80 =? 0)) = true)
    by (apply forall_byte; vm_compute; reflexivity).
  specialize (Hland s Hbyte). assert ((s <? 128) = true) as Hlt by (apply Z.ltb_lt; lia).
  rewrite Hlt in Hland. cbn [implb] in Hland. apply andb_prop in Hland as [H1 H2].
  apply Z.eqb_eq in H1. rewrite H1, H2. cbn [negb app].
  destruct (s =? 0) eqn:E0; zbool; [by subst|].
  assert ((s >? 0) = true) as -> by (rewrite Z.gtb_ltb; apply Z.ltb_lt; lia).
  destruct (s <? 10); [done|]. cbn [app]. do 3 f_equal. zlia.
Qed.

Lemma scan_name name : forall pre rest,
  Forall (fun c => call_char c = true) name -> (length pre + length name <= 6)%nat ->
  call_scan (name ++ rest) (Z.of_nat (length pre)) false
    (mkCall (pre ++ replicate (6 - length pre) 0) 0) =
  call_scan rest (Z.of_nat (length pre + length name)) false
    (mkCall (pre ++ name ++ replicate (6 - (length pre + length name)) 0) 0).
Proof.
  induction name as [|c name IH]; intros pre rest Hn Hl.
  - cbn. by rewrite Nat.add_0_r.
  - apply Forall_cons in Hn as [Hc Hn]. pose proof (call_char_props c Hc) as (H0 & Hup & _).
    cbn [app length call_scan] in *.
    assert ((c =? 0) = false) as -> by (by apply Z.eqb_neq).
    assert (Hne : c <> 45).
    { intros ->. done. }
    assert ((c =? 45) = false) as -> by (by apply Z.eqb_neq). cbn [negb].
    assert ((Z.of_nat (length pre) >=? 6) = false) as ->
      by (rewrite Z.geb_leb; apply Z.leb_gt; lia).
    cbn [call ssid]. rewrite Hup.
    replace (6 - length pre)%nat with (S (6 - length (pre ++ [c])))
      by (rewrite length_app; cbn; lia).
    cbn [replicate]. rewrite upd_app.
    replace (pre ++ c :: replicate (6 - length (pre ++ [c])) 0)
      with ((pre ++ [c]) ++ replicate (6 - length (pre ++ [c])) 0) by (by rewrite <- app_assoc).
    replace (Z.of_nat (length pre) + 1) with (Z.of_nat (length (pre ++ [c])))
      by (rewrite length_app; cbn; lia).
    rewrite IH by (try done; rewrite length_app; cbn; lia).
    rewrite length_app. cbn [length]. rewrite <- app_assoc. cbn [app].
    replace (length pre + 1 + length name)%nat with (length pre + S (length name))%nat by lia.
    done.
Qed.

Lemma strnlen_app_0 l rest :
  Forall (fun c => c <> 0) l -> strnlen (l ++ 0 :: rest) = length l.
Proof.
  intros Hl. induction Hl as [|c l Hc Hl IH]; [done|]. cbn. apply Z.eqb_neq in Hc.
  by rewrite Hc, IH.
Qed.

(** A callsign of up to six capitals and digits, and an ssid of up to two digits. *)
Definition wf_call (a : AX25Call) : Prop :=
  exists name k, Forall (fun c => call_char c = true) name /\ call a = name ++ replicate k 0 /\
    (length name + k = 6)%nat /\ 0 <= ssid a < 100.

(** The characters of its text. *)
Definition text_char (c : Z) : Prop := call_char c = true \/ c = 45.

Lemma text_char_props c : text_char c -> c <> 0 /\ toupper c = c /\ c <> 44 /\ 0 <= c < 128.
Proof.
  intros [Hc| ->]; [|done]. pose proof (call_char_props c Hc) as (? & ? & ? & ?).
  split_and!; try done; [|lia..]. by intros ->.
Qed.

(** The suffix of an ssid, and how it is read. *)
Definition ssid_suffix (s : Z) : list Z :=
  if s =? 0 then [] else if s <? 10 then [45; s + 48] else [45; s / 10 + 48; s mod 10 + 48].

Lemma digit_char d : 0 <= d < 10 -> call_char (d + 48) = true.
Proof.
  intros Hd. unfold call_char. apply orb_true_iff. left.
  apply andb_true_iff. rewrite !Z.leb_le. lia.
Qed.

Lemma suffix_chars s : 0 <= s < 100 -> Forall text_char (ssid_suffix s) /\ (length (ssid_suffix s) <= 3)%nat.
Proof.
  intros Hs. unfold ssid_suffix.
  destruct (s =? 0); [cbn; split; [done|lia]|].
  destruct (s <? 10) eqn:E; zbool; cbn; (split; [|lia]);
    (constructor; [by right|]); repeat (constructor; [left; apply digit_char; zlia|]); constructor.
Qed.

Lemma scan_digit d buf i c :
  0 <= d < 10 -> call_scan (d + 48 :: buf) i true c
  = call_scan buf (i + 1) true (mkCall (call c) (u8 (ssid c * 10 + d))).
Proof.
  intros Hd. cbn [call_scan negb].
  assert ((d + 48 =? 0) = false) as -> by (apply Z.eqb_neq; lia).
  assert (((48 <=? d + 48) && (d + 48 <=? 57)) = true) as ->
    by (apply andb_true_iff; rewrite !Z.leb_le; lia).
  by replace (d + 48 - 48) with d by lia.
Qed.

Lemma scan_suffix s i cl :
  0 <= s < 100 -> call_scan (ssid_suffix s) i false (mkCall cl 0) = mkCall cl s.
Proof.
  intros Hs. unfold ssid_suffix. destruct (s =? 0) eqn:E0; zbool; [by subst s|].
  assert (Hdash : forall buf c, call_scan (45 :: buf) i false c = call_scan buf (i + 1) true c) by done.
  destruct (s <? 10) eqn:E10; zbool; rewrite Hdash.
  - rewrite scan_digit by lia. cbn [call ssid call_scan]. f_equal. rewrite u8_small; lia.
  - rewrite !scan_digit by zlia. cbn [call ssid call_scan].
    f_equal. rewrite (u8_small (0 * 10 + _)) by zlia. rewrite u8_small; zlia.
Qed.

(** The text of such a call. *)
Lemma wf_call_text a :
  wf_call a ->
  exists text, ax25call_to_string a = text ++ [0] /\ Forall text_char text /\
    (length text <= 9)%nat /\ call_scan text 0 false (mkCall (zeros 6) 0) = a.
Proof.
  destruct a as [cl s]. intros (name & k & Hname & Ha & Hk & Hs). cbn [call ssid] in *. subst cl.
  destruct (suffix_chars s Hs) as [Hc Hl].
  exists (name ++ ssid_suffix s). rewrite to_string_wf, <- app_assoc by done.
  split_and!; [done| | |].
  - apply Forall_app. split; [|done]. eapply Forall_impl; [exact Hname|]. by left.
  - rewrite length_app. lia.
  - pose proof (scan_name name [] (ssid_suffix s) Hname ltac:(cbn; lia)) as Es.
    cbn [app length Nat.sub Nat.add] in Es. change (Z.of_nat 0) with 0 in Es.
    change (zeros 6) with (replicate 6 0). rewrite Es, scan_suffix by done.
    by replace (6 - length name)%nat with k by lia.
Qed.

Lemma toupper_range x : toupper x = x \/ 97 <= x <= 122 /\ toupper x = x - 32.
Proof.
  unfold toupper. destruct (_ && _) eqn:E; [|by left]. right.
  apply andb_true_iff in E. rewrite !Z.leb_le in E. lia.
Qed.

Lemma toupper_nz x : x <> 0 -> toupper x <> 0.
Proof. destruct (toupper_range x) as [-> |[? ->]]; lia. Qed.

Lemma toupper_byte x : is_byte x -> is_byte (toupper x).
Proof. unfold is_byte. destruct (toupper_range x) as [-> |[? ->]]; lia. Qed.

(** A call is read in either case. *)
Lemma scan_toupper buf : forall i state c,
  call_scan (map toupper buf) i state c = call_scan buf i state c.
Proof.
  induction buf as [|ch buf IH]; intros i state c; [done|]. cbn [map call_scan].
  destruct (toupper_range ch) as [E|[Hr E]]; [by rewrite !E, !IH|]. rewrite !E, !IH.
  assert ((ch - 32 =? 0) = false) as -> by (apply Z.eqb_neq; lia).
  assert ((ch =? 0) = false) as -> by (apply Z.eqb_neq; lia).
  assert ((ch - 32 =? 45) = false) as -> by (apply Z.eqb_neq; lia).
  assert ((ch =? 45) = false) as -> by (apply Z.eqb_neq; lia).
  assert (((48 <=? ch - 32) && (ch - 32 <=? 57)) = false) as ->
    by (apply andb_false_iff; right; apply Z.leb_gt; lia).
  assert (((48 <=? ch) && (ch <=? 57)) = false) as ->
    by (apply andb_false_iff; right; apply Z.leb_gt; lia).
  replace (toupper (ch - 32)) with (ch - 32); [done|]. unfold toupper.
  by assert ((97 <=? ch - 32) = false) as -> by (apply Z.leb_gt; lia).
Qed.

Lemma from_string_end v rest :
  Forall (fun c => c <> 0) v -> (length v < 256)%nat ->
  ax25call_from_string (v ++ 0 :: rest) = call_scan v 0 false (mkCall (zeros 6) 0).
Proof.
  intros Hv Hl. unfold ax25call_from_string.
  by rewrite strnlen_app_0, u8_small, Nat2Z.id, take_app_length by (done || lia).
Qed.

(** A callsign survives its text form: reading back what
    [ax25call_to_string] writes gives the same call, for every call of up to six
    capitals and digits and every ssid up to 99, so for all of AX.25's. *)
Theorem ax25call_string_roundtrip (a : AX25Call) (k : nat) (name : list Z)
    (Hname : Forall (fun c => call_char c = true) name)
    (Ha : call a = name ++ replicate k 0) (Hk : (length name + k = 6)%nat)
    (Hs : 0 <= ssid a < 100) :
  ax25call_from_string (ax25call_to_string a) = a.
Proof.
  destruct (wf_call_text a) as (text & -> & Ht & Hl & E); [by exists name, k|].
  rewrite from_string_end; [done| |lia].
  eapply Forall_impl; [exact Ht|]. intros c Hc. by apply text_char_props.
Qed.

Lemma ax25call_string_roundtrip_witness :
  let a := mkCall [87; 73; 68; 69; 50; 0] 15 in
  ax25call_from_string (ax25call_to_string a) = a.
Proof.
  apply (ax25call_string_roundtrip (mkCall [87; 73; 68; 69; 50; 0] 15) 1 [87; 73; 68; 69; 50]);
    [repeat constructor|reflexivity|reflexivity|cbn; lia].
Defined.

(** The buffer [ax25call_to_string] needs. *)
Lemma to_string_length c :
  is_byte (ssid c) ->
  (length (ax25call_to_string c) <= if (ssid c <? 128)%Z then 10 else 11)%nat.
Proof.
  intros Hs. unfold ax25call_to_string. rewrite !length_app.
  assert (Hn : (length (take (strnlen (take 6 (call c))) (call c)) <= 6)%nat).
  { rewrite length_take. clear. set (l := call c).
    assert (forall s, (strnlen s <= length s)%nat) as Hle.
    { intros s. induction s as [|x s IH]; cbn; [lia|]. destruct (x =? 0); lia. }
    pose proof (Hle (take 6 l)) as H. rewrite length_take in H. lia. }
  assert (H80 : implb (ssid c <? 128) (Z.land (ssid c) 0x80 =? 0) = true).
  { apply (forall_byte (fun b => implb (b <? 128) (Z.land b 0x80 =? 0)));
      [vm_compute; reflexivity|done]. }
  destruct (Z.land (ssid c) 0x7f >? 0), (Z.land (ssid c) 0x7f <? 10), (ssid c <? 128),
    (Z.land (ssid c) 0x80 =? 0); cbn in *; try done; lia.
Qed.

(** ** The checksum *)

(** The complement of the sum of the bytes. *)
Definition sum_bytes (l : list Z) : Z := foldr Z.add 0 l.
Definition crc8 (l : list Z) : Z := u8 (Z.lnot (sum_bytes l)).

(** What [calc_crc] returns where it does. *)
Definition calc_crc_value (data : list Z) (size : Z) : Z := default 0 (calc_crc 257 data size).

Lemma sum_bytes_app a b : sum_bytes (a ++ b) = sum_bytes a + sum_bytes b.
Proof. unfold sum_bytes. induction a as [|x a IH]; cbn; lia. Qed.

Lemma u8_lnot_cong a b : u8 a = u8 b -> u8 (Z.lnot a) = u8 (Z.lnot b).
Proof. unfold u8, Z.lnot, Z.pred. intros E. zlia. Qed.

Lemma sum_bytes_step data i n :
  sum_bytes (take (S n) (drop i data)) =
  get data (Z.of_nat i) + sum_bytes (take n (drop (S i) data)).
Proof.
  unfold get. rewrite Nat2Z.id, nth_lookup. destruct (data !! i) as [x|] eqn:E.
  - by rewrite (drop_S data x i E).
  - apply lookup_ge_None in E. rewrite !drop_ge by lia. by rewrite !take_nil.
Qed.

Lemma calc_crc_loop_spec n : forall data i sum fuel,
  (n < fuel)%nat -> Z.of_nat i + Z.of_nat n < 256 ->
  calc_crc_loop fuel data (Z.of_nat i + Z.of_nat n) (Z.of_nat i) sum =
    Some (u8 (Z.lnot (sum + sum_bytes (take n (drop i data))))).
Proof.
  induction n as [|n IH]; intros data i sum fuel Hf Hs; (destruct fuel as [|fuel]; [lia|]);
    cbn [calc_crc_loop].
  - assert ((Z.of_nat i <? Z.of_nat i + Z.of_nat 0) = false) as -> by (apply Z.ltb_ge; lia).
    rewrite take_0. cbn. by rewrite Z.add_0_r.
  - assert ((Z.of_nat i <? Z.of_nat i + Z.of_nat (S n)) = true) as -> by (apply Z.ltb_lt; lia).
    rewrite u8_small by lia.
    replace (Z.of_nat i + 1) with (Z.of_nat (S i)) by lia.
    replace (Z.of_nat i + Z.of_nat (S n)) with (Z.of_nat (S i) + Z.of_nat n) by lia.
    rewrite IH by lia. f_equal. apply u8_lnot_cong. rewrite sum_bytes_step.
    unfold u8. rewrite Zplus_mod_idemp_l. f_equal. lia.
Qed.

Lemma calc_crc_small data size :
  0 <= size < 256 -> calc_crc 257 data size = Some (crc8 (take (Z.to_nat size) data)).
Proof.
  intros Hs. unfold calc_crc, crc8.
  pose proof (calc_crc_loop_spec (Z.to_nat size) data 0 0 257 ltac:(lia) ltac:(lia)) as H.
  rewrite Z2Nat.id in H by lia. exact H.
Qed.

Lemma calc_crc_value_spec data :
  (length data < 256)%nat -> calc_crc_value data (Z.of_nat (length data)) = crc8 data.
Proof.
  intros Hs. unfold calc_crc_value. rewrite calc_crc_small by lia. cbn.
  by rewrite Nat2Z.id, firstn_all.
Qed.

(** [calc_crc] returns exactly when it is given less than 256 bytes, the
    complement of their sum; from 256 on its 8-bit index wraps below the 16-bit
    size and the loop never ends. *)
Theorem calc_crc_terminates_below_256 (data : list Z) (size : Z) (Hsize : is_u16 size) :
  if size <? 256 then calc_crc 257 data size = Some (crc8 (take (Z.to_nat size) data))
  else forall fuel, calc_crc fuel data size = None.
Proof.
  unfold is_u16 in Hsize. destruct (size <? 256) eqn:E; zbool.
  - apply calc_crc_small. lia.
  - intros fuel. unfold calc_crc.
    assert (Hgen : forall i sum, 0 <= i < 256 -> calc_crc_loop fuel data size i sum = None).
    { induction fuel as [|fuel IH]; intros i sum Hi; [done|]. cbn [calc_crc_loop].
      assert ((i <? size) = true) as -> by (apply Z.ltb_lt; lia). apply IH, u8_range. }
    apply Hgen. lia.
Qed.

Lemma calc_crc_terminates_below_256_witness :
  if 300 <? 256 then calc_crc 257 [1; 2; 3] 300 = Some (crc8 (take (Z.to_nat 300) [1; 2; 3]))
  else forall fuel, calc_crc fuel [1; 2; 3] 300 = None.
Proof. apply (calc_crc_terminates_below_256 [1; 2; 3] 300). unfold is_u16. lia. Defined.

(** A byte changed is a checksum changed. *)
Lemma crc8_detects a x y b :
  is_byte x -> is_byte y -> x <> y -> crc8 (a ++ x :: b) <> crc8 (a ++ y :: b).
Proof.
  unfold crc8. rewrite !sum_bytes_app. unfold is_byte, sum_bytes, u8, Z.lnot, Z.pred. cbn.
  intros Hx Hy Hne E. apply Hne. zlia.
Qed.
