(* ===== verification/Ser.v ===== *)
(** * The serial port: [bertos/drv/ser.c], UART 0 of [bertos/cpu/avr/drv/ser_mega.c]

    The driver proper and the interrupt handlers that feed and drain its two
    ring buffers.  [wire] logs what was written to the data register, in order.
    Interrupts are taken where the driver waits ([cpu_relax]); [line] says which
    byte, with which error flags, arrives at each of these points, and [clock]
    what [timer_clock] reads there.

    The configuration is the firmware's: no timeout on transmission, none on
    reception (zero: [ser_getchar] does not wait), no hardware handshake. *)

From Stdlib Require Import ZArith Lia Bool List.
From stdpp Require Import prelude.
From S2P Require Import Prelude.
From S2P Require Import Fifo.
From S2P Require Import KFile.

Open Scope Z_scope.

(** ** What the rest of the program sees of a port *)

Class SerPort (S : Type) := {
  sp_putchar : Z -> S -> Z * S;
  sp_getchar : S -> Z * S;
  sp_purge : S -> S;
  sp_setbaudrate : Z -> S -> S;
  sp_file :: KFile S
}.

(** What a client may rely on: whatever it writes leaves the port in order,
    nothing it does to the input touches the output, and the input it has not
    read stays where it is. [sp_deaf]: the port refuses to give what it has. *)
Class SerLaws (S : Type) `{SerPort S} := {
  sp_ok : S -> Prop;
  sp_out : S -> list Z;
  sp_in : S -> list Z;
  sp_deaf : S -> bool;
  sp_putchar_out : forall c s, sp_ok s ->
    fst (sp_putchar c s) = u8 c /\ sp_ok (snd (sp_putchar c s)) /\
    sp_out (snd (sp_putchar c s)) = sp_out s ++ [u8 c];
  sp_flush_out : forall s, sp_ok s ->
    sp_ok (snd (kfile_flush s)) /\ sp_out (snd (kfile_flush s)) = sp_out s;
  sp_write_out : forall l s, sp_ok s -> bytes l ->
    fst (kfile_write s l) = Z.of_nat (length l) /\ sp_ok (snd (kfile_write s l)) /\
    sp_out (snd (kfile_write s l)) = sp_out s ++ l;
  sp_getchar_out : forall s, sp_ok s ->
    sp_ok (snd (sp_getchar s)) /\ sp_out (snd (sp_getchar s)) = sp_out s;
  sp_getchar_in : forall s, sp_ok s ->
    match sp_in s with
    | [] => sp_getchar s = (EOF, s)
    | c :: l =>
        if sp_deaf s then sp_getchar s = (EOF, s)
        else is_byte c /\ fst (sp_getchar s) = c /\ sp_in (snd (sp_getchar s)) = l /\
             sp_deaf (snd (sp_getchar s)) = false
    end
}.

(** ** Data *)

Definition SERRF_RXFIFOOVERRUN : Z := BV 0.
Definition SERRF_RXSROVERRUN : Z := BV 3.
Definition SERRF_FRAMEERROR : Z := BV 4.
Definition SERRF_RXTIMEOUT : Z := BV 5.
Definition SERRF_TXTIMEOUT : Z := BV 6.
Definition SERRF_PARITYERROR : Z := BV 7.
Definition SERRF_NOISEERROR : Z := 0.

(** All possible errors of the receiver. *)
Definition SERRF_RX : Z :=
  Z.lor (Z.lor (Z.lor (Z.lor (Z.lor SERRF_RXFIFOOVERRUN SERRF_RXTIMEOUT)
    SERRF_RXSROVERRUN) SERRF_PARITYERROR) SERRF_FRAMEERROR) SERRF_NOISEERROR.

Definition BIT_RXCIE0 : Z := 7.
Definition BIT_UDRIE0 : Z := 5.
Definition BIT_RXEN0 : Z := 4.
Definition BIT_TXEN0 : Z := 3.

Definition CONFIG_UART0_TXBUFSIZE : Z := 32.
Definition CONFIG_UART0_RXBUFSIZE : Z := 32.
Definition CPU_FREQ : Z := 16000000.

(** The handle, the state of its hardware ([hw_sending] is the [sending] of
    [struct AvrSerial]; the registers are the ones the driver writes), the
    number of interrupts taken and the log of the wire. *)
Record Serial := mkSerial {
  unit : Z;
  txfifo : FIFOBuffer;
  rxfifo : FIFOBuffer;
  rxtimeout : Z;
  status : Z;
  hw_sending : bool;
  UCSR0A : Z;
  UCSR0B : Z;
  UCSR0C : Z;
  UBRR0 : Z;
  elapsed : nat;
  wire : list Z
}.

Definition set_unit (v : Z) (s : Serial) : Serial :=
  mkSerial v (txfifo s) (rxfifo s) (rxtimeout s) (status s) (hw_sending s) (UCSR0A s) (UCSR0B s) (UCSR0C s) (UBRR0 s) (elapsed s) (wire s).
Definition set_txfifo (v : FIFOBuffer) (s : Serial) : Serial :=
  mkSerial (unit s) v (rxfifo s) (rxtimeout s) (status s) (hw_sending s) (UCSR0A s) (UCSR0B s) (UCSR0C s) (UBRR0 s) (elapsed s) (wire s).
Definition set_rxfifo (v : FIFOBuffer) (s : Serial) : Serial :=
  mkSerial (unit s) (txfifo s) v (rxtimeout s) (status s) (hw_sending s) (UCSR0A s) (UCSR0B s) (UCSR0C s) (UBRR0 s) (elapsed s) (wire s).
Definition set_rxtimeout (v : Z) (s : Serial) : Serial :=
  mkSerial (unit s) (txfifo s) (rxfifo s) v (status s) (hw_sending s) (UCSR0A s) (UCSR0B s) (UCSR0C s) (UBRR0 s) (elapsed s) (wire s).
Definition set_status (v : Z) (s : Serial) : Serial :=
  mkSerial (unit s) (txfifo s) (rxfifo s) (rxtimeout s) v (hw_sending s) (UCSR0A s) (UCSR0B s) (UCSR0C s) (UBRR0 s) (elapsed s) (wire s).
Definition set_hw_sending (v : bool) (s : Serial) : Serial :=
  mkSerial (unit s) (txfifo s) (rxfifo s) (rxtimeout s) (status s) v (UCSR0A s) (UCSR0B s) (UCSR0C s) (UBRR0 s) (elapsed s) (wire s).
Definition set_UCSR0A (v : Z) (s : Serial) : Serial :=
  mkSerial (unit s) (txfifo s) (rxfifo s) (rxtimeout s) (status s) (hw_sending s) v (UCSR0B s) (UCSR0C s) (UBRR0 s) (elapsed s) (wire s).
Definition set_UCSR0B (v : Z) (s : Serial) : Serial :=
  mkSerial (unit s) (txfifo s) (rxfifo s) (rxtimeout s) (status s) (hw_sending s) (UCSR0A s) v (UCSR0C s) (UBRR0 s) (elapsed s) (wire s).
Definition set_UCSR0C (v : Z) (s : Serial) : Serial :=
  mkSerial (unit s) (txfifo s) (rxfifo s) (rxtimeout s) (status s) (hw_sending s) (UCSR0A s) (UCSR0B s) v (UBRR0 s) (elapsed s) (wire s).
Definition set_UBRR0 (v : Z) (s : Serial) : Serial :=
  mkSerial (unit s) (txfifo s) (rxfifo s) (rxtimeout s) (status s) (hw_sending s) (UCSR0A s) (UCSR0B s) (UCSR0C s) v (elapsed s) (wire s).
Definition set_elapsed (v : nat) (s : Serial) : Serial :=
  mkSerial (unit s) (txfifo s) (rxfifo s) (rxtimeout s) (status s) (hw_sending s) (UCSR0A s) (UCSR0B s) (UCSR0C s) (UBRR0 s) v (wire s).
Definition set_wire (v : list Z) (s : Serial) : Serial :=
  mkSerial (unit s) (txfifo s) (rxfifo s) (rxtimeout s) (status s) (hw_sending s) (UCSR0A s) (UCSR0B s) (UCSR0C s) (UBRR0 s) (elapsed s) v.

(** ** The hardware layer *)

Definition SER_UART0_BUS_TXINIT (s : Serial) : Serial :=
  set_UCSR0B (Z.lor (Z.lor (BV BIT_RXCIE0) (BV BIT_RXEN0)) (BV BIT_TXEN0)) (set_UCSR0A 0 s).

Definition SER_UART0_BUS_TXBEGIN (s : Serial) : Serial :=
  set_UCSR0B (Z.lor (Z.lor (Z.lor (BV BIT_RXCIE0) (BV BIT_UDRIE0)) (BV BIT_RXEN0))
    (BV BIT_TXEN0)) s.

Definition SER_UART0_BUS_TXCHAR (c : Z) (s : Serial) : Serial := set_wire (wire s ++ [c]) s.

Definition SER_UART0_BUS_TXEND (s : Serial) : Serial :=
  set_UCSR0B (Z.lor (Z.lor (BV BIT_RXCIE0) (BV BIT_RXEN0)) (BV BIT_TXEN0)) s.

Definition uart_period (bps : Z) : Z := u16 (DIV_ROUND (CPU_FREQ / 8) bps - 1).

Definition uart0_init (s : Serial) : Serial := SER_UART0_BUS_TXINIT s.

Definition uart0_cleanup (s : Serial) : Serial := set_UCSR0B 0 s.

Definition uart0_enabletxirq (s : Serial) : Serial :=
  if negb (hw_sending s) then SER_UART0_BUS_TXBEGIN (set_hw_sending true s) else s.

(** [U2X0] is bit 1. *)
Definition uart0_setbaudrate (rate : Z) (s : Serial) : Serial :=
  set_UBRR0 (uart_period rate) (set_UCSR0A (BV 1) s).

(** [UPM00] and [UPM01] are bits 4 and 5. *)
Definition uart0_setparity (parity : Z) (s : Serial) : Serial :=
  set_UCSR0C (u8 (Z.lor (Z.land (UCSR0C s) (Z.lnot (Z.lor (BV 5) (BV 4))))
    (Z.shiftl parity 4))) s.

Definition tx_sending (s : Serial) : bool := hw_sending s.

(** The data register is empty. *)
Definition USART0_UDRE_vect (s : Serial) : Serial :=
  if fifo_isempty (txfifo s) then set_hw_sending false (SER_UART0_BUS_TXEND s)
  else let '(c, q) := fifo_pop (txfifo s) in SER_UART0_BUS_TXCHAR c (set_txfifo q s).

(** A byte [udr] has come in, with the flags [ucsra]. *)
Definition USART0_RX_vect (ucsra udr : Z) (s : Serial) : Serial :=
  let s := set_status (Z.lor (status s)
    (Z.land ucsra (Z.lor SERRF_RXSROVERRUN SERRF_FRAMEERROR))) s in
  if fifo_isfull (rxfifo s) then set_status (Z.lor (status s) SERRF_RXFIFOOVERRUN) s
  else set_rxfifo (fifo_push (rxfifo s) udr) s.

(** ** The driver *)

Section Device.
Variable line : nat -> option (Z * Z).
Variable clock : nat -> Z.
(** Turns a waiting [ser_getchar] may make. *)
Variable rx_fuel : nat.

(** Interrupts: a byte coming in, the data register empty. *)
Definition cpu_relax (s : Serial) : Serial :=
  let s :=
    match line (elapsed s) with
    | Some (ucsra, udr) =>
        if Z.testbit (UCSR0B s) BIT_RXCIE0 then USART0_RX_vect ucsra udr s else s
    | None => s
    end in
  let s := if Z.testbit (UCSR0B s) BIT_UDRIE0 then USART0_UDRE_vect s else s in
  set_elapsed (S (elapsed s)) s.

(** [while (cond) cpu_relax()]. *)
Fixpoint ser_wait (cond : Serial -> bool) (fuel : nat) (s : Serial) : option Serial :=
  if cond s then
    match fuel with
    | O => None
    | S fuel' => ser_wait cond fuel' (cpu_relax s)
    end
  else Some s.

(** Enough for a full queue and the interrupt that ends the transmission. *)
Definition tx_fuel (s : Serial) : nat := Z.to_nat (fb_end (txfifo s)) + 2.

Definition ser_putchar (c : Z) (port : Serial) : option (Z * Serial) :=
  match
    if fifo_isfull_locked (txfifo port)
    then ser_wait (fun s => fifo_isfull_locked (txfifo s)) (tx_fuel port) (cpu_relax port)
    else Some port
  with
  | None => None
  | Some port =>
      let port := set_txfifo (fifo_push_locked (txfifo port) (u8 c)) port in
      Some (u8 c, uart0_enabletxirq port)
  end.

(** The waiting of [ser_getchar]; [inl]: it timed out. *)
Fixpoint ser_getchar_wait (fuel : nat) (start_time : Z) (s : Serial)
  : option (Serial + Serial) :=
  match fuel with
  | O => None
  | S fuel' =>
      let s := cpu_relax s in
      if i32 (clock (elapsed s) - start_time) >=? rxtimeout s
      then Some (inl (set_status (Z.lor (status s) SERRF_RXTIMEOUT) s))
      else if fifo_isempty_locked (rxfifo s) && (Z.land (status s) SERRF_RX =? 0)
      then ser_getchar_wait fuel' start_time s
      else Some (inr s)
  end.

(** After the waiting. *)
Definition ser_getchar_take (port : Serial) : Z * Serial :=
  if negb (Z.land (status port) SERRF_RX =? 0) then (EOF, port)
  else let '(c, q) := fifo_pop_locked (rxfifo port) in (u8 c, set_rxfifo q port).

Definition ser_getchar (port : Serial) : option (Z * Serial) :=
  if fifo_isempty_locked (rxfifo port) then
    if rxtimeout port =? 0 then Some (EOF, port)
    else
      match ser_getchar_wait rx_fuel (clock (elapsed port)) port with
      | None => None
      | Some (inl s) => Some (EOF, s)
      | Some (inr s) => Some (ser_getchar_take s)
      end
  else Some (ser_getchar_take port).

Definition ser_available (fd : Serial) : bool := negb (fifo_isempty_locked (rxfifo fd)).

Fixpoint ser_read (fd : Serial) (size : nat) : option (list Z * Serial) :=
  match size with
  | O => Some ([], fd)
  | S size' =>
      match ser_getchar fd with
      | None => None
      | Some (c, fd) =>
          if c =? EOF then Some ([], fd)
          else match ser_read fd size' with
               | None => None
               | Some (buf, fd) => Some (c :: buf, fd)
               end
      end
  end.

Fixpoint ser_write (fd : Serial) (buf : list Z) : option (Z * Serial) :=
  match buf with
  | [] => Some (0, fd)
  | c :: buf' =>
      match ser_putchar c fd with
      | None => None
      | Some (r, fd) =>
          if r =? EOF then Some (0, fd)
          else match ser_write fd buf' with
               | None => None
               | Some (n, fd) => Some (n + 1, fd)
               end
      end
  end.

Definition ser_settimeouts (fd : Serial) (rxt : Z) : Serial := set_rxtimeout (i32 rxt) fd.

Definition ser_setbaudrate (fd : Serial) (rate : Z) : Serial := uart0_setbaudrate rate fd.
Definition ser_setparity (fd : Serial) (parity : Z) : Serial := uart0_setparity parity fd.

Definition ser_error (fd : Serial) : Z := status fd.
Definition ser_clearerr (fd : Serial) : Serial := set_status 0 fd.

Definition ser_purgeRx (fd : Serial) : Serial := set_rxfifo (fifo_flush_locked (rxfifo fd)) fd.
Definition ser_purgeTx (fd : Serial) : Serial := set_txfifo (fifo_flush_locked (txfifo fd)) fd.
Definition ser_purge (fd : Serial) : Serial := ser_purgeTx (ser_purgeRx fd).

Definition ser_flush (fd : Serial) : option (Z * Serial) :=
  match
    ser_wait (fun s => negb (fifo_isempty (txfifo s)) || tx_sending s) (tx_fuel fd) fd
  with
  | None => None
  | Some s => Some (0, s)
  end.

(** [tx] and [rx] are the buffers of the descriptor of the unit. *)
Definition ser_open (fd : Serial) (n : Z) (tx rx : list Z) : Serial :=
  let fd := set_unit n fd in
  let fd := set_txfifo (fifo_init tx CONFIG_UART0_TXBUFSIZE) fd in
  let fd := set_rxfifo (fifo_init rx CONFIG_UART0_RXBUFSIZE) fd in
  let fd := uart0_init fd in
  let fd := ser_settimeouts fd 0 in
  set_status 0 fd.

Definition ser_close (fd : Serial) : option Serial :=
  match ser_flush fd with
  | None => None
  | Some (_, fd) => Some (ser_purge (uart0_cleanup fd))
  end.

Definition ser_reopen (fd : Serial) : option Serial :=
  match ser_close fd with
  | None => None
  | Some s => Some (ser_open s (unit s) (fb_mem (txfifo s)) (fb_mem (rxfifo s)))
  end.

Definition ser_init (n : Z) : Serial :=
  ser_open (mkSerial 0 (mkFIFO [] 0 0 0 0) (mkFIFO [] 0 0 0 0) 0 0 false 0 0 0 0 0 [])
    n (zeros 32) (zeros 32).

(** The table [ser_init] fills in, and the direct calls. A wait that does not
    end leaves the port as it was; the laws show that none is. *)
#[export] Instance ser_kfile : KFile Serial := {
  kfile_read fd n := default ([], fd) (ser_read fd (Z.to_nat n));
  kfile_write fd buf := default (0, fd) (ser_write fd buf);
  kfile_flush fd := default (0, fd) (ser_flush fd);
  kfile_error fd := ser_error fd;
  kfile_clearerr fd := ser_clearerr fd
}.

#[export] Instance ser_port : SerPort Serial := {
  sp_putchar c fd := default (EOF, fd) (ser_putchar c fd);
  sp_getchar fd := default (EOF, fd) (ser_getchar fd);
  sp_purge := ser_purge;
  sp_setbaudrate rate fd := ser_setbaudrate fd rate;
  sp_file := ser_kfile
}.
End Device.

(** ** Invariant and laws *)

(** Everything written and not yet on the wire is in the queue. *)
Definition ser_out (s : Serial) : list Z := wire s ++ contents (txfifo s).

(** The interrupt that drains the queue is enabled exactly while [sending]. *)
Definition ser_wf (s : Serial) : Prop :=
  fifo_wf (txfifo s) /\ fifo_wf (rxfifo s) /\ bytes (contents (rxfifo s)) /\
  Z.testbit (UCSR0B s) BIT_UDRIE0 = hw_sending s /\
  (contents (txfifo s) <> [] -> hw_sending s = true) /\ rxtimeout s = 0.

(** Bytes the port waits for, and whether it gives them. *)
Definition ser_deaf (s : Serial) : bool := negb (Z.land (status s) SERRF_RX =? 0).

Lemma contents_push fb c :
  fifo_wf fb -> fifo_isfull fb = false -> contents (fifo_push fb c) = contents fb ++ [u8 c].
Proof.
  intros Hw Hf. apply fifo_push_contents; [done|].
  rewrite fifo_isfull_spec in Hf by done. zbool.
  pose proof (fill_range fb Hw). pose proof (length_contents fb Hw). lia.
Qed.

Section Laws.
Variable line : nat -> option (Z * Z).
Variable clock : nat -> Z.
Variable rx_fuel : nat.

Let relax := cpu_relax line.

(** A byte arriving leaves the transmit side alone. *)
Lemma rx_vect_wf a d s :
  ser_wf s ->
  let s' := USART0_RX_vect a d s in
  ser_wf s' /\ txfifo s' = txfifo s /\ hw_sending s' = hw_sending s /\ wire s' = wire s /\
  exists l, contents (rxfifo s') = contents (rxfifo s) ++ l.
Proof.
  intros (Ht & Hr & Hb & Hu & Hs & H0). unfold USART0_RX_vect. cbv zeta. cbn [rxfifo set_status].
  destruct (fifo_isfull (rxfifo s)) eqn:E.
  - split_and!; try done. exists []. by rewrite app_nil_r.
  - pose proof (contents_push _ d Hr E) as Hp. cbn.
    split_and!; try done.
    + split_and!; try done; [by apply fifo_push_wf|]. cbn. rewrite Hp. apply Forall_app.
      split; [done|]. repeat constructor; apply u8_range.
    + by exists [u8 d].
Qed.

Lemma udre_vect_wf s :
  ser_wf s ->
  let s' := USART0_UDRE_vect s in
  ser_wf s' /\ ser_out s' = ser_out s /\ rxfifo s' = rxfifo s /\ status s' = status s /\
  contents (txfifo s') = tail (contents (txfifo s)) /\
  (contents (txfifo s) = [] -> hw_sending s' = false) /\
  (contents (txfifo s) <> [] -> hw_sending s' = hw_sending s).
Proof.
  intros (Ht & Hr & Hb & Hu & Hs & H0). unfold USART0_UDRE_vect. cbv zeta.
  rewrite fifo_isempty_spec by done.
  destruct (contents (txfifo s)) as [|c q] eqn:Hq.
  - unfold ser_out. cbn. rewrite Hq. split_and!; try done. all: cbn; by rewrite ?Hq.
  - destruct (fifo_pop_contents _ c q Ht Hq) as [Hc Hrest].
    pose proof (fifo_pop_wf _ Ht) as Hw'. destruct (fifo_pop (txfifo s)) as [c' fb].
    cbn in *. subst c'. unfold ser_out. cbn. rewrite Hq, Hrest.
    split_and!; try done; cbn; [|by rewrite <- app_assoc].
    unfold ser_wf. cbn. split_and!; try done. intros _. by apply Hs.
Qed.

Lemma relax_wf s :
  ser_wf s ->
  ser_wf (relax s) /\ ser_out (relax s) = ser_out s /\
  (exists l, contents (rxfifo (relax s)) = contents (rxfifo s) ++ l) /\
  contents (txfifo (relax s)) = tail (contents (txfifo s)) /\
  (contents (txfifo s) = [] -> hw_sending (relax s) = false).
Proof.
  intros Hw. unfold relax, cpu_relax. cbv zeta.
  set (s1 := match line (elapsed s) with Some _ => _ | None => s end).
  assert (H1 : ser_wf s1 /\ txfifo s1 = txfifo s /\ hw_sending s1 = hw_sending s /\
    wire s1 = wire s /\ exists l, contents (rxfifo s1) = contents (rxfifo s) ++ l).
  { unfold s1. destruct (line (elapsed s)) as [[a d]|]; [|split_and!; try done; exists []; by rewrite app_nil_r].
    destruct (Z.testbit (UCSR0B s) BIT_RXCIE0); [by apply rx_vect_wf|].
    split_and!; try done. exists []. by rewrite app_nil_r. }
  clearbody s1. destruct H1 as (Hw1 & Htx & Hse & Hwi & l & Hrx).
  pose proof Hw1 as (_ & _ & _ & Hu & Hs & _). rewrite Hu.
  destruct (hw_sending s1) eqn:Es.
  - destruct (udre_vect_wf s1 Hw1) as (A & B & C & _ & D & E & _).
    split_and!; [exact A| | |by rewrite <- Htx|by rewrite <- Htx].
    + unfold ser_out in *. cbn. rewrite B, Hwi, Htx. done.
    + exists l. cbn. by rewrite C.
  - assert (Hnil : contents (txfifo s1) = []).
    { destruct (contents (txfifo s1)); [done|]. by discriminate Hs. }
    split_and!; [exact Hw1| |by exists l| |done].
    + unfold ser_out. cbn. by rewrite Hwi, Htx.
    + cbn. rewrite Htx in Hnil. by rewrite Htx, Hnil.
Qed.

(** A full queue sends, so waiting for room ends. *)
Lemma putchar_spec c s :
  ser_wf s ->
  exists s', ser_putchar line c s = Some (u8 c, s') /\ ser_wf s' /\
    ser_out s' = ser_out s ++ [u8 c] /\
    exists l, contents (rxfifo s') = contents (rxfifo s) ++ l.
Proof.
  intros Hw.
  assert (Hpush : forall s0, ser_wf s0 -> fifo_isfull (txfifo s0) = false ->
    let s' := uart0_enabletxirq (set_txfifo (fifo_push_locked (txfifo s0) (u8 c)) s0) in
    ser_wf s' /\ ser_out s' = ser_out s0 ++ [u8 c] /\ rxfifo s' = rxfifo s0).
  { intros s0 (Ht & Hr & Hb & Hu & Hs & H0) Hf. cbv zeta.
    pose proof (contents_push _ (u8 c) Ht Hf) as Hp.
    rewrite (u8_small (u8 c)) in Hp by apply u8_range.
    unfold uart0_enabletxirq, fifo_push_locked. cbn [hw_sending set_txfifo].
    destruct (hw_sending s0) eqn:Es; unfold ser_wf, ser_out; cbn; rewrite Hp, app_assoc;
      split_and!; try done; first [by apply fifo_push_wf | by rewrite Es; exact Hu]. }
  unfold ser_putchar, fifo_isfull_locked.
  destruct (fifo_isfull (txfifo s)) eqn:E.
  - destruct (relax_wf s Hw) as (A & B & (l & C) & D & _).
    assert (Hfull : fifo_isfull (txfifo (relax s)) = false).
    { pose proof Hw as (Ht & _). pose proof A as (Ht' & _).
      rewrite fifo_isfull_spec in E by done. zbool.
      apply fifo_isfull_room; [done|]. rewrite D.
      assert (Hc : capacity (txfifo (relax s)) = capacity (txfifo s)).
      { unfold relax, cpu_relax, USART0_UDRE_vect, USART0_RX_vect.
        repeat case_match; cbn; try done;
          by rewrite <- (fifo_pop_capacity (txfifo s)); match goal with
          H : fifo_pop _ = _ |- _ => cbn in H; rewrite H end. }
      rewrite Hc. destruct (contents (txfifo s)) as [|x q]; cbn in *; [|lia].
      pose proof Ht as (_ & ? & _). unfold capacity in *. lia. }
    assert (Hwait : ser_wait line (fun s => fifo_isfull (txfifo s)) (tx_fuel s) (relax s)
      = Some (relax s)).
    { unfold tx_fuel. rewrite Nat.add_comm. cbn [ser_wait Nat.add]. by rewrite Hfull. }
    change (cpu_relax line s) with (relax s). rewrite Hwait.
    destruct (Hpush (relax s) A Hfull) as (P & Q & R). eexists. split; [done|].
    split_and!; [exact P|by rewrite Q, B|exists l; by rewrite R].
  - destruct (Hpush s Hw E) as (P & Q & R). eexists. split; [done|].
    split_and!; [exact P|exact Q|exists []; by rewrite R, app_nil_r].
Qed.

(** Flushing ends, with everything written on the wire. *)
Lemma flush_wait_spec n s :
  ser_wf s -> (length (contents (txfifo s)) <= n)%nat ->
  exists s',
    ser_wait line (fun s => negb (fifo_isempty (txfifo s)) || tx_sending s) (S n) s = Some s' /\
    ser_wf s' /\ wire s' = ser_out s /\ contents (txfifo s') = [].
Proof.
  assert (Hdone : forall s, ser_wf s -> contents (txfifo s) = [] -> wire s = ser_out s).
  { intros s0 _ Hc. unfold ser_out. by rewrite Hc, app_nil_r. }
  revert s. induction n as [|n IH]; intros s Hw Hl;
    pose proof Hw as (Ht & _); cbn [ser_wait]; rewrite fifo_isempty_spec by done;
    destruct (relax_wf s Hw) as (A & B & _ & D & E).
  - assert (Hc : contents (txfifo s) = []) by (apply length_zero_iff_nil; lia).
    rewrite Hc. unfold tx_sending. cbn [negb orb].
    pose proof A as (Ht' & _). change (cpu_relax line s) with (relax s).
    destruct (hw_sending s) eqn:Es.
    + rewrite fifo_isempty_spec, D, Hc, E by done. cbn.
      exists (relax s). split_and!; try done; [|by rewrite D, Hc].
      rewrite <- B. apply Hdone; [done|by rewrite D, Hc].
    + exists s. split_and!; try done. by apply Hdone.
  - destruct (contents (txfifo s)) as [|c q] eqn:Hc; cbn [negb orb tail] in *.
    + unfold tx_sending. destruct (hw_sending s) eqn:Es.
      * destruct (IH (relax s) A) as (s' & P & Q & R & T); [rewrite D; cbn; lia|].
        exists s'. split_and!; try done. by rewrite R.
      * exists s. split_and!; try done. by apply Hdone.
    + destruct (IH (relax s) A) as (s' & P & Q & R & T); [rewrite D; cbn in *; lia|].
      exists s'. split_and!; try done. by rewrite R.
Qed.

Lemma flush_spec s :
  ser_wf s ->
  exists s', ser_flush line s = Some (0, s') /\ ser_wf s' /\ wire s' = ser_out s /\
    contents (txfifo s') = [].
Proof.
  intros Hw. pose proof Hw as (Ht & _). pose proof (fill_range _ Ht).
  pose proof (length_contents _ Ht). unfold capacity in *.
  destruct (flush_wait_spec (Z.to_nat (fb_end (txfifo s)) + 1) s Hw) as (s' & E & A); [lia|].
  exists s'. unfold ser_flush, tx_fuel.
  replace (Z.to_nat (fb_end (txfifo s)) + 2)%nat
    with (S (Z.to_nat (fb_end (txfifo s)) + 1)) by lia.
  by rewrite E.
Qed.

Lemma getchar_spec s :
  ser_wf s ->
  match contents (rxfifo s) with
  | [] => ser_getchar line clock rx_fuel s = Some (EOF, s)
  | c :: l =>
      if ser_deaf s then ser_getchar line clock rx_fuel s = Some (EOF, s)
      else is_byte c /\ exists s', ser_getchar line clock rx_fuel s = Some (c, s') /\
        ser_wf s' /\ ser_out s' = ser_out s /\ contents (rxfifo s') = l /\
        status s' = status s
  end.
Proof.
  intros (Ht & Hr & Hb & Hu & Hs & H0). unfold ser_getchar, fifo_isempty_locked.
  rewrite fifo_isempty_spec by done.
  destruct (contents (rxfifo s)) as [|c l] eqn:Hc; [by rewrite H0|].
  unfold ser_getchar_take, ser_deaf. destruct (negb (Z.land (status s) SERRF_RX =? 0)); [done|].
  destruct (fifo_pop_contents _ c l Hr Hc) as [Hx Hrest].
  pose proof (fifo_pop_wf _ Hr) as Hw'. unfold fifo_pop_locked.
  destruct (fifo_pop (rxfifo s)) as [c' q]. cbn in *. subst c'.
  apply Forall_cons in Hb as [Hbc Hbl]. split; [done|]. rewrite u8_small by done.
  eexists. split; [done|]. unfold ser_wf, ser_out. cbn. rewrite Hrest. by split_and!.
Qed.

Lemma ser_write_spec l : forall s,
  ser_wf s -> bytes l ->
  exists s', ser_write line s l = Some (Z.of_nat (length l), s') /\ ser_wf s' /\
    ser_out s' = ser_out s ++ l.
Proof.
  induction l as [|c l IH]; intros s Hw Hb.
  - exists s. by rewrite app_nil_r.
  - apply Forall_cons in Hb as [Hc Hl]. cbn [ser_write].
    destruct (putchar_spec c s Hw) as (s1 & E1 & W1 & O1 & _). rewrite E1.
    rewrite u8_small in * by done.
    assert ((c =? EOF) = false) as ->
      by (apply Z.eqb_neq; unfold EOF, is_byte in *; lia).
    destruct (IH s1 W1 Hl) as (s2 & E2 & W2 & O2). rewrite E2.
    exists s2. split_and!; [do 2 f_equal; cbn [length]; lia|done|].
    by rewrite O2, O1, <- app_assoc.
Qed.
End Laws.

(** ** The driver keeps its promises *)

Section Instance_.
Variable line : nat -> option (Z * Z).
Variable clock : nat -> Z.
Variable rx_fuel : nat.

#[local] Instance port : SerPort Serial := ser_port line clock rx_fuel.

#[export] Program Instance ser_laws : SerLaws Serial := {
  sp_ok := ser_wf;
  sp_out := ser_out;
  sp_in s := contents (rxfifo s);
  sp_deaf := ser_deaf
}.
Next Obligation.
  intros c s Hw. cbn. destruct (putchar_spec line c s Hw) as (s' & E & A & B & _).
  by rewrite E.
Qed.
Next Obligation.
  intros s Hw. cbn. destruct (flush_spec line s Hw) as (s' & E & A & B & C).
  rewrite E. split; [done|]. unfold ser_out at 1. cbn. by rewrite B, C, app_nil_r.
Qed.
Next Obligation.
  intros l s Hw Hb. cbn. destruct (ser_write_spec line l s Hw Hb) as (s' & E & A & B).
  by rewrite E.
Qed.
Next Obligation.
  intros s Hw. cbn. pose proof (getchar_spec line clock rx_fuel s Hw) as Hg.
  destruct (contents (rxfifo s)) as [|c l]; [by rewrite Hg|].
  destruct (ser_deaf s); [by rewrite Hg|]. destruct Hg as (_ & s' & E & A & B & _).
  by rewrite E.
Qed.
Next Obligation.
  intros s Hw. cbn. pose proof (getchar_spec line clock rx_fuel s Hw) as Hg.
  destruct (contents (rxfifo s)) as [|c l]; [by rewrite Hg|].
  destruct (ser_deaf s) eqn:Ed; [by rewrite Hg|].
  destruct Hg as (Hb & s' & E & A & B & C & D). rewrite E. cbn.
  split_and!; try done. unfold ser_deaf in *. by rewrite D.
Qed.
End Instance_.

(** What a client may do with the port, the interrupts among it. *)
Inductive ser_op :=
  | SPut (c : Z) | SWrite (l : list Z) | SGet | SFlush | SPurgeRx | SPurgeTx | SPurge | SClose
  | SClearerr | SBaudrate (rate : Z) | SParity (parity : Z) | SRelax.

Section Ops.
Variable line : nat -> option (Z * Z).
Variable clock : nat -> Z.
Variable rx_fuel : nat.

(** The new port and what [ser_getchar] gave. *)
Definition ser_op_run (op : ser_op) (s : Serial) : option (list Z * Serial) :=
  match op with
  | SPut c => option_map (fun r => ([], snd r)) (ser_putchar line c s)
  | SWrite l => option_map (fun r => ([], snd r)) (ser_write line s l)
  | SGet => option_map (fun r => ([fst r], snd r)) (ser_getchar line clock rx_fuel s)
  | SFlush => option_map (fun r => ([], snd r)) (ser_flush line s)
  | SPurgeRx => Some ([], ser_purgeRx s)
  | SPurgeTx => Some ([], ser_purgeTx s)
  | SPurge => Some ([], ser_purge s)
  | SClose => option_map (fun s => ([], s)) (ser_close line s)
  | SClearerr => Some ([], ser_clearerr s)
  | SBaudrate rate => Some ([], ser_setbaudrate s rate)
  | SParity parity => Some ([], ser_setparity s parity)
  | SRelax => Some ([], cpu_relax line s)
  end.

Fixpoint ops_run (ops : list ser_op) (s : Serial) : option (list Z * Serial) :=
  match ops with
  | [] => Some ([], s)
  | op :: ops' =>
      match ser_op_run op s with
      | None => None
      | Some (g, s) => option_map (fun r => (g ++ fst r, snd r)) (ops_run ops' s)
      end
  end.

(** *** What the port promises

    The abstract port: the bytes that have gone out on the wire and those that
    wait. *)
Definition op_writes (op : ser_op) : list Z :=
  match op with SPut c => [u8 c] | SWrite l => l | _ => [] end.

Definition drops (op : ser_op) : bool :=
  match op with SPurgeTx | SPurge => true | _ => false end.

(** A purge drops what waits, and only that; flushing and closing send it; the
    rest adds what it writes at the end, and meanwhile some of what waits may
    go out, oldest first. *)
Definition port_op (op : ser_op) (v v' : list Z * list Z) : Prop :=
  match op with
  | SPurgeTx | SPurge => v' = (fst v, [])
  | SFlush | SClose => v' = (fst v ++ snd v, [])
  | _ => fst v' ++ snd v' = fst v ++ snd v ++ op_writes op /\ fst v `prefix_of` fst v'
  end.

Inductive port_run : list ser_op -> list Z * list Z -> list Z * list Z -> Prop :=
  | port_run_nil v : port_run [] v v
  | port_run_cons op ops v v1 v2 :
      port_op op v v1 -> port_run ops v1 v2 -> port_run (op :: ops) v v2.

Definition ser_view (s : Serial) : list Z * list Z := (wire s, contents (txfifo s)).

(** A closed port is not used again. *)
Definition ser_op_ok (op : ser_op) : Prop :=
  match op with SWrite l => bytes l | SClose => False | _ => True end.

Lemma port_run_app ops1 ops2 v v1 v2 :
  port_run ops1 v v1 -> port_run ops2 v1 v2 -> port_run (ops1 ++ ops2) v v2.
Proof. induction 1; [done|]. intros. econstructor; [eassumption|by apply IHport_run]. Qed.

(** Nothing is lost where nothing is dropped. *)
Lemma port_run_all ops v v' :
  port_run ops v v' -> Forall (fun op => drops op = false) ops ->
  fst v' ++ snd v' = fst v ++ snd v ++ concat (map op_writes ops).
Proof.
  induction 1 as [v|op ops v v1 v2 Hop _ IH]; intros Hd; [cbn; by rewrite app_nil_r|].
  apply Forall_cons in Hd as [Hd1 Hd]. rewrite (IH Hd). cbn [map concat].
  rewrite !app_assoc, <- (app_assoc (fst v)). f_equal.
  destruct op; cbn in Hop |- *; try discriminate Hd1;
    first [by destruct Hop | subst v1; cbn; by rewrite !app_nil_r].
Qed.

(** *** What the calls keep *)

Section Kept.
Variable P : Serial -> Prop.
Hypothesis keeps_relax : forall s, P s -> P (cpu_relax line s).
Hypothesis keeps_txfifo : forall q s, P s -> P (set_txfifo q s).
Hypothesis keeps_irq : forall s, P s -> P (uart0_enabletxirq s).

Lemma ser_wait_keeps cond n : forall s s', P s -> ser_wait line cond n s = Some s' -> P s'.
Proof.
  induction n as [|n IH]; intros s s' Hp; cbn [ser_wait]; destruct (cond s);
    try (intros; simplify_eq; done).
  intros E. eapply IH; [|exact E]. by apply keeps_relax.
Qed.

Lemma ser_putchar_keeps c s r s' : P s -> ser_putchar line c s = Some (r, s') -> P s'.
Proof.
  intros Hp. unfold ser_putchar. destruct (fifo_isfull_locked (txfifo s)).
  - destruct (ser_wait _ _ _ _) as [s1|] eqn:E; [|done]. intros Hs. simplify_eq.
    apply keeps_irq, keeps_txfifo. eapply ser_wait_keeps; [|exact E]. by apply keeps_relax.
  - intros Hs. simplify_eq. by apply keeps_irq, keeps_txfifo.
Qed.

Lemma ser_write_keeps l : forall s n s', P s -> ser_write line s l = Some (n, s') -> P s'.
Proof.
  induction l as [|c l IH]; intros s n s' Hp; cbn [ser_write]; [by intros; simplify_eq|].
  destruct (ser_putchar line c s) as [[r s1]|] eqn:E; [|done].
  pose proof (ser_putchar_keeps _ _ _ _ Hp E) as H1. destruct (r =? EOF); [by intros; simplify_eq|].
  destruct (ser_write line s1 l) as [[k s2]|] eqn:E2; [|done].
  intros Hs. simplify_eq. by eapply IH.
Qed.

Lemma ser_flush_keeps s r s' : P s -> ser_flush line s = Some (r, s') -> P s'.
Proof.
  intros Hp. unfold ser_flush. destruct (ser_wait _ _ _ _) as [s1|] eqn:E; [|done].
  intros Hs. simplify_eq. by eapply ser_wait_keeps.
Qed.
End Kept.

Lemma relax_wire s : wire s `prefix_of` wire (cpu_relax line s).
Proof.
  unfold cpu_relax, USART0_RX_vect, USART0_UDRE_vect.
  repeat case_match; cbn; first [done | by apply prefix_app_r].
Qed.

(** What is on the wire stays there. *)
Lemma wire_relax l s : l `prefix_of` wire s -> l `prefix_of` wire (cpu_relax line s).
Proof. intros Hl. etrans; [exact Hl|apply relax_wire]. Qed.

Lemma wire_txfifo l q s : l `prefix_of` wire s -> l `prefix_of` wire (set_txfifo q s).
Proof. done. Qed.

Lemma wire_irq l s : l `prefix_of` wire s -> l `prefix_of` wire (uart0_enabletxirq s).
Proof. unfold uart0_enabletxirq. by case_match. Qed.

Lemma purgeRx_wf s : ser_wf s -> ser_wf (ser_purgeRx s).
Proof.
  intros (Ht & Hr & Hb & Hu & Hs & H0). unfold ser_purgeRx, fifo_flush_locked.
  unfold ser_wf. cbn -[contents]. rewrite fifo_flush_contents.
  split_and!; try done; [by apply fifo_flush_wf|]. constructor.
Qed.

Lemma purgeTx_wf s : ser_wf s -> ser_wf (ser_purgeTx s) /\ ser_view (ser_purgeTx s) = (wire s, []).
Proof.
  intros (Ht & Hr & Hb & Hu & Hs & H0). unfold ser_purgeTx, fifo_flush_locked, ser_view.
  unfold ser_wf. cbn -[contents]. rewrite fifo_flush_contents. split; [|done].
  split_and!; try done. by apply fifo_flush_wf.
Qed.

(** A flush ends with the transmitter at rest. *)
Lemma wait_done cond n : forall s s', ser_wait line cond n s = Some s' -> cond s' = false.
Proof.
  induction n as [|n IH]; intros s s'; cbn [ser_wait]; destruct (cond s) eqn:E;
    try (intros; simplify_eq; done).
  apply IH.
Qed.

Lemma close_spec s :
  ser_wf s ->
  exists s', ser_close line s = Some s' /\ ser_wf s' /\ ser_view s' = (ser_out s, []).
Proof.
  intros Hw. unfold ser_close. destruct (flush_spec line s Hw) as (s1 & E & A & B & C). rewrite E.
  assert (Hrest : hw_sending s1 = false).
  { unfold ser_flush in E. destruct (ser_wait _ _ _ _) as [s2|] eqn:Ew; [|done]. simplify_eq.
    apply wait_done in Ew. by apply orb_false_iff in Ew as [_ Ew]. }
  assert (Hc : ser_wf (uart0_cleanup s1)).
  { destruct A as (Ht & Hr & Hb & Hu & Hs & H0). unfold ser_wf, uart0_cleanup. cbn -[contents].
    rewrite Hrest. by split_and!. }
  destruct (purgeTx_wf (ser_purgeRx (uart0_cleanup s1)) (purgeRx_wf _ Hc)) as [D E2].
  exists (ser_purge (uart0_cleanup s1)). split_and!; [done|exact D|].
  unfold ser_purge. by rewrite E2, <- B.
Qed.

(** Reading leaves the transmit side alone. *)
Lemma getchar_view s c s' :
  ser_wf s -> ser_getchar line clock rx_fuel s = Some (c, s') -> ser_view s' = ser_view s.
Proof.
  intros (_ & _ & _ & _ & _ & H0). unfold ser_getchar, ser_getchar_take. rewrite H0.
  repeat case_match; intros; by simplify_eq.
Qed.

Lemma ser_op_run_spec op s :
  ser_wf s -> ser_op_ok op ->
  exists g s', ser_op_run op s = Some (g, s') /\ ser_wf s' /\ port_op op (ser_view s) (ser_view s').
Proof.
  intros Hw Hok. pose proof Hw as (Ht & Hr & Hb & Hu & Hs & H0).
  destruct op as [c|l| | | | | | | |rate|parity| ];
    cbn [ser_op_run port_op op_writes ser_op_ok ser_view fst snd] in *; try done.
  - destruct (putchar_spec line c s Hw) as (s' & E & A & B & _). exists [], s'. rewrite E.
    split_and!; [done|done| |]; [unfold ser_out in B; by rewrite B, <- app_assoc|].
    exact (ser_putchar_keeps _ (wire_relax _) (wire_txfifo _) (wire_irq _) _ _ _ _ (reflexivity _) E).
  - destruct (ser_write_spec line l s Hw Hok) as (s' & E & A & B). exists [], s'. rewrite E.
    split_and!; [done|done| |]; [unfold ser_out in B; by rewrite B, <- app_assoc|].
    exact (ser_write_keeps _ (wire_relax _) (wire_txfifo _) (wire_irq _) _ _ _ _ (reflexivity _) E).
  - pose proof (getchar_spec line clock rx_fuel s Hw) as Hg. rewrite app_nil_r.
    destruct (contents (rxfifo s)) as [|c l]; [rewrite Hg; by exists [EOF], s|].
    destruct (ser_deaf s); [rewrite Hg; by exists [EOF], s|].
    destruct Hg as (_ & s' & E & A & _). pose proof (getchar_view s c s' Hw E) as Hv.
    unfold ser_view in Hv. rewrite E. exists [c], s'. injection Hv as -> ->. by split_and!.
  - destruct (flush_spec line s Hw) as (s' & E & A & B & C). rewrite E. exists [], s'.
    split_and!; try done. unfold ser_view. by rewrite B, C.
  - exists [], (ser_purgeRx s). rewrite app_nil_r. by split_and!; [|apply purgeRx_wf| |].
  - destruct (purgeTx_wf s Hw) as [A B]. by exists [], (ser_purgeTx s).
  - destruct (purgeTx_wf (ser_purgeRx s) (purgeRx_wf s Hw)) as [A B]. by exists [], (ser_purge s).
  - exists [], (ser_clearerr s). rewrite app_nil_r. by split_and!.
  - exists [], (ser_setbaudrate s rate). rewrite app_nil_r. by split_and!.
  - exists [], (ser_setparity s parity). rewrite app_nil_r. by split_and!.
  - destruct (relax_wf line s Hw) as (A & B & _). exists [], (cpu_relax line s).
    rewrite app_nil_r. split_and!; [done|exact A|exact B|apply relax_wire].
Qed.

Lemma ops_run_spec ops : forall s,
  ser_wf s -> Forall ser_op_ok ops ->
  exists g s', ops_run ops s = Some (g, s') /\ ser_wf s' /\ port_run ops (ser_view s) (ser_view s').
Proof.
  induction ops as [|op ops IH]; intros s Hw Hok; [exists [], s; by split_and!; [| |constructor]|].
  apply Forall_cons in Hok as [H1 H2]. cbn [ops_run].
  destruct (ser_op_run_spec op s Hw H1) as (g & s1 & E1 & W1 & O1). rewrite E1.
  destruct (IH s1 W1 H2) as (g' & s2 & E2 & W2 & O2). rewrite E2.
  exists (g ++ g'), s2. split_and!; [done|done|]. by econstructor.
Qed.

Lemma ops_run_last last : forall ops s g s1,
  ops_run ops s = Some (g, s1) ->
  ops_run (ops ++ [last]) s = option_map (fun r => (g ++ fst r, snd r)) (ops_run [last] s1).
Proof.
  induction ops as [|op ops IH]; intros s g s1 E; cbn [app ops_run] in *.
  - injection E as <- <-. by destruct (ser_op_run last s) as [[]|].
  - destruct (ser_op_run op s) as [[g0 s0]|]; [|done].
    destruct (ops_run ops s0) as [[g2 s2]|] eqn:E2; [|done].
    cbn in E. injection E as <- <-. rewrite (IH _ _ _ E2).
    destruct (ser_op_run last s2) as [[]|]; cbn; [by rewrite app_assoc|done].
Qed.

(** C37: whatever a client does with the port (it writes, reads, flushes, purges
    the queues, changes the rate or the parity, clears the errors) and
    whenever the interrupts come, every call returns, and the wire carries the
    bytes written in the order they were written: a full queue only delays; a
    purge of the transmit queue drops exactly what still waits at that moment;
    a flush, or closing the port, at the end sends the rest; and so, unless
    something was purged, once flushed or closed the wire has carried exactly
    the bytes written.  (The receive timeout is the configured one, 0; a closed
    port is not used again.) *)
Theorem ser_wire_in_order (ops : list ser_op) (last : ser_op) (s : Serial)
    (Hw : ser_wf s) (Hok : Forall ser_op_ok ops) (Hlast : last = SFlush \/ last = SClose) :
  exists g s', ops_run (ops ++ [last]) s = Some (g, s') /\ ser_wf s' /\
    port_run (ops ++ [last]) (ser_view s) (ser_view s') /\
    contents (txfifo s') = [] /\
    (Forall (fun op => drops op = false) ops ->
     wire s' = wire s ++ contents (txfifo s) ++ concat (map op_writes ops)).
Proof.
  destruct (ops_run_spec ops s Hw Hok) as (g & s1 & E1 & W1 & R1).
  assert (Hend : exists s2, ops_run [last] s1 = Some ([], s2) /\ ser_wf s2 /\
    ser_view s2 = (ser_out s1, [])).
  { destruct Hlast as [->| ->]; cbn [ops_run ser_op_run].
    - destruct (flush_spec line s1 W1) as (s2 & E2 & W2 & O2 & C2). rewrite E2. exists s2.
      unfold ser_view. by rewrite O2, C2.
    - destruct (close_spec s1 W1) as (s2 & E2 & W2 & O2). rewrite E2. by exists s2. }
  destruct Hend as (s2 & E2 & W2 & V2). rewrite (ops_run_last last _ _ _ _ E1), E2. cbn [option_map].
  assert (Hc : contents (txfifo s2) = []) by exact (f_equal snd V2).
  eexists _, s2. split_and!; [done|done| |done|].
  - apply (port_run_app _ _ _ (ser_view s1)); [done|]. econstructor; [|constructor].
    by destruct Hlast as [->| ->].
  - intros Hd. pose proof (port_run_all _ _ _ R1 Hd) as Hall. cbn in Hall.
    rewrite <- Hall. exact (f_equal fst V2).
Qed.

(** *** Receive errors *)

Lemma lor_keeps_rx a b :
  Z.land a SERRF_RX <> 0 -> Z.land (Z.lor a b) SERRF_RX <> 0.
Proof.
  intros Ha H0. apply Ha. rewrite Z.land_lor_distr_l in H0.
  apply Z.lor_eq_0_iff in H0. apply H0.
Qed.

Lemma relax_deaf s : ser_deaf s = true -> ser_deaf (cpu_relax line s) = true.
Proof.
  unfold ser_deaf. rewrite !negb_true_iff, !Z.eqb_neq. intros Hd.
  unfold cpu_relax, USART0_RX_vect, USART0_UDRE_vect.
  repeat case_match; cbn; auto using lor_keeps_rx.
Qed.

Lemma irq_deaf s : ser_deaf s = true -> ser_deaf (uart0_enabletxirq s) = true.
Proof. unfold uart0_enabletxirq. by case_match. Qed.

Lemma op_run_deaf op s g s' :
  ser_wf s -> ser_deaf s = true -> op <> SClearerr -> ser_op_run op s = Some (g, s') ->
  ser_deaf s' = true /\ Forall (fun c => c = EOF) g.
Proof.
  intros Hw Hd Hc. set (P := fun s => ser_deaf s = true).
  assert (Htx : forall q s, P s -> P (set_txfifo q s)) by done.
  assert (Hfl : forall s1, ser_flush line s = Some s1 -> P (snd s1)).
  { intros [r s1] E. exact (ser_flush_keeps P relax_deaf _ _ _ Hd E). }
  destruct op as [c|l| | | | | | | |rate|parity| ]; cbn [ser_op_run]; try (intros; by simplify_eq/=).
  - destruct (ser_putchar line c s) as [[]|] eqn:E; [|done]. intros. simplify_eq/=.
    split; [exact (ser_putchar_keeps P relax_deaf Htx irq_deaf _ _ _ _ Hd E)|done].
  - destruct (ser_write line s l) as [[]|] eqn:E; [|done]. intros. simplify_eq/=.
    split; [exact (ser_write_keeps P relax_deaf Htx irq_deaf _ _ _ _ Hd E)|done].
  - pose proof (getchar_spec line clock rx_fuel s Hw) as Hg. rewrite Hd in Hg.
    assert (ser_getchar line clock rx_fuel s = Some (EOF, s)) as ->
      by (by destruct (contents (rxfifo s))).
    intros. simplify_eq/=. by split; [|repeat constructor].
  - destruct (ser_flush line s) as [[r s1]|] eqn:E; [|done]. intros. simplify_eq/=.
    split; [exact (Hfl _ eq_refl)|done].
  - unfold ser_close. destruct (ser_flush line s) as [[r s1]|] eqn:E; [|done]. intros. simplify_eq/=.
    split; [exact (Hfl _ eq_refl)|done].
  - intros. simplify_eq/=. split; [by apply relax_deaf|done].
Qed.

(** One receive error silences the port for good. Once a byte came too
    early or misframed, every [ser_getchar] gives [EOF], whatever is sent,
    received, flushed or purged in between: only [ser_clearerr] ends it, which
    neither KISS mode nor the console calls. *)
Theorem ser_deaf_until_clearerr (ops : list ser_op) (s : Serial)
    (Hw : ser_wf s) (Hd : ser_deaf s = true) (Hok : Forall ser_op_ok ops)
    (Hno : Forall (fun op => op <> SClearerr) ops) :
  exists g s', ops_run ops s = Some (g, s') /\ ser_deaf s' = true /\
    Forall (fun c => c = EOF) g.
Proof.
  revert s Hw Hd Hno. induction Hok as [|op ops Hop Hok IH]; intros s Hw Hd Hno.
  - by exists [], s.
  - apply Forall_cons in Hno as [Hn Hno].
    cbn [ops_run]. destruct (ser_op_run_spec op s Hw Hop) as (g & s1 & E1 & W1 & _).
    rewrite E1. destruct (op_run_deaf op s g s1 Hw Hd Hn E1) as [D1 G1].
    destruct (IH s1 W1 D1 Hno) as (g' & s2 & E2 & D2 & G2). rewrite E2.
    exists (g ++ g'), s2. split_and!; [done|done|]. by apply Forall_app.
Qed.
End Ops.

(** A fresh port. *)
Lemma ser_init_wf n : ser_wf (ser_init n).
Proof.
  assert (Hf : fifo_wf (fifo_init (zeros 32) 32)) by (by apply fifo_init_wf).
  unfold ser_wf. split; [exact Hf|]. split; [exact Hf|]. split_and!; try done.
  constructor.
Qed.

(** Two bytes are out and one waits when the queue is purged; then 200 are
    written, which the queue has not room for, and the port is closed. *)
Lemma ser_wire_in_order_witness :
  let ops := [SPut 0x141; SPut 66; SRelax; SRelax; SPut 67; SPurge; SWrite (seqZ 0 200); SGet; SPut 13] in
  exists g s', ops_run (fun _ => None) (fun _ => 0) 0 (ops ++ [SClose]) (ser_init 0) = Some (g, s') /\
    port_run (ops ++ [SClose]) ([], []) (ser_view s') /\
    wire s' = [0x41; 66] ++ seqZ 0 200 ++ [13].
Proof.
  intros ops.
  destruct (ser_wire_in_order (fun _ => None) (fun _ => 0) 0 ops SClose (ser_init 0))
    as (g & s' & E & _ & R & _).
  - apply ser_init_wf.
  - repeat (apply Forall_cons; split; [first [exact I | decide_closed]|]). constructor.
  - by right.
  - exists g, s'. split; [exact E|]. split; [exact R|].
    assert (Hwire : option_map (fun r => wire (snd r))
      (ops_run (fun _ => None) (fun _ => 0) 0 (ops ++ [SClose]) (ser_init 0))
      = Some ([0x41; 66] ++ seqZ 0 200 ++ [13])) by (vm_compute; reflexivity).
    rewrite E in Hwire. by injection Hwire.
Defined.

(** Thirty-two bytes that arrive while nobody reads. *)
Definition busy_line (n : nat) : option (Z * Z) := Some (0, 0x41).

Definition overrun_port : Serial := iter 32 (cpu_relax busy_line) (ser_init 0).

Lemma overrun_port_wf : ser_wf overrun_port.
Proof.
  unfold overrun_port. apply iter_invariant; [|apply ser_init_wf].
  intros s Hs. by apply relax_wf.
Qed.

Lemma ser_deaf_until_clearerr_witness :
  exists g s', ops_run busy_line (fun _ => 0) 0 [SGet; SPurgeRx; SPut 65; SRelax; SGet] overrun_port
      = Some (g, s') /\ ser_deaf s' = true /\ Forall (fun c => c = EOF) g.
Proof.
  apply (ser_deaf_until_clearerr busy_line (fun _ => 0) 0 [SGet; SPurgeRx; SPut 65; SRelax; SGet]
    overrun_port).
  - apply overrun_port_wf.
  - vm_compute. reflexivity.
  - repeat constructor.
  - repeat (apply Forall_cons; split; [discriminate|]). constructor.
Defined.
