(* ===== verification/Settings.v ===== *)
(** * Settings in RAM and EEPROM: [TinyAPRS/settings.c], [TinyAPRS/settings.h]

    [SettingsData] is the structure in RAM, [settings_bytes] its eleven bytes as
    the AVR lays them out; [NV] the EEPROM variables, each with the head byte
    that says whether it was ever written. The [eeprom_*] functions of avr-libc
    read and write these variables. *)

From Stdlib Require Import ZArith Lia Bool List.
From Stdlib Require Import String.
From stdpp Require Import prelude.
From S2P Require Import Prelude.
From S2P Require Import Libc.
From S2P Require Import KFile.
From S2P Require Import Ax25.
From S2P Require Import Formatwr.
From S2P Require Import Utils.

Open Scope Z_scope.

(** ** Data *)

Definition SETTINGS_BEACON_TEXT_MAX_LEN : Z := 128.
Definition NV_SETTINGS_HEAD_BYTE_VALUE : Z := 0x88.
Definition NV_BEACON_TEXT_HEAD_BYTE_VALUE : Z := 0x99.
Definition RF_DUPLEX_HALF : Z := 0.
Definition RF_DUPLEX_FULL : Z := 1.

(** [SettingsData] with [BeaconParams] and [RfParams] in place. *)
Record SettingsData := mkSettings {
  run_mode : Z;
  symbol0 : Z;
  symbol1 : Z;
  interval : Z;
  beacon_type : Z;
  txdelay : Z;
  txtail : Z;
  persistence : Z;
  slot_time : Z;
  duplex : Z
}.

Definition set_run_mode (v : Z) (g : SettingsData) : SettingsData :=
  mkSettings v (symbol0 g) (symbol1 g) (interval g) (beacon_type g) (txdelay g) (txtail g) (persistence g) (slot_time g) (duplex g).
Definition set_symbol0 (v : Z) (g : SettingsData) : SettingsData :=
  mkSettings (run_mode g) v (symbol1 g) (interval g) (beacon_type g) (txdelay g) (txtail g) (persistence g) (slot_time g) (duplex g).
Definition set_symbol1 (v : Z) (g : SettingsData) : SettingsData :=
  mkSettings (run_mode g) (symbol0 g) v (interval g) (beacon_type g) (txdelay g) (txtail g) (persistence g) (slot_time g) (duplex g).
Definition set_interval (v : Z) (g : SettingsData) : SettingsData :=
  mkSettings (run_mode g) (symbol0 g) (symbol1 g) v (beacon_type g) (txdelay g) (txtail g) (persistence g) (slot_time g) (duplex g).
Definition set_beacon_type (v : Z) (g : SettingsData) : SettingsData :=
  mkSettings (run_mode g) (symbol0 g) (symbol1 g) (interval g) v (txdelay g) (txtail g) (persistence g) (slot_time g) (duplex g).
Definition set_txdelay (v : Z) (g : SettingsData) : SettingsData :=
  mkSettings (run_mode g) (symbol0 g) (symbol1 g) (interval g) (beacon_type g) v (txtail g) (persistence g) (slot_time g) (duplex g).
Definition set_txtail (v : Z) (g : SettingsData) : SettingsData :=
  mkSettings (run_mode g) (symbol0 g) (symbol1 g) (interval g) (beacon_type g) (txdelay g) v (persistence g) (slot_time g) (duplex g).
Definition set_persistence (v : Z) (g : SettingsData) : SettingsData :=
  mkSettings (run_mode g) (symbol0 g) (symbol1 g) (interval g) (beacon_type g) (txdelay g) (txtail g) v (slot_time g) (duplex g).
Definition set_slot_time (v : Z) (g : SettingsData) : SettingsData :=
  mkSettings (run_mode g) (symbol0 g) (symbol1 g) (interval g) (beacon_type g) (txdelay g) (txtail g) (persistence g) v (duplex g).
Definition set_duplex (v : Z) (g : SettingsData) : SettingsData :=
  mkSettings (run_mode g) (symbol0 g) (symbol1 g) (interval g) (beacon_type g) (txdelay g) (txtail g) (persistence g) (slot_time g) v.

Definition sizeof_SettingsData : Z := 11.

(** The structure in memory; the 16-bit interval is little-endian. *)
Definition settings_bytes (g : SettingsData) : list Z :=
  [run_mode g; symbol0 g; symbol1 g; u8 (interval g); u8 (Z.shiftr (interval g) 8);
   beacon_type g; txdelay g; txtail g; persistence g; slot_time g; duplex g].

Definition settings_of_bytes (l : list Z) : SettingsData :=
  mkSettings (get l 0) (get l 1) (get l 2) (Z.lor (get l 3) (Z.shiftl (get l 4) 8))
    (get l 5) (get l 6) (get l 7) (get l 8) (get l 9) (get l 10).

Inductive SettingsParamKey := SETTINGS_SYMBOL | SETTINGS_RUN_MODE | SETTINGS_BEACON_INTERVAL.

Record CallData := mkCallData {
  destCall : AX25Call;
  myCall : AX25Call;
  path1 : AX25Call;
  path2 : AX25Call
}.

Definition sizeof_AX25Call : Z := 7.
Definition sizeof_CallData : Z := 28.

Definition call_bytes (a : AX25Call) : list Z := call a ++ [ssid a].
Definition call_of_bytes (l : list Z) : AX25Call := mkCall (take 6 l) (get l 6).

Definition calldata_bytes (c : CallData) : list Z :=
  call_bytes (destCall c) ++ call_bytes (myCall c) ++ call_bytes (path1 c)
    ++ call_bytes (path2 c).
Definition calldata_of_bytes (l : list Z) : CallData :=
  mkCallData (call_of_bytes l) (call_of_bytes (drop 7 l)) (call_of_bytes (drop 14 l))
    (call_of_bytes (drop 21 l)).

(** What is in program memory. *)
Definition DEFAULT_BEACON_TEXT : list Z := chars "!3014.00N/12009.00E>TinyAPRS Rocks!"%string.

Definition default_calldata : CallData :=
  mkCallData (mkCall (chars "APTB01"%string) 0) (mkCall (chars "NOCALL"%string) 0)
    (mkCall (chars "WIDE1"%string ++ [0]) 1) (mkCall (chars "WIDE2"%string ++ [0]) 2).

(** [g_settings] as initialised; [mode] is the build's run mode. *)
Definition default_settings (mode : Z) : SettingsData :=
  mkSettings mode 47 62 0 0 50 5 63 10 RF_DUPLEX_HALF.

(** The EEPROM. *)
Record NV := mkNV {
  nvSetHeadByte : Z;
  nvSettings : list Z;
  nvSetCrcByte : Z;
  nvCallDataHeadByte : Z;
  nvCallData : list Z;
  nvBeaconTextHeadByte : Z;
  nvBeaconText : list Z
}.

Definition set_nvSetHeadByte (v : Z) (nv : NV) : NV :=
  mkNV v (nvSettings nv) (nvSetCrcByte nv) (nvCallDataHeadByte nv) (nvCallData nv) (nvBeaconTextHeadByte nv) (nvBeaconText nv).
Definition set_nvSettings (v : list Z) (nv : NV) : NV :=
  mkNV (nvSetHeadByte nv) v (nvSetCrcByte nv) (nvCallDataHeadByte nv) (nvCallData nv) (nvBeaconTextHeadByte nv) (nvBeaconText nv).
Definition set_nvSetCrcByte (v : Z) (nv : NV) : NV :=
  mkNV (nvSetHeadByte nv) (nvSettings nv) v (nvCallDataHeadByte nv) (nvCallData nv) (nvBeaconTextHeadByte nv) (nvBeaconText nv).
Definition set_nvCallDataHeadByte (v : Z) (nv : NV) : NV :=
  mkNV (nvSetHeadByte nv) (nvSettings nv) (nvSetCrcByte nv) v (nvCallData nv) (nvBeaconTextHeadByte nv) (nvBeaconText nv).
Definition set_nvCallData (v : list Z) (nv : NV) : NV :=
  mkNV (nvSetHeadByte nv) (nvSettings nv) (nvSetCrcByte nv) (nvCallDataHeadByte nv) v (nvBeaconTextHeadByte nv) (nvBeaconText nv).
Definition set_nvBeaconTextHeadByte (v : Z) (nv : NV) : NV :=
  mkNV (nvSetHeadByte nv) (nvSettings nv) (nvSetCrcByte nv) (nvCallDataHeadByte nv) (nvCallData nv) v (nvBeaconText nv).
Definition set_nvBeaconText (v : list Z) (nv : NV) : NV :=
  mkNV (nvSetHeadByte nv) (nvSettings nv) (nvSetCrcByte nv) (nvCallDataHeadByte nv) (nvCallData nv) (nvBeaconTextHeadByte nv) v.

(** Settings in RAM and what survives a reset. *)
Record Settings := mkS { g_settings : SettingsData; nv : NV }.

(** [eeprom_update_block] at the start of a variable: [data] over [old]. *)
Definition update_block (data old : list Z) : list Z := data ++ drop (length data) old.

(** ** Operations *)

Definition settings_set_params_bytes (bytes : list Z) (size : Z) (s : Settings)
  : bool * Settings :=
  if negb (size =? sizeof_SettingsData) then (false, s)
  else (true, mkS (settings_of_bytes (take (Z.to_nat size) bytes)) (nv s)).

Definition settings_clear (s : Settings) : Settings :=
  let v := nv s in
  let v := set_nvSetHeadByte 0xFF v in
  let v := set_nvCallDataHeadByte 0xFF v in
  let v := set_nvBeaconTextHeadByte 0xFF v in
  mkS (g_settings s) (set_nvSetCrcByte 0xFF v).

Definition settings_load (s : Settings) : bool * Settings :=
  let magicHead := nvSetHeadByte (nv s) in
  if negb (magicHead =? NV_SETTINGS_HEAD_BYTE_VALUE) then (false, s)
  else
    let s := mkS (settings_of_bytes (nvSettings (nv s))) (nv s) in
    let sum := nvSetCrcByte (nv s) in
    if negb (sum =? calc_crc_value (settings_bytes (g_settings s)) sizeof_SettingsData)
    then (false, settings_clear s)
    else (true, s).

Definition settings_save (s : Settings) : bool * Settings :=
  let v := set_nvSettings (update_block (settings_bytes (g_settings s)) (nvSettings (nv s))) (nv s) in
  let v := set_nvSetHeadByte NV_SETTINGS_HEAD_BYTE_VALUE v in
  let sum := calc_crc_value (settings_bytes (g_settings s)) sizeof_SettingsData in
  (true, mkS (g_settings s) (set_nvSetCrcByte sum v)).

(** The bytes put in the caller's buffer and the new value of its length. *)
Definition settings_get_params (type : option SettingsParamKey) (valueOutLen : Z) (s : Settings)
  : list Z * Z :=
  if valueOutLen <=? 0 then ([], valueOutLen)
  else
    match type with
    | Some SETTINGS_SYMBOL => ([symbol0 (g_settings s); symbol1 (g_settings s)], 2)
    | Some SETTINGS_RUN_MODE => ([run_mode (g_settings s)], 1)
    | Some SETTINGS_BEACON_INTERVAL =>
        ([u8 (interval (g_settings s)); u8 (Z.shiftr (interval (g_settings s)) 8)], 2)
    | None => ([], 0)
    end.

(** [None] is a key that is not in the enumeration. *)
Definition settings_set_params (type : option SettingsParamKey) (value : list Z) (s : Settings)
  : Settings :=
  match type with
  | Some SETTINGS_SYMBOL =>
      mkS (set_symbol1 (get value 1) (set_symbol0 (get value 0) (g_settings s))) (nv s)
  | Some SETTINGS_RUN_MODE => mkS (set_run_mode (get value 0) (g_settings s)) (nv s)
  | Some SETTINGS_BEACON_INTERVAL =>
      mkS (set_interval (Z.lor (get value 0) (Z.shiftl (get value 1) 8)) (g_settings s)) (nv s)
  | None => s
  end.

Definition settings_set_call_data (callData : CallData) (s : Settings) : Settings :=
  let v := set_nvCallData (update_block (calldata_bytes callData) (nvCallData (nv s))) (nv s) in
  mkS (g_settings s) (set_nvCallDataHeadByte NV_SETTINGS_HEAD_BYTE_VALUE v).

Definition settings_get_call_data (s : Settings) : CallData :=
  if nvCallDataHeadByte (nv s) =? NV_SETTINGS_HEAD_BYTE_VALUE
  then calldata_of_bytes (nvCallData (nv s))
  else default_calldata.

Definition settings_get_mycall (s : Settings) : AX25Call :=
  if nvCallDataHeadByte (nv s) =? NV_SETTINGS_HEAD_BYTE_VALUE
  then call_of_bytes (drop (Z.to_nat sizeof_AX25Call) (nvCallData (nv s)))
  else myCall default_calldata.

(** [snprintf] of a format without conversions: at most [n - 1] characters
    and a terminator; the result is the length of the whole text. *)
Definition snprintf_text (n : Z) (text : list Z) : list Z * Z :=
  (if n <=? 0 then [] else take (Z.to_nat (n - 1)) text ++ [0], Z.of_nat (length text)).

(** The caller's buffer afterwards, and the result. *)
Definition settings_get_beacon_text (buf : list Z) (bufLen : Z) (s : Settings) : list Z * Z :=
  let buf := upd buf 0 0 in
  let verification := nvBeaconTextHeadByte (nv s) in
  let bytesToRead := u8 (Z.min (bufLen - 1) SETTINGS_BEACON_TEXT_MAX_LEN) in
  if negb (verification =? NV_BEACON_TEXT_HEAD_BYTE_VALUE) then
    let '(out, r) := snprintf_text bufLen DEFAULT_BEACON_TEXT in
    (update_block out buf, u8 r)
  else
    let buf := update_block (take (Z.to_nat bytesToRead) (nvBeaconText (nv s))) buf in
    let i := Z.of_nat (strnlen (take (Z.to_nat bytesToRead) buf)) in
    (upd buf i 0, i).

Definition settings_set_beacon_text (data : list Z) (dataLen : Z) (s : Settings) : Z * Settings :=
  let bytesToWrite := u8 (Z.min dataLen (SETTINGS_BEACON_TEXT_MAX_LEN - 1)) in
  let text := update_block (take (Z.to_nat bytesToWrite) data) (nvBeaconText (nv s)) in
  let v := set_nvBeaconText (upd text bytesToWrite 0) (nv s) in
  (bytesToWrite,
   mkS (g_settings s) (set_nvBeaconTextHeadByte NV_BEACON_TEXT_HEAD_BYTE_VALUE v)).

(** ** Layout *)

Definition settings_wf (g : SettingsData) : Prop :=
  bytes (settings_bytes g) /\ is_u16 (interval g).

(** The EEPROM variables have their sizes. *)
Definition nv_sized (v : NV) : Prop :=
  length (nvSettings v) = 11%nat /\ length (nvCallData v) = 28%nat /\
  length (nvBeaconText v) = 128%nat.

(** Literal indices. *)
Ltac gets :=
  repeat match goal with
  | |- context [Z.to_nat ?n] => progress let m := eval vm_compute in (Z.to_nat n) in
      change (Z.to_nat n) with m
  end.

Lemma settings_bytes_of g : is_u16 (interval g) -> settings_of_bytes (settings_bytes g) = g.
Proof.
  intros Hi. destruct g. unfold settings_of_bytes, settings_bytes, get.
  gets. cbn -[u8 Z.lor Z.shiftl Z.shiftr] in *. by rewrite le16_join.
Qed.

Lemma le16_split a b :
  is_byte a -> is_byte b ->
  u8 (Z.lor a (Z.shiftl b 8)) = a /\ u8 (Z.shiftr (Z.lor a (Z.shiftl b 8)) 8) = b /\
  is_u16 (Z.lor a (Z.shiftl b 8)).
Proof.
  unfold is_byte, is_u16. intros Ha Hb.
  assert (Hb' : forall i, 16 <= i -> Z.testbit (Z.lor a (Z.shiftl b 8)) i = false).
  { intros i Hi. rewrite Z.lor_spec, Z.shiftl_spec by lia.
    by rewrite (testbit_high a 8), (testbit_high b 8) by lia. }
  split_and!; [..|by apply (bits_bound _ 16)|by apply (bits_bound _ 16)];
    apply Z.bits_inj'; intros i Hi; unfold u8; change 256 with (2 ^ 8);
    (destruct (Z.lt_ge_cases i 8);
      [rewrite Z.mod_pow2_bits_low by lia | rewrite Z.mod_pow2_bits_high by lia]).
  - rewrite Z.lor_spec, Z.shiftl_spec_low by lia. by rewrite orb_false_r.
  - symmetry. apply (testbit_high a 8); lia.
  - rewrite Z.shiftr_spec, Z.lor_spec, Z.shiftl_spec by lia.
    rewrite (testbit_high a 8) by lia. cbn. f_equal. lia.
  - symmetry. apply (testbit_high b 8); lia.
Qed.

(** Any eleven bytes are a structure. *)
Lemma settings_of_bytes_bytes l :
  length l = 11%nat -> bytes l ->
  settings_bytes (settings_of_bytes l) = l /\ is_u16 (interval (settings_of_bytes l)).
Proof.
  intros Hl Hb. do 11 (destruct l as [|? l]; [done|]). destruct l; [|done].
  unfold bytes in Hb. rewrite !Forall_cons in Hb.
  unfold settings_bytes, settings_of_bytes, get. gets. cbn -[u8 Z.lor Z.shiftl Z.shiftr].
  match goal with |- context [Z.lor ?a (Z.shiftl ?b 8)] =>
    destruct (le16_split a b) as (-> & -> & ?); [tauto..|done] end.
Qed.

Lemma update_block_full data old : length data = length old -> update_block data old = data.
Proof. intros Hl. unfold update_block. by rewrite drop_ge, app_nil_r by lia. Qed.

Lemma settings_crc l :
  length l = 11%nat -> calc_crc_value l sizeof_SettingsData = crc8 l.
Proof. intros Hl. rewrite <- (calc_crc_value_spec l) by lia. by rewrite Hl. Qed.

(** ** Saving and loading *)

(** What a load does with a head byte in place, as a function of the bytes. *)
Lemma settings_load_spec s :
  nv_sized (nv s) -> bytes (nvSettings (nv s)) ->
  nvSetHeadByte (nv s) = NV_SETTINGS_HEAD_BYTE_VALUE ->
  let s' := mkS (settings_of_bytes (nvSettings (nv s))) (nv s) in
  settings_load s =
    if nvSetCrcByte (nv s) =? crc8 (nvSettings (nv s)) then (true, s')
    else (false, settings_clear s').
Proof.
  intros (Hl & _) Hb Hh. unfold settings_load. rewrite Hh. cbn [negb Z.eqb].
  cbn [g_settings nv]. destruct (settings_of_bytes_bytes _ Hl Hb) as [-> _].
  rewrite settings_crc by done. cbv zeta. rewrite Z.eqb_refl. cbn [negb].
  by destruct (_ =? _).
Qed.

Lemma save_load (s : Settings) (ram : SettingsData) :
  settings_wf (g_settings s) -> nv_sized (nv s) ->
  settings_load (mkS ram (nv (snd (settings_save s)))) = (true, snd (settings_save s)).
Proof.
  intros Hwf Hnv. destruct Hwf as [Hb Hi]. pose proof Hnv as (Hl & _).
  assert (Hset : nvSettings (nv (snd (settings_save s))) = settings_bytes (g_settings s)).
  { cbn -[settings_bytes]. apply update_block_full. by rewrite Hl. }
  rewrite settings_load_spec; cbn [nv] in *.
  - rewrite Hset. cbn -[settings_bytes crc8 calc_crc_value].
    rewrite settings_crc, Z.eqb_refl, settings_bytes_of by done. done.
  - destruct Hnv as (? & ? & ?). split_and!; try done. by rewrite Hset.
  - by rewrite Hset.
  - done.
Qed.

(** C13: settings survive a reset: after [settings_save], [settings_load] succeeds
    and restores every field, whatever was in RAM, and touches neither the call
    data nor the beacon text. *)
Theorem settings_save_load (s : Settings) (ram : SettingsData)
    (Hwf : settings_wf (g_settings s)) (Hnv : nv_sized (nv s)) :
  let s' := snd (settings_save s) in
  settings_load (mkS ram (nv s')) = (true, s') /\ g_settings s' = g_settings s /\
  settings_get_call_data s' = settings_get_call_data s /\
  forall buf n, settings_get_beacon_text buf n s' = settings_get_beacon_text buf n s.
Proof. cbv zeta. split; [by apply save_load|done]. Qed.

(** A byte of the saved settings that changed in the EEPROM is noticed: the load
    fails and every head byte is erased, so that call data and beacon text fall
    back to their defaults too and later loads fail without touching anything.
    The structure in RAM is not restored: it keeps the corrupted bytes. *)
Theorem settings_corruption_detected (s : Settings) (ram : SettingsData) (i y : Z)
    (Hwf : settings_wf (g_settings s)) (Hnv : nv_sized (nv s))
    (Hi : 0 <= i < sizeof_SettingsData) (Hy : is_byte y)
    (Hne : y <> get (settings_bytes (g_settings s)) i) :
  let v := nv (snd (settings_save s)) in
  let bad := upd (nvSettings v) i y in
  let '(ok, s') := settings_load (mkS ram (set_nvSettings bad v)) in
  ok = false /\ g_settings s' = settings_of_bytes bad /\ g_settings s' <> g_settings s /\
  settings_load s' = (false, s') /\ settings_get_call_data s' = default_calldata /\
  settings_get_mycall s' = myCall default_calldata /\
  snd (settings_get_beacon_text (zeros 128) 128 s') = 35.
Proof.
  cbv zeta. destruct Hwf as [Hb Hint]. pose proof Hnv as (Hl & Hl2 & Hl3).
  assert (Hset : nvSettings (nv (snd (settings_save s))) = settings_bytes (g_settings s)).
  { cbn -[settings_bytes]. apply update_block_full. by rewrite Hl. }
  rewrite Hset. remember (settings_bytes (g_settings s)) as l eqn:El.
  assert (Hll : length l = 11%nat) by (by rewrite El).
  pose proof Hi as Hi'. change sizeof_SettingsData with 11 in Hi'.
  destruct (lookup_lt_is_Some_2 l (Z.to_nat i)) as [x Hx]; [lia|].
  assert (Hgx : get l i = x) by (unfold get; rewrite nth_lookup, Hx; done).
  rewrite settings_load_spec; cbn -[crc8 calc_crc_value settings_of_bytes].
  2:{ split_and!; try done. cbn. by rewrite length_upd. }
  2:{ by apply upd_bytes. }
  2:{ done. }
  assert (Hsplit : l = take (Z.to_nat i) l ++ x :: drop (S (Z.to_nat i)) l)
    by (symmetry; by apply take_drop_middle).
  assert (Hbad : upd l i y = take (Z.to_nat i) l ++ y :: drop (S (Z.to_nat i)) l).
  { unfold upd. apply insert_take_drop. lia. }
  assert (Hcrc : (crc8 l =? crc8 (upd l i y)) = false).
  { apply Z.eqb_neq. rewrite Hbad. rewrite Hsplit at 1. apply crc8_detects; try done; [|congruence].
    rewrite <- Hgx. by apply get_bytes. }
  assert (Hcrcb : nvSetCrcByte (nv (snd (settings_save s))) = crc8 l).
  { unfold settings_save. rewrite <- El. cbn -[calc_crc_value crc8]. by apply settings_crc. }
  cbn -[calc_crc_value crc8 settings_of_bytes] in Hcrcb. rewrite <- El in *.
  rewrite Hcrcb, Hcrc.
  split_and!; try done. cbn -[settings_of_bytes]. intros E.
  destruct (settings_of_bytes_bytes (upd l i y)) as [E2 _];
    [by rewrite length_upd|by apply upd_bytes|].
  rewrite E, <- El in E2. apply Hne. rewrite E2 at 1. symmetry. apply get_upd_eq. lia.
Qed.

(** A saved configuration: 20-minute fixed beacons, KISS mode. *)
Definition sample_settings : Settings :=
  mkS (mkSettings 1 47 62 1200 1 50 5 63 10 0)
    (mkNV 0xFF (replicate 11 0xFF) 0xFF 0xFF (replicate 28 0xFF) 0xFF (replicate 128 0xFF)).

Lemma sample_settings_wf : settings_wf (g_settings sample_settings).
Proof. split; [decide_closed|]. unfold is_u16. cbn. lia. Qed.

Lemma settings_save_load_witness :
  let s' := snd (settings_save sample_settings) in
  settings_load (mkS (default_settings 3) (nv s')) = (true, s') /\
  g_settings s' = g_settings sample_settings /\
  settings_get_call_data s' = settings_get_call_data sample_settings /\
  forall buf n, settings_get_beacon_text buf n s' = settings_get_beacon_text buf n sample_settings.
Proof.
  apply (settings_save_load sample_settings (default_settings 3)).
  - apply sample_settings_wf.
  - by split_and!.
Defined.

Lemma settings_corruption_detected_witness :
  let v := nv (snd (settings_save sample_settings)) in
  let bad := upd (nvSettings v) 3 0xB1 in
  let '(ok, s') := settings_load (mkS (default_settings 1) (set_nvSettings bad v)) in
  ok = false /\ g_settings s' = settings_of_bytes bad /\
  g_settings s' <> g_settings sample_settings /\
  settings_load s' = (false, s') /\ settings_get_call_data s' = default_calldata /\
  settings_get_mycall s' = myCall default_calldata /\
  snd (settings_get_beacon_text (zeros 128) 128 s') = 35.
Proof.
  apply (settings_corruption_detected sample_settings (default_settings 1) 3 0xB1).
  - apply sample_settings_wf.
  - by split_and!.
  - unfold sizeof_SettingsData. lia.
  - unfold is_byte. lia.
  - vm_compute. congruence.
Defined.

(** ** The other settings *)

Definition call_sized (a : AX25Call) : Prop := length (call a) = 6%nat.

Lemma call_of_call_bytes a rest :
  call_sized a -> call_of_bytes (call_bytes a ++ rest) = a.
Proof.
  destruct a as [c s]. unfold call_sized, call_of_bytes, call_bytes. cbn. intros Hl.
  rewrite <- !app_assoc. rewrite take_app_length' by done. f_equal.
  unfold get. change (Z.to_nat 6) with 6%nat. rewrite app_nth2 by lia.
  by rewrite Hl.
Qed.

Lemma drop_call_bytes n a rest :
  call_sized a -> n = 7%nat -> drop n (call_bytes a ++ rest) = rest.
Proof.
  intros Hl ->. apply drop_app_length'. unfold call_bytes. rewrite length_app, Hl. done.
Qed.

Lemma call_data_stored (c : CallData) (s : Settings)
    (Hd : call_sized (destCall c)) (Hm : call_sized (myCall c))
    (H1 : call_sized (path1 c)) (H2 : call_sized (path2 c)) (Hnv : nv_sized (nv s)) :
  let s' := settings_set_call_data c s in
  settings_get_call_data s' = c /\ settings_get_mycall s' = myCall c /\ nv_sized (nv s').
Proof.
  cbv zeta. destruct Hnv as (Hl1 & Hl2 & Hl3).
  assert (Hlen : length (calldata_bytes c) = 28%nat).
  { unfold calldata_bytes, call_bytes. rewrite !length_app, Hd, Hm, H1, H2. done. }
  assert (Hset : nvCallData (nv (settings_set_call_data c s)) = calldata_bytes c).
  { cbn. apply update_block_full. by rewrite Hlen, Hl2. }
  unfold settings_get_call_data, settings_get_mycall. rewrite Hset.
  cbn [nv settings_set_call_data nvCallDataHeadByte set_nvCallDataHeadByte].
  rewrite Z.eqb_refl. change (Z.to_nat sizeof_AX25Call) with 7%nat.
  unfold calldata_of_bytes, calldata_bytes. split; [|split].
  - rewrite call_of_call_bytes by done. rewrite (drop_call_bytes 7) by done.
    rewrite call_of_call_bytes by done.
    replace (drop 14 (call_bytes (destCall c) ++ _)) with
      (drop 7 (drop 7 (call_bytes (destCall c) ++ call_bytes (myCall c) ++ call_bytes (path1 c)
        ++ call_bytes (path2 c)))) by (by rewrite drop_drop).
    replace (drop 21 (call_bytes (destCall c) ++ _)) with
      (drop 7 (drop 7 (drop 7 (call_bytes (destCall c) ++ call_bytes (myCall c)
        ++ call_bytes (path1 c) ++ call_bytes (path2 c))))) by (by rewrite !drop_drop).
    rewrite !(drop_call_bytes 7) by done. rewrite call_of_call_bytes by done.
    rewrite <- (app_nil_r (call_bytes (path2 c))), call_of_call_bytes by done.
    by destruct c.
  - rewrite (drop_call_bytes 7) by done. by apply call_of_call_bytes.
  - change (nv_sized (nv (settings_set_call_data c s))). unfold nv_sized. by rewrite Hset, Hlen.
Qed.

(** Whatever the EEPROM holds, it is read as calls of six characters. *)
Lemma call_data_sized s :
  nv_sized (nv s) ->
  let c := settings_get_call_data s in
  call_sized (destCall c) /\ call_sized (myCall c) /\ call_sized (path1 c) /\ call_sized (path2 c).
Proof.
  intros (_ & Hl & _). cbv zeta. unfold settings_get_call_data, call_sized.
  destruct (_ =? _); [|done]. unfold calldata_of_bytes, call_of_bytes. cbn [destCall myCall path1 path2 call].
  rewrite !length_take, !length_drop. lia.
Qed.

(** The station's call data survives: what [settings_set_call_data] stored is
    what [settings_get_call_data] returns, and [settings_get_mycall], which
    reads only seven bytes at an offset, agrees with it. *)
Theorem settings_call_data_roundtrip (c : CallData) (s : Settings)
    (Hd : call_sized (destCall c)) (Hm : call_sized (myCall c))
    (H1 : call_sized (path1 c)) (H2 : call_sized (path2 c)) (Hnv : nv_sized (nv s)) :
  let s' := settings_set_call_data c s in
  settings_get_call_data s' = c /\ settings_get_mycall s' = myCall c /\ nv_sized (nv s').
Proof. by apply call_data_stored. Qed.

Lemma settings_call_data_roundtrip_witness :
  let s' := settings_set_call_data default_calldata sample_settings in
  settings_get_call_data s' = default_calldata /\
  settings_get_mycall s' = myCall default_calldata /\ nv_sized (nv s').
Proof.
  by apply (settings_call_data_roundtrip default_calldata sample_settings).
Defined.

Lemma strnlen_nz l : Forall (fun c => c <> 0) l -> strnlen l = length l.
Proof.
  intros Hl. induction Hl as [|c l Hc Hl IH]; [done|]. cbn. apply Z.eqb_neq in Hc.
  by rewrite Hc, IH.
Qed.

(** A text and its terminator, read through a window of [m] bytes. *)
Lemma strnlen_window m text rest :
  Forall (fun c => c <> 0) text ->
  strnlen (take m (text ++ 0 :: rest)) = (length text `min` m)%nat.
Proof.
  intros Ht. destruct (Nat.le_gt_cases m (length text)) as [Hm|Hm].
  - rewrite take_app_le by done. rewrite strnlen_nz by (by apply Forall_take).
    rewrite length_take. lia.
  - rewrite take_app_ge by lia.
    destruct (m - length text)%nat as [|k] eqn:E; [lia|]. cbn [take].
    rewrite strnlen_app_0 by done. lia.
Qed.

(** What [settings_set_beacon_text] leaves in the EEPROM. *)
Lemma stored_text text old w :
  (w <= length text)%nat -> (w < length old)%nat ->
  upd (update_block (take w text) old) (Z.of_nat w) 0
    = take w text ++ 0 :: drop (S w) old.
Proof.
  intros Hw Ho. unfold update_block.
  assert (Hl : length (take w text) = w) by (rewrite length_take; lia).
  destruct (lookup_lt_is_Some_2 old w Ho) as [x Hx].
  rewrite Hl, (drop_S old x w Hx). rewrite <- Hl at 3. by rewrite upd_app.
Qed.

Lemma beacon_text_stored (text buf : list Z) (n : Z) (s : Settings)
    (Htext : Forall (fun c => c <> 0) text) (Hlen : Z.of_nat (length text) < 256)
    (Hn : 0 < n < 256) (Hbuf : n <= Z.of_nat (length buf)) (Hnv : nv_sized (nv s)) :
  let '(w, s') := settings_set_beacon_text text (Z.of_nat (length text)) s in
  let '(buf', k) := settings_get_beacon_text buf n s' in
  w = Z.min (Z.of_nat (length text)) 127 /\
  k = Z.min w (n - 1) /\ take (Z.to_nat k) buf' = take (Z.to_nat k) text /\
  get buf' k = 0 /\ length buf' = length buf.
Proof.
  destruct Hnv as (_ & _ & Hl).
  unfold settings_set_beacon_text, settings_get_beacon_text, SETTINGS_BEACON_TEXT_MAX_LEN.
  cbn [nv nvBeaconTextHeadByte set_nvBeaconTextHeadByte nvBeaconText set_nvBeaconText].
  rewrite Z.eqb_refl. cbn [negb]. rewrite !u8_small by lia.
  set (w := Z.min (Z.of_nat (length text)) (128 - 1)). set (m := Z.min (n - 1) 128).
  pose proof (stored_text text (nvBeaconText (nv s)) (Z.to_nat w) ltac:(lia) ltac:(lia)) as Hst.
  rewrite Z2Nat.id in Hst by lia. rewrite Hst. clear Hst.
  set (wn := Z.to_nat w). set (stored := take wn text ++ 0 :: drop (S wn) (nvBeaconText (nv s))).
  assert (Hlw : length (take wn text) = wn) by (rewrite length_take; lia).
  assert (Hlst : length stored = 128%nat).
  { unfold stored. rewrite length_app. cbn. rewrite length_drop. lia. }
  set (blk := update_block (take (Z.to_nat m) stored) (upd buf 0 0)).
  assert (Hlr : length (take (Z.to_nat m) stored) = Z.to_nat m) by (rewrite length_take; lia).
  assert (Hblk : take (Z.to_nat m) blk = take (Z.to_nat m) stored) by (by apply take_app_length').
  assert (Hlblk : length blk = length buf).
  { unfold blk, update_block. rewrite length_app, length_drop, length_upd. lia. }
  assert (Hk : Z.of_nat (strnlen (take (Z.to_nat m) blk)) = Z.min w (n - 1)).
  { rewrite Hblk. unfold stored. rewrite strnlen_window by (by apply Forall_take). lia. }
  rewrite Hk. set (k := Z.min w (n - 1)) in *.
  split_and!; [done|done| | |by rewrite length_upd].
  - unfold upd. rewrite take_insert_ge by lia.
    replace (Z.to_nat k) with (Z.to_nat k `min` Z.to_nat m)%nat at 1 by lia.
    rewrite <- take_take, Hblk, take_take. unfold stored.
    rewrite take_app_le by lia. rewrite take_take. f_equal. lia.
  - apply get_upd_eq. lia.
Qed.

(** Beacon texts survive up to 127 characters, and a reader gets at most one
    character less than its buffer: storing a text and reading it back into a
    buffer of [n] bytes gives its first [min(length, 127, n - 1)] characters, their
    number as result, and a terminator inside the buffer. *)
Theorem settings_beacon_text_roundtrip (text buf : list Z) (n : Z) (s : Settings)
    (Htext : Forall (fun c => c <> 0) text) (Hlen : Z.of_nat (length text) < 256)
    (Hn : 0 < n < 256) (Hbuf : n <= Z.of_nat (length buf)) (Hnv : nv_sized (nv s)) :
  let '(w, s') := settings_set_beacon_text text (Z.of_nat (length text)) s in
  let '(buf', k) := settings_get_beacon_text buf n s' in
  w = Z.min (Z.of_nat (length text)) 127 /\
  k = Z.min w (n - 1) /\ take (Z.to_nat k) buf' = take (Z.to_nat k) text /\
  get buf' k = 0 /\ length buf' = length buf.
Proof. by apply beacon_text_stored. Qed.

(** Two hundred characters, through the 74 bytes KISS asks for. *)
Lemma settings_beacon_text_roundtrip_witness :
  let '(w, s') := settings_set_beacon_text (replicate 200 65) 200 sample_settings in
  let '(buf', k) := settings_get_beacon_text (zeros 330) 74 s' in
  w = Z.min 200 127 /\
  k = Z.min w (74 - 1) /\ take (Z.to_nat k) buf' = take (Z.to_nat k) (replicate 200 65) /\
  get buf' k = 0 /\ length buf' = length (zeros 330).
Proof.
  apply (settings_beacon_text_roundtrip (replicate 200 65) (zeros 330) 74 sample_settings).
  - apply (bool_decide_unpack _). vm_compute. exact I.
  - vm_compute. reflexivity.
  - lia.
  - vm_compute. congruence.
  - by split_and!.
Defined.
