(* ===== verification/Reader.v ===== *)
(** * Lines from the serial port: [TinyAPRS/reader.c]

    The reader shared by the console (lines) and by KISS (its buffer). It has
    330 bytes of buffer and an 8-bit count of those used. *)

From Stdlib Require Import ZArith Lia Bool List.
From stdpp Require Import prelude.
From S2P Require Import Prelude.
From S2P Require Import Libc.
From S2P Require Import Fifo.
From S2P Require Import KFile.
From S2P Require Import Ax25.
From S2P Require Import Ser.

Open Scope Z_scope.

Definition READER_BUF_LEN : Z := CONFIG_AX25_FRAME_BUF_LEN.

(** [data] is [NULL] or the buffer itself: the line is [sr_buf] up to
    [dataLen]. *)
Record SerialReader (S : Type) := mkReader {
  sr_ser : S;
  sr_buf : list Z;
  bufLen : Z;
  readLen : Z;
  sr_data : bool;
  dataLen : Z
}.

Arguments mkReader {S}.
Arguments sr_ser {S}. Arguments sr_buf {S}. Arguments bufLen {S}.
Arguments readLen {S}. Arguments sr_data {S}. Arguments dataLen {S}.

Definition set_sr_ser {S : Type} (v : S) (r : SerialReader S) : SerialReader S :=
  mkReader v (sr_buf r) (bufLen r) (readLen r) (sr_data r) (dataLen r).
Definition set_sr_buf {S : Type} (v : list Z) (r : SerialReader S) : SerialReader S :=
  mkReader (sr_ser r) v (bufLen r) (readLen r) (sr_data r) (dataLen r).
Definition set_bufLen {S : Type} (v : Z) (r : SerialReader S) : SerialReader S :=
  mkReader (sr_ser r) (sr_buf r) v (readLen r) (sr_data r) (dataLen r).
Definition set_readLen {S : Type} (v : Z) (r : SerialReader S) : SerialReader S :=
  mkReader (sr_ser r) (sr_buf r) (bufLen r) v (sr_data r) (dataLen r).
Definition set_sr_data {S : Type} (v : bool) (r : SerialReader S) : SerialReader S :=
  mkReader (sr_ser r) (sr_buf r) (bufLen r) (readLen r) v (dataLen r).
Definition set_dataLen {S : Type} (v : Z) (r : SerialReader S) : SerialReader S :=
  mkReader (sr_ser r) (sr_buf r) (bufLen r) (readLen r) (sr_data r) v.

Section Reader.
Context {S : Type} `{SerPort S}.

Definition serialreader_init (ser : S) : SerialReader S :=
  mkReader ser (zeros (Z.to_nat READER_BUF_LEN)) READER_BUF_LEN 0 false 0.

Definition serialreader_reset (r : SerialReader S) : SerialReader S :=
  set_sr_ser (kfile_clearerr (sr_ser r)) (set_readLen 0 (set_dataLen 0 r)).

(** The end of a line: the string is terminated and the counter reset. *)
Definition reader_line_end (r : SerialReader S) : Z * SerialReader S :=
  if readLen r >? 0 then
    let r := set_sr_buf (upd (sr_buf r) (readLen r) 0) r in
    let r := set_dataLen (readLen r) (set_sr_data true r) in
    (dataLen r, set_readLen 0 r)
  else (0, r).

(** The part of [serialreader_readline] after [ser_getchar] gave [c]. *)
Definition reader_char (c : Z) (r : SerialReader S) : Z * SerialReader S :=
  if negb (c =? 13) && negb (c =? 10) then
    let r := set_sr_buf (upd (sr_buf r) (readLen r) (u8 c)) r in
    let r := set_readLen (u8 (readLen r + 1)) r in
    if readLen r <? bufLen r - 1 then (0, r) else reader_line_end r
  else reader_line_end r.

Definition serialreader_readline (r : SerialReader S) : Z * SerialReader S :=
  let '(c, ser) := sp_getchar (sr_ser r) in
  let r := set_sr_ser ser r in
  if c =? EOF then (0, r) else reader_char c r.
End Reader.

(** ** Lines *)

Section Lines.
Context {S : Type} `{SerLaws S}.
Implicit Types r : SerialReader S.

Definition reader_wf r : Prop :=
  length (sr_buf r) = Z.to_nat READER_BUF_LEN /\ bufLen r = READER_BUF_LEN /\
  0 <= readLen r < 256 /\ sp_ok (sr_ser r).

Definition is_eol (c : Z) : bool := (c =? 13) || (c =? 10).

(** Calls of [serialreader_readline] until the input runs out; the lines. *)
Fixpoint read_lines (n : nat) r : list (list Z) * SerialReader S :=
  match n with
  | O => ([], r)
  | Datatypes.S n' =>
      let '(k, r1) := serialreader_readline r in
      let '(ls, r2) := read_lines n' r1 in
      ((if k >? 0 then [take (Z.to_nat (dataLen r1)) (sr_buf r1)] else []) ++ ls, r2)
  end.

Lemma readline_spec r c l :
  reader_wf r -> sp_in (sr_ser r) = c :: l -> sp_deaf (sr_ser r) = false ->
  exists r', serialreader_readline r = reader_char c (set_sr_ser (sr_ser r') r) /\
    sp_ok (sr_ser r') /\ sp_in (sr_ser r') = l /\ sp_deaf (sr_ser r') = false /\ is_byte c.
Proof.
  intros (_ & _ & _ & Hok) Hin Hd. unfold serialreader_readline.
  pose proof (sp_getchar_in (sr_ser r) Hok) as Hg. rewrite Hin, Hd in Hg.
  pose proof (sp_getchar_out (sr_ser r) Hok) as [Hok' _].
  destruct (sp_getchar (sr_ser r)) as [x s]. cbn in *. destruct Hg as (Hb & -> & Hl & Hd').
  exists (set_sr_ser s r). cbn.
  assert ((c =? EOF) = false) as -> by (apply Z.eqb_neq; unfold is_byte, EOF in *; lia).
  by split_and!.
Qed.

(** A character of a line that still fits the counter. *)
Lemma reader_char_store r c acc :
  reader_wf r -> is_byte c -> is_eol c = false -> readLen r = Z.of_nat (length acc) ->
  (length acc < 255)%nat -> take (length acc) (sr_buf r) = acc ->
  let '(k, r') := reader_char c r in
  k = 0 /\ reader_wf r' /\ sr_ser r' = sr_ser r /\
  readLen r' = Z.of_nat (length (acc ++ [c])) /\
  take (length (acc ++ [c])) (sr_buf r') = acc ++ [c].
Proof.
  intros (Hl & Hb & Hr & Hok) Hc He Hn Ha Ht. unfold reader_char, is_eol in *.
  apply orb_false_elim in He as [-> ->]. cbn [negb andb].
  cbn -[READER_BUF_LEN]. rewrite u8_small by lia.
  rewrite Hb. assert ((readLen r + 1 <? READER_BUF_LEN - 1) = true) as ->
    by (apply Z.ltb_lt; unfold READER_BUF_LEN, CONFIG_AX25_FRAME_BUF_LEN; lia).
  unfold reader_wf. cbn -[READER_BUF_LEN]. rewrite length_upd, length_app. cbn [length].
  split_and!; try done; try lia.
  rewrite Nat.add_1_r, (take_S_r _ _ c).
  - unfold upd. rewrite take_insert_ge by lia. by rewrite Ht.
  - rewrite Hn. unfold upd. rewrite Nat2Z.id, u8_small by done. apply list_lookup_insert_eq.
    rewrite Hl. change (Z.to_nat READER_BUF_LEN) with 330%nat. lia.
Qed.

Lemma read_lines_text text : forall r acc rest,
  reader_wf r -> Forall (fun c => is_eol c = false) text ->
  sp_in (sr_ser r) = text ++ rest -> sp_deaf (sr_ser r) = false ->
  readLen r = Z.of_nat (length acc) -> (length acc + length text < 256)%nat ->
  take (length acc) (sr_buf r) = acc ->
  exists r', read_lines (length text) r = ([], r') /\ reader_wf r' /\
    sp_in (sr_ser r') = rest /\ sp_deaf (sr_ser r') = false /\
    readLen r' = Z.of_nat (length (acc ++ text)) /\
    take (length (acc ++ text)) (sr_buf r') = acc ++ text.
Proof.
  induction text as [|c text IH]; intros r acc rest Hw Hne Hin Hd Hn Hl Ht.
  - exists r. rewrite app_nil_r. by split_and!.
  - apply Forall_cons in Hne as [Hc Hne]. cbn [length read_lines app] in *.
    destruct (readline_spec r c (text ++ rest) Hw Hin Hd) as (r1 & E & Hok1 & Hin1 & Hd1 & Hb).
    rewrite E.
    pose proof (reader_char_store (set_sr_ser (sr_ser r1) r) c acc) as Hs.
    destruct (reader_char c (set_sr_ser (sr_ser r1) r)) as [k r2].
    destruct Hs as (-> & Hw2 & Hs2 & Hn2 & Ht2); try done; [|lia|].
    { destruct Hw as (? & ? & ? & _). split_and!; cbn; done || lia. }
    destruct (IH r2 (acc ++ [c]) rest) as (r3 & E3 & A); try done; rewrite ?Hs2; try done.
    { rewrite length_app. cbn. lia. }
    exists r3. cbn in Hs2. rewrite E3. cbn. rewrite <- !app_assoc in A. by split.
Qed.

(** The buffer of a reader that returned a line. *)
Lemma line_buffer (text : list Z) r :
  reader_wf r -> (length text < 256)%nat -> take (length text) (sr_buf r) = text ->
  get (sr_buf r) (Z.of_nat (length text)) = 0 ->
  sr_buf r = text ++ 0 :: drop (Datatypes.S (length text)) (sr_buf r).
Proof.
  intros (Hl & _) Hlt Ht H0'. rewrite <- (take_drop (length text) (sr_buf r)) at 1. rewrite Ht. f_equal.
  change (Z.to_nat READER_BUF_LEN) with 330%nat in Hl. unfold get in H0'. rewrite Nat2Z.id in H0'.
  rewrite (drop_S _ 0 (length text)); [done|].
  destruct (nth_lookup_or_length (sr_buf r) (length text) 0) as [-> |]; [by rewrite H0'|lia].
Qed.

(** A line of 1 to 255 characters comes back whole: when it is waiting on the
    port with its end, as many calls of [serialreader_readline] as there are
    characters return nothing, the next returns its length with the line
    terminated in the buffer, and the reader is ready for the next line. *)
Theorem serialreader_reads_line (text : list Z) (e : Z) (rest : list Z) r
    (Hw : reader_wf r) (Hempty : readLen r = 0)
    (Htext : Forall (fun c => is_eol c = false) text) (He : is_eol e = true)
    (Hlen : (0 < length text < 256)%nat) (Hd : sp_deaf (sr_ser r) = false)
    (Hin : sp_in (sr_ser r) = text ++ e :: rest) :
  exists r1 r2,
    read_lines (length text) r = ([], r1) /\
    serialreader_readline r1 = (Z.of_nat (length text), r2) /\
    reader_wf r2 /\ readLen r2 = 0 /\ dataLen r2 = Z.of_nat (length text) /\ sp_in (sr_ser r2) = rest /\
    take (length text) (sr_buf r2) = text /\ get (sr_buf r2) (Z.of_nat (length text)) = 0.
Proof.
  destruct (read_lines_text text r [] (e :: rest)) as (r1 & E1 & Hw1 & Hin1 & Hd1 & Hn1 & Ht1);
    try done; [cbn; lia|]. cbn [app] in *.
  destruct (readline_spec r1 e rest Hw1 Hin1 Hd1) as (s & E2 & Hok & Hin2 & Hd2 & Hb).
  exists r1. rewrite E2. unfold reader_char. unfold is_eol in He.
  rewrite <- negb_orb, He. cbn [negb]. unfold reader_line_end.
  cbn [readLen set_sr_ser sr_buf set_sr_buf set_readLen set_dataLen set_sr_data dataLen bufLen sr_ser sr_data].
  rewrite Hn1. assert ((Z.of_nat (length text) >? 0) = true) as ->
    by (rewrite Z.gtb_ltb; apply Z.ltb_lt; lia).
  destruct Hw1 as (Hl & Hbl & Hr & _).
  eexists. split; [done|]. split; [done|].
  cbn -[READER_BUF_LEN]. unfold reader_wf. cbn -[READER_BUF_LEN]. rewrite length_upd.
  split_and!; try done; try lia.
  - unfold upd. by rewrite take_insert_ge by lia.
  - rewrite <- Hn1. apply get_upd_eq. rewrite Hl.
    change (Z.of_nat (Z.to_nat READER_BUF_LEN)) with 330. lia.
Qed.

(** *** Clients

    A client polls the reader and acts when a line is complete. *)
Section Polls.
Context {T : Type}.
Variable reader_of : T -> SerialReader S.
Variable put : SerialReader S -> T -> T.
Variable poll : T -> T.
Hypothesis reader_put : forall r t, reader_of (put r t) = r.
Hypothesis put_put : forall r r' t, put r (put r' t) = put r t.
Hypothesis put_same : forall t, put (reader_of t) t = t.
Hypothesis poll_waits : forall t,
  fst (serialreader_readline (reader_of t)) <= 0 ->
  poll t = put (snd (serialreader_readline (reader_of t))) t.

Lemma polls_reading n : forall t r,
  read_lines n (reader_of t) = ([], r) -> iter n poll t = put r t.
Proof.
  induction n as [|n IH]; intros t r E; cbn [read_lines iter] in *.
  - injection E as <-. by rewrite put_same.
  - pose proof (poll_waits t) as Hp.
    destruct (serialreader_readline (reader_of t)) as [k r1]. cbn [fst snd] in Hp.
    destruct (read_lines n r1) as [ls r2] eqn:E2.
    destruct (k >? 0) eqn:Ek; [done|]. rewrite Z.gtb_ltb in Ek. apply Z.ltb_ge in Ek.
    cbn [app] in E. injection E as -> <-.
    rewrite Hp by done. rewrite (IH (put r1 t) r2); [by rewrite put_put|by rewrite reader_put].
Qed.

(** A line waiting on the port: the polls only collect characters until the last. *)
Lemma polls_line (text : list Z) (e : Z) (rest : list Z) t :
  reader_wf (reader_of t) -> readLen (reader_of t) = 0 ->
  Forall (fun c => is_eol c = false) text -> is_eol e = true -> (0 < length text < 256)%nat ->
  sp_deaf (sr_ser (reader_of t)) = false -> sp_in (sr_ser (reader_of t)) = text ++ e :: rest ->
  exists r1 r2 more,
    iter (length text + 1) poll t = poll (put r1 t) /\
    serialreader_readline r1 = (Z.of_nat (length text), r2) /\
    reader_wf r2 /\ readLen r2 = 0 /\ dataLen r2 = Z.of_nat (length text) /\
    sp_in (sr_ser r2) = rest /\ sr_buf r2 = text ++ 0 :: more.
Proof.
  intros Hw Hempty Htext He Hlen Hd Hin.
  destruct (serialreader_reads_line text e rest (reader_of t)) as
    (r1 & r2 & E1 & E2 & Hw2 & Hr2 & Hd2 & Hin2 & Ht & H0'); try done.
  exists r1, r2, (drop (Datatypes.S (length text)) (sr_buf r2)).
  rewrite iter_add, (polls_reading _ t r1 E1).
  split_and!; try done. apply line_buffer; [done|lia|done..].
Qed.
End Polls.
End Lines.

(** ** The reader on the serial driver *)

(** A port with 16 bytes received: a line, its end, and the start of another. *)
Definition line_port : Serial :=
  let rx := fifo_init (zeros 32) 32 in
  set_rxfifo (snd (KFileFifo.kfilefifo_write rx ([63; 77; 79; 68; 69; 61; 49] ++ 13 :: [65; 66])))
    (ser_init 0).

Lemma line_port_wf : ser_wf line_port.
Proof.
  destruct (ser_init_wf 0) as (Ht & Hr & _ & Hu & Hs & H0).
  assert (Hw : fifo_wf (rxfifo line_port) /\ bytes (contents (rxfifo line_port))).
  { split; [|decide_closed]. vm_compute. split_and!; congruence. }
  destruct Hw as [Hw Hb]. by split; [|split; [|split]].
Qed.

Lemma serialreader_reads_line_witness :
  let port := ser_port (fun _ => None) (fun _ => 0) 0 in
  let r := serialreader_init line_port in
  exists r1 r2,
    read_lines (length [63; 77; 79; 68; 69; 61; 49]) r = ([], r1) /\
    serialreader_readline r1 = (Z.of_nat (length [63; 77; 79; 68; 69; 61; 49]), r2) /\
    reader_wf (H0 := ser_laws (fun _ => None) (fun _ => 0) 0) r2 /\ readLen r2 = 0 /\
    dataLen r2 = 7 /\
    sp_in (SerLaws := ser_laws (fun _ => None) (fun _ => 0) 0) (sr_ser r2) = [65; 66] /\
    take (length [63; 77; 79; 68; 69; 61; 49]) (sr_buf r2) = [63; 77; 79; 68; 69; 61; 49] /\
    get (sr_buf r2) (Z.of_nat (length [63; 77; 79; 68; 69; 61; 49])) = 0.
Proof.
  apply (serialreader_reads_line (H0 := ser_laws (fun _ => None) (fun _ => 0) 0)
    [63; 77; 79; 68; 69; 61; 49] 13 [65; 66] (serialreader_init line_port)).
  - split; [vm_compute; reflexivity|]. split; [reflexivity|]. split; [cbn; lia|].
    apply line_port_wf.
  - done.
  - by repeat constructor.
  - done.
  - cbn. lia.
  - done.
  - vm_compute. reflexivity.
Defined.

(** The 8-bit counter cuts long lines. Of a line of 300 characters the
    reader, whose buffer has 330 bytes, returns the last 44. *)
Theorem serialreader_long_line_wraps :
  let feed := fold_left (fun r c => snd (reader_char c r)) in
  let r := feed (seqZ 1000 300) (serialreader_init (ser_init 0)) in
  reader_char 13 r = (44, snd (reader_char 13 r)) /\
  take 44 (sr_buf (snd (reader_char 13 r))) = map u8 (seqZ 1256 44) /\
  length (sr_buf r) = 330%nat.
Proof. vm_compute. split_and!; reflexivity. Qed.
