(* ===== verification/Kiss.v ===== *)
(** * The KISS protocol: [TinyAPRS/net/kiss.c]

    Host and radio: bytes from the serial port are cut into KISS frames in the
    reader's buffer, data frames go to the modem when the channel is free, other
    frames read and write the settings; frames from the radio go to the host.

    The components KISS stands on are parameters: the serial port ([SerPort]),
    the modem ([KFile] and [Carrier]), what the AX.25 layer calls back ([hook]),
    [rand()] as the sequence of its values, and the build number. *)

From Stdlib Require Import ZArith Lia Bool List.
From stdpp Require Import prelude.
From S2P Require Import Prelude.
From S2P Require Import Libc.
From S2P Require Import KFile.
From S2P Require Import Ax25.
From S2P Require Import Ser.
From S2P Require Import Utils.
From S2P Require Import Settings.
From S2P Require Import Reader.

Open Scope Z_scope.

Definition KISS_FEND : Z := 0xc0.
Definition KISS_FESC : Z := 0xdb.
Definition KISS_TFEND : Z := 0xdc.
Definition KISS_TFESC : Z := 0xdd.

Definition KISS_CMD_DATA : Z := 0.
Definition KISS_CMD_CONFIG_TEXT : Z := 0x0B.
Definition KISS_CMD_CONFIG_CALL : Z := 0x0C.
Definition KISS_CMD_CONFIG_PARAMS : Z := 0x0D.
Definition KISS_CMD_CONFIG_MAGIC : Z := 0x0F.
Definition KISS_CMD_Return : Z := 0xFF.

(** What [kiss_send_to_modem] reads of the modem behind the channel; what
    happens to it while the program waits: the interrupts of one turn of a
    loop, and those of a delay. *)
Class Carrier (F : Type) := {
  rxstart : F -> bool;
  modem_status : F -> Z;
  clear_status : F -> F;
  run_irqs : F -> F;
  timer_delay : Z -> F -> F
}.

(** [KissCtx], the [static] flag of [kiss_poll_serial], the settings, how many
    values [rand()] has given, and whether [soft_reset] was called. *)
Record Kiss (S F : Type) := mkKiss {
  k_reader : SerialReader S;
  k_modem : AX25Ctx F;
  rxTick : Z;
  escaped : bool;
  k_set : Settings;
  rng : nat;
  k_reset : bool
}.

Arguments mkKiss {S F}.
Arguments k_reader {S F}. Arguments k_modem {S F}. Arguments rxTick {S F}.
Arguments escaped {S F}. Arguments k_set {S F}. Arguments rng {S F}.
Arguments k_reset {S F}.

Definition set_k_reader {S F : Type} (v : SerialReader S) (k : Kiss S F) : Kiss S F :=
  mkKiss v (k_modem k) (rxTick k) (escaped k) (k_set k) (rng k) (k_reset k).
Definition set_k_modem {S F : Type} (v : AX25Ctx F) (k : Kiss S F) : Kiss S F :=
  mkKiss (k_reader k) v (rxTick k) (escaped k) (k_set k) (rng k) (k_reset k).
Definition set_rxTick {S F : Type} (v : Z) (k : Kiss S F) : Kiss S F :=
  mkKiss (k_reader k) (k_modem k) v (escaped k) (k_set k) (rng k) (k_reset k).
Definition set_escaped {S F : Type} (v : bool) (k : Kiss S F) : Kiss S F :=
  mkKiss (k_reader k) (k_modem k) (rxTick k) v (k_set k) (rng k) (k_reset k).
Definition set_k_set {S F : Type} (v : Settings) (k : Kiss S F) : Kiss S F :=
  mkKiss (k_reader k) (k_modem k) (rxTick k) (escaped k) v (rng k) (k_reset k).
Definition set_rng {S F : Type} (v : nat) (k : Kiss S F) : Kiss S F :=
  mkKiss (k_reader k) (k_modem k) (rxTick k) (escaped k) (k_set k) v (k_reset k).
Definition set_k_reset {S F : Type} (v : bool) (k : Kiss S F) : Kiss S F :=
  mkKiss (k_reader k) (k_modem k) (rxTick k) (escaped k) (k_set k) (rng k) v.

(** ** To the host *)

Section ToHost.
Context {S : Type} `{SerPort S}.

Definition reader_put (c : Z) (r : SerialReader S) : SerialReader S :=
  set_sr_ser (snd (sp_putchar c (sr_ser r))) r.

Definition _send_to_serial_begin (port cmd : Z) (r : SerialReader S) : SerialReader S :=
  reader_put (Z.lor (Z.land (Z.shiftl port 4) 0xf0) (Z.land cmd 0x0f))
    (reader_put KISS_FEND r).

Definition _send_to_serial_byte (r : SerialReader S) (c : Z) : SerialReader S :=
  if c =? KISS_FEND then reader_put KISS_TFEND (reader_put KISS_FESC r)
  else
    let r := reader_put c r in
    if c =? KISS_FESC then reader_put KISS_TFESC r else r.

Definition _send_to_serial (buf : list Z) (len : Z) (r : SerialReader S) : SerialReader S :=
  fold_left _send_to_serial_byte (take (Z.to_nat len) buf) r.

Definition _send_to_serial_end (r : SerialReader S) : SerialReader S :=
  reader_put KISS_FEND r.

Definition kiss_send_to_serial (port cmd : Z) (buf : list Z) (len : Z) (r : SerialReader S)
  : SerialReader S :=
  _send_to_serial_end (_send_to_serial buf len (_send_to_serial_begin port cmd r)).

Definition kiss_flush_serial (r : SerialReader S) : SerialReader S :=
  set_sr_ser (snd (kfile_flush (sr_ser r))) r.

Definition kiss_respond_config_magic_cmd (data : list Z) (len : Z) (r : SerialReader S)
  : SerialReader S :=
  let crc := calc_crc_value data len in
  let r := _send_to_serial_begin 0 KISS_CMD_CONFIG_MAGIC r in
  let r := _send_to_serial data len r in
  let r := _send_to_serial [crc] 1 r in
  kiss_flush_serial (_send_to_serial_end r).

Definition KISS_SERIAL_RESPOND_OK : SerialReader S -> SerialReader S :=
  kiss_respond_config_magic_cmd [] 0.

(** A reply with its checksum, as the three reading commands send it. *)
Definition send_config (cmd : Z) (data : list Z) (len : Z) (r : SerialReader S)
  : SerialReader S :=
  let crc := calc_crc_value data len in
  let r := _send_to_serial_begin 0 cmd r in
  let r := _send_to_serial data len r in
  let r := _send_to_serial [crc] 1 r in
  _send_to_serial_end r.
End ToHost.

(** ** From the host *)

Section FromHost.
Context {S : Type} `{SerPort S} {F : Type} `{KFile F} `{Carrier F}.
Implicit Types k : Kiss S F.

Variable hook : option AX25Msg -> AX25Ctx F -> SerialReader S -> AX25Ctx F * SerialReader S.
Variable stack_msg : AX25Ctx F -> SerialReader S -> AX25Msg.
Variable rand : nat -> Z.
Variable VERS_BUILD : Z.
(** Turns [ax25_poll] may take for one drain of the channel. *)
Variable poll_fuel : nat.

Definition kiss_init (serialReader : SerialReader S) (modem : AX25Ctx F) (s : Settings) : Kiss S F :=
  mkKiss serialReader modem 0 false s 0 false.

(** [tp], the number compared with the persistence. *)
Definition csma_draw (i : Z) : Z :=
  let i := u16 i in u8 (Z.lxor (Z.shiftr i 8) (Z.land i 0xff)).

(** The inner loop, while a carrier is there; [true]: the packet is dropped. *)
Fixpoint csma_wait (fuel : nat) k : option (bool * Kiss S F) :=
  match fuel with
  | O => None
  | Datatypes.S fuel' =>
      if rxstart (ax_ch (k_modem k)) then
        let modem := set_ax_ch (run_irqs (ax_ch (k_modem k))) (k_modem k) in
        match ax25_poll hook stack_msg poll_fuel modem (k_reader k) with
        | None => None
        | Some (modem, r) =>
            let k := set_k_modem modem (set_k_reader r k) in
            if negb (modem_status (ax_ch (k_modem k)) =? 0) then
              Some (true, set_k_modem (set_ax_ch (clear_status (ax_ch (k_modem k))) (k_modem k)) k)
            else csma_wait fuel' k
        end
      else Some (false, k)
  end.

(** The loop of [kiss_send_to_modem]; [None]: still waiting. *)
Fixpoint csma_send (fuel : nat) (buf : list Z) k : option (Kiss S F) :=
  match fuel with
  | O => None
  | Datatypes.S fuel' =>
      if negb (rxstart (ax_ch (k_modem k))) then
        let tp := csma_draw (rand (rng k)) in
        let k := set_rng (Datatypes.S (rng k)) k in
        if tp <? persistence (g_settings (k_set k)) then
          Some (set_k_modem (ax25_sendRaw (k_modem k) buf) k)
        else
          let delay := slot_time (g_settings (k_set k)) * 10 in
          csma_send fuel' buf
            (set_k_modem (set_ax_ch (timer_delay delay (ax_ch (k_modem k))) (k_modem k)) k)
      else
        match csma_wait fuel k with
        | None => None
        | Some (true, k) => Some k
        | Some (false, k) => csma_send fuel' buf k
        end
  end.

Definition kiss_send_to_modem (fuel : nat) (buf : list Z) (len : Z) k : option (Kiss S F) :=
  let buf := take (Z.to_nat len) buf in
  if duplex (g_settings (k_set k)) =? RF_DUPLEX_FULL then
    Some (set_k_modem (ax25_sendRaw (k_modem k) buf) k)
  else csma_send fuel buf k.

Definition verify_config_data (frame : list Z) (size : Z) : bool :=
  if size =? 0 then false
  else
    let len := u16 (size - 1) in
    get frame len =? calc_crc_value frame len.

Definition on_reader (f : SerialReader S -> SerialReader S) k : Kiss S F :=
  set_k_reader (f (k_reader k)) k.

Definition kiss_handle_config_params_cmd (data : list Z) (len : Z) k : Kiss S F :=
  if len =? 0 then
    on_reader (send_config KISS_CMD_CONFIG_PARAMS (settings_bytes (g_settings (k_set k)))
      sizeof_SettingsData) k
  else if len =? sizeof_SettingsData then
    let '(_, s) := settings_set_params_bytes data len (k_set k) in
    let '(_, s) := settings_save s in
    on_reader KISS_SERIAL_RESPOND_OK (set_k_set s k)
  else k.

(** The reader's buffer doubles as the buffer for the text; the length of the
    buffer and of the data are passed as bytes. *)
Definition kiss_handle_config_text_cmd (data : list Z) (len : Z) k : Kiss S F :=
  if len =? 0 then
    let r := set_readLen 0 (k_reader k) in
    let '(buf, n) := settings_get_beacon_text (sr_buf r) (u8 (bufLen r)) (k_set k) in
    let r := set_sr_buf buf r in
    let k := set_k_reader r k in
    if n >? 0 then on_reader (send_config KISS_CMD_CONFIG_TEXT (sr_buf r) n) k else k
  else
    let '(_, s) := settings_set_beacon_text data (u8 len) (k_set k) in
    on_reader KISS_SERIAL_RESPOND_OK (set_k_set s k).

Definition kiss_handle_config_call_cmd (data : list Z) (len : Z) k : Kiss S F :=
  if len =? 0 then
    on_reader (send_config KISS_CMD_CONFIG_CALL
      (calldata_bytes (settings_get_call_data (k_set k))) sizeof_CallData) k
  else if len =? sizeof_CallData then
    let calldata := calldata_of_bytes (take (Z.to_nat sizeof_CallData) data) in
    on_reader KISS_SERIAL_RESPOND_OK
      (set_k_set (settings_set_call_data calldata (k_set k)) k)
  else k.

Definition is_magic (len : Z) (data : list Z) (a b c d : Z) : bool :=
  (len =? 4) && (get data 0 =? a) && (get data 1 =? b) && (get data 2 =? c)
  && (get data 3 =? d).

Definition kiss_handle_config_magic_cmd (data : list Z) (len : Z) k : Kiss S F :=
  if is_magic len data 0x0B 0 0 0x07 then
    set_k_reset true (on_reader KISS_SERIAL_RESPOND_OK k)
  else if is_magic len data 0x0B 0x0A 0x0B 0x0E then
    let build := u16 VERS_BUILD in
    let vers := [1; 0; Z.land (Z.shiftr build 8) 0xff; Z.land build 0xff] in
    on_reader (send_config KISS_CMD_CONFIG_MAGIC vers 4) k
  else k.

Definition kiss_handle_frame (fuel : nat) (frame : list Z) (size : Z) k : option (Kiss S F) :=
  if size =? 0 then Some k
  else if (size =? 1) && (get frame 0 =? KISS_CMD_Return) then Some k
  else if size <? 2 then Some k
  else
    let cmd := Z.land (get frame 0) 0x0f in
    let port := Z.land (Z.shiftr (get frame 0) 4) 0x0f in
    let payload := drop 1 frame in
    if port >? 0 then Some k
    else if cmd =? KISS_CMD_DATA then kiss_send_to_modem fuel payload (u16 (size - 1)) k
    else
      let config (h : list Z -> Z -> Kiss S F -> Kiss S F) :=
        if verify_config_data payload (u16 (size - 1)) then h payload (u16 (size - 2)) k else k in
      Some
        (if cmd =? KISS_CMD_CONFIG_PARAMS then config kiss_handle_config_params_cmd
         else if cmd =? KISS_CMD_CONFIG_TEXT then config kiss_handle_config_text_cmd
         else if cmd =? KISS_CMD_CONFIG_CALL then config kiss_handle_config_call_cmd
         else if cmd =? KISS_CMD_CONFIG_MAGIC then config kiss_handle_config_magic_cmd
         else k).

(** [kiss_poll_serial] after [ser_getchar] gave [c]; [now] and [now'] are the
    two readings of the clock. *)
Definition kiss_serial_char (fuel : nat) (now now' c : Z) k : option (Kiss S F) :=
  let r := k_reader k in
  let r := if negb (readLen r =? 0) && (i32 (now - rxTick k) >? 2000) then set_readLen 0 r else r in
  let r := if readLen r >=? bufLen r - 2 then set_readLen 0 r else r in
  let k := set_k_reader r k in
  if c =? KISS_FEND then
    match
      if negb (escaped k) && (readLen r >? 0) then kiss_handle_frame fuel (sr_buf r) (readLen r) k
      else Some k
    with
    | None => None
    | Some k => Some (set_escaped false (on_reader (set_readLen 0) k))
    end
  else if c =? KISS_FESC then Some (set_escaped true k)
  else
    let '(c, e) :=
      if c =? KISS_TFESC then (if escaped k then (KISS_FESC, false) else (c, false))
      else if c =? KISS_TFEND then (if escaped k then (KISS_FEND, false) else (c, false))
      else (c, false) in
    let r := set_sr_buf (upd (sr_buf r) (readLen r) (Z.land c 0xff)) r in
    let r := set_readLen (u8 (readLen r + 1)) r in
    Some (set_rxTick now' (set_escaped e (set_k_reader r k))).

Definition kiss_poll (fuel : nat) (now now' : Z) k : option (Kiss S F) :=
  let '(c, ser) := sp_getchar (sr_ser (k_reader k)) in
  let k := on_reader (set_sr_ser ser) k in
  if c =? EOF then Some k else kiss_serial_char fuel now now' c k.
End FromHost.
