(* ===== verification/KissProofs.v ===== *)
(** * KISS: what the host sees and what reaches the air

    Framing in both directions, the configuration commands and the medium
    access of Kiss.v, against the laws of the serial port and of the modem. *)

From Stdlib Require Import ZArith Lia Bool List.
From stdpp Require Import prelude.
From S2P Require Import Prelude.
From S2P Require Import Libc.
From S2P Require Import Fifo.
From S2P Require Import KFile.
From S2P Require Import Escape.
From S2P Require Import Ax25.
From S2P Require Import Ax25Tx.
From S2P Require Import Ax25Rx.
From S2P Require Import Ax25Link.
From S2P Require Import Ser.
From S2P Require Import Utils.
From S2P Require Import Settings.
From S2P Require Import Reader.
From S2P Require Import Kiss.

Open Scope Z_scope.

(** ** The KISS framing *)

Definition kiss_escape (c : Z) : list Z :=
  if c =? KISS_FEND then [KISS_FESC; KISS_TFEND]
  else if c =? KISS_FESC then [KISS_FESC; KISS_TFESC] else [c].

Definition kiss_escaped (l : list Z) : list Z := concat (map kiss_escape l).

(** A frame as it crosses the line, its first byte not escaped. *)
Definition kiss_packet (hdr : Z) (data : list Z) : list Z :=
  KISS_FEND :: hdr :: kiss_escaped data ++ [KISS_FEND].

Section Host.
Context {S : Type} `{SerLaws S}.
Implicit Types r : SerialReader S.

(** [f] only writes [out] to the port. *)
Definition emits (f : SerialReader S -> SerialReader S) (out : list Z) : Prop :=
  forall r, sp_ok (sr_ser r) ->
    exists s', f r = set_sr_ser s' r /\ sp_ok s' /\ sp_out s' = sp_out (sr_ser r) ++ out.

Lemma emits_id : emits (fun r => r) [].
Proof. intros r Hok. exists (sr_ser r). rewrite app_nil_r. by destruct r. Qed.

Lemma emits_comp f g o1 o2 : emits f o1 -> emits g o2 -> emits (fun r => g (f r)) (o1 ++ o2).
Proof.
  intros Hf Hg r Hok. destruct (Hf r Hok) as (s1 & E1 & Hok1 & O1). rewrite E1.
  destruct (Hg (set_sr_ser s1 r) Hok1) as (s2 & E2 & Hok2 & O2).
  exists s2. rewrite E2. split_and!; [done|done|]. cbn in O2. by rewrite O2, O1, app_assoc.
Qed.

Lemma emits_put c : is_byte c -> emits (reader_put c) [c].
Proof.
  intros Hc r Hok. destruct (sp_putchar_out c (sr_ser r) Hok) as (_ & Hok' & O).
  exists (snd (sp_putchar c (sr_ser r))). rewrite u8_small in O by done. done.
Qed.

Lemma emits_flush : emits kiss_flush_serial [].
Proof.
  intros r Hok. destruct (sp_flush_out (sr_ser r) Hok) as [Hok' O].
  exists (snd (kfile_flush (sr_ser r))). by rewrite app_nil_r.
Qed.

Lemma emits_byte c : is_byte c -> emits (fun r => _send_to_serial_byte r c) (kiss_escape c).
Proof.
  intros Hc. unfold _send_to_serial_byte, kiss_escape.
  destruct (c =? KISS_FEND); [|destruct (c =? KISS_FESC) eqn:E].
  - apply (emits_comp (reader_put KISS_FESC) (reader_put KISS_TFEND) [KISS_FESC] [KISS_TFEND]);
      apply emits_put; unfold is_byte, KISS_FESC, KISS_TFEND; lia.
  - zbool. subst c. apply (emits_comp (reader_put KISS_FESC) (reader_put KISS_TFESC)
      [KISS_FESC] [KISS_TFESC]); apply emits_put; unfold is_byte, KISS_FESC, KISS_TFESC; lia.
  - by apply emits_put.
Qed.

Lemma emits_serial buf len :
  bytes (take (Z.to_nat len) buf) ->
  emits (_send_to_serial buf len) (kiss_escaped (take (Z.to_nat len) buf)).
Proof.
  unfold _send_to_serial. generalize (take (Z.to_nat len) buf). clear.
  intros l Hl. induction Hl as [|c l Hc Hl IH]; [apply emits_id|].
  apply (emits_comp (fun r => _send_to_serial_byte r c) _ _ _ (emits_byte c Hc) IH).
Qed.

Lemma emits_begin port cmd :
  0 <= port < 16 -> 0 <= cmd < 16 ->
  emits (_send_to_serial_begin port cmd) [KISS_FEND; port * 16 + cmd].
Proof.
  intros Hp Hc.
  assert (Hall : forallb (fun p => forallb (fun c =>
    Z.lor (Z.land (Z.shiftl p 4) 0xf0) (Z.land c 0x0f) =? p * 16 + c) (seqZ 0 16)) (seqZ 0 16)
    = true) by (vm_compute; reflexivity).
  assert (Hh : Z.lor (Z.land (Z.shiftl port 4) 0xf0) (Z.land cmd 0x0f) = port * 16 + cmd).
  { rewrite forallb_forall in Hall. apply Z.eqb_eq.
    assert (Hin : forall x, 0 <= x < 16 -> In x (seqZ 0 16))
      by (intros x Hx; apply list_elem_of_In, elem_of_seqZ; lia).
    specialize (Hall port (Hin port Hp)). rewrite forallb_forall in Hall. by apply Hall, Hin. }
  unfold _send_to_serial_begin. rewrite Hh.
  apply (emits_comp (reader_put KISS_FEND) (reader_put (port * 16 + cmd)) [KISS_FEND]
    [port * 16 + cmd]); apply emits_put; unfold is_byte, KISS_FEND; lia.
Qed.

Lemma emits_packet port cmd buf len :
  0 <= port < 16 -> 0 <= cmd < 16 -> bytes buf ->
  emits (kiss_send_to_serial port cmd buf len)
    (kiss_packet (port * 16 + cmd) (take (Z.to_nat len) buf)).
Proof.
  intros Hp Hc Hb. unfold kiss_send_to_serial, _send_to_serial_end.
  apply (emits_comp (fun r => _send_to_serial buf len (_send_to_serial_begin port cmd r))
    (reader_put KISS_FEND) (KISS_FEND :: port * 16 + cmd :: kiss_escaped (take (Z.to_nat len) buf))
    [KISS_FEND]); [|apply emits_put; unfold is_byte, KISS_FEND; lia].
  apply (emits_comp (_send_to_serial_begin port cmd) _ [KISS_FEND; port * 16 + cmd]).
  - by apply emits_begin.
  - by apply emits_serial, Forall_take.
Qed.

Lemma kiss_escaped_app a b : kiss_escaped (a ++ b) = kiss_escaped a ++ kiss_escaped b.
Proof. unfold kiss_escaped. by rewrite map_app, concat_app. Qed.

Lemma calc_crc_value_byte data len : is_byte (calc_crc_value data len).
Proof.
  unfold calc_crc_value. destruct (calc_crc 257 data len) as [v|] eqn:E; [|unfold is_byte; cbn; lia].
  cbn. revert E. unfold calc_crc. generalize 0 at 1. generalize 0. generalize 257%nat.
  intros n. induction n as [|n IH]; intros sum i; cbn; [done|].
  destruct (i <? len); [apply IH|]. intros E. injection E as <-. apply u8_range.
Qed.

Lemma calc_crc_value_take data n :
  (n < 256)%nat -> calc_crc_value data (Z.of_nat n) = crc8 (take n data).
Proof. intros Hn. unfold calc_crc_value. rewrite calc_crc_small by lia. cbn. by rewrite Nat2Z.id. Qed.

(** A reply of the first [n] bytes of [buf]. *)
Lemma emits_config cmd buf n :
  0 <= cmd < 16 -> bytes (take n buf) -> (n < 256)%nat ->
  emits (send_config cmd buf (Z.of_nat n)) (kiss_packet cmd (take n buf ++ [crc8 (take n buf)])).
Proof.
  intros Hc Hb Hl. unfold send_config, _send_to_serial_end.
  rewrite calc_crc_value_take by done. set (data := take n buf) in *.
  assert (Hcrc : is_byte (crc8 data)) by apply u8_range.
  unfold kiss_packet. rewrite kiss_escaped_app.
  pose proof (emits_begin 0 cmd ltac:(lia) Hc) as H1.
  pose proof (emits_serial buf (Z.of_nat n)) as H2. rewrite Nat2Z.id in H2. specialize (H2 Hb).
  pose proof (emits_serial [crc8 data] 1 (Forall_cons_2 _ _ _ Hcrc (Forall_nil_2 _))) as H3.
  change (take (Z.to_nat 1) [crc8 data]) with [crc8 data] in H3.
  assert (H4 : emits (reader_put KISS_FEND) [KISS_FEND])
    by (apply emits_put; unfold is_byte, KISS_FEND; lia).
  pose proof (emits_comp _ _ _ _ (emits_comp _ _ _ _ (emits_comp _ _ _ _ H1 H2) H3) H4) as Hall.
  rewrite <- !app_assoc in Hall. rewrite <- !app_assoc. exact Hall.
Qed.

(** The answer to a command that was carried out: no data, checksum 0xFF. *)
Definition kiss_ok : list Z := kiss_packet KISS_CMD_CONFIG_MAGIC [0xFF].

Lemma emits_ok : emits KISS_SERIAL_RESPOND_OK kiss_ok.
Proof.
  unfold KISS_SERIAL_RESPOND_OK.
  apply (emits_comp (send_config KISS_CMD_CONFIG_MAGIC [] 0) kiss_flush_serial kiss_ok []);
    [|apply emits_flush].
  apply (emits_config KISS_CMD_CONFIG_MAGIC [] 0); cbn; [unfold KISS_CMD_CONFIG_MAGIC; lia|constructor|lia].
Qed.

End Host.

(** ** Frames from the host *)

Section Receive.
Context {S : Type} `{SerLaws S} {F : Type} `{KFile F} `{Carrier F}.
Implicit Types k : Kiss S F.

Variable hook : option AX25Msg -> AX25Ctx F -> SerialReader S -> AX25Ctx F * SerialReader S.
Variable stack_msg : AX25Ctx F -> SerialReader S -> AX25Msg.
Variable rand : nat -> Z.
Variable VERS_BUILD : Z.
Variable poll_fuel : nat.

Let char := kiss_serial_char hook stack_msg rand VERS_BUILD poll_fuel.
Let handle := kiss_handle_frame hook stack_msg rand VERS_BUILD poll_fuel.

(** Characters with the two clock readings each is handled at. *)
Fixpoint kiss_feed (fuel : nat) (l : list (Z * Z * Z)) k : option (Kiss S F) :=
  match l with
  | [] => Some k
  | (now, now', c) :: l' =>
      match char fuel now now' c k with
      | None => None
      | Some k => kiss_feed fuel l' k
      end
  end.

(** No pause: each character of a frame comes in at most two seconds after the
    last one that was stored before it ([None]: none yet; escapes and
    delimiters are not stored). *)
Definition stored (c : Z) : bool := negb (c =? KISS_FEND) && negb (c =? KISS_FESC).

Definition in_time (t : option Z) (now : Z) : Prop :=
  match t with Some t => i32 (now - t) <= 2000 | None => True end.

Definition next_tick (t : option Z) (now' c : Z) : option Z := if stored c then Some now' else t.

Fixpoint no_pause (t : option Z) (l : list (Z * Z * Z)) : Prop :=
  match l with
  | [] => True
  | (now, now', c) :: l' => in_time t now /\ no_pause (next_tick t now' c) l'
  end.

Fixpoint last_tick (t : option Z) (l : list (Z * Z * Z)) : option Z :=
  match l with
  | [] => t
  | (_, now', c) :: l' => last_tick (next_tick t now' c) l'
  end.

Lemma no_pause_app l1 : forall t l2,
  no_pause t (l1 ++ l2) <-> no_pause t l1 /\ no_pause (last_tick t l1) l2.
Proof.
  induction l1 as [|[[n n'] c] l1 IH]; intros t l2; cbn; [tauto|]. rewrite IH. tauto.
Qed.

Definition chars_of (l : list (Z * Z * Z)) : list Z := map snd l.

(** Everything but the reader's buffer and the receiver's own state. *)
Definition same_else k k' : Prop :=
  k_modem k' = k_modem k /\ k_set k' = k_set k /\ rng k' = rng k /\ k_reset k' = k_reset k /\
  sr_ser (k_reader k') = sr_ser (k_reader k).

(** [acc] has been received, its last character at the reading [t]; [e]: the
    last character was an escape. *)
Definition receiving (t : option Z) (e : bool) (acc : list Z) k : Prop :=
  length (sr_buf (k_reader k)) = Z.to_nat READER_BUF_LEN /\
  bufLen (k_reader k) = READER_BUF_LEN /\ escaped k = e /\
  readLen (k_reader k) = Z.of_nat (length acc) /\
  take (length acc) (sr_buf (k_reader k)) = acc /\
  (acc <> [] -> t = Some (rxTick k)).

Lemma same_else_trans k1 k2 k3 : same_else k1 k2 -> same_else k2 k3 -> same_else k1 k3.
Proof.
  intros (A1 & A2 & A3 & A4 & A5) (B1 & B2 & B3 & B4 & B5).
  split_and!; congruence.
Qed.

(** The timeout and the length check do not interfere. *)
Lemma receiving_check t e acc k now :
  receiving t e acc k -> in_time t now -> (length acc < 256)%nat ->
  negb (readLen (k_reader k) =? 0) && (i32 (now - rxTick k) >? 2000) = false /\
  (readLen (k_reader k) >=? bufLen (k_reader k) - 2) = false.
Proof.
  intros (Hl & Hb & He & Hn & Ht & Htick) HT Hlen. split.
  - destruct acc as [|x acc]; [by rewrite Hn|].
    rewrite (Htick ltac:(done)) in HT. cbn in HT. apply andb_false_iff. right.
    rewrite Z.gtb_ltb. apply Z.ltb_ge. lia.
  - rewrite Hb, Hn, Z.geb_leb. apply Z.leb_gt.
    unfold READER_BUF_LEN, CONFIG_AX25_FRAME_BUF_LEN. lia.
Qed.

(** What a character stands for, after an escape or not. *)
Definition unescaped (e : bool) (c : Z) : Z :=
  if e then if c =? KISS_TFESC then KISS_FESC else if c =? KISS_TFEND then KISS_FEND else c
  else c.

(** The counter has eight bits: a 256th byte empties the frame. *)
Definition wrap (acc : list Z) : list Z := if (length acc =? 256)%nat then [] else acc.

Lemma char_store fuel t e acc k now now' c :
  receiving t e acc k -> in_time t now -> (length acc < 256)%nat ->
  is_byte c -> c <> KISS_FEND -> c <> KISS_FESC ->
  exists k', char fuel now now' c k = Some k' /\
    receiving (next_tick t now' c) false (wrap (acc ++ [unescaped e c])) k' /\ same_else k k'.
Proof.
  intros Hr HT Hlen Hb Hne Hne'.
  destruct (receiving_check t e acc k now Hr HT ltac:(lia)) as [E1 E2].
  unfold char, kiss_serial_char. rewrite E1, E2.
  apply Z.eqb_neq in Hne, Hne'. unfold next_tick, stored. rewrite Hne, Hne'. cbn [negb andb].
  destruct Hr as (Hl & Hbl & He & Hn & Ht & Htick). cbn [escaped set_k_reader]. rewrite He.
  assert (Hcase : (if c =? KISS_TFESC then if e then (KISS_FESC, false) else (c, false)
    else if c =? KISS_TFEND then if e then (KISS_FEND, false) else (c, false)
    else (c, false)) = (unescaped e c, false)) by (unfold unescaped; by repeat case_match).
  rewrite Hcase. eexists. split; [done|]. split; [|done].
  assert (Hub : is_byte (unescaped e c)).
  { unfold unescaped, is_byte, KISS_FEND, KISS_FESC in *. repeat case_match; lia. }
  unfold receiving. cbn -[READER_BUF_LEN unescaped wrap]. rewrite length_upd.
  assert (Htk : take (length (acc ++ [unescaped e c]))
    (upd (sr_buf (k_reader k)) (readLen (k_reader k)) (Z.land (unescaped e c) 255))
      = acc ++ [unescaped e c]).
  { rewrite length_app. cbn [length]. rewrite Hn, Nat.add_1_r, (take_S_r _ _ (unescaped e c)).
    - unfold upd. rewrite Nat2Z.id, take_insert_ge by lia. by rewrite Ht.
    - unfold upd. rewrite Nat2Z.id. rewrite list_lookup_insert_eq.
      + f_equal. rewrite land_255. by apply u8_small.
      + rewrite Hl. change (Z.to_nat READER_BUF_LEN) with 330%nat. lia. }
  unfold wrap. rewrite length_app. cbn [length].
  destruct (length acc + 1 =? 256)%nat eqn:E.
  - apply Nat.eqb_eq in E. split_and!; try done. rewrite Hn.
    replace (Z.of_nat (length acc) + 1) with 256 by lia. done.
  - apply Nat.eqb_neq in E. rewrite Hn in *. rewrite u8_small by lia.
    rewrite length_app in *. cbn [length] in *.
    split_and!; try done. lia.
Qed.

Lemma char_escape fuel t e acc k now now' :
  receiving t e acc k -> in_time t now -> (length acc < 256)%nat ->
  exists k', char fuel now now' KISS_FESC k = Some k' /\
    receiving t true acc k' /\ same_else k k'.
Proof.
  intros Hr HT Hlen.
  destruct (receiving_check t e acc k now Hr HT Hlen) as [E1 E2].
  unfold char, kiss_serial_char. rewrite E1, E2. cbn [Z.eqb KISS_FESC KISS_FEND].
  eexists. split; [done|]. split; [|done]. destruct Hr as (? & ? & ? & ? & ? & ?).
  by split_and!.
Qed.

(** One byte of the frame, as its host sends it. *)
Lemma feed_byte fuel t acc k b l :
  receiving t false acc k -> no_pause t l -> (length acc < 256)%nat -> is_byte b ->
  chars_of l = kiss_escape b ->
  exists k', kiss_feed fuel l k = Some k' /\ receiving (last_tick t l) false (wrap (acc ++ [b])) k' /\ same_else k k'.
Proof.
  intros Hr HT Hlen Hb Hl. unfold kiss_escape in Hl.
  assert (Hpair : forall x y z, chars_of l = [x; y] -> x = KISS_FESC -> is_byte y ->
    y <> KISS_FEND -> y <> KISS_FESC -> unescaped true y = z ->
    exists k', kiss_feed fuel l k = Some k' /\ receiving (last_tick t l) false (wrap (acc ++ [z])) k' /\
      same_else k k').
  { intros x y z E Hx Hy Hy1 Hy2 <-. subst x.
    destruct l as [|[[n1 n1'] c1] [|[[n2 n2'] c2] []]]; try done. injection E as -> ->.
    destruct HT as (T1 & T2 & _).
    destruct (char_escape fuel t false acc k n1 n1' Hr T1) as (k1 & E1 & R1 & S1); [lia|].
    destruct (char_store fuel t true acc k1 n2 n2' y R1 T2) as (k2 & E2 & R2 & S2); try done.
    exists k2. cbn [kiss_feed]. rewrite E1, E2. split_and!; [done|done|].
    by eapply same_else_trans. }
  destruct (b =? KISS_FEND) eqn:E1; [|destruct (b =? KISS_FESC) eqn:E2]; zbool.
  - subst b. eapply Hpair; [exact Hl|done|unfold is_byte, KISS_TFEND; lia|done|done|done].
  - subst b. eapply Hpair; [exact Hl|done|unfold is_byte, KISS_TFESC; lia|done|done|done].
  - destruct l as [|[[n1 n1'] c1] []]; try done. injection Hl as ->.
    destruct HT as [T1 _].
    destruct (char_store fuel t false acc k n1 n1' b Hr T1) as (k1 & E3 & R1 & S1); try done.
    exists k1. cbn [kiss_feed]. by rewrite E3.
Qed.

Lemma feed_app fuel l1 l2 k k1 :
  kiss_feed fuel l1 k = Some k1 -> kiss_feed fuel (l1 ++ l2) k = kiss_feed fuel l2 k1.
Proof.
  revert k. induction l1 as [|[[n n'] c] l1 IH]; intros k E; [by injection E as ->|].
  cbn in *. destruct (char fuel n n' c k); [by apply IH|done].
Qed.

Lemma last_tick_app l1 : forall t l2, last_tick t (l1 ++ l2) = last_tick (last_tick t l1) l2.
Proof. induction l1 as [|[[n n'] c] l1 IH]; intros t l2; [done|]. apply IH. Qed.

Lemma feed_frame fuel f : forall t acc k l,
  receiving t false acc k -> no_pause t l -> (length acc + length f <= 255)%nat -> bytes f ->
  chars_of l = kiss_escaped f ->
  exists k', kiss_feed fuel l k = Some k' /\ receiving (last_tick t l) false (acc ++ f) k' /\
    same_else k k'.
Proof.
  induction f as [|b f IH]; intros t acc k l Hr HT Hlen Hb Hl.
  - destruct l; [|done]. exists k. rewrite app_nil_r. by split_and!.
  - apply Forall_cons in Hb as [Hbb Hb]. unfold kiss_escaped in Hl. cbn in Hl.
    unfold chars_of in Hl. apply map_eq_app in Hl as (l1 & l2 & -> & Hl1 & Hl2).
    apply no_pause_app in HT as [T1 T2]. cbn in Hlen.
    destruct (feed_byte fuel t acc k b l1) as (k1 & E1 & R1 & S1); try done; [lia|].
    unfold wrap in R1. rewrite length_app in R1. cbn [length] in R1.
    assert ((length acc + 1 =? 256)%nat = false) as Ew by (apply Nat.eqb_neq; lia).
    rewrite Ew in R1.
    destruct (IH (last_tick t l1) (acc ++ [b]) k1 l2) as (k2 & E2 & R2 & S2); try done.
    { rewrite length_app. cbn. lia. }
    rewrite <- app_assoc in R2. exists k2. rewrite (feed_app _ _ _ _ _ E1), last_tick_app.
    split_and!; [done|done|]. by eapply same_else_trans.
Qed.

(** *** What a frame does *)

(** A configuration command: [data] and its checksum. *)
Definition with_sum (data : list Z) : list Z := data ++ [crc8 data].

(** The effect of the frame [f], by its first byte and its body. *)
Definition kiss_command (fuel : nat) (f : list Z) k : option (Kiss S F) :=
  match f with
  | hdr :: b :: rest =>
      let body := b :: rest in
      let cmd := Z.land hdr 0x0f in
      if Z.land (Z.shiftr hdr 4) 0x0f >? 0 then Some k
      else if cmd =? KISS_CMD_DATA then
        kiss_send_to_modem hook stack_msg rand poll_fuel fuel body (Z.of_nat (length body)) k
      else
        let data := removelast body in
        let n := Z.of_nat (length data) in
        Some
          (if negb (List.last body 0 =? crc8 data) then k
           else if cmd =? KISS_CMD_CONFIG_PARAMS then kiss_handle_config_params_cmd data n k
           else if cmd =? KISS_CMD_CONFIG_TEXT then kiss_handle_config_text_cmd data n k
           else if cmd =? KISS_CMD_CONFIG_CALL then kiss_handle_config_call_cmd data n k
           else if cmd =? KISS_CMD_CONFIG_MAGIC then
             kiss_handle_config_magic_cmd VERS_BUILD data n k
           else k)
  | _ => Some k
  end.

Lemma removelast_firstn_len (l : list Z) : removelast l = take (length l - 1) l.
Proof. rewrite removelast_firstn_len. f_equal. lia. Qed.

Lemma last_get (l : list Z) : l <> [] -> List.last l 0 = get l (Z.of_nat (length l - 1)).
Proof.
  intros Hl. destruct (exists_last Hl) as (l' & x & ->).
  rewrite last_last, length_app. cbn [length]. unfold get. rewrite Nat2Z.id.
  rewrite app_nth2 by lia. by replace (length l' + 1 - 1 - length l')%nat with 0%nat by lia.
Qed.

Lemma get_take l n i : 0 <= i < Z.of_nat n -> get (take n l) i = get l i.
Proof.
  intros Hi. unfold get. rewrite !nth_lookup. f_equal. apply lookup_take_lt. lia.
Qed.

(** Each handler looks at the first [len] bytes only. *)
Lemma params_take data n k :
  kiss_handle_config_params_cmd data (Z.of_nat n) k
    = kiss_handle_config_params_cmd (take n data) (Z.of_nat n) k.
Proof.
  unfold kiss_handle_config_params_cmd, settings_set_params_bytes.
  destruct (Z.of_nat n =? 0); [done|]. destruct (Z.of_nat n =? sizeof_SettingsData); [|done].
  cbn [negb]. by rewrite Nat2Z.id, take_take, Nat.min_id.
Qed.

Lemma text_take data n k :
  (n < 256)%nat ->
  kiss_handle_config_text_cmd data (Z.of_nat n) k
    = kiss_handle_config_text_cmd (take n data) (Z.of_nat n) k.
Proof.
  intros Hn. unfold kiss_handle_config_text_cmd. destruct (Z.of_nat n =? 0) eqn:E; [done|].
  unfold settings_set_beacon_text. rewrite take_take. zbool.
  replace (Z.to_nat (u8 (Z.min (u8 (Z.of_nat n)) (SETTINGS_BEACON_TEXT_MAX_LEN - 1))) `min` n)%nat
    with (Z.to_nat (u8 (Z.min (u8 (Z.of_nat n)) (SETTINGS_BEACON_TEXT_MAX_LEN - 1)))); [done|].
  unfold SETTINGS_BEACON_TEXT_MAX_LEN. rewrite !u8_small by (rewrite ?u8_small; lia). lia.
Qed.

Lemma call_take data n k :
  kiss_handle_config_call_cmd data (Z.of_nat n) k
    = kiss_handle_config_call_cmd (take n data) (Z.of_nat n) k.
Proof.
  unfold kiss_handle_config_call_cmd. destruct (Z.of_nat n =? 0); [done|].
  destruct (Z.of_nat n =? sizeof_CallData) eqn:E; [|done]. zbool. rewrite take_take.
  do 5 f_equal. unfold sizeof_CallData in *. lia.
Qed.

Lemma magic_take data n k :
  kiss_handle_config_magic_cmd VERS_BUILD data (Z.of_nat n) k
    = kiss_handle_config_magic_cmd VERS_BUILD (take n data) (Z.of_nat n) k.
Proof.
  unfold kiss_handle_config_magic_cmd, is_magic.
  destruct (Z.of_nat n =? 4) eqn:E; [|done]. zbool. rewrite !get_take by lia. done.
Qed.

Lemma handle_frame_spec fuel frame f k :
  take (length f) frame = f -> (length f < 256)%nat ->
  handle fuel frame (Z.of_nat (length f)) k = kiss_command fuel f k.
Proof.
  intros Hf Hl. unfold handle, kiss_handle_frame, kiss_command.
  destruct f as [|hdr [|b rest]]; [done|by destruct (_ && _)|].
  assert (Hfr : exists tl, frame = (hdr :: b :: rest) ++ tl).
  { exists (drop (length (hdr :: b :: rest)) frame). rewrite <- Hf at 1. symmetry.
    apply take_drop. }
  destruct Hfr as [tl ->]. clear Hf. set (body := b :: rest).
  assert (Hn : Z.of_nat (length (hdr :: body)) = Z.of_nat (length body) + 1)
    by (cbn [length]; lia).
  assert (Hbl : (1 <= length body < 255)%nat) by (cbn in *; lia).
  assert (Hb0 : body <> []) by done.
  rewrite Hn. change (get ((hdr :: body) ++ tl) 0) with hdr.
  change (drop 1 ((hdr :: body) ++ tl)) with (body ++ tl). clearbody body.
  assert ((Z.of_nat (length body) + 1 =? 0) = false) as -> by (apply Z.eqb_neq; lia).
  assert ((Z.of_nat (length body) + 1 =? 1) = false) as -> by (apply Z.eqb_neq; lia).
  assert ((Z.of_nat (length body) + 1 <? 2) = false) as -> by (apply Z.ltb_ge; lia).
  cbn [andb]. destruct (Z.land (hdr ≫ 4) 15 >? 0); [done|].
  rewrite !u16_small by lia.
  replace (Z.of_nat (length body) + 1 - 1) with (Z.of_nat (length body)) by lia.
  replace (Z.of_nat (length body) + 1 - 2) with (Z.of_nat (length body - 1)) by lia.
  destruct (Z.land hdr 15 =? KISS_CMD_DATA).
  { unfold kiss_send_to_modem. rewrite Nat2Z.id, take_app_length, firstn_all. done. }
  unfold verify_config_data.
  assert ((Z.of_nat (length body) =? 0) = false) as -> by (apply Z.eqb_neq; lia).
  rewrite u16_small by lia.
  replace (Z.of_nat (length body) - 1) with (Z.of_nat (length body - 1)) by lia.
  rewrite calc_crc_value_take by lia. rewrite get_app_l by lia.
  rewrite <- last_get by done.
  rewrite take_app_le by lia. rewrite <- removelast_firstn_len.
  rewrite params_take, text_take, call_take, magic_take by lia.
  rewrite take_app_le by lia. rewrite <- removelast_firstn_len.
  assert (Hrl : length (removelast body) = (length body - 1)%nat)
    by (rewrite removelast_firstn_len, length_take; lia).
  rewrite Hrl. by repeat case_match.
Qed.

(** *** Whole frames *)

(** After a frame: ready for the next. *)
Definition frame_done k : Kiss S F := set_escaped false (on_reader (set_readLen 0) k).

Lemma fend_empty fuel k now now' :
  receiving None false [] k ->
  exists k', char fuel now now' KISS_FEND k = Some k' /\ receiving None false [] k' /\
    same_else k k'.
Proof.
  intros Hr. destruct (receiving_check None false [] k now Hr I ltac:(cbn; lia)) as [E1 E2].
  unfold char, kiss_serial_char. rewrite E1, E2.
  destruct Hr as (Hl & Hb & He & Hn & Ht & Htick). rewrite Z.eqb_refl. rewrite Hn.
  assert ((Z.of_nat (length (@nil Z)) >? 0) = false) as -> by done.
  rewrite andb_false_r. eexists. split; [done|]. split; [|done]. by split_and!.
Qed.

Lemma fend_frame fuel t f k now now' :
  receiving t false f k -> in_time t now ->
  (0 < length f < 256)%nat ->
  char fuel now now' KISS_FEND k = option_map frame_done (kiss_command fuel f k).
Proof.
  intros Hr HT Hlen.
  destruct (receiving_check t false f k now Hr HT ltac:(lia)) as [E1 E2].
  unfold char, kiss_serial_char. rewrite E1, E2.
  destruct Hr as (Hl & Hb & He & Hn & Ht & Htick). rewrite Z.eqb_refl.
  cbn [escaped set_k_reader]. rewrite He, Hn.
  assert ((Z.of_nat (length f) >? 0) = true) as -> by (rewrite Z.gtb_ltb; apply Z.ltb_lt; lia).
  cbn [negb andb].
  pose proof (handle_frame_spec fuel (sr_buf (k_reader k)) f (set_k_reader (k_reader k) k) Ht
    ltac:(lia)) as Hh. unfold handle in Hh. rewrite Hh.
  replace (set_k_reader (k_reader k) k) with k by (by destruct k).
  by destruct (kiss_command fuel f k).
Qed.

(** [l] is what a host sends for the frame [f], without a pause in it. *)
Definition kiss_line (f : list Z) (l : list (Z * Z * Z)) : Prop :=
  chars_of l = KISS_FEND :: kiss_escaped f ++ [KISS_FEND] /\ no_pause None l.

Lemma chars_of_frame f l :
  chars_of l = KISS_FEND :: kiss_escaped f ++ [KISS_FEND] ->
  exists a a' body b b', l = (a, a', KISS_FEND) :: body ++ [(b, b', KISS_FEND)] /\
    chars_of body = kiss_escaped f.
Proof.
  intros Hl. destruct l as [|[[a a'] c] l]; [done|]. cbn in Hl. injection Hl as -> Hl.
  unfold chars_of in Hl. apply map_eq_app in Hl as (body & tl & -> & Hb & Htl).
  destruct tl as [|[[b b'] c] []]; try done. injection Htl as ->.
  by exists a, a', body, b, b'.
Qed.

(** The pieces of a line. *)
Lemma no_pause_frame a a' body b b' :
  no_pause None ((a, a', KISS_FEND) :: body ++ [(b, b', KISS_FEND)]) ->
  no_pause None body /\ in_time (last_tick None body) b.
Proof.
  intros [_ Hp]. apply no_pause_app in Hp as [Hb1 [Hb2 _]]. by split.
Qed.

Lemma receive_frame fuel f l k :
  receiving None false [] k -> kiss_line f l -> (0 < length f < 256)%nat -> bytes f ->
  exists t k1, receiving t false f k1 /\ same_else k k1 /\
    kiss_feed fuel l k = option_map frame_done (kiss_command fuel f k1).
Proof.
  intros Hr [Hl HT] Hlen Hb.
  destruct (chars_of_frame f l Hl) as (a & a' & body & b & b' & El & Hbody).
  rewrite El in HT. apply no_pause_frame in HT as [HT1 HT2].
  destruct (fend_empty fuel k a a' Hr) as (k0 & E0 & R0 & S0).
  destruct (feed_frame fuel f None [] k0 body) as (k1 & E1 & R1 & S1); try done; [cbn; lia|].
  cbn [app] in R1. exists (last_tick None body), k1. split; [done|]. split; [by eapply same_else_trans|].
  rewrite El at 1. cbn [kiss_feed]. rewrite E0, (feed_app _ _ _ _ _ E1). cbn [kiss_feed].
  rewrite (fend_frame fuel _ f k1 b b' R1) by done.
  by destruct (kiss_command fuel f k1).
Qed.

(** C12: framing: whatever frame of 1 to 255 bytes the host sends, delimiters and
    escapes among them, if no character of it comes more than two seconds
    after the last one that was stored (the code's own time limit), then once
    its closing delimiter has come in exactly that frame is carried out, once,
    on a state that differs from the one before only in the reader's buffer,
    and the receiver is ready for the next.  Longer frames lose their first
    256 bytes ([kiss_long_frame_loses_head]). *)
Theorem kiss_receive_frame fuel (f : list Z) (l : list (Z * Z * Z)) k
    (Hr : receiving None false [] k) (Hl : kiss_line f l)
    (Hlen : (0 < length f < 256)%nat) (Hb : bytes f) :
  exists k1, same_else k k1 /\ take (length f) (sr_buf (k_reader k1)) = f /\
    kiss_feed fuel l k = option_map frame_done (kiss_command fuel f k1) /\
    forall k', kiss_feed fuel l k = Some k' ->
      readLen (k_reader k') = 0 /\ escaped k' = false.
Proof.
  destruct (receive_frame fuel f l k Hr Hl Hlen Hb) as (t & k1 & R1 & S1 & E1).
  exists k1. pose proof R1 as (A & B & C & D & E & G). split_and!; try done.
  rewrite E1. intros k' Hk. destruct (kiss_command fuel f k1); [|done]. by injection Hk as <-.
Qed.

(** The 256th byte of a frame brings the counter back to zero. *)
Lemma feed_wrap fuel t f k l :
  receiving t false [] k -> no_pause t l -> length f = 256%nat -> bytes f ->
  chars_of l = kiss_escaped f ->
  exists k', kiss_feed fuel l k = Some k' /\ receiving (last_tick t l) false [] k' /\
    same_else k k'.
Proof.
  intros Hr HT Hlen Hb Hl. destruct (exists_last (l := f)) as (f0 & b & ->);
    [by intros ->|].
  rewrite length_app in Hlen. cbn in Hlen. apply Forall_app in Hb as [Hb0 Hb].
  apply Forall_cons in Hb as [Hb _]. rewrite kiss_escaped_app in Hl.
  unfold chars_of in Hl. apply map_eq_app in Hl as (l1 & l2 & -> & Hl1 & Hl2).
  apply no_pause_app in HT as [HT1 HT2].
  destruct (feed_frame fuel f0 t [] k l1) as (k1 & E1 & R1 & S1); try done; [cbn; lia|].
  cbn [app] in R1. unfold kiss_escaped in Hl2. cbn in Hl2. rewrite app_nil_r in Hl2.
  destruct (feed_byte fuel (last_tick t l1) f0 k1 b l2) as (k2 & E2 & R2 & S2); try done; [lia|].
  exists k2. rewrite (feed_app _ _ _ _ _ E1), last_tick_app. split; [done|].
  split; [|by eapply same_else_trans].
  unfold wrap in R2. rewrite length_app in R2. cbn [length] in R2.
  assert ((length f0 + 1 =? 256)%nat = true) as Ew by (apply Nat.eqb_eq; lia).
  by rewrite Ew in R2.
Qed.

(** Frames of more than 255 bytes are mangled, though the buffer has 330 and
    AX.25 frames up to 328: the count of received bytes has eight bits, so the
    first 256 bytes of a longer frame are forgotten and what remains is
    carried out as if it were a frame of its own. *)
Theorem kiss_long_frame_loses_head fuel (head f : list Z) (l : list (Z * Z * Z)) k
    (Hr : receiving None false [] k) (Hl : kiss_line (head ++ f) l)
    (Hhead : length head = 256%nat) (Hlen : (0 < length f < 256)%nat) (Hb : bytes (head ++ f)) :
  exists k1, same_else k k1 /\
    kiss_feed fuel l k = option_map frame_done (kiss_command fuel f k1).
Proof.
  destruct Hl as [Hl HT]. apply Forall_app in Hb as [Hbh Hbf].
  destruct (chars_of_frame _ l Hl) as (a & a' & body & b & b' & El & Hbody).
  rewrite kiss_escaped_app in Hbody. unfold chars_of in Hbody.
  apply map_eq_app in Hbody as (l1 & l2 & -> & Hl1 & Hl2).
  rewrite El in HT. apply no_pause_frame in HT as [HT1 HT2].
  apply no_pause_app in HT1 as [HT0 HT1]. rewrite last_tick_app in HT2.
  destruct (fend_empty fuel k a a' Hr) as (k0 & E0 & R0 & S0).
  destruct (feed_wrap fuel None head k0 l1) as (k1 & E1 & R1 & S1); try done.
  destruct (feed_frame fuel f (last_tick None l1) [] k1 l2) as (k2 & E2 & R2 & S2); try done; [cbn; lia|].
  cbn [app] in R2. exists k2.
  split; [eapply same_else_trans; [exact S0|]; by eapply same_else_trans|].
  rewrite El at 1. cbn [kiss_feed]. rewrite E0, <- app_assoc, (feed_app _ _ _ _ _ E1),
    (feed_app _ _ _ _ _ E2). cbn [kiss_feed].
  rewrite (fend_frame fuel _ f k2 b b' R2) by done.
  by destruct (kiss_command fuel f k2).
Qed.
End Receive.
