(* ===== verification/KissCommands.v ===== *)
(** * KISS: the commands and the channel

    What the frames of KissProofs.v do: configuration commands against the
    EEPROM of Settings.v, data frames against the wire format of Ax25Tx.v, the
    wait for a free channel, and frames from the air to the host. *)

From Stdlib Require Import ZArith Lia Bool List.
From stdpp Require Import prelude.
From S2P Require Import Prelude.
From S2P Require Import Libc.
From S2P Require Import Fifo.
From S2P Require Import KFile.
From S2P Require Import Escape.
From S2P Require Import Ax25.
From S2P Require Import Ax25Tx.
From S2P Require Import Ax25Rx.
From S2P Require Import Ax25Link.
From S2P Require Import Ser.
From S2P Require Import Utils.
From S2P Require Import Settings.
From S2P Require Import Reader.
From S2P Require Import Kiss.
From S2P Require Import KissProofs.

Open Scope Z_scope.

(** ** Configuration commands *)

Section Commands.
Context {S : Type} `{SerLaws S} {F : Type} `{KFile F} `{Carrier F}.
Implicit Types k : Kiss S F.

Variable hook : option AX25Msg -> AX25Ctx F -> SerialReader S -> AX25Ctx F * SerialReader S.
Variable stack_msg : AX25Ctx F -> SerialReader S -> AX25Msg.
Variable rand : nat -> Z.
Variable VERS_BUILD : Z.
Variable poll_fuel : nat.

Let command := kiss_command hook stack_msg rand VERS_BUILD poll_fuel.

Definition k_out k : list Z := sp_out (sr_ser (k_reader k)).
Definition k_port_ok k : Prop := sp_ok (sr_ser (k_reader k)).

Lemma removelast_with_sum data : removelast (with_sum data) = data.
Proof. unfold with_sum. apply removelast_last. Qed.

Lemma last_with_sum data : List.last (with_sum data) 0 = crc8 data.
Proof. unfold with_sum. apply last_last. Qed.

(** A command byte (port 0) with a good checksum. *)
Lemma command_with_sum fuel cmd data k :
  0 < cmd < 16 ->
  command fuel (cmd :: with_sum data) k =
    let n := Z.of_nat (length data) in
    Some
      (if cmd =? KISS_CMD_CONFIG_PARAMS then kiss_handle_config_params_cmd data n k
       else if cmd =? KISS_CMD_CONFIG_TEXT then kiss_handle_config_text_cmd data n k
       else if cmd =? KISS_CMD_CONFIG_CALL then kiss_handle_config_call_cmd data n k
       else if cmd =? KISS_CMD_CONFIG_MAGIC then kiss_handle_config_magic_cmd VERS_BUILD data n k
       else k).
Proof.
  intros Hc. unfold command, kiss_command.
  destruct (with_sum data) as [|b rest] eqn:E.
  { unfold with_sum in E. by destruct data. }
  rewrite <- E, removelast_with_sum, last_with_sum, Z.eqb_refl.
  assert (Hb : forallb (fun c => (Z.land (Z.shiftr c 4) 0x0f =? 0) && (Z.land c 0x0f =? c))
    (seqZ 0 16) = true) by (vm_compute; reflexivity).
  rewrite forallb_forall in Hb. specialize (Hb cmd).
  rewrite andb_true_iff, !Z.eqb_eq in Hb.
  destruct Hb as [-> ->]; [apply list_elem_of_In, elem_of_seqZ; lia|].
  assert ((cmd =? KISS_CMD_DATA) = false) as -> by (apply Z.eqb_neq; unfold KISS_CMD_DATA; lia).
  done.
Qed.

Lemma emits_on_reader f out k :
  emits f out -> k_port_ok k ->
  k_port_ok (on_reader f k) /\ k_out (on_reader f k) = k_out k ++ out /\
  exists s', on_reader f k = set_k_reader (set_sr_ser s' (k_reader k)) k.
Proof.
  intros Hf Hok. destruct (Hf (k_reader k) Hok) as (s' & E & Hok' & O).
  unfold k_port_ok, k_out, on_reader. rewrite E. split_and!; try done. by exists s'.
Qed.

Lemma params_set g k :
  is_u16 (interval g) ->
  kiss_handle_config_params_cmd (settings_bytes g) 11 k =
    on_reader KISS_SERIAL_RESPOND_OK
      (set_k_set (snd (settings_save (mkS g (nv (k_set k))))) k).
Proof.
  intros Hi. unfold kiss_handle_config_params_cmd, settings_set_params_bytes.
  change (11 =? 0) with false. change (11 =? sizeof_SettingsData) with true. cbn [negb].
  change (take (Z.to_nat 11) (settings_bytes g)) with (settings_bytes g).
  rewrite settings_bytes_of by done. done.
Qed.

Lemma params_get k :
  bytes (settings_bytes (g_settings (k_set k))) -> k_port_ok k ->
  let k' := kiss_handle_config_params_cmd [] 0 k in
  k_port_ok k' /\
  k_out k' = k_out k ++ kiss_packet KISS_CMD_CONFIG_PARAMS
    (with_sum (settings_bytes (g_settings (k_set k)))) /\
  exists s', k' = set_k_reader (set_sr_ser s' (k_reader k)) k.
Proof.
  intros Hb Hok. unfold kiss_handle_config_params_cmd. rewrite Z.eqb_refl.
  apply emits_on_reader; [|done].
  apply (emits_config KISS_CMD_CONFIG_PARAMS (settings_bytes (g_settings (k_set k))) 11);
    [unfold KISS_CMD_CONFIG_PARAMS; lia|done|lia].
Qed.

(** The configuration command sets and saves the settings: after a host
    sends a whole [SettingsData] with its checksum, it is in RAM and in the
    EEPROM, so that a load after a reset restores it, the host is
    answered, and asking for the settings returns exactly those bytes. *)
Theorem kiss_config_params fuel (g : SettingsData) (ram : SettingsData) k
    (Hg : settings_wf g) (Hnv : nv_sized (nv (k_set k))) (Hok : k_port_ok k) :
  exists k1 k2,
    command fuel (KISS_CMD_CONFIG_PARAMS :: with_sum (settings_bytes g)) k = Some k1 /\
    command fuel (KISS_CMD_CONFIG_PARAMS :: with_sum []) k1 = Some k2 /\
    g_settings (k_set k1) = g /\
    settings_load (mkS ram (nv (k_set k1))) = (true, k_set k1) /\
    k_out k1 = k_out k ++ kiss_ok /\
    k_out k2 = k_out k1 ++ kiss_packet KISS_CMD_CONFIG_PARAMS (with_sum (settings_bytes g)) /\
    k_set k2 = k_set k1 /\ k_modem k2 = k_modem k.
Proof.
  rewrite !command_with_sum by (unfold KISS_CMD_CONFIG_PARAMS; lia).
  rewrite Z.eqb_refl. cbv zeta.
  change (Z.of_nat (length (settings_bytes g))) with 11. destruct Hg as [Hgb Hgi].
  rewrite params_set by done. set (s1 := snd (settings_save (mkS g (nv (k_set k))))).
  destruct (emits_on_reader KISS_SERIAL_RESPOND_OK kiss_ok (set_k_set s1 k) emits_ok Hok)
    as (Hok1 & O1 & p1 & E1).
  set (k1 := on_reader KISS_SERIAL_RESPOND_OK (set_k_set s1 k)) in *.
  assert (Hs1 : k_set k1 = s1) by (by rewrite E1).
  assert (Hg1 : g_settings s1 = g) by done.
  destruct (params_get k1) as (Hok2 & O2 & p2 & E2); [by rewrite Hs1, Hg1|done|].
  exists k1, (kiss_handle_config_params_cmd [] 0 k1).
  rewrite command_with_sum by (unfold KISS_CMD_CONFIG_PARAMS; lia).
  rewrite Hs1, Hg1 in *. split_and!; try done.
  - by apply (save_load (mkS g (nv (k_set k)))).
Qed.

(** The checksum protects the settings: change any one byte of a configuration
    frame after its command byte, and the frame does nothing at all. *)
Theorem kiss_corrupted_config_ignored fuel (cmd : Z) (data bad : list Z) (i y : Z) k
    (Hcmd : 0 < cmd < 16) (Hdata : bytes data)
    (Hi : 0 <= i < Z.of_nat (length (with_sum data))) (Hy : is_byte y)
    (Hbad : bad = upd (with_sum data) i y) (Hne : y <> get (with_sum data) i) :
  command fuel (cmd :: bad) k = Some k.
Proof.
  assert (Hlen : length bad = length (with_sum data)) by (rewrite Hbad; apply length_upd).
  unfold command, kiss_command. destruct bad as [|b rest] eqn:Eb; [done|].
  rewrite <- Eb in *. clear b rest Eb.
  destruct (Z.land (cmd ≫ 4) 15 >? 0); [done|].
  assert ((Z.land cmd 15 =? KISS_CMD_DATA) = false) as ->.
  { apply Z.eqb_neq. change 15 with (Z.ones 4). rewrite Z.land_ones by lia.
    rewrite Z.mod_small by lia. unfold KISS_CMD_DATA. lia. }
  enough ((List.last bad 0 =? crc8 (removelast bad)) = false) as -> by done.
  apply Z.eqb_neq. unfold with_sum in *. rewrite length_app in *. cbn [length] in *.
  destruct (Z.lt_ge_cases i (Z.of_nat (length data))) as [Hlt|Hge].
  - destruct (lookup_lt_is_Some_2 data (Z.to_nat i)) as [x Hx]; [lia|].
    assert (Hu : bad = upd data i y ++ [crc8 data]).
    { rewrite Hbad. unfold upd. rewrite insert_app_l by lia. done. }
    rewrite Hu, last_last, removelast_last.
    assert (Hgx : get (data ++ [crc8 data]) i = x).
    { rewrite get_app_l by lia. unfold get. by rewrite nth_lookup, Hx. }
    assert (Hd : data = take (Z.to_nat i) data ++ x :: drop (Datatypes.S (Z.to_nat i)) data)
      by (symmetry; by apply take_drop_middle).
    unfold upd. rewrite insert_take_drop by lia. rewrite Hd at 1.
    apply crc8_detects; [by eapply Forall_lookup_1 in Hx|done|congruence].
  - assert (i = Z.of_nat (length data)) as -> by lia.
    rewrite Hbad. rewrite upd_app, last_last, removelast_last.
    unfold get in Hne. rewrite Nat2Z.id, app_nth2, Nat.sub_diag in Hne by lia. done.
Qed.

(** KISS gives back only the first 73 characters of a beacon text, though it
    stores up to 127: the length of the shared buffer, 330, is passed as a byte
    and arrives as 74. *)
Theorem kiss_text_truncated fuel (text : list Z) k
    (Htext : Forall (fun c => c <> 0) text) (Hb : bytes text)
    (Hlen : (0 < length text <= 127)%nat) (Hnv : nv_sized (nv (k_set k)))
    (Hbuf : length (sr_buf (k_reader k)) = 330%nat) (Hbl : bufLen (k_reader k) = READER_BUF_LEN)
    (Hok : k_port_ok k) :
  exists k1 k2,
    command fuel (KISS_CMD_CONFIG_TEXT :: with_sum text) k = Some k1 /\
    command fuel (KISS_CMD_CONFIG_TEXT :: with_sum []) k1 = Some k2 /\
    k_out k1 = k_out k ++ kiss_ok /\
    k_out k2 = k_out k1 ++ kiss_packet KISS_CMD_CONFIG_TEXT (with_sum (take 73 text)).
Proof.
  assert (Hn0 : (Z.of_nat (length text) =? 0) = false) by (apply Z.eqb_neq; lia).
  rewrite !command_with_sum by (unfold KISS_CMD_CONFIG_TEXT; lia). cbv zeta.
  change (KISS_CMD_CONFIG_TEXT =? KISS_CMD_CONFIG_PARAMS) with false.
  rewrite Z.eqb_refl. unfold kiss_handle_config_text_cmd at 1. rewrite Hn0, u8_small by lia.
  pose proof (beacon_text_stored text (sr_buf (k_reader k)) 74 (k_set k) Htext ltac:(lia)
    ltac:(lia) ltac:(lia) Hnv) as Hst.
  destruct (settings_set_beacon_text text (Z.of_nat (length text)) (k_set k)) as [w s1].
  destruct (emits_on_reader KISS_SERIAL_RESPOND_OK kiss_ok (set_k_set s1 k) emits_ok Hok)
    as (Hok1 & O1 & p1 & E1).
  set (k1 := on_reader KISS_SERIAL_RESPOND_OK (set_k_set s1 k)) in *.
  exists k1, (kiss_handle_config_text_cmd [] 0 k1).
  rewrite command_with_sum by (unfold KISS_CMD_CONFIG_TEXT; lia).
  change (KISS_CMD_CONFIG_TEXT =? KISS_CMD_CONFIG_PARAMS) with false. rewrite Z.eqb_refl.
  split; [done|]. split; [done|]. split; [exact O1|].
  unfold kiss_handle_config_text_cmd. change (0 =? 0) with true. cbv iota zeta.
  assert (Hr1 : sr_buf (k_reader k1) = sr_buf (k_reader k) /\
    bufLen (k_reader k1) = READER_BUF_LEN /\ k_set k1 = s1) by (by rewrite E1).
  destruct Hr1 as (Hr1 & Hb1 & Hs1). cbn [sr_buf set_readLen bufLen]. rewrite Hr1, Hb1, Hs1.
  change (u8 READER_BUF_LEN) with 74.
  destruct (settings_get_beacon_text (sr_buf (k_reader k)) 74 s1) as [buf' n].
  destruct Hst as (Hw & Hn & Htk & _ & Hlb).
  assert ((n >? 0) = true) as -> by (rewrite Z.gtb_ltb; apply Z.ltb_lt; lia).
  set (r2 := set_sr_buf buf' (set_readLen 0 (k_reader k1))).
  assert (Hem : emits (send_config KISS_CMD_CONFIG_TEXT (sr_buf r2) n)
    (kiss_packet KISS_CMD_CONFIG_TEXT (with_sum (take 73 text)))).
  { assert (Htn : take (Z.to_nat n) text = take 73 text).
    { destruct (Nat.le_gt_cases (length text) 73); [rewrite !take_ge by lia; done|].
      f_equal. lia. }
    cbn [sr_buf set_sr_buf r2]. rewrite <- Htn, <- Htk.
    rewrite <- (Z2Nat.id n) at 1 by lia.
    apply emits_config; [unfold KISS_CMD_CONFIG_TEXT; lia| |lia].
    rewrite Htk. by apply Forall_take. }
  destruct (emits_on_reader _ _ (set_k_reader r2 k1) Hem) as (_ & O2 & _); [by apply Hok1|].
  exact O2.
Qed.
End Commands.
