(* ===== verification/KissAir.v ===== *)
(** * KISS between host and air

    The channel access of [kiss_send_to_modem], a host's frame on its way to the
    modem, a station's frame on its way to the host, and the witnesses of the
    KISS theorems on concrete devices. *)

From Stdlib Require Import ZArith Lia Bool List.
From stdpp Require Import prelude.
From S2P Require Import Prelude.
From S2P Require Import Libc.
From S2P Require Import Crc.
From S2P Require Import Fifo.
From S2P Require Import KFile.
From S2P Require Import Escape.
From S2P Require Import Afsk.
From S2P Require Import Ax25.
From S2P Require Import Ax25Tx.
From S2P Require Import Ax25Rx.
From S2P Require Import Modem.
From S2P Require Import Ser.
From S2P Require Import Utils.
From S2P Require Import Settings.
From S2P Require Import Reader.
From S2P Require Import Kiss.
From S2P Require Import KissProofs.
From S2P Require Import KissCommands.

Open Scope Z_scope.

(** The AFSK modem as [kiss_send_to_modem] sees it: a turn of a waiting loop is
    one interrupt, a tick of the delay 9.6 of them. *)
#[export] Instance modem_carrier (antenna : nat -> Z) : Carrier Modem := {
  rxstart md := Afsk.rxstart (hdlc (demodulator (md_af md)));
  modem_status md := Afsk.status (demodulator (md_af md));
  clear_status md :=
    mkModem (afsk_clearerr (md_af md)) (md_time md) (md_air md) (md_out md);
  run_irqs md := Modem.cpu_relax antenna md;
  timer_delay ms md := iter (Z.to_nat (ms * 96 / 10)) (Modem.cpu_relax antenna) md
}.

(** ** Channel access *)

Section Csma.
Context {S : Type} `{SerPort S} {F : Type} `{KFile F} `{Carrier F}.
Implicit Types k : Kiss S F.

Variable hook : option AX25Msg -> AX25Ctx F -> SerialReader S -> AX25Ctx F * SerialReader S.
Variable stack_msg : AX25Ctx F -> SerialReader S -> AX25Msg.
Variable rand : nat -> Z.
Variable poll_fuel : nat.

Let send := kiss_send_to_modem hook stack_msg rand poll_fuel.

(** One wait of a slot. *)
Definition slot k (ch : F) : F := timer_delay (slot_time (g_settings (k_set k)) * 10) ch.

(** The state after [n] unsuccessful draws. *)
Definition backed_off (n : nat) k : Kiss S F :=
  set_k_modem (set_ax_ch (iter n (slot k) (ax_ch (k_modem k))) (k_modem k))
    (set_rng (rng k + n) k).

Lemma backed_off_S n k :
  backed_off (Datatypes.S n) k = backed_off n
    (set_k_modem (set_ax_ch (slot k (ax_ch (k_modem k))) (k_modem k))
      (set_rng (Datatypes.S (rng k)) k)).
Proof.
  unfold backed_off. destruct k as [r m t e s g b]. cbn.
  by replace (g + Datatypes.S n)%nat with (Datatypes.S (g + n)) by lia.
Qed.

Lemma csma_idle n : forall fuel buf k,
  (n < fuel)%nat ->
  (forall j, (j <= n)%nat -> rxstart (iter j (slot k) (ax_ch (k_modem k))) = false) ->
  (forall j, (j < n)%nat ->
    persistence (g_settings (k_set k)) <= csma_draw (rand (rng k + j))) ->
  csma_draw (rand (rng k + n)) < persistence (g_settings (k_set k)) ->
  csma_send hook stack_msg rand poll_fuel fuel buf k =
    Some (let k' := backed_off n k in
          set_k_modem (ax25_sendRaw (k_modem k') buf)
            (set_rng (Datatypes.S (rng k')) k')).
Proof.
  induction n as [|n IH]; intros fuel buf k Hf Hidle Hlose Hwin;
    (destruct fuel as [|fuel]; [lia|]); cbn [csma_send];
    pose proof (Hidle 0%nat ltac:(lia)) as H0i; cbn [iter] in H0i; rewrite H0i; cbn [negb].
  - rewrite Nat.add_0_r in Hwin. apply Z.ltb_lt in Hwin.
    cbn [rng k_set set_rng k_modem]. rewrite Hwin. unfold backed_off. cbn [iter]. cbv zeta.
    cbn. rewrite Nat.add_0_r. destruct k as [r [] t e s g b]. done.
  - pose proof (Hlose 0%nat ltac:(lia)) as Hl. rewrite Nat.add_0_r in Hl.
    apply Z.ltb_ge in Hl. cbn [rng k_set set_rng k_modem]. rewrite Hl.
    rewrite (backed_off_S n k).
    set (k1 := set_k_modem _ _). rewrite (IH fuel buf k1); try lia; [done|..].
    + intros j Hj. apply (Hidle (Datatypes.S j)). lia.
    + intros j Hj. cbn. replace (Datatypes.S (rng k + j)) with (rng k + Datatypes.S j)%nat by lia.
      apply Hlose. lia.
    + cbn. by replace (Datatypes.S (rng k + n)) with (rng k + Datatypes.S n)%nat by lia.
Qed.

(** C36: on a free channel the packet is sent once, after as many slots as draws
    were lost: if the first draw below the persistence is the [n]-th,
    [kiss_send_to_modem] waits [n] slots, transmits the frame with one
    [ax25_sendRaw], has drawn [n + 1] numbers, and returns. *)
Theorem kiss_csma_sends_once (n fuel : nat) (buf : list Z) (len : Z) k
    (Hhalf : duplex (g_settings (k_set k)) <> RF_DUPLEX_FULL) (Hfuel : (n < fuel)%nat)
    (Hidle : forall j, (j <= n)%nat -> rxstart (iter j (slot k) (ax_ch (k_modem k))) = false)
    (Hlose : forall j, (j < n)%nat ->
      persistence (g_settings (k_set k)) <= csma_draw (rand (rng k + j)))
    (Hwin : csma_draw (rand (rng k + n)) < persistence (g_settings (k_set k))) :
  exists k',
    send fuel buf len k = Some k' /\ rng k' = (rng k + n + 1)%nat /\
    k_modem k' = ax25_sendRaw
      (set_ax_ch (iter n (slot k) (ax_ch (k_modem k))) (k_modem k)) (take (Z.to_nat len) buf) /\
    k_reader k' = k_reader k /\ k_set k' = k_set k.
Proof.
  unfold send, kiss_send_to_modem. apply Z.eqb_neq in Hhalf. rewrite Hhalf.
  rewrite (csma_idle n) by done. eexists. split; [done|]. cbn. split_and!; try done. lia.
Qed.

(** A persistence of zero silences the station: on a free channel
    [kiss_send_to_modem] then never returns, whatever [rand()] gives. *)
Theorem kiss_zero_persistence_hangs (fuel : nat) (buf : list Z) (len : Z) k
    (Hhalf : duplex (g_settings (k_set k)) <> RF_DUPLEX_FULL)
    (Hp : persistence (g_settings (k_set k)) = 0)
    (Hidle : forall j, rxstart (iter j (slot k) (ax_ch (k_modem k))) = false) :
  send fuel buf len k = None.
Proof.
  unfold send, kiss_send_to_modem. apply Z.eqb_neq in Hhalf. rewrite Hhalf.
  generalize (take (Z.to_nat len) buf). clear buf len. intros buf. clear Hhalf.
  revert k Hp Hidle. induction fuel as [|fuel IH]; intros k Hp Hidle; [done|].
  cbn [csma_send]. pose proof (Hidle 0%nat) as H0i. cbn [iter] in H0i. rewrite H0i. cbn [negb].
  cbn [rng k_set set_rng k_modem]. rewrite Hp.
  assert ((csma_draw (rand (rng k)) <? 0) = false) as ->.
  { apply Z.ltb_ge. unfold csma_draw. pose proof (u8_range
      (Z.lxor (Z.shiftr (u16 (rand (rng k))) 8) (Z.land (u16 (rand (rng k))) 0xff))). lia. }
  apply IH; [done|]. intros j. apply (Hidle (Datatypes.S j)).
Qed.
End Csma.

(** ** From the host to the air *)

Section ToAir.
Context {S : Type} `{SerLaws S} {F : Type} `{KFlush F} `{Carrier F}.
Implicit Types k : Kiss S F.

Variable hook : option AX25Msg -> AX25Ctx F -> SerialReader S -> AX25Ctx F * SerialReader S.
Variable stack_msg : AX25Ctx F -> SerialReader S -> AX25Msg.
Variable rand : nat -> Z.
Variable VERS_BUILD : Z.
Variable poll_fuel : nat.

(** The station may send at once: it is full duplex, or the channel is free and
    the draw is won. *)
Definition clear_to_send k : Prop :=
  duplex (g_settings (k_set k)) = RF_DUPLEX_FULL \/
  (rxstart (ax_ch (k_modem k)) = false /\
   csma_draw (rand (rng k)) < persistence (g_settings (k_set k))).

(** C2: a data frame from the host with a payload of 1 to 254 bytes goes to the
    modem: if the host makes no pause of more than two seconds inside it and,
    when its closing delimiter comes in, the channel is free and the draw won,
    or the station is full duplex, then a modem with room for it gets exactly
    the AX.25 stream of the frame's payload, checksum, escapes and flags
    added, and the settings are untouched.  (A longer frame loses its head:
    [kiss_long_frame_loses_head].) *)
Theorem kiss_host_to_air fuel (data : list Z) (l : list (Z * Z * Z)) k
    (Hr : receiving None false [] k) (Hl : kiss_line (KISS_CMD_DATA :: data) l)
    (Hlen : (0 < length data < 255)%nat) (Hb : bytes data) (Hfuel : (0 < fuel)%nat)
    (Hfree : clear_to_send k)
    (Hok : kk_ok (ax_ch (k_modem k))) (Hfit : kk_fits (ax_ch (k_modem k)) (frame_stream data)) :
  exists k',
    kiss_feed hook stack_msg rand VERS_BUILD poll_fuel fuel l k = Some k' /\
    sent_frame (k_modem k) data (k_modem k') /\
    sr_ser (k_reader k') = sr_ser (k_reader k) /\ k_set k' = k_set k.
Proof.
  assert (Hbf : bytes (KISS_CMD_DATA :: data)).
  { apply Forall_cons. split; [unfold is_byte, KISS_CMD_DATA; lia|done]. }
  destruct (receive_frame hook stack_msg rand VERS_BUILD poll_fuel fuel _ l k Hr Hl
    ltac:(cbn; lia) Hbf) as (t & k1 & R1 & (Sm & Ss & Sg & Sr & Sp) & E1).
  rewrite E1. unfold kiss_command. destruct data as [|b rest] eqn:Ed; [cbn in Hlen; lia|].
  rewrite <- Ed in *. change (Z.land (KISS_CMD_DATA ≫ 4) 15 >? 0) with false.
  change (Z.land KISS_CMD_DATA 15 =? KISS_CMD_DATA) with true. cbv iota zeta.
  unfold kiss_send_to_modem. rewrite Ss, Nat2Z.id, firstn_all.
  destruct (duplex (g_settings (k_set k)) =? RF_DUPLEX_FULL) eqn:Edup.
  - eexists. split; [done|]. cbn. rewrite Sm, Sp, Ss. split_and!; try done.
    by apply ax25_sendRaw_sent.
  - destruct Hfree as [Hfree|[Hidle Hwin]]; [zbool; done|].
    assert (Hcs : csma_send hook stack_msg rand poll_fuel fuel data k1 = Some
      (set_k_modem (ax25_sendRaw (k_modem k1) data) (set_rng (Datatypes.S (rng k1)) k1))).
    { destruct fuel as [|fuel]; [lia|]. cbn [csma_send]. rewrite Sm, Hidle. cbn [negb].
      cbn [rng k_set set_rng k_modem]. rewrite Sg, Ss. apply Z.ltb_lt in Hwin. rewrite Hwin.
      by rewrite Sm. }
    rewrite Hcs. eexists. split; [done|]. cbn. rewrite Sm, Sp, Ss. split_and!; try done.
    by apply ax25_sendRaw_sent.
Qed.
End ToAir.

(** ** From the air to the host *)

(** What [ax25_msg_callback] of main.c does in KISS mode: the buffer of the
    receiver, but for the checksum. *)
Definition kiss_msg_callback {S F : Type} `{SerPort S} (m : option AX25Msg) (ctx : AX25Ctx F)
    (r : SerialReader S) : AX25Ctx F * SerialReader S :=
  (ctx, kiss_send_to_serial 0 0 (ax_buf ctx) (u16 (frm_len ctx - 2)) r).

(** Frames the abstract receiver delivers have the length of a frame. *)
Definition frame_length (f : list Z) : Prop := (18 <= length f <= 330)%nat.

Lemma rx_char_lengths s c :
  (length (r_frame s) <= 330)%nat ->
  (length (r_frame (fst (rx_char s c))) <= 330)%nat /\
  Forall frame_length (delivered (snd (rx_char s c))).
Proof.
  intros Hl. unfold rx_char.
  destruct (negb (r_esc s) && (c =? HDLC_FLAG)).
  - cbn [fst snd r_frame length]. split; [lia|].
    destruct (Z.of_nat (length (r_frame s)) >=? AX25_MIN_FRAME_LEN) eqn:E; [|done].
    rewrite Z.geb_leb in E. zbool. unfold AX25_MIN_FRAME_LEN in *.
    destruct (fcs_ok (r_frame s)); cbn; [|done].
    apply Forall_cons. split; [unfold frame_length; lia|done].
  - destruct (negb (r_esc s) && (c =? HDLC_RESET)); [done|].
    destruct (negb (r_esc s) && (c =? AX25_ESC)); [done|].
    destruct (r_sync s); [|done].
    destruct (Z.of_nat (length (r_frame s)) <? frame_size) eqn:E; [|done].
    cbn. rewrite length_app. cbn. zbool. unfold frame_size, CONFIG_AX25_FRAME_BUF_LEN in *.
    split; [lia|done].
Qed.

Lemma rx_run_lengths l : forall s,
  (length (r_frame s) <= 330)%nat -> Forall frame_length (delivered (snd (rx_run s l))).
Proof.
  induction l as [|c l IH]; intros s Hs; [done|]. cbn [rx_run].
  destruct (rx_char_lengths s c Hs) as [H1 H2]. destruct (rx_char s c) as [s1 e1].
  specialize (IH s1 H1). destruct (rx_run s1 l) as [s2 e2]. cbn [fst snd] in *.
  rewrite delivered_app. by apply Forall_app.
Qed.

Lemma rx_char_bytes s c :
  bytes (r_frame s) -> is_byte c ->
  bytes (r_frame (fst (rx_char s c))) /\ Forall bytes (delivered (snd (rx_char s c))).
Proof.
  intros Hs Hc. unfold rx_char.
  destruct (negb (r_esc s) && (c =? HDLC_FLAG)).
  - cbn. split; [constructor|]. destruct (_ >=? _); [|done].
    destruct (fcs_ok (r_frame s)); cbn; [|done].
    by apply Forall_cons.
  - destruct (negb (r_esc s) && (c =? HDLC_RESET)); [done|].
    destruct (negb (r_esc s) && (c =? AX25_ESC)); [done|].
    destruct (r_sync s); [|done].
    destruct (Z.of_nat (length (r_frame s)) <? frame_size); [|done].
    cbn. split; [|done]. apply Forall_app. split; [done|]. by apply Forall_cons.
Qed.

Lemma rx_run_bytes l : forall s,
  bytes (r_frame s) -> bytes l -> Forall bytes (delivered (snd (rx_run s l))).
Proof.
  induction l as [|c l IH]; intros s Hs Hl; [done|]. cbn [rx_run].
  apply Forall_cons in Hl as [Hc Hl].
  destruct (rx_char_bytes s c Hs Hc) as [H1 H2]. destruct (rx_char s c) as [s1 e1].
  specialize (IH s1 H1 Hl). destruct (rx_run s1 l) as [s2 e2]. cbn [fst snd] in *.
  rewrite delivered_app. by apply Forall_app.
Qed.

(** The host's view of a frame: without the checksum. *)
Definition host_packet (f : list Z) : list Z := kiss_packet 0 (take (length f - 2) f).

Section ToHost.
Context {S : Type} `{SerLaws S} {F : Type} `{KSource F}.
Variable stack_msg : AX25Ctx F -> SerialReader S -> AX25Msg.

Definition host_obs (f : list Z) (r : SerialReader S) : SerialReader S :=
  kiss_send_to_serial 0 0 f (Z.of_nat (length f - 2)) r.

Lemma callback_obs ctx r f :
  frame_length f -> pass_through ctx = true -> ax_hook ctx = true ->
  length (ax_buf ctx) = Z.to_nat frame_size ->
  frm_len ctx = Z.of_nat (length f) -> take (length f) (ax_buf ctx) = f ->
  snd (on_frame kiss_msg_callback stack_msg ctx r) = host_obs f r.
Proof.
  unfold frame_length. intros Hl Hp Hh Hbl Hn Ht. unfold on_frame. rewrite Hp, Hh.
  unfold kiss_msg_callback, host_obs, kiss_send_to_serial, _send_to_serial. cbn [snd].
  rewrite Hn, u16_small by lia. do 2 f_equal.
  replace (Z.of_nat (length f) - 2) with (Z.of_nat (length f - 2)) by lia.
  rewrite Nat2Z.id. rewrite <- Ht at 3. rewrite take_take. f_equal. lia.
Qed.

Lemma emits_frames fs :
  Forall bytes fs ->
  emits (fun r => fold_left (fun r f => host_obs f r) fs r) (concat (map host_packet fs)).
Proof.
  intros Hfs. induction Hfs as [|f fs Hf Hfs IH]; [apply emits_id|].
  cbn [fold_left map concat].
  apply (emits_comp (host_obs f) _ _ _) with (2 := IH). unfold host_obs, host_packet.
  pose proof (emits_packet 0 0 f (Z.of_nat (length f - 2)) ltac:(lia) ltac:(lia) Hf) as He.
  by rewrite Nat2Z.id in He.
Qed.

(** C3: in KISS mode every frame heard reaches the host: when [ax25_poll] has
    drained the channel, the serial port has got, for each frame the abstract
    receiver delivers and in that order, one KISS packet of port 0 with the
    frame's bytes less its checksum, and nothing else. *)
Theorem kiss_air_to_host (ctx : AX25Ctx F) (r : SerialReader S) (s : rxs) (l : list Z) (fuel : nat)
    (Hfuel : (length l < fuel)%nat) (Hst : rx_state true ctx s l)
    (Hb : bytes (r_frame s)) (Hport : sp_ok (sr_ser r)) :
  exists ctx' s',
    ax25_poll kiss_msg_callback stack_msg fuel ctx r = Some (ctx', set_sr_ser s' r) /\
    sp_out s' = sp_out (sr_ser r) ++
      concat (map host_packet (delivered (snd (rx_run s l)))) /\
    sp_ok s' /\ rx_state true ctx' (fst (rx_run s l)) [].
Proof.
  assert (Hbl : bytes l).
  { destruct Hst as (_ & (Hw1 & Hw2) & _). rewrite <- Hw2. by apply ks_bytes. }
  destruct (ax25_poll_frames kiss_msg_callback stack_msg
    (fun m ctx w Hk => rx_same_refl ctx Hk) true frame_length host_obs
    ltac:(intros; by apply callback_obs) ctx r s l fuel Hfuel Hst)
    as (ctx' & r' & E & A & _ & _ & _ & Hr').
  { apply rx_run_lengths. destruct Hst as ((_ & _ & Hn & Hle & _) & _).
    unfold frame_size, CONFIG_AX25_FRAME_BUF_LEN in *. lia. }
  destruct (emits_frames (delivered (snd (rx_run s l)))
    (rx_run_bytes l s Hb Hbl) r Hport) as (s' & Es & Hok & Ho).
  exists ctx', s'. rewrite E, Hr', Es. by split_and!.
Qed.
End ToHost.

(** ** Concrete stations *)

Section Examples.
Import KFileFifo.

(** A channel that is always free. *)
#[local] Instance free_channel : Carrier FIFOBuffer := {
  rxstart _ := false;
  modem_status _ := 0;
  clear_status ch := ch;
  run_irqs ch := ch;
  timer_delay _ ch := ch
}.

#[local] Instance quiet_port : SerPort Serial := ser_port (fun _ => None) (fun _ => 0) 0.
#[local] Instance quiet_laws : SerLaws Serial := ser_laws (fun _ => None) (fun _ => 0) 0.

Definition kiss0 : Kiss Serial FIFOBuffer :=
  kiss_init (serialreader_init (ser_init 0)) (ring_station 256) sample_settings.

(** A [rand()] whose draws are 200, 100, 200, 100, ... *)
Definition rand0 (n : nat) : Z := if Nat.even n then 200 else 100.

Definition no_hook (m : option AX25Msg) (ctx : AX25Ctx FIFOBuffer) (r : SerialReader Serial)
  : AX25Ctx FIFOBuffer * SerialReader Serial := (ctx, r).

(** A slow host: 900 ms go by between two characters. *)
Fixpoint slowly (t : Z) (l : list Z) : list (Z * Z * Z) :=
  match l with
  | [] => []
  | c :: l' => (t, t + 5, c) :: slowly (t + 900) l'
  end.

Definition host_line (f : list Z) : list (Z * Z * Z) :=
  slowly 5 (KISS_FEND :: kiss_escaped f ++ [KISS_FEND]).

Lemma kiss0_ready : receiving None false [] kiss0.
Proof. unfold receiving. split_and!; try done. Qed.

Lemma kiss0_port : k_port_ok kiss0.
Proof. apply ser_init_wf. Qed.

Lemma sample_nv : nv_sized (nv sample_settings).
Proof. by split_and!. Qed.

(** Every special byte, in a data frame. *)
Definition frame0 : list Z := [0; 0xC0; 0xDB; 0xDC; 0xDD; 0x7E; 1].

Lemma kiss_receive_frame_witness :
  exists k1, take 7 (sr_buf (k_reader k1)) = frame0 /\
    kiss_feed no_hook no_msg rand0 7 9 5 (host_line frame0) kiss0
      = option_map frame_done (kiss_command no_hook no_msg rand0 7 9 5 frame0 k1).
Proof.
  destruct (kiss_receive_frame no_hook no_msg rand0 7 9 5 frame0 (host_line frame0) kiss0
    kiss0_ready) as (k1 & _ & E1 & E2 & _).
  - split; [reflexivity|vm_compute; repeat split; congruence].
  - cbn. lia.
  - decide_closed.
  - exists k1. repeat (split; [eassumption|]). eassumption.
Defined.

(** A host's 262-byte frame whose tail asks for a reboot. *)
Lemma kiss_long_frame_loses_head_witness :
  exists k1, kiss_feed no_hook no_msg rand0 7 9 5
      (host_line (replicate 256 65 ++ KISS_CMD_CONFIG_MAGIC :: with_sum [0x0B; 0; 0; 7])) kiss0
    = option_map frame_done (kiss_command no_hook no_msg rand0 7 9 5
        (KISS_CMD_CONFIG_MAGIC :: with_sum [0x0B; 0; 0; 7]) k1).
Proof.
  destruct (kiss_long_frame_loses_head no_hook no_msg rand0 7 9 5 (replicate 256 65)
    (KISS_CMD_CONFIG_MAGIC :: with_sum [0x0B; 0; 0; 7])
    (host_line (replicate 256 65 ++ KISS_CMD_CONFIG_MAGIC :: with_sum [0x0B; 0; 0; 7])) kiss0
    kiss0_ready) as (k1 & _ & E1).
  - split; [reflexivity|vm_compute; repeat split; congruence].
  - reflexivity.
  - cbn. lia.
  - decide_closed.
  - exists k1. repeat (split; [eassumption|]). eassumption.
Defined.

Lemma kiss_config_params_witness :
  exists k1 k2,
    kiss_command no_hook no_msg rand0 7 9 5
      (KISS_CMD_CONFIG_PARAMS :: with_sum (settings_bytes (default_settings 3))) kiss0 = Some k1 /\
    kiss_command no_hook no_msg rand0 7 9 5 (KISS_CMD_CONFIG_PARAMS :: with_sum []) k1 = Some k2 /\
    g_settings (k_set k1) = default_settings 3.
Proof.
  destruct (kiss_config_params no_hook no_msg rand0 7 9 5 (default_settings 3)
    (default_settings 1) kiss0) as (k1 & k2 & E1 & E2 & E3 & _).
  - split; [decide_closed|]. unfold is_u16. cbn. lia.
  - apply sample_nv.
  - apply kiss0_port.
  - exists k1, k2. repeat (split; [eassumption|]). eassumption.
Defined.

Lemma kiss_corrupted_config_ignored_witness :
  kiss_command no_hook no_msg rand0 7 9 5
    (KISS_CMD_CONFIG_PARAMS :: upd (with_sum (settings_bytes (default_settings 3))) 4 77) kiss0
    = Some kiss0.
Proof.
  apply (kiss_corrupted_config_ignored no_hook no_msg rand0 7 9 5 KISS_CMD_CONFIG_PARAMS
    (settings_bytes (default_settings 3))
    (upd (with_sum (settings_bytes (default_settings 3))) 4 77) 4 77 kiss0).
  - unfold KISS_CMD_CONFIG_PARAMS. lia.
  - decide_closed.
  - cbn. lia.
  - unfold is_byte. lia.
  - reflexivity.
  - vm_compute. congruence.
Defined.

Lemma kiss_text_truncated_witness :
  exists k1 k2 : Kiss Serial FIFOBuffer,
    kiss_command no_hook no_msg rand0 7 9 5
      (KISS_CMD_CONFIG_TEXT :: with_sum (replicate 100 65)) kiss0 = Some k1 /\
    k_out k2 = k_out k1 ++ kiss_packet KISS_CMD_CONFIG_TEXT (with_sum (replicate 73 65)).
Proof.
  destruct (kiss_text_truncated no_hook no_msg rand0 7 9 5 (replicate 100 65) kiss0)
    as (k1 & k2 & E1 & _ & _ & E2).
  - apply (bool_decide_unpack _). vm_compute. exact I.
  - decide_closed.
  - cbn. lia.
  - apply sample_nv.
  - reflexivity.
  - reflexivity.
  - apply kiss0_port.
  - exists k1, k2. repeat (split; [eassumption|]). eassumption.
Defined.

(** The persistence of the sample settings is 63: draws of 200 and 100 lose. *)
Definition eager : Settings :=
  mkS (set_persistence 150 (g_settings sample_settings)) (nv sample_settings).

Definition kiss1 : Kiss Serial FIFOBuffer := set_k_set eager kiss0.

Lemma kiss_csma_sends_once_witness :
  exists k', kiss_send_to_modem no_hook no_msg rand0 9 5 [1; 2; 3; 4] 3 kiss1 = Some k' /\
    rng k' = 2%nat /\ k_modem k' = ax25_sendRaw (k_modem kiss1) [1; 2; 3].
Proof.
  destruct (kiss_csma_sends_once no_hook no_msg rand0 9 1 5 [1; 2; 3; 4] 3 kiss1)
    as (k' & E1 & E2 & E3 & _).
  - vm_compute. congruence.
  - lia.
  - intros j Hj. reflexivity.
  - intros j Hj. assert (j = 0%nat) as -> by lia. vm_compute. congruence.
  - vm_compute. reflexivity.
  - exists k'. repeat (split; [eassumption|]). eassumption.
Defined.

Lemma kiss_zero_persistence_hangs_witness :
  kiss_send_to_modem no_hook no_msg rand0 9 1000 [1; 2; 3] 3
    (set_k_set (mkS (set_persistence 0 (g_settings sample_settings)) (nv sample_settings)) kiss0)
    = None.
Proof.
  apply (kiss_zero_persistence_hangs no_hook no_msg rand0 9 1000 [1; 2; 3] 3
    (set_k_set (mkS (set_persistence 0 (g_settings sample_settings)) (nv sample_settings)) kiss0)).
  - vm_compute. congruence.
  - reflexivity.
  - intros j. reflexivity.
Defined.

Lemma kiss_host_to_air_witness :
  exists k',
    kiss_feed no_hook no_msg (fun _ => 77) 7 9 5 (host_line frame0) kiss1 = Some k' /\
    sent_frame (k_modem kiss1) (drop 1 frame0) (k_modem k').
Proof.
  destruct (kiss_host_to_air no_hook no_msg (fun _ => 77) 7 9 5 (drop 1 frame0) (host_line frame0)
    kiss1) as (k' & E1 & E2 & _).
  - unfold receiving. split_and!; try done.
  - split; [reflexivity|vm_compute; repeat split; congruence].
  - cbn. lia.
  - decide_closed.
  - lia.
  - right. split; [reflexivity|vm_compute; reflexivity].
  - apply (fifo_init_wf (zeros 256) 256); [lia|reflexivity].
  - vm_compute. congruence.
  - exists k'. repeat (split; [eassumption|]). eassumption.
Defined.

Lemma kiss_air_to_host_witness :
  exists ctx' s',
    ax25_poll kiss_msg_callback no_msg 60 ring_receiver (serialreader_init (ser_init 0))
      = Some (ctx', set_sr_ser s' (serialreader_init (ser_init 0))) /\
    sp_out s' = kiss_packet 0 (replicate 17 0x7E).
Proof.
  destruct (kiss_air_to_host no_msg ring_receiver (serialreader_init (ser_init 0)) rx_start
    ring_input 60) as (ctx' & s' & E1 & E2 & _).
  - apply Nat.ltb_lt. reflexivity.
  - split_and!; try reflexivity; vm_compute; (split || congruence); try congruence.
    all: repeat constructor; vm_compute; congruence.
  - constructor.
  - apply ser_init_wf.
  - exists ctx', s'. split; [exact E1|]. rewrite E2. vm_compute. reflexivity.
Defined.
End Examples.
