(* ===== verification/Digi.v ===== *)
(** * The digipeater: [TinyAPRS/digi.c]

    A message heard on the air is repeated when its path asks for it: the first
    unused [WIDEn-N] entry is used up, the station puts its own call there, and a
    message already repeated in the last 15 seconds is dropped.  [cache] holds the
    last eight messages repeated.  The clock is read once per cache entry compared
    and once when an entry is written: [now i] is the reading at loop counter [i],
    [now 0] the last one. *)

From Stdlib Require Import ZArith Lia Bool List.
From Stdlib Require Import String.
From stdpp Require Import prelude.
From S2P Require Import Prelude.
From S2P Require Import Libc.
From S2P Require Import Fifo.
From S2P Require Import KFile.
From S2P Require Import Formatwr.
From S2P Require Import Ax25.
From S2P Require Import Ax25Tx.
From S2P Require Import Ax25Print.
From S2P Require Import Ax25Decode.
From S2P Require Import Timer.
From S2P Require Import Ser.
From S2P Require Import Settings.
From S2P Require Import Kiss.

Open Scope Z_scope.

(** ** Data *)

Record CacheEntry := mkEntry { hash : Z; timestamp : Z }.

Definition DUP_CHECK_INTERVAL : Z := 15.
Definition CACHE_SIZE : nat := 8.

(** [dg_c]: the counter of the debug output. *)
Record Digi := mkDigi { cache : list CacheEntry; cacheIndex : Z; dg_c : Z }.

Definition digi_init (d : Digi) : Digi := mkDigi (replicate CACHE_SIZE (mkEntry 0 0)) 0 (dg_c d).

(** At reset [c] is 1. *)
Definition digi_reset : Digi := mkDigi (replicate CACHE_SIZE (mkEntry 0 0)) 0 1.

(** ** Duplicates *)

(** [hash * 31 + c] in 16 bits. *)
Definition hash_step (hash c : Z) : Z := u16 (hash * 31 + c).

(** [char] is signed. *)
Definition hash_call (hash : Z) (c : AX25Call) : Z :=
  hash_step (fold_left hash_step (map (fun i => i8 (get (call c) i)) (seqZ 0 6)) hash) (ssid c).

Definition _digi_calc_hash (msg : AX25Msg) : Z :=
  let hash := hash_call 0 (m_src msg) in
  let hash := hash_call hash (m_dst msg) in
  fold_left hash_step (map (fun i => get (m_info msg) i) (seqZ 0 (m_len msg))) hash.

(** [CURRENT_TIME_SECONDS] from a reading of the clock. *)
Definition CURRENT_TIME_SECONDS (clock : Z) : Z := Z.quot (ticks_to_ms clock) 1000.

(** The difference is taken in [uint32_t]. *)
Definition entry_matches (h clock : Z) (e : CacheEntry) : bool :=
  (hash e =? h) && (u32 (CURRENT_TIME_SECONDS clock - timestamp e) <? DUP_CHECK_INTERVAL).

(** The search from loop counter [i] down to 1. *)
Fixpoint dup_scan (i : nat) (now : nat -> Z) (h : Z) (d : Digi) : bool :=
  match i with
  | O => false
  | S i' =>
      if cacheIndex d >? 0 then
        let j := Z.rem (cacheIndex d - 1 + Z.of_nat i) (Z.of_nat CACHE_SIZE) in
        if entry_matches h (now i) (nth (Z.to_nat j) (cache d) (mkEntry 0 0)) then true
        else dup_scan i' now h d
      else false
  end.

Definition cache_store (clock h : Z) (d : Digi) : Digi :=
  let i := u8 (cacheIndex d + 1) in
  let i := if i >? Z.of_nat CACHE_SIZE then u8 (i - Z.of_nat CACHE_SIZE) else i in
  let e := mkEntry h (u32 (Z.quot (ticks_to_ms clock) 1000)) in
  mkDigi (<[Z.to_nat (i - 1) := e]> (cache d)) i (dg_c d).

Definition _digi_check_is_duplicated (now : nat -> Z) (msg : AX25Msg) (d : Digi) : bool * Digi :=
  let h := _digi_calc_hash msg in
  let dup := dup_scan CACHE_SIZE now h d in
  (dup, if dup then d else cache_store (now 0%nat) h d).

(** ** The path *)

Definition rpt_at (msg : AX25Msg) (i : Z) : AX25Call := nth (Z.to_nat i) (m_rpt_lst msg) (mkCall [] 0).

(** The condition of the loop: a [WIDE] entry with hops left, not yet used. *)
Definition rpt_required (msg : AX25Msg) (i : Z) : bool :=
  let sta := rpt_at msg i in
  ((strncasecmp (call sta) (chars "WIDE1") 5 =? 0) ||
   (strncasecmp (call sta) (chars "WIDE2") 5 =? 0) ||
   (strncasecmp (call sta) (chars "WIDE3") 5 =? 0))
  && (ssid sta >? 0) && negb (AX25_REPEATED (m_rpt_flags msg) i).

Definition set_path (lst : list AX25Call) (cnt flags : Z) (msg : AX25Msg) : AX25Msg :=
  mkMsg (m_src msg) (m_dst msg) lst cnt flags (m_ctrl msg) (m_pid msg) (m_info msg) (m_len msg).

(** What happens to the path at entry [i]; [false]: no space left. *)
Definition digi_path (mycall : AX25Call) (i : Z) (msg : AX25Msg) : bool * AX25Msg :=
  let sta := rpt_at msg i in
  let '(ok, msg) :=
    if ssid sta >? 1 then
      let sta := mkCall (call sta) (ssid sta - 1) in
      let lst := <[Z.to_nat i := sta]> (m_rpt_lst msg) in
      if i <? Z.of_nat AX25_MAX_RPT - 1 then
        let c := mkCall (take 5 (call sta) ++ [0]) (ssid sta) in
        (true, set_path (<[Z.to_nat (i + 1) := c]> lst)
          (if i =? m_rpt_cnt msg - 1 then u8 (m_rpt_cnt msg + 1) else m_rpt_cnt msg)
          (AX25_SET_REPEATED (m_rpt_flags msg) (i + 1) false) msg)
      else (false, set_path lst (m_rpt_cnt msg) (m_rpt_flags msg) msg)
    else (true, msg) in
  if ok then
    (true, set_path (<[Z.to_nat i := mycall]> (m_rpt_lst msg)) (m_rpt_cnt msg)
      (AX25_SET_REPEATED (m_rpt_flags msg) i true) msg)
  else (false, msg).

(** ** Repeating *)

Section Digi.
Context {S : Type} `{SerPort S} {F : Type} `{KFile F} `{Carrier F}.

(** The digipeater, the serial port and the AX.25 context it works on. *)
Record Station := mkStation { st_digi : Digi; st_ser : S; st_ax : AX25Ctx F }.

(** One line of debug output and the message. The counter has 32 bits and [%d]
    prints its low 16. *)
Definition digi_print (fmt : list Z) (c : Z) (msg : AX25Msg) (ser : S) : S :=
  ax25_print (snd (kfile_printf_P ser fmt [AInt (u16 c)])) msg.

Definition _digi_repeat_message (msg : AX25Msg) (st : Station) : Station :=
  let ax := set_ax_ch (Kiss.timer_delay 150 (ax_ch (st_ax st))) (st_ax st) in
  let d := st_digi st in
  let ser := digi_print (chars ">[%d]digipeat:" ++ [13; 10]) (dg_c d) msg (st_ser st) in
  mkStation (mkDigi (cache d) (cacheIndex d) (u32 (dg_c d + 1))) ser (ax25_sendMsg ax msg).

(** The body of the loop for the entry it stops at. *)
Definition digi_entry (now : nat -> Z) (set : Settings) (i : Z) (msg : AX25Msg) (st : Station)
  : bool * AX25Msg * Station :=
  let '(dup, d) := _digi_check_is_duplicated now msg (st_digi st) in
  if dup then (false, msg, mkStation d (st_ser st) (st_ax st))
  else
    let ser := digi_print (chars ">[%d]original:" ++ [13; 10]) (dg_c d) msg (st_ser st) in
    let st := mkStation d ser (st_ax st) in
    let '(ok, msg) := digi_path (settings_get_mycall set) i msg in
    if ok then (true, msg, _digi_repeat_message msg st) else (false, msg, st).

(** [for (i = 0; i < msg->rpt_cnt; i++)] from entry [i] on. *)
Fixpoint digi_loop (n : nat) (i : Z) (now : nat -> Z) (set : Settings) (msg : AX25Msg)
    (st : Station) : bool * AX25Msg * Station :=
  match n with
  | O => (false, msg, st)
  | Datatypes.S n' =>
      if i <? m_rpt_cnt msg then
        if rpt_required msg i then digi_entry now set i msg st
        else digi_loop n' (i + 1) now set msg st
      else (false, msg, st)
  end.

Definition digi_handle_aprs_message (now : nat -> Z) (set : Settings) (msg : AX25Msg)
    (st : Station) : bool * AX25Msg * Station :=
  digi_loop (Z.to_nat (m_rpt_cnt msg)) 0 now set msg st.
End Digi.

Arguments Station : clear implicits.
Arguments mkStation {S F}.
Arguments st_digi {S F}. Arguments st_ser {S F}. Arguments st_ax {S F}.

(** ** The cache is the list of the last eight messages repeated *)






(** ** A message is not repeated twice *)








(** Entry [i] is where the loop stops. *)
Definition first_required (msg : AX25Msg) (i : Z) : Prop :=
  0 <= i < m_rpt_cnt msg /\ rpt_required msg i = true /\
  forall j, 0 <= j < i -> rpt_required msg j = false.

Section Handle.
Context {S : Type} `{SerPort S} {F : Type} `{KFile F} `{Carrier F}.
Implicit Types st : Station S F.

Lemma digi_loop_cases now set msg st n : forall i,
  0 <= i -> i + Z.of_nat n = m_rpt_cnt msg -> (forall j, 0 <= j < i -> rpt_required msg j = false) ->
  (digi_loop n i now set msg st = (false, msg, st) /\
   forall j, 0 <= j < m_rpt_cnt msg -> rpt_required msg j = false) \/
  (exists j, first_required msg j /\ digi_loop n i now set msg st = digi_entry now set j msg st).
Proof.
  induction n as [|n IH]; intros i Hi Hn Hp; cbn [digi_loop].
  - left. split; [done|]. intros j Hj. apply Hp. lia.
  - assert ((i <? m_rpt_cnt msg) = true) as -> by (apply Z.ltb_lt; lia).
    destruct (rpt_required msg i) eqn:E.
    + right. exists i. split; [|done]. split_and!; [lia|lia|done|done].
    + apply (IH (i + 1)); [lia|lia|]. intros j Hj.
      destruct (decide (j = i)) as [->|]; [done|]. apply Hp. lia.
Qed.

Lemma handle_cases now set msg st :
  0 <= m_rpt_cnt msg ->
  (digi_handle_aprs_message now set msg st = (false, msg, st) /\
   forall j, 0 <= j < m_rpt_cnt msg -> rpt_required msg j = false) \/
  (exists j, first_required msg j /\
    digi_handle_aprs_message now set msg st = digi_entry now set j msg st).
Proof. intros Hc. apply (digi_loop_cases now set msg st (Z.to_nat (m_rpt_cnt msg)) 0); lia. Qed.

End Handle.

(** ** The new path *)

Definition path_wf (m : AX25Msg) : Prop :=
  length (m_rpt_lst m) = 8%nat /\ 0 <= m_rpt_cnt m <= 8 /\ Forall (fun c => 0 <= ssid c) (m_rpt_lst m).

Definition entry (m : AX25Msg) (j : Z) : AX25Call * bool :=
  (rpt_at m j, AX25_REPEATED (m_rpt_flags m) j).

(** A used-up entry: the station's call; and what is left of its hops. *)
Definition hop_left (a : AX25Call) : AX25Call := mkCall (take 5 (call a) ++ [0]) (ssid a - 1).

Lemma digi_path_spec mycall i m :
  path_wf m -> first_required m i ->
  let more := ssid (rpt_at m i) >? 1 in
  let '(ok, m') := digi_path mycall i m in
  ok = negb more || (i <? 7) /\
  (ok = true ->
   m_rpt_cnt m' = (if more && (i =? m_rpt_cnt m - 1) then m_rpt_cnt m + 1 else m_rpt_cnt m) /\
   (forall j, 0 <= j < 8 ->
     entry m' j = if j =? i then (mycall, true)
                  else if more && (j =? i + 1) then (hop_left (rpt_at m i), false) else entry m j) /\
   length (m_rpt_lst m') = 8%nat /\
   m_src m' = m_src m /\ m_dst m' = m_dst m /\ m_info m' = m_info m /\ m_len m' = m_len m).
Proof.
  intros (Hl & Hc & _) ((Hi & Hic) & _ & _). cbn zeta. unfold digi_path.
  change (Z.of_nat AX25_MAX_RPT - 1) with 7.
  destruct (ssid (rpt_at m i) >? 1) eqn:Em; cbn [negb orb andb].
  - destruct (i <? 7) eqn:E7; zbool; [|done]. split; [done|]. intros _.
    cbn [set_path m_rpt_cnt m_rpt_lst m_rpt_flags m_src m_dst m_info m_len ssid call].
    split_and!; [destruct (i =? m_rpt_cnt m - 1); [apply u8_small; unfold is_byte; lia|done]
      | |by rewrite !length_insert|done|done|done|done].
    intros j Hj. unfold entry, rpt_at, hop_left. cbn [set_path m_rpt_lst m_rpt_flags].
    rewrite !AX25_REPEATED_set by lia. rewrite !nth_lookup, (Z.eqb_sym i j), (Z.eqb_sym (i + 1) j).
    destruct (j =? i) eqn:Ei; zbool.
    + subst j. rewrite list_lookup_insert_eq by (rewrite !length_insert; lia). done.
    + rewrite list_lookup_insert_ne by lia. destruct (j =? i + 1) eqn:Ei1; zbool.
      * subst j. rewrite list_lookup_insert_eq by (rewrite length_insert; lia). done.
      * rewrite !list_lookup_insert_ne by lia. done.
  - split; [done|]. intros _. cbn [set_path m_rpt_cnt m_rpt_lst m_rpt_flags m_src m_dst m_info m_len].
    split_and!; [done| |by rewrite length_insert|done|done|done|done].
    intros j Hj. unfold entry, rpt_at. cbn [set_path m_rpt_lst m_rpt_flags].
    rewrite AX25_REPEATED_set by lia. rewrite nth_lookup, (Z.eqb_sym i j).
    destruct (j =? i) eqn:Ei; zbool.
    + subst j. rewrite list_lookup_insert_eq by lia. done.
    + rewrite list_lookup_insert_ne by lia. by rewrite nth_lookup.
Qed.

(** ** Messages do not circulate for ever *)

(** The entry asks to be repeated; the hops it still asks for. *)
Definition pending (e : AX25Call * bool) : bool :=
  ((strncasecmp (call (fst e)) (chars "WIDE1") 5 =? 0) ||
   (strncasecmp (call (fst e)) (chars "WIDE2") 5 =? 0) ||
   (strncasecmp (call (fst e)) (chars "WIDE3") 5 =? 0))
  && (ssid (fst e) >? 0) && negb (snd e).

Definition weight (m : AX25Msg) (j : Z) : Z :=
  if (j <? m_rpt_cnt m) && pending (entry m j) then ssid (fst (entry m j)) else 0.

Definition hops (m : AX25Msg) : Z := foldr Z.add 0 (map (weight m) (seqZ 0 8)).

Lemma weight_nonneg m j : 0 <= weight m j.
Proof.
  unfold weight, pending. destruct ((j <? m_rpt_cnt m) && _) eqn:E; [|lia]. zbool. lia.
Qed.

Lemma hops_eq m :
  hops m = weight m 0 + (weight m 1 + (weight m 2 + (weight m 3 + (weight m 4 +
    (weight m 5 + (weight m 6 + (weight m 7 + 0))))))).
Proof. reflexivity. Qed.

Lemma hops_nonneg m : 0 <= hops m.
Proof.
  rewrite hops_eq.
  pose proof (weight_nonneg m 0). pose proof (weight_nonneg m 1). pose proof (weight_nonneg m 2).
  pose proof (weight_nonneg m 3). pose proof (weight_nonneg m 4). pose proof (weight_nonneg m 5).
  pose proof (weight_nonneg m 6). pose proof (weight_nonneg m 7). lia.
Qed.

(** One entry used up, the one behind it at most refilled with one hop less. *)
Lemma hops_step m m' i k :
  0 <= i < 8 -> k = i + 1 ->
  weight m' i = 0 -> 0 < weight m i -> weight m' k < weight m i + weight m k ->
  (forall j, 0 <= j < 8 -> j <> i -> j <> k -> weight m' j = weight m j) ->
  hops m' < hops m.
Proof.
  intros Hi Hk H0 Hp H1 Hj. rewrite !hops_eq. pose proof (weight_nonneg m k).
  assert (i = 0 \/ i = 1 \/ i = 2 \/ i = 3 \/ i = 4 \/ i = 5 \/ i = 6 \/ i = 7) as Hc by lia.
  destruct Hc as [->|[->|[->|[->|[->|[->|[->| ->]]]]]]]; vm_compute in Hk; subst k;
    repeat match goal with |- context [weight m' ?j] =>
      first [rewrite H0 | rewrite (Hj j) by lia] end;
    lia.
Qed.

Lemma first_pending m i : first_required m i -> 0 <= i < m_rpt_cnt m /\ pending (entry m i) = true.
Proof. intros (Hi & Hr & _). split; [done|exact Hr]. Qed.

Lemma digi_path_hops mycall i m m' :
  path_wf m -> first_required m i -> digi_path mycall i m = (true, m') -> 0 <= ssid mycall ->
  path_wf m' /\ hops m' < hops m.
Proof.
  intros Hw Hf E Hmy. pose proof (first_pending m i Hf) as [Hi Hp].
  pose proof (digi_path_spec mycall i m Hw Hf) as H. rewrite E in H. cbn zeta in H.
  destruct H as [Hok H]. destruct (H eq_refl) as (Hc & He & Hl & _). clear H.
  destruct Hw as (Hlm & Hcm & Hs).
  assert (Hsi : 0 < ssid (rpt_at m i)).
  { unfold pending in Hp. zbool. cbn in *. lia. }
  assert (Hmore : (ssid (rpt_at m i) >? 1) = true -> i < 7).
  { intros Em. rewrite Em in Hok. cbn in Hok. symmetry in Hok. zbool. lia. }
  assert (Hcnt : m_rpt_cnt m <= m_rpt_cnt m' <= 8).
  { rewrite Hc. destruct (ssid (rpt_at m i) >? 1); cbn; [|lia].
    destruct (i =? m_rpt_cnt m - 1) eqn:E1; zbool; lia. }
  split.
  - split_and!; [done|lia|lia|]. apply Forall_forall. intros c Hin.
    apply list_elem_of_lookup in Hin as [j Hj].
    assert (Hj8 : (j < 8)%nat) by (rewrite <- Hl; by eapply lookup_lt_Some).
    assert (Ec : c = fst (entry m' (Z.of_nat j))).
    { unfold entry, rpt_at. cbn. by rewrite Nat2Z.id, nth_lookup, Hj. }
    rewrite Ec, He by lia. destruct (Z.of_nat j =? i); [done|].
    destruct ((ssid (rpt_at m i) >? 1) && (Z.of_nat j =? i + 1)); [unfold hop_left; cbn [fst ssid]; lia|].
    unfold entry, rpt_at. cbn [fst]. rewrite nth_lookup.
    destruct (m_rpt_lst m !! _) as [x|] eqn:Ex; [|cbn; lia].
    exact (Forall_lookup_1 _ _ _ _ Hs Ex).
  - apply (hops_step m m' i (i + 1)); [lia|done| | | |].
    + unfold weight. rewrite He, Z.eqb_refl by lia. unfold pending. cbn [snd negb].
      by rewrite !andb_false_r.
    + unfold weight. rewrite Hp. assert ((i <? m_rpt_cnt m) = true) as -> by (apply Z.ltb_lt; lia). done.
    + pose proof (weight_nonneg m (i + 1)). unfold weight at 1 2. rewrite Hp.
      assert ((i <? m_rpt_cnt m) = true) as -> by (apply Z.ltb_lt; lia). cbn [andb].
      destruct ((i + 1 <? m_rpt_cnt m') && _) eqn:E1; [|cbn; lia]. zbool.
      rewrite He in * by lia. assert ((i + 1 =? i) = false) as Ei by (apply Z.eqb_neq; lia).
      rewrite Ei, Z.eqb_refl in *. destruct (ssid (rpt_at m i) >? 1) eqn:Em; cbn [andb] in *.
      * unfold hop_left, entry. cbn [fst ssid]. lia.
      * unfold weight at 1. rewrite Hc in *. cbn [andb] in *.
        assert ((i + 1 <? m_rpt_cnt m) = true) as -> by (apply Z.ltb_lt; lia).
        match goal with H : pending (entry m (i + 1)) = true |- _ => rewrite H end. cbn. lia.
    + intros j Hj Hji Hjk. unfold weight. rewrite He by lia.
      assert ((j =? i) = false) as -> by (apply Z.eqb_neq; lia).
      assert ((j =? i + 1) = false) as -> by (apply Z.eqb_neq; lia). rewrite andb_false_r.
      assert ((j <? m_rpt_cnt m') = (j <? m_rpt_cnt m)) as ->; [|done].
      rewrite Hc. destruct (ssid (rpt_at m i) >? 1); cbn; [|done].
      destruct (i =? m_rpt_cnt m - 1) eqn:E1; [|done]. zbool.
      apply Bool.eq_iff_eq_true. rewrite !Z.ltb_lt. lia.
Qed.

(** ** What is repeated *)

(** The path with its [i]-th entry used up: the entry behind it makes room for
    the hops that are left. *)
Definition relay_path (mycall : AX25Call) (i : nat) (p : list (AX25Call * bool)) : list (AX25Call * bool) :=
  match drop i p with
  | (a, _) :: post =>
      take i p ++ (mycall, true) :: (if ssid a >? 1 then (hop_left a, false) :: drop 1 post else post)
  | [] => p
  end.

Lemma rpt_entries_lookup n m k : forall i,
  0 <= i -> rpt_entries n i m !! k = if decide (k < n)%nat then Some (entry m (i + Z.of_nat k)) else None.
Proof.
  revert k. induction n as [|n IH]; intros [|k] i Hi; cbn [rpt_entries]; try done.
  - rewrite decide_True by lia. cbn. rewrite Z.add_0_r. done.
  - cbn [lookup list_lookup]. rewrite IH by lia.
    rewrite (decide_ext (k < n)%nat (Datatypes.S k < Datatypes.S n)%nat) by lia.
    destruct (decide _); [|done]. do 2 f_equal. lia.
Qed.

Lemma rpt_entries_drop n m k : forall i, rpt_entries (k + n) i m = rpt_entries k i m ++ rpt_entries n (i + Z.of_nat k) m.
Proof.
  induction k as [|k IH]; intros i; cbn [rpt_entries Nat.add app]; [by rewrite Z.add_0_r|].
  rewrite IH. do 3 f_equal. lia.
Qed.

Lemma rpt_entries_S n i m : rpt_entries (Datatypes.S n) i m = entry m i :: rpt_entries n (i + 1) m.
Proof. reflexivity. Qed.

Lemma rpt_entries_eq n m m' i :
  0 <= i -> (forall j, i <= j < i + Z.of_nat n -> entry m' j = entry m j) -> rpt_entries n i m' = rpt_entries n i m.
Proof.
  intros Hi He. apply list_eq. intros k. rewrite !rpt_entries_lookup by lia.
  destruct (decide (k < n)%nat); [|done]. by rewrite He by lia.
Qed.

Lemma length_rpt_entries n m : forall i, length (rpt_entries n i m) = n.
Proof. induction n as [|n IH]; intros i; [done|]. cbn. by rewrite IH. Qed.

Lemma relay_entries mycall i m m' :
  path_wf m -> first_required m i -> digi_path mycall i m = (true, m') ->
  rpt_entries (Z.to_nat (m_rpt_cnt m')) 0 m'
  = relay_path mycall (Z.to_nat i) (rpt_entries (Z.to_nat (m_rpt_cnt m)) 0 m).
Proof.
  intros Hw Hf E. pose proof (digi_path_spec mycall i m Hw Hf) as H. rewrite E in H. cbn zeta in H.
  destruct H as [Hok H]. destruct (H eq_refl) as (Hc & He & _). clear H E.
  destruct Hw as (_ & Hcm & _). destruct Hf as (Hi & _).
  set (a := rpt_at m i) in *. set (cnt := m_rpt_cnt m) in *.
  set (pre := rpt_entries (Z.to_nat i) 0 m). set (post := rpt_entries (Z.to_nat (cnt - i - 1)) (i + 1) m).
  assert (Hm : rpt_entries (Z.to_nat cnt) 0 m = pre ++ entry m i :: post).
  { replace (Z.to_nat cnt) with (Z.to_nat i + (1 + Z.to_nat (cnt - i - 1)))%nat by lia.
    rewrite rpt_entries_drop. cbn [Nat.add]. rewrite rpt_entries_S, Z2Nat.id, Z.add_0_l by lia. done. }
  assert (Hpre : length pre = Z.to_nat i) by apply length_rpt_entries.
  unfold relay_path. rewrite Hm, drop_app_length', take_app_length' by done. cbn [entry].
  change (ssid (rpt_at m i)) with (ssid a).
  assert (Hpre' : rpt_entries (Z.to_nat i) 0 m' = pre).
  { apply rpt_entries_eq; [lia|]. intros j Hj. rewrite He by lia.
    assert ((j =? i) = false) as -> by (apply Z.eqb_neq; lia).
    assert ((j =? i + 1) = false) as -> by (apply Z.eqb_neq; lia). by rewrite andb_false_r. }
  assert (Hei : entry m' i = (mycall, true)) by (rewrite He, Z.eqb_refl by lia; done).
  destruct (ssid a >? 1) eqn:Em; cbn [andb] in *.
  - assert (Hrest : forall j, i + 2 <= j < 8 -> entry m' j = entry m j).
    { intros j Hj. rewrite He by lia.
      assert ((j =? i) = false) as -> by (apply Z.eqb_neq; lia).
      assert ((j =? i + 1) = false) as -> by (apply Z.eqb_neq; lia). done. }
    assert (Hn : m_rpt_cnt m' = Z.max cnt (i + 2)).
    { rewrite Hc. destruct (i =? cnt - 1) eqn:E1; zbool; lia. }
    destruct (decide (i + 1 < 8)) as [Hi1|Hi1].
    + replace (Z.to_nat (m_rpt_cnt m')) with (Z.to_nat i + (2 + (Z.to_nat (cnt - i - 1) - 1)))%nat by lia.
      rewrite rpt_entries_drop, Hpre'. cbn [Nat.add]. rewrite !rpt_entries_S, Z2Nat.id, Z.add_0_l by lia. f_equal. rewrite Hei. f_equal. rewrite He by lia.
      assert ((i + 1 =? i) = false) as -> by (apply Z.eqb_neq; lia). rewrite Z.eqb_refl. f_equal.
      rewrite (rpt_entries_eq _ m m') by (lia || (intros; apply Hrest; lia)).
      unfold post. destruct (Z.to_nat (cnt - i - 1)) as [|k]; [done|]. cbn [rpt_entries drop].
      by rewrite Nat.sub_1_r.
    + symmetry in Hok. cbn in Hok. zbool. lia.
  - rewrite Hc. replace (Z.to_nat cnt) with (Z.to_nat i + (1 + Z.to_nat (cnt - i - 1)))%nat by lia.
    rewrite rpt_entries_drop, Hpre'. cbn [Nat.add]. rewrite rpt_entries_S, Z2Nat.id, Z.add_0_l by lia.
    rewrite Hei. do 2 f_equal. apply rpt_entries_eq; [lia|]. intros j Hj. rewrite He by lia.
    by assert ((j =? i) = false) as -> by (apply Z.eqb_neq; lia).
Qed.

Section Repeat.
Context {S : Type} `{SerPort S} {F : Type} `{KFlush F} `{Carrier F}.
Implicit Types st : Station S F.

(** A message not seen lately: what becomes of it, whether its path has room
    or not. *)
Lemma handle_fresh now set m st i :
  first_required m i ->
  dup_scan CACHE_SIZE now (_digi_calc_hash m) (st_digi st) = false ->
  exists m' d ser,
    digi_path (settings_get_mycall set) i m
      = (fst (digi_path (settings_get_mycall set) i m), m') /\
    digi_handle_aprs_message now set m st
    = (fst (digi_path (settings_get_mycall set) i m), m', mkStation d ser
        (if fst (digi_path (settings_get_mycall set) i m)
         then ax25_sendMsg (set_ax_ch (Kiss.timer_delay 150 (ax_ch (st_ax st))) (st_ax st)) m'
         else st_ax st)).
Proof.
  intros Hf Hdup. pose proof Hf as ((Hi0 & Hi1) & Hr & Hn).
  destruct (handle_cases now set m st ltac:(lia)) as [[_ E]|(j & Hj & E)]; [by rewrite E in Hr by lia|].
  assert (j = i) as ->.
  { destruct Hj as ((Hj0 & Hj1) & Hrj & Hnj).
    destruct (Z.lt_trichotomy i j) as [Hlt|[->|Hlt]]; [|done|].
    - by rewrite Hnj in Hr by lia.
    - by rewrite Hn in Hrj by lia. }
  unfold digi_entry, _digi_check_is_duplicated in E. rewrite Hdup in E. rewrite E.
  destruct (digi_path (settings_get_mycall set) i m) as [[|] m']; cbn [fst];
    unfold _digi_repeat_message; by eexists m', _, _.
Qed.

(** The frame the station is to send for [f], entry [i] of its path being the
    first that asks to be repeated. *)
Definition relayed (mycall : AX25Call) (i : Z) (f : Frame) : Frame :=
  mkFrame (f_dst f) (f_src f) (relay_path mycall (Z.to_nat i) (f_path f)) (f_info f).

(** C17: what the digipeater does with a message that is new to it: the first
    [WIDE] entry of the path that still asks for a hop is used up, the station's
    own call takes its place marked as repeated, an entry with the hops that are
    left goes behind it (over the next entry, if there is one), everything else
    stays, and after a wait of 150 ms this message, and nothing else, is sent, if
    the modem has room for it.
    There are two exceptions, in which nothing is sent: hops are left but the
    entry is the last of the eight a path can have, which the handler reports;
    and the message has no payload, which it does not. *)
Theorem digi_repeats now set m st i
    (Hw : path_wf m) (Hf : first_required m i)
    (Hnew : dup_scan CACHE_SIZE now (_digi_calc_hash m) (st_digi st) = false)
    (Hinfo : bytes (m_info m))
    (Hok : kk_ok (Kiss.timer_delay 150 (ax_ch (st_ax st))))
    (Hfit : kk_fits (Kiss.timer_delay 150 (ax_ch (st_ax st)))
      (frame_stream (frame_octets (relayed (settings_get_mycall set) i (msg_frame m))))) :
  let delayed := set_ax_ch (Kiss.timer_delay 150 (ax_ch (st_ax st))) (st_ax st) in
  exists sends m' st',
    digi_handle_aprs_message now set m st = (sends, m', st') /\
    sends = (ssid (rpt_at m i) =? 1) || (i <? 7) /\
    (if sends then
       msg_frame m' = relayed (settings_get_mycall set) i (msg_frame m) /\
       (if m_len m =? 0 then st_ax st' = delayed
        else sent_frame delayed (frame_octets (msg_frame m')) (st_ax st'))
     else st_ax st' = st_ax st).
Proof.
  intros delayed. pose proof (digi_path_spec (settings_get_mycall set) i m Hw Hf) as Hp.
  destruct (handle_fresh now set m st i Hf Hnew) as (m' & d & ser & E & Eh).
  pose proof (relay_entries (settings_get_mycall set) i m m' Hw Hf) as Hent.
  rewrite E in Hp. cbn zeta in Hp. destruct Hp as [Hsends Hp].
  eexists _, m', _. split; [exact Eh|].
  assert (Hs1 : (ssid (rpt_at m i) >? 1) = negb (ssid (rpt_at m i) =? 1)).
  { destruct Hf as (_ & Hr & _). unfold rpt_required in Hr. zbool.
    destruct (ssid (rpt_at m i) >? 1) eqn:E1, (ssid (rpt_at m i) =? 1) eqn:E2; zbool; lia. }
  rewrite Hs1, negb_involutive in Hsends. split; [exact Hsends|].
  destruct (fst (digi_path (settings_get_mycall set) i m)); [|done].
  destruct (Hp eq_refl) as (Hc & _ & _ & Hs & Hd & Hi & Hl). specialize (Hent E).
  assert (Hfr : msg_frame m' = relayed (settings_get_mycall set) i (msg_frame m))
    by (unfold msg_frame, relayed; by rewrite Hent, Hs, Hd, Hi, Hl).
  split; [done|]. cbn [st_ax]. destruct (m_len m =? 0) eqn:E0; zbool.
  - unfold ax25_sendMsg. rewrite Hl, E0, orb_true_r. done.
  - apply ax25_sendMsg_sent; [|by rewrite Hl|by rewrite Hi|exact Hok|by rewrite Hfr].
    destruct Hf as ((Hf0 & Hf1) & _). rewrite Hc. by case_match; lia.
Qed.

(** Stations that repeat a message one after the other, each as the one before
    sent it. *)
Fixpoint relay_chain (l : list ((nat -> Z) * Settings * Station S F)) (m : AX25Msg) : option AX25Msg :=
  match l with
  | [] => Some m
  | (now, set, st) :: l' =>
      match digi_handle_aprs_message now set m st with
      | (true, m', _) => relay_chain l' m'
      | _ => None
      end
  end.

(** C19: messages do not circulate for ever, whatever the stations' caches have
    forgotten: every repetition takes at least one hop off the path, the path
    stays within its eight entries, and so a message is repeated at most as often
    as its path asks for hops in total. *)
Theorem digi_hops_run_out (l : list ((nat -> Z) * Settings * Station S F)) m m'
    (Hw : path_wf m)
    (Hset : Forall (fun s => 0 <= ssid (settings_get_mycall (snd (fst s)))) l)
    (Hl : relay_chain l m = Some m') :
  path_wf m' /\ Z.of_nat (length l) + hops m' <= hops m.
Proof.
  revert m Hw Hl. induction l as [|[[now set] st] l IH]; intros m Hw Hl; cbn [relay_chain] in Hl.
  - injection Hl as ->. split; [done|]. cbn [length]. lia.
  - apply Forall_cons in Hset as [Hset0 Hset]. cbn [fst snd] in Hset0.
    destruct (handle_cases now set m st ltac:(destruct Hw as (_ & ? & _); lia))
      as [[E _]|(j & Hj & E)]; rewrite E in Hl; [done|].
    unfold digi_entry in Hl. destruct (_digi_check_is_duplicated now m (st_digi st)) as [[|] d]; [done|].
    destruct (digi_path (settings_get_mycall set) j m) as [[|] m1] eqn:Ep; [|done].
    destruct (digi_path_hops _ j m m1 Hw Hj Ep Hset0) as [Hw1 Hh].
    destruct (IH Hset m1 Hw1 Hl) as [Hw' Hb]. split; [done|]. cbn [length]. lia.
Qed.
End Repeat.

(** ** Two stations on ring buffers *)

Section Examples.
Import KFileFifo.

#[local] Instance ring_carrier : Carrier FIFOBuffer := {
  rxstart _ := false;
  modem_status _ := 0;
  clear_status ch := ch;
  run_irqs ch := ch;
  timer_delay _ ch := ch
}.

#[local] Instance idle_port : SerPort Serial := ser_port (fun _ => None) (fun _ => 0) 0.

Definition fresh_station : Station Serial FIFOBuffer :=
  mkStation digi_reset (ser_init 0) (ring_station 256).

(** BG5HHP>APRS,WIDE1-1,WIDE2-2:hi *)
Definition heard_msg : AX25Msg :=
  mkMsg (mkCall (chars "BG5HHP") 7) (mkCall (chars "APRS" ++ [0; 0]) 0)
    (mkCall (chars "WIDE1" ++ [0]) 1 :: mkCall (chars "WIDE2" ++ [0]) 2
      :: replicate 6 (mkCall (zeros 6) 0)) 2 0 3 0xF0 (chars "hi") 2.

Definition at_tick (t : Z) : nat -> Z := fun _ => t.

Definition first_run := digi_handle_aprs_message (at_tick 60000) sample_settings heard_msg fresh_station.

Lemma first_run_true : first_run = (true, snd (fst first_run), snd first_run).
Proof. rewrite (surjective_pairing first_run) at 1. rewrite (surjective_pairing (fst first_run)) at 1. by vm_compute. Qed.



Lemma heard_first : first_required heard_msg 0.
Proof. split_and!; [cbn; lia|cbn; lia|reflexivity|lia]. Qed.

Lemma heard_wf : path_wf heard_msg.
Proof. split_and!; [reflexivity|cbn; lia|cbn; lia|]. repeat (constructor; [cbn; lia|]). constructor. Qed.

(** It goes out as BG5HHP>APRS,NOCALL*,WIDE2-2. *)
Lemma digi_repeats_witness :
  exists m' st',
    first_run = (true, m', st') /\
    f_path (msg_frame m') = [(mkCall (chars "NOCALL") 0, true); (mkCall (chars "WIDE2" ++ [0]) 2, false)] /\
    sent_frame (ring_station 256) (frame_octets (msg_frame m')) (st_ax st').
Proof.
  destruct (digi_repeats (at_tick 60000) sample_settings heard_msg fresh_station 0)
    as (sends & m' & st' & E & -> & Ef & Es).
  - apply heard_wf.
  - apply heard_first.
  - reflexivity.
  - decide_closed.
  - apply (fifo_init_wf (zeros 256) 256); [lia|reflexivity].
  - vm_compute. congruence.
  - exists m', st'. split; [exact E|]. split; [rewrite Ef; reflexivity|exact Es].
Defined.

Lemma digi_hops_run_out_witness :
  hops heard_msg = 3 /\ Z.of_nat 1 + hops (snd (fst first_run)) <= 3.
Proof.
  split; [reflexivity|].
  apply (digi_hops_run_out [(at_tick 60000, sample_settings, fresh_station)] heard_msg
    (snd (fst first_run))).
  - apply heard_wf.
  - constructor; [vm_compute; congruence|constructor].
  - cbn [relay_chain]. fold first_run. by rewrite first_run_true.
Defined.
End Examples.
