(* ===== verification/Beacon.v ===== *)
(** * The beacon: [TinyAPRS/beacon.c]

    The stored beacon text, sent at start and then every [interval] seconds, or on
    demand.  [stack] is what the payload buffer holds before it is filled;
    [now 0], [now 1], [now 2] are the readings of the clock a poll makes: on entry,
    at the first poll, after sending. *)

From Stdlib Require Import ZArith Lia Bool List.
From stdpp Require Import prelude.
From S2P Require Import Prelude.
From S2P Require Import Libc.
From S2P Require Import Fifo.
From S2P Require Import KFile.
From S2P Require Import Ax25.
From S2P Require Import Ax25Tx.
From S2P Require Import Timer.
From S2P Require Import Ser.
From S2P Require Import Settings.
From S2P Require Import Kiss.

Open Scope Z_scope.

(** [lastSendTimeSeconds] and what the beacon works on. *)
Record Beacon (S F : Type) := mkBeacon {
  lastSendTimeSeconds : Z;
  bc_set : Settings;
  bc_ser : S;
  bc_ax : AX25Ctx F
}.

Arguments mkBeacon {S F}.
Arguments lastSendTimeSeconds {S F}. Arguments bc_set {S F}.
Arguments bc_ser {S F}. Arguments bc_ax {S F}.

Definition set_last {S F : Type} (v : Z) (b : Beacon S F) : Beacon S F :=
  mkBeacon v (bc_set b) (bc_ser b) (bc_ax b).

(** The path in memory order, as [ax25_sendVia] sees it. *)
Definition call_array (c : CallData) : list AX25Call := [destCall c; myCall c; path1 c; path2 c].

(** [if (call.call[0] > 0)] on a signed character. *)
Definition call_set (c : AX25Call) : bool := i8 (get (call c) 0) >? 0.

Section Beacon.
Context {S : Type} `{SerPort S} {F : Type} `{KFile F} `{Carrier F}.
Variable stack : list Z.
Implicit Types b : Beacon S F.

Definition beacon_init b : Beacon S F := set_last 0 b.

Definition beacon_send (payload : list Z) (payloadLen : Z) b : Beacon S F :=
  let calldata := settings_get_call_data (bc_set b) in
  let pathCount := 2 in
  let pathCount := if call_set (path1 calldata) then u8 (pathCount + 1) else pathCount in
  let pathCount := if call_set (path2 calldata) then u8 (pathCount + 1) else pathCount in
  let ax := ax25_sendVia (bc_ax b) (take (Z.to_nat pathCount) (call_array calldata))
    (take (Z.to_nat payloadLen) payload) in
  mkBeacon (lastSendTimeSeconds b) (bc_set b) (snd (kfile_putc 46 (bc_ser b))) ax.

Definition _send_fixed_text b : Beacon S F :=
  let '(payload, payloadLen) := settings_get_beacon_text stack 127 (bc_set b) in
  if payloadLen >? 0 then beacon_send payload payloadLen b else b.

(** [while (repeats > 0)]; while the main loop waits, the modem goes on. *)
Fixpoint beacon_send_test_message_immediate (repeats : nat) b : Beacon S F :=
  match repeats with
  | O => b
  | Datatypes.S repeats =>
      let b := _send_fixed_text b in
      let b := match repeats with
               | O => b
               | _ => mkBeacon (lastSendTimeSeconds b) (bc_set b) (bc_ser b)
                        (set_ax_ch (Kiss.timer_delay 2000 (ax_ch (bc_ax b))) (bc_ax b))
               end in
      beacon_send_test_message_immediate repeats b
  end.

Definition beacon_broadcast_poll (now : nat -> Z) b : Beacon S F :=
  let beaconSendInterval := interval (g_settings (bc_set b)) in
  if beaconSendInterval =? 0 then b
  else
    let currentTimestamp := timer_clock_seconds (now 0%nat) in
    if lastSendTimeSeconds b =? 0 then
      let b := set_last (timer_clock_seconds (now 1%nat)) b in
      if lastSendTimeSeconds b >? 0 then _send_fixed_text b else b
    else if i32 (currentTimestamp - lastSendTimeSeconds b) >? beaconSendInterval then
      set_last (timer_clock_seconds (now 2%nat)) (_send_fixed_text b)
    else b.
End Beacon.

(** ** What a beacon is *)

Section Sends.
Context {S : Type} `{SerLaws S} {F : Type} `{KSink F} `{Carrier F}.
Variable stack : list Z.
Hypothesis Hstack : length stack = 128%nat.
Implicit Types b : Beacon S F.

(** The digipeaters that are set, none to two of them. *)
Definition digipeaters (c : CallData) : list AX25Call :=
  (if call_set (path1 c) then [path1 c] else []) ++ (if call_set (path2 c) then [path2 c] else []).

(** The second only behind the first: else the code sends the wrong one, see
    [beacon_skips_second_path]. *)
Definition path_in_order (c : CallData) : Prop :=
  call_set (path2 c) = true -> call_set (path1 c) = true.

Definition beacon_frame (c : CallData) (text : list Z) : Frame :=
  mkFrame (destCall c) (myCall c) (map (fun a => (a, false)) (digipeaters c)) text.

(** The settings hold this text. *)
Definition holds_text (s : Settings) (text : list Z) : Prop :=
  let '(payload, n) := settings_get_beacon_text stack 127 s in
  n = Z.of_nat (length text) /\ take (Z.to_nat n) payload = text.

Lemma stored_holds_text text s :
  Forall (fun c => c <> 0) text -> (length text < 127)%nat -> nv_sized (nv s) ->
  holds_text (snd (settings_set_beacon_text text (Z.of_nat (length text)) s)) text.
Proof.
  intros Ht Hl Hn.
  pose proof (beacon_text_stored text stack 127 s Ht ltac:(lia) ltac:(lia) ltac:(lia) Hn) as Hst.
  unfold holds_text.
  destruct (settings_set_beacon_text text (Z.of_nat (length text)) s) as [w s'].
  cbn [snd]. destruct (settings_get_beacon_text stack 127 s') as [payload k].
  destruct Hst as (-> & Hk & Hp & _). split; [lia|]. rewrite Hp, Hk.
  rewrite firstn_all2; [done|lia].
Qed.

Lemma putc_dot (s : S) :
  sp_ok s -> sp_ok (snd (kfile_putc 46 s)) /\ sp_out (snd (kfile_putc 46 s)) = sp_out s ++ [46].
Proof.
  intros Hok. unfold kfile_putc.
  destruct (sp_write_out [u8 46] s Hok) as (E & Hok' & Ho); [repeat constructor; apply u8_range|].
  destruct (kfile_write s [u8 46]) as [n s']. cbn in *. by destruct (n =? 1).
Qed.

(** What [beacon_send] puts on the air. *)
Lemma beacon_send_frame b payload n text :
  take (Z.to_nat n) payload = text -> bytes text ->
  let c := settings_get_call_data (bc_set b) in
  path_in_order c ->
  sp_ok (bc_ser b) -> kk_ok (ax_ch (bc_ax b)) ->
  kk_fits (ax_ch (bc_ax b)) (frame_stream (frame_octets (beacon_frame c text))) ->
  let b' := beacon_send payload n b in
  sent_frame (bc_ax b) (frame_octets (beacon_frame c text)) (bc_ax b') /\
  sp_ok (bc_ser b') /\ sp_out (bc_ser b') = sp_out (bc_ser b) ++ [46] /\
  bc_set b' = bc_set b /\ lastSendTimeSeconds b' = lastSendTimeSeconds b.
Proof.
  intros Ht Hb c Hp Hok Hk Hfit. unfold beacon_send. fold c. rewrite Ht.
  cbn [bc_ax bc_ser bc_set lastSendTimeSeconds].
  destruct (putc_dot (bc_ser b) Hok). split_and!; [|done|done|done|done].
  pose proof (ax25_sendVia_refines (bc_ax b) (destCall c) (myCall c) (digipeaters c) text Hb Hk Hfit)
    as Hsent.
  unfold path_in_order, beacon_frame, digipeaters in *.
  destruct (call_set (path1 c)), (call_set (path2 c)); try exact Hsent. by specialize (Hp eq_refl).
Qed.

Lemma send_text b text :
  holds_text (bc_set b) text -> bytes text -> (0 < length text)%nat ->
  let c := settings_get_call_data (bc_set b) in
  path_in_order c ->
  sp_ok (bc_ser b) -> kk_ok (ax_ch (bc_ax b)) ->
  kk_fits (ax_ch (bc_ax b)) (frame_stream (frame_octets (beacon_frame c text))) ->
  let b' := _send_fixed_text stack b in
  sent_frame (bc_ax b) (frame_octets (beacon_frame c text)) (bc_ax b') /\
  sp_ok (bc_ser b') /\ sp_out (bc_ser b') = sp_out (bc_ser b) ++ [46] /\
  bc_set b' = bc_set b /\ lastSendTimeSeconds b' = lastSendTimeSeconds b.
Proof.
  intros Ht Hb Hl c Hp Hok Hk Hfit. unfold _send_fixed_text, holds_text in *.
  destruct (settings_get_beacon_text stack 127 (bc_set b)) as [payload n].
  destruct Ht as [-> Ht].
  assert ((Z.of_nat (length text) >? 0) = true) as -> by (apply Z.gtb_lt; lia).
  by apply beacon_send_frame.
Qed.

Lemma seconds_of_uptime t :
  0 <= t < 2147483648 -> timer_clock_seconds (i32 t) = t / 1000.
Proof.
  intros Ht. unfold timer_clock_seconds, ticks_to_ms. change (TIMER_TICKS_PER_SEC / 1000) with 1.
  rewrite i32_small, Z.quot_1_r by lia. apply Z.quot_div_nonneg; lia.
Qed.

(** Is a beacon due? [every] is the interval, [last] the second of the last
    one, 0 if there was none, [t0] and [t1] the milliseconds the station has
    been up when the poll first and then again looks at the clock. *)
Definition beacon_due (every last t0 t1 : Z) : bool :=
  (0 <? every) && (if last =? 0 then 1000 <=? t1 else every <? t0 / 1000 - last).

(** C34: the beacon does what it is for, in the first 24.8 days the station is
    up (its clock has 31 bits of milliseconds; what happens then is
    [beacon_silent_after_wrap]), with a stored text of 1 to 126 characters and
    a path whose second digipeater is set only if the first is: when it is
    switched on and either more whole seconds than the interval have gone by
    since the second of the last transmission, or nothing has been sent yet
    and the station has been up for a second, a poll, with room in the modem,
    sends exactly one frame, the stored text from this station to its
    destination along the digipeaters that are set, shows a dot to the host and
    notes the time; otherwise it does nothing at all. *)
Theorem beacon_sends_when_due (up : nat -> Z) b (text : list Z) (s : Settings)
    (Hup : forall i, 0 <= up i < 2147483648)
    (Hset : bc_set b = snd (settings_set_beacon_text text (Z.of_nat (length text)) s))
    (Hnv : nv_sized (nv s)) (Hb : bytes text) (Hnz : Forall (fun c => c <> 0) text)
    (Hlen : (0 < length text < 127)%nat)
    (Hevery : 0 <= interval (g_settings (bc_set b)))
    (Hpath : path_in_order (settings_get_call_data (bc_set b)))
    (Hok : sp_ok (bc_ser b)) (Hk : kk_ok (ax_ch (bc_ax b)))
    (Hfit : kk_fits (ax_ch (bc_ax b))
      (frame_stream (frame_octets (beacon_frame (settings_get_call_data (bc_set b)) text))))
    (Hlast : 0 <= lastSendTimeSeconds b <= up 0%nat / 1000) :
  let last := lastSendTimeSeconds b in
  let b' := beacon_broadcast_poll stack (fun i => i32 (up i)) b in
  if beacon_due (interval (g_settings (bc_set b))) last (up 0%nat) (up 1%nat)
  then sent_frame (bc_ax b)
         (frame_octets (beacon_frame (settings_get_call_data (bc_set b)) text)) (bc_ax b') /\
       sp_out (bc_ser b') = sp_out (bc_ser b) ++ [46] /\ bc_set b' = bc_set b /\
       lastSendTimeSeconds b' = (if last =? 0 then up 1%nat else up 2%nat) / 1000
  else b' = b.
Proof.
  cbn zeta. unfold beacon_broadcast_poll, beacon_due.
  rewrite !seconds_of_uptime by apply Hup.
  pose proof (stored_holds_text text s Hnz ltac:(lia) Hnv) as Ht. rewrite <- Hset in Ht.
  set (every := interval (g_settings (bc_set b))) in *.
  assert (E0 : (0 <? every) = negb (every =? 0)).
  { destruct (every =? 0) eqn:E; zbool; [by rewrite E|]. cbn [negb]. apply Z.ltb_lt. lia. }
  rewrite E0. destruct (every =? 0); cbn [negb andb]; [done|].
  destruct (lastSendTimeSeconds b =? 0) eqn:El; zbool.
  - cbn [lastSendTimeSeconds set_last].
    assert ((up 1%nat / 1000 >? 0) = (1000 <=? up 1%nat)) as ->.
    { specialize (Hup 1%nat). rewrite Z.gtb_ltb. apply eq_true_iff_eq. rewrite Z.ltb_lt, Z.leb_le. zlia. }
    destruct (1000 <=? up 1%nat) eqn:E1; zbool.
    + destruct (send_text (set_last (up 1%nat / 1000) b) text Ht Hb ltac:(lia) Hpath Hok Hk Hfit)
        as (A & _ & B & C & D). split_and!; done.
    + replace (up 1%nat / 1000) with 0 by (specialize (Hup 1%nat); zlia).
      destruct b; cbn in *; by subst.
  - rewrite i32_small by (specialize (Hup 0%nat); zlia). rewrite Z.gtb_ltb.
    destruct (every <? up 0%nat / 1000 - lastSendTimeSeconds b) eqn:E; [|done].
    destruct (send_text b text Ht Hb ltac:(lia) Hpath Hok Hk Hfit) as (A & _ & B & C & _).
    by split_and!.
Qed.

(** With the first digipeater of the path empty and the second set, the
    beacon goes out along an empty call instead of the second digipeater: the
    count of the entries set is taken for their positions. *)
Theorem beacon_skips_second_path b (payload : list Z)
    (Hp1 : call_set (path1 (settings_get_call_data (bc_set b))) = false)
    (Hp2 : call_set (path2 (settings_get_call_data (bc_set b))) = true)
    (Hb : bytes payload) (Hk : kk_ok (ax_ch (bc_ax b)))
    (Hfit : kk_fits (ax_ch (bc_ax b)) (frame_stream (frame_octets
      (let c := settings_get_call_data (bc_set b) in
       mkFrame (destCall c) (myCall c) [(path1 c, false)] payload)))) :
  let c := settings_get_call_data (bc_set b) in
  sent_frame (bc_ax b)
    (frame_octets (mkFrame (destCall c) (myCall c) [(path1 c, false)] payload))
    (bc_ax (beacon_send payload (Z.of_nat (length payload)) b)).
Proof.
  cbn zeta. unfold beacon_send. rewrite Hp1, Hp2. cbn [bc_ax].
  change (Z.to_nat (u8 (2 + 1))) with 3%nat. unfold call_array. cbn [take].
  rewrite Nat2Z.id, firstn_all.
  by apply (ax25_sendVia_refines (bc_ax b) _ _ [path1 (settings_get_call_data (bc_set b))] payload).
Qed.
End Sends.

(** ** After 25 days *)

Section Wrap.
Context {S : Type} `{SerPort S} {F : Type} `{KFile F} `{Carrier F}.
Variable stack : list Z.
Implicit Types b : Beacon S F.

Definition beacon_polls (l : list (nat -> Z)) b : Beacon S F :=
  fold_left (fun b now => beacon_broadcast_poll stack now b) l b.

(** The beacon falls silent for good. The clock counts milliseconds in a
    signed 32-bit integer, so its seconds never exceed 2,147,483 (24.8 days); once
    the last transmission was so late that adding the interval passes that mark,
    no poll ever sends again, whatever the clock reads after it has wrapped. *)
Theorem beacon_silent_after_wrap (l : list (nat -> Z)) b
    (Hclock : Forall (fun now => forall i, -2147483648 <= now i < 2147483648) l)
    (Hint : 0 <= interval (g_settings (bc_set b)) < 65536)
    (Hlast : 0 < lastSendTimeSeconds b <= 2147483)
    (Hlate : 2147483 <= lastSendTimeSeconds b + interval (g_settings (bc_set b))) :
  beacon_polls l b = b.
Proof.
  induction Hclock as [|now l Hnow _ IH]; [done|]. cbn [beacon_polls fold_left].
  assert (E : beacon_broadcast_poll stack now b = b); [|by rewrite E].
  unfold beacon_broadcast_poll. destruct (interval (g_settings (bc_set b)) =? 0); [done|].
  assert ((lastSendTimeSeconds b =? 0) = false) as -> by (apply Z.eqb_neq; lia).
  specialize (Hnow 0%nat).
  assert (Hs : -2147483 <= timer_clock_seconds (now 0%nat) <= 2147483).
  { unfold timer_clock_seconds, ticks_to_ms.
    change (TIMER_TICKS_PER_SEC / 1000) with 1. rewrite Z.quot_1_r.
    pose proof (Z.quot_le_mono (now 0%nat) 2147483647 1000 ltac:(lia) ltac:(lia)).
    pose proof (Z.quot_le_mono (-2147483648) (now 0%nat) 1000 ltac:(lia) ltac:(lia)).
    change (Z.quot 2147483647 1000) with 2147483 in *.
    change (Z.quot (-2147483648) 1000) with (-2147483) in *. lia. }
  rewrite i32_small by lia.
  assert ((timer_clock_seconds (now 0%nat) - lastSendTimeSeconds b
    >? interval (g_settings (bc_set b))) = false) as ->; [|done].
  rewrite Z.gtb_ltb. apply Z.ltb_ge. lia.
Qed.
End Wrap.

(** ** A station on a ring buffer *)

Section Examples.
Import KFileFifo.

#[local] Instance ring_carrier : Carrier FIFOBuffer := {
  rxstart _ := false;
  modem_status _ := 0;
  clear_status ch := ch;
  run_irqs ch := ch;
  timer_delay _ ch := ch
}.

#[local] Instance idle_port : SerPort Serial := ser_port (fun _ => None) (fun _ => 0) 0.
#[local] Instance idle_laws : SerLaws Serial := ser_laws (fun _ => None) (fun _ => 0) 0.

Definition stored_hi : Settings := snd (settings_set_beacon_text [72; 105] 2 sample_settings).

Definition station_at (last : Z) (s : Settings) : Beacon Serial FIFOBuffer :=
  mkBeacon last s (ser_init 0) (ring_station 256).

(** Every 20 minutes; last sent at 100 s, polled at 1301 s. *)
Lemma beacon_sends_when_due_witness :
  let b := station_at 100 stored_hi in
  let b' := beacon_broadcast_poll (zeros 128) (fun _ => i32 1301999) b in
  sent_frame (bc_ax b) (frame_octets (beacon_frame default_calldata [72; 105])) (bc_ax b') /\
  lastSendTimeSeconds b' = 1301.
Proof.
  destruct (beacon_sends_when_due (zeros 128) eq_refl (fun _ => 1301999) (station_at 100 stored_hi)
    [72; 105] sample_settings) as (A & _ & _ & B).
  - intros i. lia.
  - reflexivity.
  - by split_and!.
  - decide_closed.
  - repeat (constructor; [congruence|]). constructor.
  - cbn. lia.
  - vm_compute. congruence.
  - intros _. reflexivity.
  - apply ser_init_wf.
  - apply (fifo_init_wf (zeros 256) 256); [lia|reflexivity].
  - vm_compute. congruence.
  - vm_compute. split; congruence.
  - split; [exact A|exact B].
Defined.

(** Only the second digipeater set. *)
Definition second_only : Settings :=
  settings_set_call_data
    (mkCallData (destCall default_calldata) (myCall default_calldata) (mkCall (zeros 6) 0)
      (path2 default_calldata)) sample_settings.

Lemma beacon_skips_second_path_witness :
  let b := station_at 0 second_only in
  let c := settings_get_call_data second_only in
  path2 c = path2 default_calldata /\
  sent_frame (bc_ax b)
    (frame_octets (mkFrame (destCall c) (myCall c) [(mkCall (zeros 6) 0, false)] [72; 105]))
    (bc_ax (beacon_send [72; 105] 2 b)).
Proof.
  split; [reflexivity|].
  apply (beacon_skips_second_path (station_at 0 second_only) [72; 105]).
  - reflexivity.
  - reflexivity.
  - decide_closed.
  - apply (fifo_init_wf (zeros 256) 256); [lia|reflexivity].
  - vm_compute. congruence.
Defined.

(** Sent 100 seconds before the clock wraps; polled right after, and 24 days later. *)
Lemma beacon_silent_after_wrap_witness :
  beacon_polls (zeros 128) [fun _ => -2147483648; fun _ => -1; fun _ => 2147483647]
    (station_at 2147383 stored_hi) = station_at 2147383 stored_hi.
Proof.
  apply (beacon_silent_after_wrap (zeros 128)).
  - repeat (constructor; [intros i; lia|]). constructor.
  - vm_compute. split; congruence.
  - cbn. lia.
  - vm_compute. congruence.
Defined.
End Examples.
