(* ===== verification/Console.v ===== *)
(** * The console: [TinyAPRS/console.c]

    Lines typed by the user: queries, AT commands with a registry of handlers,
    and the commands of other TNCs.  The command is edited in place in the
    reader's buffer, so a pointer into it is an offset.  A handler of another
    file ([cmd_switch_mode] of main.c) is [H_external], its action a parameter;
    so are the free memory, the build number and what is on the stack where a
    buffer is not initialised.  [rest] is the state of the other components. *)

From Stdlib Require Import ZArith Lia Bool List.
From Stdlib Require Import String.
From stdpp Require Import prelude.
From S2P Require Import Prelude.
From S2P Require Import Libc.
From S2P Require Import Fifo.
From S2P Require Import KFile.
From S2P Require Import Formatwr.
From S2P Require Import Ax25.
From S2P Require Import Ax25Tx.
From S2P Require Import Ax25Decode.
From S2P Require Import Utils.
From S2P Require Import Ser.
From S2P Require Import Settings.
From S2P Require Import Reader.
From S2P Require Import Kiss.
From S2P Require Import Beacon.

Open Scope Z_scope.

(** ** The registry *)

Definition CONSOLE_MAX_COMMAND : Z := 12.

Inductive Handler :=
  | H_mycall | H_path | H_reset | H_symbol | H_beacon_interval | H_beacon_text
  | H_external (i : nat).

#[export] Instance Handler_eq_dec : EqDecision Handler.
Proof. solve_decision. Defined.

(** A null pointer is [None]. *)
Record COMMAND_ENTRY := mkCmd { cmdName : option (list Z); cmdHandler : option Handler }.

Definition no_command : COMMAND_ENTRY := mkCmd None None.

(** [cmdEntries] and [cmdCount]. *)
Record Registry := mkRegistry { cmdEntries : list COMMAND_ENTRY; cmdCount : Z }.

Definition registry_init : Registry :=
  mkRegistry (replicate (Z.to_nat CONSOLE_MAX_COMMAND) no_command) 0.

Definition console_add_command (cmd : list Z) (handler : Handler) (r : Registry) : Registry :=
  if cmdCount r >=? CONSOLE_MAX_COMMAND then r
  else mkRegistry (<[Z.to_nat (cmdCount r) := mkCmd (Some cmd) (Some handler)]> (cmdEntries r))
         (u8 (cmdCount r + 1)).

Fixpoint lookup_entries (command : list Z) (l : list COMMAND_ENTRY) : option Handler :=
  match l with
  | [] => None
  | e :: l' =>
      match cmdName e with
      | None => None
      | Some name => if strcasecmp command name =? 0 then cmdHandler e else lookup_entries command l'
      end
  end.

Definition console_lookup_command (command : list Z) (r : Registry) : option Handler :=
  lookup_entries command (cmdEntries r).

(** ** State *)

(** What the console works on; [cn_reset]: [soft_reset] was called. *)
Record Console (S F X : Type) := mkConsole {
  cn_reader : SerialReader S;
  cn_ax : AX25Ctx F;
  cn_set : Settings;
  cn_last : Z;
  cn_reset : bool;
  cn_cmds : Registry;
  cn_rest : X
}.

Arguments mkConsole {S F X}.
Arguments cn_reader {S F X}. Arguments cn_ax {S F X}. Arguments cn_set {S F X}.
Arguments cn_last {S F X}. Arguments cn_reset {S F X}. Arguments cn_cmds {S F X}.
Arguments cn_rest {S F X}.

Definition set_cn_reader {S F X : Type} (v : SerialReader S) (c : Console S F X) : Console S F X :=
  mkConsole v (cn_ax c) (cn_set c) (cn_last c) (cn_reset c) (cn_cmds c) (cn_rest c).
Definition set_cn_ax {S F X : Type} (v : AX25Ctx F) (c : Console S F X) : Console S F X :=
  mkConsole (cn_reader c) v (cn_set c) (cn_last c) (cn_reset c) (cn_cmds c) (cn_rest c).
Definition set_cn_set {S F X : Type} (v : Settings) (c : Console S F X) : Console S F X :=
  mkConsole (cn_reader c) (cn_ax c) v (cn_last c) (cn_reset c) (cn_cmds c) (cn_rest c).
Definition set_cn_reset {S F X : Type} (v : bool) (c : Console S F X) : Console S F X :=
  mkConsole (cn_reader c) (cn_ax c) (cn_set c) (cn_last c) v (cn_cmds c) (cn_rest c).
Definition set_cn_cmds {S F X : Type} (v : Registry) (c : Console S F X) : Console S F X :=
  mkConsole (cn_reader c) (cn_ax c) (cn_set c) (cn_last c) (cn_reset c) v (cn_rest c).
Definition set_cn_rest {S F X : Type} (v : X) (c : Console S F X) : Console S F X :=
  mkConsole (cn_reader c) (cn_ax c) (cn_set c) (cn_last c) (cn_reset c) (cn_cmds c) v.

(** The serial port, and the buffer of the reader. *)
Definition cn_ser {S F X : Type} (c : Console S F X) : S := sr_ser (cn_reader c).
Definition cn_buf {S F X : Type} (c : Console S F X) : list Z := sr_buf (cn_reader c).
Definition set_cn_ser {S F X : Type} (v : S) (c : Console S F X) : Console S F X :=
  set_cn_reader (set_sr_ser v (cn_reader c)) c.
Definition set_cn_buf {S F X : Type} (v : list Z) (c : Console S F X) : Console S F X :=
  set_cn_reader (set_sr_buf v (cn_reader c)) c.

(** What the beacon sees of it. *)
Definition beacon_of {S F X : Type} (c : Console S F X) : Beacon S F :=
  mkBeacon (cn_last c) (cn_set c) (cn_ser c) (cn_ax c).
Definition put_beacon {S F X : Type} (b : Beacon S F) (c : Console S F X) : Console S F X :=
  mkConsole (set_sr_ser (bc_ser b) (cn_reader c)) (bc_ax b) (bc_set b) (lastSendTimeSeconds b)
    (cn_reset c) (cn_cmds c) (cn_rest c).

(** ** Texts *)

Definition BANNER : list Z :=
  crlf ++ chars "TinyAPRS Firmware 1.2-SNAPSHOT (f%da%d-%d) BG5HHP" ++ crlf.
Definition RESTRICTIONS : list Z := chars "Non-Commercial Use Only, All Rights Reserved." ++ crlf.
Definition COPYRIGHTS : list Z :=
  chars "Copyright 2015-2017, BG5HHP(shawn.chain@gmail.com)" ++ crlf.

(** [CONFIG_AFSK_FILTER] and [CONFIG_AFSK_ADC_USE_EXTERNAL_AREF] as numbers. *)
Definition CONFIG_AFSK_FILTER_ID : Z := 1.
Definition CONFIG_AFSK_ADC_USE_EXTERNAL_AREF : Z := 0.

(** A [uint32_t] argument is two [int]s to the formatter, the low one first. *)
Definition word32 (v : Z) : list arg := [AInt (u16 v); AInt (u16 (Z.shiftr v 16))].

Definition STAT_FORMAT : list Z := chars "RX:%d, TX:%d, ERR: %d" ++ crlf.
Definition stat_args (rx_ok tx_ok rx_err : Z) : list arg :=
  word32 rx_ok ++ word32 tx_ok ++ word32 rx_err.

(** ** Commands *)

Section Console.
Context {S : Type} `{SerPort S} {F : Type} `{KFile F} `{Carrier F} {X : Type}.
Implicit Types c : Console S F X.

(** [freeRam()], the build number, the uninitialised buffers of the beacon (128
    bytes) and of the text command (64). *)
Variable freeRam : Z.
Variable VERS_BUILD : Z.
Variable stack : list Z.
Variable stack64 : list Z.
(** Handlers of other files. *)
Variable external : nat -> Z -> Z -> Console S F X -> bool * Console S F X.

Definition cn_printf (fmt : list Z) (args : list arg) c : Console S F X :=
  set_cn_ser (snd (kfile_printf_P (cn_ser c) fmt args)) c.

Definition cn_flush c : Console S F X := set_cn_ser (snd (kfile_flush (cn_ser c))) c.

(** What the pointer [value] points to. *)
Definition pointed (value : Z) c : list Z := drop (Z.to_nat value) (cn_buf c).

Definition cmd_info (len : Z) c : bool * Console S F X :=
  let freemem := freeRam in
  let c := cn_printf BANNER
    [AInt CONFIG_AFSK_FILTER_ID; AInt CONFIG_AFSK_ADC_USE_EXTERNAL_AREF; AInt VERS_BUILD] c in
  let c :=
    if len =? 0 then c
    else
      let myCall := settings_get_mycall (cn_set c) in
      let c := cn_printf (chars "MyCall: %s" ++ crlf) [AStr (Some (ax25call_to_string myCall))] c in
      let c := cn_printf (chars "Mode: %d" ++ crlf) [AInt (run_mode (g_settings (cn_set c)))] c in
      let c := cn_printf STAT_FORMAT
        (stat_args (rx_ok (cn_ax c)) (tx_ok (cn_ax c)) (rx_err (cn_ax c))) c in
      cn_printf (chars "Free RAM: %u" ++ crlf) [AInt freemem] c in
  (true, cn_flush c).

(** The lines of [cmd_help]. *)
Definition help_lines : list (list Z) :=
  let tab := [9] in
  [crlf ++ chars "AT commands supported" ++ crlf;
   chars "-----------------------------------------------------------" ++ crlf;
   chars "AT+CALL=[CALLSIGN-SSID]" ++ tab ++ tab ++ chars ";Set my callsign" ++ crlf;
   chars "AT+PATH=[WIDE1-1,WIDE2-2]" ++ tab ++ chars ";Set PATH, max 2 allowed" ++ crlf;
   chars "AT+SYMBOL=[SYMBOL_TABLE/IDX]" ++ tab ++ chars ";Set beacon symbol" ++ crlf;
   chars "AT+BEACON=[45]" ++ tab ++ tab ++ tab ++ chars ";Set beacon interval, 0 to disable " ++ crlf;
   chars "AT+TEXT=[!3011.54N/12007.35E>]" ++ tab ++ chars ";Set beacon text " ++ crlf;
   chars "AT+MODE=[0|1|2]" ++ tab ++ tab ++ tab ++ chars ";Set device run mode, see manual" ++ crlf;
   chars "AT+KISS=[1]" ++ tab ++ tab ++ tab ++ chars ";Enter kiss mode" ++ crlf;
   chars "??" ++ tab ++ tab ++ tab ++ tab ++ chars ";Display this help messages" ++ crlf;
   crlf; RESTRICTIONS; COPYRIGHTS].

Definition cmd_help c : bool * Console S F X :=
  (true, fold_left (fun c l => cn_printf l [] c) help_lines c).

Definition cmd_settings_mycall (value valueLen : Z) c : bool * Console S F X :=
  let calldata := settings_get_call_data (cn_set c) in
  let '(calldata, c) :=
    if valueLen >? 0 then
      let calldata := mkCallData (destCall calldata) (ax25call_from_string (pointed value c))
        (path1 calldata) (path2 calldata) in
      (calldata, set_cn_set (settings_set_call_data calldata (cn_set c)) c)
    else (calldata, c) in
  (true, cn_printf (chars "My Call: %s" ++ crlf)
    [AStr (Some (ax25call_to_string (myCall calldata)))] c).

(** The part between the braces of [if (valueLen > 0)]. *)
Definition path_set (value : Z) (calldata : CallData) c : CallData * Console S F X :=
  match strtok value (cn_buf c) with
  | (None, buf, _) => (calldata, set_cn_buf buf c)
  | (Some p1, buf, save) =>
      let path1Len := u8 (Z.of_nat (strnlen (drop (Z.to_nat p1) buf))) in
      let '(t, buf, _) := strtok save buf in
      let c := set_cn_buf buf c in
      let path2Len := match t with
                      | Some p2 => u8 (Z.of_nat (strnlen (drop (Z.to_nat p2) buf)))
                      | None => 0
                      end in
      if path1Len >? 0 then
        let p1call := ax25call_from_string (pointed p1 c) in
        let p2call :=
          match t with
          | Some p2 => if path2Len >? 0 then ax25call_from_string (pointed p2 c)
                       else mkCall (zeros 6) 0
          | None => mkCall (zeros 6) 0
          end in
        let calldata := mkCallData (destCall calldata) (myCall calldata) p1call p2call in
        (calldata, set_cn_set (settings_set_call_data calldata (cn_set c)) c)
      else (calldata, c)
  end.

Definition cmd_settings_path (value valueLen : Z) c : bool * Console S F X :=
  let calldata := settings_get_call_data (cn_set c) in
  let '(calldata, c) := if valueLen >? 0 then path_set value calldata c else (calldata, c) in
  (true, cn_printf (chars "PATH: %s,%s" ++ crlf)
    [AStr (Some (ax25call_to_string (path1 calldata)));
     AStr (Some (ax25call_to_string (path2 calldata)))] c).

(** [soft_reset] does not return. *)
Definition cmd_settings_reset (value len : Z) c : bool * Console S F X :=
  let v := get (cn_buf c) value in
  if (len >? 0) && ((v =? 49) || (v =? 50)) then
    let c := if v =? 50 then
               cn_printf (chars "Settings cleared, ") [] (set_cn_set (settings_clear (cn_set c)) c)
             else c in
    (true, set_cn_reset true (cn_printf (chars "Restarting..." ++ crlf) [] c))
  else (true, c).

Definition cmd_settings_symbol (value len : Z) c : bool * Console S F X :=
  let c :=
    if len >=? 2 then
      let s := settings_set_params (Some SETTINGS_SYMBOL) (pointed value c) (cn_set c) in
      set_cn_set (snd (settings_save s)) c
    else c in
  let '(symbol, _) := settings_get_params (Some SETTINGS_SYMBOL) 2 (cn_set c) in
  (true, cn_printf (chars "SYMBOL: %c%c" ++ crlf) [AInt (get symbol 0); AInt (get symbol 1)] c).

Definition cmd_settings_beacon_text (value valueLen : Z) c : bool * Console S F X :=
  let c :=
    if valueLen >? 0 then
      set_cn_set (snd (settings_set_beacon_text (pointed value c) valueLen (cn_set c))) c
    else c in
  let '(buf, _) := settings_get_beacon_text stack64 64 (cn_set c) in
  let c := cn_printf ([62; 37; 115; 10; 13]) [AStr (Some buf)] c in
  let free := freeRam in
  (true, cn_printf (chars "free mem: %d" ++ [10; 13]) [AInt free] c).

Definition cmd_settings_beacon_interval (value valueLen : Z) c : bool * Console S F X :=
  let c :=
    if valueLen >? 0 then
      let i := Z.land (atoi (pointed value c)) 0xffff in
      let s := settings_set_params (Some SETTINGS_BEACON_INTERVAL)
        [u8 i; u8 (Z.shiftr i 8)] (cn_set c) in
      set_cn_set (snd (settings_save s)) c
    else c in
  let '(v, _) := settings_get_params (Some SETTINGS_BEACON_INTERVAL) 2 (cn_set c) in
  let i := Z.lor (get v 0) (Z.shiftl (get v 1) 8) in
  (true, cn_printf (chars "Beacon Interval: %d seconds" ++ crlf) [AInt i] c).

Definition DEFAULT_REPEATS : Z := 3.

Definition cmd_test_send (command len : Z) c : bool * Console S F X :=
  let repeats := if len >? 0 then u8 (atoi (pointed command c)) else 0 in
  let repeats := if (repeats =? 0) || (repeats >? 99) then DEFAULT_REPEATS else repeats in
  let c := cn_printf (chars "Sending %d test packet" ++ crlf) [AInt repeats] c in
  let c := put_beacon (beacon_send_test_message_immediate stack (Z.to_nat repeats) (beacon_of c)) c in
  (true, cn_printf (chars "Done!" ++ crlf) [AInt repeats] c).

Definition run_handler (h : Handler) (value valueLen : Z) c : bool * Console S F X :=
  match h with
  | H_mycall => cmd_settings_mycall value valueLen c
  | H_path => cmd_settings_path value valueLen c
  | H_reset => cmd_settings_reset value valueLen c
  | H_symbol => cmd_settings_symbol value valueLen c
  | H_beacon_interval => cmd_settings_beacon_interval value valueLen c
  | H_beacon_text => cmd_settings_beacon_text value valueLen c
  | H_external i => external i value valueLen c
  end.

(** ** The parser *)

(** The position of the first equals sign from [i] on; [n] characters are left. *)
Fixpoint find_eq (n : nat) (i : Z) (buf : list Z) : option Z :=
  match n with
  | O => None
  | Datatypes.S n' => if get buf i =? 61 then Some i else find_eq n' (i + 1) buf
  end.

Definition is_at (cmd : list Z) (commandLen : Z) : bool :=
  (commandLen >=? 6) && ((get cmd 0 =? 65) || (get cmd 0 =? 97))
  && ((get cmd 1 =? 84) || (get cmd 1 =? 116)) && (get cmd 2 =? 43).

(** [key], [value], [valueLen] and the buffer; [None]: both pointers are null. *)
Definition split_command (commandLen : Z) (buf : list Z) : option (Z * Z * Z) * list Z :=
  if is_at buf commandLen then
    match find_eq (Z.to_nat (commandLen - 3)) 3 buf with
    | Some t =>
        let buf := upd buf t 0 in
        (Some (3, t + 1, u8 (Z.of_nat (strnlen (drop (Z.to_nat (t + 1)) buf)))), buf)
    | None => (None, buf)
    end
  else if (commandLen >=? 10) && (strcasecmp buf (chars "AMODE KISS") =? 0) then
    (Some (6, 0, 1), upd (upd (upd buf 10 0) 0 49) 1 0)
  else if (commandLen >=? 7) && (strcasecmp buf (chars "KISS ON") =? 0) then
    (Some (0, 5, 1), upd (upd (upd buf 4 0) 5 49) 6 0)
  else (None, buf).

(** The command is at the start of the reader's buffer. *)
Definition console_parse_command (commandLen : Z) c : Console S F X :=
  let buf := cn_buf c in
  if (commandLen >? 0) && (get buf 0 =? 33) then snd (cmd_test_send 1 (commandLen - 1) c)
  else if (commandLen =? 1) && (get buf 0 =? 63) then snd (cmd_info 1 c)
  else if (commandLen =? 2) && (get buf 0 =? 63) && (get buf 1 =? 63) then
    snd (cmd_help (snd (cmd_info 1 c)))
  else
    match split_command commandLen buf with
    | (None, buf) =>
        cn_printf (chars "INVALID CMD: %.*s" ++ crlf) [AInt commandLen; AStr (Some buf)]
          (set_cn_buf buf c)
    | (Some (key, value, valueLen), buf) =>
        let buf := strupr key buf in
        let c := set_cn_buf buf c in
        match console_lookup_command (drop (Z.to_nat key) buf) (cn_cmds c) with
        | Some h =>
            let '(ok, c) := run_handler h value valueLen c in
            if ok then c else cn_printf (chars "INVALID CMD VALUE" ++ crlf) [] c
        | None =>
            cn_printf (chars "UNKNOWN CMD: %.*s" ++ crlf) [AInt commandLen; AStr (Some buf)] c
        end
    end.

(** ** Initialisation and polling *)

Definition console_commands (r : Registry) : Registry :=
  let r := console_add_command (chars "CALL") H_mycall r in
  let r := console_add_command (chars "PATH") H_path r in
  let r := console_add_command (chars "RESET") H_reset r in
  let r := console_add_command (chars "SYMBOL") H_symbol r in
  let r := console_add_command (chars "BEACON") H_beacon_interval r in
  console_add_command (chars "TEXT") H_beacon_text r.

Definition console_init c : Console S F X :=
  snd (cmd_info 0 (set_cn_cmds (console_commands registry_init) c)).

Definition console_poll c : Console S F X :=
  let '(n, r) := serialreader_readline (cn_reader c) in
  let c := set_cn_reader r c in
  if n >? 0 then console_parse_command (dataLen (cn_reader c)) c else c.
End Console.

(** ** Formats *)

Lemma fw_lit lit n fmt args :
  Forall (fun x => x <> 37) lit -> fw_loop (length lit + n) (lit ++ fmt) args = lit ++ fw_loop n fmt args.
Proof.
  intros Hl. induction Hl as [|x lit Hx Hl IH]; [done|]. cbn [length app Nat.add].
  by rewrite fw_loop_char, IH.
Qed.

Lemma fw_s n fmt s args :
  fw_loop (Datatypes.S n) (37 :: 115 :: fmt) (AStr (Some s) :: args)
  = fw_string (Z.to_nat 10000) s ++ fw_loop n fmt args.
Proof. by rewrite fw_loop_percent, fw_spec_s. Qed.

(** An [int] in decimal. *)
Definition decimal (v : Z) : list Z := formatted (chars "%d") [AInt v].

Lemma fw_d n fmt v args :
  fw_loop (Datatypes.S n) (37 :: 100 :: fmt) (AInt v :: args) = decimal v ++ fw_loop n fmt args.
Proof.
  rewrite fw_loop_percent by done. unfold decimal. change (chars "%d") with [37; 100].
  unfold formatted. cbn [length]. rewrite fw_loop_percent by done.
  assert (E : forall rest args, fw_spec (100 :: rest) (AInt v :: args)
    = (fst (fst (fw_spec [100] [AInt v])), rest, args)).
  { intros r ar. unfold fw_spec. cbn -[i16 u32 fw_integral fw_emit]. done. }
  rewrite (E fmt args), (E [] []). cbn [fst fw_loop]. by rewrite app_nil_r.
Qed.

Lemma fw_end n lit args :
  (length lit < n)%nat -> Forall (fun x => x <> 37) lit -> fw_loop n lit args = lit.
Proof. apply fw_loop_plain. Qed.

(** A text of literals and conversions. *)
Inductive piece := PLit (l : list Z) | PStr (s : list Z) | PInt (v : Z) | PCut (n : Z) (s : list Z).

Definition piece_fmt (p : piece) : list Z :=
  match p with PLit l => l | PStr _ => [37; 115] | PInt _ => [37; 100] | PCut _ _ => [37; 46; 42; 115] end.
Definition piece_args (p : piece) : list arg :=
  match p with
  | PLit _ => []
  | PStr s => [AStr (Some s)]
  | PInt v => [AInt v]
  | PCut n s => [AInt n; AStr (Some s)]
  end.
Definition piece_out (p : piece) : list Z :=
  match p with
  | PLit l => l
  | PStr s => fw_string (Z.to_nat 10000) s
  | PInt v => decimal v
  | PCut n s => fw_string (Z.to_nat (if n <? 0 then 10000 else n)) s
  end.
Definition piece_ok (p : piece) : Prop :=
  match p with PLit l => Forall (fun x => x <> 37) l | _ => True end.

Lemma fw_pieces ps : forall n more,
  Forall piece_ok ps -> (length (concat (map piece_fmt ps)) < n)%nat ->
  fw_loop n (concat (map piece_fmt ps)) (concat (map piece_args ps) ++ more)
  = concat (map piece_out ps).
Proof.
  induction ps as [|p ps IH]; intros n more Hok Hn; cbn [map concat] in *.
  - by destruct n.
  - apply Forall_cons in Hok as [Hp Hok]. rewrite length_app in Hn. rewrite <- app_assoc.
    destruct p as [l|s|v|k s]; cbn [piece_fmt piece_args piece_out piece_ok app] in *.
    + replace n with (length l + (n - length l))%nat by lia.
      rewrite fw_lit, IH by (done || lia). done.
    + cbn [length] in Hn. destruct n as [|n]; [lia|]. rewrite fw_s, IH by (done || lia). done.
    + cbn [length] in Hn. destruct n as [|n]; [lia|]. rewrite fw_d, IH by (done || lia). done.
    + cbn [length] in Hn. destruct n as [|n]; [lia|].
      rewrite fw_loop_percent, fw_spec_star_s, IH by (done || lia). done.
Qed.

Lemma formatted_pieces ps more :
  Forall piece_ok ps ->
  formatted (concat (map piece_fmt ps)) (concat (map piece_args ps) ++ more)
  = concat (map piece_out ps).
Proof. intros Hok. apply fw_pieces; [done|lia]. Qed.

Lemma fw_string_cstr s : forall n, (length s <= n)%nat -> fw_string n s = cstr s.
Proof.
  induction s as [|x s IH]; intros [|n] Hn; cbn in *; try done; try lia.
  destruct (x =? 0); [done|]. cbn. f_equal. apply IH. lia.
Qed.

Lemma fw_string_end s rest : forall n,
  Forall (fun x => x <> 0) s -> (length s <= n)%nat -> fw_string n (s ++ 0 :: rest) = s.
Proof.
  induction s as [|x s IH]; intros n Hs Hn; [by destruct n|].
  apply Forall_cons in Hs as [Hx Hs]. destruct n as [|n]; [cbn in Hn; lia|].
  cbn. apply Z.eqb_neq in Hx. rewrite Hx. f_equal. apply IH; [done|cbn in Hn; lia].
Qed.

Lemma cstr_app s rest : Forall (fun x => x <> 0) s -> cstr (s ++ 0 :: rest) = s.
Proof.
  intros Hs. unfold cstr. by rewrite strnlen_app_0, take_app_length.
Qed.

(** The text of a call. *)
Definition call_str (a : AX25Call) : list Z := cstr (ax25call_to_string a).

Lemma call_str_out a : is_byte (ssid a) -> fw_string (Z.to_nat 10000) (ax25call_to_string a) = call_str a.
Proof.
  intros Hb. apply fw_string_cstr. pose proof (to_string_length a Hb).
  assert (11 <= Z.to_nat 10000)%nat by lia. destruct (ssid a <? 128); lia.
Qed.

(** ** The statistics *)

(** The statistics line misreports: while fewer than 2^15 frames were received
    and sent, it shows the frames received, always 0 for those sent, and the
    frames sent for the errors, whatever the errors are; the counters are 32 bits
    wide but printed as 16-bit arguments. *)
Theorem console_stat_line (rx_ok tx_ok rx_err : Z)
    (Hrx : 0 <= rx_ok < 32768) (Htx : 0 <= tx_ok < 32768) :
  formatted STAT_FORMAT (stat_args rx_ok tx_ok rx_err)
  = chars "RX:" ++ decimal rx_ok ++ chars ", TX:0, ERR: " ++ decimal tx_ok ++ crlf.
Proof.
  pose proof (formatted_pieces
    [PLit (chars "RX:"); PInt rx_ok; PLit (chars ", TX:"); PInt 0; PLit (chars ", ERR: ");
     PInt tx_ok; PLit crlf] (AInt (u16 (Z.shiftr tx_ok 16)) :: word32 rx_err)) as E.
  cbn [concat map piece_fmt piece_args piece_out app] in E.
  assert (Hargs : stat_args rx_ok tx_ok rx_err
    = [AInt rx_ok; AInt 0; AInt tx_ok] ++ AInt (u16 (Z.shiftr tx_ok 16)) :: word32 rx_err).
  { unfold stat_args, word32. rewrite !Z.shiftr_div_pow2 by lia.
    rewrite (u16_small rx_ok), (u16_small tx_ok) by lia.
    rewrite (Z.div_small rx_ok) by lia. done. }
  rewrite Hargs. cbn [app]. unfold STAT_FORMAT.
  etransitivity; [apply E; repeat constructor; decide_closed|]. done.
Qed.

Lemma console_stat_line_witness :
  formatted STAT_FORMAT (stat_args 5 7 2) = chars "RX:5, TX:0, ERR: 7" ++ crlf.
Proof. apply (console_stat_line 5 7 2); lia. Defined.

(** ** The registry *)

Lemma strcasecmp_end k rest : forall name,
  Forall (fun x => x <> 0) k -> strcasecmp (k ++ 0 :: rest) name = strcasecmp k name.
Proof.
  induction k as [|x k IH]; intros name Hk; cbn [app strcasecmp].
  - change (tolower 0) with 0. destruct (0 =? tolower (hd 0 name)) eqn:E; zbool; cbn; lia.
  - apply Forall_cons in Hk as [Hx Hk]. by rewrite IH.
Qed.

Lemma lookup_end k rest r :
  Forall (fun x => x <> 0) k -> console_lookup_command (k ++ 0 :: rest) r = console_lookup_command k r.
Proof.
  intros Hk. unfold console_lookup_command.
  induction (cmdEntries r) as [|[[name|] h] l IH]; cbn [lookup_entries cmdName]; [done| |done].
  by rewrite strcasecmp_end, IH.
Qed.

(** The entries in use come first. *)
Definition registry_wf (r : Registry) : Prop :=
  length (cmdEntries r) = Z.to_nat CONSOLE_MAX_COMMAND /\
  0 <= cmdCount r <= CONSOLE_MAX_COMMAND /\
  drop (Z.to_nat (cmdCount r)) (cmdEntries r)
  = replicate (Z.to_nat (CONSOLE_MAX_COMMAND - cmdCount r)) no_command /\
  Forall (fun e => is_Some (cmdName e) /\ is_Some (cmdHandler e))
    (take (Z.to_nat (cmdCount r)) (cmdEntries r)).

Lemma lookup_entries_app command used more :
  Forall (fun e => is_Some (cmdName e) /\ is_Some (cmdHandler e)) used ->
  lookup_entries command (used ++ more)
  = match lookup_entries command used with
    | Some h => Some h
    | None => lookup_entries command more
    end.
Proof.
  intros Hu. induction Hu as [|e used [[name Hn] [h Hh]] Hu IH]; [done|].
  cbn [app lookup_entries]. rewrite Hn, Hh, IH. by destruct (strcasecmp command name =? 0).
Qed.

Lemma lookup_unused command n : lookup_entries command (replicate n no_command) = None.
Proof. by destruct n. Qed.

(** The registry keeps its promise: a command added while there is room is
    found under its name in any case afterwards, unless an earlier command has the
    name, and no other command is lost or changed; when the twelve entries are
    used, adding changes nothing. *)
Theorem console_registry (name cmd : list Z) (h : Handler) (r : Registry) (Hr : registry_wf r) :
  let r' := console_add_command cmd h r in
  registry_wf r' /\
  console_lookup_command name r' =
    match console_lookup_command name r with
    | Some h' => Some h'
    | None =>
        if (cmdCount r <? CONSOLE_MAX_COMMAND) && (strcasecmp name cmd =? 0) then Some h else None
    end.
Proof.
  destruct r as [l n]. destruct Hr as (Hl & Hn & Hd & Hu). cbn [cmdEntries cmdCount] in *.
  unfold console_add_command. cbn [cmdEntries cmdCount].
  pose proof (take_drop (Z.to_nat n) l) as Ht. rewrite Hd in Ht.
  set (used := take (Z.to_nat n) l) in *.
  assert (Hlu : length used = Z.to_nat n).
  { unfold used. rewrite length_take, Hl. unfold CONSOLE_MAX_COMMAND in *. lia. }
  destruct (n >=? CONSOLE_MAX_COMMAND) eqn:E; rewrite Z.geb_leb in E; zbool.
  - split; [by unfold registry_wf|]. assert ((n <? CONSOLE_MAX_COMMAND) = false) as -> by (apply Z.ltb_ge; lia).
    cbn [andb]. by destruct (console_lookup_command name _).
  - assert ((n <? CONSOLE_MAX_COMMAND) = true) as -> by (apply Z.ltb_lt; lia).
    rewrite u8_small by (unfold CONSOLE_MAX_COMMAND in *; lia).
    set (m := Z.to_nat (CONSOLE_MAX_COMMAND - (n + 1))).
    replace (Z.to_nat (CONSOLE_MAX_COMMAND - n)) with (Datatypes.S m) in * by (unfold m; lia).
    cbn [replicate] in *. unfold console_lookup_command. cbn [cmdEntries andb].
    rewrite <- Ht, <- Hlu. rewrite <- (Nat.add_0_r (length used)), insert_app_r.
    unfold insert, list_insert; fold (@list_insert COMMAND_ENTRY). cbn [replicate]. split.
    + unfold registry_wf. cbn [cmdEntries cmdCount].
      assert (Hk : Z.to_nat (n + 1) = length (used ++ [mkCmd (Some cmd) (Some h)]))
        by (rewrite length_app; cbn; lia).
      rewrite (cons_middle _ used), app_assoc, Hk, drop_app_length, take_app_length.
      split_and!; [|lia|lia|done|].
      * rewrite length_app, <- Hk, length_replicate. unfold m, CONSOLE_MAX_COMMAND in *. lia.
      * apply Forall_app. split; [done|]. by repeat econstructor.
    + rewrite !(lookup_entries_app name used) by done.
      destruct (lookup_entries name used) as [h'|]; [done|]. cbn [lookup_entries cmdName no_command].
      by destruct (strcasecmp name cmd =? 0); [|apply lookup_unused].
Qed.

(** ** AT commands *)

(** [AT+KEY=VALUE] in memory with its terminator; [a], [t] in either case. *)
Definition at_line (a t : Z) (key value : list Z) : list Z := a :: t :: 43 :: key ++ 61 :: value.

(** The same line once parsed. *)
Definition at_parsed (a t : Z) (key value rest : list Z) : list Z :=
  a :: t :: 43 :: map toupper key ++ 0 :: value ++ 0 :: rest.

Record at_ok (a t : Z) (key value : list Z) : Prop := {
  at_a : a = 65 \/ a = 97;
  at_t : t = 84 \/ t = 116;
  at_key : Forall (fun x => x <> 0 /\ x <> 61) key;
  at_value : Forall (fun x => x <> 0) value;
  at_len : (2 <= length key + length value <= 251)%nat
}.

Lemma find_eq_at pre key more : forall n,
  Forall (fun x => x <> 61) key -> (length key < n)%nat ->
  find_eq n (Z.of_nat (length pre)) (pre ++ key ++ 61 :: more)
  = Some (Z.of_nat (length pre + length key)).
Proof.
  revert pre. induction key as [|x key IH]; intros pre n Hk Hn;
    (destruct n as [|n]; [cbn in Hn; lia|]); cbn [find_eq app].
  - rewrite get_at. cbn. by rewrite Nat.add_0_r.
  - apply Forall_cons in Hk as [Hx Hk]. cbn [length] in Hn.
    rewrite get_at. apply Z.eqb_neq in Hx. rewrite Hx.
    specialize (IH (pre ++ [x]) n Hk ltac:(lia)). rewrite <- app_assoc in IH. cbn [app] in IH.
    replace (Z.of_nat (length pre) + 1) with (Z.of_nat (length (pre ++ [x])))
      by (rewrite length_app; cbn; lia).
    rewrite IH. f_equal. rewrite length_app. cbn [length]. lia.
Qed.

Lemma strupr_at pre s rest :
  Forall (fun x => x <> 0) s ->
  strupr (Z.of_nat (length pre)) (pre ++ s ++ 0 :: rest) = pre ++ map toupper s ++ 0 :: rest.
Proof.
  intros Hs. unfold strupr. rewrite Nat2Z.id, drop_app_length, take_app_length, cstr_app by done.
  rewrite <- (length_app pre s), (app_assoc pre s (0 :: rest)), drop_app_length. done.
Qed.

Lemma split_at a t key value rest :
  at_ok a t key value ->
  let line := at_line a t key value in
  split_command (Z.of_nat (length line)) (line ++ 0 :: rest)
  = (Some (3, Z.of_nat (4 + length key), Z.of_nat (length value)),
     a :: t :: 43 :: key ++ 0 :: value ++ 0 :: rest).
Proof.
  intros [Ha Ht Hk Hv Hl] line.
  assert (Hlen : length line = (4 + length key + length value)%nat).
  { unfold line, at_line. cbn [length]. rewrite length_app. cbn. lia. }
  assert (Hbuf : line ++ 0 :: rest = [a; t; 43] ++ key ++ 61 :: value ++ 0 :: rest).
  { unfold line, at_line. cbn [app]. by rewrite <- app_assoc. }
  unfold split_command.
  assert (is_at (line ++ 0 :: rest) (Z.of_nat (length line)) = true) as ->.
  { unfold is_at. rewrite Hbuf, Hlen.
    assert ((Z.of_nat (4 + length key + length value) >=? 6) = true) as ->
      by (rewrite Z.geb_leb; apply Z.leb_le; lia).
    by destruct Ha as [->| ->], Ht as [->| ->]. }
  rewrite Hbuf. change 3 with (Z.of_nat (length [a; t; 43])) at 2.
  rewrite find_eq_at by (try (eapply Forall_impl; [exact Hk|]; by intros x []); lia).
  cbv zeta. change (length [a; t; 43]) with 3%nat.
  assert (E : upd ([a; t; 43] ++ key ++ 61 :: value ++ 0 :: rest) (Z.of_nat (3 + length key)) 0
    = ([a; t; 43] ++ key) ++ 0 :: value ++ 0 :: rest).
  { rewrite app_assoc. replace (3 + length key)%nat with (length ([a; t; 43] ++ key))
      by (rewrite length_app; done). apply upd_app. }
  rewrite E. replace (Z.to_nat (Z.of_nat (3 + length key) + 1)) with
    (Datatypes.S (length ([a; t; 43] ++ key))) by (rewrite !length_app; cbn; lia).
  rewrite drop_here, strnlen_app_0, u8_small by (done || lia).
  rewrite <- app_assoc. do 4 f_equal. lia.
Qed.

Section Dispatch.
Context {S : Type} `{SerPort S} {F : Type} `{KFile F} `{Carrier F} {X : Type}.
Implicit Types c : Console S F X.
Variable freeRam : Z.
Variable VERS_BUILD : Z.
Variable stack : list Z.
Variable stack64 : list Z.
Variable external : nat -> Z -> Z -> Console S F X -> bool * Console S F X.

Let run := run_handler freeRam stack64 external.
Let parse := console_parse_command freeRam VERS_BUILD stack stack64 external.

Lemma parse_at c a t key value rest :
  at_ok a t key value -> cn_buf c = at_line a t key value ++ 0 :: rest ->
  let n := Z.of_nat (length (at_line a t key value)) in
  let c' := set_cn_buf (at_parsed a t key value rest) c in
  parse n c =
    match console_lookup_command (map toupper key) (cn_cmds c) with
    | Some h =>
        let '(ok, c) := run h (Z.of_nat (4 + length key)) (Z.of_nat (length value)) c' in
        if ok then c else cn_printf (chars "INVALID CMD VALUE" ++ crlf) [] c
    | None => cn_printf (chars "UNKNOWN CMD: %.*s" ++ crlf)
                [AInt n; AStr (Some (at_parsed a t key value rest))] c'
    end.
Proof.
  intros Hok Hbuf n c'. pose proof Hok as [Ha Ht Hk Hv Hl].
  assert (Hn : n = 4 + Z.of_nat (length key) + Z.of_nat (length value)).
  { unfold n, at_line. cbn [length]. rewrite length_app. cbn [length]. lia. }
  unfold parse, console_parse_command. rewrite Hbuf.
  assert (Hh : get (at_line a t key value ++ 0 :: rest) 0 = a) by reflexivity. rewrite Hh.
  assert ((a =? 33) = false) as -> by (apply Z.eqb_neq; lia).
  assert ((a =? 63) = false) as -> by (apply Z.eqb_neq; lia).
  rewrite !andb_false_r. cbn [andb].
  unfold n. rewrite (split_at a t key value rest Hok). fold n.
  assert (Hup : strupr 3 (a :: t :: 43 :: key ++ 0 :: value ++ 0 :: rest)
    = at_parsed a t key value rest).
  { apply (strupr_at [a; t; 43] key). eapply Forall_impl; [exact Hk|]. by intros x []. }
  rewrite Hup. change (drop (Z.to_nat 3) (at_parsed a t key value rest))
    with (map toupper key ++ 0 :: value ++ 0 :: rest).
  rewrite lookup_end; [done|].
  apply Forall_map. eapply Forall_impl; [exact Hk|]. intros x [Hx _]. by apply toupper_nz.
Qed.
End Dispatch.

(** ** What the commands do *)

(** The buffers of [cmd_info] and of the path command have ten bytes. *)
Definition CALL_TEXT_BUF : nat := 10.

(** The ten-byte buffers the console gives [ax25call_to_string] are enough
    exactly for calls whose ssid has its top bit clear or whose text is short:
    with an ssid below 128 at most ten bytes are written, but with six characters
    and an ssid of 128 or more that has a suffix eleven are, the last one past
    the end of the buffer. *)
Theorem console_call_buffer (a : AX25Call) (Hs : is_byte (ssid a)) (Hl : length (call a) = 6%nat) :
  (ssid a < 128 -> (length (ax25call_to_string a) <= CALL_TEXT_BUF)%nat) /\
  (Forall (fun x => x <> 0) (call a) -> 138 <= ssid a ->
   length (ax25call_to_string a) = Datatypes.S CALL_TEXT_BUF).
Proof.
  split.
  - intros Hlt. pose proof (to_string_length a Hs) as Hb. apply Z.ltb_lt in Hlt. by rewrite Hlt in Hb.
  - intros Hc Hge. unfold ax25call_to_string.
    rewrite (take_ge (call a) 6), strnlen_nz, Hl by (done || lia).
    assert (Hland : implb (138 <=? ssid a) ((Z.land (ssid a) 0x7f >? 0) &&
      negb (Z.land (ssid a) 0x7f <? 10) && negb (Z.land (ssid a) 0x80 =? 0)) = true).
    { apply (forall_byte (fun s => implb (138 <=? s) ((Z.land s 0x7f >? 0) &&
        negb (Z.land s 0x7f <? 10) && negb (Z.land s 0x80 =? 0)))); [vm_compute; reflexivity|done]. }
    apply Z.leb_le in Hge. rewrite Hge in Hland. cbn [implb] in Hland.
    apply andb_prop in Hland as [Hland H80]. apply andb_prop in Hland as [H0 H10].
    rewrite H0, H80. destruct (Z.land (ssid a) 0x7f <? 10); [done|].
    rewrite !length_app, length_take, Hl. done.
Qed.

(** ABCDEF-138, as [AT+CALL] accepts it. *)
Lemma console_call_buffer_witness :
  let a := ax25call_from_string (chars "ABCDEF-138") in
  a = mkCall (chars "ABCDEF") 138 /\ length (ax25call_to_string a) = 11%nat.
Proof.
  split; [reflexivity|].
  apply (console_call_buffer (mkCall (chars "ABCDEF") 138)).
  - unfold is_byte. cbn. lia.
  - reflexivity.
  - decide_closed.
  - cbn. lia.
Defined.

(** ** Tokens *)

Definition token (s : list Z) : Prop := s <> [] /\ Forall (fun x => x <> 0 /\ x <> 44) s.

Lemma comma_span_token s more : token s -> comma_span (s ++ more) = 0.
Proof.
  intros [Hne Hs]. destruct s as [|x s]; [done|]. apply Forall_cons in Hs as [[_ Hx] _].
  cbn. by apply Z.eqb_neq in Hx as ->.
Qed.

Lemma token_span_token s x more :
  Forall (fun x => x <> 0 /\ x <> 44) s -> x = 0 \/ x = 44 ->
  token_span (s ++ x :: more) = Z.of_nat (length s).
Proof.
  intros Hs Hx. induction Hs as [|y s [H0 H44] Hs IH]; cbn [app token_span length].
  - by destruct Hx as [-> | ->].
  - apply Z.eqb_neq in H0, H44. rewrite H0, H44, IH. cbn [orb]. lia.
Qed.

(** A token that starts here and ends at [x], a comma or the terminator. *)
Lemma strtok_token pre s x more :
  token s -> x = 0 \/ x = 44 ->
  strtok (Z.of_nat (length pre)) (pre ++ s ++ x :: more)
  = (Some (Z.of_nat (length pre)), pre ++ s ++ 0 :: more,
     Z.of_nat (length pre + length s) + (if x =? 0 then 0 else 1)).
Proof.
  intros Hs Hx. unfold strtok.
  rewrite !Nat2Z.id, drop_app_length, comma_span_token, Z.add_0_r, Nat2Z.id, drop_app_length by done.
  assert (Hg : get (pre ++ s ++ x :: more) (Z.of_nat (length pre)) <> 0).
  { destruct Hs as [Hne Hs]. destruct s as [|y s]; [done|]. cbn [app]. rewrite get_at.
    by apply Forall_cons in Hs as [[] _]. }
  apply Z.eqb_neq in Hg. rewrite Hg, token_span_token by (done || apply Hs).
  rewrite <- Nat2Z.inj_add, <- length_app, (app_assoc pre s), get_at.
  destruct Hx as [-> | ->]; cbn [Z.eqb]; [by rewrite <- app_assoc, Z.add_0_r|].
  by rewrite upd_app, <- app_assoc.
Qed.

Lemma strtok_end pre rest :
  strtok (Z.of_nat (length pre)) (pre ++ 0 :: rest) = (None, pre ++ 0 :: rest, Z.of_nat (length pre)).
Proof.
  unfold strtok. rewrite Nat2Z.id, drop_app_length. cbn [comma_span].
  change (0 =? 44) with false. cbv iota. by rewrite Z.add_0_r, get_at.
Qed.

(** ** Numbers *)

Lemma i16_step a d : i16 (i16 a * 10 + d) = i16 (a * 10 + d).
Proof. unfold i16. zlia. Qed.

Lemma atoi_digits_value s rest : forall acc,
  all_digits s -> atoi_digits (s ++ 0 :: rest) (i16 acc)
  = i16 (fold_left (fun a x => a * 10 + (x - 48)) s acc).
Proof.
  induction s as [|x s IH]; intros acc Hs; [done|]. apply Forall_cons in Hs as [Hx Hs].
  cbn [app atoi_digits fold_left]. unfold is_digit.
  assert (((48 <=? x) && (x <=? 57)) = true) as ->
    by (apply andb_true_iff; rewrite !Z.leb_le; lia).
  by rewrite i16_step, IH.
Qed.

Lemma atoi_number s rest : s <> [] -> all_digits s -> atoi (s ++ 0 :: rest) = i16 (digits_value s).
Proof.
  intros Hne Hs. destruct s as [|x s]; [done|]. pose proof Hs as Hs'. apply Forall_cons in Hs' as [Hx _].
  change ((x :: s) ++ 0 :: rest) with (x :: (s ++ 0 :: rest)). cbn [atoi]. unfold isspace.
  assert ((x =? 32) = false) as -> by (apply Z.eqb_neq; lia).
  assert ((x <=? 13) = false) as -> by (apply Z.leb_gt; lia).
  assert ((x =? 45) = false) as -> by (apply Z.eqb_neq; lia).
  assert ((x =? 43) = false) as -> by (apply Z.eqb_neq; lia).
  rewrite andb_false_r. cbn [orb]. apply (atoi_digits_value (x :: s) rest 0 Hs).
Qed.

Lemma land_i16 n : is_u16 n -> Z.land (i16 n) 0xffff = n.
Proof.
  unfold is_u16. intros Hn. change 0xffff with (Z.ones 16). rewrite Z.land_ones by lia.
  unfold i16. change (2 ^ 16) with 65536. zlia.
Qed.

Lemma set_interval_wf n g : settings_wf g -> is_u16 n -> settings_wf (set_interval n g).
Proof.
  intros [Hb _] Hn. split; [|exact Hn]. destruct g. unfold bytes in *.
  change (settings_bytes _) with [run_mode; symbol0; symbol1; u8 interval; u8 (Z.shiftr interval 8);
    beacon_type; txdelay; txtail; persistence; slot_time; duplex] in Hb.
  change (settings_bytes _) with [run_mode; symbol0; symbol1; u8 n; u8 (Z.shiftr n 8);
    beacon_type; txdelay; txtail; persistence; slot_time; duplex].
  repeat (apply Forall_cons in Hb as [? Hb]).
  repeat (apply Forall_cons; split; [assumption || apply u8_is_byte|]). constructor.
Qed.

Section Effects.
Context {S : Type} `{SerLaws S} {F : Type} `{KFile F} `{Carrier F} {X : Type}.
Implicit Types c : Console S F X.
Variable freeRam : Z.
Variable VERS_BUILD : Z.
Variable stack : list Z.
Variable stack64 : list Z.
Variable external : nat -> Z -> Z -> Console S F X -> bool * Console S F X.

Let parse := console_parse_command freeRam VERS_BUILD stack stack64 external.

Lemma put_chars l : forall (s : S),
  sp_ok s -> bytes l ->
  let s' := fold_left (fun fd x => snd (kfile_putc x fd)) l s in
  sp_ok s' /\ sp_out s' = sp_out s ++ l.
Proof.
  induction l as [|x l IH]; intros s Hok Hl; cbn [fold_left]; [by rewrite app_nil_r|].
  apply Forall_cons in Hl as [Hx Hl].
  assert (Hp : sp_ok (snd (kfile_putc x s)) /\ sp_out (snd (kfile_putc x s)) = sp_out s ++ [x]).
  { unfold kfile_putc. rewrite u8_small by done.
    destruct (sp_write_out [x] s Hok) as (_ & Hok' & Ho); [by constructor|].
    destruct (kfile_write s [x]) as [n s']. cbn in *. by destruct (n =? 1). }
  destruct Hp as [Hok' Ho]. destruct (IH _ Hok' Hl) as [Hok2 Ho2].
  split; [done|]. by rewrite Ho2, Ho, <- app_assoc.
Qed.

(** A text goes out to the host; nothing else changes. *)
Definition says (out : list Z) c c' : Prop :=
  sp_ok (cn_ser c') /\ sp_out (cn_ser c') = sp_out (cn_ser c) ++ out /\
  c' = set_cn_ser (cn_ser c') c.

Lemma cn_printf_says ps c :
  sp_ok (cn_ser c) -> Forall piece_ok ps -> bytes (concat (map piece_out ps)) ->
  says (concat (map piece_out ps)) c
    (cn_printf (concat (map piece_fmt ps)) (concat (map piece_args ps)) c).
Proof.
  intros Hok Hps Hb. unfold says, cn_printf, kfile_printf_P, kfile_printf, formatted_write.
  cbn [snd]. rewrite <- (app_nil_r (concat (map piece_args ps))), formatted_pieces by done.
  destruct (put_chars _ (cn_ser c) Hok Hb) as [Hok' Ho].
  split_and!; [done|done|reflexivity].
Qed.

Lemma pointed_at a t key value rest c :
  pointed (Z.of_nat (4 + length key)) (set_cn_buf (at_parsed a t key value rest) c) = value ++ 0 :: rest.
Proof.
  unfold pointed. change (cn_buf (set_cn_buf ?b c)) with b.
  change (cn_buf (set_cn_buf (at_parsed a t key value rest) c)) with
    ((a :: t :: 43 :: map toupper key) ++ 0 :: value ++ 0 :: rest).
  rewrite Nat2Z.id. replace (4 + length key)%nat with
    (Datatypes.S (length (a :: t :: 43 :: map toupper key))) by (cbn; by rewrite length_map).
  apply drop_here.
Qed.

Lemma wf_call_sized a : wf_call a -> call_sized a.
Proof.
  intros (name & k & _ & E & Hl & _). unfold call_sized. by rewrite E, length_app, length_replicate.
Qed.

(** A call typed in either case is read, and its text is printed back. *)
Lemma typed_call v rest a :
  wf_call a -> map toupper v = call_str a ->
  ax25call_from_string (v ++ 0 :: rest) = a /\
  fw_string (Z.to_nat 10000) (ax25call_to_string a) = call_str a /\
  bytes (call_str a) /\ Forall (fun x => x <> 0) v /\ (length v <= 9)%nat.
Proof.
  intros Ha Hv. destruct (wf_call_text a Ha) as (text & E & Ht & Hl & Hscan).
  assert (Hprops : Forall (fun x => x <> 0) text /\ bytes text).
  { split; (eapply Forall_impl; [exact Ht|]); intros x Hx;
      destruct (text_char_props x Hx) as (? & _ & _ & ?); [done|unfold is_byte; lia]. }
  destruct Hprops as [Hnz Hb].
  assert (Hstr : call_str a = text) by (unfold call_str; rewrite E; by apply cstr_app).
  rewrite Hstr in *.
  assert (Hvz : Forall (fun x => x <> 0) v).
  { rewrite <- Hv in Hnz. apply (proj1 (Forall_map toupper _ v)) in Hnz. eapply Forall_impl; [exact Hnz|].
    intros x Hx ->. by apply Hx. }
  assert (Hlen : length v = length text) by (by rewrite <- Hv, length_map).
  rewrite from_string_end, <- scan_toupper, Hv, E by (done || lia).
  split_and!; try done; [|lia]. rewrite fw_string_cstr; [by apply cstr_app|].
  rewrite length_app. cbn. lia.
Qed.

(** A line [AT+CALL=...] sets the station's call: typed in either case, it is
    stored in the EEPROM, from where every user of it, the beacon and the digipeater
    among them, reads it back; the destination and the path stay, and the call is
    shown to the user. *)
Theorem console_sets_call c a t key value rest call
    (Hat : at_ok a t key value) (Hbuf : cn_buf c = at_line a t key value ++ 0 :: rest)
    (Hkey : map toupper key = chars "CALL")
    (Hreg : console_lookup_command (chars "CALL") (cn_cmds c) = Some H_mycall)
    (Hcall : wf_call call) (Hvalue : map toupper value = call_str call) (Hne : value <> [])
    (Hok : sp_ok (cn_ser c)) (Hnv : nv_sized (nv (cn_set c))) :
  let old := settings_get_call_data (cn_set c) in
  let c' := parse (Z.of_nat (length (at_line a t key value))) c in
  settings_get_mycall (cn_set c') = call /\
  settings_get_call_data (cn_set c')
    = mkCallData (destCall old) call (path1 old) (path2 old) /\
  g_settings (cn_set c') = g_settings (cn_set c) /\ nv_sized (nv (cn_set c')) /\
  sp_out (cn_ser c') = sp_out (cn_ser c) ++ chars "My Call: " ++ call_str call ++ crlf.
Proof.
  intros old c'. unfold c', parse. rewrite (parse_at _ _ _ _ _ c a t key value rest Hat Hbuf).
  rewrite Hkey, Hreg. cbn [run_handler]. unfold cmd_settings_mycall.
  destruct value as [|v0 value]; [done|].
  assert ((Z.of_nat (length (v0 :: value)) >? 0) = true) as -> by (apply Z.gtb_lt; cbn; lia).
  rewrite pointed_at.
  destruct (typed_call (v0 :: value) rest call Hcall Hvalue) as (E & Hout & Hb & _). rewrite E.
  set (c1 := set_cn_set _ _). cbn [myCall].
  destruct (cn_printf_says [PLit (chars "My Call: "); PStr (ax25call_to_string call); PLit crlf] c1)
    as (Hok' & Ho & Hc); [exact Hok|repeat constructor; decide_closed| |].
  { cbn [map concat piece_out]. rewrite Hout. apply Forall_app. split; [decide_closed|].
    apply Forall_app. split; [done|decide_closed]. }
  cbn [map concat piece_fmt piece_args piece_out app] in Ho, Hc. rewrite Hout in Ho.
  change (chars "My Call: %s" ++ crlf) with (chars "My Call: " ++ 37 :: 115 :: crlf ++ []).
  cbv iota. rewrite Hc. rewrite app_nil_r in Ho.
  destruct (call_data_sized (cn_set c) Hnv) as (Hd & _ & H1' & H2').
  destruct (call_data_stored (mkCallData (destCall old) call (path1 old) (path2 old)) (cn_set c))
    as (E1 & E2 & E3); [exact Hd|by apply wf_call_sized|exact H1'|exact H2'|exact Hnv|].
  split_and!; [exact E2|exact E1|done|exact E3|exact Ho].
Qed.

(** The text [v] names the call [a]. *)
Definition typed (v : list Z) (a : AX25Call) : Prop :=
  wf_call a /\ map toupper v = call_str a /\ v <> [].

Definition no_call : AX25Call := mkCall (zeros 6) 0.

Lemma typed_token v a : wf_call a -> map toupper v = call_str a -> v <> [] -> token v.
Proof.
  intros Ha Hv Hne. split; [done|]. destruct (wf_call_text a Ha) as (text & E & Ht & _).
  assert (Hstr : call_str a = text).
  { unfold call_str. rewrite E. apply cstr_app. eapply Forall_impl; [exact Ht|].
    intros x Hx. by apply text_char_props. }
  rewrite Hstr in Hv. rewrite <- Hv in Ht. apply (proj1 (Forall_map toupper _ v)) in Ht.
  eapply Forall_impl; [exact Ht|]. intros x Hx. apply text_char_props in Hx.
  split; intros ->; by destruct Hx as (? & ? & ? & ?).
Qed.

(** The two tokens, by the offsets the handler computes. *)
Lemma path_tokens pre v1 v2 rest :
  token v1 ->
  match v2 with
  | Some v2 =>
      token v2 ->
      let buf := pre ++ v1 ++ 0 :: v2 ++ 0 :: rest in
      let save := Z.of_nat (length pre + length v1) + 1 in
      strtok (Z.of_nat (length pre)) (pre ++ v1 ++ 44 :: v2 ++ 0 :: rest)
      = (Some (Z.of_nat (length pre)), buf, save) /\
      (exists sv, strtok save buf = (Some save, buf, sv)) /\
      drop (Z.to_nat (Z.of_nat (length pre))) buf = v1 ++ 0 :: v2 ++ 0 :: rest /\
      drop (Z.to_nat save) buf = v2 ++ 0 :: rest
  | None =>
      let buf := pre ++ v1 ++ 0 :: rest in
      let save := Z.of_nat (length pre + length v1) in
      strtok (Z.of_nat (length pre)) buf = (Some (Z.of_nat (length pre)), buf, save) /\
      (exists sv, strtok save buf = (None, buf, sv)) /\
      drop (Z.to_nat (Z.of_nat (length pre))) buf = v1 ++ 0 :: rest
  end.
Proof.
  intros H1'. destruct v2 as [v2|]; [intros H2'|]; cbv zeta.
  - rewrite strtok_token by (by auto). cbn [Z.eqb].
    replace (Z.of_nat (length pre + length v1) + 1) with (Z.of_nat (length ((pre ++ v1) ++ [0])))
      by (rewrite !length_app; cbn; lia).
    assert (E : pre ++ v1 ++ 0 :: v2 ++ 0 :: rest = ((pre ++ v1) ++ [0]) ++ v2 ++ 0 :: rest)
      by (by rewrite <- !app_assoc).
    split_and!; [done| | |].
    + eexists. rewrite E, strtok_token by (by auto). done.
    + by rewrite Nat2Z.id, drop_app_length.
    + by rewrite E, Nat2Z.id, drop_app_length.
  - rewrite strtok_token by (by auto). cbn [Z.eqb]. rewrite Z.add_0_r.
    split_and!; [done| |by rewrite Nat2Z.id, drop_app_length].
    eexists. by rewrite <- length_app, app_assoc, strtok_end.
Qed.

Lemma typed_len v rest :
  token v -> (length v <= 9)%nat ->
  (u8 (Z.of_nat (strnlen (v ++ 0 :: rest))) >? 0) = true.
Proof.
  intros [Hne Hv] Hl. rewrite strnlen_app_0, u8_small; [|lia|].
  - apply Z.gtb_lt. destruct v; [done|cbn; lia].
  - eapply Forall_impl; [exact Hv|]. by intros x [].
Qed.

Lemma path_says c p1 p2 :
  sp_ok (cn_ser c) -> wf_call p1 -> (p2 = no_call \/ wf_call p2) ->
  says (chars "PATH: " ++ call_str p1 ++ [44] ++ call_str p2 ++ crlf) c
    (cn_printf (chars "PATH: %s,%s" ++ crlf)
      [AStr (Some (ax25call_to_string p1)); AStr (Some (ax25call_to_string p2))] c).
Proof.
  intros Hok H1' H2'.
  assert (Hstr : forall p, p = no_call \/ wf_call p ->
    fw_string (Z.to_nat 10000) (ax25call_to_string p) = call_str p /\ bytes (call_str p)).
  { intros p [-> |Hp]; [split; [by apply call_str_out|constructor]|].
    destruct (wf_call_text p Hp) as (text & E & Ht & _).
    assert (Forall (fun x => x <> 0) text /\ bytes text) as [Hnz Hb].
    { split; (eapply Forall_impl; [exact Ht|]); intros x Hx;
        destruct (text_char_props x Hx) as (? & _ & _ & ?); [done|unfold is_byte; lia]. }
    split; [apply call_str_out|by unfold call_str; rewrite E, cstr_app].
    destruct Hp as (_ & _ & _ & _ & _ & ?). unfold is_byte. lia. }
  destruct (Hstr p1 (or_intror H1')) as [E1 B1]. destruct (Hstr p2 H2') as [E2 B2].
  pose proof (cn_printf_says [PLit (chars "PATH: "); PStr (ax25call_to_string p1); PLit [44];
    PStr (ax25call_to_string p2); PLit crlf] c Hok ltac:(repeat constructor; decide_closed)) as Hs.
  cbn [map concat piece_fmt piece_args piece_out app] in Hs. rewrite E1, E2 in Hs.
  cbn [app] in *. apply Hs. rewrite app_nil_r.
  apply Forall_app. split; [decide_closed|]. apply Forall_app. split; [done|].
  apply Forall_cons. split; [unfold is_byte; lia|]. apply Forall_app. split; [done|decide_closed].
Qed.

Definition second_text (second : option (list Z * AX25Call)) : list Z :=
  match second with Some (v2, _) => 44 :: v2 | None => [] end.
Definition second_call (second : option (list Z * AX25Call)) : AX25Call :=
  match second with Some (_, p2) => p2 | None => no_call end.
Definition second_typed (second : option (list Z * AX25Call)) : Prop :=
  match second with Some (v2, p2) => typed v2 p2 | None => True end.

Lemma path_set_spec c cd pre v1 p1 second rest :
  cn_buf c = pre ++ v1 ++ second_text second ++ 0 :: rest -> typed v1 p1 -> second_typed second ->
  exists buf, let cd' := mkCallData (destCall cd) (myCall cd) p1 (second_call second) in
    path_set (Z.of_nat (length pre)) cd c
    = (cd', set_cn_set (settings_set_call_data cd' (cn_set c)) (set_cn_buf buf c)).
Proof.
  intros Hbuf (Hw1 & Ht1 & Hn1) H2'. pose proof (typed_token v1 p1 Hw1 Ht1 Hn1) as Htok1.
  unfold path_set. rewrite Hbuf. destruct second as [[v2 p2]|]; cbn [second_text second_call second_typed] in *.
  - destruct H2' as (Hw2 & Ht2 & Hn2). pose proof (typed_token v2 p2 Hw2 Ht2 Hn2) as Htok2.
    destruct (path_tokens pre v1 (Some v2) rest Htok1 Htok2) as (E1 & (sv & E2) & E3 & E4).
    destruct (typed_call v1 (v2 ++ 0 :: rest) p1 Hw1 Ht1) as (Ec1 & _ & _ & _ & Hl1).
    destruct (typed_call v2 rest p2 Hw2 Ht2) as (Ec2 & _ & _ & _ & Hl2).
    cbn [app]. rewrite E1, E2, E3, E4, !typed_len by done.
    exists (pre ++ v1 ++ 0 :: v2 ++ 0 :: rest).
    unfold pointed. cbn [cn_buf cn_reader set_cn_buf set_cn_reader sr_buf set_sr_buf].
    by rewrite E3, E4, Ec1, Ec2.
  - destruct (path_tokens pre v1 None rest Htok1) as (E1 & (sv & E2) & E3).
    destruct (typed_call v1 rest p1 Hw1 Ht1) as (Ec1 & _ & _ & _ & Hl1).
    cbn [app]. rewrite E1, E2, E3, typed_len by done.
    exists (pre ++ v1 ++ 0 :: rest).
    unfold pointed. cbn [cn_buf cn_reader set_cn_buf set_cn_reader sr_buf set_sr_buf].
    by rewrite E3, Ec1.
Qed.

(** A line [AT+PATH=...] with one call or two, in either case, sets the path:
    the calls are stored in their order and shown, a second call that is not given
    is cleared, and the station's call and the destination stay. *)
Theorem console_sets_path c a t key rest v1 p1 (second : option (list Z * AX25Call))
    (Hat : at_ok a t key (v1 ++ second_text second))
    (Hbuf : cn_buf c = at_line a t key (v1 ++ second_text second) ++ 0 :: rest)
    (Hkey : map toupper key = chars "PATH")
    (Hreg : console_lookup_command (chars "PATH") (cn_cmds c) = Some H_path)
    (Hp1 : typed v1 p1) (Hp2 : second_typed second)
    (Hok : sp_ok (cn_ser c)) (Hnv : nv_sized (nv (cn_set c))) :
  let old := settings_get_call_data (cn_set c) in
  let c' := parse (Z.of_nat (length (at_line a t key (v1 ++ second_text second)))) c in
  settings_get_call_data (cn_set c')
    = mkCallData (destCall old) (myCall old) p1 (second_call second) /\
  nv_sized (nv (cn_set c')) /\
  sp_out (cn_ser c') = sp_out (cn_ser c) ++
    chars "PATH: " ++ call_str p1 ++ [44] ++ call_str (second_call second) ++ crlf.
Proof.
  intros old c'. unfold c', parse.
  rewrite (parse_at _ _ _ _ _ c a t key (v1 ++ second_text second) rest Hat Hbuf), Hkey, Hreg.
  cbn [run_handler]. unfold cmd_settings_path. set (c0 := set_cn_buf _ _).
  assert ((Z.of_nat (length (v1 ++ second_text second)) >? 0) = true) as ->.
  { destruct Hp1 as (_ & _ & Hn). apply Z.gtb_lt. rewrite length_app. destruct v1; [done|cbn; lia]. }
  assert (Hw2 : second_call second = no_call \/ wf_call (second_call second)).
  { destruct second as [[v2 p2]|]; [right; apply Hp2|by left]. }
  set (pre := (a :: t :: 43 :: map toupper key) ++ [0]).
  assert (Hpre : Z.of_nat (4 + length key) = Z.of_nat (length pre)).
  { unfold pre. rewrite length_app. cbn. rewrite length_map. lia. }
  assert (Hbuf0 : cn_buf c0 = pre ++ v1 ++ second_text second ++ 0 :: rest).
  { change (cn_buf c0) with
      ((a :: t :: 43 :: map toupper key) ++ 0 :: (v1 ++ second_text second) ++ 0 :: rest).
    unfold pre. by rewrite <- !app_assoc. }
  rewrite Hpre. destruct (path_set_spec c0 old pre v1 p1 second rest Hbuf0 Hp1 Hp2) as [b E].
  cbv zeta in E. change (settings_get_call_data (cn_set c0)) with old. rewrite E.
  set (cd := mkCallData _ _ _ _). set (c1 := set_cn_set _ _).
  destruct (path_says c1 p1 (second_call second)) as (_ & Ho & Hc); [exact Hok|apply Hp1|done|].
  cbn [path1 path2 cd]. rewrite Hc.
  destruct (call_data_sized (cn_set c) Hnv) as (Hd & Hm & _).
  destruct (call_data_stored cd (cn_set c)) as (E1 & _ & E3);
    [exact Hd|exact Hm|apply wf_call_sized, Hp1| |exact Hnv|].
  { cbn. destruct Hw2 as [-> |]; [done|by apply wf_call_sized]. }
  split_and!; [exact E1|exact E3|exact Ho].
Qed.

(** A line [AT+BEACON=n] sets the interval of the beacon: every number up to
    65535 is stored, survives a reset, and is shown; the other settings stay. It is
    shown as a signed number, so from 32768 seconds on with a minus sign. *)
Theorem console_sets_interval c a t key value rest
    (Hat : at_ok a t key value) (Hbuf : cn_buf c = at_line a t key value ++ 0 :: rest)
    (Hkey : map toupper key = chars "BEACON")
    (Hreg : console_lookup_command (chars "BEACON") (cn_cmds c) = Some H_beacon_interval)
    (Hdig : all_digits value) (Hne : value <> []) (Hn : is_u16 (digits_value value))
    (Hok : sp_ok (cn_ser c)) (Hnv : nv_sized (nv (cn_set c))) (Hg : settings_wf (g_settings (cn_set c))) :
  let n := digits_value value in
  let c' := parse (Z.of_nat (length (at_line a t key value))) c in
  g_settings (cn_set c') = set_interval n (g_settings (cn_set c)) /\
  (forall ram, settings_load (mkS ram (nv (cn_set c'))) = (true, cn_set c')) /\
  sp_out (cn_ser c')
    = sp_out (cn_ser c) ++ chars "Beacon Interval: " ++ decimal n ++ chars " seconds" ++ crlf.
Proof.
  intros n c'. unfold c', parse. rewrite (parse_at _ _ _ _ _ c a t key value rest Hat Hbuf).
  rewrite Hkey, Hreg. cbn [run_handler]. unfold cmd_settings_beacon_interval.
  assert ((Z.of_nat (length value) >? 0) = true) as ->.
  { apply Z.gtb_lt. destruct value; [done|cbn; lia]. }
  rewrite pointed_at, atoi_number, land_i16 by done. fold n.
  set (s1 := settings_set_params _ _ _).
  assert (Hs1 : s1 = mkS (set_interval n (g_settings (cn_set c))) (nv (cn_set c))).
  { unfold s1. cbn [settings_set_params]. do 2 f_equal. by apply le16_join. }
  set (c1 := set_cn_set _ _).
  assert (Hc1 : cn_set c1 = snd (settings_save s1)) by done.
  assert (Hi : interval (g_settings (cn_set c1)) = n) by (rewrite Hc1, Hs1; done).
  assert (Hget : settings_get_params (Some SETTINGS_BEACON_INTERVAL) 2 (cn_set c1)
    = ([u8 n; u8 (Z.shiftr n 8)], 2)) by (unfold settings_get_params; rewrite Hi; done).
  rewrite Hget. change (get [u8 n; u8 (Z.shiftr n 8)] 0) with (u8 n).
  change (get [u8 n; u8 (Z.shiftr n 8)] 1) with (u8 (Z.shiftr n 8)). rewrite le16_join by done.
  destruct (cn_printf_says [PLit (chars "Beacon Interval: "); PInt n; PLit (chars " seconds" ++ crlf)] c1)
    as (_ & Ho & Hc); [exact Hok|repeat constructor; decide_closed| |].
  { cbn [map concat piece_out]. apply Forall_app. split; [decide_closed|].
    apply Forall_app. split; [apply printf_d_bytes|decide_closed]. }
  cbn [map concat piece_fmt piece_args piece_out app] in Ho, Hc. rewrite app_nil_r in Ho.
  change (chars "Beacon Interval: %d seconds" ++ crlf) with
    (chars "Beacon Interval: " ++ 37 :: 100 :: (chars " seconds" ++ crlf) ++ []).
  rewrite Hc. split_and!; [change (g_settings s1 = set_interval n (g_settings (cn_set c))); by rewrite Hs1| |exact Ho].
  intros ram. change (cn_set (set_cn_ser ?s c1)) with (cn_set c1).
  change (settings_load (mkS ram (nv (snd (settings_save s1)))) = (true, snd (settings_save s1))).
  apply save_load; rewrite Hs1; [|done]. by apply set_interval_wf.
Qed.

Lemma find_eq_none s rest : forall n i,
  Forall (fun x => x <> 61) s -> 0 <= i -> (Z.to_nat i + n = length s)%nat ->
  find_eq n i (s ++ rest) = None.
Proof.
  induction n as [|n IH]; intros i Hs Hi Hn; [done|]. cbn [find_eq].
  assert (Hg : get (s ++ rest) i <> 61).
  { unfold get. rewrite app_nth1 by lia. rewrite Forall_forall in Hs. apply Hs.
    apply list_elem_of_In, nth_In. lia. }
  apply Z.eqb_neq in Hg. rewrite Hg. apply IH; [done|lia|lia].
Qed.

(** Neither a query, nor the test command, nor a command of another kind. *)
Definition no_query (line : list Z) : Prop := line <> [63] /\ line <> [63; 63] /\ hd 0 line <> 33.

(** Not an AT command with a value, and not the command of another TNC. *)
Definition no_command_line (line : list Z) : Prop :=
  if is_at line (Z.of_nat (length line)) then Forall (fun x => x <> 61) line
  else strcasecmp line (chars "AMODE KISS") <> 0 /\ strcasecmp line (chars "KISS ON") <> 0.

Lemma is_at_app line rest n : (3 <= length line)%nat -> is_at (line ++ rest) n = is_at line n.
Proof. intros Hl. destruct line as [|x [|y [|z l]]]; cbn in Hl; try lia. done. Qed.

Lemma split_none line rest :
  Forall (fun x => x <> 0) line -> no_command_line line ->
  split_command (Z.of_nat (length line)) (line ++ 0 :: rest) = (None, line ++ 0 :: rest).
Proof.
  intros Hz Hno. unfold split_command, no_command_line in *.
  assert (Hshort : (Z.of_nat (length line) >=? 6) = false ->
    forall l, is_at l (Z.of_nat (length line)) = false) by (unfold is_at; by intros ->).
  assert (E : is_at (line ++ 0 :: rest) (Z.of_nat (length line)) = is_at line (Z.of_nat (length line))).
  { destruct (Z.of_nat (length line) >=? 6) eqn:E; [|by rewrite !Hshort].
    rewrite Z.geb_leb in E. zbool. apply is_at_app. lia. }
  rewrite E, !strcasecmp_end by done. destruct (is_at line _) eqn:Ea.
  - rewrite find_eq_none; [done|done|lia|].
    destruct (Z.of_nat (length line) >=? 6) eqn:E6; [|by rewrite Hshort in Ea].
    rewrite Z.geb_leb in E6. zbool. lia.
  - destruct Hno as [H1' H2']. apply Z.eqb_neq in H1', H2'. rewrite H1', H2', !andb_false_r. done.
Qed.

Lemma console_plain c line rest :
  cn_buf c = line ++ 0 :: rest -> no_query line ->
  let n := Z.of_nat (length line) in
  (n >? 0) && (get (line ++ 0 :: rest) 0 =? 33) = false /\
  (n =? 1) && (get (line ++ 0 :: rest) 0 =? 63) = false /\
  (n =? 2) && (get (line ++ 0 :: rest) 0 =? 63) && (get (line ++ 0 :: rest) 1 =? 63) = false.
Proof.
  intros _ (Q1 & Q2 & Q3) n. destruct line as [|x l]; [done|].
  change (get ((x :: l) ++ 0 :: rest) 0) with x.
  assert (Hx : (x =? 33) = false) by (by apply Z.eqb_neq). rewrite Hx, andb_false_r.
  split; [done|]. destruct (x =? 63) eqn:E; [|by rewrite !andb_false_r].
  zbool. subst x. rewrite !andb_true_r. unfold n. destruct l as [|y [|z l]].
  - done.
  - split; [done|]. change (get ((63 :: [y]) ++ 0 :: rest) 1) with y.
    apply Z.eqb_neq. by intros ->.
  - cbn [length]. split; [apply Z.eqb_neq; lia|]. apply andb_false_iff. left. apply Z.eqb_neq. lia.
Qed.

Lemma cut_all line rest :
  Forall (fun x => x <> 0) line ->
  fw_string (Z.to_nat (if Z.of_nat (length line) <? 0 then 10000 else Z.of_nat (length line)))
    (line ++ 0 :: rest) = line.
Proof.
  intros Hz. assert ((Z.of_nat (length line) <? 0) = false) as -> by (apply Z.ltb_ge; lia).
  apply fw_string_end; [done|lia].
Qed.

(** C35: a line that is no command is answered and does nothing: an AT command that
    is not in the registry is named back in capitals, anything else is repeated
    whole; settings, modem, registry and the rest stay as they were. *)
Theorem console_rejects c (line rest reply : list Z)
    (Hbuf : cn_buf c = line ++ 0 :: rest) (Hb : bytes line) (Hz : Forall (fun x => x <> 0) line)
    (Hquery : no_query line) (Hok : sp_ok (cn_ser c))
    (Hcmd : (no_command_line line /\ reply = chars "INVALID CMD: " ++ line) \/
      exists a t key value, at_ok a t key value /\ line = at_line a t key value /\
        console_lookup_command (map toupper key) (cn_cmds c) = None /\
        reply = chars "UNKNOWN CMD: " ++ a :: t :: 43 :: map toupper key) :
  let c' := parse (Z.of_nat (length line)) c in
  c' = set_cn_ser (cn_ser c') (set_cn_buf (cn_buf c') c) /\
  sp_out (cn_ser c') = sp_out (cn_ser c) ++ reply ++ crlf.
Proof.
  intros c'. unfold c', parse.
  destruct Hcmd as [[Hno ->]|(a & t & key & value & Hat & -> & Hreg & ->)].
  - destruct (console_plain c line rest Hbuf Hquery) as (H33 & H63 & H63').
    unfold console_parse_command. rewrite Hbuf, H33, H63, H63', split_none by done.
    destruct (cn_printf_says [PLit (chars "INVALID CMD: "); PCut (Z.of_nat (length line)) (line ++ 0 :: rest);
      PLit crlf] (set_cn_buf (line ++ 0 :: rest) c)) as (_ & Ho & Hc);
      [exact Hok|repeat constructor; decide_closed| |];
      cbn [map concat piece_fmt piece_args piece_out app] in *; rewrite cut_all in * by done.
    + apply Forall_app. split; [decide_closed|]. apply Forall_app. split; [done|decide_closed].
    + rewrite app_nil_r in Ho, Hc.
      change (chars "INVALID CMD: %.*s" ++ crlf) with
        (chars "INVALID CMD: " ++ 37 :: 46 :: 42 :: 115 :: crlf).
      split; [by rewrite Hc|]. rewrite Ho. by rewrite <- (app_assoc (chars "INVALID CMD: ")).
  - rewrite (parse_at _ _ _ _ _ c a t key value rest Hat Hbuf), Hreg.
    set (c0 := set_cn_buf _ c). set (n := Z.of_nat _).
    assert (Hkey : Forall (fun x => x <> 0) (a :: t :: 43 :: map toupper key) /\
      bytes (a :: t :: 43 :: map toupper key)).
    { change (Forall (fun x => x <> 0) (a :: t :: 43 :: key ++ 61 :: value)) in Hz.
      change (Forall is_byte (a :: t :: 43 :: key ++ 61 :: value)) in Hb.
      rewrite !Forall_cons, Forall_app in Hz, Hb. destruct Hz as (? & ? & ? & Hkz & _).
      destruct Hb as (? & ? & ? & Hkb & _).
      split; repeat (apply Forall_cons; split; [done|]); apply Forall_map.
      - eapply Forall_impl; [exact Hkz|]. intros x. apply toupper_nz.
      - eapply Forall_impl; [exact Hkb|]. intros x. apply toupper_byte. }
    destruct Hkey as [Hkz Hkb].
    assert (Hcut : fw_string (Z.to_nat (if n <? 0 then 10000 else n)) (at_parsed a t key value rest)
      = a :: t :: 43 :: map toupper key).
    { assert ((n <? 0) = false) as -> by (apply Z.ltb_ge; lia).
      apply (fw_string_end (a :: t :: 43 :: map toupper key)); [done|].
      unfold n, at_line. cbn. rewrite length_map, length_app. lia. }
    destruct (cn_printf_says [PLit (chars "UNKNOWN CMD: "); PCut n (at_parsed a t key value rest);
      PLit crlf] c0) as (_ & Ho & Hc); [exact Hok|repeat constructor; decide_closed| |];
      cbn [map concat piece_fmt piece_args piece_out] in *; rewrite Hcut in *.
    + apply Forall_app. split; [decide_closed|]. apply Forall_app. split; [done|decide_closed].
    + cbn [app] in Ho, Hc. rewrite app_nil_r in Ho, Hc.
      change (chars "UNKNOWN CMD: %.*s" ++ crlf) with
        (chars "UNKNOWN CMD: " ++ 37 :: 46 :: 42 :: 115 :: crlf).
      split; [by rewrite Hc|]. rewrite Ho. by rewrite <- (app_assoc (chars "UNKNOWN CMD: ")).
Qed.

Let poll := console_poll freeRam VERS_BUILD stack stack64 external.

(** C20: a line typed by the user is executed once, when it is complete: with a line
    of 1 to 255 characters and its end waiting on the port, the polls do nothing
    but collect characters until the one that sees the end; that one runs the
    parser on exactly this line, with what follows it still waiting. *)
Theorem console_polls_line (text : list Z) (e : Z) (rest : list Z) c
    (Hw : reader_wf (cn_reader c)) (Hempty : readLen (cn_reader c) = 0)
    (Htext : Forall (fun x => is_eol x = false) text) (He : is_eol e = true)
    (Hlen : (0 < length text < 256)%nat) (Hd : sp_deaf (cn_ser c) = false)
    (Hin : sp_in (cn_ser c) = text ++ e :: rest) :
  exists r more,
    reader_wf r /\ readLen r = 0 /\ sp_in (sr_ser r) = rest /\ sr_buf r = text ++ 0 :: more /\
    iter (length text + 1) poll c = parse (Z.of_nat (length text)) (set_cn_reader r c).
Proof.
  destruct (polls_line cn_reader set_cn_reader poll ltac:(done) ltac:(done) ltac:(by intros []))
    with (text := text) (e := e) (rest := rest) (t := c)
    as (r1 & r2 & more & E1 & E2 & Hw2 & Hr2 & Hd2 & Hin2 & Hbuf); try done.
  { intros c' Hk. unfold poll, console_poll.
    destruct (serialreader_readline (cn_reader c')) as [k r]. cbn [fst snd] in *.
    assert ((k >? 0) = false) as -> by (rewrite Z.gtb_ltb; by apply Z.ltb_ge). done. }
  exists r2, more. split_and!; try done. rewrite E1.
  unfold poll, console_poll. change (cn_reader (set_cn_reader r1 c)) with r1. rewrite E2.
  assert ((Z.of_nat (length text) >? 0) = true) as -> by (apply Z.gtb_lt; lia).
  change (cn_reader (set_cn_reader r2 (set_cn_reader r1 c))) with r2. rewrite Hd2. done.
Qed.
End Effects.

(** ** At the terminal *)

Section Examples.
Import KFileFifo.

#[local] Instance ring_carrier : Carrier FIFOBuffer := {
  rxstart _ := false;
  modem_status _ := 0;
  clear_status ch := ch;
  run_irqs ch := ch;
  timer_delay _ ch := ch
}.

#[local] Instance idle_port : SerPort Serial := ser_port (fun _ => None) (fun _ => 0) 0.
#[local] Instance idle_laws : SerLaws Serial := ser_laws (fun _ => None) (fun _ => 0) 0.

Definition no_handler (i : nat) (value len : Z) (c : Console Serial FIFOBuffer Datatypes.unit)
  : bool * Console Serial FIFOBuffer Datatypes.unit := (false, c).

(** The line in the buffer, [ser] on the port. *)
Definition at_terminal (ser : Serial) (line : list Z) : Console Serial FIFOBuffer Datatypes.unit :=
  mkConsole (set_sr_buf (line ++ 0 :: zeros (329 - length line)) (serialreader_init ser))
    (ring_station 256) sample_settings 0 false (console_commands registry_init) tt.

Definition run_line (line : list Z) : Console Serial FIFOBuffer Datatypes.unit :=
  console_parse_command 900 42 (zeros 128) (zeros 64) no_handler (Z.of_nat (length line))
    (at_terminal (ser_init 0) line).

Lemma console_registry_witness :
  let r := console_commands registry_init in
  let r' := console_add_command (chars "MODE") (H_external 0) r in
  console_lookup_command (chars "mode") r' = Some (H_external 0) /\
  console_lookup_command (chars "Path") r' = Some H_path.
Proof.
  set (r := console_commands registry_init).
  assert (Hr : registry_wf r).
  { unfold registry_wf. vm_compute. split_and!; try done. repeat constructor; eauto. }
  destruct (console_registry (chars "mode") (chars "MODE") (H_external 0) r Hr) as [_ E1].
  destruct (console_registry (chars "Path") (chars "MODE") (H_external 0) r Hr) as [_ E2].
  split; [exact E1|exact E2].
Defined.

Lemma bg5hhp_wf : wf_call (mkCall (chars "BG5HHP") 7).
Proof.
  exists (chars "BG5HHP"), 0%nat. split; [decide_closed|]. split_and!; [done|done|cbn; lia|cbn; lia].
Qed.

Lemma wide_wf n : 0 <= n < 10 -> wf_call (mkCall (chars "WIDE2" ++ [0]) n).
Proof.
  intros Hn. exists (chars "WIDE2"), 1%nat. split; [decide_closed|].
  split_and!; [done|done|cbn; lia|cbn; lia].
Qed.

Lemma console_sets_call_witness :
  let c' := run_line (chars "at+call=bg5hhp-7") in
  settings_get_mycall (cn_set c') = mkCall (chars "BG5HHP") 7 /\
  sp_out (cn_ser c') = chars "My Call: BG5HHP-7" ++ crlf.
Proof.
  destruct (console_sets_call 900 42 (zeros 128) (zeros 64) no_handler
    (at_terminal (ser_init 0) (chars "at+call=bg5hhp-7")) 97 116 (chars "call") (chars "bg5hhp-7")
    (zeros 313) (mkCall (chars "BG5HHP") 7)) as (E & _ & _ & _ & O).
  - split; [by right|by right|decide_closed|decide_closed|cbn; lia].
  - reflexivity.
  - reflexivity.
  - reflexivity.
  - apply bg5hhp_wf.
  - reflexivity.
  - done.
  - apply ser_init_wf.
  - by split_and!.
  - split; [exact E|exact O].
Defined.

Lemma console_sets_path_witness :
  let c' := run_line (chars "AT+PATH=wide2-1,WIDE2-2") in
  let p n := mkCall (chars "WIDE2" ++ [0]) n in
  settings_get_call_data (cn_set c')
    = mkCallData (destCall default_calldata) (myCall default_calldata) (p 1) (p 2).
Proof.
  destruct (console_sets_path 900 42 (zeros 128) (zeros 64) no_handler
    (at_terminal (ser_init 0) (chars "AT+PATH=wide2-1,WIDE2-2")) 65 84 (chars "PATH")
    (zeros 306) (chars "wide2-1") (mkCall (chars "WIDE2" ++ [0]) 1)
    (Some (chars "WIDE2-2", mkCall (chars "WIDE2" ++ [0]) 2))) as (E & _).
  - split; [by left|by left|decide_closed|decide_closed|cbn; lia].
  - reflexivity.
  - reflexivity.
  - reflexivity.
  - split_and!; [by apply wide_wf|reflexivity|done].
  - split_and!; [by apply wide_wf|reflexivity|done].
  - apply ser_init_wf.
  - by split_and!.
  - exact E.
Defined.

Lemma console_sets_interval_witness :
  let c' := run_line (chars "AT+BEACON=40000") in
  interval (g_settings (cn_set c')) = 40000 /\
  sp_out (cn_ser c') = chars "Beacon Interval: -25536 seconds" ++ crlf.
Proof.
  destruct (console_sets_interval 900 42 (zeros 128) (zeros 64) no_handler
    (at_terminal (ser_init 0) (chars "AT+BEACON=40000")) 65 84 (chars "BEACON") (chars "40000")
    (zeros 314)) as (E & _ & O).
  - split; [by left|by left|decide_closed|decide_closed|cbn; lia].
  - reflexivity.
  - reflexivity.
  - reflexivity.
  - decide_closed.
  - done.
  - vm_compute. split; congruence.
  - apply ser_init_wf.
  - by split_and!.
  - apply sample_settings_wf.
  - split; [exact (f_equal interval E)|exact O].
Defined.

Lemma console_rejects_witness :
  sp_out (cn_ser (run_line (chars "hello"))) = chars "INVALID CMD: hello" ++ crlf.
Proof.
  destruct (console_rejects 900 42 (zeros 128) (zeros 64) no_handler
    (at_terminal (ser_init 0) (chars "hello")) (chars "hello") (zeros 324)
    (chars "INVALID CMD: hello")) as (_ & O).
  - reflexivity.
  - decide_closed.
  - decide_closed.
  - by split_and!.
  - apply ser_init_wf.
  - left. split; [|reflexivity]. split; vm_compute; congruence.
  - exact O.
Defined.

(** [?MODE=1] has arrived; two characters of the next line are waiting behind it. *)
Lemma console_polls_line_witness :
  let c := mkConsole (serialreader_init line_port) (ring_station 256) sample_settings 0 false
             (console_commands registry_init) tt in
  let text := [63; 77; 79; 68; 69; 61; 49] in
  exists r more, sp_in (sr_ser r) = [65; 66] /\ sr_buf r = text ++ 0 :: more /\
    iter (length text + 1) (console_poll 900 42 (zeros 128) (zeros 64) no_handler) c
    = console_parse_command 900 42 (zeros 128) (zeros 64) no_handler (Z.of_nat (length text))
        (set_cn_reader r c).
Proof.
  intros c text.
  destruct (console_polls_line 900 42 (zeros 128) (zeros 64) no_handler text 13 [65; 66] c)
    as (r & more & _ & _ & Hin & Hb & E).
  - split; [vm_compute; reflexivity|]. split; [reflexivity|]. split; [cbn; lia|].
    apply line_port_wf.
  - done.
  - by repeat constructor.
  - done.
  - cbn. lia.
  - done.
  - vm_compute. reflexivity.
  - exists r, more. split; [exact Hin|]. split; [exact Hb|exact E].
Defined.
End Examples.
