(* ===== verification/Float32.v ===== *)
(** * Single precision: what the GPS and the tracker compute with

    On the AVR [float] and [double] are both IEEE binary32; the arithmetic is that
    of the Standard Library's [SpecFloat] with 24 bits of mantissa, rounding to
    nearest, ties to even.  [floor] and [lroundf] are the C library's. *)

From Stdlib Require Import ZArith Lia Bool List.
From Stdlib Require Import SpecFloat.
From stdpp Require Import prelude.
From S2P Require Import Prelude.

Open Scope Z_scope.

Abbreviation float := spec_float.

Definition fadd : float -> float -> float := SFadd 24 128.
Definition fsub : float -> float -> float := SFsub 24 128.
Definition fmul : float -> float -> float := SFmul 24 128.
Definition fdiv : float -> float -> float := SFdiv 24 128.
Definition fsqrt : float -> float := SFsqrt 24 128.
Definition fabs : float -> float := SFabs.
Definition flt : float -> float -> bool := SFltb.
Definition feq : float -> float -> bool := SFeqb.

(** The conversion of an integer. *)
Definition of_int (n : Z) : float := binary_normalize 24 128 n 0 false.

(** The constant [n / 10^k], rounded once, as the compiler does. *)
Definition decimal_const (n : Z) (k : Z) : float :=
  match n with
  | Zpos p =>
      let '(m, e, l) := SFdiv_core_binary 24 128 (Zpos p) 0 (10 ^ k) 0 in
      binary_round_aux 24 128 false m e l
  | _ => of_int n
  end.

(** [MAX] of cfg/macros.h. *)
Definition fmax (a b : float) : float := if flt b a then a else b.

Definition fsign (s : bool) (n : Z) : Z := if s then - n else n.

Definition floor (x : float) : float :=
  match x with
  | S754_finite s m e => if 0 <=? e then x else of_int (fsign s (Zpos m) / 2 ^ (- e))
  | _ => x
  end.

(** Half away from zero; what does not fit gives [LONG_MIN]. *)
Definition lroundf (x : float) : Z :=
  match x with
  | S754_zero _ => 0
  | S754_finite s m e =>
      let n := if 0 <=? e then Zpos m * 2 ^ e else (Zpos m + 2 ^ (- e - 1)) / 2 ^ (- e) in
      let n := fsign s n in
      if (-2147483648 <=? n) && (n <? 2147483648) then n else -2147483648
  | _ => -2147483648
  end.

Example decimal_const_tenth : decimal_const 1 1 = S754_finite false 13421773 (-27).
Proof. reflexivity. Qed.

Example lroundf_altitude : lroundf (fmul (decimal_const 5454 1) (decimal_const 32808399 7)) = 1789.
Proof. reflexivity. Qed.
