(* ===== verification/Gps.v ===== *)
(** * Positions from a GPS receiver: [TinyAPRS/gps.[ch]]

    A line of a GPS receiver is cut into its terms in place, in the line reader's
    buffer, and its checksum is checked.  The terms are pointers into that buffer,
    offsets here, that stay when the next line overwrites it.  [null] is the memory
    at address 0, which the code reads through the pointers not set yet. *)

From Stdlib Require Import ZArith Lia Bool List.
From Stdlib Require Import String SpecFloat.
From stdpp Require Import prelude.
From S2P Require Import Prelude.
From S2P Require Import Libc.
From S2P Require Import Fifo.
From S2P Require Import KFile.
From S2P Require Import Formatwr.
From S2P Require Import Ax25.
From S2P Require Import Ser.
From S2P Require Import Utils.
From S2P Require Import Float32.

Open Scope Z_scope.

(** ** Constants and data *)

Definition MAX_TERMS : Z := 16.
Definition MAX_SENTENCEN_CHARS : Z := 80.
Definition MIN_SENTENCEN_CHARS : Z := 7.

Definition GPRMC_TERM_UTC_TIME : nat := 0.
Definition GPRMC_TERM_STATUS : nat := 1.
Definition GPRMC_TERM_LATITUDE : nat := 2.
Definition GPRMC_TERM_LATITUDE_NS : nat := 3.
Definition GPRMC_TERM_LONGITUDE : nat := 4.
Definition GPRMC_TERM_LONGITUDE_WE : nat := 5.
Definition GPRMC_TERM_SPEED : nat := 6.
Definition GPRMC_TERM_HEADING : nat := 7.
Definition GPGGA_TERM_FIXQUALITY : nat := 5.
Definition GPGGA_TERM_ALTITUDE : nat := 8.

Definition GPRMC_PARITY_INITIAL : Z := 0x4b.
Definition GPGGA_PARITY_INITIAL : Z := 0x56.

Definition METER_TO_FEET : float := decimal_const 32808399 7.
Definition DEG_TO_RAD : float := decimal_const 17453292519943295769 21.
Definition KMPH : float := decimal_const 1852 3.

Record GPS := mkGPS { valid : bool; _term : list (option Z); gps_altitude : Z }.

Record Location := mkLocation {
  latitude : float;
  longitude : float;
  speedInKMH : float;
  heading : Z;
  altitude : Z;
  timestamp : Z
}.

(** The locals of [gps_parse], with the sentence and the LED. *)
Record Scan := mkScan {
  sc_gps : GPS;
  sentence : list Z;
  led : bool;
  terms : Z;
  parity : Z;
  state : Z
}.

Definition set_sc_gps (v : GPS) (s : Scan) : Scan :=
  mkScan v (sentence s) (led s) (terms s) (parity s) (state s).
Definition set_sentence (v : list Z) (s : Scan) : Scan :=
  mkScan (sc_gps s) v (led s) (terms s) (parity s) (state s).
Definition set_led (v : bool) (s : Scan) : Scan :=
  mkScan (sc_gps s) (sentence s) v (terms s) (parity s) (state s).
Definition set_parity (v : Z) (s : Scan) : Scan :=
  mkScan (sc_gps s) (sentence s) (led s) (terms s) v (state s).
Definition set_state (v : Z) (s : Scan) : Scan :=
  mkScan (sc_gps s) (sentence s) (led s) (terms s) (parity s) v.

(** [gps->_term[terms++] = sentence + p]. *)
Definition add_term (p : Z) (s : Scan) : Scan :=
  let g := sc_gps s in
  mkScan (mkGPS (valid g) (<[Z.to_nat (terms s) := Some p]> (_term g)) (gps_altitude g))
    (sentence s) (led s) (terms s + 1) (parity s) (state s).

(** ** Numbers *)

Definition nmea_dehex (a : Z) : Z := if a >=? 65 then a - 55 else a - 48.

Definition signed (s : list Z) : bool := (hd 0 s =? 45) || (hd 0 s =? 43).

Fixpoint decimal_int_loop (s : list Z) (rl : Z) : Z :=
  match s with
  | c :: s' => if (c =? 0) || (c =? 46) then rl else decimal_int_loop s' (u16 (10 * rl + (i8 c - 48)))
  | [] => rl
  end.

Definition nmea_decimal_int (s : list Z) : Z :=
  decimal_int_loop (if signed s then tl s else s) 0.

Fixpoint decimal_float_loop (s : list Z) (dec : bool) (rl : Z) (rr rb : float) : Z * float :=
  match s with
  | c :: s' =>
      if c =? 0 then (rl, rr)
      else if c =? 46 then decimal_float_loop s' true rl rr rb
      else if negb dec then decimal_float_loop s' dec (i32 (10 * rl + (i8 c - 48))) rr rb
      else decimal_float_loop s' dec rl (fadd rr (fmul rb (of_int (i8 c - 48)))) (fdiv rb (of_int 10))
  | [] => (rl, rr)
  end.

Definition nmea_decimal_float (s : list Z) : float :=
  let '(rl, rr) := decimal_float_loop (if signed s then tl s else s) false 0 (of_int 0) (decimal_const 1 1) in
  let rr := fadd rr (of_int rl) in
  if hd 0 s =? 45 then fsub (of_int 0) rr else rr.

(** ** The parser *)

Section Gps.
Variable null : list Z.

(** The string a term points to. *)
Definition term (g : GPS) (buf : list Z) (i : nat) : list Z :=
  match _term g !! i with
  | Some (Some p) => drop (Z.to_nat p) buf
  | _ => null
  end.

(** The checksum is right; [true]: the sentence has a position. *)
Definition gps_verdict (sentenceType : Z) (s : Scan) : bool * Scan :=
  let g := sc_gps s in
  let v :=
    if sentenceType =? 1 then hd 0 (term g (sentence s) GPRMC_TERM_STATUS) =? 65
    else if sentenceType =? 2 then negb (hd 0 (term g (sentence s) GPGGA_TERM_FIXQUALITY) =? 48)
    else valid g in
  let s := set_sc_gps (mkGPS v (_term g) (gps_altitude g)) s in
  if v then
    let s := set_led true s in
    if sentenceType =? 2 then
      let g := sc_gps s in
      let alt := nmea_decimal_float (term g (sentence s) GPGGA_TERM_ALTITUDE) in
      (true, set_sc_gps (mkGPS (valid g) (_term g) (u16 (lroundf (fmul alt METER_TO_FEET)))) s)
    else (true, s)
  else (false, s).

(** The loop from position [n] on; [todo] positions are left. *)
Fixpoint gps_loop (todo : nat) (sentenceType n : Z) (s : Scan) : Z * Scan :=
  match todo with
  | O => (0, s)
  | S todo =>
      let c := i8 (get (sentence s) n) in
      if (c =? 0x0A) || (c =? 0x0D) || (terms s =? MAX_TERMS) then (0, s)
      else if state s =? 0 then
        let s :=
          if c =? 44 then
            let s := set_sentence (upd (sentence s) n 0) s in
            set_parity (Z.lxor (parity s) c) (add_term (n + 1) s)
          else if c =? 42 then set_state 1 (set_sentence (upd (sentence s) n 0) s)
          else set_parity (Z.lxor (parity s) c) s in
        gps_loop todo sentenceType (n + 1) s
      else if state s =? 1 then
        let s := add_term n s in
        let s := set_parity (i16 (parity s - 16 * nmea_dehex c)) s in
        gps_loop todo sentenceType (n + 1) (set_state 2 s)
      else if state s =? 2 then
        let s := set_parity (i16 (parity s - nmea_dehex c)) (set_state 0 s) in
        if parity s =? 0 then
          let '(ok, s) := gps_verdict sentenceType s in
          if ok then (if sentenceType =? 2 then 0 else 1, s) else gps_loop todo sentenceType (n + 1) s
        else gps_loop todo sentenceType (n + 1) s
      else gps_loop todo sentenceType (n + 1) s
  end.

(** The result, the GPS, the sentence as it leaves it, the LED. *)
Definition gps_parse (g : GPS) (buf : list Z) (len : Z) : Z * GPS * list Z * bool :=
  if (len <=? MIN_SENTENCEN_CHARS) || (len >? MAX_SENTENCEN_CHARS) then (0, g, buf, false)
  else
    let scan (sentenceType parity : Z) :=
      let '(r, s) := gps_loop (Z.to_nat (len - 6)) sentenceType 6 (mkScan g buf false 0 parity 0) in
      (r, sc_gps s, sentence s, led s) in
    if strncmp buf (chars "$GPRMC") 6 =? 0 then scan 1 GPRMC_PARITY_INITIAL
    else if strncmp buf (chars "$GPGGA") 6 =? 0 then scan 2 GPGGA_PARITY_INITIAL
    else (0, g, buf, false).

(** ** Positions *)

(** Degrees and minutes, [ddmm.mmmm], to degrees. *)
Definition degrees (s : list Z) : float :=
  let v := fdiv (nmea_decimal_float s) (of_int 100) in
  let degs := floor v in
  fadd (fdiv (fmul (of_int 100) (fsub v degs)) (of_int 60)) degs.

Definition TO_NUM (x : Z) : Z := i8 x - 48.

(** [(TO_NUM(a) * 10 + TO_NUM(b)) * unit], in 16 bits. *)
Definition clock_part (a b unit : Z) : Z := i16 ((TO_NUM a * 10 + TO_NUM b) * unit).

Definition gps_timestamp (utc : list Z) : Z :=
  if Z.of_nat (strnlen utc) >=? 6 then
    let t := u32 (clock_part (get utc 0) (get utc 1) 3600) in
    let t := u32 (t + clock_part (get utc 2) (get utc 3) 60) in
    u32 (t + clock_part (get utc 4) (get utc 5) 1)
  else 0.

Definition gps_get_location (g : GPS) (buf : list Z) : Location :=
  let t := term g buf in
  let lat := degrees (t GPRMC_TERM_LATITUDE) in
  let lat := if hd 0 (t GPRMC_TERM_LATITUDE_NS) =? 83 then fsub (of_int 0) lat else lat in
  let lon := degrees (t GPRMC_TERM_LONGITUDE) in
  let lon := if hd 0 (t GPRMC_TERM_LONGITUDE_WE) =? 87 then fsub (of_int 0) lon else lon in
  mkLocation lat lon
    (fmul (nmea_decimal_float (t GPRMC_TERM_SPEED)) KMPH)
    (nmea_decimal_int (t GPRMC_TERM_HEADING))
    (gps_altitude g)
    (match _term g !! GPRMC_TERM_UTC_TIME with
     | Some (Some _) => gps_timestamp (t GPRMC_TERM_UTC_TIME)
     | _ => 0
     end).
End Gps.

(** The great circle; [sin], [cos] and [atan2] are the mathematical library's. *)
Section Distance.
Variables sin cos : float -> float.
Variable atan2 : float -> float -> float.

Definition RADIANS (x : float) : float := fmul x DEG_TO_RAD.
Definition sq (x : float) : float := fmul x x.

Definition gps_distance_between (loc1 loc2 : Location) (units_per_meter : float) : float :=
  let delta := RADIANS (fsub (longitude loc1) (longitude loc2)) in
  let sdlong := sin delta in
  let cdlong := cos delta in
  let lat1 := RADIANS (latitude loc1) in
  let lat2 := RADIANS (latitude loc2) in
  let slat1 := sin lat1 in
  let clat1 := cos lat1 in
  let slat2 := sin lat2 in
  let clat2 := cos lat2 in
  let delta := fsub (fmul clat1 slat2) (fmul (fmul slat1 clat2) cdlong) in
  let delta := sq delta in
  let delta := fadd delta (sq (fmul clat2 sdlong)) in
  let delta := fsqrt delta in
  let denom := fadd (fmul slat1 slat2) (fmul (fmul clat1 clat2) cdlong) in
  let delta := atan2 delta denom in
  fmul (fmul (fabs delta) (of_int 6372795)) units_per_meter.
End Distance.

(** ** Sentences *)

(** A character of a term: a printing one, no delimiter. *)
Definition plain (c : Z) : Prop := 0 < c < 128 /\ c <> 10 /\ c <> 13 /\ c <> 42 /\ c <> 44.

Definition checksum (l : list Z) : Z := fold_left Z.lxor l 0.

Definition hex_digit (v : Z) : Z := if v <? 10 then 48 + v else 55 + v.

Definition body (fields : list (list Z)) : list Z := concat (map (cons 44) fields).

(** A sentence with these terms and this checksum, as the receiver sends it. *)
Definition nmea (talker : list Z) (fields : list (list Z)) (ck : Z) : list Z :=
  36 :: talker ++ body fields ++ [42; hex_digit (ck / 16); hex_digit (ck mod 16)].

(** The terms cut off from each other, and where they start from [o] on. *)
Definition cut (fields : list (list Z)) : list Z := concat (map (cons 0) fields).

Fixpoint add_terms (o : Z) (i : nat) (fields : list (list Z)) (tm : list (option Z)) : list (option Z) :=
  match fields with
  | [] => tm
  | f :: fs => add_terms (o + 1 + Z.of_nat (length f)) (S i) fs (<[i := Some (o + 1)]> tm)
  end.

Lemma length_add_terms fields : forall o i tm, length (add_terms o i fields tm) = length tm.
Proof.
  induction fields as [|f fs IH]; intros o i tm; [done|]. cbn [add_terms].
  by rewrite IH, length_insert.
Qed.

Lemma add_terms_before fields : forall o i tm j,
  (j < i)%nat -> add_terms o i fields tm !! j = tm !! j.
Proof.
  induction fields as [|f fs IH]; intros o i tm j Hj; [done|]. cbn [add_terms].
  rewrite IH by lia. apply list_lookup_insert_ne. lia.
Qed.

(** What the pointers point to. *)
Lemma add_terms_text fields : forall pre i tm k f post,
  fields !! k = Some f -> (i + length fields <= length tm)%nat ->
  exists o more,
    add_terms (Z.of_nat (length pre)) i fields tm !! (i + k)%nat = Some (Some o) /\
    drop (Z.to_nat o) (pre ++ cut fields ++ 0 :: post) = f ++ 0 :: more.
Proof.
  induction fields as [|f0 fs IH]; intros pre i tm k f post Hk Hl; [done|].
  cbn [length] in Hl. unfold cut. cbn [map concat add_terms]. fold (cut fs).
  destruct k as [|k].
  - injection Hk as ->. rewrite Nat.add_0_r, add_terms_before by lia.
    rewrite list_lookup_insert_eq by lia.
    exists (Z.of_nat (length pre) + 1).
    assert (Hm : exists more, cut fs ++ 0 :: post = 0 :: more).
    { destruct fs; [by exists post|]. unfold cut. cbn. by eexists. }
    destruct Hm as [more Hm]. exists more. split; [done|].
    replace (Z.to_nat (Z.of_nat (length pre) + 1)) with (S (length pre)) by lia.
    cbn [app]. by rewrite <- app_assoc, Hm, drop_here.
  - cbn in Hk.
    destruct (IH (pre ++ 0 :: f0) (S i) (<[i := Some (Z.of_nat (length pre) + 1)]> tm) k f post Hk)
      as (o & more & E1 & E2); [rewrite length_insert; lia|].
    exists o, more. split; [|by rewrite <- E2, <- !app_assoc].
    rewrite <- E1, Nat.add_succ_comm, length_app. cbn [length]. do 2 f_equal. lia.
Qed.

(** ** What the parser does with a sentence *)

Section Parses.
Variable null : list Z.

Lemma plain_char c : plain c -> i8 c = c.
Proof. intros (Hc & _). apply i8_small. lia. Qed.

Lemma loop_field f : forall k ty pre post g l t p,
  Forall plain f -> t <> MAX_TERMS ->
  gps_loop null (length f + k) ty (Z.of_nat (length pre)) (mkScan g (pre ++ f ++ post) l t p 0)
  = gps_loop null k ty (Z.of_nat (length (pre ++ f)))
      (mkScan g ((pre ++ f) ++ post) l t (fold_left Z.lxor f p) 0).
Proof.
  induction f as [|c f IH]; intros k ty pre post g l t p Hf Ht; [by rewrite app_nil_r|].
  apply Forall_cons in Hf as [Hc Hf]. cbn [length Nat.add gps_loop fold_left app].
  cbn [sentence terms state]. rewrite get_at, plain_char by done.
  destruct Hc as (_ & H10 & H13 & H42 & H44). apply Z.eqb_neq in Ht, H10, H13, H42, H44.
  rewrite H10, H13, H42, H44, Ht. cbn [orb].
  change (0 =? 0) with true. cbv iota. unfold set_parity. cbn [sc_gps sentence led terms parity state].
  replace (Z.of_nat (length pre) + 1) with (Z.of_nat (length (pre ++ [c])))
    by (rewrite length_app; cbn; lia).
  rewrite (cons_middle c pre (f ++ post)), (app_assoc pre [c]), IH by (done || by apply Z.eqb_neq).
  by rewrite (cons_middle c pre f), (app_assoc pre [c] f).
Qed.

Lemma loop_body fields : forall k ty pre post v tm al l t p,
  Forall (Forall plain) fields -> (t + length fields <= 15)%nat ->
  gps_loop null (length (body fields) + k) ty (Z.of_nat (length pre))
    (mkScan (mkGPS v tm al) (pre ++ body fields ++ post) l (Z.of_nat t) p 0)
  = gps_loop null k ty (Z.of_nat (length (pre ++ cut fields)))
      (mkScan (mkGPS v (add_terms (Z.of_nat (length pre)) t fields tm) al)
         ((pre ++ cut fields) ++ post) l (Z.of_nat (t + length fields))
         (fold_left Z.lxor (body fields) p) 0).
Proof.
  induction fields as [|f fs IH]; intros k ty pre post v tm al l t p Hf Ht.
  - unfold cut. cbn. by rewrite app_nil_r, Nat.add_0_r.
  - apply Forall_cons in Hf as [Hf Hfs]. cbn [length] in Ht.
    unfold body, cut. cbn [map concat]. fold (body fs) (cut fs). cbn [app length Nat.add gps_loop].
    cbn [sentence terms state]. rewrite get_at. change (i8 44) with 44.
    assert ((Z.of_nat t =? MAX_TERMS) = false) as -> by (apply Z.eqb_neq; unfold MAX_TERMS; lia).
    change ((44 =? 10) || (44 =? 13) || false) with false. change (0 =? 0) with true.
    change (44 =? 44) with true. cbv iota.
    unfold set_parity, add_term, set_sentence. cbn [sc_gps sentence led terms parity state valid _term gps_altitude].
    rewrite upd_app, Nat2Z.id.
    replace (Z.of_nat (length pre) + 1) with (Z.of_nat (length (pre ++ [0])))
      by (rewrite length_app; cbn; lia).
    rewrite <- app_assoc, (cons_middle 0 pre (f ++ body fs ++ post)), (app_assoc pre [0]).
    rewrite (length_app f (body fs)), <- Nat.add_assoc.
    rewrite loop_field by (done || unfold MAX_TERMS; lia).
    replace (Z.of_nat t + 1) with (Z.of_nat (S t)) by lia.
    assert (Hq : pre ++ 0 :: f ++ cut fs = ((pre ++ [0]) ++ f) ++ cut fs) by (by rewrite <- !app_assoc).
    rewrite Hq, IH by (done || lia). cbn [add_terms fold_left]. rewrite fold_left_app.
    replace (Z.of_nat (length pre) + 1 + Z.of_nat (length f))
      with (Z.of_nat (length ((pre ++ [0]) ++ f))) by (rewrite !length_app; cbn; lia).
    replace (Z.of_nat (length pre) + 1) with (Z.of_nat (length (pre ++ [0])))
      by (rewrite length_app; cbn; lia).
    by replace (t + S (length fs))%nat with (S t + length fs)%nat by lia.
Qed.

Lemma hex_digit_char v :
  0 <= v < 16 -> i8 (hex_digit v) = hex_digit v /\ nmea_dehex (hex_digit v) = v /\
  (hex_digit v =? 10) = false /\ (hex_digit v =? 13) = false.
Proof.
  intros Hv. unfold hex_digit, nmea_dehex.
  destruct (v <? 10) eqn:E; zbool;
    (split_and!; [apply i8_small; lia| |apply Z.eqb_neq; lia|apply Z.eqb_neq; lia]).
  - assert ((48 + v >=? 65) = false) as -> by (rewrite Z.geb_leb; apply Z.leb_gt; lia). lia.
  - assert ((55 + v >=? 65) = true) as -> by (rewrite Z.geb_leb; apply Z.leb_le; lia). lia.
Qed.

Lemma lxor_plain l : forall p, Forall plain l -> 0 <= p < 128 -> 0 <= fold_left Z.lxor l p < 128.
Proof.
  induction l as [|c l IH]; intros p Hl Hp; [done|]. apply Forall_cons in Hl as [[Hc _] Hl].
  cbn [fold_left]. apply IH; [done|]. apply (lxor_bound p c 7); lia.
Qed.

Lemma lxor_body fields : forall p,
  Forall (Forall plain) fields -> 0 <= p < 128 -> 0 <= fold_left Z.lxor (body fields) p < 128.
Proof.
  induction fields as [|f fs IH]; intros p Hf Hp; [done|]. apply Forall_cons in Hf as [Hf Hfs].
  unfold body. cbn [map concat app fold_left]. fold (body fs). rewrite fold_left_app.
  apply IH; [done|]. apply lxor_plain; [done|]. apply (lxor_bound p 44 7); lia.
Qed.

(** The star and the two digits of the checksum. *)
Lemma loop_star k ty pre rest g l t p :
  t <> MAX_TERMS ->
  gps_loop null (S k) ty (Z.of_nat (length pre)) (mkScan g (pre ++ 42 :: rest) l t p 0)
  = gps_loop null k ty (Z.of_nat (length (pre ++ [0]))) (mkScan g (pre ++ 0 :: rest) l t p 1).
Proof.
  intros Ht. cbn [gps_loop sentence terms state]. rewrite get_at. apply Z.eqb_neq in Ht. rewrite Ht.
  rewrite length_app, Nat2Z.inj_add. unfold set_state, set_sentence.
  cbn [sentence terms state sc_gps parity led]. by rewrite upd_app.
Qed.

Lemma loop_high k ty pre rest g l t p v :
  t <> MAX_TERMS -> 0 <= v < 16 ->
  gps_loop null (S k) ty (Z.of_nat (length pre)) (mkScan g (pre ++ hex_digit v :: rest) l t p 1)
  = gps_loop null k ty (Z.of_nat (length (pre ++ [hex_digit v])))
      (mkScan (mkGPS (valid g) (<[Z.to_nat t := Some (Z.of_nat (length pre))]> (_term g)) (gps_altitude g))
         ((pre ++ [hex_digit v]) ++ rest) l (t + 1) (i16 (p - 16 * v)) 2).
Proof.
  intros Ht Hv. destruct (hex_digit_char v Hv) as (E1 & E2 & E3 & E4).
  cbn [gps_loop sentence terms state]. rewrite get_at. apply Z.eqb_neq in Ht. rewrite E1, Ht, E3, E4.
  rewrite length_app, Nat2Z.inj_add, <- app_assoc. unfold set_state, set_parity, add_term.
  cbn [sentence terms state sc_gps parity led]. by rewrite E2.
Qed.

Lemma loop_low ty pre rest g l t p v :
  t <> MAX_TERMS -> 0 <= v < 16 ->
  gps_loop null 1 ty (Z.of_nat (length pre)) (mkScan g (pre ++ hex_digit v :: rest) l t p 2)
  = let s := mkScan g (pre ++ hex_digit v :: rest) l t (i16 (p - v)) 0 in
    if i16 (p - v) =? 0
    then let '(ok, s) := gps_verdict null ty s in (if ok then if ty =? 2 then 0 else 1 else 0, s)
    else (0, s).
Proof.
  intros Ht Hv. destruct (hex_digit_char v Hv) as (E1 & E2 & E3 & E4).
  cbn [gps_loop sentence terms state]. rewrite get_at. apply Z.eqb_neq in Ht. rewrite E1, Ht, E3, E4.
  unfold set_state, set_parity. cbn [sentence terms state sc_gps parity led]. rewrite E2.
  cbv zeta. destruct (i16 (p - v) =? 0); [|done]. by destruct (gps_verdict _ _ _) as [[] ?].
Qed.

Lemma loop_end ty pre g l t p ck rest :
  is_byte ck -> 0 <= p < 128 -> (t <= 14)%nat ->
  let s := mkScan
    (mkGPS (valid g) (<[t := Some (Z.of_nat (length (pre ++ [0])))]> (_term g)) (gps_altitude g))
    (pre ++ 0 :: hex_digit (ck / 16) :: hex_digit (ck mod 16) :: rest) l (Z.of_nat t + 1) (p - ck) 0 in
  gps_loop null 3 ty (Z.of_nat (length pre))
    (mkScan g (pre ++ 42 :: hex_digit (ck / 16) :: hex_digit (ck mod 16) :: rest) l (Z.of_nat t) p 0)
  = if p =? ck
    then let '(ok, s) := gps_verdict null ty s in (if ok then if ty =? 2 then 0 else 1 else 0, s)
    else (0, s).
Proof.
  intros Hck Hp Ht s. unfold is_byte in Hck.
  rewrite loop_star by (unfold MAX_TERMS; lia).
  set (h := ck / 16) in *. set (d := ck mod 16) in *.
  assert (Hh : 0 <= h < 16) by (unfold h; zlia). assert (Hd : 0 <= d < 16) by (unfold d; zlia).
  assert (Hhd : ck = 16 * h + d) by (unfold h, d; zlia). clearbody h d.
  rewrite (cons_middle 0 pre (_ :: _ :: rest)), (app_assoc pre [0]), loop_high by (done || unfold MAX_TERMS; lia).
  rewrite loop_low by (done || unfold MAX_TERMS; lia).
  rewrite Nat2Z.id, (i16_small (p - _)), i16_small by lia.
  replace (p - 16 * h - d) with (p - ck) by lia.
  assert ((p - ck =? 0) = (p =? ck)) as -> by (destruct (p =? ck) eqn:E; zbool;
    [apply Z.eqb_eq; lia|apply Z.eqb_neq; lia]).
  cbv zeta. unfold s. by rewrite <- !app_assoc.
Qed.

Lemma float_loop_end f more : forall dec rl rr rb,
  Forall (fun c => c <> 0) f ->
  decimal_float_loop (f ++ 0 :: more) dec rl rr rb = decimal_float_loop f dec rl rr rb.
Proof.
  induction f as [|c f IH]; intros dec rl rr rb Hf; [done|]. apply Forall_cons in Hf as [Hc Hf].
  cbn [app decimal_float_loop]. apply Z.eqb_neq in Hc. rewrite Hc.
  destruct (c =? 46); [by apply IH|]. destruct (negb dec); by apply IH.
Qed.

Lemma float_end f more :
  Forall (fun c => c <> 0) f -> nmea_decimal_float (f ++ 0 :: more) = nmea_decimal_float f.
Proof.
  intros Hf. unfold nmea_decimal_float.
  assert (Hs : signed (f ++ 0 :: more) = signed f) by (by destruct f).
  assert (Hh : (hd 0 (f ++ 0 :: more) =? 45) = (hd 0 f =? 45)) by (by destruct f).
  rewrite Hs, Hh. destruct (signed f) eqn:E.
  - destruct f as [|c f]; [done|]. apply Forall_cons in Hf as [_ Hf]. cbn [app tl].
    by rewrite float_loop_end.
  - by rewrite float_loop_end.
Qed.

(** Where the terms of a sentence are once it is parsed. *)
Lemma parsed_terms pre fields post g (tm : list (option Z)) j p k f :
  _term g = <[j := p]> (add_terms (Z.of_nat (length pre)) 0 fields tm) ->
  fields !! k = Some f -> (length fields <= j)%nat -> (length fields <= length tm)%nat ->
  exists more, term null g (pre ++ cut fields ++ 0 :: post) k = f ++ 0 :: more.
Proof.
  intros Hg Hk Hj Hl. pose proof (lookup_lt_Some _ _ _ Hk) as Hlt.
  destruct (add_terms_text fields pre 0 tm k f post Hk Hl) as (o & more & E1 & E2).
  exists more. unfold term. rewrite Hg, list_lookup_insert_ne by lia.
  cbn [Nat.add] in E1. by rewrite E1.
Qed.

Definition talker (rmc : bool) : list Z := chars (if rmc then "GPRMC" else "GPGGA").

(** Whether the terms say that there is a position. *)
Definition has_fix (rmc : bool) (fields : list (list Z)) : bool :=
  if rmc then hd 0 (default [] (fields !! GPRMC_TERM_STATUS)) =? 65
  else negb (hd 0 (default [] (fields !! GPGGA_TERM_FIXQUALITY)) =? 48).

Definition feet (fields : list (list Z)) : Z :=
  u16 (lroundf (fmul (nmea_decimal_float (default [] (fields !! GPGGA_TERM_ALTITUDE))) METER_TO_FEET)).

Lemma parse_scan g (rmc : bool) fields ck rest :
  (8 <= length (nmea (talker rmc) fields ck) <= 80)%nat ->
  gps_parse null g (nmea (talker rmc) fields ck ++ 0 :: rest)
    (Z.of_nat (length (nmea (talker rmc) fields ck)))
  = let '(r, s) :=
      gps_loop null (Z.to_nat (Z.of_nat (length (nmea (talker rmc) fields ck)) - 6)) (if rmc then 1 else 2) 6
        (mkScan g (nmea (talker rmc) fields ck ++ 0 :: rest) false 0
           (if rmc then GPRMC_PARITY_INITIAL else GPGGA_PARITY_INITIAL) 0) in
    (r, sc_gps s, sentence s, led s).
Proof.
  intros Hlen. unfold gps_parse. set (n := Z.of_nat (length _)) at 1 2.
  assert ((n <=? MIN_SENTENCEN_CHARS) = false) as ->
    by (apply Z.leb_gt; unfold n, MIN_SENTENCEN_CHARS; lia).
  assert ((n >? MAX_SENTENCEN_CHARS) = false) as ->
    by (rewrite Z.gtb_ltb; apply Z.ltb_ge; unfold n, MAX_SENTENCEN_CHARS; lia).
  by destruct rmc.
Qed.

(** The verdict read off the terms. *)
Lemma verdict_terms (rmc : bool) (s : Scan) (fields : list (list Z)) :
  Forall (Forall plain) fields -> ((if rmc then 2 else 9) <= length fields)%nat ->
  (forall k f, fields !! k = Some f ->
    exists more, term null (sc_gps s) (sentence s) k = f ++ 0 :: more) ->
  let '(ok, s') := gps_verdict null (if rmc then 1 else 2) s in
  ok = has_fix rmc fields /\ _term (sc_gps s') = _term (sc_gps s) /\ sentence s' = sentence s /\
  valid (sc_gps s') = ok /\
  gps_altitude (sc_gps s') = if negb rmc && ok then feet fields else gps_altitude (sc_gps s).
Proof.
  intros Hf Hl Ht.
  assert (Hd : forall (k : nat) (f : list Z), fields !! k = Some f ->
    hd 0 (term null (sc_gps s) (sentence s) k) = hd 0 f).
  { intros k f Hk. destruct (Ht k f Hk) as [more ->]. by destruct f. }
  unfold gps_verdict, has_fix. destruct rmc.
  - change (1 =? 1) with true. change (1 =? 2) with false. cbv iota. cbn [negb andb].
    destruct (lookup_lt_is_Some_2 fields GPRMC_TERM_STATUS) as [f Hk];
      [unfold GPRMC_TERM_STATUS; lia|].
    rewrite (Hd _ f Hk), Hk. change (default [] (Some f)) with f. by destruct (hd 0 f =? 65).
  - change (2 =? 1) with false. change (2 =? 2) with true. cbv iota. cbn [negb andb].
    destruct (lookup_lt_is_Some_2 fields GPGGA_TERM_FIXQUALITY) as [f Hk];
      [unfold GPGGA_TERM_FIXQUALITY; lia|].
    rewrite (Hd _ f Hk), Hk. change (default [] (Some f)) with f.
    destruct (negb (hd 0 f =? 48)); [|done].
    unfold feet. cbn [set_led set_sc_gps sc_gps sentence _term valid gps_altitude].
    destruct (lookup_lt_is_Some_2 fields GPGGA_TERM_ALTITUDE) as [alt Ha];
      [unfold GPGGA_TERM_ALTITUDE; lia|].
    rewrite Ha. change (default [] (Some alt)) with alt.
    change (term null (mkGPS true (_term (sc_gps s)) (gps_altitude (sc_gps s))) (sentence s))
      with (term null (sc_gps s) (sentence s)).
    destruct (Ht _ _ Ha) as [more ->]. rewrite float_end; [done|].
    eapply Forall_impl; [apply (Forall_lookup_1 _ _ _ _ Hf Ha)|]. intros c (Hc & _). lia.
Qed.

Lemma parse_sentence (g : GPS) (rmc : bool) (fields : list (list Z)) (ck : Z) (rest : list Z)
    (Hf : Forall (Forall plain) fields) (Hck : is_byte ck)
    (Hn : ((if rmc then 2 else 9) <= length fields <= 14)%nat)
    (Hlen : (8 <= length (nmea (talker rmc) fields ck) <= 80)%nat) (Hg : length (_term g) = 16%nat) :
  let line := nmea (talker rmc) fields ck in
  let counts := checksum (talker rmc ++ body fields) =? ck in
  let '(r, g', buf, led) := gps_parse null g (line ++ 0 :: rest) (Z.of_nat (length line)) in
  (forall k f, fields !! k = Some f -> exists more, term null g' buf k = f ++ 0 :: more) /\
  valid g' = (if counts then has_fix rmc fields else valid g) /\
  r = b2z (counts && rmc && has_fix rmc fields) /\
  gps_altitude g' =
    (if counts && negb rmc && has_fix rmc fields then feet fields else gps_altitude g) /\
  length (_term g') = 16%nat.
Proof.
  intros line counts. set (pre := 36 :: talker rmc).
  assert (Hpre : length pre = 6%nat) by (by destruct rmc).
  assert (Hline : line = pre ++ body fields ++ [42; hex_digit (ck / 16); hex_digit (ck mod 16)]) by done.
  assert (Hll : length line = (6 + length (body fields) + 3)%nat)
    by (rewrite Hline, !length_app, Hpre; cbn; lia).
  pose proof (parse_scan g rmc fields ck rest Hlen) as Escan. fold line in Escan. rewrite Escan.
  replace (Z.to_nat (Z.of_nat (length line) - 6)) with (length (body fields) + 3)%nat by lia.
  replace 6 with (Z.of_nat (length pre)) by (by rewrite Hpre). rewrite Hline, <- !app_assoc.
  destruct g as [v tm al]. cbn [_term valid gps_altitude] in *.
  change 0 with (Z.of_nat 0) at 2. rewrite loop_body by (done || lia).
  rewrite <- app_assoc. cbn [app Nat.add].
  rewrite (app_assoc pre (cut fields)).
  rewrite loop_end; [|done|apply lxor_body; [done|by destruct rmc]|lia].
  cbn [valid _term gps_altitude].
  assert (Hcount : (fold_left Z.lxor (body fields) (if rmc then GPRMC_PARITY_INITIAL else GPGGA_PARITY_INITIAL) =? ck)
    = counts).
  { unfold counts, checksum. rewrite fold_left_app. by destruct rmc. }
  rewrite Hcount. set (s := mkScan _ _ _ _ _ _).
  assert (Hterm : forall k f, fields !! k = Some f ->
    exists more, term null (sc_gps s) (sentence s) k = f ++ 0 :: more).
  { intros k f Hk. unfold s. cbn [sc_gps sentence]. rewrite <- !app_assoc. cbn [app].
    eapply parsed_terms; [done|done|lia|lia]. }
  assert (H16 : length (_term (sc_gps s)) = 16%nat)
    by (unfold s; cbn [sc_gps _term]; by rewrite length_insert, length_add_terms).
  assert (Hs : valid (sc_gps s) = v /\ gps_altitude (sc_gps s) = al) by done.
  destruct Hs as [Hv0 Hal]. clearbody s counts. destruct counts; cbn [andb]; [|by split_and!].
  pose proof (verdict_terms rmc s fields Hf ltac:(lia) Hterm) as Hv.
  destruct (gps_verdict null (if rmc then 1 else 2) s) as [ok s'].
  destruct Hv as (-> & Et & Es & Ev & Ea).
  cbn [b2z]. split_and!.
  - intros k f Hk. destruct (Hterm k f Hk) as [more Hm]. exists more. unfold term in *. by rewrite Et, Es.
  - done.
  - by destruct rmc, (has_fix _ fields).
  - rewrite Ea, Hal. by destruct rmc, (has_fix _ fields).
  - by rewrite Et.
Qed.

(** C23: what [gps_parse] makes of a sentence: the terms are the strings between the
    commas; the sentence counts exactly if the two digits after the star are the
    exclusive or of what is between dollar and star; a position report that counts
    says whether there is a position, and the result is 1 if there is; a fix report
    that counts says the same and gives the altitude in feet. A sentence that does
    not count changes neither the validity nor the altitude. *)
Theorem gps_parse_sentence (g : GPS) (rmc : bool) (fields : list (list Z)) (ck : Z) (rest : list Z)
    (Hf : Forall (Forall plain) fields) (Hck : is_byte ck)
    (Hn : ((if rmc then 2 else 9) <= length fields <= 14)%nat)
    (Hlen : (8 <= length (nmea (talker rmc) fields ck) <= 80)%nat) (Hg : length (_term g) = 16%nat) :
  let line := nmea (talker rmc) fields ck in
  let counts := checksum (talker rmc ++ body fields) =? ck in
  let '(r, g', buf, led) := gps_parse null g (line ++ 0 :: rest) (Z.of_nat (length line)) in
  (forall k f, fields !! k = Some f -> exists more, term null g' buf k = f ++ 0 :: more) /\
  valid g' = (if counts then has_fix rmc fields else valid g) /\
  r = b2z (counts && rmc && has_fix rmc fields) /\
  gps_altitude g' =
    (if counts && negb rmc && has_fix rmc fields then feet fields else gps_altitude g) /\
  length (_term g') = 16%nat.
Proof. by apply parse_sentence. Qed.
End Parses.

(** ** Time *)

(** The digits of a time of day, as the receiver sends them. *)
Definition utc (h m s : Z) : list Z :=
  [48 + h / 10; 48 + h mod 10; 48 + m / 10; 48 + m mod 10; 48 + s / 10; 48 + s mod 10].

Definition time_ok (h m s : Z) : Prop := 0 <= h < 24 /\ 0 <= m < 60 /\ 0 <= s < 60.

Definition seconds (h m s : Z) : Z := 3600 * h + 60 * m + s.

Lemma clock_part_value v unit :
  0 <= v < 100 -> clock_part (48 + v / 10) (48 + v mod 10) unit = i16 (v * unit).
Proof.
  intros Hv. unfold clock_part, TO_NUM. rewrite !i8_small by zlia. f_equal. f_equal. zlia.
Qed.

(** The time of a position is right before ten o'clock; from then on the product of
    the hour and 3600 exceeds 16 bits and the time is 65536 seconds too early, an
    unsigned number beyond four thousand million until 18:12:15, and 0 at 18:12:16. *)
Lemma timestamp_value h m s more :
  time_ok h m s ->
  gps_timestamp (utc h m s ++ more)
  = if h <? 10 then seconds h m s else u32 (seconds h m s - 65536).
Proof.
  intros (Hh & Hm & Hs). unfold gps_timestamp.
  assert (Hlen : (Z.of_nat (strnlen (utc h m s ++ more)) >=? 6) = true).
  { unfold utc. cbn [app strnlen].
    assert (E : forall v, 0 <= v -> (48 + v =? 0) = false) by (intros v Hv; apply Z.eqb_neq; lia).
    rewrite !E by (apply Z.div_pos || apply Z.mod_pos_bound; lia).
    rewrite Z.geb_leb. apply Z.leb_le. lia. }
  rewrite Hlen. set (u := utc h m s ++ more).
  change (get u 0) with (48 + h / 10). change (get u 1) with (48 + h mod 10).
  change (get u 2) with (48 + m / 10). change (get u 3) with (48 + m mod 10).
  change (get u 4) with (48 + s / 10). change (get u 5) with (48 + s mod 10). clear u Hlen.
  rewrite !clock_part_value by lia. rewrite (i16_small (m * 60)), (i16_small (s * 1)) by lia.
  unfold seconds, u32. destruct (h <? 10) eqn:E; zbool.
  - rewrite (i16_small (h * 3600)) by lia. rewrite (Z.mod_small (h * 3600)) by lia.
    rewrite (Z.mod_small (h * 3600 + m * 60)) by lia. rewrite Z.mod_small by lia. lia.
  - assert (i16 (h * 3600) = h * 3600 - 65536) as -> by (unfold i16; zlia).
    rewrite Zplus_mod_idemp_l, <- Z.add_assoc, Zplus_mod_idemp_l. f_equal. lia.
Qed.

(** Differences of times are right all the same, to 16 bits. *)
Lemma timestamp_mod h m s more :
  time_ok h m s -> u16 (gps_timestamp (utc h m s ++ more)) = u16 (seconds h m s).
Proof.
  intros Ht. rewrite timestamp_value by done. unfold u16, u32. destruct (h <? 10); [done|].
  rewrite Z.mod_mod_divide by (by exists 65536).
  replace (seconds h m s - 65536) with (seconds h m s + (-1) * 65536) by lia.
  apply Z.mod_add. lia.
Qed.

(** ** A sentence *)

(** The GPS after power-on. *)
Definition gps_zero : GPS := mkGPS false (replicate 16 None) 0.

Definition sample_fields : list (list Z) :=
  map chars ["123519"; "A"; "4807.038"; "N"; "01131.000"; "E"; "022.4"; "084.4"; "230394"; "003.1"; "W"]%string.

Lemma sample_plain : Forall (Forall plain) sample_fields.
Proof. unfold plain. decide_closed. Qed.

Lemma gps_parse_sentence_witness :
  let line := chars "$GPRMC,123519,A,4807.038,N,01131.000,E,022.4,084.4,230394,003.1,W*6A" in
  let '(r, g, buf, led) := gps_parse [] gps_zero (line ++ 0 :: []) (Z.of_nat (length line)) in
  r = 1 /\ exists more, term [] g buf GPRMC_TERM_LATITUDE = chars "4807.038" ++ 0 :: more.
Proof.
  assert (E : chars "$GPRMC,123519,A,4807.038,N,01131.000,E,022.4,084.4,230394,003.1,W*6A"
    = nmea (talker true) sample_fields 0x6A) by reflexivity.
  assert (Hl : length (nmea (talker true) sample_fields 0x6A) = 68%nat) by reflexivity.
  cbv zeta. rewrite E.
  assert (T := gps_parse_sentence [] gps_zero true sample_fields 0x6A []). cbv zeta in T.
  destruct (gps_parse _ _ _ _) as [[[r g] buf] led0].
  destruct T as (Hterms & _ & Hr & _).
  - apply sample_plain.
  - unfold is_byte. lia.
  - cbn. lia.
  - rewrite Hl. lia.
  - reflexivity.
  - split; [rewrite Hr; vm_compute; reflexivity|]. apply Hterms. reflexivity.
Defined.
