(* ===== verification/Tracker.v ===== *)
(** * The tracker: [TinyAPRS/tracker.c]

    Positions heard from the GPS receiver go on the air, more often at speed and at
    turns.  The beacon ([beacon_send]) and the line reader are shared with the other
    modes; the GPS port is the console's.  [now] gives the readings of the clock:
    [now 0] when the interval is checked, [now 1] after sending.  [sin], [cos] and
    [atan2] are the mathematical library's, [null] the memory at address 0,
    [stack64] what the payload buffer holds before it is filled. *)

From Stdlib Require Import ZArith Lia Bool List.
From Stdlib Require Import String SpecFloat.
From stdpp Require Import prelude.
From S2P Require Import Prelude.
From S2P Require Import Libc.
From S2P Require Import Fifo.
From S2P Require Import KFile.
From S2P Require Import Formatwr.
From S2P Require Import Timer.
From S2P Require Import Ax25.
From S2P Require Import Ax25Tx.
From S2P Require Import Ax25Link.
From S2P Require Import Utils.
From S2P Require Import Ser.
From S2P Require Import Settings.
From S2P Require Import Reader.
From S2P Require Import Kiss.
From S2P Require Import Beacon.
From S2P Require Import Float32.
From S2P Require Import Gps.

Open Scope Z_scope.

(** ** Constants and data *)

Definition SB_FAST_RATE : Z := 45.
Definition SB_SLOW_RATE : Z := 120.
Definition SB_LOW_SPEED : Z := 5.
Definition SB_HI_SPEED : Z := 70.
Definition SB_TURN_TIME : Z := 15.
Definition SB_TURN_MIN : float := of_int 10.
Definition SB_TURN_SLOPE : float := of_int 240.

(** [g_gps], the signal LED, [lastSendTimeSeconds] and [lastLocation] of the
    tracker, and what it shares with the rest of the program. *)
Record Tracker (S F : Type) := mkTracker {
  g_gps : GPS;
  gps_led : bool;
  tk_last : Z;
  lastLocation : Location;
  tk_reader : SerialReader S;
  tk_set : Settings;
  tk_ax : AX25Ctx F
}.

Arguments mkTracker {S F}.
Arguments g_gps {S F}. Arguments gps_led {S F}. Arguments tk_last {S F}.
Arguments lastLocation {S F}. Arguments tk_reader {S F}. Arguments tk_set {S F}.
Arguments tk_ax {S F}.

Definition set_gps {S F : Type} (g : GPS) (l : bool) (t : Tracker S F) : Tracker S F :=
  mkTracker g l (tk_last t) (lastLocation t) (tk_reader t) (tk_set t) (tk_ax t).
Definition set_sent {S F : Type} (s : Z) (loc : Location) (t : Tracker S F) : Tracker S F :=
  mkTracker (g_gps t) (gps_led t) s loc (tk_reader t) (tk_set t) (tk_ax t).
Definition set_tk_reader {S F : Type} (r : SerialReader S) (t : Tracker S F) : Tracker S F :=
  mkTracker (g_gps t) (gps_led t) (tk_last t) (lastLocation t) r (tk_set t) (tk_ax t).
Definition set_tk_ax {S F : Type} (ax : AX25Ctx F) (t : Tracker S F) : Tracker S F :=
  mkTracker (g_gps t) (gps_led t) (tk_last t) (lastLocation t) (tk_reader t) (tk_set t) ax.

Definition no_location : Location := mkLocation (of_int 0) (of_int 0) (of_int 0) 0 0 0.

(** ** When to send *)

Definition _calc_heading (l1 l2 : Location) : Z :=
  let d := u16 (Z.rem (i16 (Z.abs (i16 (heading l1 - heading l2)))) 360) in
  if d <=? 180 then d else u16 (360 - d).

(** The seconds between two beacons at this speed. *)
Definition beacon_rate (speed : Z) : float :=
  if speed <? SB_LOW_SPEED then of_int SB_SLOW_RATE
  else if speed >? SB_HI_SPEED then of_int SB_FAST_RATE
  else of_int (u16 (SB_FAST_RATE +
    u16 ((SB_SLOW_RATE - SB_FAST_RATE) * u16 (SB_HI_SPEED - speed)) / (SB_HI_SPEED - SB_LOW_SPEED))).

Section Tracker.
Variables sin cos : float -> float.
Variable atan2 : float -> float -> float.
Variable null : list Z.
Variable stack64 : list Z.
Context {S : Type} `{SerPort S} {F : Type} `{KFile F} `{Carrier F}.
Implicit Types t : Tracker S F.

Definition _calc_speed_kmh (l1 l2 : Location) : Z :=
  let dist := gps_distance_between sin cos atan2 l1 l2 (of_int 1) in
  let time_diff := i16 (Z.abs (i16 (u32 (timestamp l1 - timestamp l2)))) in
  let s := fmul (fdiv dist (of_int time_diff)) (decimal_const 36 1) in
  let s2 := fmax (speedInKMH l1) (speedInKMH l2) in
  u16 (lroundf (fmax s s2)).

Definition _smart_beacon_turn_angle_check (location : Location) (secs_since_beacon : Z) t : bool :=
  if (heading location =? 0) || feq (speedInKMH location) (of_int 0) then false
  else if heading (lastLocation t) =? 0 then secs_since_beacon >=? SB_TURN_TIME
  else
    let heading_change_since_beacon := _calc_heading location (lastLocation t) in
    let turn_threshold :=
      u16 (lroundf (fadd SB_TURN_MIN (fdiv SB_TURN_SLOPE (speedInKMH location)))) in
    (secs_since_beacon >=? SB_TURN_TIME) && (heading_change_since_beacon >? turn_threshold).

Definition _fixed_interval_beacon_check (now : Z) t : bool :=
  if tk_last t =? 0 then true else i32 (timer_clock_seconds now - tk_last t) >? SB_FAST_RATE.

Definition _smart_beacon_check (now : Z) (location : Location) t : bool :=
  if (tk_last t =? 0) || (timestamp (lastLocation t) =? 0) then true
  else
    let secs_since_beacon := i16 (u32 (timestamp location - timestamp (lastLocation t))) in
    if secs_since_beacon <=? 0 then false
    else if _smart_beacon_turn_angle_check location secs_since_beacon t then true
    else
      let calculated_speed_kmh := _calc_speed_kmh location (lastLocation t) in
      let rate := lroundf (beacon_rate calculated_speed_kmh) in
      i32 (timer_clock_seconds now - tk_last t) >? rate.

(** ** What to send *)

(** The payload buffer and its length. *)
Definition tracker_payload t : list Z * Z :=
  let g := g_gps t in
  let term := term null g (sr_buf (tk_reader t)) in
  let s1 := symbol0 (g_settings (tk_set t)) in
  let s1 := if s1 =? 0 then 47 else s1 in
  let s2 := symbol1 (g_settings (tk_set t)) in
  let s2 := if s2 =? 0 then 62 else s2 in
  let '(n, payload) := snprintf stack64 0 63
    ([33] ++ fmt_s 7 (term GPRMC_TERM_LATITUDE) ++ [hd 0 (term GPRMC_TERM_LATITUDE_NS)] ++ [s1]
      ++ fmt_s 8 (term GPRMC_TERM_LONGITUDE) ++ [hd 0 (term GPRMC_TERM_LONGITUDE_WE)] ++ [s2]
      ++ fmt_0d 3 (nmea_decimal_int (term GPRMC_TERM_HEADING)) ++ [47]
      ++ fmt_0d 3 (nmea_decimal_int (term GPRMC_TERM_SPEED))) in
  let len := u8 n in
  let '(len, payload) :=
    if gps_altitude g >? 0 then
      let '(n, payload) := snprintf payload len (63 - len)
        (chars "/A=" ++ fmt_0d 6 (gps_altitude g)) in
      (u8 (len + n), payload)
    else (len, payload) in
  let '(n, payload) := snprintf payload len (63 - len) (chars " TinyAPRS Rocks!") in
  (payload, u8 (len + n)).

(** [beacon_send], on what the tracker shares with the beacon. *)
Definition send_payload (payload : list Z) (len : Z) t : Tracker S F :=
  let b := beacon_send payload len (mkBeacon 0 (tk_set t) (sr_ser (tk_reader t)) (tk_ax t)) in
  set_tk_ax (bc_ax b) (set_tk_reader (set_sr_ser (bc_ser b) (tk_reader t)) t).

Definition tracker_update_location (now : nat -> Z) t : Tracker S F :=
  if negb (valid (g_gps t)) then t
  else
    let location := gps_get_location null (g_gps t) (sr_buf (tk_reader t)) in
    if _smart_beacon_check (now 0%nat) location t then
      let '(payload, len) := tracker_payload t in
      set_sent (timer_clock_seconds (now 1%nat)) location (send_payload payload len t)
    else t.

(** ** Initialisation and polling *)

(** While the program waits, the modem goes on. *)
Definition tk_delay (ms : Z) t : Tracker S F :=
  set_tk_ax (set_ax_ch (Kiss.timer_delay ms (ax_ch (tk_ax t))) (tk_ax t)) t.

Definition on_ser (f : S -> S) t : Tracker S F :=
  set_tk_reader (set_sr_ser (f (sr_ser (tk_reader t))) (tk_reader t)) t.

Definition SIRF_BAUD_9600 : list Z := crlf ++ chars "$PSRF100,1,9600,8,1,0*0D" ++ crlf.
Definition SIRF_DISABLE : list Z :=
  crlf ++ chars "$PSRF103,1,0,0,1*25" ++ crlf ++ chars "$PSRF103,2,0,0,1*26" ++ crlf
  ++ chars "$PSRF103,3,0,0,1*27" ++ crlf ++ chars "$PSRF103,5,0,0,1*21" ++ crlf.

Definition gps_init t : Tracker S F :=
  let t := set_gps (mkGPS false (replicate 16 None) 0) (gps_led t) t in
  let t := on_ser sp_purge (tk_delay 150 (on_ser (sp_setbaudrate 4800) t)) in
  let t := on_ser (fun s => snd (kfile_print_P s SIRF_BAUD_9600)) t in
  let t := on_ser sp_purge (tk_delay 150 t) in
  let t := on_ser sp_purge (tk_delay 150 (on_ser (sp_setbaudrate 9600) t)) in
  let t := on_ser (fun s => snd (kfile_print_P s SIRF_DISABLE)) t in
  on_ser sp_purge (tk_delay 150 t).

Definition tracker_init_gps t : Tracker S F :=
  let t := gps_init t in
  set_tk_reader (serialreader_reset (tk_reader t)) t.

Definition tracker_poll (now : nat -> Z) t : Tracker S F :=
  let '(n, r) := serialreader_readline (tk_reader t) in
  let t := set_tk_reader r t in
  if n >? 0 then
    let '(res, g, buf, l) := gps_parse null (g_gps t) (sr_buf r) (dataLen r) in
    let t := set_gps g l (set_tk_reader (set_sr_buf buf r) t) in
    if negb (res =? 0) && valid g then tracker_update_location now t else t
  else t.
End Tracker.

(** ** The interval *)

(** The interval as whole seconds. *)
Definition smart_interval (speed : Z) : Z :=
  if speed <? 5 then 120 else if speed >? 70 then 45 else 45 + 75 * (70 - speed) / 65.

Lemma beacon_rate_whole v : 0 <= v -> lroundf (beacon_rate v) = smart_interval v.
Proof.
  intros Hv. unfold beacon_rate, smart_interval, SB_LOW_SPEED, SB_HI_SPEED.
  destruct (v <? 5) eqn:E1; [reflexivity|]. destruct (v >? 70) eqn:E2; [reflexivity|].
  rewrite Z.gtb_ltb in E2. zbool. apply Z.eqb_eq.
  pose proof (forall_byte (fun v => implb ((5 <=? v) && (v <=? 70))
    (lroundf (of_int (u16 (SB_FAST_RATE + u16 ((SB_SLOW_RATE - SB_FAST_RATE) * u16 (70 - v)) / (70 - 5))))
      =? 45 + 75 * (70 - v) / 65)) ltac:(vm_compute; reflexivity) v ltac:(unfold is_byte; lia)) as Hc.
  assert ((5 <=? v) && (v <=? 70) = true) as Hr by (apply andb_true_intro; split; apply Z.leb_le; lia).
  cbv beta in Hc. rewrite Hr in Hc. exact Hc.
Qed.

Lemma smart_interval_range v : 0 <= v -> 45 <= smart_interval v <= 120.
Proof.
  intros Hv. unfold smart_interval. rewrite Z.gtb_ltb.
  destruct (v <? 5) eqn:E1; [lia|]. destruct (70 <? v) eqn:E2; [lia|]. zbool. zlia.
Qed.

Lemma smart_interval_mono v w : 0 <= v <= w -> smart_interval w <= smart_interval v.
Proof.
  intros Hv. pose proof (smart_interval_range v ltac:(lia)). pose proof (smart_interval_range w ltac:(lia)).
  unfold smart_interval in *. rewrite !Z.gtb_ltb in *.
  destruct (v <? 5) eqn:E1; [lia|]. destruct (w <? 5) eqn:E2; zbool; [lia|].
  destruct (70 <? w) eqn:E3; [lia|]. destruct (70 <? v) eqn:E4; zbool; [lia|]. zlia.
Qed.

Section Promises.
Variables sin cos : float -> float.
Variable atan2 : float -> float -> float.
Variable null : list Z.
Variable stack64 : list Z.
Context {S : Type} `{SerLaws S} {F : Type} `{KSink F} `{Carrier F}.
Implicit Types t : Tracker S F.

(** The interval between beacons: on a straight course, with the clock going
    forward, a position is sent exactly when the last beacon is more than the
    interval of the speed ago; the interval, computed in floating point, is a
    whole number of seconds between 45 and 120 and never longer at a higher
    speed. *)
Theorem tracker_interval (now : Z) (location : Location) t
    (Hlast : tk_last t <> 0) (Hloc : timestamp (lastLocation t) <> 0)
    (Hsecs : 0 < i16 (u32 (timestamp location - timestamp (lastLocation t))))
    (Hturn : _smart_beacon_turn_angle_check location
      (i16 (u32 (timestamp location - timestamp (lastLocation t)))) t = false) :
  let speed := _calc_speed_kmh sin cos atan2 location (lastLocation t) in
  _smart_beacon_check sin cos atan2 now location t
    = (i32 (timer_clock_seconds now - tk_last t) >? smart_interval speed) /\
  45 <= smart_interval speed <= 120 /\
  (forall faster, speed <= faster -> smart_interval faster <= smart_interval speed).
Proof.
  intros speed. assert (Hv : 0 <= speed) by apply u16_range.
  split; [|split; [by apply smart_interval_range|intros; by apply smart_interval_mono]].
  unfold _smart_beacon_check. apply Z.eqb_neq in Hlast, Hloc. rewrite Hlast, Hloc. cbn [orb].
  apply Z.leb_gt in Hsecs. rewrite Hsecs, Hturn. fold speed. by rewrite beacon_rate_whole.
Qed.

(** ** Over midnight *)

Lemma i16_u32 x : i16 (u32 x) = i16 (u16 x).
Proof.
  unfold i16, u32, u16.
  assert (E : (x mod 4294967296) mod 65536 = x mod 65536) by (apply Z.mod_mod_divide; by exists 65536).
  rewrite (Z.add_mod (x mod 4294967296)), E, <- Z.add_mod by lia.
  rewrite (Z.add_mod (x mod 65536)), Z.mod_mod, <- Z.add_mod by lia. done.
Qed.

(** The seconds between two times of day, as the tracker computes them. *)
Lemma timestamps_apart h1 m1 s1 h2 m2 s2 more1 more2 :
  time_ok h1 m1 s1 -> time_ok h2 m2 s2 ->
  i16 (u32 (gps_timestamp (utc h2 m2 s2 ++ more2) - gps_timestamp (utc h1 m1 s1 ++ more1)))
  = i16 (u16 (seconds h2 m2 s2 - seconds h1 m1 s1)).
Proof.
  intros H1' H2'. rewrite i16_u32. f_equal.
  pose proof (timestamp_mod h1 m1 s1 more1 H1') as E1.
  pose proof (timestamp_mod h2 m2 s2 more2 H2') as E2. unfold u16 in *.
  by rewrite Zminus_mod, E1, E2, <- Zminus_mod.
Qed.

Lemma seconds_range h m s : time_ok h m s -> 0 <= seconds h m s < 86400.
Proof. unfold time_ok, seconds. lia. Qed.

(** The tracker goes silent over midnight. When the last position was sent in
    the last hours of the day, later than 18:12:16, nothing is sent after midnight,
    whatever the station does and however long ago the last beacon is, until the
    time of day has reached that of the last beacon less 65536 seconds, which can
    be as late as 5:47:43 in the morning. *)
Theorem tracker_silent_after_midnight (now : nat -> Z) t
    (h1 m1 s1 h2 m2 s2 : Z) (more1 more2 : list Z) (p : Z)
    (Ht1 : time_ok h1 m1 s1) (Ht2 : time_ok h2 m2 s2)
    (Hlate : 65536 < seconds h1 m1 s1) (Hearly : seconds h2 m2 s2 <= seconds h1 m1 s1 - 65536)
    (Hlast : timestamp (lastLocation t) = gps_timestamp (utc h1 m1 s1 ++ more1))
    (Hterm : _term (g_gps t) !! GPRMC_TERM_UTC_TIME = Some (Some p))
    (Hnow : term null (g_gps t) (sr_buf (tk_reader t)) GPRMC_TERM_UTC_TIME = utc h2 m2 s2 ++ more2)
    (Hsent : tk_last t <> 0) :
  tracker_update_location sin cos atan2 null stack64 now t = t.
Proof.
  unfold tracker_update_location. destruct (negb (valid (g_gps t))); [done|].
  assert (Hloc : timestamp (gps_get_location null (g_gps t) (sr_buf (tk_reader t)))
    = gps_timestamp (utc h2 m2 s2 ++ more2)).
  { unfold gps_get_location. cbn [timestamp]. by rewrite Hterm, Hnow. }
  set (location := gps_get_location _ _ _) in *. clearbody location.
  pose proof (seconds_range _ _ _ Ht1). pose proof (seconds_range _ _ _ Ht2).
  assert (Hcheck : _smart_beacon_check sin cos atan2 (now 0%nat) location t = false); [|by rewrite Hcheck].
  unfold _smart_beacon_check. rewrite Hloc, Hlast, timestamps_apart by done.
  assert ((tk_last t =? 0) = false) as -> by (by apply Z.eqb_neq).
  assert ((gps_timestamp (utc h1 m1 s1 ++ more1) =? 0) = false) as ->.
  { apply Z.eqb_neq. intros E. pose proof (timestamp_mod h1 m1 s1 more1 Ht1) as Em.
    rewrite E in Em. unfold u16 in Em. cbn in Em. zlia. }
  assert ((i16 (u16 (seconds h2 m2 s2 - seconds h1 m1 s1)) <=? 0) = true) as ->; [|done].
  apply Z.leb_le. unfold i16, u16. zlia.
Qed.

(** ** A report *)

(** The digits of a number end at its point, or at the end of the field. *)
Lemma int_loop_stops l c more : forall rl,
  c = 0 \/ c = 46 -> decimal_int_loop (l ++ c :: more) rl = decimal_int_loop l rl.
Proof.
  intros rl Hc. revert rl. induction l as [|d l IH]; intros rl; cbn [app decimal_int_loop].
  - by destruct Hc as [-> | ->].
  - destruct ((d =? 0) || (d =? 46)); [done|]. apply IH.
Qed.

Definition digit (c : Z) : Prop := 48 <= c < 58.

(** Three places, with zeros in front. *)
Definition padded (l : list Z) : list Z := replicate (3 - length l) 48 ++ l.

Lemma padded_digits l :
  (length l <= 3)%nat -> Forall digit l -> fmt_0d 3 (decimal_int_loop l 0) = padded l.
Proof.
  intros Hl Hd. set (digits := seqZ 48 10).
  set (good := fun l => bool_decide (fmt_0d 3 (decimal_int_loop l 0) = padded l)).
  assert (Hall : forallb (fun a => good [a] && forallb (fun b => good [a; b] &&
    forallb (fun c => good [a; b; c]) digits) digits) digits = true) by (vm_compute; reflexivity).
  assert (Hin : forall x, digit x -> In x digits)
    by (intros x Hx; apply list_elem_of_In, elem_of_seqZ; unfold digit in Hx; lia).
  assert (Hgood : good l = true); [|by apply bool_decide_eq_true in Hgood].
  destruct l as [|a l]; [reflexivity|]. apply Forall_cons in Hd as [Ha Hd].
  rewrite forallb_forall in Hall. specialize (Hall a (Hin a Ha)). apply andb_prop in Hall as [H1' Hall].
  destruct l as [|b l]; [done|]. apply Forall_cons in Hd as [Hb Hd].
  rewrite forallb_forall in Hall. specialize (Hall b (Hin b Hb)). apply andb_prop in Hall as [H2' Hall].
  destruct l as [|c l]; [done|]. apply Forall_cons in Hd as [Hc Hd].
  rewrite forallb_forall in Hall. specialize (Hall c (Hin c Hc)).
  destruct l; [done|]. cbn in Hl. lia.
Qed.

(** A number has at most three digits before the point, if it has one. *)
Definition number (l frac : list Z) : Prop :=
  (length l <= 3)%nat /\ Forall digit l /\ (frac = [] \/ exists ds, frac = 46 :: ds).

(** Its integer part, formatted with three digits. *)
Lemma number_formatted l frac rest :
  number l frac -> fmt_0d 3 (nmea_decimal_int ((l ++ frac) ++ 0 :: rest)) = padded l.
Proof.
  intros (Hl & Hd & Hf). rewrite <- (padded_digits l Hl Hd).
  assert (Htail : exists c more, (l ++ frac) ++ 0 :: rest = l ++ c :: more /\ (c = 0 \/ c = 46)).
  { destruct Hf as [->|[ds ->]].
    - exists 0, rest. rewrite app_nil_r. auto.
    - exists 46, (ds ++ 0 :: rest). rewrite <- app_assoc. auto. }
  destruct Htail as (c & more & -> & Hc). unfold nmea_decimal_int.
  assert (signed (l ++ c :: more) = false) as ->.
  { unfold signed. destruct l as [|d l].
    - by destruct Hc as [-> | ->].
    - apply Forall_cons in Hd as [Hd _]. unfold digit in Hd. cbn [app hd].
      apply orb_false_intro; apply Z.eqb_neq; lia. }
  by rewrite int_loop_stops.
Qed.

Lemma length_fmt_6 n : length (fmt_0d 6 n) = 6%nat.
Proof.
  unfold fmt_0d. pose proof (length_dec_digits 5 (Z.abs (i16 n))).
  rewrite !length_app, length_replicate. destruct (i16 n <? 0); cbn [length]; lia.
Qed.

Lemma fmt_s_plain n l more : Forall plain l -> fmt_s n (l ++ 0 :: more) = take n l.
Proof.
  intros Hl. unfold fmt_s. rewrite strnlen_app_0; [by rewrite take_app_length|].
  eapply Forall_impl; [exact Hl|]. intros c (Hc & _). lia.
Qed.

(** Text that fits is appended. *)
Lemma snprintf_fits buf off text :
  (off + length text <= 62)%nat -> length buf = 64%nat ->
  exists buf', snprintf buf (Z.of_nat off) (63 - Z.of_nat off) text = (Z.of_nat (length text), buf') /\
    take (off + length text) buf' = take off buf ++ text /\ length buf' = 64%nat.
Proof.
  intros Hfit Hl. unfold snprintf. eexists. split; [done|].
  rewrite u16_small by lia.
  assert ((63 - Z.of_nat off =? 0) = false) as -> by (apply Z.eqb_neq; lia).
  rewrite (take_ge text) by lia. rewrite Nat2Z.id.
  split.
  - rewrite <- app_assoc. rewrite (app_assoc (take off buf)).
    rewrite take_app_length'; [done|]. rewrite length_app, length_take. lia.
  - rewrite !length_app, length_take, length_drop. cbn [length]. lia.
Qed.

(** A position report of the receiver: time, position, speed and course, each in
    front of its point and from there on, and whatever else it sends. *)
Record Report := mkReport {
  rp_time : list Z;
  rp_lat : list Z;
  rp_ns : Z;
  rp_lon : list Z;
  rp_ew : Z;
  rp_speed : list Z;
  rp_speed_frac : list Z;
  rp_course : list Z;
  rp_course_frac : list Z;
  rp_more : list (list Z)
}.

Definition report_fields (r : Report) : list (list Z) :=
  [rp_time r; [65]; rp_lat r; [rp_ns r]; rp_lon r; [rp_ew r];
   rp_speed r ++ rp_speed_frac r; rp_course r ++ rp_course_frac r] ++ rp_more r.

Definition report_line (r : Report) : list Z :=
  nmea (talker true) (report_fields r) (checksum (talker true ++ body (report_fields r))).

Definition report_ok (r : Report) : Prop :=
  Forall (Forall plain) (report_fields r) /\ (length (report_fields r) <= 14)%nat /\
  (length (report_line r) <= 80)%nat /\
  number (rp_speed r) (rp_speed_frac r) /\ number (rp_course r) (rp_course_frac r).

(** What the tracker makes of it: the position report of the APRS protocol. *)
Definition report_text (r : Report) (alt s1 s2 : Z) : list Z :=
  ([33] ++ take 7 (rp_lat r) ++ [rp_ns r] ++ [if s1 =? 0 then 47 else s1]
    ++ take 8 (rp_lon r) ++ [rp_ew r] ++ [if s2 =? 0 then 62 else s2]
    ++ padded (rp_course r) ++ [47] ++ padded (rp_speed r))
  ++ (if alt >? 0 then chars "/A=" ++ fmt_0d 6 alt else []) ++ chars " TinyAPRS Rocks!".

Lemma length_padded l : (length l <= 3)%nat -> length (padded l) = 3%nat.
Proof. intros Hl. unfold padded. rewrite length_app, length_replicate. lia. Qed.

Lemma report_line_ok r :
  report_ok r -> (8 <= length (report_line r) <= 80)%nat /\
  is_byte (checksum (talker true ++ body (report_fields r))) /\ Forall (fun c => is_eol c = false) (report_line r).
Proof.
  intros (Hf & Hn & Hl & _).
  assert (Hck : 0 <= checksum (talker true ++ body (report_fields r)) < 128).
  { unfold checksum. rewrite fold_left_app. by apply lxor_body. }
  assert (Hlen : (8 <= length (report_line r))%nat).
  { unfold report_line, nmea. cbn [length]. rewrite !length_app. cbn. lia. }
  split; [lia|]. split; [unfold is_byte; lia|].
  assert (He : forall c, c <> 10 -> c <> 13 -> is_eol c = false).
  { intros c H10 H13. unfold is_eol. by apply orb_false_intro; apply Z.eqb_neq. }
  assert (Hx : forall v, 0 <= v < 16 -> is_eol (hex_digit v) = false).
  { intros v Hv. destruct (hex_digit_char v Hv) as (_ & _ & E1 & E2). unfold is_eol. by rewrite E1, E2. }
  unfold report_line, nmea. constructor; [done|].
  apply Forall_app. split; [by repeat constructor|]. apply Forall_app. split.
  - unfold body. apply Forall_concat, Forall_map. eapply Forall_impl; [exact Hf|].
    intros f Hp. constructor; [done|]. eapply Forall_impl; [exact Hp|].
    intros c (_ & H10 & H13 & _). by apply He.
  - repeat constructor; apply Hx; zlia.
Qed.

Hypothesis Hstack : length stack64 = 64%nat.

(** The payload of a GPS with these terms. *)
Lemma payload_text t r :
  report_ok r ->
  (forall k f, report_fields r !! k = Some f ->
    exists more, term null (g_gps t) (sr_buf (tk_reader t)) k = f ++ 0 :: more) ->
  let '(payload, len) := tracker_payload null stack64 t in
  take (Z.to_nat len) payload =
    report_text r (gps_altitude (g_gps t)) (symbol0 (g_settings (tk_set t))) (symbol1 (g_settings (tk_set t))).
Proof.
  intros (Hf & _ & _ & Hsp & Hco) Ht. unfold tracker_payload, report_text.
  pose proof (Forall_lookup_1 _ _ 2%nat _ Hf eq_refl) as Hlat.
  pose proof (Forall_lookup_1 _ _ 4%nat _ Hf eq_refl) as Hlon.
  destruct (Ht 2%nat _ eq_refl) as [m2 E2]. destruct (Ht 3%nat _ eq_refl) as [m3 E3].
  destruct (Ht 4%nat _ eq_refl) as [m4 E4]. destruct (Ht 5%nat _ eq_refl) as [m5 E5].
  destruct (Ht 6%nat _ eq_refl) as [m6 E6]. destruct (Ht 7%nat _ eq_refl) as [m7 E7].
  change GPRMC_TERM_LATITUDE with 2%nat. change GPRMC_TERM_LATITUDE_NS with 3%nat.
  change GPRMC_TERM_LONGITUDE with 4%nat. change GPRMC_TERM_LONGITUDE_WE with 5%nat.
  change GPRMC_TERM_SPEED with 6%nat. change GPRMC_TERM_HEADING with 7%nat.
  rewrite E2, E3, E4, E5, E6, E7, !fmt_s_plain, !number_formatted by done.
  change (hd 0 ([rp_ns r] ++ 0 :: m3)) with (rp_ns r). change (hd 0 ([rp_ew r] ++ 0 :: m5)) with (rp_ew r).
  set (s1 := symbol0 _). set (s2 := symbol1 _). cbv zeta.
  set (T := [33] ++ _).
  assert (HT : (length T <= 27)%nat).
  { destruct Hsp as [Hsp _], Hco as [Hco _]. unfold T.
    rewrite !length_app, !length_take, !length_padded by done. cbn [length]. lia. }
  clearbody T.
  destruct (snprintf_fits stack64 0 T ltac:(lia) Hstack) as (b1 & F1 & Tk1 & L1).
  change (Z.of_nat 0) with 0 in F1. change (63 - 0) with 63 in F1. rewrite F1.
  rewrite u8_small by lia. set (alt := gps_altitude (g_gps t)).
  set (A := chars "/A=" ++ fmt_0d 6 alt).
  assert (HA : length A = 9%nat) by (unfold A; rewrite length_app, length_fmt_6; done).
  clearbody A. cbn [Nat.add app] in Tk1.
  set (K := chars " TinyAPRS Rocks!"). assert (HK : length K = 16%nat) by done. clearbody K.
  destruct (alt >? 0).
  - destruct (snprintf_fits b1 (length T) A ltac:(lia) L1) as (b2 & F2 & Tk2 & L2).
    rewrite F2, u8_small, <- Nat2Z.inj_add by lia.
    destruct (snprintf_fits b2 (length T + length A) K ltac:(lia) L2) as (b3 & F3 & Tk3 & L3).
    rewrite F3, u8_small, <- Nat2Z.inj_add, Nat2Z.id, Tk3, Tk2, Tk1 by lia.
    by rewrite <- app_assoc.
  - destruct (snprintf_fits b1 (length T) K ltac:(lia) L1) as (b3 & F3 & Tk3 & L3).
    rewrite F3, u8_small, <- Nat2Z.inj_add, Nat2Z.id, Tk3, Tk1 by lia. done.
Qed.

Lemma report_text_bytes r alt s1 s2 : report_ok r -> is_byte s1 -> is_byte s2 -> bytes (report_text r alt s1 s2).
Proof.
  intros (Hf & _ & _ & (_ & Hsp & _) & (_ & Hco & _)) H1' H2'.
  assert (Hp : forall l, Forall plain l -> bytes l).
  { intros l Hl. eapply Forall_impl; [exact Hl|]. intros c (Hc & _). unfold is_byte. lia. }
  assert (Hd : forall l, Forall digit l -> bytes l).
  { intros l Hl. eapply Forall_impl; [exact Hl|]. intros c Hc. unfold is_byte, digit in *. lia. }
  assert (Hpad : forall l, Forall digit l -> bytes (padded l)).
  { intros l Hl. apply Forall_app. split; [apply Forall_replicate; unfold is_byte; lia|by apply Hd]. }
  pose proof (Hp _ (Forall_lookup_1 _ _ 2%nat _ Hf eq_refl)) as Hlat.
  pose proof (Hp _ (Forall_lookup_1 _ _ 3%nat _ Hf eq_refl)) as Hns.
  pose proof (Hp _ (Forall_lookup_1 _ _ 4%nat _ Hf eq_refl)) as Hlon.
  pose proof (Hp _ (Forall_lookup_1 _ _ 5%nat _ Hf eq_refl)) as Hew.
  unfold report_text, bytes. rewrite !Forall_app. split_and!.
  - decide_closed.
  - by apply Forall_take.
  - done.
  - constructor; [|constructor]. by destruct (s1 =? 0).
  - by apply Forall_take.
  - done.
  - constructor; [|constructor]. by destruct (s2 =? 0).
  - by apply Hpad.
  - decide_closed.
  - by apply Hpad.
  - destruct (alt >? 0); [|constructor]. apply Forall_app. split; [decide_closed|].
    unfold fmt_0d. apply Forall_app. split; [|apply Forall_app; split].
    + destruct (i16 alt <? 0); [decide_closed|constructor].
    + by apply Forall_replicate.
    + apply dec_digits_bytes.
  - decide_closed.
Qed.

Let poll := tracker_poll sin cos atan2 null stack64.

(** The poll that sees the end of a report. *)
Lemma poll_report now t rd r more :
  report_ok r -> length (_term (g_gps t)) = 16%nat ->
  serialreader_readline (tk_reader t) = (Z.of_nat (length (report_line r)), rd) ->
  sr_buf rd = report_line r ++ 0 :: more -> dataLen rd = Z.of_nat (length (report_line r)) ->
  exists g buf l,
    poll now t = tracker_update_location sin cos atan2 null stack64 now
                   (set_gps g l (set_tk_reader (set_sr_buf buf rd) t)) /\
    valid g = true /\ gps_altitude g = gps_altitude (g_gps t) /\
    forall k f, report_fields r !! k = Some f -> exists more, term null g buf k = f ++ 0 :: more.
Proof.
  intros Hok H16 Hread Hbuf Hdl. destruct (report_line_ok r Hok) as (Hlen & Hck & _).
  destruct Hok as (Hf & Hn & _).
  assert (Hn2 : (2 <= length (report_fields r) <= 14)%nat) by (split; [cbn; lia|done]).
  pose proof (parse_sentence null (g_gps t) true (report_fields r) _ more Hf Hck Hn2 Hlen H16) as Hp.
  cbv zeta in Hp. unfold poll, tracker_poll. rewrite Hread.
  assert ((Z.of_nat (length (report_line r)) >? 0) = true) as -> by (apply Z.gtb_lt; lia).
  change (g_gps (set_tk_reader rd t)) with (g_gps t). rewrite Hbuf, Hdl.
  change (nmea (talker true) (report_fields r) _) with (report_line r) in Hp.
  destruct (gps_parse _ _ _ _) as [[[res g] buf] l].
  destruct Hp as (Hterms & Hv & Hr & Ha & _).
  assert (Hfix : has_fix true (report_fields r) = true) by reflexivity.
  rewrite Z.eqb_refl, Hfix in Hv, Hr. rewrite Z.eqb_refl in Ha. cbn [andb negb b2z] in Hv, Hr, Ha.
  subst res. rewrite Hv.
  exists g, buf, l. split_and!; try done.
Qed.

(** It sends the report, when it is the first. *)
Lemma report_sent now t rd r more :
  report_ok r -> length (_term (g_gps t)) = 16%nat -> tk_last t = 0 ->
  serialreader_readline (tk_reader t) = (Z.of_nat (length (report_line r)), rd) ->
  sr_buf rd = report_line r ++ 0 :: more -> dataLen rd = Z.of_nat (length (report_line r)) ->
  sp_ok (sr_ser rd) ->
  is_byte (symbol0 (g_settings (tk_set t))) /\ is_byte (symbol1 (g_settings (tk_set t))) ->
  path_in_order (settings_get_call_data (tk_set t)) ->
  kk_ok (ax_ch (tk_ax t)) ->
  let text := report_text r (gps_altitude (g_gps t)) (symbol0 (g_settings (tk_set t)))
    (symbol1 (g_settings (tk_set t))) in
  let frame := frame_octets (beacon_frame (settings_get_call_data (tk_set t)) text) in
  kk_fits (ax_ch (tk_ax t)) (frame_stream frame) ->
  let t' := poll now t in
  sent_frame (tk_ax t) frame (tk_ax t') /\
  tk_last t' = timer_clock_seconds (now 1%nat) /\
  lastLocation t' = gps_get_location null (g_gps t') (sr_buf (tk_reader t')) /\
  tk_set t' = tk_set t.
Proof.
  intros Hok Hgps Hfirst Hread Hbuf Hdl Hport Hsym Hp Hk text frame Hfit t'.
  destruct (poll_report now t rd r more) as (g & buf & l & Ep & Hv & Ha & Hterms); try done.
  unfold t'. rewrite Ep. clear Ep t'. set (t1 := set_gps g l _).
  assert (Hpay := payload_text t1 r Hok Hterms). unfold tracker_update_location.
  change (valid (g_gps t1)) with (valid g). rewrite Hv. cbn [negb].
  unfold _smart_beacon_check. change (tk_last t1) with (tk_last t). rewrite Hfirst.
  change (0 =? 0) with true. cbn [orb]. cbv iota.
  destruct (tracker_payload null stack64 t1) as [payload len].
  change (gps_altitude (g_gps t1)) with (gps_altitude g) in Hpay. rewrite Ha in Hpay.
  change (tk_set t1) with (tk_set t) in Hpay. fold text in Hpay.
  destruct (beacon_send_frame (mkBeacon 0 (tk_set t) (sr_ser (tk_reader t1)) (tk_ax t)) payload len text Hpay)
    as (Hsent & _ & _ & Hset & _); try done.
  apply report_text_bytes; [done|by destruct Hsym..].
Qed.

(** The tracker does what it is for: with a position report waiting on the port
    of the GPS receiver and no position sent yet, the polls collect its characters,
    and the one that sees its end sends exactly one frame, the position, course and
    speed of the report (and the altitude of an earlier fix report) in the APRS
    format with the station's symbol, along its path, and notes the time and the
    position. *)
Theorem tracker_reports_position (now : nat -> Z) t (r : Report) (e : Z) (rest : list Z)
    (Hok : report_ok r) (Hw : reader_wf (tk_reader t)) (Hempty : readLen (tk_reader t) = 0)
    (He : is_eol e = true) (Hdeaf : sp_deaf (sr_ser (tk_reader t)) = false)
    (Hin : sp_in (sr_ser (tk_reader t)) = report_line r ++ e :: rest)
    (Hgps : length (_term (g_gps t)) = 16%nat) (Hfirst : tk_last t = 0)
    (Hsym : is_byte (symbol0 (g_settings (tk_set t))) /\ is_byte (symbol1 (g_settings (tk_set t))))
    (Hp : path_in_order (settings_get_call_data (tk_set t)))
    (Hk : kk_ok (ax_ch (tk_ax t)))
    (Hfit : kk_fits (ax_ch (tk_ax t)) (frame_stream (frame_octets
      (beacon_frame (settings_get_call_data (tk_set t))
        (report_text r (gps_altitude (g_gps t)) (symbol0 (g_settings (tk_set t)))
          (symbol1 (g_settings (tk_set t)))))))) :
  let text := report_text r (gps_altitude (g_gps t)) (symbol0 (g_settings (tk_set t)))
    (symbol1 (g_settings (tk_set t))) in
  let t' := iter (length (report_line r) + 1) (tracker_poll sin cos atan2 null stack64 now) t in
  sent_frame (tk_ax t)
    (frame_octets (beacon_frame (settings_get_call_data (tk_set t)) text)) (tk_ax t') /\
  tk_last t' = timer_clock_seconds (now 1%nat) /\
  lastLocation t' = gps_get_location null (g_gps t') (sr_buf (tk_reader t')) /\
  tk_set t' = tk_set t.
Proof.
  intros text t'. destruct (report_line_ok r Hok) as (Hlen & _ & Hline).
  destruct (polls_line tk_reader set_tk_reader (poll now) ltac:(done) ltac:(done) ltac:(by intros []))
    with (text := report_line r) (e := e) (rest := rest) (t := t)
    as (r1 & r2 & more & E1 & E2 & Hw2 & _ & Hdl & _ & Hbuf); try done; try lia.
  { intros t0 Hk0. unfold poll, tracker_poll.
    destruct (serialreader_readline (tk_reader t0)) as [k rd]. cbn [fst snd] in *.
    assert ((k >? 0) = false) as -> by (rewrite Z.gtb_ltb; by apply Z.ltb_ge). done. }
  unfold t'. fold poll. rewrite E1. apply (report_sent now (set_tk_reader r1 t) r2 r more); try done.
  by destruct Hw2 as (_ & _ & _ & ?).
Qed.
End Promises.

(** ** On the road *)

Section Examples.
Import KFileFifo.

#[local] Instance ring_carrier : Carrier FIFOBuffer := {
  rxstart _ := false;
  modem_status _ := 0;
  clear_status ch := ch;
  run_irqs ch := ch;
  timer_delay _ ch := ch
}.

#[local] Instance idle_port : SerPort Serial := ser_port (fun _ => None) (fun _ => 0) 0.
#[local] Instance idle_laws : SerLaws Serial := ser_laws (fun _ => None) (fun _ => 0) 0.

Definition sample_report : Report :=
  mkReport (chars "123519") (chars "4807.038") 78 (chars "01131.000") 69
    (chars "22") (chars ".4") (chars "84") [] [chars "230394"; chars "003.1"; chars "W"].

Lemma sample_report_ok : report_ok sample_report.
Proof.
  split; [unfold plain; decide_closed|]. split; [cbn; lia|].
  split; [apply Nat.leb_le; vm_compute; reflexivity|].
  split; (split; [cbn; lia|split; [unfold digit; decide_closed|]]); [right; by eexists|by left].
Qed.

(** A port on which this was received. *)
Definition heard_port (l : list Z) : Serial :=
  set_rxfifo (snd (KFileFifo.kfilefifo_write (fifo_init (zeros 128) 128) l)) (ser_init 0).

Definition driver (g : GPS) (buf : list Z) (port : Serial) (last : Z) (loc : Location) : Tracker Serial FIFOBuffer :=
  mkTracker g false last loc (set_sr_buf buf (serialreader_init port)) sample_settings (ring_station 256).

Definition starting : Tracker Serial FIFOBuffer :=
  driver gps_zero (zeros 330) (heard_port (report_line sample_report ++ [13; 10])) 0 no_location.

Lemma starting_port_wf : ser_wf (sr_ser (tk_reader starting)).
Proof.
  destruct (ser_init_wf 0) as (Ht & Hr & _ & Hu & Hs & H0).
  assert (Hw : fifo_wf (rxfifo (sr_ser (tk_reader starting))) /\
    bytes (contents (rxfifo (sr_ser (tk_reader starting))))).
  { split; [|decide_closed]. vm_compute. split_and!; congruence. }
  destruct Hw as [Hw Hb]. by split; [|split; [|split]].
Qed.

(** No mathematics: the first position is sent without asking where the last was. *)
Definition flat (_ : float) : float := of_int 0.

Lemma tracker_reports_position_witness :
  let t' := iter (length (report_line sample_report) + 1)
    (tracker_poll flat flat (fun _ => flat) [] (zeros 64) (fun _ => 7000)) starting in
  sent_frame (ring_station 256)
    (frame_octets (beacon_frame default_calldata
      (chars "!4807.03N/01131.00E>084/022 TinyAPRS Rocks!"))) (tk_ax t') /\
  tk_last t' = 7.
Proof.
  assert (Htext : report_text sample_report 0 (symbol0 (g_settings sample_settings))
    (symbol1 (g_settings sample_settings)) = chars "!4807.03N/01131.00E>084/022 TinyAPRS Rocks!")
    by (vm_compute; reflexivity).
  destruct (tracker_reports_position flat flat (fun _ => flat) [] (zeros 64) eq_refl
    (fun _ => 7000) starting sample_report 13 [10]) as (A & B & _).
  - apply sample_report_ok.
  - split; [vm_compute; reflexivity|]. split; [reflexivity|]. split; [cbn; lia|].
    apply starting_port_wf.
  - reflexivity.
  - reflexivity.
  - reflexivity.
  - vm_compute. reflexivity.
  - reflexivity.
  - reflexivity.
  - split; decide_closed.
  - intros _. reflexivity.
  - apply (fifo_init_wf (zeros 256) 256); [lia|reflexivity].
  - vm_compute. congruence.
  - split; [|exact B]. rewrite <- Htext. exact A.
Defined.

(** At 100 km/h, 46 seconds after the last beacon. *)
Lemma tracker_interval_witness :
  let loc := mkLocation (of_int 48) (of_int 11) (of_int 100) 84 0 1000 in
  let t := driver gps_zero [] (ser_init 0) 500 (mkLocation (of_int 48) (of_int 11) (of_int 100) 84 0 990) in
  _smart_beacon_check flat flat (fun _ => flat) 546000 loc t = true.
Proof.
  intros loc t.
  destruct (tracker_interval flat flat (fun _ => flat) 546000 loc t) as [E _].
  - vm_compute. congruence.
  - vm_compute. congruence.
  - vm_compute. reflexivity.
  - vm_compute. reflexivity.
  - rewrite E. vm_compute. reflexivity.
Defined.

(** Last beacon at 23:59:50; now it is 5:30 in the morning, 5 hours later. *)
Lemma tracker_silent_after_midnight_witness :
  let t := driver (mkGPS true [Some 0] 0) (utc 5 30 0 ++ [0]) (ser_init 0) 500
    (mkLocation (of_int 48) (of_int 11) (of_int 100) 84 0 (gps_timestamp (utc 23 59 50 ++ []))) in
  tracker_update_location flat flat (fun _ => flat) [] (zeros 64) (fun _ => 20000000) t = t.
Proof.
  intros t. apply (tracker_silent_after_midnight flat flat (fun _ => flat) [] (zeros 64) (fun _ => 20000000) t
    23 59 50 5 30 0 [] [0] 0); unfold time_ok, seconds; try lia; try reflexivity.
  cbn. lia.
Defined.
End Examples.
