(* ===== verification/Main.v ===== *)
(** * The program: [TinyAPRS/main.c]

    The components the main loop drives, over the serial port, the radio and
    the settings they share, as built for a digipeater (console, KISS, beacon and
    digipeater) and, with [MOD_TRACKER], with everything; the radio control, which
    touches nothing of this, is left out.  One turn of the loop is [main_turn].  [clock] gives a turn's successive readings of the clock, [heard]
    those a call of the message callback makes, counted from the start. *)

From Stdlib Require Import ZArith Lia Bool List.
From Stdlib Require Import String.
From stdpp Require Import prelude.
From S2P Require Import Prelude.
From S2P Require Import Libc.
From S2P Require Import Fifo.
From S2P Require Import KFile.
From S2P Require Import Escape.
From S2P Require Import Formatwr.
From S2P Require Import Timer.
From S2P Require Import Ax25.
From S2P Require Import Ax25Tx.
From S2P Require Import Ax25Rx.
From S2P Require Import Ax25Decode.
From S2P Require Import Ax25Link.
From S2P Require Import Ax25Print.
From S2P Require Import Utils.
From S2P Require Import Ser.
From S2P Require Import Settings.
From S2P Require Import Reader.
From S2P Require Import Kiss.
From S2P Require Import KissAir.
From S2P Require Import Digi.
From S2P Require Import Beacon.
From S2P Require Import Float32.
From S2P Require Import Gps.
From S2P Require Import Tracker.
From S2P Require Import Console.

Open Scope Z_scope.

(** ** State *)

(** [RunMode]; [currentMode] is one of them. *)
Definition MODE_CFG : Z := 0.
Definition MODE_KISS : Z := 1.
Definition MODE_TRACKER : Z := 2.
Definition MODE_DIGI : Z := 3.

Definition SER_DEFAULT_BAUD_RATE : Z := 115200.

(** What only the tracker uses. *)
Record Track := mkTrack {
  tr_gps : GPS;
  tr_led : bool;
  tr_last : Z;
  tr_location : Location
}.

(** What the console does not touch: [currentMode], the [start] of
    [check_run_mode], the digipeater, the KISS receiver, the tracker; how often the
    callback was called; whether it used a null message. *)
Record Rest := mkRest {
  currentMode : Z;
  start : Z;
  rs_digi : Digi;
  rs_rxTick : Z;
  rs_escaped : bool;
  rs_rng : nat;
  rs_track : Track;
  rs_calls : nat;
  rs_null : bool
}.

Definition set_currentMode (v : Z) (r : Rest) : Rest :=
  mkRest v (start r) (rs_digi r) (rs_rxTick r) (rs_escaped r) (rs_rng r) (rs_track r) (rs_calls r) (rs_null r).
Definition set_start (v : Z) (r : Rest) : Rest :=
  mkRest (currentMode r) v (rs_digi r) (rs_rxTick r) (rs_escaped r) (rs_rng r) (rs_track r) (rs_calls r) (rs_null r).
Definition set_rs_digi (v : Digi) (r : Rest) : Rest :=
  mkRest (currentMode r) (start r) v (rs_rxTick r) (rs_escaped r) (rs_rng r) (rs_track r) (rs_calls r) (rs_null r).
Definition set_rs_kiss (tick : Z) (esc : bool) (n : nat) (r : Rest) : Rest :=
  mkRest (currentMode r) (start r) (rs_digi r) tick esc n (rs_track r) (rs_calls r) (rs_null r).
Definition set_rs_calls (v : nat) (r : Rest) : Rest :=
  mkRest (currentMode r) (start r) (rs_digi r) (rs_rxTick r) (rs_escaped r) (rs_rng r) (rs_track r) v (rs_null r).
Definition set_rs_null (v : bool) (r : Rest) : Rest :=
  mkRest (currentMode r) (start r) (rs_digi r) (rs_rxTick r) (rs_escaped r) (rs_rng r) (rs_track r) (rs_calls r) v.
Definition set_rs_track (v : Track) (r : Rest) : Rest :=
  mkRest (currentMode r) (start r) (rs_digi r) (rs_rxTick r) (rs_escaped r) (rs_rng r) v (rs_calls r) (rs_null r).

Abbreviation App S F := (Console S F Rest).

Definition on_rest {S F : Type} (f : Rest -> Rest) (a : App S F) : App S F := set_cn_rest (f (cn_rest a)) a.
Definition mode {S F : Type} (a : App S F) : Z := currentMode (cn_rest a).

(** What the components see of it. *)
Definition kiss_of {S F : Type} (a : App S F) : Kiss S F :=
  mkKiss (cn_reader a) (cn_ax a) (rs_rxTick (cn_rest a)) (rs_escaped (cn_rest a)) (cn_set a)
    (rs_rng (cn_rest a)) (cn_reset a).
Definition put_kiss {S F : Type} (k : Kiss S F) (a : App S F) : App S F :=
  mkConsole (k_reader k) (k_modem k) (k_set k) (cn_last a) (k_reset k) (cn_cmds a)
    (set_rs_kiss (rxTick k) (escaped k) (rng k) (cn_rest a)).
Definition station_of {S F : Type} (a : App S F) : Station S F :=
  mkStation (rs_digi (cn_rest a)) (cn_ser a) (cn_ax a).
Definition put_station {S F : Type} (st : Station S F) (a : App S F) : App S F :=
  on_rest (set_rs_digi (st_digi st)) (set_cn_ser (st_ser st) (set_cn_ax (st_ax st) a)).
Definition tracker_of {S F : Type} (a : App S F) : Tracker S F :=
  let r := rs_track (cn_rest a) in
  mkTracker (tr_gps r) (tr_led r) (tr_last r) (tr_location r) (cn_reader a) (cn_set a) (cn_ax a).
Definition track_of {S F : Type} (t : Tracker S F) : Track :=
  mkTrack (g_gps t) (gps_led t) (tk_last t) (lastLocation t).
Definition put_tracker {S F : Type} (t : Tracker S F) (a : App S F) : App S F :=
  mkConsole (tk_reader t) (tk_ax t) (tk_set t) (cn_last a) (cn_reset a) (cn_cmds a)
    (set_rs_track (track_of t) (cn_rest a)).

(** As linked. *)
Definition track_reset : Track := mkTrack (mkGPS false (replicate 16 None) 0) false 0 no_location.

(** ** Operations *)

Section Main.
Context {S : Type} `{SerPort S} {F : Type} `{KFile F} `{Carrier F}.
Implicit Types a : App S F.

Variable freeRam : Z.
Variable VERS_BUILD : Z.
Variable stack : list Z.
Variable stack64 : list Z.
Variable stack_msg : forall W : Type, AX25Ctx F -> W -> AX25Msg.
Variable rand : nat -> Z.
Variable heard : nat -> nat -> Z.

(** The build, and what the tracker's arithmetic and pointers are made of. *)
Variable MOD_TRACKER : bool.
Variables sin cos : float -> float.
Variable atan2 : float -> float -> float.
Variable null : list Z.

Definition ax25_msg_callback (msg : option AX25Msg) a : App S F :=
  let n := rs_calls (cn_rest a) in
  let a := on_rest (set_rs_calls (Datatypes.S n)) a in
  if mode a =? MODE_CFG then
    match msg with
    | Some msg => set_cn_ser (ax25_print (cn_ser a) msg) a
    | None => on_rest (set_rs_null true) a
    end
  else if mode a =? MODE_KISS then
    set_cn_reader (snd (kiss_msg_callback msg (cn_ax a) (cn_reader a))) a
  else if mode a =? MODE_DIGI then
    match msg with
    | Some msg =>
        put_station (snd (digi_handle_aprs_message (heard n) (cn_set a) msg (station_of a))) a
    | None => on_rest (set_rs_null true) a
    end
  else a.

(** The same as the hook of [ax25_poll], which works on the context; the copy in
    [a] is out of date until the poll is over. *)
Definition main_hook (msg : option AX25Msg) (ctx : AX25Ctx F) a : AX25Ctx F * App S F :=
  let a' := ax25_msg_callback msg (set_cn_ax ctx a) in (cn_ax a', set_cn_ax (cn_ax a) a').

Definition cmd_switch_mode (value : list Z) (len : Z) a : bool * App S F :=
  if len >? 0 then
    let i := atoi value in
    if (i =? mode a) && (i =? run_mode (g_settings (cn_set a))) then (true, a)
    else
      let '(modeOK, a) :=
        if i =? MODE_CFG then
          let a := on_rest (set_currentMode MODE_CFG) a in
          let a := set_cn_ax (set_pass_through false (cn_ax a)) a in
          let a := set_cn_ser (sp_purge (cn_ser a)) a in
          (true, cn_printf (chars "Enter Config mode" ++ crlf) [] a)
        else if i =? MODE_KISS then
          let a := on_rest (set_currentMode MODE_KISS) a in
          let a := set_cn_ax (set_pass_through true (cn_ax a)) a in
          let a := set_cn_ser (sp_purge (cn_ser a)) a in
          (true, cn_printf (chars "Enter KISS mode" ++ crlf) [] a)
        else if (i =? MODE_TRACKER) && MOD_TRACKER then
          let a := on_rest (set_currentMode MODE_TRACKER) a in
          let a := cn_printf (chars "Enter Tracker mode" ++ crlf) [] a in
          let a := set_cn_ser (snd (kfile_flush (cn_ser a))) a in
          let a := set_cn_ser (sp_purge (cn_ser a)) a in
          (true, put_tracker (tracker_init_gps (tracker_of a)) a)
        else if i =? MODE_DIGI then
          let a := on_rest (set_currentMode MODE_DIGI) a in
          let a := set_cn_ax (set_pass_through false (cn_ax a)) a in
          (true, cn_printf (chars "Enter Digi mode" ++ crlf) [] a)
        else (false, a) in
      if modeOK then
        if negb (mode a =? run_mode (g_settings (cn_set a))) then
          let s := settings_set_params (Some SETTINGS_RUN_MODE) [u8 (mode a)] (cn_set a) in
          (true, set_cn_set (snd (settings_save s)) a)
        else (true, a)
      else
        (true, cn_printf (chars "Invalid mode %s, [0|1|2|3] is accepted" ++ crlf) [AStr (Some value)] a)
  else
    (true, cn_printf (chars "Current mode %d/%d" ++ crlf)
       [AInt (mode a); AInt (run_mode (g_settings (cn_set a)))] a).

Definition cmd_enter_kiss_mode a : bool * App S F := cmd_switch_mode [49; 0] 1 a.

(** [now]: the reading of the clock. *)
Definition check_run_mode (now : Z) a : App S F :=
  if mode a =? run_mode (g_settings (cn_set a)) then a
  else if start (cn_rest a) =? 0 then on_rest (set_start now) a
  else if i32 (now - start (cn_rest a)) >? ms_to_ticks 10000 then
    if negb (mode a =? run_mode (g_settings (cn_set a))) then
      let c := [u8 (run_mode (g_settings (cn_set a)) + 48); 0] in
      snd (cmd_switch_mode c 1 a)
    else a
  else a.

(** The handlers main.c adds to the console's. *)
Definition main_commands (i : nat) (value len : Z) a : bool * App S F :=
  match i with
  | O => cmd_switch_mode (pointed value a) len a
  | _ => cmd_enter_kiss_mode a
  end.

(** After power-on: the port and the modem as their drivers leave them, the
    settings as linked, the EEPROM. *)
Definition init (ser : S) (af : F) (s : Settings) : App S F :=
  let ser := sp_setbaudrate SER_DEFAULT_BAUD_RATE ser in
  let reader := serialreader_init ser in
  let s := snd (settings_load s) in
  let ax := set_pass_through false (ax25_init af true) in
  let k := kiss_init reader ax s in
  let rest := mkRest MODE_CFG 0 (digi_init digi_reset) (rxTick k) (escaped k) (rng k) track_reset 0 false in
  let a := mkConsole reader ax s 0 (k_reset k) registry_init rest in
  let a := console_init freeRam VERS_BUILD a in
  let a := set_cn_cmds (console_add_command (chars "MODE") (H_external 0) (cn_cmds a)) a in
  set_cn_cmds (console_add_command (chars "KISS") (H_external 1) (cn_cmds a)) a.

(** [fuel] bounds the turns of the loops inside; [soft_reset] does not return. *)
Definition main_turn (fuel : nat) (clock : nat -> Z) a : option (App S F) :=
  match ax25_poll main_hook (stack_msg (App S F)) fuel (cn_ax a) a with
  | None => None
  | Some (ctx, a) =>
      let a := set_cn_ax ctx a in
      let a := check_run_mode (clock 0%nat) a in
      if (mode a =? MODE_CFG) || (mode a =? MODE_DIGI) then
        let a := console_poll freeRam VERS_BUILD stack stack64 main_commands a in
        if cn_reset a then Some a
        else Some (put_beacon (beacon_broadcast_poll stack (fun i => clock (Datatypes.S i)) (beacon_of a)) a)
      else if mode a =? MODE_KISS then
        match kiss_poll kiss_msg_callback (stack_msg (SerialReader S)) rand VERS_BUILD fuel fuel
                (clock 1%nat) (clock 2%nat) (kiss_of a) with
        | Some k => Some (put_kiss k a)
        | None => None
        end
      else if (mode a =? MODE_TRACKER) && MOD_TRACKER then
        Some (put_tracker (tracker_poll sin cos atan2 null stack64 (fun i => clock (Datatypes.S i)) (tracker_of a)) a)
      else Some a
  end.
End Main.

(** ** What leaves [pass_through] alone *)

Section Keeps.
Context {F : Type} `{KFile F}.

(** [f] does not touch the flag. *)
Definition keeps (f : AX25Ctx F -> AX25Ctx F) : Prop :=
  forall ctx, pass_through (f ctx) = pass_through ctx.

Lemma keeps_comp f g : keeps f -> keeps g -> keeps (fun ctx => g (f ctx)).
Proof. intros Hf Hg ctx. by rewrite Hg, Hf. Qed.

Lemma keeps_fold {A} (f : AX25Ctx F -> A -> AX25Ctx F) l :
  (forall x, keeps (fun ctx => f ctx x)) -> keeps (fun ctx => fold_left f l ctx).
Proof.
  intros Hf. induction l as [|x l IH]; intros ctx; [done|]. cbn. by rewrite IH, Hf.
Qed.

Lemma keeps_iter n f : keeps f -> keeps (iter n f).
Proof. intros Hf. induction n as [|n IH]; intros ctx; [done|]. cbn. by rewrite IH, Hf. Qed.

Lemma putchar_keeps c : keeps (fun ctx => ax25_putchar ctx c).
Proof. intros ctx. unfold ax25_putchar. by destruct (hdlc_special c). Qed.

Lemma sendCall_keeps addr last rpt : keeps (fun ctx => ax25_sendCall ctx addr last rpt).
Proof.
  intros ctx. unfold ax25_sendCall.
  rewrite (putchar_keeps _), (keeps_iter _ _ (putchar_keeps _)).
  apply keeps_fold. intros x. apply putchar_keeps.
Qed.

Lemma putchars_keeps l : keeps (fun ctx => ax25_putchars ctx l).
Proof. apply keeps_fold. apply putchar_keeps. Qed.

Lemma tail_keeps : keeps ax25_send_tail.
Proof.
  intros ctx. unfold ax25_send_tail.
  change (pass_through (ctx_putc HDLC_FLAG ?c)) with (pass_through c).
  by rewrite !(putchar_keeps _).
Qed.

Lemma sendRaw_keeps buf : keeps (fun ctx => ax25_sendRaw ctx buf).
Proof.
  intros ctx. unfold ax25_sendRaw.
  change (pass_through (ax25_tx_done (ctx_flush ?c))) with (pass_through c).
  by rewrite tail_keeps, putchars_keeps.
Qed.

Lemma sendPath_keeps path : keeps (fun ctx => ax25_sendPath ctx path).
Proof.
  induction path as [|a path IH]; intros ctx; [done|]. cbn [ax25_sendPath].
  by rewrite IH, sendCall_keeps.
Qed.

Lemma sendVia_keeps path buf : keeps (fun ctx => ax25_sendVia ctx path buf).
Proof.
  intros ctx. unfold ax25_sendVia.
  change (pass_through (ax25_tx_done ?c)) with (pass_through c).
  by rewrite tail_keeps, putchars_keeps, !(putchar_keeps _), sendPath_keeps.
Qed.

Lemma sendRpts_keeps msg n : forall i, keeps (fun ctx => ax25_sendRpts n i ctx msg).
Proof.
  induction n as [|n IH]; intros i ctx; [done|]. cbn [ax25_sendRpts].
  destruct (i <? m_rpt_cnt msg); [|done]. by rewrite IH, sendCall_keeps.
Qed.

Lemma sendMsg_keeps msg : keeps (fun ctx => ax25_sendMsg ctx msg).
Proof.
  intros ctx. unfold ax25_sendMsg. destruct (_ || _); [done|].
  change (pass_through (ax25_tx_done (ctx_flush ?c))) with (pass_through c).
  by rewrite tail_keeps, putchars_keeps, !(putchar_keeps _), sendRpts_keeps, !sendCall_keeps.
Qed.

(** What the hook keeps, [ax25_poll] keeps: the hook gets the null message
    exactly when the flag is set. *)
Section Poll.
Context {W : Type}.
Variable hook hook' : option AX25Msg -> AX25Ctx F -> W -> AX25Ctx F * W.
Variable stack_msg : AX25Ctx F -> W -> AX25Msg.
Variable P : AX25Ctx F -> W -> Prop.
Hypothesis P_ctx : forall ctx ctx' w, pass_through ctx' = pass_through ctx -> P ctx w -> P ctx' w.
Hypothesis P_hook : forall m ctx w, P ctx w -> (m = None <-> pass_through ctx = true) ->
  P (fst (hook m ctx w)) (snd (hook m ctx w)).

Lemma frame_end_keeps ctx w :
  P ctx w -> P (fst (ax25_frame_end hook stack_msg ctx w)) (snd (ax25_frame_end hook stack_msg ctx w)).
Proof.
  intros Hp. unfold ax25_frame_end, ax25_decode.
  destruct (_ >=? _); [|done]. destruct (_ =? _); [|by eapply P_ctx; [|exact Hp]].
  assert (Hp' : P (set_rx_ok (u32 (rx_ok ctx + 1)) ctx) w) by (by eapply P_ctx; [|exact Hp]).
  destruct (pass_through (set_rx_ok _ ctx)) eqn:E.
  - destruct (ax_hook _); [|done]. by apply P_hook.
  - destruct (ax25_decode_msg _ _) as [m|]; [|done]. destruct (ax_hook _); [|done].
    apply P_hook; [done|]. by rewrite E.
Qed.

Lemma frame_byte_keeps c : keeps (ax25_frame_byte c).
Proof.
  intros ctx. unfold ax25_frame_byte. destruct (_ <? _); [|done].
  destruct (_ && _); destruct (_ && _); done.
Qed.

Lemma poll_char_keeps c ctx w :
  P ctx w -> P (fst (ax25_poll_char hook stack_msg c ctx w)) (snd (ax25_poll_char hook stack_msg c ctx w)).
Proof.
  intros Hp. unfold ax25_poll_char. destruct (_ && _).
  - pose proof (frame_end_keeps _ w Hp) as He. destruct (ax25_frame_end _ _ _ _) as [c1 w1].
    cbn [fst snd] in *. by eapply P_ctx; [|exact He].
  - destruct (_ && _); [by eapply P_ctx; [|exact Hp]|].
    destruct (_ && _); [by eapply P_ctx; [|exact Hp]|]. cbn [fst snd].
    eapply P_ctx; [|exact Hp]. destruct (sync _); [|done]. apply (frame_byte_keeps c).
Qed.

Lemma poll_keeps fuel : forall ctx w ctx' w',
  P ctx w -> ax25_poll_loop hook stack_msg fuel ctx w = Some (ctx', w') -> P ctx' w'.
Proof.
  induction fuel as [|fuel IH]; intros ctx w ctx' w' Hp; cbn [ax25_poll_loop]; [done|].
  destruct (kfile_getc (ax_ch ctx)) as [c ch].
  assert (Hp1 : P (set_ax_ch ch ctx) w) by (by eapply P_ctx; [|exact Hp]).
  destruct (c =? EOF); [by intros [= <- <-]|].
  pose proof (poll_char_keeps c _ w Hp1) as Hc.
  destruct (ax25_poll_char _ _ _ _ _) as [c1 w1]. by apply IH.
Qed.

Lemma ax25_poll_keeps fuel ctx w ctx' w' :
  P ctx w -> ax25_poll hook stack_msg fuel ctx w = Some (ctx', w') -> P ctx' w'.
Proof.
  intros Hp. unfold ax25_poll.
  destruct (ax25_poll_loop _ _ _ _ _) as [[c1 w1]|] eqn:E; [|done]. intros [= <- <-].
  apply (poll_keeps _ _ _ _ _ Hp) in E. eapply P_ctx; [|exact E].
  unfold ax25_channel_error. destruct (negb _); [|done]. by destruct (dcd _).
Qed.

(** Hooks that agree where [P] holds cannot be told apart. *)
Hypothesis P_agree : forall m ctx w, P ctx w -> (m = None <-> pass_through ctx = true) ->
  hook m ctx w = hook' m ctx w.

Lemma frame_end_agree ctx w :
  P ctx w -> ax25_frame_end hook stack_msg ctx w = ax25_frame_end hook' stack_msg ctx w.
Proof.
  intros Hp. unfold ax25_frame_end, ax25_decode.
  destruct (_ >=? _); [|done]. destruct (_ =? _); [|done].
  assert (Hp' : P (set_rx_ok (u32 (rx_ok ctx + 1)) ctx) w) by (by eapply P_ctx; [|exact Hp]).
  destruct (pass_through (set_rx_ok _ ctx)) eqn:E.
  - destruct (ax_hook _); [|done]. by apply P_agree.
  - destruct (ax25_decode_msg _ _) as [m|]; [|done]. destruct (ax_hook _); [|done].
    apply P_agree; [done|]. by rewrite E.
Qed.

Lemma ax25_poll_agree fuel ctx w :
  P ctx w -> ax25_poll hook stack_msg fuel ctx w = ax25_poll hook' stack_msg fuel ctx w.
Proof.
  intros Hp. unfold ax25_poll.
  assert (E : ax25_poll_loop hook stack_msg fuel ctx w = ax25_poll_loop hook' stack_msg fuel ctx w);
    [|by rewrite E].
  revert ctx w Hp. induction fuel as [|fuel IH]; intros ctx w Hp; [done|]. cbn [ax25_poll_loop].
  destruct (kfile_getc (ax_ch ctx)) as [c ch].
  assert (Hp1 : P (set_ax_ch ch ctx) w) by (by eapply P_ctx; [|exact Hp]).
  destruct (c =? EOF); [done|].
  assert (E : ax25_poll_char hook' stack_msg c (set_ax_ch ch ctx) w
    = ax25_poll_char hook stack_msg c (set_ax_ch ch ctx) w).
  { unfold ax25_poll_char. by rewrite (frame_end_agree _ w Hp1). }
  rewrite E. pose proof (poll_char_keeps c _ w Hp1) as Hc.
  destruct (ax25_poll_char hook stack_msg c _ w) as [c1 w1]. by apply IH.
Qed.
End Poll.
End Keeps.

(** The same for the components. *)

Section ComponentKeeps.
Context {S : Type} `{SerPort S} {F : Type} `{KFile F} `{Carrier F}.

Lemma digi_keeps now set msg (st : Station S F) :
  pass_through (st_ax (snd (digi_handle_aprs_message now set msg st))) = pass_through (st_ax st).
Proof.
  unfold digi_handle_aprs_message. generalize (Z.to_nat (m_rpt_cnt msg)) as n, 0 as i.
  induction n as [|n IH]; intros i; cbn [digi_loop]; [done|].
  destruct (i <? _); [|done]. destruct (rpt_required msg i); [|apply IH].
  unfold digi_entry. destruct (_digi_check_is_duplicated now msg (st_digi st)) as [[|] d]; [done|].
  destruct (digi_path _ i msg) as [[|] m]; [|done]. cbn [snd]. unfold _digi_repeat_message.
  cbn [st_ax]. by rewrite (sendMsg_keeps m).
Qed.

Lemma fixed_text_keeps stack (b : Beacon S F) :
  pass_through (bc_ax (_send_fixed_text stack b)) = pass_through (bc_ax b).
Proof.
  unfold _send_fixed_text. destruct (settings_get_beacon_text stack 127 (bc_set b)) as [p n].
  destruct (n >? 0); [|done]. unfold beacon_send. cbn [bc_ax]. apply sendVia_keeps.
Qed.

Lemma beacon_keeps stack now (b : Beacon S F) :
  pass_through (bc_ax (beacon_broadcast_poll stack now b)) = pass_through (bc_ax b).
Proof.
  unfold beacon_broadcast_poll. destruct (_ =? _); [done|]. destruct (_ =? _).
  - destruct (_ >? _); [|done]. by rewrite fixed_text_keeps.
  - destruct (_ >? _); [|done]. apply fixed_text_keeps.
Qed.

Lemma test_keeps stack n : forall b : Beacon S F,
  pass_through (bc_ax (beacon_send_test_message_immediate stack n b)) = pass_through (bc_ax b).
Proof.
  induction n as [|n IH]; intros b; [done|]. cbn [beacon_send_test_message_immediate].
  rewrite IH. destruct n; cbn [bc_ax]; [|rewrite <- (fixed_text_keeps stack b); done].
  apply fixed_text_keeps.
Qed.

(** KISS, in whose mode the callback sends to the host. *)
Section Kiss.
Variable stack_msg : AX25Ctx F -> SerialReader S -> AX25Msg.
Variable rand : nat -> Z.
Variable VERS_BUILD : Z.
Implicit Types k : Kiss S F.

Lemma kiss_ax25_poll_keeps fuel ctx r ctx' r' :
  ax25_poll kiss_msg_callback stack_msg fuel ctx r = Some (ctx', r') ->
  pass_through ctx' = pass_through ctx.
Proof.
  intros E. pose proof (ax25_poll_keeps kiss_msg_callback stack_msg
    (fun c _ => pass_through c = pass_through ctx)
    (fun c c' w Hc Hp => eq_trans Hc Hp) ltac:(intros m c w Hp _; exact Hp)
    fuel ctx r ctx' r' eq_refl E) as Hp. exact Hp.
Qed.

Lemma csma_wait_keeps poll_fuel fuel : forall k b k',
  csma_wait kiss_msg_callback stack_msg poll_fuel fuel k = Some (b, k') ->
  pass_through (k_modem k') = pass_through (k_modem k).
Proof.
  induction fuel as [|fuel IH]; intros k b k'; cbn [csma_wait]; [done|].
  destruct (rxstart _); [|by intros [= _ <-]].
  destruct (ax25_poll _ _ _ _ _) as [[c r]|] eqn:E; [|done].
  apply kiss_ax25_poll_keeps in E. cbn in E.
  destruct (negb _); [intros [= _ <-]; exact E|]. intros Hw. by rewrite (IH _ _ _ Hw).
Qed.

Lemma csma_send_keeps poll_fuel buf fuel : forall k k',
  csma_send kiss_msg_callback stack_msg rand poll_fuel fuel buf k = Some k' ->
  pass_through (k_modem k') = pass_through (k_modem k).
Proof.
  induction fuel as [|fuel IH]; intros k k'; [done|]. cbn [csma_send].
  destruct (negb (rxstart _)).
  - destruct (_ <? _).
    + intros [= <-]. exact (sendRaw_keeps buf (k_modem k)).
    + intros E. by rewrite (IH _ _ E).
  - destruct (csma_wait _ _ _ _ k) as [[[|] k1]|] eqn:E; [| |done].
    + intros [= <-]. by apply csma_wait_keeps in E.
    + intros E'. rewrite (IH _ _ E'). by apply csma_wait_keeps in E.
Qed.

Lemma kiss_frame_keeps poll_fuel fuel frame size k k' :
  kiss_handle_frame kiss_msg_callback stack_msg rand VERS_BUILD poll_fuel fuel frame size k = Some k' ->
  pass_through (k_modem k') = pass_through (k_modem k).
Proof.
  unfold kiss_handle_frame.
  repeat match goal with |- (if ?b then Some k else _) = _ -> _ => destruct b; [by intros [= <-]|] end.
  destruct (_ =? KISS_CMD_DATA).
  - unfold kiss_send_to_modem. destruct (_ =? _); [|apply csma_send_keeps].
    intros [= <-]. exact (sendRaw_keeps _ (k_modem k)).
  - intros [= <-].
    repeat match goal with |- context [if ?b then _ else _] => destruct b end; try done.
    all: unfold kiss_handle_config_params_cmd, kiss_handle_config_text_cmd,
      kiss_handle_config_call_cmd, kiss_handle_config_magic_cmd.
    all: repeat match goal with
      | |- context [let '(_, _) := ?p in _] => destruct p
      | |- context [if ?b then _ else _] => destruct b
      end; done.
Qed.

Lemma kiss_keeps poll_fuel fuel now now' k k' :
  kiss_poll kiss_msg_callback stack_msg rand VERS_BUILD poll_fuel fuel now now' k = Some k' ->
  pass_through (k_modem k') = pass_through (k_modem k).
Proof.
  unfold kiss_poll. destruct (sp_getchar _) as [c ser]. destruct (c =? EOF); [by intros [= <-]|].
  unfold kiss_serial_char.
  destruct (c =? KISS_FEND).
  - destruct (negb _ && _).
    + destruct (kiss_handle_frame _ _ _ _ _ _ _ _ _) as [k1|] eqn:E; [|done].
      intros [= <-]. apply kiss_frame_keeps in E. exact E.
    + by intros [= <-].
  - destruct (c =? KISS_FESC); [by intros [= <-]|].
    destruct (if c =? KISS_TFESC then _ else _) as [c' e]. by intros [= <-].
Qed.
End Kiss.
End ComponentKeeps.

(** ** The modes *)

Section Modes.
Context {S : Type} `{SerPort S} {F : Type} `{KFile F} `{Carrier F}.
Implicit Types a : App S F.

Variable freeRam : Z.
Variable VERS_BUILD : Z.
Variable stack : list Z.
Variable stack64 : list Z.
Variable stack_msg : forall W : Type, AX25Ctx F -> W -> AX25Msg.
Variable rand : nat -> Z.
Variable heard : nat -> nat -> Z.
Variable MOD_TRACKER : bool.
Variables sin cos : float -> float.
Variable atan2 : float -> float -> float.
Variable null : list Z.

(** The mode is one this build has, frames are decoded where the callback needs the
    message, and no null message was used. *)
Definition main_ok a : Prop :=
  (mode a = MODE_CFG \/ mode a = MODE_KISS \/ mode a = MODE_DIGI \/
    MOD_TRACKER = true /\ mode a = MODE_TRACKER) /\
  (mode a <> MODE_TRACKER -> pass_through (cn_ax a) = (mode a =? MODE_KISS)) /\
  rs_null (cn_rest a) = false.

Lemma main_ok_same a a' :
  pass_through (cn_ax a') = pass_through (cn_ax a) -> mode a' = mode a ->
  rs_null (cn_rest a') = rs_null (cn_rest a) -> main_ok a -> main_ok a'.
Proof. intros Hp Hm Hn (A & B & C). unfold main_ok. by rewrite Hp, Hm, Hn. Qed.

Lemma callback_ok m a :
  main_ok a -> (m = None <-> pass_through (cn_ax a) = true) -> main_ok (ax25_msg_callback heard m a).
Proof.
  intros Hok Hm. pose proof Hok as (A & B & C). unfold ax25_msg_callback.
  change (mode (on_rest (set_rs_calls ?n) a)) with (mode a).
  destruct A as [A|[A|[A|[_ A]]]]; rewrite A in *; cbn [Z.eqb Pos.eqb MODE_CFG MODE_KISS MODE_DIGI MODE_TRACKER] in *.
  - destruct m as [m|]; [by apply main_ok_same with a|]. destruct Hm as [Hm _]. rewrite B in Hm by done.
    by specialize (Hm eq_refl).
  - by apply main_ok_same with a.
  - destruct m as [m|].
    + apply main_ok_same with a; [|done|done|done].
      apply (digi_keeps (heard (rs_calls (cn_rest a))) (cn_set a) m).
    + destruct Hm as [Hm _]. rewrite B in Hm by done. by specialize (Hm eq_refl).
  - by apply main_ok_same with a.
Qed.

Lemma switch_ok value len a : main_ok a -> main_ok (snd (cmd_switch_mode MOD_TRACKER value len a)).
Proof.
  intros Hok. unfold cmd_switch_mode. destruct (len >? 0); [|by apply main_ok_same with a].
  destruct (_ && _); [done|].
  assert (Hsave : forall a' : App S F, main_ok a' -> main_ok (snd (
    if negb (mode a' =? run_mode (g_settings (cn_set a'))) then
      (true, set_cn_set (snd (settings_save (settings_set_params (Some SETTINGS_RUN_MODE)
        [u8 (mode a')] (cn_set a')))) a')
    else (true, a')))) by (intros a' Ha; by destruct (negb _)).
  destruct (atoi value =? MODE_CFG); [apply Hsave|destruct (atoi value =? MODE_KISS); [apply Hsave|
    destruct (_ && _) eqn:Et; [apply Hsave|destruct (atoi value =? MODE_DIGI); [apply Hsave|by apply main_ok_same with a]]]].
  all: destruct Hok as (_ & _ & C); (split; [|by split]); auto.
  apply andb_prop in Et as [_ Et]. auto.
Qed.

Lemma check_ok now a : main_ok a -> main_ok (check_run_mode MOD_TRACKER now a).
Proof.
  intros Hok. unfold check_run_mode. destruct (_ =? _); [done|].
  destruct (_ =? _); [done|]. destruct (_ >? _); [|done].
  destruct (negb _); [|done]. by apply switch_ok.
Qed.

(** The console touches mode and flag only through the handlers of main.c. *)
Definition same_modes a a' : Prop :=
  pass_through (cn_ax a') = pass_through (cn_ax a) /\ cn_rest a' = cn_rest a.

Lemma same_modes_ok a a' : same_modes a a' -> main_ok a -> main_ok a'.
Proof. intros [Hp Hr]. apply main_ok_same; [done| |]; unfold mode; by rewrite Hr. Qed.

Lemma info_same len a : same_modes a (snd (cmd_info freeRam VERS_BUILD len a)).
Proof. unfold cmd_info. by destruct (len =? 0). Qed.

Lemma help_same a : same_modes a (snd (cmd_help a)).
Proof. split; reflexivity. Qed.

Lemma handler_ok h value len a :
  main_ok a -> main_ok (snd (run_handler freeRam stack64 (main_commands MOD_TRACKER) h value len a)).
Proof.
  intros Hok. destruct h as [| | | | | |i]; cbn [run_handler].
  - apply same_modes_ok with a; [|done]. unfold cmd_settings_mycall. by destruct (len >? 0).
  - apply same_modes_ok with a; [|done]. unfold cmd_settings_path.
    destruct (len >? 0); [|done]. unfold path_set.
    destruct (strtok _ _) as [[[p1|] buf] save]; [|done].
    destruct (strtok save buf) as [[t buf'] save']. by destruct (_ >? 0).
  - apply same_modes_ok with a; [|done]. unfold cmd_settings_reset.
    destruct (_ && _); [|done]. by destruct (_ =? 50).
  - apply same_modes_ok with a; [|done]. unfold cmd_settings_symbol. by destruct (len >=? 2).
  - apply same_modes_ok with a; [|done]. unfold cmd_settings_beacon_interval.
    destruct (len >? 0); (destruct (settings_get_params _ _ _) as [v n]; done).
  - apply same_modes_ok with a; [|done]. unfold cmd_settings_beacon_text.
    destruct (len >? 0); (destruct (settings_get_beacon_text _ _ _) as [v n]; done).
  - destruct i; cbn [main_commands]; by apply switch_ok.
Qed.

Lemma parse_ok len a :
  main_ok a -> main_ok (console_parse_command freeRam VERS_BUILD stack stack64 (main_commands MOD_TRACKER) len a).
Proof.
  intros Hok. unfold console_parse_command.
  destruct (_ && _).
  { apply same_modes_ok with a; [|done]. unfold cmd_test_send. split; [|done].
    change (pass_through (bc_ax (beacon_send_test_message_immediate stack
      (Z.to_nat (let r := if len - 1 >? 0 then u8 (atoi (pointed 1 a)) else 0 in
        if (r =? 0) || (r >? 99) then DEFAULT_REPEATS else r))
      (beacon_of (cn_printf (chars "Sending %d test packet" ++ crlf)
        [AInt (let r := if len - 1 >? 0 then u8 (atoi (pointed 1 a)) else 0 in
          if (r =? 0) || (r >? 99) then DEFAULT_REPEATS else r)] a)))) = pass_through (cn_ax a)).
    by rewrite test_keeps. }
  destruct (_ && _); [apply same_modes_ok with a; [apply info_same|done]|].
  destruct (_ && _).
  { apply same_modes_ok with (snd (cmd_info freeRam VERS_BUILD 1 a)); [apply help_same|].
    apply same_modes_ok with a; [apply info_same|done]. }
  destruct (split_command len (cn_buf a)) as [[[[key value] vlen]|] buf]; [|by apply same_modes_ok with a].
  destruct (console_lookup_command _ _) as [h|]; [|by apply same_modes_ok with a].
  pose proof (handler_ok h value vlen (set_cn_buf (strupr key buf) a)) as Hh.
  destruct (run_handler _ _ _ h value vlen _) as [[|] a']; cbn [snd] in Hh.
  - apply Hh. by apply same_modes_ok with a.
  - apply same_modes_ok with a'; [done|]. apply Hh. by apply same_modes_ok with a.
Qed.

Let turn := main_turn freeRam VERS_BUILD stack stack64 stack_msg rand heard MOD_TRACKER sin cos atan2 null.

Lemma main_hook_ok m ctx a :
  main_ok (set_cn_ax ctx a) -> (m = None <-> pass_through ctx = true) ->
  main_ok (set_cn_ax (fst (main_hook heard m ctx a)) (snd (main_hook heard m ctx a))).
Proof.
  intros Hok Hm. unfold main_hook. cbn [fst snd].
  pose proof (callback_ok m (set_cn_ax ctx a) Hok Hm) as Hc.
  by destruct (ax25_msg_callback heard m (set_cn_ax ctx a)).
Qed.

Lemma poll_ok fuel a ctx a' :
  main_ok a -> ax25_poll (main_hook heard) (stack_msg (App S F)) fuel (cn_ax a) a = Some (ctx, a') ->
  main_ok (set_cn_ax ctx a').
Proof.
  intros Hok. apply (ax25_poll_keeps (main_hook heard) (stack_msg (App S F))
    (fun c a => main_ok (set_cn_ax c a))).
  - intros c c' w Hc. by apply main_ok_same.
  - apply main_hook_ok.
  - by destruct a.
Qed.

Lemma turn_ok fuel clock a a' : main_ok a -> turn fuel clock a = Some a' -> main_ok a'.
Proof.
  intros Hok. unfold turn, main_turn.
  destruct (ax25_poll _ _ _ _ _) as [[ctx a1]|] eqn:E; [|done].
  apply poll_ok in E; [|done].
  pose proof (check_ok (clock 0%nat) _ E) as Hc. clear E.
  set (a2 := check_run_mode MOD_TRACKER (clock 0%nat) (set_cn_ax ctx a1)) in *. clearbody a2.
  destruct (_ || _).
  - assert (Hp : main_ok (console_poll freeRam VERS_BUILD stack stack64 (main_commands MOD_TRACKER) a2)).
    { unfold console_poll. destruct (serialreader_readline (cn_reader a2)) as [n r].
      destruct (n >? 0); [apply parse_ok|]; by apply main_ok_same with a2. }
    set (a3 := console_poll _ _ _ _ _ a2) in *. clearbody a3.
    destruct (cn_reset a3); intros [= <-]; [done|].
    apply main_ok_same with a3; [|done|done|done]. apply (beacon_keeps stack).
  - destruct (_ =? MODE_KISS).
    { destruct (kiss_poll _ _ _ _ _ _ _ _ _) as [k|] eqn:E; [|done]. intros [= <-].
      apply kiss_keeps in E. by apply main_ok_same with a2. }
    destruct (_ && _) eqn:Et; intros [= <-]; [|done].
    apply andb_prop in Et as [Et _]. apply Z.eqb_eq in Et. destruct Hc as (A & _ & C).
    split; [exact A|]. split; [|exact C]. intros Hne. by destruct Hne.
Qed.

(** What happens: turns of the loop, at any times, and between them interrupts,
    which reach the serial port and the modem. *)
Inductive step : App S F -> App S F -> Prop :=
  | step_turn fuel clock a a' : turn fuel clock a = Some a' -> step a a'
  | step_irq ser ch a : step a (set_cn_ser ser (set_cn_ax (set_ax_ch ch (cn_ax a)) a)).

(** C5: the modes are safe. Whatever is typed, heard or stored, and whenever
    interrupts come, from power-on on: the mode is always one the build has, frames
    are passed through undecoded in KISS mode and in no other mode whose callback
    wants the message (the tracker's does not), and so the callback, which uses the
    message it is given without a check, never uses a null pointer. *)
Theorem main_modes_safe (ser : S) (af : F) (s : Settings) (a : App S F)
    (Hrun : rtc step (init freeRam VERS_BUILD ser af s) a) :
  (mode a = MODE_CFG \/ mode a = MODE_KISS \/ mode a = MODE_DIGI \/
    MOD_TRACKER = true /\ mode a = MODE_TRACKER) /\
  (mode a <> MODE_TRACKER -> pass_through (cn_ax a) = (mode a =? MODE_KISS)) /\
  rs_null (cn_rest a) = false.
Proof.
  assert (Hinit : main_ok (init freeRam VERS_BUILD ser af s)) by (split; [by left|done]).
  revert Hinit. induction Hrun as [a|a a1 a2 Hstep _ IH]; [done|]. intros Hok. apply IH.
  destruct Hstep as [fuel clock a a1 Ht|ser' ch a]; [by eapply turn_ok|by apply main_ok_same with a].
Qed.
End Modes.

(** ** The stored mode *)

Section Stored.
Context {S : Type} `{SerLaws S} {F : Type} `{KFile F} `{Carrier F}.
Implicit Types a : App S F.
Variable MOD_TRACKER : bool.

Definition stored_mode a : Z := run_mode (g_settings (cn_set a)).

(** The checks of several turns. *)
Definition checks_at (ts : list Z) a : App S F := fold_left (fun a t => check_run_mode MOD_TRACKER t a) ts a.

(** The one-character string [check_run_mode] makes of a mode. *)
Lemma mode_char m : is_byte m -> atoi [u8 (m + 48); 0] = if m <? 10 then m else 0.
Proof.
  intros Hm. apply Z.eqb_eq.
  apply (forall_byte (fun m => atoi [u8 (m + 48); 0] =? (if m <? 10 then m else 0)));
    [vm_compute; reflexivity|done].
Qed.

Lemma check_same t a : mode a = stored_mode a -> check_run_mode MOD_TRACKER t a = a.
Proof. intros E. unfold check_run_mode. unfold stored_mode in E. by rewrite E, Z.eqb_refl. Qed.

Lemma check_late t a :
  mode a <> stored_mode a -> start (cn_rest a) <> 0 ->
  check_run_mode MOD_TRACKER t a =
    if i32 (t - start (cn_rest a)) >? 10000
    then snd (cmd_switch_mode MOD_TRACKER [u8 (stored_mode a + 48); 0] 1 a) else a.
Proof.
  intros Hne Hs. unfold check_run_mode, stored_mode in *. apply Z.eqb_neq in Hne, Hs.
  rewrite Hne, Hs. change (ms_to_ticks 10000) with 10000. done.
Qed.

(** Entering a mode that is stored already. *)
Lemma switch_stored a value m :
  atoi value = m -> stored_mode a = m -> mode a <> m ->
  m = MODE_CFG \/ m = MODE_KISS \/ m = MODE_DIGI \/ MOD_TRACKER = true /\ m = MODE_TRACKER ->
  let a' := snd (cmd_switch_mode MOD_TRACKER value 1 a) in
  mode a' = m /\ (m <> MODE_TRACKER -> pass_through (cn_ax a') = (m =? MODE_KISS)) /\
  cn_set a' = cn_set a /\ start (cn_rest a') = start (cn_rest a).
Proof.
  intros Hv Hst Hne Hm. unfold cmd_switch_mode. rewrite Hv.
  change (1 >? 0) with true. cbv iota.
  assert ((m =? mode a) = false) as -> by (apply Z.eqb_neq; congruence). cbn [andb].
  unfold stored_mode in Hst.
  destruct Hm as [-> |[-> |[-> |[Et ->]]]]; cbn [Z.eqb Pos.eqb MODE_CFG MODE_KISS MODE_DIGI MODE_TRACKER andb];
    rewrite ?Et; cbv zeta beta iota;
    match goal with |- context [run_mode (g_settings (cn_set ?A))] =>
      change (run_mode (g_settings (cn_set A))) with (run_mode (g_settings (cn_set a))) end;
    rewrite Hst; split_and!; (reflexivity || by intros []).
Qed.

(** The station goes into the mode it was configured for, after ten seconds:
    the first check that finds another mode starts the clock, checks within ten
    seconds change nothing, the first one after that enters the stored mode with
    the decoding that goes with it, and all later checks leave everything alone.
    The settings are not touched. *)
Theorem main_enters_stored_mode a (m t0 t : Z) (ts : list Z)
    (Hm : m = MODE_CFG \/ m = MODE_KISS \/ m = MODE_DIGI \/ MOD_TRACKER = true /\ m = MODE_TRACKER)
    (Hst : stored_mode a = m)
    (Hne : mode a <> m) (Hs : start (cn_rest a) = 0) (Ht0 : t0 <> 0)
    (Hts : Forall (fun t => i32 (t - t0) <= 10000) ts) (Ht : 10000 < i32 (t - t0)) :
  let a1 := checks_at (t0 :: ts) a in
  let a2 := check_run_mode MOD_TRACKER t a1 in
  a1 = on_rest (set_start t0) a /\
  mode a2 = m /\ (m <> MODE_TRACKER -> pass_through (cn_ax a2) = (m =? MODE_KISS)) /\
  cn_set a2 = cn_set a /\
  forall later, checks_at later a2 = a2.
Proof.
  cbv zeta. set (a0 := on_rest (set_start t0) a).
  assert (Hwait : checks_at (t0 :: ts) a = a0).
  { unfold checks_at. cbn [fold_left].
    assert (check_run_mode MOD_TRACKER t0 a = a0) as ->.
    { unfold check_run_mode. unfold stored_mode in Hst. rewrite Hst, Hs.
      apply Z.eqb_neq in Hne. by rewrite Hne. }
    induction Hts as [|t1 ts Ht1 _ IH]; [done|]. cbn [fold_left].
    rewrite (check_late t1 a0) by (try done; change (mode a0) with (mode a);
      change (stored_mode a0) with (stored_mode a); congruence).
    change (start (cn_rest a0)) with t0.
    assert ((i32 (t1 - t0) >? 10000) = false) as ->; [|exact IH].
    rewrite Z.gtb_ltb. apply Z.ltb_ge. lia. }
  rewrite Hwait. split; [done|].
  rewrite (check_late t a0) by (try done; change (mode a0) with (mode a);
    change (stored_mode a0) with (stored_mode a); congruence).
  change (start (cn_rest a0)) with t0. apply Z.gtb_lt in Ht. rewrite Ht.
  change (stored_mode a0) with (stored_mode a). rewrite Hst.
  destruct (switch_stored a0 [u8 (m + 48); 0] m) as (E1 & E2 & E3 & _); try done.
  { rewrite mode_char by (unfold is_byte, MODE_CFG, MODE_KISS, MODE_DIGI, MODE_TRACKER in *; lia).
    by destruct Hm as [-> |[-> |[-> |[_ ->]]]]. }
  split_and!; [done|done|exact E3|]. intros later. unfold checks_at.
  induction later as [|t' later IH]; [done|]. cbn [fold_left].
  rewrite check_same; [exact IH|]. rewrite E1. unfold stored_mode. by rewrite E3.
Qed.

(** The complaint about a mode this build does not have. *)
Definition invalid_mode (m : Z) : list Z :=
  chars "Invalid mode " ++ [m + 48] ++ chars ", [0|1|2|3] is accepted" ++ crlf.

Lemma check_invalid t a m :
  stored_mode a = m -> 0 <= m < 10 -> m <> MODE_CFG -> m <> MODE_KISS -> m <> MODE_DIGI ->
  ~ (MOD_TRACKER = true /\ m = MODE_TRACKER) -> mode a <> m -> start (cn_rest a) <> 0 -> 10000 < i32 (t - start (cn_rest a)) -> sp_ok (cn_ser a) ->
  says (invalid_mode m) a (check_run_mode MOD_TRACKER t a).
Proof.
  intros Hst Hm N0 N1 N3 N2 Hne Hs Ht Hok. rewrite check_late by congruence. apply Z.gtb_lt in Ht.
  rewrite Ht, Hst. unfold cmd_switch_mode. change (1 >? 0) with true. cbv iota.
  rewrite mode_char by (unfold is_byte; lia).
  assert ((m <? 10) = true) as -> by (apply Z.ltb_lt; lia).
  assert ((m =? MODE_TRACKER) && MOD_TRACKER = false) as E2.
  { destruct (m =? MODE_TRACKER) eqn:E; [|done]. apply Z.eqb_eq in E. cbn [andb].
    destruct MOD_TRACKER; [|done]. by destruct N2. }
  apply Z.eqb_neq in N0, N1, N3. rewrite N0, N1, N3, E2.
  assert ((m =? mode a) = false) as -> by (apply Z.eqb_neq; congruence). cbn [andb].
  rewrite u8_small by lia.
  pose proof (cn_printf_says [PLit (chars "Invalid mode "); PStr [m + 48; 0];
    PLit (chars ", [0|1|2|3] is accepted" ++ crlf)] a Hok ltac:(repeat constructor; decide_closed)) as Hs'.
  assert (Hstr : fw_string (Z.to_nat 10000) [m + 48; 0] = [m + 48]).
  { apply (fw_string_end [m + 48] []); [|cbn; lia]. constructor; [lia|constructor]. }
  cbn [map concat piece_fmt piece_args piece_out] in Hs'. rewrite Hstr, !app_nil_r in Hs'.
  apply Hs'. apply Forall_app. split; [decide_closed|]. constructor; [unfold is_byte; lia|decide_closed].
Qed.

(** What becomes of a stored mode this build does not have, as a configuration
    tool can store it. Below 10, the ten seconds over, every turn of the loop
    prints the same complaint, for ever, and changes nothing. From 10 on, the mode
    is not a digit, is read as 0, and is replaced by it: the station goes to
    configuration mode and stores that. *)
Theorem main_bad_mode a (m : Z) (ts : list Z)
    (Hst : stored_mode a = m) (Hm : is_byte m)
    (Hbad : m <> MODE_CFG /\ m <> MODE_KISS /\ m <> MODE_DIGI /\ ~ (MOD_TRACKER = true /\ m = MODE_TRACKER))
    (Hne : mode a <> m)
    (Hs : start (cn_rest a) <> 0) (Hok : sp_ok (cn_ser a))
    (Hts : Forall (fun t => 10000 < i32 (t - start (cn_rest a))) ts) :
  (m < 10 -> says (concat (replicate (length ts) (invalid_mode m))) a (checks_at ts a)) /\
  (10 <= m -> ts <> [] -> mode (checks_at ts a) = MODE_CFG /\ stored_mode (checks_at ts a) = MODE_CFG).
Proof.
  destruct Hbad as (N0 & N1 & N3 & N2). split.
  - intros Hlt. revert a Hst Hne Hs Hok Hts.
    induction ts as [|t ts IH]; intros a Hst Hne Hs Hok Hts; unfold checks_at; cbn [fold_left].
    + split; [done|]. split; [by rewrite app_nil_r|]. by destruct a as [[]].
    + apply Forall_cons in Hts as [Ht Hts]. unfold is_byte in Hm.
      destruct (check_invalid t a m Hst ltac:(lia) N0 N1 N3 N2 Hne Hs Ht Hok) as (Hok1 & Ho1 & E1).
      remember (cn_ser (check_run_mode MOD_TRACKER t a)) as s1 eqn:Es. clear Es. rewrite E1.
      destruct (IH (set_cn_ser s1 a) Hst Hne Hs Hok1 Hts) as (Hok2 & Ho2 & E2).
      split; [exact Hok2|]. split; [|exact E2].
      unfold checks_at in Ho2. rewrite Ho2. change (cn_ser (set_cn_ser s1 a)) with s1.
      rewrite Ho1. cbn [length replicate concat]. by rewrite <- app_assoc.
  - intros Hge Hnil. destruct ts as [|t ts]; [done|]. apply Forall_cons in Hts as [Ht _]. clear Hnil.
    assert (E : mode (check_run_mode MOD_TRACKER t a) = MODE_CFG /\ stored_mode (check_run_mode MOD_TRACKER t a) = MODE_CFG).
    { rewrite check_late by congruence. apply Z.gtb_lt in Ht. rewrite Ht, Hst.
      unfold cmd_switch_mode. change (1 >? 0) with true. cbv iota. rewrite mode_char by done.
      assert ((m <? 10) = false) as -> by (apply Z.ltb_ge; lia).
      unfold stored_mode in *. rewrite Hst.
      assert ((0 =? m) = false) as Hz by (apply Z.eqb_neq; lia). rewrite Hz, andb_false_r.
      cbn [Z.eqb MODE_CFG]. cbv zeta beta iota.
      match goal with |- context [run_mode (g_settings (cn_set ?A))] =>
        change (run_mode (g_settings (cn_set A))) with (run_mode (g_settings (cn_set a))) end.
      rewrite Hst. match goal with |- context [mode ?A =? m] => change (mode A) with 0 end.
      rewrite Hz. split; reflexivity. }
    destruct E as [E1 E2]. set (a1 := check_run_mode MOD_TRACKER t a) in *. unfold checks_at. cbn [fold_left].
    fold a1. clearbody a1. induction ts as [|t' ts IH]; [done|]. cbn [fold_left].
    rewrite check_same by congruence. apply IH.
Qed.
End Stored.

(** ** Power-on *)

Section Examples.
Import KFileFifo.

#[local] Instance ring_carrier : Carrier FIFOBuffer := {
  rxstart _ := false;
  modem_status _ := 0;
  clear_status ch := ch;
  run_irqs ch := ch;
  timer_delay _ ch := ch
}.

#[local] Instance idle_port : SerPort Serial := ser_port (fun _ => None) (fun _ => 0) 0.
#[local] Instance idle_laws : SerLaws Serial := ser_laws (fun _ => None) (fun _ => 0) 0.

(** A station with this mode stored, and nothing on the air. *)
Definition boot (mode : Z) : App Serial FIFOBuffer :=
  init 900 42 (ser_init 0) (fifo_init (zeros 16) 16) (mkS (default_settings mode) (nv sample_settings)).

Definition boot_turn (clock : nat -> Z) (a : App Serial FIFOBuffer) : option (App Serial FIFOBuffer) :=
  main_turn 900 42 (zeros 128) (zeros 64) (fun _ => blank_stack) (fun _ => 0) (fun _ _ => 0) true flat flat (fun _ => flat) [] 5 clock a.

(** Two turns, 11 seconds apart, with KISS mode stored. *)
Definition after_boot : App Serial FIFOBuffer :=
  default (boot 1) (boot_turn (fun _ => 11100) (default (boot 1) (boot_turn (fun _ => 100) (boot 1)))).

Lemma boot_turn_steps clock a :
  is_Some (boot_turn clock a) ->
  step 900 42 (zeros 128) (zeros 64) (fun _ => blank_stack) (fun _ => 0) (fun _ _ => 0)
    true flat flat (fun _ => flat) [] a (default (boot 1) (boot_turn clock a)).
Proof. intros [a' E]. rewrite E. by apply (step_turn _ _ _ _ _ _ _ _ _ _ _ _ 5 clock). Qed.

Lemma main_modes_safe_witness :
  (mode after_boot = MODE_CFG \/ mode after_boot = MODE_KISS \/ mode after_boot = MODE_DIGI \/
    true = true /\ mode after_boot = MODE_TRACKER) /\
  (mode after_boot <> MODE_TRACKER -> pass_through (cn_ax after_boot) = (mode after_boot =? MODE_KISS)) /\
  rs_null (cn_rest after_boot) = false.
Proof.
  apply (main_modes_safe 900 42 (zeros 128) (zeros 64) (fun _ => blank_stack) (fun _ => 0)
    (fun _ _ => 0) true flat flat (fun _ => flat) [] (ser_init 0) (fifo_init (zeros 16) 16)
    (mkS (default_settings 1) (nv sample_settings))).
  eapply rtc_l; [apply (boot_turn_steps (fun _ => 100)); vm_compute; by eexists|].
  apply rtc_once, (boot_turn_steps (fun _ => 11100)). vm_compute. by eexists.
Defined.

Lemma main_enters_stored_mode_witness :
  mode (checks_at true [5; 100; 9000] (boot 3)) = MODE_CFG /\
  mode (check_run_mode true 10006 (checks_at true [5; 100; 9000] (boot 3))) = MODE_DIGI.
Proof.
  split; [vm_compute; reflexivity|].
  apply (main_enters_stored_mode true (boot 3) 3 5 10006 [100; 9000]).
  - by right; right; left.
  - vm_compute. reflexivity.
  - vm_compute. congruence.
  - vm_compute. reflexivity.
  - done.
  - by repeat constructor.
  - vm_compute. reflexivity.
Defined.

(** Mode 2 stored, the ten seconds running, the banner gone from the port. *)
Lemma main_bad_mode_witness :
  let a := set_cn_ser (ser_init 0) (on_rest (set_start 5) (boot 2)) in
  says (invalid_mode 2 ++ invalid_mode 2) a (checks_at false [20000; 20001] a).
Proof.
  apply (main_bad_mode false (set_cn_ser (ser_init 0) (on_rest (set_start 5) (boot 2))) 2 [20000; 20001]);
    [..|lia].
  - vm_compute. reflexivity.
  - unfold is_byte. lia.
  - split_and!; [done..|by intros [? _]].
  - vm_compute. congruence.
  - vm_compute. congruence.
  - apply ser_init_wf.
  - by repeat constructor.
Defined.
End Examples.
