(* ===== verification/Monitor.v ===== *)
(** * What the user sees on the air

    In configuration mode the program is a monitor: messages another station sends
    appear on the terminal.  Sender, channel, receiver, callback and formatter put
    together. *)

From Stdlib Require Import ZArith Lia Bool List.
From Stdlib Require Import String.
From stdpp Require Import prelude.
From S2P Require Import Prelude.
From S2P Require Import Libc.
From S2P Require Import Crc.
From S2P Require Import Fifo.
From S2P Require Import KFile.
From S2P Require Import Formatwr.
From S2P Require Import Ax25.
From S2P Require Import Ax25Tx.
From S2P Require Import Ax25Rx.
From S2P Require Import Ax25Decode.
From S2P Require Import Ax25Link.
From S2P Require Import Ax25Print.
From S2P Require Import Ser.
From S2P Require Import Settings.
From S2P Require Import Reader.
From S2P Require Import Kiss.
From S2P Require Import Digi.
From S2P Require Import Console.
From S2P Require Import Main.

Open Scope Z_scope.

(** ** The text of a frame *)

(** The bytes before the first NUL. *)
Fixpoint before_nul (l : list Z) : list Z :=
  match l with
  | [] => []
  | c :: l' => if c =? 0 then [] else c :: before_nul l'
  end.

(** An SSID, 0 to 15, in decimal. *)
Definition ssid_text (n : Z) : list Z := if n <? 10 then [48 + n] else [49; 48 + (n - 10)].

Definition station_text (c : AX25Call) : list Z :=
  before_nul (call c) ++ (if ssid c =? 0 then [] else 45 :: ssid_text (ssid c)).

Definition via_text (e : AX25Call * bool) : list Z :=
  44 :: station_text (fst e) ++ (if snd e then [42] else []).

(** SOURCE>DESTINATION,REPEATER*,...:payload, and a line end; the payload ends
    at its first NUL.  The text is stated without the program's formatter. *)
Definition frame_text (f : Frame) : list Z :=
  station_text (f_src f) ++ 62 :: station_text (f_dst f) ++ concat (map via_text (f_path f)) ++
  58 :: before_nul (f_info f) ++ [10; 13].

Lemma fw_string_before_nul n : forall s, fw_string n s = before_nul (take n s).
Proof.
  induction n as [|n IH]; intros [|c s]; [done..|]. cbn. destruct (c =? 0); [done|].
  by rewrite <- IH.
Qed.

Lemma ssid_text_printed n :
  0 <= n < 16 -> formatted (chars "%d") [AInt n] = ssid_text n.
Proof.
  intros Hn.
  assert (E : forall b, is_byte b -> implb (b <? 16)
    (bool_decide (formatted (chars "%d") [AInt b] = ssid_text b)) = true).
  { apply forall_byte. vm_compute. reflexivity. }
  specialize (E n ltac:(unfold is_byte; lia)).
  assert ((n <? 16) = true) as Hlt by (apply Z.ltb_lt; lia). rewrite Hlt in E.
  by apply bool_decide_eq_true in E.
Qed.

Lemma station_text_printed c : call_wf c -> call_text c = station_text c.
Proof.
  intros (name & Hc & Hn & _ & Hs). unfold call_text, station_text.
  rewrite ssid_text_printed by done. rewrite fw_string_before_nul, take_ge; [done|].
  rewrite Hc, length_app, length_replicate. lia.
Qed.

Lemma path_text_printed p :
  Forall (fun e => call_wf (fst e)) p -> map rpt_text p = map via_text p.
Proof.
  intros Hp. apply map_ext_Forall. eapply Forall_impl; [exact Hp|]. intros e He. unfold rpt_text.
  by rewrite station_text_printed.
Qed.

(** The formatter writes that text. *)
Lemma decoded_text m f : frame_wf f -> decodes_to m f -> tnc2 m = frame_text f.
Proof.
  intros (Hd & Hs & Hp & _) (Hf & _ & _ & _ & Hl). unfold tnc2, frame_text.
  rewrite fw_string_before_nul. subst f. cbn [f_src f_dst f_path f_info msg_frame] in *.
  by rewrite !station_text_printed, path_text_printed.
Qed.

(** ** Printing is writing the text *)

Section Print.
Context {S : Type} `{KFile S}.

Definition put_text (l : list Z) (s : S) : S := fold_left (fun s c => snd (kfile_putc c s)) l s.

Lemma put_text_app l1 l2 s : put_text (l1 ++ l2) s = put_text l2 (put_text l1 s).
Proof. apply fold_left_app. Qed.

Lemma printf_text s fmt args : snd (kfile_printf_P s fmt args) = put_text (formatted fmt args) s.
Proof. reflexivity. Qed.

Lemma print_call_text s c : print_call s c = put_text (call_text c) s.
Proof.
  unfold print_call, call_text. rewrite !printf_text, formatted_s6, put_text_app.
  destruct (ssid c =? 0); cbn [negb]; [done|]. by rewrite formatted_dash.
Qed.

Lemma print_rpts_text m n : forall i s,
  0 <= i -> i + Z.of_nat n = m_rpt_cnt m ->
  print_rpts n i s m = put_text (concat (map rpt_text (rpt_entries n i m))) s.
Proof.
  induction n as [|n IH]; intros i s Hi Hn; [done|]. cbn [print_rpts rpt_entries map concat].
  assert ((i <? m_rpt_cnt m) = true) as -> by (apply Z.ltb_lt; lia).
  rewrite put_text_app, <- IH by lia. unfold rpt_text. cbn [fst snd].
  change (44 :: ?l) with ([44] ++ l). rewrite !put_text_app, print_call_text.
  by destruct (AX25_REPEATED (m_rpt_flags m) i).
Qed.

Lemma print_text s m :
  0 <= m_rpt_cnt m -> 0 <= m_len m < 32768 -> ax25_print s m = put_text (tnc2 m) s.
Proof.
  intros Hc Hl. unfold ax25_print, tnc2. rewrite !print_call_text, print_rpts_text by lia.
  rewrite printf_text, i16_small, formatted_info by lia.
  rewrite !(put_text_app (call_text _)). change (62 :: ?l) with ([62] ++ l).
  by rewrite !put_text_app.
Qed.
End Print.

(** The text consists of bytes. *)
Lemma call_text_bytes c : call_wf c -> bytes (call_text c).
Proof.
  intros (name & Hc & Hn & Hs & _). apply Forall_app. split.
  - apply fw_string_bytes. rewrite Hc. apply Forall_app.
    split; [|apply Forall_replicate; unfold is_byte; lia].
    eapply Forall_impl; [exact Hs|]. intros x Hx.
    pose proof (call_char_props x Hx) as (_ & _ & ? & _). unfold is_byte. lia.
  - destruct (ssid c =? 0); [constructor|]. constructor; [unfold is_byte; lia|apply printf_d_bytes].
Qed.

Lemma before_nul_bytes l : bytes l -> bytes (before_nul l).
Proof.
  intros Hl. pose proof (fw_string_bytes (length l) l Hl) as Hb.
  by rewrite fw_string_before_nul, firstn_all in Hb.
Qed.

Lemma frame_text_bytes f : frame_wf f -> bytes (f_info f) -> bytes (frame_text f).
Proof.
  intros (Hd & Hs & Hp & _) Hi. unfold frame_text.
  rewrite <- path_text_printed, <- !station_text_printed by done.
  apply Forall_app. split; [by apply call_text_bytes|]. constructor; [unfold is_byte; lia|].
  apply Forall_app. split; [by apply call_text_bytes|]. apply Forall_app. split.
  - induction Hp as [|[c r] p Hc Hp IH]; [constructor|]. cbn [map concat]. apply Forall_app.
    split; [|exact IH]. constructor; [unfold is_byte; lia|]. apply Forall_app.
    split; [by apply call_text_bytes|]. cbn [snd]. destruct r; [|constructor].
    constructor; [unfold is_byte; lia|constructor].
  - constructor; [unfold is_byte; lia|]. apply Forall_app. split; [by apply before_nul_bytes|decide_closed].
Qed.

(** ** The monitor *)

Section Monitor.
Context {S : Type} `{SerLaws S} {G : Type} `{KSource G} `{Carrier G}.
Implicit Types a : App S G.
Variable stack_msg : forall W : Type, AX25Ctx G -> W -> AX25Msg.
Hypothesis Hstack : forall W ctx (w : W), length (m_rpt_lst (stack_msg W ctx w)) = AX25_MAX_RPT.
Variable heard : nat -> nat -> Z.

(** A line on the terminal. *)
Definition count_call a : App S G := on_rest (fun r => set_rs_calls (Datatypes.S (rs_calls r)) r) a.
Definition show (line : list Z) a : App S G := set_cn_ser (put_text line (cn_ser a)) (count_call a).

(** The callback in configuration mode. *)
Definition cfg_hook (m : option AX25Msg) (ctx : AX25Ctx G) a : AX25Ctx G * App S G :=
  (ctx, match m with Some m => set_cn_ser (ax25_print (cn_ser a) m) (count_call a) | None => a end).

Lemma main_hook_cfg m ctx a :
  mode a = MODE_CFG /\ pass_through ctx = false -> (m = None <-> pass_through ctx = true) ->
  main_hook heard m ctx a = cfg_hook m ctx a.
Proof.
  intros [Ha Hp] Hm. destruct m as [m|]; [|rewrite (proj1 Hm eq_refl) in Hp; done].
  unfold main_hook, ax25_msg_callback, cfg_hook.
  change (mode (on_rest (set_rs_calls ?n) (set_cn_ax ctx a))) with (mode a). rewrite Ha.
  change (MODE_CFG =? MODE_CFG) with true. cbv iota. by destruct a.
Qed.

Lemma main_poll_cfg fuel ctx a :
  mode a = MODE_CFG -> pass_through ctx = false ->
  ax25_poll (main_hook heard) (stack_msg (App S G)) fuel ctx a
  = ax25_poll cfg_hook (stack_msg (App S G)) fuel ctx a.
Proof.
  intros Ha Hp.
  apply (ax25_poll_agree (main_hook heard) cfg_hook (stack_msg (App S G))
    (fun c a => mode a = MODE_CFG /\ pass_through c = false)); [| | |done].
  - intros c c' w Hc [? ?]. by rewrite Hc.
  - intros m c w Hw Hm. rewrite main_hook_cfg by done. unfold cfg_hook. cbn [fst snd].
    by destruct m.
  - apply main_hook_cfg.
Qed.

(** What the frame in the buffer puts on the terminal. *)
Definition monitored (l : list Z) a : App S G :=
  fold_left (fun a f => show (frame_text f) a) (frame_of l) a.

Lemma cfg_hook_obs ctx a l :
  good_frame l -> pass_through ctx = false -> ax_hook ctx = true ->
  frm_len ctx = Z.of_nat (length l) -> take (length l) (ax_buf ctx) = l ->
  snd (on_frame cfg_hook (stack_msg (App S G)) ctx a) = monitored l a.
Proof.
  intros (f & Hwf & -> & Hmax) Hp Hh Hl Hb. unfold monitored. rewrite frame_of_good by done.
  unfold on_frame, ax25_decode. rewrite Hp.
  destruct (ax25_decode_encode_gen f (stack_msg (App S G) ctx a) ctx
    (fcs (crc_ccitt CRC_CCITT_INIT_VAL (frame_octets f))
      ++ drop (length (with_fcs (frame_octets f))) (ax_buf ctx))) as (m & -> & Hm); try done.
  - rewrite app_assoc. fold (with_fcs (frame_octets f)). rewrite <- Hb at 1.
    by rewrite take_drop.
  - rewrite Hl, length_with_fcs. lia.
  - rewrite Hl. unfold CONFIG_AX25_FRAME_BUF_LEN. lia.
  - rewrite Hh. unfold cfg_hook. cbn [snd fold_left]. unfold show.
    rewrite <- (decoded_text m f Hwf Hm), print_text; [done|..];
      destruct Hm as (_ & _ & _ & Hc & Hlen); [lia|]. rewrite Hlen.
    rewrite length_with_fcs in Hmax. rewrite length_frame_octets in Hmax by done. lia.
Qed.

Lemma count_calls_ser n : forall s s1 a,
  set_cn_ser s (iter n count_call (set_cn_ser s1 a)) = set_cn_ser s (iter n count_call a).
Proof.
  induction n as [|n IH]; intros s s1 a; [done|]. cbn [iter]. apply (IH s s1 (count_call a)).
Qed.

Definition printable (f : Frame) : Prop :=
  frame_wf f /\ bytes (f_info f) /\ Z.of_nat (length (with_fcs (frame_octets f))) <= 330.

Lemma monitored_one f a :
  printable f -> sp_ok (cn_ser a) ->
  exists s, monitored (with_fcs (frame_octets f)) a = set_cn_ser s (count_call a) /\ sp_ok s /\
    sp_out s = sp_out (cn_ser a) ++ frame_text f.
Proof.
  intros (Hwf & Hi & Hmax) Hok. unfold monitored. rewrite frame_of_good by done. cbn [fold_left].
  destruct (put_chars (frame_text f) (cn_ser a) Hok (frame_text_bytes f Hwf Hi)) as [Hok1 Ho1].
  by exists (put_text (frame_text f) (cn_ser a)).
Qed.

Lemma fold_left_cons {A B} (f : A -> B -> A) x l (a : A) : fold_left f (x :: l) a = fold_left f l (f a x).
Proof. done. Qed.

Lemma monitored_many fs : forall a,
  Forall printable fs -> sp_ok (cn_ser a) ->
  exists s, fold_left (fun a l => monitored l a) (map (fun f => with_fcs (frame_octets f)) fs) a
    = set_cn_ser s (iter (length fs) count_call a) /\ sp_ok s /\
    sp_out s = sp_out (cn_ser a) ++ concat (map frame_text fs).
Proof.
  induction fs as [|f fs IH]; intros a Hfs Hok.
  - exists (cn_ser a). cbn. rewrite app_nil_r. split; [by destruct a as [[]]|done].
  - apply Forall_cons in Hfs as [Hf Hfs].
    destruct (monitored_one f a Hf Hok) as (s1 & E1 & Hok1 & Ho1).
    rewrite map_cons, fold_left_cons, E1.
    destruct (IH (set_cn_ser s1 (count_call a)) Hfs Hok1) as (s & E & Hok' & Ho).
    exists s. rewrite E, count_calls_ser. split; [reflexivity|]. split; [exact Hok'|].
    rewrite Ho. change (cn_ser (set_cn_ser s1 (count_call a))) with s1.
    rewrite Ho1. cbn [map concat]. by rewrite <- app_assoc.
Qed.

(** C7: in configuration mode the program is a monitor, from one station's
    [ax25_sendMsg] to the other's terminal: whatever well-formed messages with
    at least one repeater and a payload, of at most 328 octets ([msg_ok]), the one
    sends, the poll of the other's main loop, its receiver fresh from
    [ax25_init], prints each of them, once and in order, with source,
    destination, repeaters, has-been-repeated marks and the payload up to its
    first NUL byte (the whole of a text payload; a binary one is cut there),
    and changes nothing else but the receiver's own state and the count of
    calls. *)
Theorem main_monitors {T : Type} `{KFlush T} (ms : list AX25Msg) (tx : AX25Ctx T) a (fuel : nat)
    (Hms : Forall msg_ok ms) (Htx : kk_ok (ax_ch tx)) (Hnew : kk_out (ax_ch tx) = [])
    (Hfit : kk_fits (ax_ch tx) (streams (map (fun m => frame_octets (msg_frame m)) ms)))
    (Hmode : mode a = MODE_CFG) (Hch : ks_ok (ax_ch (cn_ax a))) (Hport : sp_ok (cn_ser a))
    (Hfresh : cn_ax a = ax25_init (ax_ch (cn_ax a)) true)
    (Hlink : ks_in (ax_ch (cn_ax a)) = kk_out (ax_ch (fold_left ax25_sendMsg ms tx)))
    (Hfuel : (length (ks_in (ax_ch (cn_ax a))) < fuel)%nat) :
  exists ctx' s,
    ax25_poll (main_hook heard) (stack_msg (App S G)) fuel (cn_ax a) a
    = Some (ctx', set_cn_ser s (iter (length ms) count_call a)) /\
    sp_out s = sp_out (cn_ser a) ++ concat (map (fun m => frame_text (msg_frame m)) ms).
Proof.
  set (fs := map msg_frame ms).
  assert (Hls : map (fun m => frame_octets (msg_frame m)) ms = map frame_octets fs)
    by (unfold fs; by rewrite map_map).
  rewrite Hls in Hfit. set (ls := map frame_octets fs) in *.
  assert (Hs : Forall frame_sized ls).
  { rewrite <- Hls. apply Forall_map. eapply Forall_impl; [exact Hms|]. apply msg_ok_sized. }
  rewrite sendMsg_many, Hnew, Hls in Hlink; [|eapply Forall_impl; [exact Hms|]|done|by rewrite Hls].
  2: { by intros m (_ & ? & ? & ? & _). }
  cbn [app] in Hlink. fold ls in Hlink.
  destruct (rx_streams ls rx_start eq_refl eq_refl Hs) as [b Hrun].
  assert (Hgood : Forall printable fs).
  { unfold fs. apply Forall_map. eapply Forall_impl; [exact Hms|].
    intros m (Hwf & _ & _ & Hi & Hl). split_and!; [done| |rewrite length_with_fcs; lia].
    cbn [f_info msg_frame]. by apply Forall_take. }
  rewrite main_poll_cfg by (done || by rewrite Hfresh).
  destruct (ax25_poll_frames cfg_hook (stack_msg (App S G)) (fun m ctx w Hk => rx_same_refl ctx Hk)
    false good_frame monitored ltac:(intros; by apply cfg_hook_obs)
    (cn_ax a) a rx_start (streams ls) fuel) as (ctx' & a' & E & _ & _ & _ & _ & Hw).
  - by rewrite <- Hlink.
  - rewrite Hfresh. by apply (fresh_state (ax_ch (cn_ax a)) false).
  - rewrite Hrun. cbn [snd]. rewrite delivered_streams. unfold ls. rewrite map_map.
    apply Forall_map. eapply Forall_impl; [exact Hgood|]. intros f (Hwf & _ & Hl). by exists f.
  - rewrite Hrun in Hw. cbn [snd] in Hw. rewrite delivered_streams in Hw. unfold ls in Hw.
    rewrite map_map in Hw.
    destruct (monitored_many fs a Hgood Hport) as (s & Es & _ & Ho).
    exists ctx', s. rewrite E, Hw, Es. unfold fs at 1. rewrite length_map. split; [done|].
    rewrite Ho. unfold fs. by rewrite map_map.
Qed.
End Monitor.

(** ** Two stations on ring buffers *)

Section Examples.
Import KFileFifo.

#[local] Instance ring_carrier : Carrier FIFOBuffer := {
  rxstart _ := false;
  modem_status _ := 0;
  clear_status ch := ch;
  run_irqs ch := ch;
  timer_delay _ ch := ch
}.

#[local] Instance idle_port : SerPort Serial := ser_port (fun _ => None) (fun _ => 0) 0.
#[local] Instance idle_laws : SerLaws Serial := ser_laws (fun _ => None) (fun _ => 0) 0.

(** A station in configuration mode with this to receive. *)
Definition listener (ch : FIFOBuffer) : App Serial FIFOBuffer :=
  mkConsole (serialreader_init (ser_init 0)) (ax25_init ch true)
    sample_settings 0 false registry_init (mkRest MODE_CFG 0 digi_reset 0 false 0 track_reset 0 false).

Lemma listener_fresh ch : cn_ax (listener ch) = ax25_init (ax_ch (cn_ax (listener ch))) true.
Proof. reflexivity. Qed.

Lemma listener_heard ch : ks_in (ax_ch (cn_ax (listener ch))) = kk_out ch.
Proof. reflexivity. Qed.

Lemma listener_ok ch : ks_ok ch -> ks_ok (ax_ch (cn_ax (listener ch))).
Proof. done. Qed.

Lemma listener_out ch : sp_out (cn_ser (listener ch)) = [].
Proof. reflexivity. Qed.

(** What the sample message leaves in the buffer. *)
Definition sent : FIFOBuffer := ax_ch (fold_left ax25_sendMsg [sample_msg] (fifo_station 256)).

Lemma sent_buffer_ok : ks_ok sent.
Proof. split; [|decide_closed]. split_and!; vm_compute; congruence. Qed.

Lemma sent_length : (length (kk_out sent) < 100)%nat.
Proof. apply Nat.ltb_lt. vm_compute. reflexivity. Qed.

Lemma sent_text :
  concat (map (fun m => frame_text (msg_frame m)) [sample_msg])
  = chars "N0CALL-7>APRS,WIDE1-1*:>hi~" ++ [10; 13].
Proof. vm_compute. reflexivity. Qed.

Lemma main_monitors_witness :
  exists ctx' s,
    ax25_poll (main_hook (fun _ _ => 0)) blank_stack 100 (cn_ax (listener sent)) (listener sent)
    = Some (ctx', set_cn_ser s (iter 1 count_call (listener sent))) /\
    sp_out s = chars "N0CALL-7>APRS,WIDE1-1*:>hi~" ++ [10; 13].
Proof.
  destruct (main_monitors (fun _ => blank_stack) (fun _ _ _ => eq_refl) (fun _ _ => 0)
    [sample_msg] (fifo_station 256) (listener sent) 100) as (ctx' & s & E & O).
  - constructor; [apply sample_msg_ok|constructor].
  - apply (fifo_init_wf (zeros 256) 256); [lia|reflexivity].
  - reflexivity.
  - vm_compute. congruence.
  - reflexivity.
  - apply listener_ok, sent_buffer_ok.
  - apply ser_init_wf.
  - apply listener_fresh.
  - apply listener_heard.
  - rewrite listener_heard. exact sent_length.
  - exists ctx', s. split; [exact E|]. rewrite O, listener_out, sent_text. reflexivity.
Defined.
End Examples.
