(* ===== verification/TrackerMode.v ===== *)
(** * The tracker in the main loop: [TinyAPRS/main.c] with [TinyAPRS/tracker.c]

    What the turns of the main loop do in tracker mode: the mode is left only by a
    reset, and whatever is heard on the radio meanwhile, a sentence of the GPS
    receiver goes on the air ([main_tracks]).  The tracker itself is Tracker.v. *)

From Stdlib Require Import ZArith Lia Bool List.
From Stdlib Require Import String.
From stdpp Require Import prelude.
From S2P Require Import Prelude.
From S2P Require Import Libc.
From S2P Require Import Fifo.
From S2P Require Import KFile.
From S2P Require Import Formatwr.
From S2P Require Import Timer.
From S2P Require Import Ax25.
From S2P Require Import Ax25Tx.
From S2P Require Import Ax25Rx.
From S2P Require Import Ax25Decode.
From S2P Require Import Ax25Link.
From S2P Require Import Utils.
From S2P Require Import Ser.
From S2P Require Import Settings.
From S2P Require Import Reader.
From S2P Require Import Kiss.
From S2P Require Import Digi.
From S2P Require Import Beacon.
From S2P Require Import Float32.
From S2P Require Import Gps.
From S2P Require Import Tracker.
From S2P Require Import Console.
From S2P Require Import Main.

Open Scope Z_scope.

Section TrackerMode.
Context {S : Type} `{SerLaws S} {F : Type} `{KSink F} `{Carrier F}.
Implicit Types a : App S F.

Variable freeRam : Z.
Variable VERS_BUILD : Z.
Variable stack : list Z.
Variable stack64 : list Z.
Hypothesis Hstack64 : length stack64 = 64%nat.
Variable stack_msg : forall W : Type, AX25Ctx F -> W -> AX25Msg.
Variable rand : nat -> Z.
Variable heard : nat -> nat -> Z.
Variables sin cos : float -> float.
Variable atan2 : float -> float -> float.
Variable null : list Z.

(** The build with everything. *)
Let turn := main_turn freeRam VERS_BUILD stack stack64 stack_msg rand heard true sin cos atan2 null.
Let poll := ax25_poll (main_hook heard) (stack_msg (App S F)).
Let step := step freeRam VERS_BUILD stack stack64 stack_msg rand heard true sin cos atan2 null.
Let track := tracker_poll sin cos atan2 null stack64.

(** In tracker mode, with that mode stored. *)
Definition tracking a : Prop := mode a = MODE_TRACKER /\ stored_mode a = MODE_TRACKER.

(** What receiving leaves of the rest: the callback does nothing. *)
Definition received (ctx : AX25Ctx F) (n : nat) a : App S F := set_cn_ax ctx (on_rest (set_rs_calls n) a).

Lemma tracking_hook m ctx a :
  mode a = MODE_TRACKER ->
  main_hook heard m ctx a = (ctx, on_rest (set_rs_calls (Datatypes.S (rs_calls (cn_rest a)))) a).
Proof.
  intros Hm. unfold main_hook, ax25_msg_callback.
  change (mode (on_rest (set_rs_calls ?n) (set_cn_ax ctx a))) with (mode a). rewrite Hm.
  cbn [Z.eqb Pos.eqb MODE_CFG MODE_KISS MODE_DIGI MODE_TRACKER]. by destruct a.
Qed.

Lemma tracking_poll fuel a ctx w :
  mode a = MODE_TRACKER -> poll fuel (cn_ax a) a = Some (ctx, w) ->
  exists n, w = on_rest (set_rs_calls n) a.
Proof.
  intros Hm E.
  set (P := fun (_ : AX25Ctx F) (w : App S F) => exists n, w = on_rest (set_rs_calls n) a).
  assert (Hhook : forall m c w, P c w -> (m = None <-> pass_through c = true) ->
    P (fst (main_hook heard m c w)) (snd (main_hook heard m c w))).
  { intros m c w' [n ->] _. rewrite tracking_hook by done. by exists (Datatypes.S n). }
  assert (Hstart : P (cn_ax a) a) by (exists (rs_calls (cn_rest a)); by destruct a as [? ? ? ? ? ? []]).
  exact (ax25_poll_keeps (main_hook heard) (stack_msg (App S F)) P (fun _ _ _ _ Hp => Hp) Hhook
    fuel (cn_ax a) a ctx w Hstart E).
Qed.

(** One turn: receive, then poll the tracker. *)
Lemma tracking_turn fuel clock a a' :
  tracking a -> turn fuel clock a = Some a' ->
  exists ctx w n, poll fuel (cn_ax a) a = Some (ctx, w) /\
    let a1 := received ctx n a in
    a' = put_tracker (track (fun i => clock (Datatypes.S i)) (tracker_of a1)) a1.
Proof.
  intros [Hm Hst] E. unfold turn, main_turn in E. fold poll in E.
  destruct (poll fuel (cn_ax a) a) as [[ctx w]|] eqn:Ep; [|done].
  destruct (tracking_poll fuel a ctx w Hm Ep) as [n ->].
  exists ctx, (on_rest (set_rs_calls n) a), n. split; [done|]. cbv zeta. unfold received.
  set (a1 := set_cn_ax ctx _) in *.
  assert (Hm1 : mode a1 = MODE_TRACKER) by exact Hm.
  rewrite check_same in E by (rewrite Hm1; symmetry; exact Hst).
  rewrite Hm1 in E. cbn [Z.eqb Pos.eqb MODE_CFG MODE_KISS MODE_DIGI MODE_TRACKER orb andb] in E.
  by injection E as <-.
Qed.

Lemma poll_set now t : tk_set (track now t) = tk_set t.
Proof.
  unfold track, tracker_poll. destruct (serialreader_readline (tk_reader t)) as [n r].
  destruct (n >? 0); [|done]. destruct (gps_parse _ _ _ _) as [[[res g] buf] l].
  destruct (_ && _); [|done]. unfold tracker_update_location.
  destruct (negb _); [done|]. destruct (_smart_beacon_check _ _ _ _ _ _); [|done].
  by destruct (tracker_payload _ _ _).
Qed.

Lemma poll_waits now t k r :
  serialreader_readline (tk_reader t) = (k, r) -> (k >? 0) = false -> track now t = set_tk_reader r t.
Proof. intros E Ek. unfold track, tracker_poll. by rewrite E, Ek. Qed.

Lemma tracking_stays fuel clock a a' :
  tracking a -> turn fuel clock a = Some a' -> tracking a' /\ cn_set a' = cn_set a.
Proof.
  intros Ht E. destruct (tracking_turn fuel clock a a' Ht E) as (ctx & w & n & _ & ->).
  destruct Ht as [Hm Hst]. unfold tracking, stored_mode.
  change (cn_set (put_tracker ?t ?a)) with (tk_set t). rewrite poll_set. by split.
Qed.

(** Tracker mode is for good. With it stored, whatever is heard on the radio or
    comes from the serial port, and whenever interrupts come, the mode and all
    settings stay as they are: no command line is read any more, and only a reset,
    after which there are ten seconds for commands, ends it. *)
Theorem tracker_mode_kept a a' (Hmode : mode a = MODE_TRACKER) (Hstored : stored_mode a = MODE_TRACKER)
    (Hrun : rtc step a a') :
  mode a' = MODE_TRACKER /\ cn_set a' = cn_set a.
Proof.
  assert (Ht : tracking a) by by split. clear Hmode Hstored.
  enough (tracking a' /\ cn_set a' = cn_set a) as [[? _] ?] by done.
  induction Hrun as [a|a a1 a2 Hstep _ IH]; [done|].
  destruct Hstep as [fuel clock a a1 E|ser ch a]; [|by apply IH].
  destruct (tracking_stays fuel clock a a1 Ht E) as [Ht1 Hs]. destruct (IH Ht1) as [Ht2 Hs2].
  split; [done|congruence].
Qed.

(** Turns, the modem's interrupts between them. *)
Inductive turns : nat -> App S F -> App S F -> Prop :=
  | turns_O a : turns 0 a a
  | turns_S n fuel clock a a1 a2 : turn fuel clock a = Some a1 -> turns n a1 a2 -> turns (Datatypes.S n) a a2
  | turns_irq n ch a a2 : turns n (set_cn_ax (set_ax_ch ch (cn_ax a)) a) a2 -> turns n a a2.

(** While no line is complete the turns only collect characters. *)
Lemma turns_reading n a a1 : turns n a a1 -> forall r,
  tracking a -> read_lines n (cn_reader a) = ([], r) ->
  exists ctx m, a1 = received ctx m (set_cn_reader r a).
Proof.
  induction 1 as [a|n fuel clock a a1 a2 E _ IH|n ch a a2 _ IH]; intros r Ht Hread.
  - injection Hread as <-. exists (cn_ax a), (rs_calls (cn_rest a)). by destruct a as [? ? ? ? ? ? []].
  - cbn [read_lines] in Hread. destruct (serialreader_readline (cn_reader a)) as [k r1] eqn:Er.
    destruct (read_lines n r1) as [ls r2] eqn:E2. destruct (k >? 0) eqn:Ek; [done|].
    cbn [app] in Hread. injection Hread as -> <-.
    destruct (tracking_turn fuel clock a a1 Ht E) as (ctx & w & m & _ & ->).
    pose proof (poll_waits (fun i => clock (Datatypes.S i)) (tracker_of (received ctx m a)) k r1 Er Ek) as Hw.
    cbv zeta in IH. rewrite Hw in IH.
    destruct (IH r2) as (ctx' & m' & ->).
    { by destruct Ht. }
    { exact E2. }
    exists ctx', m'. by destruct a as [? ? ? ? ? ? [? ? ? ? ? ? [] ? ?]].
  - destruct (IH r Ht Hread) as (ctx & m & ->). exists ctx, m. by destruct a.
Qed.

(** C22: the tracker in the program. In tracker mode, with a position report waiting
    on the port (an RMC sentence that says valid, of at most 80 characters and 14
    fields, speed and course with up to three digits in front of the point or of
    the end of the field, none included), nothing in the line buffer yet and no
    position sent before, whatever is heard on the radio meanwhile: the turns of
    the main loop collect its characters, and the turn that sees its end, if the
    modem has room after receiving, sends exactly one frame, with the report's
    position, seven characters of the latitude and eight of the longitude, and its
    course and speed in three digits each, and with the altitude of an earlier fix
    report and the station's symbol, along the digipeaters that are set (the second
    only behind the first), and notes the time. *)
Theorem main_tracks a a1 a' (r : Report) (e : Z) (rest : list Z) (fuel : nat) (clock : nat -> Z)
    (Hmode : mode a = MODE_TRACKER) (Hstored : stored_mode a = MODE_TRACKER)
    (Hok : report_ok r) (Hw : reader_wf (cn_reader a)) (Hempty : readLen (cn_reader a) = 0)
    (He : is_eol e = true) (Hdeaf : sp_deaf (cn_ser a) = false)
    (Hin : sp_in (cn_ser a) = report_line r ++ e :: rest)
    (Hgps : length (_term (tr_gps (rs_track (cn_rest a)))) = 16%nat)
    (Hfirst : tr_last (rs_track (cn_rest a)) = 0)
    (Hsym : is_byte (symbol0 (g_settings (cn_set a))) /\ is_byte (symbol1 (g_settings (cn_set a))))
    (Hp : path_in_order (settings_get_call_data (cn_set a)))
    (Hrun : turns (length (report_line r)) a a1) (Hlast : turn fuel clock a1 = Some a') :
  let text := report_text r (gps_altitude (tr_gps (rs_track (cn_rest a))))
    (symbol0 (g_settings (cn_set a))) (symbol1 (g_settings (cn_set a))) in
  let frame := frame_octets (beacon_frame (settings_get_call_data (cn_set a)) text) in
  exists ctx w,
    poll fuel (cn_ax a1) a1 = Some (ctx, w) /\
    (kk_ok (ax_ch ctx) -> kk_fits (ax_ch ctx) (frame_stream frame) ->
      sent_frame ctx frame (cn_ax a') /\
      tr_last (rs_track (cn_rest a')) = timer_clock_seconds (clock 2%nat) /\
      mode a' = MODE_TRACKER /\ cn_set a' = cn_set a).
Proof.
  intros text frame. destruct (report_line_ok r Hok) as (Hlen & _ & Hline).
  destruct (serialreader_reads_line (report_line r) e rest (cn_reader a)) as
    (r1 & r2 & E1 & E2 & Hw2 & Hr2 & Hd2 & Hin2 & Htake & H0'); try done; try lia.
  destruct (turns_reading _ a a1 Hrun r1 ltac:(done) E1) as (ctx0 & m0 & ->).
  set (a1 := received ctx0 m0 (set_cn_reader r1 a)) in *.
  destruct (tracking_turn fuel clock a1 a' ltac:(done) Hlast) as (ctx & w & n & Ep & ->).
  exists ctx, w. split; [exact Ep|]. intros Hk Hfit.
  destruct (report_sent sin cos atan2 null stack64 Hstack64 (fun i => clock (Datatypes.S i))
    (tracker_of (received ctx n a1)) r2 r (drop (Datatypes.S (length (report_line r))) (sr_buf r2)))
    as (A & B & _ & D); try done.
  - apply line_buffer; [done|lia|done..].
  - by destruct Hw2 as (_ & _ & _ & ?).
Qed.
End TrackerMode.

(** ** On the road *)

Section Examples.
Import KFileFifo.

#[local] Instance ring_carrier : Carrier FIFOBuffer := {
  rxstart _ := false;
  modem_status _ := 0;
  clear_status ch := ch;
  run_irqs ch := ch;
  timer_delay _ ch := ch
}.

#[local] Instance idle_port : SerPort Serial := ser_port (fun _ => None) (fun _ => 0) 0.
#[local] Instance idle_laws : SerLaws Serial := ser_laws (fun _ => None) (fun _ => 0) 0.

(** A car with its station in tracker mode, a sentence of its GPS on the port. *)
Definition car : App Serial FIFOBuffer :=
  mkConsole (tk_reader starting) (tk_ax starting) (mkS (default_settings MODE_TRACKER) (nv sample_settings))
    0 false registry_init (mkRest MODE_TRACKER 0 digi_reset 0 false 0 track_reset 0 false).

Definition car_turn (a : App Serial FIFOBuffer) : option (App Serial FIFOBuffer) :=
  main_turn 900 42 (zeros 128) (zeros 64) (fun _ => blank_stack) (fun _ => 0) (fun _ _ => 0)
    true flat flat (fun _ => flat) [] 5 (fun _ => 7000) a.

Fixpoint car_turns (n : nat) (a : App Serial FIFOBuffer) : option (App Serial FIFOBuffer) :=
  match n with O => Some a | S n => match car_turn a with Some a => car_turns n a | None => None end end.

Lemma car_turns_turns n : forall a a',
  car_turns n a = Some a' ->
  turns 900 42 (zeros 128) (zeros 64) (fun _ => blank_stack) (fun _ => 0) (fun _ _ => 0)
    flat flat (fun _ => flat) [] n a a'.
Proof.
  induction n as [|n IH]; intros a a'; cbn [car_turns]; [intros [= <-]; constructor|].
  destruct (car_turn a) as [a1|] eqn:E; [|done]. intros Hrun.
  exact (turns_S _ _ _ _ _ _ _ _ _ _ _ n 5 (fun _ => 7000) a a1 a' E (IH _ _ Hrun)).
Qed.

(** The turn after: nothing heard, the modem's buffer empty. *)
Lemma car_arrives :
  match car_turns (length (report_line sample_report)) car with
  | Some a1 =>
      match ax25_poll (main_hook (fun _ _ => 0)) (blank_stack : AX25Ctx FIFOBuffer -> App Serial FIFOBuffer -> AX25Msg)
        5 (cn_ax a1) a1 with
      | Some (ctx, _) => ax_ch ctx = fifo_init (zeros 256) 256
      | None => False
      end /\ match car_turn a1 with Some _ => True | None => False end
  | None => False
  end.
Proof. vm_compute. split; reflexivity. Qed.

Lemma ring_empty_room :
  let ring := fifo_init (zeros 256) 256 in
  kk_ok ring /\ kk_fits ring (frame_stream (frame_octets (beacon_frame default_calldata
    (chars "!4807.03N/01131.00E>084/022 TinyAPRS Rocks!")))).
Proof.
  intros ring. split; [apply (fifo_init_wf (zeros 256) 256); [lia|reflexivity]|]. vm_compute. congruence.
Qed.

Lemma main_tracks_witness :
  exists a1 a' ctx,
    turns 900 42 (zeros 128) (zeros 64) (fun _ => blank_stack) (fun _ => 0) (fun _ _ => 0)
      flat flat (fun _ => flat) [] (length (report_line sample_report)) car a1 /\
    car_turn a1 = Some a' /\
    sent_frame ctx (frame_octets (beacon_frame default_calldata
      (chars "!4807.03N/01131.00E>084/022 TinyAPRS Rocks!"))) (cn_ax a') /\
    mode a' = MODE_TRACKER.
Proof.
  pose proof car_arrives as Harr.
  destruct (car_turns (length (report_line sample_report)) car) as [a1|] eqn:E1; [|destruct Harr].
  apply car_turns_turns in E1. destruct Harr as [Hch Hlast].
  destruct (car_turn a1) as [a'|] eqn:E2; [|destruct Hlast].
  assert (Htext : report_text sample_report 0 47 62 = chars "!4807.03N/01131.00E>084/022 TinyAPRS Rocks!")
    by (vm_compute; reflexivity).
  destruct (main_tracks 900 42 (zeros 128) (zeros 64) eq_refl (fun _ => blank_stack) (fun _ => 0) (fun _ _ => 0)
    flat flat (fun _ => flat) [] car a1 a' sample_report 13 [10] 5 (fun _ => 7000))
    as (ctx & w & Ep & Hsent).
  - reflexivity.
  - reflexivity.
  - apply sample_report_ok.
  - split; [vm_compute; reflexivity|]. split; [reflexivity|]. split; [cbn; lia|].
    apply starting_port_wf.
  - reflexivity.
  - reflexivity.
  - reflexivity.
  - vm_compute. reflexivity.
  - reflexivity.
  - reflexivity.
  - split; decide_closed.
  - intros _. reflexivity.
  - exact E1.
  - exact E2.
  - exists a1, a', ctx. split; [exact E1|]. split; [exact E2|].
    rewrite Ep in Hch. destruct ring_empty_room as [Hok Hfit].
    change (gps_altitude (tr_gps (rs_track (cn_rest car)))) with 0 in Hsent.
    change (symbol0 (g_settings (cn_set car))) with 47 in Hsent.
    change (symbol1 (g_settings (cn_set car))) with 62 in Hsent.
    change (settings_get_call_data (cn_set car)) with default_calldata in Hsent.
    rewrite Htext, Hch in Hsent. destruct (Hsent Hok Hfit) as (A & _ & B & _). by split.
Defined.

(** However many turns it makes, hearing nothing new. *)
Lemma tracker_mode_kept_witness :
  exists a', car_turn car = Some a' /\ mode a' = MODE_TRACKER /\ cn_set a' = cn_set car.
Proof.
  destruct (car_turn car) as [a'|] eqn:E; [|revert E; vm_compute; discriminate].
  exists a'. split; [reflexivity|].
  apply (tracker_mode_kept 900 42 (zeros 128) (zeros 64) (fun _ => blank_stack) (fun _ => 0) (fun _ _ => 0)
    flat flat (fun _ => flat) [] car a'); [reflexivity|reflexivity|].
  apply rtc_once. exact (step_turn _ _ _ _ _ _ _ _ _ _ _ _ 5 (fun _ => 7000) car a' E).
Defined.
End Examples.
