(* ===== verification/Typed.v ===== *)
(** * Types are kept: the state of the whole program

    C stores what fits the type of a variable and nothing else; in the model this is
    an invariant.  [typed] says it of the settings in RAM, the EEPROM and the buffer
    the serial port, the console, KISS and the GPS parser share, and [program_typed]
    that every run of the main loop keeps it.  One lemma per operation, in the order
    of the components: settings, line reader, console, KISS, tracker, main loop. *)

From Stdlib Require Import ZArith Lia Bool List.
From Stdlib Require Import String.
From stdpp Require Import prelude.
From S2P Require Import Prelude.
From S2P Require Import Libc.
From S2P Require Import Fifo.
From S2P Require Import KFile.
From S2P Require Import Formatwr.
From S2P Require Import Ax25.
From S2P Require Import Ax25Decode.
From S2P Require Import Ax25Link.
From S2P Require Import Utils.
From S2P Require Import Ser.
From S2P Require Import Settings.
From S2P Require Import Reader.
From S2P Require Import Kiss.
From S2P Require Import KissAir.
From S2P Require Import Digi.
From S2P Require Import Beacon.
From S2P Require Import Float32.
From S2P Require Import Gps.
From S2P Require Import Tracker.
From S2P Require Import Console.
From S2P Require Import Main.

Open Scope Z_scope.

(** ** Types *)

(** An array of so many bytes. *)
Definition array (n : nat) (l : list Z) : Prop := length l = n /\ bytes l.

Definition call_typed (c : AX25Call) : Prop := array 6 (call c) /\ is_byte (ssid c).
Definition calldata_typed (c : CallData) : Prop :=
  call_typed (destCall c) /\ call_typed (myCall c) /\ call_typed (path1 c) /\ call_typed (path2 c).
Definition nv_typed (v : NV) : Prop :=
  array 11 (nvSettings v) /\ array 28 (nvCallData v) /\ array 128 (nvBeaconText v).
Definition settings_typed (s : Settings) : Prop := settings_wf (g_settings s) /\ nv_typed (nv s).

Lemma array_upd n l i v : array n l -> is_byte v -> array n (upd l i v).
Proof. intros [Hl Hb] Hv. split; [by rewrite length_upd|by apply upd_bytes]. Qed.

Lemma array_zeros n : array n (zeros n).
Proof. split; [apply length_replicate|apply zeros_bytes]. Qed.

Lemma array_block n data old : array n old -> bytes data -> (length data <= n)%nat -> array n (update_block data old).
Proof.
  intros [Hl Hb] Hd Hle. unfold update_block. split; [rewrite length_app, length_drop; lia|].
  apply Forall_app. split; [done|by apply Forall_drop].
Qed.

Lemma bytes_take n l : bytes l -> bytes (take n l).
Proof. apply Forall_take. Qed.

Lemma bytes_drop n l : bytes l -> bytes (drop n l).
Proof. apply Forall_drop. Qed.

(** ** Settings *)

Lemma call_bytes_array c : call_typed c -> array 7 (call_bytes c).
Proof.
  intros [[Hl Hb] Hs]. unfold call_bytes. split; [rewrite length_app, Hl; done|].
  apply Forall_app. by split; [|constructor].
Qed.

Lemma calldata_array c : calldata_typed c -> array 28 (calldata_bytes c).
Proof.
  intros (H1 & H2 & H3 & H4).
  apply call_bytes_array in H1 as [L1 B1], H2 as [L2 B2], H3 as [L3 B3], H4 as [L4 B4].
  unfold calldata_bytes. split; [rewrite !length_app; lia|].
  unfold bytes in *. by rewrite !Forall_app.
Qed.

Lemma call_of_typed l : bytes l -> (6 <= length l)%nat -> call_typed (call_of_bytes l).
Proof.
  intros Hb Hl. split; [|by apply get_bytes]. split; [|by apply bytes_take].
  unfold call_of_bytes. cbn [call]. rewrite length_take. lia.
Qed.

Lemma calldata_of_typed l : bytes l -> (27 <= length l)%nat -> calldata_typed (calldata_of_bytes l).
Proof.
  intros Hb Hl. unfold calldata_of_bytes, calldata_typed. cbn [destCall myCall path1 path2].
  split_and!; apply call_of_typed; try apply bytes_drop; rewrite ?length_drop; done || lia.
Qed.

Lemma get_call_data_typed s : settings_typed s -> calldata_typed (settings_get_call_data s).
Proof.
  intros (_ & _ & (Hl & Hb) & _). unfold settings_get_call_data. destruct (_ =? _).
  - apply calldata_of_typed; [done|lia].
  - unfold default_calldata, calldata_typed, call_typed, array, is_byte. cbn.
    split_and!; try lia; decide_closed.
Qed.

Lemma set_call_data_typed c s : calldata_typed c -> settings_typed s -> settings_typed (settings_set_call_data c s).
Proof.
  intros Hc (Hg & H1 & H2 & H3). apply calldata_array in Hc as [Hl Hb]. split; [done|].
  split_and!; [done|apply array_block; [done|done|lia]|done].
Qed.

Lemma wf_intro m a b i t d l p st dx :
  is_byte m -> is_byte a -> is_byte b -> is_u16 i -> is_byte t -> is_byte d -> is_byte l -> is_byte p ->
  is_byte st -> is_byte dx -> settings_wf (mkSettings m a b i t d l p st dx).
Proof.
  intros. split; [|done]. unfold settings_bytes, bytes. cbn. rewrite !Forall_cons, Forall_nil.
  pose proof (u8_range i : is_byte _). pose proof (u8_range (Z.shiftr i 8) : is_byte _). tauto.
Qed.

Lemma wf_fields g :
  settings_wf g ->
  is_byte (run_mode g) /\ is_byte (symbol0 g) /\ is_byte (symbol1 g) /\ is_u16 (interval g) /\
  is_byte (beacon_type g) /\ is_byte (txdelay g) /\ is_byte (txtail g) /\ is_byte (persistence g) /\
  is_byte (slot_time g) /\ is_byte (duplex g).
Proof.
  intros [Hb Hi]. unfold settings_bytes, bytes in Hb. rewrite !Forall_cons in Hb. tauto.
Qed.

Lemma set_params_typed type value s :
  bytes value -> settings_typed s -> settings_typed (settings_set_params type value s).
Proof.
  intros Hv [Hg Hn]. destruct (wf_fields _ Hg) as (? & ? & ? & ? & ? & ? & ? & ? & ? & ?).
  destruct type as [[| |]|]; (split; [|exact Hn]); cbn [settings_set_params g_settings]; [..|done];
    unfold set_symbol0, set_symbol1, set_run_mode, set_interval; cbn;
    apply wf_intro; try done; try (by apply get_bytes).
  by apply le16_split; apply get_bytes.
Qed.

Lemma save_typed s : settings_typed s -> settings_typed (snd (settings_save s)).
Proof.
  intros (Hg & H1 & H2 & H3). split; [exact Hg|]. split_and!; [|done|done].
  apply array_block; [done|by destruct Hg|]. cbn. lia.
Qed.

Lemma clear_typed s : settings_typed s -> settings_typed (settings_clear s).
Proof. done. Qed.

Lemma of_bytes_wf l : array 11 l -> settings_wf (settings_of_bytes l).
Proof.
  intros [Hl Hb]. destruct (settings_of_bytes_bytes l Hl Hb) as [E Hi]. split; [by rewrite E|done].
Qed.

Lemma load_typed s : settings_typed s -> settings_typed (snd (settings_load s)).
Proof.
  intros (Hg & H1 & H2 & H3). unfold settings_load. destruct (negb _); [done|]. cbv zeta.
  pose proof (of_bytes_wf _ H1). destruct (negb _); done.
Qed.

Lemma set_params_bytes_typed l n s :
  bytes l -> n <= Z.of_nat (length l) -> settings_typed s -> settings_typed (snd (settings_set_params_bytes l n s)).
Proof.
  intros Hb Hn [Hg Hv]. unfold settings_set_params_bytes. destruct (n =? sizeof_SettingsData) eqn:E; [|done].
  apply Z.eqb_eq in E. subst n. unfold sizeof_SettingsData in *. cbn [negb snd]. split; [|done].
  apply of_bytes_wf. split; [rewrite length_take; lia|by apply bytes_take].
Qed.

Lemma set_text_typed data n s :
  bytes data -> 0 <= n -> settings_typed s -> settings_typed (snd (settings_set_beacon_text data n s)).
Proof.
  intros Hd Hn (Hg & H1 & H2 & H3). unfold settings_set_beacon_text. cbn [snd]. split; [done|].
  split_and!; [done|done|]. cbn [nv nvBeaconText set_nvBeaconText set_nvBeaconTextHeadByte].
  apply array_upd; [|unfold is_byte; lia]. apply array_block; [done|by apply bytes_take|].
  rewrite length_take. unfold SETTINGS_BEACON_TEXT_MAX_LEN. rewrite u8_small by lia. lia.
Qed.

Lemma get_text_array n buf m s :
  array n buf -> (128 <= n)%nat -> settings_typed s ->
  array n (fst (settings_get_beacon_text buf m s)).
Proof.
  intros Hb Hn (_ & _ & _ & (Hl & Ht)). unfold settings_get_beacon_text.
  pose proof (array_upd n buf 0 0 Hb ltac:(unfold is_byte; lia)) as Hb0.
  destruct (negb _); cbn [fst].
  - unfold snprintf_text. cbn [fst]. apply array_block; [done| |].
    + destruct (m <=? 0); [constructor|]. apply Forall_app. split; [apply bytes_take; decide_closed|].
      constructor; [unfold is_byte; lia|constructor].
    + destruct (m <=? 0); [cbn; lia|]. rewrite length_app, length_take. cbn [length].
      change (length DEFAULT_BEACON_TEXT) with 35%nat. lia.
  - apply array_upd; [|unfold is_byte; lia]. apply array_block; [done|by apply bytes_take|].
    rewrite length_take. lia.
Qed.

(** ** Strings in the buffer *)

Lemma length_strnlen s : (strnlen s <= length s)%nat.
Proof. induction s as [|c s IH]; [done|]. cbn. destruct (c =? 0); lia. Qed.

Lemma strupr_array n p buf : array n buf -> array n (strupr p buf).
Proof.
  intros [Hl Hb]. unfold strupr, cstr. set (s := drop (Z.to_nat p) buf).
  pose proof (length_strnlen s) as Hs.
  assert (Hls : length s = (length buf - Z.to_nat p)%nat) by apply length_drop.
  split.
  - rewrite !length_app, length_map, length_drop, !length_take. lia.
  - apply Forall_app. split; [by apply bytes_take|]. apply Forall_app. split; [|by apply bytes_drop].
    apply Forall_map. eapply Forall_impl; [|intros c; apply toupper_byte]. by apply bytes_take, bytes_drop.
Qed.

Lemma strtok_array n p buf : array n buf -> array n (snd (fst (strtok p buf))).
Proof.
  intros Hb. unfold strtok. cbv zeta. destruct (_ =? 0); [done|]. destruct (_ =? 0); [done|].
  apply array_upd; [done|unfold is_byte; lia].
Qed.

Lemma split_array n len buf : array n buf -> array n (snd (split_command len buf)).
Proof.
  intros Hb. unfold split_command. assert (Hc : is_byte 0 /\ is_byte 49) by (unfold is_byte; lia).
  destruct Hc as [H0 H49]. repeat (destruct (is_at _ _) || destruct (find_eq _ _ _) || destruct (_ && _));
    cbn [snd]; repeat apply array_upd; done.
Qed.

Lemma split_value_len len buf key value vlen buf' :
  split_command len buf = (Some (key, value, vlen), buf') -> 0 <= vlen.
Proof.
  unfold split_command. cbv zeta. destruct (is_at _ _).
  - destruct (find_eq _ _ _); [|done]. intros [= _ _ <- _]. apply u8_range.
  - destruct (_ && _); [by intros [= _ _ <- _]|]. destruct (_ && _); [by intros [= _ _ <- _]|done].
Qed.

Lemma call_scan_typed buf : forall i state c,
  bytes buf -> call_typed c -> call_typed (call_scan buf i state c).
Proof.
  induction buf as [|ch buf IH]; intros i state c Hb Hc; [done|]. cbn [call_scan].
  apply Forall_cons in Hb as [Hch Hb]. pose proof Hc as [Hcall Hs].
  destruct (ch =? 0); [done|]. destruct state; cbn [negb].
  - destruct (_ && _); apply IH; try done. split; [done|apply u8_range].
  - destruct (ch =? 45); [by apply IH|]. destruct (i >=? 6); apply IH; try done.
    split; [|done]. apply array_upd; [done|by apply toupper_byte].
Qed.

Lemma call_from_string_typed buf : bytes buf -> call_typed (ax25call_from_string buf).
Proof.
  intros Hb. apply call_scan_typed; [by apply bytes_take|].
  split; [apply array_zeros|unfold is_byte; cbn; lia].
Qed.

(** ** The line reader *)

Section Reader.
Context {S : Type} `{SerPort S}.
Implicit Types r : SerialReader S.

(** The buffer and the count of the bytes in it. *)
Definition shared r : list Z * Z := (sr_buf r, readLen r).
Definition shared_typed (p : list Z * Z) : Prop := array 330 (fst p) /\ is_byte (snd p).
Definition reader_typed r : Prop := shared_typed (shared r).

Lemma line_end_typed r : reader_typed r -> reader_typed (snd (reader_line_end r)).
Proof.
  intros [Hb Hr]. unfold reader_line_end. destruct (_ >? 0); [|done].
  assert (is_byte 0) by (unfold is_byte; lia). split; [by apply (array_upd 330 (sr_buf r))|done].
Qed.

Lemma readline_typed r : reader_typed r -> reader_typed (snd (serialreader_readline r)).
Proof.
  intros Hr. unfold serialreader_readline. destruct (sp_getchar _) as [c ser]. destruct (c =? EOF); [exact Hr|].
  unfold reader_char. destruct (_ && _); [|by apply line_end_typed].
  assert (Hu : shared_typed (upd (sr_buf r) (readLen r) (u8 c), u8 (readLen r + 1)))
    by (split; [apply array_upd; [apply Hr|apply u8_range]|apply u8_range]).
  cbv zeta. destruct (_ <? _); [exact Hu|]. by apply line_end_typed.
Qed.
End Reader.

(** ** The console *)

Section ConsoleTyped.
Context {S : Type} `{SerPort S} {F : Type} `{KFile F} `{Carrier F} {X : Type}.
Implicit Types c : Console S F X.
Variable freeRam : Z.
Variable VERS_BUILD : Z.
Variable stack : list Z.
Variable stack64 : list Z.
Variable external : nat -> Z -> Z -> Console S F X -> bool * Console S F X.

Definition typed c : Prop := reader_typed (cn_reader c) /\ settings_typed (cn_set c).

Hypothesis external_typed : forall i value len c, typed c -> typed (snd (external i value len c)).

Lemma typed_same c c' :
  shared (cn_reader c') = shared (cn_reader c) -> cn_set c' = cn_set c -> typed c -> typed c'.
Proof. intros Hb Hs [Hr Ht]. unfold typed, reader_typed. by rewrite Hb, Hs. Qed.

Lemma typed_set s c : typed c -> settings_typed s -> typed (set_cn_set s c).
Proof. by intros [Hr _] Hs. Qed.

Lemma typed_buf buf c : typed c -> array 330 buf -> typed (set_cn_buf buf c).
Proof. by intros [[_ Hr] Hs] Hb. Qed.

Lemma pointed_bytes p c : typed c -> bytes (pointed p c).
Proof. intros [[[_ Hb] _] _]. by apply bytes_drop. Qed.

Lemma pointed_byte p c i : typed c -> is_byte (get (pointed p c) i).
Proof. intros Hc. by apply get_bytes, pointed_bytes. Qed.

Lemma path_set_typed value cd c :
  calldata_typed cd -> typed c -> typed (snd (path_set value cd c)).
Proof.
  intros Hcd Hc. unfold path_set. pose proof Hc as [Hr Hs].
  pose proof (strtok_array 330 value (cn_buf c) (proj1 Hr)) as H1'.
  destruct (strtok value (cn_buf c)) as [[[p1|] buf] save]; cbn [fst snd] in H1'; [|by apply typed_buf].
  pose proof (strtok_array 330 save buf H1') as H2'.
  destruct (strtok save buf) as [[t buf'] save']; cbn [fst snd] in H2'. cbv zeta.
  assert (Hc1 : typed (set_cn_buf buf' c)) by by apply typed_buf.
  destruct (_ >? 0); [|exact Hc1]. cbn [snd]. apply typed_set; [exact Hc1|].
  destruct Hcd as (T1 & T2 & _ & _). apply set_call_data_typed; [|by destruct Hc1].
  assert (Hz : call_typed (mkCall (zeros 6) 0)) by (split; [apply array_zeros|unfold is_byte; cbn; lia]).
  split_and!; [done|done|by apply call_from_string_typed, pointed_bytes|].
  destruct t as [p2|]; [|done]. destruct (_ >? 0); [|done]. by apply call_from_string_typed, pointed_bytes.
Qed.

Lemma handler_typed h value vlen c :
  0 <= vlen -> typed c -> typed (snd (run_handler freeRam stack64 external h value vlen c)).
Proof.
  intros Hlen Hc. pose proof Hc as [Hr Hs]. pose proof (get_call_data_typed _ Hs) as Hcd.
  destruct h as [| | | | | |i]; cbn [run_handler]; [..|by apply external_typed].
  - unfold cmd_settings_mycall. destruct (vlen >? 0); [|exact Hc]. cbv zeta.
    apply typed_same with (set_cn_set (settings_set_call_data (mkCallData (destCall (settings_get_call_data (cn_set c)))
      (ax25call_from_string (pointed value c)) (path1 (settings_get_call_data (cn_set c)))
      (path2 (settings_get_call_data (cn_set c)))) (cn_set c)) c); [done|done|].
    apply typed_set; [done|]. apply set_call_data_typed; [|done]. destruct Hcd as (T1 & _ & T3 & T4).
    split_and!; try done. by apply call_from_string_typed, pointed_bytes.
  - unfold cmd_settings_path. destruct (vlen >? 0); [|exact Hc].
    pose proof (path_set_typed value _ c Hcd Hc) as Hp. destruct (path_set _ _ c) as [cd c']. exact Hp.
  - unfold cmd_settings_reset. destruct (_ && _); [|exact Hc]. by destruct (_ =? 50).
  - unfold cmd_settings_symbol. destruct (vlen >=? 2); [|exact Hc]. cbn [settings_get_params].
    split; [exact Hr|]. apply save_typed, set_params_typed; [by apply pointed_bytes|done].
  - unfold cmd_settings_beacon_interval. destruct (vlen >? 0); [|exact Hc].
    split; [exact Hr|]. apply save_typed, set_params_typed; [|done].
    repeat constructor; apply u8_range.
  - unfold cmd_settings_beacon_text. destruct (vlen >? 0) eqn:E.
    + destruct (settings_get_beacon_text _ _ _) as [b n].
      split; [exact Hr|]. apply (set_text_typed _ _ (cn_set c)); [by apply pointed_bytes|done|done].
    + destruct (settings_get_beacon_text _ _ _) as [b n]. exact Hc.
Qed.

Lemma fixed_text_set (b : Beacon S F) : bc_set (_send_fixed_text stack b) = bc_set b.
Proof.
  unfold _send_fixed_text. destruct (settings_get_beacon_text _ _ _) as [p n]. by destruct (n >? 0).
Qed.

Lemma test_set n : forall b : Beacon S F,
  bc_set (beacon_send_test_message_immediate stack n b) = bc_set b.
Proof.
  induction n as [|n IH]; intros b; [done|]. cbn [beacon_send_test_message_immediate].
  rewrite IH. destruct n; cbn [bc_set]; apply fixed_text_set.
Qed.

Lemma beacon_set now (b : Beacon S F) : bc_set (beacon_broadcast_poll stack now b) = bc_set b.
Proof.
  unfold beacon_broadcast_poll. destruct (_ =? _); [done|]. destruct (_ =? _).
  - destruct (_ >? _); [|done]. by rewrite fixed_text_set.
  - destruct (_ >? _); [|done]. apply (fixed_text_set b).
Qed.

Lemma info_typed len c : typed c -> typed (snd (cmd_info freeRam VERS_BUILD len c)).
Proof. intros Hc. apply typed_same with c; [| |done]; unfold cmd_info; by destruct (len =? 0). Qed.

Lemma parse_typed len c :
  typed c -> typed (console_parse_command freeRam VERS_BUILD stack stack64 external len c).
Proof.
  intros Hc. unfold console_parse_command.
  destruct (_ && _).
  { apply typed_same with c; [done| |done]. unfold cmd_test_send.
    match goal with |- context [beacon_send_test_message_immediate stack ?n ?b] =>
      exact (test_set n b) end. }
  destruct (_ && _); [by apply info_typed|].
  destruct (_ && _).
  { apply typed_same with (snd (cmd_info freeRam VERS_BUILD 1 c)); [done|done|by apply info_typed]. }
  pose proof (split_array 330 len (cn_buf c) (proj1 (proj1 Hc))) as Hb.
  destruct (split_command len (cn_buf c)) as [[[[key value] vlen]|] buf] eqn:E; cbn [snd] in Hb;
    [|by apply typed_same with (set_cn_buf buf c); [done|done|apply typed_buf]].
  apply split_value_len in E.
  assert (Hc1 : typed (set_cn_buf (strupr key buf) c)) by (apply typed_buf; [done|by apply strupr_array]).
  destruct (console_lookup_command _ _) as [h|]; [|exact Hc1].
  pose proof (handler_typed h value vlen _ E Hc1) as Hh.
  destruct (run_handler _ _ _ h value vlen _) as [[|] c']; exact Hh.
Qed.

Lemma console_poll_typed c :
  typed c -> typed (console_poll freeRam VERS_BUILD stack stack64 external c).
Proof.
  intros [Hr Hs]. unfold console_poll. pose proof (readline_typed (cn_reader c) Hr) as Hr1.
  destruct (serialreader_readline (cn_reader c)) as [n r].
  destruct (n >? 0); [apply parse_typed|]; by split.
Qed.
End ConsoleTyped.

(** ** KISS *)

Section KissTyped.
Context {S : Type} `{SerPort S} {F : Type} `{KFile F} `{Carrier F}.
Variable stack_msg : AX25Ctx F -> SerialReader S -> AX25Msg.
Variable rand : nat -> Z.
Variable VERS_BUILD : Z.
Implicit Types k : Kiss S F.

Definition kiss_typed k : Prop := reader_typed (k_reader k) /\ settings_typed (k_set k).

Lemma kiss_same k k' :
  shared (k_reader k') = shared (k_reader k) -> k_set k' = k_set k -> kiss_typed k -> kiss_typed k'.
Proof. intros Hb Hs [Hr Ht]. unfold kiss_typed, reader_typed. by rewrite Hb, Hs. Qed.

Lemma to_serial_buf l : forall r : SerialReader S,
  shared (fold_left _send_to_serial_byte l r) = shared r.
Proof.
  induction l as [|c l IH]; intros r; [done|]. cbn [fold_left]. rewrite IH. unfold _send_to_serial_byte.
  destruct (c =? KISS_FEND); [done|]. by destruct (c =? KISS_FESC).
Qed.

Lemma send_buf buf n (r : SerialReader S) : shared (_send_to_serial buf n r) = shared r.
Proof. apply to_serial_buf. Qed.

Lemma begin_buf port cmd (r : SerialReader S) : shared (_send_to_serial_begin port cmd r) = shared r.
Proof. reflexivity. Qed.

Lemma end_buf (r : SerialReader S) : shared (_send_to_serial_end r) = shared r.
Proof. reflexivity. Qed.

Lemma flush_buf (r : SerialReader S) : shared (kiss_flush_serial r) = shared r.
Proof. reflexivity. Qed.

Lemma callback_buf m ctx (r : SerialReader S) : shared (snd (kiss_msg_callback (F := F) m ctx r)) = shared r.
Proof. unfold kiss_msg_callback, kiss_send_to_serial. cbn [snd]. by rewrite end_buf, send_buf, begin_buf. Qed.

Lemma send_config_buf cmd data n (r : SerialReader S) : shared (send_config cmd data n r) = shared r.
Proof. unfold send_config. by rewrite end_buf, !send_buf, begin_buf. Qed.

Lemma respond_ok_buf (r : SerialReader S) : shared (KISS_SERIAL_RESPOND_OK r) = shared r.
Proof.
  unfold KISS_SERIAL_RESPOND_OK, kiss_respond_config_magic_cmd.
  by rewrite flush_buf, end_buf, !send_buf, begin_buf.
Qed.

Lemma kiss_ax25_poll_buf fuel ctx r ctx' r' :
  ax25_poll kiss_msg_callback stack_msg fuel ctx r = Some (ctx', r') -> shared r' = shared r.
Proof.
  intros E.
  exact (ax25_poll_keeps kiss_msg_callback stack_msg (fun _ w => shared w = shared r)
    (fun _ _ _ _ Hp => Hp) (fun m c w Hp _ => eq_trans (callback_buf m c w) Hp) fuel ctx r ctx' r' eq_refl E).
Qed.

Lemma csma_wait_typed poll_fuel fuel : forall k b k',
  csma_wait kiss_msg_callback stack_msg poll_fuel fuel k = Some (b, k') -> kiss_typed k -> kiss_typed k'.
Proof.
  induction fuel as [|fuel IH]; intros k b k'; cbn [csma_wait]; [done|].
  destruct (rxstart _); [|by intros [= _ <-]].
  destruct (ax25_poll _ _ _ _ _) as [[c r]|] eqn:E; [|done]. apply kiss_ax25_poll_buf in E.
  destruct (negb _).
  - intros [= _ <-]. by apply kiss_same.
  - intros Hw Hk. apply (IH _ _ _ Hw). by apply kiss_same with k.
Qed.

Lemma csma_send_typed poll_fuel buf fuel : forall k k',
  csma_send kiss_msg_callback stack_msg rand poll_fuel fuel buf k = Some k' -> kiss_typed k -> kiss_typed k'.
Proof.
  induction fuel as [|fuel IH]; intros k k'; [done|]. cbn [csma_send].
  destruct (negb (rxstart _)).
  - destruct (_ <? _); [intros [= <-]; by apply kiss_same|]. intros E Hk. apply (IH _ _ E). by apply kiss_same with k.
  - destruct (csma_wait _ _ _ _ k) as [[[|] k1]|] eqn:E; [| |done].
    + intros [= <-]. by eapply csma_wait_typed.
    + intros E' Hk. apply (IH _ _ E'). by eapply csma_wait_typed.
Qed.

Lemma config_params_typed data len k :
  bytes data -> len <= Z.of_nat (length data) -> kiss_typed k -> kiss_typed (kiss_handle_config_params_cmd data len k).
Proof.
  intros Hd Hl [Hr Hs]. unfold kiss_handle_config_params_cmd. destruct (len =? 0).
  { apply kiss_same with k; [apply send_config_buf|done|done]. }
  destruct (len =? _); [|done].
  pose proof (set_params_bytes_typed data len _ Hd Hl Hs) as H1'.
  destruct (settings_set_params_bytes data len (k_set k)) as [ok s]. cbn [snd] in H1'.
  pose proof (save_typed s H1') as H2'. destruct (settings_save s) as [ok' s'].
  split; [|exact H2']. unfold reader_typed. cbn [on_reader set_k_set k_reader set_k_reader].
  by rewrite respond_ok_buf.
Qed.

Lemma config_text_typed data len k :
  bytes data -> kiss_typed k -> kiss_typed (kiss_handle_config_text_cmd data len k).
Proof.
  intros Hd [Hr Hs]. unfold kiss_handle_config_text_cmd. destruct (len =? 0).
  - cbv zeta. set (r := set_readLen 0 (k_reader k)).
    pose proof (get_text_array 330 (sr_buf r) (u8 (bufLen r)) (k_set k) (proj1 Hr) ltac:(lia) Hs) as Hb.
    destruct (settings_get_beacon_text _ _ _) as [buf n]. cbn [fst] in Hb.
    destruct (n >? 0); (split; [|exact Hs]); [|by split]. unfold reader_typed.
    cbn [on_reader k_reader set_k_reader]. rewrite send_config_buf. by split.
  - pose proof (set_text_typed data (u8 len) _ Hd ltac:(apply u8_range) Hs) as H1'.
    destruct (settings_set_beacon_text data (u8 len) (k_set k)) as [n s].
    split; [|exact H1']. unfold reader_typed. cbn [on_reader set_k_set k_reader set_k_reader].
    by rewrite respond_ok_buf.
Qed.

Lemma config_call_typed data len k :
  bytes data -> len <= Z.of_nat (length data) -> kiss_typed k -> kiss_typed (kiss_handle_config_call_cmd data len k).
Proof.
  intros Hd Hl [Hr Hs]. unfold kiss_handle_config_call_cmd. destruct (len =? 0).
  { apply kiss_same with k; [apply send_config_buf|done|done]. }
  destruct (len =? sizeof_CallData) eqn:E; [|done]. apply Z.eqb_eq in E. unfold sizeof_CallData in *.
  split; [unfold reader_typed; cbn [on_reader set_k_set k_reader set_k_reader]; by rewrite respond_ok_buf|].
  apply (set_call_data_typed _ (k_set k)); [|done].
  apply calldata_of_typed; [by apply bytes_take|]. rewrite length_take. lia.
Qed.

Lemma config_magic_typed data len k : kiss_typed k -> kiss_typed (kiss_handle_config_magic_cmd VERS_BUILD data len k).
Proof.
  intros Hk. unfold kiss_handle_config_magic_cmd. destruct (is_magic _ _ _ _ _ _).
  - apply kiss_same with k; [apply respond_ok_buf|done|done].
  - destruct (is_magic _ _ _ _ _ _); [|done]. apply kiss_same with k; [apply send_config_buf|done|done].
Qed.

Lemma handle_frame_typed poll_fuel fuel frame size k k' :
  array 330 frame -> 0 <= size < 256 ->
  kiss_handle_frame kiss_msg_callback stack_msg rand VERS_BUILD poll_fuel fuel frame size k = Some k' ->
  kiss_typed k -> kiss_typed k'.
Proof.
  intros [Hl Hb] Hsize. unfold kiss_handle_frame.
  destruct (size =? 0); [by intros [= <-]|]. destruct (_ && _); [by intros [= <-]|].
  destruct (size <? 2) eqn:E2; [by intros [= <-]|]. destruct (_ >? 0); [by intros [= <-]|].
  destruct (_ =? KISS_CMD_DATA).
  { unfold kiss_send_to_modem. destruct (_ =? RF_DUPLEX_FULL); [intros [= <-]; by apply kiss_same|apply csma_send_typed]. }
  intros [= <-] Hk. apply Z.ltb_ge in E2.
  assert (Hd : bytes (drop 1 frame)) by by apply bytes_drop.
  assert (Hlen : u16 (size - 2) <= Z.of_nat (length (drop 1 frame)))
    by (rewrite length_drop, u16_small; lia).
  repeat match goal with |- kiss_typed (if ?b then _ else _) => destruct b end; try done.
  - by apply config_params_typed.
  - by apply config_text_typed.
  - by apply config_call_typed.
  - by apply config_magic_typed.
Qed.

(** The count of the bytes received is one byte. *)
Lemma kiss_poll_typed poll_fuel fuel now now' k k' :
  kiss_poll kiss_msg_callback stack_msg rand VERS_BUILD poll_fuel fuel now now' k = Some k' ->
  kiss_typed k -> kiss_typed k'.
Proof.
  unfold kiss_poll. destruct (sp_getchar _) as [c ser].
  destruct (c =? EOF); [intros [= <-]; by apply kiss_same|]. intros E Hk.
  pose proof (proj2 (proj1 Hk)) as Hlen. cbn in Hlen. unfold is_byte in Hlen. revert E. unfold kiss_serial_char.
  set (r1 := if negb (readLen (k_reader (on_reader (set_sr_ser ser) k)) =? 0) && _ then _ else _).
  set (r2 := if readLen r1 >=? _ then _ else _).
  assert (H1' : shared_typed (shared r1)).
  { split; [unfold r1; destruct (_ && _); apply Hk|]. unfold r1, is_byte. destruct (_ && _); cbn; lia. }
  assert (Hr2 : shared_typed (shared r2)).
  { split; [unfold r2; destruct (_ >=? _); apply H1'|].
    pose proof (proj2 H1') as H2'. unfold is_byte in *. unfold r2. destruct (_ >=? _); cbn in *; lia. }
  clearbody r1 r2. clear H1'. cbv zeta.
  intros E. assert (Hk2 : kiss_typed (set_k_reader r2 (on_reader (set_sr_ser ser) k))) by (split; [exact Hr2|apply Hk]).
  destruct (c =? KISS_FEND).
  - destruct (negb _ && _).
    + destruct (kiss_handle_frame _ _ _ _ _ _ _ _ _) as [k1|] eqn:E1; [|done]. injection E as <-.
      assert (Hk1 : kiss_typed k1)
        by (eapply (handle_frame_typed poll_fuel fuel (sr_buf r2)); [apply Hr2|apply Hr2|exact E1|exact Hk2]).
      split; [|apply Hk1]. split; [apply Hk1|unfold is_byte; cbn; lia].
    + injection E as <-. split; [|apply Hk2]. split; [apply Hr2|unfold is_byte; cbn; lia].
  - destruct (c =? KISS_FESC); [injection E as <-; exact Hk2|].
    destruct (if c =? KISS_TFESC then _ else _) as [c' e]. injection E as <-.
    split; [|apply Hk2]. split; [|apply u8_range]. apply (array_upd 330 (sr_buf r2)); [apply Hr2|].
    change 0xff with 255. rewrite land_255. apply u8_range.
Qed.
End KissTyped.

(** ** The tracker *)

Section TrackerTyped.
Variables sin cos : float -> float.
Variable atan2 : float -> float -> float.
Variable null : list Z.
Variable stack64 : list Z.
Context {S : Type} `{SerPort S} {F : Type} `{KFile F} `{Carrier F}.
Implicit Types t : Tracker S F.

Definition tracker_typed t : Prop := reader_typed (tk_reader t) /\ settings_typed (tk_set t).

Lemma gps_loop_array n todo : forall sentenceType i s,
  array n (sentence s) -> array n (sentence (snd (gps_loop null todo sentenceType i s))).
Proof.
  assert (H0' : is_byte 0) by (unfold is_byte; lia).
  assert (Hv : forall ty s, sentence (snd (gps_verdict null ty s)) = sentence s).
  { intros ty s. unfold gps_verdict. cbv zeta. destruct (if ty =? 1 then _ else _); [|done]. by destruct (ty =? 2). }
  induction todo as [|todo IH]; intros ty i s Hs; [done|]. cbn [gps_loop].
  destruct (_ || _ || _); [done|]. destruct (state s =? 0).
  { apply IH. destruct (_ =? 44); [by apply (array_upd n (sentence s))|].
    destruct (_ =? 42); [by apply (array_upd n (sentence s))|exact Hs]. }
  destruct (state s =? 1); [by apply IH|]. destruct (state s =? 2); [|by apply IH]. cbv zeta.
  destruct (_ =? 0); [|by apply IH].
  match goal with |- context [gps_verdict null ty ?x] => pose proof (Hv ty x) as Hx;
    destruct (gps_verdict null ty x) as [[|] s'] end; cbn [snd] in Hx.
  - cbn [snd]. by rewrite Hx.
  - apply IH. by rewrite Hx.
Qed.

Lemma gps_parse_array n g buf len :
  array n buf -> array n (snd (fst (gps_parse null g buf len))).
Proof.
  intros Hb. unfold gps_parse. destruct (_ || _); [done|]. cbv zeta.
  destruct (_ =? 0); [|destruct (_ =? 0); [|done]];
    match goal with |- context [gps_loop null ?k ?ty ?i ?s] =>
      pose proof (gps_loop_array n k ty i s Hb) as Hs; destruct (gps_loop null k ty i s) as [r s'] end; exact Hs.
Qed.

Lemma tracker_poll_typed now t : tracker_typed t -> tracker_typed (tracker_poll sin cos atan2 null stack64 now t).
Proof.
  intros [Hr Hs]. unfold tracker_poll. pose proof (readline_typed (tk_reader t) Hr) as Hr1.
  destruct (serialreader_readline (tk_reader t)) as [n r]. cbn [snd] in Hr1.
  destruct (n >? 0); [|by split]. change (g_gps (set_tk_reader r t)) with (g_gps t).
  pose proof (gps_parse_array 330 (g_gps t) (sr_buf r) (dataLen r) (proj1 Hr1)) as Hb.
  destruct (gps_parse null _ _ _) as [[[res g] buf] l]. cbn [fst snd] in Hb.
  assert (Ht : tracker_typed (set_gps g l (set_tk_reader (set_sr_buf buf r) (set_tk_reader r t))))
    by (split; [split; [exact Hb|apply Hr1]|exact Hs]).
  destruct (_ && _); [|exact Ht]. unfold tracker_update_location. destruct (negb _); [exact Ht|].
  destruct (_smart_beacon_check _ _ _ _ _ _); [|exact Ht].
  destruct (tracker_payload _ _ _) as [p len]. exact Ht.
Qed.

Lemma init_gps_typed t : tracker_typed t -> tracker_typed (tracker_init_gps t).
Proof.
  intros [Hr Hs]. split; [|exact Hs]. split; [exact (proj1 Hr)|]. unfold is_byte. cbn. lia.
Qed.
End TrackerTyped.

(** ** The program *)

Section ProgramTyped.
Context {S : Type} `{SerPort S} {F : Type} `{KFile F} `{Carrier F}.
Implicit Types a : App S F.

Variable freeRam : Z.
Variable VERS_BUILD : Z.
Variable stack : list Z.
Variable stack64 : list Z.
Variable stack_msg : forall W : Type, AX25Ctx F -> W -> AX25Msg.
Variable rand : nat -> Z.
Variable heard : nat -> nat -> Z.
Variable MOD_TRACKER : bool.
Variables sin cos : float -> float.
Variable atan2 : float -> float -> float.
Variable null : list Z.

Lemma callback_typed m a : typed a -> typed (ax25_msg_callback heard m a).
Proof.
  intros Ha. unfold ax25_msg_callback. cbv zeta. destruct (_ =? MODE_CFG); [by destruct m|].
  destruct (_ =? MODE_KISS); [|destruct (_ =? MODE_DIGI); [by destruct m|done]].
  apply typed_same with a; [apply (callback_buf m (cn_ax a) (cn_reader a))|done|done].
Qed.

Lemma main_poll_typed fuel a ctx a' :
  typed a -> ax25_poll (main_hook heard) (stack_msg (App S F)) fuel (cn_ax a) a = Some (ctx, a') ->
  typed (set_cn_ax ctx a').
Proof.
  intros Ha E.
  enough (typed a') by done.
  refine (ax25_poll_keeps (main_hook heard) (stack_msg (App S F)) (fun _ w => typed w)
    (fun _ _ _ _ Hp => Hp) _ fuel (cn_ax a) a ctx a' Ha E).
  intros m c w Hw _. unfold main_hook. cbn [snd].
  pose proof (callback_typed m (set_cn_ax c w) Hw) as Hc. exact Hc.
Qed.

Lemma switch_typed value len a : typed a -> typed (snd (cmd_switch_mode MOD_TRACKER value len a)).
Proof.
  intros Ha. unfold cmd_switch_mode. destruct (len >? 0); [|exact Ha]. destruct (_ && _); [exact Ha|].
  assert (Hsave : forall a' : App S F, typed a' -> typed (snd (
    if negb (mode a' =? run_mode (g_settings (cn_set a'))) then
      (true, set_cn_set (snd (settings_save (settings_set_params (Some SETTINGS_RUN_MODE)
        [u8 (mode a')] (cn_set a')))) a')
    else (true, a')))).
  { intros a' Ha'. destruct (negb _); [|exact Ha']. cbn [snd].
    apply typed_set; [exact Ha'|]. apply save_typed, set_params_typed; [|apply Ha'].
    constructor; [apply u8_range|constructor]. }
  destruct (atoi value =? MODE_CFG); [by apply Hsave|destruct (atoi value =? MODE_KISS); [by apply Hsave|]].
  destruct (_ && _); [|destruct (atoi value =? MODE_DIGI); [by apply Hsave|exact Ha]].
  apply Hsave. set (a1 := set_cn_ser _ _).
  assert (Ha1 : typed a1) by exact Ha. clearbody a1.
  pose proof (init_gps_typed (tracker_of a1) Ha1) as Ht. exact Ht.
Qed.

Lemma check_typed now a : typed a -> typed (check_run_mode MOD_TRACKER now a).
Proof.
  intros Ha. unfold check_run_mode. destruct (_ =? _); [done|]. destruct (_ =? 0); [done|].
  destruct (_ >? _); [|done]. destruct (negb _); [|done]. by apply switch_typed.
Qed.

Lemma commands_typed i value len a : typed a -> typed (snd (main_commands MOD_TRACKER i value len a)).
Proof. intros Ha. destruct i; cbn [main_commands]; by apply switch_typed. Qed.

Let turn := main_turn freeRam VERS_BUILD stack stack64 stack_msg rand heard MOD_TRACKER sin cos atan2 null.

Lemma turn_typed fuel clock a a' : turn fuel clock a = Some a' -> typed a -> typed a'.
Proof.
  intros E Ha. unfold turn, main_turn in E.
  destruct (ax25_poll _ _ _ _ _) as [[ctx a1]|] eqn:Ep; [|done].
  apply main_poll_typed in Ep; [|exact Ha].
  pose proof (check_typed (clock 0%nat) _ Ep) as Hc. clear Ep.
  set (a2 := check_run_mode MOD_TRACKER (clock 0%nat) (set_cn_ax ctx a1)) in *. clearbody a2.
  destruct (_ || _).
  - pose proof (console_poll_typed freeRam VERS_BUILD stack stack64 (main_commands MOD_TRACKER)
      commands_typed a2 Hc) as Hp.
    set (a3 := console_poll _ _ _ _ _ a2) in *. clearbody a3.
    destruct (cn_reset a3); injection E as <-; [exact Hp|].
    apply typed_same with a3; [done| |exact Hp].
    apply (beacon_set stack (fun i => clock (Datatypes.S i)) (beacon_of a3)).
  - destruct (_ =? MODE_KISS).
    + destruct (kiss_poll _ _ _ _ _ _ _ _ _) as [k|] eqn:Ek; [|done]. injection E as <-.
      apply kiss_poll_typed in Ek; [|exact Hc]. exact Ek.
    + destruct (_ && _); injection E as <-; [|exact Hc].
      apply (tracker_poll_typed sin cos atan2 null stack64 (fun i => clock (Datatypes.S i)) (tracker_of a2) Hc).
Qed.

(** C6: types are kept by the whole program. Whatever is typed, sent by the host,
    heard on the radio or by the GPS, in every mode and whenever interrupts come,
    from power-on with any EEPROM contents on: every field of the settings fits its
    C type, what is written to the arrays in the EEPROM fits them, they and the shared
    line buffer hold bytes, the buffer's counter fits in its byte, and so, at any
    time, saving the settings and loading them after a reset gives them back. *)
Theorem program_typed (ser : S) (af : F) (s : Settings) (a : App S F)
    (Hram : settings_wf (g_settings s))
    (Hnv : array 11 (nvSettings (nv s)) /\ array 28 (nvCallData (nv s)) /\ array 128 (nvBeaconText (nv s)))
    (Hrun : rtc (step freeRam VERS_BUILD stack stack64 stack_msg rand heard MOD_TRACKER sin cos atan2 null)
      (init freeRam VERS_BUILD ser af s) a) :
  let v := nv (cn_set a) in
  settings_wf (g_settings (cn_set a)) /\
  (array 11 (nvSettings v) /\ array 28 (nvCallData v) /\ array 128 (nvBeaconText v)) /\
  array 330 (sr_buf (cn_reader a)) /\ is_byte (readLen (cn_reader a)) /\
  forall ram, settings_load (mkS ram (nv (snd (settings_save (cn_set a)))))
    = (true, snd (settings_save (cn_set a))).
Proof.
  intros v. enough (Ha : typed a).
  { destruct Ha as [[Hb Hr] [Hg Hv]]. split_and!; try done; [apply Hv..|]. intros ram.
    apply save_load; [done|]. destruct Hv as ([? _] & [? _] & [? _]). by split_and!. }
  assert (Hinit : typed (init freeRam VERS_BUILD ser af s)).
  { split; [split; [apply array_zeros|unfold is_byte; cbn; lia]|]. apply load_typed. by split. }
  revert Hinit. clear Hram Hnv. induction Hrun as [a|a a1 a2 Hstep _ IH]; [done|]. intros Ha. apply IH.
  destruct Hstep as [fuel clock a a1 Ht|ser' ch a]; [by eapply turn_typed|].
  by apply typed_same with a.
Qed.
End ProgramTyped.

Section Examples.
Import KFileFifo.

#[local] Instance ring_carrier : Carrier FIFOBuffer := {
  rxstart _ := false;
  modem_status _ := 0;
  clear_status ch := ch;
  run_irqs ch := ch;
  timer_delay _ ch := ch
}.

#[local] Instance idle_port : SerPort Serial := ser_port (fun _ => None) (fun _ => 0) 0.

(** A turn after power-on. *)
Local Abbreviation switched_on :=
  (init 900 42 (ser_init 0) (fifo_init (zeros 16) 16) (mkS (default_settings 1) (nv sample_settings))).

Definition one_turn (a : App Serial FIFOBuffer) : option (App Serial FIFOBuffer) :=
  main_turn 900 42 (zeros 128) (zeros 64) (fun _ => blank_stack) (fun _ => 0) (fun _ _ => 0)
    true flat flat (fun _ => flat) [] 5 (fun _ => 100) a.

Lemma one_turn_step a a' :
  one_turn a = Some a' ->
  step 900 42 (zeros 128) (zeros 64) (fun _ => blank_stack) (fun _ => 0) (fun _ _ => 0)
    true flat flat (fun _ => flat) [] a a'.
Proof. exact (step_turn _ _ _ _ _ _ _ _ _ _ _ _ 5 (fun _ => 100) a a'). Qed.

Lemma one_turn_runs : match one_turn switched_on with Some _ => True | None => False end.
Proof. vm_compute. reflexivity. Qed.

Lemma program_typed_witness :
  exists a, one_turn switched_on = Some a /\
    settings_wf (g_settings (cn_set a)) /\ array 330 (sr_buf (cn_reader a)).
Proof.
  pose proof one_turn_runs as Hruns. destruct (one_turn switched_on) as [a|] eqn:E; [|destruct Hruns].
  exists a. split; [reflexivity|].
  destruct (program_typed 900 42 (zeros 128) (zeros 64) (fun _ => blank_stack) (fun _ => 0) (fun _ _ => 0)
    true flat flat (fun _ => flat) [] (ser_init 0) (fifo_init (zeros 16) 16)
    (mkS (default_settings 1) (nv sample_settings)) a) as (A & _ & B & _).
  - split; [decide_closed|unfold is_u16; cbn; lia].
  - split_and!; (split; [reflexivity|decide_closed]).
  - exact (rtc_once _ _ (one_turn_step _ _ E)).
  - split; [exact A|exact B].
Defined.
End Examples.
