(* ===== verification/SoftSer.v ===== *)
(** * The software serial port: [TinyAPRS/hw/hw_softser.[ch]]

    A serial port on two pins, driven by counted delays: the transmitter writes the
    pin and waits, the receiver, started by the pin's interrupt at the start bit,
    waits and reads the pin.  What the transmitter does is a list of [Event]s; time
    is in cycles of the processor.  A delay of [n] takes the cycles of the loop in
    [hw_softser_tunedDelay]; the cycles of all other instructions between one delay
    and the next depend on the compiler and are a parameter, as is the time from
    the edge to the interrupt handler. *)

From Stdlib Require Import ZArith Lia Bool List.
From Stdlib Require Import String.
From stdpp Require Import prelude.
From S2P Require Import Prelude.
From S2P Require Import Formatwr.
From S2P Require Import Fifo.
From S2P Require Import Libc.

Open Scope Z_scope.

(** ** Data *)

Definition CFG_SOFTSER_RXBUFSIZE : Z := 32.
Definition _SS_MAX_RX_BUFF : Z := CFG_SOFTSER_RXBUFSIZE.
Definition XMIT_START_ADJUSTMENT : Z := 5.

Record DELAY_TABLE := mkRow {
  baud : Z;
  rx_delay_centering : Z;
  rx_delay_intrabit : Z;
  rx_delay_stopbit : Z;
  tx_delay : Z
}.

Definition delayTable : list DELAY_TABLE := [
  mkRow 115200 1 17 17 12;
  mkRow 57600 10 37 37 33;
  mkRow 38400 25 57 57 54;
  mkRow 31250 31 70 70 68;
  mkRow 28800 34 77 77 74;
  mkRow 19200 54 117 117 114;
  mkRow 14400 74 156 156 153;
  mkRow 9600 114 236 236 233;
  mkRow 4800 233 474 474 471;
  mkRow 2400 471 950 950 947;
  mkRow 1200 947 1902 1902 1899;
  mkRow 600 1902 3804 3804 3800;
  mkRow 300 3804 7617 7617 7614].

(** [SoftSerial] without its pins, the receive buffer, whether this is
    [pActiveSerPort], whether the pin's interrupt is on. *)
Record SoftSerial := mkSoft {
  _rx_delay_centering : Z;
  _rx_delay_intrabit : Z;
  _rx_delay_stopbit : Z;
  _tx_delay : Z;
  _buffer_overflow : bool;
  _inverse_logic : bool;
  _receive_buffer : list Z;
  _receive_buffer_tail : Z;
  _receive_buffer_head : Z;
  is_active : bool;
  rx_interrupt : bool
}.

(** What the transmitter does: it writes the pin, or waits. *)
Inductive Event := Pin (high : bool) | Wait (delay : Z).

(** [sbiw], [ldi], [cpi], [cpc] and [brne]: seven cycles, six the last time; the
    count goes down to 0xFFFF. *)
Definition delay_cycles (delay : Z) : Z := 7 * (delay + 1) - 1.

(** ** Operations *)

Definition set_delays (r : DELAY_TABLE) (s : SoftSerial) : SoftSerial :=
  mkSoft (rx_delay_centering r) (rx_delay_intrabit r) (rx_delay_stopbit r) (tx_delay r)
    (_buffer_overflow s) (_inverse_logic s) (_receive_buffer s) (_receive_buffer_tail s)
    (_receive_buffer_head s) (is_active s) (rx_interrupt s).
Definition set_overflow (v : bool) (s : SoftSerial) : SoftSerial :=
  mkSoft (_rx_delay_centering s) (_rx_delay_intrabit s) (_rx_delay_stopbit s) (_tx_delay s)
    v (_inverse_logic s) (_receive_buffer s) (_receive_buffer_tail s) (_receive_buffer_head s)
    (is_active s) (rx_interrupt s).
Definition set_ring (buf : list Z) (tail head : Z) (s : SoftSerial) : SoftSerial :=
  mkSoft (_rx_delay_centering s) (_rx_delay_intrabit s) (_rx_delay_stopbit s) (_tx_delay s)
    (_buffer_overflow s) (_inverse_logic s) buf tail head (is_active s) (rx_interrupt s).
Definition set_active (active irq : bool) (s : SoftSerial) : SoftSerial :=
  mkSoft (_rx_delay_centering s) (_rx_delay_intrabit s) (_rx_delay_stopbit s) (_tx_delay s)
    (_buffer_overflow s) (_inverse_logic s) (_receive_buffer s) (_receive_buffer_tail s)
    (_receive_buffer_head s) active irq.

(** [memset], the idle level on the pin, [pActiveSerPort]; the buffer is not touched. *)
Definition hw_softser_init (s : SoftSerial) : SoftSerial * list Event :=
  (mkSoft 0 0 0 0 false false (_receive_buffer s) (_receive_buffer_tail s) (_receive_buffer_head s)
    true (rx_interrupt s), [Pin true]).

Fixpoint find_row (speed : Z) (l : list DELAY_TABLE) : option DELAY_TABLE :=
  match l with
  | [] => None
  | r :: l => if baud r =? speed then Some r else find_row speed l
  end.

Definition hw_softser_start (speed : Z) (s : SoftSerial) : SoftSerial * list Event :=
  let s := match find_row speed delayTable with Some r => set_delays r s | None => s end in
  let '(s, evs) :=
    if negb (_rx_delay_stopbit s =? 0) then (set_active (is_active s) true s, [Wait (_tx_delay s)])
    else (s, []) in
  let s := if is_active s then s
           else set_active true (rx_interrupt s) (set_ring (_receive_buffer s) 0 0 (set_overflow false s)) in
  (s, evs).

Definition hw_softser_stop (s : SoftSerial) : SoftSerial := set_active (is_active s) false s.

Definition hw_softser_read (s : SoftSerial) : Z * SoftSerial :=
  if negb (is_active s) then (-1, s)
  else if _receive_buffer_head s =? _receive_buffer_tail s then (-1, s)
  else
    (u8 (get (_receive_buffer s) (_receive_buffer_head s)),
     set_ring (_receive_buffer s) (_receive_buffer_tail s)
       ((_receive_buffer_head s + 1) mod _SS_MAX_RX_BUFF) s).

Definition hw_softser_avail (s : SoftSerial) : Z :=
  if negb (is_active s) then 0
  else (_receive_buffer_tail s + _SS_MAX_RX_BUFF - _receive_buffer_head s) mod _SS_MAX_RX_BUFF.

(** The loop over the bits, until [mask] is shifted out. *)
Fixpoint write_bits (fuel : nat) (b mask delay : Z) (high : bool) : list Event :=
  match fuel with
  | O => []
  | S fuel =>
      if mask =? 0 then []
      else Pin (if Z.land b mask =? 0 then negb high else high) :: Wait delay
           :: write_bits fuel b (u8 (Z.shiftl mask 1)) delay high
  end.

(** [HIGH] and [LOW] of Arduino. *)
Definition HIGH : Z := 1.
Definition LOW : Z := 0.

(** [tx_pin_write] of [_inverse_logic ? HIGH : LOW].  The macro compares its
    argument, without parentheses, with [LOW]: the comparison is the second branch
    of the argument. *)
Definition start_is_low (inverse : bool) : bool :=
  negb ((if inverse then HIGH else Z.b2z (LOW =? LOW)) =? 0).

Definition hw_softser_write (b : Z) (s : SoftSerial) : Z * list Event :=
  if _tx_delay s =? 0 then (0, [])
  else
    let high := negb (_inverse_logic s) in
    (1, [Pin (negb (start_is_low (_inverse_logic s))); Wait (u16 (_tx_delay s + XMIT_START_ADJUSTMENT))]
        ++ write_bits 9 (u8 b) 1 (_tx_delay s) high
        ++ [Pin high; Wait (_tx_delay s)]).

(** [while (str[i] != 0)], with an 8-bit index: without a terminator among the first
    256 characters it never ends, and [fuel] runs out. *)
Fixpoint print_loop (fuel : nat) (str : list Z) (i : Z) (s : SoftSerial) : option (Z * list Event) :=
  match fuel with
  | O => None
  | S fuel =>
      if get str i =? 0 then Some (i, [])
      else
        let '(_, evs) := hw_softser_write (get str i) s in
        match print_loop fuel str (u8 (i + 1)) s with
        | Some (n, more) => Some (n, evs ++ more)
        | None => None
        end
  end.

Definition hw_softser_print (str : list Z) (s : SoftSerial) : option (Z * list Event) :=
  print_loop 256 str 0 s.

(** ** The line and the receiver *)

(** The level of the pin at time [t]: events from the [i]-th delay on, [now] the
    time they start and [level] the level until then. *)
Fixpoint line (other : nat -> Z) (i : nat) (evs : list Event) (now : Z) (level : bool) (t : Z) : bool :=
  match evs with
  | [] => level
  | Pin high :: evs => if t <? now then level else line other i evs now high t
  | Wait n :: evs => line other (S i) evs (now + delay_cycles n + other i) level t
  end.

Fixpoint duration (other : nat -> Z) (i : nat) (evs : list Event) : Z :=
  match evs with
  | [] => 0
  | Pin _ :: evs => duration other i evs
  | Wait n :: evs => delay_cycles n + other i + duration other (S i) evs
  end.

(** The eight bits; [i] counts the delays. *)
Fixpoint recv_bits (fuel : nat) (pin : Z -> bool) (other : nat -> Z) (i : nat) (t mask d delay : Z) : Z * Z :=
  match fuel with
  | O => (d, t)
  | S fuel =>
      if mask =? 0 then (d, t)
      else
        let t := t + delay_cycles delay + other i in
        let noti := u8 (Z.lnot mask) in
        let d := if pin t then Z.lor d mask else Z.land d noti in
        recv_bits fuel pin other (S i) t (u8 (Z.shiftl mask 1)) d delay
  end.

(** Called at time [t]; the port, and the time it returns. *)
Definition hw_softser_recv (pin : Z -> bool) (other : nat -> Z) (t : Z) (s : SoftSerial) : SoftSerial * Z :=
  if (if _inverse_logic s then pin t else negb (pin t)) then
    let t := t + delay_cycles (_rx_delay_centering s) + other 0%nat in
    let '(d, t) := recv_bits 9 pin other 1 t 1 0 (_rx_delay_intrabit s) in
    let t := t + delay_cycles (_rx_delay_stopbit s) + other 9%nat in
    let d := if _inverse_logic s then u8 (Z.lnot d) else d in
    if negb ((_receive_buffer_tail s + 1) mod _SS_MAX_RX_BUFF =? _receive_buffer_head s) then
      (set_ring (upd (_receive_buffer s) (_receive_buffer_tail s) d)
         ((_receive_buffer_tail s + 1) mod _SS_MAX_RX_BUFF) (_receive_buffer_head s) s, t)
    else (set_overflow true s, t)
  else (s, t).

Definition hw_softser_handle_interrupt (pin : Z -> bool) (other : nat -> Z) (t : Z) (s : SoftSerial)
  : SoftSerial * Z :=
  if is_active s then hw_softser_recv pin other t s else (s, t).

(** ** The transmission as pulses *)

(** The levels of a frame and how long each is held. *)
Definition frame (inverse : bool) (delay b : Z) : list (bool * Z) :=
  (inverse, u16 (delay + XMIT_START_ADJUSTMENT))
  :: map (fun bit => (xorb inverse bit, delay)) (bits_of_byte b) ++ [(negb inverse, delay)].

Definition pulses (l : list (bool * Z)) : list Event := concat (map (fun p => [Pin (fst p); Wait (snd p)]) l).

Lemma mask_bit b k :
  is_byte b -> 0 <= k < 8 -> (Z.land b (2 ^ k) =? 0) = negb (Z.testbit b k).
Proof.
  intros Hb Hk. apply eqb_prop.
  apply (forall_byte (fun b => eqb (Z.land b (2 ^ k) =? 0) (negb (Z.testbit b k)))); [|done].
  assert (k = 0 \/ k = 1 \/ k = 2 \/ k = 3 \/ k = 4 \/ k = 5 \/ k = 6 \/ k = 7)
    as [-> |[-> |[-> |[-> |[-> |[-> |[-> | ->]]]]]]] by lia; vm_compute; reflexivity.
Qed.

Lemma write_levels b s :
  is_byte b -> _tx_delay s <> 0 ->
  hw_softser_write b s = (1, pulses ((false, u16 (_tx_delay s + 5)) :: tl (frame (_inverse_logic s) (_tx_delay s) b))).
Proof.
  intros Hb Hd. unfold hw_softser_write. apply Z.eqb_neq in Hd. rewrite Hd, u8_small by done.
  f_equal. set (inv := _inverse_logic s). set (D := _tx_delay s).
  assert (start_is_low inv = true) as -> by (by destruct inv).
  assert (Eb : forall k, 0 <= k < 8 -> xorb inv (Z.testbit b k)
    = (if Z.land b (2 ^ k) =? 0 then negb (negb inv) else negb inv)).
  { intros k Hk. rewrite mask_bit by done. by destruct inv, (Z.testbit b k). }
  unfold pulses, frame, bits_of_byte. cbn [map app concat fst snd tl].
  rewrite !Eb by lia. reflexivity.
Qed.

Lemma write_pulses b s :
  is_byte b -> _tx_delay s <> 0 -> _inverse_logic s = false ->
  hw_softser_write b s = (1, pulses (frame false (_tx_delay s) b)).
Proof. intros Hb Hd Hi. rewrite write_levels, Hi by done. reflexivity. Qed.

(** With inverse logic, which nothing in the firmware turns on, the start bit has the
    level of the idle line: a byte 0xFF leaves the line idle all through its frame. *)
Lemma inverse_logic_no_start s :
  _tx_delay s <> 0 -> _inverse_logic s = true ->
  exists l, hw_softser_write 255 s = (1, pulses l) /\ Forall (fun p => fst p = false) l.
Proof.
  intros Hd Hi. eexists. split; [apply write_levels; [unfold is_byte; lia|done]|]. rewrite Hi.
  repeat constructor.
Qed.

(** The time the [k]-th level starts. *)
Fixpoint edge (other : nat -> Z) (i : nat) (l : list (bool * Z)) (k : nat) : Z :=
  match k, l with
  | S k, (_, n) :: l => delay_cycles n + other i + edge other (S i) l k
  | _, _ => 0
  end.

Definition sane (other : nat -> Z) (l : list (bool * Z)) : Prop :=
  (forall i, 0 <= other i) /\ Forall (fun p => 0 <= snd p) l.

Lemma edge_0 other i l : edge other i l 0 = 0.
Proof. by destruct l. Qed.

Lemma edge_nonneg other l : forall i k, sane other l -> 0 <= edge other i l k.
Proof.
  induction l as [|[h n] l IH]; intros i [|k] [Ho Hl]; try done. cbn [edge].
  apply Forall_cons in Hl as [Hn Hl]. specialize (IH (S i) k (conj Ho Hl)). specialize (Ho i).
  unfold delay_cycles. cbn in Hn. lia.
Qed.

Lemma edge_app other l1 l2 k : forall i,
  edge other i (l1 ++ l2) (length l1 + k)
  = edge other i l1 (length l1) + edge other (i + length l1) l2 k.
Proof.
  induction l1 as [|[h n] l1 IH]; intros i; cbn [length app Nat.add edge].
  - by rewrite Nat.add_0_r.
  - rewrite IH. replace (S i + length l1)%nat with (i + S (length l1))%nat by lia. lia.
Qed.

Lemma edge_prefix other l1 l2 : forall i k,
  (k <= length l1)%nat -> edge other i (l1 ++ l2) k = edge other i l1 k.
Proof.
  induction l1 as [|[h n] l1 IH]; intros i k Hk; cbn [length] in Hk.
  - assert (k = 0%nat) as -> by lia. by destruct l2.
  - destruct k as [|k]; [done|]. cbn [app edge]. by rewrite IH by lia.
Qed.

Lemma line_before other i l now level t :
  t < now -> line other i (pulses l) now level t = level.
Proof. intros Ht. destruct l as [|[h n] l]; [done|]. cbn. apply Z.ltb_lt in Ht. by rewrite Ht. Qed.

(** Between two edges the line has the level of the first. *)
Lemma line_pulse other l : forall k h n i now level t,
  sane other l -> l !! k = Some (h, n) ->
  now + edge other i l k <= t -> t < now + edge other i l (S k) ->
  line other i (pulses l) now level t = h.
Proof.
  induction l as [|[h0 n0] l IH]; intros k h n i now level t Hs Hk H1 H2; [done|].
  assert (Hs' : sane other l) by (destruct Hs as [? Hl]; apply Forall_cons in Hl as [_ Hl]; done).
  unfold pulses. cbn [map concat app fst snd line]. fold (pulses l).
  pose proof (edge_nonneg other ((h0, n0) :: l) i k Hs).
  assert ((t <? now) = false) as -> by (apply Z.ltb_ge; lia).
  destruct k as [|k]; cbn [edge] in *.
  - injection Hk as -> ->. apply line_before. destruct l as [|[h1 n1] l]; cbn [edge] in H2; lia.
  - apply (IH k h n); [done|done|lia|]. replace (edge other (S i) l (S k)) with (edge other (S i) l (S k)) in H2 by done.
    lia.
Qed.

(** ** Reading the pulses *)

(** When the [k]-th bit is read, the first delay being the [i]-th. *)
Fixpoint sample (other : nat -> Z) (i : nat) (t delay : Z) (k : nat) : Z :=
  match k with
  | O => t + delay_cycles delay + other i
  | S k => sample other (S i) (t + delay_cycles delay + other i) delay k
  end.

(** One bit more. *)
Lemma bit_step b k :
  is_byte b -> 0 <= k < 8 ->
  (if Z.testbit b k then Z.lor (b mod 2 ^ k) (2 ^ k) else Z.land (b mod 2 ^ k) (u8 (Z.lnot (2 ^ k))))
  = b mod 2 ^ (k + 1).
Proof.
  intros Hb Hk. apply Z.eqb_eq.
  apply (forall_byte (fun b => (if Z.testbit b k then Z.lor (b mod 2 ^ k) (2 ^ k)
    else Z.land (b mod 2 ^ k) (u8 (Z.lnot (2 ^ k)))) =? b mod 2 ^ (k + 1))); [|done].
  assert (k = 0 \/ k = 1 \/ k = 2 \/ k = 3 \/ k = 4 \/ k = 5 \/ k = 6 \/ k = 7)
    as [-> |[-> |[-> |[-> |[-> |[-> |[-> | ->]]]]]]] by lia; vm_compute; reflexivity.
Qed.

Lemma next_mask k : (k < 8)%nat -> u8 (Z.shiftl (2 ^ Z.of_nat k) 1) = if (k =? 7)%nat then 0 else 2 ^ Z.of_nat (S k).
Proof. intros Hk. do 8 (destruct k as [|k]; [reflexivity|]). lia. Qed.

Lemma recv_bits_S f pin other i t mask d delay :
  recv_bits (S f) pin other i t mask d delay =
  if mask =? 0 then (d, t)
  else
    let t := t + delay_cycles delay + other i in
    recv_bits f pin other (S i) t (u8 (Z.shiftl mask 1))
      (if pin t then Z.lor d mask else Z.land d (u8 (Z.lnot mask))) delay.
Proof. reflexivity. Qed.

Lemma recv_bits_from pin other delay b n : forall k i t,
  is_byte b -> (k + n = 8)%nat -> (0 < n)%nat ->
  (forall j, (j < n)%nat -> pin (sample other i t delay j) = Z.testbit b (Z.of_nat (k + j))) ->
  recv_bits (S n) pin other i t (2 ^ Z.of_nat k) (b mod 2 ^ Z.of_nat k) delay
  = (b, sample other i t delay (n - 1)).
Proof.
  induction n as [|n IH]; intros k i t Hb Hkn Hn Hp; [lia|].
  rewrite recv_bits_S.
  assert ((2 ^ Z.of_nat k =? 0) = false) as -> by (apply Z.eqb_neq; lia).
  pose proof (Hp 0%nat ltac:(lia)) as P0. cbn [sample] in P0. cbv zeta. rewrite P0, Nat.add_0_r.
  rewrite bit_step, next_mask by (done || lia).
  replace (Z.of_nat k + 1) with (Z.of_nat (S k)) by lia.
  destruct n as [|n].
  - assert (k = 7%nat) as -> by lia. cbn [recv_bits Nat.eqb]. change (0 =? 0) with true. cbv iota.
    f_equal. change (2 ^ Z.of_nat 8) with 256. by apply Z.mod_small.
  - assert ((k =? 7)%nat = false) as -> by (apply Nat.eqb_neq; lia).
    rewrite (IH (S k)); [|done|lia|lia|].
    + f_equal. replace (S (S n) - 1)%nat with (S (S n - 1)) by lia. done.
    + intros j Hj. specialize (Hp (S j) ltac:(lia)). cbn [sample] in Hp. rewrite Hp.
      do 2 f_equal. lia.
Qed.

Lemma recv_bits_byte pin other f : forall i t mask d delay,
  is_byte mask -> is_byte d -> is_byte (fst (recv_bits f pin other i t mask d delay)).
Proof.
  induction f as [|f IH]; intros i t mask d delay Hm Hd; [done|]. cbn [recv_bits].
  destruct (mask =? 0); [done|]. apply IH; [apply u8_range|].
  destruct (pin _); [by apply (lor_bound _ _ 8)|apply (land_bound _ _ 8); [done|apply u8_range]].
Qed.

Lemma recv_bits_read pin other t delay b :
  is_byte b -> (forall k, (k < 8)%nat -> pin (sample other 1 t delay k) = Z.testbit b (Z.of_nat k)) ->
  recv_bits 9 pin other 1 t 1 0 delay = (b, sample other 1 t delay 7).
Proof.
  intros Hb Hp. pose proof (recv_bits_from pin other delay b 8 0 1 t Hb eq_refl ltac:(lia) Hp) as E.
  change (2 ^ Z.of_nat 0) with 1 in E. rewrite Z.mod_1_r in E. exact E.
Qed.

(** ** Timing *)

(** The port keeps time at this row of the table when all other instructions between
    two delays, and from the start bit to the interrupt handler, take at most [M]
    cycles: every bit is read while it is on the line, and the handler returns
    during the stop bit. *)
Definition in_step (M : Z) (r : DELAY_TABLE) : bool :=
  let first := delay_cycles (tx_delay r + 5) in
  let bit := delay_cycles (tx_delay r) in
  let centre := delay_cycles (rx_delay_centering r) in
  let intra := delay_cycles (rx_delay_intrabit r) in
  let stop := delay_cycles (rx_delay_stopbit r) in
  (0 <=? M) && (M <? first)
  && forallb (fun k =>
       (first + k * bit + (k + 1) * M <=? centre + (k + 1) * intra)
       && (centre + (k + 1) * intra + (k + 3) * M <? first + (k + 1) * bit)) [0; 1; 2; 3; 4; 5; 6; 7]
  && (first + 8 * bit + 9 * M <=? centre + 8 * intra + stop)
  && (centre + 8 * intra + stop + 11 * M <? first + 9 * bit).

(** What the compiled code may take: 61 cycles a bit at 9600 baud. *)
Example tolerances :
  map (fun r => (baud r, existsb (fun M => in_step M r) [0], existsb (fun M => in_step M r) [4],
                 existsb (fun M => in_step M r) [61], existsb (fun M => in_step M r) [591])) delayTable
  = [(115200, false, false, false, false); (57600, false, false, false, false);
     (38400, true, true, false, false); (31250, true, true, false, false);
     (28800, true, true, false, false); (19200, true, true, false, false);
     (14400, true, true, false, false); (9600, true, true, true, false);
     (4800, true, true, true, false); (2400, true, true, true, false);
     (1200, true, true, true, true); (600, true, true, true, true); (300, true, true, true, true)].
Proof. vm_compute. reflexivity. Qed.

Definition within (M : Z) (other : nat -> Z) : Prop := forall i, 0 <= other i <= M.

Lemma sample_range M other delay k : forall i t,
  within M other ->
  t + (Z.of_nat k + 1) * delay_cycles delay <= sample other i t delay k
  <= t + (Z.of_nat k + 1) * (delay_cycles delay + M).
Proof.
  induction k as [|k IH]; intros i t Ho; cbn [sample].
  - specialize (Ho i). lia.
  - specialize (IH (S i) (t + delay_cycles delay + other i) Ho). specialize (Ho i).
    rewrite Nat2Z.inj_succ. nia.
Qed.

Lemma edge_range M other delay l : forall i k,
  within M other -> Forall (fun p => snd p = delay) l -> (k <= length l)%nat ->
  Z.of_nat k * delay_cycles delay <= edge other i l k <= Z.of_nat k * (delay_cycles delay + M).
Proof.
  induction l as [|[h n] l IH]; intros i k Ho Hl Hk; destruct k as [|k]; cbn [edge length] in *; try lia.
  apply Forall_cons in Hl as [Hn Hl]. cbn in Hn. subst n.
  specialize (IH (S i) k Ho Hl ltac:(lia)). specialize (Ho i). rewrite Nat2Z.inj_succ. nia.
Qed.

Lemma frame_tail inverse delay b :
  exists tl, frame inverse delay b = (inverse, u16 (delay + 5)) :: tl /\
    Forall (fun p => snd p = delay) tl /\ length tl = 9%nat.
Proof. eexists. split; [reflexivity|]. split; [by repeat constructor|done]. Qed.

Lemma frame_edge M other inverse delay b i k :
  within M other -> 0 <= delay < 65531 -> (k <= 9)%nat ->
  delay_cycles (delay + 5) + Z.of_nat k * delay_cycles delay
  <= edge other i (frame inverse delay b) (S k)
  <= delay_cycles (delay + 5) + Z.of_nat k * delay_cycles delay + (Z.of_nat k + 1) * M.
Proof.
  intros Ho Hd Hk. destruct (frame_tail inverse delay b) as (tl & -> & Htl & Hl). cbn [edge].
  rewrite u16_small by lia.
  pose proof (edge_range M other delay tl (S i) k Ho Htl ltac:(lia)). specialize (Ho i). nia.
Qed.

(** ** One byte *)

(** The ring of the receiver as the ring buffer it is. *)
Definition as_fifo (s : SoftSerial) : FIFOBuffer :=
  mkFIFO (_receive_buffer s) (_receive_buffer_head s) (_receive_buffer_tail s) 0 31.

(** The port runs at this row. *)
Definition runs_at (r : DELAY_TABLE) (s : SoftSerial) : Prop :=
  s = set_delays r s.

Definition row_ok (r : DELAY_TABLE) : Prop := 0 < tx_delay r < 65531.

Lemma table_ok r : In r delayTable -> row_ok r.
Proof.
  intros Hr. assert (Hall : Forall row_ok delayTable) by (unfold row_ok; decide_closed).
  by apply (proj1 (List.Forall_forall _ _) Hall).
Qed.

(** The line shows this frame from [start] on. *)
Definition shows (pin : Z -> bool) (start : Z) (other : nat -> Z) (i : nat) (l : list (bool * Z)) : Prop :=
  forall j h n t, l !! j = Some (h, n) ->
    edge other i l j <= t -> t < edge other i l (S j) -> pin (start + t) = h.

Lemma frame_start inverse delay b : frame inverse delay b !! 0%nat = Some (inverse, u16 (delay + 5)).
Proof. reflexivity. Qed.

Lemma frame_bit inverse delay b k :
  (k < 8)%nat -> frame inverse delay b !! S k = Some (xorb inverse (Z.testbit b (Z.of_nat k)), delay).
Proof. intros Hk. do 8 (destruct k as [|k]; [reflexivity|]). lia. Qed.

Lemma frame_stop inverse delay b : frame inverse delay b !! 9%nat = Some (negb inverse, delay).
Proof. reflexivity. Qed.

Lemma complement b : is_byte b -> u8 (Z.lnot (u8 (Z.lnot b))) = b.
Proof.
  intros Hb. apply Z.eqb_eq. apply (forall_byte (fun b => u8 (Z.lnot (u8 (Z.lnot b))) =? b)); [|done].
  vm_compute. reflexivity.
Qed.

Lemma complement_bit b k :
  is_byte b -> (k < 8)%nat -> Z.testbit (u8 (Z.lnot b)) (Z.of_nat k) = negb (Z.testbit b (Z.of_nat k)).
Proof.
  intros Hb Hk. unfold u8. change 256 with (2 ^ 8).
  rewrite Z.mod_pow2_bits_low by lia. apply Z.lnot_spec. lia.
Qed.

Lemma in_step_bits M r k :
  in_step M r = true -> (k < 8)%nat ->
  let first := delay_cycles (tx_delay r + 5) in
  let bit := delay_cycles (tx_delay r) in
  let centre := delay_cycles (rx_delay_centering r) in
  let intra := delay_cycles (rx_delay_intrabit r) in
  first + Z.of_nat k * bit + (Z.of_nat k + 1) * M <= centre + (Z.of_nat k + 1) * intra /\
  centre + (Z.of_nat k + 1) * intra + (Z.of_nat k + 3) * M < first + (Z.of_nat k + 1) * bit.
Proof.
  intros Hs Hk. unfold in_step in Hs. cbv zeta in Hs.
  apply andb_prop in Hs as [Hs _]. apply andb_prop in Hs as [Hs _]. apply andb_prop in Hs as [_ Hs].
  rewrite forallb_forall in Hs. specialize (Hs (Z.of_nat k)).
  apply andb_prop in Hs as [H1 H2].
  - apply Z.leb_le in H1. apply Z.ltb_lt in H2. done.
  - do 8 (destruct k as [|k]; [cbn; tauto|]). lia.
Qed.

(** The receiver got the byte [b]: it stores it, or notes the overflow. *)
Definition received (b : Z) (s : SoftSerial) : SoftSerial :=
  if (_receive_buffer_tail s + 1) mod _SS_MAX_RX_BUFF =? _receive_buffer_head s
  then set_overflow true s
  else set_ring (upd (_receive_buffer s) (_receive_buffer_tail s) b)
         ((_receive_buffer_tail s + 1) mod _SS_MAX_RX_BUFF) (_receive_buffer_head s) s.

(** A byte sent from [start] on; the handler is called at [t]. It gets the byte,
    and returns while the stop bit is on the line. *)
Lemma recv_frame M r pin start otx i orx lat b s :
  in_step M r = true -> row_ok r -> runs_at r s -> is_byte b ->
  within M otx -> within M orx -> 0 <= lat <= M ->
  shows pin start otx i (frame (_inverse_logic s) (tx_delay r) b) ->
  exists t,
    hw_softser_recv pin orx (start + lat) s = (received b s, start + t) /\
    edge otx i (frame (_inverse_logic s) (tx_delay r) b) 9 <= t
      < edge otx i (frame (_inverse_logic s) (tx_delay r) b) 10.
Proof.
  intros Hstep Hrow Hrun Hb Htx Hrx Hlat Hpin. unfold row_ok in Hrow.
  set (inv := _inverse_logic s) in *. set (D := tx_delay r) in *.
  assert (Edges : forall k, (k <= 9)%nat -> _) by (intros k Hk; exact (frame_edge M otx inv D b i k Htx ltac:(lia) Hk)).
  assert (HM : 0 <= M < delay_cycles (D + 5)).
  { unfold in_step in Hstep. cbv zeta in Hstep. do 3 apply andb_prop in Hstep as [Hstep _].
    apply andb_prop in Hstep as [H1 H2]. fold D in H2. lia. }
  assert (Hends : delay_cycles (D + 5) + 8 * delay_cycles D + 9 * M
      <= delay_cycles (rx_delay_centering r) + 8 * delay_cycles (rx_delay_intrabit r) + delay_cycles (rx_delay_stopbit r) /\
    delay_cycles (rx_delay_centering r) + 8 * delay_cycles (rx_delay_intrabit r) + delay_cycles (rx_delay_stopbit r)
      + 11 * M < delay_cycles (D + 5) + 9 * delay_cycles D).
  { unfold in_step in Hstep. cbv zeta in Hstep. apply andb_prop in Hstep as [Hstep H2].
    apply andb_prop in Hstep as [_ H1]. fold D in H1, H2. lia. }
  assert (Hdelays : _rx_delay_centering s = rx_delay_centering r /\ _rx_delay_intrabit s = rx_delay_intrabit r /\
    _rx_delay_stopbit s = rx_delay_stopbit r) by (rewrite Hrun; done).
  destruct Hdelays as (Ec & Ei & Es).
  assert (Hstart : pin (start + lat) = inv).
  { apply (Hpin 0%nat _ _ lat (frame_start inv D b)); [cbn; lia|].
    pose proof (Edges 0%nat ltac:(lia)). lia. }
  unfold hw_softser_recv. fold inv. rewrite Hstart.
  assert ((if inv then inv else negb inv) = true) as -> by (by destruct inv). cbv zeta.
  rewrite Ec, Ei, Es. set (t0 := start + lat + delay_cycles (rx_delay_centering r) + orx 0%nat).
  set (d := if inv then u8 (Z.lnot b) else b).
  assert (Hd : is_byte d) by (unfold d; destruct inv; [apply u8_range|done]).
  rewrite (recv_bits_read pin orx t0 (rx_delay_intrabit r) d Hd).
  - assert (Ed : (if inv then u8 (Z.lnot d) else d) = b)
      by (unfold d; destruct inv; [by apply complement|done]).
    rewrite Ed.
    pose proof (sample_range M orx (rx_delay_intrabit r) 7 1 t0 Hrx) as Hs7.
    pose proof (Hrx 0%nat). pose proof (Hrx 9%nat).
    exists (sample orx 1 t0 (rx_delay_intrabit r) 7 + delay_cycles (rx_delay_stopbit r) + orx 9%nat - start).
    split; [rewrite Zplus_minus; unfold received; by destruct (_ =? _)|].
    pose proof (Edges 8%nat ltac:(lia)). pose proof (Edges 9%nat ltac:(lia)).
    unfold t0 in *. lia.
  - intros k Hk.
    assert (Hbit : pin (sample orx 1 t0 (rx_delay_intrabit r) k) = xorb inv (Z.testbit b (Z.of_nat k))).
    { pose proof (sample_range M orx (rx_delay_intrabit r) k 1 t0 Hrx) as Hsk.
      pose proof (Hrx 0%nat). pose proof (in_step_bits M r k Hstep Hk) as [H1 H2]. fold D in H1, H2.
      replace (sample _ _ _ _ _) with (start + (sample orx 1 t0 (rx_delay_intrabit r) k - start)) by lia.
      apply (Hpin (S k) _ _ _ (frame_bit inv D b k Hk)).
      - pose proof (Edges k ltac:(lia)). unfold t0 in *. nia.
      - pose proof (Edges (S k) ltac:(lia)) as HE. rewrite Nat2Z.inj_succ in HE. unfold t0 in *. nia. }
    rewrite Hbit. unfold d. destruct inv; [rewrite complement_bit by done|]; by destruct (Z.testbit b _).
Qed.

(** ** A text *)

(** The receiver through a transmission of [n] frames from the [k]-th on. The
    handler of frame [k] is called [lat k] after its start bit, or when the one
    before has returned; the edges of the data bits leave the interrupt pending, so
    it is called once more at once. *)
Fixpoint hear (pin : Z -> bool) (orx : nat -> nat -> Z) (start : nat -> Z) (lat : nat -> Z)
    (n k : nat) (busy : Z) (s : SoftSerial) : SoftSerial :=
  match n with
  | O => s
  | S n =>
      let '(s, t) := hw_softser_handle_interrupt pin (orx k) (Z.max busy (start k + lat k)) s in
      let '(s, t) := hw_softser_handle_interrupt pin (orx k) t s in
      hear pin orx start lat n (S k) t s
  end.

Definition frames (inverse : bool) (delay : Z) (str : list Z) : list (bool * Z) :=
  concat (map (frame inverse delay) str).

(** When the [k]-th start bit falls. *)
Definition starts (other : nat -> Z) (l : list (bool * Z)) (k : nat) : Z := edge other 0 l (10 * k).

Lemma pulses_app l1 l2 : pulses (l1 ++ l2) = pulses l1 ++ pulses l2.
Proof. unfold pulses. by rewrite map_app, concat_app. Qed.

Lemma print_frames str more : forall s (i : nat) fuel pre,
  bytes str -> Forall (fun c => c <> 0) str -> _tx_delay s <> 0 -> _inverse_logic s = false ->
  (i + length str < 256)%nat -> (length str < fuel)%nat -> length pre = i ->
  print_loop fuel (pre ++ str ++ 0 :: more) (Z.of_nat i) s
  = Some (Z.of_nat (i + length str), pulses (frames false (_tx_delay s) str)).
Proof.
  induction str as [|c str IH]; intros s i fuel pre Hb Hz Hd Hv Hi Hf Hp;
    (destruct fuel as [|fuel]; [cbn in Hf; lia|]); cbn [print_loop].
  - cbn [app length]. rewrite <- Hp, get_at, Nat.add_0_r. done.
  - apply Forall_cons in Hb as [Hc Hb]. apply Forall_cons in Hz as [Hcz Hz]. cbn [length] in *.
    cbn [app].
    assert (Hget : get (pre ++ c :: str ++ 0 :: more) (Z.of_nat i) = c) by (rewrite <- Hp; apply get_at).
    rewrite Hget. apply Z.eqb_neq in Hcz. rewrite Hcz.
    rewrite write_pulses, u8_small by (done || lia).
    replace (Z.of_nat i + 1) with (Z.of_nat (S i)) by lia.
    rewrite (cons_middle c pre (str ++ 0 :: more)), (app_assoc pre [c]).
    rewrite (IH s (S i) fuel (pre ++ [c])); [|done|done|done|done|lia|lia|rewrite length_app; cbn; lia].
    unfold frames. cbn [map concat]. rewrite pulses_app. do 2 f_equal. lia.
Qed.

Lemma length_frames inverse delay str : length (frames inverse delay str) = (10 * length str)%nat.
Proof.
  induction str as [|c str IH]; [done|]. unfold frames. cbn [map concat]. fold (frames inverse delay str).
  rewrite length_app, IH. cbn [length frame map bits_of_byte app]. lia.
Qed.

Lemma frames_sane M inverse delay str other :
  within M other -> 0 <= delay < 65531 -> sane other (frames inverse delay str).
Proof.
  intros Ho Hd. split; [intros i; by destruct (Ho i)|]. unfold frames.
  apply Forall_concat, Forall_map, Forall_true. intros b. unfold frame, XMIT_START_ADJUSTMENT.
  constructor; [cbn; apply u16_range|]. apply Forall_app. split; [|repeat constructor; cbn; lia].
  apply Forall_map, Forall_true. intros bit. cbn. lia.
Qed.

(** The edges of one frame of the transmission. *)
Lemma frames_edge inverse delay str1 b str2 other k :
  (k <= 10)%nat ->
  let all := frames inverse delay (str1 ++ b :: str2) in
  edge other 0 all (10 * length str1 + k)
  = starts other all (length str1) + edge other (10 * length str1) (frame inverse delay b) k.
Proof.
  intros Hk all.
  assert (Hall : all = frames inverse delay str1 ++ frame inverse delay b ++ frames inverse delay str2)
    by (unfold all, frames; by rewrite map_app, concat_app).
  unfold starts. rewrite Hall, <- (length_frames inverse delay str1).
  pose proof (edge_app other (frames inverse delay str1) (frame inverse delay b ++ frames inverse delay str2) k 0) as E1.
  pose proof (edge_app other (frames inverse delay str1) (frame inverse delay b ++ frames inverse delay str2) 0 0) as E0.
  rewrite Nat.add_0_r, edge_0 in E0. rewrite E1, E0. cbn [Nat.add].
  rewrite (edge_prefix other (frame inverse delay b)) by done. lia.
Qed.

(** Every frame of the transmission is shown on the line, from its start on. *)
Lemma frames_shown M inverse delay str1 b str2 other level :
  within M other -> 0 <= delay < 65531 ->
  let all := frames inverse delay (str1 ++ b :: str2) in
  shows (line other 0 (pulses all) 0 level) (starts other all (length str1)) other
    (10 * length str1) (frame inverse delay b).
Proof.
  intros Ho Hd all j h n t Hj H1 H2.
  assert (Hjl : (j < 10)%nat) by (apply lookup_lt_Some in Hj; exact Hj).
  pose proof (fun k Hk => frames_edge inverse delay str1 b str2 other k Hk) as Hedge.
  cbv zeta in Hedge. fold all in Hedge.
  apply (line_pulse other all (10 * length str1 + j) h n); [by eapply frames_sane| |..].
  - unfold all, frames. rewrite map_app, concat_app. fold (frames inverse delay str1).
    cbn [map concat]. rewrite <- (length_frames inverse delay str1), lookup_app_r by lia.
    replace (_ - _)%nat with j by lia. by apply lookup_app_l_Some.
  - rewrite Hedge by lia. lia.
  - rewrite <- Nat.add_succ_r, Hedge by lia. lia.
Qed.

(** ** The receive buffer *)

(** The receiver stores a byte. *)
Definition store (b : Z) (s : SoftSerial) : SoftSerial :=
  set_ring (upd (_receive_buffer s) (_receive_buffer_tail s) b)
    ((_receive_buffer_tail s + 1) mod _SS_MAX_RX_BUFF) (_receive_buffer_head s) s.

Lemma store_fifo b s : fifo_wf (as_fifo s) -> is_byte b -> as_fifo (store b s) = fifo_push (as_fifo s) b.
Proof.
  intros (_ & _ & _ & _ & Ht) Hb. cbn in Ht. unfold fifo_push, as_fifo, store. cbn. rewrite u8_small by done.
  unfold _SS_MAX_RX_BUFF, CFG_SOFTSER_RXBUFSIZE. rewrite ring_succ by lia. change (32 - 1) with 31. cbn. by destruct (_ =? 31).
Qed.

Lemma full_test s :
  fifo_wf (as_fifo s) ->
  ((_receive_buffer_tail s + 1) mod _SS_MAX_RX_BUFF =? _receive_buffer_head s) = fifo_isfull (as_fifo s).
Proof.
  intros (_ & _ & _ & Hh & Ht). cbn in Hh, Ht. unfold fifo_isfull, as_fifo, _SS_MAX_RX_BUFF, CFG_SOFTSER_RXBUFSIZE.
  cbn [fb_head fb_tail fb_begin fb_end]. rewrite ring_succ by lia. apply eq_true_iff_eq.
  rewrite orb_true_iff, andb_true_iff, !Z.eqb_eq. zcases; zbool; lia.
Qed.

(** A read takes the oldest byte, or is -1. *)
Lemma read_fifo s :
  fifo_wf (as_fifo s) -> bytes (_receive_buffer s) -> is_active s = true ->
  hw_softser_read s =
    if fifo_isempty (as_fifo s) then (-1, s)
    else (fst (fifo_pop (as_fifo s)),
          set_ring (_receive_buffer s) (_receive_buffer_tail s) (fb_head (snd (fifo_pop (as_fifo s)))) s).
Proof.
  intros Hw Hb Ha. unfold hw_softser_read. rewrite Ha. cbn [negb]. rewrite fifo_pop_eq by done.
  unfold fifo_isempty, as_fifo. cbn [fb_head fb_tail fb_mem fst snd]. rewrite (u8_small _ (get_bytes _ _ Hb)).
  reflexivity.
Qed.

(** [hw_softser_avail] counts what the buffer holds. *)
Lemma avail_fifo s :
  fifo_wf (as_fifo s) -> is_active s = true ->
  hw_softser_avail s = Z.of_nat (length (contents (as_fifo s))).
Proof.
  intros Hw Ha. unfold hw_softser_avail. rewrite Ha, length_contents by done. cbn [negb].
  unfold fill, slots, as_fifo, _SS_MAX_RX_BUFF, CFG_SOFTSER_RXBUFSIZE. cbn [fb_head fb_tail fb_end].
  replace (_receive_buffer_tail s + 32 - _receive_buffer_head s)
    with (_receive_buffer_tail s - _receive_buffer_head s + 1 * (31 + 1)) by lia.
  apply Z_mod_plus_full.
Qed.

(** The port listens, at this row of the table, with normal logic. *)
Definition listens (r : DELAY_TABLE) (s : SoftSerial) : Prop :=
  is_active s = true /\ runs_at r s /\ _inverse_logic s = false /\ fifo_wf (as_fifo s).

Lemma received_cases b s :
  fifo_wf (as_fifo s) ->
  received b s = if fifo_isfull (as_fifo s) then set_overflow true s else store b s.
Proof. intros Hw. unfold received. by rewrite full_test. Qed.

Lemma received_listens r b s : listens r s -> is_byte b -> listens r (received b s).
Proof.
  intros (Ha & Hr & Hi & Hw) Hb. rewrite received_cases by done. unfold runs_at in *.
  destruct (fifo_isfull (as_fifo s)).
  - split_and!; [done| |done|exact Hw]. unfold runs_at. rewrite Hr. reflexivity.
  - split_and!; [done| |done|].
    + unfold runs_at. rewrite Hr. reflexivity.
    + rewrite store_fifo by done. by apply fifo_push_wf.
Qed.

Lemma contents_at_most s : fifo_wf (as_fifo s) -> (length (contents (as_fifo s)) <= 31)%nat.
Proof.
  intros Hw. pose proof (fill_range _ Hw) as Hf. rewrite <- length_contents in Hf by done. cbn in Hf. lia.
Qed.

(** The buffer keeps 31 bytes; what comes on top of them is lost and noted. *)
Lemma received_contents b s :
  fifo_wf (as_fifo s) -> is_byte b ->
  contents (as_fifo (received b s)) = take 31 (contents (as_fifo s) ++ [b]) /\
  _buffer_overflow (received b s)
    = _buffer_overflow s || (31 <? Z.of_nat (length (contents (as_fifo s)) + 1)).
Proof.
  intros Hw Hb. rewrite received_cases by done. pose proof (contents_at_most s Hw).
  destruct (fifo_isfull (as_fifo s)) eqn:Hf; rewrite fifo_isfull_spec in Hf by done; zbool.
  - assert (length (contents (as_fifo s)) = 31%nat) as Hl.
    { change (capacity (as_fifo s)) with 31 in Hf. lia. }
    rewrite Hl. change (contents (as_fifo (set_overflow true s))) with (contents (as_fifo s)).
    rewrite take_app_length' by done. by rewrite orb_true_r.
  - assert (length (contents (as_fifo s)) < 31)%nat as Hl.
    { change (capacity (as_fifo s)) with 31 in Hf. lia. }
    rewrite take_ge by (rewrite length_app; cbn; lia).
    rewrite store_fifo, fifo_push_contents, u8_small by (done || (cbn; lia)).
    assert ((31 <? Z.of_nat (length (contents (as_fifo s)) + 1)) = false) as -> by (apply Z.ltb_ge; lia).
    by rewrite orb_false_r.
Qed.

Lemma take_31_cons (c : list Z) b str :
  (length c <= 31)%nat -> take 31 (take 31 (c ++ [b]) ++ str) = take 31 (c ++ b :: str).
Proof.
  intros Hl. destruct (decide (length c = 31%nat)) as [E|E].
  - by rewrite !(take_app_length' c) by done.
  - rewrite (take_ge (c ++ [b])) by (rewrite length_app; cbn; lia). by rewrite <- app_assoc.
Qed.

Lemma overflow_cons (c str : list Z) b o :
  (length c <= 31)%nat ->
  (o || (31 <? Z.of_nat (length c + 1)))
    || (31 <? Z.of_nat (length (take 31 (c ++ [b])) + length str))
  = o || (31 <? Z.of_nat (length c + length (b :: str))).
Proof.
  intros Hl. rewrite <- orb_assoc. f_equal. apply eq_true_iff_eq.
  rewrite orb_true_iff, !Z.ltb_lt, length_take, length_app. cbn [length]. lia.
Qed.

Lemma hear_frames M r otx orx lat level str2 : forall str1 busy s,
  In r delayTable -> in_step M r = true ->
  within M otx -> (forall k, within M (orx k)) -> (forall k, 0 <= lat k <= M) ->
  bytes str2 -> listens r s ->
  let all := frames false (tx_delay r) (str1 ++ str2) in
  busy <= starts otx all (length str1) ->
  let s' := hear (line otx 0 (pulses all) 0 level) orx (starts otx all) lat (length str2) (length str1) busy s in
  listens r s' /\ contents (as_fifo s') = take 31 (contents (as_fifo s) ++ str2) /\
  _buffer_overflow s'
    = _buffer_overflow s || (31 <? Z.of_nat (length (contents (as_fifo s)) + length str2)).
Proof.
  induction str2 as [|b str2 IH]; intros str1 busy s Hr Hstep Htx Hrx Hlat Hb Hs all Hbusy s'.
  { unfold s'. cbn [length hear]. destruct Hs as (? & ? & ? & Hw).
    pose proof (contents_at_most s Hw). rewrite app_nil_r, take_ge, Nat.add_0_r by lia.
    assert ((31 <? Z.of_nat (length (contents (as_fifo s)))) = false) as -> by (apply Z.ltb_ge; lia).
    by rewrite orb_false_r. }
  apply Forall_cons in Hb as [Hb Hbs].
  pose proof Hs as (Ha & Hrun & Hi & Hw). pose proof (table_ok r Hr) as Hrow. unfold row_ok in Hrow.
  set (pin := line otx 0 (pulses all) 0 level) in *. set (k := length str1) in *.
  pose proof (frames_shown M false (tx_delay r) str1 b str2 otx level Htx ltac:(lia)) as Hshown.
  cbv zeta in Hshown. fold all pin in Hshown. fold k in Hshown.
  destruct (recv_frame M r pin (starts otx all k) otx (10 * k) (orx k) (lat k) b s)
    as (t & Hrecv & Ht); [done..|by rewrite Hi|].
  rewrite Hi in Ht.
  assert (Hstop : pin (starts otx all k + t) = true)
    by (apply (Hshown 9%nat _ _ t (frame_stop false _ b)); lia).
  pose proof (received_listens r b s Hs Hb) as Hs'. pose proof Hs' as (Ha' & _ & Hi' & _).
  assert (Hs1 : s' = hear pin orx (starts otx all) lat (length str2) (S k) (starts otx all k + t) (received b s)).
  { unfold s'. cbn [length hear]. unfold hw_softser_handle_interrupt at 1. rewrite Ha.
    rewrite Z.max_r by (specialize (Hlat k); lia). rewrite Hrecv.
    unfold hw_softser_handle_interrupt. rewrite Ha'. unfold hw_softser_recv. by rewrite Hi', Hstop. }
  rewrite Hs1.
  assert (Hall : all = frames false (tx_delay r) ((str1 ++ [b]) ++ str2)) by (unfold all; by rewrite <- app_assoc).
  specialize (IH (str1 ++ [b]) (starts otx all k + t) (received b s) Hr Hstep Htx Hrx Hlat Hbs Hs').
  cbv zeta in IH. rewrite <- Hall in IH. fold pin in IH.
  destruct (received_contents b s Hw Hb) as [Hc Ho]. pose proof (contents_at_most s Hw) as Hmost.
  assert (Hlen : length (str1 ++ [b]) = S k) by (rewrite length_app; cbn; lia).
  rewrite Hlen, Hc, Ho, take_31_cons, overflow_cons in IH by done. apply IH.
  pose proof (frames_edge false (tx_delay r) str1 b str2 otx 10 ltac:(lia)) as He. cbv zeta in He.
  fold all k in He. unfold starts in *. replace (10 * S k)%nat with (10 * k + 10)%nat by lia. lia.
Qed.

(** Whatever is on the line and however late it is called, the interrupt handler
    leaves a buffer: with one byte more, or the same one. *)
Lemma interrupt_buffer pin other t s :
  fifo_wf (as_fifo s) ->
  let s' := fst (hw_softser_handle_interrupt pin other t s) in
  fifo_wf (as_fifo s') /\
  ((exists d, contents (as_fifo s') = contents (as_fifo s) ++ [u8 d] /\ _buffer_overflow s' = _buffer_overflow s)
   \/ (contents (as_fifo s') = contents (as_fifo s) /\
       (_buffer_overflow s' = _buffer_overflow s
        \/ fifo_isfull (as_fifo s) = true /\ _buffer_overflow s' = true))).
Proof.
  intros Hw s'. unfold s', hw_softser_handle_interrupt. destruct (is_active s); [|tauto].
  unfold hw_softser_recv. destruct (if _inverse_logic s then _ else _); [|tauto].
  pose proof (recv_bits_byte pin other 9 1 (t + delay_cycles (_rx_delay_centering s) + other 0%nat) 1 0
    (_rx_delay_intrabit s) ltac:(unfold is_byte; lia) ltac:(unfold is_byte; lia)) as Hd.
  destruct (recv_bits _ _ _ _ _ _ _ _) as [d t']. cbn [fst] in Hd.
  rewrite full_test by done. destruct (fifo_isfull (as_fifo s)) eqn:Hf; cbn [negb fst].
  - tauto.
  - set (d' := if _inverse_logic s then u8 (Z.lnot d) else d).
    assert (Hd' : is_byte d') by (unfold d'; destruct (_inverse_logic s); [apply u8_range|done]).
    fold (store d' s). rewrite store_fifo by done. split; [by apply fifo_push_wf|]. left. exists d'.
    split; [|done]. apply fifo_push_contents; [done|].
    rewrite fifo_isfull_spec in Hf by done. apply Z.eqb_neq in Hf.
    pose proof (fill_range _ Hw). rewrite length_contents in * by done. lia.
Qed.

(** C21: A text of up to 255 characters printed on one port, at a rate of the
    table whose bits are long enough for the code, and heard on another with
    nobody reading meanwhile: the receive buffer ends up with what was in it
    and every character of the text behind it, in order, as far as its 31
    places go; the overflow flag is raised if and only if something did not
    fit. *)
Theorem softser_text M r otx orx lat level str more tx rx :
  In r delayTable -> in_step M r = true ->
  within M otx -> (forall k, within M (orx k)) -> (forall k, 0 <= lat k <= M) ->
  bytes str -> Forall (fun c => c <> 0) str -> (length str < 256)%nat ->
  _tx_delay tx = tx_delay r -> _inverse_logic tx = false -> listens r rx ->
  exists evs,
    hw_softser_print (str ++ 0 :: more) tx = Some (Z.of_nat (length str), evs) /\
    let rx' := hear (line otx 0 evs 0 level) orx (starts otx (frames false (tx_delay r) str)) lat
                 (length str) 0 0 rx in
    listens r rx' /\ contents (as_fifo rx') = take 31 (contents (as_fifo rx) ++ str) /\
    _buffer_overflow rx'
      = _buffer_overflow rx || (31 <? Z.of_nat (length (contents (as_fifo rx)) + length str)).
Proof.
  intros Hr Hstep Htx Hrx Hlat Hb Hz Hn Hd Hi Hs.
  pose proof (table_ok r Hr) as Hrow. unfold row_ok in Hrow.
  exists (pulses (frames false (tx_delay r) str)). split.
  - unfold hw_softser_print.
    pose proof (print_frames str more tx 0 256 []) as Hp. rewrite Hd in Hp.
    apply Hp; done || lia.
  - exact (hear_frames M r otx orx lat level str [] 0 rx Hr Hstep Htx Hrx Hlat Hb Hs
      ltac:(unfold starts; rewrite edge_0; lia)).
Qed.

(** At 9600 baud, with forty cycles of other instructions everywhere. *)
Definition port9600 (buf : list Z) : SoftSerial := mkSoft 114 236 236 233 false false buf 0 0 true true.

(** Forty characters, of which the buffer takes 31. *)
Lemma softser_text_witness :
  let text := map (fun i => 48 + i) (seqZ 0 40) in
  exists evs,
    hw_softser_print (text ++ 0 :: []) (port9600 (zeros 32)) = Some (40, evs) /\
    let rx' := hear (line (fun _ => 40) 0 evs 0 true) (fun _ _ => 40)
                 (starts (fun _ => 40) (frames false 233 text)) (fun _ => 40) 40 0 0 (port9600 (zeros 32)) in
    listens (mkRow 9600 114 236 236 233) rx' /\
    contents (as_fifo rx') = map (fun i => 48 + i) (seqZ 0 31) /\ _buffer_overflow rx' = true.
Proof.
  apply (softser_text 61 (mkRow 9600 114 236 236 233) (fun _ => 40) (fun _ _ => 40) (fun _ => 40) true
    (map (fun i => 48 + i) (seqZ 0 40)) [] (port9600 (zeros 32)) (port9600 (zeros 32))).
  - cbn. tauto.
  - reflexivity.
  - intros i. lia.
  - intros k i. lia.
  - intros k. lia.
  - decide_closed.
  - decide_closed.
  - apply Nat.ltb_lt. reflexivity.
  - reflexivity.
  - reflexivity.
  - split_and!; [reflexivity|reflexivity|reflexivity|]. unfold fifo_wf. cbn. split_and!; (reflexivity || lia).
Defined.
