(* ===== verification/Radio.v ===== *)
(** * Radio control: [TinyAPRS/radio.c]

    The set-up of the radio module at start: four AT commands over the software
    serial port.  [radio_tunes] is all it does, and that the frequency in the command
    is the one asked for. *)

From Stdlib Require Import ZArith Lia Bool List.
From Stdlib Require Import String.
From stdpp Require Import prelude.
From S2P Require Import Prelude.
From S2P Require Import Formatwr.
From S2P Require Import Libc.
From S2P Require Import SoftSer.

Open Scope Z_scope.

(** ** The code *)

Definition CFG_RADIO_PORT_BAUDRATE : Z := 9600.

(** What [radio_init] does: it drives the pin, or waits some milliseconds. *)
Inductive RadioStep := Drive (evs : list Event) | Delay (ms : Z).

(** [sprintf] into an array; [None] when the text does not fit. *)
Definition sprintf (buf text : list Z) : option (list Z) :=
  if (length text <? length buf)%nat then Some (text ++ 0 :: drop (S (length text)) buf) else None.

(** [%d.%04d]. *)
Definition frequency_field (freqH freqL : Z) : list Z := fmt_0d 0 freqH ++ 46 :: fmt_0d 4 freqL.

Definition cmd_setgroup (freqH freqL : Z) : list Z :=
  crlf ++ chars "AT+DMOSETGROUP=1," ++ frequency_field freqH freqL ++ 44 :: frequency_field freqH freqL
  ++ chars ",0,0,0,0" ++ crlf.
Definition cmd_autopowcontr : list Z := chars "AT+DMOAUTOPOWCONTR=1" ++ crlf.
Definition cmd_setmic : list Z := chars "AT+DMOSETMIC=3,0,0" ++ crlf.
Definition cmd_setvolume : list Z := chars "AT+DMOSETVOLUME=5" ++ crlf.

(** [sprintf_P], [hw_softser_print], [timer_delay]. *)
Definition radio_command (port : SoftSerial) (buf text : list Z) : option (list Z * list RadioStep) :=
  match sprintf buf text with
  | None => None
  | Some buf =>
      match hw_softser_print buf port with
      | None => None
      | Some (_, evs) => Some (buf, [Drive evs; Delay 300])
      end
  end.

Fixpoint radio_commands (port : SoftSerial) (buf : list Z) (texts : list (list Z)) : option (list RadioStep) :=
  match texts with
  | [] => Some []
  | text :: texts =>
      match radio_command port buf text with
      | None => None
      | Some (buf, steps) => option_map (app steps) (radio_commands port buf texts)
      end
  end.

(** [buf] is the array on the stack, with whatever it holds. *)
Definition radio_init (freq : Z) (softSer : SoftSerial) (buf : list Z)
  : option (SoftSerial * list RadioStep) :=
  let '(port, idle) := hw_softser_init softSer in
  let '(port, evs) := hw_softser_start CFG_RADIO_PORT_BAUDRATE port in
  let freqH := u16 (freq / 10000) in
  let freqL := u16 (freq - u16 (freqH * 10000)) in
  option_map (fun steps => (port, Drive (idle ++ evs) :: steps))
    (radio_commands port buf [cmd_setgroup freqH freqL; cmd_autopowcontr; cmd_setmic; cmd_setvolume]).

(** ** The commands *)

(** A text a C string can hold. *)
Definition text_ok (l : list Z) : Prop := Forall (fun c => 0 < c < 256) l.

Lemma text_ok_digits l : Forall is_digit l -> text_ok l.
Proof. intros Hl. eapply Forall_impl; [exact Hl|]. unfold is_digit. intros c Hc. lia. Qed.

Lemma text_ok_chars l : forallb (fun c => (0 <? c) && (c <? 256)) l = true -> text_ok l.
Proof.
  intros H. apply List.Forall_forall. intros c Hc. rewrite forallb_forall in H. specialize (H c Hc).
  apply andb_prop in H as [H1 H2]. lia.
Qed.

(** A command that fits the array is sent in full, followed by a pause. *)
Lemma radio_command_sends port buf text :
  (length text < length buf)%nat -> (length text < 256)%nat -> text_ok text ->
  _tx_delay port <> 0 -> _inverse_logic port = false ->
  exists buf', length buf' = length buf /\
    radio_command port buf text
    = Some (buf', [Drive (pulses (frames false (_tx_delay port) text)); Delay 300]).
Proof.
  intros Hl Hlen Ht Hd Hi. unfold radio_command, sprintf. pose proof Hl as Hl'.
  apply Nat.ltb_lt in Hl' as ->. eexists. split.
  2:{ unfold hw_softser_print.
      assert (Hb : bytes text) by (eapply Forall_impl; [exact Ht|]; unfold is_byte; cbn; lia).
      assert (Hz : Forall (fun c => c <> 0) text) by (eapply Forall_impl; [exact Ht|]; cbn; lia).
      pose proof (print_frames text (drop (S (length text)) buf) port 0 256 [] Hb Hz Hd Hi) as Hp.
      change (Z.of_nat 0) with 0 in Hp. cbn [app Nat.add] in Hp. rewrite Hp by (done || lia). reflexivity. }
  rewrite length_app. cbn [length]. rewrite length_drop. lia.
Qed.

(** What is done for a list of commands. *)
Definition commands_steps (delay : Z) (texts : list (list Z)) : list RadioStep :=
  concat (map (fun text => [Drive (pulses (frames false delay text)); Delay 300]) texts).

Lemma radio_commands_send port texts : forall buf,
  Forall (fun text => (length text < length buf)%nat /\ (length text < 256)%nat /\ text_ok text) texts ->
  _tx_delay port <> 0 -> _inverse_logic port = false ->
  radio_commands port buf texts = Some (commands_steps (_tx_delay port) texts).
Proof.
  induction texts as [|text texts IH]; intros buf Hall Hd Hi; [done|].
  apply Forall_cons in Hall as [(H1 & H2 & H3) Hall]. cbn [radio_commands].
  destruct (radio_command_sends port buf text H1 H2 H3 Hd Hi) as (buf' & Hl & ->).
  rewrite IH by (rewrite ?Hl; done). reflexivity.
Qed.

Lemma length_fmt_0d w n : w <= 5 -> (length (fmt_0d w n) <= 6)%nat.
Proof.
  intros Hw. unfold fmt_0d. pose proof (length_dec_digits 5 (Z.abs (i16 n))).
  rewrite !length_app, length_replicate. destruct (i16 n <? 0); cbn [length]; lia.
Qed.

Lemma fmt_0d_text w n : text_ok (fmt_0d w n).
Proof.
  unfold fmt_0d, text_ok. apply Forall_app. split; [destruct (_ <? 0); repeat constructor; lia|].
  apply Forall_app. split; [apply Forall_replicate; lia|apply text_ok_digits, dec_digits_digits].
Qed.

Lemma setgroup_ok freqH freqL :
  (length (cmd_setgroup freqH freqL) < 64)%nat /\ text_ok (cmd_setgroup freqH freqL).
Proof.
  pose proof (length_fmt_0d 0 freqH ltac:(lia)). pose proof (length_fmt_0d 4 freqL ltac:(lia)).
  unfold cmd_setgroup, frequency_field. split.
  - rewrite !length_app. cbn [length]. rewrite !length_app. cbn [length crlf].
    change (length (chars _)) with 17%nat at 1. change (length (chars _)) with 8%nat. lia.
  - unfold text_ok, crlf. rewrite !Forall_app, !Forall_cons, !Forall_app, !Forall_cons.
    pose proof (fmt_0d_text 0 freqH). pose proof (fmt_0d_text 4 freqL).
    split_and!; try lia; try (apply text_ok_chars; reflexivity); try done; constructor.
Qed.

Lemma radio_init_sends freq softSer buf :
  length buf = 64%nat ->
  let freqH := u16 (freq / 10000) in
  let freqL := u16 (freq - u16 (freqH * 10000)) in
  exists port,
    radio_init freq softSer buf
    = Some (port, Drive [Pin true; Wait 233] :: commands_steps 233
        [cmd_setgroup freqH freqL; cmd_autopowcontr; cmd_setmic; cmd_setvolume]) /\
    runs_at (mkRow 9600 114 236 236 233) port /\ is_active port = true /\ rx_interrupt port = true.
Proof.
  intros Hbuf freqH freqL.
  set (port := mkSoft 114 236 236 233 false false (_receive_buffer softSer) (_receive_buffer_tail softSer)
    (_receive_buffer_head softSer) true true).
  exists port. split; [|done].
  assert (Hstart : hw_softser_start CFG_RADIO_PORT_BAUDRATE (fst (hw_softser_init softSer)) = (port, [Wait 233]))
    by reflexivity.
  unfold radio_init. unfold hw_softser_init in *. cbn [fst] in Hstart. rewrite Hstart. fold freqH freqL. pose proof (setgroup_ok freqH freqL) as [Hl Ht].
  rewrite radio_commands_send; [done| |done..]. rewrite Hbuf.
  apply Forall_cons. split; [split_and!; [done|lia|done]|].
  repeat (apply Forall_cons; split); [..|constructor];
    (split_and!; [cbn; lia..|apply text_ok_chars; reflexivity]).
Qed.

Lemma radio_frequency freq :
  0 <= freq < 327680000 ->
  let freqH := u16 (freq / 10000) in
  let freqL := u16 (freq - u16 (freqH * 10000)) in
  exists whole decimals,
    frequency_field freqH freqL = whole ++ 46 :: decimals /\
    Forall is_digit whole /\ Forall is_digit decimals /\ length decimals = 4%nat /\
    value (whole ++ decimals) = freq.
Proof.
  intros Hf freqH freqL. pose proof (Z.div_mod freq 10000 ltac:(lia)) as Hdm.
  pose proof (Z.mod_pos_bound freq 10000 ltac:(lia)) as Hm.
  assert (HH : freqH = freq / 10000)
    by (apply u16_small; split; [apply Z.div_pos; lia|apply Z.div_lt_upper_bound; lia]).
  assert (HH' : 0 <= freqH < 32768)
    by (rewrite HH; split; [apply Z.div_pos; lia|apply Z.div_lt_upper_bound; lia]).
  assert (HL : freqL = freq mod 10000).
  { unfold freqL, u16. rewrite Zminus_mod_idemp_r, HH. rewrite Z.mod_small by lia. lia. }
  exists (fmt_0d 0 freqH), (fmt_0d 4 freqL).
  assert (Hlen : length (fmt_0d 4 freqL) = 4%nat) by (apply (length_fmt_0d_exact 3); cbn; lia).
  split_and!; [done|apply fmt_0d_digits; lia..|done|].
  rewrite value_app, Hlen, !fmt_0d_value by lia. change (10 ^ Z.of_nat 4) with 10000. lia.
Qed.

(** [radio_init] starts the port at 9600 baud and sends its four commands, each in
    full and followed by its pause; the longest, at any frequency, fits the 64 bytes on
    the stack.  The frequency in it, twice and up to 32 GHz, is the one asked for: whole
    megahertz, a point and four decimals, of digits that together are its 100-hertz
    units. *)
Theorem radio_tunes freq softSer buf :
  length buf = 64%nat -> 0 <= freq < 327680000 ->
  exists port whole decimals,
    let field := whole ++ 46 :: decimals in
    radio_init freq softSer buf
    = Some (port, Drive [Pin true; Wait 233] :: commands_steps 233
        [crlf ++ chars "AT+DMOSETGROUP=1," ++ field ++ 44 :: field ++ chars ",0,0,0,0" ++ crlf;
         chars "AT+DMOAUTOPOWCONTR=1" ++ crlf; chars "AT+DMOSETMIC=3,0,0" ++ crlf;
         chars "AT+DMOSETVOLUME=5" ++ crlf]) /\
    Forall is_digit whole /\ Forall is_digit decimals /\ length decimals = 4%nat /\
    value (whole ++ decimals) = freq /\
    runs_at (mkRow 9600 114 236 236 233) port /\ is_active port = true /\ rx_interrupt port = true.
Proof.
  intros Hbuf Hf. destruct (radio_init_sends freq softSer buf Hbuf) as (port & Hsend & Hport).
  destruct (radio_frequency freq Hf) as (whole & decimals & Hfield & Hw & Hd & Hl & Hv).
  exists port, whole, decimals. cbv zeta. split; [|tauto]. rewrite Hsend. unfold cmd_setgroup. by rewrite Hfield.
Qed.

Lemma radio_tunes_witness :
  exists port whole decimals,
    let field := whole ++ 46 :: decimals in
    radio_init 4310400 (port9600 (zeros 32)) (zeros 64)
    = Some (port, Drive [Pin true; Wait 233] :: commands_steps 233
        [crlf ++ chars "AT+DMOSETGROUP=1," ++ field ++ 44 :: field ++ chars ",0,0,0,0" ++ crlf;
         chars "AT+DMOAUTOPOWCONTR=1" ++ crlf; chars "AT+DMOSETMIC=3,0,0" ++ crlf;
         chars "AT+DMOSETVOLUME=5" ++ crlf]) /\
    Forall is_digit whole /\ Forall is_digit decimals /\ length decimals = 4%nat /\
    value (whole ++ decimals) = 4310400 /\
    runs_at (mkRow 9600 114 236 236 233) port /\ is_active port = true /\ rx_interrupt port = true.
Proof. apply (radio_tunes 4310400 (port9600 (zeros 32)) (zeros 64)); [reflexivity|lia]. Defined.

Example group_text :
  cmd_setgroup 431 400 = crlf ++ chars "AT+DMOSETGROUP=1,431.0400,431.0400,0,0,0,0" ++ crlf.
Proof. reflexivity. Qed.
